(* ===== verification/_CoqProject ===== *)
-Q . S2P
Prelude.v
Hashing.v
Base64.v
PyVal.v
Sorting.v
Json.v
JsonFacts.v
Crypto.v
Auditor.v
AuditClient.v
Merkle.v
AuditFacts.v
Wire.v
Ratchet.v
RatchetFacts.v
RatchetProps.v
Pqxdh.v
Conversation.v
PqxdhFacts.v
Bundle.v
HandshakeProps.v
Utils.v
Session.v
SessionFacts.v
CacheStore.v
CacheFacts.v
CacheProps.v
Transcript.v
TranscriptFacts.v
TranscriptProps.v
GroupProps.v
Identity.v
IdentityProps.v
DrStore.v
DrFacts.v
DrProps.v
IdentityAudit.v
IdentityAuditProps.v
MlsBridge.v
Mls.v
Messages.v
MessageFacts.v
MessageProps.v
MlsProps.v
GroupMessageProps.v
Cleanup.v
CleanupProps.v
Backup.v
BackupFacts.v
BackupProps.v
BackupTrip.v
WebSocket.v
WebSocketProps.v
ChatPage.v
ChatPageFacts.v
ChatPageProps.v
ChatView.v
Files.v
FilesProps.v
Rows.v
Menus.v
Forms.v
Crop.v
App.v
AppIdentity.v
AppMembers.v
AppMessages.v
AppGroups.v
AppKeys.v
AppReview.v
AppBackup.v
AppInbox.v
AppFacts.v
AppEcho.v
AppProps.v
AppGroupProps.v
AppTrip.v
AppRecovery.v
AppRequests.v
ReviewProps.v
