(* ===== verification/Prelude.v ===== *)
(** * SecChat client: a verification library

    SecChat is a messenger with end-to-end encryption: a Python client (Qt
    interface, crypto engine), an auditor service (Python) that serves a
    transparency log of identity keys, and a relay server (C, not modelled). The
    library models the client (crypto engine, network thread, the state of its
    interface) and the auditor as executable
    functions and proves what they promise.

    ** The parts and where they are modelled

    Shared ground (no repository code of its own):
    - [Prelude]: byte strings, errors as values ([res], notations [let!] and
      [assert!]), the state monad with exceptions [stm] (notation [do!]: an
      exception leaves the mutations made before it), record updates
      [r <| field := v |>], the tactics and the hint database [secchat];
    - [Hashing] (SHA-256 and hexadecimal), [Base64], [PyVal] (Python values,
      dictionaries in insertion order, [int], [str], [repr], truth), [Sorting],
      [Json] and [JsonFacts] (printing and parsing of JSON and of UTF-8, with the
      round trip [json_loads_dumps] every stored format relies on): the part of
      the language and of its standard library the code uses;
    - [Crypto]: the class [Prims] of the primitives of the [cryptography] and
      [oqs] packages with the laws [PrimLaws] and [AeadStrict] the theorems use,
      and the instance [reference_prims] that satisfies them, used by the
      witnesses.

    Identity transparency (src/auditor_service.py, src/client/crypto_engine/audit.py):
    - [Auditor] is the service: [tree_layers], [inclusion_proof], [checkpoint] and
      the HTTP handler [do_GET] over the rows of the log;
    - [AuditClient] is the client: [verify_checkpoint], [verify_inclusion],
      [check_consistency], [verify_identity_from_auditor] over a parameter [fetch]
      for the transport;
    - [Merkle] relates the two sides of a proof, [AuditFacts] composes client and
      service.

    The protocol (src/client/crypto_engine/secure_protocol.py):
    - [Wire]: encodings, KEM selection, prekey signatures, bundles, safety numbers;
    - [Ratchet]: the class [DoubleRatchet] as a record, each method a function on
      it; [RatchetFacts] and [RatchetProps] prove delivery in any order, the
      binding of headers, the bound on skipped keys, persistence;
    - [Pqxdh]: the two sides of the handshake; [PqxdhFacts], [Bundle] and
      [HandshakeProps] prove that the sides agree, and [Conversation] the relation
      between the two ratchet states that every message keeps.

    The session (src/client/utils.py, src/client/crypto_engine/session.py):
    - [Utils]: sealing under the master key, identity keys;
    - [Session]: the record of [CryptoSession]'s fields; the class [Os] stands for
      the clock, the random generator, the outcome of file operations and the
      OpenMLS process; [SessionFacts] has the lemmas on sealed files, and the
      frame reasoning ([within]: an operation changes only given files and
      fields) that clients of the session use;
    - [CacheStore] with [CacheFacts], [CacheProps]: the plaintext cache, its
      expiry and its policy;
    - [Transcript] with [TranscriptFacts], [TranscriptProps], [GroupProps]: the
      digests of received messages, their hash chain, history comparison, signed
      checkpoints, group member lists;
    - [Identity] with [IdentityProps]: the identity key file, the prekey store and
      its bundles, the sealed record on the server, rotation;
    - [DrStore] with [DrFacts], [DrProps]: the ratchet sessions of a direct
      conversation as references into a store of objects ([dr_objects]), because
      the code shares an object between two maps and tests identity with [is];
      their files, and the choice of one session by both sides;
    - [IdentityAudit] with [IdentityAuditProps]: the verified mark, the audit state
      of a peer's identity, the pinned auditor checkpoint;
    - [MlsBridge] (client/crypto_engine/openmls_bridge.py) and [Mls] with
      [MlsProps]: the line protocol with the group process, and the state of
      groups kept through it;
    - [Messages] with [MessageFacts], [MessageProps], [GroupMessageProps]: padding,
      sending, live messages, histories. [MessageProps] and [GroupMessageProps]
      compose everything below: a text sent by one session is shown by the other;
    - [Cleanup] with [CleanupProps]: forgetting an account or a conversation, and
      sealing every local file again when the password changes;
    - [Backup] with [BackupFacts], [BackupProps], [BackupTrip]: backups sealed under
      a passphrase, their revocation, the merging of cached messages, and the trip
      of the state files from one device to another ([backup_restores]).

    The interface (src/client/network.py, src/client/pages/chat_page.py, src/client/app.py):
    - [WebSocket] with [WebSocketProps]: the framing, and the threads of the
      connection object as a step relation over the state they share;
    - [ChatPage] with [ChatPageFacts], [ChatPageProps]: the timeline of a
      conversation, merged from live messages, histories, edits, system lines and
      bubbles that wait for the server; read marks and sidebar preferences.
    - [ChatView]: the rest of the page around the timeline
      ([tl]): navigation, the inbox records, composing, forwarding, typing,
      badges and warnings, [reset];
    - [Files] with [FilesProps]: files as the text of messages, with the round trip
      [file_read_back] and the names it does not hold for;
    - [Rows], [Menus]: what the page shows of its state (the labels,
      warnings and advice of the header, the rows of the conversation and of the
      sidebar) and what its menus and dialogs offer and do;
    - [Forms] (client/connection_defaults.py, client/pages/login_page.py,
      client/pages/register_page.py): the defaults of the connection, login and
      registration; [Crop] (client/dialogs.py): the circle that cuts an avatar out of
      an image, which stays inside it ([circle_stays_inside]);
    - [App]: the main window as the record [app] (the session [crypto], the page
      [chat], the connection, the queues), losing and opening connections, logout;
      the class [Env] is what the outside answers. [AppIdentity] audits identities,
      [AppMembers] keeps member lists and system lines, [AppMessages] sends and
      receives messages and histories, [AppGroups] carries group operations
      through the server, [AppKeys] publishes keys and changes passwords,
      [AppInbox] completes the inbox and holds the table of handlers [_net_msg].
      [AppReview] has the verification dialog and the profiles, [AppBackup] the
      dialogs of backups and what the menus ask of the application.
      [AppFacts] and [AppEcho] have the frame lemmas; [AppProps] and
      [AppGroupProps] state what becomes of echoes, waiting messages, a password
      change, a logout and the key packages of new members; [AppTrip] composes
      two applications: a text sent by one is shown by both
      ([text_shown_on_both_sides]); [AppRecovery] follows a lost connection through
      failed attempts to the session that is active again ([connection_recovers]);
      [AppRequests] runs any sequence of inputs through the application: every
      request it writes has a type of the protocol, and no text leaves it in clear;
      [ReviewProps] shows a changed key on the page ([changed_key_shown]) and that
      merging a backup of another safety key publishes nothing and leaves the
      memory of the session and the files of its keys alone ([merge_leaves_keys]).
      [_handle_message] and [_flush_pending] call each other, on fuel; a call
      without fuel fails as a call beyond the interpreter's recursion limit does,
      and the theorems give the fuel that is enough.

    ** Randomness, time and fuel

    A draw of random bytes and a reading of the clock are arguments of the pure
    functions, and the n-th value of [Os] in the methods of the session. The JSON
    parser runs on fuel twice the length of its input plus two, which
    [json_read] shows to be enough for every printed value; decimal printing runs
    on fuel of the number's bit length ([dec_fuel_numeral]); loops over lists are
    structural.

    ** Modelling conventions

    A Python [str] is its UTF-8 encoding; [None] and the empty byte string are
    one value where the code only tests for truth. An exception carries its class
    and, where the code shows it, its message; log output is dropped.

    ** Not modelled

    Of src/client/app.py and src/client/pages/chat_page.py: the layout of widgets,
    popovers and scrolling, colours other than the border of the advice, avatars in
    memory, saving a received file, the logging of the group process and the test
    probe. Of src/client/dialogs.py: the layout of the dialogs and the pixels of a
    cut avatar (Qt scales and copies them). Start-up, style sheets and the scrolling
    components; the database queries and sockets of the auditor; server_gui.py, the
    scripts that draw the report; the C server and the Rust bridge: input and output
    around the modelled parts, or other languages. *)

From stdpp Require Export base tactics option list strings gmap sets.
From Stdlib Require Export ZArith Lia.
From Stdlib Require Export Ascii.
From Stdlib Require String.

#[export] Set Default Goal Selector "!".

(** ** Byte strings

    A Python [bytes] value and the UTF-8 encoding of a Python [str] are both
    a Rocq [string], a sequence of 8-bit characters. *)

Abbreviation bytes := string.

#[global] Arguments String.append !_ _ / : simpl nomatch.

Open Scope Z_scope.

(** Length of a byte string as a [Z]: Python's [len] on [bytes]. *)
Definition blen (s : bytes) : Z := Z.of_nat (String.length s).

(** [s[:n]] and [s[n:]] for a non-negative [n]. *)
Fixpoint stake (n : nat) (s : string) : string :=
  match n, s with
  | O, _ => EmptyString
  | S n', String c s' => String c (stake n' s')
  | S _, EmptyString => EmptyString
  end.

Fixpoint sdrop (n : nat) (s : string) : string :=
  match n, s with
  | O, _ => s
  | S n', String _ s' => sdrop n' s'
  | S _, EmptyString => EmptyString
  end.

(** The code of a character, [0 <= code c < 256], and its inverse. *)
Definition code (c : ascii) : Z := Z.of_N (N_of_ascii c).
Definition chr8 (z : Z) : ascii := ascii_of_N (Z.to_N z).

(** [s.startswith(p)]. *)
Fixpoint starts_with (p s : string) : bool :=
  match p, s with
  | EmptyString, _ => true
  | String c p', String d s' => Ascii.eqb c d && starts_with p' s'
  | String _ _, EmptyString => false
  end.

(** [p in s]: [p] occurs somewhere in [s]. *)
Fixpoint contains (p s : string) : bool :=
  starts_with p s ||
  match s with
  | EmptyString => false
  | String _ s' => contains p s'
  end.

Fixpoint string_all (f : ascii -> bool) (s : string) : bool :=
  match s with
  | EmptyString => true
  | String c s' => f c && string_all f s'
  end.

Fixpoint string_any (f : ascii -> bool) (s : string) : bool :=
  match s with
  | EmptyString => false
  | String c s' => f c || string_any f s'
  end.

(** [sep.join(l)]. *)
Fixpoint join (sep : string) (l : list string) : string :=
  match l with
  | [] => ""
  | [x] => x
  | x :: l' => x +:+ sep +:+ join sep l'
  end%string.

(** [c * k] for a character. *)
Fixpoint fill (c : ascii) (k : nat) : string :=
  match k with O => EmptyString | S k' => String c (fill c k') end.

Fixpoint srev_append (s acc : string) : string :=
  match s with
  | EmptyString => acc
  | String c s' => srev_append s' (String c acc)
  end.

Definition srev (s : string) : string := srev_append s EmptyString.

(** [s.rstrip(c)], [s.lstrip(c)] for a set of characters given as a test. *)
Fixpoint lstrip_if (f : ascii -> bool) (s : string) : string :=
  match s with
  | EmptyString => EmptyString
  | String c s' => if f c then lstrip_if f s' else s
  end.

Definition rstrip_if (f : ascii -> bool) (s : string) : string :=
  srev (lstrip_if f (srev s)).

Definition nonempty (s : string) : bool :=
  match s with EmptyString => false | _ => true end.

(** ** Byte-string lemmas *)

Lemma sapp_assoc (a b c : string) : ((a +:+ b) +:+ c = a +:+ (b +:+ c))%string.
Proof. induction a as [|x a IH]; simpl; [done|by rewrite IH]. Qed.

Lemma sapp_nil_r (a : string) : (a +:+ "" = a)%string.
Proof. induction a as [|x a IH]; simpl; [done|by rewrite IH]. Qed.

Lemma sapp_length (a b : string) :
  String.length (a +:+ b) = (String.length a + String.length b)%nat.
Proof. induction a as [|x a IH]; simpl; [done|by rewrite IH]. Qed.

Lemma fill_length c k : String.length (fill c k) = k.
Proof. induction k as [|k IH]; [done|]. cbn. by rewrite IH. Qed.

Lemma blen_app a b : blen (a +:+ b) = blen a + blen b.
Proof. unfold blen. rewrite sapp_length. lia. Qed.

Lemma blen_nonneg s : 0 <= blen s.
Proof. unfold blen. lia. Qed.

Lemma stake_app a b : stake (String.length a) (a +:+ b) = a.
Proof. induction a as [|x a IH]; simpl; [by destruct b|by rewrite IH]. Qed.

Lemma sdrop_app a b : sdrop (String.length a) (a +:+ b) = b.
Proof. induction a as [|x a IH]; simpl; [by destruct b|done]. Qed.

Lemma stake_app_len n a b : String.length a = n -> stake n (a +:+ b) = a.
Proof. intros <-. apply stake_app. Qed.

Lemma sdrop_app_len n a b : String.length a = n -> sdrop n (a +:+ b) = b.
Proof. intros <-. apply sdrop_app. Qed.

Lemma stake_sdrop n s : (stake n s +:+ sdrop n s = s)%string.
Proof. revert s. induction n as [|n IH]; intros [|c s]; simpl; try done. by rewrite IH. Qed.

Lemma stake_length n s : (n <= String.length s)%nat -> String.length (stake n s) = n.
Proof.
  revert s. induction n as [|n IH]; intros [|c s]; simpl; intros H; try lia.
  rewrite IH; lia.
Qed.

Lemma sdrop_length n s : String.length (sdrop n s) = (String.length s - n)%nat.
Proof. revert s. induction n as [|n IH]; intros [|c s]; simpl; try lia. apply IH. Qed.

Lemma starts_with_app p s : starts_with p (p +:+ s) = true.
Proof. induction p as [|c p IH]; simpl; [done|]. by rewrite Ascii.eqb_refl, IH. Qed.

Lemma starts_with_inv p s :
  starts_with p s = true -> s = (p +:+ sdrop (String.length p) s)%string.
Proof.
  revert s. induction p as [|c p IH]; intros [|d s]; simpl; try done.
  intros [Hc Hp]%andb_prop. apply Ascii.eqb_eq in Hc as ->. f_equal. by apply IH.
Qed.

Lemma sapp_inj_l a b c : (a +:+ b = a +:+ c -> b = c)%string.
Proof. induction a as [|x a IH]; simpl; [done|]. intros [= H]. by apply IH. Qed.

Lemma sapp_eq_len a b c d :
  String.length a = String.length c -> (a +:+ b = c +:+ d)%string -> a = c /\ b = d.
Proof.
  revert c. induction a as [|x a IH]; intros [|y c]; simpl; try done.
  intros [= Hl] [= -> H]. destruct (IH _ Hl H) as [-> ->]. done.
Qed.

Lemma sapp_inj_r a b c : (a +:+ c = b +:+ c -> a = b)%string.
Proof.
  intros H. apply (sapp_eq_len a c b c); [|exact H].
  pose proof (f_equal String.length H) as Hl. rewrite !sapp_length in Hl. lia.
Qed.

Lemma string_all_app f a b : string_all f (a +:+ b) = string_all f a && string_all f b.
Proof. induction a as [|c a IH]; simpl; [done|]. by rewrite IH, andb_assoc. Qed.

Lemma srev_append_spec s acc : srev_append s acc = (srev s +:+ acc)%string.
Proof.
  unfold srev. revert acc. induction s as [|c s IH]; intros acc; simpl; [done|].
  rewrite (IH (String c acc)), (IH (String c "")), sapp_assoc. done.
Qed.

Lemma srev_cons c s : srev (String c s) = (srev s +:+ String c "")%string.
Proof. unfold srev at 1. simpl. by rewrite srev_append_spec. Qed.

Lemma srev_app a b : srev (a +:+ b) = (srev b +:+ srev a)%string.
Proof.
  induction a as [|c a IH]; simpl; [by rewrite sapp_nil_r|].
  by rewrite !srev_cons, IH, sapp_assoc.
Qed.

Lemma srev_involutive s : srev (srev s) = s.
Proof. induction s as [|c s IH]; [done|]. by rewrite srev_cons, srev_app, IH. Qed.

Lemma lstrip_if_none f s :
  string_all (fun c => negb (f c)) s = true -> lstrip_if f s = s.
Proof. destruct s as [|c s]; simpl; [done|]. by destruct (f c). Qed.

Lemma lstrip_if_app f p s :
  string_all f p = true -> lstrip_if f (p +:+ s) = lstrip_if f s.
Proof. induction p as [|c p IH]; simpl; [done|]. destruct (f c); [apply IH|done]. Qed.

Lemma string_all_srev f s : string_all f (srev s) = string_all f s.
Proof.
  induction s as [|c s IH]; [done|].
  rewrite srev_cons, string_all_app, IH. simpl. rewrite andb_true_r, andb_comm. done.
Qed.

(** Stripping a run of stripped characters off a string with none of them. *)
Lemma rstrip_if_app f s p :
  string_all (fun c => negb (f c)) s = true -> string_all f p = true ->
  rstrip_if f (s +:+ p) = s.
Proof.
  intros Hs Hp. unfold rstrip_if. rewrite srev_app, lstrip_if_app.
  2: by rewrite string_all_srev.
  rewrite lstrip_if_none. 2: by rewrite string_all_srev.
  apply srev_involutive.
Qed.

Lemma code_range c : 0 <= code c < 256.
Proof. unfold code. pose proof (N_ascii_bounded c). lia. Qed.

Lemma chr8_code c : chr8 (code c) = c.
Proof. unfold chr8, code. rewrite N2Z.id. apply ascii_N_embedding. Qed.

Lemma code_chr8 z : 0 <= z < 256 -> code (chr8 z) = z.
Proof. intros H. unfold chr8, code. rewrite N_ascii_embedding; lia. Qed.

Lemma code_inj c d : code c = code d -> c = d.
Proof. intros H. by rewrite <- (chr8_code c), H, chr8_code. Qed.

(** A separator: text free of it splits in one way. *)
Definition not_char (d c : ascii) : bool := negb (Ascii.eqb d c).

Lemma sapp_sep_inj d a b a' b' :
  string_all (not_char d) a = true -> string_all (not_char d) a' = true ->
  a +:+ String d b = a' +:+ String d b' -> a = a' /\ b = b'.
Proof.
  revert a'. induction a as [|c a IH]; intros [|c' a']; simpl; intros Ha Ha' H.
  - by injection H as ->.
  - injection H as <- _. unfold not_char in Ha'. by rewrite Ascii.eqb_refl in Ha'.
  - injection H as -> _. unfold not_char in Ha. by rewrite Ascii.eqb_refl in Ha.
  - injection H as <- H. apply andb_prop in Ha as [_ Ha]. apply andb_prop in Ha' as [_ Ha'].
    by destruct (IH a' Ha Ha' H) as [-> ->].
Qed.

Lemma string_all_impl (f g : ascii -> bool) s :
  (forall c, f c = true -> g c = true) -> string_all f s = true -> string_all g s = true.
Proof.
  intros H. induction s as [|c s IH]; simpl; [done|].
  intros [Hc Hs]%andb_prop. by rewrite H, IH.
Qed.

Lemma Forall_mp {A} (P Q : A -> Prop) l :
  Forall P l -> Forall (fun x => P x -> Q x) l -> Forall Q l.
Proof. induction 1; inversion_clear 1; constructor; auto. Qed.

Create HintDb secchat discriminated.
Create Rewrite HintDb secchat.
#[export] Hint Resolve code_range blen_nonneg starts_with_app : secchat.
#[export] Hint Rewrite sapp_assoc sapp_nil_r stake_app sdrop_app blen_app : secchat.

(** ** Errors

    The exceptions the modelled code raises or lets through.  A constructor
    carries the data a handler looks at; the others only carry a message. *)

Inductive exc :=
| ValueError (msg : string)
| UnicodeError
| JSONDecodeError
| BinasciiError
| TypeError
| KeyError (key : string)
| IndexError
| AttributeError
| RuntimeError (msg : string)
| CryptoStateError (msg : string)
| AuditError (msg code : string)
| InvalidTag
| InvalidSignature
| OSError.

#[export] Instance exc_eq_dec : EqDecision exc.
Proof. solve_decision. Defined.

Inductive res (A : Type) :=
| Ok (a : A)
| Err (e : exc).
Arguments Ok {A} a.
Arguments Err {A} e.

Lemma Ok_inj {A} (a b : A) : Ok a = Ok b -> a = b.
Proof. congruence. Qed.

Definition res_bind {A B} (m : res A) (k : A -> res B) : res B :=
  match m with
  | Ok a => k a
  | Err e => Err e
  end.

Declare Scope py_scope.
Delimit Scope py_scope with py.
Notation "'let!' x ':=' m 'in' k" := (res_bind m (fun x => k))
  (at level 10, x pattern, m at level 100, k at level 200) : py_scope.
Notation "'assert!' b 'else' e 'in' k" := (if b then k else Err e)
  (at level 10, b at level 100, e at level 100, k at level 200) : py_scope.
Open Scope py_scope.

Definition is_ok {A} (m : res A) : bool :=
  match m with Ok _ => true | Err _ => false end.

(** The value of a successful run, with a default. *)
Definition ok_or {A} (d : A) (m : res A) : A :=
  match m with Ok a => a | Err _ => d end.

(** [try: m  except Exception: h]. *)
Definition or_else {A} (m : res A) (h : exc -> res A) : res A :=
  match m with Ok a => Ok a | Err e => h e end.

Definition of_option {A} (o : option A) (e : exc) : res A :=
  match o with Some a => Ok a | None => Err e end.

Lemma res_bind_ok {A B} (m : res A) (k : A -> res B) b :
  res_bind m k = Ok b <-> exists a, m = Ok a /\ k a = Ok b.
Proof.
  destruct m as [a|e]; simpl; split; [eauto| |done|].
  - by intros (? & [= ->] & ?).
  - by intros (? & ? & _).
Qed.

Lemma res_bind_assoc {A B C} (m : res A) (f : A -> res B) (g : B -> res C) :
  res_bind (res_bind m f) g = res_bind m (fun x => res_bind (f x) g).
Proof. by destruct m. Qed.

(** *** State and errors

    A method that mutates its object: an exception leaves the mutations made
    before it, so the state is returned in both cases. *)

Definition stm (S A : Type) := S -> S * res A.

Definition st_ret {S A} (a : A) : stm S A := fun s => (s, Ok a).
Definition st_fail {S A} (e : exc) : stm S A := fun s => (s, Err e).
Definition st_lift {S A} (m : res A) : stm S A := fun s => (s, m).
Definition st_get {S} : stm S S := fun s => (s, Ok s).
Definition st_modify {S} (f : S -> S) : stm S unit := fun s => (f s, Ok tt).
Definition st_bind {S A B} (m : stm S A) (k : A -> stm S B) : stm S B :=
  fun s => match m s with
           | (s', Ok a) => k a s'
           | (s', Err e) => (s', Err e)
           end.
Notation "'do!' x ':=' m 'in' k" := (st_bind m (fun x => k))
  (at level 10, x pattern, m at level 100, k at level 200) : py_scope.

Lemma st_bind_lift {S A B} (m : res A) (k : A -> stm S B) s :
  st_bind (st_lift m) k s = match m with Ok a => k a s | Err e => (s, Err e) end.
Proof. by destruct m. Qed.

Lemma is_ok_inv {A} (m : res A) : is_ok m = true -> exists a, m = Ok a.
Proof. destruct m; [by eexists|done]. Qed.

Lemma run_bind {S A B} (m : stm S A) (k : A -> stm S B) s s' x : m s = (s', Ok x) -> st_bind m k s = k x s'.
Proof. intros H. unfold st_bind. by rewrite H. Qed.

Lemma st_bind_ok {S A B} (m : stm S A) (k : A -> stm S B) s s' b :
  st_bind m k s = (s', Ok b) <-> exists s1 a, m s = (s1, Ok a) /\ k a s1 = (s', Ok b).
Proof.
  unfold st_bind. destruct (m s) as [s1 [a|e]]; split.
  - intros H. by exists s1, a.
  - by intros (? & ? & [= <- <-] & ?).
  - done.
  - by intros (? & ? & ? & _).
Qed.

(** A state predicate kept by a method whether it returns or raises. *)
Definition keeps {S A} (I : S -> Prop) (m : stm S A) : Prop := forall s, I s -> I (fst (m s)).

Lemma keeps_bind {S A B} (I : S -> Prop) (m : stm S A) (k : A -> stm S B) :
  keeps I m -> (forall a, keeps I (k a)) -> keeps I (st_bind m k).
Proof.
  intros Hm Hk s Hs. unfold st_bind. specialize (Hm s Hs).
  destruct (m s) as [s1 [a|e]]; [by apply Hk|done].
Qed.

Lemma keeps_lift {S A} (I : S -> Prop) (m : res A) : keeps I (st_lift m).
Proof. by intros s Hs. Qed.

Lemma keeps_ret {S A} (I : S -> Prop) (a : A) : keeps I (st_ret a).
Proof. by intros s Hs. Qed.

Lemma keeps_modify {S} (I : S -> Prop) f : (forall s, I s -> I (f s)) -> keeps I (st_modify f).
Proof. intros H s Hs. by apply H. Qed.

Lemma keeps_get {S A} (I : S -> Prop) (k : S -> stm S A) :
  (forall s0, I s0 -> keeps I (k s0)) -> keeps I (st_bind st_get k).
Proof. intros H s Hs. by apply H. Qed.

(** Walk through a method, leaving the mutations that touch the invariant. *)
Ltac keeps_tac :=
  repeat match goal with
  | |- keeps _ (st_bind st_get _) => apply keeps_get; intros ? ?
  | |- keeps _ (st_bind _ _) => apply keeps_bind; [|intros ?]
  | |- keeps _ (st_lift _) => apply keeps_lift
  | |- keeps _ (st_ret _) => apply keeps_ret
  | |- keeps _ (st_modify _) => apply keeps_modify; intros ? Hkeep; exact Hkeep
  | |- keeps _ (let (_, _) := ?p in _) => destruct p
  | |- keeps _ (if ?b then _ else _) => destruct b
  end.

(** [try: m  except Exception as e: h e]: the mutations of [m] stay. *)
Definition st_catch {S A} (m : stm S A) (h : exc -> stm S A) : stm S A :=
  fun s => match m s with
           | (s', Ok a) => (s', Ok a)
           | (s', Err e) => h e s'
           end.

(** [if b: m]. *)
Definition st_when {S} (b : bool) (m : stm S unit) : stm S unit := if b then m else st_ret tt.

(** [for x in l: f x], stopping at the first exception. *)
Fixpoint st_for {S A} (l : list A) (f : A -> stm S unit) : stm S unit :=
  match l with
  | [] => st_ret tt
  | x :: l' => st_bind (f x) (fun _ => st_for l' f)
  end.

(** A loop with an accumulator. *)
Fixpoint st_fold {S A B} (f : B -> A -> stm S B) (acc : B) (l : list A) : stm S B :=
  match l with
  | [] => st_ret acc
  | x :: l' => st_bind (f acc x) (fun acc' => st_fold f acc' l')
  end.

Lemma keeps_catch {S A} (I : S -> Prop) (m : stm S A) h :
  keeps I m -> (forall e, keeps I (h e)) -> keeps I (st_catch m h).
Proof.
  intros Hm Hh s Hs. unfold st_catch. specialize (Hm s Hs).
  destruct (m s) as [s1 [a|e]]; [done|by apply Hh].
Qed.

Lemma keeps_fold {S A B} (I : S -> Prop) (f : B -> A -> stm S B) acc l :
  (forall b x, keeps I (f b x)) -> keeps I (st_fold f acc l).
Proof.
  intros Hf. revert acc. induction l as [|x l IH]; intros acc; [by intros s Hs|].
  apply keeps_bind; [done|]. intros b. apply IH.
Qed.

Lemma keeps_for {S A} (I : S -> Prop) (l : list A) (f : A -> stm S unit) :
  (forall x, keeps I (f x)) -> keeps I (st_for l f).
Proof.
  intros Hf. induction l as [|x l IH]; [by intros s Hs|]. by apply keeps_bind.
Qed.

(** Map a fallible function over a list, left to right, stopping at the first error. *)
Fixpoint res_map {A B} (f : A -> res B) (l : list A) : res (list B) :=
  match l with
  | [] => Ok []
  | x :: l' => let! y := f x in let! ys := res_map f l' in Ok (y :: ys)
  end.

(** [inv_ok] takes a successful run apart, one [let!] or [assert!] at a time. *)
Ltac inv_ok1 H :=
  match type of H with
  | res_bind ?m ?k = Ok _ =>
      let a := fresh "a" in let Ha := fresh "Ha" in
      apply res_bind_ok in H; destruct H as (a & Ha & H)
  | (if ?b then _ else Err _) = Ok _ =>
      let E := fresh "E" in destruct b eqn:E; [|discriminate H]
  | (if ?b then Err _ else _) = Ok _ =>
      let E := fresh "E" in destruct b eqn:E; [discriminate H|]
  | Ok _ = Ok _ => injection H as H
  end.
Ltac inv_ok H := repeat inv_ok1 H.

(** [lia] with division and remainder by constants. *)
Ltac dlia := Z.to_euclidean_division_equations; lia.

(** Split every boolean conjunction and reflect the comparisons in the context. *)
Ltac bool_hyps :=
  repeat match goal with
  | H : (_ && _)%bool = true |- _ => apply andb_prop in H as [? ?]
  | H : (_ || _)%bool = false |- _ => apply orb_false_elim in H as [? ?]
  | H : negb _ = true |- _ => apply negb_true_iff in H
  | H : negb _ = false |- _ => apply negb_false_iff in H
  | H : (_ <? _) = true |- _ => apply Z.ltb_lt in H
  | H : (_ <? _) = false |- _ => apply Z.ltb_ge in H
  | H : (_ <=? _) = true |- _ => apply Z.leb_le in H
  | H : (_ <=? _) = false |- _ => apply Z.leb_gt in H
  | H : (_ =? _) = true |- _ => apply Z.eqb_eq in H
  | H : (_ =? _) = false |- _ => apply Z.eqb_neq in H
  | H : String.eqb _ _ = true |- _ => apply String.eqb_eq in H
  | H : String.eqb _ _ = false |- _ => apply String.eqb_neq in H
  end.

(** ** Record updates

    [r <| f := v |>] and [r <| f ::= g |>] for a record with an [Eta] instance
    (the record rebuilt from its projections). *)

Class Eta (R : Type) := eta : R -> R.
Class Update {R T : Type} (proj : R -> T) := update : (T -> T) -> R -> R.
Arguments update {R T} proj {_} _ _ /.

Ltac solve_update :=
  match goal with
  | |- @Update ?R ?T ?proj =>
      exact (fun (g : T -> T) (r : R) => ltac:(
        let e := eval hnf in (eta r) in
        match eval pattern (proj r) in e with
        | ?k _ => let v := eval cbv beta in (k (g (proj r))) in exact v
        end))
  end.
#[export] Hint Extern 1 (Update _) => solve_update : typeclass_instances.

Notation "r <| p ::= f |>" := (update p f r)
  (at level 12, p at next level, left associativity, format "r  <| p  ::=  f |>") : py_scope.
Notation "r <| p := v |>" := (update p (fun _ => v) r)
  (at level 12, p at next level, left associativity, format "r  <| p  :=  v |>") : py_scope.

Lemma nonempty_spec x : x <> "" -> nonempty x = true.
Proof. by destruct x. Qed.

Lemma string_eqb_refl s : String.eqb s s = true.
Proof. apply String.eqb_refl. Qed.
#[export] Hint Rewrite string_eqb_refl : secchat.
