(* ===== verification/Hashing.v ===== *)
(** * SHA-256 and hexadecimal

    [hashlib.sha256(x).digest()], [bytes.hex] and [bytes.fromhex] as executable
    functions on byte strings (FIPS 180-4, 32-bit words as [Z] with their
    wrap-around written out). The client and the auditor build Merkle nodes,
    transcript chains, safety numbers and cache keys from these. *)

From S2P Require Import Prelude.

(** ** 32-bit words *)

Definition w32 (z : Z) : Z := Z.land z (Z.ones 32).
Definition add32 (a b : Z) : Z := w32 (a + b).
Definition not32 (a : Z) : Z := Z.lxor a (Z.ones 32).
Definition rotr32 (a n : Z) : Z :=
  Z.lor (Z.shiftr a n) (w32 (Z.shiftl a (32 - n))).

Definition big_sigma0 x := Z.lxor (Z.lxor (rotr32 x 2) (rotr32 x 13)) (rotr32 x 22).
Definition big_sigma1 x := Z.lxor (Z.lxor (rotr32 x 6) (rotr32 x 11)) (rotr32 x 25).
Definition small_sigma0 x := Z.lxor (Z.lxor (rotr32 x 7) (rotr32 x 18)) (Z.shiftr x 3).
Definition small_sigma1 x := Z.lxor (Z.lxor (rotr32 x 17) (rotr32 x 19)) (Z.shiftr x 10).
Definition ch32 x y z := Z.lxor (Z.land x y) (Z.land (not32 x) z).
Definition maj32 x y z := Z.lxor (Z.lxor (Z.land x y) (Z.land x z)) (Z.land y z).

Definition round_constants : list Z :=
  [1116352408; 1899447441; 3049323471; 3921009573; 961987163; 1508970993;
   2453635748; 2870763221; 3624381080; 310598401; 607225278; 1426881987;
   1925078388; 2162078206; 2614888103; 3248222580; 3835390401; 4022224774;
   264347078; 604807628; 770255983; 1249150122; 1555081692; 1996064986;
   2554220882; 2821834349; 2952996808; 3210313671; 3336571891; 3584528711;
   113926993; 338241895; 666307205; 773529912; 1294757372; 1396182291;
   1695183700; 1986661051; 2177026350; 2456956037; 2730485921; 2820302411;
   3259730800; 3345764771; 3516065817; 3600352804; 4094571909; 275423344;
   430227734; 506948616; 659060556; 883997877; 958139571; 1322822218;
   1537002063; 1747873779; 1955562222; 2024104815; 2227730452; 2361852424;
   2428436474; 2756734187; 3204031479; 3329325298].

Record words8 := W8 { wa : Z; wb : Z; wc : Z; wd : Z; we : Z; wf : Z; wg : Z; wh : Z }.

Definition initial_state : words8 :=
  W8 1779033703 3144134277 1013904242 2773480762
     1359893119 2600822924 528734635 1541459225.

(** ** The message schedule and the compression function *)

(** The schedule is extended with the last sixteen words kept in reverse. *)
Fixpoint extend_schedule (n : nat) (w : list Z) : list Z :=
  match n with
  | O => w
  | S n' =>
      let g i := nth i w 0 in
      extend_schedule n'
        (add32 (add32 (small_sigma1 (g 1%nat)) (g 6%nat))
               (add32 (small_sigma0 (g 14%nat)) (g 15%nat)) :: w)
  end.

Definition sha_round (s : words8) (kw : Z * Z) : words8 :=
  let t1 := add32 (add32 (wh s) (big_sigma1 (we s)))
                  (add32 (ch32 (we s) (wf s) (wg s)) (add32 (fst kw) (snd kw))) in
  let t2 := add32 (big_sigma0 (wa s)) (maj32 (wa s) (wb s) (wc s)) in
  W8 (add32 t1 t2) (wa s) (wb s) (wc s) (add32 (wd s) t1) (we s) (wf s) (wg s).

Definition compress (s : words8) (block : list Z) : words8 :=
  let w := rev (extend_schedule 48 (rev block)) in
  let t := fold_left sha_round (combine round_constants w) s in
  W8 (add32 (wa s) (wa t)) (add32 (wb s) (wb t)) (add32 (wc s) (wc t))
     (add32 (wd s) (wd t)) (add32 (we s) (we t)) (add32 (wf s) (wf t))
     (add32 (wg s) (wg t)) (add32 (wh s) (wh t)).

(** ** Padding *)

Fixpoint codes (s : string) : list Z :=
  match s with
  | EmptyString => []
  | String c s' => code c :: codes s'
  end.

Fixpoint of_codes (l : list Z) : string :=
  match l with
  | [] => EmptyString
  | z :: l' => String (chr8 z) (of_codes l')
  end.

Definition be_bytes (n : nat) (z : Z) : list Z :=
  map (fun i => Z.land (Z.shiftr z (8 * Z.of_nat (n - 1 - i))) 255) (seq 0 n).

Definition sha_pad (l : list Z) : list Z :=
  let n := Z.of_nat (length l) in
  l ++ 128 :: repeat 0 (Z.to_nat ((119 - n mod 64) mod 64)) ++ be_bytes 8 (8 * n).

Fixpoint to_words (l : list Z) : list Z :=
  match l with
  | a :: b :: c :: d :: l' =>
      Z.lor (Z.lor (Z.shiftl a 24) (Z.shiftl b 16)) (Z.lor (Z.shiftl c 8) d) :: to_words l'
  | _ => []
  end.

Fixpoint compress_blocks (fuel : nat) (s : words8) (w : list Z) : words8 :=
  match fuel with
  | O => s
  | S fuel' =>
      match w with
      | [] => s
      | _ => compress_blocks fuel' (compress s (take 16 w)) (drop 16 w)
      end
  end.

Definition sha256 (msg : bytes) : bytes :=
  let w := to_words (sha_pad (codes msg)) in
  let s := compress_blocks (length w) initial_state w in
  of_codes (concat (map (be_bytes 4)
    [wa s; wb s; wc s; wd s; we s; wf s; wg s; wh s])).

(** ** Hexadecimal *)

Definition hex_digit (z : Z) : ascii :=
  if z <? 10 then chr8 (48 + z) else chr8 (87 + z).

(** [raw.hex()]. *)
Fixpoint hex (s : bytes) : string :=
  match s with
  | EmptyString => EmptyString
  | String c s' =>
      String (hex_digit (code c / 16)) (String (hex_digit (code c mod 16)) (hex s'))
  end.

Definition unhex_digit (c : ascii) : option Z :=
  let z := code c in
  if (48 <=? z) && (z <=? 57) then Some (z - 48)
  else if (97 <=? z) && (z <=? 102) then Some (z - 87)
  else if (65 <=? z) && (z <=? 70) then Some (z - 55)
  else None.

Definition is_ascii_space (c : ascii) : bool :=
  let z := code c in ((9 <=? z) && (z <=? 13)) || (z =? 32).

(** [bytes.fromhex(text)]: white space is skipped between the pairs of digits,
    anything else raises [ValueError]. *)
Fixpoint fromhex (s : string) : res bytes :=
  match s with
  | EmptyString => Ok EmptyString
  | String c s' =>
      if is_ascii_space c then fromhex s'
      else
        match s' with
        | EmptyString => Err (ValueError "fromhex")
        | String d s'' =>
            match unhex_digit c, unhex_digit d with
            | Some x, Some y => let! r := fromhex s'' in Ok (String (chr8 (16 * x + y)) r)
            | _, _ => Err (ValueError "fromhex")
            end
        end
  end.

(** [raw.hex().upper()]. *)
Definition ascii_upper (c : ascii) : ascii :=
  let z := code c in if (97 <=? z) && (z <=? 122) then chr8 (z - 32) else c.
Definition ascii_lower (c : ascii) : ascii :=
  let z := code c in if (65 <=? z) && (z <=? 90) then chr8 (z + 32) else c.

Fixpoint smap (f : ascii -> ascii) (s : string) : string :=
  match s with
  | EmptyString => EmptyString
  | String c s' => String (f c) (smap f s')
  end.

Definition sha256_hex (msg : bytes) : string := hex (sha256 msg).

(** ** Test vectors (FIPS 180-4) *)

Example sha256_empty :
  sha256_hex "" = "e3b0c44298fc1c149afbf4c8996fb92427ae41e4649b934ca495991b7852b855".
Proof. vm_compute. reflexivity. Qed.

Example sha256_abc :
  sha256_hex "abc" = "ba7816bf8f01cfea414140de5dae2223b00361a396177a9cb410ff61f20015ad".
Proof. vm_compute. reflexivity. Qed.

Example sha256_two_blocks :
  sha256_hex "abcdbcdecdefdefgefghfghighijhijkijkljklmklmnlmnomnopnopq"
  = "248d6a61d20638b8e5c026930c3e6039a33ce45964ff2167f6ecedd419db06c1".
Proof. vm_compute. reflexivity. Qed.

(** ** Lemmas *)

Lemma of_codes_length l : String.length (of_codes l) = length l.
Proof. induction l as [|z l IH]; simpl; [done|by rewrite IH]. Qed.

Lemma sha256_length msg : String.length (sha256 msg) = 32%nat.
Proof. unfold sha256. rewrite of_codes_length. reflexivity. Qed.

Lemma hex_length s : String.length (hex s) = (2 * String.length s)%nat.
Proof. induction s as [|c s IH]; simpl; [done|]. rewrite IH. lia. Qed.

Lemma sha256_hex_length msg : String.length (sha256_hex msg) = 64%nat.
Proof. unfold sha256_hex. by rewrite hex_length, sha256_length. Qed.

Lemma sha256_hex_blen msg : blen (sha256_hex msg) = 64.
Proof. unfold blen. by rewrite sha256_hex_length. Qed.

(** Every statement about a digit reduces to the sixteen digits. *)
Ltac digit_cases z :=
  let H := fresh in
  assert (H : z = 0 \/ z = 1 \/ z = 2 \/ z = 3 \/ z = 4 \/ z = 5 \/ z = 6 \/ z = 7 \/
              z = 8 \/ z = 9 \/ z = 10 \/ z = 11 \/ z = 12 \/ z = 13 \/ z = 14 \/ z = 15)
    by lia;
  repeat (destruct H as [->|H]); try subst z.

Lemma unhex_hex_digit z : 0 <= z < 16 -> unhex_digit (hex_digit z) = Some z.
Proof. intros Hz. digit_cases z; reflexivity. Qed.

Lemma hex_digit_not_space z : 0 <= z < 16 -> is_ascii_space (hex_digit z) = false.
Proof. intros Hz. digit_cases z; reflexivity. Qed.

Lemma code_split c : 0 <= code c / 16 < 16 /\ 0 <= code c mod 16 < 16.
Proof. pose proof (code_range c). dlia. Qed.

(** [bytes.fromhex] undoes [bytes.hex]. *)
Lemma fromhex_hex s : fromhex (hex s) = Ok s.
Proof.
  induction s as [|c s IH]; [done|]. simpl.
  destruct (code_split c) as [H1 H2].
  rewrite hex_digit_not_space, !unhex_hex_digit, IH by done. simpl.
  do 3 f_equal. rewrite <- (chr8_code c) at 3. f_equal. dlia.
Qed.

Lemma hex_inj a b : hex a = hex b -> a = b.
Proof. intros H. pose proof (fromhex_hex a) as Ha. rewrite H, fromhex_hex in Ha. congruence. Qed.

Lemma sha256_hex_inj a b : sha256_hex a = sha256_hex b -> sha256 a = sha256 b.
Proof. apply hex_inj. Qed.

Lemma hex_ascii s : string_all (fun c => code c <? 128) (hex s) = true.
Proof.
  induction s as [|c s IH]; [done|]. simpl. destruct (code_split c) as [H1 H2].
  assert (Hd : forall z, 0 <= z < 16 -> (code (hex_digit z) <? 128) = true)
    by (intros z Hz; digit_cases z; reflexivity).
  by rewrite !Hd, IH.
Qed.

#[global] Opaque sha256.
#[export] Hint Rewrite sha256_length hex_length sha256_hex_length fromhex_hex : secchat.
