(* ===== verification/Base64.v ===== *)
(** * Base64

    The standard and the URL-safe alphabet, [base64.b64encode],
    [base64.b64decode] with its default [validate=False], and the unpadded
    URL-safe form [b64e]/[b64d] that every SecChat wire format uses
    (client/crypto_engine/secure_protocol.py, repeated verbatim in
    client/crypto_engine/openmls_bridge.py). The decoder is the byte-driven
    state machine of [binascii.a2b_base64]: characters outside the alphabet
    are skipped, a complete padding ends the input. *)

From S2P Require Import Prelude.

(** ** Alphabets *)

Definition b64_std (z : Z) : ascii :=
  if z <? 26 then chr8 (65 + z)
  else if z <? 52 then chr8 (71 + z)
  else if z <? 62 then chr8 (z - 4)
  else if z =? 62 then "+"%char else "/"%char.

Definition b64_url (z : Z) : ascii :=
  if z =? 62 then "-"%char else if z =? 63 then "_"%char else b64_std z.

Definition b64_val (c : ascii) : option Z :=
  let z := code c in
  if (65 <=? z) && (z <=? 90) then Some (z - 65)
  else if (97 <=? z) && (z <=? 122) then Some (z - 71)
  else if (48 <=? z) && (z <=? 57) then Some (z + 4)
  else if z =? 43 then Some 62
  else if z =? 47 then Some 63
  else None.

(** The translation [urlsafe_b64decode] applies first. *)
Definition url_to_std (c : ascii) : ascii :=
  if Ascii.eqb c "-"%char then "+"%char
  else if Ascii.eqb c "_"%char then "/"%char else c.

(** ** Encoding *)

Fixpoint b64_body (e : Z -> ascii) (s : bytes) : string :=
  match s with
  | EmptyString => EmptyString
  | String a s1 =>
      let x := code a in
      match s1 with
      | EmptyString => String (e (x / 4)) (String (e (x mod 4 * 16)) EmptyString)
      | String b s2 =>
          let y := code b in
          match s2 with
          | EmptyString =>
              String (e (x / 4)) (String (e (x mod 4 * 16 + y / 16))
                (String (e (y mod 16 * 4)) EmptyString))
          | String c s3 =>
              let z := code c in
              String (e (x / 4)) (String (e (x mod 4 * 16 + y / 16))
                (String (e (y mod 16 * 4 + z / 64)) (String (e (z mod 64)) (b64_body e s3))))
          end
      end
  end.

Fixpoint b64_padding (s : bytes) : string :=
  match s with
  | String _ (String _ (String _ s3)) => b64_padding s3
  | String _ (String _ EmptyString) => "="
  | String _ EmptyString => "=="
  | EmptyString => ""
  end.

Definition b64encode (s : bytes) : string := b64_body b64_std s +:+ b64_padding s.
Definition urlsafe_b64encode (s : bytes) : string := b64_body b64_url s +:+ b64_padding s.

(** ** Decoding *)

Definition is_pad (c : ascii) : bool := Ascii.eqb c "="%char.
Definition is_ascii (c : ascii) : bool := code c <? 128.

(** [quad] is the position in the current group of four, [left] the bits carried
    over, [pads] the run of padding characters seen. *)
Fixpoint a2b (quad left pads : Z) (s : string) : res bytes :=
  match s with
  | EmptyString => if quad =? 0 then Ok EmptyString else Err BinasciiError
  | String c s' =>
      if is_pad c then
        if 2 <=? quad then
          if 4 <=? quad + (pads + 1) then Ok EmptyString else a2b quad left (pads + 1) s'
        else a2b quad left pads s'
      else
        match b64_val c with
        | None => a2b quad left pads s'
        | Some v =>
            if quad =? 0 then a2b 1 v 0 s'
            else if quad =? 1 then
              let! r := a2b 2 (v mod 16) 0 s' in Ok (String (chr8 (left * 4 + v / 16)) r)
            else if quad =? 2 then
              let! r := a2b 3 (v mod 4) 0 s' in Ok (String (chr8 (left * 16 + v / 4)) r)
            else
              let! r := a2b 0 0 0 s' in Ok (String (chr8 (left * 64 + v)) r)
        end
  end.

(** [base64.b64decode(text)] for a [str]: a non-ASCII character is an error. *)
Definition b64decode (s : string) : res bytes :=
  if string_all is_ascii s then a2b 0 0 0 s else Err (ValueError "non-ascii base64").

Fixpoint translate_url (s : string) : string :=
  match s with
  | EmptyString => EmptyString
  | String c s' => String (url_to_std c) (translate_url s')
  end.

Definition urlsafe_b64decode (s : bytes) : res bytes := a2b 0 0 0 (translate_url s).

Definition rstrip_pad (s : string) : string := rstrip_if is_pad s.

Fixpoint repeat_pad (n : nat) : string :=
  match n with O => EmptyString | S n' => String "="%char (repeat_pad n') end.

(** [b64e]: URL-safe, no padding. *)
Definition b64e (raw : bytes) : string := rstrip_pad (urlsafe_b64encode raw).

(** [b64d]: put the padding back, [.encode("ascii")], decode. *)
Definition b64d (text : string) : res bytes :=
  let padded := text +:+ repeat_pad (Z.to_nat ((- blen text) mod 4)) in
  if string_all is_ascii padded then urlsafe_b64decode padded else Err UnicodeError.

(** ** Round trips *)

(** Induction on a string three characters at a time. *)
Lemma string_ind3 (P : string -> Prop) :
  P "" -> (forall a, P (String a "")) -> (forall a b, P (String a (String b ""))) ->
  (forall a b c s, P s -> P (String a (String b (String c s)))) -> forall s, P s.
Proof.
  intros H0 H1 H2 H3 s.
  enough (P s /\ (forall a, P (String a s)) /\ (forall a b, P (String a (String b s))))
    by tauto.
  induction s as [|c s (Hs & Hs1 & Hs2)]; [by auto|].
  repeat split; auto.
Qed.

(** A test over the 64 digits decides a statement about all of them. *)
Definition check64 (f : Z -> bool) : bool := forallb (fun n => f (Z.of_nat n)) (seq 0 64).

Lemma check64_spec f : check64 f = true -> forall z, 0 <= z < 64 -> f z = true.
Proof.
  unfold check64. rewrite forallb_forall. intros H z Hz.
  specialize (H (Z.to_nat z)). rewrite Z2Nat.id in H by lia. apply H.
  apply in_seq. lia.
Qed.

Definition opt_eqb (o : option Z) (z : Z) : bool :=
  match o with Some v => v =? z | None => false end.

Lemma opt_eqb_spec o z : opt_eqb o z = true -> o = Some z.
Proof. destruct o; simpl; [|done]. intros H. f_equal. lia. Qed.

Lemma b64_val_std z : 0 <= z < 64 -> b64_val (b64_std z) = Some z.
Proof.
  intros Hz. apply opt_eqb_spec.
  exact (check64_spec (fun z => opt_eqb (b64_val (b64_std z)) z) eq_refl z Hz).
Qed.

Lemma b64_url_std z : 0 <= z < 64 -> url_to_std (b64_url z) = b64_std z.
Proof.
  intros Hz. apply Ascii.eqb_eq.
  exact (check64_spec (fun z => Ascii.eqb (url_to_std (b64_url z)) (b64_std z)) eq_refl z Hz).
Qed.

Lemma b64_std_not_pad z : 0 <= z < 64 -> is_pad (b64_std z) = false.
Proof.
  intros Hz. apply negb_true_iff.
  exact (check64_spec (fun z => negb (is_pad (b64_std z))) eq_refl z Hz).
Qed.

Lemma b64_url_plain z :
  0 <= z < 64 -> negb (is_pad (b64_url z)) = true /\ is_ascii (b64_url z) = true.
Proof.
  intros Hz. apply andb_prop.
  exact (check64_spec (fun z => negb (is_pad (b64_url z)) && is_ascii (b64_url z)) eq_refl z Hz).
Qed.

Lemma b64_std_ascii z : 0 <= z < 64 -> is_ascii (b64_std z) = true.
Proof. exact (check64_spec (fun z => is_ascii (b64_std z)) eq_refl z). Qed.

Lemma chr8_eq c z : z = code c -> chr8 z = c.
Proof. intros ->. apply chr8_code. Qed.

Lemma a2b_digit quad left pads z s :
  0 <= z < 64 ->
  a2b quad left pads (String (b64_std z) s) =
    if quad =? 0 then a2b 1 z 0 s
    else if quad =? 1 then
      let! r := a2b 2 (z mod 16) 0 s in Ok (String (chr8 (left * 4 + z / 16)) r)
    else if quad =? 2 then
      let! r := a2b 3 (z mod 4) 0 s in Ok (String (chr8 (left * 16 + z / 4)) r)
    else let! r := a2b 0 0 0 s in Ok (String (chr8 (left * 64 + z)) r).
Proof. intros Hz. simpl. by rewrite b64_std_not_pad, b64_val_std. Qed.

Ltac code_ranges :=
  repeat match goal with
  | c : ascii |- _ =>
      lazymatch goal with
      | _ : 0 <= code c < 256 |- _ => fail
      | _ => pose proof (code_range c)
      end
  end.

(** The character a group of digits decodes to. *)
Ltac char_eq0 := apply chr8_eq; code_ranges; dlia.

Lemma a2b_encode s : a2b 0 0 0 (b64encode s) = Ok s.
Proof.
  unfold b64encode.
  induction s as [|a|a b|a b c s IH] using string_ind3; [done| | |];
    cbn [b64_body b64_padding String.append];
    rewrite ?a2b_digit by (code_ranges; dlia);
    cbn [Z.eqb Pos.eqb].
  - change (a2b 2 ?l 0 "==") with (Ok (A := bytes) ""). simpl. do 2 f_equal.
    apply chr8_eq. code_ranges. dlia.
  - change (a2b 3 ?l 0 "=") with (Ok (A := bytes) ""). simpl.
    do 2 f_equal; [char_eq0|]. f_equal. char_eq0.
  - rewrite IH. simpl. do 2 f_equal; [char_eq0|]. f_equal; [char_eq0|]. f_equal. char_eq0.
Qed.

Lemma b64_body_all (e : Z -> ascii) (f : ascii -> bool) s :
  (forall z, 0 <= z < 64 -> f (e z) = true) -> string_all f (b64_body e s) = true.
Proof.
  intros He.
  induction s as [|a|a b|a b c s IH] using string_ind3; [done| | |]; simpl;
    rewrite ?He, ?IH by (code_ranges; dlia); done.
Qed.

Lemma b64_padding_ascii s : string_all is_ascii (b64_padding s) = true.
Proof. by induction s using string_ind3. Qed.

Lemma b64_padding_pads s : string_all is_pad (b64_padding s) = true.
Proof. by induction s using string_ind3. Qed.

(** [base64.b64decode] undoes [base64.b64encode]. *)
Lemma b64decode_encode s : b64decode (b64encode s) = Ok s.
Proof.
  unfold b64decode. unfold b64encode at 1.
  rewrite string_all_app, b64_body_all, b64_padding_ascii by apply b64_std_ascii.
  apply a2b_encode.
Qed.

Lemma translate_url_app a b : translate_url (a +:+ b) = translate_url a +:+ translate_url b.
Proof. induction a as [|c a IH]; simpl; [done|]. by rewrite IH. Qed.

Lemma translate_url_encode s : translate_url (urlsafe_b64encode s) = b64encode s.
Proof.
  unfold urlsafe_b64encode, b64encode. rewrite translate_url_app.
  f_equal; [|by induction s using string_ind3].
  induction s as [|a|a b|a b c s IH] using string_ind3; [done| | |]; simpl;
    rewrite ?b64_url_std, ?IH by (code_ranges; dlia); done.
Qed.

Lemma b64e_body s : b64e s = b64_body b64_url s.
Proof.
  unfold b64e, rstrip_pad, urlsafe_b64encode. apply rstrip_if_app.
  - apply b64_body_all. intros z Hz. by apply b64_url_plain.
  - apply b64_padding_pads.
Qed.

Lemma b64_padding_length s :
  repeat_pad (Z.to_nat ((- blen (b64_body b64_url s)) mod 4)) = b64_padding s.
Proof.
  induction s as [|a|a b|a b c s IH] using string_ind3; [done..|].
  cbn [b64_padding]. rewrite <- IH. do 2 f_equal.
  cbn [b64_body]. unfold blen. cbn [String.length].
  rewrite !Nat2Z.inj_succ. dlia.
Qed.

(** [b64d] undoes [b64e]: the wire encoding loses nothing. *)
Lemma b64d_b64e s : b64d (b64e s) = Ok s.
Proof.
  unfold b64d. rewrite b64e_body, b64_padding_length.
  fold (urlsafe_b64encode s). unfold urlsafe_b64encode at 1.
  rewrite string_all_app, b64_body_all, b64_padding_ascii
    by (intros z Hz; by apply b64_url_plain).
  unfold urlsafe_b64decode. rewrite translate_url_encode. apply a2b_encode.
Qed.

Lemma b64e_inj a b : b64e a = b64e b -> a = b.
Proof. intros H. pose proof (b64d_b64e a) as Ha. rewrite H, b64d_b64e in Ha. congruence. Qed.

Lemma b64encode_inj a b : b64encode a = b64encode b -> a = b.
Proof. intros H. pose proof (b64decode_encode a) as Ha. rewrite H, b64decode_encode in Ha. congruence. Qed.

Lemma b64e_ascii s : string_all is_ascii (b64e s) = true.
Proof. rewrite b64e_body. apply b64_body_all. intros z Hz. by apply b64_url_plain. Qed.

Lemma b64encode_ascii s : string_all is_ascii (b64encode s) = true.
Proof.
  unfold b64encode. rewrite string_all_app, b64_padding_ascii, andb_true_r.
  apply b64_body_all, b64_std_ascii.
Qed.

Lemma b64e_empty s : b64e s = "" <-> s = "".
Proof.
  split; [|by intros ->]. intros H. apply b64e_inj. by rewrite H.
Qed.

#[export] Hint Rewrite b64d_b64e b64decode_encode : secchat.
