(* ===== verification/PyVal.v ===== *)
(** * Python values

    The dynamically typed values SecChat reads out of JSON: the truth test, the
    conversions [int()] and [str()], [==], and dictionaries in insertion order
    (association lists with distinct keys).

    A float is the decimal [m / 10^(k+1)] its [repr] shows, e.g. [1.5] is
    [PFloat 15 0]; [nan], infinities and the exponent form of [repr] (magnitudes
    below [1e-4] or from [1e16] on) are outside the model. Unicode digits and
    white space outside ASCII are not recognised by the model's [int()]. *)

From S2P Require Import Prelude.

Inductive pyval :=
| PNone
| PBool (b : bool)
| PInt (z : Z)
| PFloat (m : Z) (k : nat)
| PStr (s : string)
| PList (l : list pyval)
| PDict (d : list (string * pyval)).

(** The induction principle with hypotheses for the elements. *)
Section pyval_induction.
Variable P : pyval -> Prop.
Hypothesis Hnone : P PNone.
Hypothesis Hbool : forall b, P (PBool b).
Hypothesis Hint : forall z, P (PInt z).
Hypothesis Hfloat : forall m k, P (PFloat m k).
Hypothesis Hstr : forall s, P (PStr s).
Hypothesis Hlist : forall l, Forall P l -> P (PList l).
Hypothesis Hdict : forall d, Forall (fun kv => P (snd kv)) d -> P (PDict d).

Fixpoint pyval_nested_ind (v : pyval) : P v :=
  match v with
  | PNone => Hnone
  | PBool b => Hbool b
  | PInt z => Hint z
  | PFloat m k => Hfloat m k
  | PStr s => Hstr s
  | PList l =>
      Hlist l ((fix go (l : list pyval) : Forall P l :=
        match l with
        | [] => Forall_nil_2 _
        | x :: l' => Forall_cons_2 _ _ _ (pyval_nested_ind x) (go l')
        end) l)
  | PDict d =>
      Hdict d ((fix go (d : list (string * pyval)) : Forall (fun kv => P (snd kv)) d :=
        match d with
        | [] => Forall_nil_2 _
        | kv :: d' => Forall_cons_2 _ _ _ (pyval_nested_ind (snd kv)) (go d')
        end) d)
  end.
End pyval_induction.

(** ** Dictionaries *)

Section dict.
Context {A : Type}.
Implicit Types (d : list (string * A)) (k : string) (v : A).

(** [d.get(k)]. *)
Fixpoint dlookup k d : option A :=
  match d with
  | [] => None
  | (k', v) :: d' => if String.eqb k k' then Some v else dlookup k d'
  end.

(** [d[k] = v]: an existing key keeps its position. *)
Fixpoint dset k v d : list (string * A) :=
  match d with
  | [] => [(k, v)]
  | (k', v') :: d' => if String.eqb k k' then (k, v) :: d' else (k', v') :: dset k v d'
  end.

(** [d.pop(k, None)] / [del d[k]]. *)
Fixpoint ddel k d : list (string * A) :=
  match d with
  | [] => []
  | (k', v') :: d' => if String.eqb k k' then d' else (k', v') :: ddel k d'
  end.

(** [k in d]. *)
Definition dmem k d : bool := match dlookup k d with Some _ => true | None => false end.

(** [d.update(e)]. *)
Definition dupdate d (e : list (string * A)) : list (string * A) :=
  fold_left (fun acc kv => dset (fst kv) (snd kv) acc) e d.

Definition dkeys d : list string := map fst d.

Definition dict_ok d : Prop := NoDup (dkeys d).

Lemma dlookup_dset_eq k v d : dlookup k (dset k v d) = Some v.
Proof.
  induction d as [|[k' v'] d IH]; simpl; [by rewrite String.eqb_refl|].
  destruct (String.eqb k k') eqn:E; simpl; [by rewrite String.eqb_refl|by rewrite E].
Qed.

Lemma dlookup_dset_ne k k' v d : k <> k' -> dlookup k (dset k' v d) = dlookup k d.
Proof.
  intros Hne. apply String.eqb_neq in Hne as Hb.
  induction d as [|[k2 v2] d IH]; simpl; [by rewrite Hb|].
  destruct (String.eqb k' k2) eqn:E; simpl.
  - apply String.eqb_eq in E as <-. by rewrite Hb.
  - destruct (String.eqb k k2); [done|apply IH].
Qed.

Lemma dlookup_not_key k d : k ∉ dkeys d -> dlookup k d = None.
Proof.
  induction d as [|[k' v'] d IH]; simpl; [done|].
  intros [Hne Hn]%not_elem_of_cons. apply String.eqb_neq in Hne as ->. auto.
Qed.

Lemma dlookup_key k d : dlookup k d = None <-> k ∉ dkeys d.
Proof.
  split; [|apply dlookup_not_key].
  induction d as [|[k' v'] d IH]; simpl; [intros _; apply not_elem_of_nil|].
  destruct (String.eqb k k') eqn:E; [done|].
  intros H. apply not_elem_of_cons. split; [by apply String.eqb_neq|auto].
Qed.

Lemma dlookup_ddel_eq k d : dict_ok d -> dlookup k (ddel k d) = None.
Proof.
  unfold dict_ok. induction d as [|[k' v'] d IH]; simpl; [done|].
  intros [Hn Hd]%NoDup_cons. destruct (String.eqb k k') eqn:E; simpl.
  - apply String.eqb_eq in E as ->. by apply dlookup_not_key.
  - rewrite E. auto.
Qed.

Lemma dlookup_ddel_ne k k' d : k <> k' -> dlookup k (ddel k' d) = dlookup k d.
Proof.
  intros Hne. apply String.eqb_neq in Hne as Hb.
  induction d as [|[k2 v2] d IH]; simpl; [done|].
  destruct (String.eqb k' k2) eqn:E; simpl.
  - apply String.eqb_eq in E as <-. by rewrite Hb.
  - destruct (String.eqb k k2); [done|apply IH].
Qed.

Lemma dkeys_dset k v d x : x ∈ dkeys (dset k v d) <-> x = k \/ x ∈ dkeys d.
Proof.
  induction d as [|[k' v'] d IH]; simpl; [set_solver|].
  destruct (String.eqb k k') eqn:E; simpl.
  - apply String.eqb_eq in E as ->. set_solver.
  - rewrite !elem_of_cons, IH. naive_solver.
Qed.

Lemma dict_ok_dset k v d : dict_ok d -> dict_ok (dset k v d).
Proof.
  unfold dict_ok. induction d as [|[k' v'] d IH]; simpl.
  - intros _. apply NoDup_singleton.
  - intros [Hn Hd]%NoDup_cons. destruct (String.eqb k k') eqn:E; simpl.
    + apply String.eqb_eq in E as ->. by apply NoDup_cons.
    + apply NoDup_cons. split; [|auto].
      rewrite dkeys_dset. intros [->|?]; [|done]. by rewrite String.eqb_refl in E.
Qed.

Lemma dkeys_ddel_sub k d x : x ∈ dkeys (ddel k d) -> x ∈ dkeys d.
Proof.
  induction d as [|[k' v'] d IH]; simpl; [done|].
  destruct (String.eqb k k'); simpl; rewrite ?elem_of_cons; naive_solver.
Qed.

Lemma dict_ok_ddel k d : dict_ok d -> dict_ok (ddel k d).
Proof.
  unfold dict_ok. induction d as [|[k' v'] d IH]; simpl; [done|].
  intros [Hn Hd]%NoDup_cons. destruct (String.eqb k k'); simpl; [done|].
  apply NoDup_cons. split; [|auto]. intros H. by apply dkeys_ddel_sub in H.
Qed.

Lemma Forall_dset (Q : string * A -> Prop) k v d :
  Forall Q d -> Q (k, v) -> Forall Q (dset k v d).
Proof.
  intros Hd Hq. induction Hd as [|[k' v'] d Hx Hd IH]; simpl; [by constructor|].
  destruct (String.eqb k k'); by constructor.
Qed.

Lemma Forall_dupdate (Q : string * A -> Prop) d e :
  Forall Q d -> Forall Q e -> Forall Q (dupdate d e).
Proof.
  intros Hd He. revert d Hd. induction He as [|[k v] e Hx He IH]; intros d Hd; simpl; [done|].
  apply IH. by apply Forall_dset.
Qed.

Lemma dict_ok_dupdate d e : dict_ok d -> dict_ok (dupdate d e).
Proof.
  revert d. induction e as [|[k v] e IH]; intros d Hd; simpl; [done|]. apply IH.
  by apply dict_ok_dset.
Qed.

(** The last entry of the update wins, then the old value. *)
Lemma dlookup_dupdate k d e :
  dlookup k (dupdate d e) = match dlookup k (rev e) with Some v => Some v | None => dlookup k d end.
Proof.
  revert d. induction e as [|[k' v'] e IH]; intros d; [done|].
  change (dupdate d ((k', v') :: e)) with (dupdate (dset k' v' d) e). rewrite IH. simpl.
  assert (H : dlookup k (rev e ++ [(k', v')]) =
    match dlookup k (rev e) with Some v => Some v | None => if String.eqb k k' then Some v' else None end).
  { clear IH. induction (rev e) as [|[k2 v2] l IH]; simpl; [done|]. by destruct (String.eqb k k2). }
  rewrite H. destruct (dlookup k (rev e)); [done|]. destruct (String.eqb k k') eqn:E.
  - apply String.eqb_eq in E as ->. by rewrite dlookup_dset_eq.
  - apply String.eqb_neq in E. by rewrite dlookup_dset_ne.
Qed.

Lemma dlookup_elem k v d : dict_ok d -> (dlookup k d = Some v <-> (k, v) ∈ d).
Proof.
  unfold dict_ok. induction d as [|[k' v'] d IH]; simpl.
  - intros _. split; [done|intros ?%not_elem_of_nil; done].
  - intros [Hn Hd]%NoDup_cons. rewrite elem_of_cons. destruct (String.eqb k k') eqn:E.
    + apply String.eqb_eq in E as ->. split; [intros [= ->]; by left|].
      intros [[= ->]|Hin]; [done|]. exfalso. apply Hn. apply list_elem_of_fmap. by exists (k', v).
    + apply String.eqb_neq in E. rewrite IH by done. split; [by right|]. by intros [[= ? ?]|].
Qed.

Lemma dlookup_rev k d : dict_ok d -> dlookup k (rev d) = dlookup k d.
Proof.
  intros Hd. assert (Hr : dict_ok (rev d)) by (unfold dict_ok, dkeys in *; by rewrite map_rev, <- Permutation_rev).
  apply option_eq. intros v. rewrite !dlookup_elem by done. by rewrite <- Permutation_rev.
Qed.

Lemma length_dset_None k v d : dlookup k d = None -> length (dset k v d) = S (length d).
Proof.
  induction d as [|[k' v'] d IH]; simpl; [done|].
  destruct (String.eqb k k'); [done|]. simpl. auto.
Qed.

Lemma length_dset_le k v d : (length (dset k v d) <= S (length d))%nat.
Proof.
  induction d as [|[k' v'] d IH]; simpl; [lia|].
  destruct (String.eqb k k'); simpl; lia.
Qed.

Lemma length_ddel_le k d : (length (ddel k d) <= length d)%nat.
Proof.
  induction d as [|[k' v'] d IH]; simpl; [lia|]. destruct (String.eqb k k'); simpl; lia.
Qed.

Lemma length_ddel_Some k d : is_Some (dlookup k d) -> S (length (ddel k d)) = length d.
Proof.
  induction d as [|[k' v'] d IH]; simpl; [by intros []|].
  destruct (String.eqb k k'); simpl; [done|]. intros. f_equal. auto.
Qed.
End dict.
Lemma dlookup_map {A B} (f : A -> B) k (d : list (string * A)) :
  dlookup k (map (fun p => (fst p, f (snd p))) d) = f <$> dlookup k d.
Proof. induction d as [|[k' v'] d IH]; simpl; [done|]. by destruct (String.eqb k k'). Qed.

Lemma dset_absent {A} k (v : A) d : dlookup k d = None -> dset k v d = d ++ [(k, v)].
Proof.
  induction d as [|[k' v'] d IH]; cbn; [done|]. destruct (String.eqb k k'); [done|].
  intros H. by rewrite IH.
Qed.

Lemma dset_dset {A} k (v w : A) d : dset k v (dset k w d) = dset k v d.
Proof.
  induction d as [|[k' v'] d IH]; cbn.
  - by rewrite String.eqb_refl.
  - destruct (String.eqb k k') eqn:E; cbn; [by rewrite String.eqb_refl|]. by rewrite E, IH.
Qed.

Lemma dset_nonnil {A} k (v : A) d : dset k v d <> [].
Proof. destruct d as [|[k' w] d]; [done|]. cbn. by destruct (String.eqb k k'). Qed.

#[export] Hint Rewrite @dlookup_dset_eq : secchat.
#[export] Hint Resolve dict_ok_dset dict_ok_ddel : secchat.

Abbreviation dict := (list (string * pyval)).

(** ** Decimal numerals *)

Definition dec_digit (z : Z) : ascii := chr8 (48 + z).
Definition is_digit (c : ascii) : bool := let z := code c in (48 <=? z) && (z <=? 57).
Definition digit_val (c : ascii) : Z := code c - 48.

Fixpoint dec_fuel (fuel : nat) (z : Z) : string :=
  match fuel with
  | O => ""
  | S f =>
      let d := String (dec_digit (z mod 10)) "" in
      if z <? 10 then d else dec_fuel f (z / 10) +:+ d
  end.

(** Decimal digits of a non-negative integer. *)
Definition dec_nat (z : Z) : string := dec_fuel (S (Z.to_nat (Z.log2 z))) z.

(** [str(z)]. *)
Definition dec (z : Z) : string := if z <? 0 then "-" +:+ dec_nat (- z) else dec_nat z.

Fixpoint val_digits (s : string) (a : Z) : Z :=
  match s with
  | EmptyString => a
  | String c s' => val_digits s' (10 * a + digit_val c)
  end.

(** The longest prefix of digits and what follows it. *)
Fixpoint span_digits (s : string) : string * string :=
  match s with
  | String c s' =>
      if is_digit c then let p := span_digits s' in (String c (fst p), snd p) else ("", s)
  | EmptyString => ("", "")
  end.

(** [n] low decimal digits of [z], zero-padded. *)
Fixpoint pad_digits (n : nat) (z : Z) : string :=
  match n with
  | O => ""
  | S n' => pad_digits n' (z / 10) +:+ String (dec_digit (z mod 10)) ""
  end.

Definition float_repr (m : Z) (k : nat) : string :=
  (if m <? 0 then "-" else "") +:+ dec_nat (Z.abs m / 10 ^ Z.of_nat (S k)) +:+ "." +:+
  pad_digits (S k) (Z.abs m mod 10 ^ Z.of_nat (S k)).

(** ** Conversions *)

Definition truthy (v : pyval) : bool :=
  match v with
  | PNone => false
  | PBool b => b
  | PInt z => negb (z =? 0)
  | PFloat m _ => negb (m =? 0)
  | PStr s => nonempty s
  | PList l => match l with [] => false | _ => true end
  | PDict d => match d with [] => false | _ => true end
  end.

(** [a or b]. *)
Definition py_or (a b : pyval) : pyval := if truthy a then a else b.

Definition is_int_space (c : ascii) : bool :=
  let z := code c in ((9 <=? z) && (z <=? 13)) || ((28 <=? z) && (z <=? 32)).

(** Digits with single underscores between them, as [int()] accepts them. *)
Fixpoint int_literal (prev_digit : bool) (s : string) (a : Z) : option Z :=
  match s with
  | EmptyString => if prev_digit then Some a else None
  | String c s' =>
      if is_digit c then int_literal true s' (10 * a + digit_val c)
      else if Ascii.eqb c "_"%char && prev_digit then int_literal false s' a
      else None
  end.

Definition int_of_string (s : string) : res Z :=
  let t := rstrip_if is_int_space (lstrip_if is_int_space s) in
  let r :=
    match t with
    | String c t' =>
        if Ascii.eqb c "-"%char then option_map Z.opp (int_literal false t' 0)
        else if Ascii.eqb c "+"%char then int_literal false t' 0
        else int_literal false t 0
    | EmptyString => None
    end in
  of_option r (ValueError "invalid literal for int()").

(** [int(v)]. *)
Definition py_int (v : pyval) : res Z :=
  match v with
  | PBool b => Ok (if b then 1 else 0)
  | PInt z => Ok z
  | PFloat m k => Ok (Z.quot m (10 ^ Z.of_nat (S k)))
  | PStr s => int_of_string s
  | PNone | PList _ | PDict _ => Err TypeError
  end.

(** [repr] of a string: single quotes unless only double quotes avoid escapes. *)
Definition hex2 (z : Z) : string :=
  let d z := if z <? 10 then chr8 (48 + z) else chr8 (87 + z) in
  String (d (z / 16)) (String (d (z mod 16)) "").

Fixpoint repr_body (q : ascii) (s : string) : string :=
  match s with
  | EmptyString => ""
  | String c s' =>
      (if Ascii.eqb c q || Ascii.eqb c "\"%char then String "\"%char (String c "")
       else if code c =? 10 then "\n"
       else if code c =? 13 then "\r"
       else if code c =? 9 then "\t"
       else if (code c <? 32) || (code c =? 127) then "\x" +:+ hex2 (code c)
       else String c "") +:+ repr_body q s'
  end.

Definition single_quote : ascii := chr8 39.
Definition double_quote : ascii := chr8 34.

Definition repr_str (s : string) : string :=
  let has c := string_any (Ascii.eqb c) s in
  let q := if has single_quote && negb (has double_quote) then double_quote else single_quote in
  String q (repr_body q s +:+ String q "").

Fixpoint py_repr (v : pyval) : string :=
  match v with
  | PNone => "None"
  | PBool b => if b then "True" else "False"
  | PInt z => dec z
  | PFloat m k => float_repr m k
  | PStr s => repr_str s
  | PList l => "[" +:+ join ", " (map py_repr l) +:+ "]"
  | PDict d =>
      "{" +:+ join ", " (map (fun kv => repr_str (fst kv) +:+ ": " +:+ py_repr (snd kv)) d)
      +:+ "}"
  end.

(** [str(v)]. *)
Definition py_str (v : pyval) : string :=
  match v with PStr s => s | _ => py_repr v end.

(** [len(s)] of a [str]: its code points, the bytes that do not continue one. *)
Fixpoint py_len (s : string) : Z :=
  match s with
  | EmptyString => 0
  | String c s' =>
      (if (128 <=? code c) && (code c <=? 191) then 0 else 1) + py_len s'
  end.

(** ** Equality [==]

    Numbers compare across types, dictionaries without regard to order. *)

Definition num_of (v : pyval) : option (Z * nat) :=
  match v with
  | PBool b => Some (if b then 10 else 0, 0%nat)
  | PInt z => Some (10 * z, 0%nat)
  | PFloat m k => Some (m, k)
  | _ => None
  end.

Definition num_eqb (a b : Z * nat) : bool :=
  fst a * 10 ^ Z.of_nat (snd b) =? fst b * 10 ^ Z.of_nat (snd a).

Fixpoint py_eqb (v w : pyval) : bool :=
  match v, w with
  | PNone, PNone => true
  | PStr s, PStr t => String.eqb s t
  | PList l, PList l' =>
      (fix go (l l' : list pyval) : bool :=
         match l, l' with
         | [], [] => true
         | x :: l, y :: l' => py_eqb x y && go l l'
         | _, _ => false
         end) l l'
  | PDict d, PDict d' =>
      Nat.eqb (length d) (length d') &&
      (fix go (d : list (string * pyval)) : bool :=
         match d with
         | [] => true
         | (k, x) :: d =>
             match dlookup k d' with Some y => py_eqb x y | None => false end && go d
         end) d
  | _, _ =>
      match num_of v, num_of w with
      | Some a, Some b => num_eqb a b
      | _, _ => false
      end
  end.

(** ** Reading fields of a message *)

(** [d.get(k, dflt)]. *)
Definition dget (k : string) (dflt : pyval) (d : dict) : pyval :=
  match dlookup k d with Some v => v | None => dflt end.

(** [d[k]]. *)
Definition ditem (k : string) (d : dict) : res pyval := of_option (dlookup k d) (KeyError k).

(** [int(d.get(k, 0) or 0)]. *)
Definition get_int0 (k : string) (d : dict) : res Z :=
  py_int (py_or (dget k (PInt 0) d) (PInt 0)).

(** [str(d.get(k, "") or "")]. *)
Definition get_str0 (k : string) (d : dict) : string :=
  py_str (py_or (dget k (PStr "") d) (PStr "")).

(** [d.setdefault(k, v)]: the dictionary afterwards. *)
Definition setdefault (k : string) (v : pyval) (d : dict) : dict :=
  match dlookup k d with Some _ => d | None => dset k v d end.

(** [v.get(...)] needs a dictionary. *)
Definition as_dict (v : pyval) : res dict :=
  match v with PDict d => Ok d | _ => Err AttributeError end.

(** [list(v)]: iterating a dictionary gives its keys, a string its characters
    (one byte each here: the code only iterates lists). *)
Definition as_list (v : pyval) : res (list pyval) :=
  match v with
  | PList l => Ok l
  | PDict d => Ok (map (fun kv => PStr (fst kv)) d)
  | _ => Err TypeError
  end.

(** The characters of a [str], one string each. *)
Fixpoint str_chars (s : string) : list string :=
  match s with
  | EmptyString => []
  | String c s' =>
      let rest := str_chars s' in
      match s' with
      | String d _ =>
          if (128 <=? code d) && (code d <=? 191) then
            match rest with x :: l => String c x :: l | [] => [String c ""] end
          else String c "" :: rest
      | EmptyString => [String c ""]
      end
  end.

(** [for x in v]: what iterating a value gives. *)
Definition py_iter (v : pyval) : res (list pyval) :=
  match v with
  | PList l => Ok l
  | PDict d => Ok (map (fun kv => PStr (fst kv)) d)
  | PStr s => Ok (map PStr (str_chars s))
  | _ => Err TypeError
  end.

(** [float(text)]: an optional sign, digits with an optional fraction and
    exponent. Digit separators, [nan] and the infinities are errors here. *)
Definition float_of_string (s : string) : res (Z * nat) :=
  let t := rstrip_if is_int_space (lstrip_if is_int_space s) in
  let '(neg, t) :=
    match t with
    | String c t' =>
        if Ascii.eqb c "-"%char then (true, t') else if Ascii.eqb c "+"%char then (false, t')
        else (false, t)
    | EmptyString => (false, t)
    end in
  let bad := Err (ValueError "could not convert string to float") in
  let '(ip, r) := span_digits t in
  let '(fp, r) :=
    match r with
    | String c r' => if Ascii.eqb c "."%char then span_digits r' else ("", r)
    | EmptyString => ("", r)
    end in
  if nonempty ip || nonempty fp then
    let m := val_digits (ip +:+ fp) 0 in
    let m := if neg then - m else m in
    let finish (e : Z) :=
      let scale := blen fp - e in
      if scale <=? 0 then Ok (10 * m * 10 ^ (- scale), 0%nat)
      else Ok (m, Z.to_nat (scale - 1)) in
    match r with
    | EmptyString => finish 0
    | String c r' =>
        if Ascii.eqb c "e"%char || Ascii.eqb c "E"%char then
          let '(eneg, r'') :=
            match r' with
            | String d q => if Ascii.eqb d "-"%char then (true, q)
                            else if Ascii.eqb d "+"%char then (false, q) else (false, r')
            | EmptyString => (false, r')
            end in
          match span_digits r'' with
          | (String _ _ as p, EmptyString) =>
              finish (if eneg then - val_digits p 0 else val_digits p 0)
          | _ => bad
          end
        else bad
    end
  else bad.

(** [float(v)]: a decimal [m / 10^(k+1)]. *)
Definition py_float (v : pyval) : res (Z * nat) :=
  match v with
  | PStr s => float_of_string s
  | _ => of_option (num_of v) TypeError
  end.

(** ** Lemmas on numerals *)

Lemma digit_roundtrip z : 0 <= z < 10 ->
  is_digit (dec_digit z) = true /\ digit_val (dec_digit z) = z.
Proof.
  intros Hz. unfold is_digit, digit_val, dec_digit. rewrite code_chr8 by lia.
  split; [|lia]. apply andb_true_intro. split; apply Z.leb_le; lia.
Qed.

Lemma val_digits_app p q a : val_digits (p +:+ q) a = val_digits q (val_digits p a).
Proof. revert a. induction p as [|c p IH]; intros a; simpl; [done|apply IH]. Qed.

(** A decimal numeral as printed: digits only, no superfluous leading zero. *)
Definition numeral (p : string) (z : Z) : Prop :=
  string_all is_digit p = true /\ val_digits p 0 = z /\
  exists c p', p = String c p' /\ (c = "0"%char -> p' = "" /\ z = 0).

Lemma dec_fuel_numeral f z : 0 <= z < 2 ^ Z.of_nat f -> f <> O -> numeral (dec_fuel f z) z.
Proof.
  revert z. induction f as [|f IH]; intros z Hz Hf; [done|]. simpl.
  destruct (digit_roundtrip (z mod 10)) as [Hd Hv]; [dlia|].
  destruct (z <? 10) eqn:E; bool_hyps.
  - rewrite Z.mod_small in * by lia. split; [|split].
    + simpl. by rewrite Hd.
    + simpl. rewrite Hv. lia.
    + eexists _, _. split; [done|]. intros H0. split; [done|].
      rewrite <- Hv, H0. done.
  - destruct (IH (z / 10)) as (Ha & Hval & c & p' & Hp & H0).
    { rewrite Nat2Z.inj_succ, Z.pow_succ_r in Hz by lia. dlia. }
    { intros ->. change (2 ^ Z.of_nat 1) with 2 in Hz. lia. }
    split; [|split].
    + rewrite string_all_app, Ha. simpl. by rewrite Hd.
    + rewrite val_digits_app, Hval. simpl. rewrite Hv. dlia.
    + rewrite Hp. simpl. eexists _, _. split; [done|]. intros Hc.
      destruct (H0 Hc) as [_ ?]. exfalso. dlia.
Qed.

Lemma dec_nat_numeral z : 0 <= z -> numeral (dec_nat z) z.
Proof.
  intros Hz. apply dec_fuel_numeral; [|done]. split; [done|].
  rewrite Nat2Z.inj_succ, Z2Nat.id by apply Z.log2_nonneg.
  destruct (decide (z = 0)) as [->|]; [done|]. apply Z.log2_spec. lia.
Qed.

Definition not_digit_head (s : string) : bool :=
  match s with EmptyString => true | String c _ => negb (is_digit c) end.

Lemma span_digits_app p r :
  string_all is_digit p = true -> not_digit_head r = true -> span_digits (p +:+ r) = (p, r).
Proof.
  intros Hp Hr. induction p as [|c p IH]; simpl in *.
  - destruct r as [|d r]; simpl in *; [done|]. by destruct (is_digit d).
  - bool_hyps. by rewrite H, IH.
Qed.

Lemma pad_digits_all n z : 0 <= z -> string_all is_digit (pad_digits n z) = true.
Proof.
  revert z. induction n as [|n IH]; intros z Hz; simpl; [done|].
  rewrite string_all_app, IH by dlia. simpl.
  destruct (digit_roundtrip (z mod 10)) as [-> _]; [dlia|done].
Qed.

Lemma pad_digits_val n z a : 0 <= z < 10 ^ Z.of_nat n ->
  val_digits (pad_digits n z) a = a * 10 ^ Z.of_nat n + z.
Proof.
  revert z. induction n as [|n IH]; intros z Hz; simpl pad_digits.
  - simpl in *. change (10 ^ Z.of_nat 0) with 1 in *. lia.
  - rewrite Nat2Z.inj_succ, Z.pow_succ_r in * by lia.
    rewrite val_digits_app, IH by dlia. simpl.
    destruct (digit_roundtrip (z mod 10)) as [_ ->]; dlia.
Qed.

Lemma pad_digits_length n z : String.length (pad_digits n z) = n.
Proof.
  revert z. induction n as [|n IH]; intros z; simpl; [done|].
  rewrite sapp_length, IH. simpl. lia.
Qed.

Lemma dec_nat_inj a b : 0 <= a -> 0 <= b -> dec_nat a = dec_nat b -> a = b.
Proof.
  intros Ha Hb H. destruct (dec_nat_numeral a Ha) as (_ & Va & _).
  destruct (dec_nat_numeral b Hb) as (_ & Vb & _). congruence.
Qed.

Lemma int_literal_digits p b a :
  string_all is_digit p = true -> p <> "" -> int_literal b p a = Some (val_digits p a).
Proof.
  revert b a. induction p as [|c p IH]; intros b a Hp Hne; [done|]. simpl in *. bool_hyps.
  rewrite H. destruct p as [|c' p]; [done|]. by apply IH.
Qed.

(** A character that [int()] neither strips nor reads as a sign. *)
Lemma digit_plain c : is_digit c = true ->
  is_int_space c = false /\ Ascii.eqb c "-"%char = false /\ Ascii.eqb c "+"%char = false.
Proof.
  unfold is_digit, is_int_space. intros H. bool_hyps.
  assert ((code c <=? 13) = false /\ (code c <=? 32) = false) as [-> ->] by lia.
  rewrite !andb_false_r.
  repeat split; apply Ascii.eqb_neq; intros ->; by vm_compute in H.
Qed.

(** [int(str(z)) == z]. *)
Lemma int_of_dec z : int_of_string (dec z) = Ok z.
Proof.
  assert (Hstrip : forall s, string_all (fun c => negb (is_int_space c)) s = true ->
            rstrip_if is_int_space (lstrip_if is_int_space s) = s).
  { intros s Hs. rewrite lstrip_if_none by done.
    rewrite <- (sapp_nil_r s) at 1. by apply rstrip_if_app. }
  assert (Hall : forall p, string_all is_digit p = true ->
            string_all (fun c => negb (is_int_space c)) p = true).
  { intros p. induction p as [|c p IH]; simpl; [done|]. intros H. bool_hyps.
    rewrite IH by done. by destruct (digit_plain c) as [-> _]. }
  unfold int_of_string, dec. destruct (z <? 0) eqn:E; bool_hyps.
  - destruct (dec_nat_numeral (- z)) as (Ha & Hv & c & p & Hp & _); [lia|].
    rewrite Hstrip by (simpl; auto). simpl.
    rewrite int_literal_digits by (done || by rewrite Hp). rewrite Hv. simpl.
    f_equal. lia.
  - destruct (dec_nat_numeral z) as (Ha & Hv & c & p & Hp & _); [lia|].
    rewrite Hstrip by auto. rewrite Hp in *. simpl in Ha. bool_hyps.
    destruct (digit_plain c) as (_ & -> & ->); [done|].
    rewrite int_literal_digits by (simpl; try done; by rewrite H, H0). by rewrite Hv.
Qed.

Lemma dec_inj a b : dec a = dec b -> a = b.
Proof. intros H. pose proof (int_of_dec a) as Ha. rewrite H, int_of_dec in Ha. congruence. Qed.

Lemma dec_all (f : ascii -> bool) z :
  (forall c, is_digit c = true -> f c = true) -> f "-"%char = true -> string_all f (dec z) = true.
Proof.
  intros Hd Hm.
  assert (H : forall y, 0 <= y -> string_all f (dec_nat y) = true).
  { intros y Hy. destruct (dec_nat_numeral y Hy) as (Ha & _). revert Ha.
    generalize (dec_nat y). intros p. induction p as [|c p IH]; [done|]. simpl.
    intros Hp. bool_hyps. by rewrite Hd, IH. }
  unfold dec. destruct (z <? 0) eqn:E; bool_hyps; [simpl; rewrite Hm|]; apply H; lia.
Qed.

Lemma dec_not d z :
  is_digit d = false -> d <> "-"%char -> string_all (not_char d) (dec z) = true.
Proof.
  intros H1 H2. apply dec_all.
  - intros c Hc. unfold not_char. apply negb_true_iff, Ascii.eqb_neq. intros ->. congruence.
  - unfold not_char. by apply negb_true_iff, Ascii.eqb_neq.
Qed.

Lemma py_len_ascii s : string_all (fun c => code c <? 128) s = true -> py_len s = blen s.
Proof.
  unfold blen. induction s as [|c s IH]; [done|]. simpl. intros H. bool_hyps.
  destruct (Z.leb_spec 128 (code c)); [lia|]. rewrite IH by done. simpl. lia.
Qed.

#[export] Hint Rewrite int_of_dec : secchat.
