(* ===== verification/Sorting.v ===== *)
(** * Sorting

    Python's [sorted] as a stable insertion sort over a boolean strict order,
    with the order facts for strings (code-point order, which UTF-8 preserves)
    and integers. *)

From stdpp Require Import sorting.
From S2P Require Import Prelude.

Section isort.
Context {A : Type} (lt : A -> A -> bool).

Fixpoint insert_by (x : A) (l : list A) : list A :=
  match l with
  | [] => [x]
  | y :: l' => if lt y x then y :: insert_by x l' else x :: l
  end.

Definition isort (l : list A) : list A := foldr insert_by [] l.

Lemma insert_by_perm x l : insert_by x l ≡ₚ x :: l.
Proof.
  induction l as [|y l IH]; simpl; [done|].
  destruct (lt y x); [|done]. rewrite IH. apply Permutation_swap.
Qed.

Lemma isort_perm l : isort l ≡ₚ l.
Proof. induction l as [|x l IH]; simpl; [done|]. by rewrite insert_by_perm, IH. Qed.

Lemma elem_of_isort x l : x ∈ isort l <-> x ∈ l.
Proof. by rewrite isort_perm. Qed.

Lemma isort_length l : length (isort l) = length l.
Proof. by rewrite isort_perm. Qed.

(** A strict weak order given as a boolean test. *)
Class StrictOrd : Prop := {
  ord_irrefl x : lt x x = false;
  ord_trans x y z : lt x y = true -> lt y z = true -> lt x z = true;
  ord_neg_trans x y z : lt y x = false -> lt z y = false -> lt z x = false
}.

Definition le_of (x y : A) : Prop := lt y x = false.

Context `{Hord : StrictOrd}.

Lemma lt_asym x y : lt x y = true -> lt y x = false.
Proof.
  intros H. destruct (lt y x) eqn:E; [|done].
  pose proof (ord_trans _ _ _ H E) as Hxx. by rewrite ord_irrefl in Hxx.
Qed.

Lemma insert_by_sorted x l : StronglySorted le_of l -> StronglySorted le_of (insert_by x l).
Proof using Type*.
  induction l as [|y l IH]; simpl; intros Hs; [by repeat constructor|].
  apply StronglySorted_inv in Hs as [Hs Hy].
  destruct (lt y x) eqn:E.
  - constructor; [auto|]. rewrite insert_by_perm. constructor; [|done]. by apply lt_asym.
  - constructor; [by constructor|]. constructor; [done|].
    rewrite Forall_forall in *. intros z Hz. eapply ord_neg_trans; [exact E|]. by apply Hy.
Qed.

Lemma isort_sorted l : StronglySorted le_of (isort l).
Proof using Type*.
  induction l as [|x l IH]; simpl; [constructor|]. by apply insert_by_sorted.
Qed.

(** Sorting a sorted list changes nothing. *)
Lemma isort_id l : StronglySorted le_of l -> isort l = l.
Proof.
  induction l as [|x l IH]; simpl; intros Hs; [done|].
  apply StronglySorted_inv in Hs as [Hs Hx]. rewrite IH by done.
  destruct l as [|y l]; [done|]. simpl.
  apply Forall_cons in Hx as [Hx _]. unfold le_of in Hx. by rewrite Hx.
Qed.

Lemma isort_idemp l : isort (isort l) = isort l.
Proof using Type*. apply isort_id, isort_sorted. Qed.

(** With a total order, sorting only depends on the multiset. *)
Lemma isort_perm_eq (Htot : forall x y, lt x y = false -> lt y x = false -> x = y) l l' :
  l ≡ₚ l' -> isort l = isort l'.
Proof using Type*.
  intros Hp. apply (StronglySorted_unique_strong le_of).
  - intros x y _ _ Hxy Hyx. by apply Htot.
  - apply isort_sorted.
  - apply isort_sorted.
  - by rewrite !isort_perm.
Qed.
End isort.

(** ** Strings by code point *)

Fixpoint str_ltb (a b : string) : bool :=
  match a, b with
  | _, EmptyString => false
  | EmptyString, String _ _ => true
  | String c a', String d b' =>
      if code c <? code d then true
      else if code d <? code c then false else str_ltb a' b'
  end.

Lemma str_ltb_irrefl s : str_ltb s s = false.
Proof. induction s as [|c s IH]; simpl; [done|]. by rewrite Z.ltb_irrefl. Qed.

Lemma str_ltb_total a b : str_ltb a b = false -> str_ltb b a = false -> a = b.
Proof.
  revert b. induction a as [|c a IH]; intros [|d b]; simpl; try done.
  destruct (code c <? code d) eqn:E1; [done|].
  destruct (code d <? code c) eqn:E2; [done|].
  intros H1 H2. bool_hyps. f_equal; [apply code_inj; lia|by apply IH].
Qed.

Lemma str_ltb_trans a b c : str_ltb a b = true -> str_ltb b c = true -> str_ltb a c = true.
Proof.
  revert b c. induction a as [|x a IH]; intros [|y b] [|z c]; simpl; try done.
  destruct (code x <? code y) eqn:E1, (code y <? code z) eqn:E2, (code x <? code z) eqn:E3,
    (code y <? code x) eqn:E4, (code z <? code y) eqn:E5, (code z <? code x) eqn:E6;
    bool_hyps; try done; try lia. apply IH.
Qed.

Lemma str_ltb_cases a b : str_ltb a b = true \/ a = b \/ str_ltb b a = true.
Proof.
  destruct (str_ltb a b) eqn:E1; [by left|]. destruct (str_ltb b a) eqn:E2; [auto|].
  right. left. by apply str_ltb_total.
Qed.

#[export] Instance str_ord : StrictOrd str_ltb.
Proof.
  split; [apply str_ltb_irrefl|apply str_ltb_trans|].
  intros x y z Hyx Hzy.
  destruct (str_ltb z x) eqn:E; [|done]. exfalso.
  destruct (str_ltb_cases x y) as [H|[->|H]]; [|congruence..].
  rewrite (str_ltb_trans z x y E H) in Hzy. done.
Qed.

#[export] Instance Z_ord : StrictOrd Z.ltb.
Proof. split; intros; bool_hyps; try apply Z.ltb_lt; try apply Z.ltb_ge; lia. Qed.

(** Sorting by a key, ties in the original order. *)
Definition by_key {A B} (lt : B -> B -> bool) (f : A -> B) (x y : A) : bool := lt (f x) (f y).

#[export] Instance by_key_ord {A B} (lt : B -> B -> bool) (f : A -> B) `{!StrictOrd lt} :
  StrictOrd (by_key lt f).
Proof.
  split; unfold by_key; intros.
  - apply (ord_irrefl lt).
  - eapply (ord_trans lt); eassumption.
  - eapply (ord_neg_trans lt); eassumption.
Qed.

Definition sort_strings : list string -> list string := isort str_ltb.
Definition sort_ints : list Z -> list Z := isort Z.ltb.
