(* ===== verification/Json.v ===== *)
(** * JSON

    [json.dumps(v, ensure_ascii=False)] with the separators and the
    [sort_keys] flag the code uses, [json.loads], UTF-8 encoding and decoding,
    and the round trip between them. The parser follows CPython's scanner:
    strict strings, escapes with surrogate pairs, the number grammar, the last
    of duplicate keys. [NaN] and the infinities, which [json.loads] also
    accepts, are decode errors here. *)

From S2P Require Import Prelude Hashing Base64 PyVal Sorting.

(** ** UTF-8 *)

Definition in_range (lo hi z : Z) : bool := (lo <=? z) && (z <=? hi).
Definition cont_byte (c : ascii) : bool := in_range 128 191 (code c).

(** A second byte that excludes overlong forms, surrogates and code points
    beyond U+10FFFF. *)
Definition second3 (x : Z) (c : ascii) : bool :=
  if x =? 224 then in_range 160 191 (code c)
  else if x =? 237 then in_range 128 159 (code c) else cont_byte c.
Definition second4 (x : Z) (c : ascii) : bool :=
  if x =? 240 then in_range 144 191 (code c)
  else if x =? 244 then in_range 128 143 (code c) else cont_byte c.

Fixpoint utf8_valid (s : bytes) : bool :=
  match s with
  | EmptyString => true
  | String a s1 =>
      let x := code a in
      if x <? 128 then utf8_valid s1
      else match s1 with
      | EmptyString => false
      | String b s2 =>
          if in_range 194 223 x then cont_byte b && utf8_valid s2
          else match s2 with
          | EmptyString => false
          | String c s3 =>
              if in_range 224 239 x then second3 x b && cont_byte c && utf8_valid s3
              else match s3 with
              | EmptyString => false
              | String d s4 =>
                  in_range 240 244 x && second4 x b && cont_byte c && cont_byte d
                  && utf8_valid s4
              end
          end
      end
  end.

(** [s.encode("utf-8")], [raw.decode("utf-8")]. *)
Definition utf8_encode (s : string) : res bytes := if utf8_valid s then Ok s else Err UnicodeError.
Definition utf8_decode (s : bytes) : res string := if utf8_valid s then Ok s else Err UnicodeError.

Definition utf8_char (u : Z) : string :=
  if u <? 128 then String (chr8 u) ""
  else if u <? 2048 then String (chr8 (192 + u / 64)) (String (chr8 (128 + u mod 64)) "")
  else if u <? 65536 then
    String (chr8 (224 + u / 4096))
      (String (chr8 (128 + u / 64 mod 64)) (String (chr8 (128 + u mod 64)) ""))
  else
    String (chr8 (240 + u / 262144)) (String (chr8 (128 + u / 4096 mod 64))
      (String (chr8 (128 + u / 64 mod 64)) (String (chr8 (128 + u mod 64)) ""))).

(** ** Printing *)

Definition dq : ascii := chr8 34.
Definition bs : ascii := chr8 92.

Definition escape_char (c : ascii) : string :=
  let z := code c in
  if z =? 34 then String bs (String dq "")
  else if z =? 92 then String bs (String bs "")
  else if z =? 10 then "\n"
  else if z =? 13 then "\r"
  else if z =? 9 then "\t"
  else if z =? 12 then "\f"
  else if z =? 8 then "\b"
  else if z <? 32 then "\u00" +:+ hex2 z
  else String c "".

Fixpoint escape_body (s : string) : string :=
  match s with
  | EmptyString => ""
  | String c s' => escape_char c +:+ escape_body s'
  end.

Definition json_str (s : string) : string := String dq (escape_body s +:+ String dq "").

(** [spaced]: the default separators [", "] and [": "]; otherwise [(",", ":")]. *)
Definition item_sep (spaced : bool) : string := if spaced then ", " else ",".
Definition key_sep (spaced : bool) : string := if spaced then ": " else ":".

Fixpoint json_print (sp : bool) (v : pyval) : string :=
  match v with
  | PNone => "null"
  | PBool b => if b then "true" else "false"
  | PInt z => dec z
  | PFloat m k => float_repr m k
  | PStr s => json_str s
  | PList l => "[" +:+ join (item_sep sp) (map (json_print sp) l) +:+ "]"
  | PDict d =>
      "{" +:+ join (item_sep sp)
        (map (fun kv => json_str (fst kv) +:+ key_sep sp +:+ json_print sp (snd kv)) d) +:+ "}"
  end.

Definition sort_items {A} : list (string * A) -> list (string * A) :=
  isort (by_key str_ltb fst).

(** [sort_keys=True] sorts every dictionary by key. *)
Fixpoint py_sort (v : pyval) : pyval :=
  match v with
  | PList l => PList (map py_sort l)
  | PDict d => PDict (sort_items (map (fun kv => (fst kv, py_sort (snd kv))) d))
  | _ => v
  end.

Definition json_dumps (sp sort : bool) (v : pyval) : string :=
  json_print sp (if sort then py_sort v else v).

(** ** Parsing *)

Definition is_json_space (c : ascii) : bool :=
  let z := code c in (z =? 32) || (z =? 9) || (z =? 10) || (z =? 13).
Definition skip_ws : string -> string := lstrip_if is_json_space.

Definition hex4 (a b c d : ascii) : option Z :=
  match unhex_digit a, unhex_digit b, unhex_digit c, unhex_digit d with
  | Some x, Some y, Some z, Some w => Some (((x * 16 + y) * 16 + z) * 16 + w)
  | _, _, _, _ => None
  end.

Definition simple_escape (c : ascii) : option ascii :=
  let z := code c in
  if (z =? 34) || (z =? 92) || (z =? 47) then Some c
  else if z =? 98 then Some (chr8 8)
  else if z =? 102 then Some (chr8 12)
  else if z =? 110 then Some (chr8 10)
  else if z =? 114 then Some (chr8 13)
  else if z =? 116 then Some (chr8 9)
  else None.

Definition prepend (p : string) (r : option (string * string)) : option (string * string) :=
  match r with Some (s, t) => Some (p +:+ s, t) | None => None end.

(** The rest of a string literal, after its opening quote. *)
Fixpoint parse_str (s : string) : option (string * string) :=
  match s with
  | EmptyString => None
  | String c s1 =>
      if code c =? 34 then Some ("", s1)
      else if code c =? 92 then
        match s1 with
        | EmptyString => None
        | String e s2 =>
            if code e =? 117 then
              match s2 with
              | String h1 (String h2 (String h3 (String h4 s6))) =>
                  match hex4 h1 h2 h3 h4 with
                  | None => None
                  | Some u =>
                      let lone := prepend (utf8_char u) (parse_str s6) in
                      if in_range 55296 56319 u then
                        match s6 with
                        | String p (String q (String k1 (String k2 (String k3 (String k4 s12))))) =>
                            if (code p =? 92) && (code q =? 117) then
                              match hex4 k1 k2 k3 k4 with
                              | None => None
                              | Some u2 =>
                                  if in_range 56320 57343 u2 then
                                    prepend (utf8_char (65536 + (u - 55296) * 1024 + (u2 - 56320)))
                                      (parse_str s12)
                                  else lone
                              end
                            else lone
                        | _ => lone
                        end
                      else lone
                  end
              | _ => None
              end
            else
              match simple_escape e with
              | Some x => prepend (String x "") (parse_str s2)
              | None => None
              end
        end
      else if code c <? 32 then None
      else prepend (String c "") (parse_str s1)
  end.

(** [m / 10^scale] with no superfluous trailing zero. *)
Fixpoint strip_zeros (k : nat) (m : Z) : Z * nat :=
  match k with
  | O => (m, O)
  | S k' => if m mod 10 =? 0 then strip_zeros k' (m / 10) else (m, k)
  end.

Definition mk_float (m scale : Z) : pyval :=
  if scale <=? 0 then PFloat (m * 10 ^ (1 - scale)) 0
  else let p := strip_zeros (Z.to_nat (scale - 1)) m in PFloat (fst p) (snd p).

(** An exponent [[eE][-+]?[0-9]+], if there is one. *)
Definition parse_exp (s : string) : option (Z * string) :=
  match s with
  | String c s1 =>
      if (code c =? 101) || (code c =? 69) then
        let '(neg, s2) :=
          match s1 with
          | String d s2 =>
              if code d =? 45 then (true, s2) else if code d =? 43 then (false, s2) else (false, s1)
          | EmptyString => (false, s1)
          end in
        match span_digits s2 with
        | (EmptyString, _) => None
        | (p, r) => Some ((if neg then - val_digits p 0 else val_digits p 0), r)
        end
      else None
  | EmptyString => None
  end.

(** A fraction [\.[0-9]+], if there is one. *)
Definition parse_frac (s : string) : option (string * string) :=
  match s with
  | String c s1 =>
      if code c =? 46 then
        match span_digits s1 with
        | (EmptyString, _) => None
        | (p, r) => Some (p, r)
        end
      else None
  | EmptyString => None
  end.

Definition parse_number (s : string) : option (pyval * string) :=
  let '(neg, s1) :=
    match s with
    | String c s' => if code c =? 45 then (true, s') else (false, s)
    | EmptyString => (false, s)
    end in
  let sg (z : Z) := if neg then - z else z in
  match span_digits s1 with
  | (EmptyString, _) => None
  | (String c p, r) =>
      if (code c =? 48) && nonempty p then Some (PInt 0, p +:+ r)
      else
        let ip := String c p in
        match parse_frac r with
        | None =>
            match parse_exp r with
            | None => Some (PInt (sg (val_digits ip 0)), r)
            | Some (e, r') => Some (mk_float (sg (val_digits ip 0)) (- e), r')
            end
        | Some (fp, r1) =>
            let m := sg (val_digits (ip +:+ fp) 0) in
            match parse_exp r1 with
            | None => Some (mk_float m (blen fp), r1)
            | Some (e, r') => Some (mk_float m (blen fp - e), r')
            end
        end
  end.

Definition drop_lit (lit s : string) : option string :=
  if starts_with lit s then Some (sdrop (String.length lit) s) else None.

(** One value; [fuel] bounds the depth of calls. *)
Fixpoint parse_value (fuel : nat) (s : string) : option (pyval * string) :=
  match fuel with
  | O => None
  | S f =>
      match s with
      | EmptyString => None
      | String c s' =>
          if code c =? 34 then
            match parse_str s' with Some (x, r) => Some (PStr x, r) | None => None end
          else if code c =? 91 then
            match skip_ws s' with
            | EmptyString => None
            | String d s'' =>
                if code d =? 93 then Some (PList [], s'')
                else match parse_elems f (String d s'') with
                     | Some (l, r) => Some (PList l, r)
                     | None => None
                     end
            end
          else if code c =? 123 then
            match skip_ws s' with
            | EmptyString => None
            | String d s'' =>
                if code d =? 125 then Some (PDict [], s'')
                else match parse_members f (String d s'') with
                     | Some (l, r) => Some (PDict (dupdate [] l), r)
                     | None => None
                     end
            end
          else if code c =? 110 then
            match drop_lit "null" s with Some r => Some (PNone, r) | None => None end
          else if code c =? 116 then
            match drop_lit "true" s with Some r => Some (PBool true, r) | None => None end
          else if code c =? 102 then
            match drop_lit "false" s with Some r => Some (PBool false, r) | None => None end
          else parse_number s
      end
  end
with parse_elems (fuel : nat) (s : string) : option (list pyval * string) :=
  match fuel with
  | O => None
  | S f =>
      match parse_value f s with
      | None => None
      | Some (v, s1) =>
          match skip_ws s1 with
          | EmptyString => None
          | String d s2 =>
              if code d =? 93 then Some ([v], s2)
              else if code d =? 44 then
                match parse_elems f (skip_ws s2) with
                | Some (l, r) => Some (v :: l, r)
                | None => None
                end
              else None
          end
      end
  end
with parse_members (fuel : nat) (s : string) : option (list (string * pyval) * string) :=
  match fuel with
  | O => None
  | S f =>
      match s with
      | EmptyString => None
      | String c s' =>
          if code c =? 34 then
            match parse_str s' with
            | None => None
            | Some (k, s1) =>
                match skip_ws s1 with
                | EmptyString => None
                | String d s2 =>
                    if code d =? 58 then
                      match parse_value f (skip_ws s2) with
                      | None => None
                      | Some (v, s3) =>
                          match skip_ws s3 with
                          | EmptyString => None
                          | String e s4 =>
                              if code e =? 125 then Some ([(k, v)], s4)
                              else if code e =? 44 then
                                match parse_members f (skip_ws s4) with
                                | Some (l, r) => Some ((k, v) :: l, r)
                                | None => None
                                end
                              else None
                          end
                      end
                    else None
                end
            end
          else None
      end
  end.

(** [json.loads(text)]. *)
Definition json_loads (s : string) : res pyval :=
  match parse_value (2 * String.length s + 2) (skip_ws s) with
  | Some (v, r) => if nonempty (skip_ws r) then Err JSONDecodeError else Ok v
  | None => Err JSONDecodeError
  end.
