(* ===== verification/JsonFacts.v ===== *)
(** * JSON: the printer and the parser are inverse

    [json_loads (json_dumps v) = v] for every well-formed value, hence printing
    is injective; the UTF-8 facts the wire codec needs. *)

From S2P Require Import Prelude Hashing Base64 PyVal Sorting Json.

(** ** Strings *)

Lemma parse_escape_char c t :
  parse_str (escape_char c +:+ t) = prepend (String c "") (parse_str t).
Proof. destruct c as [[] [] [] [] [] [] [] []]; reflexivity. Qed.

Lemma parse_escape_body s r : parse_str (escape_body s +:+ String dq r) = Some (s, r).
Proof.
  induction s as [|c s IH]; [done|]. simpl.
  by rewrite sapp_assoc, parse_escape_char, IH.
Qed.

(** ** Numbers *)

(** What may follow a number without being read as part of it. *)
Definition boundary (r : string) : bool :=
  match r with
  | EmptyString => true
  | String c _ =>
      negb (is_digit c) && negb (code c =? 46) && negb (code c =? 101) && negb (code c =? 69)
  end.

Lemma boundary_not_digit r : boundary r = true -> not_digit_head r = true.
Proof. destruct r as [|c r]; simpl; [done|]. intros H. bool_hyps. by rewrite H. Qed.

Lemma boundary_parse_frac r : boundary r = true -> parse_frac r = None.
Proof. destruct r as [|c r]; simpl; [done|]. intros H. bool_hyps. by destruct (Z.eqb_spec (code c) 46). Qed.

Lemma boundary_parse_exp r : boundary r = true -> parse_exp r = None.
Proof.
  destruct r as [|c r]; simpl; [done|]. intros H. bool_hyps.
  destruct (Z.eqb_spec (code c) 101); [done|]. by destruct (Z.eqb_spec (code c) 69).
Qed.

(** Reading the sign and the integer part of a printed number. *)
Lemma parse_number_prefix (neg : bool) p z r :
  0 <= z -> numeral p z -> not_digit_head r = true ->
  parse_number ((if neg then "-" else "") +:+ p +:+ r) =
    let sg (x : Z) := if neg then - x else x in
    match parse_frac r with
    | None =>
        match parse_exp r with
        | None => Some (PInt (sg z), r)
        | Some (e, r') => Some (mk_float (sg z) (- e), r')
        end
    | Some (fp, r1) =>
        let m := sg (val_digits (p +:+ fp) 0) in
        match parse_exp r1 with
        | None => Some (mk_float m (blen fp), r1)
        | Some (e, r') => Some (mk_float m (blen fp - e), r')
        end
    end.
Proof.
  intros Hz (Ha & Hv & c & p' & -> & H0) Hr.
  assert (Hspan := span_digits_app _ _ Ha Hr).
  assert (Hd : is_digit c = true) by (simpl in Ha; by bool_hyps).
  assert (Hc : (code c =? 45) = false) by (unfold is_digit in Hd; bool_hyps; lia).
  assert (Hlead : (code c =? 48) && nonempty p' = false).
  { destruct (code c =? 48) eqn:E; [|done]. bool_hyps.
    destruct H0 as [-> _]; [|done]. by apply code_inj. }
  unfold parse_number.
  destruct neg; cbn [String.append].
  - change (code "-"%char =? 45) with true. cbv iota.
    change (String c p' +:+ r) with (String c (p' +:+ r)) in Hspan.
    rewrite Hspan, Hlead, Hv. done.
  - change (String c p' +:+ r) with (String c (p' +:+ r)) in Hspan.
    rewrite Hc. cbv iota. rewrite Hspan, Hlead, Hv. done.
Qed.

Lemma parse_number_int z r :
  boundary r = true -> parse_number (dec z +:+ r) = Some (PInt z, r).
Proof.
  intros Hr. unfold dec.
  assert (H : forall (neg : bool) n, 0 <= n ->
    parse_number ((if neg then "-" else "") +:+ dec_nat n +:+ r)
      = Some (PInt (if neg then - n else n), r)).
  { intros neg n Hn. rewrite (parse_number_prefix neg _ n r Hn (dec_nat_numeral n Hn))
      by by apply boundary_not_digit.
    cbv zeta. by rewrite boundary_parse_frac, boundary_parse_exp. }
  destruct (z <? 0) eqn:E; bool_hyps.
  - specialize (H true (- z)). cbv iota in H. rewrite <- sapp_assoc in H.
    rewrite H by lia. do 2 f_equal. f_equal. lia.
  - specialize (H false z). cbn [String.append] in H. apply H. lia.
Qed.

(** A float in the form [repr] gives it. *)
Definition float_ok (m : Z) (k : nat) : Prop := k = O \/ m mod 10 <> 0.

Lemma strip_zeros_id k m : float_ok m k -> strip_zeros k m = (m, k).
Proof.
  destruct k as [|k]; simpl; [done|]. intros [?|H]; [done|].
  by destruct (Z.eqb_spec (m mod 10) 0).
Qed.

Lemma mk_float_id m k : float_ok m k -> mk_float m (Z.of_nat (S k)) = PFloat m k.
Proof.
  intros H. unfold mk_float. destruct (Z.leb_spec (Z.of_nat (S k)) 0); [lia|].
  replace (Z.to_nat (Z.of_nat (S k) - 1)) with k by lia. by rewrite strip_zeros_id.
Qed.

Lemma parse_frac_pad n z r :
  (0 < n)%nat -> 0 <= z -> not_digit_head r = true ->
  parse_frac (("." +:+ pad_digits n z) +:+ r) = Some (pad_digits n z, r).
Proof.
  intros Hn Hz Hr. rewrite sapp_assoc. cbn [String.append parse_frac].
  change (code "."%char =? 46) with true. cbv iota.
  rewrite span_digits_app by (by apply pad_digits_all || done).
  destruct (pad_digits n z) eqn:E; [|done].
  pose proof (pad_digits_length n z) as Hl. rewrite E in Hl. simpl in Hl. lia.
Qed.

Lemma parse_number_float m k r :
  float_ok m k -> boundary r = true -> parse_number (float_repr m k +:+ r) = Some (PFloat m k, r).
Proof.
  intros Hok Hr. unfold float_repr.
  assert (0 < 10 ^ Z.of_nat (S k)) as Hp by (apply Z.pow_pos_nonneg; lia).
  set (e := 10 ^ Z.of_nat (S k)) in *.
  set (sgn := if m <? 0 then "-" else ""). set (q := "." +:+ _).
  replace ((sgn +:+ dec_nat (Z.abs m / e) +:+ q) +:+ r)
    with (sgn +:+ dec_nat (Z.abs m / e) +:+ (q +:+ r)) by by rewrite !sapp_assoc.
  assert (Hq : 0 <= Z.abs m / e) by (apply Z.div_pos; lia).
  assert (Hmod : 0 <= Z.abs m mod e < e) by (apply Z.mod_pos_bound; lia).
  unfold sgn. rewrite (parse_number_prefix (m <? 0) _ _ (q +:+ r) Hq (dec_nat_numeral _ Hq))
    by done.
  cbv zeta. unfold q.
  rewrite parse_frac_pad by (lia || by apply boundary_not_digit).
  rewrite boundary_parse_exp by done.
  rewrite val_digits_app.
  destruct (dec_nat_numeral _ Hq) as (_ & -> & _).
  rewrite pad_digits_val by done. fold e.
  replace (blen (pad_digits (S k) (Z.abs m mod e))) with (Z.of_nat (S k))
    by (unfold blen; by rewrite pad_digits_length).
  replace (if m <? 0 then _ else _) with m.
  - by rewrite mk_float_id.
  - rewrite (Z.mul_comm (_ / e)), <- Z.div_mod by lia. destruct (Z.ltb_spec m 0); lia.
Qed.

(** ** Well-formed values *)

Fixpoint py_ok (v : pyval) : Prop :=
  match v with
  | PFloat m k => float_ok m k
  | PStr s => utf8_valid s = true
  | PList l => (fix go l := match l with [] => True | x :: l' => py_ok x /\ go l' end) l
  | PDict d =>
      dict_ok d /\
      (fix go d := match d with
                   | [] => True
                   | (k, x) :: d' => utf8_valid k = true /\ py_ok x /\ go d'
                   end) d
  | _ => True
  end.

Lemma py_ok_list l : py_ok (PList l) <-> Forall py_ok l.
Proof.
  simpl. induction l as [|x l IH]; [by split|]. rewrite Forall_cons, IH. done.
Qed.

Lemma py_ok_dict d :
  py_ok (PDict d) <->
  dict_ok d /\ Forall (fun kv => utf8_valid (fst kv) = true /\ py_ok (snd kv)) d.
Proof.
  simpl. apply and_iff_compat_l.
  induction d as [|[k x] d IH]; [by split|]. rewrite Forall_cons, IH. simpl. tauto.
Qed.

Lemma py_ok_dset k v d :
  py_ok (PDict d) -> utf8_valid k = true -> py_ok v -> py_ok (PDict (dset k v d)).
Proof.
  rewrite !py_ok_dict. intros [Hd Hf] Hk Hv. split; [by apply dict_ok_dset|]. by apply Forall_dset.
Qed.

Lemma py_ok_dupdate d e : py_ok (PDict d) -> Forall (fun kv => utf8_valid (fst kv) = true /\ py_ok (snd kv)) e ->
  py_ok (PDict (dupdate d e)).
Proof.
  rewrite !py_ok_dict. intros [Hd Hf] He. split; [by apply dict_ok_dupdate|]. by apply Forall_dupdate.
Qed.

Lemma py_ok_ddel k d : py_ok (PDict d) -> py_ok (PDict (ddel k d)).
Proof.
  rewrite !py_ok_dict. intros [Hd Hf]. split; [by apply dict_ok_ddel|].
  revert Hf. clear. induction d as [|[k' v] d IH]; cbn; [done|].
  rewrite Forall_cons. intros [Hv Hf]. destruct (String.eqb k k'); [done|].
  apply Forall_cons. split; [done|by apply IH].
Qed.

Lemma py_ok_lookup k v d : py_ok (PDict d) -> dlookup k d = Some v -> py_ok v.
Proof.
  rewrite py_ok_dict. intros [Hd Hf] H. apply dlookup_elem in H; [|done].
  rewrite Forall_forall in Hf. by apply (Hf (k, v)).
Qed.

(** Distinct literal keys, and the well-formedness of a dictionary of literal keys. *)
Ltac dict_keys :=
  unfold dict_ok; cbn [dkeys map fst]; apply (bool_decide_unpack _); vm_compute; exact I.
Ltac py_ok_fields :=
  apply py_ok_dict; split; [dict_keys|];
  repeat (apply Forall_cons_2; [cbn [fst snd]; split; [reflexivity|]|]); [..|apply Forall_nil_2];
  cbn [py_ok]; auto with secchat.

(** ** Spacing *)

Definition no_space_head (s : string) : bool :=
  match s with EmptyString => false | String c _ => negb (is_json_space c) end.

Lemma skip_ws_id s : no_space_head s = true -> skip_ws s = s.
Proof. destruct s as [|c s]; simpl; [done|]. intros H. bool_hyps. unfold skip_ws. simpl. by rewrite H. Qed.

Lemma skip_ws_item sp s :
  no_space_head s = true -> exists t, item_sep sp +:+ s = String "," t /\ skip_ws t = s.
Proof. intros H. destruct sp; simpl; eexists; (split; [reflexivity|]); exact (skip_ws_id s H). Qed.

Lemma skip_ws_key sp s :
  no_space_head s = true -> exists t, key_sep sp +:+ s = String ":" t /\ skip_ws t = s.
Proof. intros H. destruct sp; simpl; eexists; (split; [reflexivity|]); exact (skip_ws_id s H). Qed.

Definition is_space_or_digit (c : ascii) : bool := is_digit c || negb (is_json_space c).

Lemma digit_not_space c : is_digit c = true -> is_json_space c = false.
Proof.
  unfold is_digit, is_json_space. intros H. bool_hyps.
  by repeat match goal with |- context [?a =? ?b] => destruct (Z.eqb_spec a b); [lia|] end.
Qed.

Lemma dec_nat_head z r : 0 <= z -> exists c t, dec_nat z +:+ r = String c t /\ is_digit c = true.
Proof.
  intros Hz. destruct (dec_nat_numeral z Hz) as (Ha & _ & c & p & Hp & _).
  rewrite Hp in *. simpl in *. bool_hyps. eauto.
Qed.

Lemma json_head sp v r : no_space_head (json_print sp v +:+ r) = true.
Proof.
  destruct v as [|b|z|m k|s|l|d]; simpl; try done.
  - by destruct b.
  - unfold dec. destruct (z <? 0) eqn:E; bool_hyps; [done|].
    destruct (dec_nat_head z r) as (c & t & -> & Hc); [lia|]. simpl.
    by rewrite digit_not_space.
  - unfold float_repr. destruct (m <? 0); [done|]. cbn [String.append].
    rewrite sapp_assoc. edestruct dec_nat_head as (c & t & -> & Hc).
    + apply Z.div_pos; [lia|]. apply Z.pow_pos_nonneg; lia.
    + simpl. by rewrite digit_not_space.
Qed.

Lemma join_cons sep x y l : join sep (x :: y :: l) = x +:+ sep +:+ join sep (y :: l).
Proof. reflexivity. Qed.

Lemma json_join_head sp x l r :
  no_space_head (join (item_sep sp) (map (json_print sp) (x :: l)) +:+ r) = true.
Proof.
  destruct l as [|y l]; cbn [map]; [apply json_head|].
  rewrite join_cons, sapp_assoc. apply json_head.
Qed.

(** ** The round trip *)

(** Depth of calls needed to read a printed value. *)
Fixpoint need (v : pyval) : nat :=
  match v with
  | PList l => S (list_sum (map (fun x => S (need x)) l))
  | PDict d => S (list_sum (map (fun kv => S (need (snd kv))) d))
  | _ => 1%nat
  end.

Definition reads_back (sp : bool) (v : pyval) : Prop :=
  forall f r, (need v <= f)%nat -> boundary r = true ->
  parse_value f (json_print sp v +:+ r) = Some (v, r).

Lemma parse_elems_print sp l f r :
  l <> [] -> Forall (reads_back sp) l ->
  (list_sum (map (fun x => S (need x)) l) <= f)%nat ->
  parse_elems f (join (item_sep sp) (map (json_print sp) l) +:+ String "]" r) = Some (l, r).
Proof.
  revert f. induction l as [|x l IH]; intros f Hne Hl Hf; [done|].
  apply Forall_cons in Hl as [Hx Hl]. simpl in Hf.
  destruct f as [|f]; [lia|].
  destruct l as [|y l].
  - simpl map. cbn [join parse_elems]. rewrite Hx by (done || lia). done.
  - change (join _ (map (json_print sp) (x :: y :: l)))
      with (json_print sp x +:+ item_sep sp +:+ join (item_sep sp) (map (json_print sp) (y :: l))).
    rewrite !sapp_assoc. cbn [parse_elems].
    edestruct (skip_ws_item sp (join (item_sep sp) (map (json_print sp) (y :: l)) +:+ String "]" r))
      as (t & Ht & Hskip).
    { apply json_join_head. }
    rewrite Ht, Hx by (done || lia).
    rewrite skip_ws_id by done. cbn [code]. change (code "," =? 93) with false.
    change (code "," =? 44) with true. cbv iota.
    rewrite Hskip, IH by (done || lia). done.
Qed.

Definition print_pair (sp : bool) (kv : string * pyval) : string :=
  json_str (fst kv) +:+ key_sep sp +:+ json_print sp (snd kv).

Lemma parse_members_print sp d f r :
  d <> [] -> Forall (fun kv => reads_back sp (snd kv)) d ->
  (list_sum (map (fun kv => S (need (snd kv))) d) <= f)%nat ->
  parse_members f (join (item_sep sp) (map (print_pair sp) d) +:+ String "}" r) = Some (d, r).
Proof.
  revert f. induction d as [|[k x] d IH]; intros f Hne Hd Hf; [done|].
  apply Forall_cons in Hd as [Hx Hd]. simpl in Hf, Hx.
  destruct f as [|f]; [lia|].
  assert (Hone : forall t f' tl, (need x <= f')%nat -> boundary t = true ->
    skip_ws t = t ->
    match t with
    | String e s4 => tl = (if code e =? 125 then Some ([(k, x)], s4)
                     else if code e =? 44 then
                       match parse_members f' (skip_ws s4) with
                       | Some (l, r) => Some ((k, x) :: l, r) | None => None end
                     else None)
    | EmptyString => tl = None
    end ->
    parse_members (S f') (print_pair sp (k, x) +:+ t) = tl).
  { intros t f' tl Hf' Ht Hws Htl. unfold print_pair, json_str. cbn [fst snd parse_members].
    rewrite !sapp_assoc. cbn [String.append]. change (code dq =? 34) with true. cbv iota.
    rewrite sapp_assoc. cbn [String.append]. rewrite parse_escape_body.
    destruct (skip_ws_key sp (json_print sp x +:+ t)) as (u & -> & Hu); [apply json_head|].
    rewrite skip_ws_id by done. change (code ":" =? 58) with true. cbv iota.
    rewrite Hu, Hx by done. rewrite Hws. destruct t; by rewrite Htl. }
  destruct d as [|kv d].
  - simpl map. cbn [join]. apply Hone; (done || lia).
  - change (join _ (map (print_pair sp) ((k, x) :: kv :: d)))
      with (print_pair sp (k, x) +:+ item_sep sp +:+
            join (item_sep sp) (map (print_pair sp) (kv :: d))).
    rewrite !sapp_assoc.
    edestruct (skip_ws_item sp (join (item_sep sp) (map (print_pair sp) (kv :: d)) +:+ String "}" r))
      as (t & Ht & Hskip).
    { simpl. destruct d; [done|]. done. }
    rewrite Ht. apply Hone; [lia|done|done|].
    change (code "," =? 125) with false. change (code "," =? 44) with true. cbv iota.
    by rewrite Hskip, IH by (done || lia).
Qed.

(** Rebuilding a dictionary from its items. *)
Lemma dupdate_nodup (acc d : list (string * pyval)) :
  NoDup (dkeys (acc ++ d)) -> dupdate acc d = acc ++ d.
Proof.
  revert acc. induction d as [|[k v] d IH]; intros acc Hnd; simpl; [by rewrite app_nil_r|].
  assert (Hset : dset k v acc = acc ++ [(k, v)]).
  { assert (k ∉ dkeys acc) as Hk.
    { unfold dkeys in Hnd. rewrite map_app in Hnd. apply NoDup_app in Hnd as (_ & Hd & _).
      intros H. apply (Hd _ H). simpl. set_solver. }
    clear -Hk. induction acc as [|[k' v'] acc IH]; simpl in *; [done|].
    apply not_elem_of_cons in Hk as [Hne Hk]. apply String.eqb_neq in Hne as ->.
    by rewrite IH. }
  unfold dupdate in *. simpl. rewrite Hset, IH; rewrite <- app_assoc; done.
Qed.

Lemma json_read sp v : py_ok v -> reads_back sp v.
Proof.
  induction v as [|b|z|m k|s|l IH|d IH] using pyval_nested_ind; intros Hok f r Hf Hr;
    (destruct f as [|f]; [simpl in Hf; lia|]).
  - reflexivity.
  - by destruct b.
  - cbn [json_print]. pose proof (parse_number_int z r Hr) as Hn.
    unfold dec in *. destruct (z <? 0) eqn:E; bool_hyps.
    + cbn [String.append] in *. cbn [parse_value]. by rewrite Hn.
    + destruct (dec_nat_head z r) as (c & t & Hc & Hd); [lia|].
      rewrite Hc in *. cbn [parse_value]. unfold is_digit in Hd. bool_hyps.
      by repeat (match goal with |- context [code c =? ?b] =>
        destruct (Z.eqb_spec (code c) b); [lia|] end).
  - cbn [json_print]. pose proof (parse_number_float m k r Hok Hr) as Hn.
    unfold float_repr in *. destruct (m <? 0) eqn:E; bool_hyps.
    + cbn [String.append] in *. cbn [parse_value]. by rewrite Hn.
    + cbn [String.append] in *. rewrite sapp_assoc in *.
      edestruct (dec_nat_head (Z.abs m / 10 ^ Z.of_nat (S k))) as (c & t & Hc & Hd).
      { apply Z.div_pos; [lia|]. apply Z.pow_pos_nonneg; lia. }
      rewrite Hc in *. cbn [parse_value]. unfold is_digit in Hd. bool_hyps.
      by repeat (match goal with |- context [code c =? ?b] =>
        destruct (Z.eqb_spec (code c) b); [lia|] end).
  - cbn [json_print]. unfold json_str. cbn [String.append parse_value].
    change (code dq =? 34) with true. cbv iota.
    rewrite sapp_assoc. cbn [String.append]. by rewrite parse_escape_body.
  - apply py_ok_list in Hok. destruct l as [|x l]; [done|].
    cbn [json_print]. rewrite sapp_assoc. cbn [String.append parse_value].
    change (code "[" =? 34) with false. change (code "[" =? 91) with true. cbv iota.
    assert (Hall : Forall (reads_back sp) (x :: l)) by exact (Forall_mp _ _ _ Hok IH).
    rewrite sapp_assoc. cbn [String.append].
    pose proof (parse_elems_print sp (x :: l) f r ltac:(done) Hall) as He.
    simpl need in Hf. specialize (He ltac:(simpl; simpl in Hf; lia)).
    revert He. set (body := join _ _ +:+ _). intros He.
    assert (Hhd : no_space_head body = true).
    { apply json_join_head. }
    rewrite skip_ws_id by done.
    destruct body as [|c body']; [done|].
    destruct (code c =? 93) eqn:E.
    + exfalso. destruct f as [|f]; [simpl in He; done|]. cbn [parse_elems] in He.
      destruct f as [|f]; [simpl in He; done|]. cbn [parse_value] in He.
      bool_hyps. rewrite E in He. simpl in He. unfold parse_number in He.
      rewrite E in He. simpl in He. unfold is_digit in He. rewrite E in He. done.
    + by rewrite He.
  - apply py_ok_dict in Hok as [Hnd Hok]. destruct d as [|kv d]; [done|].
    cbn [json_print]. rewrite sapp_assoc. cbn [String.append parse_value].
    change (code "{" =? 34) with false. change (code "{" =? 91) with false.
    change (code "{" =? 123) with true. cbv iota.
    assert (Hall : Forall (fun kv => reads_back sp (snd kv)) (kv :: d)).
    { apply (Forall_mp _ _ _ Hok). eapply Forall_impl; [exact IH|]. simpl. tauto. }
    rewrite sapp_assoc. cbn [String.append].
    pose proof (parse_members_print sp (kv :: d) f r ltac:(done) Hall) as He.
    simpl need in Hf. specialize (He ltac:(simpl; simpl in Hf; lia)).
    change (map (fun kv0 => _) (kv :: d)) with (map (print_pair sp) (kv :: d)).
    revert He. set (body := join _ _ +:+ _). intros He.
    assert (exists t, body = String dq t) as [t Ht].
    { unfold body. simpl. destruct d; simpl; eauto. }
    rewrite Ht in *. rewrite skip_ws_id by done.
    change (code dq =? 125) with false. cbv iota. rewrite He.
    by rewrite (dupdate_nodup [] (kv :: d)).
Qed.

(** ** Enough fuel *)

Lemma print_nonempty sp v : (1 <= String.length (json_print sp v))%nat.
Proof.
  pose proof (json_head sp v "") as H. rewrite sapp_nil_r in H.
  destruct (json_print sp v); simpl in *; [done|lia].
Qed.

Lemma join_length_sum {A} (f : A -> string) (n : A -> nat) sp l :
  l <> [] -> Forall (fun x => (n x <= 2 * String.length (f x))%nat) l ->
  (list_sum (map (fun x => S (n x)) l)
     <= 2 * String.length (join (item_sep sp) (map f l)) + 1)%nat.
Proof.
  intros Hne H. induction H as [|x l Hx Hl IH]; [done|].
  destruct l as [|y l]; [simpl; lia|].
  cbn [map]. rewrite join_cons, !sapp_length. simpl list_sum in *.
  assert (1 <= String.length (item_sep sp))%nat by (destruct sp; simpl; lia).
  specialize (IH ltac:(done)). cbn [map] in IH. lia.
Qed.

Lemma need_length sp v : (need v <= 2 * String.length (json_print sp v))%nat.
Proof.
  induction v as [|b|z|m k|s|l IH|d IH] using pyval_nested_ind;
    try (cbn [need]; match goal with |- (1 <= 2 * String.length (json_print sp ?v))%nat =>
           pose proof (print_nonempty sp v) end; lia).
  - destruct l as [|x l]; [simpl; lia|].
    cbn [json_print need]. rewrite !sapp_length.
    pose proof (join_length_sum (json_print sp) need sp (x :: l) ltac:(done) IH).
    cbn [String.length]. lia.
  - destruct d as [|kv d]; [simpl; lia|].
    cbn [json_print need]. rewrite !sapp_length.
    assert (Hd : Forall (fun kv => (need (snd kv) <= 2 * String.length (print_pair sp kv))%nat)
                   (kv :: d)).
    { eapply Forall_impl; [exact IH|]. intros [k x] Hx. unfold print_pair.
      rewrite !sapp_length. simpl in *. lia. }
    pose proof (join_length_sum (print_pair sp) (fun kv => need (snd kv)) sp (kv :: d)
                  ltac:(done) Hd).
    cbn [String.length]. unfold print_pair in *. lia.
Qed.

(** [json.loads] reads back what [json.dumps] wrote. *)
Lemma json_loads_print sp v : py_ok v -> json_loads (json_print sp v) = Ok v.
Proof.
  intros Hok. unfold json_loads.
  pose proof (json_head sp v "") as Hh. rewrite sapp_nil_r in Hh.
  rewrite skip_ws_id by done.
  pose proof (json_read sp v Hok (2 * String.length (json_print sp v) + 2)%nat "") as Hr.
  rewrite sapp_nil_r in Hr. rewrite Hr; [done| |done].
  pose proof (need_length sp v). lia.
Qed.

(** ** Sorting keys *)

Lemma sort_items_keys {A} (d : list (string * A)) : dkeys (sort_items d) ≡ₚ dkeys d.
Proof. unfold dkeys, sort_items. by rewrite isort_perm. Qed.

Lemma dict_ok_sort {A} (d : list (string * A)) : dict_ok d -> dict_ok (sort_items d).
Proof. unfold dict_ok. by rewrite sort_items_keys. Qed.

Lemma py_sort_ok v : py_ok v -> py_ok (py_sort v).
Proof.
  induction v as [|b|z|m k|s|l IH|d IH] using pyval_nested_ind; try done.
  - rewrite py_ok_list. intros H. apply py_ok_list, Forall_fmap.
    exact (Forall_mp _ _ _ H IH).
  - rewrite py_ok_dict. intros [Hnd H]. cbn [py_sort]. apply py_ok_dict. split.
    + apply dict_ok_sort. unfold dict_ok, dkeys in *. by rewrite map_map.
    + unfold sort_items. rewrite isort_perm. apply Forall_fmap.
      apply (Forall_mp _ _ _ H). eapply Forall_impl; [exact IH|]. simpl. tauto.
Qed.

Lemma json_loads_dumps sp sort v :
  py_ok v -> json_loads (json_dumps sp sort v) = Ok (if sort then py_sort v else v).
Proof.
  intros Hok. unfold json_dumps. apply json_loads_print. destruct sort; [by apply py_sort_ok|done].
Qed.

(** Two well-formed values with the same text are equal up to key order. *)
Lemma json_dumps_inj sp sort v w :
  py_ok v -> py_ok w -> json_dumps sp sort v = json_dumps sp sort w ->
  (if sort then py_sort v else v) = (if sort then py_sort w else w).
Proof.
  intros Hv Hw H. pose proof (json_loads_dumps sp sort v Hv) as E.
  rewrite H, json_loads_dumps in E by done. congruence.
Qed.

(** ** UTF-8 *)

(** Induction over the encoded characters of a valid string. *)
Lemma utf8_valid_ind (P : string -> Prop) :
  P "" ->
  (forall a s, code a < 128 -> utf8_valid s = true -> P s -> P (String a s)) ->
  (forall a b s, in_range 194 223 (code a) = true -> cont_byte b = true ->
     utf8_valid s = true -> P s -> P (String a (String b s))) ->
  (forall a b c s, in_range 224 239 (code a) = true -> second3 (code a) b = true ->
     cont_byte c = true -> utf8_valid s = true -> P s -> P (String a (String b (String c s)))) ->
  (forall a b c d s, in_range 240 244 (code a) = true -> second4 (code a) b = true ->
     cont_byte c = true -> cont_byte d = true -> utf8_valid s = true -> P s ->
     P (String a (String b (String c (String d s))))) ->
  forall s, utf8_valid s = true -> P s.
Proof.
  intros H0 H1 H2 H3 H4 s.
  remember (String.length s) as n eqn:Hn. revert s Hn.
  induction (lt_wf n) as [n _ IH]. intros s -> Hs.
  destruct s as [|a s1]; [done|]. simpl in Hs.
  destruct (code a <? 128) eqn:Ea; bool_hyps.
  { apply H1; [done..|]. eapply IH; [|done|done]. simpl. lia. }
  destruct s1 as [|b s2]; [done|].
  destruct (in_range 194 223 (code a)) eqn:E2; bool_hyps.
  { apply H2; [done..|]. eapply IH; [|done|done]. simpl. lia. }
  destruct s2 as [|c s3]; [done|].
  destruct (in_range 224 239 (code a)) eqn:E3; bool_hyps.
  { apply H3; [done..|]. eapply IH; [|done|done]. simpl. lia. }
  destruct s3 as [|d s4]; [done|]. bool_hyps.
  apply H4; [done..|]. eapply IH; [|done|done]. simpl. lia.
Qed.

Lemma not_ascii_lead lo hi z : in_range lo hi z = true -> 128 <= lo -> (z <? 128) = false.
Proof. unfold in_range. intros H Hlo. bool_hyps. lia. Qed.

Lemma in_range_disjoint lo hi lo' hi' z :
  hi < lo' -> in_range lo' hi' z = true -> in_range lo hi z = false.
Proof. unfold in_range. intros H H'. bool_hyps. apply andb_false_intro2. lia. Qed.

Lemma utf8_valid_app a b : utf8_valid a = true -> utf8_valid (a +:+ b) = utf8_valid b.
Proof.
  revert a. apply (utf8_valid_ind (fun a => utf8_valid (a +:+ b) = utf8_valid b)); [done|..].
  - intros x s Hx Hs IH. cbn [String.append utf8_valid]. by rewrite (proj2 (Z.ltb_lt _ _) Hx).
  - intros x y s Hx Hy Hs IH. cbn [String.append utf8_valid].
    by rewrite (not_ascii_lead _ _ _ Hx ltac:(lia)), Hx, Hy.
  - intros x y z s Hx Hy Hz Hs IH. cbn [String.append utf8_valid].
    rewrite (not_ascii_lead _ _ _ Hx ltac:(lia)), Hx, Hy, Hz.
    by rewrite (in_range_disjoint 194 223 224 239) by (lia || done).
  - intros x y z w s Hx Hy Hz Hw Hs IH. cbn [String.append utf8_valid].
    rewrite (not_ascii_lead _ _ _ Hx ltac:(lia)), Hx, Hy, Hz, Hw.
    by rewrite (in_range_disjoint 194 223 240 244), (in_range_disjoint 224 239 240 244)
      by (lia || done).
Qed.

Lemma utf8_valid_ascii s : string_all is_ascii s = true -> utf8_valid s = true.
Proof.
  induction s as [|c s IH]; simpl; [done|]. intros H. bool_hyps.
  unfold is_ascii in H. by rewrite H, IH.
Qed.

Lemma utf8_valid_join sep l :
  utf8_valid sep = true -> Forall (fun s => utf8_valid s = true) l ->
  utf8_valid (join sep l) = true.
Proof.
  intros Hsep H. induction H as [|x l Hx Hl IH]; [done|].
  destruct l as [|y l]; [done|]. rewrite join_cons. by rewrite !utf8_valid_app.
Qed.

Lemma escape_char_ascii c : code c < 128 -> string_all is_ascii (escape_char c) = true.
Proof. destruct c as [[] [] [] [] [] [] [] []]; intros H; first [reflexivity|by vm_compute in H]. Qed.

Lemma escape_char_high c : 128 <= code c -> escape_char c = String c "".
Proof. destruct c as [[] [] [] [] [] [] [] []]; intros H; first [reflexivity|by vm_compute in H]. Qed.

Lemma escape_body_valid s : utf8_valid s = true -> utf8_valid (escape_body s) = true.
Proof.
  assert (Hc : forall c, cont_byte c = true -> 128 <= code c).
  { intros c. unfold cont_byte, in_range. intros. bool_hyps. done. }
  assert (H3 : forall x c, second3 x c = true -> 128 <= code c).
  { intros x c. unfold second3, cont_byte, in_range. repeat case_match; intros; bool_hyps; lia. }
  assert (H4 : forall x c, second4 x c = true -> 128 <= code c).
  { intros x c. unfold second4, cont_byte, in_range. repeat case_match; intros; bool_hyps; lia. }
  assert (Hr : forall lo hi z, in_range lo hi z = true -> lo <= z <= hi).
  { intros lo hi z. unfold in_range. intros. bool_hyps. lia. }
  revert s. apply (utf8_valid_ind (fun s => utf8_valid (escape_body s) = true)); [done|..].
  - intros x s Hx Hs IH. cbn [escape_body]. rewrite utf8_valid_app; [done|]. by apply utf8_valid_ascii, escape_char_ascii.
  - intros x y s Hx Hy Hs IH. cbn [escape_body]. pose proof (Hr _ _ _ Hx).
    rewrite !escape_char_high by (lia || auto). cbn [String.append utf8_valid].
    by rewrite (not_ascii_lead _ _ _ Hx ltac:(lia)), Hx, Hy.
  - intros x y z s Hx Hy Hz Hs IH. cbn [escape_body]. pose proof (Hr _ _ _ Hx).
    rewrite !escape_char_high by (lia || eauto). cbn [String.append utf8_valid].
    rewrite (not_ascii_lead _ _ _ Hx ltac:(lia)), Hx, Hy, Hz.
    by rewrite (in_range_disjoint 194 223 224 239) by (lia || done).
  - intros x y z w s Hx Hy Hz Hw Hs IH. cbn [escape_body]. pose proof (Hr _ _ _ Hx).
    rewrite !escape_char_high by (lia || eauto). cbn [String.append utf8_valid].
    rewrite (not_ascii_lead _ _ _ Hx ltac:(lia)), Hx, Hy, Hz, Hw.
    by rewrite (in_range_disjoint 194 223 240 244), (in_range_disjoint 224 239 240 244)
      by (lia || done).
Qed.

Lemma json_str_valid s : utf8_valid s = true -> utf8_valid (json_str s) = true.
Proof.
  intros H. unfold json_str. change (String dq ?x) with (String dq "" +:+ x).
  rewrite utf8_valid_app, utf8_valid_app; [done| |done]. by apply escape_body_valid.
Qed.

Lemma digits_ascii p : string_all is_digit p = true -> string_all is_ascii p = true.
Proof.
  induction p as [|c p IH]; simpl; [done|]. intros H. bool_hyps. rewrite IH by done.
  unfold is_digit in H. unfold is_ascii. bool_hyps. rewrite andb_true_r. lia.
Qed.

Lemma dec_nat_ascii z : 0 <= z -> string_all is_ascii (dec_nat z) = true.
Proof. intros Hz. apply digits_ascii. by destruct (dec_nat_numeral z Hz) as [? _]. Qed.

Lemma dec_ascii z : string_all is_ascii (dec z) = true.
Proof.
  unfold dec. destruct (z <? 0) eqn:E; bool_hyps; [|by apply dec_nat_ascii].
  rewrite string_all_app, dec_nat_ascii by lia. done.
Qed.

Lemma float_repr_ascii m k : string_all is_ascii (float_repr m k) = true.
Proof.
  unfold float_repr. assert (0 < 10 ^ Z.of_nat (S k)) by (apply Z.pow_pos_nonneg; lia).
  rewrite !string_all_app, dec_nat_ascii by (apply Z.div_pos; lia).
  rewrite (digits_ascii (pad_digits _ _))
    by (apply pad_digits_all; apply Z.mod_pos_bound; lia).
  by destruct (m <? 0).
Qed.

(** A well-formed value prints as valid UTF-8, so encoding it cannot fail. *)
Lemma json_print_valid sp v : py_ok v -> utf8_valid (json_print sp v) = true.
Proof.
  induction v as [|b|z|m k|s|l IH|d IH] using pyval_nested_ind; intros Hok; cbn [json_print].
  - done.
  - by destruct b.
  - apply utf8_valid_ascii, dec_ascii.
  - apply utf8_valid_ascii, float_repr_ascii.
  - by apply json_str_valid.
  - apply py_ok_list in Hok. rewrite utf8_valid_app, utf8_valid_app; [done| |done].
    apply utf8_valid_join; [by destruct sp|]. apply Forall_fmap.
    exact (Forall_mp _ _ _ Hok IH).
  - apply py_ok_dict in Hok as [_ Hok]. rewrite utf8_valid_app, utf8_valid_app; [done| |done].
    apply utf8_valid_join; [by destruct sp|]. apply Forall_fmap.
    apply (Forall_mp _ _ _ Hok). eapply Forall_impl; [exact IH|].
    intros [k x] Hx [Hk Hv]. simpl in *.
    rewrite utf8_valid_app, utf8_valid_app; [auto|by destruct sp|by apply json_str_valid].
Qed.

Lemma json_dumps_valid sp sort v : py_ok v -> utf8_valid (json_dumps sp sort v) = true.
Proof.
  intros H. unfold json_dumps. apply json_print_valid. destruct sort; [by apply py_sort_ok|done].
Qed.
#[export] Hint Resolve json_dumps_valid py_sort_ok : secchat.
