(* ===== verification/Crypto.v ===== *)
(** * Cryptographic primitives as an interface

    SecChat calls Ed25519, X25519, AES-GCM, HKDF, PBKDF2 and ML-KEM through the
    third-party packages [cryptography] and [liboqs]. They are the methods of
    the class [Prims]; [PrimLaws] states the documented behaviour the proofs
    use (lengths, and that each operation inverts its counterpart), and
    [AeadStrict] that opening under other inputs than those of the sealing
    fails. Where a theorem speaks of hash forgeries it exhibits the colliding
    inputs instead of assuming there are none.

    [reference_prims] is a concrete instance satisfying every law, used to
    evaluate witnesses. It is not secure. *)

From S2P Require Import Prelude Hashing.

Class Prims := {
  (** Ed25519: public key of a seed; [sign seed msg]; [verify pk sig msg]. *)
  ed_pub : bytes -> bytes;
  ed_sign : bytes -> bytes -> bytes;
  ed_verify : bytes -> bytes -> bytes -> bool;
  (** X25519: public key; [exchange sk pk] is [None] when the package raises
      (a low-order point). *)
  x_pub : bytes -> bytes;
  x_exchange : bytes -> bytes -> option bytes;
  (** HKDF-SHA256: [salt] ([None]: no salt), [info], output length, input. *)
  hkdf_derive : option bytes -> bytes -> nat -> bytes -> bytes;
  (** PBKDF2-HMAC-SHA256, 32 bytes: salt, iterations, password. *)
  pbkdf2_derive : bytes -> Z -> bytes -> bytes;
  (** AES-GCM: key, nonce, data, associated data; [None] is [InvalidTag]. *)
  aes_encrypt : bytes -> bytes -> bytes -> option bytes -> bytes;
  aes_decrypt : bytes -> bytes -> bytes -> option bytes -> option bytes;
  (** ML-KEM/Kyber by algorithm name: key pair from a seed, encapsulation from
      a seed (ciphertext and shared secret), decapsulation. *)
  kem_pair : string -> bytes -> bytes * bytes;
  kem_encap : string -> bytes -> bytes -> option (bytes * bytes);
  kem_decap : string -> bytes -> bytes -> option bytes
}.

Definition len32 (s : bytes) : Prop := String.length s = 32%nat.
Definition len32b (s : bytes) : bool := Nat.eqb (String.length s) 32.

Lemma len32b_spec s : len32b s = true <-> len32 s.
Proof. apply Nat.eqb_eq. Qed.

Class PrimLaws (P : Prims) : Prop := {
  ed_pub_len sk : len32 sk -> len32 (ed_pub sk);
  ed_sign_len sk m : len32 sk -> String.length (ed_sign sk m) = 64%nat;
  ed_verify_sign sk m : len32 sk -> ed_verify (ed_pub sk) (ed_sign sk m) m = true;
  x_pub_len sk : len32 sk -> len32 (x_pub sk);
  x_exchange_honest a b : len32 a -> len32 b ->
    exists z, x_exchange a (x_pub b) = Some z /\ x_exchange b (x_pub a) = Some z;
  hkdf_len salt info n ikm : String.length (hkdf_derive salt info n ikm) = n;
  pbkdf2_len salt it pw : len32 (pbkdf2_derive salt it pw);
  aes_decrypt_encrypt k n p a : aes_decrypt k n (aes_encrypt k n p a) a = Some p;
  aes_decrypt_inv k n c p a : aes_decrypt k n c a = Some p -> c = aes_encrypt k n p a;
  kem_correct alg r r' : exists ct ss,
    kem_encap alg (fst (kem_pair alg r)) r' = Some (ct, ss) /\
    kem_decap alg (snd (kem_pair alg r)) ct = Some ss;
  kem_pub_nonempty alg r : fst (kem_pair alg r) <> ""
}.

(** [AESGCM.decrypt] raises [InvalidTag] "when the key, nonce, or associated data
    are wrong" (the package's documentation). A class of its own: only the
    theorems that need it assume it. *)
Class AeadStrict (P : Prims) : Prop :=
  aes_wrong_inputs k n p a k' n' a' p' :
    aes_decrypt k' n' (aes_encrypt k n p a) a' = Some p' -> k' = k /\ n' = n /\ a' = a.

(** ** The reference instance *)

Fixpoint sxor (a b : string) : string :=
  match a, b with
  | String c a', String d b' => String (chr8 (Z.lxor (code c) (code d))) (sxor a' b')
  | _, _ => ""
  end.

Lemma sxor_comm a b : sxor a b = sxor b a.
Proof.
  revert b. induction a as [|c a IH]; intros [|d b]; simpl; [done..|].
  by rewrite Z.lxor_comm, IH.
Qed.

(** [n] bytes expanded from a seed, block by block. *)
Fixpoint expand_blocks (k : nat) (seed : bytes) : bytes :=
  match k with
  | O => ""
  | S k' => sha256 (String (chr8 (Z.of_nat k)) seed) +:+ expand_blocks k' seed
  end.

Definition expand (n : nat) (seed : bytes) : bytes := stake n (expand_blocks (S (n / 32)) seed).

Lemma expand_blocks_length k seed : String.length (expand_blocks k seed) = (32 * k)%nat.
Proof.
  induction k as [|k IH]; [done|]. cbn [expand_blocks].
  rewrite sapp_length, sha256_length, IH. lia.
Qed.

Lemma expand_length n seed : String.length (expand n seed) = n.
Proof.
  unfold expand. apply stake_length. rewrite expand_blocks_length.
  pose proof (Nat.div_mod_eq n 32). pose proof (Nat.mod_upper_bound n 32). lia.
Qed.

Definition opt_bytes (o : option bytes) : bytes :=
  match o with Some s => String "1"%char s | None => "0" end.

(** Sealing prefixes the key, nonce and associated data in hexadecimal. *)
Definition ref_prefix (k n : bytes) (a : option bytes) : bytes :=
  hex k +:+ String "."%char (hex n +:+ String "."%char (hex (opt_bytes a) +:+ ".")).

Definition ref_open (k n c : bytes) (a : option bytes) : option bytes :=
  let h := ref_prefix k n a in
  if starts_with h c then Some (sdrop (String.length h) c) else None.

Definition ref_sign (sk m : bytes) : bytes := sha256 (sk +:+ m) +:+ sha256 (m +:+ sk).

#[export] Instance reference_prims : Prims := {
  ed_pub sk := sk;
  ed_sign := ref_sign;
  ed_verify pk sig m := String.eqb sig (ref_sign pk m);
  x_pub sk := sk;
  x_exchange a p := Some (sxor a p);
  hkdf_derive salt info n ikm := expand n (opt_bytes salt +:+ info +:+ ikm);
  pbkdf2_derive salt it pw := sha256 (salt +:+ pw);
  aes_encrypt k n p a := ref_prefix k n a +:+ p;
  aes_decrypt := ref_open;
  kem_pair alg r := (String "K"%char r, r);
  kem_encap alg pk r := Some (r, sha256 (pk +:+ r));
  kem_decap alg sk ct := Some (sha256 (String "K"%char sk +:+ ct))
}.

#[export] Instance reference_laws : PrimLaws reference_prims.
Proof.
  split; cbn -[ref_prefix].
  - done.
  - intros sk m _. unfold ref_sign. by rewrite sapp_length, !sha256_length.
  - intros. apply String.eqb_refl.
  - done.
  - intros a b _ _. exists (sxor a b). by rewrite (sxor_comm b a).
  - intros. apply expand_length.
  - intros. apply sha256_length.
  - intros k n p a. unfold ref_open. by rewrite starts_with_app, sdrop_app.
  - intros k n c p a. unfold ref_open. case_match eqn:E; [|done].
    intros [= <-]. by apply starts_with_inv.
  - intros alg r r'. eauto.
  - done.
Qed.

Lemma hex_not_dot s : string_all (not_char ".") (hex s) = true.
Proof.
  induction s as [|c s IH]; [done|]. cbn [hex string_all].
  assert (H : forall z, 0 <= z < 16 -> not_char "." (hex_digit z) = true)
    by (intros z Hz; digit_cases z; reflexivity).
  pose proof (code_range c). rewrite !H, IH by dlia. done.
Qed.

#[export] Instance reference_strict : AeadStrict reference_prims.
Proof.
  intros k n p a k' n' a' p'. cbn -[ref_prefix]. unfold ref_open.
  case_match eqn:E; [|done]. intros _. apply starts_with_inv in E. revert E.
  generalize (sdrop (String.length (ref_prefix k' n' a')) (ref_prefix k n a +:+ p)). intros q E.
  unfold ref_prefix in E. rewrite !sapp_assoc in E. cbn [String.append] in E.
  rewrite !sapp_assoc in E. cbn [String.append] in E. rewrite !sapp_assoc in E.
  apply sapp_sep_inj in E as [Hk E]; [|apply hex_not_dot..].
  apply sapp_sep_inj in E as [Hn E]; [|apply hex_not_dot..].
  cbn [String.append] in E. apply sapp_sep_inj in E as [Ha _]; [|apply hex_not_dot..].
  apply hex_inj in Hk, Hn, Ha. split; [done|]. split; [done|].
  destruct a as [a|], a' as [a'|]; by simplify_eq.
Qed.
