(* ===== verification/Auditor.v ===== *)
(** * The identity auditor (auditor_service.py)

    The service reads the append-only table [identity_key_log], builds a Merkle
    tree over the [leaf_hash] column, signs a checkpoint of its root and serves
    inclusion and consistency data. Each request rebuilds the tree, so a request
    is a function of the rows, the clock and the signing key.

    The database driver, the HTTP socket and URL parsing stay outside: a handler
    takes the rows, the decoded path and the parsed query string, and returns the
    status and the JSON body. *)

From S2P Require Import Prelude Hashing PyVal Json Crypto.

(** One row of [identity_key_log], as [_load_rows] returns it. *)
Record row := Row {
  log_index : Z; r_user_id : Z; r_identity_version : Z; r_identity_pk : string;
  device_id_hash : string; r_device_label : string; r_event_type : string;
  r_created_at : string; leaf_hash : string; leaf_index : Z
}.

Definition row_json (r : row) : dict :=
  [("log_index", PInt (log_index r)); ("user_id", PInt (r_user_id r));
   ("identity_version", PInt (r_identity_version r));
   ("identity_pk", PStr (r_identity_pk r)); ("device_id_hash", PStr (device_id_hash r));
   ("device_label", PStr (r_device_label r)); ("event_type", PStr (r_event_type r));
   ("created_at", PStr (r_created_at r)); ("leaf_hash", PStr (leaf_hash r));
   ("leaf_index", PInt (leaf_index r))].

(** The text whose SHA-256 is a row's [leaf_hash]: [key_identity_log_append] of
    server/repository/key_repo.c, which inserts the rows. *)
Definition leaf_canon (r : row) : bytes :=
  "SecChatIdentityLeaf|" +:+ dec (r_user_id r) +:+ "|" +:+ dec (r_identity_version r) +:+ "|" +:+
  r_identity_pk r +:+ "|" +:+ device_id_hash r +:+ "|" +:+ r_device_label r +:+ "|" +:+
  r_event_type r +:+ "|" +:+ r_created_at r.

(** A sibling on the path to the root. *)
Record proof_item := ProofItem { side : string; phash : string }.

Definition item_json (i : proof_item) : pyval :=
  PDict [("side", PStr (side i)); ("hash", PStr (phash i))].

(** ** The Merkle tree *)

Definition node_preimage (a b : bytes) : bytes := String (chr8 1) (a +:+ b).

Definition node_hash (left_hex right_hex : string) : res string :=
  let! a := fromhex left_hex in
  let! b := fromhex right_hex in
  Ok (sha256_hex (node_preimage a b)).

Definition empty_root : string := sha256_hex "SecChatEmptyIdentityTree".

(** One pass of the pairing loop: an odd last node moves up unchanged. *)
Fixpoint next_layer (cur : list string) : res (list string) :=
  match cur with
  | [] => Ok []
  | [a] => Ok [a]
  | a :: b :: t => let! h := node_hash a b in let! r := next_layer t in Ok (h :: r)
  end.

(** [while len(cur) > 1]; [fuel = len(leaf_hashes)] is enough (the layers halve). *)
Fixpoint layers_from (fuel : nat) (cur : list string) : res (list (list string)) :=
  match fuel with
  | O => Ok [cur]
  | S f =>
      if (1 <? length cur)%nat then
        let! nxt := next_layer cur in
        let! rest := layers_from f nxt in
        Ok (cur :: rest)
      else Ok [cur]
  end.

Definition tree_layers (leaf_hashes : list string) : res (list (list string)) :=
  match leaf_hashes with
  | [] => Ok [[empty_root]]
  | _ => layers_from (length leaf_hashes) leaf_hashes
  end.

(** [_tree_layers(leaf_hashes)[-1][0]]. *)
Definition root (leaf_hashes : list string) : res string :=
  let! ls := tree_layers leaf_hashes in
  match last ls with
  | Some (x :: _) => Ok x
  | _ => Err IndexError
  end.

(** The sibling recorded at one level, if the node has one. *)
Definition sibling (cur : list string) (idx : nat) : list proof_item :=
  if Nat.even idx then
    match cur !! S idx with Some h => [ProofItem "right" h] | None => [] end
  else
    match cur !! pred idx with Some h => [ProofItem "left" h] | None => [] end.

Fixpoint proof_from (fuel : nat) (cur : list string) (idx : nat) : res (list proof_item) :=
  match fuel with
  | O => Ok []
  | S f =>
      if (1 <? length cur)%nat then
        let! nxt := next_layer cur in
        let! rest := proof_from f nxt (idx / 2) in
        Ok (sibling cur idx ++ rest)
      else Ok []
  end.

Definition inclusion_proof (leaf_hashes : list string) (index : Z) : res (list proof_item) :=
  if (index <? 0) || (Z.of_nat (length leaf_hashes) <=? index) then Ok []
  else proof_from (length leaf_hashes) leaf_hashes (Z.to_nat index).

(** ** Checkpoints *)

Definition checkpoint_msg (tree_size : Z) (root_hash created_at : string) : bytes :=
  "SecChatAuditCheckpoint|" +:+ dec tree_size +:+ "|" +:+ root_hash +:+ "|" +:+ created_at.

(** [_assign_leaf_indices]: dense indices in append order. *)
Fixpoint assign_from (i : Z) (rows : list row) : list row :=
  match rows with
  | [] => []
  | r :: rows' =>
      Row (log_index r) (r_user_id r) (r_identity_version r) (r_identity_pk r)
        (device_id_hash r) (r_device_label r) (r_event_type r) (r_created_at r)
        (leaf_hash r) i :: assign_from (i + 1) rows'
  end.

Definition assign_leaf_indices (rows : list row) : list row := assign_from 0 rows.

Section service.
Context `{P : Prims}.

(** The Ed25519 seed in [AUDITOR_SIGNING_SEED]. *)
Variable sk : bytes.

Definition pk_hex : string := hex (ed_pub sk).

Definition checkpoint (created_at : string) (leaf_hashes : list string) : res dict :=
  let! root_hash := root leaf_hashes in
  let tree_size := Z.of_nat (length leaf_hashes) in
  Ok [("tree_size", PInt tree_size); ("root_hash", PStr root_hash);
      ("created_at", PStr created_at);
      ("signature", PStr (hex (ed_sign sk (checkpoint_msg tree_size root_hash created_at))));
      ("auditor_pk", PStr pk_hex)].

(** [_body]: the checkpoint, the rows and their leaves. *)
Definition body (created_at : string) (rows : list row) : res (dict * list string) :=
  let leaves := map leaf_hash rows in
  let! cp := checkpoint created_at leaves in
  Ok (cp, leaves).

(** ** Requests *)

Definition error_json (msg : string) : pyval := PDict [("error", PStr msg)].

(** [path.split("/")]. *)
Fixpoint split_slash (s : string) : list string :=
  match s with
  | EmptyString => [EmptyString]
  | String c s' =>
      if Ascii.eqb c "/"%char then EmptyString :: split_slash s'
      else match split_slash s' with
           | p :: ps => String c p :: ps
           | [] => [String c EmptyString]
           end
  end.

(** [int((qs.get(k) or [dflt])[0])]: [q] is the first value of the key, if any. *)
Definition query_int (q : option string) (dflt : string) : res Z :=
  int_of_string (match q with Some s => s | None => dflt end).

Definition handle_identity (cp : dict) (rows : list row) (uid_s : string) : res (Z * pyval) :=
  let! uid := int_of_string uid_s in
  Ok (200, PDict [("user_id", PInt uid);
    ("entries", PList (map (fun r => PDict (row_json r))
                         (List.filter (fun r => r_user_id r =? uid) rows)));
    ("checkpoint", PDict cp)]).

Definition handle_proof (cp : dict) (leaves : list string) (rows : list row)
    (uid_s version_s : string) : res (Z * pyval) :=
  let! uid := int_of_string uid_s in
  let! version := int_of_string version_s in
  match List.find (fun r => (r_user_id r =? uid) && (r_identity_version r =? version)) rows with
  | None => Ok (404, error_json "identity version not found")
  | Some leaf =>
      let! pf := inclusion_proof leaves (leaf_index leaf) in
      Ok (200, PDict [("leaf", PDict (row_json leaf)); ("leaf_index", PInt (leaf_index leaf));
        ("proof", PList (map item_json pf)); ("checkpoint", PDict cp)])
  end.

Definition handle_consistency (leaves : list string) (q_from q_to : option string) :
    res (Z * pyval) :=
  let! old_size := query_int q_from "0" in
  let! new_size := query_int q_to (dec (Z.of_nat (length leaves))) in
  if (old_size <? 0) || (new_size <? old_size) || (Z.of_nat (length leaves) <? new_size) then
    Ok (400, error_json "invalid consistency range")
  else
    let! from_root := root (take (Z.to_nat old_size) leaves) in
    let! to_root := root (take (Z.to_nat new_size) leaves) in
    Ok (200, PDict [("from_size", PInt old_size); ("to_size", PInt new_size);
      ("from_root", PStr from_root); ("to_root", PStr to_root);
      ("proof", PList []); ("status", PStr "consistent")]).

(** The routes of [do_GET] behind the health checks; [path] has no leading or
    trailing slash. *)
Definition route (created_at : string) (rows : list row) (path : string)
    (q_from q_to : option string) : res (Z * pyval) :=
  let! (cp, leaves) := body created_at rows in
  if String.eqb path "checkpoint" then Ok (200, PDict cp)
  else match split_slash path with
  | ["identity"; uid_s] => handle_identity cp rows uid_s
  | ["identity"; uid_s; version_s; "proof"] => handle_proof cp leaves rows uid_s version_s
  | _ =>
      if String.eqb path "consistency" then handle_consistency leaves q_from q_to
      else Ok (404, error_json "not found")
  end.

(** [do_GET]: an exception becomes a 500 ([show] is [str(exc)]). *)
Definition do_GET (show : exc -> string) (created_at : string) (rows : list row)
    (path : string) (q_from q_to : option string) : Z * pyval :=
  if String.eqb path "healthz" || String.eqb path "readyz" then
    (200, PDict [("status", PStr "ok"); ("auditor_pk", PStr pk_hex)])
  else if String.eqb path "pubkey" then (200, PDict [("auditor_pk", PStr pk_hex)])
  else
    match route created_at (assign_leaf_indices rows) path q_from q_to with
    | Ok r => r
    | Err e => (500, error_json (show e))
    end.

(** [urlparse]: the target up to the first [?], and the query after it. *)
Fixpoint cut (c : ascii) (s : string) : string * string :=
  match s with
  | EmptyString => ("", "")
  | String d s' => if Ascii.eqb c d then ("", s') else let p := cut c s' in (String d (fst p), snd p)
  end.

Definition is_slash (c : ascii) : bool := Ascii.eqb c "/"%char.
Definition strip_slash (s : string) : string := rstrip_if is_slash (lstrip_if is_slash s).

(** [parse_qs(query).get(key)], its first value: blank values are dropped.
    Percent escapes are not decoded (the client sends decimal numbers). *)
Fixpoint qs_first (fuel : nat) (key query : string) : option string :=
  match fuel with
  | O => None
  | S f =>
      if nonempty query then
        let pair := cut "&"%char query in
        let kv := cut "="%char (fst pair) in
        if String.eqb (fst kv) key && nonempty (snd kv) then Some (snd kv)
        else qs_first f key (snd pair)
      else None
  end.

(** [do_GET] on the request target: the status and the bytes [_json] writes. *)
Definition respond (show : exc -> string) (created_at : string) (rows : list row)
    (target : string) : Z * bytes :=
  let (path, query) := cut "?"%char target in
  let arg k := qs_first (S (String.length query)) k query in
  let (status, obj) := do_GET show created_at rows (strip_slash path) (arg "from") (arg "to") in
  (status, json_dumps false false obj).
End service.
