(* ===== verification/AuditClient.v ===== *)
(** * Identity transparency on the client (client/crypto_engine/audit.py)

    Checkpoint signatures, Merkle inclusion, the consistency check between two
    checkpoints, the verification of a peer's identity key, and the stable error
    codes shown to the user. The auditor's HTTP endpoints are a parameter
    [fetch]; [Auditor] models the service that answers them. *)

From S2P Require Import Prelude Hashing Base64 PyVal Json Crypto.

(** ** Error codes *)

Definition lower (s : string) : string := smap ascii_lower s.

(** [classify_audit_error]: the first matching rule wins. *)
Definition classify_audit_error (message : string) : string :=
  let text := lower message in
  let has p := contains p text in
  if has "identity version not found" || has "version not in log" then
    "identity_version_not_found"
  else if has "auditor http" || has "http error" then "auditor_http_error"
  else if has "unavailable" || has "timed out" || has "connection" then "auditor_unavailable"
  else if has "malformed auditor checkpoint" then "checkpoint_malformed"
  else if has "checkpoint signature" then "checkpoint_signature_invalid"
  else if has "empty identity tree root" then "empty_root_invalid"
  else if has "proof index" || has "index is out of range" then "proof_index_out_of_range"
  else if has "proof side" || has "proof direction" then "proof_side_malformed"
  else if has "malformed identity log proof" then "proof_malformed"
  else if has "inclusion proof" && has "checkpoint" then "proof_root_mismatch"
  else if has "rolled back" then "checkpoint_rollback"
  else if has "split-view" || has "same tree size" || has "same log size" then
    "checkpoint_split_view"
  else if has "malformed consistency proof" then "consistency_proof_malformed"
  else if has "previous checkpoint" || has "previous root" then
    "consistency_previous_root_mismatch"
  else if has "new checkpoint" || has "new root" then "consistency_new_root_mismatch"
  else if has "different user" then "identity_user_mismatch"
  else if has "different version" || has "version not found" then "identity_version_mismatch"
  else if has "key does not match" then "identity_key_mismatch"
  else "unknown".

Definition AUDIT_ERROR_LABELS : list (string * string) :=
  [("checkpoint_malformed", "malformed checkpoint");
   ("checkpoint_signature_invalid", "invalid checkpoint signature");
   ("empty_root_invalid", "invalid empty tree root");
   ("proof_index_out_of_range", "proof index out of range");
   ("proof_malformed", "malformed inclusion proof");
   ("proof_side_malformed", "malformed proof direction");
   ("proof_root_mismatch", "inclusion proof root mismatch");
   ("checkpoint_rollback", "checkpoint rollback");
   ("checkpoint_split_view", "checkpoint split-view");
   ("consistency_proof_malformed", "malformed consistency proof");
   ("consistency_previous_root_mismatch", "consistency proof previous root mismatch");
   ("consistency_new_root_mismatch", "consistency proof new root mismatch");
   ("identity_user_mismatch", "identity proof user mismatch");
   ("identity_version_mismatch", "identity proof version mismatch");
   ("identity_version_not_found", "identity version not in log");
   ("identity_key_mismatch", "identity proof key mismatch");
   ("auditor_http_error", "auditor HTTP error");
   ("auditor_unavailable", "auditor unavailable");
   ("unknown", "unknown audit error")].

Definition audit_error_label (code : string) : string :=
  match dlookup code AUDIT_ERROR_LABELS with
  | Some l => l
  | None => "unknown audit error"
  end.

Definition is_py_space (c : ascii) : bool :=
  let z := code c in ((9 <=? z) && (z <=? 13)) || ((28 <=? z) && (z <=? 32)).

(** [s.strip()]. *)
Definition strip (s : string) : string := rstrip_if is_py_space (lstrip_if is_py_space s).

Definition audit_error_detail (code message : string) : string :=
  let label := audit_error_label code in
  let m := strip message in
  if nonempty m then label +:+ ": " +:+ m else label.

Definition audit_status_for_code (code : string) : string :=
  if String.eqb code "auditor_unavailable" || String.eqb code "auditor_http_error" then
    "audit_unavailable"
  else "audit_mismatch".

(** [raise AuditError(message, code=code)]: an empty code is classified. *)
Definition audit_error (message code : string) : exc :=
  AuditError message (if nonempty code then code else classify_audit_error message).

(** ** Identity keys as bytes *)

Definition std_of_url (c : ascii) : ascii :=
  if Ascii.eqb c "-"%char then "+"%char else if Ascii.eqb c "_"%char then "/"%char else c.

Definition identity_bytes (text : string) : res bytes :=
  let raw := strip text in
  if nonempty raw then
    let std := smap std_of_url raw in
    let padded := std +:+ repeat_pad (Z.to_nat ((- blen std) mod 4)) in
    if string_all is_ascii padded then a2b 0 0 0 padded else Err UnicodeError
  else Ok "".

(** [same_identity_key]: a decoding error falls back to comparing the text. *)
Definition same_identity_key (a b : string) : bool :=
  match identity_bytes a, identity_bytes b with
  | Ok x, Ok y => String.eqb x y
  | _, _ => String.eqb a b
  end.

(** ** Merkle inclusion *)

Definition node_hash (left_hex right_hex : string) : res string :=
  let! a := fromhex left_hex in
  let! b := fromhex right_hex in
  Ok (sha256_hex (String (chr8 1) (a +:+ b))).

Definition empty_root : string := sha256_hex "SecChatEmptyIdentityTree".

(** One iteration of the loop over the proof. *)
Definition climb_step (cur : string) (item : pyval) : res string :=
  let! d := as_dict item in
  let sib := py_str (dget "hash" (PStr "") d) in
  if negb (py_len sib =? 64) then
    Err (audit_error "Malformed identity log proof" "proof_malformed")
  else if py_eqb (dget "side" PNone d) (PStr "left") then node_hash sib cur
  else if py_eqb (dget "side" PNone d) (PStr "right") then node_hash cur sib
  else Err (audit_error "Malformed identity log proof side" "proof_side_malformed").

Fixpoint climb (cur : string) (proof : list pyval) : res string :=
  match proof with
  | [] => Ok cur
  | item :: rest => let! nxt := climb_step cur item in climb nxt rest
  end.

(** [verify_inclusion]. The loop also halves [leaf_index] in a variable that
    nothing reads; it has no counterpart here. *)
Definition verify_inclusion (leaf_hash : string) (leaf_index : Z) (proof : list pyval)
    (checkpoint : dict) : res unit :=
  let! tree_size := py_int (dget "tree_size" (PInt (-1)) checkpoint) in
  let root_hash := py_str (dget "root_hash" (PStr "") checkpoint) in
  if tree_size =? 0 then
    if String.eqb root_hash empty_root then Ok tt
    else Err (audit_error "Invalid empty identity tree root" "empty_root_invalid")
  else if (leaf_index <? 0) || (tree_size <=? leaf_index) then
    Err (audit_error "Identity log proof index is out of range" "proof_index_out_of_range")
  else
    let! cur := climb leaf_hash proof in
    if String.eqb cur root_hash then Ok tt
    else Err (audit_error "Identity log inclusion proof does not match checkpoint"
                "proof_root_mismatch").

(** ** The auditor's endpoints *)

(** What [urlopen] does: a body, an [HTTPError], or another exception. *)
Inductive http_result :=
| HttpOk (raw : bytes)
| HttpError (status : Z) (reason : string) (raw : bytes)
| HttpFail (e : exc).

Section client.
Context `{P : Prims}.
Variable fetch : string -> http_result.
(** [AUDITOR_PUBLIC_KEY_HEX], pinned in the client. *)
Variable auditor_pk_hex : string.

Definition load_utf8 (raw : bytes) : res pyval := let! t := utf8_decode raw in json_loads t.

(** [_fetch_json]: GET [path] from the auditor. *)
Definition fetch_json (path : string) : res pyval :=
  match fetch path with
  | HttpOk raw => load_utf8 raw
  | HttpFail e => Err e
  | HttpError status reason raw =>
      let body := match load_utf8 raw with Ok v => v | Err _ => PDict [] end in
      let! d := as_dict body in
      let error := py_str (py_or (dget "error" (PStr "") d) (PStr reason)) in
      if contains "identity version not found" (lower error) then
        Err (audit_error "Identity version not found in auditor log"
               "identity_version_not_found")
      else
        Err (audit_error
               ("Auditor HTTP error " +:+ dec status +:+ ": " +:+
                (if nonempty error then error else "unknown error"))
               "auditor_http_error")
  end.

Definition malformed_checkpoint : exc :=
  audit_error "Malformed auditor checkpoint" "checkpoint_malformed".

Definition checkpoint_msg (tree_size : Z) (root_hash created_at : string) : bytes :=
  "SecChatAuditCheckpoint|" +:+ dec tree_size +:+ "|" +:+ root_hash +:+ "|" +:+ created_at.

(** [verify_checkpoint]. A signature or key of the wrong length is an invalid
    signature, as the package reports it. *)
Definition verify_checkpoint (checkpoint : dict) : res unit :=
  let! tree_size := py_int (dget "tree_size" (PInt (-1)) checkpoint) in
  let root_hash := py_str (dget "root_hash" (PStr "") checkpoint) in
  let created_at := py_str (dget "created_at" (PStr "") checkpoint) in
  let sig_hex := py_str (dget "signature" (PStr "") checkpoint) in
  if (tree_size <? 0) || negb (py_len root_hash =? 64) || negb (py_len sig_hex =? 128)
     || negb (nonempty created_at) then Err malformed_checkpoint
  else
    match fromhex root_hash, fromhex sig_hex, fromhex auditor_pk_hex with
    | Ok _, Ok sig, Ok auditor_pk =>
        let! msg := utf8_encode (checkpoint_msg tree_size root_hash created_at) in
        if len32b auditor_pk && ed_verify auditor_pk sig msg then Ok tt
        else Err (audit_error "Invalid auditor checkpoint signature"
                    "checkpoint_signature_invalid")
    | _, _, _ => Err malformed_checkpoint
    end.

(** The field checks on a consistency answer, in order. *)
Definition check_consistency_answer (proof : dict) (old_size new_size : Z)
    (old_root new_root : string) : res unit :=
  let! from_size := py_int (dget "from_size" (PInt (-1)) proof) in
  if negb (from_size =? old_size) then
    Err (audit_error
      "Malformed consistency proof: from_size does not match previous checkpoint"
      "consistency_proof_malformed")
  else
    let! to_size := py_int (dget "to_size" (PInt (-1)) proof) in
    if negb (to_size =? new_size) then
      Err (audit_error "Malformed consistency proof: to_size does not match new checkpoint"
             "consistency_proof_malformed")
    else if negb (String.eqb (py_str (dget "from_root" (PStr "") proof)) old_root) then
      Err (audit_error "Consistency proof does not match previous checkpoint"
             "consistency_previous_root_mismatch")
    else if negb (String.eqb (py_str (dget "to_root" (PStr "") proof)) new_root) then
      Err (audit_error "Consistency proof does not match new checkpoint"
             "consistency_new_root_mismatch")
    else Ok tt.

Definition consistency_path (old_size new_size : Z) : string :=
  "/consistency?from=" +:+ dec old_size +:+ "&to=" +:+ dec new_size.

(** [check_consistency]: [None] or an empty dictionary is no previous checkpoint. *)
Definition check_consistency (old_checkpoint : option dict) (new_checkpoint : dict) : res unit :=
  let! _ := verify_checkpoint new_checkpoint in
  match old_checkpoint with
  | None | Some [] => Ok tt
  | Some old =>
      let! old_size := get_int0 "tree_size" old in
      let! new_size := get_int0 "tree_size" new_checkpoint in
      if new_size <? old_size then
        Err (audit_error "Auditor checkpoint rolled back" "checkpoint_rollback")
      else
        let old_root := py_str (dget "root_hash" (PStr "") old) in
        let new_root := py_str (dget "root_hash" (PStr "") new_checkpoint) in
        if old_size =? new_size then
          if String.eqb old_root new_root then Ok tt
          else Err (audit_error "Auditor checkpoint changed at the same tree size"
                      "checkpoint_split_view")
        else
          let! answer := fetch_json (consistency_path old_size new_size) in
          let! proof := as_dict answer in
          check_consistency_answer proof old_size new_size old_root new_root
  end.

(** [v or {}], then used as a dictionary. *)
Definition or_empty_dict (v : pyval) : res dict := as_dict (py_or v (PDict [])).

(** An [int] field whose absence or null counts as [-1]. *)
Definition int_or_minus1 (v : pyval) : res Z :=
  match v with PNone => Ok (-1) | _ => py_int v end.

(** The key comparison of [verify_identity_from_auditor]. *)
Definition leaf_key_matches (leaf : dict) (identity_pk : string) : bool :=
  let leaf_pk := py_str (dget "identity_pk" (PStr "") leaf) in
  match identity_bytes leaf_pk, identity_bytes identity_pk with
  | Ok x, Ok y => String.eqb x y
  | _, _ => String.eqb leaf_pk identity_pk
  end.

Definition proof_path (user_id identity_version : Z) : string :=
  "/identity/" +:+ dec user_id +:+ "/" +:+ dec identity_version +:+ "/proof".

(** The checks on an auditor's answer before the consistency check. *)
Definition verify_answer (user_id identity_version : Z) (identity_pk : string)
    (proof leaf checkpoint : dict) : res unit :=
  let! _ := verify_checkpoint checkpoint in
  let! leaf_user_id := py_int (dget "user_id" (PInt 0) leaf) in
  if negb (leaf_user_id =? user_id) then
    Err (audit_error "Identity proof belongs to a different user" "identity_user_mismatch")
  else
    let! leaf_version := int_or_minus1 (dget "identity_version" PNone leaf) in
    if negb (leaf_version =? identity_version) then
      Err (audit_error "Identity proof belongs to a different version"
             "identity_version_mismatch")
    else if negb (leaf_key_matches leaf identity_pk) then
      Err (audit_error "Identity proof key does not match the PQXDH bundle"
             "identity_key_mismatch")
    else
      let! index := int_or_minus1 (dget "leaf_index" PNone proof) in
      let! items := as_list (py_or (dget "proof" PNone proof) (PList [])) in
      verify_inclusion (py_str (dget "leaf_hash" (PStr "") leaf)) index items checkpoint.

(** [verify_identity_from_auditor]. *)
Definition verify_identity_from_auditor (user_id identity_version : Z) (identity_pk : string)
    (previous_checkpoint : option dict) : res dict :=
  let! answer := fetch_json (proof_path user_id identity_version) in
  let! proof := as_dict answer in
  let! leaf := or_empty_dict (dget "leaf" PNone proof) in
  let! checkpoint := or_empty_dict (dget "checkpoint" PNone proof) in
  let! _ := verify_answer user_id identity_version identity_pk proof leaf checkpoint in
  let! _ := check_consistency previous_checkpoint checkpoint in
  Ok [("status", PStr "ok"); ("leaf", PDict leaf); ("checkpoint", PDict checkpoint);
      ("proof", py_or (dget "proof" PNone proof) (PList []))].

(** [fetch_identity_history]. *)
Definition fetch_identity_history (user_id : Z) : res dict :=
  let! answer := fetch_json ("/identity/" +:+ dec user_id) in
  let! data := as_dict answer in
  let! cp := or_empty_dict (dget "checkpoint" PNone data) in
  let! _ := verify_checkpoint cp in
  Ok data.
End client.
