(* ===== verification/Merkle.v ===== *)
(** * Merkle inclusion: the auditor's proofs against the client's check

    Completeness: the proof the auditor generates for a leaf climbs to the root
    it signed. Soundness: what the client accepts under that root is a node of
    the auditor's tree, or two explicit inputs of SHA-256 collide. *)

From S2P Require Import Prelude Hashing PyVal Json Crypto Auditor AuditClient.

(** A 32-byte value in hexadecimal. *)
Definition is_hash (h : string) : Prop := exists b, fromhex h = Ok b /\ len32 b.

Lemma is_hash_sha m : is_hash (sha256_hex m).
Proof. exists (sha256 m). split; [apply fromhex_hex|apply sha256_length]. Qed.
#[export] Hint Resolve is_hash_sha : secchat.

Lemma fromhex_sha_inv m b : fromhex (sha256_hex m) = Ok b -> sha256 m = b.
Proof. unfold sha256_hex. rewrite fromhex_hex. apply Ok_inj. Qed.

Lemma node_hash_ok a b :
  is_hash a -> is_hash b -> exists m, Auditor.node_hash a b = Ok (sha256_hex m).
Proof. intros (x & Hx & _) (y & Hy & _). unfold Auditor.node_hash. rewrite Hx, Hy. simpl. eauto. Qed.

(** Client and auditor hash nodes alike. *)
Lemma node_hash_agree a b : AuditClient.node_hash a b = Auditor.node_hash a b.
Proof. reflexivity. Qed.

Lemma empty_root_agree : AuditClient.empty_root = Auditor.empty_root.
Proof. reflexivity. Qed.

(** Induction on a list two elements at a time. *)
Lemma list_ind2 {A} (Q : list A -> Prop) :
  Q [] -> (forall a, Q [a]) -> (forall a b l, Q l -> Q (a :: b :: l)) -> forall l, Q l.
Proof.
  intros H0 H1 H2 l. enough (Q l /\ forall a, Q (a :: l)) by tauto.
  induction l as [|x l [IH1 IH2]]; auto.
Qed.

(** ** One layer *)

Lemma next_layer_ok cur :
  Forall is_hash cur ->
  exists nxt, next_layer cur = Ok nxt /\ Forall is_hash nxt /\
    length nxt = Nat.div2 (S (length cur)).
Proof.
  induction cur as [|a|a b cur IH] using list_ind2; intros H.
  - exists []. done.
  - exists [a]. done.
  - apply Forall_cons in H as [Ha H]. apply Forall_cons in H as [Hb H].
    destruct (IH H) as (nxt & Hn & Hh & Hl).
    destruct (node_hash_ok a b Ha Hb) as [m Hm].
    simpl. rewrite Hm, Hn. simpl. eexists. split; [done|].
    split; [constructor; eauto with secchat|]. simpl. by rewrite Hl.
Qed.

(** The parent of a node: the hash of the pair, or the node itself moved up. *)
Lemma next_layer_lookup cur nxt i :
  next_layer cur = Ok nxt ->
  match cur !! (2 * i)%nat, cur !! S (2 * i) with
  | Some a, Some b => exists h, Auditor.node_hash a b = Ok h /\ nxt !! i = Some h
  | Some a, None => nxt !! i = Some a
  | None, _ => True
  end.
Proof.
  revert nxt i. induction cur as [|a|a b cur IH] using list_ind2; intros nxt i Hn.
  - by rewrite !lookup_nil.
  - simpl in Hn. injection Hn as <-. destruct i as [|i]; [done|].
    replace (2 * S i)%nat with (S (S (2 * i))) by lia. done.
  - simpl in Hn. inv_ok Hn. subst nxt.
    destruct i as [|i]; [simpl; eauto|].
    replace (2 * S i)%nat with (S (S (2 * i))) by lia. simpl. by apply IH.
Qed.

(** What the client does with an item the auditor generates. *)
Lemma climb_step_right cur h :
  py_len h = 64 -> climb_step cur (item_json (ProofItem "right" h)) = Auditor.node_hash cur h.
Proof. intros H. unfold climb_step. cbn -[py_len]. by rewrite H. Qed.

Lemma climb_step_left cur h :
  py_len h = 64 -> climb_step cur (item_json (ProofItem "left" h)) = Auditor.node_hash h cur.
Proof. intros H. unfold climb_step. cbn -[py_len]. by rewrite H. Qed.

(** The client's step over one level reaches the parent. *)
Lemma sibling_climbs cur nxt idx x rest :
  Forall (fun h => py_len h = 64) cur -> next_layer cur = Ok nxt -> cur !! idx = Some x ->
  exists y, nxt !! (idx / 2)%nat = Some y /\
    climb x (map item_json (sibling cur idx) ++ rest) = climb y rest.
Proof.
  intros Hlen Hn Hx. unfold sibling.
  pose proof (next_layer_lookup cur nxt (idx / 2) Hn) as Hp.
  pose proof (Nat.div_mod_eq idx 2) as Hdm.
  pose proof (Nat.mod_upper_bound idx 2 ltac:(lia)) as Hm.
  destruct (Nat.even idx) eqn:E.
  - assert (idx mod 2 = 0)%nat as H0.
    { apply Nat.even_spec in E as [k ->]. rewrite Nat.mul_comm. apply Nat.Div0.mod_mul. }
    replace (2 * (idx / 2))%nat with idx in Hp by lia. rewrite Hx in Hp.
    destruct (cur !! S idx) as [h|] eqn:Eh.
    + destruct Hp as (y & Hy & Hl). exists y. split; [done|].
      cbn [map app climb]. rewrite climb_step_right by exact (proj1 (Forall_lookup _ _) Hlen _ _ Eh).
      by rewrite Hy.
    + exists x. done.
  - assert (idx mod 2 = 1)%nat as H1.
    { destruct (idx mod 2)%nat as [|[|]] eqn:Em; try lia.
      assert (Nat.even idx = true); [|congruence]. apply Nat.even_spec. exists (idx / 2)%nat. lia. }
    replace (S (2 * (idx / 2)))%nat with idx in Hp by lia. rewrite Hx in Hp.
    replace (pred idx) with (2 * (idx / 2))%nat by lia.
    destruct (cur !! (2 * (idx / 2))%nat) as [h|] eqn:Eh.
    + destruct Hp as (y & Hy & Hl). exists y. split; [done|].
      cbn [map app climb]. rewrite climb_step_left by exact (proj1 (Forall_lookup _ _) Hlen _ _ Eh).
      by rewrite Hy.
    + exfalso. apply lookup_ge_None in Eh. apply lookup_lt_Some in Hx. lia.
Qed.

(** ** The whole tree *)

Lemma sha_hex_py_len m : py_len (sha256_hex m) = 64.
Proof. unfold sha256_hex. rewrite py_len_ascii by apply hex_ascii. apply sha256_hex_blen. Qed.

(** A leaf column of the log: 64 characters of hexadecimal. *)
Definition leaf_ok (h : string) : Prop := is_hash h /\ py_len h = 64.

Lemma next_layer_leaf_ok cur nxt :
  Forall leaf_ok cur -> next_layer cur = Ok nxt -> Forall leaf_ok nxt.
Proof.
  revert nxt. induction cur as [|a|a b cur IH] using list_ind2; intros nxt H Hn; simpl in Hn.
  - by injection Hn as <-.
  - by injection Hn as <-.
  - apply Forall_cons in H as [[Ha _] H]. apply Forall_cons in H as [[Hb _] H].
    destruct (node_hash_ok a b Ha Hb) as [m Hm]. rewrite Hm in Hn. simpl in Hn.
    inv_ok Hn. subst nxt.
    constructor; [|by apply IH]. split; [apply is_hash_sha|apply sha_hex_py_len].
Qed.

Lemma leaf_ok_hash l : Forall leaf_ok l -> Forall is_hash l.
Proof. intros H. eapply Forall_impl; [exact H|]. by intros ? []. Qed.

(** With enough fuel the layers end in a single node, and every generated proof
    climbs to it. *)
Lemma layers_climb fuel cur idx x :
  (length cur <= fuel)%nat -> Forall leaf_ok cur -> cur !! idx = Some x ->
  exists ls r pf, layers_from fuel cur = Ok ls /\ last ls = Some [r] /\
    proof_from fuel cur idx = Ok pf /\ climb x (map item_json pf) = Ok r /\ leaf_ok r.
Proof.
  revert cur idx x. induction fuel as [|fuel IH]; intros cur idx x Hf Hok Hx.
  { apply lookup_lt_Some in Hx. lia. }
  cbn [layers_from proof_from]. destruct (1 <? length cur)%nat eqn:E.
  - apply Nat.ltb_lt in E.
    destruct (next_layer_ok cur (leaf_ok_hash _ Hok)) as (nxt & Hn & _ & Hl).
    assert (Hlen : Forall (fun h => py_len h = 64) cur)
      by (eapply Forall_impl; [exact Hok|]; by intros ? []).
    destruct (sibling_climbs cur nxt idx x [] Hlen Hn Hx) as (y & Hy & _).
    destruct (IH nxt (idx / 2)%nat y) as (ls & r & pf & Hls & Hlast & Hpf & Hc & Hr);
      [|by eapply next_layer_leaf_ok|done|].
    { rewrite Hl, Nat.div2_div. pose proof (Nat.div_mod_eq (S (length cur)) 2). lia. }
    rewrite Hn. cbn [res_bind]. rewrite Hls, Hpf. cbn [res_bind].
    exists (cur :: ls), r, (sibling cur idx ++ pf).
    repeat split; try done; try apply Hr.
    + destruct ls as [|l ls]; [done|]. by rewrite <- Hlast.
    + rewrite map_app.
      destruct (sibling_climbs cur nxt idx x (map item_json pf) Hlen Hn Hx) as (y' & Hy' & ->).
      by simplify_eq.
  - apply Nat.ltb_ge in E. destruct cur as [|a [|b cur]]; simpl in *; [done| |lia].
    destruct idx as [|idx]; [|done]. injection Hx as ->.
    exists [[x]], x, []. repeat split; try done; by apply Forall_cons in Hok as [[? ?] _].
Qed.

Lemma root_ok leaves : Forall leaf_ok leaves -> exists r, root leaves = Ok r /\ leaf_ok r.
Proof.
  intros H. destruct leaves as [|a l].
  - exists empty_root. split; [done|]. split; [apply is_hash_sha|apply sha_hex_py_len].
  - destruct (layers_climb (length (a :: l)) (a :: l) 0 a ltac:(done) H eq_refl)
      as (ls & r & _ & Hls & Hlast & _ & _ & Hr).
    exists r. split; [|done]. unfold root, tree_layers. rewrite Hls. simpl. by rewrite Hlast.
Qed.

Lemma inclusion_proof_climbs leaves (i : nat) x :
  Forall leaf_ok leaves -> leaves !! i = Some x ->
  exists r pf, root leaves = Ok r /\ inclusion_proof leaves (Z.of_nat i) = Ok pf /\
    climb x (map item_json pf) = Ok r.
Proof.
  intros Hok Hx. pose proof (lookup_lt_Some _ _ _ Hx) as Hlt.
  destruct (layers_climb (length leaves) leaves i x ltac:(done) Hok Hx)
    as (ls & r & pf & Hls & Hlast & Hpf & Hc & _).
  exists r, pf. split; [|split; [|done]].
  - unfold root, tree_layers. destruct leaves; [done|]. rewrite Hls. simpl. by rewrite Hlast.
  - unfold inclusion_proof.
    destruct (Z.ltb_spec (Z.of_nat i) 0); [lia|].
    destruct (Z.leb_spec (Z.of_nat (length leaves)) (Z.of_nat i)); [lia|].
    simpl. by rewrite Nat2Z.id.
Qed.

(** ** Soundness *)

(** The inputs the auditor hashes while it builds one layer, and all of them. *)
Fixpoint layer_preimages (cur : list string) : list bytes :=
  match cur with
  | a :: b :: t =>
      match fromhex a, fromhex b with
      | Ok x, Ok y => [node_preimage x y]
      | _, _ => []
      end ++ layer_preimages t
  | _ => []
  end.

Definition tree_preimages (ls : list (list string)) : list bytes := flat_map layer_preimages ls.

(** The inputs the client hashes while it climbs a proof. *)
Definition step_preimages (cur : string) (item : pyval) : list bytes :=
  match as_dict item, fromhex cur with
  | Ok d, Ok c =>
      match fromhex (py_str (dget "hash" (PStr "") d)) with
      | Ok s => [node_preimage s c; node_preimage c s]
      | Err _ => []
      end
  | _, _ => []
  end.

Fixpoint climb_preimages (cur : string) (proof : list pyval) : list bytes :=
  match proof with
  | [] => []
  | item :: rest =>
      step_preimages cur item ++
      match climb_step cur item with
      | Ok nxt => climb_preimages nxt rest
      | Err _ => []
      end
  end.

(** Two explicit inputs with one digest. *)
Definition collision (xs ys : list bytes) : Prop :=
  exists x y, x ∈ xs /\ y ∈ ys /\ x <> y /\ sha256 x = sha256 y.

Lemma collision_mono xs ys ys' : ys ⊆ ys' -> collision xs ys -> collision xs ys'.
Proof. intros H (x & y & Hx & Hy & Hne & E). exists x, y. repeat split; auto. Qed.

Definition is_node (ls : list (list string)) (b : bytes) : Prop :=
  exists n, n ∈ concat ls /\ fromhex n = Ok b.

(** A node of the next layer was moved up, or hashes two nodes of this one. *)
Lemma next_layer_children cur nxt h :
  Forall is_hash cur -> next_layer cur = Ok nxt -> h ∈ nxt ->
  h ∈ cur \/ exists a b x y, a ∈ cur /\ b ∈ cur /\ fromhex a = Ok x /\ fromhex b = Ok y /\
    len32 x /\ len32 y /\ h = sha256_hex (node_preimage x y) /\
    node_preimage x y ∈ layer_preimages cur.
Proof.
  revert nxt. induction cur as [|a|a b cur IH] using list_ind2; intros nxt H Hn Hin; simpl in Hn.
  - injection Hn as <-. by left.
  - injection Hn as <-. by left.
  - apply Forall_cons in H as [(x & Hx & Lx) H]. apply Forall_cons in H as [(y & Hy & Ly) H].
    unfold Auditor.node_hash in Hn. rewrite Hx, Hy in Hn. simpl in Hn. inv_ok Hn. subst nxt.
    apply elem_of_cons in Hin as [->|Hin].
    + right. exists a, b, x, y. simpl. rewrite Hx, Hy. set_solver.
    + destruct (IH _ H Ha Hin) as [?|(c & d & u & v & Hc & Hd & ? & ? & ? & ? & ? & ?)].
      * left. set_solver.
      * right. exists c, d, u, v. simpl. set_solver.
Qed.

(** Every node of the tree is a leaf or the hash of two nodes. *)
Lemma node_cases fuel cur ls h :
  Forall leaf_ok cur -> layers_from fuel cur = Ok ls -> h ∈ concat ls ->
  h ∈ cur \/ exists a b x y, a ∈ concat ls /\ b ∈ concat ls /\ fromhex a = Ok x /\
    fromhex b = Ok y /\ len32 x /\ len32 y /\ h = sha256_hex (node_preimage x y) /\
    node_preimage x y ∈ tree_preimages ls.
Proof.
  revert cur ls. induction fuel as [|fuel IH]; intros cur ls Hok Hls Hin; simpl in Hls.
  { injection Hls as <-. simpl in Hin. rewrite app_nil_r in Hin. by left. }
  destruct (1 <? length cur)%nat.
  2: { injection Hls as <-. simpl in Hin. rewrite app_nil_r in Hin. by left. }
  destruct (next_layer cur) as [nxt|] eqn:Hn; [|done]. simpl in Hls.
  destruct (layers_from fuel nxt) as [rest|] eqn:Hr; [|done]. injection Hls as <-.
  simpl in Hin. apply elem_of_app in Hin as [?|Hin]; [by left|].
  assert (Hhead : forall z, z ∈ cur -> z ∈ concat (cur :: rest)) by (simpl; set_solver).
  destruct (IH nxt rest (next_layer_leaf_ok _ _ Hok Hn) Hr Hin)
    as [Hnxt|(a & b & x & y & Ha & Hb & ? & ? & ? & ? & ? & ?)].
  - destruct (next_layer_children cur nxt h (leaf_ok_hash _ Hok) Hn Hnxt)
      as [?|(a & b & x & y & Ha & Hb & ? & ? & ? & ? & ? & ?)]; [by left|].
    right. exists a, b, x, y. split; [by apply Hhead|]. split; [by apply Hhead|].
    repeat split; try done. simpl. set_solver.
  - right. exists a, b, x, y. simpl. set_solver.
Qed.

(** The log's leaves hash strings of a fixed form (server/repository/key_repo.c). *)
Definition leaf_text (canon : bytes) : Prop := starts_with "SecChatIdentityLeaf|" canon = true.

Lemma leaf_text_not_node canon x y : leaf_text canon -> canon <> node_preimage x y.
Proof. intros H ->. by vm_compute in H. Qed.

Lemma node_preimage_inj x y x' y' :
  len32 x -> len32 y -> len32 y' -> node_preimage x y = node_preimage x' y' -> x = x' /\ y = y'.
Proof.
  unfold node_preimage, len32. intros Hx Hy Hy' [= H]. apply sapp_eq_len; [|done].
  pose proof (f_equal String.length H) as Hl. rewrite !sapp_length in Hl. lia.
Qed.

Lemma node_preimage_inj' x y x' y' :
  len32 x -> len32 y -> len32 x' -> node_preimage x y = node_preimage x' y' -> x = x' /\ y = y'.
Proof.
  unfold node_preimage, len32. intros Hx Hy Hx' [= H]. apply sapp_eq_len; [lia|done].
Qed.

(** A successful step hashes the current value with its sibling. *)
Lemma climb_step_inv cur item nxt c :
  climb_step cur item = Ok nxt -> fromhex cur = Ok c ->
  exists s m, nxt = sha256_hex m /\ m ∈ step_preimages cur item /\
    (m = node_preimage s c \/ m = node_preimage c s).
Proof.
  unfold climb_step, step_preimages. intros H Hc. rewrite Hc.
  destruct (as_dict item) as [d|]; [|done]. simpl in H.
  destruct (negb _); [done|].
  destruct (py_eqb _ (PStr "left")).
  - unfold AuditClient.node_hash in H. rewrite Hc in H. inv_ok H. subst nxt. rewrite Ha.
    exists a, (node_preimage a c). set_solver.
  - destruct (py_eqb _ (PStr "right")); [|done].
    unfold AuditClient.node_hash in H. rewrite Hc in H. simpl in H. inv_ok H. subst nxt. rewrite Ha.
    exists a, (node_preimage c a). set_solver.
Qed.

(** Descending a proof: if it ends at a node, it starts at one, or SHA-256 collides. *)
Lemma climb_sound fuel canons ls proof cur c r rb :
  Forall leaf_text canons ->
  layers_from fuel (map sha256_hex canons) = Ok ls ->
  climb cur proof = Ok r -> fromhex cur = Ok c -> len32 c ->
  fromhex r = Ok rb -> is_node ls rb ->
  is_node ls c \/ collision (canons ++ tree_preimages ls) (climb_preimages cur proof).
Proof.
  intros Hcanon Hls. revert cur c. induction proof as [|item rest IH];
    intros cur c Hclimb Hc Lc Hr Hroot; simpl in Hclimb.
  { left. injection Hclimb as ->. rewrite Hc in Hr. injection Hr as ->. exact Hroot. }
  destruct (climb_step cur item) as [nxt|] eqn:Hstep; [|done]. simpl in Hclimb.
  destruct (climb_step_inv _ _ _ _ Hstep Hc) as (s & m & -> & Hm & Hform).
  assert (Hleaf : Forall leaf_ok (map sha256_hex canons)).
  { apply Forall_forall. intros h (k & -> & _)%list_elem_of_fmap.
    split; [apply is_hash_sha|apply sha_hex_py_len]. }
  simpl. rewrite Hstep.
  destruct (IH _ (sha256 m) Hclimb (fromhex_hex _) (sha256_length m) Hr Hroot)
    as [(n & Hn & En)|Hcol].
  2: { right. eapply collision_mono; [|exact Hcol]. by apply list_subseteq_app_r. }
  destruct (node_cases fuel _ ls n Hleaf Hls Hn)
    as [(k & -> & Hk)%list_elem_of_fmap|(a & b & x & y & Ha & Hb & Ex & Ey & Lx & Ly & -> & Hpre)].
  - apply fromhex_sha_inv in En. right. exists k, m.
    split; [by apply elem_of_app; left|]. split; [by apply elem_of_app; left|].
    split; [|exact En].
    rewrite Forall_forall in Hcanon. specialize (Hcanon k Hk).
    destruct Hform as [->| ->]; apply leaf_text_not_node; exact Hcanon.
  - apply fromhex_sha_inv in En.
    destruct (decide (node_preimage x y = m)) as [Heq|Hne].
    + left. destruct Hform as [->| ->].
      * destruct (node_preimage_inj _ _ _ _ Lx Ly Lc Heq) as [-> ->]. by exists b.
      * destruct (node_preimage_inj' _ _ _ _ Lx Ly Lc Heq) as [-> ->]. by exists a.
    + right. exists (node_preimage x y), m.
      split; [by apply elem_of_app; right|]. split; [by apply elem_of_app; left|].
      split; [exact Hne|exact En].
Qed.
