(* ===== verification/AuditFacts.v ===== *)
(** * The identity audit, end to end

    The client of [AuditClient] against the service of [Auditor] over a transport that
    delivers the service's bytes: an honest answer is accepted, and what an
    accepted answer proves. *)

From S2P Require Import Prelude Hashing Base64 PyVal Json JsonFacts Crypto Auditor AuditClient Merkle.

(** ** Texts made of digits and slashes *)

Lemma cut_app d a b : string_all (not_char d) a = true -> cut d (a +:+ String d b) = (a, b).
Proof.
  induction a as [|c a IH]; simpl; [by rewrite Ascii.eqb_refl|].
  intros H. bool_hyps. unfold not_char in H. bool_hyps. by rewrite H, IH.
Qed.

Lemma cut_none d a : string_all (not_char d) a = true -> cut d a = (a, "").
Proof.
  induction a as [|c a IH]; simpl; [done|].
  intros H. bool_hyps. unfold not_char in H. bool_hyps. by rewrite H, IH.
Qed.

Lemma split_slash_app a b :
  string_all (not_char "/") a = true -> split_slash (a +:+ String "/" b) = a :: split_slash b.
Proof.
  induction a as [|c a IH]; [done|]. cbn [string_all String.append split_slash].
  intros H. bool_hyps. rewrite IH by done. unfold not_char in H. bool_hyps.
  by rewrite Ascii.eqb_sym, H.
Qed.

Lemma split_slash_none a : string_all (not_char "/") a = true -> split_slash a = [a].
Proof.
  induction a as [|c a IH]; [done|]. cbn [string_all split_slash].
  intros H. bool_hyps. rewrite IH by done. unfold not_char in H. bool_hyps.
  by rewrite Ascii.eqb_sym, H.
Qed.

(** The path of a request keeps its last character, which is not a slash. *)
Lemma strip_slash_path c s d :
  is_slash c = false -> is_slash d = false ->
  strip_slash (String "/" (String c (s +:+ String d ""))) = String c (s +:+ String d "").
Proof.
  intros Hc Hd. unfold strip_slash, rstrip_if.
  assert (lstrip_if is_slash (String "/" (String c (s +:+ String d ""))) =
          String c (s +:+ String d "")) as ->.
  { cbn [lstrip_if]. change (is_slash "/"%char) with true. cbn iota. by rewrite Hc. }
  change (String c (s +:+ String d "")) with (String c s +:+ String d "").
  rewrite srev_app. change (srev (String d "")) with (String d "").
  cbn [String.append lstrip_if]. rewrite Hd.
  change (String d (srev (String c s))) with (String d "" +:+ srev (String c s)).
  by rewrite srev_app, srev_involutive.
Qed.

(** ** An honest service *)

(** A row as the server inserts it: text columns, and the hash of its fields. *)
Definition row_text (r : row) : Prop :=
  utf8_valid (r_identity_pk r) = true /\ utf8_valid (device_id_hash r) = true /\
  utf8_valid (r_device_label r) = true /\ utf8_valid (r_event_type r) = true /\
  utf8_valid (r_created_at r) = true.

Definition logged (r : row) : Prop := leaf_hash r = sha256_hex (leaf_canon r) /\ row_text r.

Lemma sha_leaf_ok m : leaf_ok (sha256_hex m).
Proof. split; [apply is_hash_sha|apply sha_hex_py_len]. Qed.

Lemma logged_leaves rows : Forall logged rows -> Forall leaf_ok (map leaf_hash rows).
Proof.
  intros H. apply Forall_fmap. eapply Forall_impl; [exact H|].
  intros r (Hl & _). simpl. rewrite Hl. apply sha_leaf_ok.
Qed.

(** [bytes.fromhex] only accepts ASCII. *)
Lemma fromhex_ascii h b : fromhex h = Ok b -> string_all is_ascii h = true.
Proof.
  remember (String.length h) as n eqn:Hn. revert h b Hn.
  induction n as [n IH] using lt_wf_ind. intros [|c h] b Hn Hb; [done|].
  cbn [fromhex] in Hb. cbn [string_all]. simpl in Hn.
  assert (Hhex : forall d x, unhex_digit d = Some x -> is_ascii d = true).
  { intros d x. unfold unhex_digit, is_ascii. repeat case_match; intros; bool_hyps; try done; lia. }
  destruct (is_ascii_space c) eqn:Esp.
  - rewrite (IH (String.length h) ltac:(lia) h b eq_refl Hb), andb_true_r.
    unfold is_ascii_space in Esp. unfold is_ascii. lia.
  - destruct h as [|d h]; [done|].
    destruct (unhex_digit c) as [x|] eqn:Ec; [|done].
    destruct (unhex_digit d) as [y|] eqn:Ed; [|done].
    inv_ok Hb. cbn [string_all]. simpl in Hn.
    by rewrite (Hhex c x Ec), (Hhex d y Ed), (IH (String.length h) ltac:(lia) h a eq_refl Ha).
Qed.

Lemma is_hash_ascii h : is_hash h -> string_all is_ascii h = true.
Proof. intros (b & Hb & _). by eapply fromhex_ascii. Qed.

(** The bytes a request gets, as [urlopen] reports them. *)
Definition deliver (answer : Z * bytes) : http_result :=
  if fst answer <? 400 then HttpOk (snd answer) else HttpError (fst answer) "" (snd answer).

Section honest.
Context `{P : Prims} `{!PrimLaws P}.
Variable sk : bytes.
Hypothesis sk_len : len32 sk.

Lemma checkpoint_ok created leaves :
  Forall leaf_ok leaves ->
  exists r, root leaves = Ok r /\ leaf_ok r /\
    checkpoint sk created leaves = Ok
      [("tree_size", PInt (Z.of_nat (length leaves))); ("root_hash", PStr r);
       ("created_at", PStr created);
       ("signature", PStr (hex (ed_sign sk
          (Auditor.checkpoint_msg (Z.of_nat (length leaves)) r created))));
       ("auditor_pk", PStr (pk_hex sk))].
Proof.
  intros H. destruct (root_ok leaves H) as (r & Hr & Hok).
  exists r. split; [done|]. split; [done|]. unfold checkpoint. by rewrite Hr.
Qed.

Lemma hex_py_len b : py_len (hex b) = 2 * blen b.
Proof.
  rewrite py_len_ascii by apply hex_ascii. unfold blen. rewrite hex_length. lia.
Qed.

Lemma verify_checkpoint_honest created leaves cp :
  Forall leaf_ok leaves -> checkpoint sk created leaves = Ok cp ->
  nonempty created = true -> utf8_valid created = true ->
  verify_checkpoint (pk_hex sk) cp = Ok tt.
Proof.
  intros Hl Hcp Hne Hv. destruct (checkpoint_ok created leaves Hl) as (r & _ & [Hr Hlen] & E).
  rewrite E in Hcp. apply Ok_inj in Hcp as <-.
  unfold verify_checkpoint. cbn -[py_len Z.ltb Z.of_nat fromhex hex AuditClient.checkpoint_msg].
  rewrite Hlen, hex_py_len, Hne. unfold blen. rewrite ed_sign_len by done.
  destruct (Z.ltb_spec (Z.of_nat (length leaves)) 0); [lia|].
  destruct Hr as (b & Hb & Lb). rewrite Hb. unfold pk_hex. rewrite !fromhex_hex.
  cbn -[Z.of_nat AuditClient.checkpoint_msg utf8_encode].
  assert (utf8_valid (AuditClient.checkpoint_msg (Z.of_nat (length leaves)) r created) = true) as Hu.
  { unfold AuditClient.checkpoint_msg. rewrite !utf8_valid_app; try done; apply utf8_valid_ascii;
      [by apply fromhex_ascii in Hb|apply dec_ascii]. }
  unfold utf8_encode. rewrite Hu. cbn [res_bind].
  change AuditClient.checkpoint_msg with Auditor.checkpoint_msg.
  rewrite ed_verify_sign by done.
  by rewrite (proj2 (len32b_spec _) (ed_pub_len sk sk_len)).
Qed.

(** *** What the client reads back *)

Lemma load_json v : py_ok v -> load_utf8 (json_dumps false false v) = Ok v.
Proof.
  intros H. unfold load_utf8, utf8_decode. rewrite json_dumps_valid by done. cbn [res_bind].
  by rewrite json_loads_dumps.
Qed.

Lemma load_answer (fetch : string -> http_result) path status v :
  fetch path = deliver (status, json_dumps false false v) -> status < 400 -> py_ok v ->
  fetch_json fetch path = Ok v.
Proof.
  intros Hf Hs Hv. unfold fetch_json. rewrite Hf. unfold deliver. cbn [fst snd].
  destruct (Z.ltb_spec status 400); [|lia]. by apply load_json.
Qed.

Lemma py_ok_row r h :
  row_text r -> leaf_hash r = sha256_hex h -> py_ok (PDict (row_json r)).
Proof.
  intros (H1 & H2 & H3 & H4 & H5) Hh. apply py_ok_dict. unfold row_json. split; [dict_keys|].
  repeat constructor; cbn [fst snd py_ok]; try done.
  rewrite Hh. apply utf8_valid_ascii, hex_ascii.
Qed.

Lemma py_ok_checkpoint created leaves cp :
  Forall leaf_ok leaves -> utf8_valid created = true -> checkpoint sk created leaves = Ok cp ->
  py_ok (PDict cp).
Proof.
  intros Hl Hc E. destruct (checkpoint_ok created leaves Hl) as (r & _ & [Hr _] & E').
  rewrite E' in E. apply Ok_inj in E as <-. apply py_ok_dict. split; [dict_keys|].
  repeat constructor; cbn [fst snd py_ok]; try done; apply utf8_valid_ascii;
    [by apply is_hash_ascii|apply hex_ascii|apply hex_ascii].
Qed.

(** Every hash on a generated proof is a node of some layer. *)
Lemma sibling_ok cur idx : Forall leaf_ok cur -> Forall (fun i => leaf_ok (phash i)) (sibling cur idx).
Proof.
  intros H. unfold sibling. destruct (Nat.even idx).
  - destruct (cur !! S idx) as [h|] eqn:E; constructor; [|done].
    exact (Forall_lookup_1 _ _ _ _ H E).
  - destruct (cur !! pred idx) as [h|] eqn:E; constructor; [|done].
    exact (Forall_lookup_1 _ _ _ _ H E).
Qed.

Lemma proof_from_ok fuel cur idx pf :
  Forall leaf_ok cur -> proof_from fuel cur idx = Ok pf -> Forall (fun i => leaf_ok (phash i)) pf.
Proof.
  revert cur idx pf. induction fuel as [|fuel IH]; intros cur idx pf Hc H; cbn [proof_from] in H.
  { by apply Ok_inj in H as <-. }
  destruct (1 <? length cur)%nat; [|by apply Ok_inj in H as <-].
  inv_ok H. subst pf. apply Forall_app. split; [by apply sibling_ok|].
  eapply IH; [|exact Ha0]. by eapply next_layer_leaf_ok.
Qed.

Lemma sibling_sides cur idx :
  Forall (fun i => side i = "left" \/ side i = "right") (sibling cur idx).
Proof.
  unfold sibling. destruct (Nat.even idx).
  - destruct (cur !! S idx); constructor; auto.
  - destruct (cur !! pred idx); constructor; auto.
Qed.

Lemma proof_from_sides fuel cur idx pf :
  proof_from fuel cur idx = Ok pf -> Forall (fun i => side i = "left" \/ side i = "right") pf.
Proof.
  revert cur idx pf. induction fuel as [|fuel IH]; intros cur idx pf H; cbn [proof_from] in H.
  { by apply Ok_inj in H as <-. }
  destruct (1 <? length cur)%nat; [|by apply Ok_inj in H as <-].
  inv_ok H. subst pf. apply Forall_app. split; [apply sibling_sides|]. by eapply IH.
Qed.

Lemma py_ok_items leaves i pf :
  Forall leaf_ok leaves -> inclusion_proof leaves i = Ok pf -> py_ok (PList (map item_json pf)).
Proof.
  unfold inclusion_proof. intros Hl H.
  destruct (_ || _); [by apply Ok_inj in H as <-|].
  pose proof (proof_from_ok _ _ _ _ Hl H) as Hok. pose proof (proof_from_sides _ _ _ _ H) as Hs.
  apply py_ok_list, Forall_fmap. apply (Forall_mp _ _ _ Hs).
  eapply Forall_impl; [exact Hok|]. intros [sd h] [Hh _] Hsd. cbn [phash side] in *.
  apply py_ok_dict. split; [dict_keys|].
  repeat constructor; cbn [fst snd py_ok phash side];
    [by destruct Hsd as [->| ->]|by apply utf8_valid_ascii, is_hash_ascii].
Qed.

(** *** Requests as the service parses them *)

Variables (show : exc -> string) (created : string) (rows : list row).

Lemma respond_proof uid ver :
  respond sk show created rows (proof_path uid ver) =
  let r := do_GET sk show created rows
             ("identity/" +:+ dec uid +:+ "/" +:+ dec ver +:+ "/proof") None None in
  (fst r, json_dumps false false (snd r)).
Proof.
  unfold respond, proof_path.
  rewrite cut_none.
  2: { rewrite !string_all_app, !dec_not by done. done. }
  replace (strip_slash _) with ("identity/" +:+ dec uid +:+ "/" +:+ dec ver +:+ "/proof").
  - cbn [qs_first nonempty String.length]. cbv zeta. by destruct (do_GET _ _ _ _ _ _ _).
  - symmetry. set (s := "dentity/" +:+ dec uid +:+ "/" +:+ dec ver +:+ "/proo").
    transitivity (String "i" (s +:+ String "f" "")).
    + rewrite <- (strip_slash_path "i" s "f") by reflexivity.
      subst s. rewrite !sapp_assoc. reflexivity.
    + subst s. rewrite !sapp_assoc. reflexivity.
Qed.

Lemma respond_consistency a b :
  respond sk show created rows (consistency_path a b) =
  let r := do_GET sk show created rows "consistency" (Some (dec a)) (Some (dec b)) in
  (fst r, json_dumps false false (snd r)).
Proof.
  unfold respond, consistency_path.
  change ("/consistency?from=" +:+ ?s) with ("/consistency" +:+ String "?" ("from=" +:+ s)).
  rewrite cut_app by done.
  change (strip_slash "/consistency") with "consistency".
  set (q := "from=" +:+ dec a +:+ "&to=" +:+ dec b).
  assert (Hne : forall z, nonempty (dec z) = true).
  { intros z. unfold dec. destruct (z <? 0) eqn:E; bool_hyps; [done|].
    destruct (dec_nat_numeral z) as (_ & _ & c & p & -> & _); [lia|done]. }
  assert (Hq : cut "&" q = ("from=" +:+ dec a, "to=" +:+ dec b)).
  { subst q. change ("&to=" +:+ dec b) with (String "&" ("to=" +:+ dec b)).
    rewrite <- sapp_assoc. apply cut_app. rewrite string_all_app. by rewrite dec_not. }
  assert (Hf : cut "=" ("from=" +:+ dec a) = ("from", dec a)) by (by apply (cut_app "=" "from")).
  assert (Ht : cut "=" ("to=" +:+ dec b) = ("to", dec b)) by (by apply (cut_app "=" "to")).
  assert (Ht' : cut "&" ("to=" +:+ dec b) = ("to=" +:+ dec b, "")).
  { apply cut_none. rewrite string_all_app. by rewrite dec_not. }
  assert (E1 : qs_first (S (String.length q)) "from" q = Some (dec a)).
  { cbn [qs_first]. rewrite Hq. cbn [fst snd]. rewrite Hf. cbn [fst snd].
    by rewrite Hne. }
  assert (E2 : qs_first (S (String.length q)) "to" q = Some (dec b)).
  { cbn [qs_first]. rewrite Hq. cbn [fst snd]. rewrite Hf. cbn [fst snd].
    change (String.eqb "from" "to") with false. cbn [andb].
    change (String.length q) with (S (String.length (sdrop 1 q))). cbn [qs_first].
    rewrite Ht'. cbn [fst snd]. rewrite Ht. cbn [fst snd]. by rewrite Hne. }
  rewrite E1, E2. cbv zeta. by destruct (do_GET _ _ _ _ _ _ _).
Qed.

(** *** What the service answers *)

Lemma route_path_proof uid ver :
  split_slash ("identity/" +:+ dec uid +:+ "/" +:+ dec ver +:+ "/proof") =
  ["identity"; dec uid; dec ver; "proof"].
Proof.
  change ("identity/" +:+ ?x) with ("identity" +:+ String "/" x).
  rewrite split_slash_app by done.
  change ("/" +:+ ?x) with (String "/" x). rewrite split_slash_app by (by apply dec_not).
  change ("/proof") with (String "/" "proof"). by rewrite split_slash_app by (by apply dec_not).
Qed.

Lemma assign_from_lookup i l j r' :
  assign_from i l !! j = Some r' ->
  exists r, l !! j = Some r /\ leaf_index r' = i + Z.of_nat j /\ leaf_hash r' = leaf_hash r /\
    (logged r -> logged r').
Proof.
  revert i j. induction l as [|r l IH]; intros i j H; [done|].
  destruct j as [|j]; cbn [assign_from lookup list_lookup] in H.
  - injection H as <-. exists r. cbn. split; [done|]. split; [lia|]. split; [done|].
    intros (H1 & H2). by split.
  - destruct (IH _ _ H) as (r0 & H1 & H2 & H3 & H4). exists r0.
    cbn. split; [done|]. split; [lia|]. done.
Qed.

Lemma assign_from_hashes i l : map leaf_hash (assign_from i l) = map leaf_hash l.
Proof. revert i. induction l as [|r l IH]; intros i; simpl; [done|]. by rewrite IH. Qed.

Lemma find_lookup {A} (f : A -> bool) l x : List.find f l = Some x -> exists j, l !! j = Some x.
Proof.
  intros H. apply find_some in H as [H _]. apply In_nth_error in H as [j Hj].
  exists j. revert j Hj. induction l as [|y l IH]; intros [|j]; simpl; try done. apply IH.
Qed.

(** The row an identity version is looked up by. *)
Definition row_of (uid ver : Z) (l : list row) : option row :=
  List.find (fun r => (r_user_id r =? uid) && (r_identity_version r =? ver)) l.

Lemma row_of_spec uid ver leaf :
  Forall logged rows -> row_of uid ver (assign_leaf_indices rows) = Some leaf ->
  r_user_id leaf = uid /\ r_identity_version leaf = ver /\ logged leaf /\
  exists j, map leaf_hash rows !! j = Some (leaf_hash leaf) /\ leaf_index leaf = Z.of_nat j.
Proof.
  intros Hl Hf. pose proof (find_some _ _ Hf) as [_ Hb]. bool_hyps.
  destruct (find_lookup _ _ _ Hf) as [j Hj].
  destruct (assign_from_lookup _ _ _ _ Hj) as (r & Hr & Hi & Hh & Hlog).
  split; [done|]. split; [done|]. split; [by apply Hlog, (Forall_lookup_1 _ _ _ _ Hl Hr)|].
  exists j. rewrite Hi, Hh. split; [|lia]. by rewrite list_lookup_fmap, Hr.
Qed.

Definition proof_answer (leaf : row) (pf : list proof_item) (cp : dict) : dict :=
  [("leaf", PDict (row_json leaf)); ("leaf_index", PInt (leaf_index leaf));
   ("proof", PList (map item_json pf)); ("checkpoint", PDict cp)].

Lemma do_GET_proof uid ver leaf cp pf :
  row_of uid ver (assign_leaf_indices rows) = Some leaf ->
  checkpoint sk created (map leaf_hash rows) = Ok cp ->
  inclusion_proof (map leaf_hash rows) (leaf_index leaf) = Ok pf ->
  do_GET sk show created rows
    ("identity/" +:+ dec uid +:+ "/" +:+ dec ver +:+ "/proof") None None =
  (200, PDict (proof_answer leaf pf cp)).
Proof.
  intros Hrow Hcp Hpf. unfold do_GET. set (p := "identity/" +:+ _).
  change (String.eqb p "healthz" || String.eqb p "readyz") with false.
  change (String.eqb p "pubkey") with false. cbn iota.
  unfold route, body. unfold assign_leaf_indices in *.
  rewrite assign_from_hashes, Hcp. cbn [res_bind].
  change (String.eqb p "checkpoint") with false. cbn iota. subst p.
  rewrite route_path_proof. cbv iota beta. unfold handle_proof.
  rewrite !int_of_dec. cbn [res_bind]. unfold row_of in Hrow. rewrite Hrow, Hpf. done.
Qed.

Definition consistency_answer (a b : Z) (ra rb : string) : dict :=
  [("from_size", PInt a); ("to_size", PInt b); ("from_root", PStr ra); ("to_root", PStr rb);
   ("proof", PList []); ("status", PStr "consistent")].

Lemma do_GET_consistency (a b : nat) ra rb cp :
  (a <= b <= length rows)%nat ->
  checkpoint sk created (map leaf_hash rows) = Ok cp ->
  root (take a (map leaf_hash rows)) = Ok ra -> root (take b (map leaf_hash rows)) = Ok rb ->
  do_GET sk show created rows "consistency" (Some (dec (Z.of_nat a))) (Some (dec (Z.of_nat b))) =
  (200, PDict (consistency_answer (Z.of_nat a) (Z.of_nat b) ra rb)).
Proof.
  intros Hab Hcp Ha Hb. unfold do_GET. cbn [String.eqb orb].
  change (String.eqb "consistency" "healthz" || String.eqb "consistency" "readyz") with false.
  change (String.eqb "consistency" "pubkey") with false. cbn iota.
  unfold route, body, assign_leaf_indices. rewrite assign_from_hashes, Hcp. cbn [res_bind].
  change (String.eqb "consistency" "checkpoint") with false.
  change (String.eqb "consistency" "consistency") with true.
  change (split_slash "consistency") with ["consistency"]. cbv iota beta.
  unfold handle_consistency, query_int. rewrite !int_of_dec. cbn [res_bind].
  rewrite length_map. rewrite !Nat2Z.id, Ha, Hb.
  destruct (Z.ltb_spec (Z.of_nat a) 0); [lia|]. destruct (Z.ltb_spec (Z.of_nat b) (Z.of_nat a)); [lia|].
  by destruct (Z.ltb_spec (Z.of_nat (length rows)) (Z.of_nat b)); [lia|].
Qed.

Lemma py_ok_proof_answer leaf pf cp :
  py_ok (PDict (row_json leaf)) -> py_ok (PList (map item_json pf)) -> py_ok (PDict cp) ->
  py_ok (PDict (proof_answer leaf pf cp)).
Proof.
  intros Hl Hp Hc. apply py_ok_dict. split; [dict_keys|].
  unfold proof_answer. repeat (constructor; [cbn [fst snd]; split; [done|]|]); [| | | |constructor].
  - exact Hl.
  - done.
  - exact Hp.
  - exact Hc.
Qed.

Lemma py_ok_consistency_answer a b ra rb :
  is_hash ra -> is_hash rb -> py_ok (PDict (consistency_answer a b ra rb)).
Proof.
  intros Ha Hb. apply py_ok_dict. split; [dict_keys|].
  repeat constructor; cbn [fst snd py_ok]; try done; by apply utf8_valid_ascii, is_hash_ascii.
Qed.
End honest.

(** ** Acceptance *)

Section acceptance.
Context `{P : Prims} `{!PrimLaws P}.
Variable sk : bytes.
Hypothesis sk_len : len32 sk.
Variables (show : exc -> string) (created created' : string) (rows later : list row).
Hypothesis rows_logged : Forall logged rows.
Hypothesis later_logged : Forall logged later.
Hypothesis created_ne : nonempty created = true.
Hypothesis created_utf8 : utf8_valid created = true.

(** The log may grow between the client's two requests. *)
Definition serve (path : string) : http_result :=
  deliver (if starts_with "/consistency" path
           then respond sk show created' (rows ++ later) path
           else respond sk show created rows path).

(** A checkpoint the auditor signed when the log was a prefix of the present one. *)
Definition earlier_checkpoint (old : dict) : Prop :=
  exists t n, (n <= length rows)%nat /\ checkpoint sk t (take n (map leaf_hash rows)) = Ok old.

Lemma consistency_accepts (fetch : string -> http_result) prev cp :
  (forall a b, fetch (consistency_path a b) =
     deliver (respond sk show created' (rows ++ later) (consistency_path a b))) ->
  checkpoint sk created (map leaf_hash rows) = Ok cp ->
  match prev with None => True | Some old => earlier_checkpoint old end ->
  check_consistency fetch (pk_hex sk) prev cp = Ok tt.
Proof.
  intros Hfetch Hcp Hprev. pose proof (logged_leaves rows rows_logged) as Hl.
  unfold check_consistency.
  rewrite (verify_checkpoint_honest sk sk_len created _ cp Hl Hcp) by done. cbn [res_bind].
  destruct prev as [old|]; [|done]. destruct Hprev as (t & n & Hn & Hold).
  assert (Hlt : Forall leaf_ok (take n (map leaf_hash rows))) by (by apply Forall_take).
  destruct (checkpoint_ok sk t _ Hlt) as (ra & Hra & [Ha _] & E).
  rewrite E in Hold. apply Ok_inj in Hold as <-.
  destruct (checkpoint_ok sk created _ Hl) as (rb & Hrb & [Hb _] & E').
  rewrite E' in Hcp. apply Ok_inj in Hcp as <-.
  assert (Hln : length (take n (map leaf_hash rows)) = n) by (rewrite length_take, length_map; lia).
  rewrite Hln, length_map.
  unfold get_int0, py_or. cbn -[Z.of_nat fetch_json consistency_path].
  assert (H0 : forall k : nat, py_int (if negb (Z.of_nat k =? 0) then PInt (Z.of_nat k) else PInt 0)
             = Ok (Z.of_nat k)) by (intros [|k]; done).
  rewrite !H0. cbn [res_bind].
  destruct (Z.ltb_spec (Z.of_nat (length rows)) (Z.of_nat n)); [lia|].
  destruct (Z.eqb_spec (Z.of_nat n) (Z.of_nat (length rows))) as [Heq|Hne].
  { apply Nat2Z.inj in Heq. rewrite take_ge in Hra by (rewrite length_map; lia).
    replace rb with ra by congruence. by rewrite String.eqb_refl. }
  destruct (checkpoint_ok sk created' (map leaf_hash (rows ++ later))) as (rc & _ & _ & E'').
  { apply logged_leaves. by apply Forall_app. }
  rewrite (load_answer fetch _ 200
    (PDict (consistency_answer (Z.of_nat n) (Z.of_nat (length rows)) ra rb))); [|  |done|].
  2: { rewrite Hfetch, respond_consistency. cbv zeta.
       erewrite do_GET_consistency; [reflexivity| |exact E''| |].
       - rewrite length_app. lia.
       - rewrite map_app, take_app_le by (rewrite length_map; lia). exact Hra.
       - rewrite map_app, take_app_length' by (by rewrite length_map). exact Hrb. }
  2: { by apply py_ok_consistency_answer. }
  cbn [res_bind as_dict]. unfold check_consistency_answer. cbn -[Z.of_nat].
  by rewrite !Z.eqb_refl, !String.eqb_refl.
Qed.

Definition accepted (leaf : row) (pf : list proof_item) (cp : dict) : dict :=
  [("status", PStr "ok"); ("leaf", PDict (row_json leaf)); ("checkpoint", PDict cp);
   ("proof", PList (map item_json pf))].

Lemma py_or_items l : py_or (PList l) (PList []) = PList l.
Proof. by destruct l. Qed.

Lemma py_int_nat n : 0 <= n -> int_or_minus1 (PInt n) = Ok n.
Proof. done. Qed.

(** The client accepts any leaf that carries the requested user and version, a
    matching key and the hash of a logged row with its generated proof. *)
Lemma answer_accepted (fetch : string -> http_result) uid ver pk prev leaf row pf cp :
  row_of uid ver (assign_leaf_indices rows) = Some row ->
  r_user_id leaf = uid -> r_identity_version leaf = ver ->
  leaf_hash leaf = leaf_hash row -> leaf_index leaf = leaf_index row ->
  same_identity_key (r_identity_pk leaf) pk = true ->
  checkpoint sk created (map leaf_hash rows) = Ok cp ->
  inclusion_proof (map leaf_hash rows) (leaf_index row) = Ok pf ->
  fetch_json fetch (proof_path uid ver) = Ok (PDict (proof_answer leaf pf cp)) ->
  check_consistency fetch (pk_hex sk) prev cp = Ok tt ->
  verify_identity_from_auditor fetch (pk_hex sk) uid ver pk prev = Ok (accepted leaf pf cp).
Proof.
  intros Hrow <- <- Hh Hi Hkey Hcp Hpf Hfetch Hcons.
  pose proof (logged_leaves rows rows_logged) as Hl.
  destruct (row_of_spec rows _ _ _ rows_logged Hrow) as (_ & _ & _ & j & Hj & Hidx).
  unfold verify_identity_from_auditor. rewrite Hfetch. cbn [res_bind as_dict].
  unfold or_empty_dict, proof_answer. cbn -[verify_answer check_consistency dget py_or row_json].
  replace (py_or (dget "leaf" PNone _) (PDict [])) with (PDict (row_json leaf)) by done.
  assert (Hd : py_or (PDict cp) (PDict []) = PDict cp).
  { destruct (checkpoint_ok sk created _ Hl) as (? & _ & _ & E). rewrite E in Hcp.
    by apply Ok_inj in Hcp as <-. }
  replace (py_or (dget "checkpoint" PNone _) (PDict [])) with (PDict cp) by done.
  cbn [res_bind as_dict].
  assert (Hv : verify_answer (pk_hex sk) (r_user_id leaf) (r_identity_version leaf) pk
                 (proof_answer leaf pf cp) (row_json leaf) cp = Ok tt).
  2: { unfold proof_answer in Hv. rewrite Hv. cbn [res_bind]. rewrite Hcons. cbn [res_bind].
       unfold accepted. do 6 f_equal. apply py_or_items. }
  unfold verify_answer. rewrite (verify_checkpoint_honest sk sk_len created _ cp Hl Hcp) by done.
  cbn -[verify_inclusion py_or dget Z.eqb leaf_key_matches].
  unfold row_json, proof_answer. cbn -[verify_inclusion py_or Z.eqb leaf_key_matches].
  rewrite !Z.eqb_refl. cbn -[verify_inclusion py_or leaf_key_matches].
  change (leaf_key_matches _ pk) with (same_identity_key (r_identity_pk leaf) pk). rewrite Hkey.
  cbn -[verify_inclusion py_or]. rewrite py_or_items. cbn -[verify_inclusion].
  destruct (inclusion_proof_climbs _ j _ Hl Hj) as (r & pf' & Hr & Hpf' & Hclimb).
  rewrite Hidx in Hpf. rewrite Hpf in Hpf'. apply Ok_inj in Hpf' as <-.
  destruct (checkpoint_ok sk created _ Hl) as (r' & Hr' & _ & E). rewrite Hr in Hr'.
  apply Ok_inj in Hr' as <-. rewrite E in Hcp. apply Ok_inj in Hcp as <-.
  pose proof (lookup_lt_Some _ _ _ Hj) as Hlt.
  unfold verify_inclusion. cbn -[Z.of_nat climb].
  rewrite Hh, Hi, Hidx, Hclimb. cbn -[Z.of_nat].
  destruct (Z.eqb_spec (Z.of_nat (length (map leaf_hash rows))) 0); [lia|].
  destruct (Z.ltb_spec (Z.of_nat j) 0); [lia|].
  destruct (Z.leb_spec (Z.of_nat (length (map leaf_hash rows))) (Z.of_nat j)); [lia|].
  by rewrite String.eqb_refl.
Qed.
End acceptance.

(** ** What acceptance proves *)

Lemma root_is_node canons r ls :
  tree_layers (map sha256_hex canons) = Ok ls -> root (map sha256_hex canons) = Ok r ->
  Forall leaf_ok (map sha256_hex canons) -> exists b, fromhex r = Ok b /\ is_node ls b.
Proof.
  intros Hls Hr Hok. destruct (root_ok _ Hok) as (r' & Hr' & [(b & Hb & _) _]).
  rewrite Hr in Hr'. apply Ok_inj in Hr' as <-. exists b. split; [done|]. exists r.
  split; [|done]. unfold root in Hr. rewrite Hls in Hr. cbn [res_bind] in Hr.
  destruct (last ls) as [[|x l]|] eqn:E; try done. apply Ok_inj in Hr as ->.
  apply last_Some in E as [l' ->]. rewrite concat_app. simpl.
  apply elem_of_app. right. by left.
Qed.

(** What [verify_inclusion] accepts under the root of a log. *)
Lemma verify_inclusion_sound canons r cp leaf index proof b :
  Forall leaf_text canons -> canons <> [] -> root (map sha256_hex canons) = Ok r ->
  py_str (dget "root_hash" (PStr "") cp) = r -> py_int (dget "tree_size" (PInt (-1)) cp) <> Ok 0 ->
  verify_inclusion leaf index proof cp = Ok tt -> fromhex leaf = Ok b -> len32 b ->
  exists ls, tree_layers (map sha256_hex canons) = Ok ls /\
    (is_node ls b \/ collision (canons ++ tree_preimages ls) (climb_preimages leaf proof)).
Proof.
  intros Hc Hne Hr Hroot Hsize Hv Hb Lb.
  assert (Hok : Forall leaf_ok (map sha256_hex canons)).
  { apply Forall_fmap, Forall_true. intros. apply sha_leaf_ok. }
  destruct (tree_layers (map sha256_hex canons)) as [ls|e] eqn:Els.
  2: { unfold root in Hr. by rewrite Els in Hr. }
  exists ls. split; [done|]. destruct (root_is_node _ _ _ Els Hr Hok) as (rb & Hrb & Hnode).
  unfold verify_inclusion in Hv. apply res_bind_ok in Hv as (n & Hn & Hv).
  destruct (Z.eqb_spec n 0) as [->|_]; [done|].
  destruct (_ || _); [done|]. inv_ok Hv. apply String.eqb_eq in E.
  assert (Hls : layers_from (length (map sha256_hex canons)) (map sha256_hex canons) = Ok ls).
  { destruct canons; [done|exact Els]. }
  rewrite Hroot in E. subst a. eapply climb_sound; eauto.
Qed.

Lemma verify_answer_inv `{P : Prims} apk uid ver pk proof leaf cp :
  verify_answer apk uid ver pk proof leaf cp = Ok tt ->
  verify_checkpoint apk cp = Ok tt /\
  py_int (dget "user_id" (PInt 0) leaf) = Ok uid /\
  int_or_minus1 (dget "identity_version" PNone leaf) = Ok ver /\
  leaf_key_matches leaf pk = true /\
  exists index items,
    as_list (py_or (dget "proof" PNone proof) (PList [])) = Ok items /\
    verify_inclusion (py_str (dget "leaf_hash" (PStr "") leaf)) index items cp = Ok tt.
Proof.
  unfold verify_answer. intros H. apply res_bind_ok in H as ([] & H1 & H).
  apply res_bind_ok in H as (u & H2 & H). destruct (Z.eqb_spec u uid) as [->|]; [|done].
  cbn [negb] in H. apply res_bind_ok in H as (v & H3 & H).
  destruct (Z.eqb_spec v ver) as [->|]; [|done]. cbn [negb] in H.
  destruct (leaf_key_matches leaf pk); [|done]. cbn [negb] in H.
  apply res_bind_ok in H as (i & _ & H). apply res_bind_ok in H as (items & H4 & H).
  eauto 10.
Qed.

Lemma verify_identity_inv `{P : Prims} fetch apk uid ver pk prev out :
  verify_identity_from_auditor fetch apk uid ver pk prev = Ok out ->
  exists proof leaf cp,
    fetch_json fetch (proof_path uid ver) = Ok (PDict proof) /\
    dlookup "leaf" out = Some (PDict leaf) /\ dlookup "checkpoint" out = Some (PDict cp) /\
    dlookup "proof" out = Some (py_or (dget "proof" PNone proof) (PList [])) /\
    verify_answer apk uid ver pk proof leaf cp = Ok tt /\
    check_consistency fetch apk prev cp = Ok tt.
Proof.
  unfold verify_identity_from_auditor. intros H.
  apply res_bind_ok in H as (v & Hv & H). apply res_bind_ok in H as (proof & Hp & H).
  destruct v; try done. apply Ok_inj in Hp as ->.
  apply res_bind_ok in H as (leaf & _ & H). apply res_bind_ok in H as (cp & _ & H).
  apply res_bind_ok in H as ([] & Ha & H). apply res_bind_ok in H as ([] & Hc & H).
  apply Ok_inj in H as <-. exists proof, leaf, cp. done.
Qed.

(** ** Properties *)

(** C8: when the auditor serves a log whose rows carry the hash of their fields,
    the client accepts the proof of every logged identity version against the
    logged key and any checkpoint the auditor signed earlier, also when the log
    grows between the two requests. *)
Theorem honest_auditor_accepted `{P : Prims} `{!PrimLaws P} (sk : bytes) (show : exc -> string)
    (created created' : string) (rows later : list row) (uid ver : Z) (leaf : row) (pk : string)
    (prev : option dict) :
  len32 sk -> Forall logged rows -> Forall logged later ->
  nonempty created = true -> utf8_valid created = true ->
  row_of uid ver (assign_leaf_indices rows) = Some leaf ->
  same_identity_key (r_identity_pk leaf) pk = true ->
  match prev with None => True | Some old => earlier_checkpoint sk rows old end ->
  exists cp pf,
    checkpoint sk created (map leaf_hash rows) = Ok cp /\
    inclusion_proof (map leaf_hash rows) (leaf_index leaf) = Ok pf /\
    verify_identity_from_auditor (serve sk show created created' rows later) (pk_hex sk)
      uid ver pk prev = Ok (accepted leaf pf cp).
Proof.
  intros Hsk Hl Hl' Hne Hu Hrow Hkey Hprev. pose proof (logged_leaves rows Hl) as Hleaves.
  destruct (row_of_spec rows _ _ _ Hl Hrow) as (Huid & Hver & Hlog & j & Hj & Hidx).
  destruct (checkpoint_ok sk created _ Hleaves) as (r & _ & _ & Hcp).
  destruct (inclusion_proof_climbs _ j _ Hleaves Hj) as (_ & pf & _ & Hpf & _).
  rewrite <- Hidx in Hpf. eexists _, pf. split; [exact Hcp|]. split; [exact Hpf|].
  eapply (answer_accepted sk Hsk created rows Hl); try done.
  - apply (load_answer _ _ 200); [|done|].
    + unfold serve. change (starts_with "/consistency" (proof_path uid ver)) with false. cbn iota.
      rewrite respond_proof. cbv zeta. by erewrite do_GET_proof.
    + apply py_ok_proof_answer; [| |by eapply py_ok_checkpoint].
      * eapply py_ok_row; apply Hlog.
      * by eapply py_ok_items.
  - by eapply (consistency_accepts sk Hsk show created created' rows later).
Qed.

(** The fields of a leaf are not authenticated. Whoever controls the answer
    to the proof request can replace the key of a logged leaf, keep its hash, the
    proof and the auditor's signed checkpoint, and the client accepts the
    replaced key as verified. *)
Theorem leaf_key_not_authenticated `{P : Prims} `{!PrimLaws P} (sk : bytes) (show : exc -> string)
    (created : string) (rows : list row) (uid ver : Z) (leaf : row) (evil : string) :
  len32 sk -> Forall logged rows -> nonempty created = true -> utf8_valid created = true ->
  row_of uid ver (assign_leaf_indices rows) = Some leaf -> utf8_valid evil = true ->
  let forged := Row (log_index leaf) (r_user_id leaf) (r_identity_version leaf) evil
                  (device_id_hash leaf) (r_device_label leaf) (r_event_type leaf)
                  (r_created_at leaf) (leaf_hash leaf) (leaf_index leaf) in
  exists cp pf out,
    checkpoint sk created (map leaf_hash rows) = Ok cp /\
    inclusion_proof (map leaf_hash rows) (leaf_index leaf) = Ok pf /\
    verify_identity_from_auditor
      (fun _ => HttpOk (json_dumps false false (PDict (proof_answer forged pf cp))))
      (pk_hex sk) uid ver evil None = Ok out.
Proof.
  intros Hsk Hl Hne Hu Hrow Hevil forged. pose proof (logged_leaves rows Hl) as Hleaves.
  destruct (row_of_spec rows _ _ _ Hl Hrow) as (Huid & Hver & Hlog & j & Hj & Hidx).
  destruct (checkpoint_ok sk created _ Hleaves) as (r & _ & _ & Hcp).
  destruct (inclusion_proof_climbs _ j _ Hleaves Hj) as (_ & pf & _ & Hpf & _).
  rewrite <- Hidx in Hpf. eexists _, pf, _. split; [exact Hcp|]. split; [exact Hpf|].
  eapply (answer_accepted sk Hsk created rows Hl Hne Hu _ uid ver evil None forged leaf pf); try done.
  - unfold same_identity_key. cbn [r_identity_pk forged].
    destruct (identity_bytes evil); apply String.eqb_refl.
  - eapply (load_answer _ _ 200); [reflexivity|done|].
    apply py_ok_proof_answer; [|by eapply py_ok_items|exact (py_ok_checkpoint sk created _ _ Hleaves Hu Hcp)].
    destruct Hlog as (Hh & _ & Ht). eapply py_ok_row; [|exact Hh]. by split.
  - unfold check_consistency. by erewrite verify_checkpoint_honest.
Qed.

(** If the client accepts an answer, whoever produced it, then the checkpoint
    carries a valid signature of the pinned auditor key and the leaf names the
    requested user and version; and if that checkpoint's root is the one of a log,
    the leaf hash is a node of the log's Merkle tree, or the answer exhibits a
    SHA-256 collision with the log. *)
Theorem verified_leaf_in_log `{P : Prims} fetch apk uid ver pk prev out :
  verify_identity_from_auditor fetch apk uid ver pk prev = Ok out ->
  exists leaf cp items,
    dlookup "leaf" out = Some (PDict leaf) /\ dlookup "checkpoint" out = Some (PDict cp) /\
    verify_checkpoint apk cp = Ok tt /\
    py_int (dget "user_id" (PInt 0) leaf) = Ok uid /\
    int_or_minus1 (dget "identity_version" PNone leaf) = Ok ver /\
    leaf_key_matches leaf pk = true /\
    forall canons b, let h := py_str (dget "leaf_hash" (PStr "") leaf) in
      Forall leaf_text canons -> canons <> [] ->
      root (map sha256_hex canons) = Ok (py_str (dget "root_hash" (PStr "") cp)) ->
      py_int (dget "tree_size" (PInt (-1)) cp) <> Ok 0 -> fromhex h = Ok b -> len32 b ->
      exists ls, tree_layers (map sha256_hex canons) = Ok ls /\
        (is_node ls b \/ collision (canons ++ tree_preimages ls) (climb_preimages h items)).
Proof.
  intros H. apply verify_identity_inv in H as (proof & leaf & cp & _ & Hl & Hc & _ & Ha & _).
  apply verify_answer_inv in Ha as (H1 & H2 & H3 & H4 & index & items & _ & Hi).
  exists leaf, cp, items. do 6 (split; [done|]).
  intros canons b h Ht Hne Hr Hs Hb Lb. by eapply verify_inclusion_sound.
Qed.

(** C34: a checkpoint that passes against a pinned one verifies under the auditor's
    key, is not smaller, and has the pinned root if it has the pinned size. *)
Theorem checkpoint_never_rolls_back `{P : Prims} fetch apk old new :
  old <> [] -> check_consistency fetch apk (Some old) new = Ok tt ->
  verify_checkpoint apk new = Ok tt /\
  exists a b, get_int0 "tree_size" old = Ok a /\ get_int0 "tree_size" new = Ok b /\ a <= b /\
    (a = b -> py_str (dget "root_hash" (PStr "") old) = py_str (dget "root_hash" (PStr "") new)).
Proof.
  intros Hne H. unfold check_consistency in H. apply res_bind_ok in H as ([] & Hv & H).
  split; [done|]. destruct old as [|kv old]; [done|].
  apply res_bind_ok in H as (a & Ha & H). apply res_bind_ok in H as (b & Hb & H).
  exists a, b. split; [done|]. split; [done|].
  destruct (Z.ltb_spec b a); [done|]. split; [lia|]. intros ->.
  rewrite Z.eqb_refl in H. inv_ok H. by apply String.eqb_eq.
Qed.

(** A version the log does not hold is answered with 404, which the client
    reports under the code [identity_version_not_found]. *)
Theorem missing_version_reported `{P : Prims} `{!PrimLaws P} (sk : bytes) show created created'
    rows later uid ver pk prev :
  len32 sk -> Forall logged rows -> row_of uid ver (assign_leaf_indices rows) = None ->
  verify_identity_from_auditor (serve sk show created created' rows later) (pk_hex sk)
    uid ver pk prev =
  Err (AuditError "Identity version not found in auditor log" "identity_version_not_found").
Proof.
  intros Hsk Hl Hrow. pose proof (logged_leaves rows Hl) as Hleaves.
  destruct (checkpoint_ok sk created _ Hleaves) as (r & _ & _ & Hcp).
  unfold verify_identity_from_auditor, fetch_json, serve.
  change (starts_with "/consistency" (proof_path uid ver)) with false. cbn iota.
  rewrite respond_proof. cbv zeta. set (p := "identity/" +:+ _).
  assert (do_GET sk show created rows p None None =
          (404, error_json "identity version not found")) as ->.
  { unfold do_GET. change (String.eqb p "healthz" || String.eqb p "readyz") with false.
    change (String.eqb p "pubkey") with false. cbn iota.
    unfold route, body, assign_leaf_indices. rewrite assign_from_hashes, Hcp. cbn [res_bind].
    change (String.eqb p "checkpoint") with false. cbn iota. subst p.
    rewrite route_path_proof. cbv iota beta. unfold handle_proof. rewrite !int_of_dec.
    cbn [res_bind]. unfold row_of, assign_leaf_indices in Hrow. by rewrite Hrow. }
  vm_compute. reflexivity.
Qed.

(** Every message is classified, and every class has a label and one of the
    two statuses the interface shows. *)
Theorem audit_error_classified message :
  let code := classify_audit_error message in
  audit_error_label code <> "" /\ is_Some (dlookup code AUDIT_ERROR_LABELS) /\
  audit_status_for_code code ∈ ["audit_unavailable"; "audit_mismatch"].
Proof.
  intros code.
  assert (Hin : In code (dkeys AUDIT_ERROR_LABELS)).
  { subst code. unfold classify_audit_error. generalize (lower message). intros text.
    repeat match goal with |- context [if ?b then _ else _] => destruct b end; vm_compute; tauto. }
  set (good c := nonempty (audit_error_label c) && dmem c AUDIT_ERROR_LABELS &&
    (String.eqb (audit_status_for_code c) "audit_unavailable" ||
     String.eqb (audit_status_for_code c) "audit_mismatch")).
  assert (Hall : forallb good (dkeys AUDIT_ERROR_LABELS) = true) by (vm_compute; reflexivity).
  rewrite forallb_forall in Hall. specialize (Hall code Hin). unfold good, dmem in Hall.
  destruct (dlookup code AUDIT_ERROR_LABELS) as [l|] eqn:E; [|by rewrite andb_false_r in Hall].
  apply andb_prop in Hall as [Hl Hs]. apply andb_prop in Hl as [Hl _].
  split; [by destruct (audit_error_label code)|]. split; [by eexists|].
  apply orb_true_iff in Hs as [Hs|Hs]; apply String.eqb_eq in Hs as ->; repeat constructor.
Qed.

(** ** Witnesses *)

(** A row as the server writes it. *)
Definition log_row (i uid ver : Z) (pk : string) : row :=
  let r h := Row i uid ver pk "" "primary device" "create" "2026-01-01T00:00:00Z" h 0 in
  r (sha256_hex (leaf_canon (r ""))).

Definition demo_sk : bytes := sha256 "auditor seed".
Definition demo_rows : list row :=
  [log_row 1 7 1 "YWxpY2U"; log_row 2 8 1 "Ym9i"; log_row 5 7 2 "YWxpY2Uy"].
Definition demo_time : string := "2026-01-02T00:00:00Z".

(** What the demo log's checkpoint, leaf and proof evaluate to. *)
Definition demo_leaf : row := default (log_row 0 0 0 "") (row_of 7 2 (assign_leaf_indices demo_rows)).
Definition demo_old : dict :=
  ok_or [] (checkpoint demo_sk demo_time (take 2 (map leaf_hash demo_rows))).

Lemma demo_len : len32 demo_sk.
Proof. vm_compute. reflexivity. Qed.

Lemma demo_logged : Forall logged demo_rows.
Proof. repeat constructor; vm_compute; reflexivity. Qed.

Lemma honest_auditor_accepted_witness :
  exists cp pf,
    checkpoint demo_sk demo_time (map leaf_hash demo_rows) = Ok cp /\
    inclusion_proof (map leaf_hash demo_rows) (leaf_index demo_leaf) = Ok pf /\
    verify_identity_from_auditor
      (serve demo_sk (fun _ => "") demo_time demo_time demo_rows demo_rows) (pk_hex demo_sk)
      7 2 "YWxpY2Uy" (Some demo_old) = Ok (accepted demo_leaf pf cp).
Proof.
  apply (honest_auditor_accepted demo_sk (fun _ => "") demo_time demo_time demo_rows demo_rows
           7 2 demo_leaf "YWxpY2Uy" (Some demo_old)).
  - exact demo_len.
  - exact demo_logged.
  - exact demo_logged.
  - reflexivity.
  - vm_compute. reflexivity.
  - vm_compute. reflexivity.
  - vm_compute. reflexivity.
  - exists demo_time, 2%nat. split; [apply Nat.leb_le; vm_compute; reflexivity|].
    vm_compute. reflexivity.
Defined.

Lemma leaf_key_not_authenticated_witness :
  exists cp pf out,
    checkpoint demo_sk demo_time (map leaf_hash demo_rows) = Ok cp /\
    inclusion_proof (map leaf_hash demo_rows) (leaf_index demo_leaf) = Ok pf /\
    verify_identity_from_auditor
      (fun _ => HttpOk (json_dumps false false (PDict (proof_answer
         (Row (log_index demo_leaf) (r_user_id demo_leaf) (r_identity_version demo_leaf)
            "bWFsbG9yeQ" (device_id_hash demo_leaf) (r_device_label demo_leaf)
            (r_event_type demo_leaf) (r_created_at demo_leaf) (leaf_hash demo_leaf)
            (leaf_index demo_leaf)) pf cp))))
      (pk_hex demo_sk) 7 2 "bWFsbG9yeQ" None = Ok out.
Proof.
  apply (leaf_key_not_authenticated demo_sk (fun _ => "") demo_time demo_rows 7 2 demo_leaf).
  - exact demo_len.
  - exact demo_logged.
  - reflexivity.
  - vm_compute. reflexivity.
  - vm_compute. reflexivity.
  - vm_compute. reflexivity.
Defined.

(** The client's run against the demo service, evaluated. *)
Definition demo_run : res dict :=
  verify_identity_from_auditor
    (serve demo_sk (fun _ => "") demo_time demo_time demo_rows []) (pk_hex demo_sk)
    7 2 "YWxpY2Uy" None.
Definition demo_out : dict := ok_or [] demo_run.

Lemma demo_accepted : demo_run = Ok demo_out.
Proof. vm_compute. reflexivity. Qed.

Lemma verified_leaf_in_log_witness :
  exists leaf cp items,
    dlookup "leaf" demo_out = Some (PDict leaf) /\
    dlookup "checkpoint" demo_out = Some (PDict cp) /\
    verify_checkpoint (pk_hex demo_sk) cp = Ok tt /\
    py_int (dget "user_id" (PInt 0) leaf) = Ok 7 /\
    int_or_minus1 (dget "identity_version" PNone leaf) = Ok 2 /\
    leaf_key_matches leaf "YWxpY2Uy" = true /\
    forall canons b, let h := py_str (dget "leaf_hash" (PStr "") leaf) in
      Forall leaf_text canons -> canons <> [] ->
      root (map sha256_hex canons) = Ok (py_str (dget "root_hash" (PStr "") cp)) ->
      py_int (dget "tree_size" (PInt (-1)) cp) <> Ok 0 -> fromhex h = Ok b -> len32 b ->
      exists ls, tree_layers (map sha256_hex canons) = Ok ls /\
        (is_node ls b \/ collision (canons ++ tree_preimages ls) (climb_preimages h items)).
Proof. exact (verified_leaf_in_log _ _ 7 2 "YWxpY2Uy" None demo_out demo_accepted). Defined.

Definition demo_new : dict :=
  ok_or [] (checkpoint demo_sk demo_time (map leaf_hash demo_rows)).

Lemma checkpoint_never_rolls_back_witness :
  verify_checkpoint (pk_hex demo_sk) demo_new = Ok tt /\
  exists a b, get_int0 "tree_size" demo_old = Ok a /\ get_int0 "tree_size" demo_new = Ok b /\
    a <= b /\
    (a = b -> py_str (dget "root_hash" (PStr "") demo_old) =
              py_str (dget "root_hash" (PStr "") demo_new)).
Proof.
  apply (checkpoint_never_rolls_back
           (serve demo_sk (fun _ => "") demo_time demo_time demo_rows []) (pk_hex demo_sk)
           demo_old demo_new).
  - vm_compute. discriminate.
  - vm_compute. reflexivity.
Defined.

Lemma missing_version_reported_witness :
  verify_identity_from_auditor
    (serve demo_sk (fun _ => "") demo_time demo_time demo_rows []) (pk_hex demo_sk) 8 2 "" None =
  Err (AuditError "Identity version not found in auditor log" "identity_version_not_found").
Proof.
  apply missing_version_reported.
  - exact demo_len.
  - exact demo_logged.
  - vm_compute. reflexivity.
Defined.
