(* ===== verification/Wire.v ===== *)
(** * Wire helpers, key encapsulation and prekeys (client/crypto_engine/secure_protocol.py)

    The encodings and the small cryptographic wrappers of the protocol module:
    JSON tokens, HKDF, sealed JSON objects, the choice of a KEM, X25519, and the
    signed prekeys of a PQXDH bundle. Random bytes and the clock are explicit
    arguments, in the order the code draws them. *)

From S2P Require Import Prelude Hashing Base64 PyVal Sorting Json Crypto.

Definition SECCHAT_SCHEMA : Z := 3.
Definition PREFIX_PQ_INIT : string := "S3PQI:".
Definition PREFIX_DR : string := "S3DR:".
Definition PREFIX_MLS : string := "S3MLS:".
Definition DEFAULT_KEM : string := "ML-KEM-1024".
Definition ALLOWED_KEMS : list string := ["ML-KEM-1024"; "Kyber1024"; "ML-KEM-768"; "Kyber768"].
Definition MAX_SKIP_KEYS : Z := 1000.

(** [json.dumps(obj, separators=(",", ":"), ensure_ascii=False).encode("utf-8")]. *)
Definition json_bytes (v : pyval) : res bytes := utf8_encode (json_dumps false false v).

Definition json_b64 (v : pyval) : res string := let! raw := json_bytes v in Ok (b64e raw).

(** [json.loads(raw.decode("utf-8"))]. *)
Definition loads_bytes (raw : bytes) : res pyval := let! t := utf8_decode raw in json_loads t.

Definition json_unb64 (token : string) : res pyval := let! raw := b64d token in loads_bytes raw.

(** [b64d] on a value that should be a string. *)
Definition b64d_v (v : pyval) : res bytes :=
  match v with PStr s => b64d s | _ => Err TypeError end.

(** The characters of an element of [l]. *)
Definition mem (x : string) (l : list string) : bool := existsb (String.eqb x) l.

Section wire.
Context `{P : Prims}.

Definition hkdf (ikm info : bytes) (salt : option bytes) (length : nat) : bytes :=
  hkdf_derive salt info length ikm.

(** The keys [AESGCM] accepts. *)
Definition aes_key_ok (key : bytes) : bool :=
  let n := String.length key in Nat.eqb n 16 || Nat.eqb n 24 || Nat.eqb n 32.

Definition bad_key : exc := ValueError "AESGCM key must be 128, 192, or 256 bits.".
Definition bad_nonce : exc := ValueError "Nonce must be between 8 and 128 bytes".

(** [_aead_encrypt] with the nonce it draws. *)
Definition aead_encrypt (nonce key : bytes) (obj : pyval) (aad : bytes) : res string :=
  let! plain := json_bytes obj in
  assert! aes_key_ok key else bad_key in
  Ok (b64e (nonce +:+ aes_encrypt key nonce plain (Some aad))).

Definition aead_decrypt (key : bytes) (token : string) (aad : bytes) : res pyval :=
  let! raw := b64d token in
  assert! aes_key_ok key else bad_key in
  let nonce := stake 12 raw in
  assert! (8 <=? String.length nonce)%nat else bad_nonce in
  let! plain := of_option (aes_decrypt key nonce (sdrop 12 raw) (Some aad)) InvalidTag in
  loads_bytes plain.

(** ** Key encapsulation

    [oqs] is the optional package: [None] when it cannot be imported,
    [Some None] when it does not list its mechanisms. *)

Definition available_kems (oqs : option (option (list string))) : list string :=
  match oqs with
  | None => []
  | Some None => ALLOWED_KEMS
  | Some (Some enabled) => List.filter (fun name => mem name enabled) ALLOWED_KEMS
  end.

Definition select_kem (oqs : option (option (list string))) (preferred : option string) :
    res string :=
  let enabled := available_kems oqs in
  let none := match enabled with [] => true | _ => false end in
  match preferred with
  | Some p =>
      if nonempty p && mem p ALLOWED_KEMS && (none || mem p enabled) then Ok p
      else if mem DEFAULT_KEM enabled then Ok DEFAULT_KEM
      else of_option (List.find (fun name => none || mem name enabled) ALLOWED_KEMS)
             (RuntimeError "No supported ML-KEM/Kyber mechanism is enabled")
  | None =>
      if mem DEFAULT_KEM enabled then Ok DEFAULT_KEM
      else of_option (List.find (fun name => none || mem name enabled) ALLOWED_KEMS)
             (RuntimeError "No supported ML-KEM/Kyber mechanism is enabled")
  end.

Definition no_oqs : exc := RuntimeError "liboqs is not available".

Definition kem_keygen (oqs : option (option (list string))) (seed : bytes) (alg : string) :
    res (bytes * bytes) :=
  match oqs with None => Err no_oqs | Some _ => Ok (kem_pair alg seed) end.

Definition kem_encapsulate (oqs : option (option (list string))) (seed : bytes) (alg : string)
    (public_key : bytes) : res (bytes * bytes) :=
  match oqs with
  | None => Err no_oqs
  | Some _ => of_option (kem_encap alg public_key seed) (RuntimeError "encap_secret")
  end.

Definition kem_decapsulate (oqs : option (option (list string))) (alg : string)
    (secret_key ciphertext : bytes) : res bytes :=
  match oqs with
  | None => Err no_oqs
  | Some _ => of_option (kem_decap alg secret_key ciphertext) (RuntimeError "decap_secret")
  end.

(** ** X25519 *)

(** [x25519_keygen] with the 32 bytes it draws: public and secret key. *)
Definition x25519_keygen (seed : bytes) : bytes * bytes := (x_pub seed, seed).

Definition bad_x25519 : exc := ValueError "An X25519 key is 32 bytes long".

Definition x25519_dh (sk_bytes peer_pk_bytes : bytes) : res bytes :=
  assert! len32b sk_bytes else bad_x25519 in
  assert! len32b peer_pk_bytes else bad_x25519 in
  of_option (x_exchange sk_bytes peer_pk_bytes) (ValueError "Error computing shared key.").

(** ** Signed prekeys *)

Definition NUL : string := String (chr8 0) "".

Definition sig_msg (kind : string) (key_id : Z) (alg : string) (public_key : bytes) : res bytes :=
  assert! string_all is_ascii alg else UnicodeError in
  Ok ("SecChatPreKey" +:+ NUL +:+ kind +:+ NUL +:+ dec key_id +:+ NUL +:+ alg +:+ NUL +:+
      public_key).

Definition bad_ed25519 : exc := ValueError "An Ed25519 key is 32 bytes long".

Definition sign_prekey (identity_sk : bytes) (kind : string) (key_id : Z) (alg : string)
    (public_key : bytes) : res bytes :=
  assert! len32b identity_sk else bad_ed25519 in
  let! msg := sig_msg kind key_id alg public_key in
  Ok (ed_sign identity_sk msg).

Definition verify_prekey (identity_pk : bytes) (kind : string) (key_id : Z) (alg : string)
    (public_key sig : bytes) : res unit :=
  assert! len32b identity_pk else bad_ed25519 in
  let! msg := sig_msg kind key_id alg public_key in
  if ed_verify identity_pk sig msg then Ok tt else Err InvalidSignature.

(** [_new_key_id]: milliseconds, kept to 31 bits. *)
Definition new_key_id (now_ms : Z) : Z := Z.land now_ms 0x7fffffff.

(** What one round of the one-time loop produces: entries of [local] and [upload]. *)
Definition one_time_pair (oqs : option (option (list string))) (identity_sk : bytes)
    (alg : string) (kid : Z) (seeds : bytes * bytes) : res (dict * dict * dict * dict) :=
  let '(cpk, csk) := x25519_keygen (fst seeds) in
  let! csig := sign_prekey identity_sk "curve-otk" kid "X25519" cpk in
  let! (qpk, qsk) := kem_keygen oqs (snd seeds) alg in
  let! qsig := sign_prekey identity_sk "pq-otk" kid alg qpk in
  Ok ([("pk", PStr (b64e cpk)); ("sk", PStr (b64e csk))],
      [("key_id", PInt kid); ("public_key", PStr (b64e cpk)); ("signature", PStr (b64e csig))],
      [("alg", PStr alg); ("pk", PStr (b64e qpk)); ("sk", PStr (b64e qsk))],
      [("key_id", PInt kid); ("alg", PStr alg); ("public_key", PStr (b64e qpk));
       ("signature", PStr (b64e qsig))]).

(** The loop over [range(otk_count)], one pair of seeds a round. *)
Fixpoint one_time_loop (oqs : option (option (list string))) (identity_sk : bytes)
    (alg : string) (kid : Z) (seeds : list (bytes * bytes))
    (acc : dict * list pyval * dict * list pyval) : res (dict * list pyval * dict * list pyval) :=
  match seeds with
  | [] => Ok acc
  | sd :: rest =>
      let! (cl, cu, ql, qu) := one_time_pair oqs identity_sk alg kid sd in
      let '(curve_local, curve_up, pq_local, pq_up) := acc in
      one_time_loop oqs identity_sk alg (kid + 1) rest
        (dset (dec kid) (PDict cl) curve_local, curve_up ++ [PDict cu],
         dset (dec kid) (PDict ql) pq_local, pq_up ++ [PDict qu])
  end.

(** [generate_local_bundle]: the upload and the local secrets. [curve_seed] and
    [pq_seed] make the signed prekeys, [seeds] the one-time ones. *)
Definition generate_local_bundle (oqs : option (option (list string))) (now_ms : Z)
    (curve_seed pq_seed : bytes) (seeds : list (bytes * bytes))
    (identity_pk identity_sk : bytes) (kem_alg : option string) : res (dict * dict) :=
  let! alg := select_kem oqs kem_alg in
  let base := new_key_id now_ms in
  let '(curve_pk, curve_sk) := x25519_keygen curve_seed in
  let! (pq_pk, pq_sk) := kem_keygen oqs pq_seed alg in
  let! curve_sig := sign_prekey identity_sk "curve-signed" base "X25519" curve_pk in
  let! pq_sig := sign_prekey identity_sk "pq-signed" base alg pq_pk in
  let! (curve_local, curve_up, pq_local, pq_up) :=
    one_time_loop oqs identity_sk alg (base + 1) seeds ([], [], [], []) in
  let local :=
    [("identity_pk", PStr (b64e identity_pk));
     ("curve_signed", PDict [("key_id", PInt base); ("pk", PStr (b64e curve_pk));
                             ("sk", PStr (b64e curve_sk))]);
     ("pq_signed", PDict [("key_id", PInt base); ("alg", PStr alg); ("pk", PStr (b64e pq_pk));
                          ("sk", PStr (b64e pq_sk))]);
     ("curve_one_time", PDict curve_local); ("pq_one_time", PDict pq_local)] in
  let upload :=
    [("type", PStr "upload_pqxdh_bundle"); ("identity_pk", PStr (b64e identity_pk));
     ("curve_spk_id", PInt base); ("curve_spk", PStr (b64e curve_pk));
     ("curve_spk_sig", PStr (b64e curve_sig)); ("pq_spk_id", PInt base);
     ("pq_kem_alg", PStr alg); ("pq_spk", PStr (b64e pq_pk)); ("pq_spk_sig", PStr (b64e pq_sig));
     ("curve_one_time_prekeys", PList curve_up); ("pq_one_time_prekeys", PList pq_up)] in
  Ok (upload, local).

(** [bundle[k]] read as a base64 string, and as an ASCII string. *)
Definition b64_item (k : string) (d : dict) : res bytes := let! v := ditem k d in b64d_v v.
Definition int_item (k : string) (d : dict) : res Z := let! v := ditem k d in py_int v.

(** [alg.encode("ascii")] needs a string. *)
Definition as_str (v : pyval) : res string :=
  match v with PStr s => Ok s | _ => Err AttributeError end.

(** [int(bundle.get(k, -1))]. *)
Definition id_or_minus1 (k : string) (d : dict) : res Z := py_int (dget k (PInt (-1)) d).

(** An optional one-time prekey of the bundle: checked when its id and value are there. *)
Definition verify_one_time (identity_pk : bytes) (bundle : dict) (kind id_key key sig_key : string)
    (alg : res pyval) : res unit :=
  let! id := id_or_minus1 id_key bundle in
  if (0 <? id) && truthy (dget key PNone bundle) then
    let! id' := int_item id_key bundle in
    let! a := alg in
    let! pk := b64_item key bundle in
    let! sig := b64_item sig_key bundle in
    let! a' := as_str a in
    verify_prekey identity_pk kind id' a' pk sig
  else Ok tt.

Definition verify_bundle (bundle : dict) : res unit :=
  let! identity_pk := b64_item "identity_pk" bundle in
  let! curve_id := int_item "curve_spk_id" bundle in
  let! curve := b64_item "curve_spk" bundle in
  let! curve_sig := b64_item "curve_spk_sig" bundle in
  let! _ := verify_prekey identity_pk "curve-signed" curve_id "X25519" curve curve_sig in
  let! pq_id := int_item "pq_spk_id" bundle in
  let! alg := ditem "pq_kem_alg" bundle in
  let! pq := b64_item "pq_spk" bundle in
  let! pq_sig := b64_item "pq_spk_sig" bundle in
  let! alg := as_str alg in
  let! _ := verify_prekey identity_pk "pq-signed" pq_id alg pq pq_sig in
  let! _ := verify_one_time identity_pk bundle "curve-otk" "curve_otk_id" "curve_otk"
              "curve_otk_sig" (Ok (PStr "X25519")) in
  verify_one_time identity_pk bundle "pq-otk" "pq_otk_id" "pq_otk" "pq_otk_sig"
    (ditem "pq_otk_alg" bundle).

(** ** Safety numbers *)

(** [" ".join(h[i:i + 4] for i in range(0, 4 * n, 4))]. *)
Fixpoint groups4 (n : nat) (h : string) : list string :=
  match n with
  | O => []
  | S n' => stake 4 h :: groups4 n' (sdrop 4 h)
  end.

(** [safety_fingerprint]: the keys in byte order, hashed and shown in groups. *)
Definition safety_fingerprint (a b : bytes) : string :=
  let (left, right) := if str_ltb b a then (b, a) else (a, b) in
  let h := smap ascii_upper (sha256_hex ("SecChatSafety" +:+ NUL +:+ left +:+ right)) in
  join " " (groups4 8 h).
End wire.
