(* ===== verification/Ratchet.v ===== *)
(** * The Double Ratchet (client/crypto_engine/secure_protocol.py, [DoubleRatchet])

    The state of one direct-message session and its methods as state-passing
    functions: an exception leaves the mutations made before it. A method that
    draws random bytes or reads the clock takes them as arguments. *)

From S2P Require Import Prelude Hashing Base64 PyVal Sorting Json Crypto Wire.

(** The dataclass. [skipped] maps ["remote_dh:n"] to a message key in base64,
    [seen] holds the ids of the messages already received. *)
Record DoubleRatchet := DR {
  root_key : bytes; dh_pk : bytes; dh_sk : bytes; remote_dh : bytes;
  ck_send : bytes; ck_recv : bytes; hk_send : bytes; hk_recv : bytes;
  n_send : Z; n_recv : Z; pn : Z;
  skipped : dict; needs_send_ratchet : bool; session_id : string;
  conversation_id : Z; my_uid : Z; peer_uid : Z; sender_identity_version : Z;
  seen : gset string
}.

(** ** Field updates *)

Section updates.
Implicit Types s : DoubleRatchet.

Definition with_recv (ck : bytes) (n : Z) (sk : dict) s : DoubleRatchet :=
  DR (root_key s) (dh_pk s) (dh_sk s) (remote_dh s) (ck_send s) ck (hk_send s) (hk_recv s)
    (n_send s) n (pn s) sk (needs_send_ratchet s) (session_id s) (conversation_id s)
    (my_uid s) (peer_uid s) (sender_identity_version s) (seen s).

Definition with_send (ck : bytes) (n : Z) s : DoubleRatchet :=
  DR (root_key s) (dh_pk s) (dh_sk s) (remote_dh s) ck (ck_recv s) (hk_send s) (hk_recv s)
    n (n_recv s) (pn s) (skipped s) (needs_send_ratchet s) (session_id s) (conversation_id s)
    (my_uid s) (peer_uid s) (sender_identity_version s) (seen s).

Definition with_seen (x : gset string) s : DoubleRatchet :=
  DR (root_key s) (dh_pk s) (dh_sk s) (remote_dh s) (ck_send s) (ck_recv s) (hk_send s) (hk_recv s)
    (n_send s) (n_recv s) (pn s) (skipped s) (needs_send_ratchet s) (session_id s)
    (conversation_id s) (my_uid s) (peer_uid s) (sender_identity_version s) x.

(** The counters [_dh_ratchet] resets before the first exchange. *)
Definition with_remote (remote : bytes) s : DoubleRatchet :=
  DR (root_key s) (dh_pk s) (dh_sk s) remote (ck_send s) (ck_recv s) (hk_send s) (hk_recv s)
    0 0 (n_send s) (skipped s) (needs_send_ratchet s) (session_id s)
    (conversation_id s) (my_uid s) (peer_uid s) (sender_identity_version s) (seen s).

Definition with_root_recv (root ck hk : bytes) s : DoubleRatchet :=
  DR root (dh_pk s) (dh_sk s) (remote_dh s) (ck_send s) ck (hk_send s) hk
    (n_send s) (n_recv s) (pn s) (skipped s) (needs_send_ratchet s) (session_id s)
    (conversation_id s) (my_uid s) (peer_uid s) (sender_identity_version s) (seen s).

Definition with_keypair (kp : bytes * bytes) s : DoubleRatchet :=
  DR (root_key s) (fst kp) (snd kp) (remote_dh s) (ck_send s) (ck_recv s) (hk_send s) (hk_recv s)
    (n_send s) (n_recv s) (pn s) (skipped s) (needs_send_ratchet s) (session_id s)
    (conversation_id s) (my_uid s) (peer_uid s) (sender_identity_version s) (seen s).

Definition with_root_send (root ck hk : bytes) s : DoubleRatchet :=
  DR root (dh_pk s) (dh_sk s) (remote_dh s) ck (ck_recv s) hk (hk_recv s)
    (n_send s) (n_recv s) (pn s) (skipped s) (needs_send_ratchet s) (session_id s)
    (conversation_id s) (my_uid s) (peer_uid s) (sender_identity_version s) (seen s).

(** [pn = n_send], and the reset and the flag after a send ratchet. *)
Definition with_pn (p : Z) s : DoubleRatchet :=
  DR (root_key s) (dh_pk s) (dh_sk s) (remote_dh s) (ck_send s) (ck_recv s) (hk_send s) (hk_recv s)
    (n_send s) (n_recv s) p (skipped s) (needs_send_ratchet s) (session_id s)
    (conversation_id s) (my_uid s) (peer_uid s) (sender_identity_version s) (seen s).

Definition with_sent_ratchet s : DoubleRatchet :=
  DR (root_key s) (dh_pk s) (dh_sk s) (remote_dh s) (ck_send s) (ck_recv s) (hk_send s) (hk_recv s)
    0 (n_recv s) (pn s) (skipped s) false (session_id s)
    (conversation_id s) (my_uid s) (peer_uid s) (sender_identity_version s) (seen s).

(** [set_context]: zero keeps the current value, a version is only set if given. *)
Definition set_context (conv my peer : Z) (version : option Z) s : DoubleRatchet :=
  let or0 a b := if a =? 0 then b else a in
  DR (root_key s) (dh_pk s) (dh_sk s) (remote_dh s) (ck_send s) (ck_recv s) (hk_send s) (hk_recv s)
    (n_send s) (n_recv s) (pn s) (skipped s) (needs_send_ratchet s) (session_id s)
    (or0 conv (conversation_id s)) (or0 my (my_uid s)) (or0 peer (peer_uid s))
    (default (sender_identity_version s) version) (seen s).
End updates.

(** [sorted(xs)[-n:]] of a set. *)
Definition last_sorted (n : nat) (xs : gset string) : list string :=
  let l := sort_strings (elements xs) in drop (length l - n) l.

(** ** Persistence *)

Definition to_dict (s : DoubleRatchet) : dict :=
  [("v", PInt SECCHAT_SCHEMA); ("root_key", PStr (b64e (root_key s)));
   ("dh_pk", PStr (b64e (dh_pk s))); ("dh_sk", PStr (b64e (dh_sk s)));
   ("remote_dh", PStr (if nonempty (remote_dh s) then b64e (remote_dh s) else ""));
   ("ck_send", PStr (b64e (ck_send s))); ("ck_recv", PStr (b64e (ck_recv s)));
   ("hk_send", PStr (b64e (hk_send s))); ("hk_recv", PStr (b64e (hk_recv s)));
   ("n_send", PInt (n_send s)); ("n_recv", PInt (n_recv s)); ("pn", PInt (pn s));
   ("skipped", PDict (skipped s)); ("needs_send_ratchet", PBool (needs_send_ratchet s));
   ("session_id", PStr (session_id s)); ("conversation_id", PInt (conversation_id s));
   ("my_uid", PInt (my_uid s)); ("peer_uid", PInt (peer_uid s));
   ("sender_identity_version", PInt (sender_identity_version s));
   ("seen", PList (map PStr (last_sorted 2048 (seen s))))].

(** [b64d(d[k]) if d.get(k) else b""]. *)
Definition b64_or_empty (k : string) (d : dict) : res bytes :=
  if truthy (dget k PNone d) then b64_item k d else Ok "".

(** [dict(v)] of a JSON value. *)
Definition py_dict (v : pyval) : res dict :=
  match v with PDict d => Ok d | PList [] => Ok [] | _ => Err TypeError end.

(** [set(str(x) for x in v if x)]. *)
Definition str_set (v : pyval) : res (gset string) :=
  let! l := as_list v in
  Ok (list_to_set (map py_str (List.filter truthy l))).

Definition from_dict (d : dict) : res DoubleRatchet :=
  let! root := b64_item "root_key" d in
  let! pk := b64_item "dh_pk" d in
  let! sk := b64_item "dh_sk" d in
  let! remote := b64_or_empty "remote_dh" d in
  let! cks := b64_item "ck_send" d in
  let! ckr := b64_item "ck_recv" d in
  let! hks := b64_or_empty "hk_send" d in
  let! hkr := b64_or_empty "hk_recv" d in
  let! ns := py_int (dget "n_send" (PInt 0) d) in
  let! nr := py_int (dget "n_recv" (PInt 0) d) in
  let! p := py_int (dget "pn" (PInt 0) d) in
  let! sk_keys := py_dict (dget "skipped" (PDict []) d) in
  let needs := truthy (dget "needs_send_ratchet" (PBool false) d) in
  let sid := get_str0 "session_id" d in
  let! conv := get_int0 "conversation_id" d in
  let! my := get_int0 "my_uid" d in
  let! peer := get_int0 "peer_uid" d in
  let! ver := get_int0 "sender_identity_version" d in
  let! ids := str_set (dget "seen" (PList []) d) in
  Ok (DR root pk sk remote cks ckr hks hkr ns nr p sk_keys needs sid conv my peer ver ids).

(** ** Headers *)

(** [_canonical]. *)
Definition canonical (v : pyval) : res bytes := utf8_encode (json_dumps false true v).

(** [_header]. *)
Definition header_of (s : DoubleRatchet) (n : Z) : dict :=
  [("v", PInt SECCHAT_SCHEMA); ("sid", PStr (session_id s));
   ("conversation_id", PInt (conversation_id s)); ("sender_uid", PInt (my_uid s));
   ("recipient_uid", PInt (peer_uid s));
   ("sender_identity_version", PInt (sender_identity_version s));
   ("dh", PStr (b64e (dh_pk s))); ("pn", PInt (pn s)); ("n", PInt n)].

(** [_message_id]. *)
Definition message_id (header : dict) : res string :=
  let! n := py_int (dget "n" (PInt 0) header) in
  Ok (py_str (dget "sid" (PStr "") header) +:+ ":" +:+ py_str (dget "dh" (PStr "") header) +:+
      ":" +:+ dec n).

(** [_remember_seen]. *)
Definition remember_seen (id : string) (s : DoubleRatchet) : DoubleRatchet :=
  let x := {[ id ]} ∪ seen s in
  with_seen (if (4096 <? size x)%nat then list_to_set (last_sorted 2048 x) else x) s.

Definition EH_AAD : bytes := "SecChat-DR-encrypted-header".

Section ratchet.
Context `{P : Prims}.

(** ** Key derivation *)

Definition initial_chains (root : bytes) (initiator : bool) : bytes * bytes :=
  let left := hkdf root "SecChat-DR-init-left" None 32 in
  let right := hkdf root "SecChat-DR-init-right" None 32 in
  if initiator then (left, right) else (right, left).

Definition kdf_rk (root dh_out : bytes) : bytes * bytes :=
  let out := hkdf dh_out "SecChat-DR-rk" (Some root) 64 in (stake 32 out, sdrop 32 out).

Definition kdf_ck (chain_key : bytes) : bytes * bytes :=
  let out := hkdf chain_key "SecChat-DR-ck" None 64 in (stake 32 out, sdrop 32 out).

Definition header_key (root chain_key : bytes) : bytes :=
  hkdf (root +:+ chain_key) "SecChat-DR-header-chain" None 32.

(** [DoubleRatchet.new]: [seed] makes the ratchet key, [sid_seed] a session id
    when none is given. *)
Definition new (seed sid_seed root : bytes) (initiator : bool) (remote : bytes) (sid : string) :
    DoubleRatchet :=
  let (pk, sk) := x25519_keygen seed in
  let (cks, ckr) := initial_chains root initiator in
  let left := hkdf root "SecChat-DR-header-init-left" None 32 in
  let right := hkdf root "SecChat-DR-header-init-right" None 32 in
  let (hks, hkr) := if initiator then (left, right) else (right, left) in
  DR root pk sk remote cks ckr hks hkr 0 0 0 [] (negb initiator && nonempty remote)
    (if nonempty sid then sid else b64e sid_seed) 0 0 0 0 ∅.

(** ** Sending *)

(** [_maybe_send_ratchet], [seed] making the new key pair. *)
Definition maybe_send_ratchet (seed : bytes) : stm DoubleRatchet unit :=
  do! s := st_get in
  if negb (needs_send_ratchet s) || negb (nonempty (remote_dh s)) then st_ret tt
  else
    do! _ := st_modify (fun s => with_keypair (x25519_keygen seed) (with_pn (n_send s) s)) in
    do! s := st_get in
    do! dh := st_lift (x25519_dh (dh_sk s) (remote_dh s)) in
    let (root, ck) := kdf_rk (root_key s) dh in
    st_modify (fun s => with_sent_ratchet (with_root_send root ck (header_key root ck) s)).

(** What [encrypt] draws: the key pair of a send ratchet, two nonces, the clock. *)
Record enc_draws := EncDraws { e_seed : bytes; e_nonce : bytes; e_hnonce : bytes; e_now : Z }.

(** The payload of a message. *)
Definition message_obj (now : Z) (plaintext : string) : pyval :=
  PDict [("ts", PInt now); ("body", PStr plaintext)].

Definition encrypt (r : enc_draws) (plaintext : string) : stm DoubleRatchet string :=
  do! _ := maybe_send_ratchet (e_seed r) in
  do! s := st_get in
  let (mk, ck) := kdf_ck (ck_send s) in
  let n := n_send s in
  do! _ := st_modify (with_send ck (n + 1)) in
  do! s := st_get in
  let header := PDict (header_of s n) in
  do! aad := st_lift (canonical header) in
  do! ct := st_lift (aead_encrypt (e_nonce r) mk (message_obj (e_now r) plaintext) aad) in
  do! eh := st_lift (aead_encrypt (e_hnonce r) (hk_send s) header EH_AAD) in
  do! token := st_lift (json_b64 (PDict
    [("v", PInt SECCHAT_SCHEMA); ("sid", PStr (session_id s)); ("h", header);
     ("eh", PStr eh); ("ct", PStr ct)])) in
  st_ret (PREFIX_DR +:+ token).

(** ** Receiving *)

Definition skip_key (remote : bytes) (n : Z) : string := b64e remote +:+ ":" +:+ dec n.

(** One round of the loop of [_skip_until]. *)
Definition skip_one (s : DoubleRatchet) : DoubleRatchet :=
  let (mk, ck) := kdf_ck (ck_recv s) in
  with_recv ck (n_recv s + 1)
    (dset (skip_key (remote_dh s) (n_recv s)) (PStr (b64e mk)) (skipped s)) s.

(** [_skip_until]: the loop runs [until_n - n_recv] times. *)
Definition skip_until (until_n : Z) : stm DoubleRatchet unit :=
  do! s := st_get in
  let gap := until_n - n_recv s in
  if gap <? 0 then st_ret tt
  else if (MAX_SKIP_KEYS <? gap) || (MAX_SKIP_KEYS <? Z.of_nat (length (skipped s)) + gap) then
    st_fail (ValueError "Too many skipped message keys")
  else st_modify (Nat.iter (Z.to_nat gap) skip_one).

(** [_dh_ratchet], [seed] making the new key pair. *)
Definition dh_ratchet (seed new_remote : bytes) : stm DoubleRatchet unit :=
  do! _ := st_modify (with_remote new_remote) in
  do! s := st_get in
  do! dh := st_lift (x25519_dh (dh_sk s) (remote_dh s)) in
  let (root, ck) := kdf_rk (root_key s) dh in
  do! _ := st_modify (with_root_recv root ck (header_key root ck)) in
  do! _ := st_modify (with_keypair (x25519_keygen seed)) in
  do! s := st_get in
  do! dh := st_lift (x25519_dh (dh_sk s) (remote_dh s)) in
  let (root, ck) := kdf_rk (root_key s) dh in
  st_modify (with_root_send root ck (header_key root ck)).

(** The header synthesised for an object without one. *)
Definition raw_header (s : DoubleRatchet) (obj : dict) : res dict :=
  let! v := py_int (dget "v" (PInt SECCHAT_SCHEMA) obj) in
  let sid := py_str (py_or (dget "sid" (PStr (session_id s)) obj) (PStr (session_id s))) in
  let! conv := py_int (py_or (dget "conversation_id" (PInt (conversation_id s)) obj) (PInt 0)) in
  let! snd := py_int (py_or (dget "sender_uid" (PInt (peer_uid s)) obj) (PInt 0)) in
  let! rcp := py_int (py_or (dget "recipient_uid" (PInt (my_uid s)) obj) (PInt 0)) in
  let! ver := py_int (py_or (dget "sender_identity_version" (PInt 0) obj) (PInt 0)) in
  let! dh := ditem "dh" obj in
  let! p := py_int (dget "pn" (PInt 0) obj) in
  let! nv := ditem "n" obj in
  let! n := py_int nv in
  Ok [("v", PInt v); ("sid", PStr sid); ("conversation_id", PInt conv); ("sender_uid", PInt snd);
      ("recipient_uid", PInt rcp); ("sender_identity_version", PInt ver); ("dh", dh);
      ("pn", PInt p); ("n", PInt n)].

Definition header_mismatch : exc := ValueError "Double Ratchet header copy mismatch".

(** The body of the [try] in [_read_header]: the opened copy, unless it differs
    from the visible header. *)
Definition open_header (s : DoubleRatchet) (encrypted visible : pyval) : res pyval :=
  match encrypted with
  | PStr token =>
      let! header := aead_decrypt (hk_recv s) token EH_AAD in
      if truthy visible && negb (py_eqb header visible) then Err header_mismatch else Ok header
  | _ => Err TypeError
  end.

(** [_read_header]. An exception of the [try] is raised again only without a
    visible header. *)
Definition read_header (s : DoubleRatchet) (obj : dict) : res pyval :=
  let visible := match dget "h" PNone obj with PDict h => PDict h | _ => PNone end in
  let encrypted := dget "eh" PNone obj in
  let fallback := if truthy visible then Ok visible else res_bind (raw_header s obj) (fun h => Ok (PDict h)) in
  if truthy encrypted && nonempty (hk_recv s) then
    match open_header s encrypted visible with
    | Ok header => Ok header
    | Err e => if truthy visible then fallback else Err e
    end
  else fallback.

(** The checks of [decrypt] on a header, in order: remote key, number, id. *)
Definition check_header (s : DoubleRatchet) (header : dict) : res (bytes * Z * string) :=
  if nonempty (session_id s) && negb (py_eqb (dget "sid" PNone header) (PStr (session_id s))) then
    Err (ValueError "Double Ratchet session mismatch")
  else
    let! conv := if conversation_id s =? 0 then Ok 0 else get_int0 "conversation_id" header in
    if negb (conversation_id s =? 0) && negb (conv =? conversation_id s) then
      Err (ValueError "Double Ratchet conversation mismatch")
    else
      let! rcp := if my_uid s =? 0 then Ok 0 else get_int0 "recipient_uid" header in
      if negb (my_uid s =? 0) && negb (rcp =? my_uid s) then
        Err (ValueError "Double Ratchet recipient mismatch")
      else
        let! dh := ditem "dh" header in
        let! remote := b64d (py_str dh) in
        let! nv := ditem "n" header in
        let! n := py_int nv in
        let! id := message_id header in
        if decide (id ∈ seen s) then Err (ValueError "Duplicate/replayed Double Ratchet message")
        else Ok (remote, n, id).

(** [_aead_decrypt(mk, obj["ct"], aad).get("body", "")]. *)
Definition open_body (mk : bytes) (obj : dict) (aad : bytes) : res string :=
  let! ct := ditem "ct" obj in
  match ct with
  | PStr token =>
      let! v := aead_decrypt mk token aad in
      let! d := as_dict v in
      Ok (py_str (dget "body" (PStr "") d))
  | _ => Err TypeError
  end.

(** [wire[len(p):] if wire.startswith(p) else wire]. *)
Definition strip_prefix (p wire : string) : string :=
  if starts_with p wire then sdrop (String.length p) wire else wire.

(** The end of [decrypt], once the header is checked: the message key is a stored
    one, or the next of the chain after a ratchet and the skipped keys. *)
Definition receive (seed remote : bytes) (n : Z) (id : string) (aad : bytes) (obj : dict) :
    stm DoubleRatchet string :=
  do! s := st_get in
  match dlookup (skip_key remote n) (skipped s) with
  | Some mkv =>
      do! _ := st_modify (fun s => with_recv (ck_recv s) (n_recv s)
                                     (ddel (skip_key remote n) (skipped s)) s) in
      do! mk := st_lift (b64d_v mkv) in
      do! plain := st_lift (open_body mk obj aad) in
      do! _ := st_modify (remember_seen id) in
      st_ret plain
  | None =>
      do! _ := (if negb (nonempty (remote_dh s)) || negb (String.eqb remote (remote_dh s))
                then dh_ratchet seed remote else st_ret tt) in
      do! _ := skip_until n in
      do! s := st_get in
      let (mk, ck) := kdf_ck (ck_recv s) in
      do! _ := st_modify (fun s => with_recv ck (n_recv s + 1) (skipped s) s) in
      do! plain := st_lift (open_body mk obj aad) in
      do! _ := st_modify (remember_seen id) in
      st_ret plain
  end.

(** [decrypt]; [seed] makes the key pair of a DH ratchet. *)
Definition decrypt (seed : bytes) (wire : string) : stm DoubleRatchet string :=
  do! v := st_lift (json_unb64 (strip_prefix PREFIX_DR wire)) in
  do! obj := st_lift (as_dict v) in
  do! s := st_get in
  do! hv := st_lift (read_header s obj) in
  do! header := st_lift (as_dict hv) in
  do! (remote, n, id) := st_lift (check_header s header) in
  do! aad := st_lift (canonical (PDict header)) in
  receive seed remote n id aad obj.
End ratchet.
