(* ===== verification/RatchetFacts.v ===== *)
(** * The Double Ratchet: sealed wires, chains in any order, bounds and persistence *)

From S2P Require Import Prelude Hashing Base64 PyVal Sorting Json JsonFacts Crypto Wire Ratchet.

(** ** Message and key identifiers *)

Definition msg_id (sid : string) (dh : bytes) (n : Z) : string :=
  sid +:+ ":" +:+ b64e dh +:+ ":" +:+ dec n.

Lemma b64_url_not_colon z : 0 <= z < 64 -> not_char ":" (b64_url z) = true.
Proof. apply (check64_spec (fun z => not_char ":" (b64_url z))). vm_compute. reflexivity. Qed.

Lemma b64e_not_colon s : string_all (not_char ":") (b64e s) = true.
Proof. rewrite b64e_body. apply b64_body_all. apply b64_url_not_colon. Qed.

Lemma skip_key_inj d n d' n' : skip_key d n = skip_key d' n' -> d = d' /\ n = n'.
Proof.
  unfold skip_key. intros H. apply sapp_sep_inj in H as [Hd Hn]; [|apply b64e_not_colon..].
  split; [by apply b64e_inj|by apply dec_inj].
Qed.

Lemma msg_id_inj sid d n d' n' : msg_id sid d n = msg_id sid d' n' -> d = d' /\ n = n'.
Proof.
  unfold msg_id. intros H. apply sapp_inj_l in H. cbn [String.append] in H.
  injection H as H. by apply skip_key_inj.
Qed.

(** ** Sealed objects *)

Section sealed.
Context `{P : Prims} `{!PrimLaws P} `{!AeadStrict P}.

Definition sealed (nonce key : bytes) (obj : pyval) (aad : bytes) : string :=
  b64e (nonce +:+ aes_encrypt key nonce (json_dumps false false obj) (Some aad)).

Lemma json_bytes_ok v : py_ok v -> json_bytes v = Ok (json_dumps false false v).
Proof. intros H. unfold json_bytes, utf8_encode. by rewrite json_dumps_valid. Qed.

Lemma canonical_ok v : py_ok v -> canonical v = Ok (json_dumps false true v).
Proof. intros H. unfold canonical, utf8_encode. by rewrite json_dumps_valid. Qed.

Lemma loads_bytes_ok v : py_ok v -> loads_bytes (json_dumps false false v) = Ok v.
Proof.
  intros H. unfold loads_bytes, utf8_decode. rewrite json_dumps_valid by done. cbn [res_bind].
  by rewrite json_loads_dumps.
Qed.

Lemma json_unb64_ok v : py_ok v -> json_unb64 (b64e (json_dumps false false v)) = Ok v.
Proof. intros H. unfold json_unb64. rewrite b64d_b64e. cbn [res_bind]. by apply loads_bytes_ok. Qed.

Lemma json_b64_ok v : py_ok v -> json_b64 v = Ok (b64e (json_dumps false false v)).
Proof. intros H. unfold json_b64. by rewrite json_bytes_ok. Qed.

Lemma aes_key_ok_32 k : len32 k -> aes_key_ok k = true.
Proof. unfold aes_key_ok, len32. by intros ->. Qed.

Lemma aead_encrypt_ok nonce key obj aad :
  py_ok obj -> len32 key -> aead_encrypt nonce key obj aad = Ok (sealed nonce key obj aad).
Proof.
  intros Ho Hk. unfold aead_encrypt. rewrite json_bytes_ok by done. cbn [res_bind].
  by rewrite aes_key_ok_32.
Qed.

Definition nonce_ok (n : bytes) : Prop := String.length n = 12%nat.

Lemma aead_decrypt_sealed nonce key obj aad :
  nonce_ok nonce -> py_ok obj -> len32 key ->
  aead_decrypt key (sealed nonce key obj aad) aad = Ok obj.
Proof.
  intros Hn Ho Hk. unfold aead_decrypt, sealed. rewrite b64d_b64e. cbn [res_bind].
  rewrite aes_key_ok_32, (stake_app_len 12), (sdrop_app_len 12) by done. rewrite Hn.
  cbn [Nat.leb]. rewrite aes_decrypt_encrypt. cbn [of_option res_bind]. by apply loads_bytes_ok.
Qed.

Lemma aead_decrypt_strict nonce key obj aad key' aad' v :
  nonce_ok nonce -> aead_decrypt key' (sealed nonce key obj aad) aad' = Ok v ->
  key' = key /\ aad' = aad.
Proof.
  intros Hn. unfold aead_decrypt, sealed. rewrite b64d_b64e. cbn [res_bind].
  rewrite (stake_app_len 12), (sdrop_app_len 12) by done.
  destruct (aes_key_ok key'); [|done]. rewrite Hn. cbn [Nat.leb].
  destruct (aes_decrypt key' nonce _ (Some aad')) as [p|] eqn:E; [|done]. intros _.
  apply aes_wrong_inputs in E as (-> & _ & [= ->]). done.
Qed.

(** What any opened token is: a sealing of the JSON text it reads as. *)
Lemma aead_decrypt_inv key token aad v :
  aead_decrypt key token aad = Ok v ->
  exists raw p, b64d token = Ok raw /\ loads_bytes p = Ok v /\
    sdrop 12 raw = aes_encrypt key (stake 12 raw) p (Some aad).
Proof.
  unfold aead_decrypt. intros H. apply res_bind_ok in H as (raw & Hr & H).
  destruct (aes_key_ok key); [|done]. destruct (8 <=? _)%nat; [|done].
  apply res_bind_ok in H as (p & Hp & H).
  destruct (aes_decrypt _ _ _ _) as [q|] eqn:E; [|done]. cbn [of_option] in Hp.
  apply Ok_inj in Hp as <-. exists raw, q. split; [done|]. split; [done|].
  by apply aes_decrypt_inv.
Qed.

Lemma kdf_ck_mk ck : len32 (fst (kdf_ck ck)).
Proof. unfold kdf_ck, len32. cbn [fst]. apply stake_length. unfold hkdf. rewrite hkdf_len. lia. Qed.

Lemma kdf_ck_next ck : len32 (snd (kdf_ck ck)).
Proof. unfold kdf_ck, len32. cbn [snd]. rewrite sdrop_length. unfold hkdf. by rewrite hkdf_len. Qed.

Lemma header_key_len r c : len32 (header_key r c).
Proof. unfold header_key, hkdf, len32. apply hkdf_len. Qed.
#[local] Hint Resolve kdf_ck_mk kdf_ck_next header_key_len : secchat.

(** ** What [encrypt] sends *)

Implicit Types s t : DoubleRatchet.

Lemma py_ok_header s n : utf8_valid (session_id s) = true -> py_ok (PDict (header_of s n)).
Proof. intros H. unfold header_of. py_ok_fields. apply utf8_valid_ascii, b64e_ascii. Qed.

Lemma py_ok_message now m : utf8_valid m = true -> py_ok (message_obj now m).
Proof. intros H. unfold message_obj. py_ok_fields. Qed.

(** The header, its canonical bytes and the wire object of the next message. *)
Definition sent_header s : dict := header_of s (n_send s).
Definition sent_aad s : bytes := json_dumps false true (PDict (sent_header s)).
Definition sent_obj s (r : enc_draws) (m : string) : dict :=
  [("v", PInt SECCHAT_SCHEMA); ("sid", PStr (session_id s)); ("h", PDict (sent_header s));
   ("eh", PStr (sealed (e_hnonce r) (hk_send s) (PDict (sent_header s)) EH_AAD));
   ("ct", PStr (sealed (e_nonce r) (fst (kdf_ck (ck_send s))) (message_obj (e_now r) m)
                  (sent_aad s)))].
Definition sent_wire s r m : string :=
  PREFIX_DR +:+ b64e (json_dumps false false (PDict (sent_obj s r m))).
Definition after_send s : DoubleRatchet :=
  with_send (snd (kdf_ck (ck_send s))) (n_send s + 1) s.

(** What a state needs to send: text, header key, nonces of the drawn length. *)
Definition can_send s (r : enc_draws) (m : string) : Prop :=
  utf8_valid (session_id s) = true /\ utf8_valid m = true /\ len32 (hk_send s) /\
  nonce_ok (e_nonce r) /\ nonce_ok (e_hnonce r).

Lemma py_ok_sent_obj s r m : can_send s r m -> py_ok (PDict (sent_obj s r m)).
Proof.
  intros (H1 & H2 & _). unfold sent_obj. py_ok_fields.
  - apply (py_ok_header s (n_send s) H1).
  - apply utf8_valid_ascii, b64e_ascii.
  - apply utf8_valid_ascii, b64e_ascii.
Qed.

Lemma encrypt_ready s r m :
  needs_send_ratchet s = false -> can_send s r m ->
  encrypt r m s = (after_send s, Ok (sent_wire s r m)).
Proof.
  intros Hf Hc. pose proof (py_ok_sent_obj s r m Hc) as Ho. destruct Hc as (H1 & H2 & H3 & H4 & H5).
  unfold encrypt, maybe_send_ratchet, st_bind at 1, st_bind at 1, st_get at 1. rewrite Hf.
  cbn [negb orb st_ret]. unfold st_bind at 1, st_get at 1.
  destruct (kdf_ck (ck_send s)) as [mk ck] eqn:Ek.
  assert (Hmk : len32 mk) by (replace mk with (fst (kdf_ck (ck_send s))) by (by rewrite Ek); apply kdf_ck_mk).
  unfold st_bind at 1, st_modify at 1. unfold st_bind at 1, st_get at 1.
  change (header_of (with_send ck (n_send s + 1) s) (n_send s)) with (sent_header s).
  rewrite !st_bind_lift, canonical_ok by (by apply py_ok_header).
  rewrite st_bind_lift, aead_encrypt_ok by (done || by apply py_ok_message).
  rewrite st_bind_lift. cbn [hk_send with_send].
  rewrite aead_encrypt_ok by (done || by apply py_ok_header). rewrite st_bind_lift.
  replace (json_b64 _) with (json_b64 (PDict (sent_obj s r m))).
  - rewrite json_b64_ok by done. unfold after_send. by rewrite Ek.
  - unfold sent_obj. by rewrite Ek.
Qed.

(** ** What [decrypt] reads *)

Lemma strip_prefix_app p x : strip_prefix p (p +:+ x) = x.
Proof. unfold strip_prefix. by rewrite starts_with_app, sdrop_app. Qed.

(** The visible header is what the receiver goes by, whatever its header key. *)
Lemma read_header_sent s t r m :
  can_send t r m -> read_header s (sent_obj t r m) = Ok (PDict (sent_header t)).
Proof.
  intros (H1 & _ & H3 & _ & H5). unfold read_header.
  change (dget "h" PNone (sent_obj t r m)) with (PDict (sent_header t)). cbv iota.
  change (dget "eh" PNone (sent_obj t r m)) with
    (PStr (sealed (e_hnonce r) (hk_send t) (PDict (sent_header t)) EH_AAD)).
  change (truthy (PDict (sent_header t))) with true. cbv iota.
  destruct (_ && _); [|done]. unfold open_header.
  destruct (aead_decrypt _ _ _) as [v|] eqn:E; [|done]. cbn [res_bind].
  destruct (aead_decrypt_strict _ _ _ _ _ _ _ H5 E) as [Hk _]. rewrite Hk in E.
  rewrite aead_decrypt_sealed in E by (done || by apply py_ok_header).
  apply Ok_inj in E as <-. by destruct (_ && _).
Qed.

(** The receiver [s] is the one the sender [t] addresses. *)
Definition addressed t s : Prop :=
  session_id s = session_id t /\
  (conversation_id s = 0 \/ conversation_id s = conversation_id t) /\
  (my_uid s = 0 \/ my_uid s = peer_uid t).

Lemma get_int0_field k d z : dlookup k d = Some (PInt z) -> get_int0 k d = Ok z.
Proof.
  intros H. unfold get_int0, dget, py_or. rewrite H. cbn [truthy].
  destruct (Z.eqb_spec z 0) as [->|]; done.
Qed.

Definition sent_id t : string := msg_id (session_id t) (dh_pk t) (n_send t).

Lemma message_id_sent t : message_id (sent_header t) = Ok (sent_id t).
Proof. reflexivity. Qed.

Lemma check_header_sent s t :
  addressed t s ->
  check_header s (sent_header t) =
  if decide (sent_id t ∈ seen s) then Err (ValueError "Duplicate/replayed Double Ratchet message")
  else Ok (dh_pk t, n_send t, sent_id t).
Proof.
  intros (Hsid & Hconv & Huid). unfold check_header.
  change (dget "sid" PNone (sent_header t)) with (PStr (session_id t)).
  cbn [py_eqb]. rewrite Hsid, String.eqb_refl, andb_false_r.
  rewrite (get_int0_field "conversation_id" (sent_header t) (conversation_id t)) by done.
  rewrite (get_int0_field "recipient_uid" (sent_header t) (peer_uid t)) by done.
  assert ((if conversation_id s =? 0 then Ok 0 else Ok (conversation_id t)) =
          Ok (conversation_id s)) as ->.
  { destruct (Z.eqb_spec (conversation_id s) 0) as [->|]; [done|]. f_equal. lia. }
  cbn [res_bind]. rewrite Z.eqb_refl, andb_false_r.
  assert ((if my_uid s =? 0 then Ok 0 else Ok (peer_uid t)) = Ok (my_uid s)) as ->.
  { destruct (Z.eqb_spec (my_uid s) 0) as [->|]; [done|]. f_equal. lia. }
  cbn [res_bind]. rewrite Z.eqb_refl, andb_false_r.
  change (ditem "dh" (sent_header t)) with (@Ok pyval (PStr (b64e (dh_pk t)))).
  cbn [res_bind py_str]. rewrite b64d_b64e.
  change (ditem "n" (sent_header t)) with (@Ok pyval (PInt (n_send t))).
  cbn [res_bind py_int]. by rewrite message_id_sent.
Qed.

(** Delivering a sent message runs [receive] with the sender's header. *)
Lemma decrypt_sent seed s t r m :
  can_send t r m -> addressed t s ->
  decrypt seed (sent_wire t r m) s =
  if decide (sent_id t ∈ seen s)
  then (s, Err (ValueError "Duplicate/replayed Double Ratchet message"))
  else receive seed (dh_pk t) (n_send t) (sent_id t) (sent_aad t) (sent_obj t r m) s.
Proof.
  intros Hc Ha. pose proof (py_ok_sent_obj t r m Hc) as Ho.
  unfold decrypt, sent_wire. rewrite strip_prefix_app, json_unb64_ok by done.
  rewrite !st_bind_lift. cbn [as_dict]. unfold st_bind at 1, st_get at 1.
  rewrite st_bind_lift, read_header_sent by done. cbn [as_dict].
  rewrite !st_bind_lift, check_header_sent by done.
  destruct (decide _); [done|]. rewrite st_bind_lift.
  rewrite canonical_ok by (apply py_ok_header, Hc). done.
Qed.

Lemma open_body_sent t r m :
  can_send t r m -> open_body (fst (kdf_ck (ck_send t))) (sent_obj t r m) (sent_aad t) = Ok m.
Proof.
  intros (H1 & H2 & _ & H4 & _). unfold open_body.
  change (ditem "ct" (sent_obj t r m)) with (@Ok pyval (PStr (sealed (e_nonce r)
    (fst (kdf_ck (ck_send t))) (message_obj (e_now r) m) (sent_aad t)))).
  cbn [res_bind]. rewrite aead_decrypt_sealed by (done || by apply py_ok_message || auto with secchat).
  done.
Qed.

(** ** A chain of message keys *)

Definition nth_ck (ck : bytes) (k : nat) : bytes := Nat.iter k (fun c => snd (kdf_ck c)) ck.
Definition nth_mk (ck : bytes) (k : nat) : bytes := fst (kdf_ck (nth_ck ck k)).

(** The keys stored for numbers [n .. n + k - 1]. *)
Fixpoint add_skips (d : bytes) (n : Z) (ck : bytes) (k : nat) (sk : dict) : dict :=
  match k with
  | O => sk
  | S k' => dset (skip_key d (n + Z.of_nat k')) (PStr (b64e (nth_mk ck k'))) (add_skips d n ck k' sk)
  end.

Lemma iter_skip_one k s :
  Nat.iter k skip_one s =
  with_recv (nth_ck (ck_recv s) k) (n_recv s + Z.of_nat k)
    (add_skips (remote_dh s) (n_recv s) (ck_recv s) k (skipped s)) s.
Proof.
  induction k as [|k IH].
  - cbn. rewrite Z.add_0_r. by destruct s.
  - rewrite Nat.iter_succ, IH. unfold skip_one. cbn [ck_recv with_recv].
    destruct (kdf_ck (nth_ck (ck_recv s) k)) as [mk ck] eqn:E. cbn [add_skips].
    unfold nth_mk, nth_ck. rewrite Nat.iter_succ. unfold nth_ck in E. rewrite E. cbn [fst snd].
    unfold with_recv. cbn. f_equal. lia.
Qed.

Lemma add_skips_lookup d n ck k sk z :
  dlookup (skip_key d z) (add_skips d n ck k sk) =
  if decide (n <= z < n + Z.of_nat k) then Some (PStr (b64e (nth_mk ck (Z.to_nat (z - n)))))
  else dlookup (skip_key d z) sk.
Proof.
  induction k as [|k IH]; cbn [add_skips].
  - by destruct (decide (n <= z < n + Z.of_nat 0)); [lia|].
  - destruct (decide (z = n + Z.of_nat k)) as [->|Hne].
    + rewrite dlookup_dset_eq. replace (n + Z.of_nat k - n) with (Z.of_nat k) by lia.
      rewrite Nat2Z.id. by rewrite decide_True by lia.
    + rewrite dlookup_dset_ne, IH.
      2: { intros H. apply skip_key_inj in H. lia. }
      destruct (decide (n <= z < n + Z.of_nat k)), (decide (n <= z < n + Z.of_nat (S k)));
        try done; lia.
Qed.

Lemma add_skips_dict_ok d n ck k sk : dict_ok sk -> dict_ok (add_skips d n ck k sk).
Proof. intros H. induction k as [|k IH]; cbn [add_skips]; auto with secchat. Qed.

Lemma add_skips_length d n ck k sk : (length (add_skips d n ck k sk) <= length sk + k)%nat.
Proof.
  induction k as [|k IH]; cbn [add_skips]; [lia|].
  pose proof (length_dset_le (skip_key d (n + Z.of_nat k)) (PStr (b64e (nth_mk ck k)))
                (add_skips d n ck k sk)). lia.
Qed.

Lemma skip_until_ok s k :
  Z.of_nat (length (skipped s)) + Z.of_nat k <= MAX_SKIP_KEYS ->
  skip_until (n_recv s + Z.of_nat k) s = (Nat.iter k skip_one s, Ok tt).
Proof.
  intros H. unfold skip_until, st_bind, st_get, MAX_SKIP_KEYS in *.
  replace (n_recv s + Z.of_nat k - n_recv s) with (Z.of_nat k) by lia.
  destruct (Z.ltb_spec (Z.of_nat k) 0); [lia|].
  destruct (Z.ltb_spec 1000 (Z.of_nat k)); [lia|].
  destruct (Z.ltb_spec 1000 (Z.of_nat (length (skipped s)) + Z.of_nat k)); [lia|].
  by rewrite Nat2Z.id.
Qed.

(** Receiving number [n_recv + k] of the current chain. *)
Lemma receive_ahead seed s d k id aad obj m :
  remote_dh s = d -> d <> "" ->
  dlookup (skip_key d (n_recv s + Z.of_nat k)) (skipped s) = None ->
  Z.of_nat (length (skipped s)) + Z.of_nat k <= MAX_SKIP_KEYS ->
  open_body (nth_mk (ck_recv s) k) obj aad = Ok m ->
  receive seed d (n_recv s + Z.of_nat k) id aad obj s =
  (remember_seen id
     (with_recv (nth_ck (ck_recv s) (S k)) (n_recv s + Z.of_nat k + 1)
        (add_skips d (n_recv s) (ck_recv s) k (skipped s)) s), Ok m).
Proof.
  intros <- Hne Hnone Hlen Hopen. unfold receive, st_bind at 1, st_get at 1. rewrite Hnone.
  destruct (remote_dh s) as [|c d'] eqn:Ed; [done|]. cbn [nonempty negb orb].
  rewrite String.eqb_refl. cbn [negb]. unfold st_bind at 1, st_ret at 1.
  unfold st_bind at 1. rewrite skip_until_ok, iter_skip_one by done.
  unfold st_bind at 1, st_get at 1. cbn [ck_recv with_recv n_recv skipped].
  unfold nth_mk in Hopen.
  destruct (kdf_ck (nth_ck (ck_recv s) k)) as [mk ck] eqn:E. cbn [fst] in Hopen.
  unfold st_bind at 1, st_modify at 1. rewrite st_bind_lift, Hopen.
  unfold st_bind, st_modify, st_ret. rewrite Ed.
  unfold nth_ck. rewrite Nat.iter_succ. unfold nth_ck in E. rewrite E. reflexivity.
Qed.

(** Receiving a number whose key was stored. *)
Lemma receive_skipped seed s d n mk id aad obj m :
  dlookup (skip_key d n) (skipped s) = Some (PStr (b64e mk)) -> open_body mk obj aad = Ok m ->
  receive seed d n id aad obj s =
  (remember_seen id (with_recv (ck_recv s) (n_recv s) (ddel (skip_key d n) (skipped s)) s), Ok m).
Proof.
  intros Hs Hopen. unfold receive, st_bind at 1, st_get at 1. rewrite Hs.
  unfold st_bind at 1, st_modify at 1. rewrite st_bind_lift. cbn [b64d_v]. rewrite b64d_b64e.
  by rewrite st_bind_lift, Hopen.
Qed.

Lemma remember_seen_small id s :
  (size (seen s) < 4096)%nat -> remember_seen id s = with_seen ({[ id ]} ∪ seen s) s.
Proof.
  intros H. unfold remember_seen.
  assert ((4096 <? size ({[id]} ∪ seen s))%nat = false) as ->; [|done]. apply Nat.ltb_ge.
  etransitivity; [|exact H]. rewrite size_union_alt, size_singleton.
  apply le_n_S, subseteq_size. set_solver.
Qed.

(** ** One sending chain, delivered in any order *)

Fixpoint send_all (msgs : list (enc_draws * string)) : stm DoubleRatchet (list string) :=
  match msgs with
  | [] => st_ret []
  | (r, m) :: rest =>
      do! w := encrypt r m in
      do! ws := send_all rest in
      st_ret (w :: ws)
  end.

(** Deliver wires one by one; a failed delivery does not stop the next. *)
Fixpoint deliver_all (wires : list (bytes * string)) s : DoubleRatchet * list (res string) :=
  match wires with
  | [] => (s, [])
  | (seed, w) :: rest =>
      let (s1, out) := decrypt seed w s in
      let (s2, outs) := deliver_all rest s1 in
      (s2, out :: outs)
  end.

(** The receiver holds the start of the sender's chain, with room for [k] messages. *)
Definition chain_start t s (k : nat) : Prop :=
  needs_send_ratchet t = false /\ addressed t s /\ dh_pk t <> "" /\
  remote_dh s = dh_pk t /\ n_recv s = n_send t /\ ck_recv s = ck_send t /\
  dict_ok (skipped s) /\ (length (skipped s) + k <= 1000)%nat /\ (size (seen s) + k <= 4096)%nat /\
  forall i : nat, (i < k)%nat ->
    dlookup (skip_key (dh_pk t) (n_send t + Z.of_nat i)) (skipped s) = None /\
    msg_id (session_id t) (dh_pk t) (n_send t + Z.of_nat i) ∉ seen s.

Section chain.
Variables (t s0 : DoubleRatchet) (K : nat).
Hypothesis start : chain_start t s0 K.

(** The sender before message [i]. *)
Definition sender_at (i : nat) : DoubleRatchet :=
  with_send (nth_ck (ck_send t) i) (n_send t + Z.of_nat i) t.

Lemma sender_at_0 : sender_at 0 = t.
Proof. clear start. unfold sender_at, nth_ck. cbn. rewrite Z.add_0_r. by destruct t. Qed.

Lemma sender_at_S i : after_send (sender_at i) = sender_at (S i).
Proof.
  unfold after_send, sender_at, nth_ck. rewrite Nat.iter_succ. unfold with_send. cbn. f_equal. lia.
Qed.

Lemma send_all_from i msgs :
  Forall (fun rm => can_send t (fst rm) (snd rm)) msgs ->
  send_all msgs (sender_at i) =
  (sender_at (i + length msgs),
   Ok (imap (fun j rm => sent_wire (sender_at (i + j)) (fst rm) (snd rm)) msgs)).
Proof.
  destruct start as (Hf & _). intros H. revert i.
  induction H as [|[r m] msgs Hc _ IH]; intros i; cbn [send_all].
  - cbn. by rewrite Nat.add_0_r.
  - unfold st_bind at 1. rewrite encrypt_ready by done. rewrite sender_at_S.
    unfold st_bind at 1. rewrite IH. cbn [imap fst snd length st_ret]. unfold st_ret.
    rewrite Nat.add_0_r. replace (S i + length msgs)%nat with (i + S (length msgs))%nat by lia.
    do 3 f_equal. apply imap_ext. intros j x _. cbn. by rewrite Nat.add_succ_r.
Qed.

Definition key_id (i : nat) : string := skip_key (dh_pk t) (n_send t + Z.of_nat i).
Definition mid (i : nat) : string := msg_id (session_id t) (dh_pk t) (n_send t + Z.of_nat i).

Lemma mid_inj i j : mid i = mid j -> i = j.
Proof. unfold mid. intros H. apply msg_id_inj in H. lia. Qed.

(** The receiver after the messages [got], its chain [j] keys ahead. *)
Record chain_inv (j : nat) (got : list nat) (s : DoubleRatchet) : Prop := {
  ci_addr : addressed t s;
  ci_remote : remote_dh s = dh_pk t;
  ci_n : n_recv s = n_send t + Z.of_nat j;
  ci_ck : ck_recv s = nth_ck (ck_send t) j;
  ci_le : (j <= K)%nat;
  ci_dict : dict_ok (skipped s);
  ci_keys : forall i, (i < K)%nat -> dlookup (key_id i) (skipped s) =
    if decide ((i < j)%nat /\ i ∉ got) then Some (PStr (b64e (nth_mk (ck_send t) i))) else None;
  ci_len : (length (skipped s) <= length (skipped s0) + j)%nat;
  ci_seen : forall i, (i < K)%nat -> mid i ∈ seen s <-> i ∈ got;
  ci_size : (size (seen s) <= size (seen s0) + length got)%nat;
  ci_got : NoDup got /\ forall i, i ∈ got -> (i < j)%nat
}.

Lemma chain_inv_start : chain_inv 0 [] s0.
Proof.
  destruct start as (_ & Ha & _ & Hr & Hn & Hc & Hd & _ & _ & Hfree).
  split; try done; try lia.
  - intros i Hi. rewrite decide_False by (intros [? _]; lia). by apply Hfree.
  - intros i Hi. destruct (Hfree i Hi) as [_ ?]. set_solver.
  - split; [apply NoDup_nil_2|]. set_solver.
Qed.

Lemma nth_mk_add ck j k : nth_mk (nth_ck ck j) k = nth_mk ck (k + j).
Proof. unfold nth_mk, nth_ck. by rewrite Nat.iter_add. Qed.

Lemma got_bound j got : (NoDup got /\ forall i, i ∈ got -> (i < j)%nat) -> (length got <= j)%nat.
Proof.
  intros [Hnd Hlt]. replace j with (length (seq 0 j)) by apply length_seq.
  apply submseteq_length, NoDup_submseteq; [done|].
  intros i Hi. apply elem_of_seq. specialize (Hlt i Hi). lia.
Qed.

Lemma seen_extend i got s :
  (i < K)%nat -> (forall k, (k < K)%nat -> mid k ∈ seen s <-> k ∈ got) ->
  forall k, (k < K)%nat -> mid k ∈ {[ mid i ]} ∪ seen s <-> k ∈ i :: got.
Proof.
  intros Hi H k Hk. rewrite elem_of_union, elem_of_singleton, elem_of_cons, H by done.
  split; (intros [E|?]; [left|by right]); [by apply mid_inj|by subst].
Qed.

Lemma seen_extend_size i got s :
  (size (seen s) <= size (seen s0) + length got)%nat ->
  (size ({[ mid i ]} ∪ seen s) <= size (seen s0) + length (i :: got))%nat.
Proof.
  intros H. cbn [length]. rewrite size_union_alt, size_singleton.
  assert (size (seen s ∖ {[mid i]}) <= size (seen s))%nat by (apply subseteq_size; set_solver).
  lia.
Qed.

(** A message not yet received is opened and recorded. *)
Lemma chain_step j got s i seed r m :
  chain_inv j got s -> (i < K)%nat -> i ∉ got -> can_send t r m ->
  exists s' j', decrypt seed (sent_wire (sender_at i) r m) s = (s', Ok m) /\
    chain_inv j' (i :: got) s'.
Proof.
  intros I Hi Hgot Hc. destruct start as (_ & _ & Hne & _ & _ & _ & _ & Hlen & Hsize & _).
  assert (Hopen : open_body (nth_mk (ck_send t) i) (sent_obj (sender_at i) r m)
                    (sent_aad (sender_at i)) = Ok m) by (by apply open_body_sent).
  assert (Hbound : (length got < K)%nat).
  { assert (length (i :: got) <= K)%nat; [|done]. apply got_bound. split.
    - apply NoDup_cons. split; [done|]. apply (ci_got _ _ _ I).
    - intros k [->|Hk]%elem_of_cons; [done|]. destruct (ci_got _ _ _ I) as [_ H].
      specialize (H k Hk). pose proof (ci_le _ _ _ I). lia. }
  assert (Hsmall : (size (seen s) < 4096)%nat) by (pose proof (ci_size _ _ _ I); lia).
  rewrite decrypt_sent by (done || apply (ci_addr _ _ _ I)).
  change (sent_id (sender_at i)) with (mid i).
  rewrite decide_False by (by rewrite (ci_seen _ _ _ I)).
  change (dh_pk (sender_at i)) with (dh_pk t).
  change (n_send (sender_at i)) with (n_send t + Z.of_nat i).
  destruct (decide (i < j)%nat) as [Hlt|Hge].
  - pose proof (ci_keys _ _ _ I i Hi) as Hkey. rewrite decide_True in Hkey by done.
    erewrite receive_skipped by done. rewrite remember_seen_small by done.
    eexists _, j. split; [reflexivity|].
    split; cbn [with_seen with_recv remote_dh n_recv ck_recv skipped seen];
      try (apply I || exact (ci_addr _ _ _ I)).
    + apply dict_ok_ddel, I.
    + intros k Hk. destruct (decide (k = i)) as [->|Hne'].
      * rewrite dlookup_ddel_eq by apply I. rewrite decide_False; [done|]. intros [_ H]. apply H. by left.
      * rewrite dlookup_ddel_ne.
        2: { intros E. apply skip_key_inj in E. lia. }
        rewrite (ci_keys _ _ _ I k Hk). apply decide_ext. set_solver.
    + pose proof (length_ddel_le (skip_key (dh_pk t) (n_send t + Z.of_nat i)) (skipped s)).
      pose proof (ci_len _ _ _ I). lia.
    + apply seen_extend; [done|apply I].
    + apply seen_extend_size, I.
    + split; [apply NoDup_cons; split; [done|apply I]|].
      intros k [->|Hk]%elem_of_cons; [done|]. by apply I.
  - assert (Hni : n_send t + Z.of_nat i = n_recv s + Z.of_nat (i - j))
      by (rewrite (ci_n _ _ _ I); lia).
    pose proof (ci_keys _ _ _ I i Hi) as Hkey. rewrite decide_False in Hkey by (intros [? _]; lia).
    pose proof (ci_len _ _ _ I) as Hl.
    rewrite Hni. rewrite receive_ahead with (m := m);
      [|apply I|done|by rewrite <- Hni| |].
    2: { unfold MAX_SKIP_KEYS. lia. }
    2: { rewrite (ci_ck _ _ _ I), nth_mk_add. by replace (i - j + j)%nat with i by lia. }
    rewrite remember_seen_small by done. eexists _, (S i). split; [reflexivity|].
    split; cbn [with_seen with_recv remote_dh n_recv ck_recv skipped seen];
      try (apply I || exact (ci_addr _ _ _ I)).
    + rewrite (ci_n _ _ _ I). lia.
    + rewrite (ci_ck _ _ _ I). unfold nth_ck. rewrite <- Nat.iter_add. f_equal. lia.
    + lia.
    + apply add_skips_dict_ok, I.
    + intros k Hk. unfold key_id. rewrite add_skips_lookup, (ci_n _ _ _ I), (ci_ck _ _ _ I).
      destruct (decide _) as [Hin|Hout].
      * rewrite nth_mk_add, decide_True.
        -- do 4 f_equal. lia.
        -- split; [lia|]. intros [->|Hk']%elem_of_cons; [lia|].
           destruct (ci_got _ _ _ I) as [_ H]. specialize (H k Hk'). lia.
      * pose proof (ci_keys _ _ _ I k Hk) as Hkk. unfold key_id in Hkk. rewrite Hkk. apply decide_ext. rewrite elem_of_cons.
        destruct (decide (k = i)); [lia|]. split; [intros [? ?]; split; [lia|tauto]|].
        intros [H1 H2]. split; [|tauto]. destruct (decide (k < j)%nat); [done|]. lia.
    + pose proof (add_skips_length (dh_pk t) (n_recv s) (ck_recv s) (i - j) (skipped s)). lia.
    + apply seen_extend; [done|apply I].
    + apply seen_extend_size, I.
    + split; [apply NoDup_cons; split; [done|apply I]|].
      intros k [->|Hk]%elem_of_cons; [lia|]. destruct (ci_got _ _ _ I) as [_ H].
      specialize (H k Hk). lia.
Qed.

(** A message received before is rejected without a change of state. *)
Lemma chain_replay j got s i seed r m :
  chain_inv j got s -> (i < K)%nat -> i ∈ got -> can_send t r m ->
  decrypt seed (sent_wire (sender_at i) r m) s =
  (s, Err (ValueError "Duplicate/replayed Double Ratchet message")).
Proof.
  intros I Hi Hgot Hc. rewrite decrypt_sent by (done || apply (ci_addr _ _ _ I)).
  change (sent_id (sender_at i)) with (mid i).
  by rewrite decide_True by (by rewrite (ci_seen _ _ _ I)).
Qed.
End chain.

Lemma deliver_order t s0 K (wires : list string) (msgs : list (enc_draws * string))
    (order : list nat) j got s seed :
  chain_start t s0 K -> length msgs = K ->
  Forall (fun rm => can_send t (fst rm) (snd rm)) msgs ->
  (forall i rm, msgs !! i = Some rm -> wires !! i = Some (sent_wire (sender_at t i) (fst rm) (snd rm))) ->
  chain_inv t s0 K j got s -> NoDup order -> (forall i, i ∈ order -> (i < K)%nat /\ i ∉ got) ->
  exists s' j',
    deliver_all (map (fun i => (seed, default "" (wires !! i))) order) s =
    (s', map (fun i => Ok (default "" (snd <$> msgs !! i))) order) /\
    chain_inv t s0 K j' (rev order ++ got) s'.
Proof.
  intros Hstart HK Hmsgs Hw. revert j got s.
  induction order as [|i order IH]; intros j got s I Hnd Hin.
  - exists s, j. done.
  - apply NoDup_cons in Hnd as [Hni Hnd]. destruct (Hin i ltac:(by left)) as [Hi Hgot].
    destruct (msgs !! i) as [[r m]|] eqn:Em; [|apply lookup_ge_None in Em; lia].
    pose proof (Forall_lookup_1 _ _ _ _ Hmsgs Em) as Hc.
    destruct (chain_step t s0 K Hstart j got s i seed r m I Hi Hgot Hc) as (s1 & j1 & Hd & I1).
    destruct (IH j1 (i :: got) s1 I1 Hnd) as (s2 & j2 & Hrest & I2).
    { intros k Hk. destruct (Hin k ltac:(by right)) as [? ?]. split; [done|].
      intros [->|?]%elem_of_cons; done. }
    exists s2, j2. cbn [map deliver_all]. rewrite (Hw i _ Em). cbn [fst snd].
    change (default "" (Some ?w)) with w. rewrite Hd, Hrest, Em. split; [done|].
    cbn [rev]. by rewrite <- app_assoc.
Qed.

(** ** Bounds *)

Definition skips_bounded s : Prop := Z.of_nat (length (skipped s)) <= MAX_SKIP_KEYS.

Lemma iter_skip_length k s : (length (skipped (Nat.iter k skip_one s)) <= length (skipped s) + k)%nat.
Proof. rewrite iter_skip_one. cbn [skipped with_recv]. apply add_skips_length. Qed.

Lemma skip_until_keeps n : keeps skips_bounded (skip_until n).
Proof.
  intros s Hs. unfold skip_until, st_bind, st_get.
  destruct (n - n_recv s <? 0) eqn:E1; [done|].
  destruct (_ || _) eqn:E2; [done|]. bool_hyps. cbn [fst st_modify].
  unfold skips_bounded, st_modify. cbn [fst].
  pose proof (iter_skip_length (Z.to_nat (n - n_recv s)) s). lia.
Qed.

Lemma dh_ratchet_keeps seed d : keeps skips_bounded (dh_ratchet seed d).
Proof. unfold dh_ratchet. keeps_tac. Qed.

Lemma receive_keeps seed d n id aad obj : keeps skips_bounded (receive seed d n id aad obj).
Proof.
  unfold receive. apply keeps_get. intros s0 Hs0.
  destruct (dlookup _ _) as [mkv|].
  - keeps_tac. apply keeps_modify. intros s Hs. unfold skips_bounded in *.
    cbn [skipped with_recv]. pose proof (length_ddel_le (skip_key d n) (skipped s)). lia.
  - apply keeps_bind; [destruct (_ || _); [apply dh_ratchet_keeps|apply keeps_ret]|intros _].
    apply keeps_bind; [apply skip_until_keeps|intros _]. keeps_tac.
Qed.

Lemma decrypt_keeps seed wire : keeps skips_bounded (decrypt seed wire).
Proof. unfold decrypt. keeps_tac. apply receive_keeps. Qed.

Lemma encrypt_keeps r m : keeps skips_bounded (encrypt r m).
Proof. unfold encrypt, maybe_send_ratchet. keeps_tac. Qed.

(** ** The keys of an abandoned chain *)

Lemma dh_ratchet_skipped seed d s : skipped (fst (dh_ratchet seed d s)) = skipped s.
Proof.
  enough (keeps (fun s' => skipped s' = skipped s) (dh_ratchet seed d)) as H by by apply H.
  unfold dh_ratchet. keeps_tac.
Qed.

Lemma dh_ratchet_remote seed d s u s' : dh_ratchet seed d s = (s', Ok u) -> remote_dh s' = d.
Proof.
  unfold dh_ratchet. intros H.
  apply st_bind_ok in H as (s1 & [] & [= <-] & H).
  apply st_bind_ok in H as (s2 & ? & [= <- <-] & H).
  apply st_bind_ok in H as (s3 & dh & [= <- Hdh] & H).
  destruct (kdf_rk _ _) as [root ck]. apply st_bind_ok in H as (s4 & [] & [= <-] & H).
  apply st_bind_ok in H as (s5 & [] & [= <-] & H). apply st_bind_ok in H as (s6 & ? & [= <- <-] & H).
  apply st_bind_ok in H as (s7 & dh' & [= <- Hdh'] & H). destruct (kdf_rk _ _) as [root' ck'].
  injection H as <- _. done.
Qed.

Lemma add_skips_other d n ck k sk key :
  (forall z, key <> skip_key d z) -> dlookup key (add_skips d n ck k sk) = dlookup key sk.
Proof.
  intros H. induction k as [|k IH]; cbn [add_skips]; [done|]. rewrite dlookup_dset_ne by apply H.
  apply IH.
Qed.

Lemma skip_until_other n s u s' key :
  skip_until n s = (s', u) -> (forall z, key <> skip_key (remote_dh s) z) ->
  dlookup key (skipped s') = dlookup key (skipped s).
Proof.
  intros H Hkey. unfold skip_until, st_bind, st_get in H.
  destruct (_ <? 0); [by injection H as <-|]. destruct (_ || _); [by injection H as <-|].
  injection H as <- _. rewrite iter_skip_one. cbn [skipped with_recv]. by apply add_skips_other.
Qed.

(** ** Persistence *)

Lemma b64_item_get k d x : dlookup k d = Some (PStr (b64e x)) -> b64_item k d = Ok x.
Proof. unfold b64_item, ditem. intros ->. cbn. apply b64d_b64e. Qed.

Lemma b64_or_empty_get k d x : dlookup k d = Some (PStr (b64e x)) -> b64_or_empty k d = Ok x.
Proof.
  intros H. unfold b64_or_empty, dget. rewrite H. cbn [truthy].
  destruct (nonempty (b64e x)) eqn:E; [by apply b64_item_get|].
  destruct x as [|c x]; [done|]. destruct (b64e (String c x)) eqn:Eb; [|done].
  by apply (proj1 (b64e_empty _)) in Eb.
Qed.

Lemma str_set_strings (l : list string) :
  "" ∉ l -> str_set (PList (map PStr l)) = Ok (list_to_set l).
Proof.
  intros H. unfold str_set. cbn [as_list res_bind]. do 2 f_equal.
  induction l as [|x l IH]; [done|]. apply not_elem_of_cons in H as [Hx Hl].
  cbn [map List.filter truthy]. destruct x as [|c x]; [done|]. cbn [nonempty map py_str].
  f_equal. by apply IH.
Qed.

Lemma last_sorted_elem n xs x : x ∈ last_sorted n xs -> x ∈ xs.
Proof.
  unfold last_sorted. intros H. apply elem_of_elements. apply (elem_of_isort str_ltb).
  change (isort str_ltb) with sort_strings.
  apply list_elem_of_lookup in H as [i Hi]. rewrite lookup_drop in Hi.
  by apply list_elem_of_lookup_2 in Hi.
Qed.

Lemma last_sorted_all n xs :
  (size xs <= n)%nat -> list_to_set (last_sorted n xs) = xs.
Proof.
  intros H. unfold last_sorted. set (l := sort_strings (elements xs)).
  assert (length l = size xs) as Hl by (unfold l, sort_strings; by rewrite isort_length).
  replace (length l - n)%nat with 0%nat by lia. cbn [drop].
  apply set_eq. intros x. rewrite elem_of_list_to_set.
  change (x ∈ isort str_ltb (elements xs) <-> x ∈ xs).
  rewrite (elem_of_isort str_ltb). apply elem_of_elements.
Qed.

Lemma from_dict_to_dict s :
  "" ∉ seen s ->
  from_dict (to_dict s) = Ok (with_seen (list_to_set (last_sorted 2048 (seen s))) s).
Proof.
  intros Hne. unfold from_dict.
  rewrite (b64_item_get "root_key" _ (root_key s)), (b64_item_get "dh_pk" _ (dh_pk s)),
    (b64_item_get "dh_sk" _ (dh_sk s)) by done. cbn [res_bind].
  rewrite (b64_or_empty_get "remote_dh" _ (remote_dh s)).
  2: { cbn. by destruct (remote_dh s). }
  rewrite (b64_item_get "ck_send" _ (ck_send s)), (b64_item_get "ck_recv" _ (ck_recv s)),
    (b64_or_empty_get "hk_send" _ (hk_send s)), (b64_or_empty_get "hk_recv" _ (hk_recv s)) by done.
  cbn [res_bind].
  change (dget "n_send" _ _) with (PInt (n_send s)). change (dget "n_recv" _ _) with (PInt (n_recv s)).
  change (dget "pn" _ _) with (PInt (pn s)). change (dget "skipped" _ _) with (PDict (skipped s)).
  change (dget "seen" _ (to_dict s)) with (PList (map PStr (last_sorted 2048 (seen s)))).
  cbn [py_int py_dict res_bind].
  rewrite (get_int0_field "conversation_id" _ (conversation_id s)),
    (get_int0_field "my_uid" _ (my_uid s)), (get_int0_field "peer_uid" _ (peer_uid s)),
    (get_int0_field "sender_identity_version" _ (sender_identity_version s)) by done.
  cbn [res_bind]. rewrite str_set_strings.
  2: { intros H. by apply last_sorted_elem in H. }
  cbn [res_bind]. f_equal. unfold get_str0.
  change (dget "session_id" (PStr "") (to_dict s)) with (PStr (session_id s)).
  change (truthy (dget "needs_send_ratchet" _ (to_dict s))) with (needs_send_ratchet s).
  unfold py_or, with_seen. cbn [truthy]. by destruct (session_id s).
Qed.

Definition state_text_ok s : Prop :=
  py_ok (PDict (skipped s)) /\ utf8_valid (session_id s) = true /\
  forall x, x ∈ seen s -> x <> "" /\ utf8_valid x = true.

Lemma to_dict_py_ok s : state_text_ok s -> py_ok (PDict (to_dict s)).
Proof.
  intros (Hk & Hs & Hseen). unfold to_dict.
  apply py_ok_dict. split; [dict_keys|].
  assert (Hb : forall x, utf8_valid (b64e x) = true) by (intros; apply utf8_valid_ascii, b64e_ascii).
  assert (Hl : py_ok (PList (map PStr (last_sorted 2048 (seen s))))).
  { apply py_ok_list, Forall_fmap, Forall_forall. intros x Hx. apply last_sorted_elem in Hx.
    exact (proj2 (Hseen x Hx)). }
  repeat (apply Forall_cons_2; [split; [reflexivity|]; cbn [snd]; try exact Hl; try exact Hk;
                                 cbn [py_ok]; auto|]); [|apply Forall_nil_2].
  by destruct (nonempty (remote_dh s)).
Qed.
End sealed.
