(* ===== verification/RatchetProps.v ===== *)
(** * Properties of the Double Ratchet

    Delivery of a chain in any order, the bound on stored keys, what an accepted
    message proves, persistence, and two behaviours that differ from what the
    comments of the code promise. *)

From S2P Require Import Prelude Hashing Base64 PyVal Sorting Json JsonFacts Crypto Wire Ratchet.
From S2P Require Import RatchetFacts.

Section props.
Context `{P : Prims}.
Implicit Types s t : DoubleRatchet.

(** ** What an accepted message is *)

(** The key [receive] opens a message with: a stored one, or the next of the chain
    after the ratchet step and the skipped keys. *)
Definition key_for (seed : bytes) s (remote : bytes) (n : Z) (mk : bytes) : Prop :=
  (exists v, dlookup (skip_key remote n) (skipped s) = Some v /\ b64d_v v = Ok mk) \/
  (dlookup (skip_key remote n) (skipped s) = None /\
   exists s1 s2,
     (if negb (nonempty (remote_dh s)) || negb (String.eqb remote (remote_dh s))
      then dh_ratchet seed remote else st_ret tt) s = (s1, Ok tt) /\
     skip_until n s1 = (s2, Ok tt) /\ mk = fst (kdf_ck (ck_recv s2))).

Lemma receive_inv seed remote n id aad obj s s' m :
  receive seed remote n id aad obj s = (s', Ok m) ->
  exists mk, key_for seed s remote n mk /\ open_body mk obj aad = Ok m.
Proof.
  unfold receive. intros H. apply st_bind_ok in H as (s0 & ? & [= <- <-] & H).
  destruct (dlookup _ _) as [v|] eqn:E.
  - apply st_bind_ok in H as (s1 & [] & _ & H). apply st_bind_ok in H as (s2 & mk & [= _ Hmk] & H).
    apply st_bind_ok in H as (s3 & pl & [= _ Hpl] & H).
    apply st_bind_ok in H as (s4 & [] & _ & [= _ <-]).
    exists mk. split; [left; by exists v|done].
  - apply st_bind_ok in H as (s1 & [] & H1 & H). apply st_bind_ok in H as (s2 & [] & H2 & H).
    apply st_bind_ok in H as (s3 & ? & [= <- <-] & H).
    destruct (kdf_ck (ck_recv s2)) as [mk ck] eqn:Ek.
    apply st_bind_ok in H as (s4 & [] & _ & H). apply st_bind_ok in H as (s5 & pl & [= _ Hpl] & H).
    apply st_bind_ok in H as (s6 & [] & _ & [= _ <-]).
    exists mk. split; [right|done]. split; [done|]. exists s1, s2. by rewrite Ek.
Qed.

Lemma decrypt_inv seed wire s s' m :
  decrypt seed wire s = (s', Ok m) ->
  exists obj header remote n id aad,
    json_unb64 (strip_prefix PREFIX_DR wire) = Ok (PDict obj) /\
    read_header s obj = Ok (PDict header) /\ check_header s header = Ok (remote, n, id) /\
    canonical (PDict header) = Ok aad /\ receive seed remote n id aad obj s = (s', Ok m).
Proof.
  unfold decrypt. intros H.
  apply st_bind_ok in H as (? & v & [= <- Hv] & H).
  apply st_bind_ok in H as (? & obj & [= <- Ho] & H). destruct v; try done. apply Ok_inj in Ho as ->.
  apply st_bind_ok in H as (? & ? & [= <- <-] & H).
  apply st_bind_ok in H as (? & hv & [= <- Hh] & H).
  apply st_bind_ok in H as (? & header & [= <- Hd] & H). destruct hv; try done.
  apply Ok_inj in Hd as ->. apply st_bind_ok in H as (? & [[remote n] id] & [= <- Hc] & H).
  apply st_bind_ok in H as (? & aad & [= <- Ha] & H). by exists obj, header, remote, n, id, aad.
Qed.

Lemma canonical_inv v aad : canonical v = Ok aad -> aad = json_dumps false true v.
Proof. unfold canonical, utf8_encode. destruct (utf8_valid _); [congruence|done]. Qed.

Lemma open_body_inv `{!PrimLaws P} mk obj aad m :
  open_body mk obj aad = Ok m ->
  exists token raw p d, dlookup "ct" obj = Some (PStr token) /\ b64d token = Ok raw /\
    sdrop 12 raw = aes_encrypt mk (stake 12 raw) p (Some aad) /\ loads_bytes p = Ok (PDict d) /\
    m = py_str (dget "body" (PStr "") d).
Proof.
  unfold open_body, ditem. intros H. apply res_bind_ok in H as (ct & Hct & H).
  destruct (dlookup "ct" obj) as [c|] eqn:E; [|done]. apply Ok_inj in Hct as ->.
  destruct ct as [| | | |token| |]; try done.
  apply res_bind_ok in H as (v & Hv & H). apply res_bind_ok in H as (d & Hd & H).
  destruct v; try done. apply Ok_inj in Hd as ->. apply Ok_inj in H as <-.
  apply aead_decrypt_inv in Hv as (raw & p & Hraw & Hp & He). by exists token, raw, p, d.
Qed.

Lemma check_header_inv s header remote n id :
  check_header s header = Ok (remote, n, id) ->
  (session_id s = "" \/ py_eqb (dget "sid" PNone header) (PStr (session_id s)) = true) /\
  (conversation_id s = 0 \/ get_int0 "conversation_id" header = Ok (conversation_id s)) /\
  (my_uid s = 0 \/ get_int0 "recipient_uid" header = Ok (my_uid s)) /\
  message_id header = Ok id /\ id ∉ seen s.
Proof.
  unfold check_header. intros H. destruct (_ && _) eqn:E1; [done|].
  apply res_bind_ok in H as (conv & Hconv & H). destruct (negb (conversation_id s =? 0) && _) eqn:E2; [done|].
  apply res_bind_ok in H as (rcp & Hrcp & H). destruct (negb (my_uid s =? 0) && _) eqn:E3; [done|].
  apply res_bind_ok in H as (dh & _ & H). apply res_bind_ok in H as (r & _ & H).
  apply res_bind_ok in H as (nv & _ & H). apply res_bind_ok in H as (n' & _ & H).
  apply res_bind_ok in H as (id' & Hid & H). destruct (decide (id' ∈ seen s)); [done|].
  injection H as _ _ <-. split; [|split; [|split]]; [| | |done].
  - destruct (session_id s); [by left|]. cbn [nonempty] in E1. right.
    by apply negb_false_iff in E1.
  - destruct (Z.eqb_spec (conversation_id s) 0) as [?|Hne]; [by left|]. right.
    cbn in E2. apply negb_false_iff, Z.eqb_eq in E2. by subst.
  - destruct (Z.eqb_spec (my_uid s) 0) as [?|Hne]; [by left|]. right.
    cbn in E3. apply negb_false_iff, Z.eqb_eq in E3. by subst.
Qed.

(** C5: a wire that [decrypt] accepts names this session, conversation and
    recipient, has an id not received before, and its ciphertext is the AES-GCM
    sealing of the returned body under the key [key_for] selects, with the
    canonical header as associated data. *)
Theorem accepted_message_authentic `{!PrimLaws P} seed wire s s' m :
  decrypt seed wire s = (s', Ok m) ->
  exists obj header remote n id mk token raw p d,
    json_unb64 (strip_prefix PREFIX_DR wire) = Ok (PDict obj) /\
    read_header s obj = Ok (PDict header) /\ message_id header = Ok id /\ id ∉ seen s /\
    (session_id s = "" \/ py_eqb (dget "sid" PNone header) (PStr (session_id s)) = true) /\
    (conversation_id s = 0 \/ get_int0 "conversation_id" header = Ok (conversation_id s)) /\
    (my_uid s = 0 \/ get_int0 "recipient_uid" header = Ok (my_uid s)) /\
    key_for seed s remote n mk /\ dlookup "ct" obj = Some (PStr token) /\ b64d token = Ok raw /\
    sdrop 12 raw =
      aes_encrypt mk (stake 12 raw) p (Some (json_dumps false true (PDict header))) /\
    loads_bytes p = Ok (PDict d) /\ m = py_str (dget "body" (PStr "") d).
Proof.
  intros H. apply decrypt_inv in H as (obj & header & remote & n & id & aad & Ho & Hh & Hc & Ha & Hr).
  apply check_header_inv in Hc as (H1 & H2 & H3 & H4 & H5).
  apply receive_inv in Hr as (mk & Hk & Hopen). apply canonical_inv in Ha as ->.
  apply open_body_inv in Hopen as (token & raw & p & d & ?).
  exists obj, header, remote, n, id, mk, token, raw, p, d. tauto.
Qed.

(** A header cannot be exchanged under a ciphertext. If a wire is accepted
    whose ciphertext was sealed for a header, then the header the receiver goes
    by has the same canonical text. *)
Theorem header_bound_to_ciphertext `{!PrimLaws P} `{!AeadStrict P} seed wire s s' m
    obj nonce mk body h0 :
  nonce_ok nonce -> json_unb64 (strip_prefix PREFIX_DR wire) = Ok (PDict obj) ->
  dlookup "ct" obj = Some (PStr (sealed nonce mk body (json_dumps false true h0))) ->
  decrypt seed wire s = (s', Ok m) ->
  exists header, read_header s obj = Ok (PDict header) /\
    json_dumps false true (PDict header) = json_dumps false true h0.
Proof.
  intros Hn Hobj Hct H.
  apply decrypt_inv in H as (obj' & header & remote & n & id & aad & Ho & Hh & _ & Ha & Hr).
  rewrite Hobj in Ho. apply Ok_inj in Ho. injection Ho as <-. exists header. split; [done|].
  apply receive_inv in Hr as (mk' & _ & Hopen). apply canonical_inv in Ha as ->.
  unfold open_body, ditem in Hopen. rewrite Hct in Hopen. cbn [of_option res_bind] in Hopen.
  apply res_bind_ok in Hopen as (v & Hv & _). by apply aead_decrypt_strict in Hv as [_ ?].
Qed.

(** ** Order *)

(** C6: the messages of one sending chain, delivered in any order without
    repetition, are all opened with the text that was sent, and a second delivery
    of any of them is rejected without a change of state. *)
Theorem chain_any_order `{!PrimLaws P} `{!AeadStrict P} t s msgs order seed :
  chain_start t s (length msgs) -> Forall (fun rm => can_send t (fst rm) (snd rm)) msgs ->
  NoDup order -> Forall (fun i => (i < length msgs)%nat) order ->
  exists wires s',
    snd (send_all msgs t) = Ok wires /\ length wires = length msgs /\
    let wire i := default "" (wires !! i) in
    deliver_all (map (fun i => (seed, wire i)) order) s =
      (s', map (fun i => Ok (default "" (snd <$> msgs !! i))) order) /\
    forall i, i ∈ order -> decrypt seed (wire i) s' =
      (s', Err (ValueError "Duplicate/replayed Double Ratchet message")).
Proof.
  intros Hstart Hmsgs Hnd Hlt. rewrite Forall_forall in Hlt.
  set (wires := imap (fun j rm => sent_wire (sender_at t j) (fst rm) (snd rm)) msgs).
  assert (Hw : forall i rm, msgs !! i = Some rm ->
            wires !! i = Some (sent_wire (sender_at t i) (fst rm) (snd rm))).
  { intros i rm Hi. unfold wires. by rewrite list_lookup_imap, Hi. }
  destruct (deliver_order t s _ wires msgs order 0 [] s seed Hstart eq_refl Hmsgs Hw
              (chain_inv_start t s _ Hstart) Hnd) as (s' & j' & Hd & I).
  { intros i Hi. split; [by apply Hlt|apply not_elem_of_nil]. }
  exists wires, s'. split; [|split; [|split]].
  - rewrite <- (sender_at_0 t). by rewrite (send_all_from t s _ Hstart 0 msgs Hmsgs).
  - apply length_imap.
  - exact Hd.
  - intros i Hi. pose proof (Hlt i Hi) as Hi'.
    destruct (msgs !! i) as [rm|] eqn:Em; [|apply lookup_ge_None in Em; lia].
    rewrite (Hw i rm Em). change (default "" (Some ?w)) with w.
    apply (chain_replay t s (length msgs) j' _ s' i seed _ _ I Hi').
    + apply elem_of_app. left. apply elem_of_reverse in Hi. by rewrite rev_alt.
    + exact (Forall_lookup_1 _ _ _ _ Hmsgs Em).
Qed.

(** ** Bounds *)

(** C32: no wire, well-formed or not, accepted or not, makes the store of skipped
    keys outgrow [MAX_SKIP_KEYS], and sending does not either. *)
Theorem skipped_keys_bounded seed wire r m s :
  skips_bounded s ->
  skips_bounded (fst (decrypt seed wire s)) /\ skips_bounded (fst (encrypt r m s)).
Proof. intros H. split; [by apply decrypt_keeps|by apply encrypt_keeps]. Qed.

(** ** The header copy and the previous chain *)

(** The comparison of the encrypted header copy with the visible header never
    rejects a message: with a visible header, reading it succeeds, and when the
    opened copy differs from it the visible header is used all the same. *)
Theorem header_copy_mismatch_ignored s obj h :
  dget "h" PNone obj = PDict h -> h <> [] ->
  (exists v, read_header s obj = Ok v) /\
  forall token v, dget "eh" PNone obj = PStr token -> token <> "" -> hk_recv s <> "" ->
    aead_decrypt (hk_recv s) token EH_AAD = Ok v -> py_eqb v (PDict h) = false ->
    open_header s (PStr token) (PDict h) = Err header_mismatch /\
    read_header s obj = Ok (PDict h).
Proof.
  intros Hh Hne. assert (Ht : truthy (PDict h) = true) by (by destruct h).
  unfold read_header. rewrite Hh, Ht. split.
  - destruct (_ && _); [|by eexists]. destruct (open_header _ _ _); by eexists.
  - intros token v Heh Hte Hhk Hopen Hdiff. rewrite Heh.
    assert (Ho : open_header s (PStr token) (PDict h) = Err header_mismatch).
    { unfold open_header. rewrite Hopen. cbn [res_bind]. by rewrite Ht, Hdiff. }
    split; [done|]. cbn [truthy].
    destruct token as [|c token]; [done|]. destruct (hk_recv s) as [|c' hk]; [done|].
    cbn [nonempty andb]. by rewrite Ho.
Qed.

(** A message under a new ratchet key stores no key of the previous receiving
    chain, whatever number [pn] its header announces: the messages of that chain
    still in flight cannot be opened afterwards. *)
Theorem previous_chain_keys_dropped seed remote n id aad obj s s' out k :
  remote <> remote_dh s -> receive seed remote n id aad obj s = (s', out) ->
  dlookup (skip_key (remote_dh s) k) (skipped s') = dlookup (skip_key (remote_dh s) k) (skipped s).
Proof.
  intros Hne H.
  assert (Hkey : forall z, skip_key (remote_dh s) k <> skip_key remote z).
  { intros z E. apply skip_key_inj in E as [E _]. by rewrite E in Hne. }
  unfold receive, st_bind at 1, st_get at 1 in H.
  destruct (dlookup (skip_key remote n) (skipped s)) as [v|] eqn:E.
  - enough (keeps (fun s1 => dlookup (skip_key (remote_dh s) k) (skipped s1) =
                             dlookup (skip_key (remote_dh s) k)
                               (ddel (skip_key remote n) (skipped s)))
              (do! mk := st_lift (b64d_v v) in do! plain := st_lift (open_body mk obj aad) in
               do! _ := st_modify (remember_seen id) in st_ret plain)) as HK.
    + unfold st_bind at 1, st_modify at 1 in H.
      specialize (HK (with_recv (ck_recv s) (n_recv s) (ddel (skip_key remote n) (skipped s)) s) eq_refl).
      rewrite H in HK. cbn [fst] in HK. rewrite HK. apply dlookup_ddel_ne, Hkey.
    + keeps_tac.
  - assert (Hcond : negb (nonempty (remote_dh s)) || negb (String.eqb remote (remote_dh s)) = true).
    { apply String.eqb_neq in Hne. rewrite Hne. apply orb_true_r. }
    rewrite Hcond in H. unfold st_bind at 1 in H.
    pose proof (dh_ratchet_skipped seed remote s) as Hsk.
    destruct (dh_ratchet seed remote s) as [s1 [[]|e]] eqn:E1; cbn [fst] in Hsk.
    2: { injection H as <- _. by rewrite Hsk. }
    apply dh_ratchet_remote in E1. unfold st_bind at 1 in H.
    destruct (skip_until n s1) as [s2 o] eqn:E2.
    pose proof (skip_until_other n s1 o s2 _ E2 ltac:(rewrite E1; exact Hkey)) as H2.
    rewrite Hsk in H2. destruct o as [[]|e].
    2: { injection H as <- _. exact H2. }
    unfold st_bind at 1, st_get at 1 in H. destruct (kdf_ck (ck_recv s2)) as [mk ck].
    enough (keeps (fun s3 => skipped s3 = skipped s2)
              (do! _ := st_modify (fun s => with_recv ck (n_recv s + 1) (skipped s) s) in
               do! plain := st_lift (open_body mk obj aad) in
               do! _ := st_modify (remember_seen id) in st_ret plain)) as HK.
    + specialize (HK s2 eq_refl). rewrite H in HK. cbn [fst] in HK. by rewrite HK.
    + keeps_tac.
Qed.

(** ** Persistence *)

(** C31: a session state of text fields, with at most 2048 remembered ids, is the
    one read back from the JSON it is saved as. *)
Theorem state_persisted_exactly s :
  state_text_ok s -> (size (seen s) <= 2048)%nat ->
  exists d, loads_bytes (json_dumps false false (PDict (to_dict s))) = Ok (PDict d) /\
    from_dict d = Ok s.
Proof.
  intros Ht Hsize. exists (to_dict s). split.
  - by apply loads_bytes_ok, to_dict_py_ok.
  - rewrite from_dict_to_dict.
    + rewrite last_sorted_all by done. by destruct s.
    + intros H. by destruct (proj2 (proj2 Ht) _ H).
Qed.
End props.

(** ** Witnesses *)

Definition demo_root : bytes := sha256 "root".
Definition demo_a : DoubleRatchet := set_context 5 1 2 (Some 1) (new (sha256 "a") "" demo_root true "" "session").
Definition demo_b : DoubleRatchet :=
  set_context 5 2 1 (Some 1) (new (sha256 "b") "" demo_root false (sha256 "a") "session").
Definition demo_draws (k : Z) : enc_draws :=
  EncDraws (sha256 (String "e" (dec k))) (stake 12 (sha256 (String "n" (dec k))))
    (stake 12 (sha256 (String "h" (dec k)))) 1700000000000.
Definition demo_msgs : list (enc_draws * string) :=
  [(demo_draws 0, "one"); (demo_draws 1, "two"); (demo_draws 2, "three")].

Definition demo_wire : string := ok_or "" (snd (encrypt (demo_draws 0) "one" demo_a)).
Definition demo_after : DoubleRatchet := fst (decrypt (sha256 "s") demo_wire demo_b).

Lemma demo_decrypts : decrypt (sha256 "s") demo_wire demo_b = (demo_after, Ok "one").
Proof. vm_compute. reflexivity. Qed.

Lemma accepted_message_authentic_witness :
  exists obj header remote n id mk token raw p d,
    json_unb64 (strip_prefix PREFIX_DR demo_wire) = Ok (PDict obj) /\
    read_header demo_b obj = Ok (PDict header) /\ message_id header = Ok id /\ id ∉ seen demo_b /\
    (session_id demo_b = "" \/ py_eqb (dget "sid" PNone header) (PStr (session_id demo_b)) = true) /\
    (conversation_id demo_b = 0 \/ get_int0 "conversation_id" header = Ok (conversation_id demo_b)) /\
    (my_uid demo_b = 0 \/ get_int0 "recipient_uid" header = Ok (my_uid demo_b)) /\
    key_for (sha256 "s") demo_b remote n mk /\ dlookup "ct" obj = Some (PStr token) /\
    b64d token = Ok raw /\
    sdrop 12 raw =
      aes_encrypt mk (stake 12 raw) p (Some (json_dumps false true (PDict header))) /\
    loads_bytes p = Ok (PDict d) /\ "one" = py_str (dget "body" (PStr "") d).
Proof.
  exact (accepted_message_authentic (sha256 "s") demo_wire demo_b demo_after "one" demo_decrypts).
Defined.

Definition demo_obj : dict := sent_obj demo_a (demo_draws 0) "one".

Lemma header_bound_to_ciphertext_witness :
  exists header, read_header demo_b demo_obj = Ok (PDict header) /\
    json_dumps false true (PDict header) = json_dumps false true (PDict (sent_header demo_a)).
Proof.
  apply (header_bound_to_ciphertext (sha256 "s") demo_wire demo_b demo_after "one" demo_obj
           (e_nonce (demo_draws 0)) (fst (kdf_ck (ck_send demo_a)))
           (message_obj (e_now (demo_draws 0)) "one") (PDict (sent_header demo_a))).
  - vm_compute. reflexivity.
  - vm_compute. reflexivity.
  - reflexivity.
  - exact demo_decrypts.
Defined.

Lemma demo_chain_start : chain_start demo_a demo_b 3.
Proof.
  assert (Hle : forall n m : nat, Nat.leb n m = true -> (n <= m)%nat) by (intros; by apply Nat.leb_le).
  split; [reflexivity|]. split; [repeat split; right; reflexivity|].
  split; [vm_compute; discriminate|]. split; [reflexivity|]. split; [reflexivity|].
  split; [vm_compute; reflexivity|]. split; [apply NoDup_nil_2|].
  split; [apply Hle; vm_compute; reflexivity|]. split; [apply Hle; vm_compute; reflexivity|].
  intros i _. split; [reflexivity|apply not_elem_of_empty].
Qed.

Lemma demo_can_send : Forall (fun rm => can_send demo_a (fst rm) (snd rm)) demo_msgs.
Proof. repeat constructor; vm_compute; reflexivity. Qed.

Lemma chain_any_order_witness :
  exists wires s',
    snd (send_all demo_msgs demo_a) = Ok wires /\ length wires = 3%nat /\
    let wire i := default "" (wires !! i) in
    deliver_all (map (fun i => (sha256 "s", wire i)) [2%nat; 0%nat; 1%nat]) demo_b =
      (s', [Ok "three"; Ok "one"; Ok "two"]) /\
    forall i, i ∈ [2%nat; 0%nat; 1%nat] -> decrypt (sha256 "s") (wire i) s' =
      (s', Err (ValueError "Duplicate/replayed Double Ratchet message")).
Proof.
  apply (chain_any_order demo_a demo_b demo_msgs [2%nat; 0%nat; 1%nat] (sha256 "s")).
  - exact demo_chain_start.
  - exact demo_can_send.
  - apply (bool_decide_unpack _). vm_compute. exact I.
  - apply (bool_decide_unpack _). vm_compute. exact I.
Defined.

Lemma skipped_keys_bounded_witness :
  skips_bounded (fst (decrypt (sha256 "s") demo_wire demo_b)) /\
  skips_bounded (fst (encrypt (demo_draws 0) "one" demo_b)).
Proof.
  apply skipped_keys_bounded. unfold skips_bounded. vm_compute. discriminate.
Defined.

(** A header copy sealed for another recipient, next to the visible header. *)
Definition demo_visible : dict := header_of demo_a 0.
Definition demo_mismatch : dict :=
  [("h", PDict demo_visible);
   ("eh", PStr (sealed (e_nonce (demo_draws 7)) (hk_recv demo_b) (PDict (header_of demo_b 0)) EH_AAD))].

Lemma header_copy_mismatch_ignored_witness :
  open_header demo_b (dget "eh" PNone demo_mismatch) (PDict demo_visible) = Err header_mismatch /\
  read_header demo_b demo_mismatch = Ok (PDict demo_visible).
Proof.
  apply (proj2 (header_copy_mismatch_ignored demo_b demo_mismatch demo_visible eq_refl
           ltac:(discriminate)) _ (PDict (header_of demo_b 0))).
  - reflexivity.
  - vm_compute. discriminate.
  - vm_compute. discriminate.
  - vm_compute. reflexivity.
  - vm_compute. reflexivity.
Defined.

Lemma previous_chain_keys_dropped_witness :
  let s' := fst (receive (sha256 "s") (sha256 "new") 2 "id" "" demo_obj demo_b) in
  dlookup (skip_key (remote_dh demo_b) 1) (skipped s') =
  dlookup (skip_key (remote_dh demo_b) 1) (skipped demo_b).
Proof.
  apply (previous_chain_keys_dropped (sha256 "s") (sha256 "new") 2 "id" "" demo_obj demo_b _
           (snd (receive (sha256 "s") (sha256 "new") 2 "id" "" demo_obj demo_b)) 1).
  - vm_compute. discriminate.
  - apply surjective_pairing.
Defined.

Lemma state_persisted_exactly_witness :
  exists d, loads_bytes (json_dumps false false (PDict (to_dict demo_after))) = Ok (PDict d) /\
    from_dict d = Ok demo_after.
Proof.
  apply state_persisted_exactly.
  - assert (Hk : skipped demo_after = []) by (vm_compute; reflexivity).
    split; [rewrite Hk; split; [apply NoDup_nil_2|exact I]|]. split; [vm_compute; reflexivity|].
    assert (Hs : seen demo_after = {[ sent_id demo_a ]}) by (vm_compute; reflexivity).
    intros x Hx. rewrite Hs in Hx. apply elem_of_singleton in Hx as ->.
    split; [vm_compute; discriminate|vm_compute; reflexivity].
  - apply Nat.leb_le. vm_compute. reflexivity.
Defined.
