(* ===== verification/Pqxdh.v ===== *)
(** * The PQXDH handshake (client/crypto_engine/secure_protocol.py)

    [pqxdh_initiate] and [pqxdh_respond]: the first message of a conversation,
    and the two ratchet states it starts. Responding pops one-time prekeys from
    the local store, so it is a state-passing function over that store, which
    keeps the removals also when a later step raises. *)

From S2P Require Import Prelude Hashing Base64 PyVal Json Crypto Wire Ratchet.

(** [v[k]] of a nested dictionary. *)
Definition sub_item (k k' : string) (d : dict) : res pyval :=
  let! v := ditem k d in let! d' := as_dict v in ditem k' d'.

Definition sub_b64 (k k' : string) (d : dict) : res bytes :=
  let! v := sub_item k k' d in b64d_v v.

(** [local_store.get(k, {}).pop(key, None)]. *)
Definition pop_one_time (k key : string) : stm dict (option pyval) :=
  fun store =>
    match dlookup k store with
    | None => (store, Ok None)
    | Some (PDict d) => (dset k (PDict (ddel key d)) store, Ok (dlookup key d))
    | Some _ => (store, Err AttributeError)
    end.

Section pqxdh.
Context `{P : Prims}.
Variable oqs : option (option (list string)).

(** What [pqxdh_initiate] draws, in order: the encapsulation, the ephemeral key,
    the session id, the ratchet key, the nonce, the clock. *)
Record init_draws := InitDraws {
  i_kem : bytes; i_eph : bytes; i_sid : bytes; i_dr : bytes; i_nonce : bytes; i_now : Z
}.

(** The KEM the initiator uses: name and public key. *)
Definition bundle_kem (bundle : dict) : res (pyval * bytes) :=
  let! otk_id := id_or_minus1 "pq_otk_id" bundle in
  let! alg := if 0 <? otk_id then Ok (dget "pq_otk_alg" PNone bundle) else ditem "pq_kem_alg" bundle in
  let! pq_pk := if truthy (dget "pq_otk" PNone bundle) then b64_item "pq_otk" bundle
                else b64_item "pq_spk" bundle in
  Ok (alg, pq_pk).

(** The payload of the first message, before its ciphertext is added. *)
Definition init_payload (session_id : string) (conversation_id my_uid peer_uid : Z)
    (identity_pk : bytes) (curve_key_id : Z) (local_curve_pk curve_sig eph_pk : bytes)
    (curve_spk_id curve_otk_id pq_spk_id pq_otk_id : Z) (alg : string) (pq_ct dr_pub : bytes)
    (version : option Z) : dict :=
  [("v", PInt SECCHAT_SCHEMA); ("sid", PStr session_id);
   ("conversation_id", PInt conversation_id); ("sender_uid", PInt my_uid);
   ("recipient_uid", PInt peer_uid); ("identity_pk", PStr (b64e identity_pk));
   ("sender_curve_spk_id", PInt curve_key_id);
   ("sender_curve_spk", PStr (b64e local_curve_pk));
   ("sender_curve_spk_sig", PStr (b64e curve_sig)); ("eph_curve_pk", PStr (b64e eph_pk));
   ("curve_spk_id", PInt curve_spk_id); ("curve_otk_id", PInt curve_otk_id);
   ("pq_spk_id", PInt pq_spk_id); ("pq_otk_id", PInt pq_otk_id); ("pq_kem_alg", PStr alg);
   ("pq_ct", PStr (b64e pq_ct)); ("dr_pub", PStr (b64e dr_pub))] ++
  match version with Some v => [("sender_identity_version", PInt v)] | None => [] end.

Definition pqxdh_initiate (r : init_draws) (bundle local_store : dict)
    (identity_pk identity_sk : bytes) (my_uid peer_uid : Z) (initial_body : string)
    (version : option Z) (conversation_id : Z) : res (string * DoubleRatchet * string) :=
  let! _ := verify_bundle bundle in
  let! (algv, pq_pk) := bundle_kem bundle in
  let! alg := as_str algv in
  let! (pq_ct, pq_ss) := kem_encapsulate oqs (i_kem r) alg pq_pk in
  let (eph_pk, eph_sk) := x25519_keygen (i_eph r) in
  let! local_curve_pk := sub_b64 "curve_signed" "pk" local_store in
  let! local_curve_sk := sub_b64 "curve_signed" "sk" local_store in
  let! peer_curve_spk := b64_item "curve_spk" bundle in
  let! curve_otk_id := id_or_minus1 "curve_otk_id" bundle in
  let! peer_curve_otk := if 0 <? curve_otk_id then b64_item "curve_otk" bundle else Ok "" in
  let! dh1 := x25519_dh local_curve_sk peer_curve_spk in
  let! dh2 := x25519_dh eph_sk peer_curve_spk in
  let! dh3 := if nonempty peer_curve_otk then x25519_dh eph_sk peer_curve_otk else Ok "" in
  let root := hkdf (dh1 +:+ dh2 +:+ dh3 +:+ pq_ss) "SecChat-PQXDH" None 32 in
  let session_id := b64e (i_sid r) in
  let state := set_context conversation_id my_uid peer_uid version
                 (new (i_dr r) "" root true "" session_id) in
  let (mk, ck) := kdf_ck (ck_send state) in
  let state := with_send ck (n_send state + 1) state in
  let! keyv := sub_item "curve_signed" "key_id" local_store in
  let! curve_key_id := py_int keyv in
  let! curve_sig := sign_prekey identity_sk "curve-signed" curve_key_id "X25519" local_curve_pk in
  let! curve_spk_id := int_item "curve_spk_id" bundle in
  let! pq_spk_id := int_item "pq_spk_id" bundle in
  let! pq_otk_id := id_or_minus1 "pq_otk_id" bundle in
  let payload := init_payload session_id conversation_id my_uid peer_uid identity_pk curve_key_id
    local_curve_pk curve_sig eph_pk curve_spk_id curve_otk_id pq_spk_id pq_otk_id alg pq_ct
    (dh_pk state) version in
  let! aad := canonical (PDict payload) in
  let! ct := aead_encrypt (i_nonce r) mk (message_obj (i_now r) initial_body) aad in
  let! token := json_b64 (PDict (payload ++ [("ct", PStr ct)])) in
  let! peer_identity := b64_item "identity_pk" bundle in
  Ok (PREFIX_PQ_INIT +:+ token, state, safety_fingerprint identity_pk peer_identity).

(** [obj.get("sender_identity_version")], an integer if it is there. *)
Definition opt_version (v : pyval) : res (option Z) :=
  match v with PNone => Ok None | _ => let! z := py_int v in Ok (Some z) end.

(** The first checks of [pqxdh_respond]: the sender's id, identity and curve key. *)
Definition respond_sender (obj : dict) (expected_uid : option Z) : res (Z * bytes * bytes) :=
  let! sender_uid := int_item "sender_uid" obj in
  let! _ := match expected_uid with
            | Some u => let! rcp := int_item "recipient_uid" obj in
                        if rcp =? u then Ok tt else Err (ValueError "PQXDH recipient mismatch")
            | None => Ok tt
            end in
  let! sender_identity := b64_item "identity_pk" obj in
  let! sender_curve := b64_item "sender_curve_spk" obj in
  let! spk_id := int_item "sender_curve_spk_id" obj in
  let! sig := b64_item "sender_curve_spk_sig" obj in
  let! _ := verify_prekey sender_identity "curve-signed" spk_id "X25519" sender_curve sig in
  Ok (sender_uid, sender_identity, sender_curve).

(** The secret of a popped one-time prekey, [""] without one. *)
Definition hit_sk (hit : option pyval) : res bytes :=
  match hit with
  | Some v => if truthy v then let! d := as_dict v in b64_item "sk" d else Ok ""
  | None => Ok ""
  end.

Definition pq_secret (hit : option pyval) (store : dict) : res bytes :=
  match hit with
  | Some v => if truthy v then let! d := as_dict v in b64_item "sk" d else sub_b64 "pq_signed" "sk" store
  | None => sub_b64 "pq_signed" "sk" store
  end.

(** [pqxdh_respond]; [dr_seed] makes the ratchet key, [sid_seed] a session id when
    the wire has none. *)
Definition pqxdh_respond (dr_seed sid_seed : bytes) (wire : string) (expected_uid : option Z) :
    stm dict (string * DoubleRatchet * string * Z) :=
  do! v := st_lift (json_unb64 (strip_prefix PREFIX_PQ_INIT wire)) in
  do! obj := st_lift (as_dict v) in
  do! (sender_uid, sender_identity, sender_curve) := st_lift (respond_sender obj expected_uid) in
  do! curve_otk_id := st_lift (id_or_minus1 "curve_otk_id" obj) in
  do! pq_otk_id := st_lift (id_or_minus1 "pq_otk_id" obj) in
  do! store := st_get in
  do! local_curve_sk := st_lift (sub_b64 "curve_signed" "sk" store) in
  do! hit := (if 0 <? curve_otk_id then pop_one_time "curve_one_time" (dec curve_otk_id)
              else st_ret None) in
  do! curve_otk_sk := st_lift (hit_sk hit) in
  do! algv := st_lift (ditem "pq_kem_alg" obj) in
  do! phit := (if 0 <? pq_otk_id then pop_one_time "pq_one_time" (dec pq_otk_id)
               else st_ret None) in
  do! store := st_get in
  do! pq_sk := st_lift (pq_secret phit store) in
  st_lift (
    let! eph_pk := b64_item "eph_curve_pk" obj in
    let! dh1 := x25519_dh local_curve_sk sender_curve in
    let! dh2 := x25519_dh local_curve_sk eph_pk in
    let! dh3 := if nonempty curve_otk_sk then x25519_dh curve_otk_sk eph_pk else Ok "" in
    let! alg := as_str algv in
    let! pq_ct := b64_item "pq_ct" obj in
    let! pq_ss := kem_decapsulate oqs alg pq_sk pq_ct in
    let root := hkdf (dh1 +:+ dh2 +:+ dh3 +:+ pq_ss) "SecChat-PQXDH" None 32 in
    let! dr_pub := b64_item "dr_pub" obj in
    let! conv := get_int0 "conversation_id" obj in
    let! rcp := get_int0 "recipient_uid" obj in
    let! version := opt_version (dget "sender_identity_version" PNone obj) in
    let state := set_context conv rcp sender_uid version
                   (new dr_seed sid_seed root false dr_pub (get_str0 "sid" obj)) in
    let (mk, ck) := kdf_ck (ck_recv state) in
    let state := with_recv ck (n_recv state + 1) (skipped state) state in
    let! aad := canonical (PDict (ddel "ct" obj)) in
    let! plain := open_body mk obj aad in
    let! my_identity := b64_item "identity_pk" store in
    Ok (plain, state, safety_fingerprint my_identity sender_identity, sender_uid)).
End pqxdh.
