(* ===== verification/Conversation.v ===== *)
(** * Two parties: a conversation in lock step, and the handshake that starts it

    [led a b] relates the states of two parties when the sending chain of [a] is
    the receiving chain of [b], and [b] holds, or is about to make, the next
    ratchet step. Every exchange keeps the relation, possibly with the roles
    exchanged, so a conversation of any length is delivered. *)

From S2P Require Import Prelude Hashing Base64 PyVal Sorting Json JsonFacts Crypto Wire Ratchet.
From S2P Require Import RatchetFacts.

Section conversation.
Context `{P : Prims} `{!PrimLaws P} `{!AeadStrict P}.
Implicit Types a b s : DoubleRatchet.

(** A key pair as [x25519_keygen] makes it. *)
Definition pair_ok s : Prop := len32 (dh_sk s) /\ dh_pk s = x_pub (dh_sk s).

Lemma pair_ok_pk s : pair_ok s -> len32 (dh_pk s).
Proof. intros [H ->]. by apply x_pub_len. Qed.

Lemma len32_nonempty (x : bytes) : len32 x -> x <> "".
Proof. by intros H ->. Qed.

Lemma len32_nonemptyb (x : bytes) : len32 x -> nonempty x = true.
Proof. by destruct x. Qed.

Lemma dh_agree x y : len32 x -> len32 y ->
  exists z, x25519_dh x (x_pub y) = Ok z /\ x25519_dh y (x_pub x) = Ok z.
Proof.
  intros Hx Hy. destruct (x_exchange_honest x y Hx Hy) as (z & Hz & Hz').
  exists z. unfold x25519_dh.
  rewrite !(proj2 (len32b_spec _)) by (done || by apply x_pub_len). by rewrite Hz, Hz'.
Qed.

(** The two states belong to one session and address each other. *)
Definition partners a b : Prop :=
  session_id a = session_id b /\ utf8_valid (session_id a) = true /\
  addressed a b /\ addressed b a /\ skipped a = [] /\ skipped b = [].

(** The fields [partners] is about; the mutations of a message leave them alone. *)
Definition same_context s s' : Prop :=
  session_id s' = session_id s /\ conversation_id s' = conversation_id s /\
  my_uid s' = my_uid s /\ peer_uid s' = peer_uid s /\ skipped s' = skipped s.

Lemma partners_context a b a' b' :
  same_context a a' -> same_context b b' -> partners a b -> partners a' b'.
Proof.
  intros (A1 & A2 & A3 & A4 & A5) (B1 & B2 & B3 & B4 & B5). unfold partners, addressed.
  by rewrite A1, A2, A3, A4, A5, B1, B2, B3, B4, B5.
Qed.

Lemma partners_sym a b : partners a b -> partners b a.
Proof. intros (H1 & H2 & H3 & H4 & H5 & H6). rewrite H1 in H2. by repeat split; try apply H3; try apply H4. Qed.

(** [b] can open the next ratchet step towards [a]: flagged, or made already. *)
Definition turn a b : Prop :=
  (needs_send_ratchet b = true /\ root_key b = root_key a) \/
  (needs_send_ratchet b = false /\ n_send b = 0 /\ pair_ok b /\ len32 (hk_send b) /\
   remote_dh a <> dh_pk b /\
   exists z, x25519_dh (dh_sk b) (dh_pk a) = Ok z /\
     (root_key b, ck_send b) = kdf_rk (root_key a) z).

(** The ids remembered by each side come from ratchet keys used so far. *)
Definition ids_from (U : list bytes) a b : Prop :=
  (forall id, id ∈ seen b -> exists d k, id = msg_id (session_id a) d k /\ d ∈ U /\
     (d = dh_pk a -> k < n_send a)) /\
  (forall id, id ∈ seen a -> exists d k, id = msg_id (session_id a) d k /\ d ∈ U /\
     (needs_send_ratchet b = false -> d <> dh_pk b)).

Record led (U : list bytes) a b : Prop := {
  l_partners : partners a b;
  l_ready : needs_send_ratchet a = false;
  l_pair : pair_ok a;
  l_hk : len32 (hk_send a);
  l_remote : remote_dh b = dh_pk a;
  l_n : n_send a = n_recv b;
  l_ck : ck_send a = ck_recv b;
  l_turn : turn a b;
  l_ids : ids_from U a b;
  l_used : dh_pk a ∈ U /\ dh_pk b ∈ U /\ (nonempty (remote_dh a) = true -> remote_dh a ∈ U)
}.

Definition text_ok (r : enc_draws) (m : string) : Prop :=
  utf8_valid m = true /\ nonce_ok (e_nonce r) /\ nonce_ok (e_hnonce r).

Lemma remember_seen_sub id s x : x ∈ seen (remember_seen id s) -> x = id \/ x ∈ seen s.
Proof.
  unfold remember_seen. cbn [seen with_seen]. destruct (_ <? _)%nat.
  - rewrite elem_of_list_to_set. intros H. apply last_sorted_elem in H. set_solver.
  - set_solver.
Qed.

(** ** The leader sends *)

Lemma led_send_leader U a b r m seed :
  led U a b -> text_ok r m ->
  exists w b', encrypt r m a = (after_send a, Ok w) /\ decrypt seed w b = (b', Ok m) /\
    led U (after_send a) b'.
Proof.
  intros [ (Hsid & Hu & Hab & Hba & Ska & Skb) Hready Hpair Hhk Hrem Hn Hck Hturn Hids Hused ]
    (Hm & Hn1 & Hn2).
  assert (Hc : can_send a r m) by done.
  exists (sent_wire a r m). rewrite encrypt_ready, decrypt_sent by done.
  destruct Hids as [Hidb Hida].
  rewrite decide_False.
  2: { intros Hin. destruct (Hidb _ Hin) as (d & k & E & _ & Hlt).
       apply msg_id_inj in E as [<- <-]. specialize (Hlt eq_refl). lia. }
  replace (n_send a) with (n_recv b + Z.of_nat 0) by (rewrite Hn; apply Z.add_0_r).
  rewrite (receive_ahead seed b (dh_pk a) 0 (sent_id a) (sent_aad a) (sent_obj a r m) m).
  2: done.
  2: { apply len32_nonempty. by apply pair_ok_pk. }
  2: by rewrite Skb.
  2: { rewrite Skb. unfold MAX_SKIP_KEYS. cbn. lia. }
  2: { unfold nth_mk, nth_ck. cbn. rewrite <- Hck. by apply open_body_sent. }
  eexists. split; [reflexivity|]. split; [reflexivity|].
  cbn [add_skips]. rewrite Skb, Z.add_0_r. unfold nth_ck. cbn [Nat.iter nat_rect].
  split.
  - by apply (partners_context a b); [repeat split|repeat split; cbn|repeat split; try apply Hab; try apply Hba].
  - done.
  - exact Hpair.
  - exact Hhk.
  - exact Hrem.
  - cbn. by rewrite Hn.
  - cbn. by rewrite Hck.
  - exact Hturn.
  - split.
    + intros id Hin. apply remember_seen_sub in Hin as [->|Hin]; cbn [session_id n_send dh_pk after_send with_send].
      * exists (dh_pk a), (n_send a). split; [done|]. split; [apply Hused|]. lia.
      * destruct (Hidb id Hin) as (d & k & E & Hd & Hlt). exists d, k.
        split; [exact E|]. split; [exact Hd|]. intros ->. specialize (Hlt eq_refl). lia.
    + exact Hida.
  - exact Hused.
Qed.

(** ** The other party answers *)

(** A party about to answer, once its send ratchet is made. *)
Definition answering a b : Prop :=
  needs_send_ratchet b = false /\ n_send b = 0 /\ pair_ok b /\ len32 (hk_send b) /\
  remote_dh a <> dh_pk b /\
  exists z, x25519_dh (dh_sk b) (dh_pk a) = Ok z /\ (root_key b, ck_send b) = kdf_rk (root_key a) z.

Lemma encrypt_after_ratchet r m s s1 :
  maybe_send_ratchet (e_seed r) s = (s1, Ok tt) -> needs_send_ratchet s1 = false ->
  encrypt r m s = encrypt r m s1.
Proof.
  intros H Hf. unfold encrypt. unfold st_bind at 1. rewrite H.
  symmetry. unfold st_bind at 1. unfold maybe_send_ratchet. unfold st_bind at 1, st_get at 1.
  by rewrite Hf.
Qed.

(** Whatever the turn, [b] is answering after [maybe_send_ratchet], its session,
    store, remote key and ids unchanged. *)
Lemma send_ratchet_ready U a b seed :
  led U a b -> len32 seed -> x_pub seed ∉ U ->
  exists b1, maybe_send_ratchet seed b = (b1, Ok tt) /\ answering a b1 /\
    partners a b1 /\ remote_dh b1 = dh_pk a /\ seen b1 = seen b /\
    (forall id, id ∈ seen a -> exists d k, id = msg_id (session_id a) d k /\ d ∈ U /\ d <> dh_pk b1) /\
    (dh_pk b1 = x_pub seed \/ dh_pk b1 = dh_pk b).
Proof.
  intros [ Hp Hready Hpair Hhk Hrem Hn Hck Hturn [_ Hida] Hused ] Hseed Hfresh.
  unfold maybe_send_ratchet, st_bind at 1, st_get at 1.
  destruct Hturn as [[Hneeds Hroot]|Hans].
  - rewrite Hneeds, Hrem, len32_nonemptyb by (by apply pair_ok_pk). cbn [negb orb].
    unfold st_bind at 1, st_modify at 1, st_bind at 1, st_get at 1. rewrite st_bind_lift.
    cbn [dh_sk remote_dh with_keypair with_pn x25519_keygen snd fst]. rewrite Hrem.
    destruct Hpair as [Hsk Hpk]. rewrite Hpk.
    destruct (dh_agree seed (dh_sk a) Hseed Hsk) as (z & Hz & _). rewrite Hz.
    destruct (kdf_rk _ z) as [root ck] eqn:Ek. unfold st_modify.
    eexists. split; [reflexivity|]. cbn [needs_send_ratchet with_sent_ratchet with_root_send].
    split; [|split; [|split; [|split; [|split]]]].
    + split; [done|]. split; [done|]. split; [by split|]. split; [apply header_key_len|].
      split.
      * cbn. intros E. destruct (nonempty (remote_dh a)) eqn:Ene.
        -- apply Hfresh. rewrite <- E. by apply Hused.
        -- apply len32_nonemptyb in Hseed as Hs2. pose proof (x_pub_len seed Hseed) as Hx.
           apply len32_nonemptyb in Hx. rewrite <- E in Hx. congruence.
      * exists z. rewrite Hpk. split; [exact Hz|].
        change (root_key (with_keypair _ _)) with (root_key b) in Ek.
        rewrite Hroot in Ek. symmetry. exact Ek.
    + by apply (partners_context a b).
    + cbn. by rewrite Hrem.
    + done.
    + intros id Hin. destruct (Hida id Hin) as (d & k & E & Hd & _). exists d, k.
      split; [done|]. split; [done|]. cbn. by intros ->.
    + by left.
  - destruct Hans as (Hneeds & Hrest). rewrite Hneeds. cbn [negb orb].
    exists b. split; [done|]. split; [by split|]. split; [done|]. split; [done|]. split; [done|].
    split; [|by right]. intros id Hin. destruct (Hida id Hin) as (d & k & E & Hd & Hne).
    exists d, k. split; [done|]. split; [done|]. by apply Hne.
Qed.

(** [_dh_ratchet] against an answering party: the chains meet. *)
Lemma dh_ratchet_meets a b seed :
  answering a b -> partners a b -> pair_ok a -> remote_dh b = dh_pk a -> len32 seed ->
  exists a1, dh_ratchet seed (dh_pk b) a = (a1, Ok tt) /\
    ck_recv a1 = ck_send b /\ n_recv a1 = 0 /\ n_send a1 = 0 /\ remote_dh a1 = dh_pk b /\
    needs_send_ratchet a1 = needs_send_ratchet a /\ dh_pk a1 = x_pub seed /\ pair_ok a1 /\
    len32 (hk_send a1) /\ skipped a1 = [] /\ seen a1 = seen a /\ partners b a1 /\
    exists z, x25519_dh (dh_sk a1) (dh_pk b) = Ok z /\
      (root_key a1, ck_send a1) = kdf_rk (root_key b) z.
Proof.
  intros (Hf & Hn0 & [Hskb Hpkb] & Hhkb & Hne & z & Hz & Hkdf) Hp [Hska Hpka] Hrem Hseed.
  unfold dh_ratchet, st_bind at 1, st_modify at 1, st_bind at 1, st_get at 1.
  rewrite st_bind_lift. cbn [dh_sk remote_dh with_remote].
  assert (Hz' : x25519_dh (dh_sk a) (dh_pk b) = Ok z).
  { rewrite Hpka in Hz. rewrite Hpkb. destruct (dh_agree (dh_sk b) (dh_sk a) Hskb Hska) as (y & Hy & Hy').
    congruence. }
  rewrite Hz'. change (root_key (with_remote _ a)) with (root_key a). rewrite <- Hkdf. cbv iota beta.
  unfold st_bind at 1, st_modify at 1, st_bind at 1, st_modify at 1, st_bind at 1, st_get at 1.
  rewrite st_bind_lift. cbn [dh_sk remote_dh with_keypair with_root_recv with_remote x25519_keygen fst snd].
  destruct (dh_agree seed (dh_sk b) Hseed Hskb) as (y & Hy & _). rewrite Hpkb, Hy.
  destruct (kdf_rk _ y) as [root2 ck2] eqn:Ek. unfold st_modify.
  eexists. split; [reflexivity|].
  cbn [root_key dh_pk dh_sk remote_dh ck_send ck_recv hk_send n_send n_recv skipped needs_send_ratchet
       seen with_root_send with_keypair with_root_recv with_remote fst snd].
  do 5 (split; [done|]). split; [done|]. split; [by split|]. split; [apply header_key_len|].
  split; [apply Hp|]. split; [done|]. split.
  - by apply partners_sym, (partners_context a b).
  - exists y. split; [done|]. symmetry. exact Ek.
Qed.

(** The answer is opened, and the roles are exchanged. *)
Lemma led_send_answer U a b r m seed :
  led U a b -> text_ok r m -> len32 (e_seed r) -> len32 seed ->
  x_pub (e_seed r) ∉ U -> x_pub seed ∉ U -> x_pub seed <> x_pub (e_seed r) ->
  exists w b1 a1, encrypt r m b = (b1, Ok w) /\ decrypt seed w a = (a1, Ok m) /\
    led (x_pub seed :: x_pub (e_seed r) :: U) b1 a1.
Proof.
  intros L (Hm & Hn1 & Hn2) Hs1 Hs2 Hf1 Hf2 Hf12.
  pose proof (proj1 (proj2 (l_used _ _ _ L))) as HbU.
  destruct (send_ratchet_ready U a b (e_seed r) L Hs1 Hf1)
    as (b0 & Hmsr & Hans & Hp & Hrem & Hseen & Hida & Hpkb).
  pose proof (l_pair _ _ _ L) as Hpa. pose proof (l_ready _ _ _ L) as Hra.
  destruct (dh_ratchet_meets a b0 seed Hans Hp Hpa Hrem Hs2)
    as (a0 & Hdh & Hck & Hnr & Hns & Hrm & Hnd & Hpk & Hpair & Hhk & Hsk & Hsn & Hpart & z & Hz & Hkdf).
  pose proof Hans as (Hneeds & Hn0 & Hpairb & Hhkb & Hne & _).
  pose proof Hp as (Hsid & Hu & Haddr & Haddr' & Hska & Hskb).
  assert (Hc : can_send b0 r m) by (split; [by rewrite <- Hsid|done]).
  assert (Hnew : dh_pk b0 ∈ x_pub seed :: x_pub (e_seed r) :: U).
  { destruct Hpkb as [->| ->]; [by right; left|by right; right]. }
  exists (sent_wire b0 r m), (after_send b0).
  rewrite (encrypt_after_ratchet r m b b0 Hmsr Hneeds), encrypt_ready by done.
  rewrite decrypt_sent by done.
  assert (Hfresh : forall id, id ∈ seen a -> forall n, id <> msg_id (session_id b0) (dh_pk b0) n).
  { intros id Hin n E. destruct (Hida id Hin) as (d & k & E' & _ & Hd).
    rewrite E' in E. rewrite Hsid in E. by apply msg_id_inj in E as [? _]. }
  rewrite decide_False by (intros Hin; by eapply Hfresh).
  assert (Hrecv : receive seed (dh_pk b0) (n_send b0) (sent_id b0) (sent_aad b0) (sent_obj b0 r m) a =
    (remember_seen (sent_id b0) (with_recv (snd (kdf_ck (ck_recv a0))) 1 [] a0), Ok m)).
  { unfold receive, st_bind at 1, st_get at 1. rewrite Hska. cbn [dlookup].
    assert (Hcond : negb (nonempty (remote_dh a)) || negb (String.eqb (dh_pk b0) (remote_dh a)) = true).
    { apply orb_true_iff. right. apply negb_true_iff, String.eqb_neq. congruence. }
    rewrite Hcond. unfold st_bind at 1. rewrite Hdh, Hn0. unfold st_bind at 1.
    replace 0 with (n_recv a0 + Z.of_nat 0) at 1 by (rewrite Hnr; done).
    rewrite skip_until_ok by (rewrite Hsk; unfold MAX_SKIP_KEYS; cbn; lia). cbn [Nat.iter nat_rect].
    unfold st_bind at 1, st_get at 1.
    pose proof (open_body_sent b0 r m Hc) as Hopen. rewrite Hck.
    destruct (kdf_ck (ck_send b0)) as [mk ck]. cbn [fst] in Hopen.
    unfold st_bind at 1, st_modify at 1. rewrite st_bind_lift, Hopen, Hnr, Hsk. done. }
  eexists. split; [reflexivity|]. split; [exact Hrecv|].
  pose proof Hpart as (Hs0 & _ & Hab & Hba & _ & _).
  split; cbn [needs_send_ratchet after_send with_send dh_pk hk_send remote_dh remember_seen with_seen
              with_recv n_send n_recv ck_send ck_recv].
  - apply (partners_context b0 a0); [by repeat split|by repeat split|exact Hpart].
  - done.
  - exact Hpairb.
  - exact Hhkb.
  - exact Hrm.
  - by rewrite Hn0.
  - by rewrite Hck.
  - right. cbn. rewrite Hnd, Hns. split; [done|]. split; [done|]. split; [exact Hpair|].
    split; [exact Hhk|]. split.
    + rewrite Hrem, Hpk. intros E. apply Hf2. rewrite <- E. apply (l_used _ _ _ L).
    + exists z. split; [exact Hz|exact Hkdf].
  - split.
    + intros id Hin. apply remember_seen_sub in Hin as [->|Hin].
      * exists (dh_pk b0), (n_send b0). split; [done|]. split; [done|]. cbn. lia.
      * cbn in Hin. rewrite Hsn in Hin. destruct (Hida id Hin) as (d & k & E & Hd & Hdne).
        exists d, k. cbn. rewrite <- Hsid. split; [done|]. split; [by right; right|]. done.
    + intros id Hin. cbn in Hin. rewrite Hseen in Hin. destruct (l_ids _ _ _ L) as [Hidb _].
      destruct (Hidb id Hin) as (d & k & E & Hd & _). exists d, k. cbn.
      rewrite <- Hsid. split; [done|]. split; [by right; right|]. intros _ ->.
      apply Hf2. by rewrite <- Hpk.
  - split; [done|]. split; [cbn; rewrite Hpk; by left|].
    intros _. rewrite Hrem. right. right. apply (l_used _ _ _ L).
Qed.

(** ** Whole conversations *)

(** One message: who sends, what the sender draws, the seed of the receiver's next
    ratchet key, the text. *)
Record event := Event { by_first : bool; draws : enc_draws; peer_seed : bytes; text : string }.

(** The message is encrypted and delivered at once. *)
Definition exchange (e : event) (st : DoubleRatchet * DoubleRatchet) :
    (DoubleRatchet * DoubleRatchet) * res string :=
  let (snd_s, rcv_s) := if by_first e then st else (st.2, st.1) in
  let pair x y := if by_first e then (x, y) else (y, x) in
  match encrypt (draws e) (text e) snd_s with
  | (s1, Ok w) => let (r1, out) := decrypt (peer_seed e) w rcv_s in (pair s1 r1, out)
  | (s1, Err er) => (pair s1 rcv_s, Err er)
  end.

Fixpoint converse (es : list event) (st : DoubleRatchet * DoubleRatchet) : list (res string) :=
  match es with
  | [] => []
  | e :: rest => let (st1, out) := exchange e st in out :: converse rest st1
  end.

Definition event_ok (e : event) : Prop :=
  text_ok (draws e) (text e) /\ len32 (e_seed (draws e)) /\ len32 (peer_seed e).

(** The public keys an event may introduce. *)
Definition event_keys (e : event) : list bytes := [x_pub (peer_seed e); x_pub (e_seed (draws e))].

Lemma led_grow U V a b : (forall x, x ∈ U -> x ∈ V) -> led U a b -> led V a b.
Proof.
  intros Hsub L. destruct L as [? ? ? ? ? ? ? ? [H1 H2] (H3 & H4 & H5)]. split; try done.
  - split; intros id Hin.
    + destruct (H1 id Hin) as (d & k & ? & ? & ?). exists d, k. auto.
    + destruct (H2 id Hin) as (d & k & ? & ? & ?). exists d, k. auto.
  - auto.
Qed.

(** Whoever sends, the other receives the text and one of the two leads again. *)
Lemma talking_step U a b r m seed :
  led U a b \/ led U b a -> text_ok r m -> len32 (e_seed r) -> len32 seed ->
  x_pub seed ∉ U -> x_pub (e_seed r) ∉ U -> x_pub seed <> x_pub (e_seed r) ->
  exists w a1 b1, encrypt r m a = (a1, Ok w) /\ decrypt seed w b = (b1, Ok m) /\
    let V := x_pub seed :: x_pub (e_seed r) :: U in led V a1 b1 \/ led V b1 a1.
Proof.
  intros [L|L] Hm Hs1 Hs2 Hf1 Hf2 Hne.
  - destruct (led_send_leader U a b r m seed L Hm) as (w & b1 & He & Hd & L1).
    exists w, (after_send a), b1. split; [done|]. split; [done|]. left.
    eapply led_grow; [|exact L1]. intros x Hx. by right; right.
  - destruct (led_send_answer U b a r m seed L Hm Hs1 Hs2 Hf2 Hf1 Hne)
      as (w & a1 & b1 & He & Hd & L1).
    exists w, a1, b1. split; [done|]. split; [done|]. by left.
Qed.

Lemma converse_delivers es U a b :
  led U a b \/ led U b a -> Forall event_ok es ->
  NoDup (flat_map event_keys es) -> (forall k, k ∈ flat_map event_keys es -> k ∉ U) ->
  converse es (a, b) = map (fun e => Ok (text e)) es.
Proof.
  revert U a b. induction es as [|e es IH]; intros U a b HL Hok Hnd Hfresh; [done|].
  apply Forall_cons in Hok as [(Hm & Hs1 & Hs2) Hok].
  cbn [flat_map] in Hnd, Hfresh. apply NoDup_app in Hnd as (Hnd1 & Hdis & Hnd2).
  assert (Hne : x_pub (peer_seed e) <> x_pub (e_seed (draws e))).
  { intros E. unfold event_keys in Hnd1. rewrite E in Hnd1.
    apply NoDup_cons in Hnd1 as [H _]. apply H. by left. }
  assert (Hf1 : x_pub (peer_seed e) ∉ U) by (apply Hfresh; by left).
  assert (Hf2 : x_pub (e_seed (draws e)) ∉ U) by (apply Hfresh; by right; left).
  assert (Hrest : forall k, k ∈ flat_map event_keys es ->
            k ∉ x_pub (peer_seed e) :: x_pub (e_seed (draws e)) :: U).
  { intros k Hk Hin. apply elem_of_cons in Hin as [->|Hin]; [by apply (Hdis _ ltac:(by left))|].
    apply elem_of_cons in Hin as [->|Hin]; [by apply (Hdis _ ltac:(by right; left))|].
    apply (Hfresh k); [apply elem_of_app; by right|done]. }
  cbn [converse map]. unfold exchange.
  destruct (by_first e).
  - destruct (talking_step U a b _ _ _ HL Hm Hs1 Hs2 Hf1 Hf2 Hne) as (w & a1 & b1 & He & Hd & HL1).
    cbn [fst snd]. rewrite He, Hd. f_equal. by eapply IH.
  - apply or_comm in HL. destruct (talking_step U b a _ _ _ HL Hm Hs1 Hs2 Hf1 Hf2 Hne)
      as (w & b1 & a1 & He & Hd & HL1).
    cbn [fst snd]. rewrite He, Hd. f_equal. apply or_comm in HL1. by eapply IH.
Qed.
End conversation.
