(* ===== verification/PqxdhFacts.v ===== *)
(** * The handshake: prekey signatures, agreement, and the conversation it starts *)

From S2P Require Import Prelude Hashing Base64 PyVal Sorting Json JsonFacts Crypto Wire Ratchet.
From S2P Require Import RatchetFacts Pqxdh Conversation.

Section handshake.
Context `{P : Prims} `{!PrimLaws P} `{!AeadStrict P}.
Variable oqs : option (option (list string)).
Hypothesis oqs_there : oqs <> None.

(** ** Signatures *)

Lemma verify_signed sk kind kid alg pk sig :
  len32 sk -> sign_prekey sk kind kid alg pk = Ok sig ->
  verify_prekey (ed_pub sk) kind kid alg pk sig = Ok tt.
Proof.
  intros Hsk H. unfold sign_prekey in H. rewrite (proj2 (len32b_spec _) Hsk) in H.
  apply res_bind_ok in H as (msg & Hmsg & H). apply Ok_inj in H as <-.
  unfold verify_prekey. rewrite (proj2 (len32b_spec _) (ed_pub_len _ Hsk)), Hmsg. cbn [res_bind].
  by rewrite ed_verify_sign.
Qed.

Lemma sign_prekey_ok sk kind kid alg pk :
  len32 sk -> string_all is_ascii alg = true -> exists sig, sign_prekey sk kind kid alg pk = Ok sig.
Proof.
  intros Hsk Ha. unfold sign_prekey, sig_msg. rewrite (proj2 (len32b_spec _) Hsk), Ha.
  cbn [res_bind]. by eexists.
Qed.

(** ** The keys of a bundle and of the store behind it *)

(** A one-time secret in the store, under its id. *)
Definition stored_otk (local : dict) (k : string) (id : Z) (sk : bytes) : Prop :=
  exists d e, dlookup k local = Some (PDict d) /\ dlookup (dec id) d = Some (PDict e) /\
    e <> [] /\ b64_item "sk" e = Ok sk.

(** [bundle] offers the public halves of secrets in [local]. *)
Record offered (bundle local : dict) (identity_pk : bytes) (c_id p_id : Z) (csk osk pqsk : bytes)
    (alg : string) : Prop := {
  o_verified : verify_bundle bundle = Ok tt;
  o_identity : b64_item "identity_pk" bundle = Ok identity_pk;
  o_identity_local : b64_item "identity_pk" local = Ok identity_pk;
  o_alg : string_all is_ascii alg = true;
  o_curve : len32 csk /\ b64_item "curve_spk" bundle = Ok (x_pub csk) /\
            sub_b64 "curve_signed" "sk" local = Ok csk;
  o_spk_ids : exists i j, int_item "curve_spk_id" bundle = Ok i /\ int_item "pq_spk_id" bundle = Ok j;
  o_c_id : id_or_minus1 "curve_otk_id" bundle = Ok c_id;
  o_otk : 0 < c_id -> len32 osk /\ b64_item "curve_otk" bundle = Ok (x_pub osk) /\
          stored_otk local "curve_one_time" c_id osk;
  o_p_id : id_or_minus1 "pq_otk_id" bundle = Ok p_id;
  o_pq : exists seed, snd (kem_pair alg seed) = pqsk /\
         bundle_kem bundle = Ok (PStr alg, fst (kem_pair alg seed));
  o_pq_local : if 0 <? p_id then stored_otk local "pq_one_time" p_id pqsk
               else sub_b64 "pq_signed" "sk" local = Ok pqsk
}.

(** The initiator's own signed prekey. *)
Definition own_prekey (mine : dict) (sk : bytes) (kid : Z) : Prop :=
  len32 sk /\ sub_b64 "curve_signed" "pk" mine = Ok (x_pub sk) /\
  sub_b64 "curve_signed" "sk" mine = Ok sk /\ sub_item "curve_signed" "key_id" mine = Ok (PInt kid).

(** ** Popping one-time prekeys *)

Lemma pop_stored k id sk local :
  stored_otk local k id sk ->
  exists d e, dlookup k local = Some (PDict d) /\
    pop_one_time k (dec id) local = (dset k (PDict (ddel (dec id) d)) local, Ok (Some (PDict e))) /\
    truthy (PDict e) = true /\ b64_item "sk" e = Ok sk.
Proof.
  intros (d & e & Hd & He & Hne & Hsk). exists d, e. split; [done|].
  unfold pop_one_time. rewrite Hd, He. split; [done|]. split; [by destruct e|done].
Qed.

Lemma sub_b64_dset k k' k2 v d : k <> k2 -> sub_b64 k k' (dset k2 v d) = sub_b64 k k' d.
Proof. intros H. unfold sub_b64, sub_item, ditem. by rewrite dlookup_dset_ne. Qed.

Lemma b64_item_dset k k2 v d : k <> k2 -> b64_item k (dset k2 v d) = b64_item k d.
Proof. intros H. unfold b64_item, ditem. by rewrite dlookup_dset_ne. Qed.

Lemma stored_otk_dset local k id sk k2 v :
  k <> k2 -> stored_otk local k id sk -> stored_otk (dset k2 v local) k id sk.
Proof.
  intros H (d & e & Hd & Hrest). exists d, e. by rewrite dlookup_dset_ne.
Qed.

(** ** Agreement *)

Lemma init_payload_ok sid conv my peer idpk kid cpk sig eph spk otk pspk potk alg ct dr ver :
  utf8_valid sid = true -> string_all is_ascii alg = true ->
  py_ok (PDict (init_payload sid conv my peer idpk kid cpk sig eph spk otk pspk potk alg ct dr ver)).
Proof.
  intros Hs Ha. assert (Hb : forall x, utf8_valid (b64e x) = true)
    by (intros; apply utf8_valid_ascii, b64e_ascii).
  apply utf8_valid_ascii in Ha. unfold init_payload.
  destruct ver; cbn [app]; py_ok_fields.
Qed.

(** The optional third exchange: both sides compute it, or neither. *)
Lemma third_exchange c_id osk eph (otk : bytes) :
  len32 eph -> (0 < c_id -> len32 osk) -> otk = (if 0 <? c_id then x_pub osk else "") ->
  exists z, (if nonempty otk then x25519_dh eph otk else Ok "") = Ok z /\
    (if nonempty (if 0 <? c_id then osk else "")
     then x25519_dh (if 0 <? c_id then osk else "") (x_pub eph) else Ok "") = Ok z.
Proof.
  intros He Ho ->. destruct (Z.ltb_spec 0 c_id) as [Hlt|].
  - specialize (Ho Hlt). rewrite !len32_nonemptyb by (done || by apply x_pub_len).
    by apply dh_agree.
  - by exists "".
Qed.

Definition root_secret (z1 z2 z3 ss : bytes) : bytes :=
  hkdf (z1 +:+ z2 +:+ z3 +:+ ss) "SecChat-PQXDH" None 32.

(** The two states after the first message. *)
Definition initiator_state (dr root : bytes) (sid : string) (conv my peer : Z) (ver : option Z) :
    DoubleRatchet :=
  let st := set_context conv my peer ver (new dr "" root true "" sid) in
  with_send (snd (kdf_ck (ck_send st))) (n_send st + 1) st.

Definition responder_state (dr sid_seed root dr_pub : bytes) (sid : string) (conv my peer : Z)
    (ver : option Z) : DoubleRatchet :=
  let st := set_context conv my peer ver (new dr sid_seed root false dr_pub sid) in
  with_recv (snd (kdf_ck (ck_recv st))) (n_recv st + 1) (skipped st) st.

Lemma states_led dr dr' sid_seed root sid conv my peer ver ver' :
  len32 dr -> sid <> "" -> utf8_valid sid = true ->
  led [x_pub dr; x_pub dr'] (initiator_state dr root sid conv my peer ver)
    (responder_state dr' sid_seed root (x_pub dr) sid conv peer my ver').
Proof.
  intros Hdr Hsid Hu.
  assert (Hne : nonempty sid = true) by (by destruct sid).
  assert (Hor : forall z, (if z =? 0 then 0 else z) = z)
    by (intros z; destruct (Z.eqb_spec z 0); congruence).
  split; cbn; rewrite ?Hne, ?Hor.
  - unfold partners, addressed. cbn. rewrite Hne, !Hor. by repeat split; auto.
  - done.
  - by split.
  - unfold len32, hkdf. apply hkdf_len.
  - done.
  - done.
  - done.
  - left. cbn. by rewrite len32_nonemptyb by (by apply x_pub_len).
  - split; cbn; set_solver.
  - split; [by left|]. split; [by right; left|done].
Qed.

Variables (bundle local mine : dict) (identity_pk identity_sk peer_identity : bytes)
  (c_id p_id kid : Z) (csk osk pqsk mysk : bytes) (alg : string).
Hypothesis bundle_offered : offered bundle local peer_identity c_id p_id csk osk pqsk alg.
Hypothesis mine_ok : own_prekey mine mysk kid.
Hypothesis identity_ok : len32 identity_sk /\ identity_pk = ed_pub identity_sk.
Variables (r : init_draws) (my peer conv : Z) (ver : option Z) (body : string).
Hypothesis draws_ok : len32 (i_eph r) /\ i_sid r <> "" /\ len32 (i_dr r) /\ nonce_ok (i_nonce r).
Hypothesis body_ok : utf8_valid body = true.

Definition otk_pub : bytes := if 0 <? c_id then x_pub osk else "".

Lemma curve_otk_item :
  (if 0 <? c_id then b64_item "curve_otk" bundle else Ok "") = Ok otk_pub.
Proof.
  unfold otk_pub. destruct (Z.ltb_spec 0 c_id) as [H|]; [|done].
  by destruct (o_otk _ _ _ _ _ _ _ _ _ bundle_offered H) as (_ & ? & _).
Qed.

Definition sid : string := b64e (i_sid r).

Lemma sid_ok : sid <> "" /\ utf8_valid sid = true.
Proof.
  split; [|by apply utf8_valid_ascii, b64e_ascii].
  unfold sid. intros E. apply (proj1 (b64e_empty _)) in E. by apply draws_ok in E.
Qed.

(** What the initiator computes. *)
Lemma initiate_runs z1 z2 z3 ct ss sig spk pspk :
  kem_encap alg (match bundle_kem bundle with Ok (_, k) => k | Err _ => "" end) (i_kem r) =
    Some (ct, ss) ->
  x25519_dh mysk (x_pub csk) = Ok z1 -> x25519_dh (i_eph r) (x_pub csk) = Ok z2 ->
  (if nonempty otk_pub then x25519_dh (i_eph r) otk_pub else Ok "") = Ok z3 ->
  sign_prekey identity_sk "curve-signed" kid "X25519" (x_pub mysk) = Ok sig ->
  int_item "curve_spk_id" bundle = Ok spk -> int_item "pq_spk_id" bundle = Ok pspk ->
  let st := initiator_state (i_dr r) (root_secret z1 z2 z3 ss) sid conv my peer ver in
  let payload := init_payload sid conv my peer identity_pk kid (x_pub mysk) sig (x_pub (i_eph r))
                   spk c_id pspk p_id alg ct (x_pub (i_dr r)) ver in
  let st0 := new (i_dr r) "" (root_secret z1 z2 z3 ss) true "" sid in
  pqxdh_initiate oqs r bundle mine identity_pk identity_sk my peer body ver conv =
  Ok (PREFIX_PQ_INIT +:+ b64e (json_dumps false false (PDict (payload ++
        [("ct", PStr (sealed (i_nonce r) (fst (kdf_ck (ck_send st0))) (message_obj (i_now r) body)
                        (json_dumps false true (PDict payload))))]))),
      st, safety_fingerprint identity_pk peer_identity).
Proof.
  intros Hct H1 H2 H3 Hsig Hspk Hpspk st payload st0.
  destruct mine_ok as (_ & Hmpk & Hmsk & Hkid).
  destruct (o_pq _ _ _ _ _ _ _ _ _ bundle_offered) as (seed & _ & Hkem).
  destruct (o_curve _ _ _ _ _ _ _ _ _ bundle_offered) as (_ & Hcs & _).
  rewrite Hkem in Hct.
  unfold pqxdh_initiate. rewrite (o_verified _ _ _ _ _ _ _ _ _ bundle_offered), Hkem.
  cbn [res_bind as_str]. unfold kem_encapsulate.
  destruct oqs as [o|]; [|done]. rewrite Hct. cbn [of_option res_bind x25519_keygen].
  rewrite Hmpk, Hmsk, Hcs. cbn [res_bind].
  rewrite (o_c_id _ _ _ _ _ _ _ _ _ bundle_offered). cbn [res_bind]. rewrite curve_otk_item.
  cbn [res_bind]. rewrite H1. cbn [res_bind]. rewrite H2. cbn [res_bind]. rewrite H3. cbn [res_bind].
  fold sid. fold (root_secret z1 z2 z3 ss).
  destruct (kdf_ck (ck_send (set_context conv my peer ver
    (new (i_dr r) "" (root_secret z1 z2 z3 ss) true "" sid)))) as [mk ck] eqn:Ek.
  rewrite Hkid. cbn [res_bind py_int]. rewrite Hsig. cbn [res_bind]. rewrite Hspk, Hpspk. cbn [res_bind].
  rewrite (o_p_id _ _ _ _ _ _ _ _ _ bundle_offered). cbn [res_bind].
  change (dh_pk (with_send _ _ _)) with (x_pub (i_dr r)). fold payload.
  assert (Hp : py_ok (PDict payload)).
  { apply init_payload_ok; [apply sid_ok|apply (o_alg _ _ _ _ _ _ _ _ _ bundle_offered)]. }
  rewrite canonical_ok by done. cbn [res_bind].
  change (ck_send (set_context _ _ _ _ ?s)) with (ck_send s) in Ek. fold st0 in Ek.
  assert (Hmk : mk = fst (kdf_ck (ck_send st0))) by (by rewrite Ek).
  rewrite aead_encrypt_ok; [|by apply py_ok_message|by rewrite Hmk; apply kdf_ck_mk].
  cbn [res_bind]. rewrite json_b64_ok.
  2: { apply py_ok_dict in Hp as [Hd Hf]. apply py_ok_dict. split.
       - unfold payload, init_payload. destruct ver; cbn [app]; dict_keys.
       - apply Forall_app. split; [done|]. constructor; [|constructor]. split; [done|].
         by apply utf8_valid_ascii, b64e_ascii. }
  cbn [res_bind]. rewrite (o_identity _ _ _ _ _ _ _ _ _ bundle_offered). cbn [res_bind].
  unfold st, initiator_state. change (ck_send (set_context _ _ _ _ ?s)) with (ck_send s).
  fold st0. rewrite Ek. by rewrite Hmk.
Qed.

(** The message object of the handshake. *)
Definition init_obj (z1 z2 z3 ss sig ct : bytes) (spk pspk : Z) : dict :=
  let payload := init_payload sid conv my peer identity_pk kid (x_pub mysk) sig (x_pub (i_eph r))
                   spk c_id pspk p_id alg ct (x_pub (i_dr r)) ver in
  let st0 := new (i_dr r) "" (root_secret z1 z2 z3 ss) true "" sid in
  payload ++ [("ct", PStr (sealed (i_nonce r) (fst (kdf_ck (ck_send st0)))
                             (message_obj (i_now r) body) (json_dumps false true (PDict payload))))].

Lemma init_obj_field z1 z2 z3 ss sig ct spk pspk k v :
  In (k, v) [("sid", PStr sid); ("conversation_id", PInt conv); ("sender_uid", PInt my);
    ("recipient_uid", PInt peer); ("identity_pk", PStr (b64e identity_pk));
    ("sender_curve_spk_id", PInt kid); ("sender_curve_spk", PStr (b64e (x_pub mysk)));
    ("sender_curve_spk_sig", PStr (b64e sig)); ("eph_curve_pk", PStr (b64e (x_pub (i_eph r))));
    ("curve_otk_id", PInt c_id); ("pq_otk_id", PInt p_id); ("pq_kem_alg", PStr alg);
    ("pq_ct", PStr (b64e ct)); ("dr_pub", PStr (b64e (x_pub (i_dr r))))] ->
  dlookup k (init_obj z1 z2 z3 ss sig ct spk pspk) = Some v.
Proof.
  intros Hin. cbn [In] in Hin.
  repeat (destruct Hin as [[= <- <-]|Hin]; [reflexivity|]). done.
Qed.

Lemma init_obj_otk_fields z1 z2 z3 ss sig ct spk pspk :
  let obj := init_obj z1 z2 z3 ss sig ct spk pspk in
  dget "sender_identity_version" PNone obj = match ver with Some v => PInt v | None => PNone end /\
  ddel "ct" obj = init_payload sid conv my peer identity_pk kid (x_pub mysk) sig (x_pub (i_eph r))
                    spk c_id pspk p_id alg ct (x_pub (i_dr r)) ver.
Proof. unfold init_obj, init_payload. by destruct ver. Qed.

Lemma init_obj_py_ok z1 z2 z3 ss sig ct spk pspk :
  py_ok (PDict (init_obj z1 z2 z3 ss sig ct spk pspk)).
Proof.
  assert (Hp : py_ok (PDict (init_payload sid conv my peer identity_pk kid (x_pub mysk) sig
                 (x_pub (i_eph r)) spk c_id pspk p_id alg ct (x_pub (i_dr r)) ver)))
    by (apply init_payload_ok; [apply sid_ok|apply (o_alg _ _ _ _ _ _ _ _ _ bundle_offered)]).
  unfold init_obj. apply py_ok_dict in Hp as [_ Hf]. apply py_ok_dict. split.
  - unfold init_payload. destruct ver; cbn [app]; dict_keys.
  - apply Forall_app. split; [done|]. constructor; [|constructor]. split; [done|].
    apply utf8_valid_ascii, b64e_ascii.
Qed.

(** The responder's identity check passes. *)
Lemma respond_sender_ok z1 z2 z3 ss sig ct spk pspk :
  sign_prekey identity_sk "curve-signed" kid "X25519" (x_pub mysk) = Ok sig ->
  respond_sender (init_obj z1 z2 z3 ss sig ct spk pspk) (Some peer) =
    Ok (my, identity_pk, x_pub mysk).
Proof.
  intros Hsig. destruct identity_ok as [Hlen Hid].
  pose proof (init_obj_field z1 z2 z3 ss sig ct spk pspk) as Hf.
  set (obj := init_obj z1 z2 z3 ss sig ct spk pspk) in *.
  unfold respond_sender, int_item, b64_item, ditem.
  rewrite (Hf "sender_uid" (PInt my)), (Hf "recipient_uid" (PInt peer)),
    (Hf "identity_pk" (PStr (b64e identity_pk))), (Hf "sender_curve_spk" (PStr (b64e (x_pub mysk)))),
    (Hf "sender_curve_spk_id" (PInt kid)), (Hf "sender_curve_spk_sig" (PStr (b64e sig)))
    by (cbn [In]; tauto).
  cbn [of_option res_bind py_int b64d_v]. rewrite Z.eqb_refl, !b64d_b64e. cbn [res_bind].
  rewrite Hid. by rewrite (verify_signed identity_sk) by done.
Qed.

(** The store after the one-time prekeys were popped. *)
Definition popped_curve : dict :=
  if 0 <? c_id then fst (pop_one_time "curve_one_time" (dec c_id) local) else local.
Definition popped : dict :=
  if 0 <? p_id then fst (pop_one_time "pq_one_time" (dec p_id) popped_curve) else popped_curve.

Lemma pop_curve_step :
  exists hit, (if 0 <? c_id then pop_one_time "curve_one_time" (dec c_id) else st_ret None) local =
    (popped_curve, Ok hit) /\ hit_sk hit = Ok (if 0 <? c_id then osk else "") /\
    (forall k k', k <> "curve_one_time" -> sub_b64 k k' popped_curve = sub_b64 k k' local) /\
    (forall k, k <> "curve_one_time" -> b64_item k popped_curve = b64_item k local) /\
    (forall k id sk, k <> "curve_one_time" -> stored_otk local k id sk -> stored_otk popped_curve k id sk).
Proof.
  unfold popped_curve. destruct (Z.ltb_spec 0 c_id) as [H|H]; [|by exists None].
  destruct (o_otk _ _ _ _ _ _ _ _ _ bundle_offered H) as (_ & _ & Hs).
  destruct (pop_stored _ _ _ _ Hs) as (d & e & _ & Hp & Ht & Hsk). rewrite Hp.
  exists (Some (PDict e)). split; [done|]. split; [unfold hit_sk; by rewrite Ht|].
  cbn [fst]. split; [intros; by apply sub_b64_dset|]. split; [intros; by apply b64_item_dset|].
  intros. by apply stored_otk_dset.
Qed.

Lemma pop_pq_step :
  exists hit, (if 0 <? p_id then pop_one_time "pq_one_time" (dec p_id) else st_ret None) popped_curve =
    (popped, Ok hit) /\ pq_secret hit popped = Ok pqsk /\
    b64_item "identity_pk" popped = Ok peer_identity.
Proof.
  destruct pop_curve_step as (_ & _ & _ & Hsub & Hitem & Hst).
  pose proof (o_pq_local _ _ _ _ _ _ _ _ _ bundle_offered) as Hpq.
  pose proof (o_identity_local _ _ _ _ _ _ _ _ _ bundle_offered) as Hid.
  unfold popped. destruct (Z.ltb_spec 0 p_id) as [H|H].
  - destruct (pop_stored _ _ _ _ (Hst "pq_one_time" p_id pqsk ltac:(done) Hpq))
      as (d & e & _ & Hp & Ht & Hsk).
    rewrite Hp. exists (Some (PDict e)). split; [done|]. split; [unfold pq_secret; by rewrite Ht|].
    cbn [fst]. rewrite b64_item_dset by done. by rewrite Hitem.
  - exists None. split; [done|]. cbn [pq_secret]. rewrite Hsub, Hitem by done. done.
Qed.

(** What the responder computes on that message. *)
Lemma respond_runs z1 z2 z3 ct ss sig spk pspk dr sid_seed :
  kem_decap alg pqsk ct = Some ss ->
  x25519_dh csk (x_pub mysk) = Ok z1 -> x25519_dh csk (x_pub (i_eph r)) = Ok z2 ->
  (if nonempty (if 0 <? c_id then osk else "")
   then x25519_dh (if 0 <? c_id then osk else "") (x_pub (i_eph r)) else Ok "") = Ok z3 ->
  sign_prekey identity_sk "curve-signed" kid "X25519" (x_pub mysk) = Ok sig ->
  py_ok (PDict (init_obj z1 z2 z3 ss sig ct spk pspk)) ->
  pqxdh_respond oqs dr sid_seed
    (PREFIX_PQ_INIT +:+ b64e (json_dumps false false (PDict (init_obj z1 z2 z3 ss sig ct spk pspk))))
    (Some peer) local =
  (popped, Ok (body, responder_state dr sid_seed (root_secret z1 z2 z3 ss) (x_pub (i_dr r)) sid
                       conv peer my ver,
               safety_fingerprint peer_identity identity_pk, my)).
Proof.
  intros Hss H1 H2 H3 Hsig Hok.
  pose proof (init_obj_field z1 z2 z3 ss sig ct spk pspk) as Hf.
  destruct (init_obj_otk_fields z1 z2 z3 ss sig ct spk pspk) as [Hver Hdel].
  pose proof (respond_sender_ok z1 z2 z3 ss sig ct spk pspk Hsig) as Hsender.
  assert (Hopen : open_body (fst (kdf_ck (ck_send (new (i_dr r) "" (root_secret z1 z2 z3 ss) true "" sid))))
            (init_obj z1 z2 z3 ss sig ct spk pspk)
            (json_dumps false true (PDict (ddel "ct" (init_obj z1 z2 z3 ss sig ct spk pspk)))) = Ok body).
  { rewrite Hdel. unfold open_body, ditem.
    replace (dlookup "ct" _) with (Some (PStr (sealed (i_nonce r)
      (fst (kdf_ck (ck_send (new (i_dr r) "" (root_secret z1 z2 z3 ss) true "" sid))))
      (message_obj (i_now r) body) (json_dumps false true (PDict (init_payload sid conv my peer
        identity_pk kid (x_pub mysk) sig (x_pub (i_eph r)) spk c_id pspk p_id alg ct (x_pub (i_dr r)) ver))))))
      by (unfold init_obj, init_payload; by destruct ver).
    cbn [of_option res_bind]. rewrite aead_decrypt_sealed; [done|apply draws_ok|by apply py_ok_message|].
    apply kdf_ck_mk. }
  assert (Hpay : py_ok (PDict (ddel "ct" (init_obj z1 z2 z3 ss sig ct spk pspk)))).
  { rewrite Hdel. apply init_payload_ok; [apply sid_ok|apply (o_alg _ _ _ _ _ _ _ _ _ bundle_offered)]. }
  set (obj := init_obj z1 z2 z3 ss sig ct spk pspk) in *.
  unfold pqxdh_respond. rewrite strip_prefix_app, json_unb64_ok by done.
  rewrite !st_bind_lift. cbn [as_dict]. rewrite st_bind_lift, Hsender.
  unfold id_or_minus1, dget.
  rewrite (Hf "curve_otk_id" (PInt c_id)), (Hf "pq_otk_id" (PInt p_id)) by (cbn [In]; tauto).
  cbn [py_int]. rewrite !st_bind_lift. unfold st_bind at 1, st_get at 1. rewrite st_bind_lift.
  destruct (o_curve _ _ _ _ _ _ _ _ _ bundle_offered) as (_ & _ & Hcsk). rewrite Hcsk.
  destruct pop_curve_step as (hit & Hpop & Hhit & _). unfold st_bind at 1. rewrite Hpop.
  rewrite st_bind_lift, Hhit, st_bind_lift. unfold ditem at 1.
  rewrite (Hf "pq_kem_alg" (PStr alg)) by (cbn [In]; tauto). cbn [of_option].
  destruct pop_pq_step as (phit & Hpop2 & Hpq & Hid). unfold st_bind at 1. rewrite Hpop2.
  unfold st_bind at 1, st_get at 1. rewrite st_bind_lift, Hpq. unfold st_lift.
  unfold b64_item, ditem at 1 2 3.
  rewrite (Hf "eph_curve_pk" (PStr (b64e (x_pub (i_eph r))))), (Hf "pq_ct" (PStr (b64e ct))),
    (Hf "dr_pub" (PStr (b64e (x_pub (i_dr r))))) by (cbn [In]; tauto).
  cbn [of_option res_bind b64d_v]. rewrite !b64d_b64e. cbn [res_bind]. rewrite H1. cbn [res_bind].
  rewrite H2. cbn [res_bind]. rewrite H3. cbn [res_bind as_str].
  unfold kem_decapsulate. destruct oqs as [o|]; [|done]. rewrite Hss. cbn [of_option res_bind].
  rewrite (get_int0_field "conversation_id" obj conv), (get_int0_field "recipient_uid" obj peer)
    by (apply Hf; cbn [In]; tauto).
  cbn [res_bind]. unfold dget in Hver. rewrite Hver.
  assert (opt_version match ver with Some v => PInt v | None => PNone end = Ok ver) as ->
    by (by destruct ver).
  cbn [res_bind]. fold (root_secret z1 z2 z3 ss).
  assert (get_str0 "sid" obj = sid) as ->.
  { unfold get_str0, dget. rewrite (Hf "sid" (PStr sid)) by (cbn [In]; tauto).
    unfold py_or. cbn [truthy]. by destruct sid. }
  change (ck_recv (set_context _ _ _ _ (new dr sid_seed (root_secret z1 z2 z3 ss) false ?p sid)))
    with (ck_send (new (i_dr r) "" (root_secret z1 z2 z3 ss) true "" sid)).
  unfold responder_state.
  change (ck_recv (set_context _ _ _ _ (new dr sid_seed (root_secret z1 z2 z3 ss) false ?p sid)))
    with (ck_send (new (i_dr r) "" (root_secret z1 z2 z3 ss) true "" sid)).
  destruct (kdf_ck (ck_send (new (i_dr r) "" (root_secret z1 z2 z3 ss) true "" sid))) as [mk ck].
  cbn [fst snd] in *. rewrite canonical_ok by done. cbn [res_bind]. rewrite Hopen. cbn [res_bind].
  unfold b64_item, ditem in *. by rewrite Hid.
Qed.
End handshake.

(** ** Safety numbers *)

Lemma safety_sorted_sym a b :
  (if str_ltb b a then (b, a) else (a, b)) = (if str_ltb a b then (a, b) else (b, a)).
Proof.
  destruct (str_ltb_cases a b) as [H|[->|H]].
  - rewrite H. destruct (str_ltb b a) eqn:E; [|done].
    pose proof (str_ltb_trans a b a H E) as Hc. by rewrite str_ltb_irrefl in Hc.
  - by rewrite str_ltb_irrefl.
  - rewrite H. destruct (str_ltb a b) eqn:E; [|done].
    pose proof (str_ltb_trans a b a E H) as Hc. by rewrite str_ltb_irrefl in Hc.
Qed.

Lemma safety_fingerprint_sym a b : safety_fingerprint a b = safety_fingerprint b a.
Proof. unfold safety_fingerprint. by rewrite safety_sorted_sym. Qed.

(** The groups of the displayed text determine the digits. *)
Lemma join_groups4_inj n h h' :
  (4 * n <= String.length h)%nat -> (4 * n <= String.length h')%nat ->
  join " " (groups4 n h) = join " " (groups4 n h') -> stake (4 * n) h = stake (4 * n) h'.
Proof.
  revert h h'. induction n as [|n IH]; intros h h' Hl Hl' H; [done|].
  do 4 (destruct h as [|? h]; [simpl in Hl; lia|]; destruct h' as [|? h']; [simpl in Hl'; lia|]).
  replace (4 * S n)%nat with (S (S (S (S (4 * n))))) by lia. cbn [stake]. simpl in Hl, Hl'.
  destruct n as [|n].
  - cbn in H. injection H as -> -> -> ->. destruct h, h'; reflexivity.
  - cbn [groups4 join stake sdrop] in H. injection H as -> -> -> -> H.
    do 4 f_equal. apply IH; [lia|lia|exact H].
Qed.
