(* ===== verification/Bundle.v ===== *)
(** * Prekey bundles: what the generator uploads, what the server hands out

    [generate_local_bundle] and the bundle the server assembles from the upload
    (server/services/keys.c) offer the keys the responder later looks up: the
    premise of the handshake theorem holds for every generated bundle. *)

From S2P Require Import Prelude Hashing Base64 PyVal Sorting Json JsonFacts Crypto Wire Ratchet.
From S2P Require Import RatchetFacts Pqxdh Conversation PqxdhFacts.

(** The reply of [handle_get_pqxdh_bundle] (server/services/keys.c): the stored
    upload and the one-time prekeys taken from the two pools, -1 and empty text
    without one. *)
Definition entry (upload : dict) (k : string) (o : option nat) : dict :=
  match o, dget k (PList []) upload with
  | Some i, PList l => match l !! i with Some (PDict d) => d | _ => [] end
  | _, _ => []
  end.

Definition served_bundle (upload : dict) (oc op : option nat) : dict :=
  let f k := dget k (PStr "") upload in
  let c := entry upload "curve_one_time_prekeys" oc in
  let q := entry upload "pq_one_time_prekeys" op in
  [("type", PStr "pqxdh_bundle"); ("identity_pk", f "identity_pk");
   ("curve_spk_id", f "curve_spk_id"); ("curve_spk", f "curve_spk");
   ("curve_spk_sig", f "curve_spk_sig"); ("pq_spk_id", f "pq_spk_id");
   ("pq_kem_alg", f "pq_kem_alg"); ("pq_spk", f "pq_spk"); ("pq_spk_sig", f "pq_spk_sig");
   ("curve_otk_id", dget "key_id" (PInt (-1)) c); ("curve_otk", dget "public_key" (PStr "") c);
   ("curve_otk_sig", dget "signature" (PStr "") c);
   ("pq_otk_id", dget "key_id" (PInt (-1)) q); ("pq_otk_alg", dget "alg" (PStr "") q);
   ("pq_otk", dget "public_key" (PStr "") q); ("pq_otk_sig", dget "signature" (PStr "") q)].

Section bundle.
Context `{P : Prims} `{!PrimLaws P}.
Variable oqs : option (option (list string)).

(** ** The one-time loop *)

Definition curve_local_entry (sd : bytes * bytes) : dict :=
  [("pk", PStr (b64e (x_pub (fst sd)))); ("sk", PStr (b64e (fst sd)))].
Definition curve_up_entry (kid : Z) (sd : bytes * bytes) (sig : bytes) : dict :=
  [("key_id", PInt kid); ("public_key", PStr (b64e (x_pub (fst sd)))); ("signature", PStr (b64e sig))].
Definition pq_local_entry (alg : string) (sd : bytes * bytes) : dict :=
  [("alg", PStr alg); ("pk", PStr (b64e (fst (kem_pair alg (snd sd)))));
   ("sk", PStr (b64e (snd (kem_pair alg (snd sd)))))].
Definition pq_up_entry (kid : Z) (alg : string) (sd : bytes * bytes) (sig : bytes) : dict :=
  [("key_id", PInt kid); ("alg", PStr alg); ("public_key", PStr (b64e (fst (kem_pair alg (snd sd)))));
   ("signature", PStr (b64e sig))].

Lemma one_time_pair_inv isk alg kid sd cl cu ql qu :
  one_time_pair oqs isk alg kid sd = Ok (cl, cu, ql, qu) ->
  exists csig qsig,
    sign_prekey isk "curve-otk" kid "X25519" (x_pub (fst sd)) = Ok csig /\
    sign_prekey isk "pq-otk" kid alg (fst (kem_pair alg (snd sd))) = Ok qsig /\
    cl = curve_local_entry sd /\ cu = curve_up_entry kid sd csig /\
    ql = pq_local_entry alg sd /\ qu = pq_up_entry kid alg sd qsig.
Proof.
  unfold one_time_pair. cbn [x25519_keygen]. intros H.
  apply res_bind_ok in H as (csig & Hc & H). apply res_bind_ok in H as ((qpk & qsk) & Hk & H).
  unfold kem_keygen in Hk. destruct oqs as [o|]; [|done]. apply Ok_inj in Hk.
  apply res_bind_ok in H as (qsig & Hq & H). injection H as <- <- <- <-.
  exists csig, qsig. unfold pq_local_entry, pq_up_entry. by rewrite Hk.
Qed.

Record loop_entry (isk : bytes) (alg : string) (kid : Z) (sd : bytes * bytes)
    (cl ql : dict) (cu qu : option pyval) : Prop := {
  le_curve : exists sig, sign_prekey isk "curve-otk" kid "X25519" (x_pub (fst sd)) = Ok sig /\
    dlookup (dec kid) cl = Some (PDict (curve_local_entry sd)) /\
    cu = Some (PDict (curve_up_entry kid sd sig));
  le_pq : exists sig, sign_prekey isk "pq-otk" kid alg (fst (kem_pair alg (snd sd))) = Ok sig /\
    dlookup (dec kid) ql = Some (PDict (pq_local_entry alg sd)) /\
    qu = Some (PDict (pq_up_entry kid alg sd sig))
}.

Lemma one_time_loop_spec isk alg seeds kid cl cu ql qu cl' cu' ql' qu' :
  one_time_loop oqs isk alg kid seeds (cl, cu, ql, qu) = Ok (cl', cu', ql', qu') ->
  (forall i sd, seeds !! i = Some sd ->
     loop_entry isk alg (kid + Z.of_nat i) sd cl' ql' (cu' !! (length cu + i)%nat)
       (qu' !! (length qu + i)%nat)) /\
  (forall z, z < kid -> dlookup (dec z) cl' = dlookup (dec z) cl /\
                        dlookup (dec z) ql' = dlookup (dec z) ql) /\
  (exists cu2 qu2, cu' = cu ++ cu2 /\ qu' = qu ++ qu2).
Proof.
  revert kid cl cu ql qu. induction seeds as [|sd seeds IH]; intros kid cl cu ql qu H.
  - injection H as <- <- <- <-. split; [done|]. split; [done|].
    exists [], []. by rewrite !app_nil_r.
  - cbn [one_time_loop] in H. apply res_bind_ok in H as ([[[c1 c2] c3] c4] & Hp & H).
    apply one_time_pair_inv in Hp as (csig & qsig & Hcs & Hqs & -> & -> & -> & ->).
    destruct (IH _ _ _ _ _ H) as (He & Hz & (cu2 & qu2 & Hcu & Hqu)).
    split; [|split].
    + intros [|i] sd' Hi.
      * injection Hi as <-. rewrite Z.add_0_r, !Nat.add_0_r.
        destruct (Hz kid ltac:(lia)) as [Hz1 Hz2]. rewrite !dlookup_dset_eq in *.
        rewrite Hcu, Hqu, <- !app_assoc. cbn [app]. rewrite !list_lookup_middle by done.
        split; [by exists csig|by exists qsig].
      * specialize (He i sd' Hi). rewrite !length_app in He. cbn [length] in He.
        replace (kid + Z.of_nat (S i)) with (kid + 1 + Z.of_nat i) by lia.
        replace (length cu + S i)%nat with (length cu + 1 + i)%nat by lia.
        by replace (length qu + S i)%nat with (length qu + 1 + i)%nat by lia.
    + intros z Hlt. destruct (Hz z ltac:(lia)) as [-> ->].
      by rewrite !dlookup_dset_ne by (intros E; apply dec_inj in E; lia).
    + exists (PDict (curve_up_entry kid sd csig) :: cu2), (PDict (pq_up_entry kid alg sd qsig) :: qu2).
      by rewrite Hcu, Hqu, <- !app_assoc.
Qed.

(** ** The generated bundle *)

Definition otk_of (o : option nat) (seeds : list (bytes * bytes)) : option (nat * (bytes * bytes)) :=
  match o with
  | Some i => match seeds !! i with Some sd => Some (i, sd) | None => None end
  | None => None
  end.

Definition otk_id (base : Z) (o : option (nat * (bytes * bytes))) : Z :=
  match o with Some (i, _) => base + 1 + Z.of_nat i | None => -1 end.

Lemma new_key_id_nonneg now : 0 <= new_key_id now.
Proof. apply Z.land_nonneg. by right. Qed.

(** Prekeys signed by the identity pass [verify_bundle] as served. *)
Lemma verify_one_time_signed isk kind id_k k sig_k bundle alg algv kid pk sig :
  len32 isk -> sign_prekey isk kind kid alg pk = Ok sig ->
  dlookup id_k bundle = Some (PInt kid) -> dlookup k bundle = Some (PStr (b64e pk)) ->
  dlookup sig_k bundle = Some (PStr (b64e sig)) -> algv = Ok (PStr alg) ->
  verify_one_time (ed_pub isk) bundle kind id_k k sig_k algv = Ok tt.
Proof.
  intros Hl Hs H1 H2 H3 ->. unfold verify_one_time, id_or_minus1, int_item, b64_item, ditem, dget.
  rewrite H1, H2, H3. cbn [of_option py_int res_bind b64d_v].
  destruct (_ && _); [|done]. rewrite !b64d_b64e. cbn [res_bind as_str].
  by apply verify_signed.
Qed.

Lemma verify_one_time_none idpk kind id_k k sig_k bundle algv :
  dlookup id_k bundle = Some (PInt (-1)) -> verify_one_time idpk bundle kind id_k k sig_k algv = Ok tt.
Proof. intros H. unfold verify_one_time, id_or_minus1, dget. by rewrite H. Qed.

Lemma find_mem {A} (f : A -> bool) l x : List.find f l = Some x -> In x l.
Proof. intros H. by apply find_some in H as [H _]. Qed.

Lemma select_kem_allowed preferred alg : select_kem oqs preferred = Ok alg -> In alg ALLOWED_KEMS.
Proof.
  unfold select_kem. intros H.
  assert (Hrest : forall b : bool, (if b then Ok DEFAULT_KEM else of_option (List.find
            (fun name => (match available_kems oqs with [] => true | _ => false end) ||
                         mem name (available_kems oqs)) ALLOWED_KEMS)
            (RuntimeError "No supported ML-KEM/Kyber mechanism is enabled")) = Ok alg ->
            In alg ALLOWED_KEMS).
  { intros [|]; [intros [= <-]; by left|]. destruct (List.find _ _) eqn:E; [|done].
    intros [= <-]. by apply find_mem in E. }
  destruct preferred as [p|]; [|by apply Hrest in H].
  destruct (nonempty p && mem p ALLOWED_KEMS && _) eqn:E; [|by apply Hrest in H].
  injection H as <-. bool_hyps. unfold mem in H1.
  apply existsb_exists in H1 as (x & Hx & Heq). by apply String.eqb_eq in Heq as ->.
Qed.

Lemma allowed_ascii alg : In alg ALLOWED_KEMS -> string_all is_ascii alg = true.
Proof. intros H. repeat (destruct H as [<-|H]; [done|]). done. Qed.

Lemma truthy_b64 x : x <> "" -> truthy (PStr (b64e x)) = true.
Proof.
  intros H. cbn [truthy]. destruct (b64e x) eqn:E; [|done]. by apply (proj1 (b64e_empty _)) in E.
Qed.

(** The upload and the store with the one-time parts left symbolic. *)
Definition upload_of (isk : bytes) (base : Z) (alg : string) (cseed pseed csig psig : bytes)
    (cu qu : list pyval) : dict :=
  [("type", PStr "upload_pqxdh_bundle"); ("identity_pk", PStr (b64e (ed_pub isk)));
   ("curve_spk_id", PInt base); ("curve_spk", PStr (b64e (x_pub cseed)));
   ("curve_spk_sig", PStr (b64e csig)); ("pq_spk_id", PInt base); ("pq_kem_alg", PStr alg);
   ("pq_spk", PStr (b64e (fst (kem_pair alg pseed)))); ("pq_spk_sig", PStr (b64e psig));
   ("curve_one_time_prekeys", PList cu); ("pq_one_time_prekeys", PList qu)].

Definition local_of (isk : bytes) (base : Z) (alg : string) (cseed pseed : bytes) (cl ql : dict) : dict :=
  [("identity_pk", PStr (b64e (ed_pub isk)));
   ("curve_signed", PDict [("key_id", PInt base); ("pk", PStr (b64e (x_pub cseed)));
                           ("sk", PStr (b64e cseed))]);
   ("pq_signed", PDict [("key_id", PInt base); ("alg", PStr alg);
      ("pk", PStr (b64e (fst (kem_pair alg pseed)))); ("sk", PStr (b64e (snd (kem_pair alg pseed))))]);
   ("curve_one_time", PDict cl); ("pq_one_time", PDict ql)].

Lemma generate_inv now cseed pseed seeds isk kem upload local :
  generate_local_bundle oqs now cseed pseed seeds (ed_pub isk) isk kem = Ok (upload, local) ->
  exists alg csig psig cl cu ql qu,
    In alg ALLOWED_KEMS /\
    sign_prekey isk "curve-signed" (new_key_id now) "X25519" (x_pub cseed) = Ok csig /\
    sign_prekey isk "pq-signed" (new_key_id now) alg (fst (kem_pair alg pseed)) = Ok psig /\
    upload = upload_of isk (new_key_id now) alg cseed pseed csig psig cu qu /\
    local = local_of isk (new_key_id now) alg cseed pseed cl ql /\
    forall i sd, seeds !! i = Some sd ->
      loop_entry isk alg (new_key_id now + 1 + Z.of_nat i) sd cl ql (cu !! i) (qu !! i).
Proof.
  unfold generate_local_bundle. intros H.
  apply res_bind_ok in H as (alg & Halg & H). cbn [x25519_keygen] in H.
  apply res_bind_ok in H as ((pqpk & pqsk) & Hk & H).
  unfold kem_keygen in Hk. destruct oqs as [o|] eqn:Eo; [|done]. apply Ok_inj in Hk.
  apply res_bind_ok in H as (csig & Hc & H). apply res_bind_ok in H as (psig & Hp & H).
  apply res_bind_ok in H as ([[[cl cu] ql] qu] & Hl & H). injection H as <- <-.
  rewrite <- Eo in Hl, Halg. apply one_time_loop_spec in Hl as (He & _).
  exists alg, csig, psig, cl, cu, ql, qu. split; [by eapply select_kem_allowed|]. split; [done|].
  unfold upload_of, local_of. rewrite Hk. split; [done|]. split; [done|]. split; [done|].
  exact He.
Qed.

Lemma entry_some upload k i l d :
  dlookup k upload = Some (PList l) -> l !! i = Some (PDict d) -> entry upload k (Some i) = d.
Proof. intros H1 H2. unfold entry, dget. by rewrite H1, H2. Qed.

(** Every bundle served from a generated upload offers what the store holds. *)
Lemma generated_offered now cseed pseed seeds isk kem upload local oc op :
  generate_local_bundle oqs now cseed pseed seeds (ed_pub isk) isk kem = Ok (upload, local) ->
  len32 isk -> len32 cseed -> Forall (fun sd => len32 (fst sd)) seeds ->
  (forall i, oc = Some i -> (i < length seeds)%nat) -> (forall i, op = Some i -> (i < length seeds)%nat) ->
  let base := new_key_id now in
  let c := otk_of oc seeds in
  let q := otk_of op seeds in
  exists alg, offered (served_bundle upload oc op) local (ed_pub isk) (otk_id base c) (otk_id base q)
    cseed (match c with Some (_, sd) => fst sd | None => "" end)
    (match q with Some (_, sd) => snd (kem_pair alg (snd sd)) | None => snd (kem_pair alg pseed) end)
    alg.
Proof.
  intros Hgen Hisk Hcs Hseeds Hoc Hop base c q.
  destruct (generate_inv _ _ _ _ _ _ _ _ Hgen)
    as (alg & csig & psig & cl & cu & ql & qu & Halg & Hc & Hp & -> & -> & He).
  pose proof (new_key_id_nonneg now) as Hbase. exists alg. fold base in Hc, Hp, He |- *.
  set (up := upload_of isk base alg cseed pseed csig psig cu qu).
  (* the one-time entries *)
  assert (Hcd : (oc = None /\ c = None) \/ exists i sd csg, oc = Some i /\ c = Some (i, sd) /\
            len32 (fst sd) /\ sign_prekey isk "curve-otk" (base + 1 + Z.of_nat i) "X25519" (x_pub (fst sd)) = Ok csg /\
            dlookup (dec (base + 1 + Z.of_nat i)) cl = Some (PDict (curve_local_entry sd)) /\
            entry up "curve_one_time_prekeys" oc = curve_up_entry (base + 1 + Z.of_nat i) sd csg).
  { destruct oc as [i|]; [right|by left]. specialize (Hoc i eq_refl).
    destruct (lookup_lt_is_Some_2 seeds i Hoc) as [sd Hsd].
    destruct (He i sd Hsd) as [(csg & H1 & H2 & H3) _]. exists i, sd, csg.
    split; [done|]. split; [unfold c, otk_of; by rewrite Hsd|].
    split; [exact (Forall_lookup_1 _ _ _ _ Hseeds Hsd)|]. split; [done|]. split; [done|].
    by apply (entry_some _ _ _ cu). }
  assert (Hqd : (op = None /\ q = None) \/ exists i sd qsg, op = Some i /\ q = Some (i, sd) /\
            sign_prekey isk "pq-otk" (base + 1 + Z.of_nat i) alg (fst (kem_pair alg (snd sd))) = Ok qsg /\
            dlookup (dec (base + 1 + Z.of_nat i)) ql = Some (PDict (pq_local_entry alg sd)) /\
            entry up "pq_one_time_prekeys" op = pq_up_entry (base + 1 + Z.of_nat i) alg sd qsg).
  { destruct op as [i|]; [right|by left]. specialize (Hop i eq_refl).
    destruct (lookup_lt_is_Some_2 seeds i Hop) as [sd Hsd].
    destruct (He i sd Hsd) as [_ (qsg & H1 & H2 & H3)]. exists i, sd, qsg.
    split; [done|]. split; [unfold q, otk_of; by rewrite Hsd|]. split; [done|]. split; [done|].
    by apply (entry_some _ _ _ qu). }
  assert (Hb : forall k x, dlookup k (served_bundle up oc op) = Some (PStr (b64e x)) ->
            b64_item k (served_bundle up oc op) = Ok x) by (intros; by apply b64_item_get).
  split.
  - unfold verify_bundle. rewrite (Hb "identity_pk" (ed_pub isk)), (Hb "curve_spk" (x_pub cseed)),
      (Hb "curve_spk_sig" csig), (Hb "pq_spk" (fst (kem_pair alg pseed))), (Hb "pq_spk_sig" psig) by done.
    change (int_item "curve_spk_id" _) with (Ok base). change (int_item "pq_spk_id" _) with (Ok base).
    change (ditem "pq_kem_alg" _) with (@Ok pyval (PStr alg)). cbn [res_bind as_str].
    rewrite !(verify_signed isk) by done. cbn [res_bind].
    assert (verify_one_time (ed_pub isk) (served_bundle up oc op) "curve-otk" "curve_otk_id" "curve_otk"
              "curve_otk_sig" (Ok (PStr "X25519")) = Ok tt) as ->.
    { destruct Hcd as [[-> _]|(i & sd & csg & _ & _ & _ & Hs & _ & Hent)].
      - by apply verify_one_time_none.
      - unfold served_bundle. rewrite Hent.
        by apply (verify_one_time_signed isk "curve-otk" _ _ _ _ "X25519" _ _ _ _ Hisk Hs). }
    cbn [res_bind].
    destruct Hqd as [[-> _]|(i & sd & qsg & _ & _ & Hs & _ & Hent)].
    + by apply verify_one_time_none.
    + unfold served_bundle. rewrite Hent.
      by apply (verify_one_time_signed isk "pq-otk" _ _ _ _ alg _ _ _ _ Hisk Hs).
  - by apply Hb.
  - apply b64d_b64e.
  - by apply allowed_ascii.
  - split; [done|]. split; [by apply Hb|apply b64d_b64e].
  - by exists base, base.
  - destruct Hcd as [[-> ->]|(i & sd & csg & _ & -> & _ & _ & _ & Hent)]; [done|].
    unfold served_bundle. by rewrite Hent.
  - intros Hpos. destruct Hcd as [[_ ->]|(i & sd & csg & _ & -> & Hlen & _ & Hl & Hent)]; [done|].
    split; [done|]. split.
    + unfold served_bundle. rewrite Hent. apply b64d_b64e.
    + exists cl, (curve_local_entry sd). do 3 (split; [done|]). apply b64d_b64e.
  - destruct Hqd as [[-> ->]|(i & sd & qsg & _ & -> & _ & _ & Hent)]; [done|].
    unfold served_bundle. by rewrite Hent.
  - destruct Hqd as [[-> ->]|(i & sd & qsg & _ & -> & _ & _ & Hent)].
    + exists pseed. split; [done|]. unfold bundle_kem. cbn -[b64_item].
      rewrite (Hb "pq_spk" (fst (kem_pair alg pseed))) by done. done.
    + exists (snd sd). split; [done|]. unfold bundle_kem, id_or_minus1, served_bundle. rewrite Hent.
      cbn -[Z.of_nat b64e truthy Z.ltb].
      destruct (Z.ltb_spec 0 (base + 1 + Z.of_nat i)); [|lia]. cbn [res_bind].
      rewrite truthy_b64 by apply kem_pub_nonempty.
      unfold b64_item, ditem. cbn [dlookup String.eqb Ascii.eqb Bool.eqb of_option res_bind b64d_v].
      by rewrite b64d_b64e.
  - destruct Hqd as [[_ ->]|(i & sd & qsg & _ & -> & _ & Hl & _)]; cbn [otk_id].
    + apply b64d_b64e.
    + destruct (Z.ltb_spec 0 (base + 1 + Z.of_nat i)); [|lia].
      exists ql, (pq_local_entry alg sd). do 3 (split; [done|]). apply b64d_b64e.
Qed.
End bundle.
