(* ===== verification/HandshakeProps.v ===== *)
(** * Properties of the handshake and of prekey bundles *)

From S2P Require Import Prelude Hashing Base64 PyVal Sorting Json JsonFacts Crypto Wire Ratchet.
From S2P Require Import RatchetFacts Pqxdh Conversation PqxdhFacts Bundle.

Section props.
Context `{P : Prims}.
Variable oqs : option (option (list string)).

(** C1: with a bundle served from a generated upload, with or without one-time
    prekeys, the initiator's first message is accepted by the responder: both
    show the same safety number, the responder gets the text, and every message
    of the conversation that follows is delivered, whoever sends. *)
Theorem handshake_starts_conversation `{!PrimLaws P} `{!AeadStrict P}
    now cseed pseed seeds peer_isk kem upload local oc op mine mysk kid isk r my peer conv ver body dr
    sid_seed :
  oqs <> None ->
  generate_local_bundle oqs now cseed pseed seeds (ed_pub peer_isk) peer_isk kem = Ok (upload, local) ->
  len32 peer_isk -> len32 cseed -> Forall (fun sd => len32 (fst sd)) seeds ->
  (forall i, oc = Some i -> (i < length seeds)%nat) -> (forall i, op = Some i -> (i < length seeds)%nat) ->
  own_prekey mine mysk kid -> len32 isk ->
  len32 (i_eph r) /\ i_sid r <> "" /\ len32 (i_dr r) /\ nonce_ok (i_nonce r) ->
  utf8_valid body = true -> len32 dr -> x_pub dr <> x_pub (i_dr r) ->
  exists wire st_a st_b local' safety,
    pqxdh_initiate oqs r (served_bundle upload oc op) mine (ed_pub isk) isk my peer body ver conv =
      Ok (wire, st_a, safety) /\
    pqxdh_respond oqs dr sid_seed wire (Some peer) local = (local', Ok (body, st_b, safety, my)) /\
    forall es, Forall event_ok es -> NoDup (flat_map event_keys es) ->
      (forall k, k ∈ flat_map event_keys es -> k <> x_pub (i_dr r) /\ k <> x_pub dr) ->
      converse es (st_a, st_b) = map (fun e => Ok (text e)) es.
Proof.
  intros Hoqs Hgen Hpisk Hcs Hseeds Hoc Hop Hmine Hisk Hdraws Hbody Hdr Hne.
  destruct (generated_offered oqs _ _ _ _ _ _ _ _ oc op Hgen Hpisk Hcs Hseeds Hoc Hop) as (alg & Hoff).
  set (c := otk_of oc seeds) in *. set (q := otk_of op seeds) in *.
  set (c_id := otk_id _ c) in *. set (p_id := otk_id _ q) in *.
  set (osk := match c with Some (_, sd) => fst sd | None => "" end) in *.
  set (pqsk := match q with Some (_, sd) => _ | None => _ end) in *.
  pose proof Hdraws as (He & Hs & Hd & Hn). pose proof Hmine as (Hmy & _).
  destruct (o_curve _ _ _ _ _ _ _ _ _ Hoff) as (Hcsk & _ & _).
  destruct (dh_agree mysk cseed Hmy Hcsk) as (z1 & H1 & H1').
  destruct (dh_agree (i_eph r) cseed He Hcsk) as (z2 & H2 & H2').
  destruct (third_exchange c_id osk (i_eph r) (otk_pub c_id osk) He) as (z3 & H3 & H3').
  { intros Hpos. by apply (o_otk _ _ _ _ _ _ _ _ _ Hoff). }
  { done. }
  destruct (o_pq _ _ _ _ _ _ _ _ _ Hoff) as (kseed & Hpqsk & Hkem).
  destruct (kem_correct alg kseed (i_kem r)) as (ct & ss & Henc & Hdec).
  destruct (sign_prekey_ok isk "curve-signed" kid "X25519" (x_pub mysk) Hisk eq_refl) as (sig & Hsig).
  destruct (o_spk_ids _ _ _ _ _ _ _ _ _ Hoff) as (spk & pspk & Hspk & Hpspk).
  set (root := root_secret z1 z2 z3 ss).
  pose proof (initiate_runs oqs Hoqs _ _ _ (ed_pub isk) isk _ c_id p_id kid _ _ _ _ alg Hoff
                Hmine r my peer conv ver body Hdraws Hbody z1 z2 z3 ct ss sig spk pspk) as Hinit.
  rewrite Hkem in Hinit. specialize (Hinit Henc H1 H2 H3 Hsig Hspk Hpspk). cbv zeta in Hinit.
  rewrite Hpqsk in Hdec.
  pose proof (respond_runs oqs Hoqs _ _ (ed_pub isk) isk _ c_id p_id kid _ _ _ mysk alg Hoff
                (conj Hisk eq_refl) r my peer conv ver body Hdraws Hbody z1 z2 z3 ct ss sig spk pspk dr sid_seed Hdec H1' H2' H3' Hsig) as Hresp.
  eexists _, _, _, _, _. split; [exact Hinit|]. split.
  - rewrite safety_fingerprint_sym. apply Hresp.
    by eapply init_obj_py_ok.
  - intros es Hes Hnd Hfresh.
    apply (converse_delivers es [x_pub (i_dr r); x_pub dr]); [|done|done|].
    + left. apply states_led; [done| |]; by apply (sid_ok r Hdraws).
    + intros k Hk. destruct (Hfresh k Hk). set_solver.
Qed.

(** Every bundle the server can assemble from a generated upload passes the
    signature checks of [verify_bundle]. *)
Theorem generated_bundle_verifies `{!PrimLaws P} now cseed pseed seeds isk kem upload local oc op :
  generate_local_bundle oqs now cseed pseed seeds (ed_pub isk) isk kem = Ok (upload, local) ->
  len32 isk -> len32 cseed -> Forall (fun sd => len32 (fst sd)) seeds ->
  (forall i, oc = Some i -> (i < length seeds)%nat) -> (forall i, op = Some i -> (i < length seeds)%nat) ->
  verify_bundle (served_bundle upload oc op) = Ok tt.
Proof.
  intros Hgen Hisk Hcs Hseeds Hoc Hop.
  destruct (generated_offered oqs _ _ _ _ _ _ _ _ oc op Hgen Hisk Hcs Hseeds Hoc Hop) as (alg & Hoff).
  apply (o_verified _ _ _ _ _ _ _ _ _ Hoff).
Qed.

(** ** A KEM key nobody signed *)

Lemma item_dset_other k v b : k <> "pq_otk" -> ditem k (dset "pq_otk" v b) = ditem k b.
Proof. intros H. unfold ditem. by rewrite dlookup_dset_ne. Qed.

Lemma dget_dset_other k v b dflt : k <> "pq_otk" -> dget k dflt (dset "pq_otk" v b) = dget k dflt b.
Proof. intros H. unfold dget. by rewrite dlookup_dset_ne. Qed.

(** When a bundle names no post-quantum one-time prekey (its id is absent or
    not positive), adding a [pq_otk] field with any key leaves it verified, and the
    initiator encapsulates to that unsigned key instead of the signed prekey. *)
Theorem unsigned_pq_prekey_used bundle evil p_id algv :
  evil <> "" -> id_or_minus1 "pq_otk_id" bundle = Ok p_id -> p_id <= 0 ->
  ditem "pq_kem_alg" bundle = Ok algv -> verify_bundle bundle = Ok tt ->
  let forged := dset "pq_otk" (PStr (b64e evil)) bundle in
  verify_bundle forged = Ok tt /\ bundle_kem forged = Ok (algv, evil).
Proof.
  intros Hne Hid Hle Halg Hv forged.
  assert (Hid' : id_or_minus1 "pq_otk_id" forged = Ok p_id).
  { unfold id_or_minus1, forged. by rewrite dget_dset_other. }
  assert (Hb : forall k, k <> "pq_otk" -> b64_item k forged = b64_item k bundle).
  { intros k Hk. unfold b64_item, forged. by rewrite item_dset_other. }
  assert (Hi : forall k, k <> "pq_otk" -> int_item k forged = int_item k bundle).
  { intros k Hk. unfold int_item, forged. by rewrite item_dset_other. }
  split.
  - rewrite <- Hv. unfold verify_bundle. rewrite !Hb, !Hi by done.
    assert (Hone : forall idpk, verify_one_time idpk forged "curve-otk" "curve_otk_id" "curve_otk"
                     "curve_otk_sig" (Ok (PStr "X25519")) =
                   verify_one_time idpk bundle "curve-otk" "curve_otk_id" "curve_otk"
                     "curve_otk_sig" (Ok (PStr "X25519"))).
    { intros idpk. unfold verify_one_time, id_or_minus1. rewrite !Hb, !Hi by done.
      unfold forged. by rewrite !dget_dset_other. }
    assert (Hpq : forall d idpk, id_or_minus1 "pq_otk_id" d = Ok p_id ->
              verify_one_time idpk d "pq-otk" "pq_otk_id" "pq_otk" "pq_otk_sig"
                (ditem "pq_otk_alg" d) = Ok tt).
    { intros d idpk H. unfold verify_one_time. rewrite H. cbn [res_bind].
      destruct (Z.ltb_spec 0 p_id); [lia|done]. }
    unfold forged at 1. rewrite item_dset_other by done.
    destruct (b64_item "identity_pk" bundle) as [idpk|]; [|done]. cbn [res_bind].
    rewrite Hone, !Hpq by done. done.
  - unfold bundle_kem. rewrite Hid'. cbn [res_bind].
    destruct (Z.ltb_spec 0 p_id); [lia|]. unfold forged at 1. rewrite item_dset_other, Halg by done.
    cbn [res_bind]. unfold forged at 1. unfold dget. rewrite dlookup_dset_eq, truthy_b64 by done.
    unfold b64_item, ditem, forged. rewrite dlookup_dset_eq. cbn [of_option res_bind b64d_v].
    by rewrite b64d_b64e.
Qed.

(** ** One-time prekeys *)

Lemma pop_one_time_gone k key store store' o d :
  dlookup k store = Some (PDict d) -> dict_ok d -> pop_one_time k key store = (store', Ok o) ->
  exists d', dlookup k store' = Some (PDict d') /\ dlookup key d' = None.
Proof.
  intros Hd Hok H. unfold pop_one_time in H. rewrite Hd in H. injection H as <- _.
  exists (ddel key d). by rewrite dlookup_dset_eq, dlookup_ddel_eq.
Qed.

Lemma pop_one_time_other k k' key store : k <> k' ->
  dlookup k' (fst (pop_one_time k key store)) = dlookup k' store.
Proof.
  intros H. unfold pop_one_time. destruct (dlookup k store) as [v|]; [|done].
  destruct v; try done. cbn [fst]. by rewrite dlookup_dset_ne.
Qed.

(** Once a first message that names a curve one-time prekey has been answered,
    that prekey is no longer in the store. *)
Theorem one_time_prekey_consumed dr sid_seed wire expected store store' out obj c_id d :
  pqxdh_respond oqs dr sid_seed wire expected store = (store', Ok out) ->
  json_unb64 (strip_prefix PREFIX_PQ_INIT wire) = Ok (PDict obj) ->
  id_or_minus1 "curve_otk_id" obj = Ok c_id -> 0 < c_id ->
  dlookup "curve_one_time" store = Some (PDict d) -> dict_ok d ->
  exists d', dlookup "curve_one_time" store' = Some (PDict d') /\ dlookup (dec c_id) d' = None.
Proof.
  unfold pqxdh_respond. intros H Hobj Hc Hpos Hd Hok.
  rewrite Hobj, !st_bind_lift in H. cbn [as_dict] in H.
  destruct (respond_sender obj expected) as [[[su si] sc]|]; [|done]. rewrite Hc, !st_bind_lift in H.
  destruct (id_or_minus1 "pq_otk_id" obj) as [p_id|]; [|done]. unfold st_bind at 1, st_get at 1 in H.
  rewrite st_bind_lift in H. destruct (sub_b64 _ _ _) as [csk|]; [|done].
  destruct (Z.ltb_spec 0 c_id); [|lia]. apply st_bind_ok in H as (s1 & hit & Hpop & H).
  destruct (pop_one_time_gone _ _ _ _ _ _ Hd Hok Hpop) as (d' & Hd' & Hgone).
  exists d'. split; [|done]. rewrite <- Hd'.
  apply st_bind_ok in H as (s2 & osk & [= <- _] & H).
  apply st_bind_ok in H as (s3 & algv & [= <- _] & H).
  apply st_bind_ok in H as (s4 & phit & Hpop2 & H).
  apply st_bind_ok in H as (s5 & ? & [= <- <-] & H).
  apply st_bind_ok in H as (s6 & pqsk & [= <- _] & H). injection H as <- _.
  destruct (0 <? p_id); [|by injection Hpop2 as <- _].
  by rewrite <- (pop_one_time_other "pq_one_time" "curve_one_time" (dec p_id) s1), Hpop2.
Qed.

(** ** Signed messages and KEM choice *)

Lemma no_nul_dec z : string_all (not_char (chr8 0)) (dec z) = true.
Proof. by apply dec_not. Qed.

(** A prekey signature is bound to its role: two signed messages are equal only
    when kind, id, algorithm and key are, for kinds and algorithms without NUL. *)
Theorem prekey_message_injective kind kid alg pk kind' kid' alg' pk' m :
  string_all (not_char (chr8 0)) kind = true -> string_all (not_char (chr8 0)) kind' = true ->
  string_all (not_char (chr8 0)) alg = true -> string_all (not_char (chr8 0)) alg' = true ->
  sig_msg kind kid alg pk = Ok m -> sig_msg kind' kid' alg' pk' = Ok m ->
  kind = kind' /\ kid = kid' /\ alg = alg' /\ pk = pk'.
Proof.
  intros H1 H2 H3 H4. unfold sig_msg.
  destruct (string_all is_ascii alg); [|done]. destruct (string_all is_ascii alg'); [|done].
  intros [= <-] [= E]. symmetry in E.
  apply sapp_sep_inj in E as [Hk E]; [|done..].
  apply sapp_sep_inj in E as [Hi E]; [|apply no_nul_dec..].
  apply sapp_sep_inj in E as [Ha E]; [|done..].
  apply dec_inj in Hi. done.
Qed.

(** The chosen mechanism is an allowed one, is enabled when the package lists
    its mechanisms and one of them is allowed, and is the preferred one when that
    is usable. *)
Theorem select_kem_sound preferred alg :
  select_kem oqs preferred = Ok alg ->
  In alg ALLOWED_KEMS /\ (available_kems oqs <> [] -> In alg (available_kems oqs)) /\
  forall p, preferred = Some p -> In p ALLOWED_KEMS -> In p (available_kems oqs) -> alg = p.
Proof.
  intros H. split; [by eapply select_kem_allowed|]. unfold select_kem in H.
  assert (Hmem : forall x l, mem x l = true <-> In x l).
  { intros x l. unfold mem. rewrite existsb_exists. split.
    - intros (y & Hy & ->%String.eqb_eq). done.
    - intros Hx. exists x. by rewrite String.eqb_refl. }
  assert (Hrest : forall k, available_kems oqs <> [] ->
            (if mem DEFAULT_KEM (available_kems oqs) then Ok DEFAULT_KEM
             else of_option (List.find (fun name =>
               (match available_kems oqs with [] => true | _ => false end) ||
               mem name (available_kems oqs)) ALLOWED_KEMS)
               (RuntimeError "No supported ML-KEM/Kyber mechanism is enabled")) = Ok k ->
            In k (available_kems oqs)).
  { intros k Hne Hk. destruct (mem DEFAULT_KEM (available_kems oqs)) eqn:Ed.
    - apply Ok_inj in Hk as <-. by apply Hmem.
    - destruct (List.find _ _) as [x|] eqn:Ef; [|done]. apply Ok_inj in Hk as ->.
      apply find_some in Ef as [_ Ef]. destruct (available_kems oqs); [done|]. by apply Hmem. }
  split.
  - intros Hne. destruct preferred as [p|]; [|by apply Hrest].
    destruct (nonempty p && mem p ALLOWED_KEMS && _) eqn:E; [|by apply Hrest].
    apply Ok_inj in H as <-. bool_hyps. destruct (available_kems oqs); [done|]. by apply Hmem.
  - intros p -> Hp Ha. apply Hmem in Hp. apply Hmem in Ha.
    assert (nonempty p = true) as Hne by (by destruct p).
    rewrite Hne, Hp, Ha, orb_true_r in H. by apply Ok_inj in H.
Qed.

(** ** Safety numbers *)

(** The upper-case digest of two identity keys in byte order. *)
Definition safety_digest (a b : bytes) : string :=
  let (left, right) := if str_ltb b a then (b, a) else (a, b) in
  smap ascii_upper (sha256_hex ("SecChatSafety" +:+ NUL +:+ left +:+ right)).

Lemma smap_length f s : String.length (smap f s) = String.length s.
Proof. induction s as [|c s IH]; simpl; [done|by rewrite IH]. Qed.

Lemma safety_digest_length a b : String.length (safety_digest a b) = 64%nat.
Proof.
  unfold safety_digest. destruct (if str_ltb b a then _ else _). rewrite smap_length.
  apply sha256_hex_length.
Qed.

Lemma groups_join_length n h : (4 * S n <= String.length h)%nat ->
  String.length (join " " (groups4 (S n) h)) = (5 * n + 4)%nat.
Proof.
  revert h. induction n as [|n IH]; intros h Hl.
  - cbn [groups4 join]. apply stake_length. lia.
  - change (groups4 (S (S n)) h) with (stake 4 h :: groups4 (S n) (sdrop 4 h)).
    change (join " " (stake 4 h :: groups4 (S n) (sdrop 4 h))) with
      (stake 4 h +:+ " " +:+ join " " (groups4 (S n) (sdrop 4 h))).
    rewrite !sapp_length, stake_length, IH by (rewrite ?sdrop_length; lia).
    cbn [String.length]. lia.
Qed.

(** Both parties show the same safety number, of 39 characters, and equal
    numbers mean that the first 128 bits of the two digests are equal. *)
Theorem safety_number_agrees a b :
  safety_fingerprint a b = safety_fingerprint b a /\
  String.length (safety_fingerprint a b) = 39%nat /\
  forall c d, safety_fingerprint a b = safety_fingerprint c d ->
    stake 32 (safety_digest a b) = stake 32 (safety_digest c d).
Proof.
  assert (Hf : forall x y, safety_fingerprint x y = join " " (groups4 8 (safety_digest x y))).
  { intros x y. unfold safety_fingerprint, safety_digest. by destruct (if str_ltb y x then _ else _). }
  split; [apply safety_fingerprint_sym|]. split.
  - rewrite Hf, groups_join_length by (rewrite safety_digest_length; lia). done.
  - intros c d H. rewrite !Hf in H. apply (join_groups4_inj 8); [..|exact H];
      rewrite safety_digest_length; lia.
Qed.
End props.

(** ** Witnesses *)

Definition demo_oqs : option (option (list string)) := Some None.
Definition demo_isk : bytes := sha256 "bob identity".
Definition demo_seeds : list (bytes * bytes) :=
  [(sha256 "otk1", sha256 "pq1"); (sha256 "otk2", sha256 "pq2")].
Definition demo_generated : res (dict * dict) :=
  generate_local_bundle demo_oqs 1700000000000 (sha256 "spk") (sha256 "pqspk") demo_seeds
    (ed_pub demo_isk) demo_isk None.
Definition demo_upload : dict := fst (ok_or ([], []) demo_generated).
Definition demo_local : dict := snd (ok_or ([], []) demo_generated).
Definition demo_bundle : dict := served_bundle demo_upload (Some 1%nat) (Some 0%nat).
Definition demo_mine : dict :=
  [("curve_signed", PDict [("key_id", PInt 77); ("pk", PStr (b64e (x_pub (sha256 "mine"))));
                           ("sk", PStr (b64e (sha256 "mine")))])].
Definition demo_init : init_draws :=
  InitDraws (sha256 "kem") (sha256 "eph") "sixteen bytes..." (sha256 "dr") "twelve bytes" 1700000000001.

Lemma demo_generates : demo_generated = Ok (demo_upload, demo_local).
Proof. vm_compute. reflexivity. Qed.

Lemma demo_seeds_len : Forall (fun sd => len32 (fst sd)) demo_seeds.
Proof. repeat constructor; vm_compute; reflexivity. Qed.

Lemma demo_index (k j : nat) : (k < 2)%nat -> forall i, Some k = Some i -> (i < length demo_seeds)%nat.
Proof. intros H i [= <-]. exact H. Qed.

Lemma handshake_starts_conversation_witness :
  exists wire st_a st_b local' safety,
    pqxdh_initiate demo_oqs demo_init demo_bundle demo_mine (ed_pub (sha256 "alice"))
      (sha256 "alice") 1 2 "hello" (Some 3) 9 = Ok (wire, st_a, safety) /\
    pqxdh_respond demo_oqs (sha256 "bob dr") "" wire (Some 2) demo_local =
      (local', Ok ("hello", st_b, safety, 1)) /\
    forall es, Forall event_ok es -> NoDup (flat_map event_keys es) ->
      (forall k, k ∈ flat_map event_keys es ->
         k <> x_pub (i_dr demo_init) /\ k <> x_pub (sha256 "bob dr")) ->
      converse es (st_a, st_b) = map (fun e => Ok (text e)) es.
Proof.
  apply (handshake_starts_conversation demo_oqs 1700000000000 (sha256 "spk") (sha256 "pqspk") demo_seeds
           demo_isk None demo_upload demo_local (Some 1%nat) (Some 0%nat) demo_mine (sha256 "mine") 77).
  - discriminate.
  - exact demo_generates.
  - vm_compute. reflexivity.
  - vm_compute. reflexivity.
  - exact demo_seeds_len.
  - apply (demo_index 1 0). repeat constructor.
  - apply (demo_index 0 0). repeat constructor.
  - split; [vm_compute; reflexivity|]. repeat split; vm_compute; reflexivity.
  - vm_compute. reflexivity.
  - split; [vm_compute; reflexivity|]. split; [discriminate|]. split; vm_compute; reflexivity.
  - vm_compute. reflexivity.
  - vm_compute. reflexivity.
  - vm_compute. discriminate.
Defined.

Lemma generated_bundle_verifies_witness : verify_bundle demo_bundle = Ok tt.
Proof.
  apply (generated_bundle_verifies demo_oqs 1700000000000 (sha256 "spk") (sha256 "pqspk") demo_seeds
           demo_isk None demo_upload demo_local).
  - exact demo_generates.
  - vm_compute. reflexivity.
  - vm_compute. reflexivity.
  - exact demo_seeds_len.
  - apply (demo_index 1 0). repeat constructor.
  - apply (demo_index 0 0). repeat constructor.
Defined.

Definition demo_no_otk : dict := served_bundle demo_upload None None.

Lemma unsigned_pq_prekey_used_witness :
  verify_bundle (dset "pq_otk" (PStr (b64e "attacker key")) demo_no_otk) = Ok tt /\
  bundle_kem (dset "pq_otk" (PStr (b64e "attacker key")) demo_no_otk) =
    Ok (PStr "ML-KEM-1024", "attacker key").
Proof.
  apply (unsigned_pq_prekey_used demo_no_otk "attacker key" (-1) (PStr "ML-KEM-1024")).
  - discriminate.
  - vm_compute. reflexivity.
  - discriminate.
  - vm_compute. reflexivity.
  - vm_compute. reflexivity.
Defined.

Definition demo_wire : string :=
  match pqxdh_initiate demo_oqs demo_init demo_bundle demo_mine (ed_pub (sha256 "alice"))
    (sha256 "alice") 1 2 "hello" (Some 3) 9 with Ok (w, _, _) => w | Err _ => "" end.
Definition demo_response := pqxdh_respond demo_oqs (sha256 "bob dr") "" demo_wire (Some 2) demo_local.
Definition demo_wire_obj : dict :=
  ok_or [] (let! v := json_unb64 (strip_prefix PREFIX_PQ_INIT demo_wire) in as_dict v).
Definition demo_curve_store : dict :=
  ok_or [] (let! v := ditem "curve_one_time" demo_local in as_dict v).
Definition demo_otk_id : Z := ok_or 0 (id_or_minus1 "curve_otk_id" demo_wire_obj).

Lemma one_time_prekey_consumed_witness :
  exists d', dlookup "curve_one_time" (fst demo_response) = Some (PDict d') /\
    dlookup (dec demo_otk_id) d' = None.
Proof.
  apply (one_time_prekey_consumed demo_oqs (sha256 "bob dr") "" demo_wire (Some 2) demo_local
           (fst demo_response)
           (ok_or ("", new "" "" "" true "" "", "", 0) (snd demo_response))
           demo_wire_obj demo_otk_id demo_curve_store).
  - vm_compute. reflexivity.
  - vm_compute. reflexivity.
  - vm_compute. reflexivity.
  - vm_compute. reflexivity.
  - vm_compute. reflexivity.
  - apply (bool_decide_unpack _). vm_compute. exact I.
Defined.

Lemma prekey_message_injective_witness :
  "curve-otk" = "curve-otk" /\ 7 = 7 /\ "X25519" = "X25519" /\ "key" = "key".
Proof.
  apply (prekey_message_injective "curve-otk" 7 "X25519" "key" "curve-otk" 7 "X25519" "key"
           (ok_or "" (sig_msg "curve-otk" 7 "X25519" "key")));
    vm_compute; reflexivity.
Defined.

Lemma select_kem_sound_witness :
  In "Kyber768" ALLOWED_KEMS /\
  (available_kems (Some (Some ["Kyber768"])) <> [] -> In "Kyber768" (available_kems (Some (Some ["Kyber768"])))) /\
  forall p, Some "ML-KEM-1024" = Some p -> In p ALLOWED_KEMS ->
    In p (available_kems (Some (Some ["Kyber768"]))) -> "Kyber768" = p.
Proof.
  apply (select_kem_sound (Some (Some ["Kyber768"])) (Some "ML-KEM-1024") "Kyber768").
  vm_compute. reflexivity.
Defined.
