(* ===== verification/Utils.v ===== *)
(** * Password hashing, sealed local data and identity keys (client/utils.py)

    The low-level helpers: the two PBKDF2 derivations, the envelope
    [base64(nonce || AES-GCM(JSON {ts, body}))] that seals every local file and
    the keys stored on the server, its replay window, and the Ed25519 identity
    key. Random bytes and the clock (milliseconds) are explicit arguments.
    [str.lower] is modelled on ASCII letters. *)

From S2P Require Import Prelude Hashing Base64 PyVal Json JsonFacts Crypto Wire AuditClient.

Definition REPLAY_WINDOW_MS : Z := 5 * 60 * 1000.
Definition _CLIENT_PBKDF2_ITERS : Z := 100000.

(** The characters up to the first space, and what follows it if there is one. *)
Fixpoint split_space (s : string) : string * option string :=
  match s with
  | EmptyString => ("", None)
  | String c s' =>
      if Ascii.eqb c " "%char then ("", Some s')
      else let p := split_space s' in (String c (fst p), snd p)
  end.

(** [s[:n]] of a [str]: the first [n] code points, i.e. up to the byte that
    starts the next one. *)
Fixpoint take_chars (n : nat) (s : string) : string :=
  match s with
  | EmptyString => ""
  | String c s' =>
      if (128 <=? code c) && (code c <=? 191) then String c (take_chars n s')
      else match n with
           | O => ""
           | S n' => String c (take_chars n' s')
           end
  end.

(** [ts_short]: [ts.split(" ")[1][:5]], or [ts[:5]] without a space. *)
Definition ts_short (ts : string) : string :=
  match snd (split_space ts) with
  | Some rest => take_chars 5 (fst (split_space rest))
  | None => take_chars 5 ts
  end.

Section utils.
Context `{P : Prims}.

Definition hash_password (password salt : string) : res string :=
  let! s := utf8_encode (lower salt) in
  let! pw := utf8_encode password in
  Ok (hex (pbkdf2_derive s _CLIENT_PBKDF2_ITERS pw)).

Definition derive_master_key (password username : string) : res bytes :=
  let! s := utf8_encode (lower username) in
  let! pw := utf8_encode password in
  Ok (pbkdf2_derive s 600000 pw).

(** The envelope, with the nonce and the time it draws. *)
Definition encrypt_with_key (nonce : bytes) (now_ms : Z) (key : bytes) (plaintext : string) :
    res string :=
  let inner := json_dumps true false (PDict [("ts", PInt now_ms); ("body", PStr plaintext)]) in
  assert! aes_key_ok key else bad_key in
  let! raw := utf8_encode inner in
  Ok (b64encode (nonce +:+ aes_encrypt key nonce raw None)).

(** [ts_ms and (now_ms - ts_ms) > REPLAY_WINDOW_MS]: only numbers can be subtracted. *)
Definition too_old (now_ms : Z) (ts : pyval) : res bool :=
  if truthy ts then
    match num_of ts with
    | Some (m, k) =>
        let e := 10 ^ Z.of_nat (S k) in Ok (REPLAY_WINDOW_MS * e <? now_ms * e - m)
    | None => Err TypeError
    end
  else Ok false.

Definition replay_detected : exc := ValueError "Replay detected".

(** [decrypt_with_key]; [check] is the current time when the replay window is
    checked ([check_replay=True]), [None] for data at rest. *)
Definition decrypt_with_key (check : option Z) (key : bytes) (token : string) : res pyval :=
  let! tok := utf8_encode token in
  let! raw := a2b 0 0 0 tok in
  let nonce := stake 12 raw in
  assert! aes_key_ok key else bad_key in
  assert! (8 <=? String.length nonce)%nat else bad_nonce in
  let! plain := of_option (aes_decrypt key nonce (sdrop 12 raw) None) InvalidTag in
  let! v := loads_bytes plain in
  let! _ := match check with
            | Some now_ms =>
                let! envelope := as_dict v in
                let! old := too_old now_ms (dget "ts" (PInt 0) envelope) in
                if old then Err replay_detected else Ok tt
            | None => Ok tt
            end in
  let! envelope := as_dict v in
  Ok (dget "body" (PStr "") envelope).

Definition encrypt_key_with_master (nonce : bytes) (now_ms : Z) (master_key conv_key : bytes) :
    res string :=
  encrypt_with_key nonce now_ms master_key (b64encode conv_key).

(** [base64.b64decode(v.encode())]. *)
Definition b64decode_enc (v : pyval) : res bytes :=
  match v with
  | PStr s => let! raw := utf8_encode s in a2b 0 0 0 raw
  | _ => Err AttributeError
  end.

Definition decrypt_key_with_master (master_key : bytes) (token : string) : res bytes :=
  let! v := decrypt_with_key None master_key token in b64decode_enc v.

(** ** Ed25519 identity keys *)

(** [identity_keygen] with the seed it draws: public and secret key. *)
Definition identity_keygen (seed : bytes) : bytes * bytes := (ed_pub seed, seed).

Definition identity_pk_from_sk (sk_bytes : bytes) : res bytes :=
  assert! len32b sk_bytes else bad_ed25519 in Ok (ed_pub sk_bytes).

Definition identity_sign (sk_bytes message : bytes) : res bytes :=
  assert! len32b sk_bytes else bad_ed25519 in Ok (ed_sign sk_bytes message).

Definition identity_verify (pk_bytes message signature : bytes) : res unit :=
  assert! len32b pk_bytes else bad_ed25519 in
  if ed_verify pk_bytes signature message then Ok tt
  else Err (ValueError "Identity signature invalid").
End utils.

(** ** Lemmas *)

Section envelope.
Context `{L : PrimLaws}.

Definition envelope_json (now_ms : Z) (body : string) : pyval :=
  PDict [("ts", PInt now_ms); ("body", PStr body)].

Lemma envelope_ok now_ms body : utf8_valid body = true -> py_ok (envelope_json now_ms body).
Proof. intros H. unfold envelope_json. py_ok_fields. Qed.

(** Sealing succeeds for a text under a key of an AES size, and is opened by the
    same key; [check] only has to accept the age of the envelope. *)
Lemma encrypt_with_key_ok nonce now key body :
  aes_key_ok key = true -> utf8_valid body = true ->
  encrypt_with_key nonce now key body =
  Ok (b64encode (nonce +:+ aes_encrypt key nonce
        (json_dumps true false (envelope_json now body)) None)).
Proof.
  intros Hk Hb. unfold encrypt_with_key. rewrite Hk. unfold utf8_encode.
  fold (envelope_json now body).
  by rewrite (json_dumps_valid true false _ (envelope_ok now body Hb)).
Qed.

Lemma decrypt_sealed check nonce now key body :
  aes_key_ok key = true -> utf8_valid body = true -> String.length nonce = 12%nat ->
  decrypt_with_key check key (b64encode (nonce +:+ aes_encrypt key nonce
        (json_dumps true false (envelope_json now body)) None)) =
  match check with
  | Some now' => let! old := too_old now' (PInt now) in
                 if old then Err replay_detected else Ok (PStr body)
  | None => Ok (PStr body)
  end.
Proof.
  intros Hk Hb Hn. unfold decrypt_with_key, utf8_encode.
  rewrite utf8_valid_ascii by apply b64encode_ascii. cbn [res_bind].
  rewrite a2b_encode. cbn [res_bind].
  rewrite stake_app_len, sdrop_app_len, Hk, Hn by done. cbn [Nat.leb].
  rewrite aes_decrypt_encrypt. cbn [of_option res_bind]. unfold loads_bytes, utf8_decode.
  pose proof (envelope_ok now body Hb) as Hok.
  rewrite (json_dumps_valid true false _ Hok). cbn [res_bind].
  rewrite (json_loads_dumps true false _ Hok). cbn [res_bind envelope_json as_dict].
  destruct check as [now'|]; [|done]. cbn.
  by destruct (too_old now' (PInt now)) as [[|]|].
Qed.

Lemma encrypt_then_decrypt nonce now key body token :
  String.length nonce = 12%nat ->
  encrypt_with_key nonce now key body = Ok token -> utf8_valid body = true ->
  decrypt_with_key None key token = Ok (PStr body).
Proof.
  intros Hn H Hb. destruct (aes_key_ok key) eqn:Hk.
  - rewrite encrypt_with_key_ok in H by done. injection H as <-.
    by rewrite (decrypt_sealed None).
  - unfold encrypt_with_key in H. by rewrite Hk in H.
Qed.

Lemma token_ascii nonce now key body token :
  encrypt_with_key nonce now key body = Ok token -> string_all is_ascii token = true.
Proof. unfold encrypt_with_key. intros H. inv_ok H. subst. apply b64encode_ascii. Qed.

Lemma too_old_int now ts :
  too_old now (PInt ts) = Ok (negb (ts =? 0) && (REPLAY_WINDOW_MS <? now - ts)).
Proof.
  unfold too_old. cbn [truthy num_of]. destruct (ts =? 0); [done|].
  cbn [negb]. f_equal. change (10 ^ Z.of_nat 1) with 10. unfold REPLAY_WINDOW_MS.
  cbn [andb]. destruct (Z.ltb_spec (5 * 60 * 1000) (now - ts)), (Z.ltb_spec (5 * 60 * 1000 * 10) (now * 10 - 10 * ts)); lia || done.
Qed.
End envelope.

Section envelope_theorems.
Context `{L : PrimLaws, !AeadStrict P}.

(** Sealed data. What [encrypt_with_key] seals, [decrypt_with_key] returns
    under the same key: always when the replay check is off (data at rest), and
    with the check exactly when the envelope is at most five minutes old; an
    older one raises. Under any other key the data does not open. *)
Theorem sealed_data_opens nonce sealed_at key body token :
  String.length nonce = 12%nat -> utf8_valid body = true ->
  encrypt_with_key nonce sealed_at key body = Ok token ->
  decrypt_with_key None key token = Ok (PStr body) /\
  (forall now, decrypt_with_key (Some now) key token =
     if negb (sealed_at =? 0) && (REPLAY_WINDOW_MS <? now - sealed_at)
     then Err replay_detected else Ok (PStr body)) /\
  (forall check key', aes_key_ok key' = true -> key' <> key ->
     decrypt_with_key check key' token = Err InvalidTag).
Proof using L AeadStrict0.
  intros Hn Hb H. split; [by eapply encrypt_then_decrypt|].
  destruct (aes_key_ok key) eqn:Hk; [|unfold encrypt_with_key in H; by rewrite Hk in H].
  rewrite encrypt_with_key_ok in H by done. injection H as <-. split.
  - intros now. rewrite decrypt_sealed, too_old_int by done. done.
  - intros check key' Hk' Hne. unfold decrypt_with_key, utf8_encode.
    rewrite utf8_valid_ascii by apply b64encode_ascii. cbn [res_bind].
    rewrite a2b_encode. cbn [res_bind]. rewrite stake_app_len, sdrop_app_len, Hk', Hn by done.
    cbn [Nat.leb]. destruct (aes_decrypt key' _ _ _) as [p'|] eqn:E; [|done].
    apply aes_wrong_inputs in E as [-> _]. done.
Qed.

End envelope_theorems.

Definition demo_key : bytes := "0123456789abcdef0123456789abcdef".

Lemma sealed_data_opens_witness :
  let token := ok_or "" (encrypt_with_key (P := reference_prims) "nonce-number" 1000000 demo_key "hello") in
  decrypt_with_key (P := reference_prims) None demo_key token = Ok (PStr "hello") /\
  decrypt_with_key (P := reference_prims) (Some 1300000) demo_key token = Ok (PStr "hello") /\
  decrypt_with_key (P := reference_prims) (Some 1300001) demo_key token = Err replay_detected.
Proof.
  intros token.
  destruct (sealed_data_opens (P := reference_prims) "nonce-number" 1000000 demo_key "hello" token)
    as (H1 & H2 & _); [reflexivity|reflexivity|reflexivity|].
  split; [exact H1|]. split; rewrite H2; reflexivity.
Defined.
