(* ===== verification/Session.v ===== *)
(** * The session object and the world around it (client/crypto_engine/session.py)

    [CryptoSession] as a record, its methods as state-passing functions over it
    ([stm session]): an exception leaves the mutations made before it. The
    record carries the part of the outside world the methods touch ([world]:
    the files, the existing directories, and how far the clock, the random
    generator and the file system have been used).

    The class [Os] is that outside world: the n-th reading of the clock (in
    whole milliseconds), the n-th draw of random bytes, whether the n-th file
    operation succeeds (one that fails raises and changes nothing), the order in
    which a directory is listed, and the OpenMLS process. [OsLaws] states what
    the proofs use of it.

    [None] and [b""] for a key or a path are both the empty string: the code only
    tests them for truth. *)

From S2P Require Import Prelude Hashing Base64 PyVal Json Crypto Wire Ratchet AuditClient Utils.

Class Os := {
  os_clock : nat -> Z;
  os_random : nat -> nat -> bytes;
  os_io : nat -> bool;
  os_scan : nat -> list string -> list string;
  (** The OpenMLS bridge: is the binary there, and the line a process answers
      after the lines it was sent ([None]: it stops). *)
  bridge_installed : bool;
  bridge_reply : list string -> option string
}.

Class OsLaws (O : Os) : Prop := {
  os_random_len n k : String.length (os_random n k) = k;
  os_scan_perm n l : os_scan n l ≡ₚ l
}.

(** A file system on which every operation succeeds. *)
Class IoReliable (O : Os) : Prop := io_reliable n : os_io n = true.

Record world := World {
  files : gmap string bytes; dirs : gset string;
  n_clock : nat; n_random : nat; n_io : nat
}.

#[export] Instance world_eta : Eta world := fun w =>
  World (files w) (dirs w) (n_clock w) (n_random w) (n_io w).

(** [double_ratchet_states] and the session maps refer to [DoubleRatchet] objects
    that both may share, so the objects live in [dr_objects] and the maps hold
    their indices. A bridge is the list of lines its running process was sent,
    [None] inside when no process runs. *)
Record session := Session {
  master_key : bytes; secchat_dir : string; my_uid : Z;
  identity_pk : bytes; identity_sk : bytes;
  conv_peer_uids : gmap Z Z; conv_fingerprints : gmap Z string; conv_verified : gmap Z bool;
  identity_audit_states : gmap Z dict; auditor_state : dict;
  group_conv_ids : gset Z; group_epochs : gmap Z Z;
  pqxdh_prekeys : pyval;
  dr_objects : list DoubleRatchet;
  double_ratchet_states : gmap Z nat;
  double_ratchet_session_states : gmap Z (list (string * nat));
  mls_bridge : option (option (list string)); mls_identity_ready : bool;
  mls_credential_identity_b64 : string; mls_group_ready : gset Z; mls_handshake_seen : gset string;
  cache_enabled : bool; cache_ttl_days : Z; cache_clear_on_logout : bool;
  cache_disabled_convs : gset Z;
  control_warnings : gmap Z (list string);
  os : world
}.

#[export] Instance session_eta : Eta session := fun s =>
  Session (master_key s) (secchat_dir s) (my_uid s) (identity_pk s) (identity_sk s)
    (conv_peer_uids s) (conv_fingerprints s) (conv_verified s) (identity_audit_states s)
    (auditor_state s) (group_conv_ids s) (group_epochs s) (pqxdh_prekeys s) (dr_objects s)
    (double_ratchet_states s) (double_ratchet_session_states s) (mls_bridge s)
    (mls_identity_ready s) (mls_credential_identity_b64 s) (mls_group_ready s)
    (mls_handshake_seen s) (cache_enabled s) (cache_ttl_days s) (cache_clear_on_logout s)
    (cache_disabled_convs s) (control_warnings s) (os s).

Abbreviation sm := (stm session).

(** The dataclass defaults. *)
Definition new_session (w : world) : session :=
  Session "" "" 0 "" "" ∅ ∅ ∅ ∅ [] ∅ ∅ PNone [] ∅ ∅ None false "" ∅ ∅ true 30 false ∅ ∅ w.

(** ** The outside world *)

Section world_ops.
Context `{O : Os}.

(** [int(time.time() * 1000)], and [time.time()] as a decimal. *)
Definition now_ms : sm Z := fun s =>
  (s <| os ::= fun w => w <| n_clock ::= S |> |>, Ok (os_clock (n_clock (os s)))).
Definition seconds (ms : Z) : pyval := mk_float ms 3.

(** [int(time.time())]. *)
Definition now_s : sm Z := do! ms := now_ms in st_ret (ms ÷ 1000).

Definition urandom (k : nat) : sm bytes := fun s =>
  (s <| os ::= fun w => w <| n_random ::= S |> |>, Ok (os_random (n_random (os s)) k)).

(** One file operation: it may fail. *)
Definition io : sm unit := fun s =>
  (s <| os ::= fun w => w <| n_io ::= S |> |>,
   if os_io (n_io (os s)) then Ok tt else Err OSError).

Definition path_exists (s : session) (path : string) : bool :=
  bool_decide (is_Some (files (os s) !! path)).

(** Text mode: universal newlines on reading. *)
Fixpoint universal_newlines (s : string) : string :=
  match s with
  | EmptyString => ""
  | String c s' =>
      if code c =? 13 then
        match s' with
        | String d s'' =>
            if code d =? 10 then String d (universal_newlines s'')
            else String (chr8 10) (universal_newlines s')
        | EmptyString => String (chr8 10) ""
        end
      else String c (universal_newlines s')
  end.

(** [open(path, "r", encoding="utf-8").read()]. *)
Definition read_text (path : string) : sm string :=
  do! _ := io in
  do! s := st_get in
  do! raw := st_lift (of_option (files (os s) !! path) OSError) in
  do! text := st_lift (utf8_decode raw) in
  st_ret (universal_newlines text).

(** A file can be opened for writing when its directory exists; all the files of
    a session are in [secchat_dir]. *)
Definition writable : sm unit :=
  do! _ := io in
  do! s := st_get in
  st_lift (if bool_decide (secchat_dir s ∈ dirs (os s)) then Ok tt else Err OSError).

Definition write_text (path text : string) : sm unit :=
  do! _ := writable in
  do! raw := st_lift (utf8_encode text) in
  st_modify (fun s => s <| os ::= fun w => w <| files ::= <[path := raw]> |> |>).

(** [open(path, "a")]. *)
Definition append_text (path text : string) : sm unit :=
  do! _ := writable in
  do! raw := st_lift (utf8_encode text) in
  st_modify (fun s => s <| os ::= fun w =>
    w <| files ::= <[path := default "" (files w !! path) +:+ raw]> |> |>).

Definition makedirs (dir : string) : sm unit :=
  do! _ := io in
  st_modify (fun s => s <| os ::= fun w => w <| dirs ::= fun d => {[dir]} ∪ d |> |>).

Definition remove_file (path : string) : sm unit :=
  do! _ := io in
  do! s := st_get in
  if path_exists s path then
    st_modify (fun s => s <| os ::= fun w => w <| files ::= delete path |> |>)
  else st_fail OSError.

(** [os.replace(src, dst)]. *)
Definition replace_file (src dst : string) : sm unit :=
  do! _ := io in
  do! s := st_get in
  do! text := st_lift (of_option (files (os s) !! src) OSError) in
  st_modify (fun s => s <| os ::= fun w => w <| files ::= fun f => <[dst := text]> (delete src f) |> |>).

(** [os.path.getsize(path)]. *)
Definition getsize (path : string) : sm Z :=
  do! _ := io in
  do! s := st_get in
  st_lift (let! raw := of_option (files (os s) !! path) OSError in Ok (blen raw)).

(** [os.path.join(dir, name)] for a plain name. *)
Fixpoint ends_slash (s : string) : bool :=
  match s with
  | EmptyString => false
  | String c EmptyString => Ascii.eqb c "/"%char
  | String _ s' => ends_slash s'
  end.
Definition path_join (dir name : string) : string :=
  if nonempty dir && negb (ends_slash dir) then dir +:+ "/" +:+ name else dir +:+ name.

(** The part of a path [prefix * suffix] the star stands for. *)
Definition star_of (prefix suffix path : string) : option string :=
  if starts_with prefix path then
    let rest := sdrop (String.length prefix) path in
    let n := (String.length rest - String.length suffix)%nat in
    if (String.length suffix <=? String.length rest)%nat && String.eqb (sdrop n rest) suffix
       && string_all (fun c => negb (Ascii.eqb c "/"%char)) (stake n rest)
    then Some (stake n rest) else None
  else None.

(** [glob.glob(os.path.join(dir, f"{prefix}*{suffix}"))], with [dir] taken literally. *)
Definition glob_paths (s : session) (prefix suffix : string) : list string :=
  List.filter (fun path => match star_of (path_join (secchat_dir s) prefix) suffix path with
                           | Some _ => true | None => false end)
    (elements (dom (files (os s)))).
Definition glob (prefix suffix : string) : sm (list string) := fun s =>
  (s <| os ::= fun w => w <| n_io ::= S |> |>,
   Ok (os_scan (n_io (os s)) (glob_paths s prefix suffix))).
End world_ops.

(** ** The session *)

Definition CryptoStateErr (msg : string) : exc := CryptoStateError msg.

(** [_same_identity_key]. *)
Definition same_identity_key_str (a b : pyval) : bool :=
  let x := py_str (py_or a (PStr "")) in
  let y := py_str (py_or b (PStr "")) in
  match b64d x, b64d y with
  | Ok p, Ok q => String.eqb p q
  | _, _ => String.eqb x y
  end.

Definition reset : sm unit := st_modify (fun s => new_session (os s)).

Definition configure (key : bytes) (dir : string) (uid : Z) : sm unit :=
  st_modify (fun s => s <| master_key := key |> <| secchat_dir := dir |> <| my_uid := uid |>).

(** Is there a place to keep local state? ([self.secchat_dir and self.master_key]) *)
Definition has_store (s : session) : bool := nonempty (secchat_dir s) && nonempty (master_key s).

Definition local_path (s : session) (name : string) : string := path_join (secchat_dir s) name.
Definition conv_file (kind : string) (conv_id : Z) : string := kind +:+ dec conv_id +:+ ".bin".

Definition identity_key_path s := local_path s "identity_sk.bin".
Definition msg_cache_path s (conv_id : Z) := local_path s (conv_file "msgs_" conv_id).
Definition cache_policy_path s := local_path s "cache_policy.bin".
Definition backup_state_path s := local_path s "backup_state.bin".
Definition transcript_path s (conv_id : Z) := local_path s (conv_file "transcript_" conv_id).
Definition pqxdh_prekeys_path s := local_path s "pqxdh_prekeys.bin".
Definition double_ratchet_path s (conv_id : Z) := local_path s (conv_file "dr_" conv_id).
Definition double_ratchet_sessions_path s (conv_id : Z) :=
  local_path s (conv_file "dr_sessions_" conv_id).
Definition mls_state_path s := local_path s "mls_state.bin".
Definition verified_path s (conv_id : Z) := local_path s (conv_file "verified_" conv_id).
Definition identity_audit_path s (user_id : Z) := local_path s (conv_file "identity_audit_" user_id).
Definition auditor_state_path s := local_path s "auditor_state.bin".

Definition wire_cache_key (wire : string) : res string :=
  let! raw := utf8_encode wire in Ok ("wire:" +:+ sha256_hex raw).

Definition _add_control_warning (conv_id : Z) (warning : string) : sm unit :=
  let warning := strip warning in
  st_when (nonempty warning) (st_modify (fun s =>
    s <| control_warnings ::= fun m => <[conv_id := default [] (m !! conv_id) ++ [warning]]> m |>)).

Definition pop_control_warnings (conv_id : Z) : sm (list string) := fun s =>
  (s <| control_warnings ::= delete conv_id |>, Ok (default [] (control_warnings s !! conv_id))).

(** ** Sealed files

    The idiom every load and save of the class repeats. *)

Section sealed_files.
Context `{P : Prims, O : Os}.

(** [encrypt_with_key(self.master_key, text)]. *)
Definition seal (key : bytes) (text : string) : sm string :=
  do! nonce := urandom 12 in
  do! now := now_ms in
  st_lift (encrypt_with_key nonce now key text).

(** [fh.read().strip()], then [decrypt_with_key(self.master_key, token, check_replay=False)]. *)
Definition read_sealed (path : string) : sm pyval :=
  do! text := read_text path in
  do! s := st_get in
  st_lift (decrypt_with_key None (master_key s) (strip text)).

(** [json.loads(raw)] of what was sealed. *)
Definition py_loads (v : pyval) : res pyval :=
  match v with PStr t => json_loads t | _ => Err TypeError end.
Definition read_json (path : string) : sm pyval :=
  do! v := read_sealed path in st_lift (py_loads v).

(** [os.makedirs(...)], seal, [open(path, "w")], [fh.write(token)]. *)
Definition write_sealed (path text : string) : sm unit :=
  do! s := st_get in
  do! _ := makedirs (secchat_dir s) in
  do! token := seal (master_key s) text in
  write_text path token.

(** [except Exception: self.logger.warning(...)]. *)
Definition logged (m : sm unit) : sm unit := st_catch m (fun _ => st_ret tt).
End sealed_files.
