(* ===== verification/SessionFacts.v ===== *)
(** * Sealed files

    What the store helpers of [Session] do when the file system works: a sealed
    write replaces one file by a token that opens, under the same key, to the
    text written, and nothing else of the session changes. *)

From S2P Require Import Prelude Hashing Base64 PyVal Json JsonFacts Crypto Wire AuditClient Utils Session.

(** [s'] is [s] after some use of the outside world only. *)
Definition same_session (s s' : session) : Prop := s' = s <| os := os s' |>.

Lemma same_session_refl s : same_session s s.
Proof. unfold same_session. by destruct s. Qed.

Lemma same_session_trans a b c : same_session a b -> same_session b c -> same_session a c.
Proof. unfold same_session. intros -> ->. by destruct a, c. Qed.

Lemma same_session_os s f : same_session s (s <| os ::= f |>).
Proof. unfold same_session. by destruct s. Qed.
#[export] Hint Resolve same_session_refl same_session_os : secchat.

(** The fields of a session that only used the outside world. *)
Ltac same_fields H :=
  lazymatch type of H with same_session ?s ?s' =>
    unfold same_session in H; rewrite H; cbn end.

(** A character of a token. *)
Definition token_char (c : ascii) : bool := negb (is_py_space c) && is_ascii c.

Lemma b64encode_chars s : string_all token_char (b64encode s) = true.
Proof.
  unfold b64encode. rewrite string_all_app. apply andb_true_intro. split.
  - apply b64_body_all. intros z Hz.
    apply (check64_spec (fun z => token_char (b64_std z))); [reflexivity|done].
  - pose proof (b64_padding_pads s) as H. revert H. apply string_all_impl.
    intros c Hc. apply Ascii.eqb_eq in Hc as ->. reflexivity.
Qed.

Lemma not_cr c : token_char c = true -> (code c =? 13) = false.
Proof.
  unfold token_char, is_py_space. intros H. destruct (Z.eqb_spec (code c) 13) as [E|]; [|done].
  cbv zeta in H. rewrite E in H. discriminate.
Qed.

Lemma universal_newlines_token t : string_all token_char t = true -> universal_newlines t = t.
Proof.
  induction t as [|c t IH]; [done|]. cbn [string_all universal_newlines]. intros H. bool_hyps.
  rewrite not_cr, IH by done. done.
Qed.

Lemma strip_token t : string_all token_char t = true -> strip t = t.
Proof.
  intros H. unfold strip.
  assert (Hn : string_all (fun c => negb (is_py_space c)) t = true).
  { revert H. apply string_all_impl. intros c Hc. by apply andb_prop in Hc as [? _]. }
  rewrite lstrip_if_none by done. rewrite <- (sapp_nil_r t) at 1. by apply rstrip_if_app.
Qed.

Lemma token_valid t : string_all token_char t = true -> utf8_valid t = true.
Proof.
  intros H. apply utf8_valid_ascii. revert H. apply string_all_impl. intros c Hc.
  by apply andb_prop in Hc as [_ ?].
Qed.

(** ** Times *)

Lemma strip_zeros_spec k m :
  let p := strip_zeros k m in
  fst p * 10 ^ Z.of_nat (k - snd p) = m /\ (snd p <= k)%nat /\ float_ok (fst p) (snd p).
Proof.
  revert m. induction k as [|k IH]; intros m; cbn [strip_zeros].
  - cbn. split; [lia|]. split; [done|by left].
  - destruct (Z.eqb_spec (m mod 10) 0) as [E|E].
    + destruct (IH (m / 10)) as (H1 & H2 & H3). split; [|split; [lia|done]].
      rewrite Nat.sub_succ_l, Nat2Z.inj_succ, Z.pow_succ_r by lia.
      replace (fst _ * (10 * _)) with (10 * (fst (strip_zeros k (m / 10)) *
        10 ^ Z.of_nat (k - snd (strip_zeros k (m / 10))))) by ring.
      rewrite H1. dlia.
    + cbn. rewrite Nat.sub_diag. split; [lia|]. split; [lia|by right].
Qed.

(** [time.time()] is a well-formed decimal equal to the milliseconds over 1000. *)
Lemma seconds_spec ms :
  exists m k, seconds ms = PFloat m k /\ float_ok m k /\ (k <= 2)%nat /\
    m * 10 ^ Z.of_nat (2 - k) = ms.
Proof.
  unfold seconds, mk_float. cbn [Z.leb Z.compare Z.sub Z.add Z.to_nat Z.opp].
  pose proof (strip_zeros_spec (Z.to_nat (3 - 1)) ms) as (H1 & H2 & H3).
  eexists _, _. split; [reflexivity|]. done.
Qed.

Lemma seconds_ok ms : py_ok (seconds ms).
Proof. destruct (seconds_spec ms) as (m & k & -> & H & _). done. Qed.
#[export] Hint Resolve seconds_ok : secchat.

(** ** Paths *)

Lemma path_join_cons dir name : exists p, path_join dir name = p +:+ name /\
  forall name', path_join dir name' = p +:+ name'.
Proof.
  unfold path_join. destruct (nonempty dir && negb (ends_slash dir)).
  - exists (dir +:+ "/"). split; [by rewrite sapp_assoc|]. intros. by rewrite sapp_assoc.
  - by exists dir.
Qed.

Lemma local_path_inj s a b : local_path s a = local_path s b -> a = b.
Proof.
  unfold local_path. destruct (path_join_cons (secchat_dir s) a) as (p & -> & Hp).
  rewrite Hp. apply sapp_inj_l.
Qed.

Lemma conv_file_inj kind a b : conv_file kind a = conv_file kind b -> a = b.
Proof. unfold conv_file. intros H. by apply sapp_inj_l, sapp_inj_r, dec_inj in H. Qed.

(** The files of a kind are found by its pattern, with the conversation for the star. *)
Lemma star_of_conv_file s kind c :
  star_of (path_join (secchat_dir s) kind) ".bin" (local_path s (conv_file kind c)) = Some (dec c).
Proof.
  unfold local_path, conv_file. destruct (path_join_cons (secchat_dir s) kind) as (p & E & Hp).
  rewrite !Hp, <- sapp_assoc. unfold star_of. rewrite starts_with_app, sdrop_app.
  rewrite sapp_length. cbn [String.length].
  assert (E4 : (4 <=? String.length (dec c) + 4)%nat = true) by (apply Nat.leb_le; lia).
  rewrite E4.
  replace (String.length (dec c) + 4 - 4)%nat with (String.length (dec c)) by lia.
  rewrite sdrop_app, stake_app, string_eqb_refl. cbn [andb].
  pose proof (dec_not "/"%char c eq_refl ltac:(done)) as H.
  assert (Hs : string_all (fun x => negb (Ascii.eqb x "/"%char)) (dec c) = true); [|by rewrite Hs].
  revert H. apply string_all_impl. intros x. unfold not_char. by rewrite Ascii.eqb_sym.
Qed.

Lemma elem_of_glob_paths s kind path :
  path ∈ glob_paths s kind ".bin" <->
  is_Some (files (os s) !! path) /\ is_Some (star_of (path_join (secchat_dir s) kind) ".bin" path).
Proof.
  unfold glob_paths. rewrite list_elem_of_In, filter_In, <- list_elem_of_In, elem_of_elements.
  rewrite elem_of_dom. apply and_iff_compat_l.
  destruct (star_of _ _ path); split; done.
Qed.

Section facts.
Context `{L : PrimLaws, O : Os, OL : !OsLaws O}.

(** What a file opens to. *)
Definition opens (key : bytes) (raw : bytes) : res pyval :=
  let! text := utf8_decode raw in decrypt_with_key None key (strip (universal_newlines text)).

(** The file at [path] of [s] opens under the session's key to [v]. *)
Definition sealed_at (s : session) (path : string) (v : pyval) : Prop :=
  exists raw, files (os s) !! path = Some raw /\ opens (master_key s) raw = Ok v.

Lemma token_opens nonce now key text token :
  String.length nonce = 12%nat -> utf8_valid text = true ->
  encrypt_with_key nonce now key text = Ok token ->
  string_all token_char token = true /\ opens key token = Ok (PStr text).
Proof.
  intros Hn Hv H.
  assert (Ht : string_all token_char token = true).
  { unfold encrypt_with_key in H. inv_ok H. subst. apply b64encode_chars. }
  split; [done|]. unfold opens, utf8_decode. rewrite (token_valid _ Ht). cbn [res_bind].
  rewrite universal_newlines_token, strip_token by done. by eapply encrypt_then_decrypt.
Qed.

Lemma opens_token key t :
  string_all token_char t = true -> opens key t = decrypt_with_key None key t.
Proof using.
  intros Ht. unfold opens, utf8_decode. rewrite (token_valid _ Ht). cbn [res_bind].
  by rewrite universal_newlines_token, strip_token.
Qed.

(** Reading never changes the session, whatever the file system does. *)
Lemma read_sealed_same path s : same_session s (fst (read_sealed path s)).
Proof using.
  unfold read_sealed, read_text, st_bind, io, st_get, st_lift.
  destruct (os_io (n_io (os s))); cbn; [|reflexivity].
  destruct (files (os s) !! path) as [raw|]; cbn; [|reflexivity].
  destruct (utf8_decode raw); cbn; reflexivity.
Qed.

Context {IO : IoReliable O}.

Lemma read_sealed_eq path s :
  snd (read_sealed path s) =
  let! raw := of_option (files (os s) !! path) OSError in opens (master_key s) raw.
Proof using IO.
  unfold read_sealed, read_text, st_bind, io, st_get, st_lift, opens. rewrite io_reliable. cbn.
  destruct (files (os s) !! path) as [raw|]; cbn; [|done]. by destruct (utf8_decode raw).
Qed.

Lemma read_sealed_ok path s v :
  sealed_at s path v ->
  exists s', read_sealed path s = (s', Ok v) /\ same_session s s' /\
             files (os s') = files (os s) /\ dirs (os s') = dirs (os s).
Proof using IO.
  intros (raw & Hf & Ho). unfold read_sealed, read_text, st_bind, io, st_get, st_lift.
  rewrite io_reliable. cbn. rewrite Hf. cbn.
  unfold opens in Ho. destruct (utf8_decode raw) as [t|] eqn:E; [|done]. cbn in *.
  rewrite Ho. eexists. split; [reflexivity|]. split; [reflexivity|done].
Qed.

Lemma read_json_ok path s sp sort v :
  sealed_at s path (PStr (json_dumps sp sort v)) -> py_ok v ->
  exists s', read_json path s = (s', Ok (if sort then py_sort v else v)) /\ same_session s s' /\
             files (os s') = files (os s) /\ dirs (os s') = dirs (os s).
Proof using IO.
  intros Hs Hv. destruct (read_sealed_ok _ _ _ Hs) as (s' & E & H).
  exists s'. split; [|done]. unfold read_json, st_bind, st_lift. rewrite E. cbn [py_loads].
  by rewrite json_loads_dumps.
Qed.

(** The effect of a sealed write: one file, and a directory that now exists. *)
Definition wrote (s s' : session) (path text : string) : Prop :=
  same_session s s' /\ secchat_dir s ∈ dirs (os s') /\
  exists token, files (os s') = <[path := token]> (files (os s)) /\
                opens (master_key s) token = Ok (PStr text).

Lemma makedirs_ok dir s :
  exists s', makedirs dir s = (s', Ok tt) /\ same_session s s' /\
    files (os s') = files (os s) /\ dirs (os s') = {[dir]} ∪ dirs (os s).
Proof using IO.
  unfold makedirs, st_bind, io, st_modify. rewrite io_reliable.
  eexists. split; [reflexivity|]. split; [unfold same_session; by destruct s|done].
Qed.

Lemma now_ms_ok s :
  exists s' n, now_ms s = (s', Ok (os_clock n)) /\ same_session s s' /\
    files (os s') = files (os s) /\ dirs (os s') = dirs (os s).
Proof using.
  eexists _, _. split; [reflexivity|]. split; [unfold same_session; by destruct s|done].
Qed.

Lemma write_text_ok path text s :
  secchat_dir s ∈ dirs (os s) -> utf8_valid text = true ->
  exists s', write_text path text s = (s', Ok tt) /\ same_session s s' /\
    files (os s') = <[path := text]> (files (os s)) /\ dirs (os s') = dirs (os s).
Proof using IO.
  intros Hd Hv. unfold write_text, writable, st_bind, io, st_get, st_lift, st_modify.
  rewrite io_reliable. cbn. rewrite bool_decide_true by done. unfold utf8_encode. rewrite Hv.
  eexists. split; [reflexivity|]. split; [reflexivity|done].
Qed.

Lemma seal_ok key text s :
  aes_key_ok key = true -> utf8_valid text = true ->
  exists s' token, seal key text s = (s', Ok token) /\ same_session s s' /\
    files (os s') = files (os s) /\ dirs (os s') = dirs (os s) /\
    string_all token_char token = true /\ opens key token = Ok (PStr text).
Proof using L OL.
  intros Hk Hv. unfold seal, st_bind, urandom, now_ms, st_lift. cbn.
  set (nonce := os_random _ _).
  assert (Hn : String.length nonce = 12%nat) by apply os_random_len.
  rewrite encrypt_with_key_ok by done. eexists _, _. split; [reflexivity|].
  split; [unfold same_session; by destruct s|]. split; [done|]. split; [done|].
  eapply token_opens; [exact Hn|done|]. by apply encrypt_with_key_ok.
Qed.

Lemma write_sealed_ok path text s :
  aes_key_ok (master_key s) = true -> utf8_valid text = true ->
  exists s', write_sealed path text s = (s', Ok tt) /\ wrote s s' path text.
Proof using L OL IO.
  intros Hk Hv. unfold write_sealed, st_bind, st_get.
  destruct (makedirs_ok (secchat_dir s) s) as (s1 & -> & H01 & Hf1 & Hd1).
  destruct (seal_ok (master_key s) text s1 Hk Hv) as (s2 & token & -> & H12 & Hf2 & Hd2 & Ht & Ho).
  pose proof (same_session_trans _ _ _ H01 H12) as H02.
  destruct (write_text_ok path token s2) as (s3 & -> & H23 & Hf3 & Hd3).
  - rewrite Hd2, Hd1. same_fields H02. set_solver.
  - by apply token_valid.
  - exists s3. split; [done|]. split; [by eapply same_session_trans|].
    split; [rewrite Hd3, Hd2, Hd1; set_solver|].
    exists token. by rewrite Hf3, Hf2, Hf1.
Qed.

(** A write read back. *)
Lemma wrote_sealed s s' path text : wrote s s' path text -> sealed_at s' path (PStr text).
Proof using.
  intros (Hs & _ & token & Hf & Ho). exists token. rewrite Hf, lookup_insert_eq.
  split; [done|]. by same_fields Hs.
Qed.

Lemma wrote_exists s s' path text : wrote s s' path text -> path_exists s' path = true.
Proof using.
  intros (_ & _ & token & Hf & _). unfold path_exists. rewrite Hf, lookup_insert_eq.
  by apply bool_decide_true.
Qed.
End facts.

(** ** Frames

    What a method can have changed, whether it returned or raised and whatever
    the file system did. [R s0 s] relates the session before to a later one (it
    holds when only the world was used); [Q] holds of the files that may differ
    from those of [s0]. *)

Class Frame (R : session -> session -> Prop) : Prop := {
  frame_refl s : R s s;
  frame_trans a b c : R a b -> R b c -> R a c;
  frame_os s f : R s (s <| os ::= f |>);
  frame_dir s s' : R s s' -> secchat_dir s' = secchat_dir s
}.

#[export] Instance same_session_frame : Frame same_session.
Proof.
  split; [apply same_session_refl|apply same_session_trans|apply same_session_os|].
  intros s s' H. by same_fields H.
Qed.

#[export] Hint Resolve same_session_frame : secchat.

Definition touches (R : session -> session -> Prop) (Q : string -> Prop) (s0 s : session) : Prop :=
  R s0 s /\ forall p, ~ Q p -> files (os s) !! p = files (os s0) !! p.

Definition within {A} R Q (s0 : session) (m : sm A) : Prop :=
  forall s, touches R Q s0 s -> touches R Q s0 (fst (m s)).

Section within.
Context `{P : Prims, O : Os, F : Frame R}.
Variable Q : string -> Prop.
Variable s0 : session.

Lemma touches_refl : touches R Q s0 s0.
Proof using F. split; [apply frame_refl|done]. Qed.

Lemma within_run {A} (m : sm A) : within R Q s0 m -> touches R Q s0 (fst (m s0)).
Proof using F. intros H. apply H, touches_refl. Qed.

Lemma within_bind {A B} (m : sm A) (k : A -> sm B) :
  within R Q s0 m -> (forall a, within R Q s0 (k a)) -> within R Q s0 (st_bind m k).
Proof using. apply (keeps_bind (touches R Q s0)). Qed.

Lemma within_get {B} (k : session -> sm B) :
  (forall s, touches R Q s0 s -> within R Q s0 (k s)) -> within R Q s0 (st_bind st_get k).
Proof using. apply (keeps_get (touches R Q s0)). Qed.

Lemma within_catch {A} (m : sm A) h :
  within R Q s0 m -> (forall e, within R Q s0 (h e)) -> within R Q s0 (st_catch m h).
Proof using. apply (keeps_catch (touches R Q s0)). Qed.

Lemma within_fold {A B} (f : B -> A -> sm B) acc l :
  (forall b x, within R Q s0 (f b x)) -> within R Q s0 (st_fold f acc l).
Proof using. apply (keeps_fold (touches R Q s0)). Qed.

Lemma within_ret {A} (a : A) : within R Q s0 (st_ret a).
Proof using. by intros s H. Qed.
Lemma within_lift {A} (m : res A) : within R Q s0 (st_lift m).
Proof using. by intros s H. Qed.
Lemma within_fail {A} e : within R Q s0 (st_fail (A := A) e).
Proof using. by intros s H. Qed.

Lemma within_modify f :
  (forall s, touches R Q s0 s -> touches R Q s0 (f s)) -> within R Q s0 (st_modify f).
Proof using. done. Qed.

Lemma world_step s f :
  files (f (os s)) = files (os s) -> touches R Q s0 s -> touches R Q s0 (s <| os ::= f |>).
Proof using F.
  intros H [HR Hf]. split; [eapply frame_trans; [exact HR|apply frame_os]|].
  intros p Hp. cbn. rewrite H. by apply Hf.
Qed.

Lemma within_io : within R Q s0 io.
Proof using F. intros s. by apply world_step. Qed.
Lemma within_now_ms : within R Q s0 now_ms.
Proof using F. intros s. by apply world_step. Qed.
Lemma within_urandom k : within R Q s0 (urandom k).
Proof using F. intros s. by apply world_step. Qed.
Lemma within_glob a b : within R Q s0 (glob a b).
Proof using F. intros s. by apply world_step. Qed.

(** Operations on files, which must be in the frame. *)
Lemma files_step s (f : gmap string bytes -> gmap string bytes) :
  (forall p, ~ Q p -> f (files (os s)) !! p = files (os s) !! p) ->
  touches R Q s0 s -> touches R Q s0 (s <| os ::= fun w => w <| files ::= f |> |>).
Proof using F.
  intros H [HR Hf]. split; [eapply frame_trans; [exact HR|apply frame_os]|].
  intros p Hp. cbn. rewrite H by done. by apply Hf.
Qed.
End within.

Lemma touches_trans `{Frame R} Q a b c : touches R Q a b -> touches R Q b c -> touches R Q a c.
Proof.
  intros [H1 F1] [H2 F2]. split; [by eapply frame_trans|]. intros p Hp. by rewrite F2, F1.
Qed.

Lemma touches_weaken R (Q Q' : string -> Prop) a b :
  (forall p, Q p -> Q' p) -> touches R Q a b -> touches R Q' a b.
Proof. intros HQ [HR Hf]. split; [done|]. intros p Hp. apply Hf. intros ?. by apply Hp, HQ. Qed.

(** A call of a method whose frame, from the session it is called in, is within [Q]. *)
Lemma within_call `{Frame R} {A} (Q : string -> Prop) s0 (m : sm A) :
  (forall s, touches R Q s0 s -> exists Q', within R Q' s m /\ forall p, Q' p -> Q p) ->
  within R Q s0 m.
Proof.
  intros Hm s Hs. destruct (Hm s Hs) as (Q' & Hw & HQ). eapply touches_trans; [exact Hs|].
  apply (touches_weaken _ Q'); [done|]. by apply within_run.
Qed.

(** Walk through a method; what is left are the file operations and the updates. *)
Ltac within_tac :=
  repeat match goal with
  | |- within _ _ _ (st_bind st_get _) => apply within_get; intros ? ?
  | |- within _ _ _ (st_bind _ _) => apply within_bind; [|intros ?]
  | |- within _ _ _ (st_catch _ _) => apply within_catch; [|intros ?]
  | |- within _ _ _ (st_fold _ _ _) => apply within_fold; intros ? ?
  | |- within _ _ _ (st_lift _) => apply within_lift
  | |- within _ _ _ (st_ret _) => apply within_ret
  | |- within _ _ _ (st_fail _) => apply within_fail
  | |- within _ _ _ io => apply within_io
  | |- within _ _ _ now_ms => apply within_now_ms
  | |- within _ _ _ (urandom _) => apply within_urandom
  | |- within _ _ _ (glob _ _) => apply within_glob
  | |- within _ _ _ (logged _) => unfold logged
  | |- within _ _ _ (st_when _ _) => unfold st_when
  | |- within _ _ _ (let (_, _) := ?p in _) => destruct p
  | |- within _ _ _ (if ?b then _ else _) => destruct b
  | |- within _ _ _ (match ?x with _ => _ end) => destruct x
  end.

Section within_files.
Context `{P : Prims, O : Os, F : Frame R}.
Variable Q : string -> Prop.
Variable s0 : session.

Lemma within_makedirs dir : within R Q s0 (makedirs dir).
Proof using F.
  unfold makedirs. within_tac. apply within_modify. intros s. by apply world_step.
Qed.

Lemma within_read_text path : within R Q s0 (read_text path).
Proof using F. unfold read_text. within_tac. Qed.

Lemma within_read_sealed path : within R Q s0 (read_sealed path).
Proof using F. unfold read_sealed. within_tac. apply within_read_text. Qed.

Lemma within_read_json path : within R Q s0 (read_json path).
Proof using F. unfold read_json. within_tac. apply within_read_sealed. Qed.

Lemma within_getsize path : within R Q s0 (getsize path).
Proof using F. unfold getsize. within_tac. Qed.

Lemma within_seal key text : within R Q s0 (seal key text).
Proof using F. unfold seal. within_tac. Qed.

Lemma within_write_text path text : Q path -> within R Q s0 (write_text path text).
Proof using F.
  intros Hp. unfold write_text, writable. within_tac. apply within_modify. intros s.
  apply files_step. intros p Hn. apply lookup_insert_ne. by intros ->.
Qed.

Lemma within_append_text path text : Q path -> within R Q s0 (append_text path text).
Proof using F.
  intros Hp. unfold append_text, writable. within_tac. apply within_modify. intros s.
  apply (files_step _ _ _ (fun f => <[path := default "" (f !! path) +:+ _]> f)).
  intros p Hn. apply lookup_insert_ne. by intros ->.
Qed.

Lemma within_remove_file path : Q path -> within R Q s0 (remove_file path).
Proof using F.
  intros Hp. unfold remove_file. within_tac. apply within_modify. intros s'.
  apply files_step. intros p Hn. apply lookup_delete_ne. by intros ->.
Qed.

Lemma within_replace_file src dst : Q src -> Q dst -> within R Q s0 (replace_file src dst).
Proof using F.
  intros Hs Hd. unfold replace_file. within_tac. apply within_modify. intros s'.
  apply (files_step _ _ _ (fun f => <[dst := _]> (delete src f))). intros p Hn.
  rewrite lookup_insert_ne, lookup_delete_ne; [done|by intros ->..].
Qed.

Lemma within_write_sealed path text : Q path -> within R Q s0 (write_sealed path text).
Proof using F.
  intros Hp. unfold write_sealed. within_tac; [apply within_makedirs|apply within_seal|].
  by apply within_write_text.
Qed.
End within_files.
#[export] Hint Resolve within_makedirs within_read_text within_read_sealed within_read_json
  within_getsize within_seal within_write_text within_append_text within_remove_file
  within_replace_file within_write_sealed : secchat.

(** ** A concrete world

    A fixed clock, random bytes that repeat one letter per draw, and a file
    system that works: used to evaluate concrete runs. *)

Definition demo_os (now : Z) : Os := {|
  os_clock _ := now;
  os_random n k := fill (chr8 (65 + Z.of_nat n mod 26)) k;
  os_io _ := true;
  os_scan _ l := l;
  bridge_installed := false;
  bridge_reply _ := None
|}.

#[export] Instance demo_os_laws now : OsLaws (demo_os now).
Proof. split; [intros; apply fill_length|done]. Qed.

#[export] Instance demo_os_io now : IoReliable (demo_os now).
Proof. done. Qed.

Definition demo_session : session :=
  new_session (World ∅ ∅ 0 0 0) <| master_key := demo_key |> <| secchat_dir := "/home/an/.secchat" |>
    <| my_uid := 1 |>.
