(* ===== verification/CacheStore.v ===== *)
(** * The local plaintext cache (client/crypto_engine/session.py)

    The cache policy and the files [msgs_<conversation>.bin]: one sealed line per
    message already read, kept because the ratchet forgets the key that opened
    it. A policy can switch the cache off, globally or for a conversation, and
    give entries a life time.

    Reading a file line by line is modelled by reading it whole and splitting
    it: the two differ only for a file that is not UTF-8 after its first block. *)

From S2P Require Import Prelude Hashing Base64 PyVal Sorting Json Crypto Wire Ratchet AuditClient Utils.
From S2P Require Import Session.

Section cache.
Context `{P : Prims, O : Os}.

(** ** The policy *)

Definition get_cache_policy (s : session) : dict :=
  [("enabled", PBool (cache_enabled s)); ("ttl_days", PInt (cache_ttl_days s));
   ("clear_on_logout", PBool (cache_clear_on_logout s));
   ("disabled_conversation_ids", PList (map PInt (sort_ints (elements (cache_disabled_convs s)))))].

(** [str(cid).lstrip("-").isdigit() and int(cid) > 0], and the id. *)
Definition listed_id (v : pyval) : res (option Z) :=
  let digits := lstrip_if (fun c => Ascii.eqb c "-"%char) (py_str v) in
  if nonempty digits && string_all is_digit digits then
    let! z := py_int v in Ok (if 0 <? z then Some z else None)
  else Ok None.

Definition some_ids (l : list (option Z)) : gset Z := list_to_set (omap id l).

Definition load_cache_policy : sm dict :=
  do! s := st_get in
  if negb (has_store s) then st_ret (get_cache_policy s)
  else if negb (path_exists s (cache_policy_path s)) then st_ret (get_cache_policy s)
  else
    do! _ := logged (
      do! v := read_json (cache_policy_path s) in
      do! policy := st_lift (as_dict v) in
      do! _ := st_modify (fun s => s <| cache_enabled := truthy (dget "enabled" (PBool true) policy) |>) in
      do! ttl := st_lift (py_int (dget "ttl_days" (PInt 30) policy)) in
      do! _ := st_modify (fun s => s <| cache_ttl_days := ttl |>) in
      do! _ := st_modify (fun s =>
        s <| cache_clear_on_logout := truthy (dget "clear_on_logout" (PBool false) policy) |>) in
      let disabled := dget "disabled_conversation_ids" (PList []) policy in
      let disabled := if truthy disabled then disabled
                      else dget "no_cache_conversation_ids" (PList []) policy in
      do! ids := st_lift (let! l := py_iter disabled in res_map listed_id l) in
      st_modify (fun s => s <| cache_disabled_convs := some_ids ids |>)) in
    do! s := st_get in st_ret (get_cache_policy s).

Definition save_cache_policy : sm unit :=
  do! s := st_get in
  if negb (has_store s) then st_ret tt
  else logged (write_sealed (cache_policy_path s)
                 (json_dumps true false (PDict (get_cache_policy s)))).

Definition is_conversation_cache_enabled (s : session) (conv_id : Z) : bool :=
  cache_enabled s && (0 <? conv_id) && negb (bool_decide (conv_id ∈ cache_disabled_convs s)).

(** ** Removing cache files *)

(** [os.remove(path)] of each path, counting; an [OSError] is skipped. *)
Definition remove_each (paths : list string) : sm Z :=
  st_fold (fun removed path =>
    st_catch (do! _ := remove_file path in st_ret (removed + 1)) (fun _ => st_ret removed)) 0 paths.

Definition clear_message_cache (conv_id : option Z) : sm Z :=
  do! s := st_get in
  if negb (nonempty (secchat_dir s)) then st_ret 0
  else
    do! paths := (match conv_id with
                  | None => glob "msgs_" ".bin"
                  | Some c => st_ret (if path_exists s (msg_cache_path s c) then [msg_cache_path s c]
                                      else [])
                  end) in
    remove_each paths.

(** ** Entries *)

(** Comparison of decimals [m / 10^(k+1)]. *)
Definition decimal_leb (a b : Z * nat) : bool :=
  fst a * 10 ^ Z.of_nat (snd b) <=? fst b * 10 ^ Z.of_nat (snd a).

(** [_cache_entry_is_fresh]; a negative TTL never expires. *)
Definition _cache_entry_is_fresh (ttl : Z) (v : pyval) : sm bool :=
  if ttl <? 0 then st_ret true
  else
    do! entry := st_lift (as_dict v) in
    let at_ := dget "cached_at" PNone entry in
    do! at_ := (if truthy at_ then st_ret at_ else do! ms := now_ms in st_ret (seconds ms)) in
    do! cached_at := st_lift (py_float at_) in
    do! ms := now_ms in
    st_ret (decimal_leb (ms - ttl * 86400 * 1000, 2%nat) cached_at).

(** Whether a message may be cached. *)
Definition may_cache (s : session) (conv_id : Z) : bool :=
  is_conversation_cache_enabled s conv_id && has_store s.

(** Seal an entry and append it as a line. *)
Definition append_entry (conv_id : Z) (entry : Z -> res dict) : sm unit :=
  logged (
    do! s := st_get in
    do! _ := makedirs (secchat_dir s) in
    do! ms := now_ms in
    do! e := st_lift (entry ms) in
    do! token := seal (master_key s) (json_dumps true false (PDict e)) in
    append_text (msg_cache_path s conv_id) (token +:+ String (chr8 10) "")).

Definition message_entry (msg_id sender_id : Z) (plaintext ts : pyval) (ms : Z) : dict :=
  [("id", PInt msg_id); ("from", PInt sender_id); ("body", plaintext); ("ts", ts);
   ("cached_at", seconds ms)].

Definition cache_message (conv_id msg_id sender_id : Z) (plaintext ts : pyval) : sm unit :=
  do! s := st_get in
  if negb (may_cache s conv_id) || (msg_id =? 0) then st_ret tt
  else append_entry conv_id (fun ms => Ok (message_entry msg_id sender_id plaintext ts ms)).

Definition outgoing_entry (sender_id : Z) (plaintext ts : pyval) (hash : string) (ms : Z) : dict :=
  [("id", PInt 0); ("from", PInt sender_id); ("body", plaintext); ("ts", ts);
   ("cached_at", seconds ms); ("wire_hash", PStr hash)].

(** The hash is the cache key without its ["wire:"]. *)
Definition cache_outgoing_wire (conv_id : Z) (wire : string) (sender_id : Z) (plaintext ts : pyval) :
    sm unit :=
  do! s := st_get in
  if negb (may_cache s conv_id) || negb (nonempty wire) then st_ret tt
  else append_entry conv_id (fun ms =>
    let! key := wire_cache_key wire in
    Ok (outgoing_entry sender_id plaintext ts (sdrop 5 key) ms)).

(** ** Reading the cache *)

(** The result of [load_cached_messages]: message ids and [wire:] keys. *)
Record cached := Cached { by_id : gmap Z dict; by_wire : gmap string dict }.
#[export] Instance cached_eta : Eta cached := fun c => Cached (by_id c) (by_wire c).
Definition no_cached : cached := Cached ∅ ∅.

Record scan := Scan { kept_tokens : list string; changed : bool; out : cached }.
#[export] Instance scan_eta : Eta scan := fun a => Scan (kept_tokens a) (changed a) (out a).

Fixpoint split_lines (s : string) : list string :=
  match s with
  | EmptyString => [""]
  | String c s' =>
      if code c =? 10 then "" :: split_lines s'
      else match split_lines s' with
           | x :: l => String c x :: l
           | [] => [String c ""]
           end
  end.

(** Index one entry: by its id when it has one, and by the hash of its wire. *)
Definition index_entry (entry : dict) (c : cached) : res cached :=
  let! mid := py_int (dget "id" (PInt 0) entry) in
  let c := if mid =? 0 then c else c <| by_id ::= <[mid := entry]> |> in
  let wire_hash := get_str0 "wire_hash" entry in
  Ok (if nonempty wire_hash then c <| by_wire ::= <["wire:" +:+ wire_hash := entry]> |> else c).

(** The body of the loop: an entry that does not open, is too old, or cannot be
    indexed marks the file as changed; only the first two lose their line. *)
Definition scan_line (a : scan) (line : string) : sm scan :=
  let line := strip line in
  if negb (nonempty line) then st_ret a
  else
    do! s := st_get in
    do! opened := st_catch (
        do! v := st_lift (let! raw := decrypt_with_key None (master_key s) line in py_loads raw) in
        do! fresh := _cache_entry_is_fresh (cache_ttl_days s) v in
        st_ret (if fresh then Some v else None)) (fun _ => st_ret None) in
    match opened with
    | None => st_ret (a <| changed := true |>)
    | Some v =>
        let a := a <| kept_tokens ::= fun l => l ++ [line] |> in
        match (let! entry := as_dict v in index_entry entry (out a)) with
        | Ok c => st_ret (a <| out := c |>)
        | Err _ => st_ret (a <| changed := true |>)
        end
    end.

Definition cache_text (tokens : list string) : string :=
  match tokens with
  | [] => ""
  | _ => join (String (chr8 10) "") tokens +:+ String (chr8 10) ""
  end.

Definition load_cached_messages (conv_id : Z) : sm cached :=
  do! s := st_get in
  let path := msg_cache_path s conv_id in
  if negb (may_cache s conv_id) then st_ret no_cached
  else if negb (path_exists s path) then st_ret no_cached
  else
    do! text := st_catch (do! t := read_text path in st_ret (Some t)) (fun _ => st_ret None) in
    match text with
    | None => st_ret no_cached
    | Some t =>
        do! a := st_fold scan_line (Scan [] false no_cached) (split_lines t) in
        do! _ := st_when (changed a) (logged (
          let tmp := path +:+ ".tmp" in
          do! _ := write_text tmp (cache_text (kept_tokens a)) in
          replace_file tmp path)) in
        st_ret (out a)
    end.

(** ** Applying the policy *)

Definition enforce_one (touched : Z) (path : string) : sm Z :=
  st_catch (
    do! before := getsize path in
    do! s := st_get in
    do! conv_id := st_lift (
      let! star := of_option (star_of (path_join (secchat_dir s) "msgs_") ".bin" path) IndexError in
      int_of_string star) in
    if negb (is_conversation_cache_enabled s conv_id) then
      do! _ := remove_file path in st_ret (touched + 1)
    else
      do! _ := load_cached_messages conv_id in
      do! s := st_get in
      do! after := (if path_exists s path then getsize path else st_ret 0) in
      st_ret (if after =? before then touched else touched + 1)) (fun _ => st_ret touched).

Definition enforce_cache_policy : sm Z :=
  do! s := st_get in
  if negb (cache_enabled s) then clear_message_cache None
  else if negb (has_store s) then st_ret 0
  else
    do! paths := glob "msgs_" ".bin" in
    st_fold enforce_one 0 paths.

(** [int(cid)] of each id given, skipping what is no integer or not positive. *)
Definition positive_ids (l : list pyval) : gset Z :=
  some_ids (map (fun v => match py_int v with
                          | Ok z => if 0 <? z then Some z else None
                          | Err _ => None
                          end) l).

Definition set_cache_policy (enabled : option bool) (ttl_days : option Z)
    (clear_on_logout : option bool) (disabled_conversation_ids : option (list pyval)) : sm dict :=
  do! _ := st_modify (fun s => s <| cache_enabled ::= fun b => default b enabled |>
    <| cache_ttl_days ::= fun t => default t ttl_days |>
    <| cache_clear_on_logout ::= fun b => default b clear_on_logout |>
    <| cache_disabled_convs ::= fun x => default x (positive_ids <$> disabled_conversation_ids) |>) in
  do! _ := save_cache_policy in
  do! s := st_get in
  do! _ := (if negb (cache_enabled s) then clear_message_cache None else enforce_cache_policy) in
  do! s := st_get in
  st_ret (get_cache_policy s).

Definition set_conversation_cache_enabled (conv_id : Z) (enabled : bool) : sm dict :=
  if conv_id <=? 0 then do! s := st_get in st_ret (get_cache_policy s)
  else
    do! _ := (if enabled then
                st_modify (fun s => s <| cache_disabled_convs ::= fun x => x ∖ {[conv_id]} |>)
              else
                do! _ := st_modify (fun s =>
                  s <| cache_disabled_convs ::= fun x => {[conv_id]} ∪ x |>) in
                do! _ := clear_message_cache (Some conv_id) in st_ret tt) in
    do! _ := save_cache_policy in
    do! s := st_get in
    st_ret (get_cache_policy s).
End cache.
