(* ===== verification/CacheFacts.v ===== *)
(** * Facts about the plaintext cache

    The lines of a cache file, what one reading of it keeps and returns at a
    given time, and the theorems about the cache. *)

From S2P Require Import Prelude Hashing Base64 PyVal Sorting Json JsonFacts Crypto Wire AuditClient Utils.
From S2P Require Import Session SessionFacts CacheStore.

(** ** Lines *)

Definition NL : string := String (chr8 10) "".
Definition concat_lines (tokens : list string) : string :=
  foldr (fun t acc => t +:+ NL +:+ acc) "" tokens.
Lemma concat_lines_cons t l : concat_lines (t :: l) = t +:+ NL +:+ concat_lines l.
Proof. done. Qed.
Definition good_line (t : string) : Prop := string_all token_char t = true /\ t <> "".

Lemma code_not_in_token z c :
  token_char c = true -> is_py_space (chr8 z) = true -> 0 <= z < 256 -> (code c =? z) = false.
Proof.
  intros Hc Hz Hr. apply Z.eqb_neq. intros <-. rewrite chr8_code in Hz.
  unfold token_char in Hc. by rewrite Hz in Hc.
Qed.

Lemma split_lines_token t r :
  string_all token_char t = true -> split_lines (t +:+ NL +:+ r) = t :: split_lines r.
Proof.
  induction t as [|c t IH]; [done|]. cbn [string_all String.append split_lines]. intros H. bool_hyps.
  rewrite (code_not_in_token 10 c) by done. by rewrite IH.
Qed.

Lemma split_lines_concat tokens :
  Forall good_line tokens -> split_lines (concat_lines tokens) = tokens ++ [""].
Proof.
  induction 1 as [|t tokens [Ht _] _ IH]; [done|].
  by rewrite concat_lines_cons, split_lines_token, IH.
Qed.

Lemma concat_lines_app a b : concat_lines (a ++ b) = concat_lines a +:+ concat_lines b.
Proof.
  induction a as [|t a IH]; [done|].
  by rewrite <- app_comm_cons, !concat_lines_cons, IH, !sapp_assoc.
Qed.

Lemma cache_text_concat tokens : cache_text tokens = concat_lines tokens.
Proof.
  destruct tokens as [|t tokens]; [done|]. unfold cache_text. revert t.
  induction tokens as [|u l IH]; intros t; [done|].
  by rewrite join_cons, concat_lines_cons, <- IH, !sapp_assoc.
Qed.

Lemma concat_lines_plain tokens :
  Forall good_line tokens ->
  utf8_valid (concat_lines tokens) = true /\
  universal_newlines (concat_lines tokens) = concat_lines tokens.
Proof.
  induction 1 as [|t tokens [Ht _] _ [IHv IHu]]; [done|]. rewrite concat_lines_cons. split.
  - rewrite !utf8_valid_app; [done|reflexivity|by apply token_valid].
  - clear IHv. induction t as [|c t IH]; [cbn; by rewrite IHu|].
    cbn [string_all String.append universal_newlines] in *. bool_hyps.
    rewrite (not_cr c), IH by done. done.
Qed.

(** ** Times *)

Lemma decimal_leb_seconds a ms :
  exists d, py_float (seconds ms) = Ok d /\ decimal_leb (a, 2%nat) d = (a <=? ms).
Proof.
  destruct (seconds_spec ms) as (m & k & -> & _ & Hk & Hms). eexists. split; [reflexivity|].
  unfold decimal_leb. cbn [fst snd].
  assert (Hp : 0 < 10 ^ Z.of_nat k) by (apply Z.pow_pos_nonneg; lia).
  replace (10 ^ Z.of_nat 2) with (10 ^ Z.of_nat k * 10 ^ Z.of_nat (2 - k)).
  2: { rewrite <- Z.pow_add_r by lia. f_equal. lia. }
  rewrite (Z.mul_comm (10 ^ Z.of_nat k)), Z.mul_assoc, Hms.
  destruct (Z.leb_spec (a * 10 ^ Z.of_nat k) (ms * 10 ^ Z.of_nat k)), (Z.leb_spec a ms); nia || done.
Qed.

(** ** One reading of a file at a fixed time *)

Section reading.
Context `{L : PrimLaws, O : Os, OL : !OsLaws O, IO : !IoReliable O}.

(** [_cache_entry_is_fresh] at the time [now]. *)
Definition fresh_value (now ttl : Z) (v : pyval) : res bool :=
  if ttl <? 0 then Ok true
  else
    let! entry := as_dict v in
    let at_ := dget "cached_at" PNone entry in
    let! cached_at := py_float (if truthy at_ then at_ else seconds now) in
    Ok (decimal_leb (now - ttl * 86400 * 1000, 2%nat) cached_at).

(** The entry of a line that opens and is not expired. *)
Definition live_line (now ttl : Z) (key : bytes) (line : string) : option pyval :=
  match (let! raw := decrypt_with_key None key line in
         let! v := py_loads raw in
         let! fresh := fresh_value now ttl v in Ok (v, fresh)) with
  | Ok (v, true) => Some v
  | _ => None
  end.

Definition is_live now ttl key line : bool :=
  match live_line now ttl key line with Some _ => true | None => false end.

(** [scan_line] as a function of the time. *)
Definition scan_pure (now ttl : Z) (key : bytes) (a : scan) (line : string) : scan :=
  match live_line now ttl key line with
  | None => a <| changed := true |>
  | Some v =>
      let a := a <| kept_tokens ::= fun l => l ++ [line] |> in
      match (let! entry := as_dict v in index_entry entry (out a)) with
      | Ok c => a <| out := c |>
      | Err _ => a <| changed := true |>
      end
  end.

(** A run that only uses the world, and leaves the files alone. *)
Definition quiet (s s' : session) : Prop :=
  same_session s s' /\ files (os s') = files (os s) /\ dirs (os s') = dirs (os s).

Lemma quiet_refl s : quiet s s.
Proof using. split; [apply same_session_refl|done]. Qed.

Lemma quiet_trans a b c : quiet a b -> quiet b c -> quiet a c.
Proof using.
  intros (H1 & F1 & D1) (H2 & F2 & D2). split; [by eapply same_session_trans|].
  by rewrite F2, F1, D2, D1.
Qed.

Variable now : Z.
Hypothesis Hclock : forall n, os_clock n = now.

Lemma fresh_value_run ttl v s :
  exists s', _cache_entry_is_fresh ttl v s = (s', fresh_value now ttl v) /\ quiet s s'.
Proof using Hclock.
  unfold _cache_entry_is_fresh, fresh_value. destruct (ttl <? 0); [by eexists; split; [|apply quiet_refl]|].
  unfold st_bind, st_lift, now_ms. destruct (as_dict v) as [e|]; cbn -[decimal_leb py_float seconds];
    [|by eexists; split; [|apply quiet_refl]].
  destruct (truthy (dget "cached_at" PNone e)); cbn -[decimal_leb py_float seconds]; rewrite ?Hclock.
  - destruct (py_float _) as [d|]; cbn -[decimal_leb py_float seconds];
      (eexists; split; [by rewrite ?Hclock|by split; [unfold same_session; destruct s|]]).
  - destruct (py_float _) as [d|]; cbn -[decimal_leb py_float seconds];
      (eexists; split; [by rewrite ?Hclock|by split; [unfold same_session; destruct s|]]).
Qed.

Lemma scan_line_run a line s :
  good_line line ->
  exists s', scan_line a line s = (s', Ok (scan_pure now (cache_ttl_days s) (master_key s) a line)) /\
             quiet s s'.
Proof using Hclock.
  intros [Ht Hne]. unfold scan_line. rewrite strip_token by done.
  destruct line as [|c line]; [done|]. set (t := String c line) in *. cbn [nonempty t negb].
  fold t. unfold scan_pure, live_line, st_bind, st_get, st_catch, st_lift, st_ret.
  destruct (decrypt_with_key None (master_key s) t) as [raw|]; cbn [res_bind];
    [|by eexists; split; [|apply quiet_refl]].
  destruct (py_loads raw) as [v|]; cbn [res_bind]; [|by eexists; split; [|apply quiet_refl]].
  destruct (fresh_value_run (cache_ttl_days s) v s) as (s1 & -> & Hq).
  destruct (fresh_value now (cache_ttl_days s) v) as [[|]|]; cbn -[index_entry];
    [|by exists s1..].
  exists s1. split; [|done]. by destruct (let! entry := as_dict v in _).
Qed.

Lemma scan_fold_run a lines s :
  Forall good_line lines ->
  exists s', st_fold scan_line a (lines ++ [""]) s =
    (s', Ok (fold_left (scan_pure now (cache_ttl_days s) (master_key s)) lines a)) /\ quiet s s'.
Proof using Hclock.
  intros H. revert a s. induction H as [|t lines Ht _ IH]; intros a s.
  - by exists s; split; [|apply quiet_refl].
  - cbn [app st_fold fold_left]. destruct (scan_line_run a t s Ht) as (s1 & E & Hq).
    unfold st_bind. rewrite E. destruct (IH (scan_pure now (cache_ttl_days s) (master_key s) a t) s1)
      as (s2 & -> & Hq2).
    exists s2. split; [|by eapply quiet_trans]. destruct Hq as [Hs _]. by same_fields Hs.
Qed.

Section scan_result.
Variables (ttl : Z) (key : bytes).

Lemma scan_kept lines a :
  kept_tokens (fold_left (scan_pure now ttl key) lines a) =
  kept_tokens a ++ List.filter (is_live now ttl key) lines.
Proof using.
  revert a. induction lines as [|t lines IH]; intros a; cbn [fold_left List.filter];
    [by rewrite app_nil_r|].
  rewrite IH. unfold scan_pure, is_live. destruct (live_line now ttl key t) as [v|]; [|done].
  destruct (let! entry := as_dict v in _) as [c|]; cbn; by rewrite <- app_assoc.
Qed.

(** A file none of whose lines was dropped is left as it is. *)
Lemma scan_unchanged lines a :
  changed (fold_left (scan_pure now ttl key) lines a) = false ->
  changed a = false /\ List.filter (is_live now ttl key) lines = lines.
Proof using.
  revert a. induction lines as [|t lines IH]; intros a; cbn [fold_left List.filter]; [done|].
  intros [H ->]%IH. unfold scan_pure, is_live in *.
  destruct (live_line now ttl key t) as [v|]; [|done].
  by destruct (let! entry := as_dict v in _).
Qed.

(** Where the entries found come from. *)
Definition entries_from (c : cached) (lines : list string) : Prop :=
  forall mid e, by_id c !! mid = Some e ->
    mid <> 0 /\ py_int (dget "id" (PInt 0) e) = Ok mid /\
    exists line, line ∈ lines /\ live_line now ttl key line = Some (PDict e).

Lemma index_entry_spec e c c' :
  index_entry e c = Ok c' ->
  exists mid, py_int (dget "id" (PInt 0) e) = Ok mid /\
    by_id c' = if mid =? 0 then by_id c else <[mid := e]> (by_id c).
Proof using.
  unfold index_entry. intros H. inv_ok H. exists a. split; [done|]. subst c'.
  destruct (a =? 0); by destruct (nonempty _).
Qed.

Lemma scan_entries lines a all :
  entries_from (out a) all -> (forall t, t ∈ lines -> t ∈ all) ->
  entries_from (out (fold_left (scan_pure now ttl key) lines a)) all.
Proof using.
  revert a. induction lines as [|t lines IH]; intros a Ha Hin; [done|]. cbn [fold_left].
  apply IH; [|by intros u Hu; apply Hin; right].
  unfold scan_pure. destruct (live_line now ttl key t) as [v|] eqn:Ev; [|done].
  destruct (let! entry := as_dict v in _) as [c|] eqn:E; [|done]. cbn.
  destruct v; try discriminate E. cbn in E.
  apply index_entry_spec in E as (mid & Hmid & Hc). intros i e. rewrite Hc.
  destruct (Z.eqb_spec mid 0) as [->|Hne]; [apply Ha|].
  destruct (decide (i = mid)) as [->|Hi].
  - rewrite lookup_insert_eq. intros [= <-]. split; [done|]. split; [done|].
    exists t. split; [apply Hin; left|done].
  - rewrite lookup_insert_ne by done. apply Ha.
Qed.

(** The last line wins. *)
Lemma scan_last lines a t e mid :
  live_line now ttl key t = Some (PDict e) -> py_int (dget "id" (PInt 0) e) = Ok mid -> mid <> 0 ->
  by_id (out (fold_left (scan_pure now ttl key) (lines ++ [t]) a)) !! mid = Some e.
Proof using.
  intros Hl Hm Hne. rewrite fold_left_app. cbn [fold_left]. unfold scan_pure at 1. rewrite Hl.
  cbn [as_dict res_bind]. unfold index_entry. rewrite Hm. cbn [res_bind].
  apply Z.eqb_neq in Hne as ->. destruct (nonempty _); cbn; by rewrite lookup_insert_eq.
Qed.
End scan_result.

(** A cache file as the client writes it: [None] when there is none yet. *)
Definition cache_file (s : session) (c : Z) (tokens : list string) : Prop :=
  Forall good_line tokens /\
  default "" (files (os s) !! msg_cache_path s c) = concat_lines tokens.

Lemma read_text_ok path s raw :
  files (os s) !! path = Some raw -> utf8_valid raw = true ->
  exists s', read_text path s = (s', Ok (universal_newlines raw)) /\ quiet s s'.
Proof using IO.
  intros Hf Hv. unfold read_text, st_bind, io, st_get, st_lift. rewrite io_reliable. cbn.
  rewrite Hf. cbn. unfold utf8_decode. rewrite Hv. eexists. split; [reflexivity|].
  by split; [unfold same_session; destruct s|].
Qed.

(** What one call of [load_cached_messages] does. *)
Lemma load_run s c tokens :
  may_cache s c = true -> cache_file s c tokens -> path_exists s (msg_cache_path s c) = true ->
  secchat_dir s ∈ dirs (os s) ->
  let path := msg_cache_path s c in
  let a := fold_left (scan_pure now (cache_ttl_days s) (master_key s)) tokens (Scan [] false no_cached) in
  exists s', load_cached_messages c s = (s', Ok (out a)) /\ same_session s s' /\
    dirs (os s') = dirs (os s) /\
    files (os s') !! path = Some (concat_lines (List.filter (is_live now (cache_ttl_days s) (master_key s)) tokens)) /\
    forall p, p <> path -> p <> path +:+ ".tmp" -> files (os s') !! p = files (os s) !! p.
Proof using Hclock IO.
  intros Hmay [Hg Hfile] Hex Hdir path a. unfold load_cached_messages, st_bind, st_get.
  rewrite Hmay, Hex. cbn [negb]. unfold path_exists in Hex. apply bool_decide_eq_true in Hex as [raw Hraw].
  fold path in Hraw, Hfile. rewrite Hraw in Hfile. cbn in Hfile. subst raw.
  destruct (concat_lines_plain tokens Hg) as [Hv Hu].
  destruct (read_text_ok path s _ Hraw Hv) as (s1 & E1 & Hq1). fold path.
  unfold st_catch. rewrite E1, Hu. cbn [st_ret]. unfold st_ret at 1.
  rewrite split_lines_concat by done.
  destruct (scan_fold_run (Scan [] false no_cached) tokens s1 Hg) as (s2 & E2 & Hq2).
  rewrite E2. replace (cache_ttl_days s1) with (cache_ttl_days s) by
    (destruct Hq1 as [Hs _]; by same_fields Hs).
  replace (master_key s1) with (master_key s) by (destruct Hq1 as [Hs _]; by same_fields Hs).
  fold a. pose proof (quiet_trans _ _ _ Hq1 Hq2) as (Hs & Hf & Hd).
  unfold st_when. destruct (changed a) eqn:Ech.
  - unfold logged, st_catch.
    destruct (write_text_ok (path +:+ ".tmp") (cache_text (kept_tokens a)) s2) as (s3 & E3 & Hs3 & Hf3 & Hd3).
    + rewrite Hd. by same_fields Hs.
    + rewrite cache_text_concat. subst a. rewrite scan_kept. cbn [kept_tokens app].
      apply concat_lines_plain. apply Forall_forall. intros t Ht.
      apply list_elem_of_In, filter_In in Ht as [Ht _]. apply list_elem_of_In in Ht.
      rewrite Forall_forall in Hg. by apply Hg.
    + rewrite E3. unfold replace_file, st_bind, io, st_get, st_lift, st_modify, st_ret.
      rewrite io_reliable. cbn. rewrite Hf3, lookup_insert_eq. cbn.
      eexists. split; [reflexivity|]. split.
      { eapply same_session_trans; [exact Hs|]. eapply same_session_trans; [exact Hs3|].
        unfold same_session. by destruct s3. }
      split; [cbn; by rewrite Hd3, Hd|]. cbn. split.
      { rewrite lookup_insert_eq, cache_text_concat. subst a. by rewrite scan_kept. }
      intros p Hp Htmp. rewrite lookup_insert_ne, lookup_delete_ne, lookup_insert_ne, Hf by done.
      done.
  - unfold st_ret. eexists. split; [reflexivity|]. split; [done|]. split; [done|].
    rewrite Hf. split; [|done]. rewrite Hraw.
    subst a. apply scan_unchanged in Ech as [_ ->]. done.
Qed.
End reading.

(** ** Writing an entry *)

Section writing.
Context `{L : PrimLaws, O : Os, OL : !OsLaws O, IO : !IoReliable O}.
Variable now : Z.
Hypothesis Hclock : forall n, os_clock n = now.

Lemma append_text_ok path text s :
  secchat_dir s ∈ dirs (os s) -> utf8_valid text = true ->
  exists s', append_text path text s = (s', Ok tt) /\ same_session s s' /\
    files (os s') = <[path := default "" (files (os s) !! path) +:+ text]> (files (os s)) /\
    dirs (os s') = dirs (os s).
Proof using IO.
  intros Hd Hv. unfold append_text, writable, st_bind, io, st_get, st_lift, st_modify.
  rewrite io_reliable. cbn. rewrite bool_decide_true by done. unfold utf8_encode. rewrite Hv.
  eexists. split; [reflexivity|]. by split; [unfold same_session; destruct s|].
Qed.

Lemma append_entry_run c entry s :
  aes_key_ok (master_key s) = true -> py_ok (PDict (entry now)) ->
  exists s' token, append_entry c (fun ms => Ok (entry ms)) s = (s', Ok tt) /\ same_session s s' /\
    secchat_dir s ∈ dirs (os s') /\ good_line token /\
    decrypt_with_key None (master_key s) token = Ok (PStr (json_dumps true false (PDict (entry now)))) /\
    files (os s') = <[msg_cache_path s c :=
      default "" (files (os s) !! msg_cache_path s c) +:+ token +:+ NL]> (files (os s)).
Proof using Hclock IO L OL.
  intros Hk Hok. unfold append_entry, logged, st_catch, st_bind, st_get, st_lift.
  destruct (makedirs_ok (secchat_dir s) s) as (s1 & -> & H01 & Hf1 & Hd1).
  destruct (now_ms_ok s1) as (s2 & n & -> & H12 & Hf2 & Hd2). rewrite Hclock.
  destruct (seal_ok (master_key s) (json_dumps true false (PDict (entry now))) s2 Hk
    (json_dumps_valid true false _ Hok)) as (s3 & token & -> & H23 & Hf3 & Hd3 & Ht & Ho).
  rewrite opens_token in Ho by done.
  pose proof (same_session_trans _ _ _ (same_session_trans _ _ _ H01 H12) H23) as H03.
  destruct (append_text_ok (msg_cache_path s c) (token +:+ NL) s3) as (s4 & E4 & H34 & Hf4 & Hd4).
  - rewrite Hd3, Hd2, Hd1. same_fields H03. set_solver.
  - rewrite utf8_valid_app; [done|by apply token_valid].
  - fold NL. rewrite E4. exists s4, token. split; [done|]. split; [by eapply same_session_trans|].
    split; [rewrite Hd4, Hd3, Hd2, Hd1; set_solver|]. split.
    { split; [done|]. intros ->. unfold decrypt_with_key in Ho. cbn in Ho.
      by destruct (aes_key_ok (master_key s)). }
    split; [done|]. by rewrite Hf4, Hf3, Hf2, Hf1.
Qed.
End writing.

Lemma live_entry `{P : Prims} now ttl key token entry :
  decrypt_with_key None key token = Ok (PStr (json_dumps true false (PDict entry))) ->
  py_ok (PDict entry) -> fresh_value now ttl (PDict entry) = Ok true ->
  live_line now ttl key token = Some (PDict entry).
Proof.
  intros Hd Hok Hf. unfold live_line. rewrite Hd. cbn [res_bind py_loads].
  rewrite (json_loads_dumps true false _ Hok). cbn [res_bind]. by rewrite Hf.
Qed.

Lemma message_entry_ok mid snd plain ts ms :
  py_ok plain -> py_ok ts -> py_ok (PDict (message_entry mid snd plain ts ms)).
Proof. intros Hp Ht. unfold message_entry. py_ok_fields. Qed.

Lemma message_fresh then_ now ttl mid snd plain ts :
  ttl < 0 \/ now - ttl * 86400 * 1000 <= then_ <= now ->
  fresh_value now ttl (PDict (message_entry mid snd plain ts then_)) = Ok true.
Proof.
  intros H. unfold fresh_value. destruct (Z.ltb_spec ttl 0); [done|]. cbn [res_bind as_dict].
  destruct H as [?|H]; [lia|].
  change (dget "cached_at" PNone _) with (seconds then_).
  destruct (truthy (seconds then_)).
  - destruct (decimal_leb_seconds (now - ttl * 86400 * 1000) then_) as (d & -> & Hd).
    cbn [res_bind]. rewrite Hd. f_equal. apply Z.leb_le. lia.
  - destruct (decimal_leb_seconds (now - ttl * 86400 * 1000) now) as (d & -> & Hd).
    cbn [res_bind]. rewrite Hd. f_equal. apply Z.leb_le. lia.
Qed.

(** ** A conversation whose cache is off has no cache file *)

Definition cache_respected (s : session) : Prop :=
  forall c, is_conversation_cache_enabled s c = false -> files (os s) !! msg_cache_path s c = None.

Lemma msg_cache_path_inj s a b : msg_cache_path s a = msg_cache_path s b -> a = b.
Proof. intros H. by apply local_path_inj, conv_file_inj in H. Qed.

(** A path of the shape [msgs_*.bin] is not a temporary file, and ends in [.bin]. *)
Lemma tmp_not_cache s a b : msg_cache_path s a +:+ ".tmp" <> msg_cache_path s b.
Proof.
  unfold msg_cache_path, local_path, conv_file.
  destruct (path_join_cons (secchat_dir s) "") as (p & _ & Hp). rewrite !Hp. intros H.
  apply (f_equal srev) in H. rewrite !srev_app in H. discriminate H.
Qed.

Lemma policy_not_cache s c : cache_policy_path s <> msg_cache_path s c.
Proof. intros H. apply local_path_inj in H. discriminate H. Qed.

(** The frame of the methods that read or extend the cache of [c]. *)
Definition cache_frame (s : session) (c : Z) (p : string) : Prop :=
  p = msg_cache_path s c \/ p = msg_cache_path s c +:+ ".tmp".

Lemma frame_path `{Frame R} Q s0 s c : touches R Q s0 s -> msg_cache_path s c = msg_cache_path s0 c.
Proof. intros [HR _]. unfold msg_cache_path, local_path. by rewrite (frame_dir _ _ HR). Qed.

Section frames.
Context `{P : Prims, O : Os, F : Frame R}.

Lemma within_append_entry s0 c entry : within R (cache_frame s0 c) s0 (append_entry c entry).
Proof using F.
  unfold append_entry. within_tac; auto with secchat.
  apply within_append_text. left. by eapply frame_path.
Qed.

Lemma within_cache_message s0 c mid snd plain ts :
  within R (cache_frame s0 c) s0 (cache_message c mid snd plain ts).
Proof using F. unfold cache_message. within_tac. apply within_append_entry. Qed.

Lemma within_cache_outgoing_wire s0 c wire snd plain ts :
  within R (cache_frame s0 c) s0 (cache_outgoing_wire c wire snd plain ts).
Proof using F. unfold cache_outgoing_wire. within_tac. apply within_append_entry. Qed.

Lemma within_scan_line Q s0 a line : within R Q s0 (scan_line a line).
Proof using F. unfold scan_line, _cache_entry_is_fresh. within_tac. Qed.

Lemma within_load_cached_messages s0 c : within R (cache_frame s0 c) s0 (load_cached_messages c).
Proof using F.
  unfold load_cached_messages. within_tac; auto with secchat; [apply within_scan_line|..].
  - apply within_write_text. right. by erewrite frame_path.
  - apply within_replace_file; [right|left]; by erewrite frame_path.
Qed.
End frames.

Lemma respected_step c s s' :
  touches same_session (cache_frame s c) s s' -> is_conversation_cache_enabled s c = true ->
  cache_respected s -> cache_respected s'.
Proof.
  intros [Hs Hf] Hc Hr c' Hc'. unfold same_session in Hs.
  assert (Hsame : is_conversation_cache_enabled s' c' = is_conversation_cache_enabled s c')
    by (rewrite Hs; done).
  assert (Hpath : msg_cache_path s' c' = msg_cache_path s c') by (rewrite Hs; done).
  rewrite Hsame in Hc'. rewrite Hpath, Hf; [by apply Hr|].
  intros [E%msg_cache_path_inj|E]; [congruence|]. symmetry in E. by apply tmp_not_cache in E.
Qed.

Lemma may_cache_enabled s c : may_cache s c = true -> is_conversation_cache_enabled s c = true.
Proof. unfold may_cache. by intros [? _]%andb_prop. Qed.

(** Reading and extending the cache respect the policy, on any file system. *)
Lemma within_respects {A} c (m : sm A) s :
  (may_cache s c = false -> fst (m s) = s) -> within same_session (cache_frame s c) s m ->
  cache_respected s -> cache_respected (fst (m s)).
Proof.
  intros Hoff Hw Hr. destruct (may_cache s c) eqn:Hmay; [|by rewrite Hoff].
  apply (respected_step c s); [|by apply may_cache_enabled|done]. by apply within_run.
Qed.

Section use.
Context `{P : Prims, O : Os}.

Lemma cache_message_respects c mid sender plain ts s :
  cache_respected s -> cache_respected (fst (cache_message c mid sender plain ts s)).
Proof using.
  apply (within_respects c); [|apply within_cache_message].
  intros H. unfold cache_message, st_bind, st_get. by rewrite H.
Qed.

Lemma cache_outgoing_wire_respects c wire sender plain ts s :
  cache_respected s -> cache_respected (fst (cache_outgoing_wire c wire sender plain ts s)).
Proof using.
  apply (within_respects c); [|apply within_cache_outgoing_wire].
  intros H. unfold cache_outgoing_wire, st_bind, st_get. by rewrite H.
Qed.

Lemma load_cached_messages_respects c s :
  cache_respected s -> cache_respected (fst (load_cached_messages c s)).
Proof using.
  apply (within_respects c); [|apply within_load_cached_messages].
  intros H. unfold load_cached_messages, st_bind, st_get. by rewrite H.
Qed.
End use.

(** ** Applying a policy on a file system that works *)

Section applying.
Context `{L : PrimLaws, O : Os, OL : !OsLaws O, IO : !IoReliable O}.

Lemma remove_file_run path s :
  exists s', remove_file path s = (s', if path_exists s path then Ok tt else Err OSError) /\
    same_session s s' /\ files (os s') = delete path (files (os s)).
Proof using IO.
  unfold remove_file, st_bind, io, st_get, st_modify, st_fail. rewrite io_reliable.
  cbn -[path_exists]. unfold path_exists. cbn.
  destruct (files (os s) !! path) as [raw|] eqn:E; cbn.
  - eexists. split; [reflexivity|]. by split; [unfold same_session; destruct s|].
  - eexists. split; [reflexivity|]. split; [unfold same_session; by destruct s|].
    cbn. by rewrite delete_id.
Qed.

Lemma remove_each_run paths n s :
  exists s' k, st_fold (fun removed path =>
      st_catch (do! _ := remove_file path in st_ret (removed + 1)) (fun _ => st_ret removed)) n paths s
      = (s', Ok k) /\
    same_session s s' /\
    forall p, files (os s') !! p = if decide (p ∈ paths) then None else files (os s) !! p.
Proof using IO.
  revert n s. induction paths as [|q paths IH]; intros n s.
  - exists s, n. split; [done|]. split; [apply same_session_refl|done].
  - cbn [st_fold]. unfold st_bind at 1, st_catch at 1, st_bind at 1.
    destruct (remove_file_run q s) as (s1 & -> & Hs1 & Hf1).
    assert (Hrest : forall n', exists s' k, st_fold (fun removed path =>
        st_catch (do! _ := remove_file path in st_ret (removed + 1)) (fun _ => st_ret removed)) n' paths s1
        = (s', Ok k) /\ same_session s s' /\
      forall p, files (os s') !! p = if decide (p ∈ q :: paths) then None else files (os s) !! p).
    { intros n'. destruct (IH n' s1) as (s2 & k & E & Hs2 & Hf2). exists s2, k. split; [done|].
      split; [by eapply same_session_trans|]. intros p. rewrite Hf2, Hf1.
      destruct (decide (p ∈ paths)) as [Hin|Hin].
      - rewrite decide_True; [done|]. by apply list_elem_of_further.
      - destruct (decide (p = q)) as [->|Hne].
        + rewrite lookup_delete_eq, decide_True; [done|]. apply list_elem_of_here.
        + rewrite lookup_delete_ne by done. rewrite decide_False; [done|].
          intros [?|?]%elem_of_cons; done. }
    destruct (path_exists s q); apply Hrest.
Qed.

(** Removing what a listing shows leaves no file of the pattern. *)
Lemma glob_run s : exists s' l, glob "msgs_" ".bin" s = (s', Ok l) /\ quiet s s' /\
  forall p, p ∈ l <-> p ∈ glob_paths s "msgs_" ".bin".
Proof using OL.
  eexists _, _. split; [reflexivity|]. split; [by split; [unfold same_session; destruct s|]|].
  intros p. by rewrite os_scan_perm.
Qed.

Lemma cache_in_glob s c : is_Some (files (os s) !! msg_cache_path s c) ->
  msg_cache_path s c ∈ glob_paths s "msgs_" ".bin".
Proof using.
  intros H. apply elem_of_glob_paths. split; [done|]. unfold msg_cache_path.
  rewrite star_of_conv_file. by eexists.
Qed.

Lemma clear_all_run s :
  nonempty (secchat_dir s) = true ->
  exists s' k, clear_message_cache None s = (s', Ok k) /\ same_session s s' /\
    forall c, files (os s') !! msg_cache_path s c = None.
Proof using IO OL.
  intros Hd. unfold clear_message_cache, st_bind, st_get. rewrite Hd. cbn [negb].
  destruct (glob_run s) as (s1 & l & -> & (Hs1 & Hf1 & _) & Hl).
  destruct (remove_each_run l 0 s1) as (s2 & k & E & Hs2 & Hf2). exists s2, k.
  split; [exact E|]. split; [by eapply same_session_trans|]. intros c. rewrite Hf2, Hf1.
  destruct (decide (msg_cache_path s c ∈ l)) as [|Hn]; [done|].
  apply eq_None_not_Some. intros Hs. apply Hn, Hl, cache_in_glob, Hs.
Qed.

Lemma clear_one_run s c :
  nonempty (secchat_dir s) = true ->
  exists s' k, clear_message_cache (Some c) s = (s', Ok k) /\ same_session s s' /\
    forall p, files (os s') !! p = if decide (p = msg_cache_path s c) then None else files (os s) !! p.
Proof using IO.
  intros Hd. unfold clear_message_cache, st_bind, st_get, st_ret. rewrite Hd. cbn [negb].
  destruct (remove_each_run (if path_exists s (msg_cache_path s c) then [msg_cache_path s c] else []) 0 s)
    as (s2 & k & E & Hs2 & Hf2).
  exists s2, k. split; [exact E|]. split; [done|]. intros p. rewrite Hf2.
  unfold path_exists. destruct (files (os s) !! msg_cache_path s c) eqn:E'; cbn.
  - destruct (decide (p = msg_cache_path s c)) as [->|Hne].
    + rewrite decide_True; [done|]. apply list_elem_of_here.
    + rewrite decide_False; [done|]. intros [?|?%not_elem_of_nil]%elem_of_cons; done.
  - rewrite decide_False by apply not_elem_of_nil.
    destruct (decide (p = msg_cache_path s c)) as [->|]; done.
Qed.

Lemma within_save_cache_policy s0 :
  within same_session (fun p => p = cache_policy_path s0) s0 save_cache_policy.
Proof using.
  unfold save_cache_policy. within_tac. apply within_write_sealed.
  unfold cache_policy_path, local_path. by destruct H as [HR _]; rewrite (frame_dir _ _ HR).
Qed.

Lemma save_cache_policy_run s :
  exists s', save_cache_policy s = (s', Ok tt) /\ same_session s s' /\
    forall c, files (os s') !! msg_cache_path s c = files (os s) !! msg_cache_path s c.
Proof using.
  destruct (within_run _ _ _ (within_save_cache_policy s)) as [Hs Hf].
  exists (fst (save_cache_policy s)). split; [|split; [done|]].
  - unfold save_cache_policy, logged, st_catch, st_bind, st_get, st_ret.
    destruct (has_store s); [|done]. cbn [negb]. by destruct (write_sealed _ _ s) as [? [[]|]].
  - intros c. apply Hf. intros E. symmetry in E. by apply policy_not_cache in E.
Qed.

Lemma within_enforce_one s c n path :
  is_conversation_cache_enabled s c = false -> path <> msg_cache_path s c ->
  within same_session (fun q => q <> msg_cache_path s c) s (enforce_one n path).
Proof using.
  intros Hc Hne. unfold enforce_one. apply within_catch; [|intros ?; within_tac].
  apply within_bind; [auto with secchat|]. intros before. apply within_get. intros s1 H1.
  apply within_bind; [apply within_lift|]. intros cid.
  destruct (is_conversation_cache_enabled s1 cid) eqn:Ec; cbn [negb];
    [|within_tac; by apply within_remove_file].
  apply within_bind.
  - apply within_call. intros s2 [H2 _]. exists (cache_frame s2 cid).
    split; [apply within_load_cached_messages|]. destruct H1 as [H1 _].
    assert (Hen : is_conversation_cache_enabled s1 c = is_conversation_cache_enabled s c)
      by (by same_fields H1).
    assert (Hcid : cid <> c) by (intros ->; congruence).
    replace (msg_cache_path s c) with (msg_cache_path s2 c) by (by same_fields H2).
    intros p [->| ->]; [|apply tmp_not_cache]. by intros E%msg_cache_path_inj.
  - intros _. within_tac; auto with secchat.
Qed.

(** A conversation already without a file stays without one. *)
Lemma enforce_one_absent n path c s :
  is_conversation_cache_enabled s c = false -> files (os s) !! msg_cache_path s c = None ->
  let s' := fst (enforce_one n path s) in
  same_session s s' /\ files (os s') !! msg_cache_path s c = None.
Proof using.
  intros Hc Hf. destruct (decide (path = msg_cache_path s c)) as [->|Hne].
  - unfold enforce_one, st_catch, getsize, st_bind, io, st_get, st_lift.
    destruct (os_io (n_io (os s))); cbn -[same_session msg_cache_path].
    + rewrite Hf. by split; [unfold same_session; destruct s|].
    + by split; [unfold same_session; destruct s|].
  - assert (Hw : within same_session (fun q => q <> msg_cache_path s c) s (enforce_one n path))
      by (by apply within_enforce_one).
    destruct (within_run _ _ _ Hw) as [Hs Hn]. split; [done|]. rewrite Hn; [done|tauto].
Qed.

Lemma getsize_run path s raw :
  files (os s) !! path = Some raw ->
  exists s', getsize path s = (s', Ok (blen raw)) /\ same_session s s' /\ files (os s') = files (os s).
Proof using IO.
  intros Hf. unfold getsize, st_bind, io, st_get, st_lift. rewrite io_reliable. cbn. rewrite Hf.
  eexists. split; [reflexivity|]. by split; [unfold same_session; destruct s|].
Qed.

Lemma enforce_one_hit n c s :
  is_conversation_cache_enabled s c = false ->
  let s' := fst (enforce_one n (msg_cache_path s c) s) in
  same_session s s' /\ files (os s') !! msg_cache_path s c = None.
Proof using IO.
  intros Hc. destruct (files (os s) !! msg_cache_path s c) as [raw|] eqn:Hf; [|by apply enforce_one_absent].
  unfold enforce_one, st_catch, st_bind, st_get, st_lift.
  destruct (getsize_run (msg_cache_path s c) s raw Hf) as (s1 & -> & Hs1 & Hf1). cbv beta iota.
  assert (Hstar : star_of (path_join (secchat_dir s1) "msgs_") ".bin" (msg_cache_path s c) = Some (dec c)).
  { replace (secchat_dir s1) with (secchat_dir s) by (by same_fields Hs1). apply star_of_conv_file. }
  rewrite Hstar. cbn [of_option res_bind]. rewrite int_of_dec. cbv beta iota.
  replace (is_conversation_cache_enabled s1 c) with false by (by same_fields Hs1). cbn [negb].
  destruct (remove_file_run (msg_cache_path s c) s1) as (s2 & -> & Hs2 & Hf2).
  destruct (path_exists s1 _); cbv beta iota; unfold st_ret; cbn [fst];
    (split; [by eapply same_session_trans|by rewrite Hf2, lookup_delete_eq]).
Qed.

Lemma enforce_fold_absent l c n s :
  is_conversation_cache_enabled s c = false ->
  files (os s) !! msg_cache_path s c = None \/ msg_cache_path s c ∈ l ->
  let s' := fst (st_fold enforce_one n l s) in
  same_session s s' /\ files (os s') !! msg_cache_path s c = None.
Proof using IO.
  intros Hc. revert n s Hc. induction l as [|p l IH]; intros n s Hc Hin; cbn [st_fold].
  - destruct Hin as [?|?%not_elem_of_nil]; [|done]. by split; [apply same_session_refl|].
  - assert (H1 : let s1 := fst (enforce_one n p s) in same_session s s1 /\
      (files (os s1) !! msg_cache_path s c = None \/ msg_cache_path s c ∈ l)).
    { destruct (decide (p = msg_cache_path s c)) as [->|Hne].
      - destruct (enforce_one_hit n c s Hc) as [? ?]. split; [done|by left].
      - destruct Hin as [Hnone|[?|Hin]%elem_of_cons]; [|congruence|].
        + destruct (enforce_one_absent n p c s Hc Hnone) as [? ?]. split; [done|by left].
        + split; [|by right]. destruct (within_run _ _ _ (within_enforce_one s c n p Hc Hne)) as [? _].
          done. }
    assert (Hok : exists k, snd (enforce_one n p s) = Ok k).
    { unfold enforce_one at 1, st_catch. destruct (st_bind _ _ s) as [s1 [k|e]]; by eexists. }
    destruct (enforce_one n p s) as [s1 r] eqn:E. cbn in H1, Hok. destruct Hok as [k ->].
    destruct H1 as [Hs1 Hin1]. unfold st_bind. rewrite E.
    assert (Hp : msg_cache_path s1 c = msg_cache_path s c) by (by same_fields Hs1).
    destruct (IH k s1) as [Hs2 Hn2].
    + by same_fields Hs1.
    + by rewrite Hp.
    + rewrite Hp in Hn2. split; [by eapply same_session_trans|done].
Qed.

Lemma enforce_run s c :
  cache_enabled s = true -> has_store s = true -> is_conversation_cache_enabled s c = false ->
  let s' := fst (enforce_cache_policy s) in
  same_session s s' /\ files (os s') !! msg_cache_path s c = None.
Proof using IO OL.
  intros He Hst Hc. unfold enforce_cache_policy, st_bind, st_get. rewrite He, Hst. cbn [negb].
  destruct (glob_run s) as (s1 & l & -> & (Hs1 & Hf1 & _) & Hl).
  assert (Hp : msg_cache_path s1 c = msg_cache_path s c) by (by same_fields Hs1).
  destruct (enforce_fold_absent l c 0 s1) as [Hs2 Hn].
  - by same_fields Hs1.
  - rewrite Hp, Hf1. destruct (files (os s) !! msg_cache_path s c) eqn:E; [right|by left].
    apply Hl, cache_in_glob. by rewrite E.
  - rewrite Hp in Hn. split; [by eapply same_session_trans|done].
Qed.

Lemma respected_of s s' :
  same_session s s' ->
  (forall c, is_conversation_cache_enabled s c = false -> files (os s') !! msg_cache_path s c = None) ->
  cache_respected s'.
Proof using.
  intros Hs H c. replace (is_conversation_cache_enabled s' c) with (is_conversation_cache_enabled s c)
    by (by same_fields Hs).
  replace (msg_cache_path s' c) with (msg_cache_path s c) by (by same_fields Hs). apply H.
Qed.

(** Applying the current policy. *)
Lemma apply_policy_respects s :
  has_store s = true ->
  let m := if negb (cache_enabled s) then clear_message_cache None else enforce_cache_policy in
  cache_respected (fst (m s)).
Proof using IO OL.
  intros Hst m. subst m. destruct (cache_enabled s) eqn:He; cbn [negb].
  - destruct (enforce_run s 0) as [Hs _]; [done|done|by unfold is_conversation_cache_enabled; rewrite andb_false_r|].
    apply (respected_of s); [done|]. intros c Hc. by apply enforce_run.
  - apply andb_prop in Hst as [Hd _]. destruct (clear_all_run s Hd) as (s' & k & -> & Hs & Hn).
    apply (respected_of s); [done|]. intros c _. apply Hn.
Qed.

Lemma set_cache_policy_respects enabled ttl clear ids s :
  has_store s = true -> cache_respected (fst (set_cache_policy enabled ttl clear ids s)).
Proof using IO OL.
  intros Hst. unfold set_cache_policy, st_bind at 1, st_modify.
  lazymatch goal with |- context [st_bind save_cache_policy _ ?x] => set (s1 := x) end.
  assert (Hst1 : has_store s1 = true) by exact Hst. clearbody s1. clear Hst.
  destruct (save_cache_policy_run s1) as (s2 & E & Hs & _). unfold st_bind, st_get. rewrite E.
  pose proof (apply_policy_respects s2) as Hr. cbv zeta in Hr.
  destruct ((if negb (cache_enabled s2) then clear_message_cache None else enforce_cache_policy) s2)
    as [s3 [k|e]]; apply Hr; by same_fields Hs.
Qed.

Lemma set_conversation_respects c b s :
  has_store s = true -> cache_respected s ->
  cache_respected (fst (set_conversation_cache_enabled c b s)).
Proof using IO L OL.
  intros Hst Hr. unfold set_conversation_cache_enabled.
  destruct (c <=? 0); [done|]. destruct b; unfold st_bind, st_get, st_modify, st_ret.
  - lazymatch goal with |- context [save_cache_policy ?x] => set (s1 := x) end.
    destruct (save_cache_policy_run s1) as (s2 & E & Hs & Hf). rewrite E. cbn [fst].
    apply (respected_of s1); [done|]. intros c' Hc'. rewrite Hf.
    apply (Hr c'). revert Hc'. unfold is_conversation_cache_enabled. cbn.
    destruct (cache_enabled s), (0 <? c'); try done. cbn. rewrite !negb_false_iff, !bool_decide_eq_true.
    set_solver.
  - lazymatch goal with |- context [clear_message_cache _ ?x] => set (s1 := x) end.
    apply andb_prop in Hst as [Hd _].
    destruct (clear_one_run s1 c Hd) as (s2 & k & -> & Hs2 & Hf2).
    destruct (save_cache_policy_run s2) as (s3 & E & Hs3 & Hf3). rewrite E. cbn [fst].
    apply (respected_of s1); [by eapply same_session_trans|]. intros c' Hc'.
    replace (msg_cache_path s1 c') with (msg_cache_path s2 c') at 1 by (by same_fields Hs2).
    rewrite Hf3. replace (msg_cache_path s2 c') with (msg_cache_path s1 c') by (by same_fields Hs2).
    rewrite Hf2. destruct (decide (msg_cache_path s1 c' = msg_cache_path s1 c)) as [|Hne]; [done|].
    apply (Hr c'). revert Hc'. unfold is_conversation_cache_enabled. cbn.
    destruct (cache_enabled s), (0 <? c'); try done. cbn. rewrite !negb_false_iff, !bool_decide_eq_true.
    intros [->%elem_of_singleton|?]%elem_of_union; done.
Qed.
End applying.
