(* ===== verification/CacheProps.v ===== *)
(** * Theorems about the plaintext cache *)

From S2P Require Import Prelude Hashing Base64 PyVal Sorting Json JsonFacts Crypto Wire AuditClient Utils.
From S2P Require Import Session SessionFacts CacheStore CacheFacts.

(** C28: round trip of the plaintext cache. [cache_message] appends one sealed line
    to a well-formed cache file (or starts it), and a later
    [load_cached_messages], under the same key and within the life time of the
    policy, returns the message under its id, as it was cached. *)
Theorem cached_message_read_back `{L : PrimLaws}
    (O1 O2 : Os) (L1 : OsLaws O1) (IO1 : IoReliable O1) (IO2 : IoReliable O2)
    then_ now s c mid sender plain ts tokens :
  (forall n, os_clock (Os := O1) n = then_) -> (forall n, os_clock (Os := O2) n = now) ->
  may_cache s c = true -> aes_key_ok (master_key s) = true -> cache_file s c tokens ->
  mid <> 0 -> py_ok plain -> py_ok ts ->
  cache_ttl_days s < 0 \/ now - cache_ttl_days s * 86400 * 1000 <= then_ <= now ->
  exists s1 s2 token found,
    cache_message (O := O1) c mid sender plain ts s = (s1, Ok tt) /\
    cache_file s1 c (tokens ++ [token]) /\
    load_cached_messages (O := O2) c s1 = (s2, Ok found) /\
    by_id found !! mid = Some (message_entry mid sender plain ts then_).
Proof.
  intros C1 C2 Hmay Hk [Hg Hfile] Hmid Hp Ht Hfresh.
  pose proof (message_entry_ok mid sender plain ts then_ Hp Ht) as Hok.
  destruct (append_entry_run (O := O1) then_ C1 c (message_entry mid sender plain ts) s Hk Hok)
    as (s1 & token & E1 & Hs & Hd & Htok & Hdec & Hf).
  assert (Hcf : cache_file s1 c (tokens ++ [token])).
  { split; [apply Forall_app; split; [done|by constructor]|].
    replace (msg_cache_path s1 c) with (msg_cache_path s c) by (by same_fields Hs).
    rewrite Hf, lookup_insert_eq. cbn [default]. rewrite Hfile, concat_lines_app. done. }
  assert (Hsame : may_cache s1 c = true /\ cache_ttl_days s1 = cache_ttl_days s /\
    master_key s1 = master_key s /\ secchat_dir s1 = secchat_dir s /\
    msg_cache_path s1 c = msg_cache_path s c) by (same_fields Hs; done).
  destruct Hsame as (Hmay1 & Httl & Hkey & Hdir & Hpath).
  destruct (load_run (O := O2) now C2 s1 c (tokens ++ [token])) as (s2 & E2 & _ & _ & _ & _).
  - done.
  - done.
  - unfold path_exists. rewrite Hpath, Hf, lookup_insert_eq. by apply bool_decide_true.
  - by rewrite Hdir.
  - eexists s1, s2, token, _. split; [|split; [exact Hcf|split; [exact E2|]]].
    + unfold cache_message, st_bind, st_get. rewrite Hmay. cbn [negb orb].
      by apply Z.eqb_neq in Hmid as ->.
    + apply scan_last; [|done..]. rewrite Httl, Hkey. apply live_entry; [done|done|].
      by apply message_fresh.
Qed.

(** Expiry. Reading the cache of a conversation at a given time rewrites its
    file to exactly the lines that still open and are not older than the policy
    allows, and returns only entries of those lines, under their own ids: an
    expired plaintext is neither returned nor left on disk. *)
Theorem expired_plaintext_purged `{P : Prims, O : Os, IO : !IoReliable O} now s c tokens :
  (forall n, os_clock n = now) -> may_cache s c = true -> cache_file s c tokens ->
  path_exists s (msg_cache_path s c) = true -> secchat_dir s ∈ dirs (os s) ->
  exists s' found, load_cached_messages c s = (s', Ok found) /\
    files (os s') !! msg_cache_path s c =
      Some (concat_lines (List.filter (is_live now (cache_ttl_days s) (master_key s)) tokens)) /\
    forall mid e, by_id found !! mid = Some e ->
      mid <> 0 /\ py_int (dget "id" (PInt 0) e) = Ok mid /\
      exists line, line ∈ tokens /\ live_line now (cache_ttl_days s) (master_key s) line = Some (PDict e).
Proof.
  intros C Hmay Hcf Hex Hdir.
  destruct (load_run now C s c tokens Hmay Hcf Hex Hdir) as (s' & E & _ & _ & Hf & _).
  eexists s', _. split; [exact E|]. split; [exact Hf|].
  apply scan_entries; [|done]. by intros mid e.
Qed.

(** The policy is enforced. A conversation whose cache is off has no cache
    file: applying a policy establishes it (here: switching the cache off
    globally, or setting any policy), switching one conversation off keeps it and
    removes that conversation's file, and reading and extending the cache keep it,
    whatever the file system does. *)
Theorem disabled_cache_leaves_no_file `{L : PrimLaws, O : Os, OL : !OsLaws O, IO : !IoReliable O} s :
  has_store s = true ->
  (forall enabled ttl clear ids, cache_respected (fst (set_cache_policy enabled ttl clear ids s))) /\
  (cache_respected s ->
   (forall c b, cache_respected (fst (set_conversation_cache_enabled c b s))) /\
   (forall c mid sender plain ts, cache_respected (fst (cache_message c mid sender plain ts s))) /\
   (forall c wire sender plain ts, cache_respected (fst (cache_outgoing_wire c wire sender plain ts s))) /\
   (forall c, cache_respected (fst (load_cached_messages c s)))).
Proof.
  intros Hst. split; [intros; by apply set_cache_policy_respects|]. intros Hr.
  split; [intros; by apply set_conversation_respects|].
  split; [intros; by apply cache_message_respects|].
  split; [intros; by apply cache_outgoing_wire_respects|].
  intros. by apply load_cached_messages_respects.
Qed.

(** ** Witnesses *)

Definition demo_plain : pyval := PStr "see you at 9".

Lemma cached_message_read_back_witness :
  exists s1 s2 token found,
    cache_message (P := reference_prims) (O := demo_os 5000000) 7 41 2 demo_plain (PStr "09:30") demo_session
      = (s1, Ok tt) /\
    cache_file s1 7 ([] ++ [token]) /\
    load_cached_messages (P := reference_prims) (O := demo_os 9000000) 7 s1 = (s2, Ok found) /\
    by_id found !! 41 = Some (message_entry 41 2 demo_plain (PStr "09:30") 5000000).
Proof.
  apply (cached_message_read_back (demo_os 5000000) (demo_os 9000000) (demo_os_laws _) (demo_os_io _)
    (demo_os_io _) 5000000 9000000 demo_session 7 41 2 demo_plain (PStr "09:30") []); try reflexivity.
  - split; [constructor|reflexivity].
  - discriminate.
  - right. cbn. lia.
Defined.

(** A session whose cache of conversation 7 holds one message. *)
Definition demo_cached : session :=
  fst (cache_message (P := reference_prims) (O := demo_os 5000000) 7 41 2 demo_plain (PStr "09:30") demo_session).
Definition demo_line : string :=
  strip (default "" (files (os demo_cached) !! msg_cache_path demo_cached 7)).

Lemma expired_plaintext_purged_witness :
  exists s' found,
    load_cached_messages (P := reference_prims) (O := demo_os (5000001 + 30 * 86400000)) 7 demo_cached
      = (s', Ok found) /\
    files (os s') !! msg_cache_path demo_cached 7 = Some "" /\
    by_id found = ∅.
Proof.
  destruct (expired_plaintext_purged (P := reference_prims) (O := demo_os (5000001 + 30 * 86400000))
    (5000001 + 30 * 86400000) demo_cached 7 [demo_line]) as (s' & found & E & Hf & He).
  - done.
  - vm_compute. reflexivity.
  - split; [constructor; [|constructor]; split; [vm_compute; reflexivity|vm_compute; discriminate]|].
    vm_compute. reflexivity.
  - apply bool_decide_eq_true. vm_compute. exact (mk_is_Some _ _ eq_refl).
  - apply (bool_decide_unpack _). vm_compute. exact I.
  - exists s', found. split; [exact E|]. split; [rewrite Hf; vm_compute; reflexivity|].
    apply map_eq. intros mid. rewrite lookup_empty. apply eq_None_not_Some. intros [e H].
    destruct (He mid e H) as (_ & _ & line & Hin & Hl).
    apply list_elem_of_singleton in Hin as ->. vm_compute in Hl. discriminate Hl.
Defined.

Lemma disabled_cache_leaves_no_file_witness :
  cache_respected (fst (set_cache_policy (P := reference_prims) (O := demo_os 0) (Some false) None None None
    demo_cached)) /\
  files (os demo_cached) !! msg_cache_path demo_cached 7 <> None.
Proof.
  assert (Hst : has_store demo_cached = true) by (vm_compute; reflexivity).
  split; [|vm_compute; discriminate].
  exact (proj1 (disabled_cache_leaves_no_file (P := reference_prims) (O := demo_os 0) demo_cached Hst)
    (Some false) None None None).
Defined.
