(* ===== verification/Transcript.v ===== *)
(** * Transcripts, checkpoints and group membership (client/crypto_engine/session.py)

    A client keeps the digest of every message it accepted in a conversation and
    chains them into a head. A history the server returns later is compared with
    the digests; in groups the members exchange signed checkpoints of their heads.
    The list of members of a group is put in a canonical form and hashed.

    The state of a transcript is the JSON dictionary kept in
    [transcript_<conversation>.bin]. *)

From S2P Require Import Prelude Hashing Base64 PyVal Sorting Json Crypto Wire Ratchet AuditClient Utils.
From S2P Require Import Session.

Definition empty_transcript : dict := [("messages", PDict [])].

(** [sha256(json.dumps(v, sort_keys=True, separators=(",", ":"))).hexdigest()]. *)
Definition json_hash (v : pyval) : res string := let! raw := canonical v in Ok (sha256_hex raw).

(** ** Digests *)

(** [_is_user_visible_body]. *)
Definition visible_text (body : string) : bool :=
  negb (String.eqb body "__S2_CONTROL__") && negb (String.eqb body "__S3_INIT__") &&
  nonempty body && negb (starts_with "[Forward-secret]" body) && negb (starts_with "[Cannot" body) &&
  negb (starts_with "[Encrypted" body).
Definition _is_user_visible_body (body : pyval) : bool :=
  visible_text (py_str (py_or body (PStr ""))).

(** [int(item.get(k, item.get(k', 0)) or 0)]. *)
Definition int_field2 (k k' : string) (d : dict) : res Z :=
  py_int (py_or (dget k (dget k' (PInt 0) d) d) (PInt 0)).

Definition digest_json (id sender : Z) (body : string) (edit : Z) (deleted : bool) : pyval :=
  PDict [("id", PInt id); ("sender_id", PInt sender); ("body", PStr body);
         ("edit_target", PInt edit); ("deleted", PBool deleted)].

Definition _message_digest (item : dict) : res string :=
  let body := py_str (dget "body" (PStr "") item) in
  let! id := int_field2 "id" "msg_id" item in
  let! sender := int_field2 "sender_id" "from_id" item in
  let! edit := get_int0 "edit_target_message_id" item in
  json_hash (digest_json id sender body edit (truthy (dget "deleted" (PBool false) item))).

(** ** The chain *)

Definition zero_head : string := fill "0" 64.

Definition link_json (conv_id mid : Z) (digest head : string) : pyval :=
  PDict [("domain", PStr "SecChatTranscript"); ("conversation_id", PInt conv_id);
         ("message_id", PInt mid); ("message_digest", PStr digest); ("prev", PStr head)].

Definition link (conv_id : Z) (head : string) (item : Z * string) : res string :=
  json_hash (link_json conv_id (fst item) (snd item) head).

(** The heads after each item, oldest first. *)
Fixpoint chain (conv_id : Z) (head : string) (items : list (Z * string)) : res (list (Z * string)) :=
  match items with
  | [] => Ok []
  | it :: rest =>
      let! h := link conv_id head it in
      let! hs := chain conv_id h rest in
      Ok ((fst it, h) :: hs)
  end.

Definition item_ltb (a b : Z * string) : bool :=
  (fst a <? fst b) || ((fst a =? fst b) && str_ltb (snd a) (snd b)).

(** The messages that enter the chain: a positive integer id and a digest. *)
Definition chain_items (messages : dict) : list (Z * string) :=
  isort item_ltb (omap (fun kv =>
    match int_of_string (fst kv), snd kv with
    | Ok mid, PStr d => if (0 <? mid) && nonempty d then Some (mid, d) else None
    | _, _ => None
    end) messages).

Definition last_head (heads : list (Z * string)) : string :=
  match last heads with Some (_, h) => h | None => "" end.
Definition opt_id (o : option (Z * string)) : Z := match o with Some (mid, _) => mid | None => 0 end.

(** [_recompute_transcript_chain]. *)
Definition _recompute_transcript_chain (conv_id : Z) (state : dict) : res dict :=
  let state := setdefault "messages" (PDict []) state in
  let! messages := as_dict (dget "messages" PNone state) in
  let items := chain_items messages in
  let! heads := chain conv_id zero_head items in
  Ok (dset "transcript_heads_by_id"
        (PDict (dupdate [] (map (fun p => (dec (fst p), PStr (snd p))) heads)))
     (dset "transcript_last_message_id" (PInt (opt_id (last items)))
     (dset "transcript_first_message_id" (PInt (opt_id (head items)))
     (dset "transcript_message_count" (PInt (Z.of_nat (length items)))
     (dset "transcript_head" (PStr (last_head heads)) state))))).

(** ** Checkpoints *)

Definition _canonical_transcript_checkpoint (payload : dict) : res bytes :=
  canonical (PDict (List.filter (fun kv => negb (String.eqb (fst kv) "sig") &&
                                           negb (String.eqb (fst kv) "checkpoint_hash")) payload)).

Definition _transcript_checkpoint_hash (payload : dict) : res string :=
  let! raw := _canonical_transcript_checkpoint payload in Ok (sha256_hex raw).

Section transcript.
Context `{P : Prims, O : Os}.

Definition _load_transcript_state (conv_id : Z) : sm dict :=
  do! s := st_get in
  let path := transcript_path s conv_id in
  if negb (has_store s) then st_ret empty_transcript
  else if negb (path_exists s path) then st_ret empty_transcript
  else
    st_catch (
      do! v := read_json path in
      do! data := st_lift (as_dict v) in
      match dlookup "messages" data with
      | Some (PDict _) => st_ret data
      | _ => st_ret empty_transcript
      end) (fun _ => st_ret empty_transcript).

Definition _save_transcript_state (conv_id : Z) (state : dict) : sm unit :=
  do! s := st_get in
  if negb (has_store s) then st_ret tt
  else logged (write_sealed (transcript_path s conv_id) (json_dumps true false (PDict state))).

(** [state["updated_at"] = time.time()], then save. *)
Definition stamp_and_save (conv_id : Z) (state : dict) : sm unit :=
  do! ms := now_ms in
  _save_transcript_state conv_id (dset "updated_at" (seconds ms) state).

(** [state["messages"][k] = v]. *)
Definition set_message (k : string) (v : string) (state : dict) : res dict :=
  let state := setdefault "messages" (PDict []) state in
  let! messages := as_dict (dget "messages" PNone state) in
  Ok (dset "messages" (PDict (dset k (PStr v) messages)) state).

Definition message_item (msg_id sender_id : Z) (body ts : pyval) (edit : Z) (deleted : bool) : dict :=
  [("id", PInt msg_id); ("sender_id", PInt sender_id); ("body", body); ("time", ts);
   ("edit_target_message_id", PInt edit); ("deleted", PBool deleted)].

Definition record_transcript_message (conv_id msg_id sender_id : Z) (body ts : pyval)
    (edit_target_message_id : Z) (deleted : bool) : sm unit :=
  if (msg_id =? 0) || negb (_is_user_visible_body body) then st_ret tt
  else
    do! state := _load_transcript_state conv_id in
    do! state := st_lift (
      let! digest := _message_digest
                       (message_item msg_id sender_id body ts edit_target_message_id deleted) in
      let! state := set_message (dec msg_id) digest state in
      _recompute_transcript_chain conv_id state) in
    stamp_and_save conv_id state.

(** ** Comparing a history *)

(** The messages of a history that count: [(id, message)]. *)
Fixpoint relevant (messages : list pyval) : res (list (Z * dict)) :=
  match messages with
  | [] => Ok []
  | v :: rest =>
      let! msg := as_dict v in
      let! mid := get_int0 "id" msg in
      let body := PStr (py_str (dget "body" (PStr "") msg)) in
      let! l := relevant rest in
      Ok (if (0 <? mid) && _is_user_visible_body body then (mid, msg) :: l else l)
  end.

Definition out_of_order : string := "Server returned this history out of message order.".
Definition missing_warning (mid : Z) : string :=
  "Previously seen message #" +:+ dec mid +:+ " is missing from server history.".
Definition changed_warning (mid : Z) : string :=
  "Previously seen message #" +:+ dec mid +:+ " changed in server history.".

(** What one message seen before gives: [(mid, (sid, digest))]. *)
Definition compare_known (min_id max_id : Z) (incoming : list (string * string))
    (k : Z * (string * pyval)) : list string :=
  let '(mid, (sid, digest)) := k in
  match dlookup sid incoming with
  | None => if (min_id <=? mid) && (mid <=? max_id) then [missing_warning mid] else []
  | Some d => if py_eqb (PStr d) digest then [] else [changed_warning mid]
  end.

(** [sorted(known.items(), key=lambda item: int(item[0]))]. *)
Definition sorted_known (known : dict) : res (list (Z * (string * pyval))) :=
  let! keyed := res_map (fun kv => let! mid := int_of_string (fst kv) in Ok (mid, kv)) known in
  Ok (isort (by_key Z.ltb fst) keyed).

Definition history_warnings (ids : list Z) (incoming : list (string * string))
    (known : list (Z * (string * pyval))) : list string :=
  let min_id := foldr Z.min (hd 0 ids) ids in
  let max_id := foldr Z.max (hd 0 ids) ids in
  (if bool_decide (ids = sort_ints ids) then [] else [out_of_order]) ++
  concat (map (compare_known min_id max_id incoming) known).

Definition window_text (ids : list Z) (incoming : list (string * string)) : string :=
  join "|" (map (fun mid => dec mid +:+ ":" +:+ default "" (dlookup (dec mid) incoming)) ids).

Definition verify_history_consistency (conv_id : Z) (messages : list pyval) : sm (list string) :=
  do! rel := st_lift (relevant messages) in
  match rel with
  | [] => st_ret []
  | _ =>
      let ids := map fst rel in
      do! digests := st_lift (res_map (fun p => _message_digest (snd p)) rel) in
      let incoming := dupdate [] (zip (map dec ids) digests) in
      do! state := _load_transcript_state conv_id in
      let state := setdefault "messages" (PDict []) state in
      do! (state, warnings) := st_lift (
        let! known := as_dict (dget "messages" PNone state) in
        let! sorted := sorted_known known in
        let warnings := history_warnings ids incoming sorted in
        let known := dupdate known (map (fun p => (fst p, PStr (snd p))) incoming) in
        let state := dset "messages" (PDict known) state in
        let state := dset "last_window_hash" (PStr (sha256_hex (window_text ids incoming))) state in
        let! state := _recompute_transcript_chain conv_id state in
        Ok (state, warnings)) in
      do! _ := stamp_and_save conv_id state in
      st_ret (take 3 warnings)
  end.

(** ** Signed checkpoints *)

Definition checkpoint_payload (conv_id actor count first_id last_id : Z) (head prev : string)
    (pk : bytes) (ts : Z) : dict :=
  [("v", PInt 2); ("event", PStr "transcript_checkpoint"); ("conversation_id", PInt conv_id);
   ("actor_uid", PInt actor); ("message_count", PInt count); ("first_message_id", PInt first_id);
   ("last_message_id", PInt last_id); ("transcript_head", PStr head);
   ("prev_checkpoint_hash", PStr prev); ("identity_pk", PStr (b64encode pk)); ("ts", PInt ts)].

(** Sign a payload and add its hash. *)
Definition sign_checkpoint (sk : bytes) (payload : dict) : res dict :=
  let! raw := _canonical_transcript_checkpoint payload in
  let! sig := identity_sign sk raw in
  let payload := dset "sig" (PStr (b64encode sig)) payload in
  let! h := _transcript_checkpoint_hash payload in
  Ok (dset "checkpoint_hash" (PStr h) payload).

Definition create_transcript_checkpoint (conv_id : Z) : sm string :=
  do! s := st_get in
  if negb (nonempty (identity_sk s)) || negb (nonempty (identity_pk s)) then
    st_fail (CryptoStateError "Identity key is not loaded.")
  else
    do! state := _load_transcript_state conv_id in
    do! state := st_lift (_recompute_transcript_chain conv_id state) in
    do! (count, first_id, last_id) := st_lift (
      let! c := get_int0 "transcript_message_count" state in
      let! f := get_int0 "transcript_first_message_id" state in
      let! l := get_int0 "transcript_last_message_id" state in Ok (c, f, l)) in
    let head := get_str0 "transcript_head" state in
    if (count <=? 0) || (first_id <=? 0) || (last_id <=? 0) || negb (nonempty head) then st_ret ""
    else
      do! ts := now_ms in
      do! payload := st_lift (sign_checkpoint (identity_sk s)
        (checkpoint_payload conv_id (my_uid s) count first_id last_id head
           (get_str0 "last_own_transcript_checkpoint_hash" state) (identity_pk s) ts)) in
      let state := dset "last_own_transcript_checkpoint" (PDict payload)
        (dset "last_own_transcript_checkpoint_hash" (dget "checkpoint_hash" PNone payload) state) in
      do! _ := stamp_and_save conv_id state in
      do! token := st_lift (json_b64 (PDict payload)) in
      st_ret (PREFIX_MLS +:+ token).

(** What a received checkpoint claims. *)
Record claim := Claim {
  cl_actor : Z; cl_first : Z; cl_last : Z; cl_head : string; cl_pk : string
}.

Definition read_claim (payload : dict) : res claim :=
  let! actor := get_int0 "actor_uid" payload in
  let! first_id := get_int0 "first_message_id" payload in
  let! last_id := get_int0 "last_message_id" payload in
  Ok (Claim actor first_id last_id (get_str0 "transcript_head" payload) (get_str0 "identity_pk" payload)).

Definition warn (w : string) : stm (list string) unit := st_modify (fun ws => ws ++ [w]).

(** The checks inside the [try]; the state is the list of warnings. *)
Definition check_checkpoint (conv_id : Z) (payload : dict) (verify_signature : bool) :
    stm (list string) unit :=
  do! conv := st_lift (get_int0 "conversation_id" payload) in
  do! _ := st_when (negb (conv =? conv_id))
             (warn "Transcript checkpoint targets a different conversation.") in
  do! _ := st_when (negb (String.eqb (get_str0 "event" payload) "transcript_checkpoint"))
             (warn "Transcript checkpoint has an invalid event type.") in
  do! actor := st_lift (get_int0 "actor_uid" payload) in
  do! first_id := st_lift (get_int0 "first_message_id" payload) in
  do! last_id := st_lift (get_int0 "last_message_id" payload) in
  do! count := st_lift (get_int0 "message_count" payload) in
  do! _ := st_when ((actor <=? 0) || (first_id <=? 0) || (last_id <=? 0) || (count <=? 0) ||
                    negb (py_len (get_str0 "transcript_head" payload) =? 64))
             (warn "Transcript checkpoint is missing required fields.") in
  st_when verify_signature (st_lift (
    let! pk := b64decode (get_str0 "identity_pk" payload) in
    let! sig := b64decode (py_str (dget "sig" (PStr "") payload)) in
    let! raw := _canonical_transcript_checkpoint payload in
    identity_verify pk raw sig)).

Definition bad_signature : string := "Transcript checkpoint has an invalid signature or encoding.".
Definition rolled_back : string := "Transcript checkpoint rolled back a peer view.".
Definition changed_view : string :=
  "Transcript checkpoint changed a peer view at the same message.".
Definition broken_chain : string :=
  "Transcript checkpoint chain does not continue the previous peer checkpoint.".
Definition order_mismatch : string := "Transcript checkpoint does not match the local message order.".

(** Against the previous checkpoint of the same peer. *)
Definition previous_warnings (previous : pyval) (payload : dict) (cl : claim) : res (list string) :=
  match previous with
  | PDict prev =>
      let! prev_last := get_int0 "last_message_id" prev in
      let prev_head := get_str0 "transcript_head" prev in
      let prev_hash := get_str0 "checkpoint_hash" prev in
      let declared := get_str0 "prev_checkpoint_hash" payload in
      Ok ((if cl_last cl <? prev_last then [rolled_back] else []) ++
          (if (cl_last cl =? prev_last) && nonempty prev_head && nonempty (cl_head cl) &&
              negb (String.eqb prev_head (cl_head cl)) then [changed_view] else []) ++
          (if nonempty declared && nonempty prev_hash && negb (String.eqb declared prev_hash)
           then [broken_chain] else []))
  | _ => Ok []
  end.

(** Against the local transcript, when both start at the same message. *)
Definition local_warnings (state : dict) (cl : claim) : res (list string) :=
  let! local_first := get_int0 "transcript_first_message_id" state in
  if (0 <? local_first) && (0 <? cl_first cl) && (local_first =? cl_first cl) then
    let at_last := match dget "transcript_heads_by_id" (PDict []) state with
                   | PDict heads => dget (dec (cl_last cl)) PNone heads
                   | _ => PStr ""
                   end in
    if truthy at_last && nonempty (cl_head cl) && negb (py_eqb at_last (PStr (cl_head cl))) then
      Ok [order_mismatch]
    else
      let! local_last := get_int0 "transcript_last_message_id" state in
      let local_head := get_str0 "transcript_head" state in
      Ok (if (local_last =? cl_last cl) && nonempty local_head && nonempty (cl_head cl) &&
             negb (String.eqb local_head (cl_head cl)) then [order_mismatch] else [])
  else Ok [].

(** What is remembered of a peer's checkpoint. *)
Definition stored_checkpoint (payload : dict) (cl : claim) (hash : string) (ms : Z) : res dict :=
  let! count := get_int0 "message_count" payload in
  let! ts := get_int0 "ts" payload in
  Ok [("actor_uid", PInt (cl_actor cl)); ("identity_pk", PStr (cl_pk cl));
      ("message_count", PInt count); ("first_message_id", PInt (cl_first cl));
      ("last_message_id", PInt (cl_last cl)); ("transcript_head", PStr (cl_head cl));
      ("prev_checkpoint_hash", PStr (get_str0 "prev_checkpoint_hash" payload));
      ("checkpoint_hash", PStr hash); ("ts", PInt ts); ("seen_at", seconds ms)].

Definition record_transcript_checkpoint (conv_id : Z) (payload : dict) (verify_signature : bool) :
    sm (list string) :=
  let checked := check_checkpoint conv_id payload verify_signature [] in
  let warnings := match snd checked with
                  | Ok _ => fst checked
                  | Err _ => fst checked ++ [bad_signature]
                  end in
  do! cl := st_lift (read_claim payload) in
  do! state := _load_transcript_state conv_id in
  do! state := st_lift (_recompute_transcript_chain conv_id state) in
  let state := setdefault "peer_transcript_checkpoints" (PDict []) state in
  let peers := dget "peer_transcript_checkpoints" PNone state in
  let peer_key := if nonempty (cl_pk cl) then cl_pk cl else "uid:" +:+ dec (cl_actor cl) in
  let previous := match peers with PDict d => dget peer_key PNone d | _ => PNone end in
  do! w1 := st_lift (previous_warnings previous payload cl) in
  do! w2 := st_lift (local_warnings state cl) in
  let warnings := warnings ++ w1 ++ w2 in
  do! hash := st_lift (_transcript_checkpoint_hash payload) in
  do! ms := now_ms in
  do! stored := st_lift (stored_checkpoint payload cl hash ms) in
  do! peers := st_lift (match peers with PDict d => Ok d | _ => Err TypeError end) in
  let state := dset "peer_transcript_checkpoints" (PDict (dset peer_key (PDict stored) peers)) state in
  do! _ := stamp_and_save conv_id state in
  do! _ := st_for warnings (_add_control_warning conv_id) in
  st_ret (take 5 warnings).

(** ** Group membership *)

(** The user id and role of one member, [None] when it is skipped. *)
Definition member_of (v : pyval) : option (Z * bool) :=
  let '(value, role) :=
    match v with
    | PDict d => (dget "user_id" (dget "id" (PInt 0) d) d,
                  py_str (py_or (dget "role" (PStr "member") d) (PStr "member")))
    | _ => (v, "member")
    end in
  match py_int value with
  | Ok uid => if 0 <? uid then Some (uid, String.eqb role "admin") else None
  | Err _ => None
  end.

(** [by_uid]: is the user an admin? Once an admin, always one. *)
Definition add_member (by_uid : gmap Z bool) (m : Z * bool) : gmap Z bool :=
  <[fst m := default false (by_uid !! fst m) || snd m]> by_uid.

Definition normalize_group_members (members : list pyval) : list (Z * bool) :=
  let by_uid := fold_left add_member (omap member_of members) ∅ in
  map (fun uid => (uid, default false (by_uid !! uid))) (sort_ints (elements (dom by_uid))).

Definition role_name (admin : bool) : string := if admin then "admin" else "member".
Definition member_json (m : Z * bool) : pyval :=
  PDict [("user_id", PInt (fst m)); ("role", PStr (role_name (snd m)))].

Definition group_membership_hash (members : list pyval) : res string :=
  json_hash (PList (map member_json (normalize_group_members members))).

Definition _group_role_for_uid (members : list pyval) (uid : Z) : string :=
  match List.find (fun m => fst m =? uid) (normalize_group_members members) with
  | Some m => role_name (snd m)
  | None => ""
  end.

Definition group_member_ids_hash (members : list pyval) : res string :=
  let ids := map fst (normalize_group_members members) in
  json_hash (PList (map PInt (sort_ints (remove_dups ids)))).

Definition verify_group_membership (conv_id : Z) (members : list pyval) : sm (list string) :=
  do! state := _load_transcript_state conv_id in
  let canonical := map member_json (normalize_group_members members) in
  do! digest := st_lift (group_membership_hash canonical) in
  do! ids_digest := st_lift (group_member_ids_hash canonical) in
  do! ms := now_ms in
  let state := dset "membership_updated_at" (seconds ms)
    (dset "membership_members" (PList canonical)
    (dset "member_ids_hash" (PStr ids_digest) (dset "membership_hash" (PStr digest) state))) in
  do! _ := _save_transcript_state conv_id state in
  st_ret [].
End transcript.
