(* ===== verification/TranscriptFacts.v ===== *)
(** * Facts about transcripts *)

From S2P Require Import Prelude Hashing Base64 PyVal Sorting Json JsonFacts Crypto Wire Ratchet.
From S2P Require Import RatchetFacts AuditClient Utils Session SessionFacts Transcript.

(** Two texts with the same SHA-256, or a text whose hash is the starting head:
    what a forged transcript would have to exhibit. *)
Definition hash_break : Prop :=
  (exists x y, x <> y /\ sha256 x = sha256 y) \/ (exists x, sha256_hex x = zero_head).

(** ** Hashing canonical JSON *)

Lemma canonical_json_ok v : py_ok v -> canonical v = Ok (json_dumps false true v).
Proof. intros H. unfold canonical, utf8_encode. by rewrite json_dumps_valid. Qed.

Lemma json_hash_ok v : py_ok v -> json_hash v = Ok (sha256_hex (json_dumps false true v)).
Proof. intros H. unfold json_hash. by rewrite canonical_json_ok. Qed.

Lemma json_hash_inj v w h :
  py_ok v -> py_ok w -> json_hash v = Ok h -> json_hash w = Ok h -> py_sort v = py_sort w \/ hash_break.
Proof.
  intros Hv Hw. rewrite !json_hash_ok by done. intros [= Ev] [= Ew].
  destruct (decide (json_dumps false true v = json_dumps false true w)) as [E|Hne].
  - left. by apply (json_dumps_inj false true v w).
  - right. left. eexists _, _. split; [exact Hne|]. apply sha256_hex_inj. congruence.
Qed.

Lemma sha256_hex_valid x : utf8_valid (sha256_hex x) = true.
Proof. apply utf8_valid_ascii, hex_ascii. Qed.
#[export] Hint Resolve sha256_hex_valid : secchat.

(** ** The chain *)

Definition item_ok (it : Z * string) : Prop := utf8_valid (snd it) = true.

Lemma link_json_ok conv mid digest head :
  utf8_valid digest = true -> utf8_valid head = true -> py_ok (link_json conv mid digest head).
Proof. intros Hd Hh. unfold link_json. py_ok_fields. Qed.

Lemma link_ok conv head it :
  item_ok it -> utf8_valid head = true ->
  link conv head it = Ok (sha256_hex (json_dumps false true (link_json conv (fst it) (snd it) head))).
Proof. intros Hi Hh. unfold link. apply json_hash_ok. by apply link_json_ok. Qed.

Lemma link_inj conv h1 h2 it1 it2 h :
  item_ok it1 -> item_ok it2 -> utf8_valid h1 = true -> utf8_valid h2 = true ->
  link conv h1 it1 = Ok h -> link conv h2 it2 = Ok h -> (h1 = h2 /\ it1 = it2) \/ hash_break.
Proof.
  intros I1 I2 U1 U2 L1 L2.
  destruct (json_hash_inj _ _ h (link_json_ok conv (fst it1) (snd it1) h1 I1 U1)
    (link_json_ok conv (fst it2) (snd it2) h2 I2 U2) L1 L2) as [E|?]; [|by right].
  left. destruct it1, it2. unfold link_json in E. cbn in E. by injection E as -> -> ->.
Qed.

(** The head a chain ends with. *)
Definition end_head (h : string) (heads : list (Z * string)) : string :=
  match last heads with Some (_, x) => x | None => h end.

Lemma end_head_snoc h hs x : end_head h (hs ++ [x]) = snd x.
Proof. unfold end_head. rewrite last_snoc. by destruct x. Qed.

Lemma end_head_app h a b : end_head h (a ++ b) = end_head (end_head h a) b.
Proof.
  destruct b as [|x b] using rev_ind; [by rewrite app_nil_r|].
  rewrite app_assoc. by rewrite !end_head_snoc.
Qed.

Lemma chain_app conv h a b :
  chain conv h (a ++ b) =
  let! ha := chain conv h a in let! hb := chain conv (end_head h ha) b in Ok (ha ++ hb).
Proof.
  revert h. induction a as [|it a IH]; intros h; cbn [app chain].
  - cbn. by destruct (chain conv h b).
  - destruct (link conv h it) as [x|]; [|done]. cbn [res_bind]. rewrite IH.
    destruct (chain conv x a) as [ha|]; [|done]. cbn [res_bind].
    assert (E : end_head h ((fst it, x) :: ha) = end_head x ha).
    { change ((fst it, x) :: ha) with ([(fst it, x)] ++ ha). by rewrite end_head_app. }
    rewrite E. by destruct (chain conv (end_head x ha) b).
Qed.

Lemma chain_total conv h items :
  Forall item_ok items -> utf8_valid h = true ->
  exists hs, chain conv h items = Ok hs /\ length hs = length items /\
    map fst hs = map fst items /\ utf8_valid (end_head h hs) = true.
Proof.
  intros Hi. revert h. induction Hi as [|it items Hit _ IH]; intros h Hh; [by exists []|].
  cbn [chain]. rewrite link_ok by done. cbn [res_bind].
  destruct (IH _ (sha256_hex_valid (json_dumps false true (link_json conv (fst it) (snd it) h))))
    as (hs & -> & Hl & Hm & Hv).
  eexists. split; [reflexivity|]. cbn [map length]. rewrite Hl, Hm. split; [done|]. split; [done|].
  change ((fst it, ?x) :: hs) with ([(fst it, x)] ++ hs). by rewrite end_head_app.
Qed.

(** Every head in a chain is a hash. *)
Lemma chain_heads conv h items hs :
  Forall item_ok items -> utf8_valid h = true -> chain conv h items = Ok hs ->
  Forall (fun p => exists x, snd p = sha256_hex x) hs.
Proof.
  intros Hi. revert h hs. induction Hi as [|it items Hit _ IH]; intros h hs Hh H; cbn [chain] in H.
  - injection H as <-. constructor.
  - rewrite link_ok in H by done. cbn [res_bind] in H. inv_ok H. subst hs.
    constructor; [by eexists|]. eapply IH; [|exact Ha]. apply sha256_hex_valid.
Qed.

Lemma zero_head_valid : utf8_valid zero_head = true.
Proof. reflexivity. Qed.
#[export] Hint Resolve zero_head_valid : secchat.

Lemma chain_snoc conv h a x hs :
  chain conv h (a ++ [x]) = Ok hs ->
  exists ha y, chain conv h a = Ok ha /\ link conv (end_head h ha) x = Ok y /\
               hs = ha ++ [(fst x, y)].
Proof.
  rewrite chain_app. intros H. apply res_bind_ok in H as (ha & Ha & H).
  apply res_bind_ok in H as (hb & Hb & [= <-]). cbn [chain] in Hb.
  apply res_bind_ok in Hb as (y & Hy & [= <-]). by exists ha, y.
Qed.

(** A hash at the end of a chain from the start: it is not the start, or SHA-256 is broken. *)
Lemma end_head_zero conv a ha :
  Forall item_ok a -> chain conv zero_head a = Ok ha -> end_head zero_head ha = zero_head ->
  a = [] \/ hash_break.
Proof.
  intros Ia Ha E. destruct a as [|y a _] using rev_ind; [by left|]. right. right.
  pose proof (chain_heads _ _ _ _ Ia zero_head_valid Ha) as Hh.
  apply chain_snoc in Ha as (h1 & z & _ & _ & ->). rewrite end_head_snoc in E. cbn in E. subst z.
  apply Forall_app in Hh as [_ Hh]. inversion Hh as [|? ? [x Hx] _]. by exists x.
Qed.

(** Two chains from the start that reach the same head are equal. *)
Lemma chain_inj conv a b ha hb :
  Forall item_ok a -> Forall item_ok b ->
  chain conv zero_head a = Ok ha -> chain conv zero_head b = Ok hb ->
  end_head zero_head ha = end_head zero_head hb -> a = b \/ hash_break.
Proof.
  intros Ia. revert b ha hb. induction a as [|x a IH] using rev_ind; intros b ha hb Ib Ha Hb E.
  - injection Ha as <-. cbn in E.
    destruct (end_head_zero conv b hb Ib Hb) as [->|?]; [done|by left|by right].
  - destruct b as [|y b _] using rev_ind.
    { injection Hb as <-. exact (end_head_zero conv _ ha Ia Ha E). }
    apply Forall_app in Ia as [Ia Hx]. apply Forall_app in Ib as [Ib Hy].
    apply Forall_cons in Hx as [Hx _]. apply Forall_cons in Hy as [Hy _].
    apply chain_snoc in Ha as (ha' & h & Ha & La & ->). apply chain_snoc in Hb as (hb' & h' & Hb & Lb & ->).
    rewrite !end_head_snoc in E. cbn in E. subst h'.
    destruct (chain_total conv zero_head a Ia zero_head_valid) as (? & Ha2 & _ & _ & Va).
    destruct (chain_total conv zero_head b Ib zero_head_valid) as (? & Hb2 & _ & _ & Vb).
    rewrite Ha in Ha2. rewrite Hb in Hb2. injection Ha2 as <-. injection Hb2 as <-.
    destruct (link_inj conv _ _ x y h Hx Hy Va Vb La Lb) as [[E ->]|?]; [|by right].
    destruct (IH Ia b ha' hb' Ib Ha Hb E) as [->|?]; [by left|by right].
Qed.

Lemma chain_length conv h a hs : chain conv h a = Ok hs -> length hs = length a.
Proof.
  revert h hs. induction a as [|x a IH]; intros h hs H; cbn [chain] in H; [by injection H as <-|].
  inv_ok H. subst hs. cbn. f_equal. by eapply IH.
Qed.

(** The recorded heads of a chain are those of its prefixes. *)
Lemma chain_prefix conv h a b hs :
  chain conv h (a ++ b) = Ok hs ->
  chain conv h a = Ok (take (length a) hs).
Proof.
  rewrite chain_app. intros H. inv_ok H. subst hs. rewrite Ha. f_equal.
  pose proof (chain_length _ _ _ _ Ha) as Hl.
  by rewrite <- Hl, take_app_length.
Qed.

(** ** The items of a transcript *)

#[export] Instance item_ord : StrictOrd item_ltb.
Proof.
  split.
  - intros [i d]. unfold item_ltb. cbn. by rewrite Z.ltb_irrefl, str_ltb_irrefl, andb_false_r.
  - intros [i d] [j e] [k f]. unfold item_ltb. cbn. intros H1 H2.
    apply orb_prop in H1 as [H1|[H1 D1]%andb_prop]; apply orb_prop in H2 as [H2|[H2 D2]%andb_prop];
      bool_hyps; apply orb_true_intro; try (left; apply Z.ltb_lt; lia).
    right. apply andb_true_intro. split; [apply Z.eqb_eq; lia|]. by eapply str_ltb_trans.
  - intros [i d] [j e] [k f]. unfold item_ltb. cbn. intros H1 H2.
    apply orb_false_elim in H1 as [H1 D1]. apply orb_false_elim in H2 as [H2 D2]. bool_hyps.
    destruct (Z.ltb_spec k i); [lia|]. cbn. destruct (Z.eqb_spec k i) as [->|]; [|done]. cbn.
    assert (i = j) as -> by lia. rewrite Z.eqb_refl in *. cbn in *.
    eapply (ord_neg_trans str_ltb); eassumption.
Qed.

Lemma item_total x y : item_ltb x y = false -> item_ltb y x = false -> x = y.
Proof.
  destruct x as [i d], y as [j e]. unfold item_ltb. cbn. intros H1 H2.
  apply orb_false_elim in H1 as [H1 D1]. apply orb_false_elim in H2 as [H2 D2]. bool_hyps.
  assert (i = j) as -> by lia. rewrite Z.eqb_refl in *. cbn in *. f_equal. by apply str_ltb_total.
Qed.

(** The items depend on the messages, not on the order they were recorded in. *)
Lemma chain_items_perm m m' : m ≡ₚ m' -> chain_items m = chain_items m'.
Proof.
  intros H. unfold chain_items. apply (isort_perm_eq item_ltb item_total). by rewrite H.
Qed.

(** Digests that are text. *)
Definition digests_ok (m : dict) : Prop :=
  Forall (fun kv => match snd kv with PStr d => utf8_valid d = true | _ => True end) m.

Lemma chain_items_ok m : digests_ok m -> Forall item_ok (chain_items m).
Proof.
  intros H. apply Forall_forall. intros it. unfold chain_items. rewrite elem_of_isort, list_elem_of_omap.
  intros ([k v] & Hin & E). unfold digests_ok in H. rewrite Forall_forall in H. specialize (H _ Hin).
  cbn in *. destruct (int_of_string k) as [mid|]; [|done]. destruct v; try done.
  destruct ((0 <? mid) && nonempty s); [|done]. by injection E as <-.
Qed.

Lemma chain_items_pos m it : it ∈ chain_items m -> 0 < fst it.
Proof.
  unfold chain_items. rewrite elem_of_isort, list_elem_of_omap. intros ([k v] & _ & E). cbn in E.
  destruct (int_of_string k) as [mid|]; [|done]. destruct v; try done.
  destruct (0 <? mid) eqn:Em; [|done]. destruct (nonempty s); [|done].
  injection E as <-. by apply Z.ltb_lt.
Qed.

Lemma first_last_pos m :
  chain_items m <> [] -> 0 < opt_id (head (chain_items m)) /\ 0 < opt_id (last (chain_items m)).
Proof.
  intros Hne. pose proof (chain_items_pos m) as Hp. split.
  - destruct (chain_items m) as [|[i d] l]; [done|]. apply (Hp (i, d)). by left.
  - destruct (chain_items m) as [|[i d] l _] using rev_ind; [done|]. rewrite last_snoc.
    apply (Hp (i, d)). apply elem_of_app. right. by left.
Qed.

(** ** The fields of a recomputed state *)

Definition transcript_keys : list string :=
  ["transcript_head"; "transcript_message_count"; "transcript_first_message_id";
   "transcript_last_message_id"; "transcript_heads_by_id"].

Definition heads_dict (heads : list (Z * string)) : dict :=
  dupdate [] (map (fun p => (dec (fst p), PStr (snd p))) heads).

Record recomputed (conv : Z) (m : dict) (heads : list (Z * string)) (st r : dict) : Prop := {
  rc_chain : chain conv zero_head (chain_items m) = Ok heads;
  rc_head : dlookup "transcript_head" r = Some (PStr (last_head heads));
  rc_count : dlookup "transcript_message_count" r = Some (PInt (Z.of_nat (length (chain_items m))));
  rc_first : dlookup "transcript_first_message_id" r = Some (PInt (opt_id (head (chain_items m))));
  rc_last : dlookup "transcript_last_message_id" r = Some (PInt (opt_id (last (chain_items m))));
  rc_heads : dlookup "transcript_heads_by_id" r = Some (PDict (heads_dict heads));
  rc_other k : k ∉ transcript_keys -> dlookup k r = dlookup k st
}.

Ltac dset_lookup :=
  repeat first [rewrite dlookup_dset_eq; reflexivity | rewrite dlookup_dset_ne by discriminate].

Lemma recompute_ok conv st m :
  dlookup "messages" st = Some (PDict m) -> digests_ok m ->
  exists heads r, _recompute_transcript_chain conv st = Ok r /\ recomputed conv m heads st r.
Proof.
  intros Hm Hd.
  destruct (chain_total conv zero_head (chain_items m) (chain_items_ok m Hd) zero_head_valid)
    as (heads & Hc & _).
  unfold _recompute_transcript_chain, setdefault, dget. rewrite Hm. rewrite Hm. cbn [as_dict res_bind].
  rewrite Hc. cbn [res_bind]. exists heads. eexists. split; [reflexivity|].
  split; [done|dset_lookup..|].
  intros k Hk. unfold transcript_keys in Hk. rewrite !not_elem_of_cons in Hk.
  destruct Hk as (? & ? & ? & ? & ? & _). by rewrite !dlookup_dset_ne.
Qed.

Lemma recomputed_dset conv m heads st r k v :
  recomputed conv m heads st r -> k ∉ transcript_keys ->
  recomputed conv m heads (dset k v st) (dset k v r).
Proof.
  intros [Hc H1 H2 H3 H4 H5 Ho] Hk.
  assert (Hne : forall k', k' ∈ transcript_keys -> dlookup k' (dset k v r) = dlookup k' r).
  { intros k' Hin. apply dlookup_dset_ne. by intros ->. }
  split; [done| | | | | |].
  1-5: rewrite Hne; [done|]; unfold transcript_keys; set_solver.
  intros k' Hk'. destruct (decide (k' = k)) as [->|Hd]; [by rewrite !dlookup_dset_eq|].
  rewrite !dlookup_dset_ne by done. by apply Ho.
Qed.

Lemma not_transcript_key k : existsb (String.eqb k) transcript_keys = false -> k ∉ transcript_keys.
Proof.
  intros H Hin. apply list_elem_of_In in Hin.
  assert (E : existsb (String.eqb k) transcript_keys = true).
  { apply existsb_exists. exists k. split; [done|apply string_eqb_refl]. }
  congruence.
Qed.

Lemma last_head_end heads : heads <> [] -> last_head heads = end_head zero_head heads.
Proof. unfold last_head, end_head. destruct heads using rev_ind; [done|]. by rewrite last_snoc. Qed.

Lemma last_head_valid conv items heads :
  Forall item_ok items -> chain conv zero_head items = Ok heads ->
  utf8_valid (last_head heads) = true /\
  Forall (fun p => exists x, snd p = sha256_hex x) heads.
Proof.
  intros Hi Hc. split; [|by apply (chain_heads _ _ _ _ Hi zero_head_valid Hc)].
  destruct (chain_total conv zero_head items Hi zero_head_valid) as (h & E & _ & _ & Hv).
  rewrite Hc in E. injection E as <-.
  unfold last_head, end_head in *. by destruct (last heads) as [[? ?]|].
Qed.

Lemma recomputed_py_ok conv st r :
  py_ok (PDict st) -> _recompute_transcript_chain conv st = Ok r ->
  forall m, dlookup "messages" st = Some (PDict m) -> digests_ok m -> py_ok (PDict r).
Proof.
  intros Hok H m Hm Hd. unfold _recompute_transcript_chain, setdefault, dget in H.
  rewrite Hm in H. rewrite Hm in H. cbn [as_dict res_bind] in H. inv_ok H. subst r.
  destruct (last_head_valid _ _ _ (chain_items_ok m Hd) Ha) as [Hv Hh].
  repeat (apply py_ok_dset; [|reflexivity|]); try done.
  apply py_ok_dupdate; [by apply py_ok_dict; split; [constructor|]|].
  apply Forall_fmap. eapply Forall_impl; [exact Hh|]. intros [mid h] [x Hx]. cbn in *. subst h.
  split; [apply utf8_valid_ascii, dec_ascii|apply sha256_hex_valid].
Qed.

(** The head of a transcript determines its items. *)
Lemma last_head_inj conv a b ha hb :
  Forall item_ok a -> Forall item_ok b ->
  chain conv zero_head a = Ok ha -> chain conv zero_head b = Ok hb ->
  last_head ha = last_head hb -> a = b \/ hash_break.
Proof.
  intros Ia Ib Ha Hb E.
  assert (Hne : forall l hl, Forall item_ok l -> chain conv zero_head l = Ok hl -> l <> [] -> last_head hl <> "").
  { intros l hl Il Hl Hne. pose proof (chain_heads _ _ _ _ Il zero_head_valid Hl) as Hh.
    destruct l as [|y l _] using rev_ind; [done|]. apply chain_snoc in Hl as (h1 & z & _ & _ & ->).
    apply Forall_app in Hh as [_ Hh]. inversion Hh as [|? ? [x Hx] _]. cbn in Hx. subst z.
    unfold last_head. rewrite last_snoc. intros E0. apply (f_equal String.length) in E0.
    by rewrite sha256_hex_length in E0. }
  destruct a as [|x a], b as [|y b]; [by left| | |].
  - injection Ha as <-. cbn in E. symmetry in E. by apply (Hne _ _ Ib Hb) in E.
  - injection Hb as <-. cbn in E. by apply (Hne _ _ Ia Ha) in E.
  - apply (chain_inj conv _ _ ha hb Ia Ib Ha Hb).
    rewrite <- !last_head_end; [done|..].
    + intros ->. by apply chain_length in Hb.
    + intros ->. by apply chain_length in Ha.
Qed.

(** ** The stored transcript *)

Section stored.
Context `{L : PrimLaws, O : Os, OL : !OsLaws O, IO : !IoReliable O}.

(** The state [_load_transcript_state] finds for a conversation. *)
Definition transcript_is (s : session) (conv : Z) (st : dict) (m : dict) : Prop :=
  has_store s = true /\ dlookup "messages" st = Some (PDict m) /\ py_ok (PDict st) /\
  sealed_at s (transcript_path s conv) (PStr (json_dumps true false (PDict st))).

Lemma load_transcript_ok s conv st m :
  transcript_is s conv st m ->
  exists s', _load_transcript_state conv s = (s', Ok st) /\ same_session s s' /\
             files (os s') = files (os s).
Proof using IO.
  intros (Hst & Hm & Hok & Hs). destruct (read_sealed_ok _ _ _ Hs) as (s1 & E & Hs1 & Hf & _).
  destruct Hs as (raw & Hraw & _).
  unfold _load_transcript_state, st_bind at 1, st_get. rewrite Hst. unfold path_exists.
  rewrite Hraw, bool_decide_true by done. cbn [negb].
  unfold st_catch, read_json, st_bind, st_lift, st_ret. rewrite E. cbn [py_loads].
  rewrite (json_loads_dumps true false _ Hok). cbn [as_dict]. rewrite Hm. by exists s1.
Qed.

(** A file system that fails, or no file: an empty transcript. *)
Lemma load_transcript_fresh s conv :
  path_exists s (transcript_path s conv) = false ->
  _load_transcript_state conv s = (s, Ok empty_transcript).
Proof using.
  intros H. unfold _load_transcript_state, st_bind, st_get, st_ret. rewrite H. by destruct (has_store s).
Qed.

Lemma stamp_and_save_run conv st s :
  has_store s = true -> aes_key_ok (master_key s) = true -> py_ok (PDict st) ->
  exists s' st', stamp_and_save conv st s = (s', Ok tt) /\ same_session s s' /\
    (forall k, k <> "updated_at" -> dlookup k st' = dlookup k st) /\ py_ok (PDict st') /\
    sealed_at s' (transcript_path s' conv) (PStr (json_dumps true false (PDict st'))).
Proof using L OL IO.
  intros Hst Hk Hok. unfold stamp_and_save, st_bind at 1.
  destruct (now_ms_ok s) as (s1 & n & -> & H1 & Hf1 & Hd1).
  set (st' := dset "updated_at" (seconds (os_clock n)) st).
  assert (Hok' : py_ok (PDict st')).
  { apply py_ok_dset; [done|done|apply seconds_ok]. }
  unfold _save_transcript_state, st_bind, st_get, st_ret.
  replace (has_store s1) with true by (symmetry; same_fields H1; done). cbn [negb].
  unfold logged, st_catch.
  destruct (write_sealed_ok (transcript_path s1 conv) (json_dumps true false (PDict st')) s1)
    as (s2 & -> & Hw).
  - by same_fields H1.
  - by apply json_dumps_valid.
  - exists s2, st'. split; [done|]. pose proof Hw as (H2 & _ & _).
    split; [by eapply same_session_trans|].
    split; [intros k Hne; by apply dlookup_dset_ne|]. split; [done|].
    replace (transcript_path s2 conv) with (transcript_path s1 conv) by (by same_fields H2).
    by eapply wrote_sealed.
Qed.
End stored.

(** ** Histories *)

Definition seen_dict (seen : list (Z * string)) : dict := map (fun p => (dec (fst p), PStr (snd p))) seen.

Lemma digest_valid item d : _message_digest item = Ok d -> utf8_valid d = true.
Proof.
  unfold _message_digest, json_hash. intros H. inv_ok H. inv_ok H. subst. apply sha256_hex_valid.
Qed.

Lemma digests_of l ds :
  res_map (fun p : Z * dict => _message_digest (snd p)) l = Ok ds ->
  length ds = length l /\ Forall (fun d => utf8_valid d = true) ds.
Proof.
  revert ds. induction l as [|x l IH]; intros ds H; cbn [res_map] in H.
  - injection H as <-. by split.
  - inv_ok H. subst ds. destruct (IH _ Ha0) as [Hl Hv]. split; [by cbn; rewrite Hl|].
    constructor; [by eapply digest_valid|done].
Qed.

(** The dictionary of the digests of a history without repeated ids. *)
Lemma dlookup_incoming (ids : list Z) (ds : list string) mid d :
  NoDup ids -> length ds = length ids ->
  (dlookup (dec mid) (dupdate [] (zip (map dec ids) ds)) = Some d <-> (mid, d) ∈ zip ids ds).
Proof.
  intros Hn Hl.
  assert (Hz : zip (map dec ids) ds = map (fun p : Z * string => (dec (fst p), snd p)) (zip ids ds)).
  { clear Hn Hl. revert ds. induction ids as [|i ids IH]; intros [|x ds]; [done..|].
    cbn. f_equal. apply IH. }
  assert (Hnd : dict_ok (zip (map dec ids) ds)).
  { unfold dict_ok, dkeys. change (@map (string * string) string fst) with (fmap (M := list) (@fst string string)).
    rewrite fst_zip by (rewrite length_map; lia).
    apply NoDup_fmap_2; [intros a b; apply dec_inj|done]. }
  assert (Hok : dict_ok (rev (zip (map dec ids) ds))).
  { unfold dict_ok, dkeys in *. by rewrite map_rev, <- Permutation_rev. }
  rewrite dlookup_dupdate. transitivity (dlookup (dec mid) (rev (zip (map dec ids) ds)) = Some d).
  { by destruct (dlookup _ _). }
  rewrite dlookup_elem by done. rewrite <- Permutation_rev, Hz, list_elem_of_fmap. split.
  - intros ([mid' d'] & [= E%dec_inj ->] & Hin). by subst mid'.
  - intros Hin. by exists (mid, d).
Qed.

Lemma sorted_known_seen seen :
  sorted_known (seen_dict seen) =
  Ok (isort (by_key Z.ltb fst) (map (fun p => (fst p, (dec (fst p), PStr (snd p)))) seen)).
Proof.
  unfold sorted_known, seen_dict.
  assert (H : forall l : list (Z * string),
    res_map (fun kv => let! mid := int_of_string (fst kv) in Ok (mid, kv))
      (map (fun p => (dec (fst p), PStr (snd p))) l) =
    Ok (map (fun p => (fst p, (dec (fst p), PStr (snd p)))) l)).
  { induction l as [|p l IH]; [done|]. cbn [map res_map fst]. rewrite int_of_dec. cbn [res_bind].
    by rewrite IH. }
  by rewrite H.
Qed.

Lemma in_window ids mid :
  mid ∈ ids -> foldr Z.min (hd 0 ids) ids <= mid <= foldr Z.max (hd 0 ids) ids.
Proof.
  generalize (hd 0 ids). intros z. induction ids as [|i ids IH]; [intros ?%not_elem_of_nil; done|].
  intros [->|Hin]%elem_of_cons; cbn [foldr]; [lia|]. specialize (IH Hin). lia.
Qed.

(** No message seen before gives a warning exactly when the ones in the window
    are all in the history, unchanged. *)
Lemma compare_known_nil (ids : list Z) (ds : list string) mid d :
  NoDup ids -> length ds = length ids ->
  let lo := foldr Z.min (hd 0 ids) ids in let hi := foldr Z.max (hd 0 ids) ids in
  compare_known lo hi (dupdate [] (zip (map dec ids) ds)) (mid, (dec mid, PStr d)) = [] <->
  (lo <= mid <= hi -> (mid, d) ∈ zip ids ds).
Proof.
  intros Hn Hl lo hi. unfold compare_known. pose proof (dlookup_incoming ids ds mid) as Hin.
  destruct (dlookup (dec mid) (dupdate [] (zip (map dec ids) ds))) as [d'|].
  - assert (Hd' : (mid, d') ∈ zip ids ds) by (by apply Hin).
    cbn [py_eqb]. destruct (String.eqb d' d) eqn:E.
    + apply String.eqb_eq in E as ->. by split.
    + apply String.eqb_neq in E. split; [done|]. intros H.
      assert (Hr : lo <= mid <= hi) by (apply in_window; by eapply elem_of_zip_l).
      specialize (H Hr). apply (Hin d) in H; [|done..]. congruence.
  - destruct ((lo <=? mid) && (mid <=? hi)) eqn:E.
    + split; [done|]. intros H. bool_hyps. assert (Hr : lo <= mid <= hi) by lia.
      specialize (H Hr). apply (Hin d) in H; done.
    + split; [|done]. intros _ Hr.
      assert (Ht : (lo <=? mid) && (mid <=? hi) = true) by (apply andb_true_intro; lia). congruence.
Qed.

Lemma history_warnings_nil (ids : list Z) (ds : list string) seen :
  NoDup ids -> length ds = length ids ->
  history_warnings ids (dupdate [] (zip (map dec ids) ds))
    (isort (by_key Z.ltb fst) (map (fun p => (fst p, (dec (fst p), PStr (snd p)))) seen)) = [] <->
  ids = sort_ints ids /\
  forall mid d, (mid, d) ∈ seen ->
    foldr Z.min (hd 0 ids) ids <= mid <= foldr Z.max (hd 0 ids) ids -> (mid, d) ∈ zip ids ds.
Proof.
  intros Hn Hl. unfold history_warnings.
  set (f := compare_known _ _ _).
  assert (Hc : forall l, concat (map f l) = [] <-> forall x, x ∈ l -> f x = []).
  { induction l as [|x l IH]; cbn [map concat].
    - split; [intros _ x ?%not_elem_of_nil; done|done].
    - rewrite app_nil, IH. split.
      + intros [Hx Hall] y [->|Hy]%elem_of_cons; auto.
      + intros H. split; [apply H; by left|]. intros y Hy. apply H. by right. }
  rewrite app_nil, Hc.
  assert (Hord : (if bool_decide (ids = sort_ints ids) then [] else [out_of_order]) = [] <-> ids = sort_ints ids).
  { destruct (bool_decide_reflect (ids = sort_ints ids)); split; done. }
  rewrite Hord. apply and_iff_compat_l. split.
  - intros H mid d Hin. apply (compare_known_nil ids ds mid d Hn Hl). apply H.
    rewrite elem_of_isort, list_elem_of_fmap. by exists (mid, d).
  - intros H x. rewrite elem_of_isort, list_elem_of_fmap. intros ([mid d] & -> & Hin).
    apply (compare_known_nil ids ds mid d Hn Hl). by apply H.
Qed.

(** The digests of a history, as the dictionary merged into the ones seen. *)
Definition incoming_of (ids : list Z) (ds : list string) : list (string * string) :=
  dupdate [] (zip (map dec ids) ds).
Definition as_messages (incoming : list (string * string)) : dict :=
  map (fun p => (fst p, PStr (snd p))) incoming.

Lemma as_messages_ok ids ds :
  Forall (fun d => utf8_valid d = true) ds ->
  Forall (fun kv => utf8_valid (fst kv) = true /\ py_ok (snd kv)) (as_messages (incoming_of ids ds)).
Proof.
  intros Hd. apply Forall_fmap.
  apply (Forall_impl (fun kv => utf8_valid (fst kv) = true /\ utf8_valid (snd kv) = true));
    [|by intros [k v]].
  apply Forall_dupdate; [constructor|]. apply Forall_forall. intros [k v] Hin. cbn. split.
  - apply elem_of_zip_l, list_elem_of_fmap in Hin as (i & -> & _). apply utf8_valid_ascii, dec_ascii.
  - apply elem_of_zip_r in Hin. rewrite Forall_forall in Hd. by apply Hd.
Qed.

Lemma merged_lookup old ids ds mid d :
  NoDup ids -> length ds = length ids -> (mid, d) ∈ zip ids ds ->
  dlookup (dec mid) (dupdate old (as_messages (incoming_of ids ds))) = Some (PStr d).
Proof.
  intros Hn Hl Hin. rewrite dlookup_dupdate.
  assert (Hok : dict_ok (incoming_of ids ds)) by (apply dict_ok_dupdate; constructor).
  assert (Hok' : dict_ok (as_messages (incoming_of ids ds))).
  { unfold dict_ok, dkeys, as_messages in *. by rewrite map_map. }
  rewrite dlookup_rev by done. unfold as_messages.
  rewrite (dlookup_map PStr). unfold incoming_of.
  apply (dlookup_incoming ids ds mid d Hn Hl) in Hin. by rewrite Hin.
Qed.

Lemma digests_of_py_ok m : py_ok (PDict m) -> digests_ok m.
Proof.
  rewrite py_ok_dict. intros [_ H]. eapply Forall_impl; [exact H|]. intros [k v] [_ Hv].
  cbn in *. by destruct v.
Qed.

(** The state written after a comparison. *)
Definition merged_state (st known : dict) (ids : list Z) (incoming : list (string * string)) : dict :=
  dset "last_window_hash" (PStr (sha256_hex (window_text ids incoming)))
    (dset "messages" (PDict known) st).

Lemma merged_state_ok st known ids incoming :
  py_ok (PDict st) -> py_ok (PDict known) ->
  py_ok (PDict (merged_state st known ids incoming)) /\
  dlookup "messages" (merged_state st known ids incoming) = Some (PDict known).
Proof.
  intros Hst Hk. unfold merged_state. split; [|dset_lookup].
  apply py_ok_dset; [by apply py_ok_dset|done|apply sha256_hex_valid].
Qed.

(** ** Checkpoints *)

Lemma get_str0_field k d s : dlookup k d = Some (PStr s) -> get_str0 k d = s.
Proof. intros H. unfold get_str0, dget, py_or. rewrite H. by destruct s. Qed.

Ltac dict_field := first [reflexivity | dset_lookup].

Section checkpoints.
Context `{L : PrimLaws}.

(** A payload signed by the key it names. *)
Variables (conv actor count first_id last_id ts : Z) (hd prev : string) (sk : bytes).
Hypothesis Hsk : len32 sk.
Hypothesis Hhd : utf8_valid hd = true.
Hypothesis Hprev : utf8_valid prev = true.

Definition bare : dict := checkpoint_payload conv actor count first_id last_id hd prev (ed_pub sk) ts.
Definition bare_bytes : bytes := json_dumps false true (PDict bare).
Definition signed : dict :=
  dset "checkpoint_hash" (PStr (sha256_hex bare_bytes))
    (dset "sig" (PStr (b64encode (ed_sign sk bare_bytes))) bare).

Lemma b64encode_valid x : utf8_valid (b64encode x) = true.
Proof using. apply utf8_valid_ascii, b64encode_ascii. Qed.

Lemma bare_ok : py_ok (PDict bare).
Proof using Hhd Hprev.
  unfold bare, checkpoint_payload. pose proof (b64encode_valid (ed_pub sk)). py_ok_fields.
Qed.

Lemma signed_ok : py_ok (PDict signed).
Proof using Hhd Hprev.
  apply py_ok_dset; [|done|apply sha256_hex_valid].
  apply py_ok_dset; [apply bare_ok|done|apply b64encode_valid].
Qed.

Lemma canonical_bare : _canonical_transcript_checkpoint bare = Ok bare_bytes.
Proof using Hhd Hprev. unfold _canonical_transcript_checkpoint. exact (canonical_json_ok _ bare_ok). Qed.

Lemma canonical_signed : _canonical_transcript_checkpoint signed = Ok bare_bytes.
Proof using Hhd Hprev. exact canonical_bare. Qed.

Lemma sign_checkpoint_ok : sign_checkpoint sk bare = Ok signed.
Proof using Hhd Hprev Hsk.
  unfold sign_checkpoint. rewrite canonical_bare. cbn [res_bind]. unfold identity_sign.
  rewrite (proj2 (len32b_spec sk) Hsk). cbn [res_bind]. unfold _transcript_checkpoint_hash.
  change (_canonical_transcript_checkpoint (dset "sig" ?x bare))
    with (_canonical_transcript_checkpoint bare).
  by rewrite canonical_bare.
Qed.

Definition signed_claim : claim := Claim actor first_id last_id hd (b64encode (ed_pub sk)).

Lemma read_claim_ok : read_claim signed = Ok signed_claim.
Proof using.
  unfold read_claim. rewrite (get_int0_field "actor_uid" _ actor), (get_int0_field "first_message_id" _ first_id),
    (get_int0_field "last_message_id" _ last_id) by dict_field. cbn [res_bind].
  rewrite (get_str0_field "transcript_head" _ hd), (get_str0_field "identity_pk" _ (b64encode (ed_pub sk)))
    by dict_field. done.
Qed.

Lemma check_checkpoint_ok :
  0 < actor -> 0 < first_id -> 0 < last_id -> 0 < count -> py_len hd = 64 ->
  check_checkpoint conv signed true [] = ([], Ok tt).
Proof using Hhd Hprev Hsk L.
  intros Ha Hf Hl Hc Hh. unfold check_checkpoint.
  rewrite (get_int0_field "conversation_id" _ conv), (get_int0_field "actor_uid" _ actor),
    (get_int0_field "first_message_id" _ first_id), (get_int0_field "last_message_id" _ last_id),
    (get_int0_field "message_count" _ count), (get_str0_field "event" _ "transcript_checkpoint"),
    (get_str0_field "transcript_head" _ hd), (get_str0_field "identity_pk" _ (b64encode (ed_pub sk)))
    by dict_field.
  rewrite Hh, canonical_signed, b64decode_encode.
  assert (E : (actor <=? 0) || (first_id <=? 0) || (last_id <=? 0) || (count <=? 0) || negb (64 =? 64) = false).
  { repeat (apply orb_false_intro; [|]); try apply Z.leb_gt; lia || done. }
  unfold st_bind, st_lift. cbv beta iota. rewrite E, Z.eqb_refl. unfold st_when, st_ret. cbn [negb String.eqb].
  change (py_str (dget "sig" (PStr "") signed)) with (b64encode (ed_sign sk bare_bytes)).
  rewrite b64decode_encode. cbn. unfold identity_verify.
  rewrite (proj2 (len32b_spec _) (ed_pub_len sk Hsk)), ed_verify_sign by done. done.
Qed.
End checkpoints.

Lemma heads_dict_last heads i h :
  last heads = Some (i, h) -> dlookup (dec i) (heads_dict heads) = Some (PStr h).
Proof.
  intros Hl. destruct heads as [|x hs _] using rev_ind; [done|]. rewrite last_snoc in Hl.
  injection Hl as ->. unfold heads_dict. rewrite dlookup_dupdate, map_app, rev_app_distr. cbn.
  by rewrite String.eqb_refl.
Qed.

Lemma chain_last conv items heads :
  Forall item_ok items -> chain conv zero_head items = Ok heads -> items <> [] ->
  last heads = Some (opt_id (last items), last_head heads) /\ nonempty (last_head heads) = true /\
  py_len (last_head heads) = 64.
Proof.
  intros Hi Hc Hne. destruct items as [|x items _] using rev_ind; [done|].
  pose proof (chain_heads _ _ _ _ Hi zero_head_valid Hc) as Hh.
  apply chain_snoc in Hc as (h1 & y & _ & _ & ->). apply Forall_app in Hh as [_ Hh].
  inversion Hh as [|? ? [z Hz] _]. cbn in Hz. subst y. unfold last_head. rewrite !last_snoc.
  destruct x as [i d]. cbn. split; [done|].
  pose proof (sha256_hex_length z) as Hl. split.
  { revert Hl. destruct (sha256_hex z); [|done]. intros [=]. }
  rewrite py_len_ascii by apply hex_ascii. apply sha256_hex_blen.
Qed.

(** What the local transcript says of a claim about the same first and last message. *)
Lemma local_warnings_same conv m heads st r cl :
  recomputed conv m heads st r -> digests_ok m -> chain_items m <> [] ->
  0 < cl_first cl -> cl_first cl = opt_id (head (chain_items m)) ->
  cl_last cl = opt_id (last (chain_items m)) -> nonempty (cl_head cl) = true ->
  local_warnings r cl =
  Ok (if String.eqb (last_head heads) (cl_head cl) then [] else [order_mismatch]).
Proof.
  intros [Hc Hhead _ Hfirst Hlast Hheads _] Hd Hne Hpos Hf Hl Hcl.
  destruct (chain_last conv _ heads (chain_items_ok m Hd) Hc Hne) as (Hlh & Hnh & _).
  unfold local_warnings. rewrite (get_int0_field _ _ _ Hfirst). cbn [res_bind].
  rewrite <- Hf, Z.eqb_refl. destruct (Z.ltb_spec 0 (cl_first cl)); [|lia]. cbn [andb].
  unfold dget. rewrite !Hheads, Hl, !(heads_dict_last _ _ _ Hlh).
  cbn [truthy py_eqb]. rewrite Hnh, Hcl. cbn [andb].
  destruct (String.eqb (last_head heads) (cl_head cl)) eqn:E; cbn [negb]; [|done].
  rewrite (get_int0_field _ _ _ Hlast). cbn [res_bind].
  rewrite (get_str0_field _ _ _ Hhead), E. cbn [negb]. by rewrite !andb_false_r.
Qed.

Section recording.
Context `{L : PrimLaws, O : Os, OL : !OsLaws O, IO : !IoReliable O}.

Lemma add_warnings_run conv ws s : exists s', st_for ws (_add_control_warning conv) s = (s', Ok tt).
Proof using.
  revert s. induction ws as [|w ws IH]; intros s; [by exists s|]. cbn [st_for].
  unfold st_bind, _add_control_warning, st_when, st_modify, st_ret.
  destruct (nonempty (strip w)); apply IH.
Qed.

(** The first checkpoint of a peer, correctly signed, is compared with the local
    transcript; the other checks are silent. *)
Lemma record_checkpoint_run s conv st m heads r actor count first_id last_id ts hd prev sk :
  transcript_is s conv st m -> aes_key_ok (master_key s) = true ->
  _recompute_transcript_chain conv st = Ok r -> recomputed conv m heads st r ->
  dlookup "peer_transcript_checkpoints" st = None ->
  len32 sk -> utf8_valid hd = true -> utf8_valid prev = true ->
  0 < actor -> 0 < first_id -> 0 < last_id -> 0 < count -> py_len hd = 64 ->
  let payload := signed conv actor count first_id last_id ts hd prev sk in
  forall w, local_warnings (dset "peer_transcript_checkpoints" (PDict []) r)
              (signed_claim actor first_id last_id hd sk) = Ok w ->
  exists s', record_transcript_checkpoint conv payload true s = (s', Ok (take 5 w)).
Proof using L OL IO.
  intros Ht Hk Er Hr Hpeers Hsk Hhd Hprev Ha Hf Hl Hc Hlen payload w Hw.
  pose proof Ht as (Hst & Hm & Hok & _).
  pose proof (py_ok_lookup _ _ _ Hok Hm) as Hm'.
  pose proof (recomputed_py_ok conv st r Hok Er m Hm (digests_of_py_ok _ Hm')) as Hokr.
  assert (Hpr : dlookup "peer_transcript_checkpoints" r = None).
  { rewrite (rc_other _ _ _ _ _ Hr); [done|by apply not_transcript_key]. }
  destruct (load_transcript_ok s conv st m Ht) as (s1 & E1 & Hs1 & _).
  destruct (now_ms_ok s1) as (s2 & n & E2 & Hs2 & _).
  unfold record_transcript_checkpoint. subst payload.
  rewrite check_checkpoint_ok by done. cbn [fst snd].
  rewrite read_claim_ok. unfold st_bind, st_lift. rewrite E1, Er.
  unfold setdefault. rewrite Hpr. unfold dget at 1 2 3. rewrite dlookup_dset_eq. cbn [dlookup].
  cbn [previous_warnings]. rewrite Hw.
  unfold _transcript_checkpoint_hash at 1. rewrite canonical_signed by done. cbn [res_bind].
  rewrite E2. unfold stored_checkpoint.
  rewrite (get_int0_field "message_count" _ count), (get_int0_field "ts" _ ts) by dict_field.
  cbn [res_bind app].
  set (state' := dset _ _ (dset _ _ r)).
  assert (Hok' : py_ok (PDict state')).
  { apply py_ok_dset; [apply py_ok_dset; [done|done|by apply py_ok_dict; split; [constructor|]]|done|].
    cbn [signed_claim cl_pk cl_actor cl_first cl_last cl_head].
    pose proof (b64encode_valid (ed_pub sk)) as Hv. pose proof (seconds_ok (os_clock n)) as Hsec.
    rewrite (get_str0_field "prev_checkpoint_hash" _ prev) by dict_field.
    apply py_ok_dset; [by apply py_ok_dict; split; [constructor|]| |].
    - destruct (nonempty _); [done|]. rewrite utf8_valid_app; [apply utf8_valid_ascii, dec_ascii|done].
    - py_ok_fields. }
  pose proof (same_session_trans _ _ _ Hs1 Hs2) as Hs12.
  destruct (stamp_and_save_run conv state' s2) as (s3 & st' & E3 & _); [by same_fields Hs12..|done|].
  rewrite E3. destruct (add_warnings_run conv w s3) as (s4 & E4). rewrite E4. by exists s4.
Qed.

(** What [create_transcript_checkpoint] sends. *)
Lemma create_checkpoint_run s conv st m heads r :
  transcript_is s conv st m -> aes_key_ok (master_key s) = true ->
  _recompute_transcript_chain conv st = Ok r -> recomputed conv m heads st r ->
  chain_items m <> [] -> len32 (identity_sk s) -> identity_pk s = ed_pub (identity_sk s) ->
  utf8_valid (get_str0 "last_own_transcript_checkpoint_hash" st) = true ->
  exists s' ts,
    let payload := signed conv (my_uid s) (Z.of_nat (length (chain_items m)))
      (opt_id (head (chain_items m))) (opt_id (last (chain_items m))) ts (last_head heads)
      (get_str0 "last_own_transcript_checkpoint_hash" st) (identity_sk s) in
    create_transcript_checkpoint conv s =
      (s', Ok (PREFIX_MLS +:+ b64e (json_dumps false false (PDict payload)))) /\
    py_ok (PDict payload).
Proof using L OL IO.
  intros Ht Hk Er Hr Hne Hsk Hpk Hprev. pose proof Ht as (Hst & Hm & Hok & _).
  pose proof (py_ok_lookup _ _ _ Hok Hm) as Hm'. pose proof (digests_of_py_ok _ Hm') as Hd.
  pose proof (recomputed_py_ok conv st r Hok Er m Hm Hd) as Hokr.
  destruct Hr as [Hc Hhead Hcount Hfirst Hlast _ Hother].
  destruct (chain_last conv _ heads (chain_items_ok m Hd) Hc Hne) as (_ & Hnh & _).
  destruct (last_head_valid _ _ _ (chain_items_ok m Hd) Hc) as [Hhv _].
  destruct (first_last_pos m Hne) as [Hf Hl].
  destruct (load_transcript_ok s conv st m Ht) as (s1 & E1 & Hs1 & _).
  destruct (now_ms_ok s1) as (s2 & n & E2 & Hs2 & _).
  set (payload := signed conv (my_uid s) (Z.of_nat (length (chain_items m)))
    (opt_id (head (chain_items m))) (opt_id (last (chain_items m))) (os_clock n) (last_head heads)
    (get_str0 "last_own_transcript_checkpoint_hash" st) (identity_sk s)).
  assert (Hpo : py_ok (PDict payload)) by (by apply signed_ok).
  set (state' := dset "last_own_transcript_checkpoint" (PDict payload)
    (dset "last_own_transcript_checkpoint_hash" (dget "checkpoint_hash" PNone payload) r)).
  assert (Hok' : py_ok (PDict state')).
  { apply py_ok_dset; [apply py_ok_dset; [done|done|]|done|done].
    change (dget "checkpoint_hash" PNone payload) with (PStr (sha256_hex (bare_bytes conv (my_uid s)
      (Z.of_nat (length (chain_items m))) (opt_id (head (chain_items m))) (opt_id (last (chain_items m)))
      (os_clock n) (last_head heads) (get_str0 "last_own_transcript_checkpoint_hash" st) (identity_sk s)))).
    apply sha256_hex_valid. }
  pose proof (same_session_trans _ _ _ Hs1 Hs2) as Hs12.
  destruct (stamp_and_save_run conv state' s2) as (s3 & st' & E3 & _); [by same_fields Hs12..|done|].
  exists s3, (os_clock n). split; [|done]. fold payload.
  unfold create_transcript_checkpoint, st_bind, st_get, st_lift.
  assert (Hne1 : nonempty (identity_sk s) = true).
  { unfold len32 in Hsk. by destruct (identity_sk s). }
  assert (Hne2 : nonempty (identity_pk s) = true).
  { pose proof (ed_pub_len _ Hsk) as Hp. rewrite Hpk. unfold len32 in Hp. by destruct (ed_pub _). }
  rewrite Hne1, Hne2. cbn [negb orb]. rewrite E1, Er.
  rewrite (get_int0_field _ _ _ Hcount), (get_int0_field _ _ _ Hfirst), (get_int0_field _ _ _ Hlast).
  cbn [res_bind]. rewrite (get_str0_field _ _ _ Hhead), Hnh.
  assert (Hpos : 0 < Z.of_nat (length (chain_items m))) by (destruct (chain_items m); [done|cbn; lia]).
  assert (E : (Z.of_nat (length (chain_items m)) <=? 0) || (opt_id (head (chain_items m)) <=? 0) ||
    (opt_id (last (chain_items m)) <=? 0) || negb true = false).
  { repeat (apply orb_false_intro; [|]); try apply Z.leb_gt; lia || done. }
  rewrite E, E2.
  replace (get_str0 "last_own_transcript_checkpoint_hash" r)
    with (get_str0 "last_own_transcript_checkpoint_hash" st).
  2: { unfold get_str0, dget. rewrite Hother; [done|]. by apply not_transcript_key. }
  rewrite Hpk. fold (bare conv (my_uid s) (Z.of_nat (length (chain_items m)))
    (opt_id (head (chain_items m))) (opt_id (last (chain_items m))) (os_clock n) (last_head heads)
    (get_str0 "last_own_transcript_checkpoint_hash" st) (identity_sk s)).
  rewrite sign_checkpoint_ok by done. fold payload. fold state'. rewrite E3, json_b64_ok by done.
  reflexivity.
Qed.

(** The transcript a conversation has, which is empty before the first message. *)
Definition knows (s : session) (conv : Z) (st m : dict) : Prop :=
  transcript_is s conv st m \/
  (has_store s = true /\ path_exists s (transcript_path s conv) = false /\ st = empty_transcript /\ m = []).

Lemma knows_load s conv st m :
  knows s conv st m ->
  has_store s = true /\ dlookup "messages" st = Some (PDict m) /\ py_ok (PDict st) /\
  exists s', _load_transcript_state conv s = (s', Ok st) /\ same_session s s'.
Proof using IO.
  intros [H|(Hst & Hp & -> & ->)].
  - destruct (load_transcript_ok s conv st m H) as (s' & E & Hs & _).
    destruct H as (? & ? & ? & _). split; [done|]. split; [done|]. split; [done|]. by exists s'.
  - split; [done|]. split; [done|]. split.
    + apply py_ok_dict. split; [dict_keys|]. constructor; [|constructor]. split; [done|].
      by apply py_ok_dict; split; [constructor|].
    + exists s. by split; [apply load_transcript_fresh|apply same_session_refl].
Qed.

(** Recording a message adds its digest. *)
Lemma record_message_run s conv st m mid sender body ts edit deleted d :
  knows s conv st m -> aes_key_ok (master_key s) = true ->
  mid <> 0 -> _is_user_visible_body body = true ->
  _message_digest (message_item mid sender body ts edit deleted) = Ok d ->
  exists s' st', record_transcript_message conv mid sender body ts edit deleted s = (s', Ok tt) /\
    same_session s s' /\ transcript_is s' conv st' (dset (dec mid) (PStr d) m) /\
    forall k, k <> "updated_at" -> k <> "messages" -> k ∉ transcript_keys ->
      dlookup k st' = dlookup k st.
Proof using L OL IO.
  intros Hkn Hk Hmid Hvis Hd. destruct (knows_load _ _ _ _ Hkn) as (Hst & Hm & Hok & s1 & E1 & Hs1).
  set (m' := dset (dec mid) (PStr d) m). set (st1 := dset "messages" (PDict m') st).
  assert (Hm' : py_ok (PDict m')).
  { apply py_ok_dset; [by eapply py_ok_lookup|apply utf8_valid_ascii, dec_ascii|by eapply digest_valid]. }
  assert (Hok1 : py_ok (PDict st1)) by (by apply py_ok_dset).
  assert (Hm1 : dlookup "messages" st1 = Some (PDict m')) by apply dlookup_dset_eq.
  pose proof (digests_of_py_ok _ Hm') as Hd'.
  destruct (recompute_ok conv st1 m' Hm1 Hd') as (heads & r & Er & Hr).
  pose proof (recomputed_py_ok conv st1 r Hok1 Er m' Hm1 Hd') as Hokr.
  destruct (stamp_and_save_run conv r s1) as (s2 & st' & E2 & Hs2 & Hf & Hok' & Hsealed);
    [by same_fields Hs1..|done|].
  pose proof (same_session_trans _ _ _ Hs1 Hs2) as Hs12.
  exists s2, st'. split; [|split; [done|split]].
  - unfold record_transcript_message. apply Z.eqb_neq in Hmid as ->. rewrite Hvis. cbn [orb negb].
    unfold st_bind, st_lift. rewrite E1, Hd. cbn [res_bind].
    unfold set_message, setdefault, dget. rewrite Hm. rewrite Hm. cbn [as_dict res_bind].
    fold m'. fold st1. by rewrite Er.
  - split; [by same_fields Hs12|]. split; [|done].
    by rewrite Hf, (rc_other _ _ _ _ _ Hr) by (done || by apply not_transcript_key).
  - intros k H1 H2 H3. rewrite Hf, (rc_other _ _ _ _ _ Hr) by done. by apply dlookup_dset_ne.
Qed.
End recording.
