(* ===== verification/TranscriptProps.v ===== *)
(** * Theorems about transcripts and histories *)

From S2P Require Import Prelude Hashing Base64 PyVal Sorting Json JsonFacts Crypto Wire Ratchet.
From S2P Require Import RatchetFacts AuditClient Utils Session SessionFacts Transcript TranscriptFacts.

Section props.
Context `{L : PrimLaws, O : Os, OL : !OsLaws O, IO : !IoReliable O}.

(** The transcript head. The head computed from the recorded digests does not
    depend on the order they were recorded in; it determines the messages of the
    conversation that count (their ids and digests), unless SHA-256 is broken;
    and adding later messages keeps the recorded head of every earlier one. *)
Theorem transcript_head_binds conv st1 st2 m1 m2 :
  dlookup "messages" st1 = Some (PDict m1) -> dlookup "messages" st2 = Some (PDict m2) ->
  digests_ok m1 -> digests_ok m2 ->
  exists r1 r2 h1 h2,
    _recompute_transcript_chain conv st1 = Ok r1 /\ _recompute_transcript_chain conv st2 = Ok r2 /\
    dlookup "transcript_head" r1 = Some (PStr h1) /\ dlookup "transcript_head" r2 = Some (PStr h2) /\
    (m1 ≡ₚ m2 -> h1 = h2) /\
    (h1 = h2 -> chain_items m1 = chain_items m2 \/ hash_break) /\
    (forall later, chain_items m2 = chain_items m1 ++ later ->
       exists heads, chain conv zero_head (chain_items m2) = Ok heads /\
         dlookup "transcript_heads_by_id" r2 = Some (PDict (heads_dict heads)) /\
         dlookup "transcript_heads_by_id" r1 =
           Some (PDict (heads_dict (take (length (chain_items m1)) heads)))).
Proof using.
  intros E1 E2 D1 D2. destruct (recompute_ok conv st1 m1 E1 D1) as (h1 & r1 & R1 & C1).
  destruct (recompute_ok conv st2 m2 E2 D2) as (h2 & r2 & R2 & C2).
  exists r1, r2, (last_head h1), (last_head h2). destruct C1, C2.
  split; [done|]. split; [done|]. split; [done|]. split; [done|]. split; [|split].
  - intros Hp%chain_items_perm. rewrite Hp in *. congruence.
  - intros Hh. by apply (last_head_inj conv _ _ h1 h2 (chain_items_ok m1 D1) (chain_items_ok m2 D2)).
  - intros later Hlater. exists h2. split; [done|]. split; [done|].
    rewrite Hlater in rc_chain0. apply chain_prefix in rc_chain0. congruence.
Qed.

(** C11: a rewritten history is noticed. Given the messages already seen and a
    history from the server, [verify_history_consistency] returns no warning
    exactly when the ids come in order and every message seen before whose id is
    in the window of the history is there with the same digest; it returns at
    most three. Either way the digests of the history are then recorded. *)
Theorem history_tampering_detected s conv st seen messages rel digests :
  transcript_is s conv st (seen_dict seen) -> aes_key_ok (master_key s) = true ->
  relevant messages = Ok rel -> rel <> [] -> NoDup (map fst rel) ->
  res_map (fun p => _message_digest (snd p)) rel = Ok digests ->
  exists s' ws st' m',
    verify_history_consistency conv messages s = (s', Ok ws) /\
    (length ws <= 3)%nat /\
    (let ids := map fst rel in
     ws = [] <-> ids = sort_ints ids /\
       forall mid d, (mid, d) ∈ seen ->
         foldr Z.min (hd 0 ids) ids <= mid <= foldr Z.max (hd 0 ids) ids ->
         (mid, d) ∈ zip ids digests) /\
    transcript_is s' conv st' m' /\
    forall mid d, (mid, d) ∈ zip (map fst rel) digests -> dlookup (dec mid) m' = Some (PStr d).
Proof using L OL IO.
  intros Ht Hk Hrel Hne Hnd Hdig. pose proof Ht as (Hst & Hm & Hok & _).
  destruct (digests_of rel digests Hdig) as [Hlen Hval].
  set (ids := map fst rel) in *. assert (Hl : length digests = length ids) by (unfold ids; by rewrite length_map).
  set (known := dupdate (seen_dict seen) (as_messages (incoming_of ids digests))).
  assert (Hknown : py_ok (PDict known)).
  { apply py_ok_dupdate; [by eapply py_ok_lookup|]. by apply as_messages_ok. }
  destruct (merged_state_ok st known ids (incoming_of ids digests) Hok Hknown) as [Hok2 Hm2].
  destruct (recompute_ok conv _ known Hm2 (digests_of_py_ok _ Hknown)) as (heads & r & Er & Hr).
  pose proof (recomputed_py_ok conv _ r Hok2 Er known Hm2 (digests_of_py_ok _ Hknown)) as Hokr.
  destruct (load_transcript_ok s conv st _ Ht) as (s1 & E1 & Hs1 & _).
  destruct (stamp_and_save_run conv r s1) as (s2 & st' & E2 & Hs2 & Hf & Hok' & Hsealed);
    [by same_fields Hs1..|done|].
  eexists s2, _, st', known. split.
  { unfold verify_history_consistency, st_bind, st_lift. rewrite Hrel. destruct rel; [done|]. fold ids.
    rewrite Hdig, E1. unfold setdefault, dget. rewrite Hm. rewrite Hm. cbn [as_dict res_bind].
    rewrite sorted_known_seen. cbn [res_bind]. fold (incoming_of ids digests).
    fold (as_messages (incoming_of ids digests)). fold known.
    fold (merged_state st known ids (incoming_of ids digests)).
    rewrite Er. cbn [res_bind]. rewrite E2. unfold st_ret. reflexivity. }
  split; [rewrite length_take; lia|]. split; [|split].
  - cbv zeta. rewrite <- (history_warnings_nil ids digests seen Hnd Hl). unfold incoming_of.
    split; [|by intros ->]. by destruct (history_warnings _ _ _).
  - pose proof (same_session_trans _ _ _ Hs1 Hs2) as Hs12. split; [by same_fields Hs12|]. split; [|done].
    rewrite Hf by done. rewrite (rc_other _ _ _ _ _ Hr); [done|by apply not_transcript_key].
  - intros mid d Hin. by apply merged_lookup.
Qed.

(** Checkpoints compare transcripts. A member signs a checkpoint of a
    transcript; another member, whose transcript of the conversation starts and
    ends at the same messages and who has no checkpoint of a peer yet, reads it
    off the wire and records it. There is no warning when the two transcripts are
    equal, and no warning only then, unless SHA-256 is broken. *)
Theorem checkpoints_compare_transcripts sA sB conv stA mA stB mB :
  transcript_is sA conv stA mA -> transcript_is sB conv stB mB ->
  aes_key_ok (master_key sA) = true -> aes_key_ok (master_key sB) = true ->
  len32 (identity_sk sA) -> identity_pk sA = ed_pub (identity_sk sA) -> 0 < my_uid sA ->
  utf8_valid (get_str0 "last_own_transcript_checkpoint_hash" stA) = true ->
  dlookup "peer_transcript_checkpoints" stB = None ->
  chain_items mA <> [] -> chain_items mB <> [] ->
  opt_id (head (chain_items mA)) = opt_id (head (chain_items mB)) ->
  opt_id (last (chain_items mA)) = opt_id (last (chain_items mB)) ->
  exists sA' wire payload sB' ws,
    create_transcript_checkpoint conv sA = (sA', Ok wire) /\
    json_unb64 (sdrop (String.length PREFIX_MLS) wire) = Ok (PDict payload) /\
    record_transcript_checkpoint conv payload true sB = (sB', Ok ws) /\
    (chain_items mA = chain_items mB -> ws = []) /\
    (ws = [] -> chain_items mA = chain_items mB \/ hash_break).
Proof using L OL IO.
  intros HA HB KA KB Hsk Hpk Huid Hprev Hpeers NA NB Hfirst Hlast.
  pose proof HA as (_ & MA & OA & _). pose proof HB as (_ & MB & OB & _).
  pose proof (digests_of_py_ok _ (py_ok_lookup _ _ _ OA MA)) as DA.
  pose proof (digests_of_py_ok _ (py_ok_lookup _ _ _ OB MB)) as DB.
  destruct (recompute_ok conv stA mA MA DA) as (hA & rA & RA & CA).
  destruct (recompute_ok conv stB mB MB DB) as (hB & rB & RB & CB).
  destruct (create_checkpoint_run sA conv stA mA hA rA HA KA RA CA NA Hsk Hpk Hprev)
    as (sA' & ts & EA & Hpo).
  destruct (chain_last conv _ hA (chain_items_ok mA DA) (rc_chain _ _ _ _ _ CA) NA) as (_ & Hnh & Hlen).
  destruct (last_head_valid _ _ _ (chain_items_ok mA DA) (rc_chain _ _ _ _ _ CA)) as [Hhv _].
  destruct (first_last_pos mA NA) as [Hf Hl].
  set (cl := signed_claim (my_uid sA) (opt_id (head (chain_items mA))) (opt_id (last (chain_items mA)))
    (last_head hA) (identity_sk sA)).
  assert (Hw : local_warnings (dset "peer_transcript_checkpoints" (PDict []) rB) cl =
    Ok (if String.eqb (last_head hB) (last_head hA) then [] else [order_mismatch])).
  { apply (local_warnings_same conv mB hB (dset "peer_transcript_checkpoints" (PDict []) stB)); try done.
    apply recomputed_dset; [done|by apply not_transcript_key]. }
  destruct (record_checkpoint_run sB conv stB mB hB rB (my_uid sA) (Z.of_nat (length (chain_items mA)))
    (opt_id (head (chain_items mA))) (opt_id (last (chain_items mA))) ts (last_head hA)
    (get_str0 "last_own_transcript_checkpoint_hash" stA) (identity_sk sA) HB KB RB CB Hpeers Hsk Hhv Hprev
    Huid Hf Hl) with (w := if String.eqb (last_head hB) (last_head hA) then [] else [order_mismatch])
    as [sB' EB]; [destruct (chain_items mA); [done|cbn; lia]|done|exact Hw|].
  eexists sA', _, _, sB', _. split; [exact EA|]. split; [by rewrite sdrop_app, json_unb64_ok|].
  split; [exact EB|]. split.
  - intros Heq. destruct CA as [CA _ _ _ _ _ _], CB as [CB _ _ _ _ _ _]. rewrite Heq, CB in CA.
    injection CA as ->. by rewrite string_eqb_refl.
  - destruct (String.eqb (last_head hB) (last_head hA)) eqn:E; [|done]. intros _.
    apply String.eqb_eq in E. destruct CA as [CA _ _ _ _ _ _], CB as [CB _ _ _ _ _ _].
    by apply (last_head_inj conv _ _ hA hB (chain_items_ok mA DA) (chain_items_ok mB DB)).
Qed.
End props.

(** ** Witnesses *)

(** Two messages and their digests. *)
Definition demo_digest (mid : Z) (body : string) : string :=
  ok_or "" (_message_digest (message_item mid 2 (PStr body) (PStr "") 0 false)).
Definition demo_messages : dict :=
  [("3", PStr (demo_digest 3 "hello")); ("5", PStr (demo_digest 5 "bye"))].

Lemma transcript_head_binds_witness :
  exists r1 r2 h1 h2,
    _recompute_transcript_chain 9 [("messages", PDict demo_messages)] = Ok r1 /\
    _recompute_transcript_chain 9 [("messages", PDict (rev demo_messages))] = Ok r2 /\
    dlookup "transcript_head" r1 = Some (PStr h1) /\ dlookup "transcript_head" r2 = Some (PStr h2) /\
    h1 = h2.
Proof.
  destruct (transcript_head_binds 9 [("messages", PDict demo_messages)]
    [("messages", PDict (rev demo_messages))] demo_messages (rev demo_messages) eq_refl eq_refl)
    as (r1 & r2 & h1 & h2 & E1 & E2 & H1 & H2 & Hp & _).
  - repeat constructor; vm_compute; reflexivity.
  - repeat constructor; vm_compute; reflexivity.
  - exists r1, r2, h1, h2. split; [exact E1|]. split; [exact E2|]. split; [exact H1|].
    split; [exact H2|]. apply Hp. apply Permutation_rev.
Defined.

(** The demonstration session after the two messages. *)
Lemma demo_recorded `{L : PrimLaws} : forall s,
  knows s 9 empty_transcript [] -> aes_key_ok (master_key s) = true ->
  exists s' st', same_session s s' /\ transcript_is s' 9 st' demo_messages /\
    dlookup "peer_transcript_checkpoints" st' = None /\
    dlookup "last_own_transcript_checkpoint_hash" st' = None.
Proof.
  intros s Hkn Hk.
  destruct (record_message_run (O := demo_os 0) s 9 empty_transcript [] 3 2 (PStr "hello") (PStr "") 0 false
    (demo_digest 3 "hello") Hkn Hk) as (s1 & st1 & _ & Hs1 & Ht1 & Ho1); [done|done|vm_compute; reflexivity|].
  destruct (record_message_run (O := demo_os 0) s1 9 st1 _ 5 2 (PStr "bye") (PStr "") 0 false
    (demo_digest 5 "bye") (or_introl Ht1)) as (s2 & st2 & _ & Hs2 & Ht2 & Ho2);
    [by same_fields Hs1|done|done|vm_compute; reflexivity|].
  exists s2, st2. split; [by eapply same_session_trans|]. split; [exact Ht2|].
  by split; rewrite Ho2, Ho1 by (done || by apply not_transcript_key).
Qed.

(** The server returns the second message altered. *)
Definition demo_history : list pyval :=
  [PDict [("id", PInt 3); ("sender_id", PInt 2); ("body", PStr "hello")];
   PDict [("id", PInt 5); ("sender_id", PInt 2); ("body", PStr "good bye")]].

Definition demo_rel : list (Z * dict) := ok_or [] (relevant demo_history).
Definition demo_rel_digests : list string :=
  ok_or [] (res_map (fun p => _message_digest (snd p)) demo_rel).

Lemma history_tampering_detected_witness :
  exists s s' ws, verify_history_consistency (P := reference_prims) (O := demo_os 0) 9 demo_history s
                    = (s', Ok ws) /\ ws <> [].
Proof.
  destruct (demo_recorded (P := reference_prims) demo_session) as (s & st & Hs & Ht & _).
  { right. by repeat split. }
  { vm_compute. reflexivity. }
  assert (E : seen_dict [(3, demo_digest 3 "hello"); (5, demo_digest 5 "bye")] = demo_messages)
    by (vm_compute; reflexivity).
  rewrite <- E in Ht.
  destruct (history_tampering_detected (O := demo_os 0) s 9 st _ demo_history demo_rel demo_rel_digests Ht)
    as (s' & ws & st' & m' & Ev & _ & Hw & _).
  - by same_fields Hs.
  - vm_compute. reflexivity.
  - vm_compute. discriminate.
  - apply (bool_decide_unpack _). vm_compute. exact I.
  - vm_compute. reflexivity.
  - exists s, s', ws. split; [exact Ev|]. intros H. apply Hw in H as [_ H].
    assert (Hin : (5, demo_digest 5 "bye") ∈ zip (map fst demo_rel) demo_rel_digests).
    { apply H; [right; left|]. vm_compute. split; discriminate. }
    apply (bool_decide_pack _) in Hin. revert Hin.
    assert (En : bool_decide ((5, demo_digest 5 "bye") ∈ zip (map fst demo_rel) demo_rel_digests) = false)
      by (vm_compute; reflexivity).
    rewrite En. intros [].
Defined.

(** Two members with the same transcript. *)
Definition demo_member (uid : Z) : session :=
  demo_session <| my_uid := uid |> <| identity_sk := demo_key |> <| identity_pk := demo_key |>.

Lemma checkpoints_compare_transcripts_witness :
  exists sA sB sA' wire payload sB',
    create_transcript_checkpoint (P := reference_prims) (O := demo_os 0) 9 sA = (sA', Ok wire) /\
    json_unb64 (sdrop (String.length PREFIX_MLS) wire) = Ok (PDict payload) /\
    record_transcript_checkpoint (P := reference_prims) (O := demo_os 0) 9 payload true sB = (sB', Ok []).
Proof.
  destruct (demo_recorded (P := reference_prims) (demo_member 1)) as (sA & stA & HsA & HtA & _ & HownA).
  { right. by repeat split. }
  { vm_compute. reflexivity. }
  destruct (demo_recorded (P := reference_prims) (demo_member 2)) as (sB & stB & HsB & HtB & HpeerB & _).
  { right. by repeat split. }
  { vm_compute. reflexivity. }
  destruct (checkpoints_compare_transcripts (O := demo_os 0) sA sB 9 stA demo_messages stB demo_messages HtA HtB)
    as (sA' & wire & payload & sB' & ws & EA & Ew & EB & Heq & _); try done.
  - by same_fields HsA.
  - by same_fields HsB.
  - same_fields HsA. reflexivity.
  - same_fields HsA. reflexivity.
  - same_fields HsA. reflexivity.
  - unfold get_str0, dget. rewrite HownA. reflexivity.
  - rewrite Heq in EB by done. by exists sA, sB, sA', wire, payload, sB'.
Defined.
