(* ===== verification/GroupProps.v ===== *)
(** * The canonical form of a list of members

    [normalize_group_members] and the hashes of it that the clients of a group
    compare. *)

From stdpp Require Import sorting.
From S2P Require Import Prelude Hashing PyVal Sorting Json JsonFacts Crypto Wire Session SessionFacts.
From S2P Require Import Transcript TranscriptFacts.

Definition members_of (members : list pyval) : list (Z * bool) := omap member_of members.
Definition by_uid (members : list pyval) : gmap Z bool := fold_left add_member (members_of members) ∅.
Definition of_map (m : gmap Z bool) : list (Z * bool) :=
  map (fun uid => (uid, default false (m !! uid))) (sort_ints (elements (dom m))).

Lemma normalize_of_map l : normalize_group_members l = of_map (by_uid l).
Proof. done. Qed.

Definition is_admin_in (ms : list (Z * bool)) (u : Z) : bool := existsb (fun m => (fst m =? u) && snd m) ms.

(** One user after the fold: present when listed, an admin when listed once as one. *)
Lemma fold_members ms acc u :
  fold_left add_member ms acc !! u =
  if bool_decide (u ∈ map fst ms) then Some (default false (acc !! u) || is_admin_in ms u) else acc !! u.
Proof.
  revert acc. induction ms as [|[v b] ms IH]; intros acc; cbn [fold_left map fst is_admin_in existsb].
  - done.
  - rewrite IH. clear IH. unfold add_member. cbn [fst snd].
    destruct (decide (u = v)) as [->|Hne].
    + rewrite lookup_insert_eq, Z.eqb_refl. cbn [andb default].
      rewrite (bool_decide_true (v ∈ v :: _)) by left.
      fold (is_admin_in ms v). destruct (bool_decide_reflect (v ∈ map fst ms)) as [|Hn].
      * by rewrite orb_assoc.
      * assert (is_admin_in ms v = false) as ->; [|by rewrite orb_false_r].
        unfold is_admin_in. apply not_true_is_false. intros [m [Hin Hm]]%existsb_exists. bool_hyps.
        apply Hn, list_elem_of_fmap. exists m. split; [done|by apply list_elem_of_In].
    + rewrite lookup_insert_ne by done.
      assert ((v =? u) = false) as -> by (apply Z.eqb_neq; congruence). cbn [andb orb].
      fold (is_admin_in ms u).
      destruct (bool_decide_reflect (u ∈ map fst ms)) as [Hin|Hn].
      * rewrite bool_decide_true; [done|by right].
      * rewrite bool_decide_false; [done|]. by intros [?|?]%elem_of_cons.
Qed.

Lemma lookup_by_uid l u :
  by_uid l !! u = if bool_decide (u ∈ map fst (members_of l)) then Some (is_admin_in (members_of l) u) else None.
Proof. unfold by_uid. rewrite fold_members. by rewrite lookup_empty. Qed.

Lemma is_admin_in_spec ms u : is_admin_in ms u = true <-> (u, true) ∈ ms.
Proof.
  unfold is_admin_in. rewrite existsb_exists. split.
  - intros ([v b] & Hin & H). cbn in H. bool_hyps. subst. by apply list_elem_of_In.
  - intros Hin. exists (u, true). split; [by apply list_elem_of_In|]. cbn. by rewrite Z.eqb_refl.
Qed.

Lemma elem_of_map m u b : (u, b) ∈ of_map m <-> m !! u = Some b.
Proof.
  unfold of_map. rewrite list_elem_of_fmap. split.
  - intros (v & [= -> ->] & Hin). unfold sort_ints in Hin.
    rewrite elem_of_isort, elem_of_elements, elem_of_dom in Hin. destruct Hin as [x Hx]. by rewrite Hx.
  - intros H. exists u. rewrite H. split; [done|]. unfold sort_ints.
    rewrite elem_of_isort, elem_of_elements, elem_of_dom. by eexists.
Qed.

Lemma map_fst_of_map m : map fst (of_map m) = sort_ints (elements (dom m)).
Proof. unfold of_map. rewrite map_map. apply map_id. Qed.

Lemma of_map_nodup m : NoDup (map fst (of_map m)).
Proof. rewrite map_fst_of_map. unfold sort_ints. rewrite isort_perm. apply NoDup_elements. Qed.

(** The members counted have positive ids. *)
Lemma member_pos v m : member_of v = Some m -> 0 < fst m.
Proof.
  unfold member_of. destruct (match v with PDict _ => _ | _ => _ end) as [value role].
  destruct (py_int value) as [u|]; [|done]. destruct (0 <? u) eqn:E; [|done].
  intros [= <-]. by apply Z.ltb_lt.
Qed.

Lemma member_of_json m : 0 < fst m -> member_of (member_json m) = Some m.
Proof.
  destruct m as [u b]. cbn [fst]. intros Hu. unfold member_of, member_json. cbn.
  apply Z.ltb_lt in Hu as ->. by destruct b.
Qed.

Lemma members_of_normal l : members_of (map member_json (normalize_group_members l)) = normalize_group_members l.
Proof.
  assert (H : Forall (fun m => 0 < fst m) (normalize_group_members l)).
  { apply Forall_forall. intros [u b] Hin. rewrite normalize_of_map, elem_of_map, lookup_by_uid in Hin.
    destruct (bool_decide_reflect (u ∈ map fst (members_of l))) as [Hu|]; [|done].
    apply list_elem_of_fmap in Hu as (m & -> & Hm). unfold members_of in Hm.
    apply list_elem_of_omap in Hm as (v & _ & Hv). cbn. by eapply member_pos. }
  unfold members_of. induction H as [|m n Hm _ IH]; [done|].
  change (omap member_of (map member_json (m :: n))) with
    (match member_of (member_json m) with
     | Some x => x :: omap member_of (map member_json n) | None => omap member_of (map member_json n) end).
  by rewrite member_of_json, IH.
Qed.

Lemma by_uid_normal l : by_uid (map member_json (normalize_group_members l)) = by_uid l.
Proof.
  apply map_eq. intros u. rewrite lookup_by_uid, members_of_normal.
  destruct (by_uid l !! u) as [b|] eqn:E.
  - assert (Hin : (u, b) ∈ normalize_group_members l) by (by rewrite normalize_of_map, elem_of_map).
    rewrite bool_decide_true by (apply list_elem_of_fmap; by exists (u, b)). f_equal.
    destruct b; [by apply is_admin_in_spec|]. apply not_true_is_false.
    intros H%is_admin_in_spec. rewrite normalize_of_map, elem_of_map in H. congruence.
  - rewrite bool_decide_false; [done|]. intros ([v b] & Heq & Hin)%list_elem_of_fmap.
    cbn in Heq. subst v. rewrite normalize_of_map, elem_of_map in Hin. congruence.
Qed.

Definition members_json (l : list pyval) : pyval := PList (map member_json (normalize_group_members l)).

Lemma members_json_ok l : py_ok (members_json l).
Proof.
  apply py_ok_list, Forall_fmap, Forall_true. intros [u b]. unfold member_json. py_ok_fields.
  by destruct b.
Qed.

Lemma member_list_inj a b :
  py_sort (PList (map member_json a)) = py_sort (PList (map member_json b)) -> a = b.
Proof.
  cbn [py_sort]. intros [= H]. revert b H.
  induction a as [|[u x] a IH]; intros [|[v y] b] H; try discriminate H; [done|].
  cbn in H. injection H as Hr Hu H. f_equal; [|by apply IH].
  f_equal; [done|]. by destruct x, y.
Qed.

(** The canonical list of members. It is sorted by user id without
    repetition, lists exactly the positive ids given, each as an admin exactly when
    some entry says so, and is a fixed point of the normalisation. Lists with the
    same entries, in any order and number, have the same membership hash, and equal
    hashes mean equal canonical lists unless SHA-256 is broken. *)
Theorem membership_hash_canonical l l' :
  NoDup (map fst (normalize_group_members l)) /\
  StronglySorted (le_of Z.ltb) (map fst (normalize_group_members l)) /\
  (forall u b, (u, b) ∈ normalize_group_members l <->
     u ∈ map fst (members_of l) /\ (b = true <-> (u, true) ∈ members_of l)) /\
  normalize_group_members (map member_json (normalize_group_members l)) = normalize_group_members l /\
  ((forall m, m ∈ members_of l <-> m ∈ members_of l') ->
     group_membership_hash l = group_membership_hash l') /\
  (exists h, group_membership_hash l = Ok h) /\
  (group_membership_hash l = group_membership_hash l' ->
     normalize_group_members l = normalize_group_members l' \/ hash_break).
Proof.
  split; [apply of_map_nodup|]. split; [rewrite normalize_of_map, map_fst_of_map; apply (isort_sorted Z.ltb (Hord := Z_ord))|].
  split; [|split; [|split; [|split]]].
  - intros u b. rewrite normalize_of_map, elem_of_map, lookup_by_uid, <- is_admin_in_spec.
    destruct (bool_decide_reflect (u ∈ map fst (members_of l))) as [Hu|Hn]; [|by split; [|intros [? _]]].
    destruct (is_admin_in (members_of l) u), b; naive_solver.
  - by rewrite (normalize_of_map (map member_json _)), by_uid_normal.
  - intros Hsame. unfold group_membership_hash. do 2 f_equal. f_equal. rewrite !normalize_of_map. f_equal.
    apply map_eq. intros u. rewrite !lookup_by_uid.
    assert (Hm : u ∈ map fst (members_of l) <-> u ∈ map fst (members_of l')).
    { rewrite !list_elem_of_fmap. naive_solver. }
    assert (Ha : is_admin_in (members_of l) u = is_admin_in (members_of l') u).
    { apply eq_true_iff_eq. by rewrite !is_admin_in_spec. }
    rewrite Ha. by rewrite (bool_decide_ext _ _ Hm).
  - eexists. exact (json_hash_ok _ (members_json_ok l)).
  - intros H. pose proof (json_hash_ok _ (members_json_ok l)) as E.
    unfold group_membership_hash in H. fold (members_json l) (members_json l') in H. rewrite E in H.
    destruct (json_hash_inj _ _ _ (members_json_ok l) (members_json_ok l') E (eq_sym H)) as [Hs|?];
      [left|by right]. by apply member_list_inj.
Qed.
