(* ===== verification/Identity.v ===== *)
(** * Identity keys and prekey stores (client/crypto_engine/session.py)

    The long-term identity key kept in [identity_sk.bin], its sealed copy on the
    server, and the private prekeys of the PQXDH bundle kept in
    [pqxdh_prekeys.bin]. A wire that starts a conversation is answered on a copy
    of the prekeys, which replaces the store only when it succeeds.

    [json.dumps] with its default [ensure_ascii] escapes the text differently but
    is read back as the same value; the model prints the characters. *)

From S2P Require Import Prelude Hashing Base64 PyVal Sorting Json Crypto Wire Ratchet Pqxdh AuditClient.
From S2P Require Import Utils Session.

Section identity.
Context `{P : Prims, O : Os}.
Variable oqs : option (option (list string)).

(** ** The identity key *)

Definition save_identity_key : sm unit :=
  do! s := st_get in
  if negb (has_store s) || negb (nonempty (identity_sk s)) then st_ret tt
  else logged (write_sealed (identity_key_path s) (b64encode (identity_sk s))).

(** [base64.b64decode(v)] of a value that should be a string. *)
Definition b64decode_v (v : pyval) : res bytes :=
  match v with PStr s => b64decode s | _ => Err TypeError end.

Definition set_identity (pk sk : bytes) : sm unit :=
  st_modify (fun s => s <| identity_pk := pk |> <| identity_sk := sk |>).

(** A new key pair, saved. *)
Definition new_identity : sm unit :=
  do! seed := urandom 32 in
  let (pk, sk) := identity_keygen seed in
  do! _ := set_identity pk sk in
  save_identity_key.

(** The key of the file: is it loaded? *)
Definition load_identity_file (path : string) : sm bool :=
  st_catch (
    do! v := read_sealed path in
    do! sk := st_lift (b64decode_v v) in
    do! _ := st_modify (fun s => s <| identity_sk := sk |>) in
    do! pk := st_lift (identity_pk_from_sk sk) in
    do! _ := st_modify (fun s => s <| identity_pk := pk |>) in
    st_ret true) (fun _ => st_ret false).

Definition load_or_create_identity_key : sm unit :=
  do! s := st_get in
  if negb (has_store s) then st_ret tt
  else
    let path := identity_key_path s in
    do! loaded := (if path_exists s path then load_identity_file path else st_ret false) in
    if loaded : bool then st_ret tt else new_identity.

(** ** The prekey store *)

Definition save_pqxdh_prekeys : sm unit :=
  do! s := st_get in
  if negb (has_store s) || negb (truthy (pqxdh_prekeys s)) then st_ret tt
  else logged (write_sealed (pqxdh_prekeys_path s) (json_dumps false false (pqxdh_prekeys s))).

Definition load_pqxdh_prekeys : sm pyval :=
  do! s := st_get in
  if truthy (pqxdh_prekeys s) then st_ret (pqxdh_prekeys s)
  else if negb (has_store s) then st_ret PNone
  else if negb (path_exists s (pqxdh_prekeys_path s)) then st_ret PNone
  else
    st_catch (
      do! v := read_json (pqxdh_prekeys_path s) in
      do! _ := st_modify (fun s => s <| pqxdh_prekeys := v |>) in
      st_ret v) (fun _ => st_ret PNone).

(** [_clone_pqxdh_prekey_store]. *)
Definition _clone_pqxdh_prekey_store (store : pyval) : res pyval := json_loads (json_dumps true false store).

Definition no_prekeys : exc := CryptoStateError "SecChat prekey store is not available.".

(** [_respond_pqxdh_with_current_prekey]: plaintext, ratchet, fingerprint, peer. *)
Definition _respond_pqxdh_with_current_prekey (body : string) :
    sm (string * DoubleRatchet * string * Z) :=
  do! store := load_pqxdh_prekeys in
  if negb (truthy store) then st_fail no_prekeys
  else
    do! candidate := st_lift (let! v := _clone_pqxdh_prekey_store store in as_dict v) in
    do! dr_seed := urandom 32 in
    do! sid_seed := urandom 16 in
    do! s := st_get in
    let (candidate', result) := pqxdh_respond oqs dr_seed sid_seed body (Some (my_uid s)) candidate in
    do! result := st_lift result in
    do! _ := st_modify (fun s => s <| pqxdh_prekeys := PDict candidate' |>) in
    do! _ := save_pqxdh_prekeys in
    st_ret result.

(** ** Bundles *)

(** The seeds of [n] pairs of one-time prekeys. *)
Fixpoint draw_pairs (n : nat) : sm (list (bytes * bytes)) :=
  match n with
  | 0%nat => st_ret []
  | S n' =>
      do! c := urandom 32 in
      do! q := urandom 64 in
      do! rest := draw_pairs n' in
      st_ret ((c, q) :: rest)
  end.

Definition otk_count : nat := 12.

(** [generate_local_bundle(self.identity_pk, self.identity_sk, otk_count=12)], kept
    as the prekey store. *)
Definition new_bundle : sm dict :=
  do! now := now_ms in
  do! curve_seed := urandom 32 in
  do! pq_seed := urandom 64 in
  do! seeds := draw_pairs otk_count in
  do! s := st_get in
  do! (upload, local) := st_lift (generate_local_bundle oqs now curve_seed pq_seed seeds
                                    (identity_pk s) (identity_sk s) None) in
  do! _ := st_modify (fun s => s <| pqxdh_prekeys := PDict local |>) in
  do! _ := save_pqxdh_prekeys in
  st_ret upload.

Definition ensure_pqxdh_bundle_command : sm (option dict) :=
  do! store := load_pqxdh_prekeys in
  match store with
  | PNone =>
      do! s := st_get in
      if negb (nonempty (identity_pk s)) || negb (nonempty (identity_sk s)) then st_ret None
      else do! upload := new_bundle in st_ret (Some upload)
  | _ => st_ret None
  end.

(** [protocol_b64d(item.get("pk", ""))]. *)
Definition pk_field (item : dict) : res bytes := b64d_v (dget "pk" (PStr "") item).

(** One-time prekeys offered again, signed again: [(key id, item)] in the order of
    the dictionary keys as strings. *)
Definition sorted_one_time (store : dict) (k : string) : res (list (string * pyval)) :=
  let! d := as_dict (py_or (dget k PNone store) (PDict [])) in Ok (sort_items d).

Definition offer_curve (sk : bytes) (kv : string * pyval) : res pyval :=
  let! kid := int_of_string (fst kv) in
  let! item := as_dict (snd kv) in
  let! pk := pk_field item in
  let! sig := sign_prekey sk "curve-otk" kid "X25519" pk in
  Ok (PDict [("key_id", PInt kid); ("public_key", PStr (b64e pk)); ("signature", PStr (b64e sig))]).

Definition offer_pq (sk : bytes) (pq_alg : string) (kv : string * pyval) : res pyval :=
  let! kid := int_of_string (fst kv) in
  let! item := as_dict (snd kv) in
  let alg := py_str (py_or (dget "alg" (PStr pq_alg) item) (PStr pq_alg)) in
  let! pk := pk_field item in
  let! sig := sign_prekey sk "pq-otk" kid alg pk in
  Ok (PDict [("key_id", PInt kid); ("alg", PStr alg); ("public_key", PStr (b64e pk));
             ("signature", PStr (b64e sig))]).

(** The public bundle of a prekey store, signed by the identity; [None] when a
    signed prekey is missing. *)
Definition bundle_of_store (identity_pk identity_sk : bytes) (store : dict) : res (option dict) :=
  let! curve := as_dict (py_or (dget "curve_signed" PNone store) (PDict [])) in
  let! pq := as_dict (py_or (dget "pq_signed" PNone store) (PDict [])) in
  let! curve_id := get_int0 "key_id" curve in
  let! pq_id := get_int0 "key_id" pq in
  let! curve_pk := pk_field curve in
  let! pq_pk := pk_field pq in
  let pq_alg := get_str0 "alg" pq in
  if (curve_id <=? 0) || (pq_id <=? 0) || negb (nonempty curve_pk) || negb (nonempty pq_pk) ||
     negb (nonempty pq_alg) then Ok None
  else
    let! curve_sig := sign_prekey identity_sk "curve-signed" curve_id "X25519" curve_pk in
    let! pq_sig := sign_prekey identity_sk "pq-signed" pq_id pq_alg pq_pk in
    let! curves := sorted_one_time store "curve_one_time" in
    let! curves := res_map (offer_curve identity_sk) curves in
    let! pqs := sorted_one_time store "pq_one_time" in
    let! pqs := res_map (offer_pq identity_sk pq_alg) pqs in
    Ok (Some
      [("type", PStr "upload_pqxdh_bundle"); ("identity_pk", PStr (b64e identity_pk));
       ("curve_spk_id", PInt curve_id); ("curve_spk", PStr (b64e curve_pk));
       ("curve_spk_sig", PStr (b64e curve_sig)); ("pq_spk_id", PInt pq_id);
       ("pq_kem_alg", PStr pq_alg); ("pq_spk", PStr (b64e pq_pk)); ("pq_spk_sig", PStr (b64e pq_sig));
       ("curve_one_time_prekeys", PList curves); ("pq_one_time_prekeys", PList pqs)]).

Definition current_pqxdh_bundle_command : sm (option dict) :=
  do! store := load_pqxdh_prekeys in
  if negb (truthy store) then ensure_pqxdh_bundle_command
  else
    do! s := st_get in
    do! _ := st_when (negb (nonempty (identity_sk s))) load_or_create_identity_key in
    do! s := st_get in
    if negb (nonempty (identity_sk s)) then st_ret None
    else
      do! d := st_lift (as_dict store) in
      do! pk := st_lift (if nonempty (identity_pk s) then Ok (identity_pk s)
                         else b64d_v (dget "identity_pk" (PStr "") d)) in
      if negb (nonempty pk) then st_ret None
      else st_lift (bundle_of_store pk (identity_sk s) d).

Definition fresh_pqxdh_bundle_command : sm (option dict) :=
  do! s := st_get in
  do! _ := st_when (negb (nonempty (identity_sk s))) load_or_create_identity_key in
  do! s := st_get in
  if negb (nonempty (identity_pk s)) || negb (nonempty (identity_sk s)) then st_ret None
  else do! upload := new_bundle in st_ret (Some upload).

(** ** The identity record on the server *)

Definition current_identity_key_record_command : sm (option dict) :=
  do! s := st_get in
  if negb (nonempty (master_key s)) || negb (nonempty (identity_pk s)) || negb (nonempty (identity_sk s))
  then st_ret None
  else
    do! sig := st_lift (identity_sign (identity_sk s) (identity_pk s)) in
    do! enc := seal (master_key s) (b64encode (identity_sk s)) in
    st_ret (Some [("type", PStr "upload_keys"); ("identity_pk", PStr (b64encode (identity_pk s)));
                  ("identity_sig", PStr (b64encode sig)); ("identity_sk_enc", PStr enc)]).

Definition new_identity_key_record_command : sm (option dict) := current_identity_key_record_command.

Definition opt_dict (o : option dict) : pyval := match o with Some d => PDict d | None => PNone end.

Definition mismatch : exc := CryptoStateError "Server identity backup does not match public identity".

(** The secret of a record, checked against the public key it comes with. *)
Definition open_record (key : bytes) (enc pk_b64 : pyval) : res (bytes * bytes) :=
  let! token := as_str enc in
  let! sk := decrypt_key_with_master key token in
  let! pk := identity_pk_from_sk sk in
  if truthy pk_b64 then
    let! server_pk := match b64decode_v pk_b64 with Ok x => Ok x | Err _ => b64d_v pk_b64 end in
    if String.eqb server_pk pk then Ok (pk, sk) else Err mismatch
  else Ok (pk, sk).

Definition restore_identity_key_record (msg : dict) : sm dict :=
  if negb (truthy (dget "found" PNone msg)) then
    do! _ := load_or_create_identity_key in
    do! upload := new_identity_key_record_command in
    st_ret [("found", PBool false); ("upload", opt_dict upload)]
  else
    let enc := py_or (dget "identity_sk_enc" (PStr "") msg) (PStr "") in
    let pk_b64 := py_or (dget "identity_pk" (PStr "") msg) (PStr "") in
    do! restored := (if truthy enc then
      st_catch (
        do! s := st_get in
        do! (pk, sk) := st_lift (open_record (master_key s) enc pk_b64) in
        do! _ := set_identity pk sk in
        do! _ := save_identity_key in
        st_ret true) (fun _ => st_ret false)
      else st_ret false) in
    do! _ := st_when (negb restored) load_or_create_identity_key in
    st_ret [("found", PBool true); ("identity_secret_restored", PBool restored);
            ("identity_secret_backup_missing", PBool (negb (truthy enc)))].

(** ** Rotation *)

(** [os.remove] of each file of a pattern; an [OSError] is skipped. *)
Definition remove_pattern (prefix : string) : sm unit :=
  do! paths := glob prefix ".bin" in
  st_for paths (fun path => st_catch (remove_file path) (fun _ => st_ret tt)).

Definition forget_mls : sm unit :=
  st_modify (fun s => s <| mls_identity_ready := false |> <| mls_credential_identity_b64 := "" |>
    <| mls_group_ready := ∅ |> <| mls_handshake_seen := ∅ |> <| mls_bridge := None |>).

Definition rotate_identity_commands : sm (dict * dict) :=
  do! s := st_get in
  if negb (nonempty (master_key s)) then st_fail (CryptoStateError "Master key is not available")
  else
    do! _ := new_identity in
    do! upload_keys := new_identity_key_record_command in
    match upload_keys with
    | None => st_fail (CryptoStateError "Could not build the rotated key bundle")
    | Some upload_keys =>
        do! upload_bundle := new_bundle in
        do! _ := forget_mls in
        do! _ := remove_pattern "mls_" in
        st_ret (dset "type" (PStr "rotate_identity") upload_keys, upload_bundle)
    end.
End identity.
