(* ===== verification/IdentityProps.v ===== *)
(** * Theorems about identity keys and prekey stores *)

From S2P Require Import Prelude Hashing Base64 PyVal Sorting Json JsonFacts Crypto Wire Ratchet Pqxdh.
From S2P Require Import AuditClient Utils Session SessionFacts Identity.

Section identity_facts.
Context `{L : PrimLaws, O : Os, OL : !OsLaws O, IO : !IoReliable O}.

Definition has_identity (s : session) (sk : bytes) : Prop :=
  identity_sk s = sk /\ identity_pk s = ed_pub sk /\ len32 sk.

(** The identity file holds [sk]. *)
Definition identity_stored (s : session) (sk : bytes) : Prop :=
  exists v, sealed_at s (identity_key_path s) v /\ b64decode_v v = Ok sk.

Lemma load_identity_run s sk :
  identity_stored s sk -> len32 sk ->
  exists s', load_identity_file (identity_key_path s) s = (s', Ok true) /\
    has_identity s' sk /\ files (os s') = files (os s) /\ master_key s' = master_key s /\
    secchat_dir s' = secchat_dir s.
Proof using IO.
  intros (v & Hst & Hv) Hsk. destruct (read_sealed_ok _ _ _ Hst) as (s1 & E & Hs1 & Hf & _).
  unfold load_identity_file, st_catch, st_bind, st_lift, st_modify, st_ret. rewrite E, Hv.
  unfold identity_pk_from_sk.
  rewrite (proj2 (len32b_spec sk) Hsk). eexists. split; [reflexivity|].
  split; [by repeat split|]. split; [exact Hf|]. by same_fields Hs1.
Qed.

Lemma save_identity_run s :
  has_store s = true -> aes_key_ok (master_key s) = true -> nonempty (identity_sk s) = true ->
  exists s', save_identity_key s = (s', Ok tt) /\ same_session s s' /\ identity_stored s' (identity_sk s).
Proof using L OL IO.
  intros Hst Hk Hne. unfold save_identity_key, st_bind, st_get. rewrite Hst, Hne. cbn [negb orb].
  unfold logged, st_catch.
  destruct (write_sealed_ok (identity_key_path s) (b64encode (identity_sk s)) s Hk) as (s1 & -> & Hw).
  { apply utf8_valid_ascii, b64encode_ascii. }
  exists s1. split; [done|]. pose proof Hw as (Hs1 & _). split; [done|]. unfold identity_stored.
  replace (identity_key_path s1) with (identity_key_path s) by (by same_fields Hs1).
  eexists. split; [by eapply wrote_sealed|]. apply b64decode_encode.
Qed.

Lemma key_nonempty x : len32 x -> nonempty x = true.
Proof using. unfold len32. by destruct x. Qed.

Lemma new_identity_run s :
  has_store s = true -> aes_key_ok (master_key s) = true ->
  exists s' sk, new_identity s = (s', Ok tt) /\ has_identity s' sk /\ identity_stored s' sk /\
    master_key s' = master_key s /\ secchat_dir s' = secchat_dir s.
Proof using L OL IO.
  intros Hst Hk. unfold new_identity, st_bind, urandom, set_identity, st_modify, identity_keygen.
  set (sk := os_random _ 32). assert (Hsk : len32 sk) by apply os_random_len.
  lazymatch goal with |- context [save_identity_key ?x] => set (s1 := x) end.
  destruct (save_identity_run s1 Hst Hk (key_nonempty _ Hsk)) as (s2 & -> & Hs2 & Hst2).
  exists s2, sk. split; [done|]. split; [by same_fields Hs2|]. split; [exact Hst2|]. by same_fields Hs2.
Qed.

Lemma load_or_create_existing s sk :
  has_store s = true -> identity_stored s sk -> len32 sk ->
  exists s', load_or_create_identity_key s = (s', Ok tt) /\ has_identity s' sk /\
    files (os s') = files (os s).
Proof using IO.
  intros Hst Hid Hsk. unfold load_or_create_identity_key, st_bind, st_get. rewrite Hst. cbn [negb].
  assert (Hex : path_exists s (identity_key_path s) = true).
  { destruct Hid as (v & (raw & Hr & _) & _). unfold path_exists. rewrite Hr. by apply bool_decide_true. }
  rewrite Hex. destruct (load_identity_run s sk Hid Hsk) as (s1 & -> & Hi & Hf & _). by exists s1.
Qed.

(** Whatever is in the file, the result is a valid identity that is stored. *)
Lemma load_identity_cases path s :
  path = identity_key_path s ->
  exists s' b, load_identity_file path s = (s', Ok b) /\ master_key s' = master_key s /\
    secchat_dir s' = secchat_dir s /\
    (b = true -> exists sk, has_identity s' sk /\ identity_stored s' sk).
Proof using IO.
  intros ->. pose proof (read_sealed_eq (identity_key_path s) s) as E.
  pose proof (read_sealed_same (identity_key_path s) s) as Hs.
  unfold load_identity_file, st_catch, st_bind, st_lift, st_modify, st_ret.
  destruct (read_sealed (identity_key_path s) s) as [s1 [v|e]] eqn:Er; cbn [fst snd] in *.
  2: { exists s1, false. split; [done|]. split_and!; try done; by same_fields Hs. }
  destruct (b64decode_v v) as [sk|e] eqn:Ev.
  2: { exists s1, false. split; [done|]. split_and!; try done; by same_fields Hs. }
  unfold identity_pk_from_sk. destruct (len32b sk) eqn:Hl.
  2: { eexists _, false. split; [reflexivity|]. split_and!; try done; by same_fields Hs. }
  eexists _, true. split; [reflexivity|]. split; [by same_fields Hs|]. split; [by same_fields Hs|].
  intros _. exists sk. split; [repeat split; by apply len32b_spec|].
  destruct (files (os s) !! identity_key_path s) as [raw|] eqn:Hf; [|done]. cbn in E.
  destruct (read_sealed_ok (identity_key_path s) s v) as (s2 & Er2 & _ & Hf2 & _).
  { exists raw. by split. }
  rewrite Er in Er2. injection Er2 as <-.
  exists v. split; [|done]. exists raw. cbn. rewrite Hf2.
  replace (identity_key_path _) with (identity_key_path s).
  - split; [done|]. by same_fields Hs.
  - unfold identity_key_path, local_path. cbn. by same_fields Hs.
Qed.

Lemma load_or_create_run s :
  has_store s = true -> aes_key_ok (master_key s) = true ->
  exists s' sk, load_or_create_identity_key s = (s', Ok tt) /\ has_identity s' sk /\
    identity_stored s' sk /\ master_key s' = master_key s /\ secchat_dir s' = secchat_dir s.
Proof using L OL IO.
  intros Hst Hk. unfold load_or_create_identity_key, st_bind at 1, st_get. rewrite Hst. cbn [negb].
  destruct (path_exists s (identity_key_path s)); unfold st_bind.
  - destruct (load_identity_cases _ s eq_refl) as (s1 & b & -> & Hm & Hd & Hb). destruct b.
    + destruct (Hb eq_refl) as (sk & Hi & Hs). by exists s1, sk.
    + destruct (new_identity_run s1) as (s2 & sk & E & Hi & Hs & Hm2 & Hd2).
      * unfold has_store in *. by rewrite Hm, Hd.
      * by rewrite Hm.
      * exists s2, sk. split; [done|]. split; [done|]. split; [done|]. by rewrite Hm2, Hd2.
  - unfold st_ret. destruct (new_identity_run s Hst Hk) as (s1 & sk & E & H). by exists s1, sk.
Qed.

(** [restore_identity_key_record] with a sealed secret that opens, and with one
    that is refused. *)
Lemma restore_ok msg token pkv pk sk s :
  truthy (dget "found" PNone msg) = true ->
  dget "identity_sk_enc" (PStr "") msg = PStr token -> nonempty token = true ->
  py_or (dget "identity_pk" (PStr "") msg) (PStr "") = pkv ->
  has_store s = true -> aes_key_ok (master_key s) = true ->
  open_record (master_key s) (PStr token) pkv = Ok (pk, sk) -> len32 sk -> pk = ed_pub sk ->
  exists s', restore_identity_key_record msg s =
    (s', Ok [("found", PBool true); ("identity_secret_restored", PBool true);
             ("identity_secret_backup_missing", PBool false)]) /\
    has_identity s' sk /\ identity_stored s' sk.
Proof using L OL IO.
  intros Hf Henc Htok Hpk Hst Hk Hopen Hl ->.
  pose (s0 := s <| identity_pk := ed_pub sk |> <| identity_sk := sk |>).
  destruct (save_identity_run s0 Hst Hk (key_nonempty sk Hl)) as (s3 & E3 & Hs3 & Hst3).
  exists s3. split; [|split; [by same_fields Hs3|exact Hst3]].
  unfold restore_identity_key_record. rewrite Hf, Henc, Hpk. unfold py_or. cbn [truthy negb].
  rewrite Htok. cbn [truthy]. rewrite Htok.
  unfold st_bind, st_catch, st_get, st_lift, set_identity, st_modify, st_ret, st_when.
  rewrite Hopen. cbv beta iota. fold s0. by rewrite E3.
Qed.

Lemma restore_bad msg token pkv e s s' :
  truthy (dget "found" PNone msg) = true ->
  dget "identity_sk_enc" (PStr "") msg = PStr token -> nonempty token = true ->
  py_or (dget "identity_pk" (PStr "") msg) (PStr "") = pkv ->
  open_record (master_key s) (PStr token) pkv = Err e ->
  load_or_create_identity_key s = (s', Ok tt) ->
  restore_identity_key_record msg s =
    (s', Ok [("found", PBool true); ("identity_secret_restored", PBool false);
             ("identity_secret_backup_missing", PBool false)]).
Proof using.
  intros Hf Henc Htok Hpk Hopen Hload.
  unfold restore_identity_key_record. rewrite Hf, Henc, Hpk. unfold py_or. cbn [truthy negb].
  rewrite Htok. cbn [truthy]. rewrite Htok.
  unfold st_bind, st_catch, st_get, st_lift, st_ret, st_when. rewrite Hopen. cbv beta iota.
  cbn [negb]. by rewrite Hload.
Qed.

Lemma b64encode_nonempty x : x <> "" -> nonempty (b64encode x) = true.
Proof using. destruct x as [|a [|b [|c x]]]; [done|..]; done. Qed.
(** ** The prekey store *)

Definition store_ok (d : dict) : Prop := py_ok (PDict d) /\ d <> [].

Lemma pop_one_time_keeps k key : utf8_valid k = true -> keeps store_ok (pop_one_time k key).
Proof using.
  intros Hk d [Hok Hne]. unfold pop_one_time. destruct (dlookup k d) as [[]|] eqn:E; try done.
  cbn [fst]. split; [|apply dset_nonnil]. apply py_ok_dset; [done|done|].
  by apply py_ok_ddel, (py_ok_lookup k _ d).
Qed.

Lemma respond_keeps oqs r1 r2 wire uid : keeps store_ok (pqxdh_respond oqs r1 r2 wire uid).
Proof using. unfold pqxdh_respond. keeps_tac; by apply pop_one_time_keeps. Qed.

Lemma save_pqxdh_prekeys_run s d :
  pqxdh_prekeys s = PDict d -> store_ok d ->
  exists s', save_pqxdh_prekeys s = (s', Ok tt) /\ pqxdh_prekeys s' = PDict d /\
    (has_store s = true -> aes_key_ok (master_key s) = true ->
     sealed_at s' (pqxdh_prekeys_path s) (PStr (json_dumps false false (PDict d)))).
Proof using L OL IO.
  intros Hd [Hok Hne]. unfold save_pqxdh_prekeys, st_bind, st_get.
  assert (Ht : truthy (pqxdh_prekeys s) = true) by (rewrite Hd; by destruct d).
  rewrite Ht. destruct (has_store s); cbn [negb orb]; [|by exists s].
  unfold logged, st_catch. destruct (aes_key_ok (master_key s)) eqn:Hk.
  - destruct (write_sealed_ok (pqxdh_prekeys_path s) (json_dumps false false (pqxdh_prekeys s)) s Hk)
      as (s1 & -> & Hw); [rewrite Hd; by apply json_dumps_valid|].
    exists s1. split; [done|]. pose proof Hw as (Hs & _). split; [by same_fields Hs|].
    intros _ _. rewrite <- Hd. by apply (wrote_sealed s).
  - pose proof (within_run _ _ _ (within_write_sealed (fun _ => True) s (pqxdh_prekeys_path s)
      (json_dumps false false (pqxdh_prekeys s)) I)) as [Hs _].
    destruct (write_sealed _ _ s) as [s1 [[]|e]]; cbn [fst] in Hs;
      (exists s1; split; [done|]; split; [by same_fields Hs|done]).
Qed.
End identity_facts.

Section identity_theorems.
Context `{L : PrimLaws, O : Os, OL : !OsLaws O, IO : !IoReliable O}.
Variable oqs : option (option (list string)).

(** The identity survives a restart. Whatever the identity file held,
    [load_or_create_identity_key] ends with a valid Ed25519 identity that is on
    disk; a new session with the same master key and directory, in a world where
    that file is unchanged, loads the same identity and writes nothing. *)
Theorem identity_survives_restart s w uid :
  has_store s = true -> aes_key_ok (master_key s) = true ->
  exists s1 sk, load_or_create_identity_key s = (s1, Ok tt) /\ has_identity s1 sk /\
    (files w !! identity_key_path s1 = files (os s1) !! identity_key_path s1 ->
     exists s2, (do! _ := configure (master_key s) (secchat_dir s) uid in
                 load_or_create_identity_key) (new_session w) = (s2, Ok tt) /\
       has_identity s2 sk /\ files (os s2) = files w).
Proof using L OL IO.
  intros Hst Hk. destruct (load_or_create_run s Hst Hk) as (s1 & sk & E & Hi & (v & (raw & Hr & Ho) & Hv) & Hm & Hd).
  exists s1, sk. split; [done|]. split; [done|]. intros Hw.
  unfold st_bind, configure, st_modify.
  lazymatch goal with |- context [load_or_create_identity_key ?x] => set (s0 := x) end.
  assert (Hp : identity_key_path s0 = identity_key_path s1).
  { unfold identity_key_path, local_path. by rewrite Hd. }
  destruct (load_or_create_existing s0 sk) as (s2 & E2 & Hi2 & Hf2).
  - exact Hst.
  - exists v. split; [|done]. exists raw. rewrite Hp. split; [cbn; congruence|]. cbn. by rewrite <- Hm.
  - by destruct Hi as (_ & _ & ?).
  - by exists s2.
Qed.

(** The identity backup. The record a device publishes carries its public key
    and its secret key sealed under the master key; a device with the same master
    key that receives it ends with the same identity, saved, and reports it as
    restored. If the server pairs the sealed secret with another public key, the
    secret is not installed. *)
Theorem identity_backup_restores s sk s2 :
  has_identity s sk -> aes_key_ok (master_key s) = true ->
  has_store s2 = true -> master_key s2 = master_key s ->
  exists s1 r, current_identity_key_record_command s = (s1, Ok (Some r)) /\
    dlookup "identity_pk" r = Some (PStr (b64encode (ed_pub sk))) /\
    (exists s3, restore_identity_key_record (("found", PBool true) :: r) s2 =
       (s3, Ok [("found", PBool true); ("identity_secret_restored", PBool true);
                ("identity_secret_backup_missing", PBool false)]) /\
       has_identity s3 sk /\ identity_stored s3 sk) /\
    (forall pk, pk <> ed_pub sk -> pk <> "" ->
       exists s3 sk', restore_identity_key_record
           (dset "identity_pk" (PStr (b64encode pk)) (("found", PBool true) :: r)) s2 =
         (s3, Ok [("found", PBool true); ("identity_secret_restored", PBool false);
                  ("identity_secret_backup_missing", PBool false)]) /\
         load_or_create_identity_key s2 = (s3, Ok tt) /\ has_identity s3 sk').
Proof using L OL IO.
  intros (Hsk & Hpk & Hl) Hk Hst2 Hm2.
  destruct (seal_ok (master_key s) (b64encode sk) s Hk) as (s1 & token & Es & _ & _ & _ & Ht & Ho).
  { apply utf8_valid_ascii, b64encode_ascii. }
  rewrite opens_token in Ho by done.
  set (r := [("type", PStr "upload_keys"); ("identity_pk", PStr (b64encode (ed_pub sk)));
    ("identity_sig", PStr (b64encode (ed_sign sk (ed_pub sk)))); ("identity_sk_enc", PStr token)]).
  assert (Htok : nonempty token = true).
  { destruct token; [|done]. unfold decrypt_with_key in Ho. cbn in Ho.
    by destruct (aes_key_ok (master_key s)). }
  assert (Hopen : forall pk, open_record (master_key s) (PStr token) (PStr (b64encode pk)) =
    if nonempty (b64encode pk) then (if String.eqb pk (ed_pub sk) then Ok (ed_pub sk, sk) else Err mismatch)
    else Ok (ed_pub sk, sk)).
  { intros pk. unfold open_record, decrypt_key_with_master, identity_pk_from_sk. cbn [as_str res_bind].
    rewrite Ho. cbn [res_bind b64decode_enc]. unfold utf8_encode.
    rewrite utf8_valid_ascii by apply b64encode_ascii. cbn [res_bind]. rewrite a2b_encode. cbn [res_bind].
    rewrite (proj2 (len32b_spec sk) Hl). cbn [res_bind truthy b64decode_v].
    by rewrite b64decode_encode. }
  exists s1, r. split; [|split; [done|split]].
  - unfold current_identity_key_record_command, st_bind, st_get, st_lift, st_ret, identity_sign.
    rewrite Hsk, Hpk, (key_nonempty sk Hl), (key_nonempty _ (ed_pub_len sk Hl)).
    assert (Hne : nonempty (master_key s) = true) by (by destruct (master_key s)).
    rewrite Hne, (proj2 (len32b_spec sk) Hl). cbn [negb orb]. cbv beta iota. by rewrite Es.
  - destruct (restore_ok (("found", PBool true) :: r) token (PStr (b64encode (ed_pub sk))) (ed_pub sk) sk s2)
      as (s3 & E3 & Hi3 & Hs3); try done; [|by rewrite Hm2| |by exists s3].
    { unfold py_or. change (dget "identity_pk" _ _) with (PStr (b64encode (ed_pub sk))). cbn [truthy].
      rewrite b64encode_nonempty; [done|]. pose proof (ed_pub_len sk Hl) as Hp.
      intros Hn. rewrite Hn in Hp. discriminate Hp. }
    rewrite Hm2, Hopen, string_eqb_refl. destruct (nonempty (b64encode (ed_pub sk))); reflexivity.
  - intros pk Hne Hnil. destruct (load_or_create_run s2) as (s3 & sk' & E3 & Hi3 & _); [done|by rewrite Hm2|].
    exists s3, sk'. split; [|done].
    apply (restore_bad _ token (PStr (b64encode pk)) mismatch); try done.
    + unfold py_or, dget. rewrite dlookup_dset_eq. cbn [truthy]. by rewrite b64encode_nonempty.
    + rewrite Hm2, Hopen, b64encode_nonempty by done. by apply String.eqb_neq in Hne as ->.
Qed.

(** C10: one-time prekeys are spent only by a handshake that succeeds. A first
    message that is refused, at any check, leaves the prekeys of the session and
    the files as they were, although the refused attempt may have taken prekeys
    out of its copy; one that is accepted installs exactly the store the attempt
    left, and saves it. *)
Theorem prekeys_spent_only_on_success s d body s' r :
  pqxdh_prekeys s = PDict d -> store_ok d ->
  _respond_pqxdh_with_current_prekey oqs body s = (s', r) ->
  match r with
  | Err _ => same_session s s' /\ files (os s') = files (os s)
  | Ok out => exists dr_seed sid_seed d',
      pqxdh_respond oqs dr_seed sid_seed body (Some (my_uid s)) d = (d', Ok out) /\
      pqxdh_prekeys s' = PDict d' /\
      (has_store s = true -> aes_key_ok (master_key s) = true ->
       sealed_at s' (pqxdh_prekeys_path s) (PStr (json_dumps false false (PDict d'))))
  end.
Proof using L OL IO.
  intros Hd Hok. pose proof Hok as [Hpy Hne].
  unfold _respond_pqxdh_with_current_prekey, load_pqxdh_prekeys, _clone_pqxdh_prekey_store,
    st_bind, st_get, st_lift, st_ret, st_modify, urandom.
  assert (Ht : truthy (pqxdh_prekeys s) = true) by (rewrite Hd; by destruct d).
  rewrite Ht, Ht, Hd. cbn [negb]. rewrite json_loads_dumps by done. cbn [res_bind as_dict].
  lazymatch goal with |- context [pqxdh_respond oqs ?a ?b body] => set (r1 := a); set (r2 := b) end.
  lazymatch goal with |- context [my_uid ?x] => change (my_uid x) with (my_uid s) end.
  pose proof (respond_keeps oqs r1 r2 body (Some (my_uid s)) d Hok) as Hok'.
  destruct (pqxdh_respond oqs r1 r2 body (Some (my_uid s)) d) as [d' [out|e]] eqn:E; cbn [fst] in Hok'.
  2: { intros [= <- <-]. split; [|done]. unfold same_session. by destruct s. }
  lazymatch goal with |- context [save_pqxdh_prekeys ?x] => set (s1 := x) end.
  destruct (save_pqxdh_prekeys_run s1 d' eq_refl Hok') as (s2 & -> & Hp & Hsaved).
  intros [= <- <-]. exists r1, r2, d'. split; [done|]. split; [done|]. exact Hsaved.
Qed.
End identity_theorems.

(** ** Witnesses *)

Lemma identity_survives_restart_witness :
  exists s1 sk, load_or_create_identity_key (P := reference_prims) (O := demo_os 0) demo_session = (s1, Ok tt) /\
    has_identity (P := reference_prims) s1 sk /\
    exists s2, (do! _ := configure (master_key demo_session) (secchat_dir demo_session) 1 in
                load_or_create_identity_key (P := reference_prims) (O := demo_os 0)) (new_session (os s1)) = (s2, Ok tt).
Proof.
  destruct (load_or_create_identity_key (P := reference_prims) (O := demo_os 0) demo_session) as [s0 r0] eqn:E0.
  destruct (identity_survives_restart (P := reference_prims) (O := demo_os 0) demo_session (os s0) 1)
    as (s1 & sk & E & Hi & H); [reflexivity|reflexivity|].
  pose proof (eq_trans (eq_sym E0) E) as Es. injection Es as Es Er. subst s1 r0.
  exists s0, sk. split; [reflexivity|]. split; [exact Hi|].
  destruct (H eq_refl) as (s2 & E2 & _). exists s2. exact E2.
Defined.

Definition demo_identified : session :=
  demo_session <| identity_sk := demo_key |> <| identity_pk := ed_pub (Prims := reference_prims) demo_key |>.

Lemma identity_backup_restores_witness :
  exists s1 r s3 result,
    current_identity_key_record_command (P := reference_prims) (O := demo_os 0) demo_identified = (s1, Ok (Some r)) /\
    restore_identity_key_record (P := reference_prims) (O := demo_os 0) (("found", PBool true) :: r) demo_session
      = (s3, Ok result) /\
    has_identity (P := reference_prims) s3 demo_key.
Proof.
  destruct (identity_backup_restores (P := reference_prims) (O := demo_os 0) demo_identified demo_key demo_session)
    as (s1 & r & E & _ & (s3 & E3 & Hi & _) & _).
  - split; [reflexivity|]. split; vm_compute; reflexivity.
  - reflexivity.
  - reflexivity.
  - reflexivity.
  - exists s1, r, s3. eexists. split; [exact E|]. split; [exact E3|exact Hi].
Defined.

Lemma prekeys_spent_only_on_success_witness :
  let s := demo_session <| pqxdh_prekeys := PDict [("pq_one_time", PDict [("7", PDict [("sk", PStr "AA")])])] |> in
  files (os (fst (_respond_pqxdh_with_current_prekey (P := reference_prims) (O := demo_os 0) None
    "S3PQI:not a message" s))) = files (os s).
Proof.
  intros s. subst s.
  lazymatch goal with |- files (os (fst (_ ?x))) = _ => set (s := x) end.
  destruct (_respond_pqxdh_with_current_prekey (P := reference_prims) (O := demo_os 0) None
    "S3PQI:not a message" s) as [s' r] eqn:E.
  pose proof (prekeys_spent_only_on_success (P := reference_prims) (O := demo_os 0) None s _
    "S3PQI:not a message" s' r eq_refl) as H.
  destruct r as [out|e].
  - exfalso. apply (f_equal snd) in E. vm_compute in E. discriminate E.
  - apply H; [|exact E]. split; [|discriminate]. repeat py_ok_fields.
Defined.
