(* ===== verification/DrStore.v ===== *)
(** * The store of Double Ratchet sessions (client/crypto_engine/session.py)

    A direct conversation may have several ratchet sessions, when both sides
    started it at the same time. [double_ratchet_states] refers to the current one,
    [double_ratchet_session_states] to all of them by session id; both refer to
    objects in [dr_objects], so an object reached through both is one object. *)

From S2P Require Import Prelude Hashing Base64 PyVal Sorting Json Crypto Wire Ratchet AuditClient Utils.
From S2P Require Import Session.

(** ** Objects *)

(** An index that refers to no object does not occur; it reads as a blank state. *)
Definition blank_ratchet : DoubleRatchet := DR "" "" "" "" "" "" "" "" 0 0 0 [] false "" 0 0 0 0 ∅.

Definition ratchet_at (s : session) (r : nat) : DoubleRatchet := default blank_ratchet (dr_objects s !! r).

(** A new object. *)
Definition alloc_ratchet (st : DoubleRatchet) : sm nat := fun s =>
  (s <| dr_objects ::= fun l => l ++ [st] |>, Ok (length (dr_objects s))).

(** A method of the object [r]: it updates the object in place. *)
Definition on_ratchet {A} (r : nat) (m : stm DoubleRatchet A) : sm A := fun s =>
  let (st, out) := m (ratchet_at s r) in
  (s <| dr_objects ::= <[r := st]> |>, out).

Definition set_current (conv_id : Z) (r : nat) : sm unit :=
  st_modify (fun s => s <| double_ratchet_states ::= <[conv_id := r]> |>).

Definition set_sessions (conv_id : Z) (l : list (string * nat)) : sm unit :=
  st_modify (fun s => s <| double_ratchet_session_states ::= <[conv_id := l]> |>).

Section dr_store.
Context `{P : Prims, O : Os}.

(** ** The current session *)

Definition load_double_ratchet (conv_id : Z) : sm (option nat) :=
  do! s := st_get in
  match double_ratchet_states s !! conv_id with
  | Some r => st_ret (Some r)
  | None =>
      if negb (has_store s) then st_ret None
      else if negb (path_exists s (double_ratchet_path s conv_id)) then st_ret None
      else
        st_catch (
          do! v := read_json (double_ratchet_path s conv_id) in
          do! st := st_lift (let! d := as_dict v in from_dict d) in
          do! r := alloc_ratchet st in
          do! _ := set_current conv_id r in
          st_ret (Some r)) (fun _ => st_ret None)
  end.

(** [encrypt_with_key(self.master_key, text)], then [open(path, "w")]: the
    directory is not made first. *)
Definition write_sealed_in_place (path text : string) : sm unit :=
  do! s := st_get in
  do! token := seal (master_key s) text in
  write_text path token.

(** ** The sessions of a conversation *)

(** [sessions[current.session_id] = current]. *)
Definition with_current (s : session) (conv_id : Z) (sessions : list (string * nat)) :
    list (string * nat) :=
  match double_ratchet_states s !! conv_id with
  | Some r =>
      let sid := session_id (ratchet_at s r) in
      if nonempty sid then dset sid r sessions else sessions
  | None => sessions
  end.

(** The loop over the items of the file: the sessions read before an item that
    fails are kept. *)
Fixpoint read_sessions (items : dict) (sessions : list (string * nat)) : sm (list (string * nat)) :=
  match items with
  | [] => st_ret sessions
  | (sid, item) :: items =>
      match item with
      | PDict d =>
          if nonempty sid then
            match from_dict d with
            | Ok st => do! r := alloc_ratchet st in read_sessions items (dset sid r sessions)
            | Err _ => st_ret sessions
            end
          else read_sessions items sessions
      | _ => read_sessions items sessions
      end
  end.

Definition sessions_of_file (conv_id : Z) : sm (list (string * nat)) :=
  do! s := st_get in
  if negb (has_store s) then st_ret []
  else if negb (path_exists s (double_ratchet_sessions_path s conv_id)) then st_ret []
  else
    st_catch (
      do! v := read_json (double_ratchet_sessions_path s conv_id) in
      do! items := st_lift (as_dict (py_or v (PDict []))) in
      read_sessions items []) (fun _ => st_ret []).

(** The returned dictionary is the one in [double_ratchet_session_states]. *)
Definition load_double_ratchet_sessions (conv_id : Z) : sm (list (string * nat)) :=
  do! s := st_get in
  do! sessions := match double_ratchet_session_states s !! conv_id with
                  | Some l => st_ret l
                  | None => sessions_of_file conv_id
                  end in
  do! s := st_get in
  let sessions := with_current s conv_id sessions in
  do! _ := set_sessions conv_id sessions in
  st_ret sessions.

(** [{sid: state.to_dict() ... if sid}]. *)
Definition sessions_json (s : session) (sessions : list (string * nat)) : pyval :=
  PDict (map (fun kv => (fst kv, PDict (to_dict (ratchet_at s (snd kv)))))
    (List.filter (fun kv => nonempty (fst kv)) sessions)).

Definition save_double_ratchet_sessions (conv_id : Z) : sm unit :=
  do! s := st_get in
  if negb (has_store s) then st_ret tt
  else
    let sessions := with_current s conv_id (default [] (double_ratchet_session_states s !! conv_id)) in
    match sessions with
    | [] => st_ret tt
    | _ =>
        logged (
          do! _ := write_sealed_in_place (double_ratchet_sessions_path s conv_id)
                     (json_dumps false false (sessions_json s sessions)) in
          set_sessions conv_id sessions)
    end.

Definition save_double_ratchet (conv_id : Z) : sm unit :=
  do! s := st_get in
  match double_ratchet_states s !! conv_id with
  | None => st_ret tt
  | Some r =>
      if negb (has_store s) then st_ret tt
      else
        do! _ := logged (write_sealed_in_place (double_ratchet_path s conv_id)
                           (json_dumps false false (PDict (to_dict (ratchet_at s r))))) in
        save_double_ratchet_sessions conv_id
  end.

Definition _remember_double_ratchet_session (conv_id : Z) (r : nat) : sm unit :=
  do! s := st_get in
  let sid := session_id (ratchet_at s r) in
  if negb (nonempty sid) then st_ret tt
  else
    do! sessions := load_double_ratchet_sessions conv_id in
    set_sessions conv_id (dset sid r sessions).

(** ** Choosing a session *)

(** The entry with the least key ([min] of the keys, first of equal ones). *)
Fixpoint min_entry {A} (kv : string * A) (l : list (string * A)) : string * A :=
  match l with
  | [] => kv
  | kv' :: l => min_entry (if str_ltb (fst kv') (fst kv) then kv' else kv) l
  end.

Definition _select_canonical_double_ratchet_state (conv_id : Z) (candidate : option nat) :
    sm (option nat) :=
  do! current := load_double_ratchet conv_id in
  do! _ := match current with
           | Some r => _remember_double_ratchet_session conv_id r
           | None => st_ret tt
           end in
  do! _ := match candidate with
           | Some r => _remember_double_ratchet_session conv_id r
           | None => st_ret tt
           end in
  do! sessions := load_double_ratchet_sessions conv_id in
  match sessions with
  | [] => st_ret (match current with Some r => Some r | None => candidate end)
  | kv :: l =>
      let chosen := snd (min_entry kv l) in
      do! _ := set_current conv_id chosen in
      do! _ := save_double_ratchet conv_id in
      st_ret (Some chosen)
  end.

(** The session id a wire names: of its header, or of the payload; [""] when it
    cannot be read. *)
Definition wire_session_id (body : string) : string :=
  match (let! v := json_unb64 (sdrop (String.length PREFIX_DR) body) in
         let! payload := as_dict v in
         let header := match dget "h" PNone payload with PDict h => h | _ => [] end in
         Ok (py_str (py_or (dget "sid" PNone header)
                       (py_or (dget "sid" PNone payload) (PStr ""))))) with
  | Ok sid => sid
  | Err _ => ""
  end.

Definition _state_for_double_ratchet_wire (conv_id : Z) (body : string) : sm (option nat) :=
  let sid := wire_session_id body in
  do! current := load_double_ratchet conv_id in
  do! s := st_get in
  let is_current := match current with
                    | Some r => negb (nonempty sid) || String.eqb (session_id (ratchet_at s r)) sid
                    | None => false
                    end in
  if is_current then st_ret current
  else
    do! sessions := load_double_ratchet_sessions conv_id in
    match (if nonempty sid then dlookup sid sessions else None) with
    | Some r => st_ret (Some r)
    | None => st_ret current
    end.
End dr_store.
