(* ===== verification/DrFacts.v ===== *)
(** * Facts on the store of ratchet sessions

    What the methods of [DrStore] do to a session whose map of ratchet sessions is
    in memory, whatever the file system does, and what they read from the files. *)

From S2P Require Import Prelude Hashing Base64 PyVal Sorting Json JsonFacts Crypto Wire Ratchet.
From S2P Require Import RatchetFacts AuditClient Utils Session SessionFacts DrStore.

(** The id of the session object [r]. *)
Definition sid_at (s : session) (r : nat) : string := session_id (ratchet_at s r).

(** The current session of [conv] is [r], and the known ones are [l], each under
    its own id. *)
Record in_memory (s : session) (conv : Z) (r : nat) (l : list (string * nat)) : Prop := {
  im_current : double_ratchet_states s !! conv = Some r;
  im_sessions : double_ratchet_session_states s !! conv = Some l;
  im_keyed : Forall (fun kv => sid_at s (snd kv) = fst kv) l;
  im_named : sid_at s r <> ""
}.

(** ** The least session id *)

Lemma min_entry_spec {A} (kv : string * A) l :
  min_entry kv l ∈ kv :: l /\ forall kv', kv' ∈ kv :: l -> str_ltb (fst kv') (fst (min_entry kv l)) = false.
Proof.
  revert kv. induction l as [|kv1 l IH]; intros kv.
  - split; [by left|]. intros kv' ->%list_elem_of_singleton. apply str_ltb_irrefl.
  - cbn [min_entry]. set (m := if _ : bool then _ else _). destruct (IH m) as [Hin Hmin].
    assert (Hm : (m = kv \/ m = kv1) /\ str_ltb (fst kv) (fst m) = false /\ str_ltb (fst kv1) (fst m) = false).
    { unfold m. destruct (str_ltb (fst kv1) (fst kv)) eqn:E.
      - split; [by right|]. split; [|apply str_ltb_irrefl].
        destruct (str_ltb (fst kv) (fst kv1)) eqn:E'; [|done].
        pose proof (str_ltb_trans _ _ _ E E') as H. by rewrite str_ltb_irrefl in H.
      - split; [by left|]. split; [apply str_ltb_irrefl|done]. }
    destruct Hm as (Hm & H0 & H1). split.
    + apply elem_of_cons in Hin as [->|Hin]; [destruct Hm as [->| ->]; set_solver|set_solver].
    + assert (Hge : forall x : string * A, str_ltb (fst x) (fst m) = false -> str_ltb (fst x) (fst (min_entry m l)) = false).
      { intros x Hx. specialize (Hmin m ltac:(by left)).
        destruct (str_ltb (fst x) (fst (min_entry m l))) eqn:E; [|done].
        destruct (str_ltb_cases (fst (min_entry m l)) (fst m)) as [H|[H|H]]; [|congruence..].
        pose proof (str_ltb_trans _ _ _ E H). congruence. }
      intros kv' [->|[->|Hl]%elem_of_cons]%elem_of_cons; [by apply Hge..|]. apply Hmin. by right.
Qed.

Lemma least_unique a b (K : string -> Prop) :
  K a -> K b -> (forall x, K x -> str_ltb x a = false) -> (forall x, K x -> str_ltb x b = false) -> a = b.
Proof. intros Ha Hb La Lb. apply str_ltb_total; [by apply Lb|by apply La]. Qed.

(** ** Saving, whatever the file system does *)

Section dr_facts.
Context `{P : Prims, O : Os}.

Lemma within_write_in_place `{F : Frame R} (Q : string -> Prop) s0 path text :
  Q path -> within R Q s0 (write_sealed_in_place path text).
Proof using.
  intros Hp. unfold write_sealed_in_place. within_tac; [apply within_seal|by apply within_write_text].
Qed.

(** A logged write: it returns, and only the world may have changed. *)
Lemma logged_total (m : sm unit) s : exists s', logged m s = (s', Ok tt) /\ s' = fst (m s).
Proof using. unfold logged, st_catch. destruct (m s) as [s' [[]|e]]; by exists s'. Qed.

Definition dr_files (s : session) (conv : Z) (p : string) : Prop :=
  p = double_ratchet_path s conv \/ p = double_ratchet_sessions_path s conv.

Lemma save_sessions_total conv s :
  exists s', save_double_ratchet_sessions conv s = (s', Ok tt) /\
    exists m, touches same_session (dr_files s conv) (s <| double_ratchet_session_states := m |>) s' /\
    (m = double_ratchet_session_states s \/
     m = <[conv := with_current s conv (default [] (double_ratchet_session_states s !! conv))]>
           (double_ratchet_session_states s)).
Proof using.
  unfold save_double_ratchet_sessions, st_bind at 1, st_get.
  set (l := with_current s conv _).
  assert (Hid : touches same_session (dr_files s conv)
    (s <| double_ratchet_session_states := double_ratchet_session_states s |>) s).
  { split; [|done]. unfold same_session. by destruct s. }
  destruct (negb (has_store s)); [eexists; split; [done|]; eexists; split; [exact Hid|by left]|].
  destruct l as [|kv l'] eqn:El; [eexists; split; [done|]; eexists; split; [exact Hid|by left]|].
  rewrite <- El. clear El kv l'.
  lazymatch goal with |- context [logged ?m s] => destruct (logged_total m s) as (s' & -> & ->) end.
  unfold st_bind. eexists. split; [done|].
  lazymatch goal with |- context [write_sealed_in_place ?p ?t s] =>
    pose proof (within_run _ _ _ (within_write_in_place (dr_files s conv) s p t ltac:(by right))) as [Hs Hf];
    destruct (write_sealed_in_place p t s) as [s1 [[]|e]] end; cbn [fst] in *.
  - exists (<[conv := l]> (double_ratchet_session_states s)). split; [|by right]. split; [|done].
    same_fields Hs. unfold same_session. by destruct s, s1.
  - exists (double_ratchet_session_states s). split; [|by left]. split; [|done].
    unfold same_session in *. rewrite Hs at 1. by destruct s, s1.
Qed.

(** What saving keeps: everything but the files of the conversation and, in the
    map, the entry of the current session. *)
Definition dr_saved (conv : Z) (s s' : session) : Prop :=
  exists m, touches same_session (dr_files s conv) (s <| double_ratchet_session_states := m |>) s' /\
    (m = double_ratchet_session_states s \/
     m = <[conv := with_current s conv (default [] (double_ratchet_session_states s !! conv))]>
           (double_ratchet_session_states s)).

Lemma with_current_same s s' conv l :
  double_ratchet_states s' = double_ratchet_states s -> dr_objects s' = dr_objects s ->
  with_current s' conv l = with_current s conv l.
Proof using. intros H1 H2. unfold with_current, ratchet_at. by rewrite H1, H2. Qed.

Lemma save_double_ratchet_total conv s :
  exists s', save_double_ratchet conv s = (s', Ok tt) /\ dr_saved conv s s'.
Proof using.
  unfold save_double_ratchet, st_bind at 1, st_get.
  assert (Hid : dr_saved conv s s).
  { exists (double_ratchet_session_states s). split; [|by left]. split; [|done].
    unfold same_session. by destruct s. }
  destruct (double_ratchet_states s !! conv) as [r|]; [|by exists s].
  destruct (negb (has_store s)); [by exists s|]. unfold st_bind at 1.
  lazymatch goal with |- context [logged ?m s] => destruct (logged_total m s) as (s1 & -> & ->) end.
  lazymatch goal with |- context [write_sealed_in_place ?p ?t s] =>
    pose proof (within_run _ _ _ (within_write_in_place (dr_files s conv) s p t ltac:(by left))) as [Hs Hf];
    set (s1 := fst (write_sealed_in_place p t s)) in * end.
  destruct (save_sessions_total conv s1) as (s' & -> & m & [Hs' Hf'] & Hm).
  exists s'. split; [done|]. exists m.
  assert (Hd : double_ratchet_states s1 = double_ratchet_states s /\ dr_objects s1 = dr_objects s /\
    double_ratchet_session_states s1 = double_ratchet_session_states s /\ secchat_dir s1 = secchat_dir s)
    by (by same_fields Hs). destruct Hd as (D1 & D2 & D3 & D4).
  split.
  - split.
    + unfold same_session in *. rewrite Hs', Hs. by destruct s, s1.
    + intros p Hp. rewrite Hf'; [by apply Hf|]. unfold dr_files, double_ratchet_path,
        double_ratchet_sessions_path, local_path in *. by rewrite D4.
  - rewrite D3, (with_current_same s s1) in Hm by done. exact Hm.
Qed.

(** ** Remembering and choosing, in memory *)

Lemma load_current s conv r :
  double_ratchet_states s !! conv = Some r -> load_double_ratchet conv s = (s, Ok (Some r)).
Proof using. intros H. unfold load_double_ratchet, st_bind, st_get. by rewrite H. Qed.

Lemma with_current_some s conv r l :
  double_ratchet_states s !! conv = Some r -> sid_at s r <> "" ->
  with_current s conv l = dset (sid_at s r) r l.
Proof using.
  intros H Hn. unfold with_current. rewrite H. unfold sid_at in *. by rewrite nonempty_spec.
Qed.

Definition set_sessions_of (conv : Z) (l : list (string * nat)) (s : session) : session :=
  s <| double_ratchet_session_states ::= <[conv := l]> |>.

Lemma set_sessions_again conv l l' s :
  set_sessions_of conv l' (set_sessions_of conv l s) = set_sessions_of conv l' s.
Proof using. unfold set_sessions_of. destruct s. cbn. unfold update. cbn. by rewrite insert_insert_eq. Qed.

Lemma load_sessions_memory s conv r l :
  in_memory s conv r l ->
  load_double_ratchet_sessions conv s =
    (set_sessions_of conv (dset (sid_at s r) r l) s, Ok (dset (sid_at s r) r l)).
Proof using.
  intros [Hc Hl _ Hn]. unfold load_double_ratchet_sessions, st_bind, st_get, set_sessions, st_modify, st_ret.
  rewrite Hl. by rewrite (with_current_some s conv r l).
Qed.

Lemma keyed_dset s l r : Forall (fun kv => sid_at s (snd kv) = fst kv) l ->
  Forall (fun kv => sid_at s (snd kv) = fst kv) (dset (sid_at s r) r l).
Proof using. intros H. by apply Forall_dset. Qed.

Lemma in_memory_set s conv r l l' :
  in_memory s conv r l -> Forall (fun kv => sid_at s (snd kv) = fst kv) l' ->
  in_memory (set_sessions_of conv l' s) conv r l'.
Proof using. intros [Hc Hl _ Hn] Hk. split; [done| |done..]. cbn. by rewrite lookup_insert_eq. Qed.

Lemma remember_memory s conv r l c :
  in_memory s conv r l -> sid_at s c <> "" ->
  exists l', _remember_double_ratchet_session conv c s = (set_sessions_of conv l' s, Ok tt) /\
    in_memory (set_sessions_of conv l' s) conv r l' /\
    forall x, x ∈ dkeys l' <-> x = sid_at s c \/ x = sid_at s r \/ x ∈ dkeys l.
Proof using.
  intros Hm Hc. exists (dset (sid_at s c) c (dset (sid_at s r) r l)). split; [|split].
  - unfold _remember_double_ratchet_session, st_bind at 1, st_get. fold (sid_at s c).
    rewrite nonempty_spec by done. cbn [negb]. unfold st_bind. rewrite (load_sessions_memory s conv r l Hm).
    unfold set_sessions, st_modify. f_equal. apply set_sessions_again.
  - apply (in_memory_set s conv r l); [done|]. by apply keyed_dset, keyed_dset, Hm.
  - intros x. by rewrite !dkeys_dset.
Qed.

(** The ids among which the canonical session is chosen. *)
Definition known_sids (s : session) (r : nat) (l : list (string * nat)) (c : nat) : list string :=
  sid_at s c :: sid_at s r :: dkeys l.

Lemma select_memory s conv r l c :
  in_memory s conv r l -> sid_at s c <> "" ->
  exists s' a, _select_canonical_double_ratchet_state conv (Some c) s = (s', Ok (Some a)) /\
    double_ratchet_states s' = <[conv := a]> (double_ratchet_states s) /\ dr_objects s' = dr_objects s /\
    sid_at s a ∈ known_sids s r l c /\
    forall x, x ∈ known_sids s r l c -> str_ltb x (sid_at s a) = false.
Proof using.
  intros Hm Hc. unfold _select_canonical_double_ratchet_state, st_bind at 1.
  rewrite (load_current s conv r) by apply Hm. unfold st_bind at 1.
  destruct (remember_memory s conv r l r Hm (im_named _ _ _ _ Hm)) as (l1 & -> & Hm1 & K1).
  unfold st_bind at 1. set (s1 := set_sessions_of conv l1 s) in *.
  destruct (remember_memory s1 conv r l1 c Hm1 Hc) as (l2 & -> & Hm2 & K2).
  unfold st_bind at 1. set (s2 := set_sessions_of conv l2 s1) in *.
  rewrite (load_sessions_memory s2 conv r l2 Hm2).
  pose proof (keyed_dset s2 l2 r (im_keyed _ _ _ _ Hm2)) as Hk.
  pose proof (dset_nonnil (sid_at s2 r) r l2) as Hne.
  assert (K3 : forall x, x ∈ dkeys (dset (sid_at s2 r) r l2) <-> x ∈ known_sids s r l c).
  { intros x. rewrite dkeys_dset, K2, K1. unfold known_sids. rewrite !elem_of_cons.
    change (sid_at s2 r) with (sid_at s r). change (sid_at s1 r) with (sid_at s r).
    change (sid_at s1 c) with (sid_at s c). tauto. }
  destruct (dset (sid_at s2 r) r l2) as [|kv l3] eqn:E3; [done|]. clear E3.
  destruct (min_entry_spec kv l3) as [Hin Hmin]. set (m := min_entry kv l3) in *.
  rewrite Forall_forall in Hk. pose proof (Hk m Hin) as Hsid.
  change (sid_at s2 (snd m)) with (sid_at s (snd m)) in Hsid.
  unfold st_bind, set_current, st_modify.
  lazymatch goal with |- context [save_double_ratchet conv ?x] =>
    destruct (save_double_ratchet_total conv x) as (s' & -> & mm & [Hs' _] & _) end.
  exists s', (snd m). split; [done|]. split; [by same_fields Hs'|]. split; [by same_fields Hs'|].
  rewrite Hsid. split.
  - apply K3. apply list_elem_of_fmap. by exists m.
  - intros x Hx. apply K3, list_elem_of_fmap in Hx as (kv' & -> & Hin'). by apply Hmin.
Qed.
End dr_facts.
