(* ===== verification/DrProps.v ===== *)
(** * Theorems about the store of ratchet sessions *)

From S2P Require Import Prelude Hashing Base64 PyVal Sorting Json JsonFacts Crypto Wire Ratchet.
From S2P Require Import RatchetFacts AuditClient Utils Session SessionFacts DrStore DrFacts.

(** ** Reading the files *)

Lemma dr_paths_differ s conv : double_ratchet_path s conv <> double_ratchet_sessions_path s conv.
Proof.
  intros H. apply local_path_inj in H. unfold conv_file in H. cbn in H. injection H as H.
  pose proof (dec_not "s"%char conv eq_refl ltac:(done)) as Hd.
  destruct (dec conv) as [|c t]; [discriminate H|]. injection H as -> _. discriminate Hd.
Qed.

(** A state that survives its file. *)
Definition persistent (st : DoubleRatchet) : Prop := state_text_ok st /\ (size (seen st) <= 2048)%nat.

Lemma persistent_reads st : persistent st -> from_dict (to_dict st) = Ok st.
Proof.
  intros [(_ & _ & Hseen) Hsz]. rewrite from_dict_to_dict.
  - rewrite last_sorted_all by done. by destruct st.
  - intros H. by apply Hseen in H as [? _].
Qed.

(** The sessions as ids with states. *)
Definition states_of (s : session) (l : list (string * nat)) : list (string * DoubleRatchet) :=
  map (fun kv => (fst kv, ratchet_at s (snd kv))) l.

Definition numbered (n : nat) (l : list (string * DoubleRatchet)) : list (string * nat) :=
  zip (map fst l) (seq n (length l)).

Lemma read_sessions_run l acc s :
  Forall (fun kv => fst kv <> "" /\ persistent (snd kv)) l -> NoDup (dkeys acc ++ map fst l) ->
  read_sessions (map (fun kv => (fst kv, PDict (to_dict (snd kv)))) l) acc s =
    (s <| dr_objects ::= fun o => o ++ map snd l |>, Ok (acc ++ numbered (length (dr_objects s)) l)).
Proof.
  revert acc s. induction l as [|[sid st] l IH]; intros acc s Hl Hn; cbn [map read_sessions].
  - unfold st_ret, numbered. cbn. rewrite app_nil_r.
    destruct s. unfold update. cbn. by rewrite app_nil_r.
  - apply Forall_cons in Hl as [[Hsid Hst] Hl]. cbn [fst snd] in *.
    rewrite (nonempty_spec sid) by done. rewrite persistent_reads by done. unfold st_bind, alloc_ratchet.
    rewrite dset_absent.
    2: { apply dlookup_not_key. apply NoDup_app in Hn as (_ & Hn & _). intros H. apply (Hn _ H). by left. }
    rewrite IH; [|done|].
    + f_equal.
      * destruct s. unfold update. cbn. by rewrite <- app_assoc.
      * f_equal. rewrite <- app_assoc. f_equal. cbn. rewrite length_app. cbn. unfold numbered. cbn.
        by rewrite Nat.add_1_r.
    + unfold dkeys in *. rewrite map_app, <- app_assoc. cbn. exact Hn.
Qed.

Section dr_props.
Context `{L : PrimLaws, O : Os, OL : !OsLaws O, IO : !IoReliable O}.

Lemma write_in_place_ok path text s :
  aes_key_ok (master_key s) = true -> utf8_valid text = true -> secchat_dir s ∈ dirs (os s) ->
  exists s', write_sealed_in_place path text s = (s', Ok tt) /\ wrote s s' path text.
Proof using L OL IO.
  intros Hk Hv Hd. unfold write_sealed_in_place, st_bind, st_get.
  destruct (seal_ok (master_key s) text s Hk Hv) as (s2 & token & -> & H12 & Hf2 & Hd2 & Ht & Ho).
  destruct (write_text_ok path token s2) as (s3 & -> & H23 & Hf3 & Hd3).
  - rewrite Hd2. by same_fields H12.
  - by apply token_valid.
  - exists s3. split; [done|]. split; [by eapply same_session_trans|].
    split; [by rewrite Hd3, Hd2|]. exists token. by rewrite Hf3, Hf2.
Qed.

Lemma sealed_kept s s' path path' text v :
  wrote s s' path text -> path' <> path -> sealed_at s path' v -> sealed_at s' path' v.
Proof using.
  intros (Hs & _ & token & Hf & _) Hne (raw & Hr & Ho). exists raw.
  rewrite Hf, lookup_insert_ne by done. split; [done|]. by same_fields Hs.
Qed.

(** The states of a conversation: known under their ids, and fit for a file. *)
Definition storable (s : session) (conv : Z) (r : nat) (l : list (string * nat)) : Prop :=
  in_memory s conv r l /\ dict_ok l /\ Forall (fun kv => fst kv <> "") l /\
  persistent (ratchet_at s r) /\ Forall (fun kv => persistent (ratchet_at s (snd kv))) l.

(** What is on disk after a save. *)
Definition saved_files (s : session) (conv : Z) (st : DoubleRatchet) (l : list (string * DoubleRatchet)) : Prop :=
  sealed_at s (double_ratchet_path s conv) (PStr (json_dumps false false (PDict (to_dict st)))) /\
  sealed_at s (double_ratchet_sessions_path s conv)
    (PStr (json_dumps false false (PDict (map (fun kv => (fst kv, PDict (to_dict (snd kv)))) l)))).

Lemma sessions_py_ok l :
  dict_ok l -> Forall (fun kv => persistent (snd kv) /\ session_id (snd kv) = fst kv) l ->
  py_ok (PDict (map (fun kv => (fst kv, PDict (to_dict (snd kv)))) l)).
Proof using.
  intros Hd Hl. apply py_ok_dict. split.
  - unfold dict_ok, dkeys. by rewrite map_map.
  - apply Forall_fmap. eapply Forall_impl; [exact Hl|]. intros [sid st] [[Ht _] He].
    cbn [fst snd] in *. subst sid. split; [by destruct Ht as (_ & Hv & _)|by apply to_dict_py_ok].
Qed.

Lemma sessions_json_of s l :
  Forall (fun kv => fst kv <> "") l ->
  sessions_json s l = PDict (map (fun kv => (fst kv, PDict (to_dict (snd kv)))) (states_of s l)).
Proof using.
  intros Hl. unfold sessions_json, states_of. rewrite map_map. do 2 f_equal.
  induction Hl as [|[k r] l Hk Hl IH]; [done|]. cbn [List.filter fst]. rewrite nonempty_spec by done. by rewrite IH.
Qed.

Lemma save_run s conv r l :
  storable s conv r l -> has_store s = true -> aes_key_ok (master_key s) = true ->
  secchat_dir s ∈ dirs (os s) ->
  exists s', save_double_ratchet conv s = (s', Ok tt) /\
    saved_files s' conv (ratchet_at s r) (states_of s (dset (sid_at s r) r l)) /\
    master_key s' = master_key s /\ secchat_dir s' = secchat_dir s.
Proof using L OL IO.
  intros (Hm & Hd & Hn & Hr & Hl) Hst Hk Hdir. set (lf := dset (sid_at s r) r l).
  assert (Hlf : Forall (fun kv => fst kv <> "") lf) by (apply Forall_dset; [done|apply Hm]).
  assert (Hok : py_ok (sessions_json s lf)).
  { rewrite sessions_json_of by done. apply sessions_py_ok.
    - unfold dict_ok, dkeys, states_of. rewrite map_map. by apply dict_ok_dset.
    - apply Forall_fmap. pose proof (keyed_dset s l r (im_keyed _ _ _ _ Hm)) as Hkd. fold lf in Hkd.
      apply (Forall_dset (fun kv => persistent (ratchet_at s (snd kv))) (sid_at s r) r) in Hl; [|done].
      fold lf in Hl. rewrite Forall_forall in *. intros kv Hin. split; [by apply Hl|by apply Hkd]. }
  unfold save_double_ratchet, st_bind at 1, st_get. rewrite (im_current _ _ _ _ Hm), Hst. cbn [negb].
  unfold st_bind, logged at 1, st_catch.
  destruct (write_in_place_ok (double_ratchet_path s conv)
    (json_dumps false false (PDict (to_dict (ratchet_at s r)))) s Hk) as (s1 & -> & Hw1); [|done|].
  { apply json_dumps_valid, to_dict_py_ok, Hr. }
  pose proof Hw1 as (Hs1 & Hd1 & _).
  assert (E1 : master_key s1 = master_key s /\ secchat_dir s1 = secchat_dir s /\ has_store s1 = has_store s /\
    dr_objects s1 = dr_objects s /\ double_ratchet_states s1 = double_ratchet_states s /\
    double_ratchet_session_states s1 = double_ratchet_session_states s) by (by same_fields Hs1).
  destruct E1 as (Ek & Ed & Eh & Eo & Ec & Ess).
  unfold save_double_ratchet_sessions, st_bind at 1, st_get. rewrite Eh, Hst, Ess, (im_sessions _ _ _ _ Hm).
  cbn [negb]. change (default [] (Some l)) with l.
  rewrite (with_current_same s s1), (with_current_some s conv r l) by (done || apply Hm).
  fold lf. destruct lf as [|kv lf'] eqn:Elf; [by apply dset_nonnil in Elf|]. rewrite <- Elf in *. clear Elf kv lf'.
  replace (sessions_json s1 lf) with (sessions_json s lf) by (unfold sessions_json, ratchet_at; by rewrite Eo).
  unfold logged, st_catch, st_bind.
  destruct (write_in_place_ok (double_ratchet_sessions_path s1 conv) (json_dumps false false (sessions_json s lf)) s1)
    as (s2 & -> & Hw2); [by rewrite Ek|by apply json_dumps_valid|by rewrite Ed|].
  pose proof Hw2 as (Hs2 & _). unfold set_sessions, st_modify. eexists. split; [reflexivity|].
  assert (P1 : double_ratchet_path s2 conv = double_ratchet_path s conv /\
               double_ratchet_sessions_path s2 conv = double_ratchet_sessions_path s1 conv /\
               double_ratchet_sessions_path s1 conv = double_ratchet_sessions_path s conv).
  { same_fields Hs2. unfold double_ratchet_path, double_ratchet_sessions_path, local_path. by rewrite Ed. }
  destruct P1 as (P1 & P2 & P3). split; [split|split].
  - change (sealed_at s2 (double_ratchet_path s2 conv) (PStr (json_dumps false false (PDict (to_dict (ratchet_at s r)))))).
    rewrite P1. apply (sealed_kept _ _ _ _ _ _ Hw2); [rewrite P3; apply dr_paths_differ|]. by apply (wrote_sealed s).
  - rewrite <- sessions_json_of by done.
    change (sealed_at s2 (double_ratchet_sessions_path s2 conv) (PStr (json_dumps false false (sessions_json s lf)))).
    rewrite P2. by apply (wrote_sealed s1).
  - change (master_key s2 = master_key s). rewrite <- Ek. by same_fields Hs2.
  - change (secchat_dir s2 = secchat_dir s). rewrite <- Ed. by same_fields Hs2.
Qed.

Lemma sealed_exists s path v : sealed_at s path v -> path_exists s path = true.
Proof using. intros (raw & H & _). unfold path_exists. rewrite H. by apply bool_decide_true. Qed.

Lemma load_current_run s conv st :
  double_ratchet_states s !! conv = None -> has_store s = true -> persistent st ->
  sealed_at s (double_ratchet_path s conv) (PStr (json_dumps false false (PDict (to_dict st)))) ->
  exists w, files w = files (os s) /\
    load_double_ratchet conv s =
      (s <| os := w |> <| dr_objects ::= fun o => o ++ [st] |>
         <| double_ratchet_states ::= <[conv := length (dr_objects s)]> |>, Ok (Some (length (dr_objects s)))).
Proof using IO.
  intros Hc Hst Hp Hs. unfold load_double_ratchet, st_bind at 1, st_get.
  rewrite Hc, Hst, (sealed_exists _ _ _ Hs). cbn [negb].
  destruct (read_json_ok _ _ false false _ Hs) as (s1 & E & Hs1 & Hf & _); [by apply to_dict_py_ok, Hp|].
  exists (os s1). split; [done|]. unfold st_catch, st_bind, st_lift. rewrite E. cbn [as_dict res_bind].
  rewrite persistent_reads by done. unfold alloc_ratchet, set_current, st_modify, st_ret.
  unfold same_session in Hs1. rewrite Hs1. reflexivity.
Qed.
End dr_props.

Lemma states_of_dset s k r l : states_of s (dset k r l) = dset k (ratchet_at s r) (states_of s l).
Proof.
  unfold states_of. induction l as [|[k' r'] l IH]; [done|]. cbn.
  destruct (String.eqb k k'); cbn; [done|]. by rewrite IH.
Qed.

Lemma states_of_numbered s pre l :
  dr_objects s = pre ++ map snd l -> states_of s (numbered (length pre) l) = l.
Proof.
  intros Ho. unfold states_of, numbered, ratchet_at. rewrite Ho. clear Ho s.
  revert pre. induction l as [|[k st] l IH]; intros pre; [done|]. cbn.
  rewrite lookup_app_r, Nat.sub_diag by done. cbn. f_equal.
  specialize (IH (pre ++ [st])). rewrite length_app in IH. cbn in IH. rewrite Nat.add_1_r in IH.
  rewrite <- app_assoc in IH. exact IH.
Qed.

Section dr_theorems.
Context `{L : PrimLaws, O : Os, OL : !OsLaws O, IO : !IoReliable O}.

Lemma load_sessions_run s conv r lf :
  double_ratchet_states s !! conv = Some r -> double_ratchet_session_states s !! conv = None ->
  has_store s = true -> sid_at s r <> "" -> (r < length (dr_objects s))%nat ->
  dict_ok lf -> Forall (fun kv => fst kv <> "" /\ persistent (snd kv) /\ session_id (snd kv) = fst kv) lf ->
  sealed_at s (double_ratchet_sessions_path s conv)
    (PStr (json_dumps false false (PDict (map (fun kv => (fst kv, PDict (to_dict (snd kv)))) lf)))) ->
  exists s' l', load_double_ratchet_sessions conv s = (s', Ok l') /\
    states_of s' l' = dset (sid_at s r) (ratchet_at s r) lf /\
    dlookup (sid_at s r) l' = Some r /\ double_ratchet_states s' = double_ratchet_states s.
Proof using IO.
  intros Hc Hss Hst Hn Hr Hd Hlf Hs. unfold load_double_ratchet_sessions, st_bind at 1, st_get. rewrite Hss.
  unfold sessions_of_file, st_bind at 1, st_bind at 1, st_get.
  rewrite Hst, (sealed_exists _ _ _ Hs). cbn [negb].
  destruct (read_json_ok _ _ false false _ Hs) as (s1 & E & Hs1 & _).
  { apply sessions_py_ok; [done|]. eapply Forall_impl; [exact Hlf|]. by intros kv (? & ? & ?). }
  unfold st_catch, st_bind, st_lift. rewrite E. cbv beta iota.
  replace (as_dict (py_or _ (PDict []))) with (Ok (map (fun kv => (fst kv, PDict (to_dict (snd kv)))) lf))
    by (by destruct lf).
  rewrite read_sessions_run.
  2: { eapply Forall_impl; [exact Hlf|]. by intros kv (? & ? & ?). }
  2: { exact Hd. }
  cbn [app]. set (s2 := s1 <| dr_objects ::= _ |>).
  assert (Ho : dr_objects s2 = dr_objects s ++ map snd lf /\ double_ratchet_states s2 = double_ratchet_states s /\
    dr_objects s1 = dr_objects s) by (unfold s2; cbn; by same_fields Hs1).
  destruct Ho as (Ho & Hc2 & Ho1). rewrite Ho1.
  assert (Hat : ratchet_at s2 r = ratchet_at s r) by (unfold ratchet_at; by rewrite Ho, lookup_app_l).
  rewrite (with_current_some s2 conv r) by (by rewrite ?Hc2 || by unfold sid_at; rewrite Hat).
  unfold set_sessions, st_modify, st_ret. eexists _, _. split; [reflexivity|]. split; [|split].
  - transitivity (states_of s2 (dset (sid_at s2 r) r (numbered (length (dr_objects s)) lf))); [done|].
    rewrite states_of_dset, states_of_numbered by done. unfold sid_at. by rewrite Hat.
  - unfold sid_at. rewrite <- Hat. apply dlookup_dset_eq.
  - exact Hc2.
Qed.

(** Ratchet sessions survive a restart. After [save_double_ratchet], a new
    session over the same files loads the same current state, and the same states
    of all the known sessions of the conversation under the same ids; the current
    one is again shared between the two maps. *)
Theorem ratchets_survive_restart s w uid conv r l :
  storable s conv r l -> has_store s = true -> aes_key_ok (master_key s) = true ->
  secchat_dir s ∈ dirs (os s) ->
  exists s1, save_double_ratchet conv s = (s1, Ok tt) /\
    (files w !! double_ratchet_path s conv = files (os s1) !! double_ratchet_path s conv ->
     files w !! double_ratchet_sessions_path s conv = files (os s1) !! double_ratchet_sessions_path s conv ->
     exists s2 r2 s3 l3,
       (do! _ := configure (master_key s) (secchat_dir s) uid in load_double_ratchet conv) (new_session w)
         = (s2, Ok (Some r2)) /\
       ratchet_at s2 r2 = ratchet_at s r /\
       load_double_ratchet_sessions conv s2 = (s3, Ok l3) /\
       states_of s3 l3 = states_of s (dset (sid_at s r) r l) /\
       double_ratchet_states s3 !! conv = Some r2 /\ dlookup (sid_at s r) l3 = Some r2).
Proof using L OL IO.
  intros Hsto Hst Hk Hdir. destruct (save_run s conv r l Hsto Hst Hk Hdir) as (s1 & E1 & [F1 F2] & Ek & Ed).
  exists s1. split; [done|]. intros W1 W2. destruct Hsto as (Hm & Hd & Hne & Hr & Hl).
  unfold st_bind, configure, st_modify.
  lazymatch goal with |- context [load_double_ratchet conv ?x] => set (s0 := x) end.
  assert (P1 : double_ratchet_path s1 conv = double_ratchet_path s conv /\
    double_ratchet_sessions_path s1 conv = double_ratchet_sessions_path s conv).
  { unfold double_ratchet_path, double_ratchet_sessions_path, local_path. by rewrite Ed. }
  destruct P1 as [P1 P2]. rewrite P1 in F1. rewrite P2 in F2.
  assert (Hopen : forall p v, files w !! p = files (os s1) !! p -> sealed_at s1 p v -> sealed_at s0 p v).
  { intros p v Hw (raw & Hr' & Ho). exists raw. split; [cbn; congruence|]. cbn. by rewrite <- Ek. }
  destruct (load_current_run s0 conv (ratchet_at s r)) as (w' & Hw' & ->); [done|exact Hst|done|by apply Hopen|].
  lazymatch goal with |- context [(?x, Ok (Some _))] => set (s2 := x) end.
  set (lf := states_of s (dset (sid_at s r) r l)) in *.
  destruct (load_sessions_run s2 conv 0%nat lf) as (s3 & l3 & E3 & Hst3 & Hss3 & Hc3).
  - cbn. by rewrite lookup_insert_eq.
  - done.
  - exact Hst.
  - apply Hm.
  - cbn. lia.
  - unfold dict_ok, dkeys, lf, states_of. rewrite map_map. by apply dict_ok_dset.
  - apply Forall_fmap. pose proof (keyed_dset s l r (im_keyed _ _ _ _ Hm)) as Hkd.
    assert (Hne' : Forall (fun kv => fst kv <> "") (dset (sid_at s r) r l)) by (apply Forall_dset; [done|apply Hm]).
    apply (Forall_dset (fun kv => persistent (ratchet_at s (snd kv))) (sid_at s r) r) in Hl; [|done].
    rewrite Forall_forall in *. intros kv Hin. split; [by apply Hne'|]. split; [by apply Hl|by apply Hkd].
  - destruct (Hopen _ _ W2 F2) as (raw & Hraw & Ho). exists raw. split; [|exact Ho]. cbn. rewrite Hw'. exact Hraw.
  - exists s2, 0%nat, s3, l3. split; [done|]. split; [done|]. split; [exact E3|]. split; [|split].
    + rewrite Hst3. change (sid_at s2 0) with (sid_at s r). change (ratchet_at s2 0) with (ratchet_at s r).
      unfold lf. by rewrite states_of_dset, dset_dset.
    + rewrite Hc3. cbn. by rewrite lookup_insert_eq.
    + exact Hss3.
Qed.

(** C35: both sides of a conversation converge on one session. When two devices know
    the same set of session ids (their own and a candidate just received), both
    choose the session with the least id, make it the current one, and leave every
    ratchet state as it was; no agreement and no working file system is needed. *)
Theorem canonical_session_converges (OA OB : Os) convA convB sA sB rA rB lA lB cA cB :
  in_memory sA convA rA lA -> in_memory sB convB rB lB -> sid_at sA cA <> "" -> sid_at sB cB <> "" ->
  (forall x, x ∈ known_sids sA rA lA cA <-> x ∈ known_sids sB rB lB cB) ->
  exists sA' sB' a b,
    _select_canonical_double_ratchet_state (O := OA) convA (Some cA) sA = (sA', Ok (Some a)) /\
    _select_canonical_double_ratchet_state (O := OB) convB (Some cB) sB = (sB', Ok (Some b)) /\
    double_ratchet_states sA' !! convA = Some a /\ double_ratchet_states sB' !! convB = Some b /\
    dr_objects sA' = dr_objects sA /\ dr_objects sB' = dr_objects sB /\
    sid_at sA' a = sid_at sB' b /\ sid_at sA' a ∈ known_sids sA rA lA cA /\
    forall x, x ∈ known_sids sA rA lA cA -> str_ltb x (sid_at sA' a) = false.
Proof using.
  intros HA HB HcA HcB Hsame.
  destruct (select_memory (O := OA) sA convA rA lA cA HA HcA) as (sA' & a & EA & CA & OA' & InA & LA).
  destruct (select_memory (O := OB) sB convB rB lB cB HB HcB) as (sB' & b & EB & CB & OB' & InB & LB).
  assert (Ha : sid_at sA' a = sid_at sA a) by (unfold sid_at, ratchet_at; by rewrite OA').
  assert (Hb : sid_at sB' b = sid_at sB b) by (unfold sid_at, ratchet_at; by rewrite OB').
  exists sA', sB', a, b. rewrite CA, CB, !lookup_insert_eq, Ha, Hb. split_and!; try done.
  apply (least_unique _ _ (fun x => x ∈ known_sids sA rA lA cA)); [done|by apply Hsame|done|].
  intros x Hx. apply LB. by apply Hsame.
Qed.
End dr_theorems.

(** ** Witnesses *)

Definition named_ratchet (sid : string) : DoubleRatchet :=
  DR "root" "pk" "sk" "" "cs" "cr" "hs" "hr" 3 2 0 [] false sid 5 1 2 0 {[ "id" ]}.

(** Conversation 5 with a current session ["s2"] and a candidate ["s1"]. *)
Definition demo_pair (mine other : string) : session :=
  demo_session <| dr_objects := [named_ratchet mine; named_ratchet other] |>
    <| double_ratchet_states ::= fun _ => ({[ 5 := 0%nat ]} : gmap Z nat) |>
    <| double_ratchet_session_states ::= fun _ => ({[ 5 := [(mine, 0%nat)] ]} : gmap Z (list (string * nat))) |>
    <| os ::= fun w => w <| dirs ::= fun _ => ({[ "/home/an/.secchat" ]} : gset string) |> |>.

Lemma demo_in_memory mine other : mine <> "" -> in_memory (demo_pair mine other) 5 0%nat [(mine, 0%nat)].
Proof.
  intros H. split; [apply lookup_insert_eq|apply lookup_insert_eq| |exact H].
  constructor; [reflexivity|constructor].
Qed.

Lemma demo_persistent sid : sid <> "" -> utf8_valid sid = true -> persistent (named_ratchet sid).
Proof.
  intros Hne Hv. split; [|apply Nat.leb_le; vm_compute; reflexivity]. split; [by split; [apply NoDup_nil_2|]|].
  split; [exact Hv|]. intros x Hx. cbn in Hx. apply elem_of_singleton in Hx as ->. by split.
Qed.

Lemma ratchets_survive_restart_witness :
  exists s1 s2 r2,
    save_double_ratchet (P := reference_prims) (O := demo_os 0) 5 (demo_pair "s2" "s1") = (s1, Ok tt) /\
    (do! _ := configure demo_key "/home/an/.secchat" 1 in
     load_double_ratchet (P := reference_prims) (O := demo_os 0) 5) (new_session (os s1)) = (s2, Ok (Some r2)) /\
    ratchet_at s2 r2 = named_ratchet "s2".
Proof.
  destruct (ratchets_survive_restart (P := reference_prims) (O := demo_os 0) (demo_pair "s2" "s1")
    (os (fst (save_double_ratchet (P := reference_prims) (O := demo_os 0) 5 (demo_pair "s2" "s1"))))
    1 5 0%nat [("s2", 0%nat)]) as (s1 & E & H).
  - split; [by apply demo_in_memory|]. split; [apply NoDup_singleton|].
    split; [constructor; [discriminate|constructor]|]. split; [by apply demo_persistent|].
    constructor; [by apply demo_persistent|constructor].
  - reflexivity.
  - reflexivity.
  - apply (bool_decide_unpack _). vm_compute. exact I.
  - pose proof (f_equal fst E) as E'. cbn [fst] in E'. rewrite <- E' in H.
    destruct (H eq_refl eq_refl) as (s2 & r2 & _ & _ & E2 & Hr & _).
    exists s1, s2, r2. split; [exact E|]. rewrite <- E'. split; [exact E2|exact Hr].
Defined.

Lemma canonical_session_converges_witness :
  exists sA' sB' a b,
    _select_canonical_double_ratchet_state (P := reference_prims) (O := demo_os 0) 5 (Some 1%nat)
      (demo_pair "s2" "s1") = (sA', Ok (Some a)) /\
    _select_canonical_double_ratchet_state (P := reference_prims) (O := demo_os 7) 5 (Some 1%nat)
      (demo_pair "s1" "s2") = (sB', Ok (Some b)) /\
    sid_at sA' a = sid_at sB' b.
Proof.
  destruct (canonical_session_converges (P := reference_prims) (demo_os 0) (demo_os 7) 5 5
    (demo_pair "s2" "s1") (demo_pair "s1" "s2") 0%nat 0%nat [("s2", 0%nat)] [("s1", 0%nat)] 1%nat 1%nat)
    as (sA' & sB' & a & b & EA & EB & _ & _ & _ & _ & H & _).
  - by apply demo_in_memory.
  - by apply demo_in_memory.
  - discriminate.
  - discriminate.
  - intros x. change (x ∈ ["s1"; "s2"; "s2"] <-> x ∈ ["s2"; "s1"; "s1"]).
    rewrite !elem_of_cons, elem_of_nil. tauto.
  - exists sA', sB', a, b. split; [exact EA|]. split; [exact EB|exact H].
Defined.
