(* ===== verification/IdentityAudit.v ===== *)
(** * What is known of a peer's identity (client/crypto_engine/session.py)

    The verified mark of a conversation, the audit state of a peer's identity, and
    the auditor checkpoint pinned for the account. A state is a dictionary, as it
    is stored; the copies [dict(state)] the code makes are the values here. *)

From S2P Require Import Prelude Hashing Base64 PyVal Sorting Json Crypto Wire Ratchet AuditClient Utils.
From S2P Require Import Session.

(** [l[-n:]]. *)
Definition last_n {A} (n : nat) (l : list A) : list A := drop (length l - n) l.

Section identity_audit.
Context `{P : Prims, O : Os}.

(** ** The verified mark *)

Definition load_verified (conv_id : Z) : sm bool :=
  do! s := st_get in
  match conv_verified s !! conv_id with
  | Some b => st_ret b
  | None =>
      if negb (has_store s) then st_ret false
      else if negb (path_exists s (verified_path s conv_id)) then st_ret false
      else
        st_catch (
          do! v := read_sealed (verified_path s conv_id) in
          let result := py_eqb v (PStr "1") in
          do! _ := st_modify (fun s => s <| conv_verified ::= <[conv_id := result]> |>) in
          st_ret result) (fun _ => st_ret false)
  end.

Definition save_verified (conv_id : Z) (verified : bool) : sm unit :=
  do! _ := st_modify (fun s => s <| conv_verified ::= <[conv_id := verified]> |>) in
  do! s := st_get in
  if negb (has_store s) then st_ret tt
  else logged (write_sealed (verified_path s conv_id) (if verified then "1" else "0")).

(** ** The audit state of a peer *)

Definition unknown_audit (user_id : Z) : dict :=
  [("user_id", PInt user_id); ("status", PStr "unknown"); ("history", PList [])].

Definition load_identity_audit (user_id : Z) : sm dict :=
  do! s := st_get in
  match identity_audit_states s !! user_id with
  | Some state => st_ret state
  | None =>
      if negb (has_store s) then st_ret (unknown_audit user_id)
      else if negb (path_exists s (identity_audit_path s user_id)) then st_ret (unknown_audit user_id)
      else
        st_catch (
          do! v := read_json (identity_audit_path s user_id) in
          do! d := st_lift (as_dict v) in
          let state := setdefault "last_error_code" (PStr "")
                         (setdefault "history" (PList []) (setdefault "user_id" (PInt user_id) d)) in
          do! _ := st_modify (fun s => s <| identity_audit_states ::= <[user_id := state]> |>) in
          st_ret state) (fun _ => st_ret (unknown_audit user_id))
  end.

Definition save_identity_audit (user_id : Z) (state : dict) : sm unit :=
  let state := setdefault "history" (PList []) (dset "user_id" (PInt user_id) state) in
  do! _ := st_modify (fun s => s <| identity_audit_states ::= <[user_id := state]> |>) in
  do! s := st_get in
  if negb (has_store s) then st_ret tt
  else logged (write_sealed (identity_audit_path s user_id) (json_dumps false false (PDict state))).

(** [list(old.get("history") or [])]. *)
Definition history_of (old : dict) : res (list pyval) :=
  py_iter (py_or (dget "history" PNone old) (PList [])).

(** [int(d.get("identity_version", -1) or -1)]. *)
Definition version_or_minus1 (d : dict) : res Z :=
  py_int (py_or (dget "identity_version" (PInt (-1)) d) (PInt (-1))).

(** [bool(old_pk and not _same_identity_key(old_pk, identity_pk))]. *)
Definition key_changed (old : dict) (identity_pk : string) : bool :=
  let old_pk := get_str0 "identity_pk" old in
  nonempty old_pk && negb (same_identity_key_str (PStr old_pk) (PStr identity_pk)).

(** The status after an identity was seen: a change wins, and an earlier problem
    becomes [unverified]. *)
Definition next_status (old : dict) (changed : bool) : pyval :=
  let status := if changed then PStr "key_changed" else dget "status" (PStr "unverified") old in
  if existsb (py_eqb status) [PStr "unknown"; PStr "audit_unavailable"; PStr "audit_mismatch"]
  then PStr "unverified" else status.

(** An entry of the history. *)
Definition history_entry (seen_at : Z) (event_type : pyval) (version : Z) (pk safety : string)
    (device created : pyval) : dict :=
  [("seen_at", PInt seen_at); ("event_type", event_type); ("identity_version", PInt version);
   ("identity_pk", PStr pk); ("safety_number", PStr safety); ("device_label", device);
   ("created_at", created); ("verified_after_change", PBool false)].

(** The history after an identity was seen. *)
Definition extend_history (changed : bool) (history : list pyval) (entry : dict) : list pyval :=
  if changed || match history with [] => true | _ => false end
  then last_n 20 (history ++ [PDict entry]) else history.

Definition record_identity_audit_ok (user_id : Z) (identity_pk : string) (identity_version : Z)
    (safety_number : string) (checkpoint leaf : dict) : sm dict :=
  do! old := load_identity_audit user_id in
  do! old_version := st_lift (version_or_minus1 old) in
  do! now := now_s in
  do! history := st_lift (history_of old) in
  let changed := key_changed old identity_pk in
  let rollback := identity_version <? old_version in
  let history := extend_history (changed || rollback) history
    (history_entry now (dget "event_type" (PStr "initial") leaf) identity_version identity_pk safety_number
       (dget "device_label" (PStr "primary device") leaf) (dget "created_at" (PStr "") leaf)) in
  let state :=
    [("user_id", PInt user_id); ("status", next_status old (changed || rollback));
     ("identity_pk", PStr identity_pk); ("identity_version", PInt identity_version);
     ("safety_number", PStr safety_number); ("checkpoint", PDict checkpoint); ("leaf", PDict leaf);
     ("history", PList history);
     ("reviewed_at", if changed then PInt 0 else dget "reviewed_at" (PInt 0) old);
     ("last_error", PStr ""); ("last_error_code", PStr "")] in
  do! _ := save_identity_audit user_id state in
  st_ret state.

Definition record_identity_seen_unverified (user_id : Z) (identity_pk : string)
    (identity_version : option Z) (safety_number event_type : string) : sm dict :=
  do! old := load_identity_audit user_id in
  do! version_i := st_lift (match identity_version with
                            | Some v => Ok v
                            | None => get_int0 "identity_version" old
                            end) in
  let old_version := ok_or (-1) (version_or_minus1 old) in
  let changed := key_changed old identity_pk in
  let rollback := match identity_version with Some _ => version_i <? old_version | None => false end in
  do! history := st_lift (history_of old) in
  do! history := (if (changed || rollback) || match history with [] => true | _ => false end then
    do! now := now_s in
    st_ret (extend_history (changed || rollback) history
      (history_entry now (PStr (if nonempty event_type then event_type else "seen")) version_i identity_pk
         safety_number (PStr "primary device") (PStr "")))
    else st_ret history) in
  let status := next_status old (changed || rollback) in
  let flagged := py_eqb status (PStr "key_changed") in
  let state := dupdate old
    [("user_id", PInt user_id); ("status", status); ("identity_pk", PStr identity_pk);
     ("identity_version", PInt version_i); ("safety_number", PStr safety_number);
     ("history", PList history);
     ("last_error", if flagged then dget "last_error" (PStr "Safety number changed and needs review.") old
                    else PStr "");
     ("last_error_code", if flagged then dget "last_error_code" (PStr "") old else PStr "");
     ("reviewed_at", if changed then PInt 0 else dget "reviewed_at" (PInt 0) old)] in
  do! _ := save_identity_audit user_id state in
  st_ret state.

(** Does the last entry report the same problem of the same identity? *)
Definition same_problem (last : pyval) (status : string) (version : Z) (pk : string) : res bool :=
  let! last := as_dict last in
  if negb (String.eqb (py_str (dget "event_type" (PStr "") last)) status) then Ok false
  else
    let! v := version_or_minus1 last in
    Ok ((v =? version) && same_identity_key_str (PStr (py_str (dget "identity_pk" (PStr "") last))) (PStr pk)).

Definition record_identity_audit_problem (user_id : Z) (identity_pk : string) (identity_version : Z)
    (safety_number status error error_code : string) : sm dict :=
  do! old := load_identity_audit user_id in
  do! history := st_lift (history_of old) in
  do! duplicate := st_lift (match last history with
                            | Some e => same_problem e status identity_version identity_pk
                            | None => Ok false
                            end) in
  do! now := now_s in
  let history :=
    match duplicate, last history with
    | true, Some (PDict e) =>
        removelast history ++ [PDict (dupdate e
          [("seen_at", PInt now); ("safety_number", PStr safety_number); ("error", PStr error);
           ("error_code", PStr error_code)])]
    | _, _ =>
        history ++ [PDict (history_entry now (PStr status) identity_version identity_pk safety_number
                             (PStr "primary device") (PStr "") ++
                           [("error", PStr error); ("error_code", PStr error_code)])]
    end in
  let state := dupdate old
    [("user_id", PInt user_id); ("status", PStr status); ("identity_pk", PStr identity_pk);
     ("identity_version", PInt identity_version); ("safety_number", PStr safety_number);
     ("history", PList (last_n 20 history)); ("last_error", PStr error);
     ("last_error_code", PStr error_code)] in
  do! _ := save_identity_audit user_id state in
  st_ret state.

(** [state["history"][-1]["verified_after_change"] = verified], if there is a history. *)
Definition mark_last (verified : bool) (state : dict) : res dict :=
  let h := dget "history" PNone state in
  if truthy h then
    let! l := as_list h in
    let! e := of_option (last l) IndexError in
    let! e := match e with PDict e => Ok e | _ => Err TypeError end in
    Ok (dset "history" (PList (removelast l ++ [PDict (dset "verified_after_change" (PBool verified) e)])) state)
  else Ok state.

Definition mark_identity_reviewed (user_id : Z) (verified : bool) : sm dict :=
  do! state := load_identity_audit user_id in
  do! now := now_s in
  let state := dset "reviewed_at" (PInt now)
    (dset "status" (PStr (if verified then "verified" else "reviewed_unverified")) state) in
  do! state := st_lift (mark_last verified state) in
  do! _ := save_identity_audit user_id state in
  st_ret state.

(** ** The pinned auditor checkpoint *)

Definition unknown_auditor : dict :=
  [("status", PStr "unknown"); ("checkpoint", PDict []); ("observations", PList [])].

Definition auditor_defaults (d : dict) : dict :=
  setdefault "last_error_code" (PStr "") (setdefault "observations" (PList [])
    (setdefault "checkpoint" (PDict []) (setdefault "status" (PStr "unknown") d))).

Definition load_auditor_state : sm dict :=
  do! s := st_get in
  match auditor_state s with
  | [] =>
      if negb (has_store s) then st_ret unknown_auditor
      else if negb (path_exists s (auditor_state_path s)) then st_ret unknown_auditor
      else
        st_catch (
          do! v := read_json (auditor_state_path s) in
          do! d := st_lift (as_dict v) in
          let state := auditor_defaults d in
          do! _ := st_modify (fun s => s <| auditor_state := state |>) in
          st_ret state) (fun _ => st_ret unknown_auditor)
  | state => st_ret state
  end.

Definition save_auditor_state (state : dict) : sm unit :=
  let state := auditor_defaults state in
  do! _ := st_modify (fun s => s <| auditor_state := state |>) in
  do! s := st_get in
  if negb (has_store s) then st_ret tt
  else logged (write_sealed (auditor_state_path s) (json_dumps false false (PDict state))).

Definition rolled_back_pin : exc := CryptoStateError "Auditor checkpoint rolled back across identity checks".
Definition split_view_pin : exc := CryptoStateError "Auditor split-view detected at the same log size".

(** The size and root of a checkpoint. *)
Definition pin_of (cp : dict) : res (Z * string) :=
  let size := ok_or (-1) (py_int (dget "tree_size" (PInt (-1)) cp)) in
  let root := get_str0 "root_hash" cp in
  if (size <? 0) || negb (py_len root =? 64) then Err (CryptoStateError "Malformed auditor checkpoint")
  else Ok (size, root).

(** The comparison with the checkpoint pinned before. *)
Definition check_pin (old_cp : dict) (new_size : Z) (new_root : string) : res unit :=
  match old_cp with
  | [] => Ok tt
  | _ =>
      let! old_size := get_int0 "tree_size" old_cp in
      let old_root := get_str0 "root_hash" old_cp in
      if new_size <? old_size then Err rolled_back_pin
      else if (new_size =? old_size) && nonempty old_root && negb (String.eqb new_root old_root)
      then Err split_view_pin
      else Ok tt
  end.

Definition record_auditor_checkpoint (cp : dict) (source : string) (user_id identity_version : Z) : sm dict :=
  do! (new_size, new_root) := st_lift (pin_of cp) in
  do! state := load_auditor_state in
  do! old_cp := st_lift (py_dict (py_or (dget "checkpoint" PNone state) (PDict []))) in
  do! _ := st_lift (check_pin old_cp new_size new_root) in
  do! observations := st_lift (py_iter (py_or (dget "observations" PNone state) (PList []))) in
  do! seen_at := now_s in
  let observations := observations ++ [PDict
    [("seen_at", PInt seen_at); ("source", PStr source); ("user_id", PInt user_id);
     ("identity_version", PInt identity_version); ("tree_size", PInt new_size);
     ("root_hash", PStr new_root); ("created_at", PStr (get_str0 "created_at" cp))]] in
  do! updated_at := now_s in
  let state := dupdate state
    [("status", PStr "ok"); ("checkpoint", PDict cp); ("observations", PList (last_n 50 observations));
     ("last_error", PStr ""); ("last_error_code", PStr ""); ("updated_at", PInt updated_at)] in
  do! _ := save_auditor_state state in
  st_ret state.
End identity_audit.
