(* ===== verification/IdentityAuditProps.v ===== *)
(** * Theorems about identity audit state and the pinned checkpoint *)

From S2P Require Import Prelude Hashing Base64 PyVal Sorting Json JsonFacts Crypto Wire Ratchet.
From S2P Require Import AuditClient Utils Session SessionFacts IdentityAudit.

(** ** Saving, whatever the file system does *)

Section audit_facts.
Context `{P : Prims, O : Os}.

Lemma within_logged `{F : Frame R} Q s0 (m : sm unit) : within R Q s0 m -> within R Q s0 (logged m).
Proof using. intros H. unfold logged. apply within_catch; [done|]. intros e. apply within_ret. Qed.

(** A logged sealed write returns, and only its file may have changed. *)
Lemma logged_write_total s path text :
  exists s', logged (write_sealed path text) s = (s', Ok tt) /\ same_session s s' /\
    forall p, p <> path -> files (os s') !! p = files (os s) !! p.
Proof using.
  pose proof (within_run _ _ _ (within_logged (fun p => p = path) s (write_sealed path text)
    (within_write_sealed (fun p => p = path) s path text eq_refl))) as [Hs Hf].
  unfold logged, st_catch in *. destruct (write_sealed path text s) as [s' [[]|e]]; by exists s'.
Qed.

(** What is kept of a state that is saved. *)
Definition audit_saved (uid : Z) (state : dict) : dict :=
  setdefault "history" (PList []) (dset "user_id" (PInt uid) state).

Lemma dlookup_setdefault k k' v d : k <> k' -> dlookup k (setdefault k' v d) = dlookup k d.
Proof using. intros Hne. unfold setdefault. destruct (dlookup k' d); [done|]. by apply dlookup_dset_ne. Qed.

Lemma audit_saved_field uid k state :
  k <> "history" -> k <> "user_id" -> dlookup k (audit_saved uid state) = dlookup k state.
Proof using. intros H1 H2. unfold audit_saved. rewrite dlookup_setdefault by done. by apply dlookup_dset_ne. Qed.

Lemma save_identity_audit_total uid state s :
  exists s', save_identity_audit uid state s = (s', Ok tt) /\
    same_session (s <| identity_audit_states ::= <[uid := audit_saved uid state]> |>) s'.
Proof using.
  unfold save_identity_audit, st_bind, st_modify, st_get. fold (audit_saved uid state).
  set (s1 := s <| identity_audit_states ::= _ |>).
  destruct (negb (has_store s1)); [eexists; split; [done|apply same_session_refl]|].
  destruct (logged_write_total s1 (identity_audit_path s1 uid) (json_dumps false false (PDict (audit_saved uid state))))
    as (s' & -> & Hs & _). by exists s'.
Qed.

Lemma save_auditor_state_total state s :
  exists s', save_auditor_state state s = (s', Ok tt) /\
    same_session (s <| auditor_state := auditor_defaults state |>) s'.
Proof using.
  unfold save_auditor_state, st_bind, st_modify, st_get.
  set (s1 := s <| auditor_state := _ |>).
  destruct (negb (has_store s1)); [eexists; split; [done|apply same_session_refl]|].
  destruct (logged_write_total s1 (auditor_state_path s1) (json_dumps false false (PDict (auditor_defaults state))))
    as (s' & -> & Hs & _). by exists s'.
Qed.

(** ** Sightings of an identity *)

(** An identity with a proof of the auditor, or one seen in a first message. *)
Inductive sighting :=
| Audited (pk : string) (version : Z) (safety : string) (checkpoint leaf : dict)
| SeenInMessage (pk : string) (version : option Z) (safety event : string).

Definition record_sighting (uid : Z) (e : sighting) : sm dict :=
  match e with
  | Audited pk v safety cp leaf => record_identity_audit_ok uid pk v safety cp leaf
  | SeenInMessage pk v safety ev => record_identity_seen_unverified uid pk v safety ev
  end.

Definition sighted_pk (e : sighting) : string :=
  match e with Audited pk _ _ _ _ => pk | SeenInMessage pk _ _ _ => pk end.

(** Does the sighting bring a lower version than recorded? *)
Definition sighted_rollback (old : dict) (e : sighting) : bool :=
  match e with
  | Audited _ v _ _ _ => v <? ok_or (-1) (version_or_minus1 old)
  | SeenInMessage _ (Some v) _ _ => v <? ok_or (-1) (version_or_minus1 old)
  | SeenInMessage _ None _ _ => false
  end.

Definition suspicious (old : dict) (e : sighting) : bool :=
  key_changed old (sighted_pk e) || sighted_rollback old e.

(** A recorded state whose fields can be read. *)
Definition readable (old : dict) : Prop :=
  is_ok (version_or_minus1 old) = true /\ is_ok (get_int0 "identity_version" old) = true /\
  is_ok (history_of old) = true.

(** What a sighting that is recorded leaves. *)
Definition recorded (uid : Z) (old : dict) (e : sighting) (s s' : session) (st : dict) : Prop :=
  dlookup "status" st = Some (next_status old (suspicious old e)) /\
  dlookup "identity_pk" st = Some (PStr (sighted_pk e)) /\
  dlookup "reviewed_at" st =
    Some (if key_changed old (sighted_pk e) then PInt 0 else dget "reviewed_at" (PInt 0) old) /\
  (exists v, dlookup "identity_version" st = Some (PInt v)) /\
  (exists h entry, history_of old = Ok h /\
     dlookup "history" st = Some (PList (extend_history (suspicious old e) h entry))) /\
  identity_audit_states s' = <[uid := audit_saved uid st]> (identity_audit_states s).

Lemma load_audit_memory s uid old :
  identity_audit_states s !! uid = Some old -> load_identity_audit uid s = (s, Ok old).
Proof using. intros H. unfold load_identity_audit, st_bind, st_get. by rewrite H. Qed.

Lemma now_s_run s : exists s' n, now_s s = (s', Ok n) /\ same_session s s'.
Proof using.
  unfold now_s, st_bind. destruct (now_ms_ok s) as (s1 & n & -> & Hs & _).
  exists s1. eexists. split; [reflexivity|done].
Qed.

(** A sighting is recorded, or raises because the state cannot be read, and changes nothing. *)
Definition sighting_outcome (uid : Z) (old : dict) (e : sighting) (s : session) (r : session * res dict) : Prop :=
  match r with
  | (s', Ok st) => recorded uid old e s s' st
  | (s', Err _) => ~ readable old /\ same_session s s'
  end.

Lemma audited_outcome s uid old pk v safety cp leaf :
  let e := Audited pk v safety cp leaf in
  identity_audit_states s !! uid = Some old -> sighting_outcome uid old e s (record_sighting uid e s).
Proof using.
  intros e Hold. unfold record_sighting, e, record_identity_audit_ok. unfold st_bind at 1.
  rewrite (load_audit_memory s uid old Hold). unfold st_bind at 1, st_lift at 1.
  destruct (version_or_minus1 old) as [ov|x] eqn:Ev.
  2: { split; [|apply same_session_refl]. intros (H & _). by rewrite Ev in H. }
  unfold st_bind at 1. destruct (now_s_run s) as (s1 & n & -> & Hs1). unfold st_bind at 1, st_lift.
  destruct (history_of old) as [h|x] eqn:Eh.
  2: { split; [|done]. intros (_ & _ & H). by rewrite Eh in H. }
  cbv zeta. unfold st_bind.
  lazymatch goal with |- context [save_identity_audit uid ?st s1] =>
    destruct (save_identity_audit_total uid st s1) as (s2 & -> & Hs2) end.
  assert (Hb : key_changed old pk || (v <? ov) = suspicious old (Audited pk v safety cp leaf)).
  { unfold suspicious, sighted_rollback, sighted_pk. by rewrite Ev. }
  split; [by rewrite <- Hb|split; [reflexivity|split; [reflexivity|split; [by eexists|split]]]].
  - rewrite <- Hb. by eexists _, _.
  - same_fields Hs2. f_equal. by same_fields Hs1.
Qed.

Lemma seen_outcome s uid old pk v safety ev :
  let e := SeenInMessage pk v safety ev in
  identity_audit_states s !! uid = Some old -> sighting_outcome uid old e s (record_sighting uid e s).
Proof using.
  intros e Hold. unfold record_sighting, e, record_identity_seen_unverified. unfold st_bind at 1.
  rewrite (load_audit_memory s uid old Hold). unfold st_bind at 1, st_lift at 1.
  destruct (match v with Some v => Ok v | None => get_int0 "identity_version" old end) as [vi|x] eqn:Ev.
  2: { split; [|apply same_session_refl]. intros (_ & H & _). destruct v; [done|]. by rewrite Ev in H. }
  cbv zeta. unfold st_bind at 1, st_lift.
  destruct (history_of old) as [h|x] eqn:Eh.
  2: { split; [|apply same_session_refl]. intros (_ & _ & H). by rewrite Eh in H. }
  set (changed := key_changed old pk || _).
  assert (Hb : changed = suspicious old (SeenInMessage pk v safety ev)).
  { unfold changed, suspicious, sighted_rollback, sighted_pk. destruct v; [by injection Ev as ->|done]. }
  unfold st_bind at 1.
  lazymatch goal with |- context [match ?m s with (_, _) => _ end] =>
    assert (Hh : exists s1 entry, m s = (s1, Ok (extend_history changed h entry)) /\ same_session s s1) end.
  { unfold extend_history. destruct (changed || _).
    - unfold st_bind. destruct (now_s_run s) as (s1 & n & -> & Hs1). by eexists _, _.
    - exists s, []. split; [done|apply same_session_refl]. }
  destruct Hh as (s1 & h' & -> & Hs1). unfold st_bind. rewrite Hb.
  lazymatch goal with |- context [save_identity_audit uid ?st s1] =>
    destruct (save_identity_audit_total uid st s1) as (s2 & -> & Hs2) end.
  unfold st_ret, sighting_outcome, recorded. cbv beta iota. rewrite !dlookup_dupdate.
  split; [reflexivity|split; [reflexivity|split; [reflexivity|split; [by eexists|split]]]].
  - by eexists _, _.
  - same_fields Hs2. f_equal. by same_fields Hs1.
Qed.

Lemma sighting_runs s uid old e :
  identity_audit_states s !! uid = Some old -> sighting_outcome uid old e s (record_sighting uid e s).
Proof using. destruct e; [apply audited_outcome|apply seen_outcome]. Qed.

(** ** A change of key *)

Fixpoint record_sightings (uid : Z) (es : list sighting) : sm unit :=
  match es with
  | [] => st_ret tt
  | e :: es => do! _ := record_sighting uid e in record_sightings uid es
  end.

(** A recorded change of key that nobody has reviewed. *)
Definition flagged (st : dict) : Prop :=
  dlookup "status" st = Some (PStr "key_changed") /\ dlookup "reviewed_at" st = Some (PInt 0) /\
  (exists v, dlookup "identity_version" st = Some (PInt v)) /\
  (exists h entry, dlookup "history" st = Some (PList (h ++ [PDict entry]))).

Lemma py_or_snoc l x v : py_or (PList (l ++ [x])) v = PList (l ++ [x]).
Proof using. by destruct l. Qed.

Lemma flagged_readable st : flagged st -> readable st.
Proof using.
  intros (_ & _ & (v & Hv) & h & entry & Hh). unfold readable, version_or_minus1, get_int0, history_of, dget.
  rewrite Hv, Hh. cbn [default]. split; [|split].
  - unfold py_or. by destruct (truthy _).
  - unfold py_or. by destruct (truthy _).
  - unfold py_or. by destruct (truthy _).
Qed.

Lemma last_n_snoc {A} (l : list A) x : exists l', last_n 20 (l ++ [x]) = l' ++ [x].
Proof using.
  unfold last_n. rewrite length_app. cbn [length].
  exists (drop (length l + 1 - 20) l). apply drop_app_le. lia.
Qed.

(** A recorded sighting is flagged when the key changed, or when the state was flagged. *)
Lemma recorded_flagged uid old e s s' st :
  recorded uid old e s s' st -> key_changed old (sighted_pk e) = true \/ flagged old ->
  flagged (audit_saved uid st).
Proof using.
  intros (H1 & _ & H2 & (v & Hv) & (h & entry & Hh & Hl) & _) Hc. unfold flagged.
  assert (Hist : dlookup "history" (audit_saved uid st) = dlookup "history" st).
  { unfold audit_saved, setdefault. rewrite dlookup_dset_ne by done. rewrite Hl. by rewrite dlookup_dset_ne. }
  rewrite !audit_saved_field, Hist, H1, H2, Hv, Hl by done.
  unfold next_status, suspicious, extend_history in *.
  destruct (key_changed old (sighted_pk e)); cbn [orb].
  - split; [done|split; [done|split; [by eexists|]]]. destruct (last_n_snoc h (PDict entry)) as (l & ->). by eexists _, _.
  - destruct Hc as [?|(F1 & F2 & F3 & oh & oe & F4)]; [done|]. unfold dget. rewrite F1, F2. cbn [default].
    split; [by destruct (sighted_rollback old e)|split; [done|split; [by eexists|]]].
    unfold history_of, dget in Hh. rewrite F4 in Hh.
    assert (h = oh ++ [PDict oe]) as ->. { rewrite py_or_snoc in Hh. by injection Hh as <-. }
    destruct (sighted_rollback old e || _).
    + destruct (last_n_snoc (oh ++ [PDict oe]) (PDict entry)) as (l & ->). by eexists _, _.
    + by eexists _, _.
Qed.

Lemma record_sightings_flagged uid es s old :
  identity_audit_states s !! uid = Some old -> flagged old ->
  exists s' st, record_sightings uid es s = (s', Ok tt) /\
    identity_audit_states s' !! uid = Some st /\ flagged st.
Proof using.
  revert s old. induction es as [|e es IH]; intros s old Hold Hf; [by exists s, old|].
  cbn [record_sightings]. unfold st_bind. pose proof (sighting_runs s uid old e Hold) as H.
  destruct (record_sighting uid e s) as [s1 [st|x]]; [|by destruct H as [H _]; destruct H; apply flagged_readable].
  pose proof (recorded_flagged _ _ _ _ _ _ H (or_intror Hf)).
  apply (IH s1 (audit_saved uid st)); [|done].
  destruct H as (_ & _ & _ & _ & _ & ->). apply lookup_insert_eq.
Qed.

Lemma review_clears uid verified s old :
  identity_audit_states s !! uid = Some old -> flagged old ->
  exists s' st, mark_identity_reviewed uid verified s = (s', Ok st) /\
    dlookup "status" st = Some (PStr (if verified then "verified" else "reviewed_unverified")).
Proof using.
  intros Hold (F1 & F2 & _ & h & entry & F4). unfold mark_identity_reviewed, st_bind.
  rewrite (load_audit_memory s uid old Hold). destruct (now_s_run s) as (s1 & n & -> & Hs1).
  unfold st_lift, mark_last, dget. rewrite !dlookup_dset_ne, F4 by done. cbn [default].
  assert (truthy (PList (h ++ [PDict entry])) = true) as -> by (by destruct h).
  cbn [as_list res_bind]. rewrite last_snoc. cbn [of_option res_bind].
  lazymatch goal with |- context [save_identity_audit uid ?st s1] =>
    destruct (save_identity_audit_total uid st s1) as (s2 & -> & Hs2); exists s2, st end.
  split; [done|]. rewrite !dlookup_dset_ne by done. apply dlookup_dset_eq.
Qed.

(** C30: Once an identity whose key bytes differ from the recorded ones is seen,
    audited or not, the peer's state says [key_changed] with no review, and every
    later list of sightings (other keys, lower versions, the new key proved by the
    auditor) leaves it so and raises nothing; only a review of the user changes it. *)
Theorem key_change_stays_flagged s uid old e es verified :
  identity_audit_states s !! uid = Some old -> readable old -> key_changed old (sighted_pk e) = true ->
  exists s1 st1, record_sightings uid (e :: es) s = (s1, Ok tt) /\
    identity_audit_states s1 !! uid = Some st1 /\
    dlookup "status" st1 = Some (PStr "key_changed") /\ dlookup "reviewed_at" st1 = Some (PInt 0) /\
    exists s2 st2, mark_identity_reviewed uid verified s1 = (s2, Ok st2) /\
      dlookup "status" st2 = Some (PStr (if verified then "verified" else "reviewed_unverified")).
Proof using.
  intros Hold Hr Hc. cbn [record_sightings]. unfold st_bind.
  pose proof (sighting_runs s uid old e Hold) as H.
  destruct (record_sighting uid e s) as [s0 [st|x]]; [|by destruct H as [H _]].
  pose proof (recorded_flagged _ _ _ _ _ _ H (or_introl Hc)) as Hf.
  destruct H as (_ & _ & _ & _ & _ & Hst).
  destruct (record_sightings_flagged uid es s0 (audit_saved uid st)) as (s1 & st1 & -> & H1 & F);
    [by rewrite Hst, lookup_insert_eq|done|].
  exists s1, st1. pose proof (review_clears uid verified s1 st1 H1 F) as Hv.
  destruct F as (F1 & F2 & _). done.
Qed.
(** ** An outage of the auditor *)

Lemma same_identity_refl pk : same_identity_key_str (PStr pk) (PStr pk) = true.
Proof using. unfold same_identity_key_str. destruct (b64d _); apply String.eqb_refl. Qed.

Lemma problem_outcome s uid old h pk v safety error code :
  identity_audit_states s !! uid = Some old -> history_of old = Ok h ->
  (forall e, last h = Some e -> is_ok (same_problem e "audit_unavailable" v pk) = true) ->
  exists s' st h', record_identity_audit_problem uid pk v safety "audit_unavailable" error code s = (s', Ok st) /\
    identity_audit_states s' !! uid = Some (audit_saved uid st) /\
    dlookup "status" st = Some (PStr "audit_unavailable") /\ dlookup "identity_pk" st = Some (PStr pk) /\
    dlookup "identity_version" st = Some (PInt v) /\ dlookup "history" st = Some (PList h').
Proof using.
  intros Hold Hh Hl. unfold record_identity_audit_problem, st_bind.
  rewrite (load_audit_memory s uid old Hold). unfold st_lift. rewrite Hh.
  assert (Hd : exists b, match last h with
    Some e => same_problem e "audit_unavailable" v pk | None => Ok false end = Ok b).
  { destruct (last h) as [e|]; [|by eexists]. specialize (Hl e eq_refl).
    destruct (same_problem _ _ _ _); [by eexists|done]. }
  destruct Hd as (b & ->). destruct (now_s_run s) as (s1 & n & -> & Hs1).
  lazymatch goal with |- context [save_identity_audit uid ?st s1] =>
    destruct (save_identity_audit_total uid st s1) as (s2 & -> & Hs2); exists s2, st end.
  eexists. split; [reflexivity|]. rewrite !dlookup_dupdate.
  split; [|split; [reflexivity|split; [reflexivity|split; reflexivity]]].
  same_fields Hs2. apply lookup_insert_eq.
Qed.

(** The other side of the flag. If the first sighting of the changed key comes
    while the auditor is unreachable, [record_identity_audit_problem] stores the new
    key over the old one with the status [audit_unavailable]; when the auditor
    answers again, the very same key gets the status [unverified] and not
    [key_changed], although a direct sighting would have been flagged. *)
Theorem outage_hides_key_change s uid old h pk v safety error code cp leaf :
  identity_audit_states s !! uid = Some old -> key_changed old pk = true -> 0 <= v ->
  history_of old = Ok h ->
  (forall e, last h = Some e -> is_ok (same_problem e "audit_unavailable" v pk) = true) ->
  next_status old (suspicious old (Audited pk v safety cp leaf)) = PStr "key_changed" /\
  exists s1 st1 s2 st2,
    record_identity_audit_problem uid pk v safety "audit_unavailable" error code s = (s1, Ok st1) /\
    record_identity_audit_ok uid pk v safety cp leaf s1 = (s2, Ok st2) /\
    dlookup "status" st2 = Some (PStr "unverified").
Proof using.
  intros Hold Hc Hv Hh Hl. unfold suspicious. cbn [sighted_pk]. rewrite Hc. split; [done|].
  destruct (problem_outcome s uid old h pk v safety error code Hold Hh Hl)
    as (s1 & st1 & h' & R1 & Hst1 & F1 & F2 & F3 & F4).
  pose proof (sighting_runs s1 uid _ (Audited pk v safety cp leaf) Hst1) as H. cbn [record_sighting] in H.
  assert (Hver : version_or_minus1 (audit_saved uid st1) = Ok (if v =? 0 then -1 else v)).
  { unfold version_or_minus1, dget. rewrite audit_saved_field, F3 by done. unfold py_or. cbn.
    by destruct (Z.eqb_spec v 0). }
  assert (Hhist : dlookup "history" (audit_saved uid st1) = Some (PList h')).
  { unfold audit_saved, setdefault. rewrite dlookup_dset_ne by done. rewrite F4. by rewrite dlookup_dset_ne. }
  destruct (record_identity_audit_ok _ _ _ _ _ _ s1) as [s2 [st2|x]] eqn:R2.
  2: { destruct H as [H _]. destruct H. unfold readable, get_int0, history_of, dget.
       rewrite Hver, audit_saved_field, F3, Hhist by done. cbn [default].
       split; [done|]. unfold py_or. split; by destruct (truthy _). }
  exists s1, st1, s2, st2. split; [done|]. split; [exact R2|].
  destruct H as (-> & _). f_equal. unfold next_status, suspicious, key_changed, sighted_rollback, get_str0, dget.
  rewrite Hver, !audit_saved_field, F1, F2 by done. cbn [default ok_or sighted_pk].
  assert (Hpk : py_str (py_or (PStr pk) (PStr "")) = pk) by (by destruct pk).
  rewrite Hpk, same_identity_refl, andb_false_r.
  assert ((v <? (if v =? 0 then -1 else v)) = false) as -> by (destruct (Z.eqb_spec v 0); lia). done.
Qed.

(** ** Pinned checkpoints *)

(** Log heads seen one after the other that do not contradict each other: the size does not
    decrease, and the same size has the same root. Roots of different sizes are free. *)
Definition pins_consistent (a b : dict) : Prop :=
  exists pa pb, pin_of a = Ok pa /\ pin_of b = Ok pb /\
    fst pa <= fst pb /\ (fst pa = fst pb -> snd pa = snd pb).

Definition fits (cur : option (Z * string)) (p : Z * string) : bool :=
  match cur with
  | None => true
  | Some q => negb (fst p <? fst q) && negb ((fst p =? fst q) && negb (String.eqb (snd p) (snd q)))
  end.

(** One check: the checkpoint if it was accepted; the callers catch the error. *)
Definition observe (o : dict * string * Z * Z) : sm (list dict) :=
  let '(cp, source, uid, version) := o in
  st_catch (do! _ := record_auditor_checkpoint cp source uid version in st_ret [cp]) (fun _ => st_ret []).

Fixpoint observe_all (os : list (dict * string * Z * Z)) : sm (list dict) :=
  match os with
  | [] => st_ret []
  | o :: os => do! a := observe o in do! l := observe_all os in st_ret (a ++ l)
  end.

(** The pin the account holds. *)
Definition pinned (s : session) (cur : option (Z * string)) : Prop :=
  exists st cp obs, load_auditor_state s = (s, Ok st) /\
    dlookup "checkpoint" st = Some (PDict cp) /\ dlookup "observations" st = Some (PList obs) /\
    match cur with None => cp = [] | Some p => pin_of cp = Ok p end.

Lemma py_int_or0 v n : py_int v = Ok n -> py_int (py_or v (PInt 0)) = Ok n.
Proof using.
  unfold py_or. destruct v as [|b|z|m k|t|l|d]; cbn; try done.
  - by destruct b.
  - destruct (Z.eqb_spec z 0) as [->|]; done.
  - destruct (Z.eqb_spec m 0) as [->|]; [|done]. cbn. by rewrite Z.quot_0_l by (apply Z.pow_nonzero; lia).
  - by destruct t.
Qed.

Lemma pin_of_size cp p : pin_of cp = Ok p ->
  cp <> [] /\ get_int0 "tree_size" cp = Ok (fst p) /\ get_str0 "root_hash" cp = snd p /\ nonempty (snd p) = true.
Proof using.
  unfold pin_of. destruct (_ || _) eqn:E; [done|]. intros [= <-]. cbn [fst snd].
  apply orb_false_elim in E as [E1 E2]. apply negb_false_iff, Z.eqb_eq in E2. apply Z.ltb_ge in E1.
  assert (Hsize : exists n, py_int (dget "tree_size" (PInt (-1)) cp) = Ok n).
  { destruct (py_int _); [by eexists|]. cbn in E1. lia. }
  destruct Hsize as (n & Hn). rewrite Hn in *. cbn [ok_or] in *.
  assert (Hf : exists v, dlookup "tree_size" cp = Some v /\ py_int v = Ok n).
  { unfold dget in Hn. destruct (dlookup "tree_size" cp) as [v|] eqn:Ev; [by exists v|].
    cbn in Hn. injection Hn as <-. lia. }
  destruct Hf as (v & Hv & Hvn). split; [by intros ->|]. split.
  - unfold get_int0, dget. rewrite Hv. by apply py_int_or0.
  - split; [done|]. destruct (get_str0 "root_hash" cp); [done|reflexivity].
Qed.

Lemma check_pin_fits old cur p : match cur with None => old = [] | Some q => pin_of old = Ok q end ->
  (fits cur p = true /\ check_pin old (fst p) (snd p) = Ok tt) \/
  (fits cur p = false /\ exists e, check_pin old (fst p) (snd p) = Err e).
Proof using.
  destruct cur as [q|]; [|intros ->; by left]. intros Hq.
  destruct (pin_of_size old q Hq) as (Hne & Hs & Hr & Hn). unfold check_pin, fits.
  destruct old as [|kv old]; [done|]. rewrite Hs. cbn [res_bind]. rewrite Hr, Hn, andb_true_r.
  destruct (fst p <? fst q); [right; split; [done|by eexists]|].
  destruct ((fst p =? fst q) && negb (String.eqb (snd p) (snd q)));
    [right; split; [done|by eexists]|by left].
Qed.

Lemma setdefault_keeps k v k' w st : dlookup k st = Some v -> dlookup k (setdefault k' w st) = Some v.
Proof using.
  intros H. unfold setdefault. destruct (dlookup k' st) eqn:E; [done|].
  rewrite dlookup_dset_ne; [done|]. intros ->. congruence.
Qed.

Lemma auditor_defaults_field k v st : dlookup k st = Some v -> dlookup k (auditor_defaults st) = Some v.
Proof using. intros H. unfold auditor_defaults. by do 4 apply setdefault_keeps. Qed.

Lemma load_auditor_memory s k v :
  dlookup k (auditor_state s) = Some v -> load_auditor_state s = (s, Ok (auditor_state s)).
Proof using. intros H. unfold load_auditor_state, st_bind, st_get. by destruct (auditor_state s). Qed.

(** A checkpoint is accepted exactly when it is well formed and fits the pin. *)
Lemma record_checkpoint_runs s cur cp source uid version :
  pinned s cur ->
  match pin_of cp with
  | Ok p =>
      if fits cur p then
        exists s' st, record_auditor_checkpoint cp source uid version s = (s', Ok st) /\ pinned s' (Some p)
      else exists e, record_auditor_checkpoint cp source uid version s = (s, Err e)
  | Err e => record_auditor_checkpoint cp source uid version s = (s, Err e)
  end.
Proof using.
  intros (st & old & obs & Hload & Hcp & Hobs & Hcur). unfold record_auditor_checkpoint, st_bind, st_lift.
  destruct (pin_of cp) as [[n r]|e] eqn:Ep; [|done].
  rewrite Hload. unfold dget. rewrite Hcp, Hobs. cbn [default].
  assert (Hd : py_dict (py_or (PDict old) (PDict [])) = Ok old) by (by destruct old).
  assert (Ho : py_iter (py_or (PList obs) (PList [])) = Ok obs) by (by destruct obs).
  rewrite Hd, Ho. destruct (check_pin_fits old cur (n, r) Hcur) as [[-> Hc]|[-> [e Hc]]];
    cbn [fst snd] in Hc; rewrite Hc; [|by exists e].
  destruct (now_s_run s) as (s1 & t1 & -> & Hs1). destruct (now_s_run s1) as (s2 & t2 & -> & Hs2).
  lazymatch goal with |- context [save_auditor_state ?st s2] =>
    set (st' := st); destruct (save_auditor_state_total st' s2) as (s3 & -> & Hs3) end.
  exists s3, st'. split; [reflexivity|].
  assert (Hs : auditor_state s3 = auditor_defaults st') by (by same_fields Hs3).
  assert (Hc' : dlookup "checkpoint" (auditor_state s3) = Some (PDict cp)).
  { rewrite Hs. apply auditor_defaults_field. unfold st'. by rewrite dlookup_dupdate. }
  eexists _, cp, _. split; [by apply (load_auditor_memory _ "checkpoint" (PDict cp))|]. split; [done|].
  split; [|done]. rewrite Hs. apply auditor_defaults_field. unfold st'. by rewrite dlookup_dupdate.
Qed.

Lemma observe_runs s cur o :
  pinned s cur ->
  exists s' acc, observe o s = (s', Ok acc) /\
    ((acc = [] /\ pinned s' cur /\ forall p, pin_of (fst (fst (fst o))) = Ok p -> fits cur p = false) \/
     (exists p, acc = [fst (fst (fst o))] /\ pin_of (fst (fst (fst o))) = Ok p /\ fits cur p = true /\
                pinned s' (Some p))).
Proof using.
  intros Hp. destruct o as [[[cp source] uid] version]. cbn [fst]. unfold observe, st_catch, st_bind.
  pose proof (record_checkpoint_runs s cur cp source uid version Hp) as H.
  destruct (pin_of cp) as [p|e] eqn:Ep; [|rewrite H; eexists _, []; split; [done|left; done]].
  destruct (fits cur p) eqn:Ef.
  - destruct H as (s' & st & -> & H'). eexists _, [cp]. split; [done|]. right. by exists p.
  - destruct H as (e & ->). eexists _, []. split; [done|]. left. split; [done|]. split; [done|].
    by intros p' [= <-].
Qed.

Definition above (cur : option (Z * string)) (cp : dict) : Prop :=
  exists p, pin_of cp = Ok p /\ fits cur p = true.

Lemma fits_spec q p : fits (Some q) p = true <-> fst q <= fst p /\ (fst q = fst p -> snd q = snd p).
Proof using.
  unfold fits. destruct (Z.ltb_spec (fst p) (fst q)); cbn [negb andb]; [split; [done|lia]|].
  destruct (Z.eqb_spec (fst p) (fst q)); cbn [andb]; [|by split; [lia|]].
  destruct (String.eqb_spec (snd p) (snd q)); cbn [negb]; [split; [by rewrite e|done]|].
  split; [done|]. intros [_ H']. by rewrite H' in n.
Qed.

Lemma fits_trans cur p r : fits cur p = true -> fits (Some p) r = true -> fits cur r = true.
Proof using.
  destruct cur as [q|]; [|done]. rewrite !fits_spec. intros [H1 H2] [H3 H4]. split; [lia|].
  intros E. rewrite H2, H4 by lia. done.
Qed.

Lemma above_pins a p cps : pin_of a = Ok p -> Forall (above (Some p)) cps -> Forall (pins_consistent a) cps.
Proof using.
  intros Ha H. apply (Forall_impl _ _ _ H). intros b (q & Hb & Hf%fits_spec). exists p, q. split; [done|]. done.
Qed.

(** C29: the auditor's log heads pinned for the account. Whatever checkpoints are
    checked one after the other from a fresh state (rejected ones raise and change
    nothing), those accepted are so that, in order, the size never decreases and the
    same size has the same root; and if every checkpoint of the series is well formed
    and the series is so consistent, all are accepted. Nothing relates the roots of
    different sizes: a log that forks to a larger one is not noticed here. *)
Theorem pinned_checkpoints_consistent s obs :
  load_auditor_state s = (s, Ok unknown_auditor) ->
  exists s' acc, observe_all obs s = (s', Ok acc) /\ ForallOrdPairs pins_consistent acc /\
    (ForallOrdPairs pins_consistent (map (fun o => fst (fst (fst o))) obs) ->
     Forall (above None) (map (fun o => fst (fst (fst o))) obs) ->
     acc = map (fun o => fst (fst (fst o))) obs).
Proof using.
  intros Hfresh.
  assert (Hp : pinned s None) by (exists unknown_auditor, [], []; by split).
  clear Hfresh. revert Hp. 
  cut (forall cur, pinned s cur -> exists s' acc, observe_all obs s = (s', Ok acc) /\
    ForallOrdPairs pins_consistent acc /\ Forall (above cur) acc /\
    (ForallOrdPairs pins_consistent (map (fun o => fst (fst (fst o))) obs) ->
     Forall (above cur) (map (fun o => fst (fst (fst o))) obs) ->
     acc = map (fun o => fst (fst (fst o))) obs)).
  { intros H Hp. destruct (H None Hp) as (s' & acc & ? & ? & _ & ?). by exists s', acc. }
  revert s. induction obs as [|o obs IH]; intros s cur Hp; cbn [observe_all map].
  { exists s, []. split; [done|]. split; [constructor|]. by split; [constructor|]. }
  unfold st_bind. destruct (observe_runs s cur o Hp) as (s1 & a & -> & [(-> & Hp1 & Hbad)|(p & -> & Ep & Ef & Hp1)]).
  - destruct (IH s1 cur Hp1) as (s2 & acc & -> & H1 & H2 & _). exists s2, acc. split; [done|].
    split; [done|]. split; [done|]. intros _ [(p & Hp' & Hf) _]%Forall_cons_1. by rewrite Hbad in Hf.
  - destruct (IH s1 (Some p) Hp1) as (s2 & acc & -> & H1 & H2 & H3). eexists s2, _. split; [done|].
    cbn [app]. split; [constructor; [by apply (above_pins _ p)|done]|]. split.
    + constructor; [by exists p|]. apply (Forall_impl _ _ _ H2). intros b (q & Hb & Hq).
      exists q. split; [done|]. by apply (fits_trans cur p).
    + intros Hc Hall. inversion Hc as [|x l Hx Hl E]; subst. f_equal. apply H3; [done|].
      apply (Forall_impl _ _ _ Hx). intros b (pa & pb & Ha & Hb & Hle).
      exists pb. split; [done|]. apply fits_spec. congruence.
Qed.
End audit_facts.

(** ** Witnesses *)

(** The account of [demo_session] knows user 9 by a key; the auditor pinned nothing. *)
Definition known_key : dict :=
  [("user_id", PInt 9); ("status", PStr "verified"); ("identity_pk", PStr "AAAA");
   ("identity_version", PInt 1); ("reviewed_at", PInt 1700000000);
   ("history", PList [PDict [("event_type", PStr "initial"); ("identity_version", PInt 1);
                             ("identity_pk", PStr "AAAA")]])].

Definition knows_nine : session :=
  demo_session <| identity_audit_states := {[ 9 := known_key ]} |>.

Lemma knows_nine_state : identity_audit_states knows_nine !! 9 = Some known_key.
Proof. apply lookup_insert_eq. Qed.

Lemma key_change_stays_flagged_witness :
  exists s1 st1,
    record_sightings (O := demo_os 0) 9
      [SeenInMessage "BBBB" None "12345" "message"; Audited "BBBB" 2 "12345" [] []; SeenInMessage "AAAA" (Some 0) "1" ""]
      knows_nine = (s1, Ok tt) /\
    identity_audit_states s1 !! 9 = Some st1 /\ dlookup "status" st1 = Some (PStr "key_changed").
Proof.
  destruct (key_change_stays_flagged (O := demo_os 0) knows_nine 9 known_key
    (SeenInMessage "BBBB" None "12345" "message")
    [Audited "BBBB" 2 "12345" [] []; SeenInMessage "AAAA" (Some 0) "1" ""] true
    knows_nine_state) as (s1 & st1 & E & Hst & Hs & _).
  - split; [reflexivity|split; reflexivity].
  - reflexivity.
  - exists s1, st1. split; [exact E|]. split; [exact Hst|exact Hs].
Defined.

Lemma outage_hides_key_change_witness :
  key_changed known_key "BBBB" = true /\
  exists s1 st1 s2 st2,
    record_identity_audit_problem (O := demo_os 0) 9 "BBBB" 2 "12345" "audit_unavailable"
      "Auditor is unavailable" "auditor_unavailable" knows_nine = (s1, Ok st1) /\
    record_identity_audit_ok (O := demo_os 0) 9 "BBBB" 2 "12345" [] [] s1 = (s2, Ok st2) /\
    dlookup "status" st2 = Some (PStr "unverified").
Proof.
  destruct (outage_hides_key_change (O := demo_os 0) knows_nine 9 known_key
    [PDict [("event_type", PStr "initial"); ("identity_version", PInt 1); ("identity_pk", PStr "AAAA")]]
    "BBBB" 2 "12345" "Auditor is unavailable" "auditor_unavailable" [] [] knows_nine_state)
    as (_ & s1 & st1 & s2 & st2 & E1 & E2 & Hs).
  - reflexivity.
  - lia.
  - reflexivity.
  - intros e [= <-]. reflexivity.
  - split; [reflexivity|]. exists s1, st1, s2, st2. split; [exact E1|]. split; [exact E2|exact Hs].
Defined.

(** A head of the given size whose root repeats one digit. *)
Definition demo_head (size : Z) (digit : string) : dict :=
  [("tree_size", PInt size); ("root_hash", PStr (String.concat "" (repeat digit 64)))].

Definition demo_checks (heads : list dict) : list (dict * string * Z * Z) :=
  map (fun cp => (cp, "bundle", 9, 1)) heads.

Lemma pinned_checkpoints_consistent_witness :
  exists s' acc,
    observe_all (O := demo_os 0)
      (demo_checks [demo_head 3 "a"; demo_head 2 "a"; demo_head 3 "b"; demo_head 4 "c"]) demo_session = (s', Ok acc) /\
    ForallOrdPairs pins_consistent acc.
Proof.
  destruct (pinned_checkpoints_consistent (O := demo_os 0) demo_session
    (demo_checks [demo_head 3 "a"; demo_head 2 "a"; demo_head 3 "b"; demo_head 4 "c"]))
    as (s' & acc & E & H & _).
  - reflexivity.
  - exists s', acc. split; [exact E|exact H].
Defined.
