(* ===== verification/MlsBridge.v ===== *)
(** * The OpenMLS bridge (client/crypto_engine/openmls_bridge.py)

    The group protocol runs in a separate process: a command is one JSON line on
    its input, the reply one JSON line on its output. [MlsBridge] of the source is
    the field [mls_bridge] of the session: the lines its running process was sent,
    or no process. What the process answers is the parameter [bridge_reply]; a
    process that stops answers nothing, and the next command starts another one. *)

From S2P Require Import Prelude Hashing Base64 PyVal Sorting Json Crypto Wire Ratchet AuditClient Utils.
From S2P Require Import Session.

Definition PQ_HYBRID_CIPHERSUITE : string := "MLS_256_XWING_CHACHA20POLY1305_SHA256_Ed25519".

(** The errors [command] raises: their texts quote the reply. *)
Definition bridge_missing : exc := RuntimeError "OpenMLS bridge binary is not available".
Definition bridge_stopped : exc := RuntimeError "OpenMLS bridge stopped unexpectedly: ".
Definition bridge_invalid (raw : string) : exc :=
  RuntimeError ("OpenMLS bridge returned invalid JSON: " +:+ repr_str raw).

Section bridge.
Context `{O : Os}.

(** The lines the running process was sent. *)
Definition bridge_lines (s : session) : option (list string) := default None (mls_bridge s).

Definition set_lines (lines : option (list string)) : sm unit :=
  st_modify (fun s => s <| mls_bridge := Some lines |>).

(** [MlsBridge()]. *)
Definition new_bridge : sm unit := set_lines None.

(** [available()]. *)
Definition bridge_available : bool := bridge_installed.

Definition bridge_start : sm unit :=
  do! s := st_get in
  match bridge_lines s with
  | Some _ => st_ret tt
  | None => if bridge_available then set_lines (Some []) else st_fail bridge_missing
  end.

Definition bridge_close : sm unit := set_lines None.

(** The reply to a command, as the rest of the code sees it. *)
Definition read_reply (raw : string) : res dict :=
  let! v := match json_loads raw with Ok v => Ok v | Err _ => Err (bridge_invalid raw) end in
  let! result := as_dict v in
  if truthy (dget "ok" PNone result) then Ok result
  else Err (RuntimeError (py_str (py_or (dget "error" PNone result) (PStr raw)))).

(** [command(cmd, **kwargs)]. *)
Definition command (cmd : string) (kwargs : dict) : sm dict :=
  do! _ := bridge_start in
  let line := json_dumps false false (PDict (("cmd", PStr cmd) :: kwargs)) in
  do! raw := st_lift (utf8_encode (line +:+ String (chr8 10) "")) in
  do! s := st_get in
  let lines := default [] (bridge_lines s) ++ [raw] in
  do! _ := set_lines (Some lines) in
  match bridge_reply lines with
  | Some raw => if nonempty raw then st_lift (read_reply raw)
                else do! _ := set_lines None in st_fail bridge_stopped
  | None => do! _ := set_lines None in st_fail bridge_stopped
  end.

(** ** Commands *)

Definition init_identity (user_id : Z) (email secchat_identity_pk : string)
    (secchat_identity_version : Z) : sm dict :=
  command "init_identity"
    [("user_id", PInt user_id); ("email", PStr email); ("secchat_identity_pk", PStr secchat_identity_pk);
     ("secchat_identity_version", PInt secchat_identity_version)].

Definition top_up_key_packages (count : Z) : sm (list pyval) :=
  do! result := command "top_up_key_packages" [("count", PInt count)] in
  st_lift (py_iter (py_or (dget "key_packages" PNone result) (PList []))).

Definition export_state : sm dict := command "export_state" [].

Definition import_state (state_b64 : string) : sm dict :=
  command "import_state" [("state_b64", PStr state_b64)].

Definition create_group (conversation_id : Z) : sm dict :=
  command "create_group" [("conversation_id", PInt conversation_id)].

Definition add_members (conversation_id : Z) (key_packages : list string) : sm dict :=
  command "add_members"
    [("conversation_id", PInt conversation_id); ("key_packages", PList (map PStr key_packages))].

Definition remove_members (conversation_id : Z) (user_ids : list Z) : sm dict :=
  command "remove_members"
    [("conversation_id", PInt conversation_id); ("user_ids", PList (map PInt user_ids))].

Definition join_from_welcome (conversation_id : Z) (welcome_b64 : string) : sm dict :=
  command "join_from_welcome"
    [("conversation_id", PInt conversation_id); ("welcome_b64", PStr welcome_b64)].

Definition process_commit (conversation_id : Z) (commit_b64 : string) : sm dict :=
  command "process_commit"
    [("conversation_id", PInt conversation_id); ("commit_b64", PStr commit_b64)].

Definition encrypt_application (conversation_id : Z) (plaintext : string) : sm string :=
  do! raw := st_lift (utf8_encode plaintext) in
  do! result := command "encrypt_application"
    [("conversation_id", PInt conversation_id); ("plaintext_b64", PStr (b64e raw))] in
  do! v := st_lift (ditem "message_b64" result) in
  st_ret (py_str v).

Definition decrypt_application (conversation_id : Z) (message_b64 : string) : sm string :=
  do! result := command "decrypt_application"
    [("conversation_id", PInt conversation_id); ("message_b64", PStr message_b64)] in
  do! v := st_lift (ditem "plaintext_b64" result) in
  st_lift (let! raw := b64d (py_str v) in utf8_decode raw).
End bridge.
