(* ===== verification/Mls.v ===== *)
(** * Groups (client/crypto_engine/session.py)

    The state a client keeps of its MLS groups: which groups are ready, their
    epochs, which handshake rows were applied, and the sealed snapshot of the
    bridge. The group keys themselves are inside the bridge. *)

From S2P Require Import Prelude Hashing Base64 PyVal Sorting Json Crypto Wire Ratchet AuditClient Utils.
From S2P Require Import Session MlsBridge.

Section mls.
Context `{P : Prims, O : Os}.

(** [if not self.mls_bridge: self.mls_bridge = MlsBridge()]. *)
Definition ensure_bridge : sm unit :=
  do! s := st_get in
  match mls_bridge s with Some _ => st_ret tt | None => new_bridge end.

Definition no_mls_identity : exc := CryptoStateError "MLS identity is not initialized yet.".
Definition group_not_ready : exc := CryptoStateError "MLS group state is not initialized yet.".

Definition _require_mls_bridge : sm unit :=
  do! _ := ensure_bridge in
  do! s := st_get in
  if mls_identity_ready s then st_ret tt else st_fail no_mls_identity.

(** ** The snapshot on disk *)

(** [[int(x) for x in l]]. *)
Definition int_list (v : pyval) : res (list Z) := let! l := py_iter v in res_map py_int l.

Definition snapshot_payload (credential : string) (snapshot : dict) : res dict :=
  let! groups := int_list (py_or (dget "groups" (PList []) snapshot) (PList [])) in
  Ok [("schema_version", PInt 1); ("state_b64", PStr (get_str0 "state_b64" snapshot));
      ("ciphersuite", PStr (get_str0 "ciphersuite" snapshot));
      ("pq_hybrid", PBool (truthy (dget "pq_hybrid" (PBool false) snapshot)));
      ("pq_authentication", PBool (truthy (dget "pq_authentication" (PBool false) snapshot)));
      ("credential_identity_b64",
        PStr (py_str (py_or (dget "credential_identity_b64" (PStr "") snapshot) (PStr credential))));
      ("groups", PList (map PInt (sort_ints groups)))].

Definition _save_mls_state : sm unit :=
  do! s := st_get in
  if negb (has_store s) || negb (bool_decide (is_Some (mls_bridge s))) then st_ret tt
  else if negb (mls_identity_ready s) then st_ret tt
  else
    logged (
      do! snapshot := export_state in
      do! s := st_get in
      do! payload := st_lift (snapshot_payload (mls_credential_identity_b64 s) snapshot) in
      if negb (truthy (dget "state_b64" PNone payload)) then st_ret tt
      else
        do! token := seal (master_key s) (json_dumps false false (PDict payload)) in
        do! _ := makedirs (secchat_dir s) in
        write_text (mls_state_path s) token).

(** [{int(x) for x in groups if int(x or 0) > 0}]. *)
Definition positive_groups (v : pyval) : res (gset Z) :=
  let! l := py_iter v in
  let! ids := res_map (fun x =>
    let! n := py_int (py_or x (PInt 0)) in
    if 0 <? n then let! z := py_int x in Ok (Some z) else Ok None) l in
  Ok (list_to_set (omap id ids)).

(** The body of the [try]: a token that is there and holds a state is imported. *)
Definition restore_mls (path : string) : sm bool :=
  do! text := read_text path in
  let token := strip text in
  if negb (nonempty token) then st_ret false
  else
    do! s := st_get in
    do! v := st_lift (let! raw := decrypt_with_key None (master_key s) token in py_loads raw) in
    do! payload := st_lift (as_dict v) in
    let state_b64 := get_str0 "state_b64" payload in
    if negb (nonempty state_b64) then st_ret false
    else
      do! _ := ensure_bridge in
      do! result := import_state state_b64 in
      let credential := py_str (py_or (dget "credential_identity_b64" (PStr "") result)
        (py_or (dget "credential_identity_b64" (PStr "") payload) (PStr ""))) in
      do! _ := st_modify (fun s =>
        s <| mls_identity_ready := true |> <| mls_credential_identity_b64 := credential |>) in
      do! groups := st_lift (positive_groups (py_or (dget "groups" (PList []) result)
        (py_or (dget "groups" (PList []) payload) (PList [])))) in
      do! _ := st_modify (fun s => s <| mls_group_ready ::= fun g => g ∪ groups |>
                                     <| group_conv_ids ::= fun g => g ∪ groups |>) in
      st_ret true.

(** The handler: with the bridge at hand, the file and the state are dropped; an
    error of the removal is swallowed. *)
Definition discard_mls (path : string) : sm unit :=
  do! s := st_get in
  if bool_decide (is_Some (mls_bridge s)) && bridge_available then
    logged (
      do! _ := remove_file path in
      st_modify (fun s => s <| mls_identity_ready := false |>
        <| mls_credential_identity_b64 := "" |> <| mls_group_ready := ∅ |>))
  else st_ret tt.

Definition _load_mls_state_into_bridge : sm bool :=
  do! s := st_get in
  if negb (has_store s) then st_ret false
  else
    let path := mls_state_path s in
    if negb (path_exists s path) then st_ret false
    else st_catch (restore_mls path) (fun _ => do! _ := discard_mls path in st_ret false).

(** ** Identity and key packages *)

Definition initialize_mls_identity (email : string) (identity_version : Z) : sm dict :=
  do! s := st_get in
  if negb (nonempty (identity_pk s)) then st_fail (CryptoStateError "SecChat identity key is not loaded.")
  else
    do! _ := ensure_bridge in
    do! restored := _load_mls_state_into_bridge in
    do! s := st_get in
    if restored then
      st_ret [("ok", PBool true); ("restored", PBool true); ("ciphersuite", PStr PQ_HYBRID_CIPHERSUITE);
              ("pq_hybrid", PBool true); ("pq_authentication", PBool false);
              ("credential_identity_b64", PStr (mls_credential_identity_b64 s))]
    else
      do! result := init_identity (my_uid s) email (b64e (identity_pk s)) identity_version in
      do! _ := st_modify (fun s => s <| mls_identity_ready := true |>
        <| mls_credential_identity_b64 := get_str0 "credential_identity_b64" result |>) in
      do! _ := _save_mls_state in
      st_ret result.

Definition _mls_key_package_sig_msg (pkg : dict) : res bytes :=
  let! ref := utf8_encode (get_str0 "key_package_ref" pkg) in
  let! kp := utf8_encode (get_str0 "key_package_b64" pkg) in
  let! cs := utf8_encode (get_str0 "ciphersuite" pkg) in
  Ok ("SecChatMLSKeyPackage" +:+ NUL +:+ ref +:+ NUL +:+ kp +:+ NUL +:+ cs).

(** A package with its credential and signature: the signature does not cover the
    credential. *)
Definition sign_package (credential : string) (sk : bytes) (v : pyval) : res pyval :=
  let! pkg := match v with PDict pkg => Ok pkg | _ => Err TypeError end in
  let pkg := dset "credential_identity_b64" (PStr credential) pkg in
  let! msg := _mls_key_package_sig_msg pkg in
  let! sig := identity_sign sk msg in
  Ok (PDict (dset "secchat_signature" (PStr (b64e sig)) pkg)).

Definition mls_key_package_upload_command (count : Z) : sm dict :=
  do! s := st_get in
  if negb (nonempty (identity_sk s)) then
    st_fail (CryptoStateError "SecChat identity secret is not loaded.")
  else
    do! _ := _require_mls_bridge in
    do! packages := top_up_key_packages count in
    do! s := st_get in
    do! packages := st_lift (res_map (sign_package (mls_credential_identity_b64 s) (identity_sk s)) packages) in
    do! _ := _save_mls_state in
    st_ret [("type", PStr "upload_mls_key_packages"); ("key_packages", PList packages)].

(** ** Group operations *)

Definition set_ready (conv_id : Z) : sm unit :=
  st_modify (fun s => s <| mls_group_ready ::= fun g => {[conv_id]} ∪ g |>).
Definition set_not_ready (conv_id : Z) : sm unit :=
  st_modify (fun s => s <| mls_group_ready ::= fun g => g ∖ {[conv_id]} |>).
Definition set_group (conv_id : Z) : sm unit :=
  st_modify (fun s => s <| group_conv_ids ::= fun g => {[conv_id]} ∪ g |>).

(** [self.group_epochs[conv_id] = int(result.get("epoch", 0) or 0)]. *)
Definition set_epoch (conv_id : Z) (result : dict) : sm unit :=
  do! epoch := st_lift (get_int0 "epoch" result) in
  st_modify (fun s => s <| group_epochs ::= <[conv_id := epoch]> |>).

Definition create_mls_group (conv_id : Z) : sm dict :=
  do! _ := _require_mls_bridge in
  do! result := create_group conv_id in
  do! _ := set_group conv_id in
  do! _ := set_ready conv_id in
  do! _ := set_epoch conv_id result in
  do! _ := _save_mls_state in
  st_ret result.

Definition add_mls_members (conv_id : Z) (key_packages : list string) : sm dict :=
  do! _ := _require_mls_bridge in
  do! result := add_members conv_id (List.filter nonempty key_packages) in
  do! _ := set_ready conv_id in
  do! _ := set_epoch conv_id result in
  do! _ := _save_mls_state in
  st_ret result.

Definition remove_mls_members (conv_id : Z) (user_ids : list Z) : sm dict :=
  do! _ := _require_mls_bridge in
  do! result := remove_members conv_id (List.filter (fun uid => 0 <? uid) user_ids) in
  do! _ := set_epoch conv_id result in
  do! _ := st_when (negb (truthy (dget "active" (PBool true) result))) (set_not_ready conv_id) in
  do! _ := _save_mls_state in
  st_ret result.

Definition join_mls_group_from_welcome (conv_id : Z) (welcome_b64 : string) : sm dict :=
  do! _ := _require_mls_bridge in
  do! result := join_from_welcome conv_id welcome_b64 in
  do! _ := set_group conv_id in
  do! _ := set_ready conv_id in
  do! _ := set_epoch conv_id result in
  do! _ := _save_mls_state in
  st_ret result.

(** [result.get("active") is False]. *)
Definition is_false (v : pyval) : bool := match v with PBool false => true | _ => false end.

Definition process_mls_commit (conv_id : Z) (commit_b64 : string) : sm (option dict) :=
  do! s := st_get in
  if negb (bool_decide (conv_id ∈ mls_group_ready s)) then st_ret None
  else
    do! _ := _require_mls_bridge in
    do! result := process_commit conv_id commit_b64 in
    do! _ := set_epoch conv_id result in
    do! _ := st_when (is_false (dget "active" PNone result)) (set_not_ready conv_id) in
    do! _ := _save_mls_state in
    st_ret (Some result).

(** ** Replaying handshake rows *)

Definition mark_seen (key : string) : sm unit :=
  st_modify (fun s => s <| mls_handshake_seen ::= fun x => {[key]} ∪ x |>).

Definition seen_key (row_id : Z) (kind : string) (item : dict) : string :=
  dec row_id +:+ ":" +:+ kind +:+ ":" +:+ py_str (dget "epoch" (PStr "") item).

(** The body of the [try] for one row. *)
Definition apply_handshake (conv_id : Z) (key kind message_b64 : string) (item : dict) : sm unit :=
  if String.eqb kind "welcome" then
    do! target := st_lift (get_int0 "target_user_id" item) in
    do! s := st_get in
    if negb (target =? 0) && negb (target =? my_uid s) then mark_seen key
    else
      do! _ := (if bool_decide (conv_id ∈ mls_group_ready s) then st_ret tt
                else do! _ := join_mls_group_from_welcome conv_id message_b64 in st_ret tt) in
      mark_seen key
  else if String.eqb kind "commit" then
    do! _ := process_mls_commit conv_id message_b64 in
    mark_seen key
  else mark_seen key.

(** One row of the loop. *)
Definition handshake_item (conv_id : Z) (item : dict) : sm unit :=
  let kind := get_str0 "kind" item in
  do! row_id := st_lift (get_int0 "id" item) in
  let key := seen_key row_id kind item in
  do! s := st_get in
  if bool_decide (key ∈ mls_handshake_seen s) then st_ret tt
  else
    let message_b64 := get_str0 "mls_message_b64" item in
    if negb (nonempty message_b64) then st_ret tt
    else logged (apply_handshake conv_id key kind message_b64 item).

(** The rows with their ids, in the order of the ids. *)
Definition sorted_rows (items : list pyval) : res (list dict) :=
  let! keyed := res_map (fun v =>
    let! d := as_dict v in let! id := get_int0 "id" d in Ok (id, d)) items in
  Ok (map snd (isort (by_key Z.ltb fst) keyed)).

Definition process_mls_handshake_items (conv_id : Z) (items : list pyval) : sm unit :=
  do! rows := st_lift (sorted_rows items) in
  st_for rows (handshake_item conv_id).

(** ** Application messages *)

Definition mls_payload (conv_id sender epoch : Z) (message_b64 : string) : pyval :=
  PDict [("schema_version", PInt 1); ("kind", PStr "application"); ("conversation_id", PInt conv_id);
         ("sender_uid", PInt sender); ("epoch_hint", PInt epoch); ("message_b64", PStr message_b64)].

Definition mls_application_wire (conv_id : Z) (plaintext : string) : sm string :=
  do! s := st_get in
  if negb (bool_decide (conv_id ∈ mls_group_ready s)) then st_fail group_not_ready
  else
    do! _ := _require_mls_bridge in
    do! message_b64 := encrypt_application conv_id plaintext in
    do! _ := _save_mls_state in
    do! s := st_get in
    do! token := st_lift (json_b64 (mls_payload conv_id (my_uid s)
                            (default 0 (group_epochs s !! conv_id)) message_b64)) in
    st_ret (PREFIX_MLS +:+ token).

Definition mls_control_message_b64 (conv_id : Z) (control : dict) : sm string :=
  do! s := st_get in
  if negb (bool_decide (conv_id ∈ mls_group_ready s)) then st_fail group_not_ready
  else
    let plain := json_dumps false false (PDict (dupdate [("type", PStr "group_control")] control)) in
    do! _ := _require_mls_bridge in
    do! message_b64 := encrypt_application conv_id plain in
    do! _ := _save_mls_state in
    st_ret message_b64.

(** [payload.get("kind") == "application"] of a wire with the prefix. *)
Definition mls_payload_of (wire : string) : res dict :=
  let! v := json_unb64 (sdrop (String.length PREFIX_MLS) wire) in as_dict v.

Definition open_mls_application_wire (conv_id : Z) (wire : string) : sm string :=
  do! payload := st_lift (mls_payload_of wire) in
  if negb (py_eqb (dget "kind" PNone payload) (PStr "application")) then
    st_fail (ValueError "Not an MLS application envelope")
  else
    do! msg_conv := st_lift (py_int (py_or (dget "conversation_id" (PInt conv_id) payload) (PInt 0))) in
    if negb (msg_conv =? 0) && negb (msg_conv =? conv_id) then st_fail (ValueError "MLS conversation mismatch")
    else
      do! s := st_get in
      if negb (bool_decide (conv_id ∈ mls_group_ready s)) then st_fail group_not_ready
      else
        do! _ := _require_mls_bridge in
        do! plain := decrypt_application conv_id (get_str0 "message_b64" payload) in
        do! _ := _save_mls_state in
        st_ret plain.

Definition is_mls_application_wire (body : pyval) : bool :=
  match body with
  | PStr wire =>
      starts_with PREFIX_MLS wire &&
      ok_or false (let! payload := mls_payload_of wire in
                   Ok (py_eqb (dget "kind" PNone payload) (PStr "application")))
  | _ => false
  end.
End mls.
