(* ===== verification/Messages.v ===== *)
(** * Messages (client/crypto_engine/session.py)

    Padding of plaintexts, sending in a conversation, and what becomes of a message
    from the server: one delivered live, or the messages of a history. A body is
    recognised by its prefix: the first message of a direct conversation (S3PQI),
    a ratchet message (S3DR), a group message or control (S3MLS), or plain text.

    The key pair a ratchet step may need is drawn before [encrypt] and [decrypt]
    are entered, also when they need none. *)

From S2P Require Import Prelude Hashing Base64 PyVal Sorting Json Crypto Wire Ratchet Pqxdh AuditClient.
From S2P Require Import Utils Session CacheStore Transcript Identity DrStore IdentityAudit MlsBridge Mls.

(** ** Padding *)

Definition _PADDED_PLAINTEXT_MARKER : string := "__secchat_payload_v1__".
Definition _PAD_BUCKETS : list Z := [256; 512; 1024; 2048; 4096; 8192; 16384].

Fixpoint bucket_in (buckets : list Z) (n_bytes : Z) : Z :=
  match buckets with
  | [] => n_bytes
  | bucket :: rest => if n_bytes <=? bucket then bucket else bucket_in rest n_bytes
  end.
Definition _padding_bucket (n_bytes : Z) : Z := bucket_in _PAD_BUCKETS n_bytes.

(** [int(gap * 0.72)] in binary64: 0.72 is [m072 / 2^53], the exact product is
    rounded to 53 bits, ties to even. *)
Definition m072 : Z := 6485183463413514.
Definition round_half_even (n k : Z) : Z :=
  let q := Z.shiftr n k in
  let r := n - Z.shiftl q k in
  let half := Z.shiftl 1 (k - 1) in
  if k <=? 0 then n
  else if (half <? r) || ((half =? r) && Z.odd q) then q + 1 else q.
Definition int_times_072 (gap : Z) : Z :=
  let p := gap * m072 in
  let k := Z.log2 p + 1 - 53 in
  if k <=? 0 then Z.shiftr p 53
  else Z.shiftr (Z.shiftl (round_half_even p k) k) 53.

Definition pad_need (gap : Z) : Z := Z.max 1 (int_times_072 gap).

Definition padded (body pad : string) : pyval :=
  PDict [("_type", PStr _PADDED_PLAINTEXT_MARKER); ("body", PStr body); ("pad", PStr pad)].

Section pack.
Context `{O : Os}.

Definition pack_plaintext (v : pyval) : sm string :=
  let body := py_str v in
  do! raw := st_lift (utf8_encode (json_dumps false false (padded body ""))) in
  let target := _padding_bucket (blen raw) in
  if blen raw <? target then
    do! pad := urandom (Z.to_nat (pad_need (target - blen raw))) in
    st_ret (json_dumps false false (padded body (b64encode pad)))
  else st_ret (json_dumps false false (padded body "")).
End pack.

(** A text that is no padded payload is returned as it is. *)
Definition unpack_plaintext (body : pyval) : res pyval :=
  match body with
  | PStr text =>
      if starts_with "{" text then
        match json_loads text with
        | Ok v =>
            let! obj := as_dict v in
            if negb (py_eqb (dget "_type" PNone obj) (PStr _PADDED_PLAINTEXT_MARKER)) then Ok body
            else Ok (PStr (py_str (dget "body" (PStr "") obj)))
        | Err _ => Ok body
        end
      else Ok body
  | _ => Ok body
  end.

Section messages.
Context `{P : Prims, O : Os}.
Variable oqs : option (option (list string)).

(** ** Sending *)

Definition dm_already_started : exc := CryptoStateError "DM key exchange is already complete.".
Definition no_local_prekeys : exc := CryptoStateError "Local SecChat prekeys are not available yet.".
Definition dm_not_started : exc := CryptoStateError "DM key exchange is not complete yet.".

Definition init_draw : sm init_draws :=
  do! kem := urandom 32 in
  do! eph := urandom 32 in
  do! sid := urandom 16 in
  do! dr := urandom 32 in
  do! nonce := urandom 12 in
  do! now := now_ms in
  st_ret (InitDraws kem eph sid dr nonce now).

Definition initiate_pqxdh_dm (peer_bundle : dict) (conv_id peer_uid : Z)
    (sender_identity_version : option Z) : sm (string * string) :=
  do! current := load_double_ratchet conv_id in
  match current with
  | Some _ => st_fail dm_already_started
  | None =>
      do! store := load_pqxdh_prekeys in
      if negb (truthy store) then st_fail no_local_prekeys
      else
        do! r := init_draw in
        do! s := st_get in
        do! (token, state, fingerprint) := st_lift (
          let! store := match store with PDict d => Ok d | _ => Err TypeError end in
          pqxdh_initiate oqs r peer_bundle store (identity_pk s) (identity_sk s) (my_uid s) peer_uid
            "__S3_INIT__" sender_identity_version conv_id) in
        do! ref := alloc_ratchet state in
        do! _ := set_current conv_id ref in
        do! _ := _remember_double_ratchet_session conv_id ref in
        do! _ := st_modify (fun s => s <| conv_fingerprints ::= <[conv_id := fingerprint]> |>
                                       <| conv_peer_uids ::= <[conv_id := peer_uid]> |>) in
        do! _ := save_double_ratchet conv_id in
        st_ret (token, fingerprint)
  end.

Definition enc_draw : sm enc_draws :=
  do! seed := urandom 32 in
  do! nonce := urandom 12 in
  do! hnonce := urandom 12 in
  do! now := now_ms in
  st_ret (EncDraws seed nonce hnonce now).

Definition encrypt_for_conv (conv_id : Z) (body : pyval) : sm string :=
  do! payload_body := pack_plaintext body in
  do! s := st_get in
  if bool_decide (conv_id ∈ group_conv_ids s) then mls_application_wire conv_id payload_body
  else
    do! state := load_double_ratchet conv_id in
    match state with
    | None => st_fail dm_not_started
    | Some ref =>
        do! r := enc_draw in
        do! payload := on_ratchet ref (encrypt r payload_body) in
        do! _ := save_double_ratchet conv_id in
        st_ret payload
    end.

(** ** Controls in a group *)

Definition handle_group_integrity_control (conv_id : Z) (body : pyval) : sm bool :=
  match body with
  | PStr wire =>
      if negb (starts_with PREFIX_MLS wire) then st_ret false
      else
        match json_unb64 (sdrop (String.length PREFIX_MLS) wire) with
        | Err _ => st_ret false
        | Ok v =>
            do! payload := st_lift (as_dict v) in
            let kind := py_or (dget "event" PNone payload) (dget "kind" PNone payload) in
            if py_eqb kind (PStr "transcript_checkpoint") then
              do! _ := record_transcript_checkpoint conv_id payload true in
              st_ret true
            else st_ret false
        end
  | _ => st_ret false
  end.

(** ** The parts that live messages and histories share *)

(** [json_unb64(body[len(PREFIX_PQ_INIT):])], [{}] when it fails; then [meta.get]. *)
Definition init_meta (wire : string) : res dict :=
  match json_unb64 (sdrop (String.length PREFIX_PQ_INIT) wire) with
  | Ok v => as_dict v
  | Err _ => Ok []
  end.

(** Is a session of this id known? *)
Definition known_session (conv_id : Z) (sid : string) : sm bool :=
  if nonempty sid then
    do! sessions := load_double_ratchet_sessions conv_id in st_ret (dmem sid sessions)
  else st_ret false.

(** Answer a first message: plaintext, fingerprint and peer. *)
Definition install_session (conv_id : Z) (wire : string) : sm (string * string * Z) :=
  do! (plain, state, fp, peer) := _respond_pqxdh_with_current_prekey oqs wire in
  do! ref := alloc_ratchet state in
  do! _ := _remember_double_ratchet_session conv_id ref in
  do! _ := _select_canonical_double_ratchet_state conv_id (Some ref) in
  do! _ := st_modify (fun s => s <| conv_peer_uids ::= <[conv_id := peer]> |>
                                 <| conv_fingerprints ::= <[conv_id := fp]> |>) in
  st_ret (plain, fp, peer).

Definition meta_identity (meta : dict) : string := get_str0 "identity_pk" meta.
Definition meta_version (meta : dict) : pyval := dget "sender_identity_version" PNone meta.

(** The identity of a first message is recorded, if the wire has one. *)
Definition record_first_sighting (peer : Z) (meta : dict) (fp : string) : sm unit :=
  if nonempty (meta_identity meta) then
    do! version := st_lift (opt_version (meta_version meta)) in
    do! _ := record_identity_seen_unverified peer (meta_identity meta) version fp "pqxdh_initial" in
    st_ret tt
  else st_ret tt.

(** [self.double_ratchet_states.get(conv_id) is state]. *)
Definition is_current (s : session) (conv_id : Z) (ref : nat) : bool :=
  bool_decide (double_ratchet_states s !! conv_id = Some ref).

(** Save the files of an opened session. *)
Definition save_opened (conv_id : Z) (ref : nat) : sm unit :=
  do! s := st_get in
  if is_current s conv_id ref then save_double_ratchet conv_id
  else
    do! _ := _remember_double_ratchet_session conv_id ref in
    save_double_ratchet_sessions conv_id.

(** Put the snapshot in the place of a session that failed to decrypt. *)
Definition restore_snapshot (conv_id : Z) (ref snapshot : nat) (sid : string) : sm unit :=
  do! s := st_get in
  if is_current s conv_id ref then set_current conv_id snapshot
  else if nonempty sid then
    set_sessions conv_id (dset sid snapshot (default [] (double_ratchet_session_states s !! conv_id)))
  else st_ret tt.

(** [DoubleRatchet.from_dict(state.to_dict())]. *)
Definition take_snapshot (ref : nat) : sm nat :=
  do! s := st_get in
  do! copy := st_lift (from_dict (to_dict (ratchet_at s ref))) in
  alloc_ratchet copy.

Definition decrypt_with (ref : nat) (wire : string) : sm string :=
  do! seed := urandom 32 in on_ratchet ref (decrypt seed wire).

(** Open a ratchet message with a session: what [opened] makes of its plaintext,
    or [failed] after the session is put back. *)
Definition open_dr {A} (conv_id : Z) (ref : nat) (wire : string) (opened : string -> sm A) (failed : sm A) :
    sm A :=
  do! s := st_get in
  let sid := session_id (ratchet_at s ref) in
  do! snapshot := take_snapshot ref in
  st_catch (do! plain := decrypt_with ref wire in opened plain)
    (fun _ => do! _ := restore_snapshot conv_id ref snapshot sid in failed).

(** ** Live messages *)

Definition _hidden_result (body : string) : dict :=
  [("status", PStr "hidden"); ("body", PStr body); ("hidden", PBool true)].

Definition status_only (status : string) : dict := [("status", PStr status)].
Definition message_result (body : pyval) : dict := [("status", PStr "message"); ("body", body)].

Definition live_first_message (conv_id : Z) (wire : string) (meta : dict) : sm dict :=
  do! (plain, fp, peer) := install_session conv_id wire in
  do! _ := save_double_ratchet conv_id in
  do! _ := record_first_sighting peer meta fp in
  let base := [("peer_uid", PInt peer); ("peer_identity_pk", PStr (meta_identity meta));
               ("peer_identity_version", meta_version meta)] in
  if String.eqb plain "__S3_INIT__" then
    st_ret ([("status", PStr "control"); ("ready", PBool true); ("fingerprint", PStr fp)] ++ base)
  else
    do! body := st_lift (unpack_plaintext (PStr plain)) in
    st_ret ([("status", PStr "message"); ("body", body); ("ready", PBool true);
             ("fingerprint", PStr fp)] ++ base).

Definition live_init (conv_id sender_id : Z) (wire : string) : sm dict :=
  do! s := st_get in
  if sender_id =? my_uid s then st_ret (status_only "control")
  else
    do! existing := load_double_ratchet conv_id in
    do! meta := st_lift (init_meta wire) in
    do! known := known_session conv_id (get_str0 "sid" meta) in
    if known : bool then st_ret (status_only "control")
    else
      do! store := load_pqxdh_prekeys in
      if negb (truthy store) then
        st_ret (status_only (match existing with Some _ => "control" | None => "pending" end))
      else
        st_catch (live_first_message conv_id wire meta)
          (fun _ => st_ret (_hidden_result "[Cannot decrypt]")).

Definition live_dr (conv_id : Z) (wire : string) : sm dict :=
  do! state := _state_for_double_ratchet_wire conv_id wire in
  match state with
  | None => st_ret (status_only "pending")
  | Some ref =>
      open_dr conv_id ref wire
        (fun plain =>
           do! _ := save_opened conv_id ref in
           do! body := st_lift (unpack_plaintext (PStr plain)) in
           st_ret (message_result body))
        (st_ret (_hidden_result "[Cannot decrypt]"))
  end.

Definition mls_unavailable : string := "[Encrypted message - MLS state unavailable]".

Definition live_mls (conv_id : Z) (wire : string) : sm dict :=
  st_catch (
    do! plain := open_mls_application_wire conv_id wire in
    do! body := st_lift (unpack_plaintext (PStr plain)) in
    st_ret (message_result body)) (fun _ => st_ret (_hidden_result mls_unavailable)).

(** [isinstance(body, str) and body.startswith(prefix)]. *)
Definition has_prefix (prefix : string) (body : pyval) : bool :=
  match body with PStr wire => starts_with prefix wire | _ => false end.
Definition wire_of (body : pyval) : string := match body with PStr wire => wire | _ => "" end.

Definition decrypt_live_message (msg : dict) : sm dict :=
  do! conv_id := st_lift (get_int0 "conversation_id" msg) in
  do! sender_id := st_lift (py_int (py_or (dget "from_id" (PInt 0) msg)
                     (py_or (dget "sender_id" (PInt 0) msg) (PInt 0)))) in
  let body := py_or (dget "body" (PStr "") msg) (PStr "") in
  if has_prefix PREFIX_PQ_INIT body then live_init conv_id sender_id (wire_of body)
  else
    do! control := handle_group_integrity_control conv_id body in
    do! s := st_get in
    if control : bool then st_ret [("status", PStr "control"); ("ready", PBool true)]
    else if (0 <? sender_id) && (sender_id =? my_uid s) then st_ret (status_only "self_echo")
    else if has_prefix PREFIX_DR body then live_dr conv_id (wire_of body)
    else if has_prefix PREFIX_MLS body then live_mls conv_id (wire_of body)
    else st_ret (message_result body).

(** ** Histories *)

Definition fs_placeholder : string := "[Forward-secret]".
Definition control_body : string := "__S2_CONTROL__".

(** The message afterwards: [m["body"] = ...], and [_hide_history_message]. *)
Definition with_body (body : pyval) (m : dict) : dict := dset "body" body m.
Definition _hide_history_message (m : dict) (body : string) : dict :=
  dset "hidden" (PBool true) (with_body (PStr body) m).

(** The first loop: which messages are controls applied in advance. *)
Fixpoint prehandle (conv_id : Z) (messages : list dict) : sm (list bool) :=
  match messages with
  | [] => st_ret []
  | m :: rest =>
      let raw := py_or (dget "body" (PStr "") m) (PStr "") in
      do! b := (if has_prefix PREFIX_MLS raw then handle_group_integrity_control conv_id raw
                else st_ret false) in
      do! l := prehandle conv_id rest in
      st_ret (b :: l)
  end.

(** [ts_short(m.get("time", ""))]. *)
Definition ts_short_v (v : pyval) : res string :=
  if truthy v then match v with PStr t => Ok (ts_short t) | _ => Err AttributeError end else Ok "".

(** The cached plaintext of a wire: by message id, else by its hash. *)
Definition cached_hit (c : cached) (mid : Z) (wire : string) : res (option dict) :=
  match (if mid =? 0 then None else by_id c !! mid) with
  | Some (kv :: d) => Ok (Some (kv :: d))
  | _ =>
      let! key := wire_cache_key wire in
      Ok (match by_wire c !! key with Some (kv :: d) => Some (kv :: d) | _ => None end)
  end.

(** Cache a plaintext of a message that has an id. *)
Definition cache_plain (conv_id mid sender_id : Z) (plain : pyval) (when : string) : sm unit :=
  st_when (negb (mid =? 0)) (cache_message conv_id mid sender_id plain (PStr when)).

Definition history_first_message (conv_id : Z) (wire : string) (meta : dict) : sm pyval :=
  do! (plain, fp, peer) := install_session conv_id wire in
  do! _ := record_first_sighting peer meta fp in
  do! _ := save_double_ratchet conv_id in
  if String.eqb plain "__S3_INIT__" then st_ret (PStr control_body)
  else st_lift (unpack_plaintext (PStr plain)).

Definition history_init (conv_id sender_id : Z) (wire : string) (m : dict) : sm dict :=
  do! s := st_get in
  if sender_id =? my_uid s then st_ret (with_body (PStr control_body) m)
  else
    do! existing := load_double_ratchet conv_id in
    do! meta := st_lift (init_meta wire) in
    do! known := known_session conv_id (get_str0 "sid" meta) in
    if known : bool then st_ret (with_body (PStr control_body) m)
    else
      do! store := load_pqxdh_prekeys in
      if negb (truthy store) then
        st_ret (match existing with
                | Some _ => with_body (PStr control_body) m
                | None => _hide_history_message m fs_placeholder
                end)
      else
        st_catch (do! body := history_first_message conv_id wire meta in st_ret (with_body body m))
          (fun _ => st_ret (_hide_history_message m fs_placeholder)).

(** A message whose plaintext is cached. *)
Definition history_cached (conv_id mid sender_id : Z) (when : string) (hit m : dict) : sm dict :=
  do! plain := st_lift (unpack_plaintext (dget "body" (PStr fs_placeholder) hit)) in
  do! _ := cache_plain conv_id mid sender_id plain when in
  st_ret (with_body plain m).

Definition history_dr (conv_id mid sender_id : Z) (when wire : string) (m : dict) : sm dict :=
  do! state := _state_for_double_ratchet_wire conv_id wire in
  match state with
  | None => st_ret (_hide_history_message m fs_placeholder)
  | Some ref =>
      open_dr conv_id ref wire
        (fun text =>
           do! plain := st_lift (unpack_plaintext (PStr text)) in
           do! _ := save_opened conv_id ref in
           do! _ := cache_plain conv_id mid sender_id plain when in
           st_ret (with_body plain m))
        (st_ret (_hide_history_message m fs_placeholder))
  end.

Definition history_mls (conv_id mid sender_id : Z) (when wire : string) (m : dict) : sm dict :=
  do! s := st_get in
  if negb (bool_decide (conv_id ∈ mls_group_ready s)) then st_ret (_hide_history_message m mls_unavailable)
  else
    st_catch (
      do! text := open_mls_application_wire conv_id wire in
      do! plain := st_lift (unpack_plaintext (PStr text)) in
      do! _ := cache_plain conv_id mid sender_id plain when in
      st_ret (with_body plain m)) (fun _ => st_ret (_hide_history_message m mls_unavailable)).

(** An encrypted message: cached, sent by this account, or opened. *)
Definition history_encrypted (conv_id : Z) (c : cached) (mid sender_id : Z) (when wire : string) (m : dict)
    (opening : sm dict) : sm dict :=
  do! hit := st_lift (cached_hit c mid wire) in
  match hit with
  | Some hit => history_cached conv_id mid sender_id when hit m
  | None =>
      do! s := st_get in
      if sender_id =? my_uid s then st_ret (_hide_history_message m fs_placeholder) else opening
  end.

(** One round of the second loop. *)
Definition history_message (conv_id : Z) (c : cached) (prehandled : bool) (m : dict) : sm dict :=
  let body := py_or (dget "body" (PStr "") m) (PStr "") in
  do! mid := st_lift (get_int0 "id" m) in
  do! sender_id := st_lift (get_int0 "sender_id" m) in
  do! when := st_lift (ts_short_v (dget "time" (PStr "") m)) in
  if truthy (dget "deleted" (PBool false) m) then st_ret (with_body (PStr "") m)
  else if prehandled then st_ret (with_body (PStr control_body) m)
  else if has_prefix PREFIX_PQ_INIT body then history_init conv_id sender_id (wire_of body) m
  else
    do! control := handle_group_integrity_control conv_id body in
    if control : bool then st_ret (with_body (PStr control_body) m)
    else if has_prefix PREFIX_DR body then
      history_encrypted conv_id c mid sender_id when (wire_of body) m
        (history_dr conv_id mid sender_id when (wire_of body) m)
    else if has_prefix PREFIX_MLS body then
      history_encrypted conv_id c mid sender_id when (wire_of body) m
        (history_mls conv_id mid sender_id when (wire_of body) m)
    else
      do! body := st_lift (unpack_plaintext body) in
      st_ret (with_body body m).

Fixpoint history_loop (conv_id : Z) (c : cached) (l : list (bool * dict)) : sm (list dict) :=
  match l with
  | [] => st_ret []
  | (b, m) :: rest =>
      do! m := history_message conv_id c b m in
      do! out := history_loop conv_id c rest in
      st_ret (m :: out)
  end.

(** The messages are changed in place and returned. *)
Definition decrypt_history_messages (conv_id : Z) (messages : list dict) : sm (list dict) :=
  do! c := load_cached_messages conv_id in
  do! pre := prehandle conv_id messages in
  history_loop conv_id c (zip pre messages).
End messages.
