(* ===== verification/MessageFacts.v ===== *)
(** * Facts on messages

    Padding and its inverse, and the run of a direct message through a session
    whose ratchet is in memory, whatever the file system does. *)

From S2P Require Import Prelude Hashing Base64 PyVal Sorting Json JsonFacts Crypto Wire Ratchet.
From S2P Require Import RatchetFacts Pqxdh AuditClient Utils Session SessionFacts CacheStore Transcript.
From S2P Require Import Identity DrStore DrFacts IdentityAudit MlsBridge Mls Messages.

(** ** Padding *)

Lemma padded_ok body pad :
  utf8_valid body = true -> string_all is_ascii pad = true -> py_ok (padded body pad).
Proof. intros Hb Hp. unfold padded. py_ok_fields. by apply utf8_valid_ascii. Qed.

Lemma unpack_padded body pad :
  utf8_valid body = true -> string_all is_ascii pad = true ->
  unpack_plaintext (PStr (json_dumps false false (padded body pad))) = Ok (PStr body).
Proof.
  intros Hb Hp. unfold unpack_plaintext.
  assert (starts_with "{" (json_dumps false false (padded body pad)) = true) as -> by reflexivity.
  by rewrite json_loads_dumps by by apply padded_ok.
Qed.

(** [int(gap * 0.72)] is the whole part of 72 hundredths of every gap a bucket can
    leave, and the base64 text of that many bytes fills the gap up to a few
    characters. *)
Definition pad_length (gap : Z) : Z := 4 * ((pad_need gap + 2) / 3).

Definition pad_fits (gap : Z) : bool :=
  (int_times_072 gap =? gap * 72 / 100) && (gap - gap / 25 - 3 <=? pad_length gap) &&
  (pad_length gap <=? gap + 3).

Lemma pads_fit : forallb (fun n => pad_fits (Z.of_nat (S n))) (seq 0 (Z.to_nat 8192)) = true.
Proof. vm_compute. reflexivity. Qed.

Lemma pad_bounds gap : 0 < gap <= 8192 ->
  int_times_072 gap = gap * 72 / 100 /\ gap - gap / 25 - 3 <= pad_length gap <= gap + 3.
Proof.
  intros Hg. pose proof pads_fit as H. rewrite forallb_forall in H.
  specialize (H (Z.to_nat (gap - 1)) ltac:(apply in_seq; lia)).
  replace (Z.of_nat (S (Z.to_nat (gap - 1)))) with gap in H by lia.
  unfold pad_fits in H. bool_hyps. lia.
Qed.

Lemma bucket_bounds n : 0 < n <= 16384 -> n <= _padding_bucket n /\ _padding_bucket n - n <= 8192.
Proof.
  intros Hn. unfold _padding_bucket, _PAD_BUCKETS. cbn [bucket_in].
  repeat case Z.leb_spec; lia.
Qed.

Lemma b64encode_length s : blen (b64encode s) = 4 * ((blen s + 2) / 3).
Proof.
  unfold b64encode, blen. induction s as [|a|a b|a b c s IH] using string_ind3; [done..|].
  cbn [b64_body b64_padding String.append String.length] in *. rewrite !Nat2Z.inj_succ, IH.
  set (n := Z.of_nat (String.length s)).
  replace (Z.succ (Z.succ (Z.succ n)) + 2) with (n + 2 + 1 * 3) by lia. rewrite Z.div_add by lia. lia.
Qed.

(** A character JSON prints as it is. *)
Definition plain_char (c : ascii) : bool :=
  negb ((code c <? 32) || (code c =? 34) || (code c =? 92)).

Lemma escape_plain s : string_all plain_char s = true -> escape_body s = s.
Proof.
  induction s as [|c s IH]; [done|]. cbn [string_all escape_body]. intros H. apply andb_prop in H as [Hc H]. rewrite IH by done.
  unfold plain_char in Hc. apply negb_true_iff, orb_false_elim in Hc as [Hc H92].
  apply orb_false_elim in Hc as [H32 H34]. unfold escape_char. cbv zeta. rewrite H92, H34, H32.
  apply Z.ltb_ge in H32. repeat (case Z.eqb_spec; [lia|intros _]). done.
Qed.

Lemma b64encode_plain s : string_all plain_char (b64encode s) = true.
Proof.
  unfold b64encode. rewrite string_all_app. apply andb_true_intro. split.
  - apply b64_body_all. apply (check64_spec (fun z => plain_char (b64_std z))). reflexivity.
  - pose proof (b64_padding_pads s) as H. revert H. apply string_all_impl.
    intros c Hc. apply Ascii.eqb_eq in Hc as ->. reflexivity.
Qed.

(** Padding adds its base64 text to the printed payload. *)
Lemma padded_length body pad :
  blen (json_dumps false false (padded body (b64encode pad))) =
  blen (json_dumps false false (padded body "")) + blen (b64encode pad).
Proof.
  unfold blen, json_dumps, padded. cbn [json_print map join fst snd item_sep key_sep].
  unfold json_str. rewrite (escape_plain _ (b64encode_plain pad)).
  repeat (rewrite !sapp_length; cbn [String.length String.append escape_body]). lia.
Qed.

Section packing.
Context `{O : Os, OL : !OsLaws O}.

Definition base_length (body : string) : Z := blen (json_dumps false false (padded body "")).

Lemma urandom_run k s :
  exists s', urandom k s = (s', Ok (os_random (n_random (os s)) k)) /\ same_session s s' /\
    n_random (os s') = S (n_random (os s)).
Proof using. eexists. split; [reflexivity|]. split; [apply same_session_os|done]. Qed.

Lemma pack_runs body s :
  utf8_valid body = true ->
  exists s' pad, pack_plaintext (PStr body) s = (s', Ok (json_dumps false false (padded body (b64encode pad)))) /\
    same_session s s' /\ (n_random (os s') = n_random (os s) \/ n_random (os s') = S (n_random (os s))) /\
    (blen pad = if base_length body <? _padding_bucket (base_length body)
                then pad_need (_padding_bucket (base_length body) - base_length body) else 0).
Proof using OL.
  intros Hb. unfold pack_plaintext. cbn [py_str]. unfold st_bind at 1, st_lift, utf8_encode.
  rewrite json_dumps_valid by by apply padded_ok. fold (base_length body).
  destruct (Z.ltb_spec (base_length body) (_padding_bucket (base_length body))).
  - unfold st_bind. destruct (urandom_run (Z.to_nat (pad_need (_padding_bucket (base_length body) - base_length body))) s)
      as (s' & -> & Hs & Hn).
    eexists _, _. split; [reflexivity|]. split; [done|]. split; [by right|].
    unfold blen. rewrite os_random_len. unfold pad_need. lia.
  - exists s, "". split; [reflexivity|]. split; [apply same_session_refl|]. split; [by left|done].
Qed.
End packing.

(** ** A direct message through a session *)

(** The session id a sent wire names is the one of the sending ratchet. *)
Lemma aead_encrypt_token `{P : Prims} nonce key obj aad t :
  aead_encrypt nonce key obj aad = Ok t -> exists raw, t = b64e raw.
Proof. unfold aead_encrypt. intros H. inv_ok H. by eexists. Qed.

Lemma maybe_send_ratchet_sid `{P : Prims} seed st :
  session_id (fst (maybe_send_ratchet seed st)) = session_id st.
Proof.
  unfold maybe_send_ratchet, st_bind, st_get, st_modify, st_lift.
  destruct (_ || _); [done|]. cbn. by destruct (x25519_dh _ _).
Qed.

Lemma sent_wire_id `{P : Prims} r m st st' w :
  encrypt r m st = (st', Ok w) -> utf8_valid (session_id st) = true -> session_id st <> "" ->
  starts_with PREFIX_DR w = true /\ wire_session_id w = session_id st /\ session_id st' = session_id st.
Proof.
  unfold encrypt, st_bind at 1. pose proof (maybe_send_ratchet_sid (e_seed r) st) as Hsid.
  destruct (maybe_send_ratchet (e_seed r) st) as [t [[]|e]]; [|done]. cbn [fst] in Hsid. intros H Hv Hn.
  unfold st_bind, st_get, st_modify, st_lift in H. destruct (kdf_ck (ck_send t)) as [mk ck].
  set (u := with_send ck (n_send t + 1) t) in H.
  assert (Hu : session_id u = session_id st) by done. rewrite <- Hu in *. clear Hu Hsid.
  destruct (canonical _) as [aad|]; [|done].
  destruct (aead_encrypt (e_nonce r) _ _ _) as [ct|] eqn:E1; [|done].
  destruct (aead_encrypt (e_hnonce r) _ _ _) as [eh|] eqn:E2; [|done].
  apply aead_encrypt_token in E1 as (raw1 & ->). apply aead_encrypt_token in E2 as (raw2 & ->).
  rewrite json_b64_ok in H.
  2: { py_ok_fields; [by apply py_ok_header|apply utf8_valid_ascii, b64e_ascii..]. }
  apply pair_eq in H as [<- H]. apply Ok_inj in H. subst w.
  split; [reflexivity|]. split; [|done].
  unfold wire_session_id. rewrite sdrop_app, json_unb64_ok.
  2: { py_ok_fields; [by apply py_ok_header|apply utf8_valid_ascii, b64e_ascii..]. }
  cbn [res_bind as_dict]. change (dget "h" PNone _) with (PDict (header_of u (n_send t))). cbv iota beta zeta.
  change (dget "sid" PNone (header_of u (n_send t))) with (PStr (session_id u)).
  assert (Hd : forall x, py_or (PStr (session_id u)) x = PStr (session_id u))
    by (intros; unfold py_or; cbn [truthy]; destruct (session_id u); done).
  by rewrite Hd.
Qed.

Section direct.
Context `{P : Prims, O : Os, OL : !OsLaws O}.

(** The current ratchet of the direct conversation [conv] is the object [r], in the
    state [st]. *)
Record talks (s : session) (conv : Z) (r : nat) (st : DoubleRatchet) : Prop := {
  tk_current : double_ratchet_states s !! conv = Some r;
  tk_object : dr_objects s !! r = Some st;
  tk_direct : conv ∉ group_conv_ids s
}.

Lemma talks_same s s' conv r st : talks s conv r st -> same_session s s' -> talks s' conv r st.
Proof using. intros [H1 H2 H3] Hs. split; by same_fields Hs. Qed.

Lemma talks_at s conv r st : talks s conv r st -> ratchet_at s r = st.
Proof using. intros [_ H _]. unfold ratchet_at. by rewrite H. Qed.

(** The object after a method ran on it. *)
Definition put_ratchet (r : nat) (st : DoubleRatchet) (s : session) : session :=
  s <| dr_objects ::= <[r := st]> |>.

Lemma on_ratchet_run {A} (m : stm DoubleRatchet A) s conv r st st' (a : res A) :
  talks s conv r st -> m st = (st', a) -> on_ratchet r m s = (put_ratchet r st' s, a).
Proof using. intros Ht Hm. unfold on_ratchet. rewrite (talks_at _ _ _ _ Ht), Hm. done. Qed.

Lemma talks_put s conv r st st' : talks s conv r st -> talks (put_ratchet r st' s) conv r st'.
Proof using.
  intros [H1 H2 H3]. split; [done| |done]. cbn. apply list_lookup_insert_eq.
  by apply lookup_lt_Some in H2.
Qed.

(** Saving keeps the ratchets. *)
Lemma save_talks s conv r st :
  talks s conv r st ->
  exists s', save_double_ratchet conv s = (s', Ok tt) /\ talks s' conv r st /\ my_uid s' = my_uid s.
Proof using.
  intros [H1 H2 H3]. destruct (save_double_ratchet_total conv s) as (s' & -> & m & [Hs _] & _).
  exists s'. split; [done|]. split; [split|]; by same_fields Hs.
Qed.

(** What one [encrypt] draws, from the [n]-th draw on. *)
Definition drawn_at (n : nat) (d : enc_draws) : Prop :=
  e_seed d = os_random n 32 /\ nonce_ok (e_nonce d) /\ nonce_ok (e_hnonce d).

Lemma enc_draw_run s :
  exists s' d, enc_draw s = (s', Ok d) /\ same_session s s' /\ drawn_at (n_random (os s)) d.
Proof using OL.
  unfold enc_draw, st_bind.
  destruct (urandom_run 32 s) as (s1 & -> & H1 & _). destruct (urandom_run 12 s1) as (s2 & -> & H2 & _).
  destruct (urandom_run 12 s2) as (s3 & -> & H3 & _). destruct (now_ms_ok s3) as (s4 & n & -> & H4 & _).
  eexists _, _. split; [reflexivity|]. split; [by apply (same_session_trans _ _ _ H1), (same_session_trans _ _ _ H2), (same_session_trans _ _ _ H3)|].
  split; [done|]. split; apply os_random_len.
Qed.

(** Sending: the padded text goes through the current ratchet, and the result is
    the wire whether or not the files could be written. *)
Lemma send_runs s conv r st body :
  talks s conv r st -> utf8_valid body = true ->
  exists n d t, (n = n_random (os s) \/ n = S (n_random (os s))) /\ drawn_at n d /\
    utf8_valid t = true /\ unpack_plaintext (PStr t) = Ok (PStr body) /\
    forall st' w, encrypt d t st = (st', Ok w) ->
    exists s', encrypt_for_conv conv (PStr body) s = (s', Ok w) /\ talks s' conv r st' /\ my_uid s' = my_uid s.
Proof using OL.
  intros Ht Hb. destruct (pack_runs body s Hb) as (s1 & pad & E1 & Hs1 & Hn & _).
  assert (Ht1 : talks s1 conv r st) by by eapply talks_same.
  destruct (enc_draw_run s1) as (s2 & d & E2 & Hs2 & Hd).
  exists (n_random (os s1)), d, (json_dumps false false (padded body (b64encode pad))).
  split; [done|]. split; [done|]. split; [by apply json_dumps_valid, padded_ok, b64encode_ascii|].
  split; [by apply unpack_padded, b64encode_ascii|]. intros st' w He.
  assert (Ht2 : talks s2 conv r st) by by eapply talks_same.
  destruct (save_talks (put_ratchet r st' s2) conv r st') as (s3 & E3 & Ht3 & Hu); [by eapply talks_put|].
  exists s3. split; [|split; [done|]].
  - unfold encrypt_for_conv, st_bind. rewrite E1. unfold st_get.
    rewrite bool_decide_false by apply (tk_direct _ _ _ _ Ht1).
    rewrite (load_current s1 conv r) by apply (tk_current _ _ _ _ Ht1).
    rewrite E2, (on_ratchet_run _ s2 conv r st st' (Ok w) Ht2 He), E3. done.
  - rewrite Hu. cbn. same_fields Hs2. by same_fields Hs1.
Qed.

(** A copy put in the place of a session after a failure. *)
Lemma talks_restored s conv r st snap sid :
  double_ratchet_states s !! conv = Some r -> dr_objects s !! snap = Some st -> conv ∉ group_conv_ids s ->
  exists s', restore_snapshot conv r snap sid s = (s', Ok tt) /\ talks s' conv snap st /\
    my_uid s' = my_uid s /\ os s' = os s.
Proof using.
  intros Hc Ho Hd. unfold restore_snapshot, st_bind, st_get, is_current. rewrite bool_decide_true by done.
  eexists. split; [reflexivity|]. split; [|done]. split; [|done..]. cbn. apply lookup_insert_eq.
Qed.

(** The session of a wire is the current one if it names it, or nothing. *)
Lemma state_for_current s conv r st wire :
  talks s conv r st -> wire_session_id wire = "" \/ wire_session_id wire = session_id st ->
  _state_for_double_ratchet_wire conv wire s = (s, Ok (Some r)).
Proof using.
  intros Ht Hw. unfold _state_for_double_ratchet_wire, st_bind.
  rewrite (load_current s conv r) by apply (tk_current _ _ _ _ Ht). unfold st_get, st_ret.
  rewrite (talks_at _ _ _ _ Ht). destruct Hw as [->| ->]; [done|]. by rewrite String.eqb_refl, orb_true_r.
Qed.

(** *** Opening a live message *)

(** A message from [sender] as the server delivers it. *)
Definition live_msg (conv sender : Z) (wire : string) : dict :=
  [("conversation_id", PInt conv); ("from_id", PInt sender); ("body", PStr wire)].

Lemma dr_prefix wire : starts_with PREFIX_DR wire = true ->
  nonempty wire = true /\ starts_with PREFIX_PQ_INIT wire = false /\ starts_with PREFIX_MLS wire = false.
Proof using. intros H. apply starts_with_inv in H as ->. done. Qed.

Lemma live_dr_message oqs conv sender wire s :
  starts_with PREFIX_DR wire = true -> sender <> my_uid s ->
  decrypt_live_message oqs (live_msg conv sender wire) s = live_dr conv wire s.
Proof using.
  intros Hp Hne. destruct (dr_prefix wire Hp) as (Hn & Hpq & Hmls).
  unfold decrypt_live_message, st_bind at 1, st_lift at 1.
  rewrite (get_int0_field "conversation_id" _ conv) by done. unfold st_bind at 1, st_lift at 1.
  assert (Hs : py_int (py_or (dget "from_id" (PInt 0) (live_msg conv sender wire))
    (py_or (dget "sender_id" (PInt 0) (live_msg conv sender wire)) (PInt 0))) = Ok sender).
  { unfold dget, py_or. cbn. destruct (Z.eqb_spec sender 0) as [->|]; done. }
  rewrite Hs. assert (Hb : py_or (dget "body" (PStr "") (live_msg conv sender wire)) (PStr "") = PStr wire)
    by (unfold dget, py_or; cbn; destruct wire; done).
  rewrite Hb. unfold has_prefix, wire_of. rewrite Hpq, Hp.
  unfold st_bind, handle_group_integrity_control. rewrite Hmls. cbn [negb]. unfold st_ret, st_get.
  assert ((sender =? my_uid s) = false) as -> by (by apply Z.eqb_neq). by rewrite andb_false_r.
Qed.

Lemma take_snapshot_run s conv r st copy :
  talks s conv r st -> from_dict (to_dict st) = Ok copy ->
  exists s', take_snapshot r s = (s', Ok (length (dr_objects s))) /\ talks s' conv r st /\
    dr_objects s' !! length (dr_objects s) = Some copy /\ my_uid s' = my_uid s /\ os s' = os s.
Proof using.
  intros Ht Hc. unfold take_snapshot, st_bind, st_get, st_lift. rewrite (talks_at _ _ _ _ Ht), Hc.
  unfold alloc_ratchet. eexists. split; [reflexivity|]. destruct Ht as [H1 H2 H3]. split; [split|].
  - exact H1.
  - cbn. rewrite lookup_app_l; [done|]. by apply lookup_lt_Some in H2.
  - exact H3.
  - cbn. by rewrite lookup_app_r, Nat.sub_diag.
Qed.

Definition receive_seed (s : session) : bytes := os_random (n_random (os s)) 32.

Lemma decrypt_with_run s conv r st st' wire out :
  talks s conv r st -> decrypt (receive_seed s) wire st = (st', out) ->
  exists s', decrypt_with r wire s = (put_ratchet r st' s', out) /\ talks (put_ratchet r st' s') conv r st' /\
    same_session s s' /\ files (os s') = files (os s).
Proof using.
  intros Ht Hd. unfold receive_seed in Hd. unfold decrypt_with, st_bind, urandom.
  lazymatch goal with |- context [on_ratchet r _ ?x] => set (s1 := x) end.
  assert (Hs : same_session s s1) by apply same_session_os.
  assert (Ht1 : talks s1 conv r st) by by eapply talks_same.
  exists s1. rewrite (on_ratchet_run _ s1 conv r st st' out Ht1 Hd). split; [done|].
  split; [by eapply talks_put|]. done.
Qed.

Lemma live_dr_opens s conv r st copy wire st' plain body :
  talks s conv r st -> wire_session_id wire = "" \/ wire_session_id wire = session_id st ->
  from_dict (to_dict st) = Ok copy -> decrypt (receive_seed s) wire st = (st', Ok plain) ->
  unpack_plaintext (PStr plain) = Ok body ->
  exists s', live_dr conv wire s = (s', Ok (message_result body)) /\ talks s' conv r st' /\ my_uid s' = my_uid s.
Proof using.
  intros Ht Hw Hc Hd Hb. unfold live_dr, st_bind at 1. rewrite (state_for_current s conv r st) by done.
  unfold open_dr, st_bind at 1, st_get at 1, st_bind at 1.
  destruct (take_snapshot_run s conv r st copy Ht Hc) as (s1 & -> & Ht1 & _ & Hu1 & Ho1).
  assert (Hseed : receive_seed s = receive_seed s1) by (unfold receive_seed; by rewrite Ho1).
  rewrite Hseed in Hd. destruct (decrypt_with_run s1 conv r st st' wire (Ok plain) Ht1 Hd) as (s2 & E2 & Ht2 & Hs2 & _).
  destruct (save_talks _ conv r st' Ht2) as (s3 & E3 & Ht3 & Hu3).
  exists s3. split; [|split; [done|]].
  - unfold st_catch, st_bind. rewrite E2. unfold save_opened, st_bind, st_get, is_current.
    rewrite bool_decide_true by apply (tk_current _ _ _ _ Ht2). rewrite E3. unfold st_lift. by rewrite Hb.
  - rewrite Hu3, <- Hu1. cbn. by same_fields Hs2.
Qed.

Lemma live_dr_fails s conv r st wire st' e :
  talks s conv r st -> wire_session_id wire = "" \/ wire_session_id wire = session_id st ->
  from_dict (to_dict st) = Ok st -> decrypt (receive_seed s) wire st = (st', Err e) ->
  exists s' r', live_dr conv wire s = (s', Ok (_hidden_result "[Cannot decrypt]")) /\ talks s' conv r' st /\
    my_uid s' = my_uid s /\ files (os s') = files (os s).
Proof using.
  intros Ht Hw Hc Hd. unfold live_dr, st_bind at 1. rewrite (state_for_current s conv r st) by done.
  unfold open_dr, st_bind at 1, st_get at 1, st_bind at 1.
  destruct (take_snapshot_run s conv r st st Ht Hc) as (s1 & -> & Ht1 & Hl1 & Hu1 & Ho1).
  assert (Hseed : receive_seed s = receive_seed s1) by (unfold receive_seed; by rewrite Ho1).
  rewrite Hseed in Hd. destruct (decrypt_with_run s1 conv r st st' wire (Err e) Ht1 Hd) as (s2 & E2 & Ht2 & Hs2 & Hf2).
  assert (Hne : length (dr_objects s) <> r).
  { intros E. pose proof (lookup_lt_Some _ _ _ (tk_object _ _ _ _ Ht)). lia. }
  destruct (talks_restored (put_ratchet r st' s2) conv r st (length (dr_objects s))
    (session_id (ratchet_at s r))) as (s3 & E3 & Ht3 & Hu3 & Ho3).
  - apply (tk_current _ _ _ _ Ht2).
  - cbn. rewrite list_lookup_insert_ne by done. rewrite <- Hl1. by same_fields Hs2.
  - apply (tk_direct _ _ _ _ Ht2).
  - exists s3, (length (dr_objects s)). split; [|split; [done|split]].
    + unfold st_catch, st_bind. by rewrite E2, E3.
    + rewrite Hu3, <- Hu1. cbn. by same_fields Hs2.
    + rewrite Ho3. cbn. by rewrite Hf2, Ho1.
Qed.
End direct.
