(* ===== verification/MessageProps.v ===== *)
(** * Theorems about messages *)

From S2P Require Import Prelude Hashing Base64 PyVal Sorting Json JsonFacts Crypto Wire Ratchet.
From S2P Require Import RatchetFacts Pqxdh Conversation PqxdhFacts AuditClient Utils Session SessionFacts CacheStore.
From S2P Require Import Transcript Identity DrStore DrFacts DrProps IdentityAudit MlsBridge Mls Messages.
From S2P Require Import MessageFacts.

(** ** Padding *)

Section packing_props.
Context `{O : Os, OL : !OsLaws O}.

Lemma base_positive body : 0 < base_length body.
Proof using.
  unfold base_length, blen. destruct (json_dumps false false (padded body "")) eqn:E; [discriminate E|].
  cbn [String.length]. lia.
Qed.

(** Padding. Every text is packed, unpacking gives it back, and the packed
    payload of a text whose bare payload has at most 16384 bytes is as long as the
    next bucket up to three bytes above and, below, three bytes and a 25th of the
    gap that was filled: it depends on the length of the text still, and may
    exceed its bucket. *)
Theorem packed_plaintext_roundtrip body s :
  utf8_valid body = true ->
  exists s' t, pack_plaintext (PStr body) s = (s', Ok t) /\ same_session s s' /\ utf8_valid t = true /\
    unpack_plaintext (PStr t) = Ok (PStr body) /\
    (base_length body <= 16384 ->
     let bucket := _padding_bucket (base_length body) in
     bucket - (bucket - base_length body) / 25 - 3 <= blen t <= bucket + 3).
Proof using OL.
  intros Hb. destruct (pack_runs body s Hb) as (s' & pad & E & Hs & _ & Hpad).
  exists s', (json_dumps false false (padded body (b64encode pad))). split; [done|]. split; [done|].
  split; [by apply json_dumps_valid, padded_ok, b64encode_ascii|].
  split; [by apply unpack_padded, b64encode_ascii|]. intros Hl. cbv zeta.
  rewrite padded_length, b64encode_length, Hpad. fold (base_length body).
  assert (Hpos : 0 < base_length body) by apply base_positive.
  destruct (bucket_bounds (base_length body)) as [H1 H2]; [done|].
  destruct (Z.ltb_spec (base_length body) (_padding_bucket (base_length body))).
  - destruct (pad_bounds (_padding_bucket (base_length body) - base_length body)) as [_ H3]; [lia|].
    unfold pad_length in H3. lia.
  - replace (_padding_bucket (base_length body) - base_length body) with 0 by lia.
    change (4 * ((0 + 2) / 3)) with 0. change (0 / 25) with 0. lia.
Qed.
End packing_props.

(** ** Direct messages *)

Section direct_props.
Context `{P : Prims} `{!PrimLaws P} `{!AeadStrict P}.
Variable oqs : option (option (list string)).

Lemma led_seen U a b : led U a b -> "" ∉ seen a /\ "" ∉ seen b.
Proof using.
  intros L. destruct (l_ids _ _ _ L) as [H1 H2].
  assert (Hne : forall sid d k, "" <> msg_id sid d k) by (intros [|c sid] d k; discriminate).
  split; intros H.
  - destruct (H2 _ H) as (d & k & E & _). by apply Hne in E.
  - destruct (H1 _ H) as (d & k & E & _). by apply Hne in E.
Qed.

Lemma led_partners U a b : led U a b \/ led U b a ->
  session_id b = session_id a /\ utf8_valid (session_id a) = true /\ "" ∉ seen b.
Proof using.
  intros [L|L]; pose proof (led_seen _ _ _ L) as [H1 H2]; destruct (l_partners _ _ _ L) as (H3 & H4 & _).
  - done.
  - rewrite <- H3. done.
Qed.

(** C4: a direct message end to end. Two sessions whose current ratchets are the
    two sides of a conversation: the text given to [encrypt_for_conv] is packed,
    encrypted and, delivered live to the other side, decrypted and unpacked to the
    same text, whether or not the files can be written; the ratchets are two sides
    of the conversation again, so this goes on with the next message of either.
    The keys drawn on the way must not repeat earlier ratchet keys. *)
Theorem direct_message_delivered (OA OB : Os) (LA : OsLaws OA) (LB : OsLaws OB) U conv sA sB rA rB a b
    sender body :
  talks sA conv rA a -> talks sB conv rB b -> led U a b \/ led U b a -> session_id a <> "" ->
  utf8_valid body = true -> sender <> my_uid sB ->
  let kB := x_pub (receive_seed (O := OB) sB) in
  kB ∉ U ->
  (forall n, n = n_random (os sA) \/ n = S (n_random (os sA)) ->
     x_pub (os_random (Os := OA) n 32) ∉ U /\ kB <> x_pub (os_random (Os := OA) n 32)) ->
  exists wire sA' sB' a' b' U',
    encrypt_for_conv (O := OA) conv (PStr body) sA = (sA', Ok wire) /\
    decrypt_live_message (O := OB) oqs (live_msg conv sender wire) sB =
      (sB', Ok (message_result (PStr body))) /\
    talks sA' conv rA a' /\ talks sB' conv rB b' /\ (led U' a' b' \/ led U' b' a') /\
    session_id a' = session_id a /\ (forall k, k ∈ U -> k ∈ U').
Proof.
  intros HtA HtB HL Hsid Hb Hne kB HkB Hfresh.
  destruct (send_runs (O := OA) sA conv rA a body HtA Hb) as (n & d & t & Hn & (Hd & Hn1 & Hn2) & Hv & Hun & Hsend).
  destruct (Hfresh n Hn) as [Hf1 Hf2]. rewrite <- Hd in Hf1, Hf2.
  destruct (led_partners U a b HL) as (Hs & Hvs & Hseen).
  destruct (talking_step U a b d t (receive_seed (O := OB) sB) HL) as (w & a1 & b1 & He & Hdec & HL1);
    [done|rewrite Hd; apply os_random_len|apply os_random_len|done..|].
  destruct (Hsend a1 w He) as (sA' & EA & HtA' & _).
  destruct (sent_wire_id d t a a1 w He Hvs Hsid) as (Hp & Hw & Hsid').
  destruct (live_dr_opens (O := OB) sB conv rB b (with_seen (list_to_set (last_sorted 2048 (seen b))) b)
    w b1 t (PStr body) HtB) as (sB' & EB & HtB' & _).
  - right. by rewrite Hs.
  - by apply from_dict_to_dict.
  - done.
  - done.
  - exists w, sA', sB', a1, b1, (x_pub (receive_seed (O := OB) sB) :: x_pub (e_seed d) :: U).
    split; [done|]. split; [by rewrite live_dr_message|]. split; [done|]. split; [done|].
    split; [done|]. split; [done|]. intros k Hk. by right; right.
Qed.

(** A live message of [sender] for the session [sid] that does not decrypt in [st],
    whatever key is drawn. *)
Definition forged (st : DoubleRatchet) (wire : string) : Prop :=
  starts_with PREFIX_DR wire = true /\
  (wire_session_id wire = "" \/ wire_session_id wire = session_id st) /\
  forall seed, is_ok (snd (decrypt seed wire st)) = false.

Fixpoint deliver_all `{O : Os} (conv sender : Z) (wires : list string) : sm (list dict) :=
  match wires with
  | [] => st_ret []
  | w :: wires =>
      do! r := decrypt_live_message oqs (live_msg conv sender w) in
      do! l := deliver_all conv sender wires in
      st_ret (r :: l)
  end.

(** C7: forged messages are harmless. Any sequence of messages that do not decrypt
    is shown as hidden, one by one; afterwards the current ratchet of the
    conversation is in the same state as before, not ratcheted and with no keys
    skipped, and no file has changed. *)
Theorem forged_messages_harmless `{O : Os, OL : !OsLaws O} conv sender s r st wires :
  talks s conv r st -> persistent st -> sender <> my_uid s -> Forall (forged st) wires ->
  exists s' r', deliver_all conv sender wires s =
      (s', Ok (map (fun _ => _hidden_result "[Cannot decrypt]") wires)) /\
    talks s' conv r' st /\ files (os s') = files (os s) /\ my_uid s' = my_uid s.
Proof.
  intros Ht Hp Hne Hw. revert s r Ht Hne. induction Hw as [|w wires (Hpre & Hsid & Hbad) _ IH]; intros s r Ht Hne.
  - by exists s, r.
  - cbn [deliver_all map]. unfold st_bind. rewrite live_dr_message by done.
    specialize (Hbad (receive_seed s)). destruct (decrypt (receive_seed s) w st) as [st' [m|e]] eqn:E; [done|].
    destruct (live_dr_fails s conv r st w st' e Ht Hsid (persistent_reads st Hp) E)
      as (s1 & r1 & -> & Ht1 & Hu1 & Hf1).
    destruct (IH s1 r1 Ht1) as (s' & r' & -> & Ht' & Hf' & Hu'); [by rewrite Hu1|].
    exists s', r'. split; [done|]. split; [done|]. split; [by rewrite Hf', Hf1|by rewrite Hu', Hu1].
Qed.
End direct_props.

(** ** Malformed controls *)

Section malformed.
Context `{P : Prims, O : Os}.
Variable oqs : option (option (list string)).

(** A wire whose JSON is there but is no object. *)
Definition not_object (token : string) : Prop :=
  exists v, json_unb64 token = Ok v /\ as_dict v = Err AttributeError.

Lemma control_raises conv token s :
  not_object token ->
  handle_group_integrity_control conv (PStr (PREFIX_MLS +:+ token)) s = (s, Err AttributeError).
Proof using.
  intros (v & Hv & Ha). unfold handle_group_integrity_control. rewrite starts_with_app, sdrop_app, Hv.
  unfold st_bind, st_lift. by rewrite Ha.
Qed.

Lemma body_of_mls token m :
  dlookup "body" m = Some (PStr (PREFIX_MLS +:+ token)) ->
  py_or (dget "body" (PStr "") m) (PStr "") = PStr (PREFIX_MLS +:+ token).
Proof using. intros H. unfold dget. by rewrite H. Qed.

Lemma prehandle_raises conv token m messages s :
  not_object token -> m ∈ messages -> dlookup "body" m = Some (PStr (PREFIX_MLS +:+ token)) ->
  is_ok (snd (prehandle conv messages s)) = false.
Proof using.
  intros Ht Hm Hb. revert s. induction messages as [|m' messages IH]; intros s; [by apply elem_of_nil in Hm|].
  cbn [prehandle]. unfold st_bind.
  lazymatch goal with |- context [match ?c s with (_, _) => _ end] => destruct (c s) as [s1 [b|e]] eqn:E end; [|done].
  apply elem_of_cons in Hm as [<-|Hm].
  - rewrite (body_of_mls token m Hb) in E. unfold has_prefix in E. rewrite starts_with_app in E.
    by rewrite (control_raises conv token s Ht) in E.
  - specialize (IH Hm s1). by destruct (prehandle conv messages s1) as [s2 [l|e]].
Qed.

Lemma load_total conv s : exists s' o, load_double_ratchet conv s = (s', Ok o).
Proof using.
  unfold load_double_ratchet, st_bind at 1, st_get. destruct (double_ratchet_states s !! conv); [by eexists _, _|].
  destruct (negb _); [by eexists _, _|]. destruct (negb _); [by eexists _, _|].
  unfold st_catch. lazymatch goal with |- context [match ?c s with (_, _) => _ end] =>
    destruct (c s) as [s1 [o|e]] end; by eexists _, _.
Qed.

(** A control that is no JSON object. [handle_group_integrity_control] and the
    reading of a first message guard the decoding only, and then call [get] on what
    was decoded: such a wire raises an [AttributeError] out of
    [decrypt_live_message], and one such message anywhere in a history makes
    [decrypt_history_messages] raise, whatever the other messages are. *)
Theorem malformed_control_aborts token conv sender s :
  not_object token ->
  decrypt_live_message oqs (live_msg conv sender (PREFIX_MLS +:+ token)) s = (s, Err AttributeError) /\
  (sender <> my_uid s ->
   snd (decrypt_live_message oqs (live_msg conv sender (PREFIX_PQ_INIT +:+ token)) s) = Err AttributeError) /\
  forall m messages, m ∈ messages -> dlookup "body" m = Some (PStr (PREFIX_MLS +:+ token)) ->
    is_ok (snd (decrypt_history_messages oqs conv messages s)) = false.
Proof using.
  intros Ht.
  assert (Hs : forall wire, py_int (py_or (dget "from_id" (PInt 0) (live_msg conv sender wire))
    (py_or (dget "sender_id" (PInt 0) (live_msg conv sender wire)) (PInt 0))) = Ok sender).
  { intros wire. unfold dget, py_or. cbn. destruct (Z.eqb_spec sender 0) as [->|]; done. }
  assert (Hc : forall wire, get_int0 "conversation_id" (live_msg conv sender wire) = Ok conv)
    by (intros; by apply get_int0_field).
  split; [|split].
  - unfold decrypt_live_message, st_bind, st_lift. rewrite Hc, Hs. cbv zeta.
    change (py_or (dget "body" (PStr "") (live_msg conv sender (PREFIX_MLS +:+ token))) (PStr ""))
      with (PStr (PREFIX_MLS +:+ token)).
    change (has_prefix PREFIX_PQ_INIT (PStr (PREFIX_MLS +:+ token))) with false. cbv beta iota.
    by rewrite (control_raises conv token s Ht).
  - intros Hne. unfold decrypt_live_message, st_bind, st_lift. rewrite Hc, Hs. cbv zeta.
    change (py_or (dget "body" (PStr "") (live_msg conv sender (PREFIX_PQ_INIT +:+ token))) (PStr ""))
      with (PStr (PREFIX_PQ_INIT +:+ token)).
    change (has_prefix PREFIX_PQ_INIT (PStr (PREFIX_PQ_INIT +:+ token))) with true. cbv beta iota.
    unfold wire_of, live_init, st_bind, st_get, st_lift. rewrite (proj2 (Z.eqb_neq _ _) Hne).
    destruct (load_total conv s) as (s1 & o & ->). destruct Ht as (v & Hv & Ha).
    unfold init_meta. rewrite sdrop_app, Hv. by rewrite Ha.
  - intros m messages Hm Hb. unfold decrypt_history_messages, st_bind.
    destruct (load_cached_messages conv s) as [s1 [c|e]]; [|done].
    pose proof (prehandle_raises conv token m messages s1 Ht Hm Hb) as H.
    by destruct (prehandle conv messages s1) as [s2 [l|e]].
Qed.
End malformed.

(** ** Witnesses *)

Lemma packed_plaintext_roundtrip_witness :
  exists s' t, pack_plaintext (O := demo_os 0) (PStr "hello") demo_session = (s', Ok t) /\
    unpack_plaintext (PStr t) = Ok (PStr "hello") /\ 245 <= blen t <= 259.
Proof.
  destruct (packed_plaintext_roundtrip (O := demo_os 0) "hello" demo_session eq_refl)
    as (s' & t & E & _ & _ & Hu & Hl).
  exists s', t. split; [exact E|]. split; [exact Hu|].
  assert (Hb : base_length "hello" = 58) by (vm_compute; reflexivity).
  rewrite Hb in Hl. specialize (Hl ltac:(lia)). cbv zeta in Hl.
  change (_padding_bucket 58) with 256 in Hl. change ((256 - 58) / 25) with 7 in Hl. lia.
Defined.

(** Two sessions in conversation 5, of accounts 1 and 2, after a handshake. *)
Definition demo_dr_a : bytes := sha256 "dr a".
Definition demo_dr_b : bytes := sha256 "dr b".
Definition demo_root_key : bytes := sha256 "demo root".
Definition demo_first : DoubleRatchet :=
  initiator_state (P := reference_prims) demo_dr_a demo_root_key "sid" 5 1 2 None.
Definition demo_second : DoubleRatchet :=
  responder_state (P := reference_prims) demo_dr_b "" demo_root_key (x_pub demo_dr_a) "sid" 5 2 1 None.

Definition in_conversation (uid : Z) (st : DoubleRatchet) (draws : nat) : session :=
  demo_session <| my_uid := uid |> <| dr_objects := [st] |>
    <| double_ratchet_states ::= fun _ => ({[ 5 := 0%nat ]} : gmap Z nat) |>
    <| os ::= fun w => w <| n_random := draws |> |>.

Lemma in_conversation_talks uid st n : talks (in_conversation uid st n) 5 0%nat st.
Proof. split; [apply lookup_insert_eq|reflexivity|]. cbn. apply not_elem_of_empty. Qed.

Lemma demo_led : led (P := reference_prims) [x_pub demo_dr_a; x_pub demo_dr_b] demo_first demo_second.
Proof. apply states_led; [apply sha256_length|discriminate|reflexivity]. Qed.

Lemma fill_not_key c : fill c 32 ∉ [demo_dr_a; demo_dr_b] <-> fill c 32 <> demo_dr_a /\ fill c 32 <> demo_dr_b.
Proof. rewrite !elem_of_cons, elem_of_nil. tauto. Qed.

Lemma direct_message_delivered_witness :
  exists wire sA' sB',
    encrypt_for_conv (P := reference_prims) (O := demo_os 0) 5 (PStr "hello") (in_conversation 1 demo_first 0) =
      (sA', Ok wire) /\
    decrypt_live_message (P := reference_prims) (O := demo_os 7) None (live_msg 5 1 wire)
      (in_conversation 2 demo_second 5) = (sB', Ok (message_result (PStr "hello"))).
Proof.
  destruct (direct_message_delivered (P := reference_prims) None (demo_os 0) (demo_os 7) (demo_os_laws 0)
    (demo_os_laws 7) [x_pub demo_dr_a; x_pub demo_dr_b] 5 (in_conversation 1 demo_first 0)
    (in_conversation 2 demo_second 5) 0%nat 0%nat demo_first demo_second 1 "hello")
    as (wire & sA' & sB' & _ & _ & _ & EA & EB & _).
  - apply in_conversation_talks.
  - apply in_conversation_talks.
  - left. apply demo_led.
  - discriminate.
  - reflexivity.
  - discriminate.
  - apply fill_not_key. split; vm_compute; discriminate.
  - intros n [->| ->]; (split; [apply fill_not_key; split; vm_compute; discriminate|vm_compute; discriminate]).
  - exists wire, sA', sB'. split; [exact EA|exact EB].
Defined.

Lemma forged_messages_harmless_witness :
  exists s' r', deliver_all (P := reference_prims) (O := demo_os 0) None 5 9 ["S3DR:"; "S3DR:AAAA"]
      (in_conversation 2 (named_ratchet "s") 0) =
      (s', Ok [_hidden_result "[Cannot decrypt]"; _hidden_result "[Cannot decrypt]"]) /\
    talks s' 5 r' (named_ratchet "s").
Proof.
  destruct (forged_messages_harmless (P := reference_prims) (O := demo_os 0) None 5 9
    (in_conversation 2 (named_ratchet "s") 0) 0%nat (named_ratchet "s") ["S3DR:"; "S3DR:AAAA"])
    as (s' & r' & E & Ht & _).
  - apply in_conversation_talks.
  - apply demo_persistent; [discriminate|reflexivity].
  - discriminate.
  - constructor; [|constructor; [|constructor]];
      (split; [reflexivity|]; split; [left; vm_compute; reflexivity|intros seed; vm_compute; reflexivity]).
  - exists s', r'. split; [exact E|exact Ht].
Defined.

Lemma malformed_control_aborts_witness :
  not_object (b64e "[]") /\
  decrypt_live_message (P := reference_prims) (O := demo_os 0) None (live_msg 5 9 ("S3MLS:" +:+ b64e "[]"))
    demo_session = (demo_session, Err AttributeError).
Proof.
  assert (H : not_object (b64e "[]")) by (exists (PList []); split; [vm_compute; reflexivity|reflexivity]).
  split; [exact H|].
  exact (proj1 (malformed_control_aborts (P := reference_prims) (O := demo_os 0) None (b64e "[]") 5 9 demo_session H)).
Defined.
