(* ===== verification/MlsProps.v ===== *)
(** * Theorems about groups and the OpenMLS bridge *)

From S2P Require Import Prelude Hashing Base64 PyVal Sorting Json JsonFacts Crypto Wire Ratchet.
From S2P Require Import RatchetFacts AuditClient Utils Session SessionFacts MlsBridge Mls.

(** ** What group operations can change *)

(** The fields of groups may differ; seen handshake rows are not forgotten. *)
Definition mls_fields (b : option (option (list string))) (ready : bool) (cred : string)
    (groups : gset Z) (seen : gset string) (convs : gset Z) (epochs : gmap Z Z) (w : world) (s : session) : session :=
  s <| mls_bridge := b |> <| mls_identity_ready := ready |> <| mls_credential_identity_b64 := cred |>
    <| mls_group_ready := groups |> <| mls_handshake_seen := seen |> <| group_conv_ids := convs |>
    <| group_epochs := epochs |> <| os := w |>.

Definition mls_only (s s' : session) : Prop :=
  mls_handshake_seen s ⊆ mls_handshake_seen s' /\
  s' = mls_fields (mls_bridge s') (mls_identity_ready s') (mls_credential_identity_b64 s') (mls_group_ready s')
         (mls_handshake_seen s') (group_conv_ids s') (group_epochs s') (os s') s.

#[export] Instance mls_only_frame : Frame mls_only.
Proof.
  split.
  - intros s. split; [done|by destruct s].
  - intros a b c [H1 H2] [H3 H4]. split; [by etransitivity|]. rewrite H4, H2. by destruct a, b, c.
  - intros s f. split; [done|by destruct s].
  - intros s s' [_ H]. by rewrite H.
Qed.

(** As [mls_only], with the same rows seen. *)
Definition groups_only (s s' : session) : Prop := mls_handshake_seen s' = mls_handshake_seen s /\ mls_only s s'.
#[export] Instance groups_only_frame : Frame groups_only.
Proof.
  split.
  - intros s. split; [done|apply frame_refl].
  - intros a b c [H1 H2] [H3 H4]. split; [congruence|by eapply frame_trans].
  - intros s f. split; [done|apply frame_os].
  - intros s s' [_ H]. by apply frame_dir.
Qed.

Definition mls_file (s : session) (p : string) : Prop := p = mls_state_path s.

Section frames.
Context `{P : Prims, O : Os}.
Variable s0 : session.
Let Q := mls_file s0.

Lemma groups_modify s s' : mls_handshake_seen s' = mls_handshake_seen s -> files (os s') = files (os s) ->
  s' = mls_fields (mls_bridge s') (mls_identity_ready s') (mls_credential_identity_b64 s') (mls_group_ready s')
         (mls_handshake_seen s') (group_conv_ids s') (group_epochs s') (os s') s ->
  groups_only s s' /\ files (os s') = files (os s).
Proof using. intros H1 H2 H3. split; [|done]. split; [done|]. split; [by rewrite H1|done]. Qed.

Lemma within_mls_modify f :
  (forall s, groups_only s (f s) /\ files (os (f s)) = files (os s)) -> within groups_only Q s0 (st_modify f).
Proof using.
  intros Hf. apply within_modify. intros s [H1 H2]. destruct (Hf s) as [H3 H4].
  split; [by eapply frame_trans|]. intros p Hp. rewrite H4. by apply H2.
Qed.

Lemma within_set_lines lines : within groups_only Q s0 (set_lines lines).
Proof using. unfold set_lines. apply within_mls_modify. intros s. apply groups_modify; by destruct s. Qed.

Lemma within_command cmd kw : within groups_only Q s0 (command cmd kw).
Proof using.
  unfold command, bridge_start. within_tac; apply within_set_lines.
Qed.

Lemma within_require : within groups_only Q s0 _require_mls_bridge.
Proof using. unfold _require_mls_bridge, ensure_bridge, new_bridge. within_tac; apply within_set_lines. Qed.

Lemma mls_path_same s : touches groups_only Q s0 s -> Q (mls_state_path s).
Proof using. intros [[_ [_ H]] _]. unfold Q, mls_file, mls_state_path, local_path. by rewrite H. Qed.

Lemma within_save_mls : within groups_only Q s0 _save_mls_state.
Proof using.
  unfold _save_mls_state, export_state.
  within_tac; try apply within_command; try (apply within_seal || apply within_makedirs).
  apply within_write_text. by eapply mls_path_same.
Qed.

Lemma within_set_group conv : within groups_only Q s0 (set_group conv).
Proof using. unfold set_group. apply within_mls_modify. intros s. apply groups_modify; by destruct s. Qed.
Lemma within_set_ready conv : within groups_only Q s0 (set_ready conv).
Proof using. unfold set_ready. apply within_mls_modify. intros s. apply groups_modify; by destruct s. Qed.
Lemma within_set_not_ready conv : within groups_only Q s0 (set_not_ready conv).
Proof using. unfold set_not_ready. apply within_mls_modify. intros s. apply groups_modify; by destruct s. Qed.
Lemma within_set_epoch conv r : within groups_only Q s0 (set_epoch conv r).
Proof using.
  unfold set_epoch. within_tac. apply within_mls_modify. intros s. apply groups_modify; by destruct s.
Qed.
Lemma within_join conv w : within groups_only Q s0 (join_mls_group_from_welcome conv w).
Proof using.
  unfold join_mls_group_from_welcome, join_from_welcome.
  within_tac; solve [apply within_require|apply within_command|apply within_set_group|apply within_set_ready
    |apply within_set_epoch|apply within_save_mls].
Qed.

Lemma within_commit conv w : within groups_only Q s0 (process_mls_commit conv w).
Proof using.
  unfold process_mls_commit, process_commit.
  within_tac; solve [apply within_require|apply within_command|apply within_set_not_ready
    |apply within_set_epoch|apply within_save_mls].
Qed.

End frames.

Section row_frames.
Context `{P : Prims, O : Os}.
Variable s0 : session.
Let Q := mls_file s0.

Lemma groups_within {A} (m : sm A) : (forall s, within groups_only (mls_file s) s m) -> within mls_only Q s0 m.
Proof using.
  intros Hm s Hs. destruct (within_run _ _ _ (Hm s)) as [[_ H1] H2]. eapply touches_trans; [exact Hs|]. split; [exact H1|].
  intros p Hp. apply H2. intros Hq. apply Hp. unfold Q, mls_file, mls_state_path, local_path in *.
  destruct Hs as [[_ Hs] _]. by rewrite Hs in Hq.
Qed.
Lemma within_mark_seen key : within mls_only Q s0 (mark_seen key).
Proof using.
  unfold mark_seen. apply within_modify. intros s [H1 H2]. split; [|done]. eapply frame_trans; [exact H1|].
  split; [|by destruct s]. cbn. set_solver.
Qed.

Lemma within_apply conv key kind m item : within mls_only Q s0 (apply_handshake conv key kind m item).
Proof using.
  unfold apply_handshake. within_tac; solve [apply within_mark_seen|apply groups_within; intros s1; apply within_join
    |apply groups_within; intros s1; apply within_commit].
Qed.

Lemma within_item conv item : within mls_only Q s0 (handshake_item conv item).
Proof using. unfold handshake_item. within_tac. apply within_apply. Qed.
End row_frames.

(** ** Replaying handshake rows *)

Section replay.
Context `{P : Prims, O : Os}.

(** The row and its key. *)
Definition row_key (item : dict) (key : string) : Prop :=
  exists id, get_int0 "id" item = Ok id /\ key = seen_key id (get_str0 "kind" item) item.

(** A row there is nothing left to do for. *)
Definition row_done (s : session) (item : dict) : Prop :=
  get_str0 "mls_message_b64" item = "" \/ exists key, row_key item key /\ key ∈ mls_handshake_seen s.

Lemma done_row_skipped s conv item :
  row_done s item -> is_ok (get_int0 "id" item) = true -> handshake_item conv item s = (s, Ok tt).
Proof using.
  intros Hd Hid. unfold handshake_item, st_bind, st_lift, st_get.
  destruct (get_int0 "id" item) as [id|e] eqn:E; [|done].
  destruct Hd as [Hm|(key & (id' & Eid & ->) & Hk)].
  - rewrite Hm. by destruct (bool_decide _).
  - rewrite E in Eid. injection Eid as <-. by rewrite bool_decide_true.
Qed.

Lemma handshake_item_total s conv item :
  is_ok (get_int0 "id" item) = true ->
  exists s', handshake_item conv item s = (s', Ok tt) /\ touches mls_only (mls_file s) s s'.
Proof using.
  intros Hid. pose proof (within_run _ _ _ (within_item s conv item)) as Hw.
  destruct (handshake_item conv item s) as [s' r] eqn:E. cbn [fst] in Hw. exists s'. split; [|done].
  revert E. unfold handshake_item, st_bind, st_lift, st_get.
  destruct (get_int0 "id" item); [|done]. destruct (bool_decide _); [by intros [= <- <-]|].
  destruct (negb _); [by intros [= <- <-]|]. unfold logged, st_catch.
  destruct (apply_handshake _ _ _ _ _ s) as [s1 [[]|e]]; by intros [= <- <-].
Qed.

Lemma res_map_images {A B} (f : A -> res B) l ys :
  res_map f l = Ok ys -> Forall (fun y => exists x, f x = Ok y) ys.
Proof using.
  revert ys. induction l as [|x l IH]; intros ys H; cbn in H; inv_ok H; subst; constructor; [by exists x|by apply IH].
Qed.

Lemma sorted_rows_ids items rows :
  sorted_rows items = Ok rows -> Forall (fun d => is_ok (get_int0 "id" d) = true) rows.
Proof using.
  unfold sorted_rows. intros H. inv_ok H. subst rows. apply res_map_images in Ha. rewrite Forall_forall in Ha.
  apply Forall_forall. intros d Hd. apply list_elem_of_fmap in Hd as ([id d'] & -> & Hin). apply elem_of_isort in Hin.
  destruct (Ha _ Hin) as (v & Hv). inv_ok Hv. simplify_eq. cbn [snd].
  lazymatch goal with E : get_int0 "id" _ = Ok _ |- _ => by rewrite E end.
Qed.

Lemma rows_total s conv rows :
  Forall (fun d => is_ok (get_int0 "id" d) = true) rows ->
  exists s', st_for rows (handshake_item conv) s = (s', Ok tt) /\ touches mls_only (mls_file s) s s'.
Proof using.
  intros H. revert s. induction H as [|d rows Hd _ IH]; intros s; cbn [st_for].
  - exists s. split; [done|]. apply touches_refl.
  - unfold st_bind. destruct (handshake_item_total s conv d Hd) as (s1 & -> & H1).
    destruct (IH s1) as (s2 & -> & H2). exists s2. split; [done|]. eapply touches_trans; [exact H1|].
    eapply touches_weaken; [|exact H2]. intros p Hp. unfold mls_file, mls_state_path, local_path in *.
    destruct H1 as [[_ H1] _]. by rewrite H1 in Hp.
Qed.

(** What a row asks for, without the mark that it was seen: nothing for one that was seen
    or has no message, nothing for the welcome of another or of a group already
    joined, nor for a row of another kind. *)
Definition asked (conv : Z) (item : dict) : sm unit :=
  let m := get_str0 "mls_message_b64" item in
  if String.eqb (get_str0 "kind" item) "welcome" then
    do! target := st_lift (get_int0 "target_user_id" item) in
    do! s := st_get in
    if negb (target =? 0) && negb (target =? my_uid s) then st_ret tt
    else if bool_decide (conv ∈ mls_group_ready s) then st_ret tt
    else do! _ := join_mls_group_from_welcome conv m in st_ret tt
  else if String.eqb (get_str0 "kind" item) "commit" then do! _ := process_mls_commit conv m in st_ret tt
  else st_ret tt.
Definition row_work (conv : Z) (item : dict) : sm unit :=
  do! id := st_lift (get_int0 "id" item) in
  do! s := st_get in
  if bool_decide (seen_key id (get_str0 "kind" item) item ∈ mls_handshake_seen s) || negb (nonempty (get_str0 "mls_message_b64" item))
  then st_ret tt else asked conv item.

(** The rows of a pass whose work fails, each in the state in which it is tried. *)
Fixpoint failed_rows (conv : Z) (rows : list dict) (s : session) : list dict :=
  match rows with
  | [] => []
  | item :: rows =>
      let rest := failed_rows conv rows (fst (handshake_item conv item s)) in
      if is_ok (snd (row_work conv item s)) then rest else item :: rest
  end.

Lemma apply_asked conv key item s : apply_handshake conv key (get_str0 "kind" item) (get_str0 "mls_message_b64" item) item s =
  (do! _ := asked conv item in mark_seen key) s.
Proof using.
  unfold apply_handshake, asked, st_bind, st_lift, st_get. destruct (String.eqb _ "welcome").
  - destruct (get_int0 _ _) as [t|e]; [|done]. destruct (_ && _); [done|]. destruct (bool_decide _); [done|].
    by destruct (join_mls_group_from_welcome conv _ s) as [s1 [r|e]].
  - destruct (String.eqb _ "commit"); [|done]. by destruct (process_mls_commit conv _ s) as [s1 [r|e]].
Qed.
Lemma within_asked s conv item : within groups_only (mls_file s) s (asked conv item).
Proof using. unfold asked. within_tac; solve [apply within_join|apply within_commit]. Qed.

(** A row whose work succeeds is done; one whose work fails is not marked. *)
Lemma row_outcome conv item s : is_ok (get_int0 "id" item) = true ->
  let s1 := fst (handshake_item conv item s) in
  if is_ok (snd (row_work conv item s)) then row_done s1 item else mls_handshake_seen s1 = mls_handshake_seen s.
Proof using.
  intros [id Hid]%is_ok_inv. unfold handshake_item, row_work. rewrite !st_bind_lift, Hid.
  rewrite !(run_bind st_get _ s s s) by done. destruct (bool_decide_reflect (seen_key id (get_str0 "kind" item) item ∈ mls_handshake_seen s)) as [Hk|Hk].
  { right. by exists (seen_key id (get_str0 "kind" item) item); split; [exists id|]. }
  destruct (nonempty _) eqn:Hm; [|left; by destruct (get_str0 "mls_message_b64" item)].
  cbn [negb orb]. unfold logged, st_catch. rewrite apply_asked. unfold st_bind.
  pose proof (within_run _ _ _ (within_asked s conv item)) as [[Hw _] _].
  destruct (asked conv item s) as [s1 [[]|e]]; cbn in *; [|done]. right.
  exists (seen_key id (get_str0 "kind" item) item). split; [by exists id|]. cbn. set_solver.
Qed.
Lemma row_done_mono s s' item : mls_handshake_seen s ⊆ mls_handshake_seen s' -> row_done s item -> row_done s' item.
Proof using. intros Hsub [H|(key & Hk & Hin)]; [by left|right; exists key; set_solver]. Qed.

Lemma rows_outcome conv rows s : Forall (fun d => is_ok (get_int0 "id" d) = true) rows ->
  forall i item, rows !! i = Some item -> let si := fst (st_for (take i rows) (handshake_item conv) s) in
  let s1 := fst (handshake_item conv item si) in
  if is_ok (snd (row_work conv item si)) then row_done (fst (st_for rows (handshake_item conv) s)) item
  else mls_handshake_seen s1 = mls_handshake_seen si.
Proof using.
  intros H. revert s. induction H as [|d rows Hd Hrows IH]; intros s i item Hi; [done|]. cbv zeta.
  destruct (handshake_item_total s conv d Hd) as (s1 & E & _). pose proof (row_outcome conv d s Hd) as Ho.
  destruct (rows_total s1 conv rows Hrows) as (s2 & E2 & [[Hs2 _] _]).
  destruct i as [|i]; cbn in Hi.
  - injection Hi as <-. cbn [take st_for]. change (fst (st_ret tt s)) with s. rewrite (run_bind _ _ _ _ _ E), E2.
    cbv zeta in Ho. rewrite E in Ho |- *. cbn [fst] in *. destruct (is_ok (snd (row_work conv d s))); [by eapply row_done_mono|done].
  - cbn [take st_for]. rewrite !(run_bind _ _ _ _ _ E). by apply IH.
Qed.

Lemma replay_runs_failed conv rows s : Forall (fun d => is_ok (get_int0 "id" d) = true) rows ->
  forall s2, mls_handshake_seen (fst (st_for rows (handshake_item conv) s)) ⊆ mls_handshake_seen s2 ->
  st_for rows (handshake_item conv) s2 = st_for (failed_rows conv rows s) (handshake_item conv) s2.
Proof using.
  intros H. revert s. induction H as [|d rows Hd Hrows IH]; intros s s2 Hsub; [done|].
  destruct (handshake_item_total s conv d Hd) as (s1 & E & _). pose proof (row_outcome conv d s Hd) as Ho.
  destruct (rows_total s1 conv rows Hrows) as (s' & E2 & [[Hs _] _]).
  cbn [st_for failed_rows] in *. rewrite (run_bind _ _ _ _ _ E), E2 in Hsub. cbv zeta in Ho. rewrite E in *. cbn [fst] in *.
  destruct (is_ok (snd (row_work conv d s))).
  - rewrite (run_bind _ _ s2 s2 tt); [apply IH; by rewrite E2|]. apply done_row_skipped; [|done].
    eapply row_done_mono; [|exact Ho]. set_solver.
  - cbn [st_for]. unfold st_bind at 1 2. destruct (handshake_item_total s2 conv d Hd) as (s3 & E3 & [[H3 _] _]). rewrite E3.
    apply IH. rewrite E2. set_solver.
Qed.

(** C37: Replaying handshake rows. The rows the server stored are processed without
    ever raising, failures of the bridge included; only the state of groups and its
    file may change (the ratchets of direct conversations, the identity and every
    other file do not), and no row is forgotten. A row whose work succeeds when its turn
    comes is marked as seen, one whose work fails is not; so when the list is replayed,
    then or at any later time before the marks are lost, exactly the rows that failed are
    tried again: when none failed, the replay changes nothing and asks the bridge
    nothing. *)
Theorem handshake_replay_idempotent s conv items rows :
  sorted_rows items = Ok rows ->
  exists s', process_mls_handshake_items conv items s = (s', Ok tt) /\
    mls_only s s' /\ (forall p, p <> mls_state_path s -> files (os s') !! p = files (os s) !! p) /\
    (forall i item, rows !! i = Some item ->
       let si := fst (st_for (take i rows) (handshake_item conv) s) in
       if is_ok (snd (row_work conv item si)) then row_done s' item
       else mls_handshake_seen (fst (handshake_item conv item si)) = mls_handshake_seen si) /\
    (forall s2, mls_handshake_seen s' ⊆ mls_handshake_seen s2 ->
       process_mls_handshake_items conv items s2 = st_for (failed_rows conv rows s) (handshake_item conv) s2).
Proof using.
  intros Hrows. pose proof (sorted_rows_ids items rows Hrows) as Hids.
  destruct (rows_total s conv rows Hids) as (s' & E & [Hm Hf]).
  exists s'. unfold process_mls_handshake_items. rewrite st_bind_lift, Hrows.
  split; [done|]. split; [done|]. split; [done|]. split.
  - intros i item Hi. pose proof (rows_outcome conv rows s Hids i item Hi) as Ho. by rewrite E in Ho.
  - intros s2 Hsub. rewrite st_bind_lift. apply replay_runs_failed; [done|]. by rewrite E.
Qed.

Lemma apply_commit_unready s conv key m item :
  conv ∉ mls_group_ready s -> apply_handshake conv key "commit" m item s = mark_seen key s.
Proof using.
  intros Hr.
  change (apply_handshake conv key "commit" m item s)
    with (st_bind (process_mls_commit conv m) (fun _ => mark_seen key) s).
  unfold process_mls_commit, st_bind, st_get. by rewrite bool_decide_false.
Qed.

(** A commit seen too early is lost. A commit of a group this account has not
    joined yet (its welcome failed, or comes later) is marked as seen without being
    given to the bridge, so when the group has been joined, replaying the rows
    never applies it. *)
Theorem early_commit_lost s conv item key :
  conv ∉ mls_group_ready s -> get_str0 "kind" item = "commit" -> get_str0 "mls_message_b64" item <> "" ->
  row_key item key -> key ∉ mls_handshake_seen s ->
  exists s', handshake_item conv item s = (s', Ok tt) /\ mls_bridge s' = mls_bridge s /\
    key ∈ mls_handshake_seen s' /\
    forall s2, mls_only s' s2 -> handshake_item conv item s2 = (s2, Ok tt).
Proof using.
  intros Hr Hkind Hm Hkey Hk. pose proof Hkey as (id & Hid & ->).
  eexists. split; [|split; [|split]].
  - unfold handshake_item, st_bind, st_lift, st_get. rewrite Hid, bool_decide_false by done.
    rewrite nonempty_spec by done. cbn [negb]. set (key := seen_key _ _ _). rewrite Hkind.
    unfold logged, st_catch. by rewrite apply_commit_unready.
  - reflexivity.
  - cbn. set_solver.
  - intros s2 [Hsub _]. apply done_row_skipped; [|by rewrite Hid]. right.
    exists (seen_key id (get_str0 "kind" item) item). split; [done|]. apply Hsub. cbn. set_solver.
Qed.
End replay.

(** ** A bridge that stops *)

Section crash.
Context `{P : Prims, O : Os}.

(** The lines that give a process an identity. *)
Definition command_prefix (cmd : string) : string := "{" +:+ json_str "cmd" +:+ ":" +:+ json_str cmd.
Definition setup_line (line : string) : bool :=
  starts_with (command_prefix "init_identity") line || starts_with (command_prefix "import_state") line.

(** A process that was never given an identity refuses what it is asked. *)
Definition refuses_strangers : Prop :=
  forall lines, lines <> [] -> Forall (fun l => setup_line l = false) lines ->
  exists reply, bridge_reply lines = Some reply /\ nonempty reply = true /\ is_ok (read_reply reply) = false.

(** The session believes the group is ready, its process knows nothing. *)
Definition stranded (conv : Z) (s : session) : Prop :=
  mls_identity_ready s = true /\ conv ∈ mls_group_ready s /\
  Forall (fun l => setup_line l = false) (default [] (bridge_lines s)).

Lemma stranded_set conv s lines :
  stranded conv s -> Forall (fun l => setup_line l = false) (default [] lines) ->
  stranded conv (s <| mls_bridge := Some lines |>).
Proof using. intros (H1 & H2 & _) H. done. Qed.

(** An encryption asked of such a process fails and leaves everything so. *)
Lemma stranded_encrypt conv text s :
  refuses_strangers -> stranded conv s -> mls_bridge s <> None ->
  exists s' e, encrypt_application conv text s = (s', Err e) /\ stranded conv s' /\ mls_bridge s' <> None.
Proof using.
  intros Hr Hs Hb. unfold encrypt_application, st_bind at 1, st_lift.
  destruct (utf8_encode text) as [raw|e]; [|by eexists _, _].
  unfold st_bind at 1, command, bridge_start, st_bind at 1, st_bind at 1, st_get.
  set (line := json_dumps false false _ +:+ _).
  assert (Hline : setup_line line = false) by reflexivity.
  assert (Hgo : forall s1, stranded conv s1 ->
    exists s' e, st_bind (st_bind (st_lift (utf8_encode line)) (fun raw =>
      st_bind st_get (fun s => let lines := default [] (bridge_lines s) ++ [raw] in
      st_bind (set_lines (Some lines)) (fun _ => match bridge_reply lines with
        | Some raw => if nonempty raw then st_lift (read_reply raw)
                      else st_bind (set_lines None) (fun _ => st_fail bridge_stopped)
        | None => st_bind (set_lines None) (fun _ => st_fail bridge_stopped) end))))
      (fun result => st_bind (st_lift (ditem "message_b64" result)) (fun v => st_ret (py_str v))) s1 =
      (s', Err e) /\ stranded conv s' /\ (mls_bridge s1 <> None -> mls_bridge s' <> None)).
  { intros s1 Hs1. unfold st_bind at 1, st_bind at 1, st_lift at 1, utf8_encode.
    destruct (utf8_valid line); [|by eexists _, _].
    unfold st_bind at 1, st_get, st_bind at 1, set_lines, st_modify. cbv zeta.
    set (lines := default [] (bridge_lines s1) ++ [line]).
    assert (Hl : Forall (fun l => setup_line l = false) lines).
    { apply Forall_app. split; [apply Hs1|by constructor]. }
    destruct (Hr lines) as (reply & -> & -> & Hbad); [by destruct (default [] (bridge_lines s1))|done|].
    unfold st_lift. destruct (read_reply reply) as [d|e]; [done|].
    eexists _, e. split; [reflexivity|]. split; [by apply stranded_set|done]. }
  destruct (bridge_lines s) as [ls|] eqn:El.
  - destruct (Hgo s Hs) as (s' & e & E & H1 & H2). exists s', e. split; [exact E|]. auto.
  - destruct bridge_available.
    + destruct (Hgo (s <| mls_bridge := Some (Some []) |>)) as (s' & e & E & H1 & H2).
      { apply stranded_set; [done|constructor]. }
      exists s', e. split; [exact E|]. split; [done|]. by apply H2.
    + by exists s, bridge_missing.
Qed.

Fixpoint send_each (conv : Z) (texts : list string) : sm (list bool) :=
  match texts with
  | [] => st_ret []
  | t :: texts =>
      do! b := st_catch (do! _ := mls_application_wire conv t in st_ret true) (fun _ => st_ret false) in
      do! l := send_each conv texts in
      st_ret (b :: l)
  end.

Lemma stranded_sends conv texts s :
  refuses_strangers -> stranded conv s -> mls_bridge s <> None ->
  exists s', send_each conv texts s = (s', Ok (map (fun _ => false) texts)) /\ stranded conv s'.
Proof using.
  intros Hr. revert s. induction texts as [|t texts IH]; intros s Hs Hb; [by exists s|].
  cbn [send_each map]. pose proof Hs as (Hi & Hg & _).
  destruct (stranded_encrypt conv t s Hr Hs Hb) as (s1 & e & E & Hs1 & Hb1).
  destruct (IH s1 Hs1 Hb1) as (s2 & E2 & Hs2). exists s2. split; [|done].
  unfold st_bind at 1, st_catch. unfold st_bind at 1, mls_application_wire, st_bind at 1, st_get.
  rewrite bool_decide_true by done. cbn [negb]. unfold st_bind at 1, _require_mls_bridge, ensure_bridge.
  unfold st_bind at 1, st_bind at 1, st_get. destruct (mls_bridge s) as [b|]; [|done].
  unfold st_ret at 1, st_bind at 1. rewrite Hi. unfold st_ret at 1, st_bind at 1. rewrite E.
  unfold st_ret at 1, st_bind. by rewrite E2.
Qed.

(** A bridge that stops is not recovered. When the process stops, the command
    raises, but the session goes on as if its groups were ready: the next commands
    start a process that is given neither the identity nor the saved state, so
    every later message to the group fails, however often it is tried. *)
Theorem bridge_crash_not_recovered conv text s lines texts :
  refuses_strangers -> mls_bridge s = Some (Some lines) -> mls_identity_ready s = true ->
  conv ∈ mls_group_ready s -> utf8_valid text = true -> (forall line, bridge_reply (lines ++ [line]) = None) ->
  exists s1 s2, mls_application_wire conv text s = (s1, Err bridge_stopped) /\
    mls_identity_ready s1 = true /\ conv ∈ mls_group_ready s1 /\
    send_each conv texts s1 = (s2, Ok (map (fun _ => false) texts)).
Proof using.
  intros Hr Hb Hi Hg Hv Hstop.
  set (s1 := s <| mls_bridge := Some None |>).
  destruct (stranded_sends conv texts s1 Hr) as (s2 & E2 & _); [by split_and!|done|].
  exists s1, s2. split; [|split; [done|split; [done|exact E2]]].
  unfold mls_application_wire, st_bind at 1, st_get. rewrite bool_decide_true by done. cbn [negb].
  unfold st_bind at 1, _require_mls_bridge, ensure_bridge, st_bind at 1, st_bind at 1, st_get. rewrite Hb.
  unfold st_ret at 1, st_bind at 1. rewrite Hi. unfold st_ret at 1.
  unfold st_bind at 1, encrypt_application, st_bind at 1, st_lift, utf8_encode. rewrite Hv.
  unfold command, bridge_start, st_bind at 1, st_bind at 1, st_bind at 1, st_get, bridge_lines. rewrite Hb.
  cbn [default]. unfold st_ret at 1, st_bind at 1, st_lift, utf8_encode.
  assert (Hu : forall v, py_ok v -> utf8_valid (json_dumps false false v +:+ String (chr8 10) "") = true).
  { intros v Hok. rewrite utf8_valid_app; [reflexivity|by apply json_dumps_valid]. }
  rewrite Hu by (py_ok_fields; apply utf8_valid_ascii, b64e_ascii).
  unfold st_bind, st_get, set_lines, st_modify, id. cbv beta iota. rewrite Hb. cbn [default]. unfold id.
  rewrite Hstop. unfold s1. by destruct s.
Qed.
End crash.

(** ** Witnesses *)

(** A world whose bridge process stops at the first command after its set-up, and
    refuses everything without one. *)
Definition refusal : string := json_dumps false false (PDict [("ok", PBool false)]).
Definition stopping_os : Os := {|
  os_clock _ := 0; os_random n k := fill "A" k; os_io _ := true; os_scan _ l := l;
  bridge_installed := true;
  bridge_reply lines := if existsb setup_line lines then None else Some refusal
|}.

Definition demo_setup : string := command_prefix "init_identity" +:+ "}".

Definition group_session : session :=
  demo_session <| mls_bridge := Some (Some [demo_setup]) |> <| mls_identity_ready := true |>
    <| mls_group_ready := {[ 7 ]} |>.

Lemma stopping_refuses : refuses_strangers (O := stopping_os).
Proof.
  intros lines _ Hl. exists refusal. split; [|split; reflexivity]. cbn.
  assert (existsb setup_line lines = false) as ->; [|done].
  induction Hl as [|l lines Hl _ IH]; [done|]. cbn [existsb]. by rewrite Hl, IH.
Qed.

Lemma bridge_crash_not_recovered_witness :
  exists s1 s2,
    mls_application_wire (P := reference_prims) (O := stopping_os) 7 "hello" group_session = (s1, Err bridge_stopped) /\
    mls_identity_ready s1 = true /\
    send_each (P := reference_prims) (O := stopping_os) 7 ["again"; "and again"] s1 = (s2, Ok [false; false]).
Proof.
  destruct (bridge_crash_not_recovered (P := reference_prims) (O := stopping_os) 7 "hello" group_session
    [demo_setup] ["again"; "and again"] stopping_refuses eq_refl eq_refl)
    as (s1 & s2 & E1 & Hi & _ & E2).
  - cbn. apply elem_of_singleton. reflexivity.
  - reflexivity.
  - intros line. reflexivity.
  - exists s1, s2. split; [exact E1|]. split; [exact Hi|exact E2].
Defined.

Definition demo_welcome : dict :=
  [("id", PInt 2); ("kind", PStr "welcome"); ("epoch", PInt 1); ("mls_message_b64", PStr "AAAA")].
Definition demo_commit : dict :=
  [("id", PInt 3); ("kind", PStr "commit"); ("epoch", PInt 2); ("mls_message_b64", PStr "BBBB")].

(** A bridge that applies every commit but one. *)
Definition answering_os : Os := {|
  os_clock _ := 0; os_random n k := fill "A" k; os_io _ := true; os_scan _ l := l;
  bridge_installed := true;
  bridge_reply lines := Some (if contains "CCCC" (List.last lines "") then refusal
    else json_dumps false false (PDict [("ok", PBool true); ("epoch", PInt 2); ("state_b64", PStr "AAAA")]))
|}.
Definition broken_commit : dict :=
  [("id", PInt 4); ("kind", PStr "commit"); ("epoch", PInt 3); ("mls_message_b64", PStr "CCCC")].

Lemma handshake_replay_idempotent_witness :
  let run l := process_mls_handshake_items (P := reference_prims) (O := answering_os) 7 l in
  exists s', run [PDict broken_commit; PDict demo_commit] group_session = (s', Ok tt) /\
    group_epochs s' !! 7 = Some 2 /\ row_done s' demo_commit /\
    (forall s2, mls_handshake_seen s' ⊆ mls_handshake_seen s2 ->
       run [PDict broken_commit; PDict demo_commit] s2 = st_for [broken_commit] (handshake_item (P := reference_prims) (O := answering_os) 7) s2).
Proof.
  destruct (handshake_replay_idempotent (P := reference_prims) (O := answering_os) group_session 7
    [PDict broken_commit; PDict demo_commit] [demo_commit; broken_commit]) as (s' & E & _ & _ & Hrow & Hreplay).
  - vm_compute. reflexivity.
  - exists s'. split; [exact E|]. split; [|split].
    + apply (f_equal (fun r => group_epochs (fst r) !! 7)) in E. vm_compute in E. exact (eq_sym E).
    + specialize (Hrow 0%nat demo_commit eq_refl). vm_compute in Hrow. exact Hrow.
    + intros s2 Hs2. rewrite (Hreplay s2 Hs2). f_equal.
Defined.

Lemma early_commit_lost_witness :
  exists s', handshake_item (P := reference_prims) (O := stopping_os) 8 demo_commit group_session = (s', Ok tt) /\
    mls_bridge s' = Some (Some [demo_setup]) /\ "3:commit:2" ∈ mls_handshake_seen s' /\
    handshake_item (P := reference_prims) (O := stopping_os) 8 demo_commit (s' <| mls_group_ready := {[ 8 ]} |>) =
      (s' <| mls_group_ready := {[ 8 ]} |>, Ok tt).
Proof.
  destruct (early_commit_lost (P := reference_prims) (O := stopping_os) group_session 8 demo_commit "3:commit:2")
    as (s' & E & Hb & Hs & Hlater).
  - apply (bool_decide_unpack _). vm_compute. exact I.
  - reflexivity.
  - discriminate.
  - exists 3. split; reflexivity.
  - apply not_elem_of_empty.
  - exists s'. split; [exact E|]. split; [exact Hb|]. split; [exact Hs|]. apply Hlater.
    split; [reflexivity|destruct s'; reflexivity].
Defined.
