(* ===== verification/GroupMessageProps.v ===== *)
(** * Group messages end to end *)

From S2P Require Import Prelude Hashing Base64 PyVal Sorting Json JsonFacts Crypto Wire Ratchet.
From S2P Require Import RatchetFacts Pqxdh AuditClient Utils Session SessionFacts CacheStore Transcript.
From S2P Require Import Identity DrStore DrFacts IdentityAudit MlsBridge Mls MlsProps Messages MessageFacts.

(** The lines of the two application commands. *)
Definition command_line (cmd : string) (kw : dict) : string :=
  json_dumps false false (PDict (("cmd", PStr cmd) :: kw)) +:+ String (chr8 10) "".
Definition encrypt_line (conv : Z) (plain : string) : string :=
  command_line "encrypt_application" [("conversation_id", PInt conv); ("plaintext_b64", PStr (b64e plain))].
Definition decrypt_line (conv : Z) (message : string) : string :=
  command_line "decrypt_application" [("conversation_id", PInt conv); ("message_b64", PStr message)].

(** The reply of a process to one more line has this string in a field. *)
Definition answers (O : Os) (lines : list string) (line field value : string) : Prop :=
  exists reply d, bridge_reply (Os := O) (lines ++ [line]) = Some reply /\ nonempty reply = true /\
    read_reply reply = Ok d /\ dlookup field d = Some (PStr value).

(** What the group protocol promises: what one member's process encrypts, the
    process of another member in the same epoch decrypts. *)
Definition carries (OA OB : Os) (linesA linesB : list string) (conv : Z) : Prop :=
  forall plain, utf8_valid plain = true -> exists message, utf8_valid message = true /\
    answers OA linesA (encrypt_line conv plain) "message_b64" message /\
    answers OB linesB (decrypt_line conv message) "plaintext_b64" (b64e plain).

(** A session whose group is ready, with its process. *)
Record in_group (s : session) (conv : Z) (lines : list string) : Prop := {
  ig_group : conv ∈ group_conv_ids s;
  ig_ready : conv ∈ mls_group_ready s;
  ig_identity : mls_identity_ready s = true;
  ig_bridge : mls_bridge s = Some (Some lines)
}.

Lemma in_group_same s s' conv lines : in_group s conv lines -> same_session s s' -> in_group s' conv lines.
Proof. intros [H1 H2 H3 H4] Hs. split; by same_fields Hs. Qed.

Section group.
Context `{P : Prims, O : Os}.

Lemma command_runs s conv lines cmd kw field value :
  in_group s conv lines -> py_ok (PDict (("cmd", PStr cmd) :: kw)) ->
  answers O lines (command_line cmd kw) field value ->
  exists d, command cmd kw s = (s <| mls_bridge := Some (Some (lines ++ [command_line cmd kw])) |>, Ok d) /\
    dlookup field d = Some (PStr value).
Proof using.
  intros [_ _ _ Hb] Hok (reply & d & Hr & Hn & Hd & Hf). exists d. split; [|done].
  unfold command, bridge_start, st_bind at 1, st_bind at 1, st_get, bridge_lines. rewrite Hb.
  change (default None (Some (Some lines))) with (Some lines). cbv iota. fold (command_line cmd kw).
  unfold st_ret at 1, st_bind at 1, st_lift at 1, utf8_encode.
  assert (utf8_valid (command_line cmd kw) = true) as ->.
  { unfold command_line. rewrite utf8_valid_app; [reflexivity|by apply json_dumps_valid]. }
  unfold st_bind, st_get, set_lines, st_modify. rewrite Hb.
  change (default [] (default None (Some (Some lines)))) with lines. cbv zeta. by rewrite Hr, Hn, <- Hd.
Qed.

Lemma save_mls_total s : exists s', _save_mls_state s = (s', Ok tt) /\ mls_only s s'.
Proof using.
  pose proof (within_run _ _ _ (within_save_mls s)) as [[_ Hw] _].
  destruct (_save_mls_state s) as [s' r] eqn:E. cbn [fst] in Hw. exists s'. split; [|done].
  revert E. unfold _save_mls_state, st_bind at 1, st_get. destruct (_ || _); [by intros [= <- <-]|].
  destruct (negb _); [by intros [= <- <-]|]. unfold logged, st_catch.
  lazymatch goal with |- context [match ?m s with (_, _) => _ end] =>
    destruct (m s) as [s1 [[]|e]]; by intros [= <- <-] end.
Qed.

Lemma require_runs s conv lines : in_group s conv lines -> _require_mls_bridge s = (s, Ok tt).
Proof using.
  intros [_ _ Hi Hb]. unfold _require_mls_bridge, ensure_bridge, st_bind, st_get. rewrite Hb.
  unfold st_ret. by rewrite Hi.
Qed.

Definition group_wire (conv sender epoch : Z) (message : string) : string :=
  PREFIX_MLS +:+ b64e (json_dumps false false (mls_payload conv sender epoch message)).

Lemma payload_ok conv sender epoch message :
  utf8_valid message = true -> py_ok (mls_payload conv sender epoch message).
Proof using. intros H. unfold mls_payload. py_ok_fields. Qed.

Lemma group_sends s conv lines plain message :
  in_group s conv lines -> utf8_valid plain = true -> utf8_valid message = true ->
  answers O lines (encrypt_line conv plain) "message_b64" message ->
  exists s' sender epoch, mls_application_wire conv plain s = (s', Ok (group_wire conv sender epoch message)).
Proof using.
  intros Hg Hp Hm Ha. unfold mls_application_wire, st_bind at 1, st_get.
  rewrite bool_decide_true by apply (ig_ready _ _ _ Hg). cbn [negb]. unfold st_bind at 1.
  rewrite (require_runs s conv lines Hg). unfold st_bind at 1, encrypt_application, st_bind at 1, st_lift at 1, utf8_encode.
  rewrite Hp. destruct (command_runs s conv lines "encrypt_application"
    [("conversation_id", PInt conv); ("plaintext_b64", PStr (b64e plain))] "message_b64" message Hg)
    as (d & E & Hd); [py_ok_fields; apply utf8_valid_ascii, b64e_ascii|done|].
  unfold st_bind at 1. rewrite E. unfold st_bind at 1, st_lift at 1, ditem. rewrite Hd. cbn [of_option].
  unfold st_ret at 1, st_bind at 1.
  lazymatch goal with |- context [_save_mls_state ?x] => destruct (save_mls_total x) as (s' & -> & _) end.
  unfold st_bind, st_get, st_lift. rewrite json_b64_ok by (by apply payload_ok).
  by eexists _, _, _.
Qed.

Lemma group_opens s conv lines sender epoch plain message :
  in_group s conv lines -> utf8_valid plain = true -> utf8_valid message = true ->
  answers O lines (decrypt_line conv message) "plaintext_b64" (b64e plain) ->
  exists s', open_mls_application_wire conv (group_wire conv sender epoch message) s = (s', Ok plain).
Proof using.
  intros Hg Hp Hm Ha. unfold open_mls_application_wire, st_bind at 1, st_lift at 1, mls_payload_of, group_wire.
  rewrite sdrop_app, json_unb64_ok by (by apply payload_ok). cbn [res_bind].
  change (as_dict (mls_payload conv sender epoch message))
    with (Ok [("schema_version", PInt 1); ("kind", PStr "application"); ("conversation_id", PInt conv);
              ("sender_uid", PInt sender); ("epoch_hint", PInt epoch); ("message_b64", PStr message)]).
  lazymatch goal with |- context [Ok ?d] => set (payload := d) end. cbv iota.
  change (negb (py_eqb (dget "kind" PNone payload) (PStr "application"))) with false. cbv iota.
  unfold st_bind at 1, st_lift at 1.
  change (dget "conversation_id" (PInt conv) payload) with (PInt conv).
  assert (Hc : py_int (py_or (PInt conv) (PInt 0)) = Ok conv)
    by (unfold py_or; cbn; destruct (Z.eqb_spec conv 0) as [->|]; done).
  rewrite Hc, Z.eqb_refl, andb_false_r. unfold st_bind at 1, st_get.
  rewrite bool_decide_true by apply (ig_ready _ _ _ Hg). cbn [negb]. unfold st_bind at 1.
  rewrite (require_runs s conv lines Hg).
  assert (Hmsg : get_str0 "message_b64" payload = message)
    by (unfold get_str0, dget, py_or; cbn; destruct message; done).
  rewrite Hmsg. unfold st_bind at 1, decrypt_application, st_bind at 1.
  destruct (command_runs s conv lines "decrypt_application"
    [("conversation_id", PInt conv); ("message_b64", PStr message)] "plaintext_b64" (b64e plain) Hg)
    as (d & -> & Hd); [py_ok_fields|done|].
  unfold st_bind at 1, st_lift, ditem. rewrite Hd. cbn [of_option py_str]. rewrite b64d_b64e. cbn [res_bind].
  unfold utf8_decode. rewrite Hp. unfold st_bind.
  lazymatch goal with |- context [_save_mls_state ?x] => destruct (save_mls_total x) as (s' & -> & _) end.
  by exists s'.
Qed.

(** A group wire is no first message, control or ratchet message. *)
Lemma live_group_message oqs conv sender uid epoch message s :
  utf8_valid message = true -> sender <> my_uid s ->
  decrypt_live_message oqs (live_msg conv sender (group_wire conv uid epoch message)) s =
    live_mls conv (group_wire conv uid epoch message) s.
Proof using.
  intros Hm Hne. unfold decrypt_live_message, st_bind at 1, st_lift at 1.
  rewrite (get_int0_field "conversation_id" _ conv) by done. unfold st_bind at 1, st_lift at 1.
  assert (Hs : py_int (py_or (dget "from_id" (PInt 0) (live_msg conv sender (group_wire conv uid epoch message)))
    (py_or (dget "sender_id" (PInt 0) (live_msg conv sender (group_wire conv uid epoch message))) (PInt 0))) = Ok sender).
  { unfold dget, py_or. cbn. destruct (Z.eqb_spec sender 0) as [->|]; done. }
  rewrite Hs. cbv zeta.
  change (py_or (dget "body" (PStr "") (live_msg conv sender (group_wire conv uid epoch message))) (PStr ""))
    with (PStr (group_wire conv uid epoch message)).
  change (has_prefix PREFIX_PQ_INIT (PStr (group_wire conv uid epoch message))) with false. cbv iota.
  unfold st_bind at 1, handle_group_integrity_control, group_wire.
  rewrite starts_with_app, sdrop_app, json_unb64_ok by (by apply payload_ok). cbn [negb].
  unfold st_bind, st_lift, st_get. cbn [mls_payload as_dict].
  lazymatch goal with |- context [py_eqb ?k ?x] => change (py_eqb k x) with false end. cbv iota. unfold st_ret.
  assert ((sender =? my_uid s) = false) as -> by (by apply Z.eqb_neq). rewrite andb_false_r. reflexivity.
Qed.
End group.

Section group_props.
Context `{P : Prims}.
Variable oqs : option (option (list string)).

(** C9: a group message end to end. When the group protocol carries the messages of
    one member to another, what [encrypt_for_conv] makes of a text in a group of the
    first, delivered live to the second, is shown as the same text, whether or not
    either can save its state. *)
Theorem group_message_delivered (OA OB : Os) (LA : OsLaws OA) conv sA sB linesA linesB sender body :
  in_group sA conv linesA -> in_group sB conv linesB -> carries OA OB linesA linesB conv ->
  utf8_valid body = true -> sender <> my_uid sB ->
  exists wire sA' sB',
    encrypt_for_conv (O := OA) conv (PStr body) sA = (sA', Ok wire) /\
    decrypt_live_message (O := OB) oqs (live_msg conv sender wire) sB =
      (sB', Ok (message_result (PStr body))).
Proof.
  intros HgA HgB Hcarry Hb Hne. destruct (pack_runs (O := OA) body sA Hb) as (s1 & pad & E1 & Hs1 & _).
  set (t := json_dumps false false (padded body (b64encode pad))) in *.
  assert (Ht : utf8_valid t = true) by (by apply json_dumps_valid, padded_ok, b64encode_ascii).
  assert (Hun : unpack_plaintext (PStr t) = Ok (PStr body)) by (by apply unpack_padded, b64encode_ascii).
  destruct (Hcarry t Ht) as (message & Hm & HaA & HaB).
  pose proof (in_group_same _ _ _ _ HgA Hs1) as Hg1.
  destruct (group_sends (O := OA) s1 conv linesA t message Hg1 Ht Hm HaA) as (s2 & uid & epoch & E2).
  destruct (group_opens (O := OB) sB conv linesB uid epoch t message HgB Ht Hm HaB) as (s3 & E3).
  exists (group_wire conv uid epoch message), s2, s3. split.
  - unfold encrypt_for_conv, st_bind. rewrite E1. unfold st_get.
    rewrite bool_decide_true by apply (ig_group _ _ _ Hg1). exact E2.
  - rewrite live_group_message by done. unfold live_mls, st_catch, st_bind. rewrite E3.
    unfold st_lift. by rewrite Hun.
Qed.
End group_props.

(** ** Witness

    A bridge whose messages are the plaintexts themselves, for conversation 7. *)

Definition open_reply (field value : string) : string :=
  json_dumps false false (PDict [("ok", PBool true); (field, PStr value)]).

(** The value between the known ends of a line. *)
Definition line_end : string := String dq "}" +:+ String (chr8 10) "".
Definition line_start (cmd field : string) : string :=
  "{" +:+ json_str "cmd" +:+ ":" +:+ json_str cmd +:+ "," +:+ json_str "conversation_id" +:+ ":7," +:+
  json_str field +:+ ":" +:+ String dq "".
Definition value_of (start line : string) : string :=
  let rest := sdrop (String.length start) line in
  stake (String.length rest - String.length line_end) rest.

Definition echo_os : Os := {|
  os_clock _ := 0; os_random n k := fill "A" k; os_io _ := true; os_scan _ l := l;
  bridge_installed := true;
  bridge_reply lines :=
    match last lines with
    | Some line =>
        let e := line_start "encrypt_application" "plaintext_b64" in
        let d := line_start "decrypt_application" "message_b64" in
        if starts_with e line then Some (open_reply "message_b64" (value_of e line))
        else Some (open_reply "plaintext_b64" (value_of d line))
    | None => None
    end
|}.

#[local] Instance echo_laws : OsLaws echo_os.
Proof. split; [intros; apply fill_length|done]. Qed.

Lemma b64e_escape x : escape_body (b64e x) = b64e x.
Proof.
  apply escape_plain. rewrite b64e_body. apply b64_body_all.
  apply (check64_spec (fun z => plain_char (b64_url z))). vm_compute. reflexivity.
Qed.

Lemma line_shape cmd field x :
  command_line cmd [("conversation_id", PInt 7); (field, PStr (b64e x))] = line_start cmd field +:+ b64e x +:+ line_end.
Proof.
  unfold command_line, json_dumps, line_start, line_end. cbn [json_print map join fst snd item_sep key_sep].
  change (json_str (b64e x)) with (String dq (escape_body (b64e x) +:+ String dq "")).
  rewrite b64e_escape. change (dec 7) with "7".
  repeat (rewrite !sapp_assoc; cbn [String.append]). reflexivity.
Qed.

Lemma value_of_line start x : value_of start (start +:+ x +:+ line_end) = x.
Proof.
  unfold value_of. rewrite sdrop_app, sapp_length, Nat.add_sub. apply stake_app.
Qed.

Lemma echo_reply field value : utf8_valid value = true -> utf8_valid field = true -> field <> "ok" ->
  read_reply (open_reply field value) = Ok [("ok", PBool true); (field, PStr value)] /\
  nonempty (open_reply field value) = true.
Proof.
  intros Hv Hf Hne. unfold read_reply, open_reply. rewrite json_loads_dumps.
  - split; reflexivity.
  - apply py_ok_dict. split.
    + apply NoDup_cons_2; [intros H%list_elem_of_singleton; by apply Hne|apply NoDup_singleton].
    + constructor; [by split|]. constructor; [by split|constructor].
Qed.

Lemma echo_carries linesA linesB : carries echo_os echo_os linesA linesB 7.
Proof.
  intros plain Hp. assert (Hv : utf8_valid (b64e plain) = true) by (apply utf8_valid_ascii, b64e_ascii).
  exists (b64e plain). split; [done|]. split.
  - destruct (echo_reply "message_b64" (b64e plain) Hv eq_refl) as [Hr Hn]; [discriminate|].
    exists (open_reply "message_b64" (b64e plain)). eexists. split; [|split; [exact Hn|split; [exact Hr|reflexivity]]].
    cbn [bridge_reply echo_os]. rewrite last_snoc. unfold encrypt_line. rewrite line_shape, starts_with_app.
    by rewrite value_of_line.
  - destruct (echo_reply "plaintext_b64" (b64e plain) Hv eq_refl) as [Hr Hn]; [discriminate|].
    exists (open_reply "plaintext_b64" (b64e plain)). eexists. split; [|split; [exact Hn|split; [exact Hr|reflexivity]]].
    cbn [bridge_reply echo_os]. rewrite last_snoc. unfold decrypt_line. rewrite line_shape, value_of_line. reflexivity.
Qed.

Definition group_member (uid : Z) : session :=
  demo_session <| my_uid := uid |> <| group_conv_ids := {[ 7 ]} |> <| mls_group_ready := {[ 7 ]} |>
    <| mls_identity_ready := true |> <| mls_bridge := Some (Some []) |>.

Lemma group_member_in uid : in_group (group_member uid) 7 [].
Proof. split; [cbn; by apply elem_of_singleton|cbn; by apply elem_of_singleton|done|done]. Qed.

Lemma group_message_delivered_witness :
  exists wire sA' sB',
    encrypt_for_conv (P := reference_prims) (O := echo_os) 7 (PStr "hello") (group_member 1) = (sA', Ok wire) /\
    decrypt_live_message (P := reference_prims) (O := echo_os) None (live_msg 7 1 wire) (group_member 2) =
      (sB', Ok (message_result (PStr "hello"))).
Proof.
  apply (group_message_delivered (P := reference_prims) None echo_os echo_os echo_laws 7 (group_member 1)
    (group_member 2) [] [] 1 "hello").
  - apply group_member_in.
  - apply group_member_in.
  - apply echo_carries.
  - reflexivity.
  - discriminate.
Defined.
