(* ===== verification/Cleanup.v ===== *)
(** * Clean-up and re-wrapping of local state (client/crypto_engine/session.py)

    Forgetting the state of an account or of a conversation, and
    [rewrap_local_state], which seals every local file again when the password
    changes: the files are opened under the old master key and written under the
    new one, one after the other. A pattern of files is a prefix and [".bin"]
    ([Star]) or a plain name ([Name]). *)

From S2P Require Import Prelude Base64 PyVal Json Crypto Wire AuditClient Utils Session CacheStore.

Inductive pattern := Star (prefix : string) | Name (name : string).

Section cleanup.
Context `{P : Prims, O : Os}.

(** [glob.glob(os.path.join(self.secchat_dir, pattern))]. *)
Definition glob_pattern (p : pattern) : sm (list string) :=
  match p with
  | Star prefix => glob prefix ".bin"
  | Name name =>
      do! s := st_get in
      st_ret (if path_exists s (local_path s name) then [local_path s name] else [])
  end.

(** [glob.glob] of each pattern in turn, in one list. *)
Fixpoint glob_all (ps : list pattern) : sm (list string) :=
  match ps with
  | [] => st_ret []
  | p :: ps =>
      do! l := glob_pattern p in
      do! rest := glob_all ps in
      st_ret (l ++ rest)
  end.

(** [os.remove(path)], an [OSError] being ignored. *)
Definition try_remove (path : string) : sm unit := st_catch (remove_file path) (fun _ => st_ret tt).

(** ** Forgetting *)

Definition stale_patterns : list pattern :=
  [Star "verified_"; Star "msgs_"; Star "identity_audit_"; Name "auditor_state.bin";
   Name "cache_policy.bin"; Star "transcript_"; Name "pqxdh_prekeys.bin"; Star "dr_"; Star "mls_"].

Definition clear_stale_local_state : sm unit :=
  do! _ := st_modify (fun s => s <| conv_fingerprints := ∅ |> <| conv_verified := ∅ |>
    <| identity_audit_states := ∅ |> <| auditor_state := [] |> <| pqxdh_prekeys := PNone |>
    <| double_ratchet_states := ∅ |> <| double_ratchet_session_states := ∅ |>
    <| mls_group_ready := ∅ |> <| mls_handshake_seen := ∅ |>) in
  do! s := st_get in
  if negb (nonempty (secchat_dir s)) then st_ret tt
  else st_for stale_patterns (fun p =>
    do! paths := glob_pattern p in
    st_for paths try_remove).

Definition cleanup_conversation_state (conv_id : Z) : sm unit :=
  do! _ := st_modify (fun s => s <| conv_peer_uids ::= delete conv_id |>
    <| conv_verified ::= delete conv_id |> <| conv_fingerprints ::= delete conv_id |>
    <| double_ratchet_states ::= delete conv_id |>
    <| double_ratchet_session_states ::= delete conv_id |>
    <| mls_group_ready ::= fun x => x ∖ {[conv_id]} |>) in
  do! s := st_get in
  if negb (nonempty (secchat_dir s)) then st_ret tt
  else st_for [double_ratchet_path s conv_id; double_ratchet_sessions_path s conv_id;
               verified_path s conv_id]
    (fun path => do! s := st_get in st_when (path_exists s path) (try_remove path)).

(** ** Re-wrapping *)

(** The length of the line break [s] starts with: [\n], [\r], [\r\n], [\v], [\f],
    the separators 28 to 30, U+0085, U+2028 and U+2029. *)
Definition break_at (s : string) : nat :=
  let byte n := match String.get n s with Some c => code c | None => -1 end in
  let a := byte 0%nat in let b := byte 1%nat in let c := byte 2%nat in
  if (a =? 13) && (b =? 10) then 2%nat
  else if ((10 <=? a) && (a <=? 13)) || ((28 <=? a) && (a <=? 30)) then 1%nat
  else if (a =? 194) && (b =? 133) then 2%nat
  else if (a =? 226) && (b =? 128) && ((c =? 168) || (c =? 169)) then 3%nat
  else 0%nat.

(** [s.splitlines()]: no empty line after the last break; [skip] counts the bytes
    left of a break. *)
Fixpoint lines_from (skip : nat) (s : string) : list string :=
  match s with
  | EmptyString => []
  | String c s' =>
      match skip, break_at s with
      | S k, _ => lines_from k s'
      | 0%nat, S k => "" :: lines_from k s'
      | 0%nat, 0%nat => match lines_from 0 s' with
                | [] => [String c ""]
                | x :: l => String c x :: l
                end
      end
  end.
Definition splitlines (s : string) : list string := lines_from 0 s.

(** [encrypt_with_key] of a value that was sealed before: any JSON value. *)
Definition encrypt_value (nonce : bytes) (now_ms : Z) (key : bytes) (v : pyval) : res string :=
  let inner := json_dumps true false (PDict [("ts", PInt now_ms); ("body", v)]) in
  assert! aes_key_ok key else bad_key in
  let! raw := utf8_encode inner in
  Ok (b64encode (nonce +:+ aes_encrypt key nonce raw None)).

Definition seal_value (key : bytes) (v : pyval) : sm string :=
  do! nonce := urandom 12 in
  do! now := now_ms in
  st_lift (encrypt_value nonce now key v).

(** One line of a file: blank ones are dropped. *)
Definition rewrap_line (old_master new_master : bytes) (out : list string) (line : string) :
    sm (list string) :=
  if negb (nonempty (strip line)) then st_ret out
  else
    do! plain := st_lift (decrypt_with_key None old_master (strip line)) in
    do! token := seal_value new_master plain in
    st_ret (out ++ [token]).

Definition rewrap_file (old_master new_master : bytes) (line_mode : bool) (path : string) : sm unit :=
  do! s := st_get in
  if negb (path_exists s path) then st_ret tt
  else
    do! text := read_text path in
    do! out := st_fold (rewrap_line old_master new_master) [] (splitlines text) in
    let tmp := path +:+ ".tmp" in
    do! _ := write_text tmp (if line_mode then cache_text out else hd "" out) in
    replace_file tmp path.

Definition single_names (s : session) : list string :=
  [identity_key_path s; cache_policy_path s; backup_state_path s; auditor_state_path s;
   pqxdh_prekeys_path s].
Definition single_kinds : list pattern :=
  [Star "dr_"; Star "mls_"; Star "verified_"; Star "identity_audit_"; Star "transcript_"].

Definition rewrap_local_state (old_master new_master : bytes) : sm unit :=
  do! s := st_get in
  if negb (nonempty (secchat_dir s)) || negb (bool_decide (secchat_dir s ∈ dirs (os s))) then st_ret tt
  else
    do! found := glob_all single_kinds in
    do! _ := st_for (single_names s ++ found) (rewrap_file old_master new_master false) in
    do! caches := glob "msgs_" ".bin" in
    st_for caches (rewrap_file old_master new_master true).
End cleanup.
