(* ===== verification/CleanupProps.v ===== *)
(** * Theorems about re-wrapping and clean-up *)

From S2P Require Import Prelude Base64 PyVal Json JsonFacts Crypto Wire AuditClient Utils.
From S2P Require Import Session SessionFacts CacheStore CacheFacts Cleanup.

(** ** Lines *)

Lemma break_token c s : token_char c = true -> break_at (String c s) = 0%nat.
Proof.
  intros H. unfold break_at. cbn [String.get].
  unfold token_char, is_py_space, is_ascii in H. cbv zeta in H. pose proof (code_range c).
  repeat case_match; try done; lia.
Qed.

Lemma lines_token t r :
  string_all token_char t = true -> splitlines (t +:+ NL +:+ r) = t :: splitlines r.
Proof.
  unfold splitlines. induction t as [|c t IH]; [done|]. cbn [string_all String.append]. intros H. bool_hyps.
  cbn [lines_from]. rewrite break_token by done. by rewrite IH.
Qed.

Lemma splitlines_concat tokens : Forall good_line tokens -> splitlines (concat_lines tokens) = tokens.
Proof.
  induction 1 as [|t tokens [Ht _] _ IH]; [done|]. by rewrite concat_lines_cons, lines_token, IH.
Qed.

Lemma splitlines_single t : good_line t -> splitlines t = [t].
Proof.
  intros [H Hne]. unfold splitlines. induction t as [|c t IH]; [done|]. cbn [string_all lines_from] in *.
  bool_hyps. rewrite break_token by done. destruct t as [|d t]; [done|]. by rewrite IH.
Qed.

(** ** The files of a pattern *)

Definition stem (p : pattern) : string := match p with Star k => k | Name n => n end.
Definition matches (s : session) (p : pattern) (path : string) : Prop :=
  match p with
  | Star k => is_Some (star_of (path_join (secchat_dir s) k) ".bin" path)
  | Name n => path = local_path s n
  end.

(** Neither is a prefix of the other. *)
Definition clash (a b : string) : bool := negb (starts_with a b) && negb (starts_with b a).

Lemma clash_neq a b x y : clash a b = true -> a +:+ x <> b +:+ y.
Proof.
  unfold clash. revert b. induction a as [|c a IH]; intros [|d b]; cbn; [done..|].
  destruct (Ascii.eqb_spec c d) as [->|Hne].
  - rewrite Ascii.eqb_refl. cbn. intros H [= E]. by eapply IH.
  - intros _ [= E _]. done.
Qed.

Lemma star_of_inv pre suf path x : star_of pre suf path = Some x -> path = pre +:+ x +:+ suf.
Proof.
  unfold star_of. destruct (starts_with pre path) eqn:E; [|done].
  apply starts_with_inv in E. set (rest := sdrop _ path) in *. cbv zeta.
  destruct ((_ <=? _)%nat && String.eqb _ suf && _) eqn:E2; [|done]. intros [= <-]. bool_hyps.
  rewrite E. f_equal. rewrite <- (stake_sdrop (String.length rest - String.length suf) rest) at 1.
  f_equal. done.
Qed.

Lemma matches_path s p path : matches s p path -> exists r, path = local_path s (stem p +:+ r).
Proof.
  destruct p as [k|n]; cbn.
  - intros [x H%star_of_inv]. exists (x +:+ ".bin"). rewrite H. unfold local_path.
    destruct (path_join_cons (secchat_dir s) k) as (d & E & Hd). by rewrite E, Hd, sapp_assoc.
  - intros ->. exists "". by rewrite sapp_nil_r.
Qed.

Lemma matches_disjoint s a b path :
  clash (stem a) (stem b) = true -> matches s a path -> matches s b path -> False.
Proof.
  intros Hc (x & ->)%matches_path (y & E)%matches_path. apply local_path_inj in E. by eapply clash_neq.
Qed.

(** The files that hold state end in [.bin], so none of them is the temporary of another. *)
Definition bin_file (path : string) : Prop := exists x, path = x +:+ ".bin".

Lemma bin_not_tmp p q : bin_file q -> q <> p +:+ ".tmp".
Proof.
  intros [x ->] H. apply (f_equal srev) in H. rewrite !srev_app in H. discriminate H.
Qed.

Lemma star_bin s k path : matches s (Star k) path -> bin_file path.
Proof. intros [x H%star_of_inv]. exists (path_join (secchat_dir s) k +:+ x). by rewrite H, sapp_assoc. Qed.

Lemma name_bin s n : bin_file (local_path s (n +:+ ".bin")).
Proof.
  unfold local_path. destruct (path_join_cons (secchat_dir s) n) as (d & _ & Hd).
  exists (d +:+ n). by rewrite Hd, sapp_assoc.
Qed.

Lemma matches_same s s' p path : secchat_dir s' = secchat_dir s -> matches s' p path <-> matches s p path.
Proof. unfold matches, local_path. by intros ->. Qed.

(** Go through the elements of a list of constants. *)
Ltac each_elem H :=
  repeat (apply elem_of_cons in H as [->|H]; [try reflexivity|]); try (by apply not_elem_of_nil in H).

Section listing.
Context `{O : Os, OL : !OsLaws O}.

Lemma glob_star_run k s : exists s' l, glob k ".bin" s = (s', Ok l) /\ quiet s s' /\ NoDup l /\
  forall p, p ∈ l <-> is_Some (files (os s) !! p) /\ matches s (Star k) p.
Proof using OL.
  eexists _, _. split; [reflexivity|]. split; [by split; [unfold same_session; destruct s|]|]. split.
  - rewrite os_scan_perm. unfold glob_paths. apply NoDup_ListNoDup, List.NoDup_filter, NoDup_ListNoDup, NoDup_elements.
  - intros p. by rewrite os_scan_perm, elem_of_glob_paths.
Qed.

Lemma glob_all_run ks s : exists s' l, glob_all (map Star ks) s = (s', Ok l) /\ quiet s s' /\
  (forall p, p ∈ l <-> is_Some (files (os s) !! p) /\ exists k, k ∈ ks /\ matches s (Star k) p) /\
  (ForallOrdPairs (fun a b => clash a b = true) ks -> NoDup l).
Proof using OL.
  revert s. induction ks as [|k ks IH]; intros s; cbn [map glob_all].
  - exists s, []. split; [done|]. split; [apply quiet_refl|]. split; [|constructor].
    intros p. split; [by intros ?%not_elem_of_nil|]. intros (_ & k & H%not_elem_of_nil & _). done.
  - unfold st_bind at 1. destruct (glob_star_run k s) as (s1 & l1 & E1 & Hq1 & Hn1 & Hl1).
    cbn [glob_pattern]. rewrite E1. unfold st_bind.
    destruct (IH s1) as (s2 & l2 & -> & Hq2 & Hl2 & Hn2). pose proof Hq1 as (Hs1 & Hf1 & _).
    assert (Hdir : secchat_dir s1 = secchat_dir s) by (by same_fields Hs1).
    assert (Hl2' : forall p, p ∈ l2 <-> is_Some (files (os s) !! p) /\ exists k, k ∈ ks /\ matches s (Star k) p).
    { intros p. rewrite Hl2, Hf1. apply and_iff_compat_l.
      split; intros (k' & ? & H); exists k'; (split; [done|]); by apply (matches_same s s1). }
    exists s2, (l1 ++ l2). split; [done|]. split; [by eapply quiet_trans|]. split.
    + intros p. rewrite elem_of_app, Hl1, Hl2'. split.
      * intros [[? ?]|(? & k' & ? & ?)]; (split; [done|]); [exists k; split; [left|done]|exists k'; split; [by right|done]].
      * intros (? & k' & [->|?]%elem_of_cons & ?); [by left|right; split; [done|by exists k']].
    + intros H. inversion_clear H as [|? ? Hk Hrest]. apply NoDup_app. split; [done|]. split; [|by apply Hn2].
      intros p [_ Hp]%Hl1 (_ & k' & Hk' & Hp')%Hl2'. rewrite List.Forall_forall in Hk.
      apply list_elem_of_In in Hk'. by eapply (matches_disjoint s (Star k) (Star k')); [apply Hk|..].
Qed.
End listing.

(** A sealed line, and the contents of a file: the texts its lines open to under a
    key. A file that is not in line mode has one line at most, and no line break. *)

Section rewrapping.
Context `{L : PrimLaws, O : Os, OL : !OsLaws O}.

Definition line_holds (key : bytes) (token text : string) : Prop :=
  good_line token /\ utf8_valid text = true /\ decrypt_with_key None key token = Ok (PStr text).

Definition file_text (line_mode : bool) (tokens : list string) : string :=
  if line_mode then concat_lines tokens else hd "" tokens.

Definition holds (key : bytes) (line_mode : bool) (raw : bytes) (texts : list string) : Prop :=
  exists tokens, (line_mode = false -> (length tokens <= 1)%nat) /\ raw = file_text line_mode tokens /\
    Forall2 (line_holds key) tokens texts.

Lemma holds_good key tokens texts : Forall2 (line_holds key) tokens texts -> Forall good_line tokens.
Proof using. induction 1 as [|t x ? ? (H & _)]; by constructor. Qed.

(** What is read of such a file. *)
Lemma file_text_lines line_mode tokens :
  (line_mode = false -> (length tokens <= 1)%nat) -> Forall good_line tokens ->
  let raw := file_text line_mode tokens in
  utf8_valid raw = true /\ splitlines (universal_newlines raw) = tokens.
Proof using.
  intros Hl Hg. destruct line_mode.
  - destruct (concat_lines_plain tokens Hg) as [Hv Hu]. cbn. by rewrite Hu, splitlines_concat.
  - specialize (Hl eq_refl). destruct tokens as [|t [|]]; cbn in *; [done| |lia].
    inversion_clear Hg as [|? ? Ht _]. destruct Ht as [Ht Hne].
    rewrite universal_newlines_token by done. split; [by apply token_valid|]. by apply splitlines_single.
Qed.

Lemma nonblank_token t : good_line t -> strip t = t /\ nonempty t = true.
Proof using. intros [H Hne]. split; [by apply strip_token|by destruct t]. Qed.

Lemma line_of_token key token text :
  string_all token_char token = true -> opens key token = Ok (PStr text) -> utf8_valid text = true ->
  line_holds key token text.
Proof using.
  intros Ht Ho Hv. rewrite opens_token in Ho by done. split; [|done]. split; [done|]. intros ->.
  unfold decrypt_with_key in Ho. cbn in Ho. by destruct (aes_key_ok key).
Qed.

Lemma sealed_line key text s :
  aes_key_ok key = true -> utf8_valid text = true ->
  exists s' token, seal_value key (PStr text) s = (s', Ok token) /\ quiet s s' /\ line_holds key token text.
Proof using L OL.
  intros Hk Hv. destruct (seal_ok key text s Hk Hv) as (s' & token & E & Hs & Hf & Hd & Ht & Ho).
  exists s', token. split; [exact E|]. split; [done|]. by apply line_of_token.
Qed.

Lemma rewrap_lines old new tokens texts out s :
  aes_key_ok new = true -> Forall2 (line_holds old) tokens texts ->
  exists s' tokens', st_fold (rewrap_line old new) out tokens s = (s', Ok (out ++ tokens')) /\
    quiet s s' /\ Forall2 (line_holds new) tokens' texts.
Proof using L OL.
  intros Hk H. revert out s. induction H as [|t x tokens texts (Hg & Hv & Ho) _ IH]; intros out s.
  - exists s, []. rewrite app_nil_r. split; [done|]. split; [apply quiet_refl|constructor].
  - cbn [st_fold]. unfold st_bind at 1, rewrap_line at 1.
    destruct (nonblank_token t Hg) as [-> ->]. cbn [negb]. unfold st_bind at 1, st_lift. rewrite Ho.
    destruct (sealed_line new x s Hk Hv) as (s1 & t' & E1 & Hq1 & Ht').
    unfold st_bind at 1. rewrite E1. cbv iota. unfold st_ret at 1.
    destruct (IH (out ++ [t']) s1) as (s2 & tokens' & -> & Hq2 & Hall).
    exists s2, (t' :: tokens'). rewrite <- app_assoc. split; [done|].
    split; [by eapply quiet_trans|by constructor].
Qed.

Context {IO : IoReliable O}.

(** What the re-wrapping of the file at [path] leaves. *)
Definition replaced (s s' : session) (path : string) (raw : bytes) : Prop :=
  same_session s s' /\ dirs (os s') = dirs (os s) /\ files (os s') !! path = Some raw /\
  forall p, p <> path -> p <> path +:+ ".tmp" -> files (os s') !! p = files (os s) !! p.

Lemma replace_run path raw s :
  secchat_dir s ∈ dirs (os s) -> utf8_valid raw = true ->
  exists s', (do! _ := write_text (path +:+ ".tmp") raw in replace_file (path +:+ ".tmp") path) s = (s', Ok tt) /\
    replaced s s' path raw.
Proof using IO.
  intros Hd Hv. unfold st_bind at 1.
  destruct (write_text_ok (path +:+ ".tmp") raw s Hd Hv) as (s1 & -> & Hs1 & Hf1 & Hd1).
  unfold replace_file, st_bind, io, st_get, st_lift, st_modify.
  rewrite io_reliable. cbn. rewrite Hf1, lookup_insert_eq. cbn.
  eexists. split; [reflexivity|]. split.
  { eapply same_session_trans; [exact Hs1|]. unfold same_session. by destruct s1. }
  split; [by cbn; rewrite Hd1|]. cbn. split; [by rewrite lookup_insert_eq|].
  intros p Hp Ht. by rewrite lookup_insert_ne, lookup_delete_ne, lookup_insert_ne.
Qed.

Lemma rewrap_file_run old new line_mode path s raw texts :
  aes_key_ok new = true -> secchat_dir s ∈ dirs (os s) ->
  files (os s) !! path = Some raw -> holds old line_mode raw texts ->
  exists s' raw', rewrap_file old new line_mode path s = (s', Ok tt) /\
    replaced s s' path raw' /\ holds new line_mode raw' texts.
Proof using L OL IO.
  intros Hk Hd Hf (tokens & Hl & -> & Hall). pose proof (holds_good _ _ _ Hall) as Hg.
  destruct (file_text_lines line_mode tokens Hl Hg) as [Hv Hlines].
  unfold rewrap_file, st_bind at 1, st_get. unfold path_exists. rewrite bool_decide_true by (by eexists).
  cbn [negb]. destruct (read_text_ok path s _ Hf Hv) as (s1 & E1 & Hq1).
  unfold st_bind at 1. rewrite E1, Hlines. unfold st_bind at 1.
  destruct (rewrap_lines old new tokens texts [] s1 Hk Hall) as (s2 & tokens' & -> & Hq2 & Hall').
  pose proof (quiet_trans _ _ _ Hq1 Hq2) as (Hs & Hf2 & Hd2).
  pose proof (holds_good _ _ _ Hall') as Hg'.
  assert (Hl' : line_mode = false -> (length tokens' <= 1)%nat).
  { intros H. rewrite (Forall2_length _ _ _ Hall'), <- (Forall2_length _ _ _ Hall). by apply Hl. }
  destruct (file_text_lines line_mode tokens' Hl' Hg') as [Hv' _]. cbn [app].
  assert ((if line_mode then cache_text tokens' else hd "" tokens') = file_text line_mode tokens') as ->
    by (destruct line_mode; [apply cache_text_concat|done]).
  destruct (replace_run path (file_text line_mode tokens') s2) as (s3 & E3 & Hs3 & Hd3 & Hf3 & Ho3);
    [rewrite Hd2; by same_fields Hs|done|].
  exists s3, (file_text line_mode tokens'). split; [exact E3|]. split; [|by exists tokens'].
  split; [by eapply same_session_trans|]. split; [by rewrite Hd3|]. split; [done|].
  intros p H1 H2. by rewrite Ho3, Hf2.
Qed.

(** ** All the files

    Where each file of a list went: it opens under the new key to what it opened
    to under the old one. *)
Definition moved (old new : bytes) (line_mode : bool) (s s' : session) (path : string) : Prop :=
  match files (os s) !! path with
  | None => files (os s') !! path = None
  | Some raw => exists texts raw', holds old line_mode raw texts /\
      files (os s') !! path = Some raw' /\ holds new line_mode raw' texts
  end.

(** A file that is missing or opens under the key. *)
Definition opens_under (key : bytes) (line_mode : bool) (s : session) (path : string) : Prop :=
  forall raw, files (os s) !! path = Some raw -> exists texts, holds key line_mode raw texts.

Lemma moved_eq old new line_mode s s1 s' s1' path :
  files (os s1) !! path = files (os s) !! path -> files (os s1') !! path = files (os s') !! path ->
  moved old new line_mode s1 s1' path -> moved old new line_mode s s' path.
Proof using. unfold moved. by intros -> ->. Qed.

Lemma tmp_neq p : p +:+ ".tmp" <> p.
Proof using. intros H. apply (f_equal String.length) in H. rewrite sapp_length in H. cbn in H. lia. Qed.

Lemma rewrap_all old new line_mode paths s :
  aes_key_ok new = true -> secchat_dir s ∈ dirs (os s) -> NoDup paths ->
  (forall p q, p ∈ paths -> q ∈ paths -> q <> p +:+ ".tmp") ->
  Forall (opens_under old line_mode s) paths ->
  exists s', st_for paths (rewrap_file old new line_mode) s = (s', Ok tt) /\
    same_session s s' /\ dirs (os s') = dirs (os s) /\
    (forall p, p ∈ paths -> moved old new line_mode s s' p) /\
    (forall p, p ∉ paths -> (forall q, q ∈ paths -> p <> q +:+ ".tmp") ->
       files (os s') !! p = files (os s) !! p).
Proof using L OL IO.
  intros Hk Hd Hnd. revert s Hd. induction Hnd as [|p paths Hp Hnd IH]; intros s Hd Htmp Hall.
  - exists s. split; [done|]. split; [apply same_session_refl|]. split; [done|]. split; [by intros ? ?%not_elem_of_nil|done].
  - inversion_clear Hall as [|? ? Ho Hrest]. cbn [st_for]. unfold st_bind at 1.
    assert (Hhere : p ∈ p :: paths) by left.
    assert (exists s1, rewrap_file old new line_mode p s = (s1, Ok tt) /\ same_session s s1 /\
      dirs (os s1) = dirs (os s) /\ moved old new line_mode s s1 p /\
      forall q, q <> p -> q <> p +:+ ".tmp" -> files (os s1) !! q = files (os s) !! q)
      as (s1 & -> & Hs1 & Hd1 & Hm1 & Hf1).
    { destruct (files (os s) !! p) as [raw|] eqn:E.
      - destruct (Ho raw E) as [texts Ht].
        destruct (rewrap_file_run old new line_mode p s raw texts Hk Hd E Ht)
          as (s1 & raw' & -> & (Hs1 & Hd1 & Hr & Hf1) & Ht').
        exists s1. split; [done|]. split; [done|]. split; [done|]. split; [|done].
        unfold moved. rewrite E. by exists texts, raw'.
      - exists s. unfold rewrap_file, st_bind, st_get, path_exists. rewrite E, bool_decide_false by (by intros [? ?]).
        split; [done|]. split; [apply same_session_refl|]. split; [done|]. split; [|done].
        unfold moved. by rewrite E. }
    destruct (IH s1) as (s2 & -> & Hs2 & Hd2 & Hm2 & Hf2).
    + rewrite Hd1. by same_fields Hs1.
    + intros a b Ha Hb. apply Htmp; by right.
    + rewrite Forall_forall in Hrest |- *. intros q Hq. unfold opens_under.
      rewrite Hf1; [by apply Hrest|by intros ->|]. apply Htmp; [left|by right].
    + exists s2. split; [done|]. split; [by eapply same_session_trans|]. split; [by rewrite Hd2|]. split.
      * intros q [->|Hq]%elem_of_cons.
        -- eapply moved_eq; [| |exact Hm1]; [done|]. symmetry. apply Hf2; [done|].
           intros q Hq. apply Htmp; [by right|left].
        -- eapply moved_eq; [| |by apply Hm2]; [|done]. apply Hf1; [by intros ->|].
           apply Htmp; [left|by right].
      * intros q Hq Ht. rewrite Hf2, Hf1; [done|..].
        -- intros ->. apply Hq. left.
        -- apply Ht. left.
        -- intros Hin. apply Hq. by right.
        -- intros a Ha. apply Ht. by right.
Qed.

(** The files [rewrap_local_state] takes as one token, and the cache files. *)
Definition is_single (s : session) (p : string) : Prop :=
  p ∈ single_names s \/ exists k, k ∈ single_kinds /\ matches s k p.
Definition is_cache (s : session) (p : string) : Prop := matches s (Star "msgs_") p.

Definition kinds : list string := ["dr_"; "mls_"; "verified_"; "identity_audit_"; "transcript_"].
Definition names : list string :=
  ["identity_sk"; "cache_policy"; "backup_state"; "auditor_state"; "pqxdh_prekeys"].

Lemma single_names_eq s : single_names s = map (fun n => local_path s (n +:+ ".bin")) names.
Proof using. done. Qed.

Lemma single_inv s p : is_single s p ->
  exists pt, matches s pt p /\ clash (stem pt) "msgs_" = true /\ bin_file p.
Proof using.
  intros [H|(k & Hk & H)].
  - rewrite single_names_eq in H. apply list_elem_of_fmap in H as (n & -> & Hn).
    exists (Name (n +:+ ".bin")). split; [done|]. split; [|by apply name_bin].
    each_elem Hn.
  - exists k. split; [done|].
    change single_kinds with (map Star kinds) in Hk. apply list_elem_of_fmap in Hk as (pre & -> & Hk).
    split; [|by eapply star_bin]. each_elem Hk.
Qed.

Lemma singles_run old new s :
  aes_key_ok new = true -> secchat_dir s ∈ dirs (os s) ->
  (forall p, is_single s p -> opens_under old false s p) ->
  exists s', (forall k : sm unit, (do! found := glob_all single_kinds in
      do! _ := st_for (single_names s ++ found) (rewrap_file old new false) in k) s = k s') /\
    same_session s s' /\ dirs (os s') = dirs (os s) /\
    (forall p, is_single s p -> moved old new false s s' p) /\
    (forall p, ~ is_single s p -> bin_file p -> files (os s') !! p = files (os s) !! p).
Proof using L OL IO.
  intros Hk Hd Hall. destruct (glob_all_run kinds s) as (s1 & found & E & Hq & Hin & Hnd).
  change (map Star kinds) with single_kinds in E. destruct Hq as (Hs1 & Hf1 & Hd1).
  assert (Hsingle : forall p, p ∈ single_names s ++ found <->
    p ∈ single_names s \/ is_Some (files (os s) !! p) /\ exists k, k ∈ kinds /\ matches s (Star k) p).
  { intros p. by rewrite elem_of_app, Hin. }
  assert (Hof : forall p, p ∈ single_names s ++ found -> is_single s p).
  { intros p [?|(_ & k & Hk' & H)]%Hsingle; [by left|]. right. exists (Star k). split; [|done].
    change single_kinds with (map Star kinds). by apply list_elem_of_fmap_2. }
  destruct (rewrap_all old new false (single_names s ++ found) s1) as (s2 & E2 & Hs2 & Hd2 & Hm & Hrest).
  - done.
  - rewrite Hd1. by same_fields Hs1.
  - apply NoDup_app. split; [|split].
    + rewrite single_names_eq. apply NoDup_fmap_2_strong; [|by apply (bool_decide_unpack _); vm_compute].
      intros a b _ _ H%local_path_inj. by apply sapp_inj_r in H.
    + intros p Hp (_ & k & Hk' & H)%Hin. rewrite single_names_eq in Hp.
      apply list_elem_of_fmap in Hp as (n & -> & Hn).
      eapply (matches_disjoint s (Name (n +:+ ".bin")) (Star k)); [|done|exact H].
      each_elem Hn; each_elem Hk'.
    + apply Hnd. repeat constructor.
  - intros p q _ Hq. apply bin_not_tmp. by destruct (single_inv s q (Hof q Hq)) as (? & _ & _ & ?).
  - apply Forall_forall. intros p Hp. unfold opens_under. rewrite Hf1. by apply Hall, Hof.
  - exists s2. split; [intros k; unfold st_bind; by rewrite E, E2|].
    split; [by eapply same_session_trans|]. split; [by rewrite Hd2|].
    assert (Hsame : forall p, p ∉ single_names s ++ found -> bin_file p ->
      files (os s2) !! p = files (os s) !! p).
    { intros p Hp Hb. rewrite Hrest, Hf1; [done|done|]. intros q _. by apply bin_not_tmp. }
    split.
    + intros p Hp. destruct (decide (p ∈ single_names s ++ found)) as [Hi|Hi].
      * eapply moved_eq; [| |by apply Hm]; [by rewrite Hf1|done].
      * unfold moved. destruct (single_inv s p Hp) as (_ & _ & _ & Hb).
        destruct Hp as [Hp|(k & Hk' & H)]; [exfalso; apply Hi, Hsingle; by left|].
        destruct (files (os s) !! p) as [raw|] eqn:Ep; [|by rewrite Hsame].
        exfalso. apply Hi, Hsingle. right. split; [by eexists|].
        change single_kinds with (map Star kinds) in Hk'. apply list_elem_of_fmap in Hk' as (k' & -> & Hk').
        by exists k'.
    + intros p Hp. apply Hsame. intros Hi. by apply Hp, Hof.
Qed.

Lemma caches_run old new s :
  aes_key_ok new = true -> secchat_dir s ∈ dirs (os s) ->
  (forall p, is_cache s p -> opens_under old true s p) ->
  exists s', (do! caches := glob "msgs_" ".bin" in st_for caches (rewrap_file old new true)) s = (s', Ok tt) /\
    same_session s s' /\
    (forall p, is_cache s p -> moved old new true s s' p) /\
    (forall p, ~ is_cache s p -> bin_file p -> files (os s') !! p = files (os s) !! p).
Proof using L OL IO.
  intros Hk Hd Hall. unfold st_bind at 1. destruct (glob_star_run "msgs_" s) as (s1 & l & E & Hq & Hnd & Hin).
  rewrite E. destruct Hq as (Hs1 & Hf1 & Hd1).
  destruct (rewrap_all old new true l s1) as (s2 & E2 & Hs2 & Hd2 & Hm & Hrest).
  - done.
  - rewrite Hd1. by same_fields Hs1.
  - done.
  - intros p q _ [_ Hq]%Hin. by apply bin_not_tmp, (star_bin s "msgs_").
  - apply Forall_forall. intros p [_ Hp]%Hin. unfold opens_under. rewrite Hf1. by apply Hall.
  - exists s2. split; [exact E2|]. split; [by eapply same_session_trans|].
    assert (Hsame : forall p, p ∉ l -> bin_file p -> files (os s2) !! p = files (os s) !! p).
    { intros p Hp Hb. rewrite Hrest, Hf1; [done|done|]. intros q _. by apply bin_not_tmp. }
    split.
    + intros p Hp. destruct (decide (p ∈ l)) as [Hi|Hi].
      * eapply moved_eq; [| |by apply Hm]; [by rewrite Hf1|done].
      * unfold moved. destruct (files (os s) !! p) as [raw|] eqn:Ep.
        -- exfalso. apply Hi, Hin. split; [by eexists|done].
        -- rewrite Hsame; [done|done|by eapply star_bin].
    + intros p Hp. apply Hsame. by intros [_ ?]%Hin.
Qed.

Lemma single_not_cache s p : is_single s p -> ~ is_cache s p.
Proof using. intros (pt & H & Hc & _)%single_inv H'. by eapply (matches_disjoint s pt (Star "msgs_")). Qed.

Lemma is_cache_same s s' p : same_session s s' -> is_cache s' p <-> is_cache s p.
Proof using. intros Hs. apply matches_same. by same_fields Hs. Qed.

(** What is read of a file before and after. *)
Lemma moved_reads old new s s' p t :
  same_session s s' -> moved old new false s s' p ->
  sealed_at (s <| master_key := old |>) p (PStr t) -> sealed_at (s' <| master_key := new |>) p (PStr t).
Proof using.
  intros Hs Hm (raw & Hf & Ho). cbn in Hf, Ho. unfold moved in Hm. rewrite Hf in Hm.
  destruct Hm as (texts & raw' & (tokens & Hl & -> & H1) & Hf' & (tokens' & Hl' & -> & H2)).
  exists (file_text false tokens'). split; [done|]. cbn.
  specialize (Hl eq_refl). specialize (Hl' eq_refl).
  destruct H1 as [|a x l ? (Ha & _ & Ea) H1]; [by unfold opens, decrypt_with_key in Ho; cbn in Ho; destruct (aes_key_ok old)|].
  destruct l; [|cbn in Hl; lia]. inversion H1; subst.
  inversion H2 as [|b y ? ? (Hb & _ & Eb) H3]; subst. cbn in *.
  rewrite opens_token in Ho |- * by apply Ha || apply Hb. congruence.
Qed.
End rewrapping.

(** ** A damaged line *)

Section damaged.
Context `{P : Prims, O : Os}.

Lemma within_rewrap_line Q s0 old new out line : within same_session Q s0 (rewrap_line old new out line).
Proof using. unfold rewrap_line, seal_value. within_tac. Qed.

Lemma within_rewrap_file s0 old new line_mode path :
  within same_session (fun p => p = path \/ p = path +:+ ".tmp") s0 (rewrap_file old new line_mode path).
Proof using.
  unfold rewrap_file. within_tac.
  - apply within_read_text.
  - apply within_rewrap_line.
  - apply within_write_text. by right.
  - apply within_replace_file; [by right|by left].
Qed.

(** A line that does not open makes the loop over the lines raise. *)
Lemma rewrap_line_fails old new out s tokens bad :
  good_line bad -> is_ok (decrypt_with_key None old bad) = false -> bad ∈ tokens ->
  is_ok (snd (st_fold (rewrap_line old new) out tokens s)) = false.
Proof using.
  intros Hg Hbad. revert out s. induction tokens as [|t tokens IH]; intros out s Hin; [by apply not_elem_of_nil in Hin|].
  cbn [st_fold]. unfold st_bind at 1. apply elem_of_cons in Hin as [->|Hin].
  - unfold rewrap_line at 1. destruct (nonblank_token t Hg) as [-> ->]. cbn [negb].
    unfold st_bind at 1, st_lift. destruct (decrypt_with_key None old t); done.
  - destruct (rewrap_line old new out t s) as [s1 [out'|e]]; [by apply IH|done].
Qed.

Lemma rewrap_file_fails old new path s tokens bad :
  Forall good_line tokens -> files (os s) !! path = Some (concat_lines tokens) ->
  bad ∈ tokens -> is_ok (decrypt_with_key None old bad) = false ->
  exists s' e, rewrap_file old new true path s = (s', Err e) /\ files (os s') !! path = files (os s) !! path.
Proof using.
  intros Hg Hf Hin Hbad. rewrite Forall_forall in Hg. specialize (Hg bad Hin) as Hb. rewrite <- Forall_forall in Hg.
  set (read := do! text := read_text path in st_fold (rewrap_line old new) [] (splitlines text)).
  assert (Hr : is_ok (snd (read s)) = false).
  { unfold read, read_text, st_bind, io, st_get, st_lift, st_ret. destruct (os_io (n_io (os s))); [|done]. cbn.
    rewrite Hf. cbn. destruct (concat_lines_plain tokens Hg) as [Hv Hu]. unfold utf8_decode. rewrite Hv.
    cbn. rewrite Hu, splitlines_concat by done. by eapply rewrap_line_fails. }
  assert (Hw : within same_session (fun _ => False) s read).
  { unfold read. within_tac; [apply within_read_text|apply within_rewrap_line]. }
  apply within_run in Hw as [_ Hsame]. unfold rewrap_file, st_bind at 1, st_get, path_exists.
  rewrite Hf, bool_decide_true by (by eexists). cbn [negb]. fold path_exists. revert Hr Hsame. unfold read.
  unfold st_bind. destruct (read_text path s) as [s1 [text|e]].
  - destruct (st_fold _ _ _ s1) as [s2 [out|e]]; [done|]. intros _ Hsame. exists s2, e.
    split; [done|]. rewrite <- Hf. apply Hsame. by intros [].
  - intros _ Hsame. exists s1, e. split; [done|]. rewrite <- Hf. apply Hsame. by intros [].
Qed.

Lemma rewrap_loop_fails old new paths path s tokens bad :
  path ∈ paths -> (forall q, q ∈ paths -> path <> q +:+ ".tmp") ->
  Forall good_line tokens -> files (os s) !! path = Some (concat_lines tokens) ->
  bad ∈ tokens -> is_ok (decrypt_with_key None old bad) = false ->
  exists s' e, st_for paths (rewrap_file old new true) s = (s', Err e) /\ files (os s') !! path = files (os s) !! path.
Proof using.
  intros Hin Htmp Hg Hf Hb Hbad. revert s Hf. induction paths as [|q paths IH]; intros s Hf; [by apply not_elem_of_nil in Hin|].
  cbn [st_for]. unfold st_bind. destruct (decide (q = path)) as [->|Hne].
  - destruct (rewrap_file_fails old new path s tokens bad Hg Hf Hb Hbad) as (s' & e & -> & H). by exists s', e.
  - pose proof (within_run _ _ _ (within_rewrap_file s old new true q)) as [_ Hsame].
    specialize (Hsame path). destruct (rewrap_file old new true q s) as [s1 [[]|e]]; cbn [fst] in Hsame.
    + assert (H1 : files (os s1) !! path = files (os s) !! path).
      { apply Hsame. intros [->|H]; [done|]. by apply (Htmp q); [left|]. }
      destruct IH with (s := s1) as (s' & e & -> & H); [|by intros a Ha; apply Htmp; right|by rewrite H1|].
      * by apply elem_of_cons in Hin as [->|?].
      * exists s', e. split; [done|]. by rewrite H, H1.
    + exists s1, e. split; [done|]. apply Hsame. intros [->|H]; [done|]. by apply (Htmp q); [left|].
Qed.

(** No directory disappears. *)
Ltac dirs_tac :=
  repeat match goal with
  | |- keeps _ (st_bind st_get _) => apply keeps_get; intros ? ?
  | |- keeps _ (st_bind _ _) => apply keeps_bind; [|intros ?]
  | |- keeps _ (st_fold _ _ _) => apply keeps_fold; intros ? ?
  | |- keeps _ (st_lift _) => apply keeps_lift
  | |- keeps _ (st_ret _) => apply keeps_ret
  | |- keeps _ (st_modify _) => apply keeps_modify
  | |- keeps _ (if ?b then _ else _) => destruct b
  end.

Lemma rewrap_file_dirs d old new line_mode path :
  keeps (fun s => dirs (os s) = d) (rewrap_file old new line_mode path).
Proof using.
  assert (Hio : keeps (fun s => dirs (os s) = d) io) by (intros s Hs; exact Hs).
  assert (Hclock : keeps (fun s => dirs (os s) = d) now_ms) by (intros s Hs; exact Hs).
  assert (Hrandom : forall k, keeps (fun s => dirs (os s) = d) (urandom k)) by (intros k s Hs; exact Hs).
  unfold rewrap_file, read_text, rewrap_line, seal_value, write_text, writable, replace_file.
  dirs_tac; try done; intros s; by destruct s.
Qed.

Lemma rewrap_caches_within (C : string -> Prop) s0 old new paths :
  (forall p, p ∈ paths -> C p) ->
  within same_session (fun p => C p \/ ~ bin_file p) s0 (st_for paths (rewrap_file old new true)).
Proof using.
  intros Hc. induction paths as [|q paths IH]; cbn [st_for]; [apply within_ret|]. apply within_bind.
  - apply within_call. intros s _. eexists. split; [apply within_rewrap_file|].
    intros p [->| ->]; [left; apply Hc; left|right]. intros H. by destruct (bin_not_tmp q _ H).
  - intros _. apply IH. intros p Hp. apply Hc. by right.
Qed.

(** A cache file all of whose lines fail under a key is emptied when it is read. *)
Lemma all_dead now ttl key tokens a :
  Forall (fun t => is_ok (decrypt_with_key None key t) = false) tokens ->
  List.filter (is_live now ttl key) tokens = [] /\ out (fold_left (scan_pure now ttl key) tokens a) = out a.
Proof using.
  intros H. revert a. induction H as [|t tokens Ht _ IH]; intros a; [done|]. cbn [List.filter fold_left].
  assert (Hl : live_line now ttl key t = None).
  { unfold live_line. by destruct (decrypt_with_key None key t). }
  unfold is_live at 1, scan_pure at 2. rewrite Hl. destruct (IH (a <| changed := true |>)) as [-> ->]. done.
Qed.
End damaged.

Section theorems.
Context `{L : PrimLaws, O : Os, OL : !OsLaws O, IO : !IoReliable O}.

(** C27: changing the password. When every file of the session opens under the old
    master key, [rewrap_local_state] seals each again under the new one: whatever a
    session read from a file it reads again under the new key, every cache file has
    the same entries in the same order, and no other file is touched. *)
Theorem rewrap_keeps_contents old new s :
  aes_key_ok new = true -> nonempty (secchat_dir s) = true -> secchat_dir s ∈ dirs (os s) ->
  (forall p, is_single s p -> opens_under old false s p) ->
  (forall p, is_cache s p -> opens_under old true s p) ->
  exists s', rewrap_local_state old new s = (s', Ok tt) /\ same_session s s' /\
    (forall p t, is_single s p -> sealed_at (s <| master_key := old |>) p (PStr t) ->
       sealed_at (s' <| master_key := new |>) p (PStr t)) /\
    (forall p, is_single s p -> moved old new false s s' p) /\
    (forall p, is_cache s p -> moved old new true s s' p) /\
    (forall p, bin_file p -> ~ is_single s p -> ~ is_cache s p -> files (os s') !! p = files (os s) !! p).
Proof using L OL IO.
  intros Hk Hn Hd Hsingle Hcache. unfold rewrap_local_state, st_bind at 1, st_get.
  rewrite Hn, bool_decide_true by done. cbn [negb orb].
  destruct (singles_run old new s Hk Hd Hsingle) as (s1 & E1 & Hs1 & Hd1 & Hm1 & Hf1).
  destruct (caches_run old new s1) as (s2 & E2 & Hs2 & Hm2 & Hf2).
  - done.
  - rewrite Hd1. by same_fields Hs1.
  - intros p Hp%(is_cache_same _ _ _ Hs1). unfold opens_under. rewrite Hf1; [by apply Hcache| |by eapply star_bin].
    intros H. by eapply single_not_cache.
  - assert (Hm : forall p, is_single s p -> moved old new false s s2 p).
    { intros p Hp. eapply moved_eq; [| |by apply Hm1]; [done|]. symmetry. apply Hf2.
      - rewrite (is_cache_same _ _ _ Hs1). by apply single_not_cache.
      - by destruct (single_inv s p Hp) as (? & _ & _ & ?). }
    assert (Hs : same_session s s2) by (by eapply same_session_trans).
    exists s2. split; [|split; [done|split; [|split; [done|split]]]].
    + by rewrite E1.
    + intros p t Hp. apply moved_reads; [done|]. by apply Hm.
    + intros p Hp. eapply moved_eq; [| |apply Hm2]; [|done|by apply (is_cache_same _ _ _ Hs1)].
      apply Hf1; [|by eapply star_bin]. intros H. by eapply single_not_cache.
    + intros p Hb H1 H2. rewrite Hf2, Hf1; [done..| |done]. by rewrite (is_cache_same _ _ _ Hs1).
Qed.

Lemma nonempty_key key : aes_key_ok key = true -> nonempty key = true.
Proof using. by destruct key. Qed.

(** Re-wrapping is not atomic. One line of a cache file that does not open under
    the old key stops it with an exception: the files of keys and ratchets are
    already under the new key, this cache file is not, and if its lines do not
    open under the new key, the session that logs in with the new password finds no
    message in it and empties it. *)
Theorem rewrap_stops_at_damaged_line old new s c tokens bad now :
  (forall n, os_clock n = now) ->
  aes_key_ok new = true -> nonempty (secchat_dir s) = true -> secchat_dir s ∈ dirs (os s) ->
  (forall p, is_single s p -> opens_under old false s p) ->
  Forall good_line tokens -> files (os s) !! msg_cache_path s c = Some (concat_lines tokens) ->
  bad ∈ tokens -> is_ok (decrypt_with_key None old bad) = false ->
  Forall (fun t => is_ok (decrypt_with_key None new t) = false) tokens ->
  exists s' e, rewrap_local_state old new s = (s', Err e) /\ same_session s s' /\
    (forall p, is_single s p -> moved old new false s s' p) /\
    files (os s') !! msg_cache_path s c = Some (concat_lines tokens) /\
    (is_conversation_cache_enabled s c = true ->
     exists s2, load_cached_messages c (s' <| master_key := new |>) = (s2, Ok no_cached) /\
       files (os s2) !! msg_cache_path s c = Some "").
Proof using L OL IO.
  intros Hclock Hk Hn Hd Hsingle Hg Hf Hin Hbad Hnew. unfold rewrap_local_state, st_bind at 1, st_get.
  rewrite Hn, bool_decide_true by done. cbn [negb orb].
  destruct (singles_run old new s Hk Hd Hsingle) as (s1 & E1 & Hs1 & Hd1 & Hm1 & Hf1).
  assert (Hc : is_cache s (msg_cache_path s c)).
  { unfold is_cache, matches, msg_cache_path. by rewrite star_of_conv_file. }
  assert (Hfc : files (os s1) !! msg_cache_path s c = Some (concat_lines tokens)).
  { rewrite Hf1; [done| |by eapply star_bin]. intros H. by eapply single_not_cache. }
  destruct (glob_star_run "msgs_" s1) as (s2 & l & E2 & (Hs2 & Hf2 & Hd2) & _ & Hl).
  assert (Hin2 : msg_cache_path s c ∈ l).
  { apply Hl. rewrite Hfc. split; [by eexists|]. by apply (is_cache_same s s1). }
  destruct (rewrap_loop_fails old new l (msg_cache_path s c) s2 tokens bad) as (s3 & e & E3 & Hf3); [done| |done| |done..|].
  { intros q _. by apply bin_not_tmp, (star_bin s "msgs_"). }
  { by rewrite Hf2. }
  assert (Hw : within same_session (fun p => is_cache s p \/ ~ bin_file p) s2 (st_for l (rewrap_file old new true))).
  { apply rewrap_caches_within. intros p Hp. apply (is_cache_same s s1); [done|]. by apply Hl in Hp as [_ Hp]. }
  apply within_run in Hw as [Hs3 Hsame]. rewrite E3 in Hs3, Hsame. cbn [fst] in Hs3, Hsame.
  assert (Hss : same_session s s3) by (do 2 (eapply same_session_trans; [eassumption|]); done).
  exists s3, e. split; [|split; [done|split; [|split]]].
  - rewrite E1. unfold st_bind. by rewrite E2, E3.
  - intros p Hp. eapply moved_eq; [| |by apply Hm1]; [done|]. rewrite <- Hf2. symmetry. apply Hsame.
    intros [H|H]; [by eapply single_not_cache|]. by destruct (single_inv s p Hp) as (? & _ & _ & ?).
  - by rewrite Hf3, Hf2.
  - intros Hen. set (sn := s3 <| master_key := new |>).
    assert (Hp : msg_cache_path sn c = msg_cache_path s c) by (unfold msg_cache_path, local_path; subst sn; cbn; by same_fields Hss).
    assert (Hdn : secchat_dir sn ∈ dirs (os sn)).
    { subst sn. cbn. replace (secchat_dir s3) with (secchat_dir s) by (by same_fields Hss).
      pose proof (keeps_for (fun s => dirs (os s) = dirs (os s2)) l _
        (rewrap_file_dirs _ old new true) s2 eq_refl) as H3. rewrite E3 in H3. cbn in H3. by rewrite H3, Hd2, Hd1. }
    destruct (load_run now Hclock sn c tokens) as (s4 & E4 & _ & _ & Hf4 & _).
    + unfold may_cache, has_store. replace (is_conversation_cache_enabled sn c) with (is_conversation_cache_enabled s c)
        by (subst sn; unfold is_conversation_cache_enabled; cbn; by same_fields Hss).
      rewrite Hen. replace (secchat_dir sn) with (secchat_dir s) by (subst sn; cbn; by same_fields Hss).
      rewrite Hn. by apply nonempty_key.
    + split; [done|]. rewrite Hp. subst sn. cbn. by rewrite Hf3, Hf2, Hfc.
    + unfold path_exists. rewrite Hp. subst sn. cbn. rewrite Hf3, Hf2, Hfc. by apply bool_decide_true.
    + done.
    + rewrite Hp in Hf4. exists s4. destruct (all_dead now (cache_ttl_days sn) (master_key sn) tokens
        (Scan [] false no_cached) Hnew) as [Hdead Hout].
      rewrite Hdead in Hf4. split; [|done]. by rewrite E4, Hout.
Qed.
End theorems.

(** ** Forgetting *)

Section forgetting.
Context `{L : PrimLaws, O : Os, OL : !OsLaws O, IO : !IoReliable O}.

(** [s'] is [s] with the files that satisfy [Q] removed. *)
Definition removed (Q : string -> Prop) (s s' : session) : Prop :=
  same_session s s' /\ (forall p, Q p -> files (os s') !! p = None) /\
  (forall p, ~ Q p -> files (os s') !! p = files (os s) !! p) /\
  (forall p, files (os s) !! p = None -> files (os s') !! p = None).

Lemma removed_trans Q Q' a b c : removed Q a b -> removed Q' b c -> removed (fun p => Q p \/ Q' p) a c.
Proof using.
  intros (H1 & F1 & K1 & N1) (H2 & F2 & K2 & N2). split; [by eapply same_session_trans|]. split; [|split].
  - intros p [H|H]; [by apply N2, F1|by apply F2].
  - intros p H. rewrite K2, K1; tauto.
  - intros p H. by apply N2, N1.
Qed.

Lemma removed_iff (Q Q' : string -> Prop) s s' :
  (forall p, is_Some (files (os s) !! p) -> Q p <-> Q' p) -> removed Q s s' -> removed Q' s s'.
Proof using.
  intros H (H1 & F & K & N). split; [done|].
  assert (Hd : forall p, files (os s) !! p = None \/ (Q p <-> Q' p)).
  { intros p. destruct (files (os s) !! p) eqn:E; [right; apply H; by rewrite E|by left]. }
  split; [|split; [|done]]; intros p Hp; destruct (Hd p) as [E|E].
  - by apply N.
  - by apply F, E.
  - by rewrite E, N.
  - apply K. by rewrite E.
Qed.

Lemma try_remove_run path s : exists s', try_remove path s = (s', Ok tt) /\ removed (eq path) s s'.
Proof using IO.
  destruct (remove_file_run path s) as (s' & E & Hs & Hf). exists s'. split.
  - unfold try_remove, st_catch. rewrite E. by destruct (path_exists s path).
  - split; [done|]. rewrite Hf. split; [intros p <-; apply lookup_delete_eq|]. split.
    + intros p Hp. by apply lookup_delete_ne.
    + intros p Hp. destruct (decide (path = p)) as [->|]; [apply lookup_delete_eq|by rewrite lookup_delete_ne].
Qed.

Lemma remove_all_run paths s :
  exists s', st_for paths try_remove s = (s', Ok tt) /\ removed (fun p => p ∈ paths) s s'.
Proof using IO.
  revert s. induction paths as [|q paths IH]; intros s.
  - exists s. split; [done|]. split; [apply same_session_refl|]. by split; [intros p ?%not_elem_of_nil|].
  - cbn [st_for]. unfold st_bind. destruct (try_remove_run q s) as (s1 & -> & H1).
    destruct (IH s1) as (s2 & -> & H2). exists s2. split; [done|].
    eapply removed_iff; [|by eapply removed_trans]. intros p _. cbn. rewrite elem_of_cons.
    split; intros [H|H]; auto.
Qed.

Lemma glob_pattern_run pt s : exists s' l, glob_pattern pt s = (s', Ok l) /\ quiet s s' /\
  forall p, p ∈ l <-> is_Some (files (os s) !! p) /\ matches s pt p.
Proof using OL.
  destruct pt as [k|n]; cbn [glob_pattern].
  - destruct (glob_star_run k s) as (s' & l & E & Hq & _ & Hl). by exists s', l.
  - unfold st_bind, st_get, st_ret. eexists s, _. split; [reflexivity|]. split; [apply quiet_refl|].
    intros p. unfold path_exists, matches. destruct (bool_decide_reflect (is_Some (files (os s) !! local_path s n))) as [H|H].
    + rewrite list_elem_of_singleton. split; [by intros ->|by intros [_ ->]].
    + split; [by intros ?%not_elem_of_nil|]. by intros [? ->].
Qed.

Lemma remove_patterns_run pts s :
  exists s', st_for pts (fun p => do! paths := glob_pattern p in st_for paths try_remove) s = (s', Ok tt) /\
    removed (fun p => exists pt, pt ∈ pts /\ matches s pt p) s s'.
Proof using OL IO.
  revert s. induction pts as [|pt pts IH]; intros s.
  - exists s. split; [done|]. split; [apply same_session_refl|].
    by split; [intros p (? & ?%not_elem_of_nil & _)|].
  - cbn [st_for]. unfold st_bind at 1 2. destruct (glob_pattern_run pt s) as (s1 & l & -> & (Hs1 & Hf1 & _) & Hl).
    destruct (remove_all_run l s1) as (s2 & -> & H2).
    assert (H12 : removed (fun p => p ∈ l) s s2).
    { destruct H2 as (H & F & K & N). rewrite Hf1 in K, N. split; [by eapply same_session_trans|done]. }
    destruct (IH s2) as (s3 & -> & H3). exists s3. split; [done|].
    eapply removed_iff; [|by eapply removed_trans]. intros p Hp. cbn. rewrite Hl.
    assert (Hm : forall q, matches s2 q p <-> matches s q p).
    { intros q. apply matches_same. destruct H12 as [H _]. by same_fields H. }
    split.
    + intros [[_ H]|(q & Hq & H)]; [exists pt; split; [left|done]|exists q; split; [by right|by apply Hm]].
    + intros (q & [->|Hq]%elem_of_cons & H); [by left|right]. exists q. split; [done|by apply Hm].
Qed.

(** Forgetting stale state. Every file of the stale patterns is gone and no
    other file has changed: the identity key and the record of backups stay. In
    memory nothing of a peer, a ratchet or a prekey is left; the identity and the
    cache policy are as before. *)
Theorem stale_state_forgotten s :
  nonempty (secchat_dir s) = true ->
  exists s', clear_stale_local_state s = (s', Ok tt) /\
    (forall p, (exists pt, pt ∈ stale_patterns /\ matches s pt p) -> files (os s') !! p = None) /\
    (forall p, ~ (exists pt, pt ∈ stale_patterns /\ matches s pt p) -> files (os s') !! p = files (os s) !! p) /\
    files (os s') !! identity_key_path s = files (os s) !! identity_key_path s /\
    files (os s') !! backup_state_path s = files (os s) !! backup_state_path s /\
    conv_fingerprints s' = ∅ /\ conv_verified s' = ∅ /\ identity_audit_states s' = ∅ /\
    auditor_state s' = [] /\ pqxdh_prekeys s' = PNone /\ double_ratchet_states s' = ∅ /\
    double_ratchet_session_states s' = ∅ /\ mls_group_ready s' = ∅ /\ mls_handshake_seen s' = ∅ /\
    identity_sk s' = identity_sk s /\ identity_pk s' = identity_pk s /\ cache_enabled s' = cache_enabled s.
Proof using OL IO.
  intros Hn. unfold clear_stale_local_state, st_bind at 1, st_modify. unfold st_bind at 1, st_get.
  lazymatch goal with |- context [(if _ then _ else _) ?x] => set (s0 := x) end.
  change (secchat_dir s0) with (secchat_dir s). rewrite Hn. cbn [negb].
  destruct (remove_patterns_run stale_patterns s0) as (s' & -> & Hs & Hgone & Hkept & _).
  exists s'. split; [done|]. change (files (os s0)) with (files (os s)) in Hkept. split; [exact Hgone|].
  split; [exact Hkept|].
  assert (Hname : forall n, forallb (fun pt => clash n (stem pt)) stale_patterns = true ->
    files (os s') !! local_path s n = files (os s) !! local_path s n).
  { intros n Hc. apply Hkept. intros (pt & Hpt & Hm).
    eapply (matches_disjoint s (Name n) pt); [|done|exact Hm].
    by apply list_elem_of_In, (proj1 (List.forallb_forall _ _) Hc) in Hpt. }
  split; [by apply Hname|]. split; [by apply Hname|].
  by repeat split; same_fields Hs.
Qed.

Lemma remove_if_exists_run path s :
  exists s', (do! s := st_get in st_when (path_exists s path) (try_remove path)) s = (s', Ok tt) /\
    removed (eq path) s s'.
Proof using IO.
  unfold st_bind, st_get, st_when. destruct (path_exists s path) eqn:E; [apply try_remove_run|].
  exists s. split; [done|]. split; [apply same_session_refl|].
  split; [|done]. intros p <-. unfold path_exists in E. apply bool_decide_eq_false in E.
  by apply eq_None_not_Some.
Qed.

(** Forgetting a conversation. Its ratchets and its verified mark are gone from
    memory and from disk; the ratchets of every other conversation, its own
    plaintext cache and transcript, and all other files stay. *)
Theorem conversation_forgotten s c :
  nonempty (secchat_dir s) = true ->
  let paths := [double_ratchet_path s c; double_ratchet_sessions_path s c; verified_path s c] in
  exists s', cleanup_conversation_state c s = (s', Ok tt) /\
    (forall p, p ∈ paths -> files (os s') !! p = None) /\
    (forall p, p ∉ paths -> files (os s') !! p = files (os s) !! p) /\
    files (os s') !! msg_cache_path s c = files (os s) !! msg_cache_path s c /\
    files (os s') !! transcript_path s c = files (os s) !! transcript_path s c /\
    double_ratchet_states s' = delete c (double_ratchet_states s) /\
    double_ratchet_session_states s' = delete c (double_ratchet_session_states s) /\
    conv_verified s' = delete c (conv_verified s) /\ conv_fingerprints s' = delete c (conv_fingerprints s) /\
    conv_peer_uids s' = delete c (conv_peer_uids s) /\ mls_group_ready s' = mls_group_ready s ∖ {[c]}.
Proof using IO.
  intros Hn paths. unfold cleanup_conversation_state, st_bind at 1, st_modify. unfold st_bind at 1, st_get at 1.
  lazymatch goal with |- context [(if _ then _ else _) ?x] => set (s0 := x) end.
  change (secchat_dir s0) with (secchat_dir s). rewrite Hn. cbn [negb st_for].
  change (double_ratchet_path s0 c) with (double_ratchet_path s c).
  change (double_ratchet_sessions_path s0 c) with (double_ratchet_sessions_path s c).
  change (verified_path s0 c) with (verified_path s c).
  destruct (remove_if_exists_run (double_ratchet_path s c) s0) as (s1 & E1 & H1).
  destruct (remove_if_exists_run (double_ratchet_sessions_path s c) s1) as (s2 & E2 & H2).
  destruct (remove_if_exists_run (verified_path s c) s2) as (s3 & E3 & H3).
  pose proof (removed_trans _ _ _ _ _ (removed_trans _ _ _ _ _ H1 H2) H3) as (Hs & Hgone & Hkept & _).
  change (files (os s0)) with (files (os s)) in Hkept.
  assert (Hk : forall p, p ∉ paths -> files (os s3) !! p = files (os s) !! p).
  { intros p Hp. apply Hkept. intros [[<-|<-]|<-]; apply Hp; [left|right; left|right; right; left]. }
  exists s3. split; [unfold st_bind at 1; rewrite E1; unfold st_bind at 1; rewrite E2; unfold st_bind at 1; by rewrite E3|]. split; [|split; [exact Hk|]].
  { intros p Hp. apply Hgone. unfold paths in Hp. rewrite !elem_of_cons in Hp.
    destruct Hp as [->|[->|[->|[]%not_elem_of_nil]]]; auto. }
  assert (Hname : forall kind, forallb (clash kind) ["dr_"; "dr_sessions_"; "verified_"] = true ->
    files (os s3) !! local_path s (conv_file kind c) = files (os s) !! local_path s (conv_file kind c)).
  { intros kind Hc. cbn in Hc. bool_hyps. apply Hk. unfold paths. rewrite !elem_of_cons.
    intros [E|[E|[E|[]%not_elem_of_nil]]]; apply local_path_inj in E; by eapply clash_neq in E. }
  split; [by apply Hname|]. split; [by apply Hname|]. by repeat split; same_fields Hs.
Qed.
End forgetting.

(** ** Witnesses

    An identity file and a cache of two lines for conversation 7, the second of
    them damaged in the second session. *)

Definition demo_new_key : bytes := "fedcba9876543210fedcba9876543210".

Section demo.
#[local] Existing Instance reference_prims.

Definition demo_token (n : Z) (key : bytes) (text : string) : string :=
  ok_or "" (encrypt_with_key (fill (chr8 n) 12) 1000 key text).

Definition demo_tokens (second : string) : list string := [demo_token 66 demo_key "{}"; second].

Definition demo_state (second : string) : session :=
  let s := demo_session in
  s <| os ::= fun w => w <| dirs := {[secchat_dir s]} |>
    <| files := <[identity_key_path s := demo_token 65 demo_key "c2s="]>
                  {[msg_cache_path s 7 := concat_lines (demo_tokens second)]} |> |>.

Lemma demo_dirs second : secchat_dir (demo_state second) ∈ dirs (os (demo_state second)).
Proof. cbn. set_solver. Qed.

Lemma demo_line n text : utf8_valid text = true -> line_holds demo_key (demo_token n demo_key text) text.
Proof.
  intros Hv. destruct (encrypt_with_key (fill (chr8 n) 12) 1000 demo_key text) as [token|e] eqn:E.
  - unfold demo_token. rewrite E. destruct (token_opens (fill (chr8 n) 12) 1000 demo_key text token) as [H1 H2];
      [by apply fill_length|done|done|]. by apply line_of_token.
  - rewrite encrypt_with_key_ok in E by done. discriminate E.
Qed.

Lemma demo_single second p : is_single (demo_state second) p -> opens_under demo_key false (demo_state second) p.
Proof.
  intros Hp raw Hf. cbn in Hf. apply lookup_insert_Some in Hf as [[<- <-]|[_ Hf]].
  - exists ["c2s="], [demo_token 65 demo_key "c2s="]. split; [cbn; lia|]. split; [done|].
    constructor; [by apply demo_line|constructor].
  - apply lookup_singleton_Some in Hf as [<- _]. exfalso. eapply single_not_cache; [exact Hp|].
    unfold is_cache, matches. by eexists.
Qed.

Lemma demo_cache p :
  let s := demo_state (demo_token 67 demo_key "[]") in is_cache s p -> opens_under demo_key true s p.
Proof.
  intros s Hp raw Hf. cbn in Hf. apply lookup_insert_Some in Hf as [[<- <-]|[_ Hf]].
  - exfalso. destruct Hp as [x Hx]. vm_compute in Hx. discriminate Hx.
  - apply lookup_singleton_Some in Hf as [<- <-]. exists ["{}"; "[]"], (demo_tokens (demo_token 67 demo_key "[]")).
    split; [done|]. split; [done|].
    constructor; [by apply demo_line|]. constructor; [by apply demo_line|constructor].
Qed.
End demo.

Lemma rewrap_keeps_contents_witness :
  let s := demo_state (demo_token 67 demo_key "[]") in
  exists s', rewrap_local_state (P := reference_prims) (O := demo_os 0) demo_key demo_new_key s = (s', Ok tt) /\
    sealed_at (P := reference_prims) (s' <| master_key := demo_new_key |>) (identity_key_path s) (PStr "c2s=") /\
    moved (P := reference_prims) demo_key demo_new_key true s s' (msg_cache_path s 7).
Proof.
  intros s.
  destruct (rewrap_keeps_contents (P := reference_prims) (O := demo_os 0) demo_key demo_new_key s)
    as (s' & E & _ & Hr & _ & Hc & _).
  - reflexivity.
  - reflexivity.
  - apply demo_dirs.
  - apply demo_single.
  - apply demo_cache.
  - exists s'. split; [exact E|]. split.
    + apply Hr; [left; left|]. exists (demo_token 65 demo_key "c2s="). split; vm_compute; reflexivity.
    + apply Hc. exists "7". reflexivity.
Defined.

Lemma rewrap_stops_at_damaged_line_witness :
  let s := demo_state "damaged" in
  exists s' e, rewrap_local_state (P := reference_prims) (O := demo_os 0) demo_key demo_new_key s = (s', Err e) /\
    moved (P := reference_prims) demo_key demo_new_key false s s' (identity_key_path s) /\
    exists s2, load_cached_messages (P := reference_prims) (O := demo_os 0) 7 (s' <| master_key := demo_new_key |>) =
      (s2, Ok no_cached) /\ files (os s2) !! msg_cache_path s 7 = Some "".
Proof.
  intros s.
  destruct (rewrap_stops_at_damaged_line (P := reference_prims) (O := demo_os 0) demo_key demo_new_key s 7
    (demo_tokens "damaged") "damaged" 0) as (s' & e & E & _ & Hm & _ & Hl).
  - reflexivity.
  - reflexivity.
  - reflexivity.
  - apply demo_dirs.
  - apply demo_single.
  - constructor; [apply (demo_line 66 "{}"); reflexivity|]. constructor; [split; [reflexivity|discriminate]|constructor].
  - reflexivity.
  - right. left.
  - reflexivity.
  - repeat constructor; vm_compute; reflexivity.
  - exists s', e. split; [exact E|]. split; [apply Hm; left; left|]. apply Hl. reflexivity.
Defined.

Lemma stale_state_forgotten_witness :
  let s := demo_state "damaged" in
  exists s', clear_stale_local_state (O := demo_os 0) s = (s', Ok tt) /\
    files (os s') !! msg_cache_path s 7 = None /\
    files (os s') !! identity_key_path s = Some (demo_token 65 demo_key "c2s=").
Proof.
  intros s. destruct (stale_state_forgotten (O := demo_os 0) s) as (s' & E & Hg & _ & Hi & _); [reflexivity|].
  exists s'. split; [exact E|]. split.
  - apply Hg. exists (Star "msgs_"). split; [right; left|]. exists "7". reflexivity.
  - rewrite Hi. reflexivity.
Defined.

Lemma conversation_forgotten_witness :
  let s := demo_state "damaged" in
  exists s', cleanup_conversation_state (O := demo_os 0) 7 s = (s', Ok tt) /\
    files (os s') !! msg_cache_path s 7 = Some (concat_lines (demo_tokens "damaged")).
Proof.
  intros s. destruct (conversation_forgotten (O := demo_os 0) s 7) as (s' & E & _ & _ & Hc & _); [reflexivity|].
  exists s'. split; [exact E|]. rewrite Hc. reflexivity.
Defined.
