(* ===== verification/Backup.v ===== *)
(** * Encrypted backups of the local state (client/crypto_engine/session.py)

    A backup is a JSON file: a header and a manifest in the clear, and the state
    entries, opened from the master key, sealed together under a key derived from
    a passphrase, with the manifest as associated data. Restoring seals each entry
    again under the master key of the session. A device keeps a record of its
    backups (the last one, those it revoked) in [backup_state.bin].

    The character classes of [str] outside ASCII are the parameter
    [UnicodeTables]: tables of the language the code only passes through. A path
    the user chose is written without the check of [writable], since its directory
    has just been made. *)

From S2P Require Import Prelude Hashing Base64 PyVal Sorting Json Crypto Wire Ratchet AuditClient Utils.
From S2P Require Import Session CacheStore Identity MlsBridge Mls Cleanup.

(** [str.islower], [isupper], [isdigit], [isalnum] of a code point from 128 on. *)
Class UnicodeTables := {
  u_lower : Z -> bool; u_upper : Z -> bool; u_digit : Z -> bool; u_alnum : Z -> bool
}.

(** The code points of a UTF-8 text, from its end: the points, the bits of the
    continuation bytes read so far and their weight. *)
Fixpoint points (s : string) : list Z * (Z * Z) :=
  match s with
  | EmptyString => ([], (0, 1))
  | String c s' =>
      let '(l, (bits, weight)) := points s' in
      let z := code c in
      if z <? 128 then (z :: l, (0, 1))
      else if z <? 192 then (l, (bits + (z - 128) * weight, weight * 64))
      else let lead := if z <? 224 then z - 192 else if z <? 240 then z - 224 else z - 240 in
           (lead * weight + bits :: l, (0, 1))
  end.
Definition code_points (s : string) : list Z := fst (points s).

Section report.
Context `{UnicodeTables}.

Definition between (lo hi z : Z) : bool := (lo <=? z) && (z <=? hi).
Definition is_lower (z : Z) : bool := if z <? 128 then between 97 122 z else u_lower z.
Definition is_upper (z : Z) : bool := if z <? 128 then between 65 90 z else u_upper z.
Definition is_decimal (z : Z) : bool := if z <? 128 then between 48 57 z else u_digit z.
Definition is_alnum (z : Z) : bool :=
  if z <? 128 then between 97 122 z || between 65 90 z || between 48 57 z else u_alnum z.

Definition count (b : bool) : Z := if b then 1 else 0.

(** [ok], [score], [message]. *)
Definition backup_passphrase_report (passphrase : string) : bool * Z * string :=
  let value := code_points passphrase in
  let len := Z.of_nat (length value) in
  let classes := count (existsb is_lower value) + count (existsb is_upper value)
    + count (existsb is_decimal value) + count (existsb (fun ch => negb (is_alnum ch)) value) in
  let score := classes + (count (16 <=? len) + count (24 <=? len)) in
  let ok := (12 <=? len) && (3 <=? score) in
  let msg := if len <? 12 then "Use at least 12 characters for the backup passphrase."
             else if score <? 3 then "Use a longer passphrase or mix words with numbers or symbols."
             else "Backup passphrase strength is acceptable." in
  (ok, score, msg).
End report.

(** ** Format *)

Definition _BACKUP_FORMAT : string := "secchat-e2ee-state-backup".
Definition _BACKUP_VERSION : Z := 3.
Definition _BACKUP_MIN_VERSION : Z := 1.
Definition _BACKUP_KDF_ITERS : Z := 600000.
Definition _BACKUP_PATTERNS : list pattern :=
  [Name "identity_sk.bin"; Name "pqxdh_prekeys.bin"; Star "dr_"; Star "mls_"; Star "verified_";
   Star "identity_audit_"; Name "auditor_state.bin"; Name "cache_policy.bin"; Star "transcript_";
   Star "msgs_"].

(** [os.path.basename]. *)
Fixpoint basename (s : string) : string :=
  match s with
  | EmptyString => ""
  | String c s' => if contains "/" s' then basename s' else if Ascii.eqb c "/"%char then s' else s
  end.

(** [fnmatch.fnmatchcase(name, pattern)]. *)
Definition pattern_allows (name : string) (p : pattern) : bool :=
  match p with
  | Name n => String.eqb name n
  | Star k =>
      let rest := sdrop (String.length k) name in
      let n := (String.length rest - 4)%nat in
      starts_with k name && (4 <=? String.length rest)%nat && String.eqb (sdrop n rest) ".bin"
  end.

Definition _backup_name_allowed (name : string) : bool :=
  let base := basename name in
  if negb (String.eqb base name) || negb (nonempty base) then false
  else existsb (pattern_allows base) _BACKUP_PATTERNS.

Definition _canonical_backup_manifest (manifest : pyval) : res bytes :=
  utf8_encode (json_dumps false true manifest).

(** [_unb64]. *)
Definition _unb64 (v : pyval) : res bytes :=
  let t := py_str v in
  if string_all is_ascii t then a2b 0 0 0 t else Err UnicodeError.

Definition bad_iterations : exc := ValueError "iterations must be positive".
Definition needs_passphrase : exc := CryptoStateError "Backup passphrase is required.".
Definition not_a_backup : exc := CryptoStateError "This is not a SecChat E2EE backup file.".
Definition revoked_id : exc :=
  CryptoStateError "This backup was revoked on this device and will not be restored.".
Definition revoked_generation : exc :=
  CryptoStateError "This backup generation was revoked on this device and will not be restored.".
Definition bad_version : exc := CryptoStateError "Unsupported SecChat backup version.".
Definition manifest_mismatch : exc := CryptoStateError "Backup manifest does not match encrypted payload.".
Definition login_required (what : string) : exc :=
  CryptoStateError ("Login is required before " +:+ what +:+ " backup.").

Section backup.
Context `{P : Prims, O : Os, U : UnicodeTables}.

Definition _backup_key (passphrase : string) (salt : bytes) (iterations : Z) : res bytes :=
  assert! nonempty passphrase else needs_passphrase in
  assert! 0 <? iterations else bad_iterations in
  let! pw := utf8_encode passphrase in
  Ok (pbkdf2_derive salt iterations pw).

(** ** The record of backups *)

Definition _load_backup_state : sm dict :=
  do! s := st_get in
  if negb (has_store s) then st_ret []
  else if negb (path_exists s (backup_state_path s)) then st_ret []
  else st_catch (
      do! data := read_json (backup_state_path s) in
      st_ret (match data with PDict d => d | _ => [] end)) (fun _ => st_ret []).

Definition _save_backup_state (state : dict) : sm unit :=
  do! s := st_get in
  if negb (has_store s) then st_ret tt
  else logged (write_sealed (backup_state_path s) (json_dumps false false (PDict state))).

Definition status_of (state : dict) : res dict :=
  let! created := get_int0 "latest_created_at" state in
  let! generation := get_int0 "latest_generation" state in
  let! restored_at := get_int0 "restored_at" state in
  let! before := get_int0 "revoked_before_generation" state in
  let! ids := py_iter (py_or (dget "revoked_backup_ids" PNone state) (PList [])) in
  Ok [("latest_backup_id", PStr (get_str0 "latest_backup_id" state)); ("latest_created_at", PInt created);
      ("latest_generation", PInt generation);
      ("latest_device_label", PStr (get_str0 "latest_device_label" state));
      ("latest_include_cache", PBool (truthy (dget "latest_include_cache" (PBool false) state)));
      ("restored_from_backup_id", PStr (get_str0 "restored_from_backup_id" state));
      ("restored_at", PInt restored_at); ("revoked_before_generation", PInt before);
      ("revoked_count", PInt (Z.of_nat (length ids)))].

Definition get_backup_status : sm dict := do! state := _load_backup_state in st_lift (status_of state).

(** [{str(x) for x in state.get("revoked_backup_ids", []) if x}]. *)
Definition revoked_ids (state : dict) : res (gset string) :=
  let! l := py_iter (dget "revoked_backup_ids" (PList []) state) in
  Ok (list_to_set (map py_str (List.filter truthy l))).

Definition revoke_local_backups : sm dict :=
  do! state := _load_backup_state in
  let latest_id := get_str0 "latest_backup_id" state in
  do! latest_generation := st_lift (get_int0 "latest_generation" state) in
  do! revoked := st_lift (revoked_ids state) in
  let revoked := if nonempty latest_id then {[latest_id]} ∪ revoked else revoked in
  let state := dset "revoked_backup_ids" (PList (map PStr (sort_strings (elements revoked)))) state in
  do! before := st_lift (get_int0 "revoked_before_generation" state) in
  let state := dset "revoked_before_generation" (PInt (Z.max before latest_generation)) state in
  do! now := now_s in
  let state := dset "revoked_at" (PInt now) state in
  do! _ := _save_backup_state state in
  get_backup_status.

(** ** Inspecting *)

(** [json.load] of a file, which should hold an object. *)
Definition load_outer (path : string) : sm dict :=
  do! text := read_text path in
  st_lift (let! v := json_loads text in as_dict v).

Definition check_format (outer : dict) : res unit :=
  if py_eqb (dget "format" PNone outer) (PStr _BACKUP_FORMAT) then Ok tt else Err not_a_backup.

Definition manifest_of (d : dict) : pyval := py_or (dget "manifest" PNone d) (PDict []).

(** [outer.get(k, dflt) or manifest.get(k, dflt) or dflt]. *)
Definition header_field (k : string) (dflt : pyval) (outer : dict) : res pyval :=
  let v := dget k dflt outer in
  if truthy v then Ok v
  else let! m := as_dict (manifest_of outer) in Ok (py_or (dget k dflt m) dflt).
Definition header_id (outer : dict) : res string :=
  let! v := header_field "backup_id" (PStr "") outer in Ok (py_str v).
Definition header_int (k : string) (outer : dict) : res Z :=
  let! v := header_field k (PInt 0) outer in py_int v.

Definition info_of (outer : dict) : res dict :=
  let! _ := check_format outer in
  let! version := py_int (py_or (dget "version" (PInt 1) outer) (PInt 1)) in
  let! backup_id := header_id outer in
  let! generation := header_int "generation" outer in
  let! created_at := header_int "created_at" outer in
  let! m := as_dict (manifest_of outer) in
  let! uid := get_int0 "user_id" m in
  let! file_count := get_int0 "file_count" m in
  let! entry_count := get_int0 "entry_count" m in
  Ok [("format", dget "format" PNone outer); ("version", PInt version); ("backup_id", PStr backup_id);
      ("generation", PInt generation); ("created_at", PInt created_at);
      ("account_username", PStr (get_str0 "account_username" m)); ("user_id", PInt uid);
      ("device_label", PStr (get_str0 "device_label" m));
      ("include_cache", PBool (truthy (dget "include_cache" (PBool false) m)));
      ("identity_fingerprint", PStr (get_str0 "identity_fingerprint" m));
      ("file_count", PInt file_count); ("entry_count", PInt entry_count)].

Definition inspect_e2ee_backup (path : string) : sm dict :=
  do! outer := load_outer path in st_lift (info_of outer).

(** ** Exporting *)

Definition _new_backup_id : sm string :=
  do! raw := urandom 18 in st_ret (b64e raw).

Definition _identity_backup_fingerprint (s : session) : res string :=
  let! pk := if negb (nonempty (identity_pk s)) && nonempty (identity_sk s)
             then identity_pk_from_sk (identity_sk s) else Ok (identity_pk s) in
  Ok (if nonempty pk then stake 24 (sha256_hex pk) else "").

(** The name a listed path was found under. *)
Definition add_state_file (acc : list (string * string)) (path : string) : list (string * string) :=
  let name := basename path in
  if bool_decide (name ∈ map fst acc) || negb (_backup_name_allowed name) then acc
  else acc ++ [(name, path)].

(** [_state_files_for_backup]: names and paths, in the order of the names. *)
Definition _state_files_for_backup (include_cache : bool) : sm (list (string * string)) :=
  do! s := st_get in
  if negb (nonempty (secchat_dir s)) then st_ret []
  else
    let patterns := List.filter (fun p => match p with
      | Star k => include_cache || negb (String.eqb k "msgs_")
      | Name _ => true end) _BACKUP_PATTERNS in
    do! paths := glob_all patterns in
    st_ret (isort (by_key str_ltb fst) (fold_left add_state_file paths [])).

Definition is_line_file (name : string) : bool := starts_with "msgs_" name.

(** The entries of a file, opened. *)
Definition open_entries (key : bytes) (tokens : list string) : res (list pyval) :=
  res_map (decrypt_with_key None key) (List.filter nonempty (map strip tokens)).

Definition file_json (name : string) (entries : list pyval) : pyval :=
  PDict [("name", PStr name); ("line_mode", PBool (is_line_file name)); ("entries", PList entries)].

(** The [files] of a payload, and how many entries they hold. *)
Definition read_state_file (acc : list pyval * Z) (src : string * string) : sm (list pyval * Z) :=
  let (name, path) := src in
  do! text := read_text path in
  do! s := st_get in
  do! entries := st_lift (open_entries (master_key s)
    (if is_line_file name then splitlines text else [text])) in
  st_ret (match entries with
          | [] => acc
          | _ => (fst acc ++ [file_json name entries], snd acc + Z.of_nat (length entries))
          end).

Record backup_meta := BackupMeta {
  b_id : string; b_generation : Z; b_created : Z; b_user : string; b_uid : Z; b_cache : bool;
  b_label : string; b_fingerprint : string; b_files : Z; b_entries : Z
}.

Definition manifest_json (m : backup_meta) : dict :=
  [("format", PStr _BACKUP_FORMAT); ("version", PInt _BACKUP_VERSION); ("backup_id", PStr (b_id m));
   ("generation", PInt (b_generation m)); ("created_at", PInt (b_created m));
   ("account_username", PStr (b_user m)); ("user_id", PInt (b_uid m));
   ("include_cache", PBool (b_cache m)); ("device_label", PStr (b_label m));
   ("identity_fingerprint", PStr (b_fingerprint m)); ("file_count", PInt (b_files m));
   ("entry_count", PInt (b_entries m))].

Definition payload_json (m : backup_meta) (files : list pyval) : dict :=
  [("format", PStr _BACKUP_FORMAT); ("version", PInt _BACKUP_VERSION);
   ("manifest", PDict (manifest_json m)); ("backup_id", PStr (b_id m));
   ("generation", PInt (b_generation m)); ("created_at", PInt (b_created m));
   ("account_username", PStr (b_user m)); ("user_id", PInt (b_uid m));
   ("include_cache", PBool (b_cache m)); ("files", PList files)].

Definition outer_json (m : backup_meta) (salt nonce ct : bytes) : dict :=
  [("format", PStr _BACKUP_FORMAT); ("version", PInt _BACKUP_VERSION); ("backup_id", PStr (b_id m));
   ("generation", PInt (b_generation m)); ("created_at", PInt (b_created m));
   ("include_cache", PBool (b_cache m)); ("manifest", PDict (manifest_json m));
   ("kdf", PStr "PBKDF2-HMAC-SHA256"); ("iterations", PInt _BACKUP_KDF_ITERS);
   ("salt", PStr (b64encode salt)); ("nonce", PStr (b64encode nonce)); ("ciphertext", PStr (b64encode ct))].

(** The file of a backup. *)
Definition seal_backup (passphrase : string) (m : backup_meta) (files : list pyval) (salt nonce : bytes) :
    res string :=
  let! key := _backup_key passphrase salt _BACKUP_KDF_ITERS in
  let! plain := utf8_encode (json_dumps false false (PDict (payload_json m files))) in
  let! aad := _canonical_backup_manifest (PDict (manifest_json m)) in
  let ct := aes_encrypt key nonce plain (Some aad) in
  Ok (json_dumps false false (PDict (outer_json m salt nonce ct))).

Definition write_user_file (path text : string) : sm unit :=
  do! _ := io in
  do! _ := io in
  do! raw := st_lift (utf8_encode text) in
  st_modify (fun s => s <| os ::= fun w => w <| files ::= <[path := raw]> |> |>).

Definition latest_fields (m : backup_meta) : dict :=
  [("latest_backup_id", PStr (b_id m)); ("latest_generation", PInt (b_generation m));
   ("latest_created_at", PInt (b_created m)); ("latest_device_label", PStr (b_label m));
   ("latest_include_cache", PBool (b_cache m))].

Definition export_result (m : backup_meta) : dict :=
  [("files", PInt (b_files m)); ("entries", PInt (b_entries m)); ("backup_id", PStr (b_id m));
   ("backup_generation", PInt (b_generation m)); ("created_at", PInt (b_created m));
   ("include_cache", PBool (b_cache m))].

Definition export_e2ee_backup (path passphrase account_username : string) (include_cache : bool) :
    sm dict :=
  do! s := st_get in
  if negb (has_store s) then st_fail (login_required "exporting")
  else
    let '(ok, _, message) := backup_passphrase_report passphrase in
    if negb ok then st_fail (CryptoStateError message)
    else
      do! _ := _save_mls_state in
      do! sources := _state_files_for_backup include_cache in
      do! (files, entry_count) := st_fold read_state_file ([], 0) sources in
      do! state := _load_backup_state in
      do! latest := st_lift (get_int0 "latest_generation" state) in
      do! created_at := now_s in
      do! backup_id := _new_backup_id in
      do! s := st_get in
      do! fingerprint := st_lift (_identity_backup_fingerprint s) in
      let label := py_str (py_or (dget "device_label" (PStr "") state) (PStr "primary device")) in
      let m := BackupMeta backup_id (latest + 1) created_at account_username (my_uid s) include_cache
                 label fingerprint (Z.of_nat (length files)) entry_count in
      do! salt := urandom 16 in
      do! nonce := urandom 12 in
      do! text := st_lift (seal_backup passphrase m files salt nonce) in
      do! _ := write_user_file path text in
      do! _ := _save_backup_state (dupdate state (latest_fields m)) in
      st_ret (export_result m).

(** ** Merging cache entries *)

(** The key of an entry: its message id, the hash of its wire, or its own hash. *)
Definition entry_key (raw : string) : res string :=
  match (let! v := json_loads raw in
         let! item := as_dict v in
         let! mid := get_int0 "id" item in
         let wire_hash := get_str0 "wire_hash" item in
         Ok (if negb (mid =? 0) then Some ("id:" +:+ dec mid)
             else if nonempty wire_hash then Some ("wire:" +:+ wire_hash) else None)) with
  | Ok (Some key) => Ok key
  | _ => let! bytes := utf8_encode raw in Ok ("raw:" +:+ sha256_hex bytes)
  end.

Definition placeholders : list string := ["[Forward-secret]"; "[Message deleted]"; "[Encrypted"; "[Cannot"].

Definition quality (raw : string) : Z :=
  match (let! v := json_loads raw in let! item := as_dict v in Ok (get_str0 "body" item)) with
  | Ok body => if negb (nonempty body) then 0
               else if existsb (fun p => starts_with p body) placeholders then 1 else 2
  | Err _ => 0
  end.

Definition keep (merged : list (string * string)) (raw : string) : res (list (string * string)) :=
  let! key := entry_key raw in
  Ok (match dlookup key merged with
      | None => dset key raw merged
      | Some current => if quality current <? quality raw then dset key raw merged else merged
      end).

(** One line of the file that is there: what does not open is skipped. *)
Definition keep_line (key : bytes) (merged : list (string * string)) (line : string) :
    list (string * string) :=
  let token := strip line in
  if negb (nonempty token) then merged
  else match (let! v := decrypt_with_key None key token in let! raw := as_str v in keep merged raw) with
       | Ok merged => merged
       | Err _ => merged
       end.

Fixpoint keep_all (merged : list (string * string)) (incoming : list string) : res (list (string * string)) :=
  match incoming with
  | [] => Ok merged
  | raw :: incoming => let! merged := keep merged raw in keep_all merged incoming
  end.

Definition _merge_cache_entries (dst : string) (incoming : list string) : sm (list string) :=
  do! s := st_get in
  do! merged := (if path_exists s dst then
      st_catch (
        do! text := read_text dst in
        st_ret (fold_left (keep_line (master_key s)) (split_lines text) []))
      (fun e => match e with OSError => st_ret [] | _ => st_fail e end)
    else st_ret []) in
  st_lift (let! merged := keep_all merged incoming in Ok (map snd merged)).

(** ** Restoring *)

Definition _restore_should_skip_for_merge (name : string) : bool :=
  existsb (String.eqb name) ["identity_sk.bin"; "pqxdh_prekeys.bin"; "auditor_state.bin"; "cache_policy.bin"]
  || existsb (fun p => starts_with p name) ["dr_"; "mls_"; "verified_"; "identity_audit_"; "transcript_"].

(** Is a backup revoked by the record of this device? *)
Definition check_revoked (state : dict) (backup_id : string) (generation : Z) : res unit :=
  let! revoked := revoked_ids state in
  let! before := get_int0 "revoked_before_generation" state in
  if nonempty backup_id && bool_decide (backup_id ∈ revoked) then Err revoked_id
  else if negb (generation =? 0) && negb (before =? 0) && (generation <=? before)
  then Err revoked_generation
  else Ok tt.

(** The payload of a backup file, opened and checked. *)
Definition open_backup (passphrase : string) (outer : dict) : res dict :=
  let! saltv := ditem "salt" outer in
  let! salt := _unb64 saltv in
  let! iterations := py_int (dget "iterations" (PInt _BACKUP_KDF_ITERS) outer) in
  let! key := _backup_key passphrase salt iterations in
  let manifest := manifest_of outer in
  let! aad := if truthy manifest then let! m := _canonical_backup_manifest manifest in Ok (Some m)
              else Ok None in
  let! noncev := ditem "nonce" outer in
  let! nonce := _unb64 noncev in
  let! ctv := ditem "ciphertext" outer in
  let! ct := _unb64 ctv in
  assert! (8 <=? blen nonce) && (blen nonce <=? 128) else bad_nonce in
  let! plain := of_option (aes_decrypt key nonce ct aad) InvalidTag in
  let! v := loads_bytes plain in
  let! payload := as_dict v in
  let! version := get_int0 "version" payload in
  if negb (py_eqb (dget "format" PNone payload) (PStr _BACKUP_FORMAT)) || (version <? _BACKUP_MIN_VERSION)
     || (_BACKUP_VERSION <? version) then Err bad_version
  else if truthy manifest && negb (py_eqb (manifest_of payload) manifest) then Err manifest_mismatch
  else Ok payload.

Record tally := Tally { restored : Z; t_entries : Z; skipped_files : Z }.
#[export] Instance tally_eta : Eta tally := fun t => Tally (restored t) (t_entries t) (skipped_files t).

(** Entries are sealed again under the master key. *)
Fixpoint seal_all (key : bytes) (entries : list string) : sm (list string) :=
  match entries with
  | [] => st_ret []
  | e :: entries =>
      do! token := seal key e in
      do! rest := seal_all key entries in
      st_ret (token :: rest)
  end.

Definition write_entries (dst : string) (line_mode : bool) (raw_entries : list string) : sm unit :=
  do! s := st_get in
  do! encrypted := seal_all (master_key s) raw_entries in
  let tmp := dst +:+ ".tmp" in
  do! _ := write_text tmp (if line_mode then cache_text encrypted else hd "" encrypted) in
  replace_file tmp dst.

(** One file of the payload. *)
Definition restore_file (overwrite preserve : bool) (t : tally) (v : pyval) : sm tally :=
  do! item := st_lift (as_dict v) in
  let name := basename (py_str (dget "name" (PStr "") item)) in
  if negb (_backup_name_allowed name) then st_ret t
  else
    do! s := st_get in
    let dst := local_path s name in
    let line_mode := truthy (dget "line_mode" (PBool false) item) in
    let merging := preserve && is_line_file name && line_mode in
    let skip := st_ret (t <| skipped_files ::= Z.add 1 |>) in
    if preserve && _restore_should_skip_for_merge name then skip
    else if path_exists s dst && negb overwrite && negb merging then skip
    else
      do! raw_entries := st_lift (let! l := py_iter (dget "entries" (PList []) item) in Ok (map py_str l)) in
      if negb merging && preserve && path_exists s dst then skip
      else
        do! raw_entries := (if merging then _merge_cache_entries dst raw_entries else st_ret raw_entries) in
        do! _ := write_entries dst line_mode raw_entries in
        st_ret (t <| restored ::= Z.add 1 |> <| t_entries ::= Z.add (Z.of_nat (length raw_entries)) |>).

(** What restoring over the current identity forgets; an exception of closing the
    bridge is ignored. *)
Definition forget_state : sm unit :=
  st_modify (fun s => s <| conv_verified := ∅ |> <| conv_fingerprints := ∅ |>
    <| identity_audit_states := ∅ |> <| auditor_state := [] |> <| pqxdh_prekeys := PNone |>
    <| double_ratchet_states := ∅ |> <| double_ratchet_session_states := ∅ |>
    <| group_epochs := ∅ |> <| group_conv_ids := ∅ |> <| mls_group_ready := ∅ |>
    <| mls_handshake_seen := ∅ |> <| mls_bridge := None |> <| mls_identity_ready := false |>
    <| mls_credential_identity_b64 := "" |>).

(** The record of backups after a restore. *)
Definition restored_fields (state outer payload : dict) (backup_id : string) (generation now : Z) : res dict :=
  let! latest := get_int0 "latest_generation" state in
  let! created := get_int0 "latest_created_at" state in
  let! created := (if negb (created =? 0) then Ok created else
    let! m := as_dict (manifest_of outer) in
    py_int (py_or (dget "created_at" (dget "created_at" (PInt 0) payload) m) (PInt 0))) in
  let label := dget "latest_device_label" (PStr "") state in
  let! label := (if truthy label then Ok label else
    let! m := as_dict (manifest_of outer) in Ok (PStr (get_str0 "device_label" m))) in
  Ok [("restored_from_backup_id", PStr backup_id); ("restored_generation", PInt generation);
      ("restored_at", PInt now);
      ("latest_backup_id", py_or (dget "latest_backup_id" (PStr "") state) (PStr backup_id));
      ("latest_generation", PInt (Z.max latest generation)); ("latest_created_at", PInt created);
      ("latest_device_label", label);
      ("latest_include_cache", PBool (truthy (dget "latest_include_cache" (PBool false) state)
         || truthy (dget "include_cache" (PBool false) payload)))].

Definition restore_result (t : tally) (payload : dict) (backup_id : string) (generation : Z) (preserve : bool) :
    res dict :=
  let! uid := get_int0 "user_id" payload in
  let! created := get_int0 "created_at" payload in
  Ok [("files", PInt (restored t)); ("entries", PInt (t_entries t)); ("skipped", PInt (skipped_files t));
      ("account_username", dget "account_username" (PStr "") payload); ("user_id", PInt uid);
      ("include_cache", PBool (truthy (dget "include_cache" (PBool false) payload)));
      ("backup_id", PStr backup_id); ("backup_generation", PInt generation); ("created_at", PInt created);
      ("identity_review_recommended", PBool true); ("preserved_current_identity", PBool preserve)].

(** The checks: identifier, generation and payload of the file at [path]. *)
Definition admit_backup (path passphrase : string) : sm (dict * string * Z * dict) :=
  do! outer := load_outer path in
  do! _ := st_lift (check_format outer) in
  do! backup_id := st_lift (header_id outer) in
  do! generation := st_lift (header_int "generation" outer) in
  do! state := _load_backup_state in
  do! _ := st_lift (check_revoked state backup_id generation) in
  do! payload := st_lift (open_backup passphrase outer) in
  st_ret (outer, backup_id, generation, payload).

Definition restore_e2ee_backup (path passphrase : string) (overwrite preserve : bool) : sm dict :=
  do! s := st_get in
  if negb (has_store s) then st_fail (login_required "restoring")
  else
    do! (outer, backup_id, generation, payload) := admit_backup path passphrase in
    do! _ := makedirs (secchat_dir s) in
    do! files := st_lift (py_iter (dget "files" (PList []) payload)) in
    do! t := st_fold (restore_file overwrite preserve) (Tally 0 0 0) files in
    do! _ := st_when (negb preserve) forget_state in
    do! _ := load_cache_policy in
    do! _ := load_or_create_identity_key in
    do! _ := st_when (negb preserve) (do! _ := _load_mls_state_into_bridge in st_ret tt) in
    do! state := _load_backup_state in
    do! now := now_s in
    do! fields := st_lift (restored_fields state outer payload backup_id generation now) in
    do! _ := _save_backup_state (dupdate state fields) in
    st_lift (restore_result t payload backup_id generation preserve).
End backup.
