(* ===== verification/BackupFacts.v ===== *)
(** * Facts about backups

    The record of backups as a function of its file, the opening of a sealed
    backup, and what a restore can change. *)

From S2P Require Import Prelude Hashing Base64 PyVal Sorting Json JsonFacts Crypto Wire Ratchet AuditClient Utils.
From S2P Require Import Session SessionFacts CacheStore CacheFacts Identity MlsBridge Mls Cleanup CleanupProps Backup.

(** ** Equality of values *)

Lemma py_eqb_refl v : py_ok v -> py_eqb v v = true.
Proof.
  induction v as [| |z|m k|s|l IH|d IH] using pyval_nested_ind; intros Hok; cbn [py_eqb].
  - done.
  - unfold num_eqb. cbn. apply Z.eqb_refl.
  - unfold num_eqb. cbn [num_of fst snd]. apply Z.eqb_refl.
  - unfold num_eqb. cbn [num_of fst snd]. apply Z.eqb_refl.
  - apply String.eqb_refl.
  - apply py_ok_list in Hok. induction l as [|x l IHl]; [done|].
    inversion_clear Hok as [|? ? Hx Hl]. inversion_clear IH as [|? ? Ix Il].
    rewrite (Ix Hx). cbn [andb]. apply IHl; done.
  - apply py_ok_dict in Hok as [Hd Hf]. rewrite Nat.eqb_refl. cbn [andb].
    assert (Hsub : forall kv, kv ∈ d -> dlookup (fst kv) d = Some (snd kv) /\ py_eqb (snd kv) (snd kv) = true).
    { intros [k x] H. split; [by apply dlookup_elem|]. rewrite Forall_forall in Hf, IH.
      apply (IH (k, x) H). by apply (Hf (k, x)). }
    lazymatch goal with |- ?g d = true =>
      enough (H : forall l, (forall kv, kv ∈ l -> kv ∈ d) -> g l = true) by (by apply H) end.
    intros l. induction l as [|[k x] l IHl]; intros Hin; [done|].
    destruct (Hsub (k, x)) as [H1 H2]; [apply Hin; left|]. cbn [fst snd] in *. rewrite H1, H2. apply IHl.
    intros kv H. apply Hin. by right.
Qed.

(** ** Printed JSON has no carriage return *)

Definition not_cr_char (c : ascii) : bool := negb (code c =? 13).

Lemma universal_newlines_id s : string_all not_cr_char s = true -> universal_newlines s = s.
Proof.
  induction s as [|c s IH]; [done|]. cbn [string_all universal_newlines]. unfold not_cr_char at 1.
  intros [Hc Hs]%andb_prop. apply negb_true_iff in Hc. by rewrite Hc, IH.
Qed.

Lemma escape_char_plain c : string_all not_cr_char (escape_char c) = true.
Proof. destruct c as [[] [] [] [] [] [] [] []]; reflexivity. Qed.

Lemma json_str_plain s : string_all not_cr_char (json_str s) = true.
Proof.
  unfold json_str. cbn [string_all]. rewrite string_all_app. apply andb_true_intro. split; [done|].
  apply andb_true_intro. split; [|done].
  induction s as [|c s IH]; [done|]. cbn [escape_body]. by rewrite string_all_app, escape_char_plain, IH.
Qed.

Lemma digits_plain p : string_all is_digit p = true -> string_all not_cr_char p = true.
Proof. apply string_all_impl. intros c. unfold is_digit, not_cr_char. cbv zeta. lia. Qed.

Lemma join_plain sep l :
  string_all not_cr_char sep = true -> Forall (fun x => string_all not_cr_char x = true) l ->
  string_all not_cr_char (join sep l) = true.
Proof.
  intros Hs. induction 1 as [|x l Hx Hl IH]; [done|]. destruct l as [|y l]; [done|].
  rewrite join_cons, !string_all_app, Hx, Hs. exact IH.
Qed.

Lemma json_print_plain sp v : string_all not_cr_char (json_print sp v) = true.
Proof.
  induction v as [|b|z|m k|s|l IH|d IH] using pyval_nested_ind; cbn [json_print].
  - done.
  - by destruct b.
  - unfold dec. destruct (Z.ltb_spec z 0); [rewrite string_all_app; apply andb_true_intro; split; [done|]|];
      apply digits_plain; by destruct (dec_nat_numeral (Z.abs z)) as [? _]; [lia|]; rewrite ?Z.abs_neq, ?Z.abs_eq in * by lia.
  - unfold float_repr. assert (0 < 10 ^ Z.of_nat (S k)) by (apply Z.pow_pos_nonneg; lia).
    rewrite !string_all_app. rewrite (digits_plain (pad_digits _ _))
      by (apply pad_digits_all; apply Z.mod_pos_bound; lia).
    rewrite (digits_plain (dec_nat _)); [by destruct (m <? 0)|].
    by destruct (dec_nat_numeral (Z.abs m / 10 ^ Z.of_nat (S k))) as [? _]; [apply Z.div_pos; lia|].
  - apply json_str_plain.
  - rewrite !string_all_app, join_plain; [done|by destruct sp|]. by apply List.Forall_map.
  - rewrite !string_all_app, join_plain; [done|by destruct sp|]. apply List.Forall_map.
    eapply Forall_impl; [exact IH|]. intros [k x] Hx. cbn [fst snd] in *.
    rewrite !string_all_app, json_str_plain, Hx. by destruct sp.
Qed.

(** A file that holds a JSON object. *)
Definition backup_file (raw : bytes) (outer : dict) : Prop :=
  utf8_valid raw = true /\ json_loads (universal_newlines raw) = Ok (PDict outer).

Lemma backup_file_dumps outer : py_ok (PDict outer) -> backup_file (json_dumps false false (PDict outer)) outer.
Proof.
  intros H. split; [by apply json_dumps_valid|]. rewrite universal_newlines_id by apply json_print_plain.
  by rewrite json_loads_dumps.
Qed.

(** ** A sealed backup opened *)

Section sealed.
Context `{L : PrimLaws}.

Record meta_ok (m : backup_meta) : Prop := {
  mo_id : utf8_valid (b_id m) = true; mo_user : utf8_valid (b_user m) = true;
  mo_label : utf8_valid (b_label m) = true; mo_fingerprint : utf8_valid (b_fingerprint m) = true
}.

Lemma manifest_ok m : meta_ok m -> py_ok (PDict (manifest_json m)).
Proof. intros [H1 H2 H3 H4]. unfold manifest_json. py_ok_fields. Qed.

Lemma backup_payload_ok m files : meta_ok m -> Forall py_ok files -> py_ok (PDict (payload_json m files)).
Proof.
  intros Hm Hf. pose proof (manifest_ok m Hm) as Hmj. destruct Hm as [H1 H2 H3 H4].
  unfold payload_json. apply py_ok_list in Hf. py_ok_fields.
Qed.

Lemma outer_ok m salt nonce ct : meta_ok m -> py_ok (PDict (outer_json m salt nonce ct)).
Proof.
  intros Hm. pose proof (manifest_ok m Hm) as Hmj. destruct Hm as [H1 H2 H3 H4].
  unfold outer_json. py_ok_fields; apply utf8_valid_ascii, b64encode_ascii.
Qed.

Lemma unb64_encode x : _unb64 (PStr (b64encode x)) = Ok x.
Proof. unfold _unb64. cbn [py_str]. rewrite b64encode_ascii. apply a2b_encode. Qed.

(** The ciphertext of a backup. *)
Definition backup_ct (key nonce : bytes) (m : backup_meta) (files : list pyval) : bytes :=
  aes_encrypt key nonce (json_dumps false false (PDict (payload_json m files)))
    (Some (json_dumps false true (PDict (manifest_json m)))).

(** What a header that quotes a sealed backup opens to. *)
Lemma open_sealed pass m files salt nonce key :
  meta_ok m -> Forall py_ok files -> String.length nonce = 12%nat ->
  _backup_key pass salt _BACKUP_KDF_ITERS = Ok key ->
  let outer := outer_json m salt nonce (backup_ct key nonce m files) in
  seal_backup pass m files salt nonce = Ok (json_dumps false false (PDict outer)) /\
  open_backup pass outer = Ok (payload_json m files).
Proof.
  intros Hm Hf Hn Hk. unfold seal_backup. rewrite Hk. cbn [res_bind].
  pose proof (backup_payload_ok m files Hm Hf) as Hp. pose proof (manifest_ok m Hm) as Hmj.
  unfold _canonical_backup_manifest, utf8_encode. rewrite !json_dumps_valid by done. cbn [res_bind].
  split; [reflexivity|]. unfold open_backup. set (ct := backup_ct key nonce m files).
  change (ditem "salt" (outer_json m salt nonce ct)) with (Ok (PStr (b64encode salt))).
  change (ditem "nonce" (outer_json m salt nonce ct)) with (Ok (PStr (b64encode nonce))).
  change (ditem "ciphertext" (outer_json m salt nonce ct)) with (Ok (PStr (b64encode ct))).
  cbn [res_bind]. rewrite !unb64_encode. cbn [res_bind].
  change (py_int (dget "iterations" (PInt _BACKUP_KDF_ITERS) (outer_json m salt nonce ct)))
    with (Ok _BACKUP_KDF_ITERS). cbn [res_bind]. rewrite Hk. cbn [res_bind].
  change (manifest_of (outer_json m salt nonce ct)) with (PDict (manifest_json m)).
  change (truthy (PDict (manifest_json m))) with true. cbv iota.
  unfold _canonical_backup_manifest, utf8_encode. rewrite json_dumps_valid by done. cbn [res_bind].
  unfold blen. rewrite Hn. cbn [Z.of_nat Z.leb Z.compare andb Pos.of_succ_nat Pos.succ Pos.compare Pos.compare_cont].
  unfold ct, backup_ct. rewrite aes_decrypt_encrypt. cbn [of_option res_bind]. unfold loads_bytes, utf8_decode.
  rewrite json_dumps_valid by done. cbn [res_bind]. rewrite json_loads_dumps by done. cbn [res_bind as_dict].
  change (get_int0 "version" (payload_json m files)) with (Ok _BACKUP_VERSION).
  cbn [res_bind]. change (manifest_of (payload_json m files)) with (PDict (manifest_json m)).
  by rewrite (py_eqb_refl (PDict (manifest_json m)) Hmj).
Qed.
End sealed.

(** ** The record of backups *)

Section record.
Context `{L : PrimLaws, O : Os, OL : !OsLaws O, IO : !IoReliable O}.

(** The record as it is on disk. *)
Definition stored_record (s : session) : dict :=
  match (let! raw := of_option (files (os s) !! backup_state_path s) OSError in
         let! v := opens (master_key s) raw in py_loads v) with
  | Ok (PDict d) => d
  | _ => []
  end.

Lemma stored_record_quiet s s' : quiet s s' -> stored_record s' = stored_record s.
Proof using.
  intros (Hs & Hf & _). unfold stored_record. rewrite Hf.
  replace (backup_state_path s') with (backup_state_path s) by (unfold backup_state_path, local_path; by same_fields Hs).
  by replace (master_key s') with (master_key s) by (by same_fields Hs).
Qed.

Lemma read_sealed_quiet path s : quiet s (fst (read_sealed path s)).
Proof using.
  unfold quiet, read_sealed, read_text, st_bind, io, st_get, st_lift.
  destruct (os_io (n_io (os s))); cbn; [|by split; [unfold same_session; destruct s|]].
  destruct (files (os s) !! path) as [raw|]; cbn; [|by split; [unfold same_session; destruct s|]].
  destruct (utf8_decode raw); cbn; by split; [unfold same_session; destruct s|].
Qed.

Lemma load_record_run s : has_store s = true ->
  exists s', _load_backup_state s = (s', Ok (stored_record s)) /\ quiet s s'.
Proof using IO.
  intros Hst. unfold _load_backup_state, st_bind at 1, st_get. rewrite Hst. cbn [negb].
  unfold stored_record, path_exists. destruct (files (os s) !! backup_state_path s) as [raw|] eqn:E.
  2: { rewrite bool_decide_false by (by intros [? ?]). exists s. split; [done|apply quiet_refl]. }
  rewrite bool_decide_true by (by eexists). cbn [negb]. unfold st_catch, st_bind, read_json.
  pose proof (read_sealed_eq (backup_state_path s) s) as Er. pose proof (read_sealed_quiet (backup_state_path s) s) as Hq.
  rewrite E in Er. cbn [of_option res_bind] in Er |- *. unfold st_bind.
  destruct (read_sealed (backup_state_path s) s) as [s1 r]. cbn [fst snd] in *. subst r.
  exists s1. split; [|done]. destruct (opens (master_key s) raw) as [v|e]; [|done]. cbn [res_bind]. unfold st_lift.
  destruct (py_loads v) as [[]|e]; done.
Qed.

Lemma save_record_run s d :
  has_store s = true -> aes_key_ok (master_key s) = true -> py_ok (PDict d) ->
  exists s' raw, _save_backup_state d s = (s', Ok tt) /\ same_session s s' /\
    files (os s') = <[backup_state_path s := raw]> (files (os s)) /\ secchat_dir s ∈ dirs (os s') /\
    stored_record s' = d.
Proof using L OL IO.
  intros Hst Hk Hd. unfold _save_backup_state, st_bind, st_get. rewrite Hst. cbn [negb].
  unfold logged, st_catch.
  destruct (write_sealed_ok (backup_state_path s) (json_dumps false false (PDict d)) s Hk) as (s' & -> & Hw).
  { by apply json_dumps_valid. }
  pose proof Hw as (Hs & Hdir & token & Hf & Ho). exists s', token. split; [done|]. split; [done|]. split; [done|]. split; [done|].
  unfold stored_record.
  replace (backup_state_path s') with (backup_state_path s) by (unfold backup_state_path, local_path; by same_fields Hs).
  replace (master_key s') with (master_key s) by (by same_fields Hs).
  rewrite Hf, lookup_insert_eq. cbn [of_option res_bind]. rewrite Ho. cbn [res_bind py_loads].
  by rewrite json_loads_dumps.
Qed.

(** A record as the client writes it. *)
Record record_ok (state : dict) (latest : string) (ids : list string) (generation before : Z) : Prop := {
  ro_ok : py_ok (PDict state);
  ro_latest : dget "latest_backup_id" (PStr "") state = PStr latest;
  ro_ids : dget "revoked_backup_ids" (PList []) state = PList (map PStr ids);
  ro_generation : get_int0 "latest_generation" state = Ok generation;
  ro_before : get_int0 "revoked_before_generation" state = Ok before;
  ro_times : is_ok (get_int0 "latest_created_at" state) = true /\ is_ok (get_int0 "restored_at" state) = true
}.

Lemma filter_strings ids : map py_str (List.filter truthy (map PStr ids)) = List.filter nonempty ids.
Proof using. induction ids as [|x ids IH]; [done|]. cbn. destruct x as [|c x]; cbn; [done|by rewrite IH]. Qed.

Lemma revoked_ids_of state ids :
  dget "revoked_backup_ids" (PList []) state = PList (map PStr ids) ->
  revoked_ids state = Ok (list_to_set (List.filter nonempty ids)).
Proof using. intros H. unfold revoked_ids. rewrite H. cbn [py_iter res_bind]. by rewrite filter_strings. Qed.

Lemma check_revoked_eq state latest ids generation before id g :
  record_ok state latest ids generation before ->
  check_revoked state id g =
    if nonempty id && bool_decide (id ∈ ids) then Err revoked_id
    else if negb (g =? 0) && negb (before =? 0) && (g <=? before) then Err revoked_generation else Ok tt.
Proof using.
  intros [_ _ Hi _ Hb _]. unfold check_revoked. rewrite (revoked_ids_of _ _ Hi), Hb. cbn [res_bind].
  destruct (nonempty id) eqn:Hn; [|done]. cbn [andb].
  assert (Hiff : id ∈ (list_to_set (List.filter nonempty ids) : gset string) <-> id ∈ ids).
  { rewrite elem_of_list_to_set, !list_elem_of_In, filter_In. tauto. }
  by rewrite (bool_decide_ext _ _ Hiff).
Qed.

Lemma dget_dset_ne k k' v w d : k <> k' -> dget k w (dset k' v d) = dget k w d.
Proof using. intros H. unfold dget. by rewrite dlookup_dset_ne. Qed.
Lemma dget_dset_eq k v w d : dget k w (dset k v d) = v.
Proof using. unfold dget. by rewrite dlookup_dset_eq. Qed.

(** The record after a revocation. *)
Definition revoked_state (state : dict) (latest : string) (ids : list string) (generation before now : Z) : dict :=
  let revoked : gset string := list_to_set (List.filter nonempty ids) in
  let revoked := if nonempty latest then {[latest]} ∪ revoked else revoked in
  dset "revoked_at" (PInt now)
    (dset "revoked_before_generation" (PInt (Z.max before generation))
      (dset "revoked_backup_ids" (PList (map PStr (sort_strings (elements revoked)))) state)).

Lemma latest_valid state latest :
  py_ok (PDict state) -> dget "latest_backup_id" (PStr "") state = PStr latest -> utf8_valid latest = true.
Proof using.
  intros Hok. unfold dget. destruct (dlookup "latest_backup_id" state) as [v|] eqn:E; [|by intros [= <-]].
  intros ->. by apply (py_ok_lookup _ _ _ Hok) in E.
Qed.

Lemma ids_valid state ids :
  py_ok (PDict state) -> dget "revoked_backup_ids" (PList []) state = PList (map PStr ids) ->
  Forall (fun x => utf8_valid x = true) ids.
Proof using.
  intros Hok. unfold dget. destruct (dlookup "revoked_backup_ids" state) as [v|] eqn:E.
  - intros ->. apply (py_ok_lookup _ _ _ Hok) in E. apply py_ok_list in E.
    exact (proj1 (List.Forall_map _ _ _) E).
  - destruct ids; [constructor|discriminate].
Qed.

Lemma revoked_state_ok state latest ids g b now :
  record_ok state latest ids g b ->
  let state' := revoked_state state latest ids g b now in
  exists ids', record_ok state' latest ids' g (Z.max b g) /\
    (forall x, x ∈ ids' <-> nonempty x = true /\ (x = latest \/ x ∈ ids)).
Proof using.
  intros [Hok Hl Hi Hg Hb [Hc Hr]]. cbv zeta. unfold revoked_state.
  lazymatch goal with |- context [sort_strings ?l] => set (ids' := sort_strings l) end.
  assert (Hin : forall x, x ∈ ids' <-> nonempty x = true /\ (x = latest \/ x ∈ ids)).
  { intros x. subst ids'. unfold sort_strings. rewrite elem_of_isort, elem_of_elements.
    assert (Hf : x ∈ (list_to_set (List.filter nonempty ids) : gset string) <-> nonempty x = true /\ x ∈ ids).
    { rewrite elem_of_list_to_set, !list_elem_of_In, filter_In. tauto. }
    destruct (nonempty latest) eqn:E.
    - rewrite elem_of_union, elem_of_singleton, Hf. split; [intros [->|?]; tauto|tauto].
    - rewrite Hf. split; [tauto|]. intros [Hx [->|?]]; [by rewrite Hx in E|done]. }
  pose proof (ids_valid _ _ Hok Hi) as Hv. pose proof (latest_valid _ _ Hok Hl) as Hlv.
  exists ids'. split; [|exact Hin]. unfold get_int0 in *. split.
  - repeat apply py_ok_dset; try done; [].
    apply py_ok_list, Forall_fmap, Forall_forall. intros x [_ [->|Hx]]%Hin; [done|].
    rewrite Forall_forall in Hv. by apply Hv.
  - by rewrite !dget_dset_ne.
  - rewrite !dget_dset_ne, dget_dset_eq by done. done.
  - unfold get_int0. by rewrite !dget_dset_ne.
  - unfold get_int0. rewrite dget_dset_ne, dget_dset_eq by done. unfold py_or. cbn.
    by destruct (Z.eqb_spec (Z.max b g) 0) as [->|].
  - unfold get_int0. by rewrite !dget_dset_ne.
Qed.

Lemma status_ok state latest ids g b : record_ok state latest ids g b -> is_ok (status_of state) = true.
Proof using.
  intros [Hok Hl Hi Hg Hb [Hc Hr]]. unfold status_of.
  destruct (get_int0 "latest_created_at" state); [|done]. rewrite Hg. destruct (get_int0 "restored_at" state); [|done].
  cbn [res_bind]. rewrite Hb. cbn [res_bind].
  assert (exists l, py_iter (py_or (dget "revoked_backup_ids" PNone state) (PList [])) = Ok l) as [l ->]; [|done].
  revert Hi. unfold dget. destruct (dlookup "revoked_backup_ids" state); [intros ->|by exists []].
  unfold py_or. destruct ids; by eexists.
Qed.

Lemma revoke_run s latest ids g b :
  has_store s = true -> aes_key_ok (master_key s) = true -> record_ok (stored_record s) latest ids g b ->
  exists s' status ids', revoke_local_backups s = (s', Ok status) /\ same_session s s' /\
    record_ok (stored_record s') latest ids' g (Z.max b g) /\
    (forall x, x ∈ ids' <-> nonempty x = true /\ (x = latest \/ x ∈ ids)) /\
    forall p, p <> backup_state_path s -> files (os s') !! p = files (os s) !! p.
Proof using L OL IO.
  intros Hst Hk Hr. pose proof Hr as [_ Hl Hi Hg Hb _].
  destruct (load_record_run s Hst) as (s1 & E1 & Hq1). unfold revoke_local_backups. unfold st_bind at 1. rewrite E1.
  assert (get_str0 "latest_backup_id" (stored_record s) = latest) as ->
    by (unfold get_str0, py_or; rewrite Hl; by destruct latest).
  rewrite st_bind_lift, Hg, st_bind_lift, (revoked_ids_of _ _ Hi). cbv zeta.
  lazymatch goal with |- context [get_int0 ?k ?d] =>
    assert (get_int0 k d = Ok b) as Hb' by (unfold get_int0; by rewrite dget_dset_ne) end.
  rewrite st_bind_lift, Hb'.
  unfold st_bind at 1. destruct (now_ms_ok s1) as (s2 & n & E2 & Hs2 & Hf2 & Hd2).
  unfold now_s at 1, st_bind at 1. rewrite E2. unfold st_ret at 1.
  fold (revoked_state (stored_record s) latest ids g b (os_clock n ÷ 1000)).
  destruct (revoked_state_ok _ _ _ _ _ (os_clock n ÷ 1000) Hr) as (ids' & Hr' & Hin).
  set (state' := revoked_state (stored_record s) latest ids g b (os_clock n ÷ 1000)) in *.
  assert (Hq2 : quiet s s2) by (eapply quiet_trans; [exact Hq1|done]). pose proof Hq2 as (Hs & Hf & Hd).
  unfold st_bind at 1. destruct (save_record_run s2 state') as (s3 & raw & -> & Hs3 & Hf3 & _ & Hst3).
  - unfold has_store in *. by same_fields Hs.
  - by same_fields Hs.
  - apply Hr'.
  - assert (Hs03 : same_session s s3) by (by eapply same_session_trans).
    unfold get_backup_status, st_bind. destruct (load_record_run s3) as (s4 & -> & Hq4).
    { unfold has_store in *. by same_fields Hs03. }
    pose proof (status_ok _ _ _ _ _ Hr') as Hok. rewrite Hst3. unfold st_lift.
    destruct (status_of state') as [status|]; [|done].
    exists s4, status, ids'. split; [done|]. split; [eapply same_session_trans; [exact Hs03|by destruct Hq4]|].
    rewrite (stored_record_quiet s3 s4 Hq4), Hst3. split; [done|]. split; [done|].
    intros p Hp. destruct Hq4 as (_ & -> & _). rewrite Hf3, lookup_insert_ne, Hf; [done|].
    replace (backup_state_path s2) with (backup_state_path s)
      by (unfold backup_state_path, local_path; by same_fields Hs). by apply not_eq_sym.
Qed.
End record.

(** ** What a restore can change *)

Definition same_keys (s s' : session) : Prop :=
  master_key s' = master_key s /\ secchat_dir s' = secchat_dir s /\ my_uid s' = my_uid s.

#[export] Instance same_keys_frame : Frame same_keys.
Proof.
  split; [done| |done|by intros s s' (_ & H & _)].
  intros a b c (H1 & H2 & H3) (H4 & H5 & H6). by split; [rewrite H4|split; [rewrite H5|rewrite H6]].
Qed.

(** The files of the allow list, their temporaries, and the record of backups. *)
Definition restorable (s : session) (p : string) : Prop :=
  (exists n, _backup_name_allowed n = true /\ (p = local_path s n \/ p = local_path s n +:+ ".tmp"))
  \/ p = backup_state_path s.

Section confined.
Context `{P : Prims, O : Os, F : Frame R}.
Variable Q : string -> Prop.
Variable s0 : session.

(** The frame leaves the policy of the cache free, and the own key. *)
Definition free_policy (R : session -> session -> Prop) : Prop := forall s,
  (forall v, R s (s <| cache_enabled := v |>)) /\ (forall v, R s (s <| cache_ttl_days := v |>)) /\
  (forall v, R s (s <| cache_clear_on_logout := v |>)) /\ (forall v, R s (s <| cache_disabled_convs := v |>)).
Definition free_identity (R : session -> session -> Prop) : Prop := forall s,
  (forall v, R s (s <| identity_pk := v |>)) /\ (forall v, R s (s <| identity_sk := v |>)).

Lemma frame_modify f :
  (forall s, R s (f s) /\ files (os (f s)) = files (os s)) -> within R Q s0 (st_modify f).
Proof using F.
  intros Hf. apply within_modify. intros s [H1 H2]. destruct (Hf s) as [H3 H4].
  split; [by eapply frame_trans|]. intros p Hp. rewrite H4. by apply H2.
Qed.

Lemma local_path_same s n : touches R Q s0 s -> local_path s n = local_path s0 n.
Proof using F. intros [H _]. unfold local_path. by rewrite (frame_dir s0 s H). Qed.

Lemma within_seal_all key l : within R Q s0 (seal_all key l).
Proof using F. induction l as [|e l IH]; cbn [seal_all]; within_tac; [apply within_seal|exact IH]. Qed.

Lemma within_write_entries dst line_mode l :
  Q dst -> Q (dst +:+ ".tmp") -> within R Q s0 (write_entries dst line_mode l).
Proof using F.
  intros H1 H2. unfold write_entries. within_tac; [apply within_seal_all|by apply within_write_text|].
  by apply within_replace_file.
Qed.

Lemma within_merge dst l : within R Q s0 (_merge_cache_entries dst l).
Proof using F. unfold _merge_cache_entries. within_tac. apply within_read_text. Qed.

Lemma within_load_policy : free_policy R -> within R Q s0 load_cache_policy.
Proof using F.
  intros Hp. unfold load_cache_policy. within_tac; try apply within_read_json; apply frame_modify; intros s1; split; try done; apply Hp.
Qed.

Lemma identity_step s pk sk : free_identity R -> R s (s <| identity_pk := pk |> <| identity_sk := sk |>).
Proof using F. intros H. eapply frame_trans; [apply (proj1 (H s))|apply (proj2 (H _))]. Qed.
Lemma within_load_identity : free_identity R -> Q (identity_key_path s0) -> within R Q s0 load_or_create_identity_key.
Proof using F.
  intros Hi Hq. unfold load_or_create_identity_key, load_identity_file, new_identity, set_identity, save_identity_key.
  within_tac; try apply within_read_sealed; try (apply frame_modify; intros sess; split; [|done];
    first [apply (proj1 (Hi sess))|apply (proj2 (Hi sess))|by apply identity_step]).
  apply within_write_sealed. unfold identity_key_path. by erewrite local_path_same.
Qed.

Lemma within_load_record : within R Q s0 _load_backup_state.
Proof using F. unfold _load_backup_state. within_tac. apply within_read_json. Qed.

Lemma within_save_record d : Q (backup_state_path s0) -> within R Q s0 (_save_backup_state d).
Proof using F.
  intros Hq. unfold _save_backup_state. apply within_get. intros s Hs. within_tac. apply within_write_sealed.
  unfold backup_state_path. by rewrite (local_path_same s).
Qed.

Lemma within_admit path pass : within R Q s0 (admit_backup path pass).
Proof using F.
  unfold admit_backup, load_outer. within_tac; [apply within_read_text|apply within_load_record].
Qed.
End confined.

Section confined_mls.
Context `{P : Prims, O : Os}.
Variable Q : string -> Prop.
Variable s0 : session.

Lemma keys_set_lines lines : within same_keys Q s0 (set_lines lines).
Proof using. by apply frame_modify. Qed.

Lemma within_load_mls : Q (mls_state_path s0) -> within same_keys Q s0 _load_mls_state_into_bridge.
Proof using.
  intros Hq. unfold _load_mls_state_into_bridge, restore_mls, discard_mls, ensure_bridge, new_bridge, import_state,
    command, bridge_start. apply within_get. intros s Hs. destruct (negb (has_store s)); [within_tac|]. cbv zeta.
  assert (H1 : Q (mls_state_path s)) by (unfold mls_state_path; by rewrite (local_path_same Q s0 s)).
  within_tac; solve [apply within_read_text|apply keys_set_lines|by apply frame_modify|by apply within_remove_file].
Qed.
End confined_mls.

(** A restore keeps the master key, the directory and the account, nothing else. *)
Lemma keys_free_policy : free_policy same_keys. Proof. by intros s. Qed.
Lemma keys_free_identity : free_identity same_keys. Proof. by intros s. Qed.
#[export] Hint Resolve keys_free_policy keys_free_identity : secchat.

Section restoring.
Context `{P : Prims, O : Os}.
Variable s0 : session.
Let Q := restorable s0.

Lemma allowed_restorable s n :
  touches same_keys Q s0 s -> _backup_name_allowed n = true -> Q (local_path s n) /\ Q (local_path s n +:+ ".tmp").
Proof using. intros Ht Hn. rewrite (local_path_same Q s0 s n Ht). split; left; exists n; auto. Qed.

Lemma within_restore_file overwrite preserve t v : within same_keys Q s0 (restore_file overwrite preserve t v).
Proof using.
  unfold restore_file. apply within_bind; [within_tac|intros item]. cbv zeta.
  destruct (_backup_name_allowed _) eqn:Hn; cbn [negb]; [|apply within_ret]. apply within_get. intros s Hs.
  destruct (allowed_restorable s _ Hs Hn) as [H1 H2].
  within_tac; solve [apply within_merge|by apply within_write_entries].
Qed.

Lemma within_restore path pass overwrite preserve :
  within same_keys Q s0 (restore_e2ee_backup path pass overwrite preserve).
Proof using.
  assert (Hi : Q (identity_key_path s0)) by (left; exists "identity_sk.bin"; auto).
  assert (Hm : Q (mls_state_path s0)) by (left; exists "mls_state.bin"; auto).
  assert (Hb : Q (backup_state_path s0)) by (by right).
  unfold restore_e2ee_backup, now_s. within_tac;
    solve [apply within_admit|apply within_makedirs|apply within_restore_file|apply within_load_policy, keys_free_policy
      |by apply within_load_identity; [apply keys_free_identity|]|by apply within_load_mls|apply within_load_record|by apply within_save_record
      |by apply frame_modify].
Qed.
End restoring.


(** ** Names *)

Lemma basename_plain s : contains "/" (basename s) = false.
Proof.
  induction s as [|c s IH]; [done|]. cbn [basename]. destruct (contains "/" s) eqn:E; [done|].
  destruct (Ascii.eqb c "/"%char) eqn:Ec; [done|]. cbn [contains starts_with].
  rewrite Ascii.eqb_sym, Ec, E. done.
Qed.

Lemma basename_none s : contains "/" s = false -> basename s = s.
Proof.
  destruct s as [|c s]; [done|]. cbn [contains basename starts_with]. intros H. bool_hyps.
  rewrite H0. rewrite Ascii.eqb_sym, andb_true_r in H. by rewrite H.
Qed.

Lemma allowed_plain n :
  _backup_name_allowed n = true -> basename n = n /\ contains "/" n = false /\ nonempty n = true.
Proof.
  unfold _backup_name_allowed. destruct (negb (String.eqb (basename n) n) || _) eqn:E; [done|]. intros _.
  bool_hyps. split; [done|]. pose proof (basename_plain n) as Hp. rewrite H in *. split; [done|]. by destruct n.
Qed.

Lemma contains_slash_app d n : contains "/" (d +:+ "/" +:+ n) = true.
Proof.
  induction d as [|c d IH]; [done|].
  change (String c d +:+ "/" +:+ n) with (String c (d +:+ "/" +:+ n)). cbn [contains].
  rewrite IH. apply orb_true_r.
Qed.

Lemma basename_dir d n : contains "/" n = false -> basename (d +:+ "/" +:+ n) = n.
Proof.
  intros Hn. induction d as [|c d IH].
  - cbn [String.append basename]. by rewrite Hn.
  - change (String c d +:+ "/" +:+ n) with (String c (d +:+ "/" +:+ n)). cbn [basename].
    by rewrite contains_slash_app.
Qed.

Lemma ends_slash_inv d : ends_slash d = true -> exists d', d = d' +:+ "/".
Proof.
  induction d as [|c d IH]; [done|]. destruct d as [|e d].
  - cbn. intros H%Ascii.eqb_eq. exists "". by rewrite H.
  - intros [d' ->]%IH. by exists (String c d').
Qed.

Lemma basename_path s n : nonempty (secchat_dir s) = true -> contains "/" n = false -> basename (local_path s n) = n.
Proof.
  intros Hd Hn. unfold local_path, path_join. rewrite Hd. destruct (ends_slash (secchat_dir s)) eqn:E; cbn [andb negb].
  - destruct (ends_slash_inv _ E) as [d' ->]. rewrite sapp_assoc. by apply basename_dir.
  - by apply basename_dir.
Qed.

(** ** Writing entries *)

Section writing.
Context `{L : PrimLaws, O : Os, OL : !OsLaws O, IO : !IoReliable O}.

Lemma seal_all_run key texts s :
  aes_key_ok key = true -> Forall (fun x => utf8_valid x = true) texts ->
  exists s' tokens, seal_all key texts s = (s', Ok tokens) /\ quiet s s' /\ Forall2 (line_holds key) tokens texts.
Proof using L OL.
  intros Hk H. revert s. induction H as [|x texts Hx _ IH]; intros s; cbn [seal_all].
  - exists s, []. split; [done|]. split; [apply quiet_refl|constructor].
  - destruct (seal_ok key x s Hk Hx) as (s1 & t & E1 & Hs1 & Hf1 & Hd1 & Ht & Ho).
    unfold st_bind. rewrite E1. destruct (IH s1) as (s2 & tokens & -> & Hq2 & Hall).
    exists s2, (t :: tokens). split; [done|]. split; [by eapply quiet_trans|].
    constructor; [by apply line_of_token|done].
Qed.

Lemma write_entries_run dst line_mode texts s :
  aes_key_ok (master_key s) = true -> secchat_dir s ∈ dirs (os s) -> Forall (fun x => utf8_valid x = true) texts ->
  (line_mode = false -> (length texts <= 1)%nat) ->
  exists s' raw, write_entries dst line_mode texts s = (s', Ok tt) /\ replaced s s' dst raw /\
    holds (master_key s) line_mode raw texts.
Proof using L OL IO.
  intros Hk Hd Hv Hl. unfold write_entries, st_bind at 1, st_get.
  destruct (seal_all_run (master_key s) texts s Hk Hv) as (s1 & tokens & E1 & (Hs1 & Hf1 & Hd1) & Hall).
  unfold st_bind at 1. rewrite E1. cbv zeta. pose proof (holds_good _ _ _ Hall) as Hg.
  assert (Hl' : line_mode = false -> (length tokens <= 1)%nat)
    by (intros H; rewrite (Forall2_length _ _ _ Hall); by apply Hl).
  assert ((if line_mode then cache_text tokens else hd "" tokens) = file_text line_mode tokens) as ->
    by (destruct line_mode; [apply cache_text_concat|done]).
  destruct (file_text_lines line_mode tokens Hl' Hg) as [Hv' _].
  destruct (replace_run dst (file_text line_mode tokens) s1) as (s2 & E2 & Hs2 & Hd2 & Hf2 & Ho2);
    [rewrite Hd1; by same_fields Hs1|done|].
  exists s2, (file_text line_mode tokens). split; [exact E2|]. split; [|by exists tokens].
  split; [by eapply same_session_trans|]. split; [by rewrite Hd2|]. split; [done|].
  intros p H1 H2. by rewrite Ho2, Hf1.
Qed.
End writing.

(** ** Merging *)

Definition key_of (raw : string) : string := ok_or "" (entry_key raw).

Lemma entry_key_total raw : utf8_valid raw = true -> entry_key raw = Ok (key_of raw).
Proof.
  intros H. unfold key_of, entry_key, utf8_encode. rewrite H.
  destruct (let! v := json_loads raw in _) as [[k|]|e]; done.
Qed.

(** What a run over [seen] has kept: for each key the best of its entries. *)
Record best (merged : list (string * string)) (seen : list string) : Prop := {
  be_keys : dict_ok merged;
  be_from k r : dlookup k merged = Some r -> key_of r = k /\ r ∈ seen;
  be_best r : r ∈ seen -> exists r', dlookup (key_of r) merged = Some r' /\ quality r <= quality r'
}.

Lemma best_nil : best [] [].
Proof. split; [constructor|done|]. by intros r ?%not_elem_of_nil. Qed.

Lemma keep_best merged seen raw :
  best merged seen -> utf8_valid raw = true ->
  exists merged', keep merged raw = Ok merged' /\ best merged' (seen ++ [raw]).
Proof.
  intros [Hk Hf Hb] Hv. unfold keep. rewrite (entry_key_total raw Hv). cbn [res_bind].
  eexists. split; [reflexivity|].
  assert (Hset : (forall r', dlookup (key_of raw) merged = Some r' -> quality r' <= quality raw) ->
    best (dset (key_of raw) raw merged) (seen ++ [raw])).
  { intros Hq. split; [by apply dict_ok_dset| |].
    - intros k r. destruct (decide (k = key_of raw)) as [->|Hne].
      + rewrite dlookup_dset_eq. intros [= <-]. split; [done|]. apply elem_of_app. right. left.
      + rewrite dlookup_dset_ne by done. intros [??]%Hf. split; [done|]. apply elem_of_app. by left.
    - intros r [Hr|Hr]%elem_of_app.
      + destruct (Hb r Hr) as (r' & H1 & H2). destruct (decide (key_of r = key_of raw)) as [E|Hne].
        * exists raw. rewrite E, dlookup_dset_eq. split; [done|]. rewrite E in H1. specialize (Hq r' H1). lia.
        * exists r'. by rewrite dlookup_dset_ne.
      + apply list_elem_of_singleton in Hr as ->. exists raw. by rewrite dlookup_dset_eq. }
  destruct (dlookup (key_of raw) merged) as [cur|] eqn:E; [|by apply Hset].
  destruct (Z.ltb_spec (quality cur) (quality raw)); [apply Hset; intros r' [= <-]; lia|].
  split; [done| |].
  - intros k r [??]%Hf. split; [done|]. apply elem_of_app. by left.
  - intros r [Hr|Hr]%elem_of_app; [by apply Hb|]. apply list_elem_of_singleton in Hr as ->. exists cur. by split.
Qed.

Lemma keep_all_best incoming merged seen :
  best merged seen -> Forall (fun x => utf8_valid x = true) incoming ->
  exists merged', keep_all merged incoming = Ok merged' /\ best merged' (seen ++ incoming).
Proof.
  intros Hb H. revert merged seen Hb. induction H as [|x l Hx _ IH]; intros merged seen Hb.
  - exists merged. by rewrite app_nil_r.
  - cbn [keep_all]. destruct (keep_best merged seen x Hb Hx) as (m1 & -> & Hb1). cbn [res_bind].
    destruct (IH m1 _ Hb1) as (m2 & -> & Hb2). exists m2. by rewrite <- app_assoc in Hb2.
Qed.

Section merging.
Context `{L : PrimLaws, O : Os, OL : !OsLaws O}.

Lemma keep_lines_best key tokens texts merged seen :
  best merged seen -> Forall2 (line_holds key) tokens texts ->
  best (fold_left (keep_line key) tokens merged) (seen ++ texts).
Proof using.
  intros Hb H. revert merged seen Hb. induction H as [|t x tokens texts (Hg & Hv & Ho) _ IH]; intros merged seen Hb.
  - by rewrite app_nil_r.
  - cbn [fold_left]. change (x :: texts) with ([x] ++ texts). rewrite app_assoc. apply IH. unfold keep_line.
    destruct (nonblank_token t Hg) as [-> ->]. cbn [negb]. rewrite Ho. cbn [res_bind as_str].
    by destruct (keep_best merged seen x Hb Hv) as (m & -> & H).
Qed.

Context {IO : IoReliable O}.

(** The texts of a cache file that may be missing. *)
Definition cached_texts (s : session) (path : string) (texts : list string) : Prop :=
  match files (os s) !! path with
  | None => texts = []
  | Some raw => holds (master_key s) true raw texts
  end.

Lemma merge_run dst incoming s old :
  cached_texts s dst old -> Forall (fun x => utf8_valid x = true) incoming ->
  exists s' merged, _merge_cache_entries dst incoming s = (s', Ok (map snd merged)) /\ quiet s s' /\
    best merged (old ++ incoming).
Proof using IO.
  intros Hold Hin. unfold cached_texts in Hold. unfold _merge_cache_entries, st_bind at 1, st_get, path_exists.
  destruct (files (os s) !! dst) as [raw|] eqn:E.
  - destruct Hold as (tokens & _ & -> & Hall). pose proof (holds_good _ _ _ Hall) as Hg. cbn [file_text] in E.
    destruct (concat_lines_plain tokens Hg) as [Hv Hu]. rewrite bool_decide_true by (by eexists).
    destruct (read_text_ok dst s _ E Hv) as (s1 & E1 & Hq1). unfold st_bind, st_catch. rewrite E1, Hu.
    rewrite split_lines_concat by done. unfold st_ret. rewrite fold_left_app. cbn [fold_left].
    pose proof (keep_lines_best (master_key s) tokens old [] [] best_nil Hall) as Hb. cbn [app] in Hb.
    lazymatch goal with |- context [keep_line _ ?m ""] => change (keep_line (master_key s) m "") with m end.
    destruct (keep_all_best incoming _ _ Hb Hin) as (merged & Em & Hb2).
    unfold st_lift. rewrite Em. exists s1, merged. done.
  - subst old. rewrite bool_decide_false by (by intros [? ?]). unfold st_bind, st_ret, st_lift.
    destruct (keep_all_best incoming _ _ best_nil Hin) as (merged & Em & Hb). rewrite Em.
    exists s, merged. split; [done|]. split; [apply quiet_refl|done].
Qed.
End merging.
