(* ===== verification/BackupProps.v ===== *)
(** * Theorems about backups *)

From S2P Require Import Prelude Hashing Base64 PyVal Sorting Json JsonFacts Crypto Wire Ratchet AuditClient Utils.
From S2P Require Import Session SessionFacts CacheStore CacheFacts Identity MlsBridge Mls Cleanup CleanupProps Backup BackupFacts.

(** ** Revocation *)

Section revocation.
Context `{L : PrimLaws, O : Os, OL : !OsLaws O, IO : !IoReliable O}.

Lemma load_outer_run path s raw outer :
  files (os s) !! path = Some raw -> backup_file raw outer ->
  exists s', load_outer path s = (s', Ok outer) /\ quiet s s'.
Proof using IO.
  intros Hf [Hv Hl]. destruct (read_text_ok path s raw Hf Hv) as (s' & E & Hq). exists s'. split; [|done].
  unfold load_outer, st_bind. rewrite E. unfold st_lift. by rewrite Hl.
Qed.

(** The checks before a file is opened. *)
Lemma admit_run path pass s latest ids g b raw outer id n :
  has_store s = true -> record_ok (stored_record s) latest ids g b ->
  files (os s) !! path = Some raw -> backup_file raw outer -> check_format outer = Ok tt ->
  header_id outer = Ok id -> header_int "generation" outer = Ok n ->
  exists s', quiet s s' /\ admit_backup path pass s =
    (s', if nonempty id && bool_decide (id ∈ ids) then Err revoked_id
         else if negb (n =? 0) && negb (b =? 0) && (n <=? b) then Err revoked_generation
         else let! payload := open_backup pass outer in Ok (outer, id, n, payload)).
Proof using IO.
  intros Hst Hr Hf Hfile Hfmt Hid Hgen. unfold admit_backup.
  destruct (load_outer_run path s raw outer Hf Hfile) as (s1 & E1 & Hq1). unfold st_bind at 1. rewrite E1.
  rewrite st_bind_lift, Hfmt, st_bind_lift, Hid, st_bind_lift, Hgen. destruct Hq1 as (Hs1 & Hf1 & Hd1).
  destruct (load_record_run s1) as (s2 & E2 & Hq2); [unfold has_store in *; by same_fields Hs1|].
  unfold st_bind at 1. rewrite E2. rewrite (stored_record_quiet s s1) by done. rewrite st_bind_lift.
  rewrite (check_revoked_eq _ _ _ _ _ id n Hr). exists s2. split; [by eapply quiet_trans|].
  destruct (_ && _); [done|]. destruct (_ && _); [done|]. rewrite st_bind_lift. by destruct (open_backup pass outer).
Qed.

(** C25: revoked backups. After [revoke_local_backups] this device refuses every
    file that carries the identifier of its last backup or of one revoked before,
    or a generation up to the last one, whatever the passphrase and the way of
    restoring, and nothing has changed. *)
Theorem revoked_backup_refused s latest ids g b :
  has_store s = true -> aes_key_ok (master_key s) = true -> record_ok (stored_record s) latest ids g b ->
  exists s1 status, revoke_local_backups s = (s1, Ok status) /\ same_session s s1 /\
    (forall p, p <> backup_state_path s -> files (os s1) !! p = files (os s) !! p) /\
    forall path pass overwrite preserve raw outer id n,
      files (os s1) !! path = Some raw -> backup_file raw outer -> check_format outer = Ok tt ->
      header_id outer = Ok id -> header_int "generation" outer = Ok n ->
      (id <> "" /\ (id = latest \/ id ∈ ids)) \/ 0 < n <= g ->
      exists s2 e, restore_e2ee_backup path pass overwrite preserve s1 = (s2, Err e) /\
        (e = revoked_id \/ e = revoked_generation) /\ quiet s1 s2.
Proof using L OL IO.
  intros Hst Hk Hr. destruct (revoke_run s latest ids g b Hst Hk Hr) as (s1 & status & ids' & E & Hs & Hr' & Hin & Hfiles).
  exists s1, status. split; [done|]. split; [done|]. split; [done|].
  intros path pass overwrite preserve raw outer id n Hf Hfile Hfmt Hid Hgen Hrev.
  assert (Hst1 : has_store s1 = true) by (unfold has_store in *; by same_fields Hs).
  destruct (admit_run path pass s1 _ _ _ _ raw outer id n Hst1 Hr' Hf Hfile Hfmt Hid Hgen) as (s2 & Hq & E2).
  unfold restore_e2ee_backup, st_bind at 1, st_get. rewrite Hst1. cbn [negb]. unfold st_bind at 1. rewrite E2.
  exists s2. destruct (nonempty id && bool_decide (id ∈ ids')) eqn:E3; [exists revoked_id; auto|].
  assert (Hn : 0 < n <= g).
  { destruct Hrev as [[Hne Ho]|]; [|done]. apply nonempty_spec in Hne. rewrite Hne in E3. cbn [andb] in E3.
    apply bool_decide_eq_false in E3. exfalso. apply E3, Hin. by split. }
  assert (negb (n =? 0) && negb (Z.max b g =? 0) && (n <=? Z.max b g) = true) as -> by lia.
  exists revoked_generation. auto.
Qed.

(** Revocation does not bind. The identifier and the generation a device
    compares with its record are read from the header outside the ciphertext and
    its associated data: a file of a revoked backup in which both were edited is
    admitted, and opens to the same payload. *)
Theorem revocation_bypassed s latest ids g b path pass outer payload id n :
  has_store s = true -> record_ok (stored_record s) latest ids g b ->
  check_format outer = Ok tt -> open_backup pass outer = Ok payload -> py_ok (PDict outer) ->
  utf8_valid id = true -> id <> "" -> id ∉ ids -> 0 < n -> b < n ->
  let edited := dset "generation" (PInt n) (dset "backup_id" (PStr id) outer) in
  files (os s) !! path = Some (json_dumps false false (PDict edited)) ->
  exists s', admit_backup path pass s = (s', Ok (edited, id, n, payload)) /\ quiet s s'.
Proof using IO.
  intros Hst Hr Hfmt Hopen Hok Hv Hne Hid Hn Hb edited Hf.
  assert (Hoke : py_ok (PDict edited)) by (unfold edited; by repeat apply py_ok_dset).
  destruct (admit_run path pass s _ _ _ _ _ edited id n Hst Hr Hf (backup_file_dumps _ Hoke)) as (s' & Hq & E).
  - unfold check_format, edited. by rewrite !dget_dset_ne.
  - unfold header_id, header_field, edited. rewrite dget_dset_ne, dget_dset_eq by done. cbn [truthy].
    by rewrite nonempty_spec.
  - unfold header_int, header_field, edited. rewrite dget_dset_eq. cbn [truthy]. by destruct (Z.eqb_spec n 0); [lia|].
  - exists s'. split; [|done]. rewrite E. rewrite (bool_decide_false _ Hid), andb_false_r.
    assert (negb (n =? 0) && negb (b =? 0) && (n <=? b) = false) as -> by lia.
    assert (open_backup pass edited = open_backup pass outer) as ->.
    { unfold open_backup, edited, ditem, manifest_of, dget. by rewrite !dlookup_dset_ne. }
    by rewrite Hopen.
Qed.
End revocation.

(** ** Authenticity *)

Section authenticity.
Context `{L : PrimLaws, A : !AeadStrict P}.

Lemma loads_dumps v : py_ok v -> loads_bytes (json_dumps false false v) = Ok v.
Proof using.
  intros H. unfold loads_bytes, utf8_decode. rewrite json_dumps_valid by done. cbn [res_bind].
  by rewrite json_loads_dumps.
Qed.

Lemma canonical_manifest v : py_ok v -> _canonical_backup_manifest v = Ok (json_dumps false true v).
Proof using. intros H. unfold _canonical_backup_manifest, utf8_encode. by rewrite json_dumps_valid. Qed.

Lemma open_backup_inv pass outer ct payload :
  dlookup "ciphertext" outer = Some (PStr (b64encode ct)) -> open_backup pass outer = Ok payload ->
  exists salt iterations key aad nonce plain,
    _backup_key pass salt iterations = Ok key /\
    (if truthy (manifest_of outer)
     then let! m := _canonical_backup_manifest (manifest_of outer) in Ok (Some m) else Ok None) = Ok aad /\
    aes_decrypt key nonce ct aad = Some plain /\ loads_bytes plain = Ok (PDict payload).
Proof using.
  intros Hct Hopen. unfold open_backup in Hopen. unfold ditem in Hopen at 3. rewrite Hct in Hopen.
  cbn [of_option res_bind] in Hopen. rewrite unb64_encode in Hopen. cbv zeta in Hopen.
  inv_ok Hopen. injection Ha6 as <-. subst a9.
  lazymatch goal with H : of_option (aes_decrypt ?k ?n ?c ?a) InvalidTag = Ok ?p |- _ =>
    destruct (aes_decrypt k n c a) as [p'|] eqn:Ed; [|done]; injection H as -> end.
  exists a0, a1, a2, a3, a5, a7. repeat split; try assumption. destruct a8; try discriminate Ha9.
  by injection Ha9 as <-.
Qed.

(** Backups cannot be forged or opened with another passphrase. A file that
    carries the ciphertext of an exported backup and opens, whatever the rest of
    the file says, opens to the payload that was exported; its passphrase and salt
    derive the key of the export, and its manifest is the one of the export. *)
Theorem opened_backup_authentic pass m files salt nonce key pass' outer payload :
  meta_ok m -> Forall py_ok files -> String.length nonce = 12%nat ->
  _backup_key pass salt _BACKUP_KDF_ITERS = Ok key ->
  dlookup "ciphertext" outer = Some (PStr (b64encode (backup_ct key nonce m files))) ->
  open_backup pass' outer = Ok payload ->
  payload = payload_json m files /\
  (exists salt' iterations', _backup_key pass' salt' iterations' = Ok key) /\
  _canonical_backup_manifest (manifest_of outer) = _canonical_backup_manifest (PDict (manifest_json m)).
Proof using L A.
  intros Hm Hf Hn Hk Hct Hopen. pose proof (backup_payload_ok m files Hm Hf) as Hp. pose proof (manifest_ok m Hm) as Hmj.
  destruct (open_backup_inv _ _ _ _ Hct Hopen) as (salt' & it & key' & aad & nonce' & plain & Hk' & Haad & Hd & Hl).
  unfold backup_ct in Hd. pose proof (aes_wrong_inputs _ _ _ _ _ _ _ _ Hd) as (-> & -> & ->).
  rewrite aes_decrypt_encrypt in Hd. apply (inj Some) in Hd. subst plain.
  rewrite (loads_dumps _ Hp) in Hl. apply Ok_inj in Hl. split; [congruence|]. split; [by eexists _, _|].
  rewrite (canonical_manifest _ Hmj). destruct (truthy (manifest_of outer)); [|discriminate Haad].
  destruct (_canonical_backup_manifest (manifest_of outer)) as [c|]; [|discriminate Haad].
  cbn [res_bind] in Haad. apply Ok_inj in Haad. congruence.
Qed.
End authenticity.

(** ** Restoring touches only the state files *)

Section confined_theorem.
Context `{P : Prims, O : Os}.

(** C26: a backup cannot write elsewhere. Whatever is in the file, whatever the
    passphrase, the file system and the outcome, a restore changes no other file
    than those of the session's own directory whose names are on the allow list,
    their temporaries, and the record of backups; an allowed name has no slash.
    The master key, the directory and the user of the session stay. *)
Theorem restore_confined path pass overwrite preserve s :
  let s' := fst (restore_e2ee_backup path pass overwrite preserve s) in
  master_key s' = master_key s /\ secchat_dir s' = secchat_dir s /\ my_uid s' = my_uid s /\
  forall p, p <> backup_state_path s ->
    (forall n, contains "/" n = false -> _backup_name_allowed n = true ->
       p <> local_path s n /\ p <> local_path s n +:+ ".tmp") ->
    files (os s') !! p = files (os s) !! p.
Proof.
  pose proof (within_run _ _ _ (within_restore s path pass overwrite preserve)) as [(H1 & H2 & H3) Hf].
  cbv zeta. split; [done|]. split; [done|]. split; [done|]. intros p Hne Hn. apply Hf.
  intros [(n & Ha & H)|?]; [|done]. destruct (allowed_plain n Ha) as (_ & Hc & _).
  destruct (Hn n Hc Ha). by destruct H.
Qed.
End confined_theorem.

(** ** Merging *)

Section merging_theorem.
Context `{L : PrimLaws, O : Os, OL : !OsLaws O, IO : !IoReliable O}.

Lemma dec_no_slash c : contains "/" (dec c +:+ ".bin") = false.
Proof using.
  pose proof (dec_not "/"%char c eq_refl ltac:(done)) as H. induction (dec c) as [|x s IH]; [done|].
  cbn [string_all String.append contains starts_with] in *. unfold not_char in H. bool_hyps.
  rewrite H, IH by done. done.
Qed.

Lemma msgs_allowed c : _backup_name_allowed (conv_file "msgs_" c) = true.
Proof using.
  assert (Hb : basename (conv_file "msgs_" c) = conv_file "msgs_" c).
  { apply basename_none. unfold conv_file. cbn [String.append contains starts_with]. by rewrite dec_no_slash. }
  unfold _backup_name_allowed. rewrite Hb, string_eqb_refl. cbn [negb orb].
  assert (nonempty (conv_file "msgs_" c) = true) as -> by done. cbn [negb].
  apply List.existsb_exists. exists (Star "msgs_"). split; [do 9 right; by left|].
  unfold pattern_allows, conv_file. rewrite starts_with_app, sdrop_app, sapp_length.
  replace (String.length (dec c) + String.length ".bin" - 4)%nat with (String.length (dec c)) by (cbn; lia).
  rewrite sdrop_app. cbn [andb]. apply andb_true_intro. split; [apply Nat.leb_le; cbn; lia|done].
Qed.

(** Merging a backup into a device with another identity. The file of a
    conversation then holds one entry per message: only entries of the device or of
    the backup, none lost, and of the entries of one message none that reads better
    than the one kept (a text over a placeholder). *)
Theorem merged_cache_keeps_best overwrite t s c old incoming :
  aes_key_ok (master_key s) = true -> secchat_dir s ∈ dirs (os s) ->
  cached_texts s (msg_cache_path s c) old -> Forall (fun x => utf8_valid x = true) (old ++ incoming) ->
  exists s' t' raw merged,
    restore_file overwrite true t (file_json (conv_file "msgs_" c) (map PStr incoming)) s = (s', Ok t') /\
    replaced s s' (msg_cache_path s c) raw /\ holds (master_key s) true raw merged /\
    NoDup (map key_of merged) /\ (forall r, r ∈ merged -> r ∈ old ++ incoming) /\
    (forall r, r ∈ old ++ incoming -> exists r', r' ∈ merged /\ key_of r' = key_of r /\ quality r <= quality r').
Proof using L OL IO.
  intros Hk Hd Hold Hv. pose proof Hv as [_ Hvi]%Forall_app.
  set (name := conv_file "msgs_" c). assert (Hn : _backup_name_allowed name = true) by apply msgs_allowed.
  destruct (allowed_plain name Hn) as (Hb & _ & _).
  assert (Hl : is_line_file name = true) by apply starts_with_app.
  unfold restore_file, file_json. rewrite st_bind_lift. cbn [as_dict].
  change (dget "name" (PStr "") _) with (PStr name). change (dget "line_mode" (PBool false) _) with (PBool (is_line_file name)).
  change (dget "entries" (PList []) _) with (PList (map PStr incoming)).
  cbn [py_str truthy]. cbv zeta. rewrite Hb, Hn, Hl. cbn [negb andb]. unfold st_bind at 1, st_get.
  change (local_path s name) with (msg_cache_path s c).
  assert (_restore_should_skip_for_merge name = false) as -> by done. rewrite !andb_false_r.
  rewrite st_bind_lift. cbn [py_iter res_bind]. rewrite map_map. cbn [py_str]. rewrite map_id.
  unfold st_bind at 1. destruct (merge_run (msg_cache_path s c) incoming s old Hold Hvi)
    as (s1 & m & -> & (Hs1 & Hf1 & Hd1) & [Hkeys Hfrom Hbest]).
  assert (Hm : forall r, r ∈ map snd m -> dlookup (key_of r) m = Some r /\ r ∈ old ++ incoming).
  { intros r ([k r'] & -> & Hin)%list_elem_of_fmap. apply dlookup_elem in Hin; [|done].
    by destruct (Hfrom k r' Hin) as [<- ?]. }
  destruct (write_entries_run (msg_cache_path s c) true (map snd m) s1) as (s2 & raw & E2 & (Hs2 & Hd2 & Hf2 & Ho2) & Hh).
  { by same_fields Hs1. }
  { rewrite Hd1. by same_fields Hs1. }
  { apply Forall_forall. intros r [_ Hr]%Hm. rewrite Forall_forall in Hv. by apply Hv. }
  { done. }
  unfold st_bind. rewrite E2. eexists s2, _, raw, (map snd m). split; [reflexivity|].
  split; [|split; [|split; [|split]]].
  - split; [by eapply same_session_trans|]. split; [by rewrite Hd2|]. split; [done|].
    intros p H1 H2. by rewrite Ho2, Hf1.
  - replace (master_key s) with (master_key s1) by (by same_fields Hs1). done.
  - rewrite map_map. rewrite (map_ext_in _ fst); [exact Hkeys|]. intros [k r] Hin. cbn.
    apply list_elem_of_In, dlookup_elem in Hin; [|done]. by destruct (Hfrom k r Hin).
  - intros r Hr. by apply Hm.
  - intros r Hr. destruct (Hbest r Hr) as (r' & H1 & H2). exists r'.
    pose proof (Hfrom _ _ H1) as [H3 _]. split; [|done].
    apply dlookup_elem in H1; [|done]. by apply (list_elem_of_fmap_2 snd) in H1.
Qed.
End merging_theorem.

(** ** Witnesses

    A device whose record names its third backup, and the file of that backup. *)

Definition demo_meta : backup_meta := BackupMeta "bk3" 3 1700000000 "an" 1 true "primary device" "" 0 0.
Definition demo_record : dict := [("latest_backup_id", PStr "bk3"); ("latest_generation", PInt 3)].
Definition demo_revoked : dict :=
  [("latest_backup_id", PStr "bk3"); ("latest_generation", PInt 3);
   ("revoked_backup_ids", PList [PStr "bk3"]); ("revoked_before_generation", PInt 3)].
Definition demo_pass : string := "correct horse battery staple 7".

Section demo.
#[local] Existing Instance reference_prims.

Definition demo_outer (key : bytes) : dict :=
  outer_json demo_meta "0123456789abcdef" "nonce-number" (backup_ct key "nonce-number" demo_meta []).

Definition demo_device (record file : dict) : session :=
  let s := demo_session in
  s <| os ::= fun w => w <| dirs := {[secchat_dir s]} |>
    <| files := <["/tmp/backup.json" := json_dumps false false (PDict file)]>
                  {[backup_state_path s := demo_token 68 demo_key (json_dumps false false (PDict record))]} |> |>.

Lemma demo_meta_ok : meta_ok demo_meta.
Proof. done. Qed.

Lemma demo_key_runs : exists key, _backup_key demo_pass "0123456789abcdef" _BACKUP_KDF_ITERS = Ok key.
Proof. by eexists. Qed.

Lemma demo_record_stored record file : py_ok (PDict record) -> stored_record (demo_device record file) = record.
Proof.
  intros Hr. assert (Hv : utf8_valid (json_dumps false false (PDict record)) = true) by by apply json_dumps_valid.
  destruct (demo_line 68 (json_dumps false false (PDict record)) Hv) as (Hg & _ & Ho).
  unfold stored_record. change (files (os (demo_device record file)) !! backup_state_path (demo_device record file))
    with (Some (demo_token 68 demo_key (json_dumps false false (PDict record)))).
  cbn [of_option res_bind]. change (master_key (demo_device record file)) with demo_key.
  rewrite opens_token by apply Hg. rewrite Ho. cbn [res_bind py_loads]. by rewrite json_loads_dumps.
Qed.

Lemma demo_record_ok : record_ok demo_record "bk3" [] 3 0.
Proof. split; [|reflexivity..|split; reflexivity]. unfold demo_record. py_ok_fields. Qed.

Lemma demo_revoked_ok : record_ok demo_revoked "bk3" ["bk3"] 3 3.
Proof. split; [|reflexivity..|split; reflexivity]. unfold demo_revoked. py_ok_fields. Qed.
End demo.

(** The texts of the cache file. *)
Lemma demo_cached :
  let s := demo_state (demo_token 67 demo_key "[]") in
  cached_texts (P := reference_prims) s (msg_cache_path s 7) ["{}"; "[]"].
Proof.
  intros s. unfold cached_texts.
  assert (files (os s) !! msg_cache_path s 7 = Some (concat_lines (demo_tokens (demo_token 67 demo_key "[]")))) as ->.
  { unfold s, demo_state. cbn -[concat_lines demo_tokens msg_cache_path identity_key_path].
    rewrite lookup_insert_ne by discriminate. apply lookup_singleton_Some. done. }
  exists (demo_tokens (demo_token 67 demo_key "[]")). split; [done|]. split; [done|].
  constructor; [by apply demo_line|]. constructor; [by apply demo_line|constructor].
Qed.

Lemma revoked_backup_refused_witness :
  exists key, let s := demo_device demo_record (demo_outer key) in
  exists s1 status s2 e, revoke_local_backups (P := reference_prims) (O := demo_os 0) s = (s1, Ok status) /\
    restore_e2ee_backup (P := reference_prims) (O := demo_os 0) "/tmp/backup.json" demo_pass true false s1 = (s2, Err e).
Proof.
  destruct demo_key_runs as [key Hk]. exists key. intros s.
  destruct (revoked_backup_refused (P := reference_prims) (O := demo_os 0) s "bk3" [] 3 0)
    as (s1 & status & E & _ & Hf & H); [reflexivity|reflexivity| |].
  { unfold s. rewrite demo_record_stored; apply demo_record_ok. }
  destruct (H "/tmp/backup.json" demo_pass true false (json_dumps false false (PDict (demo_outer key)))
    (demo_outer key) "bk3" 3) as (s2 & e & E2 & _).
  - rewrite Hf by discriminate. unfold s, demo_device. cbn -[json_dumps]. apply lookup_insert_eq.
  - apply backup_file_dumps, outer_ok, demo_meta_ok.
  - reflexivity.
  - reflexivity.
  - reflexivity.
  - right. lia.
  - exists s1, status, s2, e. split; [exact E|exact E2].
Defined.

(** The header of a revoked backup, edited to another identifier and generation. *)
Lemma revocation_bypassed_witness :
  exists key, let outer := demo_outer key in
  let edited := dset "generation" (PInt 9) (dset "backup_id" (PStr "other") outer) in
  exists s', admit_backup (P := reference_prims) (O := demo_os 0) "/tmp/backup.json" demo_pass (demo_device demo_revoked edited) =
    (s', Ok (edited, "other", 9, payload_json demo_meta [])).
Proof.
  destruct demo_key_runs as [key Hk]. exists key. intros outer edited.
  destruct (revocation_bypassed (P := reference_prims) (O := demo_os 0) (demo_device demo_revoked edited) "bk3" ["bk3"] 3 3
    "/tmp/backup.json" demo_pass outer (payload_json demo_meta []) "other" 9) as (s' & E & _).
  - reflexivity.
  - rewrite demo_record_stored; apply demo_revoked_ok.
  - reflexivity.
  - apply (open_sealed (P := reference_prims) demo_pass demo_meta []); [apply demo_meta_ok|constructor|reflexivity|exact Hk].
  - apply outer_ok, demo_meta_ok.
  - reflexivity.
  - discriminate.
  - rewrite list_elem_of_singleton. discriminate.
  - lia.
  - lia.
  - unfold demo_device. cbn -[json_dumps]. apply lookup_insert_eq.
  - exists s'. exact E.
Defined.

Lemma opened_backup_authentic_witness :
  exists key, _backup_key (P := reference_prims) demo_pass "0123456789abcdef" _BACKUP_KDF_ITERS = Ok key /\
    exists salt iterations, _backup_key (P := reference_prims) demo_pass salt iterations = Ok key.
Proof.
  destruct demo_key_runs as [key Hk]. exists key. split; [exact Hk|].
  destruct (opened_backup_authentic (P := reference_prims) demo_pass demo_meta [] "0123456789abcdef" "nonce-number" key
    demo_pass (demo_outer key) (payload_json demo_meta [])) as (_ & H & _).
  - apply demo_meta_ok.
  - constructor.
  - reflexivity.
  - exact Hk.
  - reflexivity.
  - apply (open_sealed (P := reference_prims) demo_pass demo_meta []); [apply demo_meta_ok|constructor|reflexivity|exact Hk].
  - exact H.
Defined.

Lemma merged_cache_keeps_best_witness :
  let s := demo_state (demo_token 67 demo_key "[]") in
  exists s' t' raw merged,
    restore_file (P := reference_prims) (O := demo_os 0) true true (Tally 0 0 0)
      (file_json "msgs_7.bin" [PStr "{}"]) s = (s', Ok t') /\
    files (os s') !! msg_cache_path s 7 = Some raw /\ holds (P := reference_prims) demo_key true raw merged /\
    NoDup (map key_of merged).
Proof.
  intros s. destruct (merged_cache_keeps_best (P := reference_prims) (O := demo_os 0) true (Tally 0 0 0) s 7
    ["{}"; "[]"] ["{}"]) as (s' & t' & raw & merged & E & (_ & _ & Hf & _) & Hh & Hn & _).
  - reflexivity.
  - apply demo_dirs.
  - apply demo_cached.
  - repeat constructor.
  - exists s', t', raw, merged. split; [exact E|]. split; [exact Hf|]. split; [exact Hh|exact Hn].
Defined.
