(* ===== verification/BackupTrip.v ===== *)
(** * From an export to a restore

    What [_state_files_for_backup] lists, what is read into a payload, what the
    loop of a restore writes; the round trip over two devices. *)

From S2P Require Import Prelude Hashing Base64 PyVal Sorting Json JsonFacts Crypto Wire Ratchet AuditClient Utils.
From S2P Require Import Session SessionFacts CacheStore CacheFacts Identity IdentityProps MlsBridge Mls MlsProps.
From S2P Require Import Cleanup CleanupProps Backup BackupFacts BackupProps.

(** ** Names and patterns *)

Definition no_slash (c : ascii) : bool := negb (Ascii.eqb c "/"%char).

Lemma plain_no_slash s : contains "/" s = false <-> string_all no_slash s = true.
Proof.
  induction s as [|c s IH]; [done|]. cbn [contains starts_with string_all]. unfold no_slash at 1.
  rewrite andb_true_r, orb_false_iff, andb_true_iff, negb_true_iff, IH, Ascii.eqb_sym. done.
Qed.

Lemma allows_inv k n : pattern_allows n (Star k) = true <-> exists mid, n = k +:+ mid +:+ ".bin".
Proof.
  unfold pattern_allows. split.
  - intros H. bool_hyps. apply starts_with_inv in H. set (rest := sdrop _ n) in *.
    exists (stake (String.length rest - 4) rest). rewrite H at 1. f_equal.
    rewrite <- (stake_sdrop (String.length rest - 4) rest) at 1. by f_equal.
  - intros [mid ->]. rewrite starts_with_app, sdrop_app, sapp_length.
    replace (String.length mid + String.length ".bin" - 4)%nat with (String.length mid) by (cbn; lia).
    rewrite sdrop_app. apply andb_true_intro. split; [apply Nat.leb_le; cbn; lia|done].
Qed.

Lemma star_of_app pre mid :
  string_all no_slash mid = true -> star_of pre ".bin" (pre +:+ mid +:+ ".bin") = Some mid.
Proof.
  intros Hm. unfold star_of. rewrite starts_with_app, sdrop_app, sapp_length. cbv zeta.
  replace (String.length mid + String.length ".bin" - String.length ".bin")%nat with (String.length mid) by lia.
  rewrite sdrop_app, stake_app, string_eqb_refl.
  assert ((String.length ".bin" <=? String.length mid + String.length ".bin")%nat = true) as -> by (apply Nat.leb_le; lia).
  unfold no_slash in Hm. by rewrite Hm.
Qed.

Lemma matches_allowed s pt n :
  contains "/" n = false -> matches s pt (local_path s n) <-> pattern_allows n pt = true.
Proof.
  intros Hn. destruct pt as [k|m]; cbn [matches].
  - rewrite allows_inv. unfold local_path. destruct (path_join_cons (secchat_dir s) k) as (d & E & Hd).
    rewrite E, Hd. split.
    + intros [x H%star_of_inv]. exists x. rewrite sapp_assoc in H. by apply sapp_inj_l in H.
    + intros [mid ->]. exists mid. rewrite <- sapp_assoc. apply star_of_app.
      apply plain_no_slash in Hn. rewrite !string_all_app in Hn. by bool_hyps.
  - cbn [pattern_allows]. rewrite String.eqb_eq. split; [apply local_path_inj|by intros ->].
Qed.

Lemma allowed_iff n :
  _backup_name_allowed n = true <->
  contains "/" n = false /\ nonempty n = true /\ exists pt, pt ∈ _BACKUP_PATTERNS /\ pattern_allows n pt = true.
Proof.
  split.
  - intros H. destruct (allowed_plain n H) as (Hb & Hc & Hn). split; [done|]. split; [done|].
    unfold _backup_name_allowed in H. rewrite Hb, string_eqb_refl, Hn in H. cbn [negb orb] in H.
    apply List.existsb_exists in H as (pt & Hin & Ha). exists pt. by rewrite list_elem_of_In.
  - intros (Hc & Hn & pt & Hin & Ha). unfold _backup_name_allowed.
    rewrite (basename_none n Hc), string_eqb_refl, Hn. cbn [negb orb]. apply List.existsb_exists.
    exists pt. by rewrite <- list_elem_of_In.
Qed.

Lemma star_no_slash k : Star k ∈ _BACKUP_PATTERNS -> string_all no_slash k = true.
Proof.
  unfold _BACKUP_PATTERNS. rewrite !elem_of_cons. intros Hk.
  repeat destruct Hk as [[= ->]|Hk]; try done. by apply not_elem_of_nil in Hk.
Qed.

Lemma name_plain m : Name m ∈ _BACKUP_PATTERNS -> contains "/" m = false /\ nonempty m = true.
Proof.
  unfold _BACKUP_PATTERNS. rewrite !elem_of_cons. intros Hk.
  repeat destruct Hk as [[= ->]|Hk]; try done. by apply not_elem_of_nil in Hk.
Qed.

Lemma other_clash pt : pt ∈ _BACKUP_PATTERNS ->
  (match pt with Star k => negb (String.eqb k "msgs_") | Name _ => true end) = true -> clash (stem pt) "msgs_" = true.
Proof.
  unfold _BACKUP_PATTERNS. rewrite !elem_of_cons. intros Hk.
  repeat destruct Hk as [->|Hk]; try done. by apply not_elem_of_nil in Hk.
Qed.

(** A path found by a pattern is an allowed name in the directory. *)
Lemma matches_name s pt p :
  pt ∈ _BACKUP_PATTERNS -> matches s pt p -> nonempty (secchat_dir s) = true ->
  p = local_path s (basename p) /\ _backup_name_allowed (basename p) = true.
Proof.
  intros Hin Hm Hd.
  assert (exists n, p = local_path s n /\ contains "/" n = false /\ nonempty n = true) as (n & -> & Hn & Hne).
  { destruct pt as [k|m]; cbn [matches] in Hm.
    - destruct Hm as [x Hx]. pose proof Hx as Hp%star_of_inv. exists (k +:+ x +:+ ".bin").
      split; [|split].
      + rewrite Hp. unfold local_path. destruct (path_join_cons (secchat_dir s) k) as (d & E & Hd').
        by rewrite E, Hd', !sapp_assoc.
      + apply plain_no_slash. rewrite !string_all_app. apply andb_true_intro. split.
        * by apply star_no_slash.
        * apply andb_true_intro. split; [|done]. unfold star_of in Hx. revert Hx.
          destruct (starts_with _ p); [|done]. destruct (_ && _) eqn:E; [|done]. intros [= <-].
          by apply andb_prop in E as [_ E].
      + destruct k; [|done]. destruct x; done.
    - exists m. split; [done|]. by apply name_plain. }
  rewrite (basename_path s n Hd Hn). split; [done|]. apply allowed_iff. split; [done|]. split; [done|].
  exists pt. split; [done|]. by apply (matches_allowed s pt n Hn).
Qed.

(** ** Listing *)

Section listing.
Context `{O : Os, OL : !OsLaws O}.

Lemma glob_patterns_run pts s : exists s' l, glob_all pts s = (s', Ok l) /\ quiet s s' /\
  forall p, p ∈ l <-> is_Some (files (os s) !! p) /\ exists pt, pt ∈ pts /\ matches s pt p.
Proof using OL.
  revert s. induction pts as [|pt pts IH]; intros s; cbn [glob_all].
  - exists s, []. split; [done|]. split; [apply quiet_refl|].
    intros p. split; [by intros ?%not_elem_of_nil|]. by intros (_ & pt & H%not_elem_of_nil & _).
  - unfold st_bind at 1. destruct (glob_pattern_run pt s) as (s1 & l1 & -> & Hq1 & Hl1). unfold st_bind.
    destruct (IH s1) as (s2 & l2 & -> & Hq2 & Hl2). pose proof Hq1 as (Hs1 & Hf1 & _).
    exists s2, (l1 ++ l2). split; [done|]. split; [by eapply quiet_trans|].
    intros p. rewrite elem_of_app, Hl1, Hl2, Hf1.
    assert (Hm : forall q, matches s1 q p <-> matches s q p) by (intros q; apply matches_same; by same_fields Hs1).
    split.
    + intros [[? ?]|(? & q & ? & ?)]; (split; [done|]); [exists pt; split; [left|done]|].
      exists q. split; [by right|by apply Hm].
    + intros (? & q & [->|?]%elem_of_cons & ?); [by left|]. right. split; [done|]. exists q. by rewrite Hm.
Qed.

(** The named paths of a backup. *)
Definition wanted (include_cache : bool) (s : session) (n : string) : Prop :=
  _backup_name_allowed n = true /\ (include_cache = true \/ is_line_file n = false) /\
  is_Some (files (os s) !! local_path s n).

Lemma add_files_spec s paths acc :
  nonempty (secchat_dir s) = true ->
  (forall p, p ∈ paths -> p = local_path s (basename p) /\ _backup_name_allowed (basename p) = true) ->
  NoDup (map fst acc) -> (forall n p, (n, p) ∈ acc -> p = local_path s n) ->
  let l := fold_left add_state_file paths acc in
  NoDup (map fst l) /\ (forall n p, (n, p) ∈ l -> p = local_path s n) /\
  (forall n, n ∈ map fst l <-> n ∈ map fst acc \/ local_path s n ∈ paths).
Proof using.
  intros Hd. revert acc. induction paths as [|p paths IH]; intros acc Hp Hnd Hacc; cbn [fold_left].
  - split; [done|]. split; [done|]. intros n. split; [by left|by intros [?|?%not_elem_of_nil]].
  - destruct (Hp p) as [Ep Ha]; [left|].
    assert (Hstep : NoDup (map fst (add_state_file acc p)) /\
      (forall n q, (n, q) ∈ add_state_file acc p -> q = local_path s n) /\
      (forall n, n ∈ map fst (add_state_file acc p) <-> n ∈ map fst acc \/ n = basename p)).
    { unfold add_state_file. rewrite Ha. cbn [negb]. rewrite orb_false_r.
      destruct (bool_decide_reflect (basename p ∈ map fst acc)) as [Hin|Hin].
      - split; [done|]. split; [done|]. intros n. split; [by left|by intros [?| ->]].
      - split; [|split].
        + rewrite map_app. apply NoDup_app. split; [done|]. split; [|apply NoDup_singleton].
          intros n Hn ->%list_elem_of_singleton. done.
        + intros n q [H|H]%elem_of_app; [by apply Hacc|]. apply list_elem_of_singleton in H as [= -> ->]. done.
        + intros n. rewrite map_app, elem_of_app. cbn [map fst]. by rewrite list_elem_of_singleton. }
    destruct Hstep as (H1 & H2 & H3).
    destruct (IH (add_state_file acc p)) as (I1 & I2 & I3); [intros q Hq; apply Hp; by right|done|done|].
    split; [done|]. split; [done|]. intros n. rewrite I3, H3, elem_of_cons. split.
    + intros [[?| ->]|?]; [by left|right; left; by rewrite <- Ep|by right; right].
    + intros [?|[E|?]]; [by left; left|left; right|by right]. rewrite Ep in E. by apply local_path_inj in E.
Qed.

Lemma wanted_iff include_cache s n : nonempty (secchat_dir s) = true ->
  wanted include_cache s n <-> is_Some (files (os s) !! local_path s n) /\ exists pt,
    pt ∈ List.filter (fun p => match p with
      | Star k => include_cache || negb (String.eqb k "msgs_")
      | Name _ => true end) _BACKUP_PATTERNS /\ matches s pt (local_path s n).
Proof using.
  intros Hd. unfold wanted. split.
  - intros (Ha & Hc & Hf). split; [done|]. pose proof (proj1 (allowed_iff n) Ha) as (Hs & _ & pt & Hin & Hp).
    exists pt. split; [|by apply matches_allowed]. apply list_elem_of_In, filter_In.
    split; [by apply list_elem_of_In|]. destruct pt as [k|]; [|done].
    destruct Hc as [->|Hc]; [done|]. destruct (String.eqb_spec k "msgs_") as [->|]; [|by rewrite orb_true_r].
    unfold pattern_allows in Hp. unfold is_line_file in Hc. by rewrite Hc in Hp.
  - intros (Hf & pt & Hin & Hm). apply list_elem_of_In, filter_In in Hin as [Hin Hk]. apply list_elem_of_In in Hin.
    destruct (matches_name s pt _ Hin Hm Hd) as [E Ha]. apply local_path_inj in E. rewrite <- E in Ha.
    split; [done|]. split; [|done]. destruct include_cache; [by left|right].
    destruct (matches_path s pt _ Hm) as [r Er]. apply local_path_inj in Er.
    unfold is_line_file. destruct (starts_with "msgs_" n) eqn:Es; [|done]. apply starts_with_inv in Es.
    exfalso. rewrite Es in Er at 1. revert Er. apply not_eq_sym, clash_neq. by apply other_clash.
Qed.

Lemma sources_run include_cache s :
  nonempty (secchat_dir s) = true ->
  exists s' l, _state_files_for_backup include_cache s = (s', Ok l) /\ quiet s s' /\ NoDup (map fst l) /\
    (forall n p, (n, p) ∈ l -> p = local_path s n) /\ (forall n, n ∈ map fst l <-> wanted include_cache s n).
Proof using OL.
  intros Hd. unfold _state_files_for_backup, st_bind at 1, st_get. rewrite Hd. cbn [negb].
  lazymatch goal with |- context [glob_all ?pts] => set (pats := pts) end.
  destruct (glob_patterns_run pats s) as (s1 & paths & E & Hq & Hin). unfold st_bind. rewrite E. unfold st_ret.
  destruct (add_files_spec s paths [] Hd) as (H1 & H2 & H3).
  - intros p (_ & pt & Hpt & Hm)%Hin. apply (matches_name s pt); [|done|done].
    subst pats. apply list_elem_of_In, filter_In in Hpt as [Hpt _]. by apply list_elem_of_In.
  - constructor.
  - by intros n p ?%not_elem_of_nil.
  - eexists s1, _. split; [reflexivity|]. split; [done|].
    set (l := fold_left add_state_file paths []) in *.
    assert (Hp : isort (by_key str_ltb fst) l ≡ₚ l) by apply isort_perm.
    split; [by rewrite Hp|]. split.
    + intros n p. rewrite Hp. apply H2.
    + intros n. rewrite (wanted_iff include_cache s n Hd). change (map fst (isort _ l)) with (fst <$> isort (by_key str_ltb fst) l).
      rewrite Hp. change (fst <$> l) with (map fst l). rewrite H3, Hin. split; [intros [?%not_elem_of_nil|?]; done|by right].
Qed.
End listing.

(** ** Reading *)

Section reading.
Context `{L : PrimLaws, O : Os, OL : !OsLaws O, IO : !IoReliable O}.

Lemma open_tokens key tokens texts :
  Forall2 (line_holds key) tokens texts -> open_entries key tokens = Ok (map PStr texts).
Proof using.
  unfold open_entries. induction 1 as [|t x tokens texts (Hg & Hv & Ho) _ IH]; [done|].
  cbn [map List.filter]. destruct (nonblank_token t Hg) as [-> ->]. cbn [res_map]. rewrite Ho. cbn [res_bind].
  by rewrite IH.
Qed.

Lemma open_file key (line : bool) raw texts :
  holds key line raw texts -> utf8_valid raw = true /\
  open_entries key (if line then splitlines (universal_newlines raw) else [universal_newlines raw]) =
    Ok (map PStr texts).
Proof using.
  intros (tokens & Hl & -> & Hall). pose proof (holds_good _ _ _ Hall) as Hg.
  destruct (file_text_lines line tokens Hl Hg) as [Hv Hs]. split; [done|]. destruct line.
  - rewrite Hs. by apply open_tokens.
  - specialize (Hl eq_refl). destruct Hall as [|t x tokens texts Ht Hrest]; [done|].
    destruct tokens; [|cbn in Hl; lia]. inversion Hrest; subst. cbn [file_text hd].
    rewrite universal_newlines_token by apply Ht. apply open_tokens. by repeat constructor; apply Ht.
Qed.

Lemma holds_unique key line raw texts texts' :
  holds key line raw texts -> holds key line raw texts' -> texts = texts'.
Proof using.
  intros [_ H]%open_file [_ H']%open_file. rewrite H in H'. apply Ok_inj in H'.
  revert texts' H'. clear H. induction texts as [|x texts IH]; intros [|y texts']; cbn; try done.
  intros [= -> H]. f_equal. by apply IH.
Qed.

Definition bundle_json (b : string * list string) : pyval := file_json (fst b) (map PStr (snd b)).

(** The files of a payload: names and texts. *)
Definition read_into (s : session) (sources : list (string * string)) (bundle : list (string * list string)) : Prop :=
  NoDup (map fst bundle) /\
  forall n texts, (n, texts) ∈ bundle <-> texts <> [] /\ exists p raw, (n, p) ∈ sources /\
    files (os s) !! p = Some raw /\ holds (master_key s) (is_line_file n) raw texts.

Lemma read_file_run acc n p s raw texts :
  files (os s) !! p = Some raw -> holds (master_key s) (is_line_file n) raw texts ->
  exists s' count, read_state_file acc (n, p) s =
    (s', Ok (fst acc ++ (match texts with [] => [] | _ => [bundle_json (n, texts)] end), count)) /\ quiet s s'.
Proof using IO.
  intros Hf Hh. destruct (open_file _ _ _ _ Hh) as [Hv Ho]. unfold read_state_file.
  destruct (read_text_ok p s raw Hf Hv) as (s1 & E1 & Hq1). unfold st_bind at 1. rewrite E1.
  unfold st_bind at 1, st_get. rewrite st_bind_lift. replace (master_key s1) with (master_key s)
    by (destruct Hq1 as [Hs _]; by same_fields Hs).
  rewrite Ho. destruct texts as [|x texts]; cbn [map].
  - exists s1, (snd acc). rewrite app_nil_r. destruct acc. done.
  - by eexists s1, _.
Qed.

Lemma read_files_run sources acc s :
  NoDup (map fst sources) ->
  (forall n p, (n, p) ∈ sources -> exists raw texts, files (os s) !! p = Some raw /\
     holds (master_key s) (is_line_file n) raw texts) ->
  exists s' bundle count, st_fold read_state_file acc sources s =
    (s', Ok (fst acc ++ map bundle_json bundle, count)) /\ quiet s s' /\ read_into s sources bundle.
Proof using IO.
  revert acc s. induction sources as [|[n p] sources IH]; intros acc s Hnd Hall.
  - exists s, [], (snd acc). rewrite app_nil_r. split; [by destruct acc|]. split; [apply quiet_refl|].
    split; [constructor|]. intros n texts. split; [by intros ?%not_elem_of_nil|].
    intros (_ & p & raw & ?%not_elem_of_nil & _). done.
  - inversion_clear Hnd as [|? ? Hn Hnd']. destruct (Hall n p) as (raw & texts & Hf & Hh); [left|].
    cbn [st_fold]. unfold st_bind. destruct (read_file_run acc n p s raw texts Hf Hh) as (s1 & c & -> & Hq1).
    pose proof Hq1 as (Hs1 & Hf1 & _).
    assert (Hm : master_key s1 = master_key s) by (by same_fields Hs1).
    destruct (IH (fst acc ++ match texts with [] => [] | _ => [bundle_json (n, texts)] end, c) s1 Hnd')
      as (s2 & bundle & count & -> & Hq2 & Hb1 & Hb2).
    { intros n' p' Hin. rewrite Hf1, Hm. apply Hall. by right. }
    rewrite Hf1, Hm in Hb2.
    exists s2, (match texts with [] => bundle | _ => (n, texts) :: bundle end), count.
    split; [destruct texts; cbn [fst map]; by rewrite <- ?app_assoc, ?app_nil_r|].
    split; [by eapply quiet_trans|].
    assert (Hfresh : n ∉ map fst bundle).
    { intros ([n' t'] & -> & Hin)%list_elem_of_fmap. apply Hb2 in Hin as (_ & p' & r' & Hin & _).
      apply Hn. by apply (list_elem_of_fmap_2 fst) in Hin. }
    split.
    + destruct texts; [done|]. by constructor.
    + intros n' t'. assert (Hcons : (n', t') ∈ (match texts with [] => bundle | _ => (n, texts) :: bundle end) <->
        (texts <> [] /\ (n', t') = (n, texts)) \/ (n', t') ∈ bundle).
      { destruct texts; [tauto|]. rewrite elem_of_cons. split; [intros [?|?]; auto|intros [[_ ?]|?]; auto]. }
      rewrite Hcons, Hb2. split.
      * intros [[Hne [= -> ->]]|(Hne & p' & r' & Hin & Hrest)]; (split; [done|]).
        -- exists p, raw. split; [left|done].
        -- exists p', r'. split; [by right|done].
      * intros (Hne & p' & r' & [[= -> ->]|Hin]%elem_of_cons & Hf' & Hh').
        -- left. rewrite Hf in Hf'. injection Hf' as <-. rewrite (holds_unique _ _ _ _ _ Hh Hh'). done.
        -- right. split; [done|]. by exists p', r'.
Qed.
End reading.

(** ** Restoring *)

Section restoring_files.
Context `{L : PrimLaws, O : Os, OL : !OsLaws O, IO : !IoReliable O}.

(** Texts that may be the contents of a file. *)
Definition contents_ok (n : string) (texts : list string) : Prop :=
  Forall (fun x => utf8_valid x = true) texts /\ (is_line_file n = false -> (length texts <= 1)%nat).

Lemma holds_contents key n raw texts : holds key (is_line_file n) raw texts -> contents_ok n texts.
Proof using.
  intros (tokens & Hl & _ & Hall). split.
  - clear Hl. induction Hall as [|t x ? ? (_ & Hv & _)]; by constructor.
  - intros H. rewrite <- (Forall2_length _ _ _ Hall). by apply Hl.
Qed.

Lemma restore_file_run t s n texts :
  aes_key_ok (master_key s) = true -> secchat_dir s ∈ dirs (os s) -> _backup_name_allowed n = true ->
  contents_ok n texts ->
  exists s' t' raw, restore_file true false t (bundle_json (n, texts)) s = (s', Ok t') /\
    replaced s s' (local_path s n) raw /\ holds (master_key s) (is_line_file n) raw texts.
Proof using L OL IO.
  intros Hk Hd Hn [Hv Hl]. destruct (allowed_plain n Hn) as (Hb & _ & _).
  unfold restore_file, bundle_json, file_json. rewrite st_bind_lift. cbn [as_dict fst snd].
  change (dget "name" (PStr "") _) with (PStr n). change (dget "line_mode" (PBool false) _) with (PBool (is_line_file n)).
  change (dget "entries" (PList []) _) with (PList (map PStr texts)).
  cbn [py_str truthy]. cbv zeta. rewrite Hb, Hn. cbn [negb andb].
  unfold st_bind at 1, st_get. rewrite andb_false_r. cbn [andb]. rewrite st_bind_lift. cbn [py_iter res_bind]. rewrite map_map. cbn [py_str].
  rewrite map_id. unfold st_bind at 1, st_ret at 1.
  destruct (write_entries_run (local_path s n) (is_line_file n) texts s Hk Hd Hv Hl) as (s1 & raw & E1 & H1 & H2).
  unfold st_bind. rewrite E1. by eexists s1, _, raw.
Qed.

Lemma allowed_bin s n : _backup_name_allowed n = true -> bin_file (local_path s n).
Proof using.
  intros (Hc & _ & pt & Hin & Ha)%allowed_iff.
  assert (exists m, n = m +:+ ".bin") as [m ->]; [|by apply name_bin].
  destruct pt as [k|m].
  - apply allows_inv in Ha as [mid ->]. exists (k +:+ mid). by rewrite sapp_assoc.
  - cbn in Ha. apply String.eqb_eq in Ha as ->. revert Hin. unfold _BACKUP_PATTERNS. rewrite !elem_of_cons.
    intros Hk. repeat destruct Hk as [[= ->]|Hk]; try (by apply not_elem_of_nil in Hk).
    + by exists "identity_sk".
    + by exists "pqxdh_prekeys".
    + by exists "auditor_state".
    + by exists "cache_policy".
Qed.

(** Every file of the bundle is in place, and no other file of state has changed. *)
Definition restored_bundle (s s' : session) (bundle : list (string * list string)) : Prop :=
  same_session s s' /\ dirs (os s') = dirs (os s) /\
  (forall n texts, (n, texts) ∈ bundle -> exists raw, files (os s') !! local_path s n = Some raw /\
     holds (master_key s) (is_line_file n) raw texts) /\
  (forall p, bin_file p -> (forall n, n ∈ map fst bundle -> p <> local_path s n) ->
     files (os s') !! p = files (os s) !! p).

Lemma restore_files_run bundle t s :
  aes_key_ok (master_key s) = true -> secchat_dir s ∈ dirs (os s) -> NoDup (map fst bundle) ->
  (forall n texts, (n, texts) ∈ bundle -> _backup_name_allowed n = true /\ contents_ok n texts) ->
  exists s' t', st_fold (restore_file true false) t (map bundle_json bundle) s = (s', Ok t') /\
    restored_bundle s s' bundle.
Proof using L OL IO.
  intros Hk. revert t s Hk. induction bundle as [|[n texts] bundle IH]; intros t s Hk Hd Hnd Hall.
  - exists s, t. split; [done|]. split; [apply same_session_refl|]. split; [done|].
    split; [by intros n texts ?%not_elem_of_nil|done].
  - inversion_clear Hnd as [|? ? Hn Hnd']. destruct (Hall n texts) as [Ha Hc]; [left|].
    cbn [map st_fold]. unfold st_bind.
    destruct (restore_file_run t s n texts Hk Hd Ha Hc) as (s1 & t1 & raw & -> & (Hs1 & Hd1 & Hf1 & Ho1) & Hh).
    assert (Hm : master_key s1 = master_key s) by (by same_fields Hs1).
    assert (Hdir : secchat_dir s1 = secchat_dir s) by (by same_fields Hs1).
    assert (Hp : forall m, local_path s1 m = local_path s m) by (intros m; unfold local_path; by rewrite Hdir).
    destruct (IH t1 s1) as (s2 & t2 & -> & Hs2 & Hd2 & Hf2 & Ho2).
    { by rewrite Hm. } { by rewrite Hdir, Hd1. } { done. } { intros m x Hx. apply Hall. by right. }
    exists s2, t2. split; [done|]. split; [by eapply same_session_trans|]. split; [by rewrite Hd2|]. split.
    + intros m x [[= -> ->]|Hx]%elem_of_cons.
      * exists raw. split; [|done]. rewrite Ho2; [done|by apply allowed_bin|].
        intros m Hin E. rewrite Hp in E. apply local_path_inj in E as <-. done.
      * destruct (Hf2 m x Hx) as (raw' & H1 & H2). rewrite Hp in H1. rewrite Hm in H2. by exists raw'.
    + intros p Hb Hne. rewrite Ho2, Ho1; [done| |by apply bin_not_tmp|done|].
      * apply Hne. left.
      * intros m Hin. rewrite Hp. apply Hne. by right.
Qed.

(** What comes after the files: no exception, and no other file than those of the
    identity, the groups and the record of backups. *)
Lemma load_policy_total s : exists s' d, load_cache_policy s = (s', Ok d).
Proof using.
  unfold load_cache_policy, st_bind at 1, st_get at 1. destruct (negb (has_store s)); [by eexists _, _|].
  destruct (negb (path_exists s (cache_policy_path s))); [by eexists _, _|]. unfold st_bind at 1, logged, st_catch.
  lazymatch goal with |- context [match ?m s with (_, _) => _ end] => destruct (m s) as [s1 [[]|e]]; by eexists _, _ end.
Qed.

Lemma load_mls_total s : exists s' b, _load_mls_state_into_bridge s = (s', Ok b).
Proof using.
  unfold _load_mls_state_into_bridge, st_bind at 1, st_get at 1. destruct (negb (has_store s)); [by eexists _, _|].
  destruct (negb (path_exists s (mls_state_path s))); [by eexists _, _|]. unfold st_catch.
  destruct (restore_mls (mls_state_path s) s) as [s1 [b|e]]; [by eexists _, _|].
  unfold discard_mls, st_bind at 1, st_bind at 1, st_get. destruct (_ && _); [|by eexists _, _].
  unfold logged, st_catch.
  lazymatch goal with |- context [match ?m s1 with (_, _) => _ end] => destruct (m s1) as [s2 [[]|e2]]; by eexists _, _ end.
Qed.

Lemma save_record_total d s : exists s', _save_backup_state d s = (s', Ok tt).
Proof using.
  unfold _save_backup_state, st_bind, st_get. destruct (negb (has_store s)); [by eexists|]. unfold logged, st_catch.
  destruct (write_sealed (backup_state_path s) _ s) as [s1 [[]|e]]; by eexists.
Qed.
End restoring_files.

(** ** The exporting device *)

Section exporting.
Context `{L : PrimLaws, O : Os, OL : !OsLaws O, IO : !IoReliable O, U : UnicodeTables}.

Lemma save_mls_ok s : exists s', _save_mls_state s = (s', Ok tt).
Proof using.
  unfold _save_mls_state, st_bind at 1, st_get at 1. destruct (_ || _); [by eexists|].
  destruct (negb _); [by eexists|]. unfold logged, st_catch.
  lazymatch goal with |- context [match ?m s with (_, _) => _ end] => destruct (m s) as [s1 [[]|e]]; by eexists end.
Qed.

Lemma stake_all f n s : string_all f s = true -> string_all f (stake n s) = true.
Proof using.
  revert s. induction n as [|n IH]; intros [|c s]; cbn; try done. intros [Hc Hs]%andb_prop. by rewrite Hc, IH.
Qed.

Lemma fingerprint_valid s f : _identity_backup_fingerprint s = Ok f -> utf8_valid f = true.
Proof using.
  unfold _identity_backup_fingerprint. intros (a & _ & H%Ok_inj)%res_bind_ok. destruct (nonempty a).
  - rewrite <- H. apply utf8_valid_ascii, stake_all. apply hex_ascii.
  - by rewrite <- H.
Qed.

Definition device_label (state : dict) : string :=
  py_str (py_or (dget "device_label" (PStr "") state) (PStr "primary device")).

(** A session that can export: what [_save_mls_state] leaves opens, file by file. *)
Record exportable (s : session) (pass user : string) (s1 : session) : Prop := {
  ex_store : has_store s = true;
  ex_key : aes_key_ok (master_key s) = true;
  ex_pass : fst (fst (backup_passphrase_report pass)) = true /\ utf8_valid pass = true;
  ex_user : utf8_valid user = true;
  ex_saved : s1 = fst (_save_mls_state s);
  ex_generation : is_ok (get_int0 "latest_generation" (stored_record s1)) = true;
  ex_label : utf8_valid (device_label (stored_record s1)) = true;
  ex_fingerprint : is_ok (_identity_backup_fingerprint s1) = true;
  ex_opens : forall n, _backup_name_allowed n = true -> opens_under (master_key s) (is_line_file n) s1 (local_path s n);
  ex_names : forall n, is_Some (files (os s1) !! local_path s n) -> utf8_valid n = true
}.

Lemma report_nonempty pass : fst (fst (backup_passphrase_report pass)) = true -> nonempty pass = true.
Proof using. by destruct pass. Qed.

Lemma backup_key_run pass salt : nonempty pass = true -> utf8_valid pass = true ->
  exists key, _backup_key pass salt _BACKUP_KDF_ITERS = Ok key.
Proof using. intros Hn Hv. unfold _backup_key, utf8_encode. rewrite Hn, Hv. by eexists. Qed.

Lemma write_user_file_run path text s : utf8_valid text = true ->
  exists s', write_user_file path text s = (s', Ok tt) /\ same_session s s' /\
    files (os s') = <[path := text]> (files (os s)).
Proof using IO.
  intros Hv. unfold write_user_file, st_bind, io, st_lift, st_modify, utf8_encode. rewrite io_reliable. cbn.
  rewrite io_reliable. cbn. rewrite Hv. eexists. split; [reflexivity|]. split; [unfold same_session; by destruct s|done].
Qed.

Lemma bundle_ok bundle :
  (forall n texts, (n, texts) ∈ bundle -> utf8_valid n = true /\ contents_ok n texts) ->
  Forall py_ok (map bundle_json bundle).
Proof using.
  intros H. apply List.Forall_map, Forall_forall. intros [n texts] Hin. destruct (H n texts Hin) as [Hn [Hv _]].
  unfold bundle_json, file_json. cbn [fst snd].
  assert (Hl : py_ok (PList (map PStr texts))) by (apply py_ok_list, List.Forall_map; exact Hv). py_ok_fields.
Qed.

Lemma saved_same s : mls_only s (fst (_save_mls_state s)).
Proof using. by destruct (within_run _ _ _ (within_save_mls s)) as [[_ H] _]. Qed.

Lemma local_path_dir s s' n : secchat_dir s' = secchat_dir s -> local_path s' n = local_path s n.
Proof using. unfold local_path. by intros ->. Qed.

(** What is read into the payload. *)
Lemma bundle_run s pass user include_cache s1 :
  exportable s pass user s1 ->
  exists s3 bundle count, quiet s1 s3 /\
    (do! sources := _state_files_for_backup include_cache in st_fold read_state_file ([], 0) sources) s1 =
      (s3, Ok (map bundle_json bundle, count)) /\
    NoDup (map fst bundle) /\
    forall n texts, (n, texts) ∈ bundle <-> texts <> [] /\ wanted include_cache s1 n /\
      exists raw, files (os s1) !! local_path s n = Some raw /\ holds (master_key s) (is_line_file n) raw texts.
Proof using L OL IO.
  intros [Hst Hk Hp Hu -> Hg Hl Hf Ho Hn]. set (s1 := fst (_save_mls_state s)) in *.
  destruct (saved_same s) as [_ Hsame]. fold s1 in Hsame.
  assert (Hm : master_key s1 = master_key s) by (by rewrite Hsame).
  assert (Hd : secchat_dir s1 = secchat_dir s) by (by rewrite Hsame).
  assert (Hdir : nonempty (secchat_dir s1) = true) by (rewrite Hd; unfold has_store in Hst; by bool_hyps).
  destruct (sources_run include_cache s1 Hdir) as (s2 & sources & E2 & Hq2 & Hnd & Hsp & Hsn).
  unfold st_bind at 1. rewrite E2. pose proof Hq2 as (Hs2 & Hf2 & _).
  assert (Hm2 : master_key s2 = master_key s) by (rewrite <- Hm; by same_fields Hs2).
  destruct (read_files_run sources ([], 0) s2 Hnd) as (s3 & bundle & count & E3 & Hq3 & Hb1 & Hb2).
  { intros n p Hin. rewrite Hf2, Hm2. rewrite (Hsp n p Hin).
    destruct (proj1 (Hsn n) (list_elem_of_fmap_2 fst _ _ Hin)) as (Ha & _ & [raw Hraw]).
    rewrite (local_path_dir s s1 n Hd) in *. destruct (Ho n Ha raw Hraw) as [texts Ht]. by exists raw, texts. }
  exists s3, bundle, count. split; [by eapply quiet_trans|]. split; [exact E3|]. split; [done|].
  intros n texts. rewrite Hb2, Hf2, Hm2. apply and_iff_compat_l. rewrite <- (local_path_dir s s1 n Hd). split.
  - intros (p & raw & Hin & H1 & H2). rewrite (Hsp n p Hin) in H1.
    split; [|by exists raw]. apply Hsn. by apply (list_elem_of_fmap_2 fst) in Hin.
  - intros (Hw & raw & H1 & H2). exists (local_path s1 n), raw. split; [|done].
    apply Hsn in Hw. apply list_elem_of_fmap in Hw as ([n' p] & -> & Hin). cbn [fst].
    by rewrite <- (Hsp n' p Hin).
Qed.

(** An export writes one file, sealed from what the state files hold. *)
Lemma export_run s pass user include_cache path s1 :
  exportable s pass user s1 -> path <> backup_state_path s ->
  exists s' m bundle salt nonce key,
    export_e2ee_backup path pass user include_cache s = (s', Ok (export_result m)) /\
    meta_ok m /\ String.length nonce = 12%nat /\ _backup_key pass salt _BACKUP_KDF_ITERS = Ok key /\
    get_int0 "latest_generation" (stored_record s1) = Ok (b_generation m - 1) /\
    Forall py_ok (map bundle_json bundle) /\
    files (os s') !! path = Some (json_dumps false false
      (PDict (outer_json m salt nonce (backup_ct key nonce m (map bundle_json bundle))))) /\
    NoDup (map fst bundle) /\
    forall n texts, (n, texts) ∈ bundle <-> texts <> [] /\ wanted include_cache s1 n /\
      exists raw, files (os s1) !! local_path s n = Some raw /\ holds (master_key s) (is_line_file n) raw texts.
Proof using L OL IO.
  intros Hex Hpath. destruct (bundle_run s pass user include_cache s1 Hex) as (s3 & bundle & count & Hq3 & E3 & Hnd & Hb).
  destruct Hex as [Hst Hk [Hok Hpv] Hu Hs1 Hg Hl Hf Ho Hn].
  destruct (saved_same s) as [_ Hsame]. rewrite <- Hs1 in Hsame.
  assert (Hm : master_key s1 = master_key s) by (by rewrite Hsame).
  assert (Hd : secchat_dir s1 = secchat_dir s) by (by rewrite Hsame).
  assert (Hbok : Forall py_ok (map bundle_json bundle)).
  { apply bundle_ok. intros n texts (_ & Hw & raw & H1 & H2)%Hb. split; [|by eapply holds_contents].
    apply Hn. rewrite H1. by eexists. }
  destruct Hq3 as (Hs3 & Hf3 & Hd3).
  assert (Hst3 : has_store s3 = true).
  { replace (has_store s3) with (has_store s1) by (unfold has_store; by same_fields Hs3). unfold has_store in *. by rewrite Hm, Hd. }
  destruct (load_record_run s3 Hst3) as (s4 & E4 & Hq4).
  rewrite (stored_record_quiet s1 s3) in E4 by done.
  set (state := stored_record s1) in *. destruct (get_int0 "latest_generation" state) as [latest|] eqn:Eg; [|done].
  destruct (_identity_backup_fingerprint s1) as [f|] eqn:Ef; [|done].
  pose proof Hq4 as (Hs4 & Hf4 & _). pose proof (same_session_trans _ _ _ Hs3 Hs4) as Hs14.
  set (s5 := fst (now_s s4)). set (s6 := fst (_new_backup_id s5)).
  set (m := BackupMeta (b64e (os_random (n_random (os s5)) 18)) (latest + 1) (os_clock (n_clock (os s4)) ÷ 1000) user
    (my_uid s6) include_cache (device_label state) f (Z.of_nat (length (map bundle_json bundle))) count).
  set (salt := os_random (n_random (os s6)) 16). set (s7 := fst (urandom 16 s6)).
  set (nonce := os_random (n_random (os s7)) 12). set (s8 := fst (urandom 12 s7)).
  assert (Hs18 : same_session s1 s8 /\ files (os s8) = files (os s1)).
  { split; [|by subst s8 s7 s6 s5; cbn; rewrite Hf4, Hf3].
    eapply same_session_trans; [exact Hs14|]. subst s8 s7 s6 s5. unfold same_session. by destruct s4. }
  assert (Hmeta : meta_ok m).
  { split; cbn; [apply utf8_valid_ascii, b64e_ascii|done|done|by eapply fingerprint_valid]. }
  assert (Hnonce : String.length nonce = 12%nat) by apply os_random_len.
  destruct (backup_key_run pass salt (report_nonempty pass Hok) Hpv) as [key Hkey].
  destruct (open_sealed pass m (map bundle_json bundle) salt nonce key Hmeta Hbok Hnonce Hkey) as [Hseal _].
  set (text := json_dumps false false (PDict (outer_json m salt nonce (backup_ct key nonce m (map bundle_json bundle))))) in *.
  destruct (write_user_file_run path text s8) as (s9 & E9 & Hs9 & Hf9); [by apply json_dumps_valid, outer_ok|].
  destruct (save_record_total (dupdate state (latest_fields m)) s9) as (s10 & E10).
  exists s10, m, bundle, salt, nonce, key. split; [|split; [done|split; [done|split; [done|split]]]].
  - unfold export_e2ee_backup, st_bind at 1, st_get at 1. rewrite Hst. cbn [negb].
    destruct (backup_passphrase_report pass) as [[ok score] msg]. cbn [fst] in Hok. subst ok. cbn [negb].
    unfold st_bind at 1. destruct (save_mls_ok s) as (s1' & Es). rewrite Es in Hs1 |- *. cbn [fst] in Hs1. subst s1'.
    unfold st_bind in E3. unfold st_bind at 1.
    destruct (_state_files_for_backup include_cache s1) as [s2 [sources|e]]; [|discriminate E3].
    unfold st_bind at 1. rewrite E3. unfold st_bind at 1. rewrite E4, st_bind_lift, Eg.
    unfold st_bind at 1. change (now_s s4) with (s5, Ok (os_clock (n_clock (os s4)) ÷ 1000)).
    cbv iota. unfold st_bind at 1.
    change (_new_backup_id s5) with (s6, Ok (b64e (os_random (n_random (os s5)) 18))). cbv iota.
    unfold st_bind at 1, st_get at 1. rewrite st_bind_lift.
    replace (_identity_backup_fingerprint s6) with (Ok f).
    2: { rewrite <- Ef. destruct Hs18 as [H _]. unfold _identity_backup_fingerprint. subst s8 s7. cbn in H.
         replace (identity_pk s6) with (identity_pk s1) by (subst s6 s5; cbn; by same_fields Hs14).
         by replace (identity_sk s6) with (identity_sk s1) by (subst s6 s5; cbn; by same_fields Hs14). }
    fold (device_label state). fold m. cbv zeta. unfold st_bind at 1. change (urandom 16 s6) with (s7, Ok salt).
    cbv iota. unfold st_bind at 1. change (urandom 12 s7) with (s8, Ok nonce). cbv iota.
    rewrite st_bind_lift. fold m. rewrite Hseal. unfold st_bind at 1. fold text. rewrite E9.
    unfold st_bind at 1. rewrite E10. done.
  - cbn. by replace (latest + 1 - 1) with latest by lia.
  - split; [done|]. split; [|by split].
    pose proof (within_run _ _ _ (within_save_record (R := same_keys) (eq (backup_state_path s9)) s9
      (dupdate state (latest_fields m)) eq_refl)) as [_ Hsame10]. rewrite E10 in Hsame10. cbn [fst] in Hsame10.
    rewrite Hsame10, Hf9; [apply lookup_insert_eq|]. intros E. apply Hpath. rewrite <- E.
    unfold backup_state_path. apply local_path_dir. rewrite <- Hd. destruct Hs18 as [H _].
    pose proof (same_session_trans _ _ _ H Hs9) as H19. by same_fields H19.
Qed.
End exporting.

(** ** The restoring device *)

Section restoring_device.
Context `{L : PrimLaws, O : Os, OL : !OsLaws O, IO : !IoReliable O, U : UnicodeTables}.

Lemma holds_sealed key raw t : holds key false raw [t] -> opens key raw = Ok (PStr t).
Proof using.
  intros (tokens & Hl & -> & Hall). specialize (Hl eq_refl). inversion Hall as [|a ? l ? (Ha & _ & Ho) Hrest]; subst.
  inversion Hrest; subst. cbn. by rewrite opens_token by apply Ha.
Qed.

(** Loading the group state keeps the identity. *)
Lemma load_mls_identity a b :
  keeps (fun s => identity_sk s = a /\ identity_pk s = b) _load_mls_state_into_bridge.
Proof using.
  unfold _load_mls_state_into_bridge, restore_mls, discard_mls, ensure_bridge, new_bridge, import_state, command,
    bridge_start, read_text, set_lines, logged, remove_file.
  repeat match goal with
  | |- keeps _ (st_bind st_get _) => apply keeps_get; intros ? ?
  | |- keeps _ (st_bind _ _) => apply keeps_bind; [|intros ?]
  | |- keeps _ (st_catch _ _) => apply keeps_catch; [|intros ?]
  | |- keeps _ (st_lift _) => apply keeps_lift
  | |- keeps _ (st_ret _) => apply keeps_ret
  | |- keeps _ (if ?c then _ else _) => destruct c
  | |- keeps _ (match ?x with _ => _ end) => destruct x
  | |- keeps _ _ => let H := fresh in intros ? H; exact H
  end.
Qed.

(** What follows the files. *)
Definition after_files (k : dict -> sm dict) : sm dict :=
  do! _ := forget_state in
  do! _ := load_cache_policy in
  do! _ := load_or_create_identity_key in
  do! _ := (do! _ := _load_mls_state_into_bridge in st_ret tt) in
  do! state := _load_backup_state in
  k state.

Lemma after_files_run s :
  has_store s = true -> aes_key_ok (master_key s) = true ->
  exists s', (forall k, after_files k s = k (stored_record s) s') /\ same_keys s s' /\
    (forall p, p <> identity_key_path s -> p <> mls_state_path s -> files (os s') !! p = files (os s) !! p) /\
    (forall sk, identity_stored s sk -> len32 sk -> has_identity s' sk).
Proof using L OL IO.
  intros Hst Hk. destruct (forget_state s) as [s4 r4] eqn:E4.
  assert (H4 : r4 = Ok tt /\ same_keys s s4 /\ os s4 = os s) by (by injection E4 as <- <-).
  destruct H4 as (-> & H4 & Hos). set (Q := fun p => p = identity_key_path s \/ p = mls_state_path s).
  assert (T4 : touches same_keys Q s s4) by (split; [done|]; intros p _; by rewrite Hos).
  destruct (load_policy_total s4) as (s5 & pol & E5).
  pose proof (within_load_policy Q s keys_free_policy s4 T4) as T5. rewrite E5 in T5. cbn [fst] in T5.
  pose proof T5 as [(Hm5 & Hd5 & _) _].
  assert (Hst5 : has_store s5 = true) by (unfold has_store in *; by rewrite Hm5, Hd5).
  destruct (load_or_create_run s5 Hst5) as (s6 & sk6 & E6 & _); [by rewrite Hm5|].
  pose proof (within_load_identity Q s keys_free_identity (or_introl eq_refl) s5 T5) as T6. rewrite E6 in T6. cbn [fst] in T6.
  destruct (load_mls_total s6) as (s7 & b & E7).
  pose proof (within_load_mls Q s (or_intror eq_refl) s6 T6) as T7. rewrite E7 in T7. cbn [fst] in T7.
  pose proof T7 as [(Hm7 & Hd7 & Hu7) Hf7].
  assert (Hst7 : has_store s7 = true) by (unfold has_store in *; by rewrite Hm7, Hd7).
  destruct (load_record_run s7 Hst7) as (s8 & E8 & (Hs8 & Hf8 & _)).
  assert (Hrec : stored_record s7 = stored_record s).
  { unfold stored_record. rewrite Hm7. replace (backup_state_path s7) with (backup_state_path s)
      by (unfold backup_state_path; symmetry; by apply local_path_dir).
    rewrite Hf7; [done|]. intros [E|E]; by apply local_path_inj in E. }
  exists s8. split; [|split; [|split]].
  - intros k. unfold after_files, st_bind. rewrite E4, E5, E6, E7. unfold st_ret. by rewrite E8, Hrec.
  - repeat split; same_fields Hs8; done.
  - intros p H1 H2. rewrite Hf8. apply Hf7. by intros [?|?].
  - intros sk Hsk Hlen. assert (Hid5 : identity_stored s5 sk).
    { destruct Hsk as (v & (raw & Hr & Ho) & Hv). exists v. split; [|done]. exists raw.
      rewrite Hm5. replace (identity_key_path s5) with (identity_key_path s)
        by (unfold identity_key_path; symmetry; by apply local_path_dir).
      split; [|done]. pose proof (within_load_policy (fun _ => False) s4 keys_free_policy s4 (touches_refl _ _)) as [_ Hp].
      rewrite E5 in Hp. cbn [fst] in Hp. rewrite Hp by tauto. by rewrite Hos. }
    destruct (load_or_create_existing s5 sk Hst5 Hid5 Hlen) as (s6' & E6' & (Hi1 & Hi2 & Hi3) & _).
    rewrite E6 in E6'. apply (f_equal fst) in E6'. cbn [fst] in E6'. subst s6'.
    pose proof (load_mls_identity _ _ s6 (conj Hi1 Hi2)) as [H1 H2]. rewrite E7 in H1, H2. cbn [fst] in H1, H2.
    split; [by same_fields Hs8|]. split; [by same_fields Hs8|done].
Qed.

Lemma header_of_backup m salt nonce ct :
  let outer := outer_json m salt nonce ct in
  check_format outer = Ok tt /\ header_id outer = Ok (b_id m) /\ header_int "generation" outer = Ok (b_generation m).
Proof using.
  split; [done|]. split.
  - unfold header_id, header_field. change (dget "backup_id" (PStr "") (outer_json m salt nonce ct)) with (PStr (b_id m)).
    cbn [truthy]. destruct (b_id m) eqn:E; [|done]. cbn [nonempty].
    assert (as_dict (manifest_of (outer_json m salt nonce ct)) = Ok (manifest_json m)) as -> by done.
    cbn [res_bind]. unfold dget. cbn. by rewrite E.
  - unfold header_int, header_field. change (dget "generation" (PInt 0) (outer_json m salt nonce ct)) with (PInt (b_generation m)).
    cbn [truthy]. destruct (Z.eqb_spec (b_generation m) 0) as [E|]; [|done]. cbn [negb].
    assert (as_dict (manifest_of (outer_json m salt nonce ct)) = Ok (manifest_json m)) as -> by done.
    cbn [res_bind]. unfold dget. cbn. by rewrite E.
Qed.

Lemma fields_ok state latest ids g b m salt nonce ct files id n now :
  record_ok state latest ids g b ->
  exists fields, restored_fields state (outer_json m salt nonce ct) (payload_json m files) id n now = Ok fields.
Proof using.
  intros [_ _ _ Hg _ [Hc _]]. unfold restored_fields. rewrite Hg. cbn [res_bind].
  destruct (get_int0 "latest_created_at" state) as [c|]; [|done]. cbn [res_bind].
  assert (as_dict (manifest_of (outer_json m salt nonce ct)) = Ok (manifest_json m)) as -> by done. cbn [res_bind].
  assert (dget "created_at" (dget "created_at" (PInt 0) (payload_json m files)) (manifest_json m)
    = PInt (b_created m)) as -> by done.
  assert (exists x, py_int (py_or (PInt (b_created m)) (PInt 0)) = Ok x) as [x ->]
    by (unfold py_or; destruct (truthy _); by eexists).
  destruct (negb (c =? 0)); cbn [res_bind]; destruct (truthy (dget "latest_device_label" (PStr "") state)); by eexists.
Qed.

Lemma result_ok t m files id n preserve : exists r, restore_result t (payload_json m files) id n preserve = Ok r.
Proof using.
  unfold restore_result, get_int0.
  change (dget "user_id" (PInt 0) (payload_json m files)) with (PInt (b_uid m)).
  change (dget "created_at" (PInt 0) (payload_json m files)) with (PInt (b_created m)).
  assert (H : forall z, exists x, py_int (py_or (PInt z) (PInt 0)) = Ok x)
    by (intros z; unfold py_or; destruct (truthy _); by eexists).
  destruct (H (b_uid m)) as [x ->]. cbn [res_bind]. destruct (H (b_created m)) as [y ->]. by eexists.
Qed.

Lemma record_not_allowed : _backup_name_allowed "backup_state.bin" = false.
Proof using. reflexivity. Qed.

Lemma save_record_session s0 d s :
  same_session s0 s -> same_session s0 (fst (_save_backup_state d s)).
Proof using.
  intros Hs. eapply same_session_trans; [exact Hs|].
  assert (Hw : within same_session (fun _ => True) s (_save_backup_state d)).
  { unfold _save_backup_state. within_tac. by apply within_write_sealed. }
  by destruct (within_run _ _ _ Hw).
Qed.

(** The steps of a restore put together. *)
Definition finish_restore (t : tally) (outer payload : dict) (id : string) (n : Z) (state : dict) : sm dict :=
  do! now := now_s in
  do! fields := st_lift (restored_fields state outer payload id n now) in
  do! _ := _save_backup_state (dupdate state fields) in
  st_lift (restore_result t payload id n false).

Lemma finish_run t outer payload id n state s4 fields s6 r :
  restored_fields state outer payload id n (os_clock (n_clock (os s4)) ÷ 1000) = Ok fields ->
  _save_backup_state (dupdate state fields) (fst (now_s s4)) = (s6, Ok tt) ->
  restore_result t payload id n false = Ok r ->
  finish_restore t outer payload id n state s4 = (s6, Ok r).
Proof using.
  intros Ef E6 Er. unfold finish_restore.
  assert (En : now_s s4 = (fst (now_s s4), Ok (os_clock (n_clock (os s4)) ÷ 1000))) by reflexivity.
  unfold st_bind at 1. rewrite En. rewrite st_bind_lift, Ef. unfold st_bind. rewrite E6. unfold st_lift. by rewrite Er.
Qed.

Lemma restore_steps q pass s s1 outer id n payload s2 files s3 t :
  has_store s = true -> admit_backup q pass s = (s1, Ok (outer, id, n, payload)) ->
  makedirs (secchat_dir s) s1 = (s2, Ok tt) -> py_iter (dget "files" (PList []) payload) = Ok files ->
  st_fold (restore_file true false) (Tally 0 0 0) files s2 = (s3, Ok t) ->
  restore_e2ee_backup q pass true false s = after_files (finish_restore t outer payload id n) s3.
Proof using.
  intros Hst E1 E2 Ei E3. unfold restore_e2ee_backup, st_bind at 1, st_get at 1. rewrite Hst. cbn [negb].
  unfold st_bind at 1. rewrite E1. unfold st_bind at 1. rewrite E2, st_bind_lift, Ei.
  unfold st_bind at 1. rewrite E3. unfold after_files, finish_restore. cbn [negb st_when]. apply eq_refl.
Qed.

(** Restoring an exported file. *)
Lemma restore_run s q pass m salt nonce key bundle latest ids g b :
  has_store s = true -> aes_key_ok (master_key s) = true -> record_ok (stored_record s) latest ids g b ->
  meta_ok m -> String.length nonce = 12%nat -> _backup_key pass salt _BACKUP_KDF_ITERS = Ok key ->
  Forall py_ok (map bundle_json bundle) -> NoDup (map fst bundle) ->
  (forall n texts, (n, texts) ∈ bundle -> _backup_name_allowed n = true /\ contents_ok n texts) ->
  b_id m ∉ ids -> b < b_generation m ->
  files (os s) !! q = Some (json_dumps false false
    (PDict (outer_json m salt nonce (backup_ct key nonce m (map bundle_json bundle))))) ->
  exists s' r, restore_e2ee_backup q pass true false s = (s', Ok r) /\ same_keys s s' /\
    (forall n texts, (n, texts) ∈ bundle -> n <> "identity_sk.bin" -> n <> "mls_state.bin" ->
       exists raw, files (os s') !! local_path s n = Some raw /\ holds (master_key s) (is_line_file n) raw texts) /\
    (forall sk, ("identity_sk.bin", [b64encode sk]) ∈ bundle -> len32 sk -> has_identity s' sk).
Proof using L OL IO.
  intros Hst Hk Hr Hm Hn Hkey Hok Hnd Hb Hid Hgen Hf.
  set (ct := backup_ct key nonce m (map bundle_json bundle)) in *.
  destruct (open_sealed pass m (map bundle_json bundle) salt nonce key Hm Hok Hn Hkey) as [_ Hopen].
  fold ct in Hopen. destruct (header_of_backup m salt nonce ct) as (H1 & H2 & H3).
  destruct (admit_run q pass s _ _ _ _ _ _ _ _ Hst Hr Hf (backup_file_dumps _ (outer_ok m salt nonce ct Hm)) H1 H2 H3)
    as (s1 & (Hs1 & Hf1 & Hd1) & E1).
  rewrite (bool_decide_false _ Hid), andb_false_r, Hopen in E1.
  assert (negb (b_generation m =? 0) && negb (b =? 0) && (b_generation m <=? b) = false) as Hrev by lia.
  rewrite Hrev in E1. cbn [res_bind] in E1.
  destruct (makedirs_ok (secchat_dir s) s1) as (s2 & E2 & Hs12 & Hf2 & Hd2).
  pose proof (same_session_trans _ _ _ Hs1 Hs12) as Hs2.
  assert (Hm2 : master_key s2 = master_key s) by (by same_fields Hs2).
  assert (Hdir2 : secchat_dir s2 = secchat_dir s) by (by same_fields Hs2).
  destruct (restore_files_run bundle (Tally 0 0 0) s2) as (s3 & t & E3 & Hs3 & Hd3 & Hb3 & Ho3).
  { by rewrite Hm2. } { rewrite Hdir2, Hd2. set_solver. } { done. } { done. }
  pose proof (same_session_trans _ _ _ Hs2 Hs3) as Hs03.
  assert (Hm3 : master_key s3 = master_key s) by (by same_fields Hs03).
  assert (Hdir3 : secchat_dir s3 = secchat_dir s) by (by same_fields Hs03).
  destruct (after_files_run s3) as (s4 & E4 & (Hm4 & Hdir4 & Hu4) & Hf4 & Hi4).
  { unfold has_store in *. by rewrite Hm3, Hdir3. } { by rewrite Hm3. }
  assert (Hrec : stored_record s3 = stored_record s).
  { unfold stored_record. rewrite Hm3. replace (backup_state_path s3) with (backup_state_path s)
      by (unfold backup_state_path; symmetry; by apply local_path_dir).
    rewrite Ho3, Hf2, Hf1; [done|by apply (name_bin s "backup_state")|].
    intros n ([n' texts] & -> & Hin)%list_elem_of_fmap E. cbn [fst] in E. destruct (Hb _ _ Hin) as [Ha _].
    unfold backup_state_path in E. rewrite (local_path_dir s s2 _ Hdir2) in E. apply local_path_inj in E as <-.
    by rewrite record_not_allowed in Ha. }
  destruct (fields_ok (stored_record s3) latest ids g b m salt nonce ct (map bundle_json bundle) (b_id m)
    (b_generation m) (os_clock (n_clock (os s4)) ÷ 1000)) as [fields Hfields]; [by rewrite Hrec|].
  set (s5 := fst (now_s s4)).
  destruct (save_record_total (dupdate (stored_record s3) fields) s5) as [s6 E6].
  destruct (result_ok t m (map bundle_json bundle) (b_id m) (b_generation m) false) as [r Hres].
  pose proof (within_run _ _ _ (within_save_record (R := same_keys) (eq (backup_state_path s5)) s5
    (dupdate (stored_record s3) fields) eq_refl)) as [(Hm6 & Hdir6 & Hu6) Hf6].
  pose proof (save_record_session s5 (dupdate (stored_record s3) fields) s5 (same_session_refl s5)) as Hs56.
  rewrite E6 in Hm6, Hdir6, Hu6, Hf6, Hs56. cbn [fst] in Hm6, Hdir6, Hu6, Hf6, Hs56.
  exists s6, r. split; [|split; [|split]].
  - rewrite (restore_steps q pass s s1 _ _ _ _ s2 _ s3 t Hst E1 E2 eq_refl E3), E4. by eapply finish_run.
  - unfold same_keys. rewrite Hm6, Hdir6, Hu6. unfold s5. cbn. rewrite Hm4, Hdir4, Hu4, Hm3, Hdir3.
    split; [done|]. split; [done|]. by same_fields Hs03.
  - intros n texts Hin Hn1 Hn2. destruct (Hb3 n texts Hin) as (raw & Hraw & Hh). rewrite Hm2 in Hh.
    rewrite (local_path_dir s s2 n Hdir2) in Hraw. exists raw. split; [|done].
    assert (Hne : forall n', n <> n' -> local_path s n <> local_path s3 n').
    { intros n' H. rewrite (local_path_dir s s3 n' Hdir3). intros E. by apply local_path_inj in E. }
    rewrite Hf6.
    + unfold s5. cbn. rewrite Hf4; [done| |]; by apply Hne.
    + unfold backup_state_path. rewrite (local_path_dir s3 s5 _ Hdir4). intros E. symmetry in E.
      revert E. apply Hne. intros ->. destruct (Hb _ _ Hin) as [Ha _]. by rewrite record_not_allowed in Ha.
  - intros sk Hin Hlen. destruct (Hb3 _ _ Hin) as (raw & Hraw & Hh). rewrite Hm2 in Hh. apply holds_sealed in Hh.
    destruct (Hi4 sk) as (I1 & I2 & I3); [|done|].
    { exists (PStr (b64encode sk)). split; [|apply b64decode_encode]. exists raw. rewrite Hm3.
      unfold identity_key_path. rewrite (local_path_dir s2 s3) by (by rewrite Hdir3, Hdir2). by split. }
    split; [by same_fields Hs56|]. split; [by same_fields Hs56|done].
Qed.
End restoring_device.

(** ** The round trip *)

Section round_trip.
Context `{L : PrimLaws, U : UnicodeTables}.

(** C24: moving to another device. A session whose state files open exports a
    backup under a passphrase of sufficient strength; any device that reads the
    file, has not revoked it and knows the passphrase restores it under its own
    master key: every state file of the first device, but the one of the groups
    which is loaded at once, holds the same entries in the same order, and the
    identity is the one of the first device. *)
Theorem backup_restores (OA OB : Os) (LA : OsLaws OA) (IA : IoReliable OA) (LB : OsLaws OB) (IB : IoReliable OB)
    s pass user include_cache path s1 :
  exportable (O := OA) s pass user s1 -> path <> backup_state_path s ->
  exists sA m raw,
    export_e2ee_backup (O := OA) path pass user include_cache s = (sA, Ok (export_result m)) /\
    files (os sA) !! path = Some raw /\
    get_int0 "latest_generation" (stored_record s1) = Ok (b_generation m - 1) /\
    forall sB q latest ids g b,
      has_store sB = true -> aes_key_ok (master_key sB) = true -> record_ok (stored_record sB) latest ids g b ->
      b_id m ∉ ids -> b < b_generation m -> files (os sB) !! q = Some raw ->
      exists sB' r, restore_e2ee_backup (O := OB) q pass true false sB = (sB', Ok r) /\ same_keys sB sB' /\
        (forall n rawA texts, _backup_name_allowed n = true -> include_cache = true \/ is_line_file n = false ->
           n <> "identity_sk.bin" -> n <> "mls_state.bin" -> files (os s1) !! local_path s n = Some rawA ->
           holds (master_key s) (is_line_file n) rawA texts -> texts <> [] ->
           exists rawB, files (os sB') !! local_path sB n = Some rawB /\
             holds (master_key sB) (is_line_file n) rawB texts) /\
        (forall rawA sk, files (os s1) !! identity_key_path s = Some rawA ->
           holds (master_key s) false rawA [b64encode sk] -> len32 sk -> has_identity sB' sk).
Proof.
  intros Hex Hpath.
  destruct (export_run (O := OA) s pass user include_cache path s1 Hex Hpath)
    as (sA & m & bundle & salt & nonce & key & E & Hm & Hn & Hk & Hg & Hok & Hf & Hnd & Hb).
  assert (Hwanted : forall n, wanted include_cache s1 n <-> _backup_name_allowed n = true /\
    (include_cache = true \/ is_line_file n = false) /\ is_Some (files (os s1) !! local_path s n)).
  { intros n. unfold wanted. rewrite (local_path_dir s s1 n); [done|]. rewrite (ex_saved _ _ _ _ Hex).
    destruct (saved_same (O := OA) s) as [_ ->]. done. }
  eexists sA, m, _. split; [exact E|]. split; [exact Hf|]. split; [exact Hg|].
  intros sB q latest ids g b HstB HkB Hr Hid Hgen HfB.
  destruct (restore_run (O := OB) sB q pass m salt nonce key bundle latest ids g b) as (sB' & r & E' & Hkeys & Hfiles & Hident);
    try done.
  { intros n texts (_ & (Ha & _)%Hwanted & raw & _ & Hh)%Hb. split; [done|by eapply holds_contents]. }
  exists sB', r. split; [done|]. split; [done|]. split.
  - intros n rawA texts Ha Hc Hn1 Hn2 HfA Hh Hne. apply Hfiles; [|done|done]. apply Hb. split; [done|].
    split; [apply Hwanted; rewrite HfA; by split_and!|]. by exists rawA.
  - intros rawA sk HfA Hh Hlen. apply Hident; [|done]. apply Hb. split; [done|].
    split; [apply Hwanted; unfold identity_key_path in HfA; rewrite HfA; split_and!; [done|by right|by eexists]|].
    by exists rawA.
Qed.
End round_trip.

(** ** Witness: a device with an identity and a cached message, and a fresh one *)

Section demo.
#[local] Existing Instance reference_prims.
#[local] Instance demo_tables : UnicodeTables :=
  {| u_lower _ := false; u_upper _ := false; u_digit _ := false; u_alnum _ := false |}.

Definition demo_sk : bytes := "0123456789abcdef0123456789abcdef".
Definition demo_sk_file : string := demo_token 65 demo_key (b64encode demo_sk).
Definition demo_source : session :=
  demo_state (demo_token 67 demo_key "[]") <| os ::= fun w => w <| files ::= <[identity_key_path demo_session := demo_sk_file]> |> |>.

Lemma demo_file n raw : files (os demo_source) !! local_path demo_source n = Some raw ->
  (n = "identity_sk.bin" /\ raw = demo_sk_file) \/
  (n = "msgs_7.bin" /\ raw = concat_lines (demo_tokens (demo_token 67 demo_key "[]"))).
Proof.
  unfold demo_source, demo_state. cbn -[concat_lines demo_tokens msg_cache_path identity_key_path local_path demo_sk_file].
  rewrite insert_insert_eq. unfold identity_key_path, msg_cache_path.
  intros [[Hp <-]|[_ [Hp <-]%lookup_singleton_Some]]%lookup_insert_Some; apply (local_path_inj demo_session _ n) in Hp as <-; [by left|by right].
Qed.

Lemma demo_sk_held : holds demo_key false demo_sk_file [b64encode demo_sk].
Proof.
  exists [demo_sk_file]. split; [cbn; lia|]. split; [done|]. constructor; [by apply demo_line|constructor].
Qed.

Lemma demo_cache_held :
  holds demo_key true (concat_lines (demo_tokens (demo_token 67 demo_key "[]"))) ["{}"; "[]"].
Proof.
  exists (demo_tokens (demo_token 67 demo_key "[]")). split; [done|]. split; [done|].
  constructor; [by apply demo_line|]. constructor; [by apply demo_line|constructor].
Qed.

Lemma demo_exportable : exportable (O := demo_os 0) demo_source demo_pass "an" demo_source.
Proof.
  split; try reflexivity.
  - split; reflexivity.
  - intros n _ raw [[-> ->]|[-> ->]]%demo_file.
    + exists [b64encode demo_sk]. apply demo_sk_held.
    + exists ["{}"; "[]"]. apply demo_cache_held.
  - intros n [raw [[-> _]|[-> _]]%demo_file]; reflexivity.
Qed.

Lemma demo_source_record : stored_record demo_source = [].
Proof.
  unfold stored_record.
  assert (files (os demo_source) !! backup_state_path demo_source = None) as ->; [|done].
  destruct (files (os demo_source) !! backup_state_path demo_source) eqn:E; [|done].
  apply (demo_file "backup_state.bin") in E as [[E _]|[E _]]; discriminate E.
Qed.

Lemma demo_cache_file : files (os demo_source) !! local_path demo_source "msgs_7.bin" =
  Some (concat_lines (demo_tokens (demo_token 67 demo_key "[]"))).
Proof.
  unfold demo_source, demo_state. cbn -[concat_lines demo_tokens msg_cache_path identity_key_path local_path demo_sk_file].
  rewrite insert_insert_eq, lookup_insert_ne by discriminate. by apply lookup_singleton_Some.
Qed.

Definition demo_target (raw : bytes) : session :=
  demo_session <| os ::= fun w => w <| files := {["/tmp/b" := raw]} |> |>.

Lemma demo_target_record raw : record_ok (stored_record (demo_target raw)) "" [] 0 0.
Proof.
  assert (stored_record (demo_target raw) = []) as ->.
  { unfold stored_record.
    assert (files (os (demo_target raw)) !! backup_state_path (demo_target raw) = None) as -> by by apply lookup_singleton_ne.
    done. }
  split; [py_ok_fields|reflexivity..|split; reflexivity].
Qed.
End demo.

Lemma backup_restores_witness :
  exists sA m raw sB' rawB,
    export_e2ee_backup (P := reference_prims) (O := demo_os 0) (U := demo_tables) "/tmp/a" demo_pass "an" true demo_source =
      (sA, Ok (export_result m)) /\
    files (os sA) !! "/tmp/a" = Some raw /\
    fst (restore_e2ee_backup (P := reference_prims) (O := demo_os 0) "/tmp/b" demo_pass true false (demo_target raw)) = sB' /\
    files (os sB') !! msg_cache_path (demo_target raw) 7 = Some rawB /\
    holds (P := reference_prims) demo_key true rawB ["{}"; "[]"] /\
    has_identity (P := reference_prims) sB' demo_sk.
Proof.
  destruct (backup_restores (P := reference_prims) (U := demo_tables) (demo_os 0) (demo_os 0) _ _ _ _
    demo_source demo_pass "an" true "/tmp/a" demo_source) as (sA & m & raw & E & Hraw & Hg & H).
  - apply demo_exportable.
  - discriminate.
  - destruct (H (demo_target raw) "/tmp/b" "" [] 0 0) as (sB' & r & E' & _ & Hfiles & Hident).
    + reflexivity.
    + reflexivity.
    + apply demo_target_record.
    + apply not_elem_of_nil.
    + rewrite demo_source_record in Hg. apply Ok_inj in Hg. lia.
    + apply lookup_singleton_eq.
    + destruct (Hfiles "msgs_7.bin" _ ["{}"; "[]"] eq_refl (or_introl eq_refl) ltac:(discriminate) ltac:(discriminate)
        demo_cache_file demo_cache_held ltac:(discriminate)) as (rawB & H1 & H2).
      exists sA, m, raw, sB', rawB. split; [exact E|]. split; [exact Hraw|]. split; [by rewrite E'|].
      split; [exact H1|]. split; [exact H2|]. apply (Hident demo_sk_file); [|exact demo_sk_held|reflexivity].
      apply lookup_insert_eq.
Defined.
