(* ===== verification/WebSocket.v ===== *)
(** * The network thread of the client (client/network.py)

    [_frame] and [_parse] are the framing of WebSocket messages; [WSNet] is the
    connection object. Its threads share the socket, the flag [_active] and the
    generation counter [_gen]: each worker is a program counter ([pc]) moved by
    [work] one shared access at a time, with what the operating system answers as
    the argument ([input]), and [wstep] interleaves the workers with the calls of
    the interface thread. *)

From S2P Require Import Prelude Hashing Base64 PyVal Json Wire.

(** ** Framing *)

Definition byte_at (i : nat) (s : bytes) : Z :=
  match String.get i s with Some c => code c | None => 0 end.

(** [s[a:b]]. *)
Definition slice (a b : Z) (s : bytes) : bytes := stake (Z.to_nat (b - a)) (sdrop (Z.to_nat a) s).

(** [int.from_bytes(s, "big")]. *)
Fixpoint from_be (acc : Z) (s : bytes) : Z :=
  match s with
  | EmptyString => acc
  | String c s' => from_be (acc * 256 + code c) s'
  end.

(** [n.to_bytes(k, "big")]. *)
Definition to_be (k : nat) (n : Z) : res bytes :=
  if (0 <=? n) && (n <? 2 ^ (8 * Z.of_nat k)) then Ok (of_codes (be_bytes k n))
  else Err (ValueError "int too big to convert").

(** [bytes(b ^ mk[i % 4] for i, b in enumerate(s))], from index [i] on. *)
Fixpoint xor_mask (mk : bytes) (i : nat) (s : bytes) : bytes :=
  match s with
  | EmptyString => EmptyString
  | String c s' => String (chr8 (Z.lxor (code c) (byte_at (i mod 4) mk))) (xor_mask mk (S i) s')
  end.

Definition CLOSE : bytes := "CLOSE".

(** The length of the payload and the offset after it, when they have arrived. *)
Definition payload_length (buf : bytes) : option (Z * Z) :=
  let plen := Z.land (byte_at 1 buf) 0x7F in
  if plen =? 126 then if blen buf <? 4 then None else Some (from_be 0 (slice 2 4 buf), 4)
  else if plen =? 127 then if blen buf <? 10 then None else Some (from_be 0 (slice 2 10 buf), 10)
  else Some (plen, 2).

Definition _parse (buf : bytes) : option bytes * bytes :=
  if blen buf <? 2 then (None, buf)
  else
    let op := Z.land (byte_at 0 buf) 0x0F in
    let masked := negb (Z.land (byte_at 1 buf) 0x80 =? 0) in
    match payload_length buf with
    | None => (None, buf)
    | Some (plen, off) =>
        let off := if masked then off + 4 else off in
        if blen buf <? off + plen then (None, buf)
        else
          let data := slice off (off + plen) buf in
          let data := if masked then xor_mask (slice (off - 4) off buf) 0 data else data in
          let rest := sdrop (Z.to_nat (off + plen)) buf in
          if op =? 0x08 then (Some CLOSE, rest)
          else if op =? 0x09 then (Some "", rest)
          else (Some data, rest)
    end.

(** [_frame]; [mk] is the draw of the mask. *)
Definition _frame (mk payload : bytes) : res bytes :=
  let n := blen payload in
  let! hdr := (if n <=? 125 then Ok (of_codes [0x81; Z.lor 0x80 n])
               else if n <=? 65535 then
                 let! l := to_be 2 n in Ok (of_codes [0x81; Z.lor 0x80 126] +:+ l)
               else let! l := to_be 8 n in Ok (of_codes [0x81; Z.lor 0x80 127] +:+ l)) in
  Ok (hdr +:+ mk +:+ xor_mask mk 0 payload).

(** The object a payload holds: what [on_msg.emit] accepts, any exception being
    ignored. *)
Definition message_of (payload : bytes) : option dict :=
  match loads_bytes payload with Ok (PDict d) => Some d | _ => None end.

(** ** The shared state and the workers *)

Record net := Net { sock : option nat; active : bool; gen : Z }.
#[export] Instance net_eta : Eta net := fun n => Net (sock n) (active n) (gen n).

Inductive event := EOpen | EClose (reason : string) | EMsg (d : dict).

(** Where a worker stands in [_connect_worker] or [_recv_loop]. *)
Inductive pc :=
| Connecting
| Assign (conn : nat)
| Greet
| Upgrade (resp : bytes)
| Activate
| CheckOpen
| EmitOpen
| LoopTest (buf : bytes)
| Recv (buf : bytes)
| Parse (buf : bytes)
| CheckMsg (payload rest : bytes)
| EmitMsg (payload rest : bytes)
| LoopFailed (reason : string)
| LoopEnd
| Failed (reason : string)
| EmitClose (reason : string)
| Done.

(** What the operating system answers: a connection after the TLS handshake, bytes
    ("" when the other side has closed), or an exception with its text. *)
Inductive input := Connected (conn : nat) | Sent | Received (chunk : bytes) | Raised (text : string).

Definition header_end : bytes := of_codes [13; 10; 13; 10].

(** One step of a worker of generation [g]; an answer that does not fit the call
    leaves it waiting. *)
Definition work (n : net) (g : Z) (p : pc) (i : input) : net * pc * list event :=
  match p with
  | Connecting =>
      match i with
      | Connected c => (n, Assign c, [])
      | Raised e => (n, Failed e, [])
      | _ => (n, p, [])
      end
  | Assign c => (n <| sock := Some c |>, Greet, [])
  | Greet =>
      match i with
      | Sent => (n, Upgrade "", [])
      | Raised e => (n, Failed e, [])
      | _ => (n, p, [])
      end
  | Upgrade resp =>
      if contains header_end resp then
        (n, if contains "101" resp then Activate else Failed "WebSocket handshake failed", [])
      else match i with
           | Received "" => (n, Failed "Server closed during handshake", [])
           | Received chunk => (n, Upgrade (resp +:+ chunk), [])
           | Raised e => (n, Failed e, [])
           | _ => (n, p, [])
           end
  | Activate => (n <| active := true |>, CheckOpen, [])
  | CheckOpen => (n, if gen n =? g then EmitOpen else Done, [])
  | EmitOpen => (n, LoopTest "", [EOpen])
  | LoopTest buf => (n, if active n && (gen n =? g) then Recv buf else LoopEnd, [])
  | Recv buf =>
      match i with
      | Received "" => (n, LoopEnd, [])
      | Received chunk => (n, Parse (buf +:+ chunk), [])
      | Raised e => (n, LoopFailed e, [])
      | _ => (n, p, [])
      end
  | Parse buf =>
      match _parse buf with
      | (None, buf) => (n, LoopTest buf, [])
      | (Some payload, rest) =>
          (n, if String.eqb payload CLOSE then Done
              else if nonempty payload then CheckMsg payload rest else Parse rest, [])
      end
  | CheckMsg payload rest => (n, if gen n =? g then EmitMsg payload rest else Done, [])
  | EmitMsg payload rest =>
      (n, Parse rest, match message_of payload with Some d => [EMsg d] | None => [] end)
  | LoopFailed e => (n, if active n && (gen n =? g) then EmitClose e else LoopEnd, [])
  | LoopEnd => (n, if gen n =? g then EmitClose "Connection closed" else Done, [])
  | Failed e => (n, if gen n =? g then EmitClose e else Done, [])
  | EmitClose e => (n, Done, [EClose e])
  | Done => (n, Done, [])
  end.

(** The socket a worker reads from in its receive loop: the shared one. *)
Definition reads_from (n : net) (p : pc) : option nat :=
  match p with Recv _ => sock n | _ => None end.

(** ** The calls of the interface thread and the interleaving *)

(** [connect_async]: the generation of the new worker. *)
Definition connect_async (n : net) : net * Z := let n := n <| gen ::= Z.add 1 |> in (n, gen n).

(** [disconnect] up to the closing of the socket: two accesses. *)
Definition disconnect_gen (n : net) : net := n <| gen ::= Z.add 1 |>.
Definition disconnect_flag (n : net) : net := n <| active := false |>.
Definition disconnect (n : net) : net := disconnect_flag (disconnect_gen n).

(** [send], with what [sendall] answers: [None], or the text of its exception. *)
Definition send (mk : bytes) (obj : dict) (fails : bytes -> option string) (n : net) : res (option bytes * list event) :=
  let! payload := utf8_encode (json_dumps true false (PDict obj)) in
  match (let! f := _frame mk payload in Ok f), sock n with
  | Err (ValueError e), _ => Ok (None, [EClose e])
  | Err _, _ => Ok (None, [EClose ""])
  | Ok _, None => Ok (None, [EClose "'NoneType' object has no attribute 'sendall'"])
  | Ok f, Some _ => match fails f with
                    | Some e => Ok (None, [EClose e])
                    | None => Ok (Some f, [])
                    end
  end.

(** The object, whether the interface thread is inside [disconnect], the workers,
    and the events emitted so far, each with the generation of its worker. *)
Record world := W { obj : net; closing : bool; workers : list (Z * pc); emitted : list (Z * event) }.

Definition new_net : net := Net None false 0.
Definition start : world := W new_net false [] [].

Inductive wstep : world -> world -> Prop :=
| step_connect n ws es :
    wstep (W n false ws es) (W (fst (connect_async n)) false (ws ++ [(snd (connect_async n), Connecting)]) es)
| step_disconnect n ws es : wstep (W n false ws es) (W (disconnect_gen n) true ws es)
| step_closed n ws es : wstep (W n true ws es) (W (disconnect_flag n) false ws es)
| step_work n c ws k g p i n' p' ev es :
    ws !! k = Some (g, p) -> work n g p i = (n', p', ev) ->
    wstep (W n c ws es) (W n' c (<[k := (g, p')]> ws) (es ++ map (pair g) ev)).

(** A worker among others: each of its steps sees the shared state as the others
    left it. The result is where it stands, what it has emitted and the bytes its
    receive loop has taken. *)
Fixpoint trace (g : Z) (p : pc) (l : list (net * input)) : pc * list event * bytes :=
  match l with
  | [] => (p, [], "")
  | (n, i) :: l =>
      let '(_, p', ev) := work n g p i in
      let chunk := match p, i with Recv _, Received chunk => chunk | _, _ => "" end in
      let '(q, evs, bs) := trace g p' l in
      (q, ev ++ evs, chunk +:+ bs)
  end.

(** ** What a stream of frames means

    The payloads of the frames that are complete, up to the first that ends the
    loop, and the bytes left over ([None] after the end). *)
Fixpoint drain_fuel (fuel : nat) (buf : bytes) : list bytes * option bytes :=
  match fuel with
  | O => ([], Some buf)
  | S fuel =>
      match _parse buf with
      | (None, buf) => ([], Some buf)
      | (Some payload, rest) =>
          if String.eqb payload CLOSE then ([], None)
          else let (ps, o) := drain_fuel fuel rest in (payload :: ps, o)
      end
  end.
Definition drain (buf : bytes) : list bytes * option bytes := drain_fuel (String.length buf) buf.

Definition messages (payloads : list bytes) : list event :=
  flat_map (fun p => match message_of p with Some d => [EMsg d] | None => [] end) payloads.

(** A frame: its first byte, its mask and its payload. *)
Record frame := Frame { f_first : Z; f_mask : option bytes; f_data : bytes }.

Definition encode_frame (f : frame) : bytes :=
  let n := blen (f_data f) in
  let bit := match f_mask f with Some _ => 0x80 | None => 0 end in
  (if n <=? 125 then of_codes [f_first f; Z.lor bit n]
   else if n <=? 65535 then of_codes [f_first f; Z.lor bit 126] +:+ of_codes (be_bytes 2 n)
   else of_codes [f_first f; Z.lor bit 127] +:+ of_codes (be_bytes 8 n))
  +:+ match f_mask f with Some mk => mk +:+ xor_mask mk 0 (f_data f) | None => f_data f end.

(** What the client makes of a frame. *)
Definition meaning (f : frame) : bytes :=
  let op := Z.land (f_first f) 0x0F in
  if op =? 0x08 then CLOSE else if op =? 0x09 then "" else f_data f.
