(* ===== verification/WebSocketProps.v ===== *)
(** * Theorems about the network thread *)

From S2P Require Import Prelude Hashing Base64 PyVal Json Wire WebSocket.

(** ** Slices and numbers *)

Lemma stake_app_le n a b : (n <= String.length a)%nat -> stake n (a +:+ b) = stake n a.
Proof.
  revert a. induction n as [|n IH]; intros [|c a] H; cbn in *; try done; try lia. f_equal. apply IH. lia.
Qed.

Lemma sdrop_app_le n a b : (n <= String.length a)%nat -> sdrop n (a +:+ b) = sdrop n a +:+ b.
Proof. revert a. induction n as [|n IH]; intros [|c a] H; cbn in *; try done; try lia. apply IH. lia. Qed.

Lemma slice_app a b s t : 0 <= a <= b -> b <= blen s -> slice a b (s +:+ t) = slice a b s.
Proof.
  intros Ha Hb. unfold slice, blen in *. rewrite sdrop_app_le by lia. apply stake_app_le. rewrite sdrop_length. lia.
Qed.

Lemma byte_at_app i s t : (i < String.length s)%nat -> byte_at i (s +:+ t) = byte_at i s.
Proof.
  unfold byte_at. revert i. induction s as [|c s IH]; intros [|i] H; cbn in *; [lia..|done|]. apply IH. lia.
Qed.

Lemma byte_at_range i s : 0 <= byte_at i s < 256.
Proof. unfold byte_at. destruct (String.get i s) as [c|]; [apply code_range|lia]. Qed.

Lemma lxor_range k a b : 0 <= k -> 0 <= a < 2 ^ k -> 0 <= b < 2 ^ k -> 0 <= Z.lxor a b < 2 ^ k.
Proof.
  intros Hk Ha Hb. assert (H0 : 0 <= Z.lxor a b) by (apply Z.lxor_nonneg; lia). split; [done|].
  destruct (Z.eq_dec (Z.lxor a b) 0) as [->|]; [lia|]. apply Z.log2_lt_pow2; [lia|].
  pose proof (Z.log2_lxor a b). destruct (Z.eq_dec k 0) as [->|].
  - assert (a = 0) as -> by lia. assert (b = 0) as -> by lia. done.
  - assert (forall x, 0 <= x < 2 ^ k -> Z.log2 x < k).
    { intros x [[Hx|<-]%Z.le_lteq Hxk]; [by apply Z.log2_lt_pow2|cbn; lia]. }
    pose proof (H1 a Ha). pose proof (H1 b Hb). lia.
Qed.

Lemma xor_mask_involutive mk i s : xor_mask mk i (xor_mask mk i s) = s.
Proof.
  revert i. induction s as [|c s IH]; intros i; cbn -[Nat.modulo]; [done|]. rewrite IH. f_equal.
  rewrite code_chr8; [|apply (lxor_range 8); [lia|apply code_range|apply byte_at_range]].
  rewrite Z.lxor_assoc, Z.lxor_nilpotent, Z.lxor_0_r. apply chr8_code.
Qed.

Lemma xor_mask_length mk i s : String.length (xor_mask mk i s) = String.length s.
Proof. revert i. induction s as [|c s IH]; intros i; cbn -[Nat.modulo]; [done|]. by rewrite IH. Qed.

Lemma be_bytes_S k n : be_bytes (S k) n = Z.land (Z.shiftr n (8 * Z.of_nat k)) 255 :: be_bytes k n.
Proof.
  unfold be_bytes. cbn [seq map]. f_equal; [do 2 f_equal; lia|]. rewrite <- seq_shift, map_map.
  apply map_ext. intros i. do 2 f_equal. lia.
Qed.

Lemma be_bytes_length k n : length (be_bytes k n) = k.
Proof. unfold be_bytes. by rewrite length_map, length_seq. Qed.

Lemma frame_codes_length l : String.length (of_codes l) = length l.
Proof. induction l; cbn; lia. Qed.

Lemma from_be_bytes k n acc : 0 <= n -> from_be acc (of_codes (be_bytes k n)) = acc * 256 ^ Z.of_nat k + n mod 256 ^ Z.of_nat k.
Proof.
  intros Hn. revert acc. induction k as [|k IH]; intros acc.
  - cbn. rewrite Z.mod_1_r. lia.
  - rewrite be_bytes_S. cbn [of_codes from_be]. rewrite IH. change 255 with (Z.ones 8). rewrite Z.land_ones by lia.
    rewrite code_chr8 by (apply Z.mod_pos_bound; lia). rewrite Z.shiftr_div_pow2 by lia.
    replace (2 ^ (8 * Z.of_nat k)) with (256 ^ Z.of_nat k) by (rewrite Z.pow_mul_r by lia; done).
    rewrite Nat2Z.inj_succ, Z.pow_succ_r by lia. rewrite (Z.mul_comm 256).
    rewrite (Z.rem_mul_r n (256 ^ Z.of_nat k) 256) by lia. change (2 ^ 8) with 256. lia.
Qed.

(** ** One frame *)

Record frame_ok (f : frame) : Prop := {
  fo_first : 0 <= f_first f < 256;
  fo_mask : match f_mask f with Some mk => String.length mk = 4%nat | None => True end;
  fo_data : blen (f_data f) < 2 ^ 64
}.

Lemma header_land bit n : 0 <= n < 128 -> bit = 0 \/ bit = 0x80 ->
  Z.land (Z.lor bit n) 0x7F = n /\ Z.land (Z.lor bit n) 0x80 = bit /\ 0 <= Z.lor bit n < 256.
Proof.
  intros Hn Hb. assert (Z.lor bit n = bit + n) as ->.
  { symmetry. apply Z.add_nocarry_lor. destruct Hb as [->| ->]; [done|].
    apply Z.bits_inj'. intros k Hk. rewrite Z.land_spec, Z.bits_0. change 128 with (2 ^ 7).
    rewrite Z.pow2_bits_eqb by lia. destruct (Z.eqb_spec 7 k) as [<-|]; [|done]. cbn [andb].
    replace n with (n mod 2 ^ 7) by (apply Z.mod_small; lia). by rewrite Z.mod_pow2_bits_high. }
  change 0x7F with (Z.ones 7). rewrite Z.land_ones by lia. change (2 ^ 7) with 128. split; [|split].
  - destruct Hb as [->| ->]; dlia.
  - change 0x80 with (Z.shiftl 1 7) at 1. apply Z.bits_inj'. intros k Hk. rewrite Z.land_spec.
    rewrite Z.shiftl_1_l, Z.pow2_bits_eqb by lia. destruct (Z.eqb_spec 7 k) as [<-|Hk7].
    + rewrite andb_true_r. rewrite Z.testbit_odd, Z.shiftr_div_pow2 by lia. change (2 ^ 7) with 128.
      destruct Hb as [->| ->].
      * rewrite Z.div_small by lia. done.
      * replace ((128 + n) / 128) with 1 by dlia. done.
    + rewrite andb_false_r. destruct Hb as [->| ->]; [by rewrite Z.bits_0|].
      change 128 with (2 ^ 7). rewrite Z.pow2_bits_eqb by lia. by destruct (Z.eqb_spec 7 k).
  - lia.
Qed.

Lemma payload_length_app a b pl off :
  2 <= blen a -> payload_length a = Some (pl, off) -> payload_length (a +:+ b) = Some (pl, off) /\ 2 <= off /\ 0 <= pl /\ off <= blen a.
Proof.
  intros H2 H. unfold payload_length in *. pose proof (blen_nonneg b). rewrite blen_app.
  assert (byte_at 1 (a +:+ b) = byte_at 1 a) as -> by (apply byte_at_app; unfold blen in H2; lia).
  assert (Hbe : forall acc s, 0 <= acc -> 0 <= from_be acc s).
  { intros acc s. revert acc. induction s as [|c s IH]; intros acc Hacc; cbn; [done|]. apply IH.
    pose proof (code_range c). lia. }
  destruct (_ =? 126).
  - destruct (blen a <? 4) eqn:E; [done|]. assert (blen a + blen b <? 4 = false) as -> by lia.
    injection H as <- <-. rewrite slice_app by lia. split; [done|]. split; [lia|]. split; [apply Hbe; lia|lia].
  - destruct (_ =? 127).
    + destruct (blen a <? 10) eqn:E; [done|]. assert (blen a + blen b <? 10 = false) as -> by lia.
      injection H as <- <-. rewrite slice_app by lia. split; [done|]. split; [lia|]. split; [apply Hbe; lia|lia].
    + injection H as <- <-. split; [done|]. split; [lia|]. split; [|lia]. apply Z.land_nonneg. lia.
Qed.

(** A complete frame is read the same when more bytes follow, and is not empty. *)
Lemma parse_app a b p r : _parse a = (Some p, r) ->
  _parse (a +:+ b) = (Some p, r +:+ b) /\ (String.length r + 2 <= String.length a)%nat.
Proof.
  unfold _parse. rewrite blen_app. pose proof (blen_nonneg b) as Hb.
  destruct (blen a <? 2) eqn:E2; [discriminate|]. assert (blen a + blen b <? 2 = false) as -> by lia.
  destruct (payload_length a) as [[pl off]|] eqn:Epl; [|discriminate].
  destruct (payload_length_app a b pl off ltac:(lia) Epl) as (-> & Hoff & Hpl & Hoa).
  rewrite (byte_at_app 0), (byte_at_app 1) by (unfold blen in E2; lia).
  set (masked := negb _). set (o := if masked then off + 4 else off).
  assert (Ho : 2 <= o /\ (masked = true -> 4 <= o)) by (unfold o; destruct masked; split; lia).
  destruct (blen a <? o + pl) eqn:E; [discriminate|]. assert (blen a + blen b <? o + pl = false) as -> by lia.
  rewrite !(slice_app o) by lia.
  assert (sdrop (Z.to_nat (o + pl)) (a +:+ b) = sdrop (Z.to_nat (o + pl)) a +:+ b) as ->.
  { apply sdrop_app_le. unfold blen in E. lia. }
  assert (Hlen : (String.length (sdrop (Z.to_nat (o + pl)) a) + 2 <= String.length a)%nat).
  { rewrite sdrop_length. unfold blen in E. lia. }
  assert ((if masked then xor_mask (slice (o - 4) o (a +:+ b)) 0 (slice o (o + pl) a) else slice o (o + pl) a) =
          (if masked then xor_mask (slice (o - 4) o a) 0 (slice o (o + pl) a) else slice o (o + pl) a)) as ->.
  { destruct masked eqn:Em; [|done]. rewrite (slice_app (o - 4)) by (destruct Ho as [? H4]; specialize (H4 eq_refl); lia). done. }
  destruct (_ =? 8); [by intros [= <- <-]|]. destruct (_ =? 9); by intros [= <- <-].
Qed.

Lemma parse_none buf r : _parse buf = (None, r) -> r = buf.
Proof.
  unfold _parse. destruct (_ <? 2); [by intros [= <-]|]. destruct (payload_length buf) as [[pl off]|]; [|by intros [= <-]].
  destruct (_ <? _); [by intros [= <-]|]. destruct (_ =? 8); [done|]. by destruct (_ =? 9).
Qed.

(** ** Draining a buffer *)

Lemma drain_fuel_enough fuel buf : (String.length buf <= fuel)%nat -> drain_fuel fuel buf = drain buf.
Proof.
  assert (forall k n b, (String.length b <= n)%nat -> (n <= k)%nat -> drain_fuel k b = drain_fuel n b) as H.
  { induction k as [|k IH]; intros n b Hb Hk.
    - assert (n = 0%nat) as -> by lia. done.
    - destruct n as [|n].
      + assert (b = "") as -> by (destruct b; [done|cbn in Hb; lia]). reflexivity.
      + cbn [drain_fuel]. destruct (_parse b) as [[p|] r] eqn:E; [|done]. destruct (String.eqb p CLOSE); [done|].
        apply (parse_app b "") in E as [_ E]. rewrite (IH n r) by lia. done. }
  intros Hb. symmetry. unfold drain. rewrite (H fuel (String.length buf)); [done|lia|lia].
Qed.

Lemma drain_eq buf : drain buf =
  match _parse buf with
  | (None, _) => ([], Some buf)
  | (Some p, rest) => if String.eqb p CLOSE then ([], None) else let (ps, o) := drain rest in (p :: ps, o)
  end.
Proof.
  rewrite <- (drain_fuel_enough (S (String.length buf))) by lia. cbn [drain_fuel].
  destruct (_parse buf) as [[p|] r] eqn:E; [|by apply parse_none in E as ->]. destruct (String.eqb p CLOSE); [done|].
  apply (parse_app buf "") in E as [_ E]. by rewrite drain_fuel_enough by lia.
Qed.

(** How a stream is cut does not matter. *)
Lemma drain_app a b : drain (a +:+ b) =
  match drain a with
  | (ps, None) => (ps, None)
  | (ps, Some r) => let (qs, o) := drain (r +:+ b) in (ps ++ qs, o)
  end.
Proof.
  remember (String.length a) as n eqn:Hn. revert a Hn. induction n as [n IH] using lt_wf_ind. intros a Hn.
  rewrite (drain_eq a). destruct (_parse a) as [[p|] r] eqn:E.
  - destruct (parse_app a b p r E) as [E' Hlt]. rewrite (drain_eq (a +:+ b)), E'.
    destruct (String.eqb p CLOSE); [done|]. rewrite (IH (String.length r)) by (first [lia | reflexivity]).
    destruct (drain r) as [ps [r'|]]; [|done]. by destruct (drain (r' +:+ b)) as [qs o].
  - by destruct (drain (a +:+ b)) as [qs o].
Qed.

Lemma drain_rest_minimal buf ps r : drain buf = (ps, Some r) -> drain r = ([], Some r).
Proof.
  remember (String.length buf) as n eqn:Hn. revert buf ps Hn. induction n as [n IH] using lt_wf_ind.
  intros buf ps Hn H. rewrite drain_eq in H. destruct (_parse buf) as [[p|] r'] eqn:E.
  - destruct (String.eqb p CLOSE); [discriminate H|]. apply (parse_app buf "") in E as [_ Hlt].
    destruct (drain r') as [qs o] eqn:Ed. injection H as <- ->.
    eapply (IH (String.length r')); [lia|reflexivity|exact Ed].
  - injection H as <- <-. by rewrite drain_eq, E.
Qed.

(** ** Frames *)

Lemma extended_header first bit k tag n s : 0 <= first < 256 -> bit = 0 \/ bit = 0x80 ->
  (tag = 126 /\ k = 2%nat) \/ (tag = 127 /\ k = 8%nat) -> 0 <= n < 2 ^ (8 * Z.of_nat k) ->
  let hdr := of_codes [first; Z.lor bit tag] +:+ of_codes (be_bytes k n) in
  blen hdr = 2 + Z.of_nat k /\ byte_at 0 (hdr +:+ s) = first /\ Z.land (byte_at 1 (hdr +:+ s)) 0x80 = bit /\
  payload_length (hdr +:+ s) = Some (n, blen hdr).
Proof.
  intros Hf Hbit Htag Hn hdr. destruct (header_land bit tag) as (H1 & H2 & H3); [lia|done|].
  assert (Hl : blen hdr = 2 + Z.of_nat k).
  { unfold hdr, blen. rewrite sapp_length, !frame_codes_length, be_bytes_length. cbn [length]. lia. }
  assert (Hb1 : byte_at 1 (hdr +:+ s) = Z.lor bit tag).
  { unfold hdr, byte_at. cbn [of_codes String.append String.get]. by apply code_chr8. }
  split; [done|]. split; [unfold hdr, byte_at; cbn [of_codes String.append String.get]; by apply code_chr8|].
  rewrite Hb1. split; [done|]. unfold payload_length. rewrite Hb1, H1, blen_app, Hl. pose proof (blen_nonneg s).
  assert (from_be 0 (slice 2 (2 + Z.of_nat k) (hdr +:+ s)) = n) as Hv.
  { unfold slice, hdr. replace (Z.to_nat (2 + Z.of_nat k - 2)) with k by lia. change (Z.to_nat 2) with 2%nat.
    cbn [of_codes String.append sdrop]. rewrite stake_app_len by (by rewrite frame_codes_length, be_bytes_length).
    rewrite from_be_bytes by lia. rewrite Z.mul_0_l, Z.add_0_l. apply Z.mod_small.
    rewrite Z.pow_mul_r in Hn by lia. change (2 ^ 8) with 256 in Hn. lia. }
  destruct Htag as [[-> ->]|[-> ->]].
  - change (126 =? 126) with true. change (2 + Z.of_nat 2) with 4 in *. cbv iota. assert (4 + blen s <? 4 = false) as -> by lia. by rewrite Hv.
  - change (127 =? 126) with false. change (127 =? 127) with true. change (2 + Z.of_nat 8) with 10 in *. cbv iota.
    assert (10 + blen s <? 10 = false) as -> by lia. by rewrite Hv.
Qed.

(** The header of a frame, as [_parse] reads it. *)
Lemma frame_header f : frame_ok f -> exists hdr,
  encode_frame f = hdr +:+ match f_mask f with Some mk => mk +:+ xor_mask mk 0 (f_data f) | None => f_data f end /\
  2 <= blen hdr /\ forall s, byte_at 0 (hdr +:+ s) = f_first f /\
    negb (Z.land (byte_at 1 (hdr +:+ s)) 0x80 =? 0) = bool_decide (is_Some (f_mask f)) /\
    payload_length (hdr +:+ s) = Some (blen (f_data f), blen hdr).
Proof.
  intros [Hf _ Hd]. unfold encode_frame. set (n := blen (f_data f)) in *. pose proof (blen_nonneg (f_data f) : 0 <= n) as Hn.
  set (bit := match f_mask f with Some _ => 128 | None => 0 end).
  assert (Hbit : bit = 0 \/ bit = 128) by (unfold bit; destruct (f_mask f); auto).
  assert (Hneg : negb (bit =? 0) = bool_decide (is_Some (f_mask f))).
  { unfold bit. destruct (f_mask f); [by rewrite bool_decide_true|]. by rewrite bool_decide_false by (by intros []). }
  destruct (n <=? 125) eqn:E1; [|destruct (n <=? 65535) eqn:E2]; eexists; (split; [reflexivity|]).
  - destruct (header_land bit n ltac:(lia) Hbit) as (H1 & H2 & H3). split; [done|]. intros s.
    unfold payload_length, byte_at. cbn [of_codes String.append String.get]. rewrite !code_chr8, H1, H2 by done.
    split; [done|]. split; [done|]. assert (n =? 126 = false) as -> by lia. by assert (n =? 127 = false) as -> by lia.
  - split; [unfold blen; rewrite sapp_length; cbn; lia|]. intros s.
    destruct (extended_header (f_first f) bit 2 126 n s) as (_ & H1 & H2 & H3); [done|done|lia|cbn; lia|].
    split; [exact H1|]. by rewrite H2, H3.
  - split; [unfold blen; rewrite sapp_length; cbn; lia|]. intros s.
    destruct (extended_header (f_first f) bit 8 127 n s) as (_ & H1 & H2 & H3); [done|done|lia|cbn in Hd |- *; lia|].
    split; [exact H1|]. by rewrite H2, H3.
Qed.

Lemma slice_middle a b c : slice (blen a) (blen a + blen b) (a +:+ b +:+ c) = b.
Proof.
  unfold slice, blen. rewrite Nat2Z.id. rewrite sdrop_app. replace (Z.to_nat _) with (String.length b) by lia. apply stake_app.
Qed.

Lemma parse_encoded f rest : frame_ok f -> _parse (encode_frame f +:+ rest) = (Some (meaning f), rest).
Proof.
  intros Hok. destruct (frame_header f Hok) as (hdr & -> & H2 & H). destruct Hok as [_ Hm _].
  set (d := f_data f) in *. pose proof (blen_nonneg d) as Hd. pose proof (blen_nonneg rest) as Hr.
  unfold _parse. rewrite sapp_assoc. destruct (H ((match f_mask f with Some mk => mk +:+ xor_mask mk 0 d | None => d end) +:+ rest))
    as (-> & -> & ->).
  rewrite !blen_app. unfold meaning. fold d. destruct (f_mask f) as [mk|].
  - rewrite bool_decide_true by (by eexists). assert (Hmk : blen mk = 4) by (unfold blen; lia).
    assert (Hx : blen (xor_mask mk 0 d) = blen d) by (unfold blen; by rewrite xor_mask_length).
    rewrite blen_app, Hmk, Hx. assert (blen hdr + (4 + blen d + blen rest) <? 2 = false) as -> by lia.
    assert (blen hdr + (4 + blen d + blen rest) <? blen hdr + 4 + blen d = false) as -> by lia.
    replace (blen hdr + 4 - 4) with (blen hdr) by lia.
    assert (slice (blen hdr) (blen hdr + 4) (hdr +:+ (mk +:+ xor_mask mk 0 d) +:+ rest) = mk) as ->.
    { rewrite <- Hmk, !sapp_assoc. apply slice_middle. }
    assert (slice (blen hdr + 4) (blen hdr + 4 + blen d) (hdr +:+ (mk +:+ xor_mask mk 0 d) +:+ rest) = xor_mask mk 0 d) as ->.
    { rewrite <- Hmk, <- Hx, <- blen_app, !sapp_assoc, <- sapp_assoc. apply slice_middle. }
    rewrite xor_mask_involutive.
    assert (sdrop (Z.to_nat (blen hdr + 4 + blen d)) (hdr +:+ (mk +:+ xor_mask mk 0 d) +:+ rest) = rest) as ->.
    { rewrite <- sapp_assoc. apply sdrop_app_len. rewrite !sapp_length, xor_mask_length. unfold blen in *. lia. }
    destruct (_ =? 8); [done|]. by destruct (_ =? 9).
  - rewrite bool_decide_false by (by intros []). assert (blen hdr + (blen d + blen rest) <? 2 = false) as -> by lia.
    assert (blen hdr + (blen d + blen rest) <? blen hdr + blen d = false) as -> by lia.
    rewrite slice_middle. assert (sdrop (Z.to_nat (blen hdr + blen d)) (hdr +:+ d +:+ rest) = rest) as ->.
    { rewrite <- sapp_assoc. apply sdrop_app_len. rewrite sapp_length. unfold blen. lia. }
    destruct (_ =? 8); [done|]. by destruct (_ =? 9).
Qed.

(** What [send] puts on the wire is one frame. *)
Lemma frame_encodes mk payload : blen payload < 2 ^ 64 ->
  _frame mk payload = Ok (encode_frame (Frame 0x81 (Some mk) payload)).
Proof.
  intros Hp. unfold _frame, encode_frame. cbn [f_first f_mask f_data]. pose proof (blen_nonneg payload).
  destruct (blen payload <=? 125) eqn:E1; [done|]. unfold to_be. destruct (blen payload <=? 65535) eqn:E2.
  - assert ((0 <=? blen payload) && (blen payload <? 2 ^ (8 * Z.of_nat 2)) = true) as ->.
    { change (2 ^ (8 * Z.of_nat 2)) with 65536. lia. }
    cbn [res_bind]. by rewrite !sapp_assoc.
  - assert ((0 <=? blen payload) && (blen payload <? 2 ^ (8 * Z.of_nat 8)) = true) as ->.
    { apply andb_true_iff. split; [lia|]. by apply Z.ltb_lt. }
    cbn [res_bind]. by rewrite !sapp_assoc.
Qed.

(** Framing round trip. Every payload shorter than 2^64 bytes is framed, and the
    frame, whatever follows it, is parsed back to the payload and the rest. *)
Theorem framed_payload_parsed mk payload rest :
  String.length mk = 4%nat -> blen payload < 2 ^ 64 ->
  exists f, _frame mk payload = Ok f /\ _parse (f +:+ rest) = (Some payload, rest).
Proof.
  intros Hm Hp. eexists. split; [by apply frame_encodes|]. apply (parse_encoded (Frame 0x81 (Some mk) payload)). by split.
Qed.

(** ** A stream of frames *)

Definition stream (fs : list frame) : bytes := fold_right (fun f s => encode_frame f +:+ s) "" fs.

Lemma drain_stream fs rest : Forall frame_ok fs -> Forall (fun f => meaning f <> CLOSE) fs ->
  drain (stream fs +:+ rest) = let (ps, o) := drain rest in (map meaning fs ++ ps, o).
Proof.
  intros Hok Hc. induction Hok as [|f fs Hf Hfs IH]; cbn [stream fold_right map app].
  - change ("" +:+ rest) with rest. by destruct (drain rest).
  - apply Forall_cons in Hc as [Hcf Hc]. rewrite sapp_assoc, drain_eq, parse_encoded by done.
    destruct (String.eqb_spec (meaning f) CLOSE); [done|]. fold (stream fs). rewrite IH by done. by destruct (drain rest).
Qed.

Lemma drain_nil : drain "" = ([], Some "").
Proof. done. Qed.

(** Where a worker that has taken [bs] stands: what it has emitted are the messages
    of the payloads before the point it has reached. *)
Definition so_far (bs : bytes) (p : pc) (ev : list event) : Prop :=
  exists ps, match p with
  | LoopTest buf | Recv buf => drain bs = (ps, Some buf) /\ ev = messages ps
  | Parse buf => drain bs = (let (qs, o) := drain buf in (ps ++ qs, o)) /\ ev = messages ps
  | CheckMsg q r | EmitMsg q r => drain bs = (let (qs, o) := drain r in (ps ++ q :: qs, o)) /\ ev = messages ps
  | LoopFailed _ | LoopEnd | EmitClose _ => (exists buf, drain bs = (ps, Some buf)) /\ ev = messages ps
  | Done => ps `prefix_of` fst (drain bs) /\
      (ev = messages ps \/ exists e, ev = messages ps ++ [EClose e] /\ is_Some (snd (drain bs)))
  | _ => False
  end.

Lemma messages_app a b : messages (a ++ b) = messages a ++ messages b.
Proof. apply flat_map_app. Qed.

(** One step keeps it. *)
Lemma so_far_step n g p i bs ev : so_far bs p ev ->
  let chunk := match p, i with Recv _, Received chunk => chunk | _, _ => "" end in
  let '(_, p', ev') := work n g p i in so_far (bs +:+ chunk) p' (ev ++ ev').
Proof.
  intros (ps & H) chunk. destruct p; try done; cbn [work]; unfold chunk; try rewrite sapp_nil_r; rewrite ?app_nil_r.
  - (* LoopTest *) exists ps. destruct H as [H ->]. destruct (_ && _); [done|]. split; [by eexists|done].
  - (* Recv *) destruct H as [H ->]. pose proof (drain_rest_minimal _ _ _ H) as Hm.
    destruct i as [c| |[|c0 chunk']|e]; rewrite ?sapp_nil_r, ?app_nil_r.
    + by exists ps.
    + by exists ps.
    + exists ps. split; [by eexists|done].
    + exists ps. split; [|done]. by rewrite drain_app, H.
    + exists ps. split; [by eexists|done].
  - (* Parse *) destruct H as [H ->]. rewrite (drain_eq buf) in H. destruct (_parse buf) as [[q|] r] eqn:E.
    + rewrite app_nil_r. destruct (String.eqb_spec q CLOSE) as [->|Hq].
      * exists ps. split; [|by left]. rewrite H, app_nil_r. done.
      * destruct (drain r) as [qs o] eqn:Ed. destruct (nonempty q) eqn:En.
        -- exists ps. rewrite Ed. done.
        -- exists (ps ++ [q]). rewrite Ed. split; [by rewrite <- app_assoc|]. rewrite messages_app.
           destruct q; [|done]. cbn. by rewrite app_nil_r.
    + apply parse_none in E as ->. rewrite app_nil_r. exists ps. by rewrite H, app_nil_r.
  - (* CheckMsg *) destruct H as [H ->]. destruct (_ =? _); [by exists ps|]. exists ps. split; [|by left].
    rewrite H. destruct (drain rest). cbn. by eexists.
  - (* EmitMsg *) destruct H as [H ->]. exists (ps ++ [payload]). destruct (drain rest) as [qs o].
    split; [by rewrite <- app_assoc|]. rewrite messages_app. cbn. by rewrite app_nil_r.
  - (* LoopFailed *) destruct H as [H ->]. exists ps. by destruct (_ && _).
  - (* LoopEnd *) destruct H as [[buf H] ->]. exists ps. destruct (_ =? _); [by eauto|]. split; [by rewrite H|by left].
  - (* EmitClose *) destruct H as [[buf H] ->]. exists ps. split; [by rewrite H|]. right. eexists. split; [done|].
    rewrite H. by eexists.
  - (* Done *) by exists ps.
Qed.

Lemma trace_so_far l g p bs ev : so_far bs p ev ->
  let '(q, evs, bs') := trace g p l in so_far (bs +:+ bs') q (ev ++ evs).
Proof.
  revert p bs ev. induction l as [|[n i] l IH]; intros p bs ev H; cbn [trace].
  - by rewrite sapp_nil_r, app_nil_r.
  - pose proof (so_far_step n g p i bs ev H) as Hs. cbv zeta in Hs. destruct (work n g p i) as [[n' p'] ev'].
    specialize (IH _ _ _ Hs). destruct (trace g p' l) as [[q evs] bs']. by rewrite sapp_assoc, <- app_assoc in IH.
Qed.

Lemma loop_so_far l g : let '(q, evs, bs) := trace g (LoopTest "") l in so_far bs q evs.
Proof. apply (trace_so_far l g (LoopTest "") "" []). exists []. done. Qed.

(** C21: the receive loop implements the stream of frames. Whatever the cuts in
    which the bytes of [fs] arrive, and whatever the other threads do between two
    steps, a worker emits the objects of the frames in their order, none twice; and
    when it waits for bytes after the last frame, it has emitted them all. *)
Theorem stream_delivered_in_order g l fs later q evs bs :
  Forall frame_ok fs -> Forall (fun f => meaning f <> CLOSE) fs ->
  trace g (LoopTest "") l = (q, evs, bs) -> bs +:+ later = stream fs ->
  (exists ps, ps `prefix_of` map meaning fs /\ (evs = messages ps \/ exists e, evs = messages ps ++ [EClose e])) /\
  (forall buf, q = Recv buf -> later = "" -> buf = "" /\ evs = messages (map meaning fs)).
Proof.
  intros Hok Hc Ht Hbs. pose proof (loop_so_far l g) as Hs. rewrite Ht in Hs.
  pose proof (drain_stream fs "" Hok Hc) as Hd. rewrite sapp_nil_r, drain_nil, app_nil_r in Hd.
  assert (Hpre : fst (drain bs) `prefix_of` map meaning fs).
  { rewrite <- Hbs, drain_app in Hd. destruct (drain bs) as [ps [r|]]; [|by injection Hd as ->].
    destruct (drain (r +:+ later)) as [qs o]. injection Hd as <- _. by exists qs. }
  destruct Hs as (ps & Hs). split.
  - exists ps. destruct q; try done; destruct Hs as [Hs He].
    1,2: rewrite Hs in Hpre; by auto.
    + rewrite Hs in Hpre. destruct (drain buf). split; [|by left]. etrans; [|exact Hpre]. by eexists.
    + rewrite Hs in Hpre. destruct (drain rest). split; [|by left]. etrans; [|exact Hpre]. by eexists.
    + rewrite Hs in Hpre. destruct (drain rest). split; [|by left]. etrans; [|exact Hpre]. by eexists.
    + destruct Hs as [buf Hs]. rewrite Hs in Hpre. by auto.
    + destruct Hs as [buf Hs]. rewrite Hs in Hpre. by auto.
    + destruct Hs as [buf Hs]. rewrite Hs in Hpre. by auto.
    + split; [by etrans|]. destruct He as [He|(e & He & _)]; [by left|right; by exists e].
  - intros buf -> ->. destruct Hs as [Hs ->]. rewrite sapp_nil_r in Hbs. rewrite Hbs, Hd in Hs.
    by injection Hs as <- <-.
Qed.

(** A close frame goes unnoticed. Once the loop has taken the bytes of a close
    frame (or of a message whose text is CLOSE), the worker never reports that the
    connection ended, whatever happens after. *)
Theorem close_frame_unreported g l fs f later q evs bs :
  Forall frame_ok (fs ++ [f]) -> Forall (fun f => meaning f <> CLOSE) fs -> meaning f = CLOSE ->
  trace g (LoopTest "") l = (q, evs, bs) -> bs = stream fs +:+ encode_frame f +:+ later ->
  (exists ps, ps `prefix_of` map meaning fs /\ evs = messages ps) /\ forall e, EClose e ∉ evs.
Proof.
  intros [Hok Hf]%Forall_app Hc Hm Ht Hbs. pose proof (loop_so_far l g) as Hs. rewrite Ht in Hs.
  assert (Hd : drain bs = (map meaning fs, None)).
  { rewrite Hbs, drain_stream by done. apply Forall_cons in Hf as [Hf _]. rewrite drain_eq, parse_encoded, Hm by done.
    cbn. by rewrite app_nil_r. }
  assert (exists ps, ps `prefix_of` map meaning fs /\ evs = messages ps) as (ps & Hp & ->).
  { destruct Hs as (ps & Hs). exists ps. destruct q; try done; rewrite Hd in Hs; destruct Hs as [Hs He].
    1,2: discriminate Hs.
    + destruct (drain buf). injection Hs as -> _. split; [by eexists|done].
    + destruct (drain rest). injection Hs as -> _. split; [by eexists|done].
    + destruct (drain rest). injection Hs as -> _. split; [by eexists|done].
    + destruct Hs as [buf Hs]. discriminate Hs.
    + destruct Hs as [buf Hs]. discriminate Hs.
    + destruct Hs as [buf Hs]. discriminate Hs.
    + split; [done|]. destruct He as [He|(e & _ & [? He])]; [done|discriminate He]. }
  split; [by exists ps|]. intros e Hin. unfold messages in Hin. apply list_elem_of_In, in_flat_map in Hin as (p & _ & Hin).
  destruct (message_of p); [|done]. destruct Hin as [Hin|[]]. discriminate Hin.
Qed.

(** ** Termination of the inner loop *)

Definition returned (p : pc) : bool := match p with LoopTest _ | Done => true | _ => false end.

(** Steps left of the inner loop. *)
Definition inner_steps (p : pc) : nat :=
  match p with
  | Parse buf => 3 * String.length buf + 1
  | CheckMsg _ rest => 3 * String.length rest + 3
  | EmitMsg _ rest => 3 * String.length rest + 2
  | _ => 0
  end.
Definition inner (p : pc) : bool := match p with Parse _ | CheckMsg _ _ | EmitMsg _ _ => true | _ => false end.

Lemma inner_step n g p i : inner p = true ->
  let p' := snd (fst (work n g p i)) in
  (inner p' = true /\ (inner_steps p' < inner_steps p)%nat) \/ returned p' = true.
Proof.
  destruct p; try done; intros _; cbn [work].
  - destruct (_parse buf) as [[q|] r] eqn:E; [|by right]. apply (parse_app buf "") in E as [_ E]. cbn [fst snd].
    destruct (String.eqb q CLOSE); [by right|]. left. destruct (nonempty q); cbn; (split; [done|lia]).
  - cbn [fst snd]. destruct (_ =? _); [|by right]. left. cbn. split; [done|lia].
  - left. cbn. split; [done|lia].
Qed.

(** C38: the inner loop ends. After a chunk, a worker tests its loop again or stops
    within three steps for each byte of its buffer, and one, whatever the other
    threads do in between. *)
Theorem inner_loop_ends g buf l : (3 * String.length buf + 1 <= length l)%nat ->
  exists l1 l2, l = l1 ++ l2 /\ returned (fst (fst (trace g (Parse buf) l1))) = true.
Proof.
  assert (forall l p, inner p = true -> (inner_steps p <= length l)%nat -> (0 < length l)%nat ->
    exists l1 l2, l = l1 ++ l2 /\ returned (fst (fst (trace g p l1))) = true) as H.
  { clear. intros l. induction l as [|[n i] l IH]; intros p Hp Hl Hpos; [cbn in Hpos; lia|].
    destruct (inner_step n g p i Hp) as [[Hp' Hlt]|Hr].
    - destruct (IH (snd (fst (work n g p i)))) as (l1 & l2 & -> & Hl1); [done|cbn in Hl; lia| |].
      { cbn in Hl. assert (1 <= inner_steps (snd (fst (work n g p i))))%nat; [|lia].
        clear - Hp'. destruct (snd (fst (work n g p i))); try done; cbn; lia. }
      exists ((n, i) :: l1), l2. split; [done|]. cbn [trace]. destruct (work n g p i) as [[n' p'] ev].
      cbn [fst snd] in *. by destruct (trace g p' l1) as [[q evs] bs].
    - exists [(n, i)], l. split; [done|]. cbn [trace]. destruct (work n g p i) as [[n' p'] ev]. done. }
  intros Hl. apply H; [done|exact Hl|lia].
Qed.

(** ** Generations *)

Definition gens_ok (w : world) : Prop :=
  NoDup (map fst (workers w)) /\ Forall (fun g => g <= gen (obj w)) (map fst (workers w)).

Lemma work_gen n g p i : gen (fst (fst (work n g p i))) = gen n.
Proof.
  destruct p; cbn [work]; try done; try (destruct i as [| |[]|]; done).
  - destruct (contains _ _); [done|]. by destruct i as [| |[]|].
  - destruct (_parse buf) as [[q|] r]; done.
Qed.

Lemma map_fst_insert {A} (ws : list (Z * A)) k g p p' : ws !! k = Some (g, p) ->
  map fst (<[k := (g, p')]> ws) = map fst ws.
Proof.
  intros H. rewrite list_fmap_insert. apply list_insert_id. rewrite list_lookup_fmap, H. done.
Qed.

Lemma wstep_gens w w' : wstep w w' -> gens_ok w -> gens_ok w' /\ gen (obj w) <= gen (obj w').
Proof.
  intros H [Hn Hf]. inversion H; subst; cbn in *.
  - split; [|lia]. split; cbn; rewrite map_app; cbn.
    + apply NoDup_app. split; [done|]. split; [|by apply NoDup_singleton]. intros x Hx Hx'.
      apply list_elem_of_singleton in Hx' as ->. rewrite Forall_forall in Hf. specialize (Hf _ Hx). cbn in Hf. lia.
    + apply Forall_app. split; [|constructor; [lia|constructor]]. eapply Forall_impl; [exact Hf|]. cbn. lia.
  - split; [|lia]. split; [done|]. eapply Forall_impl; [exact Hf|]. cbn. lia.
  - done.
  - pose proof (work_gen n g p i) as Hg. rewrite H1 in Hg. cbn in Hg. unfold gens_ok. cbn.
    rewrite (map_fst_insert ws k g p p') by done. rewrite Hg. split; [done|lia].
Qed.

Lemma start_gens w : rtc wstep start w -> gens_ok w.
Proof.
  intros H. apply (rtc_ind_r (R := wstep) gens_ok start); [split; cbn; constructor| |done].
  intros y z _ Hs Hy. by apply (wstep_gens y z).
Qed.

Definition events_of (g : Z) (w : world) : list event := map snd (filter (fun x => fst x = g) (emitted w)).

(** Is a worker between its test of the generation and the event? *)
Definition poised (p : pc) : nat := match p with EmitOpen | EmitMsg _ _ | EmitClose _ => 1 | _ => 0 end.

(** A superseded worker uses up what it was poised to emit. *)
Lemma stale_work n g p i : gen n <> g ->
  let '(_, p', ev) := work n g p i in (poised p' + length ev <= poised p)%nat.
Proof.
  intros Hg. apply Z.eqb_neq in Hg. destruct p; cbn [work]; rewrite ?Hg, ?andb_false_r; cbn; try lia;
    try (destruct i as [| |[]|]; cbn; lia).
  - destruct (contains _ _); [by destruct (contains "101" resp)|]. by destruct i as [| |[]|].
  - destruct (_parse buf) as [[q|] r]; [|done]. destruct (String.eqb q CLOSE); [done|]. by destruct (nonempty q).
  - destruct (message_of payload); cbn; lia.
Qed.

Definition poised_at (k : nat) (w : world) : nat := match workers w !! k with Some (_, p) => poised p | None => 0 end.

Lemma filter_own g g' (ev : list event) :
  map snd (filter (fun x : Z * event => fst x = g) (map (pair g') ev)) = if decide (g' = g) then ev else [].
Proof.
  induction ev as [|e ev IH]; [by destruct (decide _)|]. cbn [map]. destruct (decide (g' = g)) as [E|E].
  - rewrite filter_cons_True by done. cbn [map snd]. by rewrite IH.
  - rewrite filter_cons_False by done. exact IH.
Qed.

Lemma stale_step w w' k g : wstep w w' -> gens_ok w -> fst <$> workers w !! k = Some g -> gen (obj w) <> g ->
  fst <$> workers w' !! k = Some g /\
  (poised_at k w' + length (events_of g w') <= poised_at k w + length (events_of g w))%nat.
Proof.
  intros H [Hn Hf] Hk Hg. inversion H; subst; cbn in *; unfold poised_at, events_of; cbn.
  - apply fmap_Some in Hk as ([g0 p] & Hk & ->). rewrite lookup_app_l by (by eapply lookup_lt_Some). by rewrite Hk.
  - done.
  - done.
  - rename H0 into Hk0, H1 into Hw. rewrite filter_app, map_app, length_app, filter_own. destruct (decide (k0 = k)) as [->|Hne].
    + rewrite list_lookup_insert_eq by (by eapply lookup_lt_Some). rewrite Hk0 in Hk |- *. cbn in Hk |- *.
      injection Hk as ->. split; [done|]. rewrite decide_True by done.
      pose proof (stale_work n g p i Hg) as Hs. rewrite Hw in Hs. lia.
    + rewrite list_lookup_insert_ne by done. split; [done|]. destruct (decide (g0 = g)) as [->|]; [|cbn; lia].
      exfalso. apply Hne. apply fmap_Some in Hk as ([g1 p1] & Hk & ->). eapply (NoDup_lookup (map fst ws) _ _ g1); [done|..].
      * by rewrite list_lookup_fmap, Hk0.
      * by rewrite list_lookup_fmap, Hk.
Qed.

(** C22: superseded workers. After [connect_async] or [disconnect] a worker of an
    earlier generation emits at most the one event it was about to emit (none, if
    it had not passed its test of the generation), however the threads are
    interleaved. *)
Theorem superseded_worker_silent w w' k g p :
  rtc wstep start w -> workers w !! k = Some (g, p) -> gen (obj w) <> g -> rtc wstep w w' ->
  (length (events_of g w') <= length (events_of g w) + poised p)%nat /\ (poised p <= 1)%nat.
Proof.
  intros Hstart Hk Hg H. split; [|destruct p; cbn; lia].
  assert (gens_ok w' /\ gen (obj w') <> g /\ fst <$> workers w' !! k = Some g /\
    (poised_at k w' + length (events_of g w') <= poised_at k w + length (events_of g w))%nat) as (_ & _ & _ & Hle).
  { assert (Hgo := start_gens w Hstart). assert (Hlt : g < gen (obj w)).
    { destruct Hgo as [_ Hf]. rewrite Forall_forall in Hf. assert (g <= gen (obj w)); [|lia]. apply Hf.
      apply (list_elem_of_fmap_2 fst _ (g, p)). by eapply list_elem_of_lookup_2. }
    enough (gens_ok w' /\ g < gen (obj w') /\ fst <$> workers w' !! k = Some g /\
      (poised_at k w' + length (events_of g w') <= poised_at k w + length (events_of g w))%nat) by intuition lia.
    apply (rtc_ind_r (R := wstep) (fun w' => gens_ok w' /\ g < gen (obj w') /\ fst <$> workers w' !! k = Some g /\
      (poised_at k w' + length (events_of g w') <= poised_at k w + length (events_of g w))%nat) w); [| |done].
    - rewrite Hk. cbn. split; [done|]. split; [done|]. split; [done|lia].
    - intros y z _ Hs (Hy & Hgy & Hky & Hle). destruct (wstep_gens y z Hs Hy) as [Hz Hmono].
      destruct (stale_step y z k g Hs Hy Hky ltac:(lia)) as [Hkz Hle']. split; [done|]. split; [lia|]. split; [done|lia]. }
  unfold poised_at in Hle at 2. rewrite Hk in Hle. lia.
Qed.

Lemma wstep_act n c ws k g p i n' p' es : ws !! k = Some (g, p) -> work n g p i = (n', p', []) ->
  rtc wstep (W n c ws es) (W n' c (<[k := (g, p')]> ws) es).
Proof. intros H1 H2. apply rtc_once. pose proof (step_work n c ws k g p i n' p' [] es H1 H2) as H. by rewrite app_nil_r in H. Qed.

(** A superseded worker takes the socket. [_connect_worker] stores its socket
    before it looks at the generation: when [connect_async] is called twice and the
    first connection is established late, the current worker reads the messages of
    the connection that was given up. *)
Theorem stale_worker_takes_socket : exists w,
  rtc wstep start w /\ gen (obj w) = 2 /\ workers w = [(1, Greet); (2, Recv "")] /\
  reads_from (obj w) (Recv "") = Some 1%nat /\
  exists w0, rtc wstep start w0 /\ rtc wstep w0 w /\ workers w0 = [(1, Connecting); (2, Recv "")] /\
    reads_from (obj w0) (Recv "") = Some 2%nat.
Proof.
  set (http := "HTTP/1.1 101 Switching" +:+ header_end).
  pose (w0 := W (Net (Some 2%nat) true 2) false [(1, Connecting); (2, Recv "")] [(2, EOpen)]).
  pose (w := W (Net (Some 1%nat) true 2) false [(1, Greet); (2, Recv "")] [(2, EOpen)]).
  assert (H0 : rtc wstep start w0).
  { eapply rtc_l; [apply step_connect|]. eapply rtc_l; [apply step_connect|]. cbn.
    etrans; [by eapply (wstep_act _ _ _ 1 _ _ (Connected 2))|].
    etrans; [by eapply (wstep_act _ _ _ 1 _ _ Sent)|].
    etrans; [by eapply (wstep_act _ _ _ 1 _ _ Sent)|].
    etrans; [by eapply (wstep_act _ _ _ 1 _ _ (Received http))|].
    do 3 (etrans; [by eapply (wstep_act _ _ _ 1 _ _ Sent)|]).
    eapply rtc_l; [by eapply (step_work _ _ _ 1 _ _ Sent)|].
    etrans; [by eapply (wstep_act _ _ _ 1 _ _ Sent)|]. apply rtc_refl. }
  assert (H1 : rtc wstep w0 w).
  { etrans; [by eapply (wstep_act _ _ _ 0 _ _ (Connected 1))|].
    etrans; [by eapply (wstep_act _ _ _ 0 _ _ Sent)|]. apply rtc_refl. }
  exists w. split; [by etrans|]. split; [done|]. split; [done|]. split; [done|]. by exists w0.
Qed.

(** ** Witnesses *)

Definition demo_net : net := Net (Some 1%nat) true 1.
Definition demo_frames : list frame :=
  [Frame 0x81 None "{}"; Frame 0x89 None "ping"; Frame 0x81 (Some "mask") (json_dumps true false (PDict [("type", PStr "ok")]))].

Lemma framed_payload_parsed_witness : exists f, _frame "mask" "{}" = Ok f /\ _parse (f +:+ "next") = (Some "{}", "next").
Proof. apply (framed_payload_parsed "mask" "{}" "next"); [reflexivity|vm_compute; reflexivity]. Defined.

(** The frames cut after the first and the fifth byte. *)
Definition demo_answers : list (net * input) :=
  let bs := stream demo_frames in
  map (pair demo_net) ([Sent; Received (stake 1 bs); Sent; Sent; Received (stake 4 (sdrop 1 bs))] ++ repeat Sent 5
    ++ [Received (sdrop 5 bs)] ++ repeat Sent 6).

Lemma demo_frames_ok : Forall frame_ok demo_frames.
Proof.
  unfold demo_frames. repeat (apply Forall_cons; split); try apply Forall_nil; try done;
    split; first [done | vm_compute; reflexivity | cbn; lia].
Qed.

Lemma demo_frames_open : Forall (fun f => meaning f <> CLOSE) demo_frames.
Proof. repeat (apply Forall_cons; split); try apply Forall_nil; try done; vm_compute; discriminate. Qed.

Lemma stream_delivered_in_order_witness :
  exists buf evs bs, trace 1 (LoopTest "") demo_answers = (Recv buf, evs, bs) /\ bs = stream demo_frames /\
    buf = "" /\ evs = messages (map meaning demo_frames) /\ evs = [EMsg []; EMsg [("type", PStr "ok")]].
Proof.
  destruct (trace 1 (LoopTest "") demo_answers) as [[q evs] bs] eqn:E.
  assert (Hq : q = Recv "" /\ bs +:+ "" = stream demo_frames /\ evs = [EMsg []; EMsg [("type", PStr "ok")]]).
  { vm_compute in E. injection E as <- <- <-. repeat split; vm_compute; reflexivity. }
  destruct Hq as (-> & Hbs & Hev).
  destruct (stream_delivered_in_order 1 demo_answers demo_frames "" (Recv "") evs bs) as [_ H].
  - exact demo_frames_ok.
  - exact demo_frames_open.
  - exact E.
  - exact Hbs.
  - destruct (H "" eq_refl eq_refl) as [Hb He]. exists "", evs, bs. rewrite sapp_nil_r in Hbs. repeat split; assumption.
Defined.

Definition demo_closing : list (net * input) :=
  map (pair demo_net) ([Sent; Received (stream demo_frames +:+ encode_frame (Frame 0x88 None ""))] ++ repeat Sent 9
    ++ [Received ""]).

Lemma close_frame_unreported_witness :
  exists evs bs, trace 1 (LoopTest "") demo_closing = (Done, evs, bs) /\ forall e, EClose e ∉ evs.
Proof.
  destruct (trace 1 (LoopTest "") demo_closing) as [[q evs] bs] eqn:E.
  assert (Hq : q = Done /\ bs = stream demo_frames +:+ encode_frame (Frame 0x88 None "") +:+ "").
  { vm_compute in E. injection E as <- <- <-. split; vm_compute; reflexivity. }
  destruct Hq as [-> Hbs].
  destruct (close_frame_unreported 1 demo_closing demo_frames (Frame 0x88 None "") "" Done evs bs) as [_ H].
  - apply Forall_app. split; [exact demo_frames_ok|]. apply Forall_cons. split; [|apply Forall_nil; done].
    split; [vm_compute; split; congruence|exact I|vm_compute; reflexivity].
  - exact demo_frames_open.
  - reflexivity.
  - exact E.
  - exact Hbs.
  - exists evs, bs. split; [reflexivity|exact H].
Defined.

Lemma inner_loop_ends_witness :
  exists l1, returned (fst (fst (trace 1 (Parse "two bytes of text") l1))) = true.
Proof.
  destruct (inner_loop_ends 1 "two bytes of text" (repeat (demo_net, Sent) 52)) as (l1 & l2 & _ & H).
  - cbn. lia.
  - exists l1. exact H.
Defined.

(** A worker that has been waiting for its connection when [disconnect] is called. *)
Lemma superseded_worker_silent_witness :
  let w := W (disconnect_gen (fst (connect_async new_net))) true [(1, Connecting)] [] in
  let w' := W (disconnect (fst (connect_async new_net))) false [(1, Failed "refused")] [] in
  (length (events_of 1 w') <= length (events_of 1 w) + 0)%nat.
Proof.
  intros w w'. destruct (superseded_worker_silent w w' 0 1 Connecting) as [H _].
  - eapply rtc_l; [apply step_connect|]. apply rtc_once. apply step_disconnect.
  - reflexivity.
  - discriminate.
  - eapply rtc_l; [apply step_closed|]. 
    apply (wstep_act (disconnect (fst (connect_async new_net))) false [(1, Connecting)] 0 1 Connecting (Raised "refused")
      (disconnect (fst (connect_async new_net))) (Failed "refused") []); reflexivity.
  - exact H.
Defined.
