(* ===== verification/ChatPage.v ===== *)
(** * The timeline of the chat page (client/pages/chat_page.py)

    [ChatPage] keeps, for each conversation, the list of messages it shows. The
    model has that list and everything the page decides from it: live messages,
    bubbles waiting for the server, system lines, the merging of a history, edits
    that arrive before their message, reactions, pins, read marks, unread counts.
    The other operations of the page are in [ChatView]. Drawing is left out:
    [_redraw] and the labels read the state. The signals the page emits are the
    list [signals], the last first. *)

From S2P Require Import Prelude Hashing Base64 PyVal Sorting Json Wire Utils.

Record reaction := Reaction { r_count : Z; r_me : bool }.

(** A key that identifies a system line: the conversation and strings. *)
Definition event_key := (Z * list string)%type.

Record entry := Entry {
  sender_id : Z; body : pyval; ts : string; msg_id : Z; edited : bool; deleted : bool; pinned : bool;
  reactions : list (string * reaction); forwarded_from_id : Z; reply_to_message_id : Z; hidden : bool;
  sending : bool; failed : bool; failure_reason : string; retry_body : option string; retry_file : string;
  system : bool; event_keys : list event_key; system_event_id : Z; after_message_id : Z;
  sort_after_message_id : Z; persisted : bool
}.
#[export] Instance entry_eta : Eta entry := fun m =>
  Entry (sender_id m) (body m) (ts m) (msg_id m) (edited m) (deleted m) (pinned m) (reactions m)
    (forwarded_from_id m) (reply_to_message_id m) (hidden m) (sending m) (failed m) (failure_reason m)
    (retry_body m) (retry_file m) (system m) (event_keys m) (system_event_id m) (after_message_id m)
    (sort_after_message_id m) (persisted m).

(** A message with the fields of its first lines; the others as [get] gives them
    when they are missing. *)
Definition plain_entry (sender : Z) (b : pyval) (t : string) (mid : Z) : entry :=
  Entry sender b t mid false false false [] 0 0 false false false "" None "" false [] 0 0 0 false.

Record edit_event := EditEvent { target_msg_id : Z; new_body : pyval; edit_sender : Z; edit_ts : string }.

Inductive signal :=
| SigCommand (obj : dict)
| SigHistory (conv_id : Z)
| SigSend (conv_id : Z) (text : string)
| SigSendReply (conv_id reply_to : Z) (text : string)
| SigSendFile (conv_id : Z) (path : string)
| SigEditMessage (conv_id msg_id : Z) (text : string)
| SigGetRequests
| SigVerifyIdentity (conv_id : Z).

Record page := Page {
  my_id : Z; active_conv_id : Z; current_view : string; hist : gmap Z (list entry);
  history_loaded : gset Z; history_loading : gset Z; failed_send_counter : Z;
  notifications_enabled : bool; system_event_keys : gset event_key;
  pending_edit_events : gmap Z (list edit_event);
  dm_convs : list dict; group_convs : list dict; active_is_group : bool;
  unread_convs : gset Z; last_read_sent : gmap Z Z; pending_read_clear : gset Z;
  metadata_protection : bool; signals : list signal
}.
#[export] Instance page_eta : Eta page := fun p =>
  Page (my_id p) (active_conv_id p) (current_view p) (hist p) (history_loaded p) (history_loading p)
    (failed_send_counter p) (notifications_enabled p) (system_event_keys p) (pending_edit_events p)
    (dm_convs p) (group_convs p) (active_is_group p) (unread_convs p) (last_read_sent p)
    (pending_read_clear p) (metadata_protection p) (signals p).

Definition new_page : page :=
  Page 0 0 "chat" ∅ ∅ ∅ 0 true ∅ ∅ [] [] false ∅ ∅ ∅ false [].
Definition on_chat_view (p : page) : bool := String.eqb (current_view p) "chat".

Definition pm := stm page.

Definition emit (x : signal) : pm unit := st_modify (fun p => p <| signals ::= cons x |>).
Definition messages_of (p : page) (conv_id : Z) : list entry := default [] (hist p !! conv_id).
Definition set_messages (conv_id : Z) (l : list entry) : pm unit :=
  st_modify (fun p => p <| hist ::= <[conv_id := l]> |>).
Definition append_entry (conv_id : Z) (m : entry) : pm unit :=
  do! p := st_get in set_messages conv_id (messages_of p conv_id ++ [m]).

(** [int(v or 0)], an exception giving 0. *)
Definition try_int (v : pyval) : Z := ok_or 0 (py_int (py_or v (PInt 0))).

(** ** Bodies *)

Definition PREFIX_SYSTEM : string := "__SYSTEM__:".
Definition is_control_body (b : pyval) : bool :=
  match b with PStr s => mem s ["__KEM_INIT__"; "__S2_CONTROL__"; "__S3_INIT__"] | _ => false end.

Definition _is_unavailable_history_body (b : pyval) : bool :=
  match b with
  | PStr s => contains "Forward-secret" s || contains "Cannot decrypt" s || starts_with "[Cannot" s
      || starts_with "[Encrypted" s
  | _ => false
  end.

(** The entries of a list of reactions that have an emoji, the last of each one. *)
Definition read_reaction (out : list (string * reaction)) (r : pyval) : res (list (string * reaction)) :=
  match r with
  | PDict d =>
      let emoji := py_str (dget "emoji" (PStr "") d) in
      if negb (nonempty emoji) then Ok out
      else let! count := get_int0 "count" d in
           Ok (dset emoji (Reaction count (truthy (dget "me" (PBool false) d))) out)
  | _ => Ok out
  end.

Fixpoint res_fold {A B} (f : B -> A -> res B) (acc : B) (l : list A) : res B :=
  match l with
  | [] => Ok acc
  | x :: l => let! acc := f acc x in res_fold f acc l
  end.

Definition _normalize_reactions (v : pyval) : res (list (string * reaction)) :=
  let! items := match v with
    | PDict d => Ok (map snd d)
    | _ => py_iter (py_or v (PList []))
    end in
  res_fold read_reaction [] items.

(** [ts_short] of a JSON value. *)
Definition ts_short_v (v : pyval) : res string :=
  if negb (truthy v) then Ok "" else match v with PStr s => Ok (ts_short s) | _ => Err AttributeError end.

(** ** Conversations of the sidebar *)

Definition conv_id_of (c : dict) : res Z := get_int0 "conversation_id" c.

(** The first record of a conversation, direct ones first. *)
Fixpoint find_conv (conv_id : Z) (l : list dict) : res dict :=
  match l with
  | [] => Ok []
  | c :: l => let! cid := conv_id_of c in if cid =? conv_id then Ok c else find_conv conv_id l
  end.
Definition _conversation_record (p : page) (conv_id : Z) : res dict :=
  find_conv conv_id (dm_convs p ++ group_convs p).

Definition _is_conversation_muted (p : page) (conv_id : Z) : res bool :=
  let! c := _conversation_record p conv_id in Ok (truthy (dget "muted" PNone c)).

Definition _conversation_has_unread_record (p : page) (conv_id : Z) : res bool :=
  let! c := _conversation_record p conv_id in
  let! n := get_int0 "unread_count" c in
  Ok (bool_decide (conv_id ∈ unread_convs p) || (0 <? n) || truthy (dget "force_unread" PNone c)).

Fixpoint is_group_in (conv_id : Z) (l : list dict) : res bool :=
  match l with
  | [] => Ok false
  | g :: l => let! cid := conv_id_of g in if cid =? conv_id then Ok true else is_group_in conv_id l
  end.
Definition _is_group_conversation_id (p : page) (conv_id : Z) : res bool :=
  if conv_id <=? 0 then Ok false
  else if (conv_id =? active_conv_id p) && active_is_group p then Ok true
  else is_group_in conv_id (group_convs p).

(** The changes [_update_conversation_pref] is asked for. *)
Record pref := Pref {
  p_muted : option bool; p_archived : option bool; p_toggle_archived : bool; p_pinned : option bool;
  p_toggle_pinned : bool; p_unread : option bool; p_disappear : option pyval
}.
Definition no_pref : pref := Pref None None false None false None None.
#[export] Instance pref_eta : Eta pref := fun x =>
  Pref (p_muted x) (p_archived x) (p_toggle_archived x) (p_pinned x) (p_toggle_pinned x) (p_unread x) (p_disappear x).

Definition toggle (k : string) (c : dict) : dict := dset k (PBool (negb (truthy (dget k PNone c)))) c.

Definition apply_pref (x : pref) (c : dict) : res dict :=
  let c := match p_muted x with Some b => dset "muted" (PBool b) c | None => c end in
  let c := match p_archived x with Some b => dset "archived" (PBool b) c | None => c end in
  let c := if p_toggle_archived x then toggle "archived" c else c in
  let c := match p_pinned x with Some b => dset "pinned_conversation" (PBool b) c | None => c end in
  let c := if p_toggle_pinned x then toggle "pinned_conversation" c else c in
  let c := match p_disappear x with Some v => dset "disappear_after_secs" v c | None => c end in
  match p_unread x with
  | Some true =>
      let! n := get_int0 "unread_count" c in
      Ok (dset "force_unread" (PBool true) (dset "unread_count" (PInt (Z.max 1 n)) c))
  | Some false => Ok (dset "force_unread" (PBool false) (dset "unread_count" (PInt 0) c))
  | None => Ok c
  end.

(** The first record of the conversation changed; [None] when there is none. *)
Fixpoint change_first (conv_id : Z) (x : pref) (l : list dict) : res (option (list dict)) :=
  match l with
  | [] => Ok None
  | c :: l =>
      let! cid := conv_id_of c in
      if cid =? conv_id then let! c := apply_pref x c in Ok (Some (c :: l))
      else let! o := change_first conv_id x l in Ok (option_map (cons c) o)
  end.

Definition change_list (conv_id : Z) (x : pref) (get : page -> list dict) (put : list dict -> page -> page) : pm unit :=
  do! p := st_get in
  do! o := st_lift (change_first conv_id x (get p)) in
  match o with
  | None => st_ret tt
  | Some l =>
      st_modify (fun p => (put l p) <| unread_convs ::= fun u =>
        match p_muted x with Some true => u ∖ {[conv_id]} | _ => u end |>)
  end.

Definition _update_conversation_pref (conv_id : Z) (x : pref) : pm unit :=
  if conv_id <=? 0 then st_ret tt
  else
    do! _ := change_list conv_id x dm_convs (fun l p => p <| dm_convs := l |>) in
    do! _ := change_list conv_id x group_convs (fun l p => p <| group_convs := l |>) in
    match p_unread x with
    | Some true => st_modify (fun p => p <| unread_convs ::= union {[conv_id]} |>)
    | Some false => st_modify (fun p => p <| unread_convs ::= fun u => u ∖ {[conv_id]} |>)
    | None => st_ret tt
    end.

Definition _send_conversation_pref (command : dict) : pm unit :=
  do! conv_id := st_lift (get_int0 "conversation_id" command) in
  if conv_id <=? 0 then st_ret tt
  else
    let typ := py_str (dget "type" (PStr "") command) in
    do! _ := (if String.eqb typ "mute_conversation" then
                do! secs := st_lift (get_int0 "mute_secs" command) in
                _update_conversation_pref conv_id (no_pref <| p_muted := Some (0 <? secs) |>)
              else if String.eqb typ "archive_conversation" then
                _update_conversation_pref conv_id (no_pref <| p_toggle_archived := true |>)
              else if String.eqb typ "pin_conversation" then
                _update_conversation_pref conv_id (no_pref <| p_toggle_pinned := true |>)
              else if String.eqb typ "mark_unread" then
                _update_conversation_pref conv_id (no_pref <| p_unread := Some true |>)
              else st_ret tt) in
    emit (SigCommand command).

(** ** What is visible, and read marks *)

Definition is_visible (m : entry) : bool := (0 <? msg_id m) && negb (deleted m) && negb (hidden m).
Definition _visible_message_ids (p : page) (conv_id : Z) : list Z :=
  map msg_id (List.filter is_visible (messages_of p conv_id)).
(** [max(ids or [0])]. *)
Definition last_visible (p : page) (conv_id : Z) : Z :=
  match _visible_message_ids p conv_id with [] => 0 | x :: l => fold_left Z.max l x end.

Definition clear_unread (conv_id : Z) : pm unit := _update_conversation_pref conv_id (no_pref <| p_unread := Some false |>).
Definition read_done (conv_id : Z) : pm unit := st_modify (fun p => p <| pending_read_clear ::= fun s => s ∖ {[conv_id]} |>).

Definition _mark_active_conversation_read : pm unit :=
  do! p := st_get in
  let conv_id := active_conv_id p in
  if conv_id <=? 0 then st_ret tt
  else
    let last_id := last_visible p conv_id in
    do! needs := (if bool_decide (conv_id ∈ pending_read_clear p) then st_ret true
                  else st_lift (_conversation_has_unread_record p conv_id)) in
    if (last_id <=? 0) && negb needs then st_ret tt
    else if metadata_protection p then do! _ := clear_unread conv_id in read_done conv_id
    else if (0 <? last_id) && (last_id <=? default 0 (last_read_sent p !! conv_id)) then
      do! _ := clear_unread conv_id in read_done conv_id
    else
      do! _ := (if 0 <? last_id then st_modify (fun p => p <| last_read_sent ::= <[conv_id := last_id]> |>)
                else st_ret tt) in
      do! _ := clear_unread conv_id in
      do! _ := emit (SigCommand [("type", PStr "mark_read"); ("conversation_id", PInt conv_id);
                                 ("last_message_id", PInt last_id)]) in
      read_done conv_id.

(** ** Edits, reactions, pins *)

Fixpoint map_first {A} (f : A -> bool) (g : A -> A) (l : list A) : option (list A) :=
  match l with
  | [] => None
  | x :: l => if f x then Some (g x :: l) else option_map (cons x) (map_first f g l)
  end.

(** [update_message]: was there such a message? *)
Definition update_message (conv_id mid : Z) (b : pyval) (edit del : bool) : pm bool :=
  do! p := st_get in
  match map_first (fun m => msg_id m =? mid) (fun m => m <| body := b |> <| edited := edit |> <| deleted := del |>)
          (messages_of p conv_id) with
  | Some l => do! _ := set_messages conv_id l in st_ret true
  | None => st_ret false
  end.

Definition apply_edit_event (conv_id : Z) (e : edit_event) : pm bool :=
  do! updated := update_message conv_id (target_msg_id e) (new_body e) true false in
  if updated then st_ret true
  else
    do! _ := st_modify (fun p => p <| pending_edit_events ::= fun l => <[conv_id := default [] (l !! conv_id) ++ [e]]> l |>) in
    st_ret false.

(** One pending edit: kept when its message is still missing. *)
Definition retry_edit (conv_id : Z) (remaining : list edit_event) (e : edit_event) : pm (list edit_event) :=
  do! updated := update_message conv_id (target_msg_id e) (new_body e) true false in
  st_ret (if updated then remaining else remaining ++ [e]).

Definition _apply_pending_edit_events (conv_id : Z) : pm unit :=
  do! p := st_get in
  match default [] (pending_edit_events p !! conv_id) with
  | [] => st_ret tt
  | pending =>
      do! remaining := st_fold (retry_edit conv_id) [] pending in
      st_modify (fun p => p <| pending_edit_events ::=
        fun l => match remaining with [] => delete conv_id l | _ => <[conv_id := remaining]> l end |>)
  end.

Definition set_message_pinned (conv_id mid : Z) (b : bool) : pm unit :=
  do! p := st_get in
  match map_first (fun m => msg_id m =? mid) (fun m => m <| pinned := b |>) (messages_of p conv_id) with
  | Some l => set_messages conv_id l
  | None => st_ret tt
  end.

(** The reactions of a message after one is added or removed by [user_id]. *)
Definition react (me : Z) (emoji : string) (user_id : Z) (added : bool) (l : list (string * reaction)) :
    list (string * reaction) :=
  let cur := match dlookup emoji l with Some r => r | None => Reaction 0 false end in
  let mine := user_id =? me in
  let l := match dlookup emoji l with Some _ => l | None => dset emoji cur l end in
  if added then
    if mine && r_me cur then l
    else dset emoji (Reaction (r_count cur + 1) (mine || r_me cur)) l
  else if mine && negb (r_me cur) then l
  else
    let n := Z.max 0 (r_count cur - 1) in
    if n <=? 0 then ddel emoji l else dset emoji (Reaction n (negb mine && r_me cur)) l.

Definition update_reaction (conv_id mid : Z) (emoji : string) (user_id : Z) (added : bool) : pm unit :=
  if negb (nonempty emoji) then st_ret tt
  else
    do! p := st_get in
    match map_first (fun m => msg_id m =? mid) (fun m => m <| reactions ::= react (my_id p) emoji user_id added |>)
            (messages_of p conv_id) with
    | Some l => set_messages conv_id l
    | None => st_ret tt
    end.

(** ** Live messages and waiting bubbles *)

Definition invalidate_history (conv_id : Z) (clear_messages : bool) : pm unit :=
  st_modify (fun p => p <| history_loaded ::= fun s => s ∖ {[conv_id]} |>
    <| hist ::= fun h => if clear_messages then delete conv_id h else h |>).

Definition add_msg (conv_id sender : Z) (b : pyval) (t : string) (mid : Z) (pin : bool) (reacts : pyval)
    (forwarded reply_to : Z) : pm unit :=
  do! rs := st_lift (_normalize_reactions (py_or reacts (PList []))) in
  do! _ := append_entry conv_id ((plain_entry sender b t mid) <| pinned := pin |> <| reactions := rs |>
    <| forwarded_from_id := forwarded |> <| reply_to_message_id := reply_to |>) in
  do! _ := _apply_pending_edit_events conv_id in
  do! p := st_get in
  if (conv_id =? active_conv_id p) && on_chat_view p then _mark_active_conversation_read
  else if negb (sender =? my_id p) && truthy b && negb (is_control_body b) && negb (_is_unavailable_history_body b)
          && notifications_enabled p then
    do! muted := st_lift (_is_conversation_muted p conv_id) in
    st_when (negb muted) (st_modify (fun p => p <| unread_convs ::= union {[conv_id]} |>))
  else st_ret tt.

(** A new local identifier: they are negative and never used twice. *)
Definition next_local_id : pm Z :=
  do! _ := st_modify (fun p => p <| failed_send_counter ::= Z.add 1 |>) in
  do! p := st_get in
  st_ret (- failed_send_counter p).

Definition or_default (s dflt : string) : string := if nonempty s then s else dflt.

Definition show_send_failed (conv_id : Z) (text reason file_path : string) : pm unit :=
  do! mid := next_local_id in
  do! p := st_get in
  append_entry conv_id ((plain_entry (my_id p) (PStr text) "not sent" mid) <| failed := true |>
    <| failure_reason := or_default reason "Message was not sent." |> <| retry_body := Some text |>
    <| retry_file := file_path |>).

Definition show_send_pending (conv_id : Z) (text file_path : string) (reply_to : Z) : pm Z :=
  do! mid := next_local_id in
  do! p := st_get in
  do! _ := append_entry conv_id ((plain_entry (my_id p) (PStr text) "sending" mid)
    <| reply_to_message_id := reply_to |> <| sending := true |> <| retry_body := Some text |>
    <| retry_file := file_path |>) in
  st_ret mid.

Definition retry_text (m : entry) : string := match retry_body m with Some s => s | None => py_str (body m) end.

(** Is [m] the bubble that [remove_pending_send] looks for? *)
Definition is_pending_send (text : string) (pending_id : Z) (m : entry) : bool :=
  sending m && ((negb (pending_id =? 0) && (msg_id m =? pending_id))
    || ((pending_id =? 0) && nonempty text && String.eqb (retry_text m) text)).

Fixpoint remove_first {A} (f : A -> bool) (l : list A) : option (list A) :=
  match l with
  | [] => None
  | x :: l => if f x then Some l else option_map (cons x) (remove_first f l)
  end.

Definition remove_pending_send (conv_id : Z) (text : string) (pending_id : Z) : pm unit :=
  do! p := st_get in
  match remove_first (is_pending_send text pending_id) (messages_of p conv_id) with
  | Some l => set_messages conv_id l
  | None => st_ret tt
  end.

Definition fail_send (reason : string) (m : entry) : entry :=
  if sending m then
    m <| sending := false |> <| failed := true |> <| ts := "not sent" |>
      <| failure_reason := or_default reason "Connection was interrupted." |>
  else m.
Definition mark_pending_sends_failed (reason : string) : pm unit :=
  st_modify (fun p => p <| hist ::= fmap (map (fail_send reason)) |>).

Definition _find_message (p : page) (conv_id mid : Z) : option entry :=
  List.find (fun m => msg_id m =? mid) (messages_of p conv_id).

Definition _remove_failed_message (mid : Z) : pm unit :=
  do! p := st_get in
  if active_conv_id p <=? 0 then st_ret tt
  else set_messages (active_conv_id p) (List.filter (fun m => negb (msg_id m =? mid)) (messages_of p (active_conv_id p))).

Definition _retry_failed_message (mid : Z) : pm unit :=
  do! p := st_get in
  let conv_id := active_conv_id p in
  match _find_message p conv_id mid with
  | None => st_ret tt
  | Some m =>
      let text := or_default (match retry_body m with Some s => s | None => "" end) (py_str (body m)) in
      do! _ := _remove_failed_message mid in
      if nonempty (retry_file m) then emit (SigSendFile conv_id (retry_file m)) else emit (SigSend conv_id text)
  end.

(** ** System lines *)

Definition keys_for (conv_id sid : Z) (key : option (list string)) : list event_key :=
  (if 0 <? sid then [(conv_id, ["system_event_id"; dec sid])] else [])
  ++ match key with Some k => [(conv_id, k)] | None => [] end.

Definition system_entry (t : string) (mid : Z) (keys : list event_key) (sid after : Z) (text : string) : entry :=
  (plain_entry 0 (PStr (PREFIX_SYSTEM +:+ text)) t mid) <| event_keys := keys |> <| system_event_id := sid |>
    <| after_message_id := after |> <| sort_after_message_id := after |> <| system := true |>.

Definition add_system_event (conv_id : Z) (text t : string) (key : option (list string)) (sid : Z)
    (after : option Z) : pm unit :=
  if negb (nonempty text) then st_ret tt
  else
    do! p := st_get in
    let keys := keys_for conv_id sid key in
    if existsb (fun k => bool_decide (k ∈ system_event_keys p)) keys then st_ret tt
    else
      do! _ := st_modify (fun p => p <| system_event_keys ::= union (list_to_set keys) |>) in
      let after := match after with Some a => a | None => last_visible p conv_id end in
      do! local := next_local_id in
      let mid := if 0 <? sid then - (1000000000 + sid) else local in
      append_entry conv_id (system_entry t mid keys sid after text).

(** ** Merging a history *)

Definition is_system (m : entry) : bool := system m || starts_with PREFIX_SYSTEM (py_str (body m)).

(** [_system_event_anchor_from_entry]. *)
Definition anchor_of (m : entry) (fallback : Z) : Z :=
  if 0 <? after_message_id m then after_message_id m
  else if 0 <? sort_after_message_id m then sort_after_message_id m else fallback.

(** The system lines and the local bubbles of a timeline, each line anchored after
    the message before it; [previous] is that message. *)
Fixpoint split_local (conv_id previous : Z) (l : list entry) : list entry * list entry :=
  match l with
  | [] => ([], [])
  | m :: l =>
      if 0 <? msg_id m then split_local conv_id (msg_id m) l
      else
        let (events, transient) := split_local conv_id previous l in
        if is_system m then
          let anchor := anchor_of m previous in
          let keys := match event_keys m with [] => keys_for conv_id (system_event_id m) None | k => k end in
          ((m <| after_message_id := anchor |> <| sort_after_message_id := anchor |> <| event_keys := keys |>) :: events,
           transient)
        else (events, m :: transient)
  end.

Definition by_id (l : list entry) : gmap Z entry :=
  fold_left (fun d m => if 0 <? msg_id m then <[msg_id m := m]> d else d) l ∅.

(** One row of the answer: a message, an edit, or nothing to show. *)
Definition read_row (existing : gmap Z entry) (acc : gmap Z entry * list edit_event) (row : pyval) :
    res (gmap Z entry * list edit_event) :=
  let! m := as_dict row in
  let b := dget "body" (PStr "") m in
  let del := truthy (dget "deleted" (PBool false) m) in
  if is_control_body b && negb del then Ok acc
  else
    let! target := get_int0 "edit_target_message_id" m in
    if 0 <? target then
      if _is_unavailable_history_body b then Ok acc
      else
        let! sender := py_int (dget "sender_id" (PInt 0) m) in
        let! t := ts_short_v (dget "time" (PStr "") m) in
        Ok (fst acc, snd acc ++ [EditEvent target b sender t])
    else
      let! mid := py_int (dget "id" (PInt 0) m) in
      let! sender := py_int (dget "sender_id" (PInt 0) m) in
      let! t := ts_short_v (dget "time" (PStr "") m) in
      let! rs := _normalize_reactions (dget "reactions" (PList []) m) in
      let! fwd := get_int0 "forwarded_from_id" m in
      let! reply := get_int0 "reply_to_message_id" m in
      let e := (plain_entry sender b t mid) <| edited := truthy (dget "edited" (PBool false) m) |>
                 <| deleted := del |> <| pinned := truthy (dget "pinned" (PBool false) m) |>
                 <| reactions := rs |> <| forwarded_from_id := fwd |> <| reply_to_message_id := reply |>
                 <| hidden := truthy (dget "hidden" (PBool false) m) |> in
      let e := match existing !! mid with
               | Some prev =>
                   if _is_unavailable_history_body b && negb (_is_unavailable_history_body (body prev)) then
                     e <| body := body prev |> <| edited := edited e || edited prev |> <| hidden := false |>
                   else e
               | None => e
               end in
      Ok (if 0 <? mid then <[mid := e]> (fst acc) else fst acc, snd acc).

(** A system event of the answer, with the key the application gave it. *)
Record sys_event := SysEvent { se_fields : dict; se_key : option (list string) }.

Definition persisted_event (conv_id : Z) (acc : list entry * gset event_key) (ev : sys_event) :
    pm (list entry * gset event_key) :=
  let d := se_fields ev in
  let text := py_str (py_or (dget "text" (PStr "") d) (py_or (dget "body" (PStr "") d)
                (py_or (dget "message" (PStr "") d) (PStr "")))) in
  let text := if starts_with PREFIX_SYSTEM text then sdrop (String.length PREFIX_SYSTEM) text else text in
  if negb (nonempty text) then st_ret acc
  else
    let sid := try_int (dget "system_event_id" (dget "id" (PInt 0) d) d) in
    let after := try_int (dget "after_message_id" (PInt 0) d) in
    let keys := keys_for conv_id sid (se_key ev) in
    if existsb (fun k => bool_decide (k ∈ snd acc)) keys then st_ret acc
    else
      do! _ := st_modify (fun p => p <| system_event_keys ::= union (list_to_set keys) |>) in
      do! mid := (if 0 <? sid then st_ret (- (1000000000 + sid)) else next_local_id) in
      do! t := st_lift (ts_short_v (dget "time" (dget "event_time" (PStr "") d) d)) in
      st_ret (fst acc ++ [(system_entry t mid keys sid after text) <| persisted := true |>],
              list_to_set keys ∪ snd acc).

(** The place of an item in the timeline: a message at its identifier, a system
    line after its anchor. *)
Definition place := (Z * (Z * Z))%type.
Definition place_ltb (a b : place) : bool :=
  (fst a <? fst b) || ((fst a =? fst b) && ((fst (snd a) <? fst (snd b))
    || ((fst (snd a) =? fst (snd b)) && (snd (snd a) <? snd (snd b))))).

Definition place_message (m : entry) : place * entry := ((msg_id m, (0, msg_id m)), m).
Definition place_event (seq : nat) (m : entry) : place * entry :=
  let sid := system_event_id m in
  ((anchor_of m 0, (1, if 0 <? sid then sid else 100000000 + Z.of_nat seq)), m).

Definition timeline (messages events : list entry) : list entry :=
  map snd (isort (by_key place_ltb fst) (map place_message messages ++ imap place_event events)).

(** The messages to show, by identifier. *)
Definition merged_messages (merged : gmap Z entry) : list entry :=
  map snd (isort (by_key Z.ltb fst)
    (List.filter (fun x => (0 <? fst x) && negb (is_control_body (body (snd x)) && negb (deleted (snd x))))
       (map_to_list merged))).

Definition load_history (conv_id : Z) (rows : list pyval) (events : list sys_event) : pm unit :=
  do! _ := st_modify (fun p => p <| history_loading ::= fun s => s ∖ {[conv_id]} |>) in
  do! p := st_get in
  let old := messages_of p conv_id in
  let (local_events, transient) := split_local conv_id 0 old in
  let existing := by_id old in
  do! (incoming, edits) := st_lift (res_fold (read_row existing) (∅, []) rows) in
  let messages := merged_messages (incoming ∪ existing) in
  do! (persisted, keys) := st_fold (persisted_event conv_id) ([], ∅) events in
  let kept := List.filter (fun m => negb (existsb (fun k => bool_decide (k ∈ keys)) (event_keys m))) local_events in
  do! _ := st_modify (fun p => p <| system_event_keys ::= union (list_to_set (concat (map event_keys kept))) |>) in
  do! _ := set_messages conv_id (timeline messages (persisted ++ kept) ++ transient) in
  do! _ := st_for edits (fun e => do! _ := apply_edit_event conv_id e in st_ret tt) in
  do! _ := _apply_pending_edit_events conv_id in
  do! _ := st_modify (fun p => p <| history_loaded ::= union {[conv_id]} |>) in
  if conv_id =? active_conv_id p then _mark_active_conversation_read else st_ret tt.
