(* ===== verification/ChatPageFacts.v ===== *)
(** * Lemmas on the timeline of the chat page *)

From stdpp Require Import sorting.
From S2P Require Import Prelude Hashing Base64 PyVal Sorting Json Wire Utils ChatPage.

(** ** Lists *)

Definition positive_ids (l : list entry) : list Z := List.filter (Z.ltb 0) (map msg_id l).

Lemma positive_ids_app a b : positive_ids (a ++ b) = positive_ids a ++ positive_ids b.
Proof. unfold positive_ids. rewrite map_app. induction (map msg_id a) as [|x l IH]; cbn; [done|]. destruct (0 <? x); cbn; by rewrite IH. Qed.

Lemma positive_ids_local l : Forall (fun m => msg_id m <= 0) l -> positive_ids l = [].
Proof.
  induction 1 as [|m l Hm Hl IH]; [done|]. unfold positive_ids in *. cbn. rewrite IH.
  by assert (0 <? msg_id m = false) as -> by lia.
Qed.

Lemma elem_of_positive_ids mid l : mid ∈ positive_ids l <-> 0 < mid /\ exists m, m ∈ l /\ msg_id m = mid.
Proof.
  unfold positive_ids. rewrite list_elem_of_In, filter_In, in_map_iff. split.
  - intros [(m & <- & Hin) Hp]. split; [lia|]. exists m. by rewrite list_elem_of_In.
  - intros [Hp (m & Hin & <-)]. split; [exists m; by rewrite <- list_elem_of_In|lia].
Qed.

Lemma map_first_spec {A} (f : A -> bool) (g : A -> A) l l' : map_first f g l = Some l' ->
  exists a x b, l = a ++ x :: b /\ Forall (fun y => f y = false) a /\ f x = true /\ l' = a ++ g x :: b.
Proof.
  revert l'. induction l as [|y l IH]; intros l' H; [done|]. cbn in H. destruct (f y) eqn:E.
  - injection H as <-. by exists [], y, l.
  - destruct (map_first f g l) as [l1|] eqn:E1; [|done]. injection H as <-.
    destruct (IH _ eq_refl) as (a & x & b & -> & Ha & Hx & ->). exists (y :: a), x, b.
    split; [done|]. split; [by constructor|done].
Qed.

Lemma map_first_none {A} (f : A -> bool) (g : A -> A) l : map_first f g l = None <-> Forall (fun y => f y = false) l.
Proof.
  induction l as [|y l IH]; [done|]. cbn. rewrite Forall_cons. destruct (f y); [by split; [|intros []]|].
  rewrite <- IH. destruct (map_first f g l); by split; [|intros []].
Qed.

Lemma map_first_found {A} (f : A -> bool) (g : A -> A) a x b :
  Forall (fun y => f y = false) a -> f x = true -> map_first f g (a ++ x :: b) = Some (a ++ g x :: b).
Proof. intros Ha Hx. induction Ha as [|y a Hy Ha IH]; cbn; [by rewrite Hx|]. by rewrite Hy, IH. Qed.

Lemma map_first_ids (f : entry -> bool) g l l' : (forall m, msg_id (g m) = msg_id m) -> map_first f g l = Some l' ->
  map msg_id l' = map msg_id l.
Proof.
  intros Hg (a & x & b & -> & _ & _ & ->)%map_first_spec. by rewrite !map_app, !map_cons, Hg.
Qed.

(** ** What operations leave alone *)

Lemma messages_insert p h conv_id l : hist p = <[conv_id := l]> h -> messages_of p conv_id = l.
Proof. intros H. unfold messages_of. by rewrite H, lookup_insert_eq. Qed.

(** The preferences of the sidebar and the read marks do not touch a timeline. *)
Definition timelines (p : page) : gmap Z (list entry) * gset Z * gmap Z (list edit_event) * Z :=
  (hist p, history_loaded p, pending_edit_events p, failed_send_counter p).
Definition same_hist (h : gmap Z (list entry) * gset Z * gmap Z (list edit_event) * Z) (p : page) : Prop := timelines p = h.

Lemma keeps_field h (f : page -> page) : (forall p, timelines (f p) = timelines p) ->
  keeps (same_hist h) (st_modify f).
Proof. intros Hf p Hp. unfold same_hist. cbn [st_modify fst]. by rewrite Hf. Qed.

Lemma change_list_hist h cid x get put : (forall l p, timelines (put l p) = timelines p) ->
  keeps (same_hist h) (change_list cid x get put).
Proof.
  intros Hput. unfold change_list. apply keeps_get. intros p _. apply keeps_bind; [apply keeps_lift|].
  intros [l|]; [|apply keeps_ret]. apply keeps_field. intros q. apply Hput.
Qed.

Lemma pref_hist h cid x : keeps (same_hist h) (_update_conversation_pref cid x).
Proof.
  unfold _update_conversation_pref. destruct (_ <=? _); [apply keeps_ret|]. apply keeps_bind; [by apply change_list_hist|].
  intros _. apply keeps_bind; [by apply change_list_hist|]. intros _. by destruct (p_unread x) as [[]|]; first [apply keeps_field | apply keeps_ret].
Qed.

Lemma mark_read_hist h : keeps (same_hist h) _mark_active_conversation_read.
Proof.
  unfold _mark_active_conversation_read. apply keeps_get. intros p _. destruct (_ <=? _); [apply keeps_ret|].
  apply keeps_bind; [destruct (bool_decide _); [apply keeps_ret|apply keeps_lift]|]. intros needs.
  destruct (_ && _); [apply keeps_ret|]. destruct (metadata_protection p).
  { apply keeps_bind; [apply pref_hist|]. intros _. by apply keeps_field. }
  destruct (_ && _).
  { apply keeps_bind; [apply pref_hist|]. intros _. by apply keeps_field. }
  apply keeps_bind; [destruct (0 <? _); [by apply keeps_field|apply keeps_ret]|]. intros _.
  apply keeps_bind; [apply pref_hist|]. intros _. apply keeps_bind; [by apply keeps_field|]. intros _.
  by apply keeps_field.
Qed.

(** ** Edits

    An edit changes the body of the first message with its target. *)
Definition put_body (e : edit_event) (m : entry) : entry := m <| body := new_body e |> <| edited := true |> <| deleted := false |>.
Definition edit_list (e : edit_event) (l : list entry) : list entry :=
  default l (map_first (fun m => msg_id m =? target_msg_id e) (put_body e) l).
Definition has_id (mid : Z) (l : list entry) : bool := existsb (fun m => msg_id m =? mid) l.

Lemma has_id_first (g : entry -> entry) mid l :
  has_id mid l = match map_first (fun m => msg_id m =? mid) g l with Some _ => true | None => false end.
Proof.
  induction l as [|m l IH]; [done|]. cbn. destruct (msg_id m =? mid); [done|]. cbn. unfold has_id in IH. rewrite IH.
  by destruct (map_first _ _ l).
Qed.

Lemma update_run conv_id e p :
  update_message conv_id (target_msg_id e) (new_body e) true false p =
    (if has_id (target_msg_id e) (messages_of p conv_id)
     then (p <| hist ::= <[conv_id := edit_list e (messages_of p conv_id)]> |>, Ok true) else (p, Ok false)).
Proof.
  unfold update_message, st_bind, st_get, set_messages, st_modify, st_ret, edit_list.
  rewrite (has_id_first (put_body e)).
  change (fun m => m <| body := new_body e |> <| edited := true |> <| deleted := false |>) with (put_body e).
  by destruct (map_first _ (put_body e) _).
Qed.

Lemma edit_list_ids e l : map msg_id (edit_list e l) = map msg_id l.
Proof.
  unfold edit_list. destruct (map_first _ _ l) as [l'|] eqn:E; [|done]. by eapply (map_first_ids _ _ _ _ _ E).
  Unshelve. by intros [].
Qed.

Lemma has_id_spec mid l : has_id mid l = true <-> mid ∈ map msg_id l.
Proof.
  unfold has_id. rewrite existsb_exists, list_elem_of_In, in_map_iff. split.
  - intros (m & Hin & H). exists m. split; [lia|done].
  - intros (m & <- & Hin). exists m. split; [done|lia].
Qed.

Lemma edit_missing e l : has_id (target_msg_id e) l = false -> edit_list e l = l.
Proof. rewrite (has_id_first (put_body e)). unfold edit_list. by destruct (map_first _ _ l). Qed.

(** Edits of a history, and those that waited, one after the other. *)
Fixpoint edit_all (es : list edit_event) (l : list entry) : list entry :=
  match es with [] => l | e :: es => edit_all es (edit_list e l) end.

Lemma edit_all_ids es l : map msg_id (edit_all es l) = map msg_id l.
Proof. revert l. induction es as [|e es IH]; intros l; [done|]. cbn. by rewrite IH, edit_list_ids. Qed.

Lemma edit_all_app a b l : edit_all (a ++ b) l = edit_all b (edit_all a l).
Proof. revert l. induction a as [|e a IH]; intros l; [done|]. apply IH. Qed.

(** The timeline of [conv_id] is [l] and [w] are the edits that wait for it; nothing
    else has changed. *)
Record edited_to (conv_id : Z) (p p' : page) (l : list entry) (w : list edit_event) : Prop := {
  et_rest : exists h d, p' = p <| hist := h |> <| pending_edit_events := d |>;
  et_messages : messages_of p' conv_id = l;
  et_waiting : default [] (pending_edit_events p' !! conv_id) = w;
  et_others : forall c, c <> conv_id -> hist p' !! c = hist p !! c /\ pending_edit_events p' !! c = pending_edit_events p !! c
}.

Definition waiting (p : page) (conv_id : Z) : list edit_event := default [] (pending_edit_events p !! conv_id).
Definition misses (l : list entry) (e : edit_event) : bool := negb (has_id (target_msg_id e) l).

Lemma misses_edit l e e' : misses (edit_list e l) e' = misses l e'.
Proof. unfold misses. f_equal. apply eq_true_iff_eq. by rewrite !has_id_spec, edit_list_ids. Qed.

Lemma misses_edit_all es l e' : misses (edit_all es l) e' = misses l e'.
Proof. unfold misses. f_equal. apply eq_true_iff_eq. by rewrite !has_id_spec, edit_all_ids. Qed.

Lemma edited_refl conv_id p : edited_to conv_id p p (messages_of p conv_id) (waiting p conv_id).
Proof. split; try done. exists (hist p), (pending_edit_events p). by destruct p. Qed.

Lemma edited_trans conv_id p p' p'' l w l' w' :
  edited_to conv_id p p' l w -> edited_to conv_id p' p'' l' w' -> edited_to conv_id p p'' l' w'.
Proof.
  intros [(h & d & ->) _ _ Ho] [(h' & d' & ->) Hm Hw Ho']. split; [|done|done|].
  - exists h', d'. by destruct p.
  - intros c Hc. destruct (Ho c Hc) as [H1 H2], (Ho' c Hc) as [H3 H4]. by rewrite H3, H4.
Qed.

Lemma edit_run conv_id e p : exists p' b, apply_edit_event conv_id e p = (p', Ok b) /\
  edited_to conv_id p p' (edit_list e (messages_of p conv_id))
    (waiting p conv_id ++ List.filter (misses (messages_of p conv_id)) [e]).
Proof.
  unfold apply_edit_event, st_bind at 1. rewrite update_run. cbn [List.filter]. unfold misses.
  destruct (has_id _ _) eqn:E; cbn [negb].
  - eexists _, _. split; [reflexivity|]. rewrite app_nil_r. split; cbn.
    + eexists _, _. by destruct p.
    + unfold messages_of. cbn. by rewrite lookup_insert_eq.
    + done.
    + intros c Hc. by rewrite lookup_insert_ne by done.
  - eexists _, _. split; [reflexivity|]. rewrite (edit_missing e) by done. split; cbn.
    + eexists _, _. by destruct p.
    + done.
    + by rewrite lookup_insert_eq.
    + intros c Hc. by rewrite lookup_insert_ne by done.
Qed.

Lemma edits_run conv_id es p : exists p', st_for es (fun e => do! _ := apply_edit_event conv_id e in st_ret tt) p = (p', Ok tt) /\
  edited_to conv_id p p' (edit_all es (messages_of p conv_id))
    (waiting p conv_id ++ List.filter (misses (messages_of p conv_id)) es).
Proof.
  revert p. induction es as [|e es IH]; intros p; cbn [st_for edit_all].
  - exists p. rewrite app_nil_r. split; [done|apply edited_refl].
  - destruct (edit_run conv_id e p) as (p1 & b & E & H1). destruct (IH p1) as (p' & E' & H').
    exists p'. unfold st_bind, st_ret in *. rewrite E, E'. split; [done|].
    eapply edited_trans; [exact H1|]. destruct H1 as [_ Hm Hw _]. rewrite Hm in H'. unfold waiting in H'. rewrite Hw in H'.
    rewrite <- app_assoc in H'. cbn [List.filter app] in *.
    rewrite (filter_ext _ (misses (messages_of p conv_id))) in H' by (intros e'; apply misses_edit).
    by destruct (misses (messages_of p conv_id) e).
Qed.

Lemma pending_run conv_id p : exists p', _apply_pending_edit_events conv_id p = (p', Ok tt) /\
  edited_to conv_id p p' (edit_all (waiting p conv_id) (messages_of p conv_id))
    (List.filter (misses (messages_of p conv_id)) (waiting p conv_id)).
Proof.
  assert (Hfold : forall es acc p, exists p', st_fold (retry_edit conv_id) acc es p =
      (p', Ok (acc ++ List.filter (misses (messages_of p conv_id)) es)) /\
      edited_to conv_id p p' (edit_all es (messages_of p conv_id)) (waiting p conv_id)).
  { clear p. intros es. induction es as [|e es IH]; intros acc p; cbn [st_fold edit_all List.filter].
    - exists p. rewrite app_nil_r. split; [done|apply edited_refl].
    - unfold st_bind at 1. unfold retry_edit at 1, st_bind at 1. rewrite update_run. unfold misses at 1.
      destruct (has_id _ _) eqn:E; cbn [negb]; unfold st_ret.
      + set (p1 := p <| hist ::= _ |>). destruct (IH acc p1) as (p' & E' & H'). exists p'. rewrite E'.
        assert (Hm : messages_of p1 conv_id = edit_list e (messages_of p conv_id)).
        { unfold messages_of, p1. cbn. by rewrite lookup_insert_eq. }
        rewrite Hm in H' |- *. split; [by rewrite (filter_ext _ (misses (messages_of p conv_id))) by (intros; apply misses_edit)|].
        destruct H' as [(h & d & ->) H1 H2 Ho]. split; [exists h, d; by destruct p|done|done|].
        intros c Hc. destruct (Ho c Hc) as [H3 H4]. rewrite H3, H4. cbn. by rewrite lookup_insert_ne by done.
      + destruct (IH (acc ++ [e]) p) as (p' & E' & H'). exists p'. rewrite E', <- app_assoc. split; [done|].
        by rewrite edit_missing. }
  unfold _apply_pending_edit_events, st_bind at 1, st_get. unfold waiting at 1 2.
  destruct (default [] (pending_edit_events p !! conv_id)) as [|e es] eqn:Ew.
  - exists p. split; [done|]. cbn. replace [] with (waiting p conv_id) by done. apply edited_refl.
  - destruct (Hfold (e :: es) [] p) as (p1 & E1 & [(h & d & ->) Hm _ Ho]). unfold st_bind. rewrite E1. cbn [app].
    eexists. split; [reflexivity|]. generalize (List.filter (misses (messages_of p conv_id)) (e :: es)). intros w. split.
    + eexists _, _. by destruct p.
    + done.
    + cbn. destruct w; [by rewrite lookup_delete_eq|by rewrite lookup_insert_eq].
    + intros c Hc. destruct (Ho c Hc) as [H1 H2]. cbn in *. split; [done|].
      destruct w; [by rewrite lookup_delete_ne|by rewrite lookup_insert_ne].
Qed.

Lemma edit_all_missing es l : edit_all (List.filter (misses l) es) l = l.
Proof.
  induction es as [|e es IH]; [done|]. cbn. destruct (misses l e) eqn:E; [|done]. cbn.
  rewrite edit_missing; [done|]. unfold misses in E. by apply negb_true_iff.
Qed.

(** ** The order of the timeline *)

#[export] Instance place_ord : StrictOrd place_ltb.
Proof.
  split; unfold place_ltb.
  - intros [a [b c]]. cbn [fst snd]. lia.
  - intros [a [b c]] [a' [b' c']] [a'' [b'' c'']]. cbn [fst snd]. lia.
  - intros [a [b c]] [a' [b' c']] [a'' [b'' c'']]. cbn [fst snd]. lia.
Qed.

Lemma filter_perm {A} (f : A -> bool) l l' : l ≡ₚ l' -> List.filter f l ≡ₚ List.filter f l'.
Proof.
  induction 1 as [|x l l' H IH|x y l|l1 l2 l3 H1 IH1 H2 IH2]; cbn.
  - done.
  - destruct (f x); [by f_equiv|done].
  - destruct (f x), (f y); try done. apply Permutation_swap.
  - by etrans.
Qed.

Lemma positive_ids_perm l l' : l ≡ₚ l' -> positive_ids l ≡ₚ positive_ids l'.
Proof. intros H. apply filter_perm, Permutation_map, H. Qed.

Lemma positive_ids_sorted (L : list (place * entry)) :
  StronglySorted (le_of (by_key place_ltb fst)) L -> Forall (fun x => 0 < msg_id (snd x) -> fst (fst x) = msg_id (snd x)) L ->
  StronglySorted Z.le (positive_ids (map snd L)).
Proof.
  intros Hs Hf. induction Hs as [|x L Hs IH Hx]; [constructor|]. apply Forall_cons in Hf as [Hfx Hf].
  unfold positive_ids. cbn [map List.filter]. destruct (0 <? msg_id (snd x)) eqn:E; [|by apply IH]. apply Z.ltb_lt in E. constructor; [by apply IH|].
  apply Forall_forall. intros y Hy. apply elem_of_positive_ids in Hy as (Hy & m & Hin & <-).
  apply list_elem_of_fmap in Hin as (z & -> & Hin). rewrite Forall_forall in Hx, Hf. specialize (Hx _ Hin). specialize (Hf _ Hin Hy).
  specialize (Hfx E). unfold le_of, by_key, place_ltb in Hx.
  destruct x as [[a [b c]] mx], z as [[a' [b' c']] mz]. cbn [fst snd] in *. lia.
Qed.

Lemma sorted_nodup_lt l : StronglySorted Z.le l -> NoDup l -> StronglySorted Z.lt l.
Proof.
  induction 1 as [|x l Hs IH Hx]; intros Hn; [constructor|]. apply NoDup_cons in Hn as [Hnx Hn]. constructor; [by apply IH|].
  rewrite Forall_forall in *. intros y Hy. specialize (Hx y Hy). assert (x <> y) by (by intros ->). lia.
Qed.

(** A map of messages by identifier. *)
Definition keyed (d : gmap Z entry) : Prop := forall k m, d !! k = Some m -> msg_id m = k /\ 0 < k.
Definition shown (m : entry) : bool := negb (is_control_body (body m) && negb (deleted m)).

Lemma elem_merged d m : keyed d -> m ∈ merged_messages d <-> d !! msg_id m = Some m /\ shown m = true.
Proof.
  intros Hd. unfold merged_messages. rewrite list_elem_of_fmap. split.
  - intros ([k x] & -> & Hin). rewrite elem_of_isort, list_elem_of_In, filter_In, <- list_elem_of_In, elem_of_map_to_list in Hin.
    destruct Hin as [Hl Hs]. destruct (Hd k x Hl) as [<- Hk]. cbn in *. split; [done|]. apply andb_prop in Hs as [_ Hs]. exact Hs.
  - intros [Hl Hs]. exists (msg_id m, m). split; [done|].
    rewrite elem_of_isort, list_elem_of_In, filter_In, <- list_elem_of_In, elem_of_map_to_list. split; [done|].
    cbn. destruct (Hd _ _ Hl) as [_ Hk]. apply andb_true_intro. split; [lia|exact Hs].
Qed.

Lemma merged_nodup d : keyed d -> NoDup (map msg_id (merged_messages d)).
Proof.
  intros Hd. unfold merged_messages. set (L := List.filter _ _).
  assert (HL : Forall (fun x => msg_id (snd x) = fst x) L /\ NoDup (map fst L)).
  { unfold L. pose proof (NoDup_fst_map_to_list d) as Hn.
    assert (Hf : Forall (fun x => msg_id (snd x) = fst x) (map_to_list d)).
    { apply Forall_forall. intros [k m] Hin. apply elem_of_map_to_list in Hin. by destruct (Hd _ _ Hin). }
    revert Hn Hf. change (fst <$> map_to_list d) with (map fst (map_to_list d)).
    induction (map_to_list d) as [|x l IH]; [by split|]. intros [Hx Hn]%NoDup_cons [Hfx Hf]%Forall_cons. cbn.
    destruct (IH Hn Hf) as [H1 H2]. destruct (_ && _); [|by split]. split; [by constructor|]. cbn. apply NoDup_cons. split; [|done].
    intros Hin. apply Hx. apply list_elem_of_In, in_map_iff in Hin as (y & Hy & Hin). apply filter_In in Hin as [Hin _].
    rewrite <- Hy. apply list_elem_of_In. by apply in_map. }
  destruct HL as [H1 H2]. rewrite map_map. rewrite (map_ext_in _ fst).
  - by rewrite (Permutation_map fst (isort_perm (by_key Z.ltb fst) L)).
  - intros x Hin. rewrite Forall_forall in H1. apply H1. by rewrite <- (elem_of_isort (by_key Z.ltb fst)), list_elem_of_In.
Qed.

Lemma imap_place_events l : map snd (imap place_event l) = l.
Proof.
  unfold imap. enough (forall k, map snd (imap (fun i => place_event (k + i)) l) = l) as H by apply (H 0%nat).
  induction l as [|m l IH]; intros k; [done|]. cbn. f_equal. rewrite <- (IH (S k)) at 2. f_equal.
  apply imap_ext. intros i x _. cbn. f_equal. lia.
Qed.

Lemma timeline_perm messages events : timeline messages events ≡ₚ messages ++ events.
Proof.
  unfold timeline. rewrite (Permutation_map snd (isort_perm (by_key place_ltb fst) _)). rewrite map_app, imap_place_events.
  apply Permutation_app_tail. rewrite map_map. cbn. by rewrite map_id.
Qed.

(** Each message once, in the order of the identifiers. *)
Lemma timeline_ids messages events :
  Forall (fun m => 0 < msg_id m) messages -> NoDup (map msg_id messages) -> Forall (fun m => msg_id m <= 0) events ->
  StronglySorted Z.lt (positive_ids (timeline messages events)) /\ positive_ids (timeline messages events) ≡ₚ map msg_id messages.
Proof.
  intros Hm Hn He. assert (Hp : positive_ids (timeline messages events) ≡ₚ map msg_id messages).
  { rewrite (positive_ids_perm _ _ (timeline_perm messages events)), positive_ids_app, (positive_ids_local events), app_nil_r by done.
    clear Hn. unfold positive_ids. induction Hm as [|m l Hm Hl IH]; cbn [map List.filter]; [done|].
    assert (0 <? msg_id m = true) as -> by lia. by rewrite IH. }
  split; [|done]. apply sorted_nodup_lt; [|by rewrite Hp]. apply positive_ids_sorted; [apply isort_sorted; apply _|].
  apply Forall_forall. intros x Hx. rewrite elem_of_isort, elem_of_app in Hx. destruct Hx as [Hx|Hx].
  - by apply list_elem_of_fmap in Hx as (m & -> & _).
  - apply (list_elem_of_fmap_2 snd) in Hx. change (snd <$> imap place_event events) with (map snd (imap place_event events)) in Hx.
    rewrite imap_place_events in Hx. rewrite Forall_forall in He. specialize (He _ Hx). lia.
Qed.

(** ** Reading an answer *)

Lemma by_id_keyed l : keyed (by_id l).
Proof.
  unfold by_id. enough (forall d, keyed d -> keyed (fold_left (fun d m => if 0 <? msg_id m then <[msg_id m := m]> d else d) l d)) as H
    by (by apply H; intros ? ?; rewrite lookup_empty).
  induction l as [|m l IH]; intros d Hd; [done|]. cbn. apply IH. destruct (0 <? msg_id m) eqn:E; [|done].
  intros k x [[<- <-]|[_ Hx]]%lookup_insert_Some; [split; [done|lia]|by apply Hd].
Qed.

Lemma read_row_keyed existing acc row acc' : read_row existing acc row = Ok acc' -> keyed (fst acc) -> keyed (fst acc').
Proof.
  intros H Hd. unfold read_row in H. apply res_bind_ok in H as (m & _ & H). destruct (_ && _); [by apply Ok_inj in H as <-|].
  apply res_bind_ok in H as (target & _ & H). destruct (0 <? target).
  - destruct (_is_unavailable_history_body _); [by apply Ok_inj in H as <-|].
    apply res_bind_ok in H as (? & _ & H). apply res_bind_ok in H as (? & _ & H). by apply Ok_inj in H as <-.
  - apply res_bind_ok in H as (mid & _ & H). do 5 (apply res_bind_ok in H as (? & _ & H)). apply Ok_inj in H as <-. cbn [fst].
    destruct (0 <? mid) eqn:E; [|done]. intros k y [[<- <-]|[_ Hx]]%lookup_insert_Some; [|by apply Hd]. split; [|lia].
    destruct (existing !! mid) as [prev|]; [|done]. by destruct (_ && _).
Qed.

Lemma res_fold_inv {A B} (f : B -> A -> res B) (I : B -> Prop) l acc acc' :
  (forall b a b', I b -> f b a = Ok b' -> I b') -> res_fold f acc l = Ok acc' -> I acc -> I acc'.
Proof.
  intros Hf. revert acc. induction l as [|x l IH]; intros acc H HI; cbn in H; [by apply Ok_inj in H as <-|].
  apply res_bind_ok in H as (b & Hb & H). eapply IH; [exact H|]. by eapply Hf.
Qed.

Lemma rows_keyed existing rows acc : res_fold (read_row existing) (∅, []) rows = Ok acc -> keyed (fst acc).
Proof.
  intros H. apply (res_fold_inv (read_row existing) (fun b => keyed (fst b)) rows (∅, []) acc); [|done|].
  - intros b a b' Hb Ha. by eapply read_row_keyed.
  - cbn. intros ? ?. by rewrite lookup_empty.
Qed.

Lemma union_keyed d d' : keyed d -> keyed d' -> keyed (d ∪ d').
Proof. intros H H' k m [Hk|[_ Hk]]%lookup_union_Some_raw; [by apply H|by apply H']. Qed.

(** The system lines of an answer: no identifier of theirs is positive. *)
Lemma persisted_run conv_id events acc p p' acc' :
  st_fold (persisted_event conv_id) acc events p = (p', Ok acc') -> 0 <= failed_send_counter p ->
  Forall (fun m => msg_id m <= 0) (fst acc) ->
  Forall (fun m => msg_id m <= 0) (fst acc') /\ 0 <= failed_send_counter p' /\
  exists keys n, p' = p <| system_event_keys := keys |> <| failed_send_counter := n |>.
Proof.
  revert acc p. induction events as [|ev events IH]; intros acc p H Hc Hacc; cbn [st_fold] in H.
  - injection H as <- <-. split; [done|]. split; [done|]. exists (system_event_keys p), (failed_send_counter p). by destruct p.
  - unfold st_bind at 1 in H. destruct (persisted_event conv_id acc ev p) as [p1 [acc1|e]] eqn:E; [|discriminate H].
    assert (Forall (fun m => msg_id m <= 0) (fst acc1) /\ 0 <= failed_send_counter p1 /\
      exists keys n, p1 = p <| system_event_keys := keys |> <| failed_send_counter := n |>) as (H1 & H2 & keys & n & ->).
    { assert (Hsame : exists keys n, p = p <| system_event_keys := keys |> <| failed_send_counter := n |>).
      { exists (system_event_keys p), (failed_send_counter p). by destruct p. }
      assert (Hk : forall f, exists keys n, p <| system_event_keys ::= f |> = p <| system_event_keys := keys |> <| failed_send_counter := n |>).
      { intros f. exists (f (system_event_keys p)), (failed_send_counter p). by destruct p. }
      assert (Hk2 : forall f g, exists keys n, p <| system_event_keys ::= f |> <| failed_send_counter ::= g |> =
        p <| system_event_keys := keys |> <| failed_send_counter := n |>).
      { intros f g. exists (f (system_event_keys p)), (g (failed_send_counter p)). by destruct p. }
      unfold persisted_event in E. destruct (negb _); [by injection E as <- <-|]. destruct (existsb _ _); [by injection E as <- <-|].
      set (sid := try_int _) in E. unfold st_bind at 1, st_modify at 1 in E. destruct (0 <? sid) eqn:Es.
      - unfold st_bind, st_ret, st_lift in E. destruct (ts_short_v _) as [t|e]; [|discriminate E]. injection E as <- <-.
        split; [|split; [done|]].
        + apply Forall_app. split; [done|]. constructor; [|done]. change (- (1000000000 + sid) <= 0). lia.
        + by apply Hk.
      - unfold next_local_id, st_bind, st_ret, st_lift, st_get, st_modify in E. destruct (ts_short_v _) as [t|e]; [|discriminate E].
        apply pair_eq in E as [<- E]. apply Ok_inj in E as <-. split; [|split; [change (0 <= 1 + failed_send_counter p); lia|]].
        + apply Forall_app. split; [done|]. constructor; [|done]. change (- (1 + failed_send_counter p) <= 0). lia.
        + apply Hk2. }
    destruct (IH _ _ H H2 H1) as (H3 & H4 & keys' & n' & ->). split; [done|]. split; [done|].
    exists keys', n'. by destruct p.
Qed.

Lemma split_local_spec conv_id previous l :
  Forall (fun m => msg_id m <= 0) (fst (split_local conv_id previous l)) /\
  snd (split_local conv_id previous l) = List.filter (fun m => (msg_id m <=? 0) && negb (is_system m)) l.
Proof.
  revert previous. induction l as [|m l IH]; intros previous; cbn [split_local List.filter]; [by split|].
  destruct (0 <? msg_id m) eqn:E.
  - assert (msg_id m <=? 0 = false) as -> by lia. cbn [andb]. apply IH.
  - assert (msg_id m <=? 0 = true) as -> by lia. cbn [andb]. destruct (IH previous) as [H1 H2].
    destruct (split_local conv_id previous l) as [ev tr]. cbn [fst snd] in *. destruct (is_system m); cbn [negb fst snd].
    + split; [|done]. constructor; [cbn; lia|done].
    + split; [done|]. by rewrite H2.
Qed.

(** ** Merging a history *)

(** The state a history is read in: the messages of the answer, the edits in it, the
    system lines of the answer and those that are kept. *)
Record merge_of (conv_id : Z) (rows : list pyval) (events : list sys_event) (p : page)
    (incoming : gmap Z entry) (edits : list edit_event) (lines : list entry) : Prop := {
  mo_rows : res_fold (read_row (by_id (messages_of p conv_id))) (∅, []) rows = Ok (incoming, edits);
  mo_lines : Forall (fun m => msg_id m <= 0) lines
}.

Definition transient (p : page) (conv_id : Z) : list entry :=
  List.filter (fun m => (msg_id m <=? 0) && negb (is_system m)) (messages_of p conv_id).

Lemma history_run conv_id rows events p p' : 0 <= failed_send_counter p -> load_history conv_id rows events p = (p', Ok tt) ->
  exists incoming edits lines, merge_of conv_id rows events p incoming edits lines /\
    messages_of p' conv_id = edit_all (waiting p conv_id) (edit_all edits
      (timeline (merged_messages (incoming ∪ by_id (messages_of p conv_id))) lines ++ transient p conv_id)) /\
    conv_id ∈ history_loaded p'.
Proof.
  intros Hc H. unfold load_history in H. unfold st_bind at 1, st_modify at 1 in H. set (p0 := p <| history_loading ::= _ |>) in H.
  unfold st_bind at 1, st_get at 1 in H. change (messages_of p0 conv_id) with (messages_of p conv_id) in H.
  pose proof (split_local_spec conv_id 0 (messages_of p conv_id)) as [Hl Ht].
  destruct (split_local conv_id 0 (messages_of p conv_id)) as [local tr]. cbn [fst snd] in *. fold (transient p conv_id) in Ht.
  rewrite st_bind_lift in H. destruct (res_fold _ _ rows) as [[incoming edits]|e] eqn:Er; [|discriminate H].
  unfold st_bind at 1 in H. destruct (st_fold (persisted_event conv_id) _ events p0) as [p1 [[persisted keys]|e]] eqn:Ee; [|discriminate H].
  destruct (persisted_run _ _ _ _ _ _ Ee Hc) as (Hpers & _ & ks & n & ->); [constructor|]. cbn [fst] in Hpers.
  set (kept := List.filter _ local) in H. unfold st_bind at 1, st_modify at 1 in H. unfold st_bind at 1, set_messages at 1, st_modify at 1 in H.
  set (p2 := update hist _ _) in H.
  set (T := timeline _ _ ++ tr) in p2. assert (Hm2 : messages_of p2 conv_id = T) by (apply messages_insert with (h := hist p); done).
  assert (Hw2 : waiting p2 conv_id = waiting p conv_id) by done.
  unfold st_bind at 1 in H. destruct (edits_run conv_id edits p2) as (p3 & E3 & [_ Hm3 Hw3 _]). rewrite E3 in H.
  unfold st_bind at 1 in H. destruct (pending_run conv_id p3) as (p4 & E4 & [_ Hm4 _ _]). rewrite E4 in H.
  unfold st_bind at 1, st_modify at 1 in H. set (p5 := p4 <| history_loaded ::= _ |>) in H.
  assert (Hfin : hist p' = hist p5 /\ conv_id ∈ history_loaded p').
  { destruct (conv_id =? active_conv_id p0).
    - pose proof (mark_read_hist _ p5 eq_refl) as Hh. rewrite H in Hh. injection Hh as -> ->. split; [done|]. cbn. set_solver.
    - injection H as <-. split; [done|]. cbn. set_solver. }
  destruct Hfin as [Hh Hload]. exists incoming, edits, (persisted ++ kept). split; [|split; [|done]].
  - split; [done|]. apply Forall_app. split; [done|]. apply Forall_forall. intros m Hm. rewrite Forall_forall in Hl. apply Hl.
    apply list_elem_of_In, filter_In in Hm as [Hm _]. by apply list_elem_of_In.
  - unfold messages_of at 1. rewrite Hh. change (default [] (hist p5 !! conv_id)) with (messages_of p4 conv_id).
    rewrite Hm4, Hm3, Hm2. rewrite Hm2, Hw2 in Hw3. fold (waiting p3 conv_id) in Hw3. rewrite Hw3.
    rewrite edit_all_app. unfold T. rewrite Ht.
    rewrite (filter_ext _ (misses (edit_all (waiting p conv_id) (edit_all edits (timeline (merged_messages (incoming ∪ by_id (messages_of p conv_id))) (persisted ++ kept) ++ transient p conv_id)))))
      by (intros e'; by rewrite !misses_edit_all).
    by rewrite edit_all_missing.
Qed.

(** ** Input as the server writes it *)

Definition conv_okb (c : dict) : bool := is_ok (conv_id_of c) && is_ok (get_int0 "unread_count" c).
Definition convs_ok (p : page) : Prop := forallb conv_okb (dm_convs p) = true /\ forallb conv_okb (group_convs p) = true.

Definition row_okb (row : pyval) : bool :=
  match row with
  | PDict m => is_ok (get_int0 "edit_target_message_id" m) && is_ok (py_int (dget "id" (PInt 0) m))
      && is_ok (py_int (dget "sender_id" (PInt 0) m)) && is_ok (ts_short_v (dget "time" (PStr "") m))
      && is_ok (_normalize_reactions (dget "reactions" (PList []) m)) && is_ok (get_int0 "forwarded_from_id" m)
      && is_ok (get_int0 "reply_to_message_id" m)
  | _ => false
  end.
Definition event_okb (ev : sys_event) : bool :=
  is_ok (ts_short_v (dget "time" (dget "event_time" (PStr "") (se_fields ev)) (se_fields ev))).

Lemma find_conv_total cid l : forallb conv_okb l = true -> exists c, find_conv cid l = Ok c /\ (c = [] \/ conv_okb c = true).
Proof.
  induction l as [|c l IH]; cbn; [eauto|]. intros [Hc Hl]%andb_prop. pose proof Hc as Hc'.
  apply andb_prop in Hc as [[k Hk]%is_ok_inv _]. rewrite Hk. cbn. destruct (k =? cid); [by eauto|by apply IH].
Qed.

Lemma unread_total p cid : convs_ok p -> exists b, _conversation_has_unread_record p cid = Ok b.
Proof.
  intros [H1 H2]. unfold _conversation_has_unread_record, _conversation_record.
  destruct (find_conv_total cid (dm_convs p ++ group_convs p)) as (c & -> & Hc); [by rewrite forallb_app, H1, H2|].
  cbn [res_bind]. assert (exists n, get_int0 "unread_count" c = Ok n) as [n ->]; [|by eexists].
  destruct Hc as [->|Hc]; [by eexists|]. apply andb_prop in Hc as [_ Hc]. by apply is_ok_inv.
Qed.

Definition clear_pref : pref := no_pref <| p_unread := Some false |>.

Lemma clear_pref_ok c : conv_okb c = true -> exists c', apply_pref clear_pref c = Ok c' /\ conv_okb c' = true.
Proof.
  intros [Hc _]%andb_prop. eexists. split; [reflexivity|]. unfold conv_okb.
  assert (Hne : forall k v d, k <> "conversation_id" -> conv_id_of (dset k v d) = conv_id_of d).
  { intros k v d Hk. unfold conv_id_of, get_int0, dget. by rewrite dlookup_dset_ne. }
  cbn. rewrite !Hne by discriminate. rewrite Hc. cbn. unfold get_int0, dget. rewrite dlookup_dset_ne by discriminate.
  by rewrite dlookup_dset_eq.
Qed.

Lemma change_first_total cid l : forallb conv_okb l = true ->
  exists o, change_first cid clear_pref l = Ok o /\ match o with Some l' => forallb conv_okb l' = true | None => True end.
Proof.
  induction l as [|c l IH]; cbn [change_first forallb]; [by eexists|]. intros [Hc Hl]%andb_prop. pose proof Hc as Hc'.
  apply andb_prop in Hc as [[k Hk]%is_ok_inv _]. rewrite Hk. cbn [res_bind]. destruct (k =? cid).
  - destruct (clear_pref_ok c Hc') as (c' & -> & Hok). eexists. split; [reflexivity|]. cbn. by rewrite Hok, Hl.
  - destruct (IH Hl) as (o & -> & Ho). eexists. split; [reflexivity|]. destruct o; cbn; [by rewrite Hc', Ho|done].
Qed.

Lemma clear_unread_total cid p : convs_ok p -> exists p', clear_unread cid p = (p', Ok tt) /\ convs_ok p'.
Proof.
  intros [H1 H2]. unfold clear_unread, _update_conversation_pref. destruct (cid <=? 0); [by exists p|].
  unfold change_list. fold clear_pref. cbn [p_unread clear_pref no_pref p_muted].
  destruct (change_first_total cid (dm_convs p) H1) as (o1 & E1 & Ho1).
  destruct (change_first_total cid (group_convs p) H2) as (o2 & E2 & Ho2).
  unfold st_bind at 1. unfold st_bind at 1, st_get at 1. rewrite st_bind_lift, E1.
  destruct o1 as [l1|]; unfold st_ret at 1, st_modify at 1; unfold st_bind at 1; unfold st_bind at 1, st_get at 1;
    rewrite st_bind_lift; cbn [group_convs update]; rewrite E2; destruct o2 as [l2|]; eexists; (split; [reflexivity|]);
    by split.
Qed.

Lemma mark_read_total p : convs_ok p -> exists p', _mark_active_conversation_read p = (p', Ok tt).
Proof.
  intros H. unfold _mark_active_conversation_read, st_bind at 1, st_get at 1. destruct (_ <=? 0); [by eexists|].
  destruct (unread_total p (active_conv_id p) H) as [b Hb].
  assert (exists n, (if bool_decide (active_conv_id p ∈ pending_read_clear p) then st_ret true
                     else st_lift (_conversation_has_unread_record p (active_conv_id p))) p = (p, Ok n)) as [n En].
  { rewrite Hb. destruct (bool_decide _); by eexists. }
  unfold st_bind at 1. rewrite En. destruct (_ && _); [by eexists|].
  destruct (clear_unread_total (active_conv_id p) p H) as (p1 & E1 & _).
  destruct (metadata_protection p); [unfold st_bind; rewrite E1; by eexists|].
  destruct (_ && _); [unfold st_bind; rewrite E1; by eexists|].
  unfold st_bind at 1. destruct (0 <? _).
  - unfold st_modify at 1. set (p2 := update last_read_sent _ p).
    destruct (clear_unread_total (active_conv_id p) p2) as (p3 & E3 & _); [exact H|]. unfold st_bind. rewrite E3. by eexists.
  - unfold st_ret at 1. unfold st_bind. rewrite E1. by eexists.
Qed.

Lemma rows_read existing rows acc : forallb row_okb rows = true -> exists r, res_fold (read_row existing) acc rows = Ok r.
Proof.
  revert acc. induction rows as [|row rows IH]; intros acc; cbn [forallb res_fold]; [by eexists|].
  intros [Hr Hrows]%andb_prop. assert (exists a, read_row existing acc row = Ok a) as [a ->]; [|by apply IH].
  unfold row_okb in Hr. destruct row; try discriminate Hr. unfold read_row. cbn [as_dict res_bind].
  repeat (apply andb_prop in Hr as [Hr ?]).
  repeat match goal with H : is_ok _ = true |- _ => apply is_ok_inv in H as [? ->] end. cbn [res_bind].
  destruct (_ && _); [by eexists|]. destruct (0 <? _); [destruct (_is_unavailable_history_body _); by eexists|by eexists].
Qed.

Lemma events_total conv_id acc events p : forallb event_okb events = true ->
  exists p' r, st_fold (persisted_event conv_id) acc events p = (p', Ok r).
Proof.
  revert acc p. induction events as [|ev events IH]; intros acc p; cbn [forallb st_fold]; [by eexists _, _|].
  intros [[t He]%is_ok_inv Hes]%andb_prop. unfold st_bind at 1.
  assert (exists p1 r, persisted_event conv_id acc ev p = (p1, Ok r)) as (p1 & r & ->); [|by apply IH].
  unfold persisted_event. destruct (negb _); [by eexists _, _|]. destruct (existsb _ _); [by eexists _, _|].
  unfold st_bind at 1, st_modify at 1. destruct (0 <? _); unfold next_local_id, st_bind, st_ret, st_lift, st_modify, st_get;
    rewrite He; by eexists _, _.
Qed.

Lemma convs_edited conv_id p p' l w : edited_to conv_id p p' l w -> convs_ok p -> convs_ok p'.
Proof. intros [(h & d & ->) _ _ _] H. exact H. Qed.

(** A well-formed answer is read to its end. *)
Lemma history_total conv_id rows events p : 0 <= failed_send_counter p -> convs_ok p ->
  forallb row_okb rows = true -> forallb event_okb events = true ->
  exists p', load_history conv_id rows events p = (p', Ok tt).
Proof.
  intros Hc Hv Hr He. unfold load_history. unfold st_bind at 1, st_modify at 1. set (p0 := p <| history_loading ::= _ |>).
  unfold st_bind at 1, st_get at 1. destruct (split_local _ _ _) as [local tr]. rewrite st_bind_lift.
  destruct (rows_read (by_id (messages_of p0 conv_id)) rows (∅, []) Hr) as [[incoming edits] ->].
  unfold st_bind at 1. destruct (events_total conv_id ([], ∅) events p0 He) as (p1 & [persisted keys] & E1). rewrite E1.
  destruct (persisted_run _ _ _ _ _ _ E1 Hc) as (_ & _ & ks & n & ->); [constructor|].
  unfold st_bind at 1, st_modify at 1. unfold st_bind at 1, set_messages at 1, st_modify at 1. set (p2 := update hist _ _).
  unfold st_bind at 1. destruct (edits_run conv_id edits p2) as (p3 & -> & H3).
  unfold st_bind at 1. destruct (pending_run conv_id p3) as (p4 & -> & H4).
  assert (Hv4 : convs_ok p4) by (by apply (convs_edited _ _ _ _ _ H4), (convs_edited _ _ _ _ _ H3)).
  unfold st_bind at 1, st_modify at 1. destruct (_ =? _); [by apply mark_read_total|by eexists].
Qed.
