(* ===== verification/ChatPageProps.v ===== *)
(** * What the timeline of the chat page guarantees

    A history merged with what is already shown gives every message once, in the
    order of the identifiers; a text that was readable stays readable; an edit may
    come before its message; waiting bubbles are told apart. *)

From stdpp Require Import sorting.
From S2P Require Import Prelude Hashing Base64 PyVal Sorting Json Wire Utils ChatPage ChatPageFacts.

(** ** Rows and the messages they bring *)

(** The identifier under which a row is shown, 0 when it is not. *)
Definition row_message (row : pyval) : Z :=
  match row with
  | PDict m =>
      if is_control_body (dget "body" (PStr "") m) && negb (truthy (dget "deleted" (PBool false) m)) then 0
      else if 0 <? ok_or 0 (get_int0 "edit_target_message_id" m) then 0
      else ok_or 0 (py_int (dget "id" (PInt 0) m))
  | _ => 0
  end.

Lemma read_row_dom existing acc row acc' mid : read_row existing acc row = Ok acc' -> 0 < mid ->
  is_Some (fst acc' !! mid) <-> is_Some (fst acc !! mid) \/ row_message row = mid.
Proof.
  intros H Hm. unfold read_row in H. destruct row; cbn [as_dict] in H; try discriminate H. cbn [res_bind row_message] in *.
  destruct (_ && _); [apply Ok_inj in H as <-; naive_solver lia|].
  apply res_bind_ok in H as (target & -> & H). cbn [ok_or]. destruct (0 <? target).
  - destruct (_is_unavailable_history_body _); [apply Ok_inj in H as <-; naive_solver lia|].
    apply res_bind_ok in H as (? & _ & H). apply res_bind_ok in H as (? & _ & H). apply Ok_inj in H as <-. cbn. naive_solver lia.
  - apply res_bind_ok in H as (id & -> & H). do 5 (apply res_bind_ok in H as (? & _ & H)). apply Ok_inj in H as <-. cbn [fst ok_or].
    destruct (0 <? id) eqn:E; [|naive_solver lia]. rewrite lookup_insert_is_Some. destruct (decide (id = mid)); naive_solver.
Qed.

Lemma rows_dom existing rows acc acc' mid : res_fold (read_row existing) acc rows = Ok acc' -> 0 < mid ->
  is_Some (fst acc' !! mid) <-> is_Some (fst acc !! mid) \/ exists row, row ∈ rows /\ row_message row = mid.
Proof.
  intros H Hm. revert acc H. induction rows as [|row rows IH]; intros acc H; cbn in H.
  - apply Ok_inj in H as <-. set_solver.
  - apply res_bind_ok in H as (a & Ha & H). rewrite (IH _ H), (read_row_dom _ _ _ _ _ Ha Hm). set_solver.
Qed.

Lemma edit_all_positive es l : positive_ids (edit_all es l) = positive_ids l.
Proof. unfold positive_ids. by rewrite edit_all_ids. Qed.

Lemma transient_local p conv_id : Forall (fun m => msg_id m <= 0) (transient p conv_id).
Proof. apply Forall_forall. intros m [Hm _]%list_elem_of_In%filter_In%proj2%andb_prop. lia. Qed.

Lemma merged_positive d : keyed d -> Forall (fun m => 0 < msg_id m) (merged_messages d).
Proof. intros Hd. apply Forall_forall. intros m [Hl _]%elem_merged; [|done]. by destruct (Hd _ _ Hl). Qed.

(** The edit that a row asks for. *)
Definition row_edit (row : pyval) : option (Z * pyval) :=
  match row with
  | PDict m =>
      let b := dget "body" (PStr "") m in
      let target := ok_or 0 (get_int0 "edit_target_message_id" m) in
      if is_control_body b && negb (truthy (dget "deleted" (PBool false) m)) then None
      else if (0 <? target) && negb (_is_unavailable_history_body b) then Some (target, b) else None
  | _ => None
  end.

Lemma rows_edits existing rows acc acc' : res_fold (read_row existing) acc rows = Ok acc' ->
  map (fun e => (target_msg_id e, new_body e)) (snd acc') =
    map (fun e => (target_msg_id e, new_body e)) (snd acc) ++ omap row_edit rows.
Proof.
  revert acc. induction rows as [|row rows IH]; intros acc H; cbn in H; [apply Ok_inj in H as <-; by rewrite app_nil_r|].
  apply res_bind_ok in H as (a & Ha & H). rewrite (IH _ H). clear IH H. unfold read_row in Ha. cbn [omap list_omap].
  destruct row; cbn [as_dict] in Ha; try discriminate Ha. cbn [res_bind] in Ha. cbn [row_edit].
  destruct (is_control_body _ && _); [by apply Ok_inj in Ha as <-|]. apply res_bind_ok in Ha as (target & -> & Ha). cbn [ok_or].
  destruct (0 <? target); cbn [andb].
  - destruct (_is_unavailable_history_body _); cbn [negb]; [by apply Ok_inj in Ha as <-|].
    apply res_bind_ok in Ha as (? & _ & Ha). apply res_bind_ok in Ha as (? & _ & Ha). apply Ok_inj in Ha as <-.
    cbn [snd]. by rewrite map_app, <- app_assoc.
  - apply res_bind_ok in Ha as (mid & _ & Ha). do 5 (apply res_bind_ok in Ha as (? & _ & Ha)). by apply Ok_inj in Ha as <-.
Qed.

(** ** What a merge shows

    The row that counts for a message is the last one with its identifier. *)
Definition row_of (mid : Z) (rows : list pyval) : option pyval := last (List.filter (fun r => row_message r =? mid) rows).

(** The body of a row, or the one that was readable where the row has none to read. *)
Definition best_body (before : gmap Z entry) (mid : Z) (b : pyval) : pyval :=
  match before !! mid with
  | Some prev => if _is_unavailable_history_body b && negb (_is_unavailable_history_body (body prev)) then body prev else b
  | None => b
  end.

(** [m] shows the row [d] of the answer. *)
Record from_row (before : gmap Z entry) (d : dict) (m : entry) : Prop := {
  fr_id : py_int (dget "id" (PInt 0) d) = Ok (msg_id m);
  fr_sender : py_int (dget "sender_id" (PInt 0) d) = Ok (sender_id m);
  fr_body : body m = best_body before (msg_id m) (dget "body" (PStr "") d);
  fr_time : ts_short_v (dget "time" (PStr "") d) = Ok (ts m);
  fr_deleted : deleted m = truthy (dget "deleted" (PBool false) d);
  fr_pinned : pinned m = truthy (dget "pinned" (PBool false) d);
  fr_reactions : _normalize_reactions (dget "reactions" (PList []) d) = Ok (reactions m);
  fr_forwarded : get_int0 "forwarded_from_id" d = Ok (forwarded_from_id m);
  fr_reply : get_int0 "reply_to_message_id" d = Ok (reply_to_message_id m);
  fr_local : sending m = false /\ failed m = false /\ system m = false
}.

(** What the merge has under an identifier: the last row of the answer with it, or the
    message the timeline had. *)
Definition origin (before : list entry) (rows : list pyval) (mid : Z) (m : entry) : Prop :=
  match row_of mid rows with
  | Some row => exists d, row = PDict d /\ from_row (by_id before) d m
  | None => by_id before !! mid = Some m
  end.

(** The edits of a message: those of the answer, then those that waited for it; the last
    one counts. *)
Definition edit_of (mid : Z) (late : list (Z * pyval)) : option pyval := option_map snd (last (List.filter (fun x => fst x =? mid) late)).
Definition rewritten (o : option pyval) (m : entry) : entry :=
  match o with Some b => m <| body := b |> <| edited := true |> <| deleted := false |> | None => m end.
Definition edit_pair (e : edit_event) : Z * pyval := (target_msg_id e, new_body e).

Lemma read_row_entry existing acc row acc' mid m : read_row existing acc row = Ok acc' -> 0 < mid -> fst acc' !! mid = Some m ->
  if row_message row =? mid then exists d, row = PDict d /\ from_row existing d m else fst acc !! mid = Some m.
Proof.
  intros H Hm. unfold read_row in H. destruct row as [| | | | | |d]; cbn [as_dict] in H; try discriminate H. cbn [res_bind row_message] in *.
  destruct (_ && _); [apply Ok_inj in H as <-; by replace (0 =? mid) with false by lia|].
  apply res_bind_ok in H as (target & -> & H). cbn [ok_or]. destruct (0 <? target).
  { replace (0 =? mid) with false by lia. destruct (_is_unavailable_history_body _); [by apply Ok_inj in H as <-|].
    apply res_bind_ok in H as (? & _ & H). apply res_bind_ok in H as (? & _ & H). by apply Ok_inj in H as <-. }
  apply res_bind_ok in H as (id & Hid & H). rewrite Hid. cbn [ok_or]. apply res_bind_ok in H as (sender & Hs & H).
  apply res_bind_ok in H as (t & Ht & H). apply res_bind_ok in H as (rs & Hr & H). apply res_bind_ok in H as (fwd & Hf & H).
  apply res_bind_ok in H as (reply & Hy & H). apply Ok_inj in H as <-. cbn [fst]. destruct (id =? mid) eqn:E.
  - apply Z.eqb_eq in E as ->. replace (0 <? mid) with true by lia. rewrite lookup_insert_eq. intros [= <-]. exists d. split; [done|].
    destruct (existing !! mid) as [prev|] eqn:Ep; [destruct (_ && negb (_is_unavailable_history_body (body prev))) eqn:Eb|];
      (split; rewrite ?Hid, ?Hs, ?Ht, ?Hr, ?Hf, ?Hy; try done; unfold best_body;
       match goal with |- context [existing !! ?k] => change k with mid end; by rewrite Ep, ?Eb).
  - destruct (0 <? id); [|done]. by rewrite lookup_insert_ne by lia.
Qed.

Lemma res_fold_app {A B} (f : B -> A -> res B) acc l l' :
  res_fold f acc (l ++ l') = let! a := res_fold f acc l in res_fold f a l'.
Proof. revert acc. induction l as [|x l IH]; intros acc; cbn; [done|]. destruct (f acc x); [apply IH|done]. Qed.

Lemma rows_entry existing rows acc acc' mid m : res_fold (read_row existing) acc rows = Ok acc' -> 0 < mid -> fst acc' !! mid = Some m ->
  match row_of mid rows with
  | Some row => exists d, row = PDict d /\ from_row existing d m
  | None => fst acc !! mid = Some m
  end.
Proof.
  intros H Hm Hl. unfold row_of. revert acc' H Hl. induction rows as [|row rows IH] using rev_ind; intros acc' H Hl; cbn in *.
  { by apply Ok_inj in H as <-. }
  rewrite res_fold_app in H. apply res_bind_ok in H as (a & Ha & H). cbn in H. apply res_bind_ok in H as (a' & Ha' & H).
  apply Ok_inj in H as <-. pose proof (read_row_entry _ _ _ _ _ _ Ha' Hm Hl) as He. rewrite List.filter_app. cbn [List.filter].
  destruct (row_message row =? mid); [by rewrite last_snoc|]. rewrite app_nil_r. by eapply IH.
Qed.

(** With one message to an identifier, the last edit is the one that shows. *)
Lemma edited_once e l m : NoDup (positive_ids l) -> m ∈ edit_list e l -> 0 < msg_id m ->
  exists m0, m0 ∈ l /\ msg_id m0 = msg_id m /\ m = if target_msg_id e =? msg_id m then put_body e m0 else m0.
Proof.
  intros Hn Hm Hp. unfold edit_list in Hm. destruct (map_first _ _ l) as [l'|] eqn:E; cbn in Hm.
  - destruct (map_first_spec _ _ _ _ E) as (a & x & b & -> & Ha & Hx & ->). cbn in Hx. apply Z.eqb_eq in Hx.
    rewrite !positive_ids_app in Hn. rewrite Forall_forall in Ha. apply elem_of_app in Hm as [Hm|[->|Hm]%elem_of_cons].
    + specialize (Ha _ Hm). cbn in Ha. exists m. split; [set_solver|]. split; [done|]. by replace (target_msg_id e =? msg_id m) with false by lia.
    + exists x. split; [set_solver|]. split; [done|]. change (msg_id (put_body e x)) with (msg_id x). by rewrite <- Hx, Z.eqb_refl.
    + exists m. split; [set_solver|]. split; [done|]. destruct (target_msg_id e =? msg_id m) eqn:Ee; [|done]. exfalso.
      apply NoDup_app in Hn as (_ & _ & Hn). change (x :: b) with ([x] ++ b) in Hn. rewrite positive_ids_app in Hn.
      apply NoDup_app in Hn as (_ & Hn & _). apply (Hn (msg_id m)).
      * apply elem_of_positive_ids. split; [done|]. exists x. split; [set_solver|lia].
      * apply elem_of_positive_ids. split; [done|]. by exists m.
  - exists m. split; [done|]. split; [done|]. destruct (target_msg_id e =? msg_id m) eqn:Ee; [|done]. exfalso.
    apply map_first_none in E. assert (has_id (target_msg_id e) l = true) as Hh.
    { apply has_id_spec, list_elem_of_fmap. exists m. split; [lia|done]. }
    rewrite (has_id_first (put_body e)) in Hh. apply (map_first_none _ (put_body e)) in E. by rewrite E in Hh.
Qed.
Lemma edited_last es l m : NoDup (positive_ids l) -> m ∈ edit_all es l -> 0 < msg_id m ->
  exists m0, m0 ∈ l /\ msg_id m0 = msg_id m /\ m = rewritten (edit_of (msg_id m) (map edit_pair es)) m0.
Proof.
  intros Hn. revert m. induction es as [|e es IH] using rev_ind; intros m Hm Hp; [by exists m|].
  rewrite edit_all_app in Hm. cbn [edit_all] in Hm. destruct (edited_once e (edit_all es l) m) as (m1 & H1 & Hid & E2); [by rewrite edit_all_positive|done|done|].
  destruct (IH m1 H1) as (m0 & H0 & Hid0 & E1); [lia|]. exists m0. split; [done|]. split; [congruence|].
  unfold edit_of. rewrite map_app, List.filter_app. cbn [map List.filter edit_pair fst].
  rewrite Hid in E1. destruct (target_msg_id e =? msg_id m).
  - rewrite last_snoc. cbn [option_map snd rewritten]. transitivity (put_body e m1); [exact E2|]. rewrite E1.
    by destruct (edit_of _ _).
  - rewrite app_nil_r. exact (eq_trans E2 E1).
Qed.

(** The merged messages against the answer and the timeline before it. *)
Lemma row_of_some mid rows row : row_of mid rows = Some row -> row ∈ rows /\ row_message row = mid.
Proof.
  intros H%last_Some_elem_of. apply list_elem_of_In, filter_In in H as [H1 H2%Z.eqb_eq]. split; [by apply list_elem_of_In|done].
Qed.
Lemma row_of_is mid rows row : row ∈ rows -> row_message row = mid -> is_Some (row_of mid rows).
Proof.
  intros H1 H2. unfold row_of. apply last_is_Some. intros Hn. apply (elem_of_nil row). rewrite <- Hn.
  apply list_elem_of_In, filter_In. split; [by apply list_elem_of_In|by apply Z.eqb_eq].
Qed.
Lemma by_id_elem l mid m : by_id l !! mid = Some m -> m ∈ l.
Proof.
  unfold by_id. enough (forall d, fold_left (fun d m => if 0 <? msg_id m then <[msg_id m := m]> d else d) l d !! mid = Some m ->
    m ∈ l \/ d !! mid = Some m) as H by (intros Hm; destruct (H ∅ Hm) as [?|Hx]; [done|by rewrite lookup_empty in Hx]).
  induction l as [|x l IH]; intros d Hm; cbn in Hm; [by right|]. destruct (IH _ Hm) as [?|Hx]; [left; set_solver|].
  destruct (0 <? msg_id x); [|by right]. apply lookup_insert_Some in Hx as [[_ ->]|[_ Hx]]; [left; set_solver|by right].
Qed.
Lemma by_id_has l mid : mid ∈ positive_ids l -> is_Some (by_id l !! mid).
Proof.
  intros [Hp (m & Hm & <-)]%elem_of_positive_ids. unfold by_id. 
  enough (forall d, m ∈ l \/ is_Some (d !! msg_id m) ->
    is_Some (fold_left (fun d m => if 0 <? msg_id m then <[msg_id m := m]> d else d) l d !! msg_id m)) as H by (by apply H; left).
  clear Hm. induction l as [|x l IH]; intros d [H|H]; cbn; [by apply elem_of_nil in H|done|..].
  - apply IH. apply elem_of_cons in H as [<-|H]; [right|by left]. replace (0 <? msg_id m) with true by lia. rewrite lookup_insert_eq. by eexists.
  - apply IH. right. destruct (0 <? msg_id x); [|done]. rewrite lookup_insert_is_Some. destruct (decide (msg_id x = msg_id m)); auto.
Qed.

Section merged.
Variables (before : list entry) (rows : list pyval) (incoming : gmap Z entry) (edits : list edit_event).
Hypothesis Hrows : res_fold (read_row (by_id before)) (∅, []) rows = Ok (incoming, edits).
Let d := incoming ∪ by_id before.

Lemma incoming_row mid m : 0 < mid -> incoming !! mid = Some m ->
  exists row f, row_of mid rows = Some row /\ row = PDict f /\ from_row (by_id before) f m.
Proof using Hrows.
  intros Hp Hm. pose proof (rows_entry _ _ _ _ mid m Hrows Hp Hm) as He. destruct (row_of mid rows) as [row|]; [|done].
  destruct He as (f & Hf & He). by exists row, f.
Qed.
Lemma incoming_is mid : 0 < mid -> is_Some (incoming !! mid) <-> is_Some (row_of mid rows).
Proof using Hrows.
  intros Hp. pose proof (rows_dom _ _ _ _ mid Hrows Hp) as Hd. cbn [fst] in Hd. rewrite Hd, lookup_empty. split.
  - intros [[? [=]]|(row & H1 & H2)]. by eapply row_of_is.
  - intros [row Hrow]. right. exists row. by apply row_of_some.
Qed.

Lemma merged_origin mid m : keyed d -> d !! mid = Some m -> origin before rows mid m.
Proof using Hrows.
  intros Hk Hm. destruct (Hk _ _ Hm) as [_ Hp]. unfold origin. pose proof (incoming_is mid Hp) as Hi. apply lookup_union_Some_raw in Hm as [Hm|[Hn Hm]].
  - destruct (incoming_row mid m Hp Hm) as (row & f & -> & -> & Hf). by exists f.
  - destruct (row_of mid rows) as [row|]; [|done]. rewrite Hn in Hi. by destruct Hi as [_ [? [=]]].
Qed.

Lemma origin_merged mid m : 0 < mid -> origin before rows mid m -> exists m1, d !! mid = Some m1 /\ shown m1 = shown m.
Proof using Hrows.
  intros Hp Ho. unfold origin in Ho. pose proof (incoming_is mid Hp) as Hi. destruct (row_of mid rows) as [row|] eqn:Er.
  - destruct Ho as (f & -> & [F1 _ F3 _ F5 _ _ _ _ _]). destruct Hi as [_ [m1 H1]]; [done|]. exists m1.
    split; [by apply lookup_union_Some_l|]. destruct (incoming_row mid m1 Hp H1) as (? & f' & E & -> & [G1 _ G3 _ G5 _ _ _ _ _]).
    rewrite Er in E. injection E as <-. rewrite F1 in G1. injection G1 as G1. unfold shown. by rewrite G3, G5, F3, F5, G1.
  - exists m. split; [|done]. unfold d. rewrite lookup_union_r; [done|]. apply eq_None_not_Some. intros Hx. apply Hi in Hx. by destruct Hx as [? [=]].
Qed.

Lemma clean_shown mid : Forall (fun m => is_control_body (body m) = false) before -> 0 < mid ->
  (exists m, d !! mid = Some m /\ shown m = true) <-> (exists row, row ∈ rows /\ row_message row = mid) \/ mid ∈ positive_ids before.
Proof using Hrows.
  intros Hclean Hp. rewrite Forall_forall in Hclean. pose proof (incoming_is mid Hp) as Hi. split.
  - intros (m & [Hm|[_ Hm]]%lookup_union_Some_raw & _).
    + destruct Hi as [[row Hr] _]; [by exists m|]. left. exists row. by apply row_of_some.
    + right. apply elem_of_positive_ids. split; [done|]. exists m. split; [by eapply by_id_elem|]. by destruct (by_id_keyed _ _ _ Hm).
  - intros H. destruct (incoming !! mid) as [m|] eqn:Em.
    + exists m. split; [by apply lookup_union_Some_l|]. destruct (incoming_row mid m Hp Em) as (row & f & Hr & -> & [F1 _ F3 _ F5 _ _ _ _ _]).
      destruct (row_of_some _ _ _ Hr) as [_ Hmid]. unfold shown. rewrite F3, F5. unfold best_body.
      destruct (by_id before !! msg_id m) as [prev|] eqn:Ep.
      2:{ unfold row_message in Hmid. destruct (_ && _); [lia|done]. }
      destruct (_is_unavailable_history_body (dget "body" (PStr "") f) && negb (_is_unavailable_history_body (body prev))).
      * by rewrite (Hclean prev) by (by eapply by_id_elem).
      * unfold row_message in Hmid. destruct (_ && _); [lia|done].
    + destruct H as [(row & H1 & H2)|H].
      * exfalso. destruct Hi as [_ Hi]. destruct Hi as [? [=]]. by eapply row_of_is.
      * destruct (by_id_has _ _ H) as [m Hm]. exists m. split; [unfold d; by rewrite lookup_union_r|]. unfold shown. by rewrite (Hclean m) by (by eapply by_id_elem).
Qed.
End merged.

(** C20: A well-formed answer of the server is merged to its end. The timeline then has a
    line for a message exactly when the answer has a row for it or the timeline had
    it before, save for control messages (the first equivalence; the second one where
    the timeline had none). Each line shows the last row of the answer for its
    message (sender, text, time, reactions and the rest, an unreadable text giving
    way to the one that was shown), or else what was there, with the last edit of the
    answer or of those that waited. There is one line to a message, in the order of the
    identifiers, and the bubbles that wait for the server stay last and in their
    order. *)
Theorem history_each_message_once conv_id rows events p
    (Hc : 0 <= failed_send_counter p) (Hv : convs_ok p)
    (Hr : forallb row_okb rows = true) (He : forallb event_okb events = true) :
  let before := messages_of p conv_id in
  let late := omap row_edit rows ++ map edit_pair (waiting p conv_id) in
  exists p', load_history conv_id rows events p = (p', Ok tt) /\
    (forall mid, mid ∈ positive_ids (messages_of p' conv_id) <-> 0 < mid /\ exists m0, origin before rows mid m0 /\ shown m0 = true) /\
    (Forall (fun m => is_control_body (body m) = false) before ->
     forall mid, 0 < mid -> (mid ∈ positive_ids (messages_of p' conv_id) <->
       (exists row, row ∈ rows /\ row_message row = mid) \/ mid ∈ positive_ids before)) /\
    (forall m, m ∈ messages_of p' conv_id -> 0 < msg_id m ->
       exists m0, origin before rows (msg_id m) m0 /\ msg_id m0 = msg_id m /\ shown m0 = true /\
         m = rewritten (edit_of (msg_id m) late) m0) /\
    StronglySorted Z.lt (positive_ids (messages_of p' conv_id)) /\
    (exists front, map msg_id (messages_of p' conv_id) = front ++ map msg_id (transient p conv_id)) /\
    conv_id ∈ history_loaded p'.
Proof.
  intros before late. destruct (history_total conv_id rows events p Hc Hv Hr He) as [p' Hrun].
  destruct (history_run conv_id rows events p p' Hc Hrun) as (incoming & edits & lines & [Hrows Hlines] & Hmsgs & Hload).
  fold before in Hrows, Hmsgs. exists p'. pose proof (rows_keyed _ _ _ Hrows) as Hk. cbn [fst] in Hk.
  set (d := incoming ∪ by_id before) in *. assert (Hu : keyed d) by exact (union_keyed _ _ Hk (by_id_keyed before)).
  destruct (timeline_ids _ lines (merged_positive _ Hu) (merged_nodup _ Hu) Hlines) as [Hs Hp].
  assert (Hids : positive_ids (messages_of p' conv_id) = positive_ids (timeline (merged_messages d) lines)).
  { rewrite Hmsgs, !edit_all_positive, positive_ids_app, (positive_ids_local (transient p conv_id)) by apply transient_local.
    by rewrite app_nil_r. }
  assert (Hlist : forall mid, mid ∈ positive_ids (messages_of p' conv_id) <-> exists m0, d !! mid = Some m0 /\ shown m0 = true).
  { intros mid. rewrite Hids, Hp. rewrite list_elem_of_fmap. setoid_rewrite elem_merged; [|done]. split.
    - intros (m & -> & Hm & Hsh). by exists m.
    - intros (m & Hm & Hsh). destruct (Hu _ _ Hm) as [<- _]. by exists m. }
  assert (Hfrom : forall mid m0, d !! mid = Some m0 -> origin before rows mid m0) by (intros; by eapply merged_origin).
  assert (Hsame : forall mid m0, 0 < mid -> origin before rows mid m0 -> exists m1, d !! mid = Some m1 /\ shown m1 = shown m0)
    by (intros; by eapply origin_merged).
  split; [done|]. split; [|split; [|split; [|split; [by rewrite Hids|split; [|done]]]]].
  - intros mid. rewrite Hlist. split.
    + intros (m0 & Hm & Hsh). destruct (Hu _ _ Hm) as [_ Hpos]. split; [done|]. exists m0. auto.
    + intros (Hpos & m0 & Ho & Hsh). destruct (Hsame _ _ Hpos Ho) as (m1 & H1 & E1). exists m1. by rewrite E1.
  - intros Hclean mid Hpos. rewrite Hlist. by eapply clean_shown.
  - intros m Hm Hpos. rewrite Hmsgs, <- edit_all_app in Hm. apply edited_last in Hm as (m0 & H0 & Hid & E0); [|by rewrite positive_ids_app, (positive_ids_local (transient p conv_id)), app_nil_r, Hp by apply transient_local; apply merged_nodup|done].
    apply elem_of_app in H0 as [H0|H0].
    2:{ pose proof (transient_local p conv_id) as Ht. rewrite Forall_forall in Ht. specialize (Ht _ H0). lia. }
    rewrite (timeline_perm _ _), elem_of_app in H0. destruct H0 as [H0|H0].
    2:{ rewrite Forall_forall in Hlines. specialize (Hlines _ H0). lia. }
    apply elem_merged in H0 as [Hd Hsh]; [|done]. exists m0. rewrite <- Hid. split; [by apply Hfrom|]. split; [done|]. split; [done|].
    rewrite Hid. rewrite map_app in E0. pose proof (rows_edits _ _ _ _ Hrows) as Hpairs. cbn [snd map app] in Hpairs.
    unfold late. by rewrite <- Hpairs.
  - rewrite Hmsgs, !edit_all_ids, map_app. by eexists.
Qed.

(** ** Readable text *)

Lemma edit_all_body es l m : m ∈ edit_all es l ->
  exists m0, m0 ∈ l /\ msg_id m0 = msg_id m /\
    (body m = body m0 \/ exists e, e ∈ es /\ target_msg_id e = msg_id m /\ body m = new_body e).
Proof.
  revert l. induction es as [|e es IH]; intros l Hm; cbn in Hm; [by exists m; eauto|].
  destruct (IH _ Hm) as (m1 & H1 & Hid & Hb). unfold edit_list in H1.
  destruct (map_first _ _ l) as [l'|] eqn:E; [|exists m1; set_solver].
  destruct (map_first_spec _ _ _ _ E) as (a & x & b & -> & _ & Hx & ->). change (m1 ∈ a ++ put_body e x :: b) in H1. rewrite elem_of_app, elem_of_cons in H1.
  destruct H1 as [H1|[->|H1]]; [exists m1; set_solver| |exists m1; set_solver].
  exists x. split; [set_solver|]. split; [exact Hid|]. right. destruct Hb as [Hb|(e' & He & Ht & Hb)].
  - exists e. split; [set_solver|]. split; [|exact Hb]. rewrite <- Hid. cbn. lia.
  - exists e'. set_solver.
Qed.

Definition readable (b : pyval) : Prop := _is_unavailable_history_body b = false.

(** What a row does to the message [mid] that is already shown as [prev]. *)
Definition keeps_text (mid : Z) (prev : entry) (acc : gmap Z entry * list edit_event) : Prop :=
  (forall m, fst acc !! mid = Some m -> readable (body m) /\ (is_control_body (body prev) = false -> shown m = true)) /\
  Forall (fun e => readable (new_body e)) (snd acc).

Lemma read_row_readable existing acc row acc' mid prev : read_row existing acc row = Ok acc' ->
  existing !! mid = Some prev -> readable (body prev) -> keeps_text mid prev acc -> keeps_text mid prev acc'.
Proof.
  intros H He Hp [H1 H2]. unfold read_row in H. apply res_bind_ok in H as (d & _ & H).
  destruct (is_control_body _ && _) eqn:Ec; [by apply Ok_inj in H as <-|]. apply res_bind_ok in H as (target & _ & H). destruct (0 <? target).
  - destruct (_is_unavailable_history_body _) eqn:Eb; [by apply Ok_inj in H as <-|].
    apply res_bind_ok in H as (? & _ & H). apply res_bind_ok in H as (? & _ & H). apply Ok_inj in H as <-. split; [done|].
    apply Forall_app. split; [done|]. by constructor.
  - apply res_bind_ok in H as (id & _ & H). do 5 (apply res_bind_ok in H as (? & _ & H)). apply Ok_inj in H as <-. cbn [fst snd].
    split; [|done]. cbn [fst]. intros m. destruct (0 <? id); [|apply H1]. intros [[-> <-]|[_ Hm]]%lookup_insert_Some; [|by apply H1].
    rewrite He. unfold readable, shown in *. rewrite Hp. cbn [negb]. rewrite andb_true_r.
    destruct (_is_unavailable_history_body (dget "body" _ d)) eqn:Eb; (split; [done|intros Hctl]); cbn [body deleted plain_entry update entry_eta].
    + by rewrite Hctl.
    + by rewrite Ec.
Qed.

(** C23: A text that this device could read is never replaced by a placeholder. When a
    history is merged, a message that was shown with a readable body keeps one: the
    body of the answer when that is readable, else the one that was shown, whatever
    edits the answer brings, and as long as the edits that waited for it are
    readable themselves. *)
Theorem readable_text_kept conv_id rows events p p' mid m
    (Hc : 0 <= failed_send_counter p) (Hrun : load_history conv_id rows events p = (p', Ok tt))
    (Hm : by_id (messages_of p conv_id) !! mid = Some m) (Hb : readable (body m))
    (Hw : Forall (fun e => target_msg_id e = mid -> readable (new_body e)) (waiting p conv_id)) :
  (forall m', m' ∈ messages_of p' conv_id -> msg_id m' = mid -> readable (body m')) /\
  (is_control_body (body m) = false -> mid ∈ positive_ids (messages_of p' conv_id)).
Proof.
  destruct (history_run conv_id rows events p p' Hc Hrun) as (incoming & edits & lines & [Hrows Hlines] & Hmsgs & _).
  pose proof (by_id_keyed (messages_of p conv_id)) as Hko. destruct (Hko _ _ Hm) as [Hid Hpos].
  pose proof (rows_keyed _ _ _ Hrows) as Hk. cbn [fst] in Hk. pose proof (union_keyed _ _ Hk Hko) as Hu.
  assert (keeps_text mid m (incoming, edits)) as [Hin Hed].
  { apply (res_fold_inv (read_row (by_id (messages_of p conv_id))) (keeps_text mid m) rows (∅, []) (incoming, edits));
      [|exact Hrows|by split]. intros acc row acc' HI Hacc. by eapply read_row_readable. }
  cbn [fst snd] in *.
  assert (exists x, (incoming ∪ by_id (messages_of p conv_id)) !! mid = Some x /\ readable (body x) /\
      (is_control_body (body m) = false -> shown x = true)) as (x & Hx & Hxb & Hsh).
  { destruct (incoming !! mid) as [x|] eqn:Ei.
    - exists x. split; [by apply lookup_union_Some_l|]. by apply Hin.
    - exists m. rewrite lookup_union_r by done. split; [done|]. split; [done|]. intros Hctl. unfold shown. by rewrite Hctl. }
  split.
  - intros m' Hm' Hid'. rewrite Hmsgs in Hm'. destruct (edit_all_body _ _ _ Hm') as (m1 & Hm1 & Hid1 & Hb1).
    destruct (edit_all_body _ _ _ Hm1) as (m2 & Hm2 & Hid2 & Hb2).
    assert (Hb2' : readable (body m2)).
    { apply elem_of_app in Hm2 as [Hm2|Hm2].
      - rewrite (timeline_perm _ _), elem_of_app in Hm2. destruct Hm2 as [Hm2|Hm2].
        + apply elem_merged in Hm2 as [Hl _]; [|done]. replace (msg_id m2) with mid in Hl by congruence. congruence.
        + rewrite Forall_forall in Hlines. specialize (Hlines _ Hm2). lia.
      - pose proof (transient_local p conv_id) as Ht. rewrite Forall_forall in Ht. specialize (Ht _ Hm2). lia. }
    rewrite Forall_forall in Hed, Hw. unfold readable in *.
    destruct Hb1 as [->|(e & He & Ht & ->)]; [|apply Hw; [done|congruence]].
    destruct Hb2 as [->|(e & He & Ht & ->)]; [done|by apply Hed].
  - intros Hctl. rewrite Hmsgs, !edit_all_positive, positive_ids_app. apply elem_of_app. left.
    destruct (timeline_ids _ lines (merged_positive _ Hu) (merged_nodup _ Hu) Hlines) as [_ ->].
    apply list_elem_of_fmap. exists x. destruct (Hu _ _ Hx) as [Hxi _]. split; [done|]. apply elem_merged; [done|]. rewrite Hxi. auto.
Qed.

(** ** Edits *)

(** The message a live delivery shows. *)
Definition live_entry (sender : Z) (b : pyval) (t : string) (mid : Z) (pin : bool) (rs : list (string * reaction)) (fwd reply : Z) : entry :=
  (plain_entry sender b t mid) <| pinned := pin |> <| reactions := rs |> <| forwarded_from_id := fwd |>
    <| reply_to_message_id := reply |>.

Lemma muted_total p cid : convs_ok p -> exists b, _is_conversation_muted p cid = Ok b.
Proof.
  intros [H1 H2]. unfold _is_conversation_muted, _conversation_record.
  destruct (find_conv_total cid (dm_convs p ++ group_convs p)) as (c & -> & _); [by rewrite forallb_app, H1, H2|]. by eexists.
Qed.

Lemma add_run conv_id sender b t mid pin reacts fwd reply p rs :
  _normalize_reactions (py_or reacts (PList [])) = Ok rs -> convs_ok p ->
  exists p', add_msg conv_id sender b t mid pin reacts fwd reply p = (p', Ok tt) /\
    messages_of p' conv_id = edit_all (waiting p conv_id) (messages_of p conv_id ++ [live_entry sender b t mid pin rs fwd reply]) /\
    waiting p' conv_id =
      List.filter (misses (messages_of p conv_id ++ [live_entry sender b t mid pin rs fwd reply])) (waiting p conv_id).
Proof.
  intros Hrs Hv. unfold add_msg. rewrite st_bind_lift, Hrs. fold (live_entry sender b t mid pin rs fwd reply).
  set (m := live_entry _ _ _ _ _ _ _ _). unfold append_entry. unfold st_bind at 1, st_bind at 1, st_get at 1, set_messages at 1, st_modify at 1.
  set (p1 := p <| hist ::= _ |>). assert (Hm1 : messages_of p1 conv_id = messages_of p conv_id ++ [m]).
  { by apply messages_insert with (h := hist p). }
  unfold st_bind at 1. destruct (pending_run conv_id p1) as (p2 & -> & H2). unfold st_bind at 1, st_get at 1.
  pose proof (convs_edited _ _ _ _ _ H2 Hv) as Hv2. destruct H2 as [_ Hm2 Hw2 _]. rewrite Hm1 in Hm2, Hw2.
  change (waiting p1 conv_id) with (waiting p conv_id) in Hm2, Hw2. destruct (_ && _).
  - destruct (mark_read_total p2 Hv2) as [p3 E3]. exists p3. split; [done|].
    pose proof (mark_read_hist _ p2 eq_refl) as Hh. rewrite E3 in Hh. apply pair_eq in Hh as [[[Hh _]%pair_eq Hd]%pair_eq _]. cbn [fst] in Hh, Hd.
    unfold waiting, messages_of in *. by rewrite Hh, Hd.
  - destruct (_ && notifications_enabled _); [|by exists p2]. rewrite st_bind_lift. destruct (muted_total p2 conv_id Hv2) as [mu ->].
    by destruct mu; eexists.
Qed.

(** It does not matter whether an edit or the message it edits arrives first. For
    a message that is not shown yet, delivering the edit and then the message, or
    the message and then the edit, gives the same timeline, and the same edits
    wait for other messages. *)
Theorem edit_order_irrelevant conv_id sender b t mid pin reacts fwd reply e p rs
    (Hrs : _normalize_reactions (py_or reacts (PList [])) = Ok rs) (Hv : convs_ok p)
    (Ht : target_msg_id e = mid) (Hnew : has_id mid (messages_of p conv_id) = false) :
  let deliver := add_msg conv_id sender b t mid pin reacts fwd reply in
  exists p1 p2, st_bind (apply_edit_event conv_id e) (fun _ => deliver) p = (p1, Ok tt) /\
    st_bind deliver (fun _ => apply_edit_event conv_id e) p = (p2, Ok true) /\
    messages_of p1 conv_id = messages_of p2 conv_id /\ waiting p1 conv_id = waiting p2 conv_id /\
    (exists m, m ∈ messages_of p1 conv_id /\ msg_id m = mid /\ body m = new_body e /\ edited m = true).
Proof.
  intros deliver. set (m := live_entry sender b t mid pin rs fwd reply). set (l := messages_of p conv_id ++ [m]).
  assert (Hin : has_id (target_msg_id e) l = true).
  { unfold l, has_id. rewrite existsb_app. apply orb_true_intro. right. cbn. rewrite Ht. by rewrite Z.eqb_refl. }
  assert (Hmiss : misses l e = false) by (unfold misses; by rewrite Hin).
  destruct (edit_run conv_id e p) as (pe & ok & Ee & He). pose proof (convs_edited _ _ _ _ _ He Hv) as Hve.
  destruct He as [_ Hme Hwe _]. rewrite edit_missing in Hme by (by rewrite Ht). cbn [List.filter] in Hwe. unfold misses at 1 in Hwe.
  rewrite Ht, Hnew in Hwe. cbn [negb] in Hwe. fold (waiting pe conv_id) in Hwe.
  destruct (add_run conv_id sender b t mid pin reacts fwd reply pe rs Hrs Hve) as (p1 & E1 & Hm1 & Hw1).
  destruct (add_run conv_id sender b t mid pin reacts fwd reply p rs Hrs Hv) as (pa & Ea & Hma & Hwa).
  destruct (edit_run conv_id e pa) as (p2 & ok2 & E2 & [_ Hm2 Hw2 _]).
  rewrite Hme, Hwe in Hm1, Hw1. fold m in Hm1, Hw1, Hma, Hwa. fold l in Hm1, Hw1, Hma, Hwa.
  exists p1, p2. unfold st_bind. rewrite Ee. unfold deliver. rewrite E1, Ea. split; [done|]. split; [|split; [|split]].
  - rewrite E2. f_equal. f_equal. unfold apply_edit_event, st_bind in E2. rewrite update_run, Hma in E2.
    replace (has_id (target_msg_id e) (edit_all (waiting p conv_id) l)) with true in E2; [by injection E2|].
    symmetry. rewrite has_id_spec, edit_all_ids, <- has_id_spec. exact Hin.
  - rewrite Hm1, Hm2, Hma, edit_all_app. done.
  - unfold waiting at 2. rewrite Hw1, Hw2, Hwa, Hma, !List.filter_app. cbn [List.filter]. rewrite misses_edit_all, Hmiss. by rewrite !app_nil_r.
  - rewrite Hm1, edit_all_app. cbn [edit_all]. set (l2 := edit_all _ l). unfold edit_list.
    destruct (map_first (fun m => msg_id m =? target_msg_id e) (put_body e) l2) as [l3|] eqn:E3.
    + destruct (map_first_spec _ _ _ _ E3) as (a & x & c & _ & _ & Hx & ->). exists (put_body e x). cbn [default]. cbn in Hx.
      split; [change (put_body e x ∈ a ++ put_body e x :: c); set_solver|]. split; [cbn; lia|done].
    + apply map_first_none in E3. assert (has_id (target_msg_id e) l2 = true) as Hh.
      { unfold l2. by rewrite has_id_spec, edit_all_ids, <- has_id_spec. }
      rewrite (has_id_first (put_body e)) in Hh. apply (map_first_none _ (put_body e)) in E3. by rewrite E3 in Hh.
Qed.

(** ** Deleted messages *)

(** The message that an edit of [mid] reaches. *)
Definition first_with (mid : Z) (l : list entry) : option entry := List.find (fun m => msg_id m =? mid) l.

Lemma first_map (g : entry -> entry) mid l l' : (forall m, msg_id (g m) = msg_id m) ->
  map_first (fun m => msg_id m =? mid) g l = Some l' -> exists x, first_with mid l = Some x /\ first_with mid l' = Some (g x).
Proof.
  intros Hg. revert l'. induction l as [|m l IH]; intros l' H; cbn in H; [done|]. cbn. destruct (msg_id m =? mid) eqn:E.
  - injection H as <-. exists m. split; [done|]. cbn. by rewrite Hg, E.
  - destruct (map_first _ g l) as [l1|]; [|done]. injection H as <-. cbn. rewrite E. by apply IH.
Qed.

Lemma first_other e mid l : target_msg_id e <> mid -> first_with mid (edit_list e l) = first_with mid l.
Proof.
  intros Hne. unfold edit_list. destruct (map_first _ _ l) as [l'|] eqn:E; [|done].
  destruct (map_first_spec _ _ _ _ E) as (a & x & b & -> & _ & Hx & ->). cbv beta in Hx. apply Z.eqb_eq in Hx.
  change (first_with mid (a ++ put_body e x :: b) = first_with mid (a ++ x :: b)). clear E. induction a as [|m a IH]; cbn.
  - by assert (msg_id x =? mid = false) as -> by lia.
  - unfold first_with in IH. by destruct (msg_id m =? mid).
Qed.

Lemma first_has mid l : has_id mid l = match first_with mid l with Some _ => true | None => false end.
Proof. unfold has_id, first_with. induction l as [|m l IH]; [done|]. cbn. by destruct (msg_id m =? mid). Qed.

(** The last edit of a message is the one that shows. *)
Lemma first_edited es mid l e : first_with mid l <> None -> last (List.filter (fun e => target_msg_id e =? mid) es) = Some e ->
  exists m, first_with mid (edit_all es l) = Some (put_body e m).
Proof.
  intros Hl. induction es as [|e' es IH] using rev_ind; [done|]. rewrite List.filter_app, edit_all_app. cbn [edit_all List.filter].
  set (l1 := edit_all es l) in *. destruct (target_msg_id e' =? mid) eqn:E.
  - rewrite last_snoc. intros [= ->]. apply Z.eqb_eq in E as <-. unfold edit_list.
    destruct (map_first _ (put_body e) l1) as [l'|] eqn:E1.
    + destruct (first_map (put_body e) _ _ _ (fun m => eq_refl) E1) as (x & _ & Hx). by exists x.
    + assert (Hh : has_id (target_msg_id e) l1 = true).
      { unfold l1. rewrite has_id_spec, edit_all_ids, <- has_id_spec, first_has. by destruct (first_with _ l). }
      rewrite (has_id_first (put_body e)), E1 in Hh. discriminate Hh.
  - rewrite app_nil_r. intros He. rewrite first_other by lia. by apply IH.
Qed.

Lemma last_fmap_filter (es : list edit_event) mid tb :
  last (List.filter (fun x => fst x =? mid) (map (fun e => (target_msg_id e, new_body e)) es)) = Some tb ->
  exists e, last (List.filter (fun e => target_msg_id e =? mid) es) = Some e /\ (target_msg_id e, new_body e) = tb.
Proof.
  induction es as [|e es IH] using rev_ind; [done|]. rewrite map_app, !List.filter_app. cbn.
  destruct (target_msg_id e =? mid); [|by rewrite !app_nil_r]. rewrite !last_snoc. intros [= <-]. by exists e.
Qed.

(** An edit in an answer of the server shows its message, whatever the message row
    says: when a history has a row that edits [mid] (and no other edit of it waits),
    the timeline shows [mid] with the body of the last such row, marked as edited
    and not deleted. The server keeps the edit rows of a message that its author
    deletes, so the text of a deleted message that had been edited comes back when
    the history is loaded again. *)
Theorem deleted_message_returns conv_id rows events p p' mid b
    (Hc : 0 <= failed_send_counter p) (Hrun : load_history conv_id rows events p = (p', Ok tt))
    (Hlast : last (List.filter (fun x => fst x =? mid) (omap row_edit rows)) = Some (mid, b))
    (Hw : Forall (fun e => target_msg_id e <> mid) (waiting p conv_id))
    (Hin : mid ∈ positive_ids (messages_of p' conv_id)) :
  exists m, _find_message p' conv_id mid = Some m /\ body m = b /\ edited m = true /\ deleted m = false.
Proof.
  destruct (history_run conv_id rows events p p' Hc Hrun) as (incoming & edits & lines & [Hrows _] & Hmsgs & _).
  pose proof (rows_edits _ _ _ _ Hrows) as He. cbn [snd app map] in He. rewrite <- He in Hlast.
  destruct (last_fmap_filter _ _ _ Hlast) as (e & Hl & [= Ht Hb]). rewrite Hmsgs, !edit_all_positive in Hin.
  set (T := timeline _ _ ++ _) in *. assert (HT : first_with mid T <> None).
  { apply elem_of_positive_ids in Hin as [_ (m & Hm & Hid)]. intros Hn. pose proof (first_has mid T) as Hh. rewrite Hn in Hh.
    assert (has_id mid T = true) as Hh2; [|congruence]. apply has_id_spec, list_elem_of_fmap. by exists m. }
  destruct (first_edited edits mid T e HT Hl) as [m Hm]. exists (put_body e m).
  split; [|by split]. unfold _find_message. change (first_with mid (messages_of p' conv_id) = Some (put_body e m)).
  rewrite Hmsgs. revert Hm. generalize (edit_all edits T). clear -Hw. induction Hw as [|e' es He' Hes IH]; intros l Hm; [exact Hm|].
  cbn. apply IH. by rewrite first_other.
Qed.

(** ** Reactions *)

Lemma dset_same {A} k (v : A) d : dlookup k d = Some v -> dset k v d = d.
Proof.
  induction d as [|[k' v'] d IH]; cbn; [done|]. destruct (String.eqb k k') eqn:E; [|by intros H; rewrite IH].
  apply String.eqb_eq in E as <-. by intros [= ->].
Qed.

Lemma ddel_snoc {A} k (v : A) d : dlookup k d = None -> ddel k (d ++ [(k, v)]) = d.
Proof.
  induction d as [|[k' v'] d IH]; cbn; [by rewrite String.eqb_refl|]. destruct (String.eqb k k'); [done|].
  intros H. by rewrite IH.
Qed.

(** May [user_id] add this reaction: not if it is mine and given already. *)
Definition may_react (me : Z) (emoji : string) (user_id : Z) (l : list (string * reaction)) : Prop :=
  match dlookup emoji l with
  | Some r => 0 < r_count r /\ (user_id = me -> r_me r = false)
  | None => True
  end.

Lemma react_undo me emoji user_id l : may_react me emoji user_id l ->
  react me emoji user_id false (react me emoji user_id true l) = l.
Proof.
  unfold may_react. intros H. unfold react at 2. destruct (dlookup emoji l) as [r|] eqn:E.
  - destruct H as [Hn Hme]. assert ((user_id =? me) && r_me r = false) as ->.
    { destruct (Z.eqb_spec user_id me) as [->|]; [by rewrite Hme|done]. }
    unfold react. rewrite dlookup_dset_eq. cbn [r_me r_count].
    assert ((user_id =? me) && negb ((user_id =? me) || r_me r) = false) as -> by (by destruct (user_id =? me)).
    assert (Z.max 0 (r_count r + 1 - 1) = r_count r) as -> by lia. assert (r_count r <=? 0 = false) as -> by lia.
    rewrite dset_dset. apply dset_same. rewrite E. f_equal. destruct r as [n b]. cbn. f_equal. cbn in Hme.
    destruct (Z.eqb_spec user_id me) as [->|]; [by rewrite Hme|done].
  - cbn [r_me r_count]. rewrite andb_false_r. unfold react. rewrite dlookup_dset_eq. cbn [r_me r_count].
    assert ((user_id =? me) && negb ((user_id =? me) || false) = false) as -> by (by destruct (user_id =? me)).
    change (Z.max 0 (0 + 1 - 1) <=? 0) with true. cbn match. rewrite dset_dset, dset_absent by done. by apply ddel_snoc.
Qed.

Lemma map_first_undo {A} (f : A -> bool) (g h : A -> A) l l' : map_first f g l = Some l' ->
  (forall x, x ∈ l -> f x = true -> f (g x) = true /\ h (g x) = x) -> map_first f h l' = Some l.
Proof.
  intros (a & x & b & -> & Ha & Hx & ->)%map_first_spec H. destruct (H x ltac:(set_solver) Hx) as [H1 H2].
  rewrite (map_first_found f h) by done. by rewrite H2.
Qed.

(** Removing a reaction undoes adding it. When the message does not have this
    reaction of the user yet and its counts are positive, adding the reaction and
    removing it leaves the page as it was. *)
Theorem reaction_add_remove conv_id mid emoji user_id p
    (Hr : Forall (fun m => msg_id m = mid -> may_react (my_id p) emoji user_id (reactions m)) (messages_of p conv_id)) :
  st_bind (update_reaction conv_id mid emoji user_id true) (fun _ => update_reaction conv_id mid emoji user_id false) p =
    (p, Ok tt).
Proof.
  unfold update_reaction. destruct (nonempty emoji); cbn [negb]; [|done]. unfold st_bind, st_get, set_messages, st_modify, st_ret.
  set (add := fun m => m <| reactions ::= react (my_id p) emoji user_id true |>).
  set (sub := fun m => m <| reactions ::= react (my_id p) emoji user_id false |>).
  destruct (map_first _ add (messages_of p conv_id)) as [l'|] eqn:E.
  - set (p1 := p <| hist ::= _ |>). assert (Hm : messages_of p1 conv_id = l') by (by apply messages_insert with (h := hist p)).
    change (my_id p1) with (my_id p). fold sub. rewrite Hm.
    assert (map_first (fun m => msg_id m =? mid) sub l' = Some (messages_of p conv_id)) as ->.
    { apply (map_first_undo _ add _ _ _ E). intros m Hin Hid. split; [exact Hid|]. rewrite Forall_forall in Hr.
      specialize (Hr m Hin). apply Z.eqb_eq in Hid. specialize (Hr Hid). unfold sub, add. destruct m as [? ? ? ? ? ? ? rs]. cbn [update reactions entry_eta] in *.
      cbn. f_equal. by apply react_undo. }
    f_equal. unfold p1. destruct p. cbn. f_equal. rewrite insert_insert_eq. apply insert_id. unfold messages_of in *. cbn in *.
    destruct (_ !! conv_id); [done|]. cbn in E. discriminate E.
  - fold sub. assert (map_first (fun m => msg_id m =? mid) sub (messages_of p conv_id) = None) as ->; [|done].
    apply map_first_none. by apply (map_first_none _ add).
Qed.

(** ** Bubbles that wait

    What may happen to the page: deliveries, answers of the server, and what the
    user does. A step may fail: its state is then the one where it stopped. *)
Inductive operation :=
| OpMessage (conv_id sender : Z) (b : pyval) (t : string) (mid : Z) (pin : bool) (reacts : pyval) (fwd reply : Z)
| OpUpdate (conv_id mid : Z) (b : pyval) (edit del : bool)
| OpEdit (conv_id : Z) (e : edit_event)
| OpHistory (conv_id : Z) (rows : list pyval) (events : list sys_event)
| OpSystem (conv_id : Z) (text t : string) (key : option (list string)) (sid : Z) (after : option Z)
| OpReaction (conv_id mid : Z) (emoji : string) (user_id : Z) (added : bool)
| OpPin (conv_id mid : Z) (b : bool)
| OpPending (conv_id : Z) (text file_path : string) (reply_to : Z)
| OpFailed (conv_id : Z) (text reason file_path : string)
| OpSent (conv_id : Z) (text : string) (pending_id : Z)
| OpInterrupted (reason : string)
| OpRetry (mid : Z)
| OpInvalidate (conv_id : Z) (clear_messages : bool)
| OpPref (command : dict)
| OpRead.

Definition run (o : operation) : pm unit :=
  match o with
  | OpMessage c sender b t mid pin reacts fwd reply => add_msg c sender b t mid pin reacts fwd reply
  | OpUpdate c mid b edit del => do! _ := update_message c mid b edit del in st_ret tt
  | OpEdit c e => do! _ := apply_edit_event c e in st_ret tt
  | OpHistory c rows events => load_history c rows events
  | OpSystem c text t key sid after => add_system_event c text t key sid after
  | OpReaction c mid emoji user_id added => update_reaction c mid emoji user_id added
  | OpPin c mid b => set_message_pinned c mid b
  | OpPending c text file_path reply_to => do! _ := show_send_pending c text file_path reply_to in st_ret tt
  | OpFailed c text reason file_path => show_send_failed c text reason file_path
  | OpSent c text pending_id => remove_pending_send c text pending_id
  | OpInterrupted reason => mark_pending_sends_failed reason
  | OpRetry mid => _retry_failed_message mid
  | OpInvalidate c clear => invalidate_history c clear
  | OpPref command => _send_conversation_pref command
  | OpRead => _mark_active_conversation_read
  end.

Definition pstep (p p' : page) : Prop := exists o, p' = fst (run o p).

Definition waiting_ids (l : list entry) : list Z := map msg_id (List.filter sending l).

Lemma waiting_ids_app a b : waiting_ids (a ++ b) = waiting_ids a ++ waiting_ids b.
Proof. unfold waiting_ids. by rewrite List.filter_app, map_app. Qed.

Lemma waiting_ids_perm l l' : l ≡ₚ l' -> waiting_ids l ≡ₚ waiting_ids l'.
Proof. intros H. unfold waiting_ids. by apply Permutation_map, filter_perm. Qed.

Lemma waiting_ids_filter f l : waiting_ids (List.filter f l) ⊆+ waiting_ids l.
Proof.
  unfold waiting_ids. induction l as [|m l IH]; cbn; [done|]. destruct (f m); cbn; [|by destruct (sending m); [apply submseteq_cons|]].
  destruct (sending m); cbn; [by apply submseteq_skip|done].
Qed.

Lemma waiting_ids_map_first (f : entry -> bool) (g : entry -> entry) l l' :
  (forall m, msg_id (g m) = msg_id m /\ sending (g m) = sending m) -> map_first f g l = Some l' -> waiting_ids l' = waiting_ids l.
Proof.
  intros Hg (a & x & b & -> & _ & _ & ->)%map_first_spec. rewrite !waiting_ids_app. f_equal. unfold waiting_ids. cbn.
  destruct (Hg x) as [H1 H2]. rewrite H2. destruct (sending x); cbn; by rewrite ?H1.
Qed.

Lemma waiting_ids_edits es l : waiting_ids (edit_all es l) = waiting_ids l.
Proof.
  revert l. induction es as [|e es IH]; intros l; cbn [edit_all]; [done|]. rewrite IH. unfold edit_list.
  destruct (map_first _ _ l) as [l'|] eqn:E; [|done]. exact (waiting_ids_map_first _ (put_body e) _ _ (fun m => conj eq_refl eq_refl) E).
Qed.

Lemma submseteq_nodup (l l' : list Z) : l' ⊆+ l -> NoDup l -> NoDup l'.
Proof. intros (k & H)%submseteq_Permutation Hn. rewrite H in Hn. by apply NoDup_app in Hn as [? _]. Qed.

Definition bubbles_ok (p : page) : Prop :=
  0 <= failed_send_counter p /\
  forall c, NoDup (waiting_ids (messages_of p c)) /\
    Forall (fun i => - failed_send_counter p <= i < 0) (waiting_ids (messages_of p c)).

(** A change of one conversation that adds no waiting bubble. *)
Lemma bubbles_change c p p' : bubbles_ok p -> failed_send_counter p <= failed_send_counter p' ->
  (forall c', c' <> c -> messages_of p' c' = messages_of p c') ->
  waiting_ids (messages_of p' c) ⊆+ waiting_ids (messages_of p c) -> bubbles_ok p'.
Proof.
  intros [Hn H] Hc Ho Hsub. split; [lia|]. intros c'. destruct (H c') as [H1 H2].
  assert (Hs : waiting_ids (messages_of p' c') ⊆+ waiting_ids (messages_of p c')).
  { destruct (decide (c' = c)) as [->|Hne]; [done|by rewrite Ho]. }
  split; [by eapply submseteq_nodup|]. rewrite Forall_forall in *. intros i Hi.
  specialize (H2 i (elem_of_submseteq _ _ _ Hi Hs)). lia.
Qed.

Lemma bubbles_same p p' : hist p' = hist p -> failed_send_counter p <= failed_send_counter p' -> bubbles_ok p -> bubbles_ok p'.
Proof.
  intros Hh Hc H. assert (Hm : forall c, messages_of p' c = messages_of p c) by (intros c; unfold messages_of; by rewrite Hh).
  apply (bubbles_change 0 p); [done|done|by intros|by rewrite Hm].
Qed.

Lemma messages_other p p' c c' l : hist p' = <[c := l]> (hist p) -> c' <> c -> messages_of p' c' = messages_of p c'.
Proof. intros H Hne. unfold messages_of. by rewrite H, lookup_insert_ne. Qed.

Lemma bubbles_set p p' c l : hist p' = <[c := l]> (hist p) -> failed_send_counter p <= failed_send_counter p' -> bubbles_ok p ->
  waiting_ids l ⊆+ waiting_ids (messages_of p c) -> bubbles_ok p'.
Proof.
  intros Hh Hc H Hs. apply (bubbles_change c p); [done|done|intros c' Hne; by apply (messages_other _ _ c _ l)|].
  by rewrite (messages_insert p' (hist p) c l Hh).
Qed.

Lemma bubbles_append c m : sending m = false -> keeps bubbles_ok (append_entry c m).
Proof.
  intros Hm p Hp. apply (bubbles_set p _ c (messages_of p c ++ [m])); [done|cbn; lia|done|].
  rewrite waiting_ids_app. unfold waiting_ids at 2. cbn. rewrite Hm. by rewrite app_nil_r.
Qed.

Lemma bubbles_map_first c (f : entry -> bool) g p l : (forall m, msg_id (g m) = msg_id m /\ sending (g m) = sending m) ->
  map_first f g (messages_of p c) = Some l -> bubbles_ok p -> bubbles_ok (p <| hist ::= <[c := l]> |>).
Proof.
  intros Hg E Hp. apply (bubbles_set p _ c l); [done|cbn; lia|done|]. by rewrite (waiting_ids_map_first _ _ _ _ Hg E).
Qed.

Lemma bubbles_keeps (m : pm unit) : (forall h, keeps (same_hist h) m) -> keeps bubbles_ok m.
Proof. intros H p Hp. specialize (H _ p eq_refl). apply pair_eq in H as [[[H _]%pair_eq _]%pair_eq Hn].
  by apply (bubbles_same p); [exact H|rewrite Hn|]. Qed.

Lemma bubbles_edited c p p' es w : edited_to c p p' (edit_all es (messages_of p c)) w -> bubbles_ok p -> bubbles_ok p'.
Proof.
  intros [(h & d & ->) Hm _ Ho] Hp. apply (bubbles_change c p); [done|cbn; lia| |].
  - intros c' Hne. unfold messages_of. destruct (Ho c' Hne) as [H _]. cbn in *. by rewrite H.
  - rewrite Hm. by rewrite waiting_ids_edits.
Qed.

Lemma bubbles_local_id p : bubbles_ok p -> next_local_id p = (p <| failed_send_counter ::= Z.add 1 |>, Ok (- (1 + failed_send_counter p))) /\
  bubbles_ok (p <| failed_send_counter ::= Z.add 1 |>).
Proof. intros Hp. split; [done|]. apply (bubbles_same p); [done|cbn; lia|done]. Qed.

(** The timelines are those of [p] and no local identifier is given back. *)
Definition grown (p q : page) : Prop := hist q = hist p /\ failed_send_counter p <= failed_send_counter q.

Lemma persisted_grown p conv_id acc ev : keeps (grown p) (persisted_event conv_id acc ev).
Proof.
  unfold persisted_event. destruct (negb _); [apply keeps_ret|]. destruct (existsb _ _); [apply keeps_ret|].
  apply keeps_bind; [by apply keeps_modify|]. intros _. apply keeps_bind.
  - destruct (0 <? _); [apply keeps_ret|]. unfold next_local_id. apply keeps_bind.
    + apply keeps_modify. intros q [H1 H2]. split; [exact H1|]. cbn. lia.
    + intros _. apply keeps_get. intros q _. apply keeps_ret.
  - intros mid. apply keeps_bind; [apply keeps_lift|]. intros t. apply keeps_ret.
Qed.

Lemma st_fold_inv {S A B} (f : B -> A -> stm S B) (I : B -> Prop) l acc acc' s s' :
  (forall b a b' s s', f b a s = (s', Ok b') -> I b -> I b') -> st_fold f acc l s = (s', Ok acc') -> I acc -> I acc'.
Proof.
  intros Hf. revert acc s. induction l as [|x l IH]; intros acc s H HI; cbn in H; [by injection H as _ <-|].
  unfold st_bind in H. destruct (f acc x s) as [s1 [b|e]] eqn:E; [|discriminate H]. eapply IH; [exact H|]. by eapply Hf.
Qed.

Lemma persisted_sending conv_id acc ev acc' p p' : persisted_event conv_id acc ev p = (p', Ok acc') ->
  Forall (fun m => sending m = false) (fst acc) -> Forall (fun m => sending m = false) (fst acc').
Proof.
  intros H Hacc. unfold persisted_event in H. destruct (negb _); [by injection H as _ <-|]. destruct (existsb _ _); [by injection H as _ <-|].
  unfold st_bind at 1, st_modify at 1 in H. destruct (0 <? _); unfold next_local_id, st_bind, st_ret, st_lift, st_modify, st_get in H;
    (destruct (ts_short_v _); [|discriminate H]); apply pair_eq in H as [_ H]; apply Ok_inj in H as <-;
    apply Forall_app; (split; [done|]); by constructor.
Qed.

(** Nothing sends a message that the server has confirmed. *)
Lemma read_row_sending existing acc row acc' : read_row existing acc row = Ok acc' ->
  (forall k m, fst acc !! k = Some m -> sending m = false) -> forall k m, fst acc' !! k = Some m -> sending m = false.
Proof.
  intros H Hacc. unfold read_row in H. apply res_bind_ok in H as (d & _ & H). destruct (_ && _); [by apply Ok_inj in H as <-|].
  apply res_bind_ok in H as (target & _ & H). destruct (0 <? target).
  - destruct (_is_unavailable_history_body _); [by apply Ok_inj in H as <-|].
    apply res_bind_ok in H as (? & _ & H). apply res_bind_ok in H as (? & _ & H). by apply Ok_inj in H as <-.
  - apply res_bind_ok in H as (mid & _ & H). do 5 (apply res_bind_ok in H as (? & _ & H)). apply Ok_inj in H as <-. cbn [fst].
    intros k m. destruct (0 <? mid); [|apply Hacc]. intros [[_ <-]|[_ Hm]]%lookup_insert_Some; [|by eapply Hacc].
    destruct (existing !! mid); [|done]. by destruct (_ && _).
Qed.

Lemma waiting_ids_none l : Forall (fun m => sending m = false) l -> waiting_ids l = [].
Proof. induction 1 as [|m l Hm _ IH]; [done|]. unfold waiting_ids in *. cbn. by rewrite Hm. Qed.

Lemma split_waiting conv_id previous l : let (a, b) := split_local conv_id previous l in
  waiting_ids (a ++ b) ⊆+ waiting_ids l.
Proof.
  revert previous. induction l as [|m l IH]; intros previous; cbn [split_local]; [done|].
  destruct (0 <? msg_id m).
  - specialize (IH (msg_id m)). destruct (split_local _ _ l) as [a b]. etrans; [exact IH|]. unfold waiting_ids. cbn.
    destruct (sending m); [by apply submseteq_cons|done].
  - specialize (IH previous). destruct (split_local _ _ l) as [a b]. destruct (is_system m).
    + unfold waiting_ids in *. cbn. destruct (sending m); [by apply submseteq_skip|done].
    + rewrite waiting_ids_perm by (symmetry; apply Permutation_middle). unfold waiting_ids in *. cbn.
      destruct (sending m); [by apply submseteq_skip|done].
Qed.

Lemma bubbles_load conv_id rows events : keeps bubbles_ok (load_history conv_id rows events).
Proof.
  intros p Hp. unfold load_history. unfold st_bind at 1, st_modify at 1. set (p0 := p <| history_loading ::= _ |>).
  unfold st_bind at 1, st_get at 1. change (messages_of p0 conv_id) with (messages_of p conv_id).
  assert (H0 : bubbles_ok p0) by (by apply (bubbles_same p)).
  pose proof (split_waiting conv_id 0 (messages_of p conv_id)) as Hsplit.
  pose proof (split_local_spec conv_id 0 (messages_of p conv_id)) as [Hl _].
  destruct (split_local conv_id 0 (messages_of p conv_id)) as [local tr]. cbn [fst] in Hl.
  rewrite st_bind_lift. destruct (res_fold _ _ rows) as [[incoming edits]|e] eqn:Er; [|done].
  pose proof (keeps_fold (grown p0) (persisted_event conv_id) ([], ∅) events (persisted_grown p0 conv_id) p0 (conj eq_refl (Z.le_refl _))) as Hg.
  unfold st_bind at 1. destruct (st_fold (persisted_event conv_id) _ events p0) as [p1 [[persisted keys]|e]] eqn:Ee; cbn [fst] in *;
    [|by apply (bubbles_same p0); [apply Hg..|]].
  destruct (persisted_run _ _ _ _ _ _ Ee (proj1 Hp)) as (_ & _ & ks & n & ->); [constructor|].
  set (kept := List.filter _ local). unfold st_bind at 1, st_modify at 1. unfold st_bind at 1, set_messages at 1, st_modify at 1.
  set (p2 := update hist _ _). set (T := timeline _ _ ++ tr) in p2.
  assert (H2 : bubbles_ok p2).
  { apply (bubbles_set p p2 conv_id T); [done|apply Hg|done|]. unfold T.
    rewrite (waiting_ids_perm _ ((merged_messages (incoming ∪ by_id (messages_of p conv_id)) ++ persisted ++ kept) ++ tr))
      by (by rewrite timeline_perm).
    rewrite !waiting_ids_app, (waiting_ids_none (merged_messages _)), (waiting_ids_none persisted), !app_nil_l.
    - etrans; [|exact Hsplit]. rewrite waiting_ids_app. by apply submseteq_app; [apply waiting_ids_filter|].
    - apply (st_fold_inv (persisted_event conv_id) (fun acc => Forall (fun m => sending m = false) (fst acc)) _ _ _ _ _
        (persisted_sending conv_id) Ee). constructor.
    - apply Forall_forall. intros m Hm. apply elem_merged in Hm as [Hm _].
      + apply lookup_union_Some_raw in Hm as [Hm|[_ Hm]].
        * apply (res_fold_inv (read_row (by_id (messages_of p conv_id))) (fun acc => forall k m, fst acc !! k = Some m -> sending m = false) rows
            (∅, []) (incoming, edits)) in Hm; [done|intros acc row acc' HI Hacc; by eapply read_row_sending|done|].
          intros k x. cbn. by rewrite lookup_empty.
        * destruct (sending m) eqn:Es; [|done]. exfalso. destruct (by_id_keyed _ _ _ Hm) as [_ Hpos].
          destruct Hp as [_ Hp]. destruct (Hp conv_id) as [_ Hf]. rewrite Forall_forall in Hf.
          assert (msg_id m ∈ waiting_ids (messages_of p conv_id)) as Hin; [|specialize (Hf _ Hin); lia].
          apply list_elem_of_In, in_map, filter_In. split; [|done]. apply list_elem_of_In. by eapply by_id_elem.
      + apply union_keyed; [exact (rows_keyed _ _ _ Er)|apply by_id_keyed]. }
  unfold st_bind at 1. destruct (edits_run conv_id edits p2) as (p3 & -> & H3).
  unfold st_bind at 1. destruct (pending_run conv_id p3) as (p4 & -> & H4).
  assert (H4' : bubbles_ok p4) by (by apply (bubbles_edited _ _ _ _ _ H4), (bubbles_edited _ _ _ _ _ H3)).
  unfold st_bind at 1, st_modify at 1. set (p5 := p4 <| history_loaded ::= _ |>).
  assert (H5 : bubbles_ok p5) by (by apply (bubbles_same p4)).
  destruct (_ =? _); [|done]. by apply (bubbles_keeps _ mark_read_hist).
Qed.

Lemma emit_hist h x : keeps (same_hist h) (emit x).
Proof. by apply keeps_field. Qed.

Lemma bubbles_message c sender b t mid pin reacts fwd reply : keeps bubbles_ok (add_msg c sender b t mid pin reacts fwd reply).
Proof.
  unfold add_msg. apply keeps_bind; [apply keeps_lift|]. intros rs. apply keeps_bind; [by apply bubbles_append|]. intros _.
  apply keeps_bind.
  - intros p Hp. destruct (pending_run c p) as (p' & E & H). rewrite E. by apply (bubbles_edited _ _ _ _ _ H).
  - intros _. apply keeps_get. intros p _. destruct (_ && _); [by apply (bubbles_keeps _ mark_read_hist)|].
    destruct (_ && _); [|apply keeps_ret]. apply keeps_bind; [apply keeps_lift|]. intros mu.
    apply bubbles_keeps. intros h. destruct mu; [apply keeps_ret|by apply keeps_field].
Qed.

(** Adding a waiting bubble under a new local identifier. *)
Lemma bubbles_pending c text file_path reply_to p : bubbles_ok p ->
  exists p' m, show_send_pending c text file_path reply_to p = (p', Ok (msg_id m)) /\ bubbles_ok p' /\
    sending m = true /\ hist p' = <[c := messages_of p c ++ [m]]> (hist p) /\ msg_id m = - (1 + failed_send_counter p).
Proof.
  intros Hp. unfold show_send_pending, append_entry. set (mid := - (1 + failed_send_counter p)).
  set (m := (plain_entry (my_id p) (PStr text) "sending" mid) <| reply_to_message_id := reply_to |> <| sending := true |>
    <| retry_body := Some text |> <| retry_file := file_path |>).
  exists (p <| failed_send_counter ::= Z.add 1 |> <| hist ::= <[c := messages_of p c ++ [m]]> |>), m.
  split; [reflexivity|]. split; [|split; [done|split; [done|done]]].
  destruct Hp as [Hn Hp]. split; [cbn; lia|]. intros c'. destruct (decide (c' = c)) as [->|Hne].
  - rewrite (messages_insert _ (hist p) c (messages_of p c ++ [m])) by done. rewrite waiting_ids_app. change (waiting_ids [m]) with [mid].
    destruct (Hp c) as [H1 H2]. rewrite Forall_forall in H2. split.
    + apply NoDup_app. split; [done|]. split; [|by apply NoDup_singleton].
      intros i Hi ->%list_elem_of_singleton. specialize (H2 _ Hi). unfold mid in H2. lia.
    + apply Forall_app. split.
      * apply Forall_forall. intros i Hi. specialize (H2 _ Hi). cbn. lia.
      * constructor; [|done]. unfold mid. cbn. lia.
  - rewrite (messages_other p _ c c' (messages_of p c ++ [m])) by done. destruct (Hp c') as [H1 H2]. split; [done|].
    rewrite Forall_forall in *. intros i Hi. specialize (H2 _ Hi). cbn. lia.
Qed.

Lemma waiting_ids_remove f l l' : remove_first f l = Some l' -> waiting_ids l' ⊆+ waiting_ids l.
Proof.
  revert l'. induction l as [|m l IH]; intros l' H; cbn in H; [done|]. unfold waiting_ids in *. cbn. destruct (f m).
  - injection H as <-. destruct (sending m); [by apply submseteq_cons|done].
  - destruct (remove_first f l) as [l1|]; [|done]. injection H as <-. cbn. specialize (IH _ eq_refl).
    destruct (sending m); [by apply submseteq_skip|done].
Qed.

Lemma run_bubbles o : keeps bubbles_ok (run o).
Proof.
  destruct o; cbn [run].
  - apply bubbles_message.
  - intros p Hp. unfold update_message, st_bind, st_get, st_ret, set_messages, st_modify. destruct (map_first _ _ _) as [l|] eqn:E; [|done].
    by (eapply bubbles_map_first; [|exact E|done]).
  - intros p Hp. destruct (edit_run conv_id e p) as (p' & b & E & H). unfold st_bind. rewrite E.
    by apply (bubbles_edited conv_id p p' [e] _ H).
  - apply bubbles_load.
  - unfold add_system_event. destruct (negb _); [apply keeps_ret|]. apply keeps_get. intros q _. destruct (existsb _ _); [apply keeps_ret|].
    apply keeps_bind; [apply keeps_modify; intros p Hp; by apply (bubbles_same p)|]. intros _.
    apply keeps_bind; [intros p Hp; by apply bubbles_local_id|]. intros mid. by apply bubbles_append.
  - unfold update_reaction. destruct (negb _); [apply keeps_ret|]. intros p Hp. unfold st_bind, st_get.
    destruct (map_first _ _ _) as [l|] eqn:E; [|done]. by (eapply bubbles_map_first; [|exact E|done]).
  - intros p Hp. unfold set_message_pinned, st_bind, st_get. destruct (map_first _ _ _) as [l|] eqn:E; [|done].
    by (eapply bubbles_map_first; [|exact E|done]).
  - intros p Hp. destruct (bubbles_pending conv_id text file_path reply_to p Hp) as (p' & m & E & H & _). unfold st_bind. by rewrite E.
  - unfold show_send_failed. apply keeps_bind; [intros p Hp; by apply bubbles_local_id|]. intros mid.
    apply keeps_get. intros p _. by apply bubbles_append.
  - intros p Hp. unfold remove_pending_send, st_bind, st_get. destruct (remove_first _ _) as [l|] eqn:E; [|done].
    by apply (bubbles_set p _ conv_id l); [|cbn; lia| |eapply waiting_ids_remove].
  - intros p [Hn Hp]. split; [exact Hn|]. intros c. unfold messages_of. cbn. rewrite lookup_fmap.
    assert (H : forall l, waiting_ids (map (fail_send reason) l) = []).
    { intros l. apply waiting_ids_none, Forall_forall. intros m (x & -> & _)%list_elem_of_fmap. unfold fail_send. by destruct (sending x) eqn:E. }
    replace (waiting_ids _) with (@nil Z) by (destruct (hist p !! c) as [l|]; [symmetry; apply H|done]). by split; constructor.
  - unfold _retry_failed_message. apply keeps_get. intros p Hp. destruct (_find_message _ _ _) as [m|]; [|apply keeps_ret].
    apply keeps_bind; [|intros _; apply bubbles_keeps; intros h; destruct (nonempty _); by apply emit_hist].
    clear p Hp m. intros p Hp. unfold _remove_failed_message, st_bind, st_get. destruct (_ <=? 0); [done|].
    eapply (bubbles_set p); [done|cbn; lia|done|apply waiting_ids_filter].
  - intros p Hp. unfold invalidate_history, st_modify. cbn [fst]. destruct clear_messages; [|by apply (bubbles_same p)].
    apply (bubbles_change conv_id p); [done|cbn; lia| |].
    + intros c' Hne. unfold messages_of. cbn. by rewrite lookup_delete_ne.
    + unfold messages_of at 1. cbn. rewrite lookup_delete_eq. apply submseteq_nil_l.
  - apply bubbles_keeps. intros h. unfold _send_conversation_pref. apply keeps_bind; [apply keeps_lift|]. intros cid.
    destruct (_ <=? 0); [apply keeps_ret|]. apply keeps_bind; [|intros _; by apply emit_hist].
    destruct (String.eqb _ _); [apply keeps_bind; [apply keeps_lift|]; intros secs; apply pref_hist|].
    destruct (String.eqb _ _); [apply pref_hist|]. destruct (String.eqb _ _); [apply pref_hist|].
    destruct (String.eqb _ _); [apply pref_hist|apply keeps_ret].
  - apply (bubbles_keeps _ mark_read_hist).
Qed.

Lemma new_page_bubbles : bubbles_ok new_page.
Proof. split; [done|]. intros c. unfold messages_of. cbn. rewrite lookup_empty. by split; constructor. Qed.

Lemma reachable_bubbles p : rtc pstep new_page p -> bubbles_ok p.
Proof.
  intros H. apply (rtc_ind_r (R := pstep) bubbles_ok new_page); [apply new_page_bubbles| |done].
  intros q q' _ [o ->] Hq. by apply run_bubbles.
Qed.

(** Waiting bubbles are told apart. Whatever happened to the page, failed steps
    included, the messages of a conversation that wait for the server have
    pairwise different local identifiers, all negative, so none is taken for a
    message of the server. *)
Theorem waiting_bubbles_distinct p conv_id (H : rtc pstep new_page p) :
  NoDup (waiting_ids (messages_of p conv_id)) /\ Forall (fun i => i < 0) (waiting_ids (messages_of p conv_id)).
Proof.
  destruct (reachable_bubbles p H) as [_ Hb]. destruct (Hb conv_id) as [H1 H2]. split; [done|].
  eapply Forall_impl; [exact H2|]. intros i Hi. cbv beta in Hi. lia.
Qed.

Lemma remove_first_app {A} (f : A -> bool) l x : Forall (fun y => f y = false) l -> f x = true -> remove_first f (l ++ [x]) = Some l.
Proof. intros Hl Hx. induction Hl as [|y l Hy Hl IH]; cbn; [by rewrite Hx|]. by rewrite Hy, IH. Qed.

(** A confirmed message takes its waiting bubble away and nothing else. On any page
    that can be reached, showing a waiting bubble and then removing it by the
    identifier it was given leaves every timeline as it was. *)
Theorem pending_bubble_removed p conv_id text file_path reply_to text'
    (H : rtc pstep new_page p) :
  exists p', (do! mid := show_send_pending conv_id text file_path reply_to in remove_pending_send conv_id text' mid) p = (p', Ok tt) /\
    forall c, messages_of p' c = messages_of p c.
Proof.
  pose proof (reachable_bubbles p H) as Hb.
  destruct (bubbles_pending conv_id text file_path reply_to p Hb) as (p1 & m & E & _ & Hs & Hh & Hid).
  unfold st_bind at 1. rewrite E. unfold remove_pending_send, st_bind, st_get. rewrite (messages_insert p1 (hist p) conv_id _ Hh).
  destruct Hb as [Hn Hb].
  assert (remove_first (is_pending_send text' (msg_id m)) (messages_of p conv_id ++ [m]) = Some (messages_of p conv_id)) as ->.
  { assert (Hz : msg_id m =? 0 = false) by lia. apply remove_first_app.
    - apply Forall_forall. intros x Hx. unfold is_pending_send. rewrite Hz. cbn [negb andb orb]. rewrite orb_false_r.
      destruct (sending x) eqn:Ex; [|done]. cbn [andb]. apply Z.eqb_neq. intros Heq.
      assert (msg_id x ∈ waiting_ids (messages_of p conv_id)) as Hin.
      { apply list_elem_of_In, in_map, filter_In. split; [by apply list_elem_of_In|done]. }
      destruct (Hb conv_id) as [_ Hf]. rewrite Forall_forall in Hf. specialize (Hf _ Hin). lia.
    - unfold is_pending_send. by rewrite Hs, Hz, Z.eqb_refl. }
  eexists. split; [reflexivity|]. intros c. unfold messages_of at 1. cbn. rewrite Hh, insert_insert_eq.
  destruct (decide (c = conv_id)) as [->|Hne]; [by rewrite lookup_insert_eq|by rewrite lookup_insert_ne].
Qed.

(** ** Examples

    A conversation with a message that could be read, a bubble that waits, and an
    edit that came early; the answer has a newer message, a placeholder for the
    first, a deleted message and the edit it once had. *)
Definition demo_row (mid sender : Z) (b : string) (del : bool) (target : Z) : pyval :=
  PDict [("id", PInt mid); ("sender_id", PInt sender); ("body", PStr b); ("deleted", PBool del);
         ("edit_target_message_id", PInt target); ("time", PStr ""); ("reactions", PList [])].
Definition demo_rows : list pyval :=
  [demo_row 3 5 "late" false 0; demo_row 1 5 "[Cannot decrypt this]" false 0; demo_row 2 5 "" true 0; demo_row 4 5 "again" false 2].
Definition demo_event : sys_event :=
  SysEvent [("text", PStr "Alice joined"); ("system_event_id", PInt 9); ("after_message_id", PInt 1); ("time", PStr "")] None.
Definition demo_ops : list operation :=
  [OpMessage 7 5 (PStr "hello") "10:00" 1 false PNone 0 0; OpPending 7 "mine" "" 0; OpEdit 7 (EditEvent 3 (PStr "later") 5 "10:01")].
Definition demo_page : page := fold_left (fun p o => fst (run o p)) demo_ops new_page.

Lemma demo_reached : rtc pstep new_page demo_page.
Proof. unfold demo_page, demo_ops. cbn [fold_left]. do 3 (eapply rtc_l; [eexists; reflexivity|]). apply rtc_refl. Defined.

Lemma history_each_message_once_witness :
  (0 <= failed_send_counter demo_page /\ convs_ok demo_page /\ forallb row_okb demo_rows = true /\ forallb event_okb [demo_event] = true) /\
  map msg_id (messages_of (fst (load_history 7 demo_rows [demo_event] demo_page)) 7) = [1; -1000000009; 2; 3; -1] /\
  let late := omap row_edit demo_rows ++ map edit_pair (waiting demo_page 7) in
  exists p', load_history 7 demo_rows [demo_event] demo_page = (p', Ok tt) /\
    (forall mid, 0 < mid -> (mid ∈ positive_ids (messages_of p' 7) <->
       (exists row, row ∈ demo_rows /\ row_message row = mid) \/ mid ∈ positive_ids (messages_of demo_page 7))) /\
    (forall m, m ∈ messages_of p' 7 -> 0 < msg_id m ->
       exists m0, origin (messages_of demo_page 7) demo_rows (msg_id m) m0 /\ msg_id m0 = msg_id m /\ shown m0 = true /\
         m = rewritten (edit_of (msg_id m) late) m0).
Proof.
  assert (H1 : 0 <= failed_send_counter demo_page) by (vm_compute; discriminate).
  assert (H2 : convs_ok demo_page) by (split; vm_compute; reflexivity).
  assert (H3 : forallb row_okb demo_rows = true) by (vm_compute; reflexivity).
  assert (H4 : forallb event_okb [demo_event] = true) by (vm_compute; reflexivity).
  split; [repeat split; assumption|]. split; [vm_compute; reflexivity|].
  destruct (history_each_message_once 7 demo_rows [demo_event] demo_page H1 H2 H3 H4) as (p' & E & _ & Hclean & Hlines & _).
  exists p'. split; [exact E|]. split; [|exact Hlines]. apply Hclean. apply Forall_forall. intros m Hm.
  assert (Hb : forallb (fun m => negb (is_control_body (body m))) (messages_of demo_page 7) = true) by (vm_compute; reflexivity).
  rewrite forallb_forall in Hb. apply list_elem_of_In, Hb in Hm. by destruct (is_control_body (body m)).
Defined.

Definition demo_loaded : page := fst (load_history 7 demo_rows [demo_event] demo_page).
Lemma demo_loaded_run : load_history 7 demo_rows [demo_event] demo_page = (demo_loaded, Ok tt).
Proof. vm_compute. reflexivity. Qed.

Definition demo_first : entry := plain_entry 5 (PStr "hello") "10:00" 1.

Lemma readable_text_kept_witness :
  (by_id (messages_of demo_page 7) !! 1 = Some demo_first /\ readable (body demo_first)) /\
  (forall m', m' ∈ messages_of demo_loaded 7 -> msg_id m' = 1 -> readable (body m')) /\
  (is_control_body (body demo_first) = false -> 1 ∈ positive_ids (messages_of demo_loaded 7)).
Proof.
  assert (H : by_id (messages_of demo_page 7) !! 1 = Some demo_first) by (vm_compute; reflexivity).
  assert (Hb : readable (body demo_first)) by (vm_compute; reflexivity).
  split; [split; assumption|].
  apply (readable_text_kept 7 demo_rows [demo_event] demo_page demo_loaded 1 demo_first); [vm_compute; discriminate| |exact H|exact Hb|].
  - exact demo_loaded_run.
  - constructor; [intros Hid; vm_compute in Hid; discriminate Hid|constructor].
Defined.

Lemma edit_order_irrelevant_witness :
  _normalize_reactions (py_or PNone (PList [])) = Ok [] /\ convs_ok demo_page /\ has_id 8 (messages_of demo_page 7) = false /\
  let e := EditEvent 8 (PStr "better") 5 "10:05" in
  let deliver := add_msg 7 5 (PStr "worse") "10:04" 8 false PNone 0 0 in
  exists p1 p2, st_bind (apply_edit_event 7 e) (fun _ => deliver) demo_page = (p1, Ok tt) /\
    st_bind deliver (fun _ => apply_edit_event 7 e) demo_page = (p2, Ok true) /\
    messages_of p1 7 = messages_of p2 7 /\ waiting p1 7 = waiting p2 7 /\
    (exists m, m ∈ messages_of p1 7 /\ msg_id m = 8 /\ body m = PStr "better" /\ edited m = true).
Proof.
  assert (H1 : _normalize_reactions (py_or PNone (PList [])) = Ok []) by reflexivity.
  assert (H2 : convs_ok demo_page) by (split; vm_compute; reflexivity).
  assert (H3 : has_id 8 (messages_of demo_page 7) = false) by (vm_compute; reflexivity).
  split; [exact H1|]. split; [exact H2|]. split; [exact H3|]. intros e deliver.
  exact (edit_order_irrelevant 7 5 (PStr "worse") "10:04" 8 false PNone 0 0 e demo_page [] H1 H2 eq_refl H3).
Defined.

Lemma deleted_message_returns_witness :
  In (demo_row 2 5 "" true 0) demo_rows /\
  last (List.filter (fun x => fst x =? 2) (omap row_edit demo_rows)) = Some (2, PStr "again") /\
  2 ∈ positive_ids (messages_of demo_loaded 7) /\
  exists m, _find_message demo_loaded 7 2 = Some m /\ body m = PStr "again" /\ edited m = true /\ deleted m = false.
Proof.
  assert (H1 : last (List.filter (fun x => fst x =? 2) (omap row_edit demo_rows)) = Some (2, PStr "again")) by (vm_compute; reflexivity).
  assert (Hids : positive_ids (messages_of demo_loaded 7) = [1; 2; 3]) by (vm_compute; reflexivity).
  assert (H2 : 2 ∈ positive_ids (messages_of demo_loaded 7)) by (rewrite Hids; right; left).
  split; [right; right; left; reflexivity|]. split; [exact H1|]. split; [exact H2|].
  apply (deleted_message_returns 7 demo_rows [demo_event] demo_page demo_loaded 2 (PStr "again")); [vm_compute; discriminate| |exact H1| |exact H2].
  - exact demo_loaded_run.
  - constructor; [intros Hid; vm_compute in Hid; discriminate Hid|constructor].
Defined.

Lemma reaction_add_remove_witness :
  Forall (fun m => msg_id m = 1 -> may_react (my_id demo_page) "ok" 5 (reactions m)) (messages_of demo_page 7) /\
  st_bind (update_reaction 7 1 "ok" 5 true) (fun _ => update_reaction 7 1 "ok" 5 false) demo_page = (demo_page, Ok tt).
Proof.
  assert (H : Forall (fun m => msg_id m = 1 -> may_react (my_id demo_page) "ok" 5 (reactions m)) (messages_of demo_page 7)).
  { assert (Hn : forallb (fun m => negb (dmem "ok" (reactions m))) (messages_of demo_page 7) = true) by (vm_compute; reflexivity).
    apply Forall_forall. intros m Hm _. rewrite forallb_forall in Hn. apply list_elem_of_In in Hm. specialize (Hn m Hm).
    unfold may_react. unfold dmem in Hn. destruct (dlookup "ok" (reactions m)); [discriminate Hn|exact I]. }
  split; [exact H|]. exact (reaction_add_remove 7 1 "ok" 5 demo_page H).
Defined.

Lemma waiting_bubbles_distinct_witness :
  rtc pstep new_page demo_page /\ waiting_ids (messages_of demo_page 7) = [-1] /\
  NoDup (waiting_ids (messages_of demo_page 7)) /\ Forall (fun i => i < 0) (waiting_ids (messages_of demo_page 7)).
Proof.
  split; [exact demo_reached|]. split; [vm_compute; reflexivity|]. exact (waiting_bubbles_distinct demo_page 7 demo_reached).
Defined.

Lemma pending_bubble_removed_witness :
  rtc pstep new_page demo_page /\
  exists p', (do! mid := show_send_pending 7 "mine" "" 0 in remove_pending_send 7 "" mid) demo_page = (p', Ok tt) /\
    forall c, messages_of p' c = messages_of demo_page c.
Proof. split; [exact demo_reached|]. exact (pending_bubble_removed demo_page 7 "mine" "" 0 "" demo_reached). Defined.
