(* ===== verification/ChatView.v ===== *)
(** * The rest of the chat page: navigation, composing, badges (client/pages/chat_page.py)

    Around the timeline of [ChatPage]: opening a conversation, the list of
    conversations the server sends, typing indicators, replies, forwarding,
    inline edits, the badges and warnings of a conversation, and the reset at
    logout. Widgets are left out; the text fields and the state the labels show
    are here. Two theorems end the file: a forwarded text, and a sign of typing that is
    lost. *)

From S2P Require Import Prelude Hashing Base64 PyVal Sorting Json JsonFacts Crypto Wire Ratchet RatchetFacts AuditClient Utils ChatPage.

(** A badge of a conversation. *)
Record security := Security { sec_status : string; sec_label : string; sec_detail : string; sec_blocked : bool }.

Record badges := Badges {
  security_warnings : gmap Z (list string); conv_security : gmap Z security; security_blocked_convs : gset Z;
  fingerprint_present : bool; fingerprint_verified : bool
}.
#[export] Instance badges_eta : Eta badges := fun b =>
  Badges (security_warnings b) (conv_security b) (security_blocked_convs b) (fingerprint_present b)
    (fingerprint_verified b).

(** The input field, the reply and the edit in progress, typing. *)
Record composer := Composer {
  inp : string; inp_enabled : bool; reply_target : option (Z * Z); editing_msg : option (Z * Z); edit_input : string;
  typing_indicators : bool; typing_active_sent : bool; typing_conv_id : Z; idle_timer : bool
}.
#[export] Instance composer_eta : Eta composer := fun c =>
  Composer (inp c) (inp_enabled c) (reply_target c) (editing_msg c) (edit_input c) (typing_indicators c)
    (typing_active_sent c) (typing_conv_id c) (idle_timer c).

(** What the page knows of the policy of the local cache. *)
Record policy_view := PolicyView { pv_enabled : bool; pv_ttl_days : Z; pv_clear_on_logout : bool; pv_disabled : list Z }.

Record view := View {
  tl : page; bd : badges; cp : composer; me : string; friends : list (Z * dict);
  typing_convs : gmap Z (list (Z * string)); typing_timers : gset (Z * Z);
  disbanded_convs : gset Z; scroll_to_latest : gset Z; pending_requests_count : Z;
  pending_open_conv : Z; pending_open_is_group : bool; read_later : bool;
  local_policy : policy_view
}.
#[export] Instance view_eta : Eta view := fun v =>
  View (tl v) (bd v) (cp v) (me v) (friends v) (typing_convs v) (typing_timers v) (disbanded_convs v)
    (scroll_to_latest v) (pending_requests_count v) (pending_open_conv v) (pending_open_is_group v) (read_later v)
    (local_policy v).

Definition new_badges : badges := Badges ∅ ∅ ∅ false false.
Definition new_composer : composer := Composer "" true None None "" true false 0 false.
Definition new_policy_view : policy_view := PolicyView true 30 false [].
Definition new_view : view := View new_page new_badges new_composer "" [] ∅ ∅ ∅ ∅ 0 0 false false new_policy_view.

Abbreviation vm := (stm view).

(** An operation of the timeline. *)
Definition on_page {A} (m : pm A) : vm A := fun v => let (p, r) := m (tl v) in (v <| tl := p |>, r).
Definition on_badges (f : badges -> badges) : vm unit := st_modify (fun v => v <| bd ::= f |>).
Definition on_composer (f : composer -> composer) : vm unit := st_modify (fun v => v <| cp ::= f |>).
Definition signal_out (x : signal) : vm unit := on_page (emit x).

Definition active_conv (v : view) : Z := active_conv_id (tl v).

(** [dict[k] = x] and [dict.get(k)] with integer keys, in insertion order. *)
Fixpoint zset {A} (k : Z) (x : A) (l : list (Z * A)) : list (Z * A) :=
  match l with
  | [] => [(k, x)]
  | (k', y) :: l => if k =? k' then (k, x) :: l else (k', y) :: zset k x l
  end.
Fixpoint zget {A} (k : Z) (l : list (Z * A)) : option A :=
  match l with [] => None | (k', x) :: l => if k =? k' then Some x else zget k l end.
Definition zdel {A} (k : Z) (l : list (Z * A)) : list (Z * A) := List.filter (fun kx => negb (fst kx =? k)) l.

Definition user_label (user_id : Z) : string := "User#" +:+ dec user_id.
Definition friend_name (v : view) (user_id : Z) : string :=
  match zget user_id (friends v) with Some f => get_str0 "username" f | None => "" end.

(** ** Typing *)

Definition _send_typing_stop : vm unit :=
  do! v := st_get in
  do! _ := (if typing_indicators (cp v) && typing_active_sent (cp v) && (0 <? typing_conv_id (cp v)) then
              signal_out (SigCommand [("type", PStr "typing_stop"); ("conversation_id", PInt (typing_conv_id (cp v)))])
            else st_ret tt) in
  on_composer (fun c => c <| typing_active_sent := false |> <| typing_conv_id := 0 |> <| idle_timer := false |>).

Definition _on_input_changed : vm unit :=
  do! v := st_get in
  if negb (typing_indicators (cp v)) then
    on_composer (fun c => c <| typing_active_sent := false |> <| typing_conv_id := 0 |> <| idle_timer := false |>)
  else if (active_conv v <=? 0) || negb (inp_enabled (cp v)) then st_ret tt
  else if negb (nonempty (strip (inp (cp v)))) then _send_typing_stop
  else
    do! _ := (if negb (typing_active_sent (cp v)) || negb (typing_conv_id (cp v) =? active_conv v) then
                do! _ := _send_typing_stop in
                do! _ := signal_out (SigCommand [("type", PStr "typing_start"); ("conversation_id", PInt (active_conv v))]) in
                on_composer (fun c => c <| typing_active_sent := true |> <| typing_conv_id := active_conv v |>)
              else st_ret tt) in
    on_composer (fun c => c <| idle_timer := true |>).

Definition set_metadata_protection (enabled : bool) : vm unit :=
  do! _ := on_page (st_modify (fun p => p <| metadata_protection := enabled |>)) in
  do! _ := on_composer (fun c => c <| typing_indicators := negb enabled |>) in
  st_when enabled _send_typing_stop.

(** The people typing in a conversation, without [user_id]; an empty list is removed. *)
Definition typing_without (user_id : Z) (o : option (list (Z * string))) : option (list (Z * string)) :=
  match zdel user_id (default [] o) with [] => None | l => Some l end.

Definition set_typing (conv_id user_id : Z) (username : string) (on : bool) : vm unit :=
  do! v := st_get in
  if (conv_id <=? 0) || (user_id <=? 0) || (user_id =? my_id (tl v)) then st_ret tt
  else if on then
    let name := or_default username (or_default (friend_name v user_id) (user_label user_id)) in
    st_modify (fun v => v <| typing_timers ::= union {[(conv_id, user_id)]} |>
      <| typing_convs ::= fun t => <[conv_id := zset user_id name (default [] (t !! conv_id))]> t |>)
  else
    st_modify (fun v => v <| typing_timers ::= fun s => s ∖ {[(conv_id, user_id)]} |>
      <| typing_convs ::= partial_alter (typing_without user_id) conv_id |>).

(** When the timer of a sign of typing runs out. *)
Definition _clear_typing (conv_id user_id : Z) : vm unit :=
  st_modify (fun v => v <| typing_timers ::= fun s => s ∖ {[(conv_id, user_id)]} |>
    <| typing_convs ::= partial_alter (typing_without user_id) conv_id |>).

(** The text under the conversation. *)
Definition typing_label (v : view) : string :=
  match map snd (default [] (typing_convs v !! active_conv v)) with
  | [] => ""
  | [a] => a +:+ " is typing..."
  | [a; b] => a +:+ " and " +:+ b +:+ " are typing..."
  | _ => "Several people are typing..."
  end.

(** ** Badges and warnings *)

Definition IDENTITY_REVIEW_STATUSES : list string :=
  ["unverified"; "reviewed_unverified"; "key_changed"; "audit_mismatch"; "audit_unavailable"].

Definition show_security_warning (conv_id : Z) (warnings : list string) : vm unit :=
  let warnings := List.filter (fun w => nonempty (strip w)) warnings in
  on_badges (fun b => b <| security_warnings ::=
    match warnings with [] => delete conv_id | _ => insert conv_id warnings end |>).

Definition set_fingerprint (fp : string) (verified : bool) : vm unit :=
  do! v := st_get in
  if active_is_group (tl v) then
    on_badges (fun b => b <| fingerprint_present := false |> <| fingerprint_verified := false |>)
  else on_badges (fun b => b <| fingerprint_present := nonempty fp |> <| fingerprint_verified := verified |>).

(** Input is possible unless the group is disbanded. *)
Definition _set_input_enabled (enabled : bool) : vm unit := on_composer (fun c => c <| inp_enabled := enabled |>).
Definition refresh_input (conv_id : Z) : vm unit :=
  do! v := st_get in
  if conv_id =? active_conv v then _set_input_enabled (negb (bool_decide (conv_id ∈ disbanded_convs v))) else st_ret tt.

Fixpoint spaced (s : string) : string :=
  match s with
  | EmptyString => ""
  | String c s => String (if Ascii.eqb c "_"%char then " "%char else c) (spaced s)
  end.

(** The badge of a conversation; [None] takes it away. *)
Definition badge_of (group : bool) (status label detail : string) (blocked : bool) : option security :=
  let status := or_default status "unverified" in
  if group && mem status (IDENTITY_REVIEW_STATUSES ++ ["verified"; "unknown"]) then
    Some (Security "group_mls_pq"
            (if mem label [""; "verify"; "unverified"; "key changed"] then "MLS PQ" else label)
            (or_default detail "Group security is tracked through MLS state and member roles.") false)
  else if mem status ["none"; "saved"] then None
  else Some (Security status (or_default label (spaced status)) detail blocked).

Definition set_conversation_security (conv_id : Z) (status label detail : string) (blocked : bool) : vm unit :=
  do! v := st_get in
  do! group := st_lift (_is_group_conversation_id (tl v) conv_id) in
  do! _ := match badge_of group status label detail blocked with
           | None => on_badges (fun b => b <| conv_security ::= delete conv_id |>
                       <| security_blocked_convs ::= fun s => s ∖ {[conv_id]} |>)
           | Some sec => on_badges (fun b => b <| conv_security ::= insert conv_id sec |>
                           <| security_blocked_convs ::= fun s => if sec_blocked sec then {[conv_id]} ∪ s else s ∖ {[conv_id]} |>)
           end in
  refresh_input conv_id.

Definition _request_identity_review : vm unit :=
  do! v := st_get in
  do! group := st_lift (_is_group_conversation_id (tl v) (active_conv v)) in
  if (active_conv v <=? 0) || group then st_ret tt else signal_out (SigVerifyIdentity (active_conv v)).

(** ** Bodies with metadata *)

Definition PREFIX_META : string := "SCMSG:1:".

(** [_decode_body_meta]: the text and the metadata. *)
Definition _decode_body_meta (body : string) : string * dict :=
  if negb (starts_with PREFIX_META body) then (body, [])
  else
    match (let! raw := b64d (sdrop (String.length PREFIX_META) body) in
           let! v := loads_bytes raw in as_dict v) with
    | Ok meta => (py_str (dget "body" (PStr "") meta), meta)
    | Err _ => (body, [])
    end.

(** A forwarded text as [_forward_message] sends it. *)
Definition forward_body (msg_id : Z) (body : string) : res string :=
  let meta := PDict [("kind", PStr "forward"); ("source_message_id", PInt msg_id); ("body", PStr body)] in
  let! raw := utf8_encode (json_dumps false false meta) in
  Ok (PREFIX_META +:+ b64e raw).

Definition _forwardable_body (m : option entry) : string :=
  match m with
  | None => ""
  | Some m =>
      if deleted m then ""
      else
        let body := fst (_decode_body_meta (py_str (body m))) in
        if negb (nonempty body) || starts_with "[" body || starts_with "FILE:" body || is_control_body (PStr body)
        then "" else body
  end.

(** The conversations a message can be forwarded to: the label shown and the
    identifier. *)
Fixpoint forward_dms (conv_id : Z) (l : list dict) : res (list (string * Z)) :=
  match l with
  | [] => Ok []
  | c :: l =>
      let! cid := py_int (dget "conversation_id" (PInt 0) c) in
      let! rest := forward_dms conv_id l in
      Ok (if cid =? conv_id then rest else ("DM: " +:+ py_str (dget "username" (PInt cid) c), cid) :: rest)
  end.
Fixpoint forward_groups (conv_id : Z) (l : list dict) : res (list (string * Z)) :=
  match l with
  | [] => Ok []
  | g :: l =>
      let! cid := py_int (dget "conversation_id" (PInt 0) g) in
      let! rest := forward_groups conv_id l in
      Ok (if (cid =? conv_id) || truthy (dget "is_disbanded" PNone g) then rest
          else ("Group: " +:+ py_str (dget "name" (PInt cid) g), cid) :: rest)
  end.
Definition forward_targets (p : page) (conv_id : Z) : res (list (string * Z)) :=
  let! dms := forward_dms conv_id (dm_convs p) in
  let! groups := forward_groups conv_id (group_convs p) in
  Ok (dms ++ groups).

(** [_forward_message]; [choice] is the label the user picks, [None] to give up. *)
Definition _forward_message (conv_id msg_id : Z) (choice : option string) : vm unit :=
  do! v := st_get in
  let body := _forwardable_body (_find_message (tl v) conv_id msg_id) in
  if negb (nonempty body) then st_ret tt
  else
    do! targets := st_lift (forward_targets (tl v) conv_id) in
    match choice with
    | None => st_ret tt
    | Some label =>
        match dlookup label targets with
        | None => st_ret tt
        | Some target => do! text := st_lift (forward_body msg_id body) in signal_out (SigSend target text)
        end
    end.

(** ** Composing *)

Definition _clear_reply_target : vm unit := on_composer (fun c => c <| reply_target := None |>).

Definition _start_reply (conv_id msg_id : Z) : vm unit :=
  do! v := st_get in
  if nonempty (_forwardable_body (_find_message (tl v) conv_id msg_id)) then
    on_composer (fun c => c <| reply_target := Some (conv_id, msg_id) |>)
  else st_ret tt.

(** [_send]: the text of the input field. *)
Definition _send : vm unit :=
  do! v := st_get in
  let text := strip (inp (cp v)) in
  if negb (nonempty text) || (active_conv v =? 0) then st_ret tt
  else
    let reply_to := match reply_target (cp v) with
                    | Some (c, mid) => if c =? active_conv v then mid else 0
                    | None => 0
                    end in
    do! _ := on_composer (fun c => c <| inp := "" |>) in
    do! _ := _send_typing_stop in
    if 0 <? reply_to then do! _ := signal_out (SigSendReply (active_conv v) reply_to text) in _clear_reply_target
    else signal_out (SigSend (active_conv v) text).

Definition _cancel_inline_edit : vm unit := on_composer (fun c => c <| editing_msg := None |>).

Definition _start_inline_edit (conv_id msg_id : Z) : vm unit :=
  do! v := st_get in
  let text := match _find_message (tl v) conv_id msg_id with
              | Some m => fst (_decode_body_meta (py_str (body m)))
              | None => ""
              end in
  if starts_with "FILE:" text then st_ret tt
  else on_composer (fun c => c <| editing_msg := Some (conv_id, msg_id) |> <| edit_input := text |>).

Definition _finish_inline_edit : vm unit :=
  do! v := st_get in
  match editing_msg (cp v) with
  | None => st_ret tt
  | Some (conv_id, msg_id) =>
      let text := strip (edit_input (cp v)) in
      do! _ := (if nonempty text then signal_out (SigEditMessage conv_id msg_id text) else st_ret tt) in
      _cancel_inline_edit
  end.

Definition reaction_command (typ : string) (msg_id : Z) (emoji : string) : signal :=
  SigCommand [("type", PStr typ); ("message_id", PInt msg_id); ("emoji", PStr emoji)].

(** [_react_to_message]; [choice] is the emoji picked ("" for none). *)
Definition _react_to_message (msg_id : Z) (remove : bool) (choice : string) : vm unit :=
  do! v := st_get in
  let mine := match _find_message (tl v) (active_conv v) msg_id with
              | Some m => List.find (fun r => r_me (snd r)) (reactions m)
              | None => None
              end in
  match (if remove then mine else None) with
  | Some (emoji, _) => signal_out (reaction_command "remove_reaction" msg_id emoji)
  | None =>
      if nonempty choice then
        signal_out (reaction_command (if remove then "remove_reaction" else "add_reaction") msg_id choice)
      else st_ret tt
  end.

(** ** Conversations *)

(** [g["conversation_id"]]; the application has made it an integer. *)
Definition raw_conv_id (c : dict) : res Z := let! v := ditem "conversation_id" c in py_int v.

Definition read_state (c : dict) : dict := dset "force_unread" (PBool false) (dset "unread_count" (PInt 0) c).

(** One record of a new list: the record, the state, and whether it counts as unread. *)
Definition inbox_record (c : dict) (p : page) : page * dict * res (option (Z * bool)) :=
  match (let! cid := conv_id_of c in
         if cid <=? 0 then Ok None
         else
           let! last := get_int0 "last_message_id" c in
           let! n := get_int0 "unread_count" c in
           Ok (Some (cid, last, ((0 <? n) || truthy (dget "force_unread" PNone c)) && negb (truthy (dget "muted" PNone c))))) with
  | Err e => (p, c, Err e)
  | Ok None => (p, c, Ok None)
  | Ok (Some (cid, last, raw_unread)) =>
      if raw_unread && (cid =? active_conv_id p) then
        (p <| pending_read_clear ::= union {[cid]} |>, read_state c, Ok (Some (cid, false)))
      else if raw_unread && (0 <? last) && (last <=? default 0 (last_read_sent p !! cid)) then
        (p, read_state c, Ok (Some (cid, false)))
      else (p, c, Ok (Some (cid, raw_unread)))
  end.

Fixpoint inbox_records (l : list dict) (p : page) : page * list dict * res (list (Z * bool)) :=
  match l with
  | [] => (p, [], Ok [])
  | c :: l =>
      let '(p, c, r) := inbox_record c p in
      match r with
      | Err e => (p, c :: l, Err e)
      | Ok o =>
          let '(p, l, r) := inbox_records l p in
          (p, c :: l, let! rest := r in Ok (match o with Some x => x :: rest | None => rest end))
      end
  end.

Definition ids_where (f : bool -> bool) (l : list (Z * bool)) : gset Z :=
  list_to_set (map fst (List.filter (fun x => f (snd x)) l)).

Definition update_inbox (dms groups : list dict) : vm unit :=
  do! _ := on_page (st_modify (fun p => p <| dm_convs := dms |> <| group_convs := groups |>)) in
  do! _ := st_for groups (fun g =>
    if truthy (dget "is_disbanded" PNone g) then
      do! cid := st_lift (raw_conv_id g) in st_modify (fun v => v <| disbanded_convs ::= union {[cid]} |>)
    else st_ret tt) in
  do! v := st_get in
  let '(p1, dms, r1) := inbox_records dms (tl v) in
  let '(p2, groups, r2) := match r1 with Ok _ => inbox_records groups p1 | Err e => (p1, groups, Err e) end in
  do! _ := on_page (st_modify (fun _ => p2 <| dm_convs := dms |> <| group_convs := groups |>)) in
  do! l := st_lift (let! a := r1 in let! b := r2 in Ok (a ++ b)) in
  let current := ids_where (fun _ => true) l in
  let unread := ids_where id l in
  do! _ := on_page (st_modify (fun p => p <| unread_convs ::= fun u => ((u ∩ current) ∖ (current ∖ unread)) ∪ unread |>)) in
  do! v := st_get in
  st_modify (fun v => v <| read_later ::=
    orb (bool_decide (active_conv v ∈ pending_read_clear (tl v)) && bool_decide (active_conv v ∈ history_loaded (tl v))) |>).

(** When the timer that [update_inbox] starts runs out. *)
Definition read_later_fires : vm unit :=
  do! _ := st_modify (fun v => v <| read_later := false |>) in on_page _mark_active_conversation_read.

Fixpoint clear_records (conv_id : Z) (l : list dict) : list dict * res unit :=
  match l with
  | [] => ([], Ok tt)
  | c :: l =>
      match conv_id_of c with
      | Err e => (c :: l, Err e)
      | Ok cid => let (l, r) := clear_records conv_id l in ((if cid =? conv_id then read_state c else c) :: l, r)
      end
  end.
Definition _clear_unread_without_sidebar_refresh (conv_id : Z) : pm unit :=
  if conv_id <=? 0 then st_ret tt
  else
    do! p := st_get in
    let (l1, r1) := clear_records conv_id (dm_convs p) in
    let (l2, r2) := match r1 with Ok _ => clear_records conv_id (group_convs p) | Err e => (group_convs p, Err e) end in
    do! _ := st_modify (fun p => p <| dm_convs := l1 |> <| group_convs := l2 |>) in
    do! _ := st_lift r2 in
    st_modify (fun p => p <| unread_convs ::= fun u => u ∖ {[conv_id]} |>).

Definition _switch_view (name : string) : vm unit :=
  do! _ := on_page (st_modify (fun p => p <| current_view := name |>)) in
  do! _ := (if String.eqb name "requests" then
              do! _ := st_modify (fun v => v <| pending_requests_count := 0 |>) in signal_out SigGetRequests
            else st_ret tt) in
  if String.eqb name "chat" then
    on_page (st_modify (fun p => p <| unread_convs ::= fun u =>
      if active_conv_id p =? 0 then u else u ∖ {[active_conv_id p]} |>))
  else st_ret tt.

(** The first record of a conversation, by its field. *)
Fixpoint record_of (conv_id : Z) (l : list dict) : res (option dict) :=
  match l with
  | [] => Ok None
  | c :: l => let! cid := raw_conv_id c in if cid =? conv_id then Ok (Some c) else record_of conv_id l
  end.

(** What the header shows of it: the field must be there. *)
Definition header_record (conv_id : Z) (is_group : bool) (p : page) : res (option dict) :=
  let! o := record_of conv_id (if is_group then group_convs p else dm_convs p) in
  match o with
  | Some c => let! _ := ditem (if is_group then "name" else "username") c in Ok (Some c)
  | None => Ok None
  end.

Definition _switch_to_conv (conv_id : Z) (is_group : bool) : vm unit :=
  do! _ := _cancel_inline_edit in
  do! _ := _clear_reply_target in
  do! _ := _send_typing_stop in
  do! v := st_get in
  do! _ := (if on_chat_view (tl v) then st_ret tt else _switch_view "chat") in
  do! _ := on_page (st_modify (fun p => p <| active_conv_id := conv_id |> <| active_is_group := is_group |>)) in
  do! v := st_get in
  do! unread := st_lift (_conversation_has_unread_record (tl v) conv_id) in
  do! _ := on_page (if unread : bool then st_modify (fun p => p <| pending_read_clear ::= union {[conv_id]} |>) else st_ret tt) in
  do! _ := on_page (_clear_unread_without_sidebar_refresh conv_id) in
  do! _ := on_badges (fun b => b <| fingerprint_present := false |> <| fingerprint_verified := false |>) in
  do! v := st_get in
  do! o := st_lift (header_record conv_id is_group (tl v)) in
  let gone := is_group && match o with Some c => truthy (dget "is_disbanded" PNone c) | None => false end in
  do! _ := st_modify (fun v => if gone : bool then v <| disbanded_convs ::= union {[conv_id]} |> else v) in
  do! v := st_get in
  do! _ := _set_input_enabled (negb (bool_decide (conv_id ∈ disbanded_convs v))) in
  if bool_decide (conv_id ∈ history_loaded (tl v)) then
    do! _ := st_modify (fun v => v <| scroll_to_latest ::= fun s => s ∖ {[conv_id]} |>) in
    on_page _mark_active_conversation_read
  else
    do! _ := on_page (st_modify (fun p => p <| history_loading ::= union {[conv_id]} |>)) in
    do! _ := st_modify (fun v => v <| scroll_to_latest ::= union {[conv_id]} |>) in
    signal_out (SigHistory conv_id).

(** [load_history] with the mark that a conversation opens at its end. *)
Definition show_history (conv_id : Z) (rows : list pyval) (events : list sys_event) : vm unit :=
  do! v := st_get in
  do! _ := on_page (load_history conv_id rows events) in
  if conv_id =? active_conv v then st_modify (fun v => v <| scroll_to_latest ::= fun s => s ∖ {[conv_id]} |>) else st_ret tt.

Fixpoint mark_disbanded (conv_id : Z) (l : list dict) : res (list dict) :=
  match l with
  | [] => Ok []
  | g :: l =>
      let! cid := raw_conv_id g in
      if cid =? conv_id then Ok (dset "is_disbanded" (PBool true) g :: l)
      else let! l := mark_disbanded conv_id l in Ok (g :: l)
  end.
Definition mark_group_disbanded (conv_id : Z) : vm unit :=
  do! _ := st_modify (fun v => v <| disbanded_convs ::= union {[conv_id]} |>) in
  do! v := st_get in
  do! l := st_lift (mark_disbanded conv_id (group_convs (tl v))) in
  do! _ := on_page (st_modify (fun p => p <| group_convs := l |>)) in
  if active_conv v =? conv_id then _set_input_enabled false else st_ret tt.

Fixpoint without_conv (conv_id : Z) (l : list dict) : res (list dict) :=
  match l with
  | [] => Ok []
  | c :: l =>
      let! cid := raw_conv_id c in
      let! l := without_conv conv_id l in
      Ok (if cid =? conv_id then l else c :: l)
  end.
Definition remove_conversation (conv_id : Z) : vm unit :=
  do! _ := on_page (invalidate_history conv_id true) in
  do! v := st_get in
  do! l1 := st_lift (without_conv conv_id (dm_convs (tl v))) in
  do! _ := on_page (st_modify (fun p => p <| dm_convs := l1 |>)) in
  do! l2 := st_lift (without_conv conv_id (group_convs (tl v))) in
  do! _ := on_page (st_modify (fun p => p <| group_convs := l2 |>)) in
  if active_conv v =? conv_id then
    do! _ := on_page (st_modify (fun p => p <| active_conv_id := 0 |> <| active_is_group := false |>)) in
    _set_input_enabled true
  else st_ret tt.

Definition set_me (name : string) (uid : Z) : vm unit :=
  do! _ := st_modify (fun v => v <| me := name |>) in on_page (st_modify (fun p => p <| my_id := uid |>)).

Definition update_friends (l : list dict) : vm unit :=
  do! _ := st_modify (fun v => v <| friends := [] |>) in
  st_for l (fun f =>
    do! fid := st_lift (let! v := ditem "id" f in py_int v) in
    st_modify (fun v => v <| friends ::= zset fid f |>)).

Definition _set_request_badge (count : Z) : vm unit :=
  st_modify (fun v => v <| pending_requests_count := if notifications_enabled (tl v) then Z.max 0 count else 0 |>).
(** The rows show the fields [username] and [user_id]. *)
Definition request_fields (v : pyval) : res unit :=
  match v with
  | PDict r => let! _ := ditem "username" r in let! _ := ditem "user_id" r in Ok tt
  | _ => Err TypeError
  end.
Definition update_requests (l : list pyval) : vm unit :=
  do! _ := st_lift (res_map request_fields l) in
  do! v := st_get in
  _set_request_badge (if String.eqb (current_view (tl v)) "requests" then 0 else Z.of_nat (length l)).
Definition notify_friend_request : vm unit :=
  do! v := st_get in
  if negb (notifications_enabled (tl v)) || String.eqb (current_view (tl v)) "requests" then st_ret tt
  else _set_request_badge (pending_requests_count v + 1).

(** ** The policy of the local cache *)

(** [int(cid)] of each identifier, passing over what is no integer or not positive. *)
Definition listed_ids (l : list pyval) : list Z :=
  omap (fun v => match py_int v with Ok z => if 0 <? z then Some z else None | Err _ => None end) l.
Definition policy_of (policy : dict) : res policy_view :=
  let! l := py_iter (dget "disabled_conversation_ids" (PList []) policy) in
  let! ttl := py_int (dget "ttl_days" (PInt 30) policy) in
  Ok (PolicyView (truthy (dget "enabled" (PBool true) policy)) ttl (truthy (dget "clear_on_logout" (PBool false) policy))
        (sort_ints (elements (list_to_set (C := gset Z) (listed_ids l))))).
Definition set_cache_policy (policy : dict) : vm unit :=
  do! view := st_lift (policy_of policy) in st_modify (fun v => v <| local_policy := view |>).

Definition _cache_disabled_ids (v : view) : gset Z := list_to_set (List.filter (fun z => 0 <? z) (pv_disabled (local_policy v))).
Definition _is_cache_enabled_for_conversation (v : view) (conv_id : Z) : bool :=
  pv_enabled (local_policy v) && (0 <? conv_id) && negb (bool_decide (conv_id ∈ _cache_disabled_ids v)).

(** [reset], at logout; the policy stays. *)
Definition reset : vm unit :=
  do! _ := _cancel_inline_edit in
  do! _ := _clear_reply_target in
  do! _ := _send_typing_stop in
  do! _ := on_page (st_modify (fun p => p <| hist := ∅ |> <| history_loaded := ∅ |> <| history_loading := ∅ |>
    <| dm_convs := [] |> <| group_convs := [] |> <| active_is_group := false |> <| unread_convs := ∅ |>
    <| pending_edit_events := ∅ |> <| last_read_sent := ∅ |> <| system_event_keys := ∅ |>
    <| current_view := "chat" |> <| active_conv_id := 0 |>)) in
  do! _ := on_badges (fun _ => new_badges) in
  do! _ := on_composer (fun c => c <| inp := "" |>) in
  do! _ := st_modify (fun v => v <| friends := [] |> <| pending_open_conv := 0 |> <| pending_open_is_group := false |>
    <| disbanded_convs := ∅ |> <| typing_convs := ∅ |> <| typing_timers := ∅ |> <| scroll_to_latest := ∅ |>) in
  do! _ := _set_request_badge 0 in
  _set_input_enabled true.

(** ** Theorems *)

(** The wire of a forwarded text is read back to the text, and shows neither the
    forwarder's conversation nor the first author. *)
Theorem forwarded_text_read_back msg_id body (Hvalid : utf8_valid body = true) :
  exists wire, forward_body msg_id body = Ok wire /\ starts_with PREFIX_META wire = true /\
    _decode_body_meta wire =
      (body, [("kind", PStr "forward"); ("source_message_id", PInt msg_id); ("body", PStr body)]).
Proof.
  unfold forward_body. set (d := [("kind", PStr "forward"); ("source_message_id", PInt msg_id); ("body", PStr body)]).
  assert (Hok : py_ok (PDict d)).
  { apply py_ok_dict. split.
    - repeat constructor; set_solver.
    - unfold d. repeat constructor. done. }
  unfold utf8_encode. rewrite json_dumps_valid by done. cbn [res_bind].
  eexists. split; [reflexivity|]. split; [apply starts_with_app|]. unfold _decode_body_meta. rewrite starts_with_app. cbn [negb].
  rewrite sdrop_app, b64d_b64e. cbn [res_bind]. by rewrite loads_bytes_ok.
Qed.

(** Turning the protection of metadata on while typing swallows the sign that the user
    has stopped: the others have been told that the user is typing, [_send_typing_stop]
    alone would tell them otherwise, but the flag it tests is cleared first, so that
    nothing is emitted; turning it off again does not make up for it. *)
Theorem protection_swallows_typing_stop v (Hon : typing_indicators (cp v) = true)
    (Htyping : typing_active_sent (cp v) = true) (Hconv : 0 < typing_conv_id (cp v)) :
  let stop := SigCommand [("type", PStr "typing_stop"); ("conversation_id", PInt (typing_conv_id (cp v)))] in
  let v1 := fst (set_metadata_protection true v) in
  signals (tl (fst (_send_typing_stop v))) = stop :: signals (tl v) /\
  signals (tl v1) = signals (tl v) /\ typing_active_sent (cp v1) = false /\
  signals (tl (fst (set_metadata_protection false v1))) = signals (tl v).
Proof.
  cbv zeta. split; [|done]. unfold _send_typing_stop, st_bind at 1, st_get. apply Z.ltb_lt in Hconv. by rewrite Hon, Htyping, Hconv.
Qed.

(** ** Witnesses *)

Lemma forwarded_text_read_back_witness : exists wire, forward_body 41 "see you at nine" = Ok wire /\
  fst (_decode_body_meta wire) = "see you at nine".
Proof.
  destruct (forwarded_text_read_back 41 "see you at nine" eq_refl) as (wire & E & _ & Hd). exists wire. split; [exact E|by rewrite Hd].
Defined.

(** A user who has begun to type in conversation 7. *)
Definition typing_view : view :=
  fst (_on_input_changed (new_view <| tl ::= fun p => p <| active_conv_id := 7 |> |> <| cp ::= fun c => c <| inp := "hel" |> |>)).

Lemma protection_swallows_typing_stop_witness :
  signals (tl typing_view) = [SigCommand [("type", PStr "typing_start"); ("conversation_id", PInt 7)]] /\
  signals (tl (fst (set_metadata_protection true typing_view))) = signals (tl typing_view).
Proof.
  destruct (protection_swallows_typing_stop typing_view eq_refl eq_refl ltac:(reflexivity)) as (_ & H & _). split; [reflexivity|exact H].
Defined.
