(* ===== verification/Files.v ===== *)
(** * Files in messages (client/pages/chat_page.py, client/app.py)

    A file travels as the text of a message, [FILE:], its metadata as JSON and its bytes
    as Base64. Building the text and reading it back; the sending itself is in
    [AppMessages]. *)

From S2P Require Import Prelude Hashing Base64 PyVal Sorting Json Crypto Wire Ratchet AuditClient Utils Session.
From S2P Require Import Pqxdh CacheStore Transcript Identity DrStore IdentityAudit MlsBridge Mls Messages Cleanup Backup.
From S2P Require Import WebSocket ChatPage ChatView.

(** ** Paths *)

Definition is_dot (c : ascii) : bool := Ascii.eqb c "."%char.

(** From the last point of a string that has one. *)
Fixpoint from_last_dot (s : string) : string :=
  match s with
  | EmptyString => ""
  | String _ s' => if string_any is_dot s' then from_last_dot s' else s
  end.
(** [os.path.splitext(name)[1]]: points at the beginning do not count. *)
Definition extension (name : string) : string :=
  let b := lstrip_if is_dot (basename name) in if string_any is_dot b then from_last_dot b else "".

Fixpoint path_parts (s acc : string) : list string :=
  match s with
  | EmptyString => [acc]
  | String c s' => if Ascii.eqb c "/"%char then acc :: path_parts s' "" else path_parts s' (acc +:+ String c "")
  end.
(** One component of a path after those of [l], the last first, in an absolute path. *)
Definition norm_step (l : list string) (x : string) : list string :=
  if mem x [""; "."] then l else if String.eqb x ".." then List.tl l else x :: l.
(** [os.path.abspath]: of the slashes in front, two stay two, more become one. *)
Definition abspath (cwd path : string) : string :=
  let p := if starts_with "/" path then path else path_join cwd path in
  let lead := if starts_with "//" p && negb (starts_with "///" p) then "//" else "/" in
  lead +:+ join "/" (rev (fold_left norm_step (path_parts p "") [])).

(** ** The kind of a file *)

Definition mime_table : list (string * string) :=
  [(".png", "image/png"); (".jpg", "image/jpeg"); (".jpeg", "image/jpeg"); (".gif", "image/gif"); (".bmp", "image/bmp");
   (".webp", "image/webp"); (".svg", "image/svg+xml"); (".mp4", "video/mp4"); (".webm", "video/webm");
   (".avi", "video/x-msvideo"); (".mov", "video/quicktime"); (".mkv", "video/x-matroska"); (".pdf", "application/pdf");
   (".zip", "application/zip"); (".txt", "text/plain"); (".doc", "application/msword");
   (".docx", "application/vnd.openxmlformats-officedocument.wordprocessingml.document")].
Definition other_mime : string := "application/octet-stream".

(** [ext.lower()], as far as it can give a string of ASCII: the letters, and the sign
    for Kelvin (U+212A), whose small letter is [k]. *)
Fixpoint lower_key (s : string) : string :=
  match s with
  | EmptyString => ""
  | String c s' =>
      match s' with
      | String d (String e s3) =>
          if (code c =? 226) && (code d =? 132) && (code e =? 170) then String "k" (lower_key s3)
          else String (ascii_lower c) (lower_key s')
      | _ => String (ascii_lower c) (lower_key s')
      end
  end.
Definition _guess_mime (name : string) : string :=
  default other_mime (dlookup (lower_key (extension name)) mime_table).

Definition MAX_FILE_SIZE : Z := 1 * 1024 * 1024.
Definition IMAGE_MIMES : list string :=
  ["image/png"; "image/jpeg"; "image/jpg"; "image/gif"; "image/bmp"; "image/webp"; "image/svg+xml"].
Definition VIDEO_MIMES : list string :=
  ["video/mp4"; "video/webm"; "video/avi"; "video/mov"; "video/mkv"; "video/quicktime"; "video/x-msvideo"; "video/x-matroska"].

(** [f"{n / d:.1f}"] for [d] a power of two and [0 <= n < 2^53]: the quotient is exact,
    and a tie goes to the even digit. *)
Definition fixed1 (n d : Z) : string :=
  let q := 10 * n / d in
  let r := 2 * (10 * n mod d) in
  let t := if (d <? r) || ((r =? d) && Z.odd q) then q + 1 else q in
  dec (t / 10) +:+ "." +:+ dec (t mod 10).
Definition _format_size (size : Z) : string :=
  if size <? 1024 then dec size +:+ " B"
  else if size <? 1024 * 1024 then fixed1 size 1024 +:+ " KB"
  else fixed1 size (1024 * 1024) +:+ " MB".

(** ** Building the text *)

(** A code point in an escape, beyond the basic plane as two. *)
Definition u_escape (u : Z) : string := "\u" +:+ hex2 (u / 256) +:+ hex2 (u mod 256).
Definition escape_code (u : Z) : string :=
  if u <? 65536 then u_escape u
  else u_escape (55296 + (u - 65536) / 1024) +:+ u_escape (56320 + (u - 65536) mod 1024).

(** What [ensure_ascii=True] makes of a JSON text: every character that is not printable
    ASCII, which is in a string, is escaped. *)
Fixpoint ascii_only (s : string) : string :=
  match s with
  | EmptyString => ""
  | String a s1 =>
      let x := code a in
      if x <? 127 then String a (ascii_only s1)
      else if x =? 127 then u_escape 127 +:+ ascii_only s1
      else match s1 with
      | EmptyString => s
      | String b s2 =>
          if x <? 224 then escape_code ((x - 192) * 64 + (code b - 128)) +:+ ascii_only s2
          else match s2 with
          | EmptyString => s
          | String c s3 =>
              if x <? 240 then
                escape_code (((x - 224) * 64 + (code b - 128)) * 64 + (code c - 128)) +:+ ascii_only s3
              else match s3 with
              | EmptyString => s
              | String d s4 =>
                  escape_code ((((x - 240) * 64 + (code b - 128)) * 64 + (code c - 128)) * 64 + (code d - 128)) +:+ ascii_only s4
              end
          end
      end
  end.

Definition file_meta (name mime : string) (size : Z) : dict := [("name", PStr name); ("mime", PStr mime); ("size", PInt size)].
Definition file_body (name : string) (size : Z) (raw : bytes) : string :=
  "FILE:" +:+ ascii_only (json_dumps true false (PDict (file_meta name (_guess_mime name) size))) +:+ ":" +:+ b64encode raw.

(** ** Reading it back *)

(** The files of the page: [_temp_counter] and the directory [_temp_dir]. *)
Record temp_files := TempFiles { temp_counter : Z; temps : list (string * bytes) }.
#[export] Instance temp_files_eta : Eta temp_files := fun t => TempFiles (temp_counter t) (temps t).

Record file_info := FileInfo { fi_name : string; fi_mime : string; fi_size : Z; fi_path : string }.

(** [s[n:]]. *)
Fixpoint char_drop (n : nat) (s : string) : string :=
  match n with
  | 0%nat => s
  | S n => match s with EmptyString => "" | String _ s' => char_drop n (lstrip_if cont_byte s') end
  end.
(** Up to the first closing brace, and what follows. *)
Fixpoint split_brace (s : string) : option (string * string) :=
  match s with
  | EmptyString => None
  | String c s' =>
      if Ascii.eqb c "}"%char then Some (String c "", s')
      else match split_brace s' with Some (x, y) => Some (String c x, y) | None => None end
  end.

(** Name, kind and size as the metadata has them, and the bytes. *)
Definition read_file (body : string) : res (string * string * Z * bytes) :=
  let! (head, rest) := of_option (split_brace (char_drop 5 body)) (ValueError "substring not found") in
  let! meta := json_loads head in
  let! raw := b64decode (char_drop 1 rest) in
  match meta with
  | PDict meta =>
      let len := blen raw in
      let! size := py_int (py_or (dget "size" (PInt len) meta) (PInt len)) in
      Ok (py_str (dget "name" (PStr "file") meta), py_str (dget "mime" (PStr other_mime) meta), size, raw)
  | _ => Err AttributeError
  end.

Section files.
(** The directory of temporary files, and whether a file can be written. *)
Variables (temp_dir : string) (writable : string -> bool).

Definition _next_temp_path (ext : string) : stm temp_files string :=
  do! t := st_get in
  let n := temp_counter t + 1 in
  do! _ := st_modify (fun t => t <| temp_counter := n |>) in
  st_ret (path_join temp_dir ("file_" +:+ dec n +:+ ext)).

Definition _parse_file_payload (body : string) : stm temp_files (option file_info) :=
  st_catch (
    do! (name, mime, size, raw) := st_lift (read_file body) in
    do! tmp := _next_temp_path (or_default (extension name) ".bin") in
    do! _ := (if writable tmp then st_modify (fun t => t <| temps ::= dset tmp raw |>) else st_fail OSError) in
    st_ret (Some (FileInfo name mime size tmp)))
  (fun _ => st_ret None).

(** What the bubble of a file shows; [None] is its error text. A picture that Qt cannot
    read is left out. *)
Inductive file_kind := Picture | Video | OtherFile.
Definition file_kind_of (mime : string) : file_kind :=
  if mem mime IMAGE_MIMES then Picture else if mem mime VIDEO_MIMES then Video else OtherFile.
Definition _build_file_widget (body : string) : stm temp_files (option (file_kind * string * string * string)) :=
  do! info := _parse_file_payload body in
  st_ret (match info with
          | Some i => Some (file_kind_of (fi_mime i), fi_name i, _format_size (fi_size i), fi_path i)
          | None => None
          end).
End files.

(** ** Choosing a file *)

Definition nl : string := String (chr8 10) "".
(** The message box, when there is one. *)
Definition too_large (size : Z) : string :=
  "Max file size is " +:+ dec (MAX_FILE_SIZE / 1024) +:+ " KB." +:+ nl +:+ "Selected file: " +:+ fixed1 size 1024 +:+ " KB".
Definition _send_file_path (is_file : string -> bool) (size_of : string -> res Z) (path : string) : vm (option (string * string)) :=
  if negb (is_file path) then st_ret (Some ("File not found", "The dropped file is not available."))
  else
    do! size := st_lift (size_of path) in
    if MAX_FILE_SIZE <? size then st_ret (Some ("File too large", too_large size))
    else
      do! v := st_get in
      do! _ := signal_out (SigSendFile (active_conv v) path) in
      st_ret None.
Definition _send_dropped_file (is_file : string -> bool) (size_of : string -> res Z) (path : string) : vm (option (string * string)) :=
  do! v := st_get in
  if active_conv v =? 0 then st_ret (Some ("No conversation", "Select a conversation first."))
  else _send_file_path is_file size_of path.

Example kinds : map _guess_mime ["a.PNG"; "b.tar.zip"; ".txt"; "c.d/e"; "f."; "no.mov.x"] =
  ["image/png"; "application/zip"; other_mime; other_mime; other_mime; other_mime].
Proof. reflexivity. Qed.
Example sizes : map _format_size [1023; 1024; 1536; 1126; 1048576; 1100000] = ["1023 B"; "1.0 KB"; "1.5 KB"; "1.1 KB"; "1.0 MB"; "1.0 MB"].
Proof. reflexivity. Qed.
Example paths : map (abspath "/home/an") ["x.txt"; "/a/../b//c"; "../z"; "//h/x"; "///y"; "./q/."] =
  ["/home/an/x.txt"; "/b/c"; "/home/z"; "//h/x"; "/y"; "/home/an/q"].
Proof. reflexivity. Qed.
