(* ===== verification/FilesProps.v ===== *)
(** * Properties of files in messages

    The text of a file is read back ([file_read_back]), unless its name has a closing
    brace ([brace_name_unreadable]). *)

From S2P Require Import Prelude Hashing Base64 PyVal Sorting Json JsonFacts Wire AuditClient Utils Session.
From S2P Require Import WebSocket ChatPage ChatView Files.

(** ** Escapes *)

Lemma unhex_low z : 0 <= z < 16 -> unhex_digit (if z <? 10 then chr8 (48 + z) else chr8 (87 + z)) = Some z.
Proof.
  intros Hz. assert (H : forallb (fun n => match unhex_digit (let z := Z.of_nat n in if z <? 10 then chr8 (48 + z) else chr8 (87 + z)) with
    | Some w => w =? Z.of_nat n | None => false end) (seq 0 16) = true) by reflexivity.
  rewrite forallb_forall in H. specialize (H (Z.to_nat z)). cbv zeta in H. rewrite Z2Nat.id in H by lia.
  destruct (unhex_digit _) as [w|]; [|discriminate H; apply in_seq; lia].
  f_equal. apply Z.eqb_eq, H, in_seq. lia.
Qed.

(** One escape, read. *)
Lemma parse_u_escape u t : 0 <= u < 65536 -> in_range 55296 56319 u = false ->
  parse_str (u_escape u +:+ t) = prepend (utf8_char u) (parse_str t).
Proof.
  intros Hu Hs. unfold u_escape, hex2. cbn [String.append]. cbn [parse_str]. unfold hex4. rewrite !unhex_low by dlia. cbv iota beta.
  replace (((u / 256 / 16 * 16 + (u / 256) mod 16) * 16 + u mod 256 / 16) * 16 + (u mod 256) mod 16) with u by dlia.
  rewrite Hs. done.
Qed.
Lemma parse_pair u t : 65536 <= u < 1114112 -> parse_str (escape_code u +:+ t) = prepend (utf8_char u) (parse_str t).
Proof.
  intros Hu. unfold escape_code. replace (u <? 65536) with false by lia. set (hi := 55296 + (u - 65536) / 1024).
  set (lo := 56320 + (u - 65536) mod 1024). assert (Hhi : 55296 <= hi <= 56319) by (subst hi; dlia).
  assert (Hlo : 56320 <= lo <= 57343) by (subst lo; dlia).
  rewrite sapp_assoc. unfold u_escape at 1. unfold hex2. cbn [String.append]. cbn [parse_str]. unfold hex4. rewrite !unhex_low by dlia. cbv iota beta.
  replace (((hi / 256 / 16 * 16 + (hi / 256) mod 16) * 16 + hi mod 256 / 16) * 16 + (hi mod 256) mod 16) with hi by dlia.
  unfold in_range at 1. replace ((55296 <=? hi) && (hi <=? 56319)) with true by lia.
  unfold u_escape, hex2. cbn [String.append]. rewrite !unhex_low by dlia. cbv iota beta.
  replace (((lo / 256 / 16 * 16 + (lo / 256) mod 16) * 16 + lo mod 256 / 16) * 16 + (lo mod 256) mod 16) with lo by dlia.
  unfold in_range at 1. replace ((56320 <=? lo) && (lo <=? 57343)) with true by lia. cbn [andb Z.eqb].
  replace (65536 + (hi - 55296) * 1024 + (lo - 56320)) with u by (subst hi lo; dlia). done.
Qed.

(** ** Characters *)

Lemma range_bounds lo hi z : in_range lo hi z = true -> lo <= z <= hi.
Proof. unfold in_range. lia. Qed.
Lemma cont_bounds c : cont_byte c = true -> 128 <= code c <= 191.
Proof. apply range_bounds. Qed.
Lemma second3_bounds x c : second3 x c = true -> 128 <= code c <= 191 /\ (x = 224 -> 160 <= code c) /\ (x = 237 -> code c <= 159).
Proof. unfold second3, cont_byte, in_range. destruct (x =? 224) eqn:E1; [lia|]. destruct (x =? 237) eqn:E2; lia. Qed.
Lemma second4_bounds x c : second4 x c = true -> 128 <= code c <= 191 /\ (x = 240 -> 144 <= code c) /\ (x = 244 -> code c <= 143).
Proof. unfold second4, cont_byte, in_range. destruct (x =? 240) eqn:E1; [lia|]. destruct (x =? 244) eqn:E2; lia. Qed.

(** The code points of two, three and four bytes. *)
Definition cp2 (a b : ascii) : Z := (code a - 192) * 64 + (code b - 128).
Definition cp3 (a b c : ascii) : Z := ((code a - 224) * 64 + (code b - 128)) * 64 + (code c - 128).
Definition cp4 (a b c d : ascii) : Z := (((code a - 240) * 64 + (code b - 128)) * 64 + (code c - 128)) * 64 + (code d - 128).

Lemma char2 a b : in_range 194 223 (code a) = true -> cont_byte b = true ->
  128 <= cp2 a b < 2048 /\ utf8_char (cp2 a b) = String a (String b "").
Proof.
  intros Ha%range_bounds Hb%cont_bounds. unfold cp2. set (u := _ + _). assert (Hu : 128 <= u < 2048) by (subst u; lia). split; [done|].
  unfold utf8_char. replace (u <? 128) with false by lia. replace (u <? 2048) with true by lia.
  replace (192 + u / 64) with (code a) by (subst u; dlia). replace (128 + u mod 64) with (code b) by (subst u; dlia).
  by rewrite !chr8_code.
Qed.
Lemma char3 a b c : in_range 224 239 (code a) = true -> second3 (code a) b = true -> cont_byte c = true ->
  2048 <= cp3 a b c < 65536 /\ in_range 55296 56319 (cp3 a b c) = false /\ utf8_char (cp3 a b c) = String a (String b (String c "")).
Proof.
  intros Ha%range_bounds (Hb & Hb1 & Hb2)%second3_bounds Hc%cont_bounds. unfold cp3. set (u := _ + (code c - _)).
  assert (Hu : 2048 <= u < 65536) by (subst u; lia). split; [done|]. split; [unfold in_range; subst u; lia|].
  unfold utf8_char. replace (u <? 128) with false by lia. replace (u <? 2048) with false by lia. replace (u <? 65536) with true by lia.
  replace (224 + u / 4096) with (code a) by (subst u; dlia). replace (128 + u / 64 mod 64) with (code b) by (subst u; dlia).
  replace (128 + u mod 64) with (code c) by (subst u; dlia). by rewrite !chr8_code.
Qed.
Lemma char4 a b c d : in_range 240 244 (code a) = true -> second4 (code a) b = true -> cont_byte c = true -> cont_byte d = true ->
  65536 <= cp4 a b c d < 1114112 /\ utf8_char (cp4 a b c d) = String a (String b (String c (String d ""))).
Proof.
  intros Ha%range_bounds (Hb & Hb1 & Hb2)%second4_bounds Hc%cont_bounds Hd%cont_bounds. unfold cp4. set (u := _ + (code d - _)).
  assert (Hu : 65536 <= u < 1114112) by (subst u; lia). split; [done|].
  unfold utf8_char. replace (u <? 128) with false by lia. replace (u <? 2048) with false by lia. replace (u <? 65536) with false by lia.
  replace (240 + u / 262144) with (code a) by (subst u; dlia). replace (128 + u / 4096 mod 64) with (code b) by (subst u; dlia).
  replace (128 + u / 64 mod 64) with (code c) by (subst u; dlia). replace (128 + u mod 64) with (code d) by (subst u; dlia).
  by rewrite !chr8_code.
Qed.

(** What [ascii_only] makes of one character. *)
Lemma only_ascii c s : code c < 128 -> ascii_only (String c s) = (if code c <? 127 then String c "" else u_escape 127) +:+ ascii_only s.
Proof.
  intros H. cbn [ascii_only]. destruct (code c <? 127) eqn:E; [done|]. replace (code c =? 127) with true by lia. done.
Qed.
Lemma only_2 a b s : in_range 194 223 (code a) = true -> ascii_only (String a (String b s)) = escape_code (cp2 a b) +:+ ascii_only s.
Proof.
  intros Ha%range_bounds. cbn [ascii_only]. replace (code a <? 127) with false by lia. replace (code a =? 127) with false by lia.
  replace (code a <? 224) with true by lia. done.
Qed.
Lemma only_3 a b c s : in_range 224 239 (code a) = true -> ascii_only (String a (String b (String c s))) = escape_code (cp3 a b c) +:+ ascii_only s.
Proof.
  intros Ha%range_bounds. cbn [ascii_only]. replace (code a <? 127) with false by lia. replace (code a =? 127) with false by lia.
  replace (code a <? 224) with false by lia. replace (code a <? 240) with true by lia. done.
Qed.
Lemma only_4 a b c d s : in_range 240 244 (code a) = true ->
  ascii_only (String a (String b (String c (String d s)))) = escape_code (cp4 a b c d) +:+ ascii_only s.
Proof.
  intros Ha%range_bounds. cbn [ascii_only]. replace (code a <? 127) with false by lia. replace (code a =? 127) with false by lia.
  replace (code a <? 224) with false by lia. replace (code a <? 240) with false by lia. done.
Qed.

Lemma ascii_only_app a b : utf8_valid a = true -> ascii_only (a +:+ b) = ascii_only a +:+ ascii_only b.
Proof.
  revert a. apply (utf8_valid_ind (fun a => ascii_only (a +:+ b) = ascii_only a +:+ ascii_only b)); [done|..].
  - intros x s Hx _ IH. cbn [String.append]. by rewrite !only_ascii, IH, sapp_assoc.
  - intros x y s Hx Hy _ IH. cbn [String.append]. by rewrite !only_2, IH, sapp_assoc.
  - intros x y z s Hx Hy Hz _ IH. cbn [String.append]. by rewrite !only_3, IH, sapp_assoc.
  - intros x y z w s Hx Hy Hz Hw _ IH. cbn [String.append]. by rewrite !only_4, IH, sapp_assoc.
Qed.

Lemma escape_code_low u : u < 65536 -> escape_code u = u_escape u.
Proof. intros H. unfold escape_code. by replace (u <? 65536) with true by lia. Qed.
Lemma parse_only_char c t : code c < 128 -> parse_str (ascii_only (escape_char c) +:+ t) = prepend (String c "") (parse_str t).
Proof. destruct c as [[] [] [] [] [] [] [] []]; intros H; first [reflexivity|by vm_compute in H]. Qed.

(** The escapes of a text are read back. *)
Lemma prepend_app a b r : prepend a (prepend b r) = prepend (a +:+ b) r.
Proof. destruct r as [[x y]|]; [|done]. cbn. by rewrite sapp_assoc. Qed.
Lemma prepend_nil r : prepend "" r = r. Proof. by destruct r as [[x y]|]. Qed.
Definition escaped (s : string) : string := ascii_only (escape_body s).

(** Induction over the characters: ASCII, or a code point beyond it. *)
Lemma escaped_ind (P : string -> Prop) :
  P "" -> (forall c s, code c < 128 -> P s -> P (String c s)) ->
  (forall u s, 128 <= u < 1114112 -> (u < 65536 -> in_range 55296 56319 u = false) ->
     escaped (utf8_char u +:+ s) = escape_code u +:+ escaped s -> P s -> P (utf8_char u +:+ s)) ->
  forall s, utf8_valid s = true -> P s.
Proof.
  intros H0 H1 H2. apply utf8_valid_ind; [done|..]; unfold escaped in H2.
  - intros c s Hc _. by apply H1.
  - intros x y s Hx Hy _ IH. destruct (char2 x y Hx Hy) as [Hu Hc]. pose proof (range_bounds _ _ _ Hx). pose proof (cont_bounds _ Hy).
    specialize (H2 (cp2 x y) s). rewrite Hc in H2. cbn [String.append escape_body] in H2. rewrite !escape_char_high in H2 by lia.
    apply H2; [lia|intros _; unfold in_range; lia|by apply only_2|done].
  - intros x y z s Hx Hy Hz _ IH. destruct (char3 x y z Hx Hy Hz) as (Hu & Hn & Hc). pose proof (range_bounds _ _ _ Hx).
    pose proof (second3_bounds _ _ Hy). pose proof (cont_bounds _ Hz). specialize (H2 (cp3 x y z) s). rewrite Hc in H2.
    cbn [String.append escape_body] in H2. rewrite !escape_char_high in H2 by lia. apply H2; [lia|done|by apply only_3|done].
  - intros x y z w s Hx Hy Hz Hw _ IH. destruct (char4 x y z w Hx Hy Hz Hw) as [Hu Hc]. pose proof (range_bounds _ _ _ Hx).
    pose proof (second4_bounds _ _ Hy). pose proof (cont_bounds _ Hz). pose proof (cont_bounds _ Hw). specialize (H2 (cp4 x y z w) s).
    rewrite Hc in H2. cbn [String.append escape_body] in H2. rewrite !escape_char_high in H2 by lia. apply H2; [lia|lia|by apply only_4|done].
Qed.
Lemma escaped_cons c s : code c < 128 -> escaped (String c s) = ascii_only (escape_char c) +:+ escaped s.
Proof. intros H. unfold escaped. cbn [escape_body]. apply ascii_only_app. by apply utf8_valid_ascii, escape_char_ascii. Qed.

Lemma parse_code u t : 0 <= u < 1114112 -> (u < 65536 -> in_range 55296 56319 u = false) ->
  parse_str (escape_code u +:+ t) = prepend (utf8_char u) (parse_str t).
Proof.
  intros Hu Hs. destruct (Z.ltb_spec u 65536); [|apply parse_pair; lia]. rewrite escape_code_low by done. apply parse_u_escape; [lia|auto].
Qed.
Lemma parse_escaped s t : utf8_valid s = true -> parse_str (escaped s +:+ t) = prepend s (parse_str t).
Proof.
  revert s. apply (escaped_ind (fun s => parse_str (escaped s +:+ t) = prepend s (parse_str t))); [by rewrite prepend_nil|..].
  - intros c s Hc IH. by rewrite escaped_cons, sapp_assoc, parse_only_char, IH, prepend_app.
  - intros u s Hu Hs -> IH. by rewrite sapp_assoc, parse_code, IH, prepend_app by (lia || done).
Qed.

(** ** Braces *)

Definition no_brace (s : string) : bool := string_all (not_char "}"%char) s.
Lemma split_brace_app a b : no_brace a = true -> split_brace (a +:+ String "}"%char b) = Some (a +:+ "}", b).
Proof.
  induction a as [|c a IH]; [done|]. unfold no_brace in *. cbn [string_all String.append split_brace]. intros [Hc Ha]%andb_prop.
  unfold not_char in Hc. rewrite Ascii.eqb_sym. destruct (Ascii.eqb _ c); [discriminate|]. by rewrite (IH Ha).
Qed.
Lemma low_no_brace z : 0 <= z < 16 -> not_char "}"%char (if z <? 10 then chr8 (48 + z) else chr8 (87 + z)) = true.
Proof.
  intros Hz. assert (H : forallb (fun n => not_char "}"%char (let z := Z.of_nat n in if z <? 10 then chr8 (48 + z) else chr8 (87 + z))) (seq 0 16) = true) by reflexivity.
  rewrite forallb_forall in H. specialize (H (Z.to_nat z)). cbv zeta in H. rewrite Z2Nat.id in H by lia. apply H, in_seq. lia.
Qed.
Lemma u_escape_no_brace u : 0 <= u < 65536 -> no_brace (u_escape u) = true.
Proof. intros Hu. unfold no_brace, u_escape, hex2. cbn [String.append string_all]. rewrite !low_no_brace by dlia. done. Qed.
Lemma escape_code_no_brace u : 0 <= u < 1114112 -> no_brace (escape_code u) = true.
Proof.
  intros Hu. unfold escape_code. destruct (u <? 65536) eqn:E; [apply u_escape_no_brace; lia|]. unfold no_brace.
  rewrite string_all_app. apply andb_true_intro. split; apply u_escape_no_brace; dlia.
Qed.
Lemma only_char_no_brace c : code c < 128 -> not_char "}"%char c = true -> no_brace (ascii_only (escape_char c)) = true.
Proof. destruct c as [[] [] [] [] [] [] [] []]; intros H Hc; first [reflexivity|by vm_compute in H|by vm_compute in Hc]. Qed.
Lemma escaped_no_brace s : utf8_valid s = true -> no_brace s = true -> no_brace (escaped s) = true.
Proof.
  unfold no_brace. revert s. apply (escaped_ind (fun s => string_all (not_char "}"%char) s = true -> string_all (not_char "}"%char) (escaped s) = true)); [done|..].
  - intros c s Hc IH [Hn H]%andb_prop. rewrite escaped_cons, string_all_app, IH, andb_true_r by done. by apply only_char_no_brace.
  - intros u s Hu _ -> IH H. rewrite string_all_app in H. apply andb_prop in H as [_ H]. rewrite string_all_app, IH, andb_true_r by done.
    apply escape_code_no_brace. lia.
Qed.

(** ** The metadata *)

Lemma only_digits s t : string_all is_digit s = true -> ascii_only (s +:+ t) = s +:+ ascii_only t.
Proof.
  induction s as [|c s IH]; [done|]. cbn [string_all String.append]. intros [Hc Hs]%andb_prop. unfold is_digit in Hc.
  rewrite only_ascii by lia. replace (code c <? 127) with true by lia. cbn [String.append]. by rewrite IH.
Qed.

(** The text of the metadata: before the name, between the name and the kind, between
    the kind and the size. *)
Definition quoted (s : string) : string := String dq (s +:+ String dq "").
Definition lit1 : string := "{" +:+ quoted "name" +:+ ": " +:+ String dq "".
Definition lit2 : string := String dq (", " +:+ quoted "mime" +:+ ": " +:+ String dq "").
Definition lit3 : string := String dq (", " +:+ quoted "size" +:+ ": ").
Definition meta_rest (mime : string) (size : Z) : string := lit2 +:+ escaped mime +:+ lit3 +:+ dec_nat size.

Lemma meta_dumped name mime size : json_dumps true false (PDict (file_meta name mime size)) =
  lit1 +:+ escape_body name +:+ lit2 +:+ escape_body mime +:+ lit3 +:+ dec size +:+ "}".
Proof.
  unfold json_dumps, file_meta. cbn [json_print map fst snd item_sep key_sep join].
  change (json_str "name") with (quoted "name"). change (json_str "mime") with (quoted "mime"). change (json_str "size") with (quoted "size").
  unfold json_str, lit1, lit2, lit3. generalize (escape_body name) (escape_body mime) (dec size). intros n m d.
  rewrite !sapp_assoc. cbn [String.append]. rewrite !sapp_assoc. cbn [String.append]. done.
Qed.
Lemma meta_text name mime size : utf8_valid name = true -> utf8_valid mime = true -> 0 <= size ->
  ascii_only (json_dumps true false (PDict (file_meta name mime size))) = lit1 +:+ escaped name +:+ meta_rest mime size +:+ "}".
Proof.
  intros Hn Hm Hs. rewrite meta_dumped. unfold dec. replace (size <? 0) with false by lia. destruct (dec_nat_numeral size Hs) as [Hdig _].
  rewrite ascii_only_app by done. rewrite ascii_only_app by (by apply escape_body_valid). rewrite ascii_only_app by done.
  rewrite ascii_only_app by (by apply escape_body_valid). rewrite ascii_only_app by done. rewrite only_digits by done.
  unfold meta_rest. rewrite !sapp_assoc. done.
Qed.

(** What follows a member with key [k] and value [v]: the end, or more members. *)
Definition member_end (f : nat) (k : string) (v : pyval) (s : string) : option (list (string * pyval) * string) :=
  match skip_ws s with
  | EmptyString => None
  | String e s' =>
      if code e =? 125 then Some ([(k, v)], s')
      else if code e =? 44 then
        match parse_members f (skip_ws s') with Some (l, r) => Some ((k, v) :: l, r) | None => None end
      else None
  end.

(** Compute the tests of known characters. *)
Ltac codes :=
  repeat (cbn; match goal with
  | |- context [code (Ascii ?b0 ?b1 ?b2 ?b3 ?b4 ?b5 ?b6 ?b7)] =>
      let c := constr:(Ascii b0 b1 b2 b3 b4 b5 b6 b7) in let z := eval vm_compute in (code c) in change (code c) with z
  | |- context [is_json_space (Ascii ?b0 ?b1 ?b2 ?b3 ?b4 ?b5 ?b6 ?b7)] =>
      let c := constr:(Ascii b0 b1 b2 b3 b4 b5 b6 b7) in let z := eval vm_compute in (is_json_space c) in change (is_json_space c) with z
  end); cbn.
Lemma value_lit1 f x : parse_value (S (S (S f))) (lit1 +:+ x) =
  match parse_str x with
  | Some (s, r) => match member_end (S f) "name" (PStr s) r with Some (l, r) => Some (PDict (dupdate [] l), r) | None => None end
  | None => None
  end.
Proof. unfold lit1, quoted, member_end. unfold dq. codes. by destruct (parse_str x) as [[s r]|]. Qed.
Lemma members_lit2 f k v x : member_end (S (S f)) k v (sdrop 1 lit2 +:+ x) =
  match parse_str x with
  | Some (s, r) => match member_end (S f) "mime" (PStr s) r with Some (l, r) => Some ((k, v) :: l, r) | None => None end
  | None => None
  end.
Proof. unfold lit2, quoted, member_end. unfold dq. codes. by destruct (parse_str x) as [[s r]|]. Qed.
Lemma members_lit3 f k v z r : 0 <= z -> (1 <= f)%nat ->
  member_end (S f) k v (sdrop 1 lit3 +:+ dec_nat z +:+ String "}"%char r) = Some ([(k, v); ("size", PInt z)], r).
Proof.
  intros Hz Hf. destruct (dec_nat_head z (String "}"%char r) Hz) as (c & t & Hd & Hc).
  assert (Hv : parse_value f (dec_nat z +:+ String "}"%char r) = Some (PInt z, String "}"%char r)).
  { pose proof (json_read true (PInt z) I f (String "}"%char r)) as H. cbn [json_print need] in H. unfold dec in H.
    replace (z <? 0) with false in H by lia. by apply H. }
  rewrite Hd in *. unfold lit3, quoted, member_end. unfold dq. codes. rewrite (digit_not_space _ Hc), Hv. done.
Qed.

Lemma parse_meta f name mime size r : utf8_valid name = true -> utf8_valid mime = true -> 0 <= size ->
  parse_value (S (S (S (S (S f))))) (lit1 +:+ escaped name +:+ meta_rest mime size +:+ String "}"%char r) = Some (PDict (file_meta name mime size), r).
Proof.
  intros Hn Hm Hs. rewrite value_lit1, (parse_escaped name) by done. unfold meta_rest. rewrite !sapp_assoc.
  change (parse_str (lit2 +:+ ?x)) with (Some ("", sdrop 1 lit2 +:+ x)). cbn [prepend]. rewrite sapp_nil_r.
  rewrite members_lit2, (parse_escaped mime) by done.
  change (parse_str (lit3 +:+ ?x)) with (Some ("", sdrop 1 lit3 +:+ x)). cbn [prepend]. rewrite sapp_nil_r.
  rewrite members_lit3 by (done || lia). done.
Qed.

(** ** Reading a file back *)

Lemma mime_plain name : utf8_valid (_guess_mime name) = true /\ no_brace (_guess_mime name) = true.
Proof.
  unfold _guess_mime. assert (H : forallb (fun kv => utf8_valid (snd kv) && no_brace (snd kv)) mime_table = true) by reflexivity.
  destruct (dlookup _ mime_table) as [m|] eqn:E; [|done]. apply dlookup_elem in E as E%list_elem_of_In; [|dict_keys]. rewrite forallb_forall in H.
  specialize (H _ E). cbn in *. by apply andb_prop in H.
Qed.
Lemma char_drop_file x : char_drop 5 ("FILE:" +:+ lit1 +:+ x) = lit1 +:+ x.
Proof. reflexivity. Qed.
Lemma char_drop_colon s : string_all is_ascii s = true -> char_drop 1 (String ":"%char s) = s.
Proof.
  intros H. change (lstrip_if cont_byte s = s). destruct s as [|c s]; [done|]. cbn [string_all] in H. apply andb_prop in H as [Hc _].
  unfold is_ascii in Hc. cbn [lstrip_if]. unfold cont_byte, in_range. by replace ((128 <=? code c) && (code c <=? 191)) with false by lia.
Qed.
Lemma rest_no_brace mime size : utf8_valid mime = true -> no_brace mime = true -> 0 <= size -> no_brace (meta_rest mime size) = true.
Proof.
  intros Hm Hb Hs. unfold meta_rest, no_brace. rewrite !string_all_app. rewrite (escaped_no_brace mime Hm Hb : string_all _ _ = true).
  change (string_all _ lit2) with true. change (string_all _ lit3) with true. cbn [andb].
  destruct (dec_nat_numeral size Hs) as [Hd _]. eapply string_all_impl, Hd. intros c. unfold is_digit, not_char.
  destruct (Ascii.eqb_spec "}"%char c) as [<-|]; [by vm_compute|done].
Qed.

(** The size that is shown: that of the metadata, unless it is zero. *)
Definition shown_size (size : Z) (raw : bytes) : Z := if size =? 0 then blen raw else size.

Lemma read_file_body name size raw : utf8_valid name = true -> no_brace name = true -> 0 <= size ->
  read_file (file_body name size raw) = Ok (name, _guess_mime name, shown_size size raw, raw).
Proof.
  intros Hn Hb Hs. destruct (mime_plain name) as [Hm Hmb]. unfold read_file, file_body. rewrite meta_text by done. rewrite !sapp_assoc.
  rewrite char_drop_file. rewrite <- (sapp_assoc (escaped name)), <- (sapp_assoc lit1). cbn [String.append].
  rewrite split_brace_app.
  2:{ unfold no_brace. rewrite !string_all_app. rewrite (escaped_no_brace name Hn Hb : string_all _ _ = true).
      by rewrite (rest_no_brace _ _ Hm Hmb Hs : string_all _ _ = true). }
  cbn [of_option res_bind]. rewrite !sapp_assoc. unfold json_loads. set (text := lit1 +:+ _).
  assert (Hp : parse_value (2 * String.length text + 2) (skip_ws text) = Some (PDict (file_meta name (_guess_mime name) size), "")).
  { change (skip_ws text) with text. unfold text at 1. rewrite sapp_length. change (String.length lit1) with 10%nat.
    replace (2 * (10 + _) + 2)%nat with (5 + (17 + 2 * String.length (escaped name +:+ meta_rest (_guess_mime name) size +:+ "}")))%nat by lia.
    by apply parse_meta. }
  rewrite Hp. cbn [skip_ws lstrip_if nonempty res_bind]. rewrite char_drop_colon by apply b64encode_ascii.
  rewrite b64decode_encode. cbn [res_bind]. unfold shown_size, py_or, file_meta, dget. cbn. by destruct (size =? 0).
Qed.

(** The text up to a brace in the name is not JSON. *)
Lemma cut_meta_fails p : utf8_valid p = true -> json_loads (lit1 +:+ escaped p +:+ "}") = Err JSONDecodeError.
Proof.
  intros Hp. unfold json_loads. set (text := lit1 +:+ _). change (skip_ws text) with text.
  assert (H : forall f, parse_value (S (S (S f))) text = None).
  { intros f. unfold text. by rewrite value_lit1, parse_escaped. }
  replace (2 * String.length text + 2)%nat with (S (S (S (2 * String.length text - 1)))); [by rewrite H|].
  unfold text. rewrite sapp_length. change (String.length lit1) with 10%nat. lia.
Qed.
Lemma escape_body_app a b : escape_body (a +:+ b) = escape_body a +:+ escape_body b.
Proof. induction a as [|c a IH]; [done|]. cbn [String.append escape_body]. by rewrite IH, sapp_assoc. Qed.
Lemma escaped_app a b : utf8_valid a = true -> escaped (a +:+ b) = escaped a +:+ escaped b.
Proof. intros H. unfold escaped. rewrite escape_body_app. by apply ascii_only_app, escape_body_valid. Qed.

Section props.
Variables (temp_dir : string) (writable : string -> bool).

Definition next_temp (name : string) (t : temp_files) : string :=
  path_join temp_dir ("file_" +:+ dec (temp_counter t + 1) +:+ or_default (extension name) ".bin").

(** C16: A file is read back. The text that carries a file whose name has no closing brace
    is parsed to the same name, kind and bytes, for any characters of the name and any
    bytes, and the bytes are stored in a fresh temporary file with the extension of the
    name. *)
Theorem file_read_back name size raw t (Hname : utf8_valid name = true) (Hbrace : no_brace name = true) (Hsize : 0 < size)
    (Hwrite : writable (next_temp name t) = true) :
  exists t', _parse_file_payload temp_dir writable (file_body name size raw) t =
      (t', Ok (Some (FileInfo name (_guess_mime name) size (next_temp name t)))) /\
    dlookup (next_temp name t) (temps t') = Some raw /\ temp_counter t' = temp_counter t + 1.
Proof.
  unfold _parse_file_payload, st_catch. rewrite st_bind_lift, read_file_body by (done || lia).
  unfold shown_size. replace (size =? 0) with false by lia. unfold _next_temp_path, next_temp in *. unfold st_bind, st_get, st_modify, st_ret in *. cbn in *.
  rewrite Hwrite. cbn. eexists. split; [reflexivity|]. cbn. split; [apply dlookup_dset_eq|done].
Qed.

(** C36: A file whose name has a closing brace cannot be opened: the metadata is cut at the
    first closing brace of the text, which is that of the name, and the bubble shows an
    error, although the message was delivered. *)
Theorem brace_name_unreadable p q size raw t (Hp : utf8_valid p = true) (Hbrace : no_brace p = true) (Hq : utf8_valid q = true) (Hsize : 0 <= size) :
  _parse_file_payload temp_dir writable (file_body (p +:+ "}" +:+ q) size raw) t = (t, Ok None).
Proof.
  set (name := p +:+ "}" +:+ q). destruct (mime_plain name) as [Hm _].
  assert (Hn : utf8_valid name = true) by (unfold name; rewrite utf8_valid_app by done; exact Hq).
  assert (Hr : read_file (file_body name size raw) = Err JSONDecodeError).
  { unfold read_file, file_body. rewrite meta_text by done. rewrite !sapp_assoc, char_drop_file.
    unfold name at 1. rewrite escaped_app by done. change (escaped ("}" +:+ q)) with (String "}"%char (escaped q)).
    rewrite !sapp_assoc, <- (sapp_assoc lit1). cbn [String.append]. rewrite split_brace_app.
    - cbn [of_option res_bind]. by rewrite sapp_assoc, cut_meta_fails.
    - unfold no_brace. rewrite string_all_app. by rewrite (escaped_no_brace p Hp Hbrace : string_all _ _ = true). }
  unfold _parse_file_payload, st_catch. by rewrite st_bind_lift, Hr.
Qed.
End props.

(** ** Witnesses *)

Lemma file_read_back_witness : exists t',
  _parse_file_payload "/tmp/secchat_1" (fun _ => true) (file_body "ảnh 📎 {1.PNG" 3 "abc") (TempFiles 6 []) =
    (t', Ok (Some (FileInfo "ảnh 📎 {1.PNG" "image/png" 3 "/tmp/secchat_1/file_7.PNG"))) /\
  dlookup "/tmp/secchat_1/file_7.PNG" (temps t') = Some "abc".
Proof.
  destruct (file_read_back "/tmp/secchat_1" (fun _ => true) "ảnh 📎 {1.PNG" 3 "abc" (TempFiles 6 [])) as (t' & H & Ht & _).
  - reflexivity.
  - reflexivity.
  - lia.
  - reflexivity.
  - exists t'. split; [exact H|exact Ht].
Defined.

Lemma brace_name_unreadable_witness :
  _parse_file_payload "/tmp/secchat_1" (fun _ => true) (file_body "{draft}.txt" 3 "abc") (TempFiles 6 []) = (TempFiles 6 [], Ok None).
Proof.
  apply (brace_name_unreadable "/tmp/secchat_1" (fun _ => true) "{draft" ".txt" 3 "abc").
  - reflexivity.
  - reflexivity.
  - reflexivity.
  - lia.
Defined.
