(* ===== verification/Rows.v ===== *)
(** * What the page shows (client/pages/chat_page.py)

    The header of the open conversation (the safety number, the state of the local
    cache, the warning with its details, the line of advice), the rows of the open
    conversation ([_redraw]) and of the sidebar, as functions of the state of the
    page: it sets its labels again whenever what they show changes. A bubble that
    holds a file is shown by its text; the widget behind it reads that text with
    [Files]. Text is cut by characters ([Utils.take_chars]). [str.lower] is modelled
    on ASCII letters, which decides the fragments looked for; a safety number is ASCII. *)

From S2P Require Import Prelude Hashing Base64 PyVal Sorting Json Wire AuditClient Utils Session Cleanup.
From S2P Require Import ChatPage ChatView Files.

(** ** Words *)

(** [s.split()]: the words of a text; [w] is the word being read, reversed. *)
Fixpoint words_from (w s : string) : list string :=
  match s with
  | EmptyString => if nonempty w then [srev w] else []
  | String c s =>
      if is_py_space c then if nonempty w then srev w :: words_from "" s else words_from "" s
      else words_from (String c w) s
  end.
Definition words (s : string) : list string := words_from "" s.

(** ** The safety number *)

Definition short_fingerprint (fp : string) : string :=
  match words fp with
  | a :: b :: _ => a +:+ " " +:+ b
  | _ => stake 13 fp
  end.
(** The label [set_fingerprint] sets. *)
Definition fingerprint_label (v : view) (fp : string) (verified : bool) : string :=
  if active_is_group (tl v) || negb (nonempty fp) then ""
  else (if verified then "Verified " else "Verify safety ") +:+ short_fingerprint fp.

(** ** The local cache *)

Definition _cache_retention_label (v : view) : string :=
  let ttl := pv_ttl_days (local_policy v) in
  if ttl <? 0 then "forever" else if ttl =? 1 then "1 day" else dec ttl +:+ " days".
(** [""]: hidden. *)
Definition _update_cache_status_label (v : view) : string :=
  if active_conv v <=? 0 then ""
  else if negb (pv_enabled (local_policy v)) then "Cache off"
  else if bool_decide (active_conv v ∈ _cache_disabled_ids v) then "No local cache"
  else "Cache " +:+ _cache_retention_label v.

(** ** The warning *)

Definition BADGES_OF_PEOPLE : list string := IDENTITY_REVIEW_STATUSES ++ ["verified"; "unknown"].

(** Is the conversation a group, and its badge: a group has none that is about a person. *)
Definition shown_security (v : view) (conv_id : Z) : res (bool * option security) :=
  let! is_group := _is_group_conversation_id (tl v) conv_id in
  let sec := conv_security (bd v) !! conv_id in
  Ok (is_group, match sec with
                | Some s => if is_group && mem (sec_status s) BADGES_OF_PEOPLE then None else Some s
                | None => None
                end).
Definition status_is (sec : option security) (l : list string) : bool :=
  match sec with Some s => mem (sec_status s) l | None => false end.
Definition is_blocked (sec : option security) : bool := match sec with Some s => sec_blocked s | None => false end.
Definition warnings_of (v : view) (conv_id : Z) : list string := default [] (security_warnings (bd v) !! conv_id).

(** The label, its tooltip, and whether the buttons [Details] and [Review identity] are there. *)
Record banner := Banner { b_text : string; b_tips : list string; b_details : bool; b_review : bool }.

Definition alarms : list string := ["key_changed"; "audit_mismatch"; "audit_unavailable"].
Definition about_connection (w : string) : bool :=
  contains "connection was interrupted" (lower w) || contains "reconnect" (lower w).

Definition banner_text (sec : option security) (warnings : list string) : string :=
  if is_blocked sec then "Identity warning"
  else if status_is sec ["audit_unavailable"] then "Audit unavailable"
  else if status_is sec ["audit_mismatch"] then "Audit warning"
  else if status_is sec ["key_changed"] then "Key changed"
  else if existsb about_connection warnings then "Connection warning" else "History warning".

Definition _update_security_warning_label (v : view) : res banner :=
  let! (is_group, sec) := shown_security v (active_conv v) in
  let warnings := warnings_of v (active_conv v) in
  let review := negb is_group && (status_is sec IDENTITY_REVIEW_STATUSES || is_blocked sec) in
  match warnings with
  | [] =>
      if negb (is_blocked sec) && negb (status_is sec alarms) then Ok (Banner "" [] false review)
      else Ok (Banner (banner_text sec []) (match sec with Some s => if nonempty (sec_detail s) then [sec_detail s] else [] | None => [] end)
                 false review)
  | _ =>
      let detail := match sec with Some s => if nonempty (sec_detail s) then [sec_detail s] else [] | None => [] end in
      Ok (Banner (banner_text sec warnings) (detail ++ warnings) true review)
  end.

(** The message box behind [Details]. *)
Definition _show_security_warning_details (v : view) : string :=
  match warnings_of v (active_conv v) with
  | [] => "There are no history or group consistency warnings for this conversation."
  | warnings => join (nl +:+ nl) warnings
  end.

(** ** The line of advice *)

Definition BLUE : string := "#5865f2".
Definition RED : string := "#ed4245".
Definition AMBER : string := "#faa61a".
Definition YELLOW : string := "#fee75c".

Definition blocked_advice : string :=
  "This conversation is not verified. You can send messages, but verify the safety code before trusting the identity.".
Definition key_changed_advice : string :=
  "This contact's safety key changed. Treat the conversation as unverified until you compare the new code outside SecChat. You can keep chatting while the warning is visible.".
Definition mismatch_advice : string :=
  "Identity audit failed. The server view of this key may be inconsistent. You can send messages, but verify the safety code before trusting the identity.".
Definition unavailable_advice : string :=
  "Identity audit is unavailable. You can keep chatting, but manual safety-number verification matters more.".
Definition unverified_advice : string :=
  "This conversation is not verified. Compare the safety number outside SecChat before relying on the identity.".
Definition loading_advice : string :=
  "Loading history. Offline messages may appear before older history until the full sync finishes.".
Definition connection_advice : string :=
  "Connection warning. SecChat is reconnecting; wait until the connection is back before retrying failed sends.".
Definition consistency_advice : string :=
  "History or group consistency warning. Open the warning details before trusting the conversation view.".
Definition cache_off_advice : string :=
  "Local plaintext cache is off. This reduces data stored on this device, but old forward-secret messages may not be readable later.".
Definition conversation_cache_advice : string :=
  "Local cache is disabled for this conversation. Preview and old history recovery may be limited on this device.".

(** What is said about the identity of the other side, and the colour of it. *)
Definition identity_advice (v : view) (is_group : bool) (sec : option security) : list string * string :=
  if is_group then ([], BLUE)
  else if is_blocked sec then ([blocked_advice], RED)
  else if status_is sec ["key_changed"] then ([key_changed_advice], RED)
  else if status_is sec ["audit_mismatch"] then ([mismatch_advice], RED)
  else if status_is sec ["audit_unavailable"] then ([unavailable_advice], AMBER)
  else if status_is sec ["unverified"; "reviewed_unverified"] || (fingerprint_present (bd v) && negb (fingerprint_verified (bd v)))
  then ([unverified_advice], YELLOW)
  else ([], BLUE).

Definition consistency_words : list string :=
  ["history"; "transcript"; "group"; "membership"; "audit"; "message order"; "server returned"].
Definition connection_only (warnings : list string) : bool :=
  let text := join " " (map lower warnings) in
  (contains "connection was interrupted" text || contains "reconnect" text || contains "disconnected" text)
  && negb (existsb (fun token => contains token text) consistency_words).
Definition warning_advice (sec : option security) (warnings : list string) : list string :=
  match warnings with
  | [] => []
  | _ => if is_blocked sec then [] else [if connection_only warnings then connection_advice else consistency_advice]
  end.

Definition cache_advice (v : view) : list string :=
  if negb (pv_enabled (local_policy v)) then [cache_off_advice]
  else if bool_decide (active_conv v ∈ _cache_disabled_ids v) then [conversation_cache_advice] else [].

Definition _security_guidance_parts (v : view) : res (list string * string) :=
  if active_conv v <=? 0 then Ok ([], BLUE)
  else
    let! (is_group, sec) := shown_security v (active_conv v) in
    let (identity, border) := identity_advice v is_group sec in
    let loading := if bool_decide (active_conv v ∈ history_loading (tl v)) then [loading_advice] else [] in
    let warning := warning_advice sec (warnings_of v (active_conv v)) in
    let border := match warning with [] => border | _ => if String.eqb border BLUE then AMBER else border end in
    Ok (take 3 (identity ++ loading ++ warning ++ cache_advice v), border).

(** The text and the tooltip of the line; [None]: hidden. *)
Definition _update_security_guidance_label (v : view) : res (option (string * string * string)) :=
  let! (parts, border) := _security_guidance_parts v in
  Ok (match parts with [] => None | _ => Some (join "  |  " parts, join (nl +:+ nl) parts, border) end).

(** ** Characters of UTF-8 text *)

Definition is_continuation (c : ascii) : bool := (128 <=? code c) && (code c <? 192).
Fixpoint chars (s : string) : nat :=
  match s with EmptyString => 0 | String c s => if is_continuation c then chars s else S (chars s) end.
Definition rstrip (s : string) : string := rstrip_if is_py_space s.
Definition shortened (limit : nat) (s : string) : string :=
  if (chars s <=? limit)%nat then s else rstrip (take_chars (limit - 3) s) +:+ "...".
Definition _clip_text (value : string) (limit : nat) : string := shortened limit (strip (join " " (splitlines value))).

(** ** Previews *)

Definition _message_preview (m : option entry) (limit : nat) : string :=
  let body := _forwardable_body m in
  if nonempty body then shortened limit (join " " (words body)) else "message".
Definition _reply_preview_for (p : page) (conv_id reply_to : Z) : string :=
  let preview := _message_preview (_find_message p conv_id reply_to) 110 in
  if nonempty preview && negb (String.eqb preview "message") then preview else "message #" +:+ dec reply_to.

(** ** The rows of a conversation *)

Inductive row_body := DeletedBody | FileBody (text : string) | TextBody (text : string) (unavailable : bool).
Inductive row_state := Settled | Waiting | NotSent (reason : string).
Record bubble := Bubble {
  r_msg : Z; r_sender : string; r_mine : bool; r_ts : string; r_edited : bool; r_pinned : bool; r_forwarded : bool;
  r_reply : option string; r_body : row_body; r_reactions : list (string * Z * bool); r_state : row_state; r_actions : bool
}.
Inductive row := Info (text : string) | SystemLine (text : string) | Message (b : bubble).

Definition sender_label (v : view) (sender : Z) : string :=
  if sender =? my_id (tl v) then me v else or_default (friend_name v sender) (user_label sender).
Definition reaction_rows (l : list (string * reaction)) : list (string * Z * bool) :=
  map (fun x => (fst x, r_count (snd x), r_me (snd x)))
    (List.filter (fun x => 0 <? r_count (snd x)) (isort (by_key str_ltb fst) l)).

Definition body_row (m : entry) (display : string) : row_body :=
  if deleted m then DeletedBody
  else if starts_with "FILE:" display then FileBody display
  else TextBody display (_is_unavailable_history_body (PStr display)).

Definition bubble_of (v : view) (m : entry) (display : string) (meta : dict) : bubble :=
  let gone := deleted m in
  Bubble (msg_id m) (sender_label v (sender_id m)) (sender_id m =? my_id (tl v)) (ts m) (edited m && negb gone)
    (pinned m && negb gone)
    ((py_eqb (dget "kind" PNone meta) (PStr "forward") || (0 <? forwarded_from_id m)) && negb gone)
    (if (0 <? reply_to_message_id m) && negb gone
     then Some (_reply_preview_for (tl v) (active_conv v) (reply_to_message_id m)) else None)
    (body_row m display) (reaction_rows (reactions m))
    (if sending m then Waiting else if failed m then NotSent (or_default (failure_reason m) "Message was not sent.") else Settled)
    (negb gone && (0 <? msg_id m)).

Definition _render_widget_inner (v : view) (m : entry) : row :=
  let (display, meta) := _decode_body_meta (py_str (body m)) in
  if system m || starts_with PREFIX_SYSTEM display then
    SystemLine (if starts_with PREFIX_SYSTEM display then sdrop (String.length PREFIX_SYSTEM) display else display)
  else Message (bubble_of v m display meta).

Definition _message_matches_search (v : view) (query : string) (m : entry) : bool :=
  let (display, meta) := _decode_body_meta (py_str (body m)) in
  contains query (lower (join " "
    [display; py_str (dget "body" (PStr "") meta); py_str (dget "kind" (PStr "") meta); sender_label v (sender_id m); ts m])).
(** What the field of the search holds for a text typed there. *)
Definition _on_message_search_changed (text : string) : string := lower (strip text).

Definition shown (v : view) (query : string) (m : entry) : bool :=
  negb (hidden m) && (negb (nonempty query) || _message_matches_search v query m).

Definition _redraw (v : view) (query : string) : list row :=
  let conv_id := active_conv v in
  if conv_id <=? 0 then [Info "Select a conversation to start messaging."]
  else
    let loading := bool_decide (conv_id ∈ history_loading (tl v)) in
    let msgs := messages_of (tl v) conv_id in
    let rows := map (_render_widget_inner v) (List.filter (shown v query) msgs) in
    (if loading then [Info "Loading message history..."] else []) ++ rows ++
    (if nonempty query && (length rows =? 0)%nat && negb loading then [Info "No messages match this search."]
     else if (length msgs =? 0)%nat && negb loading then [Info "No messages yet."] else []).

(** ** The sidebar *)

Definition _presence_text_for_dm (conv : dict) : string :=
  if py_eqb (dget "status" PNone conv) (PStr "online") then "Online"
  else
    let last_seen := strip (get_str0 "last_seen" conv) in
    if nonempty last_seen then "Last seen " +:+ last_seen else "Offline".

Record conv_row := ConvRow {
  c_conv : Z; c_title : string; c_subtitle : string; c_badges : list string; c_unread : bool; c_active : bool;
  c_text : string; c_tooltip : string
}.

(** Archived ones last, pinned ones first, by name. *)
Definition conv_key (field : string) (c : dict) : res (bool * bool * string) :=
  let! name := as_str (dget field (PStr "") c) in
  Ok (truthy (dget "archived" PNone c), negb (truthy (dget "pinned_conversation" PNone c)), name).
Definition bool_ltb (a b : bool) : bool := negb a && b.
Definition key_ltb (a b : bool * bool * string) : bool :=
  let '(a1, a2, a3) := a in let '(b1, b2, b3) := b in
  bool_ltb a1 b1 || (Bool.eqb a1 b1 && (bool_ltb a2 b2 || (Bool.eqb a2 b2 && str_ltb a3 b3))).
Definition sorted_convs (field : string) (l : list dict) : res (list dict) :=
  let! keyed := res_map (fun c => let! k := conv_key field c in Ok (k, c)) l in
  Ok (map snd (isort (by_key key_ltb fst) keyed)).

Definition flag_badges (c : dict) : list string :=
  (if truthy (dget "pinned_conversation" PNone c) then ["pinned"] else [])
  ++ (if truthy (dget "muted" PNone c) then ["muted"] else [])
  ++ (if truthy (dget "archived" PNone c) then ["archived"] else [])
  ++ (if truthy (dget "disappear_after_secs" PNone c) then ["timer"] else []).
Definition if_text (s : string) : list string := if nonempty s then [s] else [].
Definition security_label (v : view) (conv_id : Z) : string :=
  match conv_security (bd v) !! conv_id with Some s => sec_label s | None => "" end.
Definition row_text (label preview : string) (badges : list string) : string :=
  label +:+ match badges with [] => "" | _ => "  " +:+ join " " (map (fun b => "[" +:+ b +:+ "]") badges) end
  +:+ if nonempty preview then nl +:+ "    " +:+ _clip_text preview 38 else "".

Definition dm_row (v : view) (c : dict) : res conv_row :=
  let! conv_id := conv_id_of c in
  let! title := as_str (dget "username" (PStr "Direct message") c) in
  let preview := get_str0 "last_message" c in
  let unread := bool_decide (conv_id ∈ unread_convs (tl v)) in
  let badges := (if unread then ["unread"] else []) ++ if_text (security_label v conv_id) ++ flag_badges c in
  Ok (ConvRow conv_id title (or_default preview (_presence_text_for_dm c)) badges unread (conv_id =? active_conv v)
        (row_text title preview badges)
        (join nl ([title; _presence_text_for_dm c] ++ if_text preview ++ if_text (join " | " badges)))).
Definition _refresh_dm_list (v : view) : res (list conv_row) :=
  let! l := sorted_convs "username" (dm_convs (tl v)) in res_map (dm_row v) l.

Definition group_presence (g : dict) : string :=
  if truthy (dget "is_disbanded" PNone g) then "Group disbanded" else "Group conversation".
(** A group shows no badge that is about a person. *)
Definition group_label (v : view) (conv_id : Z) : string :=
  match conv_security (bd v) !! conv_id with
  | Some s => if mem (sec_status s) BADGES_OF_PEOPLE then "" else sec_label s
  | None => ""
  end.
Definition group_row (v : view) (g : dict) : res conv_row :=
  let! conv_id := conv_id_of g in
  let! title := as_str (dget "name" (PStr "Unnamed Group") g) in
  let preview := get_str0 "last_message" g in
  let unread := bool_decide (conv_id ∈ unread_convs (tl v)) in
  let badges := (if unread then ["unread"] else []) ++ (if truthy (dget "is_disbanded" PNone g) then ["disbanded"] else [])
    ++ if_text (group_label v conv_id) ++ flag_badges g in
  let subtitle := or_default preview (group_presence g) in
  Ok (ConvRow conv_id title subtitle badges unread (conv_id =? active_conv v) (row_text ("#  " +:+ title) preview badges)
        (join nl ([title; subtitle] ++ if_text (join " | " badges)))).
Definition _refresh_group_list (v : view) : res (list conv_row) :=
  let! l := sorted_convs "name" (group_convs (tl v)) in res_map (group_row v) l.

(** The name (when it changes) and the presence in the header. *)
Fixpoint listed (conv_id : Z) (l : list dict) : res (option dict) :=
  match l with
  | [] => Ok None
  | c :: l => let! cid := conv_id_of c in if cid =? conv_id then Ok (Some c) else listed conv_id l
  end.
Definition _sync_active_conversation_header (v : view) : res (option string * string) :=
  let conv_id := active_conv v in
  if conv_id <=? 0 then Ok (None, "")
  else if bool_decide (conv_id ∈ disbanded_convs v) then Ok (None, "Group disbanded")
  else
    let! g := listed conv_id (group_convs (tl v)) in
    match g with
    | Some g => Ok (Some ("[G] " +:+ py_str (dget "name" (PStr "Unnamed Group") g)), group_presence g)
    | None =>
        let! c := listed conv_id (dm_convs (tl v)) in
        match c with
        | Some c =>
            let! name := as_str (dget "username" (PStr "Direct message") c) in
            Ok (Some name, _presence_text_for_dm c)
        | None => Ok (None, "")
        end
    end.

(** The badge of the button that leads to the conversations. *)
Definition _update_chat_badge (p : page) : string :=
  let count := Z.of_nat (size (unread_convs p)) in
  if 0 <? count then "Chats (" +:+ dec count +:+ ")" else "Chats".

(** People: a friend's name and status, a found person. *)
Definition friend_row (f : Z * dict) : string * string :=
  let (fid, f) := f in
  let online := py_eqb (dget "status" PNone f) (PStr "online") in
  (py_str (dget "username" (PStr (user_label fid)) f),
   if online then "Online"
   else let seen := dget "last_seen" PNone f in if truthy seen then "Last seen " +:+ py_str seen else "Offline").
Definition found_row (v : view) (u : pyval) : res (Z * string) :=
  match u with
  | PDict u =>
      let! id := ditem "id" u in
      let! uid := py_int id in
      let! name := ditem "username" u in
      Ok (uid, py_str name +:+ if bool_decide (is_Some (zget uid (friends v))) then "  [friend]" else "")
  | _ => Err TypeError
  end.
Definition update_search_results (v : view) (users : list pyval) : res (list (Z * string)) := res_map (found_row v) users.

(** ** Facts *)

(** A text that begins with the mark of the page's own lines is shown as such a line,
    without a sender, whoever has sent it. *)
Lemma forged_system_line v m text : body m = PStr (PREFIX_SYSTEM +:+ text) -> _render_widget_inner v m = SystemLine text.
Proof.
  intros H. unfold _render_widget_inner. rewrite H. cbn [py_str].
  assert (Hd : _decode_body_meta (PREFIX_SYSTEM +:+ text) = (PREFIX_SYSTEM +:+ text, [])) by reflexivity.
  rewrite Hd, starts_with_app, orb_true_r. f_equal.
Qed.

(** Sorting the sidebar shows each conversation once. *)
Lemma sorted_convs_perm field l l' : sorted_convs field l = Ok l' -> Permutation l' l.
Proof.
  unfold sorted_convs. intros H. inv_ok H. subst l'. rewrite isort_perm. assert (map snd a = l) as ->; [|done]. revert a Ha.
  induction l as [|c l IH]; intros a Ha; cbn in Ha; inv_ok Ha; [by subst|]. rename select (res_bind _ _ = Ok _) into Hk.
  inv_ok Hk. subst. cbn. f_equal. by apply IH.
Qed.
