(* ===== verification/Menus.v ===== *)
(** * Menus and small dialogs of the page (client/pages/chat_page.py)

    The menus of a conversation, a person and a message list what can be chosen
    there; [choose] does what a choice does. What the user answers in the dialogs
    on the way is in [replies]. A choice that the application carries out itself
    (a signal connected to one of its methods) is its result, a [wish]. *)

From S2P Require Import Prelude Hashing Base64 PyVal Sorting Json Wire AuditClient Utils ChatPage ChatView Files.

(** ** Menus *)

Inductive choice :=
| ChooseConversation (conv_id : Z) (is_group : bool) | ChooseVerify (conv_id : Z)
| ChooseCommand (command : dict) | ChoosePref (command : dict)
| ChooseCache (conv_id : Z) (enabled : bool) | ChooseClearCache (conv_id : Z) | ChooseTimer (conv_id : Z)
| ChooseAddMember (group_id : Z) | ChooseLeave (conv_id : Z) | ChooseDisband (conv_id : Z)
| ChooseProfile (uid : Z) | ChooseFriendRequest (uid : Z) | ChooseStart (uid : Z) | ChooseAddToGroup (uid : Z)
| ChooseUnfriend (uid : Z) | ChooseBlock (uid : Z)
| ChooseReply (conv_id mid : Z) | ChooseReact (mid : Z) | ChooseForward (conv_id mid : Z) | ChooseEdit (conv_id mid : Z)
| ChooseDelete (conv_id mid : Z).

(** An entry of a menu: its text, and what it does while it is enabled; [None] is a line. *)
Record item := Item { i_label : string; i_choice : choice; i_enabled : bool }.
Definition menu := list (option item).
Definition _context_action (label : string) (c : choice) : option item := Some (Item label c true).
Definition offers (m : menu) (c : choice) : Prop := exists i, Some i ∈ m /\ i_choice i = c /\ i_enabled i = true.

Definition conv_command (typ : string) (conv_id : Z) : dict := [("type", PStr typ); ("conversation_id", PInt conv_id)].
Definition message_command (typ : string) (mid : Z) : dict := [("type", PStr typ); ("message_id", PInt mid)].
Definition mute_command (conv_id secs : Z) : dict := conv_command "mute_conversation" conv_id ++ [("mute_secs", PInt secs)].

Definition _conversation_action_specs (v : view) (conv_id : Z) : menu :=
  let cache_enabled := _is_cache_enabled_for_conversation v conv_id in
  [_context_action "Pinned Messages" (ChooseCommand (conv_command "get_pinned_messages" conv_id));
   _context_action "Mute 1 Hour" (ChoosePref (mute_command conv_id 3600));
   _context_action "Unmute" (ChoosePref (mute_command conv_id 0));
   _context_action "Toggle Archive" (ChoosePref (conv_command "archive_conversation" conv_id));
   _context_action "Toggle Pin Conversation" (ChoosePref (conv_command "pin_conversation" conv_id));
   _context_action "Mark Unread" (ChoosePref (conv_command "mark_unread" conv_id));
   None;
   _context_action (if cache_enabled then "Disable Local Cache" else "Enable Local Cache") (ChooseCache conv_id (negb cache_enabled));
   _context_action "Clear This Conversation Cache" (ChooseClearCache conv_id);
   _context_action "Disappearing Timer..." (ChooseTimer conv_id)].

Definition _dm_context_menu (v : view) (conv_id : Z) : menu :=
  [_context_action "Open" (ChooseConversation conv_id false); _context_action "Verify Identity" (ChooseVerify conv_id); None]
  ++ _conversation_action_specs v conv_id.

(** Who has created a group, and whether it is disbanded. *)
Definition group_owner (v : view) (conv_id : Z) : res (Z * bool) :=
  let known := bool_decide (conv_id ∈ disbanded_convs v) in
  let! o := record_of conv_id (group_convs (tl v)) in
  match o with
  | None => Ok (0, known)
  | Some g =>
      let! creator := py_int (dget "creator_id" (PInt 0) g) in
      Ok (creator, known || truthy (dget "is_disbanded" (PBool false) g))
  end.
Definition _group_context_menu (v : view) (conv_id : Z) : res menu :=
  let! (creator_id, is_disbanded) := group_owner v conv_id in
  Ok ([_context_action "Open" (ChooseConversation conv_id true);
       _context_action "Group Info" (ChooseCommand [("type", PStr "get_group_info"); ("group_id", PInt conv_id)]);
       _context_action "Add Member" (ChooseAddMember conv_id); None]
      ++ _conversation_action_specs v conv_id ++ [None]
      ++ (if is_disbanded then [] else [_context_action "Leave Group" (ChooseLeave conv_id)])
      ++ (if (creator_id =? my_id (tl v)) && negb is_disbanded then [_context_action "Disband Group" (ChooseDisband conv_id)] else [])).

Definition to_group (v : view) (uid : Z) : menu :=
  match group_convs (tl v) with [] => [] | _ => [_context_action "Add to Group" (ChooseAddToGroup uid)] end.
Definition block_item (uid : Z) : menu := [None; _context_action "Block User" (ChooseBlock uid)].
Definition _search_context_menu (v : view) (uid : Z) : menu :=
  [_context_action "View Profile" (ChooseProfile uid)]
  ++ (match zget uid (friends v) with
      | None => [_context_action "Send Friend Request" (ChooseFriendRequest uid)]
      | Some _ => [_context_action "Start Conversation" (ChooseStart uid)] ++ to_group v uid
      end)
  ++ block_item uid.
Definition _friend_context_menu (v : view) (uid : Z) : menu :=
  [_context_action "View Profile" (ChooseProfile uid); _context_action "Start Conversation" (ChooseStart uid);
   _context_action "Remove Friend" (ChooseUnfriend uid)] ++ to_group v uid ++ block_item uid.

(** A message that is gone or deleted has no menu. *)
Definition _show_message_actions (v : view) (conv_id mid : Z) : menu :=
  match _find_message (tl v) conv_id mid with
  | None => []
  | Some m =>
      if deleted m then []
      else
        let display := fst (_decode_body_meta (py_str (body m))) in
        let forwardable := nonempty (_forwardable_body (Some m)) in
        let mine := sender_id m =? my_id (tl v) in
        [Some (Item "Reply" (ChooseReply conv_id mid) forwardable); _context_action "React" (ChooseReact mid);
         Some (Item "Forward" (ChooseForward conv_id mid) forwardable);
         (if pinned m then _context_action "Unpin" (ChooseCommand (message_command "unpin_message" mid))
          else _context_action "Pin" (ChooseCommand (message_command "pin_message" mid)));
         None]
        ++ (if mine && negb (starts_with "FILE:" display) then [_context_action "Edit" (ChooseEdit conv_id mid)] else [])
        ++ (if mine then [_context_action "Delete" (ChooseDelete conv_id mid)] else [])
  end.

(** ** Dialogs *)

Record replies := Replies { yes : bool; picked : option string; marked : option Z }.
Inductive wish :=
| WCache (conv_id : Z) (enabled : bool) | WClearCache (conv_id : Z) | WClearAllCache | WCachePolicy (policy : dict)
| WAddToGroup (group_id uid : Z) | WCreateGroup (name : string) (members : list Z) | WDisband (conv_id : Z)
| WDelete (conv_id mid : Z) | WProfile (uid : Z) | WFriendRequest (uid : Z) | WStart (uid : Z) | WUnfriend (uid : Z)
| WPassword (current new : string).

Definition timer_choices : list (string * Z) := [("Off", 0); ("1 hour", 3600); ("1 day", 86400); ("7 days", 604800)].
Definition _set_disappearing_timer (conv_id : Z) (a : replies) : vm unit :=
  match picked a with
  | None => st_ret tt
  | Some choice =>
      let secs := default 0 (dlookup choice timer_choices) in
      if (0 <? secs) && negb (yes a) then st_ret tt
      else
        do! _ := signal_out (SigCommand (conv_command "set_disappearing" conv_id ++ [("disappear_after_secs", PInt secs)])) in
        on_page (_update_conversation_pref conv_id
          (no_pref <| p_disappear := Some (if secs =? 0 then PNone else PInt secs) |>))
  end.

Definition _confirm_leave_group (conv_id : Z) (a : replies) : vm bool :=
  if yes a then
    do! _ := signal_out (SigCommand [("type", PStr "leave_group"); ("group_id", PInt conv_id)]) in
    do! _ := remove_conversation conv_id in st_ret true
  else st_ret false.
Definition _confirm_block_user (uid : Z) (a : replies) : vm unit :=
  if yes a then signal_out (SigCommand [("type", PStr "block_user"); ("user_id", PInt uid)]) else st_ret tt.

(** The friends to choose from, by name, and the one a label stands for. *)
Definition member_label (f : Z * dict) : string :=
  py_str (dget "username" (PStr (user_label (fst f))) (snd f)) +:+ " (#" +:+ dec (fst f) +:+ ")".
Definition friend_key (f : Z * dict) : res string := as_str (dget "username" (PStr "") (snd f)).
Definition member_labels (v : view) : res (list string) :=
  let! keyed := res_map (fun f => let! k := friend_key f in Ok (k, f)) (friends v) in
  Ok (map (fun x => member_label (snd x)) (isort (by_key str_ltb fst) keyed)).
(** The text after the last [c]. *)
Fixpoint after_last (c : ascii) (s : string) : option string :=
  match s with
  | EmptyString => None
  | String d s => match after_last c s with Some t => Some t | None => if Ascii.eqb c d then Some s else None end
  end.
Definition label_uid (label : string) : res Z :=
  let! t := of_option (after_last "#"%char label) IndexError in
  int_of_string (rstrip_if (fun c => Ascii.eqb c ")"%char) t).
Definition _show_add_member_to_group (group_id : Z) (a : replies) : vm (option wish) :=
  do! v := st_get in
  match friends v, picked a with
  | [], _ | _, None => st_ret None
  | _, Some label =>
      if negb (nonempty label) then st_ret None
      else match label_uid label with Ok uid => st_ret (Some (WAddToGroup group_id uid)) | Err _ => st_ret None end
  end.

(** The group the user marks. *)
Definition _show_add_to_group (uid : Z) (a : replies) : vm (option wish) :=
  do! v := st_get in
  st_ret (match group_convs (tl v), marked a with
          | [], _ | _, None => None
          | _, Some gid => if gid =? 0 then None else Some (WAddToGroup gid uid)
          end).
(** The name and the members marked in the form; [None] when it is given up. *)
Definition _show_create_group (form : option (string * list Z)) : vm (option wish) :=
  do! v := st_get in
  match friends v, form with
  | [], _ | _, None | _, Some (_, []) => st_ret None
  | _, Some (name, members) => st_ret (Some (WCreateGroup name members))
  end.

Definition _show_change_password (current new confirm : string) (len : string -> nat) : string + wish :=
  if negb (nonempty current) then inl "Current password is required."
  else if (len new <? 6)%nat then inl "New password must be at least 6 characters."
  else if negb (String.eqb new confirm) then inl "New passwords do not match."
  else inr (WPassword current new).

(** ** What a choice does *)

Definition wishing {A} (m : vm A) (o : option wish) : vm (option wish) := do! _ := m in st_ret o.
Definition if_yes (a : replies) (w : wish) : vm (option wish) := st_ret (if yes a then Some w else None).
Definition choose (c : choice) (a : replies) : vm (option wish) :=
  match c with
  | ChooseConversation conv_id is_group => wishing (_switch_to_conv conv_id is_group) None
  | ChooseVerify conv_id => wishing (signal_out (SigVerifyIdentity conv_id)) None
  | ChooseCommand command => wishing (signal_out (SigCommand command)) None
  | ChoosePref command => wishing (on_page (_send_conversation_pref command)) None
  | ChooseCache conv_id enabled => st_ret (Some (WCache conv_id enabled))
  | ChooseClearCache conv_id => if_yes a (WClearCache conv_id)
  | ChooseTimer conv_id => wishing (_set_disappearing_timer conv_id a) None
  | ChooseAddMember group_id => _show_add_member_to_group group_id a
  | ChooseLeave conv_id => wishing (_confirm_leave_group conv_id a) None
  | ChooseDisband conv_id => if_yes a (WDisband conv_id)
  | ChooseProfile uid => st_ret (Some (WProfile uid))
  | ChooseFriendRequest uid => st_ret (Some (WFriendRequest uid))
  | ChooseStart uid => st_ret (Some (WStart uid))
  | ChooseAddToGroup uid => _show_add_to_group uid a
  | ChooseUnfriend uid => if_yes a (WUnfriend uid)
  | ChooseBlock uid => wishing (_confirm_block_user uid a) None
  | ChooseReply conv_id mid => wishing (_start_reply conv_id mid) None
  | ChooseReact mid => wishing (_react_to_message mid false (default "" (picked a))) None
  | ChooseForward conv_id mid => wishing (_forward_message conv_id mid (picked a)) None
  | ChooseEdit conv_id mid => wishing (_start_inline_edit conv_id mid) None
  | ChooseDelete conv_id mid => if_yes a (WDelete conv_id mid)
  end.

(** ** Dialogs the server's replies open *)

(** The form of the privacy settings, and what it saves. *)
Record privacy_form := PrivacyForm {
  f_online : string; f_last_seen : string; f_protect : bool; f_notifications : bool; f_cache : bool; f_ttl : Z;
  f_clear_on_logout : bool
}.
Definition privacy_options : list string := ["everyone"; "friends"; "nobody"].
Definition ttl_options : list Z := [1; 7; 30; 90; -1].
Definition option_shown (k : string) (settings : dict) : string :=
  match dget k (PStr "everyone") settings with PStr s => if mem s privacy_options then s else "everyone" | _ => "everyone" end.
Definition show_privacy_settings (v : view) (settings : dict) : privacy_form :=
  let ttl := pv_ttl_days (local_policy v) in
  PrivacyForm (option_shown "privacy_online" settings) (option_shown "privacy_last_seen" settings)
    (metadata_protection (tl v)) (notifications_enabled (tl v)) (pv_enabled (local_policy v))
    (if existsb (Z.eqb ttl) ttl_options then ttl else 30) (pv_clear_on_logout (local_policy v)).

Definition form_policy (v : view) (f : privacy_form) : dict :=
  [("enabled", PBool (f_cache f)); ("ttl_days", PInt (f_ttl f)); ("clear_on_logout", PBool (f_clear_on_logout f));
   ("disabled_conversation_ids", PList (map PInt (sort_ints (elements (_cache_disabled_ids v)))))].
(** The policy goes to the application before the privacy command does. *)
Definition save_privacy (f : privacy_form) : vm wish :=
  do! _ := set_metadata_protection (f_protect f) in
  do! _ := on_page (st_modify (fun p => p <| notifications_enabled := f_notifications f |>)) in
  do! v := st_get in
  let policy := form_policy v f in
  do! _ := set_cache_policy policy in
  do! _ := (if f_notifications f then st_ret tt
            else do! _ := on_page (st_modify (fun p => p <| unread_convs := ∅ |>)) in
                 st_modify (fun v => v <| pending_requests_count := 0 |>)) in
  do! _ := signal_out (SigCommand [("type", PStr "update_privacy"); ("privacy_online", PStr (f_online f));
    ("privacy_last_seen", PStr (f_last_seen f))]) in
  st_ret (WCachePolicy policy).

(** Buttons of the lists of blocked people, pinned messages and members. *)
Definition unblock (uid : Z) : vm unit := signal_out (SigCommand [("type", PStr "unblock_user"); ("user_id", PInt uid)]).
Definition unpin (mid : Z) : vm unit := signal_out (SigCommand (message_command "unpin_message" mid)).
Definition set_role (group_id uid : Z) (role : string) : vm unit :=
  if uid =? 0 then st_ret tt
  else signal_out (SigCommand [("type", PStr "set_member_role"); ("group_id", PInt group_id); ("user_id", PInt uid); ("role", PStr role)]).
Definition remove_member (group_id uid : Z) (a : replies) : vm unit :=
  if (uid =? 0) || negb (yes a) then st_ret tt
  else signal_out (SigCommand [("type", PStr "remove_member"); ("group_id", PInt group_id); ("user_id", PInt uid)]).
Definition save_group (group_id : Z) (name description : string) : vm unit :=
  signal_out (SigCommand [("type", PStr "update_group_info"); ("group_id", PInt group_id); ("name", PStr (strip name));
    ("description", PStr (strip description))]).
(** The file chosen in the dialog; the result is a message box. *)
Definition _attach_file (is_file : string -> bool) (size_of : string -> res Z) (path : string) : vm (option (string * string)) :=
  do! v := st_get in
  if active_conv v =? 0 then st_ret (Some ("No conversation", "Select a conversation first."))
  else if negb (nonempty path) then st_ret None
  else _send_file_path is_file size_of path.
