(* ===== verification/Forms.v ===== *)
(** * The forms before the application (client/connection_defaults.py, client/pages/)

    The defaults of the connection, and what the buttons of the login and the
    registration page do with the fields: a message on the page ([inl]) or the
    signal to the application ([inr]). [env_var], [exists_] and [is_file] are
    [os.environ.get] and the file system, [windows] is [platform.system()]. *)

From S2P Require Import Prelude Hashing Base64 PyVal Json Crypto AuditClient Utils ChatPage Rows.

Section defaults.
Variables (env_var : string -> option string) (exists_ is_file : string -> bool) (windows : bool) (repo_root : string).

Definition _inside_docker_client : bool := exists_ "/certs/chat.crt" || exists_ "/.dockerenv".
(** A variable that is set and not empty. *)
Definition explicit (k : string) (dflt : string) : string := or_default (default "" (env_var k)) dflt.
Definition default_server_host : string :=
  explicit "SECCHAT_SERVER_HOST" (if windows then "localhost" else if _inside_docker_client then "chat-server" else "localhost").
Definition default_server_port : string :=
  explicit "SECCHAT_SERVER_PORT" (if _inside_docker_client && negb windows then "8888" else "18888").
Definition default_cert_path : string :=
  explicit "SECCHAT_CERT_PATH" (if is_file "/certs/chat.crt" then "/certs/chat.crt" else repo_root +:+ "/.tmp_cert/chat.crt").

Context `{P : Prims}.

(** The fields of both pages, as they are typed. *)
Record fields := Fields { e_host : string; e_port : string; e_user : string; e_email : string; e_pw : string; e_pw2 : string }.
Definition host_of (f : fields) : string := or_default (strip (e_host f)) default_server_host.
Definition port_of (f : fields) : res Z := int_of_string (or_default (strip (e_port f)) default_server_port).

Record login_signal := LoginSignal { s_host : string; s_port : Z; s_email : string; s_pw : string }.
Definition _login (f : fields) : res (string + login_signal) :=
  let! port := port_of f in
  let email := strip (e_email f) in
  let! pw := hash_password (e_pw f) email in
  Ok (if negb (nonempty email) then inl "Enter email!" else inr (LoginSignal (host_of f) port email pw)).

Record register_signal := RegisterSignal { g_host : string; g_port : Z; g_user : string; g_email : string; g_pw : string }.
Definition refused (f : fields) : option string :=
  let user := strip (e_user f) in
  let email := strip (e_email f) in
  if negb (nonempty user) then Some "Username is required!"
  else if (chars user <? 3)%nat then Some "Username must be at least 3 characters!"
  else if negb (nonempty email) || negb (contains "@" email) then Some "Enter a valid email address!"
  else if negb (nonempty (e_pw f)) then Some "Password is required!"
  else if (chars (e_pw f) <? 6)%nat then Some "Password must be at least 6 characters!"
  else if negb (String.eqb (e_pw f) (e_pw2 f)) then Some "Passwords do not match!" else None.
Definition _register (f : fields) : res (string + register_signal) :=
  let! port := port_of f in
  match refused f with
  | Some text => Ok (inl text)
  | None =>
      let! pw := hash_password (e_pw f) (strip (e_email f)) in
      Ok (inr (RegisterSignal (host_of f) port (strip (e_user f)) (strip (e_email f)) pw))
  end.

(** What an account was registered with logs it in: the same address and password, in
    other letter case of the address and with spaces around it, give the same hash. *)
Lemma registered_hash_logs_in f g r s : _register f = Ok (inr r) -> _login g = Ok (inr s) ->
  e_pw g = e_pw f -> lower (strip (e_email g)) = lower (strip (e_email f)) -> s_pw s = g_pw r.
Proof.
  unfold _register, _login. destruct (port_of f) as [p|]; [|done]. destruct (port_of g) as [q|]; [|done]. cbn.
  destruct (refused f); [done|]. intros Hr Hs Hpw Hmail. unfold hash_password in *. rewrite Hpw, Hmail in Hs.
  destruct (utf8_encode (lower _)) as [salt|]; [|done]. destruct (utf8_encode (e_pw f)) as [pw|]; [|done]. cbn in *.
  destruct (nonempty _); [|done]. by injection Hr as <-; injection Hs as <-.
Qed.
End defaults.
