(* ===== verification/Crop.v ===== *)
(** * Cutting an avatar out of an image (client/dialogs.py)

    The circle over the image in [_CropWidget]: where it starts, how the mouse moves
    and resizes it, and that it stays inside the image. Coordinates are those of the
    widget; [QRect] is written out as Qt documents it: the right edge is one less
    than the left one plus the width, and the centre is rounded towards zero. A
    distance is the square root of an integer below 2^52, where rounding to a float
    does not change its integer part or its comparison with half integers. How Qt
    scales the image into the widget is an argument of [_rebuild]. *)

From S2P Require Import Prelude.

Record rect := Rect { x : Z; y : Z; width : Z; height : Z }.
Definition right (r : rect) : Z := x r + width r - 1.
Definition bottom (r : rect) : Z := y r + height r - 1.
Definition center (r : rect) : Z * Z := (Z.quot (x r + right r) 2, Z.quot (y r + bottom r) 2).
Definition isNull (r : rect) : bool := (width r =? 0) && (height r =? 0).
Definition null_rect : rect := Rect 0 0 0 0.

Inductive drag_mode := Move | Resize.
Record crop := Crop {
  img : rect; circle : rect; drag_start : option (Z * Z); circle_start : rect; mode : option drag_mode
}.
#[export] Instance crop_eta : Eta crop := fun c => Crop (img c) (circle c) (drag_start c) (circle_start c) (mode c).

(** The image scaled to [sw] times [sh] in a widget of [w] times [h]. *)
Definition _rebuild (w h sw sh : Z) (c : crop) : crop :=
  if (w <=? 0) || (h <=? 0) then c
  else c <| img := Rect ((w - sw) / 2) ((h - sh) / 2) sw sh |> <| circle := null_rect |>.

Definition _ensure_circle (c : crop) : crop :=
  if negb (isNull (circle c)) then c
  else
    let w := width (img c) in
    let h := height (img c) in
    let r := Z.max 40 (Z.min w h * 3 / 4) in
    let r := if r mod 2 =? 0 then r else r - 1 in
    c <| circle := Rect (x (img c) + (w - r) / 2) (y (img c) + (h - r) / 2) r r |>.

Definition clamp_rect (ir r : rect) : rect :=
  Rect (Z.max (x ir) (Z.min (x r) (right ir - width r))) (Z.max (y ir) (Z.min (y r) (bottom ir - height r))) (width r) (height r).
Definition _clamp (c : crop) : crop := c <| circle := clamp_rect (img c) (circle c) |>.

Definition _EDGE : Z := 10.
Definition dist2 (p q : Z * Z) : Z := (fst p - fst q) ^ 2 + (snd p - snd q) ^ 2.
(** [abs(d - r) <= 10] with [d] the square root of [dist2] and [r] half the width. *)
Definition _near_edge (c : crop) (pos : Z * Z) : bool :=
  let w := width (circle c) in
  let d4 := 4 * dist2 pos (center (circle c)) in
  (0 <=? w + 2 * _EDGE) && (d4 <=? (w + 2 * _EDGE) ^ 2) && ((w <=? 2 * _EDGE) || ((w - 2 * _EDGE) ^ 2 <=? d4)).

(** How far a point is from the edges of the image. *)
Definition room (ir : rect) (p : Z * Z) : Z :=
  Z.min (Z.min (fst p - x ir) (right ir - fst p)) (Z.min (snd p - y ir) (bottom ir - snd p)).
Definition square_at (p : Z * Z) (r : Z) : rect := Rect (fst p - r) (snd p - r) (r * 2) (r * 2).

Definition mousePressEvent (left_button : bool) (pos : Z * Z) (c : crop) : crop :=
  if negb left_button then c
  else c <| drag_start := Some pos |> <| circle_start := circle c |> <| mode := Some (if _near_edge c pos then Resize else Move) |>.
Definition mouseMoveEvent (pos : Z * Z) (c : crop) : crop :=
  match drag_start c with
  | None => c
  | Some start =>
      match mode c with
      | Some Resize =>
          let p := center (circle_start c) in
          let r := Z.max 40 (Z.sqrt (dist2 pos p)) in
          c <| circle := square_at p (Z.min r (room (img c) p)) |>
      | _ =>
          let s := circle_start c in
          _clamp (c <| circle := Rect (x s + (fst pos - fst start)) (y s + (snd pos - snd start)) (width s) (height s) |>)
      end
  end.
Definition mouseReleaseEvent (left_button : bool) (c : crop) : crop :=
  if left_button then c <| drag_start := None |> <| mode := None |> else c.
Definition wheelEvent (up : bool) (c : crop) : crop :=
  let p := center (circle c) in
  let r := width (circle c) / 2 + (if up then 8 else -8) in
  _clamp (c <| circle := square_at p (Z.max 30 (Z.min r (room (img c) p))) |>).

(** ** The circle stays inside the image *)

Definition inside (ir r : rect) : Prop :=
  x ir <= x r /\ y ir <= y r /\ right r <= right ir /\ bottom r <= bottom ir /\ 0 <= width r < width ir /\ 0 <= height r < height ir /\
  width r = height r.
Definition inside_or_null (ir r : rect) : Prop := isNull r = true \/ inside ir r.

(** A widget that shows an image: it is built, painted, and gets mouse events. The
    mouse is pressed over a painted circle, and the window keeps its size during a drag. *)
Inductive reachable : crop -> Prop :=
| r_new : reachable (Crop null_rect null_rect None null_rect None)
| r_rebuild c w h sw sh : reachable c -> drag_start c = None -> 61 <= sw <= w -> 61 <= sh <= h -> reachable (_rebuild w h sw sh c)
| r_paint c : reachable c -> isNull (img c) = false -> reachable (_ensure_circle c)
| r_press c b pos : reachable c -> isNull (circle c) = false -> reachable (mousePressEvent b pos c)
| r_move c pos : reachable c -> reachable (mouseMoveEvent pos c)
| r_release c b : reachable c -> reachable (mouseReleaseEvent b c)
| r_wheel c up : reachable c -> isNull (circle c) = false -> reachable (wheelEvent up c).

Record framed (c : crop) : Prop := {
  fr_img : isNull (img c) = true \/ 61 <= width (img c) /\ 61 <= height (img c);
  fr_place : 0 <= x (img c) /\ 0 <= y (img c);
  fr_circle : inside_or_null (img c) (circle c);
  fr_start : drag_start c <> None -> isNull (circle_start c) = false /\ inside (img c) (circle_start c)
}.

Lemma null_iff r : isNull r = true <-> width r = 0 /\ height r = 0.
Proof. unfold isNull. rewrite andb_true_iff, !Z.eqb_eq. done. Qed.
Lemma not_null r : isNull r = false <-> ~ (width r = 0 /\ height r = 0).
Proof. rewrite <- null_iff. by destruct (isNull r). Qed.

Lemma clamp_inside ir r : 0 <= width r < width ir -> 0 <= height r < height ir -> width r = height r -> inside ir (clamp_rect ir r).
Proof. unfold inside, clamp_rect, right, bottom. cbn. lia. Qed.

(** The centre of a circle in an image, and the room around it. *)
Lemma center_room ir r : 0 <= x ir -> 0 <= y ir -> isNull r = false -> inside ir r -> 0 <= room ir (center r).
Proof.
  unfold inside, room, center, right, bottom. intros Hx Hy Hn (H1 & H2 & H3 & H4 & H5 & H6). apply not_null in Hn. cbn.
  rewrite !Z.quot_div_nonneg by lia. Z.to_euclidean_division_equations. lia.
Qed.
Lemma square_inside ir p r : 0 <= r <= room ir p -> inside ir (square_at p r).
Proof. unfold inside, room, square_at, right, bottom. cbn. lia. Qed.

Lemma framed_paint c : framed c -> isNull (img c) = false -> framed (_ensure_circle c).
Proof.
  intros [Hi Hp Hc Hs] Hn. unfold _ensure_circle. destruct (isNull (circle c)) eqn:Hz; [|by split]. cbn [negb]. cbv zeta.
  destruct Hi as [Hi|[Hw Hh]]; [congruence|]. split; cbn; [by right|done| |exact Hs]. right.
  unfold inside, right, bottom. cbn. set (m := Z.min (width (img c)) (height (img c))).
  assert (61 <= m <= width (img c) /\ m <= height (img c)) as [Hm1 Hm2] by lia. clearbody m.
  assert (Hr : 39 <= (if Z.max 40 (m * 3 / 4) mod 2 =? 0 then Z.max 40 (m * 3 / 4) else Z.max 40 (m * 3 / 4) - 1) < m).
  { assert (m * 3 / 4 < m) by (Z.to_euclidean_division_equations; lia). destruct (_ =? 0); lia. }
  set (r := if _ =? 0 then _ else _) in *. clearbody r. Z.to_euclidean_division_equations. lia.
Qed.
Lemma framed_rebuild c w h sw sh : framed c -> drag_start c = None -> 61 <= sw <= w -> 61 <= sh <= h -> framed (_rebuild w h sw sh c).
Proof.
  intros [Hi Hp Hc Hs] Hd Hw Hh. unfold _rebuild. destruct (_ || _); [by split|].
  split; cbn; [by right; lia|split; apply Z.div_pos; lia|by left|by rewrite Hd].
Qed.
Lemma framed_move c pos : framed c -> framed (mouseMoveEvent pos c).
Proof.
  intros [Hi Hp Hc Hs]. unfold mouseMoveEvent. destruct (drag_start c) as [start|] eqn:Hd; [|by split; try rewrite Hd].
  destruct (Hs ltac:(discriminate)) as [Hn Hin].
  assert (Hmove : forall r, inside (img c) r -> framed (c <| circle := r |>)).
  { intros r Hr. split; cbn; [done|done|by right|by rewrite Hd]. }
  destruct (mode c) as [[]|]; [| |].
  2: { apply Hmove, square_inside. pose proof (center_room _ _ (proj1 Hp) (proj2 Hp) Hn Hin). lia. }
  all: destruct Hin as (_ & _ & _ & _ & H5 & H6 & H7); by apply Hmove, clamp_inside.
Qed.
Lemma framed_wheel c up : framed c -> isNull (circle c) = false -> framed (wheelEvent up c).
Proof.
  intros [Hi Hp Hc Hs] Hn. destruct Hc as [Hc|Hc]; [congruence|]. split; [exact Hi|exact Hp| |exact Hs]. right.
  unfold wheelEvent. cbv zeta. unfold _clamp. cbn -[room center Z.div].
  pose proof (center_room _ _ (proj1 Hp) (proj2 Hp) Hn Hc) as Hroom.
  destruct Hi as [Hi|[Hw Hh]]; [apply null_iff in Hi; destruct Hc as (_ & _ & _ & _ & ? & _); lia|].
  assert (Hfit : 2 * room (img c) (center (circle c)) < Z.min (width (img c)) (height (img c))) by (unfold room, right, bottom; lia).
  apply clamp_inside; cbn -[room center Z.div]; lia.
Qed.
Lemma reachable_framed c : reachable c -> framed c.
Proof.
  induction 1 as [|c w h sw sh _ IH Hd Hw Hh|c _ IH Hi|c b pos _ IH Hn|c pos _ IH|c b _ IH|c up _ IH Hn].
  - split; [by left|done|by left|done].
  - by apply framed_rebuild.
  - by apply framed_paint.
  - destruct IH as [Hi Hp Hc Hs]. destruct b; [|done]. split; cbn; [done|done|done|]. intros _. split; [done|].
    destruct Hc as [Hc|Hc]; [congruence|done].
  - by apply framed_move.
  - destruct IH as [Hi Hp Hc Hs]. destruct b; [|done]. by split.
  - by apply framed_wheel.
Qed.

(** C33: The cut stays inside the image. Whatever the mouse and the wheel do over an
    image that is shown at least 61 pixels wide and high, the circle, once painted,
    lies inside the image, and it is a circle. *)
Theorem circle_stays_inside c : reachable c -> isNull (circle c) = false -> inside (img c) (circle c).
Proof. intros H Hn. destruct (fr_circle _ (reachable_framed c H)) as [Hc|Hc]; [congruence|done]. Qed.

(** The window of 400 times 380 with an image of 800 times 500: the circle is dragged
    far to the left, the wheel turned. *)
Definition dragged : crop :=
  wheelEvent true (mouseReleaseEvent true (mouseMoveEvent (-500, 900) (mousePressEvent true (200, 190)
    (_ensure_circle (_rebuild 400 380 400 250 (Crop null_rect null_rect None null_rect None)))))).
Lemma circle_stays_inside_witness : circle dragged = Rect 0 128 184 184 /\ inside (img dragged) (circle dragged).
Proof.
  split; [vm_compute; reflexivity|]. apply circle_stays_inside; [|vm_compute; reflexivity].
  apply r_wheel; [|vm_compute; reflexivity]. apply r_release, r_move, r_press; [|vm_compute; reflexivity].
  apply r_paint; [|vm_compute; reflexivity]. apply r_rebuild; [apply r_new|reflexivity|lia|lia].
Defined.

(** An image that is shown lower than the smallest circle: the circle is painted over
    its edges. *)
Lemma thin_image_crop_leaves : let c := _ensure_circle (_rebuild 400 380 400 20 (Crop null_rect null_rect None null_rect None)) in
  y (circle c) < y (img c) /\ bottom (img c) < bottom (circle c).
Proof. vm_compute. split; reflexivity. Qed.
