(* ===== verification/App.v ===== *)
(** * The application: state, connection, sending (client/app.py)

    [App] holds the session ([crypto]), the chat page ([chat]) and the queues
    between them. Its methods are state-passing functions over the record [app];
    [on_crypto] and [on_view] run a method of the session or of the page. A signal
    of the page is handled when the page's method returns ([with_signals]), as the
    page emits it last.

    [Env] is the rest of the world: what [sendall] answers, the masks of the
    frames, the monotonic clock, the local time of a time stamp as text, what the
    auditor answers, the element [set.pop] takes, and the text of the exceptions of
    the runtime. *)

From S2P Require Import Prelude Hashing Base64 PyVal Sorting Json Crypto Wire Ratchet AuditClient Utils Session.
From S2P Require Import Pqxdh CacheStore Transcript Identity DrStore IdentityAudit MlsBridge Mls Messages Cleanup.
From S2P Require Import WebSocket ChatPage ChatView.

Class Env := {
  env_fails : nat -> bytes -> option string;
  env_mask : nat -> bytes;
  env_monotonic : nat -> Z;
  env_fetch : nat -> string -> http_result;
  env_auditor_pk : string;
  env_pop : gset Z -> Z;
  env_exc : exc -> string;
  env_home : string;
  env_cwd : string;
  env_localtime : Z -> res string;
  env_file_size : string -> res Z;
  env_file_read : string -> res bytes
}.

Inductive action := Login | Register | Reconnect.
Record credentials := Credentials { c_action : action; c_email : string; c_pw_hash : string; c_username : string }.

(** A message box, with its title. *)
Definition notice := (string * string)%type.

Record connection := Connection {
  ws : option net; session_active : bool; pending : option credentials; pending_password : string; stack : Z;
  last_host : string; last_port : Z; last_email : string; last_pw_hash : string; account_username : string;
  auth_credential : string; attempts : Z; scheduled : bool; delays : list Z; session_gen : Z;
  poll_timer : bool; inbox_refresh : bool; login_status : string; register_status : string;
  outbox : list dict; avatar_fetches : gset Z; n_sends : nat; n_monotonic : nat; n_fetches : nat; profile_edit : bool
}.
#[export] Instance connection_eta : Eta connection := fun c =>
  Connection (ws c) (session_active c) (pending c) (pending_password c) (stack c) (last_host c) (last_port c)
    (last_email c) (last_pw_hash c) (account_username c) (auth_credential c) (attempts c) (scheduled c) (delays c)
    (session_gen c) (poll_timer c) (inbox_refresh c) (login_status c) (register_status c) (outbox c) (avatar_fetches c)
    (n_sends c) (n_monotonic c) (n_fetches c) (profile_edit c).

Record key_state := KeyState {
  kem_ready : bool; bundle_ready : bool; bundle_uploading : bool; publish_blocked : bool;
  kem_queue : list (Z * Z); pending_dm : gmap Z Z; own_version : Z; server_identity : string;
  rotation_pending : bool; password_change : option (bytes * bytes)
}.
#[export] Instance key_state_eta : Eta key_state := fun k =>
  KeyState (kem_ready k) (bundle_ready k) (bundle_uploading k) (publish_blocked k) (kem_queue k) (pending_dm k)
    (own_version k) (server_identity k) (rotation_pending k) (password_change k).

(** Messages that wait for a key are a list that is appended to while a loop may be
    running over it, and that the end of such a loop replaces: the lists there have
    been, and which one is [_pending_messages]. *)
Record queues := Queues {
  pending_lists : list (list dict); pending_ref : nat; seen_msg_ids : gmap Z (gset Z);
  self_texts : gmap Z (list string); self_ids : gmap Z (list Z); checkpoint_sent : gmap Z Z; inbox_ids : list Z
}.
#[export] Instance queues_eta : Eta queues := fun q =>
  Queues (pending_lists q) (pending_ref q) (seen_msg_ids q) (self_texts q) (self_ids q) (checkpoint_sent q)
    (inbox_ids q).
Definition pending_list (q : queues) (r : nat) : list dict := nth r (pending_lists q) [].
Definition pending_messages (q : queues) : list dict := pending_list q (pending_ref q).

(** A member of a group: identifier, role, name ("" when unknown). *)
Record member := Member { m_uid : Z; m_role : string; m_name : string }.

(** What the user asked for, until the server has prepared it. *)
Record intent := Intent {
  i_operation : string; i_conv : Z; i_target : Z; i_role : string; i_name : string; i_description : string;
  i_members : list Z
}.

(** An operation the server has prepared: the fields of the dictionary the code keeps
    for it, with what the user asked for and the key packages that have come. *)
Record group_op := GroupOp { o_fields : dict; o_intent : intent; o_claimed : gmap Z string }.
#[export] Instance group_op_eta : Eta group_op := fun o => GroupOp (o_fields o) (o_intent o) (o_claimed o).

Record groups := Groups {
  prepare : list intent; ops : gmap string group_op; claims : gmap Z (list string);
  create_members : gmap string (list Z); members_cache : gmap Z (list member); expected_change : gset Z;
  manual_info : gset Z; key_packages_ready : bool
}.
#[export] Instance groups_eta : Eta groups := fun g =>
  Groups (prepare g) (ops g) (claims g) (create_members g) (members_cache g) (expected_change g) (manual_info g)
    (key_packages_ready g).

Record app := App {
  crypto : session; chat : view; cn : connection; ks : key_state; qs : queues; gs : groups; notices : list notice
}.
#[export] Instance app_eta : Eta app := fun a =>
  App (crypto a) (chat a) (cn a) (ks a) (qs a) (gs a) (notices a).

Abbreviation am := (stm app).

Definition on_crypto {A} (m : sm A) : am A := fun a => let (s, r) := m (crypto a) in (a <| crypto := s |>, r).
Definition on_view {A} (m : vm A) : am A := fun a => let (v, r) := m (chat a) in (a <| chat := v |>, r).
Definition on_timeline {A} (m : pm A) : am A := on_view (on_page m).
Definition on_cn (f : connection -> connection) : am unit := st_modify (fun a => a <| cn ::= f |>).
Definition on_ks (f : key_state -> key_state) : am unit := st_modify (fun a => a <| ks ::= f |>).
Definition on_qs (f : queues -> queues) : am unit := st_modify (fun a => a <| qs ::= f |>).
Definition on_gs (f : groups -> groups) : am unit := st_modify (fun a => a <| gs ::= f |>).
Definition warn_box (title text : string) : am unit := st_modify (fun a => a <| notices ::= cons (title, text) |>).
(** [self._inbox_refresh.start(500)]. *)
Definition refresh_inbox : am unit := on_cn (fun c => c <| inbox_refresh := true |>).

Definition my_uid_of (a : app) : Z := my_uid (crypto a).
Definition is_group_conv (a : app) (conv_id : Z) : bool := bool_decide (conv_id ∈ group_conv_ids (crypto a)).

Section app.
Context `{P : Prims, O : Os, E : Env}.
Variable oqs : option (option (list string)).

(** [str(exc)]. *)
Definition exc_text (e : exc) : string :=
  match e with
  | ValueError m | RuntimeError m | CryptoStateError m | AuditError m _ => m
  | KeyError k => "'" +:+ k +:+ "'"
  | e => env_exc e
  end.

(** ** Losing the connection *)

Definition interrupted : string := "Connection was interrupted. Retry after SecChat reconnects.".
Definition reconnect_warning : string :=
  "Connection was interrupted. SecChat will reconnect automatically; failed messages can be retried after reconnect.".

Definition can_reconnect (c : connection) : bool :=
  nonempty (last_host c) && negb (last_port c =? 0) && nonempty (last_pw_hash c).

Definition reconnect_delay (n : Z) : Z := Z.min 10000 (1500 + n * 1000).

Definition _schedule_reconnect : am unit :=
  do! a := st_get in
  if negb (can_reconnect (cn a)) || scheduled (cn a) then st_ret tt
  else
    do! _ := on_cn (fun c => c <| scheduled := true |>) in
    do! _ := on_view (show_security_warning (active_conv (chat a)) [reconnect_warning]) in
    on_cn (fun c => c <| delays ::= cons (reconnect_delay (attempts (cn a))) |>).

Definition _net_close (reason : string) : am unit :=
  do! a := st_get in
  match ws (cn a) with
  | None => st_ret tt
  | Some _ =>
      if stack (cn a) =? 0 then on_cn (fun c => c <| login_status := reason |>)
      else if stack (cn a) =? 2 then on_cn (fun c => c <| register_status := reason |>)
      else
        do! _ := on_cn (fun c => c <| session_active := false |> <| poll_timer := false |> <| inbox_refresh := false |>) in
        do! _ := on_timeline (mark_pending_sends_failed interrupted) in
        _schedule_reconnect
  end.

(** ** Sending

    [WSNet.send] reports a failure by its signal [on_close], which runs
    [_net_close] before it returns. *)
Definition ws_send (obj : dict) : am unit :=
  do! a := st_get in
  match ws (cn a) with
  | None => st_fail AttributeError
  | Some n =>
      let k := n_sends (cn a) in
      do! _ := on_cn (fun c => c <| n_sends ::= S |>) in
      do! (frame, events) := st_lift (send (env_mask k) obj (env_fails k) n) in
      do! _ := on_cn (fun c => c <| outbox ::= fun l => match frame with Some _ => l ++ [obj] | None => l end |>) in
      st_for events (fun e => match e with EClose reason => _net_close reason | _ => st_ret tt end)
  end.

Definition _safe_send (obj : dict) : am bool :=
  do! a := st_get in
  match session_active (cn a), ws (cn a) with
  | true, Some _ => st_catch (do! _ := ws_send obj in st_ret true) (fun _ => st_ret false)
  | _, _ => st_ret false
  end.

(** A request whose answer nobody looks at. *)
Definition request (obj : dict) : am unit := do! _ := _safe_send obj in st_ret tt.
Definition ask (typ : string) : am unit := request [("type", PStr typ)].
Definition ask_conv (typ k : string) (id : Z) : am unit := request [("type", PStr typ); (k, PInt id)].

Definition _poll_status : am unit :=
  do! a := st_get in
  if session_active (cn a) then do! _ := ask "get_friends" in ask "get_inbox" else st_ret tt.
Definition _do_inbox_refresh : am unit :=
  do! _ := on_cn (fun c => c <| inbox_refresh := false |>) in ask "get_inbox".

(** ** Opening and closing connections *)

Definition _setup_ws : am unit := on_cn (fun c => c <| ws := Some new_net |>).
Definition start_connection : am unit := on_cn (fun c => c <| ws ::= option_map (fun n => fst (connect_async n)) |>).
Definition _teardown_ws : am unit :=
  on_cn (fun c => c <| poll_timer := false |> <| inbox_refresh := false |> <| ws := None |>).

Definition new_key_state : key_state := KeyState false false false false [] ∅ 0 "" false None.
Definition new_queues : queues := Queues [[]] 0 ∅ ∅ ∅ ∅ [].
Definition new_groups : groups := Groups [] ∅ ∅ ∅ ∅ ∅ ∅ false.

Definition _init_session_state : am unit :=
  do! _ := on_crypto Session.reset in
  do! _ := on_cn (fun c => c <| pending := None |> <| pending_password := "" |> <| account_username := "" |>
    <| auth_credential := "" |> <| last_host := "" |> <| last_port := 0 |> <| last_email := "" |> <| last_pw_hash := "" |>
    <| attempts := 0 |> <| session_active := false |> <| avatar_fetches := ∅ |> <| profile_edit := false |>) in
  do! _ := on_ks (fun _ => new_key_state) in
  do! _ := on_qs (fun _ => new_queues) in
  on_gs (fun _ => new_groups).

Definition open_session (host : string) (port : Z) (c : credentials) (password : string) : am unit :=
  do! _ := _teardown_ws in
  do! _ := _init_session_state in
  do! _ := on_cn (fun x => x <| session_gen ::= Z.add 1 |> <| last_host := host |> <| last_port := port |>
    <| last_email := c_email c |> <| last_pw_hash := c_pw_hash c |> <| pending := Some c |> <| pending_password := password |>) in
  do! _ := _setup_ws in
  start_connection.

Definition _do_login (host : string) (port : Z) (email pw_hash password : string) : am unit :=
  open_session host port (Credentials Login email pw_hash "") password.
Definition _do_register (host : string) (port : Z) (username email pw_hash password : string) : am unit :=
  open_session host port (Credentials Register email pw_hash username) password.

Definition auth_request (c : credentials) : dict :=
  [("type", PStr "auth"); ("email", PStr (c_email c)); ("password", PStr (c_pw_hash c))].

Definition _net_open : am unit :=
  do! a := st_get in
  match pending (cn a), ws (cn a) with
  | Some c, Some _ =>
      match c_action c with
      | Login | Reconnect => ws_send (auth_request c)
      | Register =>
          ws_send [("type", PStr "register"); ("username", PStr (c_username c)); ("email", PStr (c_email c));
                   ("password", PStr (c_pw_hash c))]
      end
  | _, _ => st_ret tt
  end.

(** When the timer of [_schedule_reconnect] runs out. *)
Definition _attempt_reconnect : am unit :=
  do! _ := on_cn (fun c => c <| scheduled := false |>) in
  do! a := st_get in
  if session_active (cn a) || negb (stack (cn a) =? 1) || negb (can_reconnect (cn a)) then st_ret tt
  else
    do! _ := on_cn (fun c => c <| attempts ::= Z.add 1 |>
      <| pending := Some (Credentials Reconnect (or_default (last_email c) (auth_credential c)) (last_pw_hash c) "") |>) in
    do! _ := _teardown_ws in
    do! _ := _setup_ws in
    start_connection.

(** The page may still emit that the user has stopped typing: nothing is sent any more. *)
Definition _logout_local (notify_server : bool) (status : string) : am unit :=
  do! a := st_get in
  let clear := cache_clear_on_logout (crypto a) in
  do! _ := (if notify_server && session_active (cn a) then
              match ws (cn a) with
              | Some _ => st_catch (ws_send [("type", PStr "logout")]) (fun _ => st_ret tt)
              | None => st_ret tt
              end
            else st_ret tt) in
  do! _ := (if clear : bool then do! _ := on_crypto (clear_message_cache None) in st_ret tt else st_ret tt) in
  do! _ := on_cn (fun c => c <| session_active := false |> <| session_gen ::= Z.add 1 |>) in
  do! _ := _teardown_ws in
  do! _ := _init_session_state in
  do! _ := on_view ChatView.reset in
  do! _ := on_timeline (st_modify (fun p => p <| signals := [] |>)) in
  on_cn (fun c => c <| stack := 0 |> <| login_status := status |> <| register_status := "" |>).
Definition _logout : am unit := _logout_local true "".
Definition _handle_session_replaced (msg : dict) : am unit :=
  _logout_local false (py_str (py_or (dget "msg" (PStr "") msg) (PStr "This account signed in on another device."))).
End app.
