(* ===== verification/AppIdentity.v ===== *)
(** * The application: identities and their audit (client/app.py)

    What the application does with an identity key of a peer: the safety number and
    the badge of a conversation, the audit of a key that a bundle or a first
    message brings, and the announcement that a key has changed. Every audit
    asks the auditor as it is then ([env_fetch] of the number of the audit). *)

From S2P Require Import Prelude Hashing Base64 PyVal Sorting Json Crypto Wire Ratchet AuditClient Utils Session.
From S2P Require Import Pqxdh CacheStore Transcript Identity DrStore IdentityAudit MlsBridge Mls Messages Cleanup.
From S2P Require Import WebSocket ChatPage ChatView App.

Definition PQ_HYBRID_LABEL : string := "X-Wing ML-KEM-768 + X25519".

(** The peer of a direct conversation as the list of conversations has it. *)
Definition listed_peer (fields : list string) (c : dict) : res Z :=
  py_int (fold_right (fun k rest => py_or (dget k (PInt 0) c) rest) (PInt 0) fields).
Fixpoint peer_in_list (me conv_id : Z) (l : list dict) : res Z :=
  match l with
  | [] => Ok 0
  | c :: l =>
      let! cid := conv_id_of c in
      if cid =? conv_id then
        let! peer := listed_peer ["with_user_id"; "other_id"; "user_id"; "friend_id"] c in
        Ok (if peer =? me then 0 else peer)
      else peer_in_list me conv_id l
  end.
Definition _peer_uid_for_conv (a : app) (conv_id : Z) : res Z :=
  match conv_peer_uids (crypto a) !! conv_id with
  | Some peer => Ok peer
  | None => peer_in_list (my_uid_of a) conv_id (dm_convs (tl (chat a)))
  end.

Definition _audit_error_badge_label (audit : dict) : string :=
  let code := get_str0 "last_error_code" audit in
  if nonempty code then "audit " +:+ audit_error_label code
  else if String.eqb (get_str0 "status" audit) "audit_unavailable" then "audit unavailable" else "audit warning".

Definition _audit_error_detail_text (audit : dict) : string :=
  let code := get_str0 "last_error_code" audit in
  let message := get_str0 "last_error" audit in
  if nonempty code then audit_error_detail code message else message.

Section identity.
Context `{P : Prims, O : Os, E : Env}.
Variable oqs : option (option (list string)).

Definition set_fp (conv_id : Z) (fp : string) : am unit :=
  on_crypto (st_modify (fun s => s <| conv_fingerprints ::= <[conv_id := fp]> |>)).
Definition known_fp (a : app) (conv_id : Z) : string := default "" (conv_fingerprints (crypto a) !! conv_id).
Definition is_verified (a : app) (conv_id : Z) : bool := default false (conv_verified (crypto a) !! conv_id).

(** The safety number of the own key and a key in base64, if it decodes. *)
Definition fp_with (a : app) (pk_b64 : string) : option string :=
  match b64d pk_b64 with Ok pk => Some (safety_fingerprint (identity_pk (crypto a)) pk) | Err _ => None end.

Definition _safety_fingerprint_for_conv (conv_id : Z) : am string :=
  do! a := st_get in
  do! peer := st_lift (_peer_uid_for_conv a conv_id) in
  if (0 <? peer) && nonempty (identity_pk (crypto a)) then
    do! audit := on_crypto (load_identity_audit peer) in
    let pk := get_str0 "identity_pk" audit in
    match (if nonempty pk then fp_with a pk else None) with
    | Some fp => do! _ := set_fp conv_id fp in st_ret fp
    | None => do! a := st_get in st_ret (known_fp a conv_id)
    end
  else st_ret (known_fp a conv_id).

(** The status, the label and the detail of a conversation; it never blocks sending. *)
Definition status_and_label (audit : dict) (verified has_fp : bool) : pyval * string :=
  let status := dget "status" (PStr "unknown") audit in
  if py_eqb status (PStr "key_changed") then (status, "key changed")
  else if py_eqb status (PStr "audit_mismatch") || py_eqb status (PStr "audit_unavailable") then
    (status, _audit_error_badge_label audit)
  else if verified then (PStr "verified", "verified")
  else if py_eqb status (PStr "reviewed_unverified") then (status, "unverified")
  else if has_fp then (PStr "unverified", "verify")
  else (status, "verify").

Definition _security_status_for_conv (conv_id : Z) : am (pyval * string * string) :=
  do! a := st_get in
  if is_group_conv a conv_id then
    st_ret (PStr "group_mls_pq", "MLS PQ",
      "Group MLS ciphersuite: " +:+ PQ_HYBRID_LABEL +:+ ". PQ confidentiality; Ed25519 classical authentication.")
  else
    do! peer := st_lift (_peer_uid_for_conv a conv_id) in
    do! audit := (if peer =? 0 then st_ret [] else on_crypto (load_identity_audit peer)) in
    do! fp := _safety_fingerprint_for_conv conv_id in
    do! a := st_get in
    let (status, label) := status_and_label audit (is_verified a conv_id) (nonempty fp || nonempty (known_fp a conv_id)) in
    st_ret (status, label, _audit_error_detail_text audit).

Definition _refresh_security_ui (conv_id : Z) : am unit :=
  do! (status, label, detail) := _security_status_for_conv conv_id in
  on_view (set_conversation_security conv_id (py_str status) label detail false).

(** Show the safety number of the open conversation. *)
Definition show_fp (fp : string) (verified : bool) : am unit := on_view (set_fingerprint fp verified).

(** ** The audit of a key *)

Definition checkpoint_of (v : pyval) : res (option dict) :=
  match v with PDict d => Ok (Some d) | v => if truthy v then Err AttributeError else Ok None end.

(** Ask the auditor, with the checkpoint that is pinned. *)
Definition verify_now (peer version : Z) (pk : string) (previous : dict) : am dict :=
  do! a := st_get in
  do! _ := on_cn (fun c => c <| n_fetches ::= S |>) in
  st_lift (
    let! cp := checkpoint_of (dget "checkpoint" PNone previous) in
    verify_identity_from_auditor (env_fetch (n_fetches (cn a))) env_auditor_pk peer version pk cp).

(** [result.get(k) or {}]. *)
Definition part_of (k : string) (result : dict) : res dict := or_empty_dict (dget k PNone result).

(** Verify, pin the checkpoint, and record the key as proved. *)
Definition audit_key (source : string) (peer version : Z) (pk safety : string) (previous : dict)
    (pin_failed : exc -> exc) : am dict :=
  do! result := verify_now peer version pk previous in
  do! cp := st_lift (part_of "checkpoint" result) in
  do! _ := st_catch (on_crypto (record_auditor_checkpoint cp source peer version)) (fun e => st_fail (pin_failed e)) in
  do! leaf := st_lift (part_of "leaf" result) in
  on_crypto (record_identity_audit_ok peer pk version safety cp leaf).

Definition pin_error (e : exc) : exc := AuditError (exc_text e) (classify_audit_error (exc_text e)).

(** The last entry of a list with the same key. *)
Fixpoint entry_with (pk : string) (entries : list pyval) : res (option dict) :=
  match entries with
  | [] => Ok None
  | e :: entries =>
      let! d := as_dict e in
      if same_identity_key (py_str (dget "identity_pk" (PStr "") d)) pk then Ok (Some d) else entry_with pk entries
  end.

Definition _recover_identity_audit_version_mismatch (peer : Z) (pk : string) (version : Z) (safety code : string) :
    am (option dict) :=
  if negb (mem code ["identity_version_mismatch"; "identity_version_not_found"]) then st_ret None
  else
    do! a := st_get in
    do! _ := on_cn (fun c => c <| n_fetches ::= S |>) in
    match fetch_identity_history (env_fetch (n_fetches (cn a))) env_auditor_pk peer with
    | Err _ => st_ret None
    | Ok history =>
        do! entries := st_lift (py_iter (py_or (dget "entries" PNone history) (PList []))) in
        do! found := st_lift (entry_with pk (rev entries)) in
        match found with
        | None | Some [] => st_ret None
        | Some entry =>
            st_catch (
              do! effective := st_lift (py_int (py_or (dget "identity_version" (PInt version) entry) (PInt 0))) in
              do! previous := on_crypto load_auditor_state in
              do! state := audit_key "pqxdh_bundle_version_recovered" peer effective pk safety previous id in
              st_ret (Some state)) (fun _ => st_ret None)
        end
    end.

(** Note a failure in the state of the auditor. *)
Definition auditor_failed (status error code : string) : am unit :=
  do! state := on_crypto load_auditor_state in
  do! now := on_crypto now_s in
  on_crypto (save_auditor_state (dupdate state
    [("status", PStr status); ("last_error", PStr error); ("last_error_code", PStr code); ("updated_at", PInt now)])).

Definition audit_refused (peer version : Z) (pk safety error code : string) : am dict :=
  let status := audit_status_for_code code in
  do! _ := auditor_failed status error code in
  do! state := _recover_identity_audit_version_mismatch peer pk version safety code in
  match state with
  | Some (kv :: d) => st_ret (kv :: d)
  | _ => on_crypto (record_identity_audit_problem peer pk version safety status error code)
  end.

Definition auditor_down (peer version : Z) (pk safety : string) (e : exc) : am dict :=
  let error := "Auditor is unavailable: " +:+ exc_text e in
  do! state := on_crypto load_auditor_state in
  do! _ := (if truthy (dget "checkpoint" PNone state) then st_ret tt
            else auditor_failed "audit_unavailable" error "auditor_unavailable") in
  on_crypto (record_identity_audit_problem peer pk version safety "audit_unavailable" error "auditor_unavailable").

Definition _audit_pqxdh_bundle_identity (conv_id : Z) (msg : dict) : am dict :=
  do! peer := st_lift (get_int0 "user_id" msg) in
  let pk := get_str0 "identity_pk" msg in
  do! version := st_lift (get_int0 "identity_version" msg) in
  if peer <=? 0 then st_ret [("status", PStr "none"); ("identity_pk", PStr pk)]
  else
    do! a := st_get in
    let safety := if nonempty (identity_pk (crypto a)) && nonempty pk then default "" (fp_with a pk) else "" in
    do! _ := set_fp conv_id (or_default safety (known_fp a conv_id)) in
    do! previous := on_crypto load_auditor_state in
    do! state := st_catch (audit_key "pqxdh_bundle" peer version pk safety previous pin_error) (fun e =>
      match e with
      | AuditError error code => audit_refused peer version pk safety error (or_default code (classify_audit_error error))
      | e => auditor_down peer version pk safety e
      end) in
    do! _ := _refresh_security_ui conv_id in
    st_ret state.

(** The identity that a first message brings; a version that is no integer counts
    as none. *)
Definition _record_incoming_pq_identity (conv_id : Z) (result : dict) : am unit :=
  do! peer := st_lift (get_int0 "peer_uid" result) in
  let pk := get_str0 "peer_identity_pk" result in
  if (peer <=? 0) || negb (nonempty pk) then st_ret tt
  else
    let version := ok_or None (opt_version (dget "peer_identity_version" PNone result)) in
    do! a := st_get in
    do! safety := match fp_with a pk with
                  | Some fp => do! _ := set_fp conv_id fp in st_ret fp
                  | None => st_ret (get_str0 "fingerprint" result)
                  end in
    do! _ := match version with
             | None => on_crypto (record_identity_seen_unverified peer pk None safety "pqxdh_initial")
             | Some v =>
                 _audit_pqxdh_bundle_identity conv_id
                   [("user_id", PInt peer); ("identity_pk", PStr pk); ("identity_version", PInt v)]
             end in
    _refresh_security_ui conv_id.

(** ** A key has changed *)

Definition key_change_text : string := "Safety number changed and needs review.".

Definition changed_state (now version : Z) (pk safety : string) (old : dict) : res dict :=
  let! hist := history_of old in
  let hist := hist ++ [PDict (history_entry now (PStr "rotation") version pk safety (PStr "primary device") (PStr ""))] in
  Ok (dupdate old
    [("status", PStr "key_changed"); ("identity_pk", PStr pk); ("identity_version", PInt version);
     ("safety_number", PStr safety); ("history", PList (last_n 20 hist)); ("last_error", PStr key_change_text);
     ("last_error_code", PStr "")]).

(** One conversation with the user. *)
Definition identity_changed_in (uid version : Z) (pk : string) (conv_id : Z) : am unit :=
  do! _ := on_crypto (st_modify (fun s => s <| conv_verified ::= <[conv_id := false]> |>)) in
  do! _ := on_crypto (st_catch (save_verified conv_id false) (fun _ => st_ret tt)) in
  do! a := st_get in
  do! _ := (if conv_id =? active_conv (chat a) then show_fp (known_fp a conv_id) false else st_ret tt) in
  do! _ := (if nonempty pk then
              do! old := on_crypto (load_identity_audit uid) in
              do! hist := st_lift (history_of old) in
              do! now := on_crypto now_s in
              do! state := st_lift (changed_state now version pk (default "" (fp_with a pk)) old) in
              on_crypto (save_identity_audit uid state)
            else st_ret tt) in
  _refresh_security_ui conv_id.

(** The conversations with a user. *)
Definition convs_with (a : app) (uid : Z) : list Z :=
  map fst (List.filter (fun x => snd x =? uid) (map_to_list (conv_peer_uids (crypto a)))).

Definition change_warning (name : string) : string :=
  name +:+ "'s safety number changed. This can be normal after a key rotation, but it can also mean someone is trying to substitute a key. Compare the safety number again outside SecChat before trusting this conversation.".

Definition _handle_identity_changed (msg : dict) : am unit :=
  do! uid := st_lift (get_int0 "user_id" msg) in
  do! a := st_get in
  if (uid <=? 0) || (uid =? my_uid_of a) then st_ret tt
  else
    let pk := get_str0 "identity_pk" msg in
    do! version := st_lift (get_int0 "identity_version" msg) in
    do! _ := st_for (convs_with a uid) (identity_changed_in uid version pk) in
    do! a := st_get in
    warn_box "Safety Number Changed" (change_warning (or_default (friend_name (chat a) uid) (user_label uid))).

End identity.
