(* ===== verification/AppMembers.v ===== *)
(** * The application: members of a group and its system lines (client/app.py)

    The list of members the application keeps for each group, the names it shows,
    and the lines about joins, leaves and roles, with the keys by which the same
    event, live and in a history, is shown once. *)

From S2P Require Import Prelude Hashing Base64 PyVal Sorting Json Crypto Wire Ratchet AuditClient Utils Session.
From S2P Require Import Pqxdh CacheStore Transcript Identity DrStore IdentityAudit MlsBridge Mls Messages Cleanup.
From S2P Require Import WebSocket ChatPage ChatView App AppIdentity.

(** ** Member lists *)

(** One item of a list of members or identifiers: identifier, role, name. *)
Definition read_member (item : pyval) : res (Z * string * string) :=
  match item with
  | PDict d =>
      let! uid := py_int (py_or (dget "user_id" (dget "id" (PInt 0) d) d) (PInt 0)) in
      Ok (uid, py_str (py_or (dget "role" (PStr "member") d) (PStr "member")),
          py_str (py_or (dget "username" (PStr "") d) (py_or (dget "name" (PStr "") d)
                    (py_or (dget "display_name" (PStr "") d) (PStr "")))))
  | v => let! uid := py_int (py_or v (PInt 0)) in Ok (uid, "member", "")
  end.

(** The roles and names so far. *)
Definition add_read (acc : gmap Z string * gmap Z string) (x : Z * string * string) : gmap Z string * gmap Z string :=
  let '(uid, role, name) := x in
  if uid <=? 0 then acc
  else
    let role := if mem role ["admin"; "member"] then role else "member" in
    let old := default "" (fst acc !! uid) in
    (<[uid := if String.eqb old "admin" || String.eqb role "admin" then "admin" else role]> (fst acc),
     if nonempty name then match snd acc !! uid with Some _ => snd acc | None => <[uid := name]> (snd acc) end else snd acc).

Definition member_rows (acc : gmap Z string * gmap Z string) : list member :=
  map (fun x => Member (fst x) (snd x) (default "" (snd acc !! fst x)))
    (isort (by_key Z.ltb fst) (map_to_list (fst acc))).

Definition _normalize_group_members (items : list pyval) : res (list member) :=
  let! acc := res_fold (fun acc item => let! x := read_member item in Ok (add_read acc x)) (∅, ∅) items in
  Ok (member_rows acc).

Definition member_py (m : member) : pyval :=
  PDict ([("user_id", PInt (m_uid m)); ("role", PStr (m_role m))]
         ++ if nonempty (m_name m) then [("username", PStr (m_name m))] else []).

Definition _role_for_member (members : list pyval) (uid : Z) : res string :=
  let! l := _normalize_group_members members in
  Ok (match List.find (fun m => m_uid m =? uid) l with Some m => or_default (m_role m) "member" | None => "" end).

Definition cached_members (a : app) (group_id : Z) : list member := default [] (members_cache (gs a) !! group_id).

(** The first member of that identifier renamed. *)
Definition rename (uid : Z) (name : string) (l : list member) : list member :=
  default l (map_first (fun m => m_uid m =? uid) (fun m => Member (m_uid m) (m_role m) name) l).

(** Role and name of the last cached entry of an identifier. *)
Definition cached_member (cached : list member) (uid : Z) : member :=
  default (Member uid "member" "") (List.find (fun m => m_uid m =? uid) (rev cached)).

Definition _members_after_from_event (a : app) (group_id : Z) (msg : dict) (fallback_ids : pyval) : res (list member) :=
  match dget "members" PNone msg with
  | PList (x :: l) =>
      let! normalized := _normalize_group_members (x :: l) in
      let! target := get_int0 "user_id" msg in
      let name := py_str (py_or (dget "username" (PStr "") msg) (py_or (dget "target_username" (PStr "") msg) (PStr ""))) in
      Ok (if (0 <? target) && nonempty name then rename target name normalized else normalized)
  | _ =>
      let! ids := py_iter (py_or (dget "member_ids" (py_or fallback_ids (PList [])) msg) (PList [])) in
      let uids := omap (fun v => match py_int v with Ok uid => if 0 <? uid then Some uid else None | Err _ => None end) ids in
      _normalize_group_members (map (fun uid =>
        let m := cached_member (cached_members a group_id) uid in
        member_py (Member uid (or_default (m_role m) "member") (m_name m))) uids)
  end.

(** Keep the members an event shows. *)
Definition keep_members (group_id : Z) (msg : dict) (fallback_ids : pyval) : am unit :=
  do! a := st_get in
  do! l := st_lift (_members_after_from_event a group_id msg fallback_ids) in
  match l with [] => st_ret tt | _ => on_gs (fun g => g <| members_cache ::= insert group_id l |>) end.

Definition _members_before_for_change (a : app) (group_id : Z) (after : list pyval) (operation : string)
    (target : Z) (role : string) : res (list member) :=
  match cached_members a group_id with
  | m :: l => _normalize_group_members (map member_py (m :: l))
  | [] =>
      let! before := _normalize_group_members after in
      let before :=
        if String.eqb operation "add_member" then List.filter (fun m => negb (m_uid m =? target)) before
        else if mem operation ["remove_member"; "member_left"] && (0 <? target)
                && negb (existsb (fun m => m_uid m =? target) before)
        then before ++ [Member target (if mem role ["admin"; "member"] then role else "member") ""]
        else before in
      _normalize_group_members (map member_py before)
  end.

(** ** Names *)

(** The first nonempty text. *)
Fixpoint first_text (l : list string) : string :=
  match l with [] => "" | s :: l => if nonempty s then s else first_text l end.

Definition name_in_message (uid : Z) (field : string) (msg : dict) : res string :=
  match msg with
  | [] => Ok ""
  | _ =>
      let direct := first_text [get_str0 field msg; get_str0 "username" msg; get_str0 "target_username" msg] in
      if nonempty direct then Ok direct
      else
        let! members := py_iter (py_or (dget "members" PNone msg) (PList [])) in
        Ok (first_text (omap (fun v =>
          match v with
          | PDict d =>
              match py_int (py_or (dget "user_id" (dget "id" (PInt 0) d) d) (PInt 0)) with
              | Ok u => if u =? uid then Some (py_str (py_or (dget "username" (PStr "") d) (py_or (dget "name" (PStr "") d) (PStr ""))))
                        else None
              | Err _ => None
              end
          | _ => None
          end) members))
  end.

Definition friend_label (a : app) (uid : Z) : string :=
  let name := match zget uid (friends (chat a)) with
              | Some d => py_str (py_or (dget "username" (PStr "") d) (py_or (dget "name" (PStr "") d) (PStr "")))
              | None => ""
              end in
  or_default name (user_label uid).

Definition _display_name_for_user (a : app) (group_id uid : Z) (msg : dict) (field : string) : res string :=
  if uid <=? 0 then Ok ""
  else
    let! direct := name_in_message uid field msg in
    if nonempty direct then Ok direct
    else
      let cached := first_text (map m_name (List.filter (fun m => m_uid m =? uid) (cached_members a group_id))) in
      Ok (or_default cached (friend_label a uid)).

(** ** System lines *)

Definition _membership_event_key (event_type : string) (uid : Z) (role operation_id : string) : option (list string) :=
  if nonempty operation_id then Some [event_type; dec uid; role; operation_id] else None.

(** Identifier, anchor and time of a system line. *)
Definition _system_event_kwargs (msg : dict) : res (Z * option Z * string) :=
  let sid := try_int (dget "system_event_id" (dget "id" (PInt 0) msg) msg) in
  let after := try_int (dget "after_message_id" (PInt 0) msg) in
  let! t := ts_short_v (dget "event_time" (dget "time" (PStr "") msg) msg) in
  Ok (Z.max 0 sid, if 0 <? after then Some after else None, t).

Definition event_type_of (msg : dict) : string :=
  py_str (py_or (dget "event_type" (dget "type" (PStr "") msg) msg) (PStr "")).
Definition event_uid (msg : dict) : res Z := py_int (py_or (dget "user_id" (dget "target_user_id" (PInt 0) msg) msg) (PInt 0)).

Definition _group_system_event_key (msg : dict) : res (option (list string)) :=
  let typ := event_type_of msg in
  let! uid := event_uid msg in
  let role := get_str0 "role" msg in
  let op := get_str0 "operation_id" msg in
  Ok (if mem typ ["member_left"; "member_removed"] then _membership_event_key "member_removed" uid "" op
      else if String.eqb typ "member_added" then _membership_event_key "member_added" uid "" op
      else if String.eqb typ "member_role_changed" then _membership_event_key "member_role_changed" uid role op
      else if String.eqb typ "group_info_updated" then _membership_event_key "group_info_updated" 0 "" op
      else _membership_event_key typ uid role op).

Definition role_text (role : string) : string := if String.eqb role "admin" then "admin" else "member".

Definition role_line (actor who role : string) : string :=
  if nonempty actor && negb (String.eqb actor who) then actor +:+ " made " +:+ who +:+ " " +:+ role_text role +:+ "."
  else who +:+ " was made " +:+ role_text role +:+ ".".

Definition _group_system_event_text (a : app) (group_id : Z) (msg : dict) : res string :=
  let typ := event_type_of msg in
  let! uid := event_uid msg in
  let! actor_uid := py_int (py_or (dget "by_user_id" (dget "actor_id" (PInt 0) msg) msg) (PInt 0)) in
  let mine := uid =? my_uid_of a in
  let! who := if mine then Ok "You" else _display_name_for_user a group_id uid msg "username" in
  let actor := get_str0 "by_username" msg in
  let! actor := if negb (nonempty actor) && (0 <? actor_uid) && negb (actor_uid =? uid)
                then _display_name_for_user a group_id actor_uid msg "by_username" else Ok actor in
  Ok (if String.eqb typ "member_added" then
        if mine then or_default actor "Someone" +:+ " added you to the group." else who +:+ " joined the group."
      else if String.eqb typ "member_left" then
        if mine then "You left the group." else who +:+ " left the group."
      else if String.eqb typ "member_removed" then
        if mine then "You were removed from the group." else who +:+ " was removed from the group."
      else if String.eqb typ "member_role_changed" then
        role_line actor who (py_str (py_or (dget "role" (PStr "") msg) (PStr "member")))
      else if String.eqb typ "group_info_updated" then "Group info was updated."
      else "").

Definition prepare_event (group_id : Z) (acc : list sys_event) (raw : pyval) : am (list sys_event) :=
  match raw with
  | PDict d =>
      do! _ := keep_members group_id d PNone in
      do! a := st_get in
      do! text := st_lift (_group_system_event_text a group_id d) in
      if nonempty text then
        let d := dset "text" (PStr text) d in
        do! key := st_lift (_group_system_event_key d) in
        st_ret (acc ++ [SysEvent d key])
      else st_ret acc
  | _ => st_ret acc
  end.
Definition _prepare_group_system_events_for_history (group_id : Z) (events : list pyval) : am (list sys_event) :=
  st_fold (prepare_event group_id) [] events.

(** Show a line now. *)
Definition show_line (group_id : Z) (text : string) (key : option (list string)) (msg : dict) : am unit :=
  do! (sid, after, t) := st_lift (_system_event_kwargs msg) in
  on_timeline (add_system_event group_id text t key sid after).
