(* ===== verification/AppMessages.v ===== *)
(** * The application: messages (client/app.py)

    Sending a text, and what the application does with a message, a history, an
    edit, a deletion, a reaction or a pin from the server; the messages that wait
    for a key, and the queue of texts whose echo is awaited.

    A message may make waiting messages readable, and handling those may make
    others readable: [_handle_message] and [_flush_pending] call each other. They
    run on fuel; a call without fuel fails as a call beyond the interpreter's
    recursion limit does. *)

From S2P Require Import Prelude Hashing Base64 PyVal Sorting Json Crypto Wire Ratchet AuditClient Utils Session.
From S2P Require Import Pqxdh CacheStore Transcript Identity DrStore IdentityAudit MlsBridge Mls Messages Cleanup.
From S2P Require Import WebSocket ChatPage ChatView Files App AppIdentity AppMembers.

Definition too_deep : exc := RuntimeError "maximum recursion depth exceeded".

(** The prefix of a placeholder, as the file has it. *)
Definition lock_prefix : string := fold_right (fun z s => String (chr8 z) s) "" [91; 195; 176; 197; 184; 226; 128; 157; 194; 144].
(** Is a body a text of its own, which the cache may keep? *)
Definition is_plain_body (b : pyval) : res bool :=
  match b with
  | PStr s => Ok (negb (String.eqb s "[message sent]") && negb (starts_with lock_prefix s)
                  && negb (starts_with "[Cannot" s) && negb (starts_with "[Encrypted" s))
  | _ => Err AttributeError
  end.

Section messages.
Context `{P : Prims, O : Os, E : Env}.
Variable oqs : option (option (list string)).

Definition security_warning (conv_id : Z) (warnings : list string) : am unit :=
  on_view (show_security_warning conv_id warnings).
Definition _cache_message (conv_id mid sender : Z) (plain : pyval) (t : string) : am unit :=
  on_crypto (cache_message conv_id mid sender plain (PStr t)).

(** ** The peer of a direct conversation, and its session *)

Fixpoint dm_peer_in (conv_id : Z) (l : list dict) : res Z :=
  match l with
  | [] => Ok 0
  | c :: l =>
      let! cid := conv_id_of c in
      if cid =? conv_id then
        let! peer := listed_peer ["with_user_id"; "user_id"; "other_id"] c in
        if 0 <? peer then Ok peer else dm_peer_in conv_id l
      else dm_peer_in conv_id l
  end.
Definition _peer_uid_for_dm_conv (conv_id : Z) : am Z :=
  do! a := st_get in
  let peer := default 0 (conv_peer_uids (crypto a) !! conv_id) in
  if 0 <? peer then st_ret peer
  else
    do! peer := st_lift (dm_peer_in conv_id (dm_convs (tl (chat a)))) in
    if 0 <? peer then
      do! _ := on_crypto (st_modify (fun s => s <| conv_peer_uids ::= <[conv_id := peer]> |>)) in st_ret peer
    else st_ret 0.

Definition pair_in (x : Z * Z) (l : list (Z * Z)) : bool :=
  existsb (fun y => (fst y =? fst x) && (snd y =? snd x)) l.

Definition _ensure_pqxdh_dm_session (conv_id : Z) : am bool :=
  do! a := st_get in
  if (conv_id <=? 0) || is_group_conv a conv_id then st_ret false
  else
    do! state := on_crypto (load_double_ratchet conv_id) in
    match state with
    | Some _ => st_ret true
    | None =>
        if publish_blocked (ks a) then st_ret false
        else
          do! peer := _peer_uid_for_dm_conv conv_id in
          if (peer <=? 0) || (peer =? my_uid_of a) then st_ret false
          else if default 0 (pending_dm (ks a) !! peer) =? conv_id then st_ret false
          else
            do! _ := on_ks (fun k => k <| pending_dm ::= <[peer := conv_id]> |>) in
            do! _ := (if kem_ready (ks a) && negb (bundle_uploading (ks a)) then
                        request [("type", PStr "get_pqxdh_bundle"); ("user_id", PInt peer)]
                      else
                        on_ks (fun k => k <| kem_queue ::= fun q =>
                          if pair_in (conv_id, peer) q then q else q ++ [(conv_id, peer)] |>)) in
            st_ret false
    end.

(** ** Sending *)

Definition publish_blocked_text : string := "This VNC cannot publish a matching SecChat key bundle for this account yet. Restore an E2EE backup on this VNC or rotate the safety key deliberately before starting a new encrypted DM segment.".

(** [None] when it cannot be encrypted yet; the user is told. *)
Definition _encrypt_for_conv (conv_id : Z) (text : string) : am (option string) :=
  st_catch (
    do! a := st_get in
    if negb (is_group_conv a conv_id) && publish_blocked (ks a) then st_fail (CryptoStateError publish_blocked_text)
    else do! payload := on_crypto (encrypt_for_conv conv_id (PStr text)) in st_ret (Some payload))
  (fun e =>
    match e with
    | CryptoStateError detail =>
        do! a := st_get in
        do! detail := (if is_group_conv a conv_id then st_ret (or_default detail "Group epoch state is not initialized yet.")
                       else
                         do! _ := _ensure_pqxdh_dm_session conv_id in
                         st_ret (or_default detail "DM key exchange is not complete yet.")) in
        do! _ := warn_box "Encryption not ready" (detail +:+ " Please wait a moment and try again.") in
        st_ret None
    | e => st_fail e
    end).

Definition push {A} (conv_id : Z) (x : A) (q : gmap Z (list A)) : gmap Z (list A) := <[conv_id := default [] (q !! conv_id) ++ [x]]> q.
(** [deque.pop()] and [deque.popleft()], nothing on an empty or missing queue. *)
Definition drop_newest {A} (conv_id : Z) (q : gmap Z (list A)) : gmap Z (list A) := alter (fun l => removelast l) conv_id q.
Definition drop_oldest {A} (conv_id : Z) (q : gmap Z (list A)) : gmap Z (list A) := alter (fun l => List.tl l) conv_id q.
Definition oldest {A} (d : A) (conv_id : Z) (q : gmap Z (list A)) : A := hd d (default [] (q !! conv_id)).

Definition not_ready_reason : string := "Encryption is not ready yet. Retry after the key exchange finishes.".
Definition no_connection_reason : string := "Connection is not available. Retry after reconnecting.".

Definition message_request (conv_id : Z) (payload : string) (reply_to : Z) : dict :=
  [("type", PStr "message"); ("conversation_id", PInt conv_id); ("body", PStr payload)]
  ++ if 0 <? reply_to then [("reply_to_message_id", PInt reply_to)] else [].

(** Await the echo of a text, shown by the bubble [pending_id]. *)
Definition await_echo (conv_id : Z) (text : string) (pending_id : Z) : am unit :=
  on_qs (fun q => q <| self_texts ::= push conv_id text |> <| self_ids ::= push conv_id pending_id |>).
Definition give_up_echo (conv_id : Z) : am unit :=
  on_qs (fun q => q <| self_texts ::= drop_newest conv_id |> <| self_ids ::= drop_newest conv_id |>).

Definition _require_identity_review_before_send (conv_id : Z) : am bool :=
  do! _ := _refresh_security_ui conv_id in st_ret true.

Definition _send_message (conv_id : Z) (text : string) (reply_to : Z) : am unit :=
  do! reviewed := _require_identity_review_before_send conv_id in
  if negb reviewed then on_timeline (show_send_failed conv_id text "This conversation is not verified yet." "")
  else
    do! o := _encrypt_for_conv conv_id text in
    match o with
    | None | Some EmptyString => on_timeline (show_send_failed conv_id text not_ready_reason "")
    | Some payload =>
        do! pending_id := on_timeline (show_send_pending conv_id text "" reply_to) in
        do! a := st_get in
        do! _ := on_crypto (cache_outgoing_wire conv_id payload (my_uid_of a) (PStr text) (PStr "")) in
        do! _ := await_echo conv_id text pending_id in
        do! ok := _safe_send (message_request conv_id payload reply_to) in
        if ok : bool then st_ret tt
        else
          do! _ := on_timeline (remove_pending_send conv_id "" pending_id) in
          do! _ := give_up_echo conv_id in
          on_timeline (show_send_failed conv_id text no_connection_reason "")
    end.
Definition _send_reply_message (conv_id reply_to : Z) (text : string) : am unit := _send_message conv_id text reply_to.

(** The edit of a message is a message of its own: its echo is awaited too. *)
Definition _edit_message (conv_id mid : Z) (text : string) : am unit :=
  do! o := _encrypt_for_conv conv_id text in
  match o with
  | None | Some EmptyString => st_ret tt
  | Some payload =>
      do! _ := on_qs (fun q => q <| self_texts ::= push conv_id text |>) in
      request [("type", PStr "edit_message"); ("message_id", PInt mid); ("new_body", PStr payload)]
  end.
Definition _delete_message (mid : Z) : am unit := request [("type", PStr "delete_message"); ("message_id", PInt mid)].

(** A file is the text of a message; what goes wrong is shown in a box. *)
Definition _send_file (conv_id : Z) (file_path : string) : am unit :=
  do! reviewed := _require_identity_review_before_send conv_id in
  if negb reviewed then
    on_timeline (show_send_failed conv_id (if nonempty file_path then Backup.basename file_path else "file")
      "This conversation is not verified yet." file_path)
  else st_catch (
    let file_path := abspath env_cwd file_path in
    do! sz := st_lift (env_file_size file_path) in
    if MAX_FILE_SIZE <? sz then
      warn_box "Error" ("File too large (" +:+ fixed1 sz 1024 +:+ " KB). Max " +:+ dec (MAX_FILE_SIZE / 1024) +:+ " KB.")
    else if sz =? 0 then warn_box "Error" "File is empty."
    else
      do! raw := st_lift (env_file_read file_path) in
      let text := file_body (Backup.basename file_path) sz raw in
      do! o := _encrypt_for_conv conv_id text in
      match o with
      | None | Some EmptyString => on_timeline (show_send_failed conv_id text not_ready_reason file_path)
      | Some payload =>
          do! pending_id := on_timeline (show_send_pending conv_id text file_path 0) in
          do! _ := await_echo conv_id text pending_id in
          do! ok := _safe_send (message_request conv_id payload 0) in
          if ok : bool then st_ret tt
          else
            do! _ := on_timeline (remove_pending_send conv_id "" pending_id) in
            do! _ := give_up_echo conv_id in
            on_timeline (show_send_failed conv_id text no_connection_reason file_path)
      end)
  (fun e => warn_box "Error" ("Cannot send file:" +:+ nl +:+ exc_text e)).

Definition _get_history (conv_id : Z) : am unit :=
  do! a := st_get in
  if is_group_conv a conv_id then
    do! _ := ask_conv "get_mls_handshake" "conversation_id" conv_id in
    do! _ := ask_conv "history" "conversation_id" conv_id in
    do! _ := show_fp "" false in
    _refresh_security_ui conv_id
  else
    do! _ := ask_conv "history" "conversation_id" conv_id in
    do! _ := _ensure_pqxdh_dm_session conv_id in
    do! fp := _safety_fingerprint_for_conv conv_id in
    do! verified := on_crypto (load_verified conv_id) in
    do! _ := show_fp fp verified in
    _refresh_security_ui conv_id.

(** ** What the user asks for on the page *)

Definition group_commands : list string := ["remove_member"; "set_member_role"; "update_group_info"; "leave_group"].
Definition inbox_commands : list string :=
  ["mute_conversation"; "archive_conversation"; "pin_conversation"; "mark_unread"; "mark_read"; "set_disappearing"].

Definition intent_of (me group_id : Z) (op : string) (obj : dict) : res intent :=
  let! target := get_int0 "user_id" obj in
  Ok (Intent op group_id (if String.eqb op "leave_group" then me else target)
        (get_str0 "role" obj) (get_str0 "name" obj) (get_str0 "description" obj) []).

Definition prepare_request (i : intent) : dict :=
  [("type", PStr "prepare_group_change"); ("operation", PStr (i_operation i)); ("conversation_id", PInt (i_conv i))]
  ++ (if 0 <? i_target i then [("user_id", PInt (i_target i))] else [])
  ++ (if nonempty (i_role i) then [("role", PStr (i_role i))] else [])
  ++ (if String.eqb (i_operation i) "update_group_info"
      then [("name", PStr (i_name i)); ("description", PStr (i_description i))] else []).

Definition _handle_ui_command (obj : dict) : am bool :=
  let typ := py_str (dget "type" (PStr "") obj) in
  do! group_id := st_lift (py_int (py_or (dget "group_id" (dget "conversation_id" (PInt 0) obj) obj) (PInt 0))) in
  do! _ := (if (0 <? group_id) && String.eqb typ "get_group_info"
            then on_gs (fun g => g <| manual_info ::= union {[group_id]} |>) else st_ret tt) in
  if (0 <? group_id) && mem typ group_commands then
    do! a := st_get in
    do! i := st_lift (intent_of (my_uid_of a) group_id typ obj) in
    do! _ := on_gs (fun g => g <| prepare ::= fun l => l ++ [i] |>) in
    _safe_send (prepare_request i)
  else
    do! ok := _safe_send obj in
    do! _ := (if ok && mem typ inbox_commands then refresh_inbox else st_ret tt) in
    st_ret ok.

(** The verification dialog is left out. *)
Definition dispatch (x : signal) : am unit :=
  match x with
  | SigCommand obj => do! _ := _handle_ui_command obj in st_ret tt
  | SigHistory conv_id => _get_history conv_id
  | SigSend conv_id text => _send_message conv_id text 0
  | SigSendReply conv_id reply_to text => _send_reply_message conv_id reply_to text
  | SigEditMessage conv_id mid text => _edit_message conv_id mid text
  | SigGetRequests => ask "get_requests"
  | SigSendFile conv_id path => _send_file conv_id path
  | SigVerifyIdentity _ => st_ret tt
  end.

(** The signals the page has emitted, the first first. *)
Definition run_signals : am unit :=
  do! a := st_get in
  do! _ := on_timeline (st_modify (fun p => p <| signals := [] |>)) in
  st_for (rev (signals (tl (chat a)))) dispatch.
Definition with_signals {A} (m : vm A) : am A :=
  do! x := on_view m in do! _ := run_signals in st_ret x.
Definition timeline_signals {A} (m : pm A) : am A := with_signals (on_page m).

(** ** Checkpoints of a group *)

Definition checkpoint_gap : Z := 5 * 1000000000.

(** The clock is in nanoseconds. *)
Definition _maybe_send_transcript_checkpoint (conv_id : Z) (force : bool) : am unit :=
  do! a := st_get in
  if (conv_id <=? 0) || negb (is_group_conv a conv_id) then st_ret tt
  else if negb (nonempty (identity_sk (crypto a))) || negb (nonempty (identity_pk (crypto a))) then st_ret tt
  else
    let now := env_monotonic (n_monotonic (cn a)) in
    do! _ := on_cn (fun c => c <| n_monotonic ::= S |>) in
    if negb force && (now - default 0 (checkpoint_sent (qs a) !! conv_id) <? checkpoint_gap) then st_ret tt
    else
      do! wire := st_catch (on_crypto (create_transcript_checkpoint conv_id)) (fun _ => st_ret "") in
      if negb (nonempty wire) then st_ret tt
      else
        do! ok := _safe_send [("type", PStr "message"); ("conversation_id", PInt conv_id); ("body", PStr wire)] in
        if ok : bool then on_qs (fun q => q <| checkpoint_sent ::= <[conv_id := now]> |>) else st_ret tt.

(** ** A message from the server *)

Fixpoint evict (n : nat) (s : gset Z) : gset Z :=
  match n with
  | 0%nat => s
  | S n => if 9000 <? Z.of_nat (size s) then evict n (s ∖ {[env_pop s]}) else s
  end.
Definition add_seen (mid : Z) (s : gset Z) : gset Z :=
  let s := {[mid]} ∪ s in if 10000 <? Z.of_nat (size s) then evict (size s) s else s.
Definition seen_ids (q : queues) (conv_id : Z) : gset Z := default ∅ (seen_msg_ids q !! conv_id).
Definition mark_seen (conv_id mid : Z) : am unit :=
  if mid =? 0 then st_ret tt
  else on_qs (fun q => q <| seen_msg_ids ::= fun m => <[conv_id := add_seen mid (default ∅ (m !! conv_id))]> m |>).

Definition learn_peer (conv_id : Z) (result : dict) : am unit :=
  do! _ := (if truthy (dget "peer_uid" PNone result) then
              do! peer := st_lift (get_int0 "peer_uid" result) in
              on_crypto (st_modify (fun s => s <| conv_peer_uids ::= <[conv_id := peer]> |>))
            else st_ret tt) in
  if truthy (dget "peer_identity_pk" PNone result) then _record_incoming_pq_identity conv_id result else st_ret tt.

(** A control has established a session. *)
Definition learn_fingerprint (conv_id : Z) (fp : string) : am unit :=
  if negb (nonempty fp) then st_ret tt
  else
    do! _ := set_fp conv_id fp in
    do! a := st_get in
    do! _ := (if conv_id =? active_conv (chat a) then
                do! shown := _safety_fingerprint_for_conv conv_id in
                show_fp (or_default shown fp) (is_verified a conv_id)
              else st_ret tt) in
    st_catch (_refresh_security_ui conv_id) (fun _ => st_ret tt).

(** A message is kept for later once, when it has an identifier. *)
Definition is_waiting (mid : Z) (l : list dict) : res bool :=
  res_fold (fun b m => if b : bool then Ok true else
    let! i := get_int0 "id" m in Ok ((i =? mid) && (0 <? mid))) false l.
Definition append_pending (m : dict) : am unit :=
  on_qs (fun q => q <| pending_lists ::= fun ls => alter (fun l => l ++ [m]) (pending_ref q) ls |>).
Definition keep_pending (mid : Z) (m : dict) : am unit :=
  do! a := st_get in
  do! waiting := st_lift (is_waiting mid (pending_messages (qs a))) in
  if waiting : bool then st_ret tt else append_pending m.

(** The text of one's own message comes from the queue, not from the echo. *)
Definition take_echo (conv_id : Z) : am string :=
  do! a := st_get in
  let text := oldest "[message sent]" conv_id (self_texts (qs a)) in
  let pending_id := oldest 0 conv_id (self_ids (qs a)) in
  do! _ := on_qs (fun q => q <| self_texts ::= drop_oldest conv_id |> <| self_ids ::= drop_oldest conv_id |>) in
  do! _ := on_timeline (remove_pending_send conv_id text pending_id) in
  st_ret text.

Definition record_message (conv_id mid sender : Z) (b : pyval) (t : string) (edit : Z) (raw : dict) : am unit :=
  if 0 <? mid then
    on_crypto (record_transcript_message conv_id mid sender b (dget "time" (PStr t) raw) edit
      (truthy (dget "deleted" (PBool false) raw)))
  else st_ret tt.

Definition _handle_decrypted_message (raw : dict) (conv_id sender : Z) (b : pyval) (t : string) (mid : Z) : am unit :=
  do! b := st_lift (unpack_plaintext b) in
  do! target := st_lift (get_int0 "edit_target_message_id" raw) in
  do! plain := st_lift (is_plain_body b) in
  if 0 <? target then
    do! updated := on_timeline (apply_edit_event conv_id (EditEvent target b sender t)) in
    do! _ := record_message conv_id mid sender b t target raw in
    do! _ := (if plain : bool then
                do! _ := _cache_message conv_id mid sender b t in
                if updated : bool then _cache_message conv_id target sender b t else st_ret tt
              else st_ret tt) in
    _maybe_send_transcript_checkpoint conv_id false
  else
    do! forwarded := st_lift (get_int0 "forwarded_from_id" raw) in
    do! reply_to := st_lift (get_int0 "reply_to_message_id" raw) in
    do! _ := timeline_signals (add_msg conv_id sender b t mid (truthy (dget "pinned" (PBool false) raw))
               (dget "reactions" (PList []) raw) forwarded reply_to) in
    do! _ := record_message conv_id mid sender b t 0 raw in
    do! _ := (if plain : bool then _cache_message conv_id mid sender b t else st_ret tt) in
    _maybe_send_transcript_checkpoint conv_id false.

Definition handle_control (flush : Z -> am unit) (conv_id : Z) (result : dict) : am unit :=
  do! warnings := on_crypto (pop_control_warnings conv_id) in
  do! _ := match warnings with [] => st_ret tt | _ => security_warning conv_id warnings end in
  do! _ := learn_peer conv_id result in
  do! _ := learn_fingerprint conv_id (get_str0 "fingerprint" result) in
  if truthy (dget "ready" PNone result) then do! _ := flush conv_id in refresh_inbox else st_ret tt.

Definition handle_text (msg : dict) (conv_id sender mid : Z) (result : dict) : am unit :=
  do! _ := learn_peer conv_id result in
  let echo := py_eqb (dget "status" PNone result) (PStr "self_echo") in
  do! b := (if echo then do! text := take_echo conv_id in st_ret (PStr text)
            else st_ret (dget "body" (dget "body" (PStr "") msg) result)) in
  do! t := st_lift (ChatPage.ts_short_v (dget "time" (PStr "") msg)) in
  do! _ := _handle_decrypted_message msg conv_id sender b t mid in
  do! _ := (if echo then st_ret tt else ask "get_friends") in
  refresh_inbox.

Definition handle_with (flush : Z -> am unit) (msg : dict) : am unit :=
  do! conv_id := st_lift (get_int0 "conversation_id" msg) in
  do! sender := st_lift (py_int (py_or (dget "from_id" (PInt 0) msg) (py_or (dget "sender_id" (PInt 0) msg) (PInt 0)))) in
  do! mid := st_lift (get_int0 "id" msg) in
  do! a := st_get in
  if negb (mid =? 0) && bool_decide (mid ∈ seen_ids (qs a) conv_id) then st_ret tt
  else
    do! result := on_crypto (decrypt_live_message oqs msg) in
    let status := get_str0 "status" result in
    if String.eqb status "pending" then keep_pending mid msg
    else
      do! _ := mark_seen conv_id mid in
      if String.eqb status "hidden" then refresh_inbox
      else if String.eqb status "control" then handle_control flush conv_id result
      else handle_text msg conv_id sender mid result.

(** [for m in self._pending_messages]: the list [r], as it is at each step. *)
Fixpoint flush_loop (handle : dict -> am unit) (n : nat) (r : nat) (conv_id : Z) (i : nat) (remaining : list dict) :
    am (list dict) :=
  match n with
  | 0%nat => st_fail too_deep
  | S n =>
      do! a := st_get in
      match pending_list (qs a) r !! i with
      | None => st_ret remaining
      | Some m =>
          do! cid := st_lift (py_int (dget "conversation_id" (PInt 0) m)) in
          if cid =? conv_id then do! _ := handle m in flush_loop handle n r conv_id (S i) remaining
          else flush_loop handle n r conv_id (S i) (remaining ++ [m])
      end
  end.
Definition flush_with (handle : dict -> am unit) (n : nat) (conv_id : Z) : am unit :=
  do! a := st_get in
  do! remaining := flush_loop handle n (pending_ref (qs a)) conv_id 0 [] in
  on_qs (fun q => q <| pending_lists ::= fun ls => ls ++ [remaining] |> <| pending_ref := length (pending_lists q) |>).

Fixpoint _handle_message (fuel : nat) (msg : dict) : am unit :=
  match fuel with
  | 0%nat => st_fail too_deep
  | S n => handle_with (flush_with (_handle_message n) n) msg
  end.
Definition _flush_pending (fuel : nat) (conv_id : Z) : am unit := flush_with (_handle_message fuel) fuel conv_id.

(** ** A history *)

Definition cacheable (v : pyval) : res bool :=
  if negb (truthy v) || py_eqb v (PStr "[Forward-secret]") then Ok false
  else match v with PStr s => Ok (negb (starts_with "[Cannot" s) && negb (starts_with "[Encrypted" s)) | _ => Err AttributeError end.

Definition note_row (conv_id : Z) (m : dict) : am unit :=
  do! mid := st_lift (get_int0 "id" m) in
  do! _ := mark_seen conv_id mid in
  do! target := st_lift (get_int0 "edit_target_message_id" m) in
  let plain := dget "body" (PStr "") m in
  do! ok := st_lift (if target =? 0 then Ok false else cacheable plain) in
  if ok : bool then
    do! sender := st_lift (get_int0 "sender_id" m) in
    do! t := st_lift (ChatPage.ts_short_v (dget "time" (PStr "") m)) in
    _cache_message conv_id target sender plain t
  else st_ret tt.

Definition warn_if (conv_id : Z) (warnings : list string) : am unit :=
  match warnings with [] => st_ret tt | _ => security_warning conv_id warnings end.

Definition _handle_history (msg : dict) : am unit :=
  do! conv_id := st_lift (get_int0 "conversation_id" msg) in
  do! rows := st_lift (let! l := py_iter (dget "messages" (PList []) msg) in res_map as_dict l) in
  do! rows := on_crypto (decrypt_history_messages oqs conv_id rows) in
  do! control := on_crypto (pop_control_warnings conv_id) in
  do! _ := warn_if conv_id control in
  do! warnings := on_crypto (verify_history_consistency conv_id (map PDict rows)) in
  do! _ := warn_if conv_id warnings in
  do! _ := st_for rows (note_row conv_id) in
  do! events := st_lift (py_iter (py_or (dget "system_events" (PList []) msg) (PList []))) in
  do! events := _prepare_group_system_events_for_history conv_id events in
  do! _ := with_signals (show_history conv_id (map PDict rows) events) in
  do! a := st_get in
  do! _ := (if conv_id =? active_conv (chat a) then
              do! _ := (if is_group_conv a conv_id then show_fp "" false
                        else
                          do! fp := _safety_fingerprint_for_conv conv_id in
                          do! verified := on_crypto (load_verified conv_id) in
                          show_fp fp verified) in
              _refresh_security_ui conv_id
            else st_ret tt) in
  do! _ := _maybe_send_transcript_checkpoint conv_id true in
  refresh_inbox.

(** ** Changes the server announces *)

Definition plain_int (k : string) (msg : dict) : res Z := py_int (dget k (PInt 0) msg).

(** The body of an edit is taken from the server as it is. *)
Definition _handle_message_edited (msg : dict) : am unit :=
  do! conv_id := st_lift (plain_int "conversation_id" msg) in
  do! mid := st_lift (plain_int "id" msg) in
  let b := dget "new_body" (PStr "") msg in
  do! _ := on_timeline (update_message conv_id mid b true false) in
  do! a := st_get in
  let updated := _find_message (tl (chat a)) conv_id mid in
  do! _ := match b with
           | PStr s =>
               if starts_with "[Cannot" s then st_ret tt
               else
                 do! sender := st_lift (get_int0 "from_id" msg) in
                 let sender := if sender =? 0 then match updated with Some m => sender_id m | None => 0 end else sender in
                 do! t := st_lift (ChatPage.ts_short_v (dget "time" (PStr "") msg)) in
                 let t := or_default t (match updated with Some m => ts m | None => "" end) in
                 _cache_message conv_id mid sender b t
           | _ => st_fail AttributeError
           end in
  refresh_inbox.

Definition _handle_message_deleted (msg : dict) : am unit :=
  do! conv_id := st_lift (plain_int "conversation_id" msg) in
  do! mid := st_lift (plain_int "id" msg) in
  do! _ := on_timeline (update_message conv_id mid (PStr "") false true) in
  refresh_inbox.

Definition _cleanup_conv_state (conv_id : Z) : am unit :=
  do! _ := on_qs (fun q => q <| seen_msg_ids ::= delete conv_id |>) in
  on_crypto (cleanup_conversation_state conv_id).

Definition _handle_group_disbanded (msg : dict) : am unit :=
  do! conv_id := st_lift (plain_int "conversation_id" msg) in
  do! _ := on_view (mark_group_disbanded conv_id) in
  do! _ := _cleanup_conv_state conv_id in
  refresh_inbox.

Definition handle_pin (b : bool) (msg : dict) : am unit :=
  do! conv_id := st_lift (get_int0 "conversation_id" msg) in
  do! mid := st_lift (get_int0 "message_id" msg) in
  do! _ := (if negb (conv_id =? 0) && negb (mid =? 0) then on_timeline (set_message_pinned conv_id mid b) else st_ret tt) in
  refresh_inbox.
Definition _handle_message_pinned : dict -> am unit := handle_pin true.
Definition _handle_message_unpinned : dict -> am unit := handle_pin false.

Definition handle_reaction (added : bool) (msg : dict) : am unit :=
  do! conv_id := st_lift (get_int0 "conversation_id" msg) in
  do! mid := st_lift (get_int0 "message_id" msg) in
  do! uid := st_lift (get_int0 "user_id" msg) in
  on_timeline (update_reaction conv_id mid (py_str (dget "emoji" (PStr "") msg)) uid added).
Definition _handle_reaction_added : dict -> am unit := handle_reaction true.
Definition _handle_reaction_removed : dict -> am unit := handle_reaction false.

Definition handle_typing (on : bool) (msg : dict) : am unit :=
  do! conv_id := st_lift (get_int0 "conversation_id" msg) in
  do! uid := st_lift (get_int0 "from_id" msg) in
  on_view (set_typing conv_id uid (get_str0 "from" msg) on).
Definition _handle_typing_start : dict -> am unit := handle_typing true.
Definition _handle_typing_stop : dict -> am unit := handle_typing false.

Definition _handle_presence : am unit := do! _ := ask "get_friends" in ask "get_inbox".
Definition _handle_friends_list (msg : dict) : am unit :=
  do! l := st_lift (let! l := py_iter (dget "friends" (PList []) msg) in res_map as_dict l) in
  on_view (update_friends l).
Definition _handle_friend_request_received : am unit :=
  do! _ := ask "get_requests" in on_view notify_friend_request.

(** ** The local cache *)

Definition invalidate_all (keys : list Z) : pm unit := st_for keys (fun c => invalidate_history c false).
Definition _clear_local_message_cache : am unit :=
  do! removed := on_crypto (clear_message_cache None) in
  do! a := st_get in
  do! _ := on_timeline (invalidate_all (map fst (map_to_list (hist (tl (chat a)))))) in
  warn_box "Local Cache" ("Cleared " +:+ dec removed +:+ " local message cache file(s).").
Definition _clear_conversation_message_cache (conv_id : Z) : am unit :=
  do! removed := on_crypto (clear_message_cache (Some conv_id)) in
  do! _ := (if conv_id =? 0 then st_ret tt else on_timeline (invalidate_history conv_id false)) in
  warn_box "Local Cache" (if removed =? 0 then "No local message cache was stored for this conversation."
                          else "Cleared this conversation's local message cache.").
Definition _update_conversation_cache_policy (conv_id : Z) (enabled : bool) : am unit :=
  do! saved := on_crypto (set_conversation_cache_enabled conv_id enabled) in
  do! _ := on_view (ChatView.set_cache_policy saved) in
  do! _ := (if conv_id =? 0 then st_ret tt else on_timeline (invalidate_history conv_id false)) in
  refresh_inbox.
End messages.
