(* ===== verification/AppGroups.v ===== *)
(** * The application: changes of groups (client/app.py)

    A change of a group goes through the server: the application asks for it
    ([prepare]), the server prepares an operation, the application collects the key
    packages it needs ([claims]) and makes the MLS commit ([ops]), and the server
    applies it. The operation is a dictionary that the replies of the MLS process
    are merged into; its intent and its key packages are fields of their own, which
    no reply has. *)

From S2P Require Import Prelude Hashing Base64 PyVal Sorting Json Crypto Wire Ratchet AuditClient Utils Session.
From S2P Require Import Pqxdh CacheStore Transcript Identity DrStore IdentityAudit MlsBridge Mls Messages Cleanup.
From S2P Require Import WebSocket ChatPage ChatView App AppIdentity AppMembers AppMessages.

Definition _mls_group_id_b64 (conv_id : Z) : string := b64e ("secchat-group:" +:+ dec conv_id).

Definition add_group (conv_id : Z) : am unit :=
  on_crypto (st_modify (fun s => s <| group_conv_ids ::= union {[conv_id]} |>)).
Definition put_op (id : string) (o : group_op) : am unit := on_gs (fun g => g <| ops ::= <[id := o]> |>).
Definition drop_op (id : string) : am unit := on_gs (fun g => g <| ops ::= delete id |>).

(** ** Asking *)

(** Is [i] an intent that an operation may answer? An identifier that is 0 matches all. *)
Definition answers (operation : string) (conv_id target : Z) (i : intent) : bool :=
  String.eqb (i_operation i) operation
  && negb (negb (conv_id =? 0) && negb (i_conv i =? 0) && negb (i_conv i =? conv_id))
  && negb (negb (target =? 0) && negb (i_target i =? 0) && negb (i_target i =? target)).

(** The first element that satisfies [f], and the others. *)
Fixpoint take_first {A} (f : A -> bool) (l : list A) : option (A * list A) :=
  match l with
  | [] => None
  | x :: l => if f x then Some (x, l) else option_map (fun y => (fst y, x :: snd y)) (take_first f l)
  end.

Definition _pop_pending_mls_prepare (operation : string) (conv_id target : Z) : am intent :=
  do! a := st_get in
  match take_first (answers operation conv_id target) (prepare (gs a)) with
  | Some (i, rest) => do! _ := on_gs (fun g => g <| prepare := rest |>) in st_ret i
  | None => st_ret (Intent operation conv_id target "" "" "" [])
  end.

Section groups.
Context `{P : Prims, O : Os, E : Env}.
Variable oqs : option (option (list string)).

Definition _create_group (name : string) (members : list Z) : am unit :=
  do! _ := on_gs (fun g => g <| create_members ::= <[name := members]> |>
    <| prepare ::= fun l => l ++ [Intent "create_group" 0 0 "" name "" members] |>) in
  request [("type", PStr "prepare_group_change"); ("operation", PStr "create_group"); ("name", PStr name);
           ("members", PList (map PInt members))].

Definition _add_to_group (group_id uid : Z) : am unit :=
  do! _ := on_gs (fun g => g <| prepare ::= fun l => l ++ [Intent "add_member" group_id uid "" "" "" []] |>) in
  request [("type", PStr "prepare_group_change"); ("operation", PStr "add_member"); ("conversation_id", PInt group_id);
           ("user_id", PInt uid)].

(** ** Applying *)

Definition _queue_mls_claim (operation_id : string) (uid : Z) : am unit :=
  if uid <=? 0 then st_ret tt
  else
    do! _ := on_gs (fun g => g <| claims ::= push uid operation_id |>) in
    request [("type", PStr "claim_mls_key_package"); ("user_id", PInt uid)].

Definition copied_keys : list string := ["commit_b64"; "group_info_b64"; "ratchet_tree_b64"; "control_b64"].
Definition copied (ctx : dict) : dict :=
  omap (fun k => let v := dget k PNone ctx in if truthy v then Some (k, v) else None) copied_keys.

Definition apply_request (a : app) (operation_id : string) (conv_id : Z) (ctx : dict) : res dict :=
  let! epoch := py_int (py_or (dget "epoch" (PInt (default 0 (group_epochs (crypto a) !! conv_id))) ctx) (PInt 0)) in
  let base := [("type", PStr "apply_group_change"); ("operation_id", PStr operation_id);
               ("conversation_id", PInt conv_id);
               ("group_id_b64", PStr (py_str (py_or (dget "group_id_b64" (PStr "") ctx) (PStr (_mls_group_id_b64 conv_id)))));
               ("epoch", PInt epoch)] in
  let welcomes := dget "welcomes" PNone ctx in
  Ok (base ++ copied ctx ++ if truthy welcomes then [("welcomes", welcomes)] else []).

Definition _apply_mls_group_op (ctx : dict) : am unit :=
  let operation_id := get_str0 "operation_id" ctx in
  do! conv_id := st_lift (get_int0 "conversation_id" ctx) in
  if negb (nonempty operation_id) || (conv_id <=? 0) then st_ret tt
  else
    do! a := st_get in
    do! payload := st_lift (apply_request a operation_id conv_id ctx) in
    request payload.

(** The targets of an operation that are identifiers. *)
Definition positive (l : list Z) : list Z := List.filter (fun x => 0 <? x) l.
Definition targets_of (ctx : dict) : res (list Z) :=
  let! l := py_iter (dget "targets" (PList []) ctx) in
  let! l := res_map py_int l in
  Ok (positive l).

Definition welcome_rows (targets : list Z) (welcome : string) : pyval :=
  PList (map (fun uid => PDict [("target_user_id", PInt uid); ("welcome_b64", PStr welcome)]) targets).

(** All key packages are there: the commit that adds the members. *)
Definition add_members_of (id : string) (o : group_op) (conv_id : Z) (targets : list Z) : am unit :=
  do! result := on_crypto (add_mls_members conv_id (map (fun uid => default "" (o_claimed o !! uid)) targets)) in
  let ctx := dupdate (o_fields o) result in
  let welcome := get_str0 "welcome_b64" result in
  let ctx := if nonempty welcome then dset "welcomes" (welcome_rows targets welcome) ctx else ctx in
  do! _ := put_op id (o <| o_fields := ctx |>) in
  _apply_mls_group_op ctx.

Definition _finalize_mls_claimed_op (id : string) (o : group_op) : am unit :=
  do! targets := st_lift (targets_of (o_fields o)) in
  if existsb (fun uid => negb (bool_decide (is_Some (o_claimed o !! uid)))) targets then st_ret tt
  else
    do! conv_id := st_lift (get_int0 "conversation_id" (o_fields o)) in
    st_catch (add_members_of id o conv_id targets) (fun e =>
      do! _ := drop_op (py_str (dget "operation_id" (PStr "") (o_fields o))) in
      security_warning conv_id ["MLS add-member failed: " +:+ exc_text e]).

Definition no_package_text (uid : Z) : string :=
  "User " +:+ dec uid +:+ " has no available MLS KeyPackage. Ask them to log in once.".

(** The claim that has waited longest gets the package. *)
Definition _handle_mls_key_package (msg : dict) : am unit :=
  do! uid := st_lift (get_int0 "user_id" msg) in
  do! a := st_get in
  match default [] (claims (gs a) !! uid) with
  | [] => st_ret tt
  | operation_id :: rest =>
      do! _ := on_gs (fun g => g <| claims ::= match rest with [] => delete uid | _ => insert uid rest end |>) in
      match ops (gs a) !! operation_id with
      | None => st_ret tt
      | Some o =>
          if negb (truthy (dget "found" PNone msg)) then
            do! _ := drop_op operation_id in
            do! conv_id := st_lift (get_int0 "conversation_id" (o_fields o)) in
            security_warning conv_id [no_package_text uid]
          else
            let o := o <| o_claimed ::= <[uid := get_str0 "key_package_b64" msg]> |> in
            do! _ := put_op operation_id o in
            _finalize_mls_claimed_op operation_id o
      end
  end.

(** ** The server has prepared an operation *)

Definition new_op (operation_id operation : string) (conv_id target : Z) (i : intent) : group_op :=
  GroupOp [("operation_id", PStr operation_id); ("operation", PStr operation); ("conversation_id", PInt conv_id);
           ("target_user_id", PInt target); ("targets", PList []); ("group_id_b64", PStr (_mls_group_id_b64 conv_id))] i ∅.

Definition with_targets (l : list Z) (o : group_op) : group_op := o <| o_fields ::= dset "targets" (PList (map PInt l)) |>.

Definition control_of (operation : string) (conv_id target me now_ms : Z) (i : intent) (msg : dict) : dict :=
  [("operation", PStr operation); ("conversation_id", PInt conv_id); ("target_user_id", PInt target);
   ("role", PStr (or_default (i_role i) (get_str0 "role" msg))); ("name", PStr (i_name i));
   ("description", PStr (i_description i)); ("actor_uid", PInt me); ("ts", PInt now_ms)].

Definition prepared_create (id : string) (conv_id : Z) (i : intent) (o : group_op) : am unit :=
  do! created := on_crypto (create_mls_group conv_id) in
  let own := dget "group_id_b64" (PStr "") (o_fields o) in
  let group_id := py_str (py_or (dget "group_id_b64" own created) own) in
  let o := with_targets (positive (i_members i)) (o <| o_fields ::= dset "group_id_b64" (PStr group_id) |>) in
  do! _ := put_op id o in
  match positive (i_members i) with
  | [] => _apply_mls_group_op (o_fields o)
  | targets => st_for targets (_queue_mls_claim id)
  end.

Definition prepared_add (id : string) (target : Z) (i : intent) (o : group_op) : am unit :=
  let target := if target =? 0 then i_target i else target in
  do! _ := put_op id (with_targets (positive [target]) o) in
  if 0 <? target then _queue_mls_claim id target else st_ret tt.

Definition prepared_remove (id : string) (conv_id target : Z) (i : intent) (o : group_op) : am unit :=
  do! a := st_get in
  let target := if target =? 0 then if i_target i =? 0 then my_uid_of a else i_target i else target in
  do! result := on_crypto (remove_mls_members conv_id [target]) in
  let ctx := dupdate (o_fields o) result in
  do! _ := put_op id (o <| o_fields := ctx |>) in
  _apply_mls_group_op ctx.

Definition prepared_control (id operation : string) (conv_id target : Z) (i : intent) (msg : dict) (o : group_op) :
    am unit :=
  do! a := st_get in
  do! now := on_crypto now_ms in
  do! control := on_crypto (mls_control_message_b64 conv_id
    (control_of operation conv_id target (my_uid_of a) now i msg)) in
  let ctx := dset "control_b64" (PStr control) (o_fields o) in
  do! _ := put_op id (o <| o_fields := ctx |>) in
  _apply_mls_group_op ctx.

Definition _handle_group_change_prepared (msg : dict) : am unit :=
  let id := get_str0 "operation_id" msg in
  let operation := get_str0 "operation" msg in
  do! conv_id := st_lift (get_int0 "conversation_id" msg) in
  do! target := st_lift (get_int0 "target_user_id" msg) in
  if negb (nonempty id) || negb (nonempty operation) || (conv_id <=? 0) then st_ret tt
  else
    do! i := _pop_pending_mls_prepare operation conv_id target in
    let o := new_op id operation conv_id target i in
    do! _ := put_op id o in
    st_catch (
      if String.eqb operation "create_group" then prepared_create id conv_id i o
      else if String.eqb operation "add_member" then prepared_add id target i o
      else if mem operation ["remove_member"; "leave_group"] then prepared_remove id conv_id target i o
      else if mem operation ["set_member_role"; "update_group_info"] then
        prepared_control id operation conv_id target i msg o
      else st_ret tt)
    (fun e =>
      do! _ := drop_op id in
      security_warning conv_id ["MLS group operation failed before apply: " +:+ exc_text e]).

Definition ask_group (conv_id : Z) : am unit :=
  do! _ := ask_conv "get_mls_handshake" "conversation_id" conv_id in ask_conv "get_group_info" "group_id" conv_id.

Definition _handle_group_change_applied (msg : dict) : am unit :=
  let id := get_str0 "operation_id" msg in
  do! a := st_get in
  let ctx := match ops (gs a) !! id with Some o => if nonempty id then o_fields o else [] | None => [] end in
  do! _ := (if nonempty id then drop_op id else st_ret tt) in
  do! conv_id := st_lift (py_int (py_or (dget "conversation_id" (dget "conversation_id" (PInt 0) ctx) msg) (PInt 0))) in
  do! _ := (if 0 <? conv_id then do! _ := add_group conv_id in ask_group conv_id else st_ret tt) in
  ask "get_inbox".

(** ** Events *)

Definition _handle_mls_handshake (fuel : nat) (msg : dict) : am unit :=
  do! conv_id := st_lift (get_int0 "conversation_id" msg) in
  if conv_id <=? 0 then st_ret tt
  else
    do! items := st_lift (py_iter (py_or (dget "items" (PList []) msg) (PList []))) in
    do! _ := on_crypto (process_mls_handshake_items conv_id items) in
    do! _ := add_group conv_id in
    do! a := st_get in
    do! _ := (if conv_id =? active_conv (chat a) then ask_conv "history" "conversation_id" conv_id else st_ret tt) in
    _flush_pending oqs fuel conv_id.

Definition _handle_mls_key_packages_uploaded : am unit := on_gs (fun g => g <| key_packages_ready := true |>).

(** The conversation to open when the list of conversations has it. *)
Definition open_later (conv_id : Z) (is_group : bool) : am unit :=
  on_view (st_modify (fun v => v <| pending_open_conv := conv_id |> <| pending_open_is_group := is_group |>)).

Definition created_members (me : Z) (members : list Z) : list member :=
  ok_or [] (_normalize_group_members (PDict [("user_id", PInt me); ("role", PStr "admin")]
    :: map (fun uid => PDict [("user_id", PInt uid); ("role", PStr "member")]) members)).

Definition _handle_group_created (msg : dict) : am unit :=
  do! conv_id := st_lift (plain_int "conversation_id" msg) in
  let name := py_str (dget "name" (PStr "") msg) in
  do! _ := (if 0 <? conv_id then
              do! _ := add_group conv_id in
              do! a := st_get in
              let members := default [] (create_members (gs a) !! name) in
              do! _ := on_gs (fun g => g <| create_members ::= delete name |>) in
              do! _ := match members with
                       | [] => st_ret tt
                       | _ => on_gs (fun g => g <| members_cache ::= insert conv_id (created_members (my_uid_of a) members) |>)
                       end in
              do! _ := open_later conv_id true in
              ask_conv "get_mls_handshake" "conversation_id" conv_id
            else st_ret tt) in
  ask "get_inbox".

Definition expect_change (group_id : Z) : am unit := on_gs (fun g => g <| expected_change ::= union {[group_id]} |>).
Definition operation_of (msg : dict) : string := get_str0 "operation_id" msg.

Definition _handle_added_to_group (msg : dict) : am unit :=
  do! conv_id := st_lift (plain_int "conversation_id" msg) in
  do! _ := add_group conv_id in
  do! _ := (if 0 <? conv_id then
              let by_name := py_str (py_or (dget "by_username" (PStr "") msg) (py_or (dget "by" (PStr "") msg) (PStr "Someone"))) in
              do! a := st_get in
              do! _ := show_line conv_id (by_name +:+ " added you to the group.")
                (_membership_event_key "member_added" (my_uid_of a) "" (operation_of msg)) msg in
              do! _ := expect_change conv_id in
              do! _ := keep_members conv_id msg PNone in
              ask_group conv_id
            else st_ret tt) in
  ask "get_inbox".

Definition _handle_member_added (msg : dict) : am unit :=
  do! group_id := st_lift (plain_int "group_id" msg) in
  do! new_uid := st_lift (plain_int "user_id" msg) in
  if group_id <=? 0 then st_ret tt
  else
    do! _ := expect_change group_id in
    do! _ := add_group group_id in
    do! _ := keep_members group_id msg (py_or (dget "member_ids" (PList []) msg) (PList [PInt new_uid])) in
    do! a := st_get in
    do! name := st_lift (_display_name_for_user a group_id new_uid msg "username") in
    do! _ := (if (0 <? new_uid) && negb (new_uid =? my_uid_of a) then
                show_line group_id (name +:+ " joined the group.")
                  (_membership_event_key "member_added" new_uid "" (operation_of msg)) msg
              else st_ret tt) in
    do! _ := ask_group group_id in
    ask "get_inbox".

Definition removed_text (me target by_uid : Z) (operation name : string) : string :=
  if target =? me then
    if String.eqb operation "leave_group" || (by_uid =? me) then "You left the group." else "You were removed from the group."
  else if String.eqb operation "leave_group" then name +:+ " left the group." else name +:+ " was removed from the group.".

Definition _handle_member_removed (msg : dict) : am unit :=
  do! group_id := st_lift (get_int0 "group_id" msg) in
  do! target := st_lift (get_int0 "user_id" msg) in
  if group_id <=? 0 then st_ret tt
  else
    do! a := st_get in
    do! name := st_lift (_display_name_for_user a group_id target msg "username") in
    do! by_uid := st_lift (get_int0 "by_user_id" msg) in
    do! _ := show_line group_id (removed_text (my_uid_of a) target by_uid (get_str0 "operation" msg) name)
      (_membership_event_key "member_removed" target "" (operation_of msg)) msg in
    do! _ := expect_change group_id in
    if target =? my_uid_of a then
      do! _ := _cleanup_conv_state group_id in
      do! _ := on_crypto (st_modify (fun s => s <| group_conv_ids ::= fun g => g ∖ {[group_id]} |>)) in
      do! _ := on_gs (fun g => g <| members_cache ::= delete group_id |>) in
      ask "get_inbox"
    else
      do! _ := keep_members group_id msg (py_or (dget "member_ids" (PList []) msg) (PList [])) in
      do! _ := ask_group group_id in
      ask "get_inbox".

(** The line of [_handle_ui_refresh] for an event. *)
Definition refresh_who (a : app) (group_id uid : Z) (msg : dict) : res string :=
  if uid =? my_uid_of a then Ok "You" else _display_name_for_user a group_id uid msg "username".
Definition refresh_line (a : app) (group_id uid : Z) (typ : string) (msg : dict) : res (string * option (list string)) :=
  let op := operation_of msg in
  if String.eqb typ "member_left" then
    let! who := refresh_who a group_id uid msg in
    Ok (who +:+ " left the group.", _membership_event_key "member_removed" uid "" op)
  else if String.eqb typ "member_role_changed" then
    let role := py_str (py_or (dget "role" (PStr "") msg) (PStr "member")) in
    let! who := refresh_who a group_id uid msg in
    let! actor_uid := get_int0 "by_user_id" msg in
    let actor := get_str0 "by_username" msg in
    let! actor := if negb (nonempty actor) && (0 <? actor_uid) && negb (actor_uid =? uid)
                  then _display_name_for_user a group_id actor_uid [] "username" else Ok actor in
    Ok (role_line actor who role, _membership_event_key "member_role_changed" uid role op)
  else Ok ("Group info was updated.", _membership_event_key "group_info_updated" 0 "" op).

Definition _handle_ui_refresh (msg : dict) : am unit :=
  do! group_id := st_lift (py_int (py_or (dget "group_id" (dget "conversation_id" (PInt 0) msg) msg) (PInt 0))) in
  let typ := match dget "type" PNone msg with PStr s => s | _ => "" end in
  do! _ := (if (0 <? group_id) && mem typ ["member_left"; "member_role_changed"; "group_info_updated"] then
              do! uid := st_lift (get_int0 "user_id" msg) in
              do! a := st_get in
              do! (text, key) := st_lift (refresh_line a group_id uid typ msg) in
              do! _ := show_line group_id text key msg in
              do! _ := expect_change group_id in
              do! _ := keep_members group_id msg PNone in
              ask_group group_id
            else st_ret tt) in
  ask "get_inbox".

(** [true] when the dialog of the group is to be shown: the user asked for it. *)
Definition _handle_group_info (msg : dict) : am bool :=
  do! group_id := st_lift (get_int0 "group_id" msg) in
  if group_id <=? 0 then st_ret false
  else
    do! a := st_get in
    let shown := bool_decide (group_id ∈ manual_info (gs a)) in
    do! _ := on_gs (fun g => g <| manual_info ::= fun s => s ∖ {[group_id]} |>) in
    do! members := st_lift (py_iter (dget "members" (PList []) msg)) in
    do! warnings := on_crypto (verify_group_membership group_id members) in
    do! _ := on_gs (fun g => g <| expected_change ::= fun s => s ∖ {[group_id]} |>) in
    do! _ := warn_if group_id warnings in
    do! _ := match members with
             | [] => st_ret tt
             | _ => do! l := st_lift (_normalize_group_members members) in on_gs (fun g => g <| members_cache ::= insert group_id l |>)
             end in
    st_ret shown.
End groups.
