(* ===== verification/AppKeys.v ===== *)
(** * The application: keys, the inbox, answers (client/app.py)

    Publishing the key bundles, starting a direct conversation, the change of a
    password and the rotation of a key, what the answers [ok] and [error] mean in
    each state, the list of conversations, and the table of handlers ([_net_msg]). *)

From S2P Require Import Prelude Hashing Base64 PyVal Sorting Json Crypto Wire Ratchet AuditClient Utils Session.
From S2P Require Import Pqxdh CacheStore Transcript Identity DrStore IdentityAudit MlsBridge Mls Messages Cleanup.
From S2P Require Import WebSocket ChatPage ChatView Files App AppIdentity AppMembers AppMessages AppGroups.


Section keys.
Context `{P : Prims, O : Os, E : Env}.
Variable oqs : option (option (list string)).

Definition _fetch_avatar (uid : Z) : am unit :=
  do! a := st_get in
  if bool_decide (uid ∈ avatar_fetches (cn a)) then st_ret tt
  else
    do! _ := on_cn (fun c => c <| avatar_fetches ::= union {[uid]} |>) in
    request [("type", PStr "get_profile"); ("user_id", PInt uid)].

(** ** Publishing *)

(** The three flags of a bundle: being uploaded, on the server, usable. *)
Definition bundle_flags (uploading ready kem : bool) (k : key_state) : key_state :=
  k <| bundle_uploading := uploading |> <| bundle_ready := ready |> <| kem_ready := kem |>.

Definition _publish_fresh_pqxdh_bundle_for_current_device : am bool :=
  do! r := (fun a => let (a, r) := on_crypto (fresh_pqxdh_bundle_command oqs) a in (a, Ok r)) in
  match r with
  | Err e =>
      do! _ := on_ks (bundle_flags false false false) in
      do! _ := warn_box "Key Publishing Failed" ("Could not publish the SecChat PQXDH bundle:" +:+ nl +:+ exc_text e) in
      st_ret false
  | Ok (Some (kv :: upload)) =>
      do! _ := on_ks (fun k => bundle_flags true false false (k <| publish_blocked := false |>)) in
      do! sent := _safe_send (kv :: upload) in
      do! _ := (if sent : bool then st_ret tt else on_ks (fun k => k <| bundle_uploading := false |>)) in
      st_ret sent
  | Ok _ => do! _ := on_ks (bundle_flags false false false) in st_ret false
  end.

Definition send_if (o : option dict) : am unit :=
  match o with Some (kv :: d) => request (kv :: d) | _ => st_ret tt end.
Definition _upload_identity_bundle : am unit :=
  st_catch (
    do! cmd := on_crypto new_identity_key_record_command in
    match cmd with Some d => request d | None => st_ret tt end) (fun _ => st_ret tt).
Definition _upload_current_key_bundle : am unit :=
  do! cmd := on_crypto current_identity_key_record_command in send_if cmd.

Definition mls_unavailable_text : string := "OpenMLS identity is not available on this VNC. Group E2EE will not be ready until the MLS bridge starts successfully.".

Definition _initialize_mls_for_current_account : am bool :=
  do! a := st_get in
  st_catch (
    do! _ := on_crypto (initialize_mls_identity (or_default (auth_credential (cn a)) (account_username (cn a)))
                          (own_version (ks a))) in
    st_ret true)
  (fun _ =>
    do! a := st_get in
    do! _ := (if stack (cn a) =? 1 then security_warning 0 [mls_unavailable_text] else st_ret tt) in
    st_ret false).

Definition publish_packages (count : Z) : am bool :=
  do! a := st_get in
  do! ready := (if mls_identity_ready (crypto a) then st_ret true else _initialize_mls_for_current_account) in
  if negb ready then st_ret false
  else
    do! cmd := on_crypto (mls_key_package_upload_command count) in
    do! ok := _safe_send cmd in
    do! _ := (if ok : bool then on_gs (fun g => g <| key_packages_ready := true |>) else st_ret tt) in
    st_ret ok.
Definition _publish_mls_key_packages (count : Z) : am bool :=
  do! a := st_get in
  if negb (session_active (cn a)) then st_ret false
  else
    st_catch (publish_packages count) (fun e =>
      do! _ := on_gs (fun g => g <| key_packages_ready := false |>) in
      do! _ := security_warning 0 ["Could not publish MLS KeyPackages: " +:+ exc_text e] in
      st_ret false).

(** ** Starting direct conversations *)

Definition ask_bundle (uid : Z) : am unit := request [("type", PStr "get_pqxdh_bundle"); ("user_id", PInt uid)].
Definition expect_bundle (uid conv_id : Z) : am unit := on_ks (fun k => k <| pending_dm ::= <[uid := conv_id]> |>).

Definition _drain_pending_key_requests : am unit :=
  do! a := st_get in
  if bundle_uploading (ks a) || publish_blocked (ks a) || negb (bundle_ready (ks a)) then st_ret tt
  else
    do! _ := on_ks (fun k => k <| kem_ready := true |> <| kem_queue := [] |>) in
    st_for (kem_queue (ks a)) (fun x =>
      if 0 <? snd x then do! _ := expect_bundle (snd x) (fst x) in ask_bundle (snd x) else st_ret tt).

Definition _retry_identity_blocked_key_work (uid : Z) : am unit :=
  do! a := st_get in
  if (0 <? uid) && (0 <? default 0 (pending_dm (ks a) !! uid)) then ask_bundle uid else st_ret tt.

Definition _handle_dm_ready (msg : dict) : am unit :=
  do! conv_id := st_lift (plain_int "conversation_id" msg) in
  do! with_uid := st_lift (plain_int "with_user_id" msg) in
  do! a := st_get in
  let both := (0 <? conv_id) && (0 <? with_uid) in
  do! _ := (if both && negb (with_uid =? my_uid_of a)
            then on_crypto (st_modify (fun s => s <| conv_peer_uids ::= <[conv_id := with_uid]> |>)) else st_ret tt) in
  do! _ := ask "get_inbox" in
  do! _ := open_later conv_id false in
  do! state := (if both then on_crypto (load_double_ratchet conv_id) else st_ret None) in
  match state with
  | Some _ => st_ret tt
  | None =>
      do! a := st_get in
      if publish_blocked (ks a) then security_warning conv_id [publish_blocked_text]
      else if both then
        do! _ := expect_bundle with_uid conv_id in
        if kem_ready (ks a) then ask_bundle with_uid
        else on_ks (fun k => k <| kem_queue ::= fun q => q ++ [(conv_id, with_uid)] |>)
      else st_ret tt
  end.

Definition key_exchange_failed (detail : string) : am unit := warn_box "Key Exchange Failed" detail.

(** The first message of a conversation; the outcome of the audit does not matter. *)
Definition start_conversation (fuel : nat) (msg : dict) (conv_id peer : Z) : am unit :=
  do! a := st_get in
  do! (token, fp) := on_crypto (initiate_pqxdh_dm oqs msg conv_id peer (Some (own_version (ks a)))) in
  do! a := st_get in
  do! _ := (if conv_id =? active_conv (chat a) then
              let verified := is_verified a conv_id in
              do! shown := _safety_fingerprint_for_conv conv_id in
              show_fp (or_default shown fp) verified
            else st_ret tt) in
  do! _ := request (message_request conv_id token 0) in
  _flush_pending oqs fuel conv_id.

Definition _handle_pqxdh_bundle (fuel : nat) (msg : dict) : am unit :=
  do! peer := st_lift (get_int0 "user_id" msg) in
  if peer <=? 0 then st_ret tt
  else
    do! a := st_get in
    let conv_id := default 0 (pending_dm (ks a) !! peer) in
    do! state := (if 0 <? conv_id then on_crypto (load_double_ratchet conv_id) else st_ret None) in
    match state with
    | Some _ => on_ks (fun k => k <| pending_dm ::= delete peer |>)
    | None =>
        do! store := on_crypto load_pqxdh_prekeys in
        if negb (truthy store) then key_exchange_failed "Local SecChat prekeys are not available yet."
        else
          do! _ := on_ks (fun k => k <| pending_dm ::= delete peer |>) in
          if conv_id <=? 0 then st_ret tt
          else
            do! _ := _audit_pqxdh_bundle_identity conv_id msg in
            st_catch (start_conversation fuel msg conv_id peer) (fun e =>
              key_exchange_failed ("Could not establish SecChat encryption:" +:+ nl +:+ exc_text e))
    end.

(** ** The own keys on the server *)

Definition own_identity_b64 (a : app) : string :=
  if nonempty (identity_pk (crypto a)) then b64encode (identity_pk (crypto a)) else "".

(** The server has the public key but no sealed secret: upload it if it is this one. *)
Definition backfill_identity (msg : dict) : am unit :=
  do! a := st_get in
  let server := get_str0 "identity_pk" msg in
  if nonempty (identity_sk (crypto a)) && (negb (nonempty server) || same_identity_key server (own_identity_b64 a))
  then _upload_current_key_bundle
  else if nonempty server then on_ks (fun k => bundle_flags false false false (k <| publish_blocked := true |>))
  else st_ret tt.

(** [true] when a fresh bundle is to be published. *)
Definition restore_keys (msg : dict) : am bool :=
  do! result := on_crypto (restore_identity_key_record msg) in
  if negb (truthy (dget "found" PNone result)) then
    do! _ := match dget "upload" PNone result with PDict (kv :: d) => request (kv :: d) | _ => st_ret tt end in
    st_ret true
  else
    do! _ := (if truthy (dget "identity_secret_backup_missing" PNone result) then backfill_identity msg else st_ret tt) in
    if truthy (dget "identity_secret_restored" PNone result) then st_ret true
    else
      do! store := on_crypto load_pqxdh_prekeys in
      st_ret (match store with PNone => true | _ => false end).

Definition _handle_my_keys (msg : dict) : am unit :=
  do! _ := on_ks (fun k => k <| server_identity := get_str0 "identity_pk" msg |>
    <| own_version := ok_or 0 (get_int0 "identity_version" msg) |>) in
  do! publish := st_catch (restore_keys msg) (fun _ => do! _ := _upload_identity_bundle in st_ret true) in
  do! a := st_get in
  do! _ := (if publish && negb (publish_blocked (ks a)) then
              do! _ := _publish_fresh_pqxdh_bundle_for_current_device in st_ret tt
            else st_ret tt) in
  do! _ := _initialize_mls_for_current_account in
  do! _ := _publish_mls_key_packages 12 in
  ask "get_my_pqxdh_status".

Definition _handle_pqxdh_status (msg : dict) : am unit :=
  do! _ := on_ks (fun k => k <| own_version ::= fun v =>
    match py_int (py_or (dget "identity_version" (PInt v) msg) (PInt 0)) with Ok n => n | Err _ => v end |>) in
  do! a := st_get in
  if publish_blocked (ks a) then on_ks (bundle_flags false false false)
  else if bundle_uploading (ks a) then on_ks (bundle_flags true false false)
  else
    do! curve := st_lift (get_int0 "curve_prekeys" msg) in
    do! pq := st_lift (get_int0 "pq_prekeys" msg) in
    do! need := (if negb (truthy (dget "has_bundle" (PBool false) msg)) || (curve <? 3) || (pq <? 3) then st_ret true
                 else do! store := on_crypto load_pqxdh_prekeys in st_ret (match store with PNone => true | _ => false end)) in
    if need : bool then do! _ := _publish_fresh_pqxdh_bundle_for_current_device in st_ret tt
    else
      do! _ := on_ks (fun k => k <| bundle_uploading := false |> <| bundle_ready := true |>) in
      _drain_pending_key_requests.

(** ** Rotation and change of password *)

Definition rotation_commands : am unit :=
  do! (rotate, prekeys) := on_crypto (rotate_identity_commands oqs) in
  do! _ := on_ks (fun k => bundle_flags (match prekeys with [] => false | _ => true end) false false
    (k <| rotation_pending := true |> <| publish_blocked := false |>)) in
  do! _ := request rotate in
  match prekeys with
  | [] => st_ret tt
  | _ =>
      do! ok := _safe_send prekeys in
      if ok : bool then st_ret tt else on_ks (fun k => k <| bundle_uploading := false |>)
  end.

(** [confirmed]: the answer to the question whether to rotate. *)
Definition _rotate_identity (confirmed : bool) : am unit :=
  do! a := st_get in
  if negb (session_active (cn a)) || negb (nonempty (master_key (crypto a))) then
    warn_box "Safety Key" "You are not logged in."
  else if negb confirmed then st_ret tt
  else
    st_catch rotation_commands (fun e =>
      do! _ := on_ks (fun k => k <| rotation_pending := false |> <| bundle_uploading := false |>) in
      warn_box "Safety Key" ("Could not rotate the safety key:" +:+ nl +:+ exc_text e)).

Definition _change_password (current new : string) : am unit :=
  do! a := st_get in
  if negb (session_active (cn a)) || negb (nonempty (master_key (crypto a))) then
    warn_box "Change Password" "You are not logged in."
  else
    let credential := or_default (auth_credential (cn a)) (account_username (cn a)) in
    if negb (nonempty credential) || negb (nonempty (account_username (cn a))) then
      warn_box "Change Password" "Cannot determine the login credential for this session."
    else
      do! new_master := st_lift (derive_master_key new (account_username (cn a))) in
      do! _ := on_ks (fun k => k <| password_change := Some (master_key (crypto a), new_master) |>) in
      do! old_hash := st_lift (hash_password current credential) in
      do! new_hash := st_lift (hash_password new credential) in
      request [("type", PStr "change_password"); ("old_password", PStr old_hash); ("new_password", PStr new_hash)].

Definition rewrap_failed_text : string := "Password changed on the server, but local encrypted state could not be re-wrapped:".

Definition _complete_password_change : am unit :=
  do! a := st_get in
  do! _ := on_ks (fun k => k <| password_change := None |>) in
  match password_change (ks a) with
  | None => st_ret tt
  | Some (old_master, new_master) =>
      st_catch (
        do! _ := on_crypto (rewrap_local_state old_master new_master) in
        do! _ := on_crypto (st_modify (fun s => s <| master_key := new_master |>)) in
        do! _ := _upload_current_key_bundle in
        warn_box "Change Password" "Password changed successfully.")
      (fun e => warn_box "Change Password" (rewrap_failed_text +:+ nl +:+ exc_text e))
  end.

(** ** The answer [ok] *)

Definition text_of (msg : dict) : string := match dget "msg" PNone msg with PStr s => s | _ => "" end.

Definition avatar_changed : am unit :=
  do! a := st_get in
  st_catch (
    do! _ := _fetch_avatar (my_uid_of a) in
    do! _ := ask "get_friends" in
    ask "get_inbox") (fun _ => st_ret tt).

Definition rotated_text : string := "Your safety key was rotated. Existing contacts will see a safety number change and should verify you again.".

Definition identity_rotated : am unit :=
  do! _ := on_ks (fun k => k <| rotation_pending := false |> <| publish_blocked := false |>) in
  do! a := st_get in
  do! _ := on_ks (fun k => k <| server_identity := own_identity_b64 a |>) in
  do! store := on_crypto load_pqxdh_prekeys in
  do! _ := (if match store with PNone => false | _ => true end && negb (bundle_uploading (ks a)) && negb (bundle_ready (ks a))
            then do! _ := _publish_fresh_pqxdh_bundle_for_current_device in st_ret tt else st_ret tt) in
  warn_box "Safety Key" rotated_text.

Definition ask_lists : am unit :=
  do! _ := ask "get_friends" in
  do! _ := ask "get_requests" in
  ask "get_inbox".
Definition start_poll : am unit := on_cn (fun c => c <| poll_timer := true |>).

Definition reconnected : am unit :=
  do! _ := on_cn (fun c => c <| session_active := true |> <| attempts := 0 |> <| pending := None |>) in
  do! _ := security_warning 0 [] in
  do! _ := ask_lists in
  start_poll.

(** The account exists: log in with the same credentials. *)
Definition registered (c : credentials) : am unit :=
  do! _ := on_cn (fun x => x <| pending := Some (Credentials Login (c_email c) (c_pw_hash c) "") |>
    <| register_status := "Registration successful. Logging in..." |>) in
  do! a := st_get in
  match ws (cn a) with None => st_ret tt | Some _ => ws_send (auth_request c) end.

(** The name the server knows derives the key and names the directory; the
    server's [user_id] is an integer. *)
Definition logged_in (c : credentials) (msg : dict) : am unit :=
  do! a := st_get in
  do! name := st_lift (match dget "username" (PStr (c_email c)) msg with PStr s => Ok s | _ => Err AttributeError end) in
  do! key := st_lift (derive_master_key (pending_password (cn a)) name) in
  let uid := match dget "user_id" (PInt 0) msg with PInt n => n | _ => 0 end in
  let dir := path_join (path_join env_home ".secchat") name in
  do! _ := on_cn (fun x => x <| account_username := name |> <| auth_credential := c_email c |> <| pending_password := "" |>
    <| session_active := true |> <| pending := None |>) in
  do! _ := on_crypto (configure key dir uid) in
  do! _ := on_crypto (st_catch (makedirs dir) (fun e => match e with OSError => st_ret tt | e => st_fail e end)) in
  do! _ := with_signals ChatView.reset in
  do! _ := on_view (set_me name uid) in
  do! _ := security_warning 0 [] in
  do! _ := on_crypto load_cache_policy in
  do! _ := on_crypto enforce_cache_policy in
  do! a := st_get in
  do! _ := on_view (ChatView.set_cache_policy (get_cache_policy (crypto a))) in
  do! _ := on_cn (fun x => x <| stack := 1 |>) in
  do! _ := ask "get_my_keys" in
  do! _ := ask_lists in
  start_poll.

Definition _handle_ok (msg : dict) : am unit :=
  let text := text_of msg in
  do! a := st_get in
  if String.eqb text "PQXDH bundle uploaded" then
    do! _ := on_ks (fun k => bundle_flags false true true (k <| publish_blocked := false |>)) in
    _drain_pending_key_requests
  else if mem text ["Avatar uploaded"; "Avatar removed"] then avatar_changed
  else if bool_decide (is_Some (password_change (ks a))) && String.eqb text "Password changed successfully" then
    _complete_password_change
  else if rotation_pending (ks a) && String.eqb text "Identity rotated" then identity_rotated
  else
    match pending (cn a) with
    | None => st_ret tt
    | Some c =>
        match c_action c with
        | Reconnect => reconnected
        | act =>
            if negb ((stack (cn a) =? 0) || (stack (cn a) =? 2)) then st_ret tt
            else match act with Register => registered c | _ => logged_in c msg end
        end
    end.

(** ** The answer [error] *)

Definition send_error_fragments : list string :=
  ["Cannot send message"; "Not a member of this conversation"; "Group has been disbanded"; "Rate limit exceeded";
   "Message body is empty or too large"; "Unsupported or unsupported encrypted message"].
Definition no_keys_text : string := "This contact has not published encryption keys yet. Ask them to log in once, then try again.".
Definition no_keys_warning : string := "This contact has not published SecChat encryption keys yet. Ask them to log in once, then retry the conversation.".
Definition different_key_text : string :=
  "This account already has a different safety key on the server, but this VNC does not have the encrypted identity backup needed to publish a matching SecChat bundle." +:+ nl +:+ nl +:+
  "Log in once on the VNC that still has the account cache so it can backfill the identity backup, restore an E2EE backup here, or rotate the safety key deliberately.".
Definition bundle_refused_text (text : string) : string :=
  "This VNC could not publish a fresh SecChat key bundle for the current account:" +:+ nl +:+ text +:+ nl +:+ nl +:+
  "Restore an E2EE backup here or rotate the safety key deliberately before starting new encrypted conversations from this VNC.".

Definition block_publishing (text : string) : am unit :=
  do! _ := on_ks (fun k => bundle_flags false false false (k <| publish_blocked := true |>)) in
  warn_box "Key Publishing Failed" text.

(** The peer has no bundle: nothing is expected from them any more. *)
Definition no_bundle (msg : dict) : am unit :=
  do! peer := st_lift (get_int0 "user_id" msg) in
  do! a := st_get in
  let conv_id := default 0 (pending_dm (ks a) !! peer) in
  do! _ := on_ks (fun k => k <| pending_dm ::= delete peer |>) in
  if 0 <? conv_id then security_warning conv_id [no_keys_warning] else st_ret tt.

Definition report_error (text : string) : am unit :=
  do! a := st_get in
  let cur := stack (cn a) in
  do! _ := (if (cur =? 1) && existsb (fun f => contains f text) send_error_fragments
            then on_timeline (mark_pending_sends_failed text) else st_ret tt) in
  if cur =? 0 then on_cn (fun c => c <| login_status := text |>)
  else if cur =? 2 then on_cn (fun c => c <| register_status := text |>)
  else warn_box "Error" text.

Definition _handle_error (msg : dict) : am unit :=
  let text := match dget "msg" (PStr "Error") msg with PStr s => s | v => py_str v end in
  let text := if String.eqb text "Invalid credentials" then "Email or password is incorrect" else text in
  let missing := String.eqb text "No PQXDH bundle found" in
  do! _ := (if missing then no_bundle msg else st_ret tt) in
  let text := if missing then no_keys_text else text in
  do! a := st_get in
  if String.eqb text "Identity change requires rotate_identity" && bundle_uploading (ks a) then
    block_publishing different_key_text
  else if bundle_uploading (ks a) && mem text ["Invalid PQXDH bundle"; "Failed to upload PQXDH bundle"] then
    block_publishing (bundle_refused_text text)
  else if bool_decide (is_Some (password_change (ks a))) then
    do! _ := on_ks (fun k => k <| password_change := None |>) in
    warn_box "Change Password" text
  else if rotation_pending (ks a) then
    do! _ := on_ks (fun k => k <| rotation_pending := false |>) in
    warn_box "Safety Key" text
  else report_error text.
End keys.
