(* ===== verification/AppReview.v ===== *)
(** * The application: reviewing identities, profiles, requests (client/app.py)

    The dialog that shows the safety number of a conversation and asks the user to
    confirm it, the profiles the server sends, and the requests that are one
    message each. A dialog runs its own event loop, so opening it and closing it
    are two steps: [_show_verify_dialog] says what it shows, [verify_done] what
    the user's clicks do. *)

From S2P Require Import Prelude Hashing Base64 PyVal Sorting Json Crypto Wire Ratchet AuditClient Utils Session.
From S2P Require Import Pqxdh CacheStore Transcript Identity DrStore IdentityAudit MlsBridge Mls Messages Cleanup Backup.
From S2P Require Import WebSocket ChatPage ChatView Files App AppIdentity AppMembers AppMessages AppGroups AppKeys.

(** ** Codes to compare *)

Fixpoint digits_of (s : string) : string :=
  match s with EmptyString => "" | String c s => if is_digit c then String c (digits_of s) else digits_of s end.
(** [int.from_bytes(s, "big")]. *)
Fixpoint be_int (acc : Z) (s : bytes) : Z :=
  match s with EmptyString => acc | String c s => be_int (acc * 256 + code c) s end.
Definition in_threes (digits : string) : string :=
  join " " (map (fun i => stake 3 (sdrop (3 * i) digits)) (seq 0 4)).
(** [f"{n:012d}"]. *)
Definition twelve_digits (n : Z) : string := let t := dec n in fill "0"%char (12 - String.length t) +:+ t.
Definition _safety_short_code (fp : string) : string :=
  let digits := digits_of fp in
  let digits := if (String.length digits <? 12)%nat
                then twelve_digits (be_int 0 (stake 8 (sha256 fp)) mod 10 ^ 12) else digits in
  in_threes digits.

(** The colours of the cells of the picture, row by row; [bit] counts the cells that
    show the digest. *)
Inductive cell := Dark | Light.
Definition cell_of (b : bool) : cell := if b then Dark else Light.
Definition is_border (cells x y : Z) : bool := (x =? 0) || (x =? cells - 1) || (y =? 0) || (y =? cells - 1).
Definition is_finder (cells x y : Z) : bool :=
  ((x <? 4) && (y <? 4)) || ((cells - 4 <=? x) && (y <? 4)) || ((x <? 4) && (cells - 4 <=? y)).
Definition digest_bit (digest : bytes) (bit : Z) : bool :=
  match String.get (Z.to_nat ((bit / 8) mod blen digest)) digest with
  | Some c => Z.testbit (code c) (bit mod 8)
  | None => false
  end.
Fixpoint draw (cells : Z) (digest : bytes) (bit : Z) (places : list (Z * Z)) : list cell :=
  match places with
  | [] => []
  | (x, y) :: places =>
      if is_border cells x y then Dark :: draw cells digest bit places
      else if is_finder cells x y then cell_of (Z.even (x + y)) :: draw cells digest bit places
      else cell_of (digest_bit digest bit) :: draw cells digest (bit + 1) places
  end.
Definition places (cells : Z) : list (Z * Z) :=
  let axis := map Z.of_nat (seq 0 (Z.to_nat cells)) in flat_map (fun y => map (fun x => (x, y)) axis) axis.
Definition _safety_visual_code (fp : string) : list cell := draw 13 (sha256 ("secchat-safety-visual:" +:+ fp)) 0 (places 13).

(** ** The dialog *)

Definition _identity_version_label (version : pyval) : string :=
  match py_int version with
  | Ok v => if v =? 0 then "initial" else "v" +:+ dec v
  | Err _ => "unknown"
  end.

(** [str(d.get(k, dflt))]. *)
Definition get_str (k dflt : string) (d : dict) : string := py_str (dget k (PStr dflt) d).

(** What the dialog shows, and what it keeps for when it is closed. *)
Record verify_dialog := VerifyDialog {
  vd_conv : Z; vd_peer : Z; vd_fp : string; vd_status : string; vd_short : string; vd_picture : list cell;
  vd_proof : list string; vd_history : list string; vd_ticked : bool
}.

Definition dialog_status (already : bool) (status : string) : string :=
  if already then "Verified"
  else if existsb (fun k => contains k status) ["changed"; "mismatch"; "unavailable"] then "Not verified - " +:+ status
  else "Not verified".

(** The size and root of a checkpoint, if there is one. *)
Definition log_line (title : string) (cp : dict) : list string :=
  match cp with
  | [] => []
  | _ => [title +:+ "size " +:+ py_str (dget "tree_size" (PStr "?") cp) +:+ " / "
          +:+ stake 16 (get_str "root_hash" "" cp) +:+ "..."]
  end.
Definition error_line (title : string) (state : dict) : list string :=
  if truthy (dget "last_error" PNone state) then [title +:+ _audit_error_detail_text state] else [].

Definition proof_lines (audit auditor : dict) : res (list string) :=
  let! cp := or_empty_dict (dget "checkpoint" PNone audit) in
  let! pinned := or_empty_dict (dget "checkpoint" PNone auditor) in
  Ok (["Audit status: " +:+ spaced (get_str "status" "unknown" audit);
       "Identity version: " +:+ _identity_version_label (dget "identity_version" PNone audit)]
      ++ log_line "Log head: " cp ++ log_line "Pinned account log: " pinned
      ++ match pinned with [] => [] | _ => ["Cross-contact checkpoint pinning is active on this device."] end
      ++ error_line "Last warning: " audit ++ error_line "Checkpoint warning: " auditor).

Section review.
Context `{P : Prims, O : Os, E : Env}.
Variable oqs : option (option (list string)).

Definition history_line (v : pyval) : res string :=
  let! item := as_dict v in
  let! seen := (let created := dget "created_at" PNone item in
                if truthy created then Ok (py_str created) else let! t := get_int0 "seen_at" item in env_localtime t) in
  Ok (_identity_version_label (dget "identity_version" PNone item) +:+ " - " +:+ get_str "event_type" "seen" item +:+ " - "
      +:+ seen +:+ " - " +:+ get_str "device_label" "primary device" item +:+ nl +:+ get_str "safety_number" "" item).

Definition history_lines (audit : dict) : res (list string) :=
  let! l := history_of audit in res_map history_line (last_n 5 l).

Definition group_dialog_text : string :=
  "Group identity is checked through MLS membership state. Review individual member identities from their profiles.".
Definition no_fingerprint_text : string :=
  "Key fingerprint not yet available." +:+ nl +:+ "Open the conversation first so that the key exchange completes.".

Definition _show_verify_dialog (conv_id : Z) : am (option verify_dialog) :=
  do! a := st_get in
  if is_group_conv a conv_id then do! _ := warn_box "Not Available" group_dialog_text in st_ret None
  else
    do! fp := _safety_fingerprint_for_conv conv_id in
    if negb (nonempty fp) then do! _ := warn_box "Not Available" no_fingerprint_text in st_ret None
    else
      do! a := st_get in
      let already := is_verified a conv_id in
      do! peer := st_lift (_peer_uid_for_conv a conv_id) in
      do! audit := (if peer =? 0 then st_ret [] else on_crypto (load_identity_audit peer)) in
      do! auditor := on_crypto load_auditor_state in
      do! proof := st_lift (proof_lines audit auditor) in
      do! history := st_lift (history_lines audit) in
      st_ret (Some (VerifyDialog conv_id peer fp (dialog_status already (spaced (get_str "status" "unknown" audit)))
        (_safety_short_code fp) (_safety_visual_code fp) proof history already)).

(** The box to tick, and the buttons; [Mark Verified] works only while the box is ticked. *)
Inductive click := TickBox | MarkVerified | ContinueUnverified | CancelDialog.
Inductive verdict := Accepted | Unverified | Rejected.
Fixpoint clicked (ticked : bool) (clicks : list click) : verdict :=
  match clicks with
  | [] => Rejected
  | TickBox :: clicks => clicked (negb ticked) clicks
  | MarkVerified :: clicks => if ticked then Accepted else clicked ticked clicks
  | ContinueUnverified :: _ => Unverified
  | CancelDialog :: _ => Rejected
  end.

Definition reviewed (d : verify_dialog) (verified : bool) : am unit :=
  do! _ := on_crypto (save_verified (vd_conv d) verified) in
  do! _ := (if vd_peer d =? 0 then st_ret tt
            else do! _ := on_crypto (mark_identity_reviewed (vd_peer d) verified) in st_ret tt) in
  do! _ := show_fp (vd_fp d) verified in
  do! _ := _refresh_security_ui (vd_conv d) in
  _retry_identity_blocked_key_work (vd_peer d).
Definition verify_done (d : verify_dialog) (clicks : list click) : am unit :=
  match clicked (vd_ticked d) clicks with
  | Accepted => reviewed d true
  | Unverified => reviewed d false
  | Rejected => st_ret tt
  end.

(** ** Profiles *)

(** An avatar that was asked for silently opens no dialog; the profile to show is the result. *)
Definition with_audit (uid : Z) (msg : dict) : am dict :=
  do! audit := on_crypto (load_identity_audit uid) in
  do! a := st_get in
  do! _ := on_cn (fun c => c <| n_fetches ::= S |>) in
  let msg := dset "identity_audit" (PDict audit) msg in
  st_ret (match fetch_identity_history (env_fetch (n_fetches (cn a))) env_auditor_pk uid with
          | Ok history => dset "auditor_identity_history" (PDict history) msg
          | Err _ => msg
          end).
Definition _handle_profile (msg : dict) : am (option dict) :=
  do! uid := st_lift (plain_int "user_id" msg) in
  do! a := st_get in
  let silent := bool_decide (uid ∈ avatar_fetches (cn a)) in
  do! _ := on_cn (fun c => c <| avatar_fetches ::= fun s => s ∖ {[uid]} |>) in
  if silent && negb (profile_edit (cn a)) then st_ret None
  else if profile_edit (cn a) then
    do! _ := on_cn (fun c => c <| profile_edit := false |>) in
    do! status := on_crypto get_backup_status in st_ret (Some (dset "backup_status" (PDict status) msg))
  else
    do! shown := (if 0 <? uid then with_audit uid msg else st_ret msg) in st_ret (Some shown).

Definition _view_profile (uid : Z) : am unit :=
  do! _ := on_cn (fun c => c <| profile_edit := false |>) in
  request [("type", PStr "get_profile"); ("user_id", PInt uid)].
Definition _edit_profile : am unit :=
  do! _ := on_cn (fun c => c <| profile_edit := true |>) in
  request [("type", PStr "get_profile"); ("user_id", PInt 0)].
Definition _handle_profile_updated (msg : dict) : am unit :=
  do! _ := ask "get_friends" in
  do! uid := st_lift (plain_int "user_id" msg) in
  if 0 <? uid then _fetch_avatar uid else st_ret tt.

(** What the form for the own profile asks to save; an avatar is bytes and their type. *)
Definition save_profile (display_name bio : string) (avatar : option (bytes * string)) (remove_av : bool) : am unit :=
  do! _ := request [("type", PStr "update_profile"); ("display_name", PStr display_name); ("bio", PStr bio)] in
  if remove_av then ask "remove_avatar"
  else match avatar with
       | Some (data, mime) =>
           if nonempty data then request [("type", PStr "upload_avatar"); ("data", PStr (b64encode data)); ("mime", PStr mime)]
           else st_ret tt
       | None => st_ret tt
       end.

(** ** Requests *)

Definition ask_user (typ k : string) (uid : Z) : am unit := request [("type", PStr typ); (k, PInt uid)].
Definition _search_user (query : string) : am unit := request [("type", PStr "search_user"); ("query", PStr query)].
Definition _friend_request (tid : Z) : am unit := ask_user "friend_request" "target_id" tid.
Definition _friend_accept (rid : Z) : am unit := ask_user "friend_accept" "requester_id" rid.
(** The lists are asked for again half a second later. *)
Definition _friend_reject (oid : Z) : am unit := ask_user "friend_reject" "other_id" oid.
Definition friend_reject_later : am unit := ask "get_requests".
Definition _start_dm (uid : Z) : am unit := ask_user "start_dm" "user_id" uid.
Definition _unfriend (oid : Z) : am unit := ask_user "unfriend" "other_id" oid.
Definition unfriend_later : am unit := do! _ := ask "get_friends" in ask "get_inbox".
Definition _disband_group (conv_id : Z) : am unit := ask_user "disband_group" "group_id" conv_id.
End review.
