(* ===== verification/AppBackup.v ===== *)
(** * The application: backups, and what the menus ask for (client/app.py)

    Exporting, restoring and revoking backups. The answers of the dialogs (the path,
    yes or no, the passphrase) are arguments. Restoring first reads the file and asks
    ([restore_plan]), then, when the user has confirmed, restores ([restore_confirmed]):
    other events may come in between. At the end, the signals of the page that are
    connected to a method of the application ([grant]), and a choice of a menu carried
    out to its end. *)

From S2P Require Import Prelude Hashing Base64 PyVal Sorting Json Crypto Wire Ratchet AuditClient Utils Session.
From S2P Require Import Pqxdh CacheStore Transcript Identity DrStore IdentityAudit MlsBridge Mls Messages Cleanup Backup.
From S2P Require Import WebSocket ChatPage ChatView Files Menus App AppIdentity AppMembers AppMessages AppGroups AppKeys AppReview.

Definition yes_no (v : pyval) : string := if truthy v then "yes" else "no".
(** [x or "unknown"]. *)
Definition or_unknown (v : pyval) : string := py_str (py_or v (PStr "unknown")).

Section backup_dialogs.
Context `{P : Prims, O : Os, U : UnicodeTables, E : Env}.
Variable oqs : option (option (list string)).

Definition _backup_passphrase (title : string) (answer : option string) : am (option string) :=
  match answer with
  | None => st_ret None
  | Some value =>
      let '(ok, _, message) := backup_passphrase_report value in
      if ok then st_ret (Some value)
      else do! _ := warn_box title (or_default message "Backup passphrase is too weak.") in st_ret None
  end.

Definition _fmt_backup_time (v : pyval) : res string :=
  let ts := ok_or 0 (py_int (py_or v (PInt 0))) in
  if ts <=? 0 then Ok "never" else env_localtime ts.

Definition backup_note : string :=
  "Backups are encrypted with a separate passphrase. A revoked local backup file may still exist elsewhere; this device only refuses to restore backups it can identify as revoked.".
Definition latest_lines (status : dict) (generation : Z) : res (list string) :=
  if generation <=? 0 then Ok ["No local backup has been recorded on this device."]
  else
    let! created := _fmt_backup_time (dget "latest_created_at" (PInt 0) status) in
    Ok ["Latest local backup: generation " +:+ dec generation; "Created: " +:+ created;
        "Backup id: " +:+ or_unknown (dget "latest_backup_id" (PStr "") status);
        "Device label: " +:+ py_str (py_or (dget "latest_device_label" (PStr "") status) (PStr "primary device"));
        "Includes message cache: " +:+ yes_no (dget "latest_include_cache" PNone status)].
Definition restored_lines (status : dict) : res (list string) :=
  if truthy (dget "restored_from_backup_id" PNone status) then
    let! at_ := _fmt_backup_time (dget "restored_at" (PInt 0) status) in
    Ok [""; "Last restore:"; "Backup id: " +:+ py_str (dget "restored_from_backup_id" PNone status); "Time: " +:+ at_]
  else Ok [].
Definition revoked_lines (status : dict) : res (list string) :=
  let! before := get_int0 "revoked_before_generation" status in
  Ok (if 0 <? before then
        [""; "Local revoke policy:";
         "This device refuses backups up to generation " +:+ py_str (dget "revoked_before_generation" PNone status) +:+ " and "
           +:+ py_str (dget "revoked_count" (PInt 0) status) +:+ " explicit backup id(s)."]
      else []).
Definition status_text (status : dict) : res string :=
  let! generation := get_int0 "latest_generation" status in
  let! latest := latest_lines status generation in
  let! restored := restored_lines status in
  let! revoked := revoked_lines status in
  Ok (join nl (latest ++ restored ++ revoked ++ [""; backup_note])).
Definition _backup_status_text : am string := do! status := on_crypto get_backup_status in st_lift (status_text status).
Definition _show_backup_status : am unit := do! text := _backup_status_text in warn_box "E2EE Backup Status" text.

Definition _revoke_local_backups (confirmed : bool) : am unit :=
  if negb confirmed then st_ret tt
  else do! _ := on_crypto revoke_local_backups in _show_backup_status.

(** ** Export *)

Definition exported_text (result : dict) : string :=
  "Exported " +:+ py_str (dget "files" PNone result) +:+ " encrypted state file(s)." +:+ nl +:+ nl +:+
  "Backup id: " +:+ py_str (dget "backup_id" (PStr "unknown") result) +:+ nl +:+
  "Generation: " +:+ py_str (dget "backup_generation" (PInt 0) result) +:+ nl +:+
  "Includes message cache: " +:+ yes_no (dget "include_cache" PNone result).

Definition _export_e2ee_backup (path : string) (include_cache : bool) (answer : option string) : am unit :=
  if negb (nonempty path) then st_ret tt
  else
    do! passphrase := _backup_passphrase "Export E2EE Backup" answer in
    match passphrase with
    | None => st_ret tt
    | Some pass =>
        do! a := st_get in
        st_catch (
          do! result := on_crypto (export_e2ee_backup path pass (account_username (cn a)) include_cache) in
          warn_box "E2EE Backup" (exported_text result)) (fun e => warn_box "E2EE Backup Failed" (exc_text e))
    end.

(** ** Restore *)

(** Does the backup have another safety key than this session, which is the one on the server? *)
Definition keeps_current (a : app) (backup_fp : string) : bool :=
  let pk := identity_pk (crypto a) in
  let current_fp := if nonempty pk then stake 24 (sha256_hex pk) else "" in
  let server := server_identity (ks a) in
  nonempty backup_fp && nonempty current_fp && negb (String.eqb backup_fp current_fp)
  && (nonempty server && nonempty pk && same_identity_key server (b64encode pk)) && negb (publish_blocked (ks a)).

Definition other_key_text : string :=
  "This backup was made with a different safety key. SecChat will merge readable cached history only and keep the current safety key." +:+ nl +:+ nl.
Definition backup_summary (info : dict) (preserve : bool) : res string :=
  let! created := _fmt_backup_time (dget "created_at" (PInt 0) info) in
  Ok ("Backup id: " +:+ or_unknown (dget "backup_id" PNone info) +:+ nl +:+
      "Generation: " +:+ or_unknown (dget "generation" PNone info) +:+ nl +:+
      "Created: " +:+ created +:+ nl +:+
      "Account: " +:+ or_unknown (dget "account_username" PNone info) +:+ nl +:+
      "Includes message cache: " +:+ yes_no (dget "include_cache" PNone info) +:+ nl +:+ nl +:+
      (if preserve then other_key_text else "")).

(** The text of the question, and whether the current safety key stays. *)
Definition restore_plan (path : string) : am (option (string * bool)) :=
  if negb (nonempty path) then st_ret None
  else
    st_catch (
      do! info := on_crypto (inspect_e2ee_backup path) in
      do! a := st_get in
      let preserve := keeps_current a (get_str0 "identity_fingerprint" info) in
      do! summary := st_lift (backup_summary info preserve) in
      st_ret (Some (summary, preserve)))
    (fun e => do! _ := warn_box "E2EE Restore Failed" (exc_text e) in st_ret None).

Definition merged_text (files : pyval) : string :=
  "Merged " +:+ py_str files +:+ " encrypted cache file(s)." +:+ nl +:+ nl +:+
  "The current safety key was kept. Old identity, prekey, ratchet, group and verification state from the backup was not published over the rotated account state.".
Definition restored_text (files : pyval) : string :=
  "Restored " +:+ py_str files +:+ " encrypted state file(s)." +:+ nl +:+ nl +:+
  "Your key bundle was re-published for this account. Review safety numbers with contacts after restoring on a new device.".
Definition bad_passphrase_text : string :=
  "Backup could not be decrypted. Check the backup passphrase and make sure the file was not modified.".

(** The conversations with messages on the page, and the open one. *)
Definition shown_convs (v : view) : gset Z :=
  dom (hist (tl v)) ∪ (if 0 <? active_conv v then {[active_conv v]} else ∅).
Definition forget_shown : am unit :=
  do! a := st_get in
  st_for (elements (shown_convs (chat a))) (fun c => on_timeline (invalidate_history c true)).

Definition after_merge (result : dict) : am unit :=
  do! _ := ask "get_inbox" in
  do! a := st_get in
  do! _ := (if 0 <? active_conv (chat a) then _get_history (active_conv (chat a)) else st_ret tt) in
  warn_box "E2EE Backup" (merged_text (dget "files" PNone result)).
Definition after_restore (result : dict) : am unit :=
  do! _ := on_ks (fun k => k <| publish_blocked := false |>) in
  do! _ := _upload_current_key_bundle in
  do! _ := _publish_fresh_pqxdh_bundle_for_current_device oqs in
  do! _ := ask "get_inbox" in
  warn_box "E2EE Backup" (restored_text (dget "files" PNone result)).

Definition restore_with (path passphrase : string) (preserve : bool) : am unit :=
  do! result := on_crypto (restore_e2ee_backup path passphrase true preserve) in
  do! a := st_get in
  do! _ := on_view (ChatView.set_cache_policy (get_cache_policy (crypto a))) in
  do! _ := forget_shown in
  if truthy (dget "preserved_current_identity" PNone result) then after_merge result else after_restore result.

(** The user has said yes, and typed a passphrase or given up. *)
Definition restore_confirmed (path : string) (preserve : bool) (answer : option string) : am unit :=
  do! passphrase := _backup_passphrase "Restore E2EE Backup" answer in
  match passphrase with
  | None => st_ret tt
  | Some pass =>
      st_catch (restore_with path pass preserve) (fun e =>
        warn_box "E2EE Restore Failed" (match e with InvalidTag => bad_passphrase_text | e => exc_text e end))
  end.

(** ** The policy of the cache *)

Definition _update_local_cache_policy (policy : dict) : am unit :=
  do! ttl := st_lift (py_int (dget "ttl_days" (PInt 30) policy)) in
  do! ids := st_lift (match dget "disabled_conversation_ids" PNone policy with
                      | PNone => Ok None
                      | v => let! l := py_iter v in Ok (Some l)
                      end) in
  do! saved := on_crypto (CacheStore.set_cache_policy (Some (truthy (dget "enabled" (PBool true) policy))) (Some ttl)
                            (Some (truthy (dget "clear_on_logout" (PBool false) policy))) ids) in
  on_view (ChatView.set_cache_policy saved).
End backup_dialogs.

(** ** Menus *)

Section menus.
Context `{P : Prims, O : Os, U : UnicodeTables, E : Env}.

Definition grant (w : wish) : am unit :=
  match w with
  | WCache conv_id enabled => _update_conversation_cache_policy conv_id enabled
  | WClearCache conv_id => _clear_conversation_message_cache conv_id
  | WClearAllCache => _clear_local_message_cache
  | WCachePolicy policy => _update_local_cache_policy policy
  | WAddToGroup group_id uid => _add_to_group group_id uid
  | WCreateGroup name members => _create_group name members
  | WDisband conv_id => _disband_group conv_id
  | WDelete _ mid => _delete_message mid
  | WProfile uid => _view_profile uid
  | WFriendRequest uid => _friend_request uid
  | WStart uid => _start_dm uid
  | WUnfriend uid => _unfriend uid
  | WPassword current new => _change_password current new
  end.
Definition grant_if (o : option wish) : am unit := match o with Some w => grant w | None => st_ret tt end.

Definition menu_chosen (c : choice) (a : replies) : am unit :=
  do! o := with_signals (choose c a) in grant_if o.
(** The policy is applied before the privacy command leaves. *)
Definition privacy_saved (f : privacy_form) : am unit :=
  do! w := on_view (save_privacy f) in
  do! _ := grant w in run_signals.
Definition group_form (o : option (string * list Z)) : am unit :=
  do! o := with_signals (_show_create_group o) in grant_if o.

(** The button of the form for the own profile that was pressed. Restoring a backup and
    changing the password have dialogs of their own. *)
Inductive profile_action :=
| PrivacySettings | BlockedList | RotateKey (confirmed : bool) | ExportBackup (path : string) (include_cache : bool) (answer : option string)
| BackupStatus | RevokeBackups (confirmed : bool)
| SaveProfile (display_name bio : string) (avatar : option (bytes * string)) (remove_av : bool).
Definition profile_form (oqs : option (option (list string))) (x : profile_action) : am unit :=
  match x with
  | PrivacySettings => ask "get_privacy"
  | BlockedList => ask "get_blocked_list"
  | RotateKey confirmed => _rotate_identity oqs confirmed
  | ExportBackup path include_cache answer => _export_e2ee_backup path include_cache answer
  | BackupStatus => _show_backup_status
  | RevokeBackups confirmed => _revoke_local_backups confirmed
  | SaveProfile display_name bio avatar remove_av => save_profile display_name bio avatar remove_av
  end.
End menus.
