(* ===== verification/AppInbox.v ===== *)
(** * The application: the list of conversations, and the table of handlers (client/app.py)

    [_handle_inbox] completes the records the server sends (peer, last message in
    plaintext, what counts as unread) and hands them to the page; [_net_msg] calls
    the handler of a message by its type and drops the exception of a handler. *)

From S2P Require Import Prelude Hashing Base64 PyVal Sorting Json Crypto Wire Ratchet AuditClient Utils Session.
From S2P Require Import Pqxdh CacheStore Transcript Identity DrStore IdentityAudit MlsBridge Mls Messages Cleanup.
From S2P Require Import WebSocket ChatPage ChatView App AppIdentity AppMembers AppMessages AppGroups AppKeys AppReview.

(** ** Previews *)

(** The text inside a body with metadata, [body] itself when it cannot be read. *)
Definition inner_text (body : string) : string :=
  match (let! raw := b64d (sdrop (String.length PREFIX_META) body) in
         let! v := loads_bytes raw in as_dict v) with
  | Ok meta => let inner := py_str (dget "body" (PStr body) meta) in if starts_with "FILE:" inner then "[File]" else inner
  | Err _ => body
  end.
Definition _preview_plaintext (body : string) : string :=
  if starts_with PREFIX_SYSTEM body then strip (sdrop (String.length PREFIX_SYSTEM) body)
  else if starts_with "FILE:" body then "[File]"
  else if starts_with PREFIX_META body then inner_text body
  else body.

(** Is a wire of a group a control? *)
Definition _is_secure_control_wire (body : string) : res bool :=
  if negb (starts_with PREFIX_MLS body) then Ok false
  else
    match json_unb64 (sdrop (String.length PREFIX_MLS) body) with
    | Err _ => Ok false
    | Ok v =>
        let! payload := as_dict v in
        match py_or (dget "event" PNone payload) (dget "kind" PNone payload) with
        | PStr kind => Ok (mem kind ["commit"; "welcome"; "transcript_checkpoint"])
        | PList _ | PDict _ => Err TypeError
        | _ => Ok false
        end
    end.

(** Does the preview pass over a message? *)
Definition passed_over (m : entry) : bool :=
  let text := py_str (py_or (body m) (PStr "")) in
  hidden m || deleted m || negb (nonempty text) || is_control_body (PStr text)
  || (negb (starts_with PREFIX_SYSTEM text) && (starts_with "[Encrypted" text || starts_with "[Cannot" text)).
Definition _latest_visible_preview (p : page) (conv_id : Z) : string :=
  match List.find (fun m => negb (passed_over m)) (rev (messages_of p conv_id)) with
  | Some m => _preview_plaintext (py_str (py_or (body m) (PStr "")))
  | None => ""
  end.

Section inbox.
Context `{P : Prims, O : Os, E : Env}.
Variable oqs : option (option (list string)).

(** ** The records *)

Definition set_preview (text : string) (c : dict) : dict := dset "last_message" (PStr text) c.
Definition not_unread (c : dict) : dict := dset "unread_count" (PInt 0) c.

(** The plaintext of the last message, from the cache. *)
Definition encrypted_preview (conv_id last_id : Z) (wire : string) (c : dict) : am dict :=
  do! hit := (if last_id =? 0 then st_ret None
              else do! cache := on_crypto (load_cached_messages conv_id) in st_ret (CacheStore.by_id cache !! last_id)) in
  match hit with
  | Some (kv :: d) =>
      do! text := st_lift (unpack_plaintext (dget "body" (PStr "") (kv :: d))) in
      do! text := st_lift (as_str text) in
      st_ret (set_preview (_preview_plaintext text) c)
  | _ => st_ret (if starts_with PREFIX_PQ_INIT wire then not_unread (set_preview "" c) else set_preview "" c)
  end.

Definition last_preview (conv_id last_id : Z) (c : dict) : am dict :=
  do! last := st_lift (match dget "last_message" (PStr "") c with PStr s => Ok s | _ => Err AttributeError end) in
  if starts_with PREFIX_SYSTEM last then st_ret (set_preview (_preview_plaintext last) c)
  else
    do! control := st_lift (_is_secure_control_wire last) in
    if control : bool then
      do! a := st_get in
      let text := _latest_visible_preview (tl (chat a)) conv_id in
      st_ret (if nonempty text then set_preview text c else not_unread (set_preview text c))
    else if starts_with PREFIX_PQ_INIT last || starts_with PREFIX_DR last || starts_with PREFIX_MLS last then
      encrypted_preview conv_id last_id last c
    else st_ret (if starts_with "FILE:" last then set_preview "[File]" c else c).

Definition is_group_record (c : dict) : bool := truthy (dget "is_group" (PBool false) c).

(** [with_user_id] and [user_id] of a direct conversation. *)
Definition with_peer (c : dict) : res (Z * dict) :=
  if is_group_record c then Ok (0, c)
  else
    let! peer := listed_peer ["with_user_id"; "other_id"; "user_id"; "friend_id"] c in
    Ok (peer, dset "user_id" (PInt peer) (dset "with_user_id" (PInt peer) c)).
Definition group_fields (c : dict) : res dict :=
  if is_group_record c then
    let! creator := get_int0 "creator_id" c in
    Ok (dset "is_disbanded" (PBool (truthy (dget "is_disbanded" (PBool false) c))) (dset "creator_id" (PInt creator) c))
  else Ok c.

Definition complete_record (me : Z) (c : dict) : am dict :=
  do! conv_id := st_lift (raw_conv_id c) in
  do! (peer, c) := st_lift (with_peer (dset "conversation_id" (PInt conv_id) c)) in
  let group := is_group_record c in
  if (0 <? me) && negb group && (peer =? me) then st_ret (dset "hidden" (PBool true) c)
  else
    do! c := st_lift (group_fields c) in
    do! last_id := st_lift (get_int0 "last_message_id" c) in
    do! last_sender := st_lift (get_int0 "last_sender_id" c) in
    let c := dset "last_sender_id" (PInt last_sender) (dset "last_message_id" (PInt last_id) c) in
    do! _ := (if negb group && (0 <? peer) && negb (peer =? me)
              then on_crypto (st_modify (fun s => s <| conv_peer_uids ::= <[conv_id := peer]> |>)) else st_ret tt) in
    last_preview conv_id last_id c.

Definition complete_all (me : Z) (l : list dict) : am (list dict) :=
  st_fold (fun out c => do! c := complete_record me c in st_ret (out ++ [c])) [] l.

(** ** The list *)

Definition open_pending : am unit :=
  do! a := st_get in
  let conv_id := pending_open_conv (chat a) in
  if conv_id =? 0 then st_ret tt
  else
    do! _ := open_later 0 false in
    with_signals (_switch_to_conv conv_id (pending_open_is_group (chat a))).

Definition _handle_inbox (msg : dict) : am unit :=
  do! all := st_lift (let! l := py_iter (dget "conversations" (PList []) msg) in res_map as_dict l) in
  do! a := st_get in
  do! dms := complete_all (my_uid_of a) (List.filter (fun c => negb (is_group_record c)) all) in
  do! groups := complete_all (my_uid_of a) (List.filter is_group_record all) in
  let dms := List.filter (fun c => negb (truthy (dget "hidden" PNone c))) dms in
  do! dm_ids := st_lift (res_map raw_conv_id dms) in
  do! group_ids := st_lift (res_map raw_conv_id groups) in
  do! _ := on_qs (fun q => q <| inbox_ids := dm_ids ++ group_ids |>) in
  do! _ := on_crypto (st_modify (fun s => s <| group_conv_ids := list_to_set group_ids |>)) in
  do! _ := with_signals (update_inbox dms groups) in
  do! _ := st_for (dm_ids ++ group_ids) (fun c => st_catch (_refresh_security_ui c) (fun _ => st_ret tt)) in
  open_pending.

(** ** Pinned messages *)

Definition encrypted_label : pyval := PStr "[Encrypted message]".
Definition pinned_item (cached : cached) (v : pyval) : res dict :=
  let! raw := py_dict v in
  let! mid := get_int0 "message_id" raw in
  let! body := (match dget "body" (PStr "") raw with PStr s => Ok s | _ => Err AttributeError end) in
  let! text := unpack_plaintext (
    if starts_with PREFIX_PQ_INIT body || starts_with PREFIX_DR body || starts_with PREFIX_MLS body then
      match CacheStore.by_id cached !! mid with Some (kv :: d) => dget "body" encrypted_label (kv :: d) | _ => encrypted_label end
    else if starts_with "FILE:" body then PStr "[File]" else PStr body) in
  let! text := as_str text in
  Ok (dset "body" (PStr (_preview_plaintext text)) raw).
(** The conversation and the rows of the dialog. *)
Definition _handle_pinned_messages (msg : dict) : am (Z * list dict) :=
  do! conv_id := st_lift (plain_int "conversation_id" msg) in
  do! cached := on_crypto (load_cached_messages conv_id) in
  do! l := st_lift (py_iter (dget "messages" (PList []) msg)) in
  do! rows := st_lift (res_map (pinned_item cached) l) in
  st_ret (conv_id, rows).

Definition _handle_friend_requests (msg : dict) : am unit :=
  do! l := st_lift (py_iter (dget "requests" (PList []) msg)) in on_view (update_requests l).

(** ** The table *)

(** Settings, lists of blocked people and the results of a search only open dialogs
    or fill lists. *)
Definition handler (fuel : nat) (typ : string) (msg : dict) : am unit :=
  if String.eqb typ "ok" then _handle_ok oqs msg
  else if String.eqb typ "error" then _handle_error msg
  else if String.eqb typ "session_replaced" then _handle_session_replaced msg
  else if String.eqb typ "friends_list" then _handle_friends_list msg
  else if String.eqb typ "friend_requests" then _handle_friend_requests msg
  else if String.eqb typ "inbox" then _handle_inbox msg
  else if String.eqb typ "message" then _handle_message oqs fuel msg
  else if String.eqb typ "history" then _handle_history oqs msg
  else if String.eqb typ "friend_request_received" then _handle_friend_request_received
  else if mem typ ["friend_accepted"; "friend_removed"; "presence"] then _handle_presence
  else if String.eqb typ "group_created" then _handle_group_created msg
  else if String.eqb typ "group_change_prepared" then _handle_group_change_prepared msg
  else if String.eqb typ "group_change_applied" then _handle_group_change_applied msg
  else if String.eqb typ "mls_key_packages_uploaded" then _handle_mls_key_packages_uploaded
  else if String.eqb typ "mls_key_package" then _handle_mls_key_package msg
  else if String.eqb typ "mls_handshake" then _handle_mls_handshake oqs fuel msg
  else if String.eqb typ "dm_ready" then _handle_dm_ready msg
  else if String.eqb typ "added_to_group" then _handle_added_to_group msg
  else if String.eqb typ "member_added" then _handle_member_added msg
  else if String.eqb typ "pqxdh_bundle" then _handle_pqxdh_bundle oqs fuel msg
  else if String.eqb typ "my_keys" then _handle_my_keys oqs msg
  else if String.eqb typ "pqxdh_status" then _handle_pqxdh_status oqs msg
  else if String.eqb typ "message_edited" then _handle_message_edited msg
  else if String.eqb typ "message_deleted" then _handle_message_deleted msg
  else if String.eqb typ "group_disbanded" then _handle_group_disbanded msg
  else if String.eqb typ "group_info" then do! _ := _handle_group_info msg in st_ret tt
  else if String.eqb typ "pinned_messages" then do! _ := _handle_pinned_messages msg in st_ret tt
  else if String.eqb typ "message_pinned" then _handle_message_pinned msg
  else if String.eqb typ "message_unpinned" then _handle_message_unpinned msg
  else if String.eqb typ "reaction_added" then _handle_reaction_added msg
  else if String.eqb typ "reaction_removed" then _handle_reaction_removed msg
  else if String.eqb typ "typing_start" then _handle_typing_start msg
  else if String.eqb typ "typing_stop" then _handle_typing_stop msg
  else if mem typ ["identity_changed"; "safety_number_changed"] then _handle_identity_changed msg
  else if String.eqb typ "profile" then do! _ := _handle_profile msg in st_ret tt
  else if String.eqb typ "profile_updated" then _handle_profile_updated msg
  else if String.eqb typ "member_removed" then _handle_member_removed msg
  else if mem typ ["disappearing_updated"; "member_left"; "member_role_changed"; "group_info_updated"] then
    _handle_ui_refresh msg
  else st_ret tt.

(** A message from a socket that is gone is passed over; an exception of a handler
    goes to the log. *)
Definition _net_msg (fuel : nat) (msg : dict) : am unit :=
  do! a := st_get in
  match ws (cn a) with
  | None => st_ret tt
  | Some _ =>
      match dget "type" (PStr "") msg with
      | PStr typ => st_catch (handler fuel typ msg) (fun _ => st_ret tt)
      | PList _ | PDict _ => st_fail TypeError
      | _ => st_ret tt
      end
  end.
End inbox.
