(* ===== verification/AppFacts.v ===== *)
(** * Lemmas on the application

    [neutral m]: the method [m] leaves the queues of messages ([qs]) alone. The hint
    database [neutral] has the methods that are. *)

From S2P Require Import Prelude Hashing Base64 PyVal Sorting Json Crypto Wire Ratchet AuditClient Utils Session.
From S2P Require Import Pqxdh CacheStore Transcript Identity DrStore IdentityAudit MlsBridge Mls Messages Cleanup.
From S2P Require Import WebSocket ChatPage ChatView App AppIdentity AppMembers AppMessages AppGroups AppKeys AppInbox.

Definition neutral {A} (m : am A) : Prop := forall a, qs (fst (m a)) = qs a.
Create HintDb neutral.

Lemma neutral_bind {A B} (m : am A) (k : A -> am B) : neutral m -> (forall x, neutral (k x)) -> neutral (st_bind m k).
Proof.
  intros Hm Hk a. unfold st_bind. specialize (Hm a). destruct (m a) as [a1 [x|e]]; cbn in *; [|done].
  by rewrite Hk.
Qed.
Lemma neutral_catch {A} (m : am A) h : neutral m -> (forall e, neutral (h e)) -> neutral (st_catch m h).
Proof.
  intros Hm Hh a. unfold st_catch. specialize (Hm a). destruct (m a) as [a1 [x|e]]; cbn in *; [done|].
  by rewrite Hh.
Qed.
Lemma neutral_for {A} (l : list A) f : (forall x, neutral (f x)) -> neutral (st_for l f).
Proof. intros Hf. induction l as [|x l IH]; [done|]. by apply neutral_bind. Qed.
Lemma neutral_fold {A B} (f : B -> A -> am B) l acc : (forall b x, neutral (f b x)) -> neutral (st_fold f acc l).
Proof. intros Hf. revert acc. induction l as [|x l IH]; intros acc; [done|]. apply neutral_bind; [done|]. intros b. apply IH. Qed.
Lemma neutral_ret {A} (x : A) : neutral (st_ret x). Proof. done. Qed.
Lemma neutral_fail {A} e : neutral (A := A) (st_fail e). Proof. done. Qed.
Lemma neutral_lift {A} (m : res A) : neutral (st_lift m). Proof. done. Qed.
Lemma neutral_get : neutral st_get. Proof. done. Qed.
Lemma neutral_on_crypto {A} (m : sm A) : neutral (on_crypto m).
Proof. intros a. unfold on_crypto. by destruct (m (crypto a)). Qed.
Lemma neutral_on_view {A} (m : vm A) : neutral (on_view m).
Proof. intros a. unfold on_view. by destruct (m (chat a)). Qed.
Lemma neutral_on_timeline {A} (m : pm A) : neutral (on_timeline m). Proof. apply neutral_on_view. Qed.
Lemma neutral_on_cn f : neutral (on_cn f). Proof. done. Qed.
Lemma neutral_on_ks f : neutral (on_ks f). Proof. done. Qed.
Lemma neutral_on_gs f : neutral (on_gs f). Proof. done. Qed.
Lemma neutral_warn_box x y : neutral (warn_box x y). Proof. done. Qed.
Lemma neutral_refresh : neutral refresh_inbox. Proof. done. Qed.
#[export] Hint Resolve neutral_ret neutral_fail neutral_lift neutral_get neutral_on_crypto neutral_on_view neutral_on_timeline
  neutral_on_cn neutral_on_ks neutral_on_gs neutral_warn_box neutral_refresh : neutral.

Ltac neutral_tac :=
  repeat first
    [ solve [auto with neutral]
    | apply neutral_bind; [|intros ?]
    | apply neutral_catch; [|intros ?]
    | apply neutral_for; intros ?
    | apply neutral_fold; intros ? ?
    | match goal with
      | |- neutral (match ?x with _ => _ end) => destruct x
      | |- neutral (let (_, _) := ?x in _) => destruct x
      end ].

Section facts.
Context `{P : Prims, O : Os, E : Env}.
Variable oqs : option (option (list string)).

Lemma neutral_schedule : neutral _schedule_reconnect. Proof. unfold _schedule_reconnect. neutral_tac. Qed.
Hint Resolve neutral_schedule : neutral.
Lemma neutral_net_close r : neutral (_net_close r). Proof. unfold _net_close. neutral_tac. Qed.
Hint Resolve neutral_net_close : neutral.
Lemma neutral_ws_send obj : neutral (ws_send obj). Proof. unfold ws_send. neutral_tac. Qed.
Hint Resolve neutral_ws_send : neutral.
Lemma neutral_safe_send obj : neutral (_safe_send obj). Proof. unfold _safe_send. neutral_tac. Qed.
Hint Resolve neutral_safe_send : neutral.
Lemma neutral_request obj : neutral (request obj). Proof. unfold request. neutral_tac. Qed.
Lemma neutral_ask t : neutral (ask t). Proof. apply neutral_request. Qed.
Lemma neutral_ask_conv t k c : neutral (ask_conv t k c). Proof. apply neutral_request. Qed.
Hint Resolve neutral_request neutral_ask neutral_ask_conv : neutral.

Lemma neutral_set_fp c fp : neutral (set_fp c fp). Proof. apply neutral_on_crypto. Qed.
Lemma neutral_show_fp fp b : neutral (show_fp fp b). Proof. apply neutral_on_view. Qed.
Hint Resolve neutral_set_fp neutral_show_fp : neutral.
Lemma neutral_fingerprint c : neutral (_safety_fingerprint_for_conv c).
Proof. unfold _safety_fingerprint_for_conv. neutral_tac. Qed.
Hint Resolve neutral_fingerprint : neutral.
Lemma neutral_security c : neutral (_security_status_for_conv c).
Proof. unfold _security_status_for_conv. neutral_tac. Qed.
Hint Resolve neutral_security : neutral.
Lemma neutral_refresh_ui c : neutral (_refresh_security_ui c).
Proof. unfold _refresh_security_ui. neutral_tac. Qed.
Hint Resolve neutral_refresh_ui : neutral.
Lemma neutral_verify peer v pk d : neutral (verify_now peer v pk d). Proof. unfold verify_now. neutral_tac. Qed.
Hint Resolve neutral_verify : neutral.
Lemma neutral_audit_key src peer v pk s d f : neutral (audit_key src peer v pk s d f).
Proof. unfold audit_key. neutral_tac. Qed.
Hint Resolve neutral_audit_key : neutral.
Lemma neutral_recover peer pk v s c : neutral (_recover_identity_audit_version_mismatch peer pk v s c).
Proof. unfold _recover_identity_audit_version_mismatch. neutral_tac. Qed.
Hint Resolve neutral_recover : neutral.
Lemma neutral_auditor_failed x y z : neutral (auditor_failed x y z). Proof. unfold auditor_failed. neutral_tac. Qed.
Hint Resolve neutral_auditor_failed : neutral.
Lemma neutral_audit_bundle c msg : neutral (_audit_pqxdh_bundle_identity c msg).
Proof. unfold _audit_pqxdh_bundle_identity, audit_refused, auditor_down. neutral_tac. Qed.
Hint Resolve neutral_audit_bundle : neutral.
Lemma neutral_incoming c d : neutral (_record_incoming_pq_identity c d).
Proof. unfold _record_incoming_pq_identity. neutral_tac. Qed.
Hint Resolve neutral_incoming : neutral.

Lemma neutral_learn_peer c d : neutral (learn_peer c d). Proof. unfold learn_peer. neutral_tac. Qed.
Lemma neutral_learn_fp c d : neutral (learn_fingerprint c d). Proof. unfold learn_fingerprint. neutral_tac. Qed.
Lemma neutral_warning c d : neutral (security_warning c d). Proof. apply neutral_on_view. Qed.
Lemma neutral_cache c m s b t : neutral (_cache_message c m s b t). Proof. apply neutral_on_crypto. Qed.
Lemma neutral_record c m s b t e r : neutral (record_message c m s b t e r). Proof. unfold record_message. neutral_tac. Qed.
Hint Resolve neutral_learn_peer neutral_learn_fp neutral_warning neutral_cache neutral_record : neutral.
Lemma neutral_dm_peer c : neutral (_peer_uid_for_dm_conv c). Proof. unfold _peer_uid_for_dm_conv. neutral_tac. Qed.
Hint Resolve neutral_dm_peer : neutral.
Lemma neutral_ensure c : neutral (_ensure_pqxdh_dm_session c). Proof. unfold _ensure_pqxdh_dm_session. neutral_tac. Qed.
Hint Resolve neutral_ensure : neutral.
Lemma neutral_encrypt c t : neutral (_encrypt_for_conv c t). Proof. unfold _encrypt_for_conv. neutral_tac. Qed.
Lemma neutral_review c : neutral (_require_identity_review_before_send c).
Proof. unfold _require_identity_review_before_send. neutral_tac. Qed.
Lemma neutral_get_history c : neutral (_get_history c). Proof. unfold _get_history. neutral_tac. Qed.
Lemma neutral_ui_command d : neutral (_handle_ui_command d). Proof. unfold _handle_ui_command. neutral_tac. Qed.
Hint Resolve neutral_encrypt neutral_review neutral_get_history neutral_ui_command : neutral.

Lemma neutral_attempt : neutral _attempt_reconnect.
Proof. unfold _attempt_reconnect, _teardown_ws, _setup_ws, start_connection. neutral_tac. Qed.
Lemma neutral_open : neutral _net_open. Proof. unfold _net_open. neutral_tac. Qed.
Lemma neutral_reconnected : neutral reconnected.
Proof. unfold reconnected, ask_lists, start_poll. neutral_tac. Qed.
Lemma neutral_no_bundle d : neutral (no_bundle d). Proof. unfold no_bundle. neutral_tac. Qed.
Hint Resolve neutral_no_bundle : neutral.
Lemma neutral_error d : neutral (_handle_error d).
Proof. unfold _handle_error, block_publishing, report_error. neutral_tac. Qed.
End facts.
#[export] Hint Resolve neutral_schedule neutral_net_close neutral_ws_send neutral_safe_send neutral_request neutral_ask neutral_ask_conv
  neutral_set_fp neutral_show_fp neutral_fingerprint neutral_refresh_ui neutral_audit_bundle neutral_incoming
  neutral_learn_peer neutral_learn_fp neutral_warning neutral_cache neutral_record neutral_ensure neutral_encrypt neutral_review
  neutral_get_history neutral_ui_command neutral_attempt neutral_open neutral_reconnected neutral_error : neutral.
