(* ===== verification/AppEcho.v ===== *)
(** * Theorems about the queue of texts whose echo is awaited *)

From S2P Require Import Prelude Hashing Base64 PyVal Sorting Json Crypto Wire Ratchet AuditClient Utils Session.
From S2P Require Import Pqxdh CacheStore Transcript Identity DrStore IdentityAudit MlsBridge Mls Messages Cleanup.
From S2P Require Import WebSocket ChatPage ChatPageFacts ChatPageProps ChatView App AppIdentity AppMembers AppMessages AppGroups AppKeys AppInbox AppFacts.

(** ** A message that stays shown *)

Lemma edit_list_keeps e l m : m ∈ l -> target_msg_id e <> msg_id m -> m ∈ edit_list e l.
Proof.
  intros Hm Ht. unfold edit_list. destruct (map_first _ _ l) as [l'|] eqn:E; [|done]. cbn [default].
  destruct (map_first_spec _ _ _ _ E) as (a & x & b & -> & _ & Hx & ->). apply Z.eqb_eq in Hx.
  change (m ∈ a ++ put_body e x :: b). rewrite elem_of_app, elem_of_cons in *. destruct Hm as [?|[->|?]]; [by left|congruence|by right; right].
Qed.
Lemma edit_all_keeps es l m : m ∈ l -> Forall (fun e => target_msg_id e <> msg_id m) es -> m ∈ edit_all es l.
Proof. intros Hm Hes. revert l Hm. induction Hes as [|e es He _ IH]; intros l Hm; [done|]. cbn [edit_all]. apply IH. by apply edit_list_keeps. Qed.

(** The message [mid] of conversation [c] is shown with the body [b]. *)
Definition shows (c mid : Z) (b : pyval) (p : page) : Prop :=
  exists m, m ∈ messages_of p c /\ msg_id m = mid /\ body m = b /\ sending m = false.

Section shown.
Variables (c mid : Z) (b : pyval).

Lemma shows_hist p p' : hist p' = hist p -> shows c mid b p -> shows c mid b p'.
Proof. intros H (m & Hm & ?). exists m. unfold messages_of in *. by rewrite H. Qed.

Lemma shows_set c' l p : (forall m, c' = c -> m ∈ messages_of p c -> sending m = false -> m ∈ l) ->
  shows c mid b p -> shows c mid b (p <| hist ::= <[c' := l]> |>).
Proof.
  intros Hl (m & Hm & Hi & Hb & Hs). exists m. split; [|done]. destruct (decide (c' = c)) as [->|Hne].
  - rewrite (messages_insert _ (hist p) c l) by done. by apply Hl.
  - by rewrite (messages_other p _ c' c l) by done.
Qed.

Lemma shows_append c' m : keeps (shows c mid b) (append_entry c' m).
Proof.
  intros p Hp. unfold append_entry, set_messages, st_bind, st_get, st_modify. cbn [fst]. apply shows_set; [|done].
  intros m' -> Hm' _. apply elem_of_app. by left.
Qed.
Lemma shows_local : keeps (shows c mid b) next_local_id.
Proof. unfold next_local_id. keeps_tac. Qed.
Lemma shows_failed c' t r f : keeps (shows c mid b) (show_send_failed c' t r f).
Proof. unfold show_send_failed. keeps_tac; [apply shows_local|apply shows_append]. Qed.
Lemma shows_pending c' t f r : keeps (shows c mid b) (show_send_pending c' t f r).
Proof. unfold show_send_pending. keeps_tac; [apply shows_local|apply shows_append]. Qed.
Lemma shows_removed c' t i : keeps (shows c mid b) (remove_pending_send c' t i).
Proof.
  unfold remove_pending_send. intros p Hp. unfold st_bind, st_get. destruct (remove_first _ _) as [l|] eqn:E; [|done].
  unfold set_messages, st_modify. cbn [fst]. apply shows_set; [|done]. intros m -> Hm Hs.
  clear Hp. revert l E. induction (messages_of p c) as [|x l' IH]; intros l E; [by apply not_elem_of_nil in Hm|]. cbn [remove_first] in E.
  apply elem_of_cons in Hm as [->|Hm].
  - unfold is_pending_send in E. rewrite Hs in E. cbn [andb] in E. destruct (remove_first _ l'); [|discriminate]. injection E as <-.
    apply elem_of_cons. by left.
  - destruct (is_pending_send _ _ x); [by injection E as <-|]. destruct (remove_first _ l') as [l''|]; [|discriminate]. injection E as <-.
    apply elem_of_cons. right. by apply IH.
Qed.
Lemma shows_interrupted r : keeps (shows c mid b) (mark_pending_sends_failed r).
Proof.
  intros p (m & Hm & Hi & Hb & Hs). exists m. split; [|done]. unfold messages_of in *. cbn. rewrite lookup_fmap.
  destruct (hist p !! c) as [l|]; [|done]. cbn in *. apply list_elem_of_fmap. exists m. split; [|done]. unfold fail_send. by rewrite Hs.
Qed.
End shown.
#[export] Hint Resolve shows_failed shows_pending shows_removed shows_interrupted : neutral.

(** A method of the page that leaves the timelines alone. *)
Definition aside {A} (m : vm A) : Prop := forall v, hist (tl (fst (m v))) = hist (tl v).
Lemma aside_bind {A B} (m : vm A) (k : A -> vm B) : aside m -> (forall x, aside (k x)) -> aside (st_bind m k).
Proof.
  intros Hm Hk a. unfold st_bind. specialize (Hm a). destruct (m a) as [a1 [x|e]]; cbn in *; [|done].
  by rewrite Hk.
Qed.
Lemma aside_warning c l : aside (show_security_warning c l). Proof. done. Qed.
Lemma aside_fingerprint fp v : aside (set_fingerprint fp v).
Proof. intros x. unfold set_fingerprint, st_bind, st_get. by destruct (active_is_group _). Qed.
Lemma aside_input c : aside (refresh_input c).
Proof. intros x. unfold refresh_input, st_bind, st_get. by destruct (_ =? _). Qed.
Lemma aside_security c s l d b : aside (set_conversation_security c s l d b).
Proof.
  unfold set_conversation_security. apply aside_bind; [done|]. intros v. apply aside_bind; [done|]. intros g.
  apply aside_bind; [by destruct (badge_of _ _ _ _ _)|]. intros _. apply aside_input.
Qed.
#[export] Hint Resolve aside_warning aside_fingerprint aside_security : neutral.

(** ** Methods of the application that keep it shown *)
Section steady.
Context `{P : Prims, O : Os, E : Env}.
Variable oqs : option (option (list string)).
Variables (c mid : Z) (b : pyval).

Definition steady {A} (m : am A) : Prop := keeps (fun a => shows c mid b (tl (chat a))) m.

Lemma steady_bind {A B} (m : am A) (k : A -> am B) : steady m -> (forall x, steady (k x)) -> steady (st_bind m k).
Proof. apply keeps_bind. Qed.
Lemma steady_catch {A} (m : am A) h : steady m -> (forall e, steady (h e)) -> steady (st_catch m h).
Proof. apply keeps_catch. Qed.
Lemma steady_for {A} (l : list A) f : (forall x, steady (f x)) -> steady (st_for l f).
Proof. apply keeps_for. Qed.
Lemma steady_ret {A} (x : A) : steady (st_ret x). Proof. by intros a. Qed.
Lemma steady_fail {A} e : steady (A := A) (st_fail e). Proof. by intros a. Qed.
Lemma steady_lift {A} (m : res A) : steady (st_lift m). Proof. by intros a. Qed.
Lemma steady_get : steady st_get. Proof. by intros a. Qed.
Lemma steady_on_crypto {A} (m : sm A) : steady (on_crypto m).
Proof. intros a. unfold on_crypto. by destruct (m (crypto a)). Qed.
Lemma steady_on_cn f : steady (on_cn f). Proof. by intros a. Qed.
Lemma steady_on_ks f : steady (on_ks f). Proof. by intros a. Qed.
Lemma steady_on_gs f : steady (on_gs f). Proof. by intros a. Qed.
Lemma steady_on_qs f : steady (on_qs f). Proof. by intros a. Qed.
Lemma steady_warn_box x y : steady (warn_box x y). Proof. by intros a. Qed.
Lemma steady_on_timeline {A} (m : pm A) : keeps (shows c mid b) m -> steady (on_timeline m).
Proof.
  intros Hm a Ha. unfold on_timeline, on_view, on_page. specialize (Hm (tl (chat a)) Ha). by destruct (m (tl (chat a))).
Qed.
Lemma steady_aside {A} (m : vm A) : aside m -> steady (on_view m).
Proof.
  intros Hm a. apply shows_hist. unfold on_view. specialize (Hm (chat a)). by destruct (m (chat a)).
Qed.
Hint Resolve steady_ret steady_fail steady_lift steady_get steady_on_crypto steady_on_cn steady_on_ks steady_on_gs
  steady_on_qs steady_warn_box steady_on_timeline steady_aside : neutral.

Ltac steady_tac :=
  repeat first
    [ solve [auto with neutral]
    | apply steady_bind; [|intros ?]
    | apply steady_catch; [|intros ?]
    | apply steady_for; intros ?
    | match goal with
      | |- steady (match ?x with _ => _ end) => destruct x
      | |- steady (let (_, _) := ?x in _) => destruct x
      end ].

Lemma steady_schedule : steady _schedule_reconnect. Proof. unfold _schedule_reconnect. steady_tac. Qed.
Hint Resolve steady_schedule : neutral.
Lemma steady_net_close r : steady (_net_close r). Proof. unfold _net_close. steady_tac. Qed.
Hint Resolve steady_net_close : neutral.
Lemma steady_ws_send obj : steady (ws_send obj). Proof. unfold ws_send. steady_tac. Qed.
Hint Resolve steady_ws_send : neutral.
Lemma steady_safe_send obj : steady (_safe_send obj). Proof. unfold _safe_send. steady_tac. Qed.
Hint Resolve steady_safe_send : neutral.
Lemma steady_request obj : steady (request obj). Proof. unfold request. steady_tac. Qed.
Lemma steady_ask t : steady (ask t). Proof. apply steady_request. Qed.
Lemma steady_ask_conv t k d : steady (ask_conv t k d). Proof. apply steady_request. Qed.
Lemma steady_refresh : steady refresh_inbox. Proof. apply steady_on_cn. Qed.
Lemma steady_set_fp d fp : steady (set_fp d fp). Proof. apply steady_on_crypto. Qed.
Lemma steady_show_fp fp v : steady (show_fp fp v). Proof. apply steady_aside, aside_fingerprint. Qed.
Hint Resolve steady_request steady_ask steady_ask_conv steady_refresh steady_set_fp steady_show_fp : neutral.
Lemma steady_fingerprint d : steady (_safety_fingerprint_for_conv d).
Proof. unfold _safety_fingerprint_for_conv. steady_tac. Qed.
Hint Resolve steady_fingerprint : neutral.
Lemma steady_security d : steady (_security_status_for_conv d).
Proof. unfold _security_status_for_conv. steady_tac. Qed.
Hint Resolve steady_security : neutral.
Lemma steady_refresh_ui d : steady (_refresh_security_ui d).
Proof. unfold _refresh_security_ui. steady_tac. Qed.
Hint Resolve steady_refresh_ui : neutral.
Lemma steady_dm_peer d : steady (_peer_uid_for_dm_conv d). Proof. unfold _peer_uid_for_dm_conv. steady_tac. Qed.
Hint Resolve steady_dm_peer : neutral.
Lemma steady_ensure d : steady (_ensure_pqxdh_dm_session d). Proof. unfold _ensure_pqxdh_dm_session. steady_tac. Qed.
Hint Resolve steady_ensure : neutral.
Lemma steady_encrypt d t : steady (_encrypt_for_conv d t). Proof. unfold _encrypt_for_conv. steady_tac. Qed.
Lemma steady_review d : steady (_require_identity_review_before_send d).
Proof. unfold _require_identity_review_before_send. steady_tac. Qed.
Lemma steady_get_history d : steady (_get_history d). Proof. unfold _get_history. steady_tac. Qed.
Lemma steady_ui_command d : steady (_handle_ui_command d). Proof. unfold _handle_ui_command. steady_tac. Qed.
Hint Resolve steady_encrypt steady_review steady_get_history steady_ui_command : neutral.
Lemma steady_send d t r : steady (_send_message d t r).
Proof. unfold _send_message, await_echo, give_up_echo. steady_tac. Qed.
Hint Resolve steady_send : neutral.
Lemma steady_edit d m t : steady (_edit_message d m t). Proof. unfold _edit_message. steady_tac. Qed.
Hint Resolve steady_edit : neutral.
Lemma steady_signals : steady run_signals.
Proof.
  unfold run_signals, dispatch, _send_reply_message. steady_tac.
Qed.
Lemma steady_checkpoint d f : steady (_maybe_send_transcript_checkpoint d f).
Proof. unfold _maybe_send_transcript_checkpoint. steady_tac. Qed.
Lemma steady_record d m s x t e r : steady (record_message d m s x t e r). Proof. unfold record_message. steady_tac. Qed.
Lemma steady_cache d m s x t : steady (_cache_message d m s x t). Proof. apply steady_on_crypto. Qed.
Hint Resolve steady_signals steady_checkpoint steady_record steady_cache : neutral.

End steady.

(** ** Only commands *)

Definition is_command (x : signal) : Prop := match x with SigCommand _ => True | _ => False end.
Definition commanding (p : page) : Prop := Forall is_command (signals p).

Lemma commanding_field (f : page -> page) : (forall p, signals (f p) = signals p) -> keeps commanding (st_modify f).
Proof. intros H p Hp. unfold commanding, st_modify. cbn [fst]. by rewrite H. Qed.
Lemma commanding_set c l : keeps commanding (set_messages c l). Proof. by apply commanding_field. Qed.
Lemma commanding_append c m : keeps commanding (append_entry c m). Proof. unfold append_entry. keeps_tac. apply commanding_set. Qed.
Lemma commanding_update c m x e d : keeps commanding (update_message c m x e d).
Proof. unfold update_message. keeps_tac. destruct (map_first _ _ _); keeps_tac. apply commanding_set. Qed.
Lemma commanding_change c x get put : (forall l p, signals (put l p) = signals p) -> keeps commanding (change_list c x get put).
Proof.
  intros Hp. unfold change_list. keeps_tac. match goal with |- keeps _ (match ?o with _ => _ end) => destruct o end; keeps_tac.
  apply commanding_field. intros p. cbn. apply Hp.
Qed.
Lemma commanding_pref c x : keeps commanding (_update_conversation_pref c x).
Proof.
  unfold _update_conversation_pref. keeps_tac; try by apply commanding_change.
  destruct (p_unread x) as [[]|]; [by apply commanding_field|by apply commanding_field|apply keeps_ret].
Qed.
Lemma commanding_edits c : keeps commanding (_apply_pending_edit_events c).
Proof.
  unfold _apply_pending_edit_events. keeps_tac. destruct (default [] _) as [|e es]; [apply keeps_ret|]. apply keeps_bind.
  - apply keeps_fold. intros b x. unfold retry_edit. keeps_tac. apply commanding_update.
  - intros l. by apply commanding_field.
Qed.
Lemma commanding_read : keeps commanding _mark_active_conversation_read.
Proof.
  unfold _mark_active_conversation_read, clear_unread, read_done, emit. keeps_tac; try apply commanding_pref; try by apply commanding_field.
  apply keeps_modify. intros p Hp. by constructor.
Qed.
Lemma commanding_add c s x t m pin rs f r : keeps commanding (add_msg c s x t m pin rs f r).
Proof.
  unfold add_msg, st_when. keeps_tac; first [apply commanding_append|apply commanding_edits|apply commanding_read].
Qed.

(** ** The echo of one's own message *)

(** The fields of an echo the application reads: conversation, identifier, and what
    makes it neither an edit nor malformed. *)
Record echo_of (c mid : Z) (msg : dict) : Prop := {
  eo_conv : get_int0 "conversation_id" msg = Ok c;
  eo_sender : is_ok (py_int (py_or (dget "from_id" (PInt 0) msg) (py_or (dget "sender_id" (PInt 0) msg) (PInt 0)))) = true;
  eo_id : get_int0 "id" msg = Ok mid;
  eo_time : is_ok (ChatPage.ts_short_v (dget "time" (PStr "") msg)) = true;
  eo_edit : get_int0 "edit_target_message_id" msg = Ok 0;
  eo_forwarded : is_ok (get_int0 "forwarded_from_id" msg) = true;
  eo_reply : is_ok (get_int0 "reply_to_message_id" msg) = true;
  eo_reactions : is_ok (_normalize_reactions (py_or (dget "reactions" (PList []) msg) (PList []))) = true
}.

Section echo.
Context `{P : Prims, O : Os, E : Env}.
Variable oqs : option (option (list string)).

(** What an own message is shown as, and the queues after it. *)
Definition next_text (c : Z) (a : app) : string := oldest "[message sent]" c (self_texts (qs a)).

Lemma neutral_commands l : Forall is_command l -> neutral (st_for l dispatch).
Proof.
  induction 1 as [|x l Hx _ IH]; [done|]. apply neutral_bind; [|done].
  destruct x; try done. cbn [dispatch]. apply neutral_bind; [apply neutral_ui_command|done].
Qed.

Lemma signals_neutral a : commanding (tl (chat a)) -> qs (fst (run_signals a)) = qs a.
Proof.
  intros Ha. unfold run_signals. rewrite (run_bind _ _ a a a) by done. unfold st_bind.
  pose proof (neutral_on_timeline (st_modify (fun p => p <| signals := [] |>)) a) as H1.
  destruct (on_timeline _ a) as [a1 [[]|e]]; cbn [fst] in *; [|done]. rewrite <- H1.
  apply (neutral_commands (rev (signals (tl (chat a))))). by apply Forall_rev.
Qed.

Lemma shown_signals {A} c mid b (m : pm A) a : commanding (tl (chat a)) -> keeps commanding m ->
  shows c mid b (fst (m (tl (chat a)))) ->
  shows c mid b (tl (chat (fst (timeline_signals m a)))) /\ qs (fst (timeline_signals m a)) = qs a.
Proof.
  intros Ha Hm Hs. unfold timeline_signals, with_signals. specialize (Hm _ Ha).
  change (on_view (on_page m)) with (on_timeline m). unfold st_bind.
  assert (E1 : tl (chat (fst (on_timeline m a))) = fst (m (tl (chat a)))).
  { unfold on_timeline, on_view, on_page. by destruct (m (tl (chat a))). }
  pose proof (neutral_on_timeline m a) as E2.
  destruct (on_timeline m a) as [a1 [x|e]]; cbn [fst] in *; rewrite <- E1 in *; [|done].
  pose proof (steady_signals c mid b a1 Hs) as H2. pose proof (signals_neutral a1 Hm) as H3.
  destruct (run_signals a1) as [a2 [[]|e]]; cbn [fst] in *; (split; [exact H2|change (qs a2 = qs a); congruence]).
Qed.

(** The message is shown with its text, and the queues are [q]. *)
Definition echoed (c mid : Z) (t : string) (q : queues) (a : app) : Prop :=
  shows c mid (PStr t) (tl (chat a)) /\ self_texts (qs a) = self_texts q /\ self_ids (qs a) = self_ids q.

Lemma bind_case {A B} (Q : app -> Prop) (m : am A) (k : A -> am B) a : Q (fst (m a)) ->
  (forall x a1, Q a1 -> Q (fst (k x a1))) -> Q (fst (st_bind m k a)).
Proof. intros Hm Hk. unfold st_bind. destruct (m a) as [a1 [x|e]]; [by apply Hk|done]. Qed.

Lemma echoed_keeps {A} c mid t q (m : am A) : steady c mid (PStr t) m -> neutral m -> keeps (echoed c mid t q) m.
Proof. intros Hs Hn a (H1 & H2 & H3). split; [by apply Hs|]. by rewrite Hn. Qed.
Lemma echoed_checkpoint c mid t q d f : keeps (echoed c mid t q) (_maybe_send_transcript_checkpoint d f).
Proof.
  unfold _maybe_send_transcript_checkpoint. keeps_tac; try by (apply echoed_keeps; [apply steady_on_cn|apply neutral_on_cn]).
  - apply echoed_keeps; [apply steady_catch; [apply steady_on_crypto|intros e; apply steady_ret]|].
    apply neutral_catch; [apply neutral_on_crypto|done].
  - apply echoed_keeps; [apply steady_safe_send|apply neutral_safe_send].
  - by intros x.
Qed.

(** The part after the queue: the message is shown and the queues stay. *)
Lemma decrypted_shown raw c sender t mid ts a : get_int0 "edit_target_message_id" raw = Ok 0 ->
  is_ok (get_int0 "forwarded_from_id" raw) = true -> is_ok (get_int0 "reply_to_message_id" raw) = true ->
  is_ok (_normalize_reactions (py_or (dget "reactions" (PList []) raw) (PList []))) = true ->
  unpack_plaintext (PStr t) = Ok (PStr t) -> commanding (tl (chat a)) -> convs_ok (tl (chat a)) ->
  Forall (fun e => target_msg_id e <> mid) (waiting (tl (chat a)) c) ->
  echoed c mid t (qs a) (fst (_handle_decrypted_message raw c sender (PStr t) ts mid a)).
Proof.
  intros He (f & Hf)%is_ok_inv (r & Hr)%is_ok_inv (rs & Hrs)%is_ok_inv Hu Hcmd Hok Hw. unfold _handle_decrypted_message.
  rewrite st_bind_lift, Hu, st_bind_lift, He, st_bind_lift. cbn [is_plain_body]. set (plain := _ && _). clearbody plain.
  change (0 <? 0) with false. cbv iota. rewrite st_bind_lift, Hf, st_bind_lift, Hr.
  set (pin := truthy _) in *. apply bind_case.
  - destruct (add_run c sender (PStr t) ts mid pin _ f r (tl (chat a)) rs Hrs Hok) as (p' & Ha & Hm & _).
    destruct (shown_signals c mid (PStr t) _ a Hcmd (commanding_add c sender (PStr t) ts mid pin (dget "reactions" (PList []) raw) f r))
      as [H1 H2]; [|split; [done|by rewrite H2]].
    rewrite Ha. cbn [fst]. exists (live_entry sender (PStr t) ts mid pin rs f r).
    split; [|done]. rewrite Hm. apply edit_all_keeps; [|done]. apply elem_of_app. right. by apply elem_of_cons; left.
  - intros _. apply keeps_bind; [apply echoed_keeps; [apply steady_record|apply neutral_record]|]. intros _.
    apply keeps_bind; [|intros _; apply echoed_checkpoint].
    destruct plain; [apply echoed_keeps; [apply steady_cache|apply neutral_cache]|by intros x].
Qed.

Lemma take_run c a : exists a', take_echo c a = (a', Ok (next_text c a)) /\ (exists h, tl (chat a') = tl (chat a) <| hist := h |>)
  /\ self_texts (qs a') = drop_oldest c (self_texts (qs a)) /\ self_ids (qs a') = drop_oldest c (self_ids (qs a)).
Proof.
  unfold take_echo. rewrite (run_bind _ _ a a a) by done. fold (next_text c a).
  rewrite (run_bind _ _ a (a <| qs ::= fun q => q <| self_texts ::= drop_oldest c |> <| self_ids ::= drop_oldest c |> |>) tt) by done.
  set (a1 := a <| qs ::= _ |>). set (i := oldest 0 c (self_ids (qs a))).
  assert (Hr : exists h, remove_pending_send c (next_text c a) i (tl (chat a)) = (tl (chat a) <| hist := h |>, Ok tt)).
  { unfold remove_pending_send, st_bind, st_get. destruct (remove_first _ _) as [l|]; [by eexists|]. exists (hist (tl (chat a))).
    by destruct (tl (chat a)). }
  destruct Hr as [h Hr]. rewrite (run_bind _ _ a1 (a1 <| chat ::= fun v => v <| tl := tl (chat a) <| hist := h |> |> |>) tt).
  - eexists. split; [done|]. by split; [exists h|].
  - unfold on_timeline, on_view, on_page. change (tl (chat a1)) with (tl (chat a)). by rewrite Hr.
Qed.

(** An echo takes the oldest text, and shows it under its own identifier. *)
Lemma echo_run fuel c mid msg s1 a : echo_of c mid msg -> mid ∉ seen_ids (qs a) c ->
  decrypt_live_message oqs msg (crypto a) = (s1, Ok (status_only "self_echo")) ->
  let t := next_text c a in
  unpack_plaintext (PStr t) = Ok (PStr t) -> commanding (tl (chat a)) -> convs_ok (tl (chat a)) ->
  Forall (fun e => target_msg_id e <> mid) (waiting (tl (chat a)) c) ->
  echoed c mid t (qs a <| self_texts ::= drop_oldest c |> <| self_ids ::= drop_oldest c |>)
    (fst (_handle_message oqs (S fuel) msg a)).
Proof.
  intros [Hc (sender & Hs)%is_ok_inv Hi (ts & Ht)%is_ok_inv He Hf Hr Hre] Hseen Hd t Hu Hcmd Hok Hw. cbn [_handle_message].
  unfold handle_with. rewrite st_bind_lift, Hc, st_bind_lift, Hs, st_bind_lift, Hi, (run_bind _ _ a a a) by done.
  rewrite bool_decide_eq_false_2, andb_false_r by done.
  rewrite (run_bind _ _ a (a <| crypto := s1 |>) (status_only "self_echo")) by (unfold on_crypto; by rewrite Hd).
  change (String.eqb (get_str0 "status" (status_only "self_echo")) "pending") with false. cbv iota.
  set (a1 := a <| crypto := s1 |>).
  assert (Hm : exists a2, mark_seen c mid a1 = (a2, Ok tt) /\ chat a2 = chat a /\ self_texts (qs a2) = self_texts (qs a)
    /\ self_ids (qs a2) = self_ids (qs a)).
  { unfold mark_seen. destruct (mid =? 0); by eexists. }
  destruct Hm as (a2 & Hm & Hm1 & Hm2 & Hm3). rewrite (run_bind _ _ _ _ _ Hm).
  change (String.eqb (get_str0 "status" (status_only "self_echo")) "hidden") with false.
  change (String.eqb (get_str0 "status" (status_only "self_echo")) "control") with false. cbv iota. clear Hm. clearbody a1.
  unfold handle_text. rewrite (run_bind _ _ a2 a2 tt) by done.
  change (py_eqb (dget "status" PNone (status_only "self_echo")) (PStr "self_echo")) with true. cbv iota zeta.
  destruct (take_run c a2) as (a3 & Et & [h Hp] & Ht3 & Hi3).
  assert (En : next_text c a2 = t) by (unfold t, next_text; by rewrite Hm2). rewrite En in Et.
  rewrite (run_bind _ _ a2 a3 (PStr t)) by (by rewrite (run_bind _ _ _ _ _ Et)).
  rewrite st_bind_lift, Ht. rewrite Hm1 in Hp. rewrite Hm2 in Ht3. rewrite Hm3 in Hi3.
  apply bind_case.
  - destruct (decrypted_shown msg c sender t mid ts a3) as (H1 & H2 & H3); try done; try by rewrite Hp.
    split; [done|]. by rewrite H2, H3, Ht3, Hi3.
  - intros _. apply keeps_bind; [by intros x|]. intros _. apply echoed_keeps; [apply steady_refresh|apply neutral_refresh].
Qed.

(** ** Texts that nobody takes *)

(** What may happen between the loss of a message and the next echo; [OpSocket]: the
    thread of the connection has connected. *)
Inductive app_op :=
| OpClose (reason : string)
| OpAttempt
| OpSocket (k : nat)
| OpOpen
| OpReconnected
| OpError (msg : dict)
| OpSend (conv_id : Z) (text : string) (reply_to : Z)
| OpFile (conv_id : Z) (path : string)
| OpEdit (conv_id mid : Z) (text : string)
| OpDelete (mid : Z)
| OpHistory (conv_id : Z)
| OpCommand (obj : dict).
Definition run_op (o : app_op) : am unit :=
  match o with
  | OpClose reason => _net_close reason
  | OpAttempt => _attempt_reconnect
  | OpSocket k => on_cn (fun x => x <| ws ::= option_map (fun n => n <| sock := Some k |>) |>)
  | OpOpen => _net_open
  | OpReconnected => reconnected
  | OpError msg => _handle_error msg
  | OpSend conv_id text reply_to => _send_message conv_id text reply_to
  | OpFile conv_id path => _send_file conv_id path
  | OpEdit conv_id mid text => _edit_message conv_id mid text
  | OpDelete mid => _delete_message mid
  | OpHistory conv_id => _get_history conv_id
  | OpCommand obj => do! _ := _handle_ui_command obj in st_ret tt
  end.
(** The state after the operations, each to its end or to its exception. *)
Definition after_ops (l : list app_op) (a : app) : app := fold_left (fun a o => fst (run_op o a)) l a.

(** The texts of [c] begin with [t]. *)
Definition awaits (c : Z) (t : string) (a : app) : Prop := exists l, default [] (self_texts (qs a) !! c) = t :: l.

Lemma awaits_neutral {A} c t (m : am A) : neutral m -> keeps (awaits c t) m.
Proof. intros Hm a [l H]. exists l. by rewrite Hm. Qed.
Lemma awaits_push c t d x a : awaits c t a -> awaits c t (a <| qs ::= fun q => q <| self_texts ::= push d x |> |>).
Proof.
  intros [l H]. unfold awaits, push. cbn. destruct (decide (d = c)) as [->|Hne].
  - rewrite lookup_insert_eq. cbn. rewrite H. by exists (l ++ [x]).
  - rewrite lookup_insert_ne by done. by exists l.
Qed.

(** Two texts wait at least: the newest may be dropped. *)
Definition awaits_more (c : Z) (t : string) (d : Z) (a : app) : Prop :=
  awaits c t a /\ (d = c -> exists l x, default [] (self_texts (qs a) !! c) = t :: l ++ [x]).
Lemma more_neutral {A} c t d (m : am A) : neutral m -> keeps (awaits_more c t d) m.
Proof. intros Hm a [H1 H2]. split; [by apply awaits_neutral|]. by rewrite Hm. Qed.
Lemma more_give_up c t d a : awaits_more c t d a -> awaits c t (fst (give_up_echo d a)).
Proof.
  intros [[l H] Hm]. unfold awaits, give_up_echo, drop_newest. cbn. destruct (decide (d = c)) as [->|Hne].
  - destruct (Hm eq_refl) as (l' & x & Hl). rewrite lookup_alter_eq.
    destruct (self_texts (qs a) !! c) as [l0|]; [|discriminate Hl]. change (l0 = t :: l' ++ [x]) in Hl. subst l0. exists l'.
    change (removelast ((t :: l') ++ [x]) = t :: l'). by rewrite removelast_last.
  - rewrite lookup_alter_ne by done. by exists l.
Qed.

(** A text that waits for its echo is written, or taken back. *)
Lemma awaits_written c t d x i obj (fail : am unit) : neutral fail ->
  keeps (awaits c t) (do! _ := await_echo d x i in do! ok := _safe_send obj in
    if ok : bool then st_ret tt
    else do! _ := on_timeline (remove_pending_send d "" i) in do! _ := give_up_echo d in fail).
Proof.
  intros Hfail a Ha.
  assert (Hm : awaits_more c t d (fst (await_echo d x i a))).
  { split; [by apply (awaits_push c t d x)|]. intros ->. destruct Ha as [l H]. exists l, x. unfold await_echo, push. cbn.
    rewrite lookup_insert_eq. cbn. by rewrite H. }
  rewrite (run_bind _ _ a (fst (await_echo d x i a)) tt) by done. revert Hm. generalize (fst (await_echo d x i a)). clear -Hfail.
  intros a Hm. unfold st_bind at 1. pose proof (more_neutral c t d _ (neutral_safe_send obj) a Hm) as H1.
  destruct (_safe_send _ a) as [a1 [ok|e]]; cbn [fst] in *; [|apply H1]. destruct ok; [apply H1|].
  unfold st_bind. pose proof (more_neutral c t d _ (neutral_on_timeline (remove_pending_send d "" i)) a1 H1) as H2.
  destruct (on_timeline _ a1) as [a2 [[]|e]]; cbn [fst] in *; [|apply H2].
  pose proof (more_give_up _ _ _ _ H2) as H3. destruct (give_up_echo d a2) as [a3 [[]|e]]; cbn [fst] in *; [|done].
  by apply (awaits_neutral c t _ Hfail).
Qed.
Lemma awaits_send c t d x r : keeps (awaits c t) (_send_message d x r).
Proof.
  unfold _send_message. apply keeps_bind; [apply awaits_neutral, neutral_review|]. intros b. destruct (negb b).
  - apply awaits_neutral, neutral_on_timeline.
  - apply keeps_bind; [apply awaits_neutral, neutral_encrypt|].
    intros [[|ch payload]|]; [apply awaits_neutral, neutral_on_timeline| |apply awaits_neutral, neutral_on_timeline].
    apply keeps_bind; [apply awaits_neutral, neutral_on_timeline|]. intros i. apply keeps_get. intros s0 _.
    apply keeps_bind; [apply awaits_neutral, neutral_on_crypto|]. intros _. apply awaits_written, neutral_on_timeline.
Qed.
Lemma awaits_file c t d path : keeps (awaits c t) (_send_file d path).
Proof.
  unfold _send_file. apply keeps_bind; [apply awaits_neutral, neutral_review|]. intros b. destruct (negb b).
  - apply awaits_neutral, neutral_on_timeline.
  - apply keeps_catch; [|intros e; apply awaits_neutral, neutral_warn_box]. apply keeps_bind; [apply keeps_lift|]. intros sz.
    destruct (_ <? sz); [apply awaits_neutral, neutral_warn_box|]. destruct (sz =? 0); [apply awaits_neutral, neutral_warn_box|].
    apply keeps_bind; [apply keeps_lift|]. intros raw. apply keeps_bind; [apply awaits_neutral, neutral_encrypt|].
    intros [[|ch payload]|]; [apply awaits_neutral, neutral_on_timeline| |apply awaits_neutral, neutral_on_timeline].
    apply keeps_bind; [apply awaits_neutral, neutral_on_timeline|]. intros i. apply awaits_written, neutral_on_timeline.
Qed.

Lemma awaits_op c t o : keeps (awaits c t) (run_op o).
Proof.
  destruct o; cbn [run_op]; try (apply awaits_neutral; solve [auto with neutral]); [apply awaits_send|apply awaits_file| | |].
  - unfold _edit_message. apply keeps_bind; [apply awaits_neutral, neutral_encrypt|].
    intros [[|ch payload]|]; [apply keeps_ret| |apply keeps_ret]. apply keeps_bind; [intros a; apply awaits_push|].
    intros _. apply awaits_neutral, neutral_request.
  - apply awaits_neutral, neutral_request.
  - apply awaits_neutral. by apply neutral_bind; [apply neutral_ui_command|].
Qed.
Lemma awaits_ops c t l a : awaits c t a -> awaits c t (after_ops l a).
Proof. revert a. induction l as [|o l IH]; intros a Ha; [done|]. apply IH. by apply awaits_op. Qed.

Lemma awaits_next c t a : awaits c t a -> next_text c a = t.
Proof. intros [l H]. unfold next_text, oldest. by rewrite H. Qed.
End echo.
