(* ===== verification/AppProps.v ===== *)
(** * Theorems about the application

    Messages: what the echo of an own message is shown as, and what becomes of a
    message that waits for a key. Accounts: the change of a password, and logout.
    Groups: whose members a prepared operation adds, and when it is applied. *)

From S2P Require Import Prelude Hashing Base64 PyVal Sorting Json Crypto Wire Ratchet AuditClient Utils Session.
From S2P Require Import Pqxdh CacheStore Transcript Identity DrStore IdentityAudit MlsBridge Mls Messages Cleanup.
From S2P Require Import WebSocket ChatPage ChatPageFacts ChatPageProps ChatView App AppIdentity AppMembers AppMessages AppGroups AppKeys AppInbox AppFacts AppEcho SessionFacts MessageFacts MessageProps.

Section props.
Context `{P : Prims, O : Os, E : Env}.
Variable oqs : option (option (list string)).

(** ** Echoes *)

(** C17: The server sends every message back to its sender. The text of such an echo is
    not decrypted: the application shows, under the identifier of the echo, the
    oldest text of the conversation that it has sent and not seen come back, and
    takes it from the queue. So echoes that come in the order of the messages
    show each text under its own identifier. *)
Theorem own_echo_shows_oldest_text fuel c mid msg s1 t l a
    (Hmsg : echo_of c mid msg) (Hseen : mid ∉ seen_ids (qs a) c)
    (Hown : decrypt_live_message oqs msg (crypto a) = (s1, Ok (status_only "self_echo")))
    (Hqueue : default [] (self_texts (qs a) !! c) = t :: l)
    (Htext : unpack_plaintext (PStr t) = Ok (PStr t))
    (Hsignals : commanding (tl (chat a))) (Hpage : convs_ok (tl (chat a)))
    (Hedits : Forall (fun e => target_msg_id e <> mid) (waiting (tl (chat a)) c)) :
  let a' := fst (_handle_message oqs (S fuel) msg a) in
  shows c mid (PStr t) (tl (chat a')) /\ default [] (self_texts (qs a') !! c) = l.
Proof.
  assert (Ht : next_text c a = t) by (unfold next_text, oldest; by rewrite Hqueue).
  destruct (echo_run oqs fuel c mid msg s1 a) as (H1 & H2 & _); try done; try by rewrite Ht.
  rewrite Ht in H1. split; [done|]. rewrite H2. cbn. unfold drop_oldest. rewrite lookup_alter_eq.
  destruct (self_texts (qs a) !! c) as [l0|]; [|discriminate Hqueue]. cbn [default] in Hqueue. cbn. unfold id in Hqueue. by rewrite Hqueue.
Qed.

(** C39: A text whose message never comes back stays in the queue: when the connection is
    lost after it was sent, or the server refuses it or an edit, nothing takes it
    out, neither the loss of the connection nor the reconnection, an error, or
    another message. The next echo of the conversation, whatever message it is the
    echo of, is then shown with that text. *)
Theorem lost_text_shown_next fuel c mid ops msg s1 t l a
    (Hqueue : default [] (self_texts (qs a) !! c) = t :: l) :
  let a1 := after_ops ops a in
  echo_of c mid msg -> mid ∉ seen_ids (qs a1) c ->
  decrypt_live_message oqs msg (crypto a1) = (s1, Ok (status_only "self_echo")) ->
  unpack_plaintext (PStr t) = Ok (PStr t) -> commanding (tl (chat a1)) -> convs_ok (tl (chat a1)) ->
  Forall (fun e => target_msg_id e <> mid) (waiting (tl (chat a1)) c) ->
  shows c mid (PStr t) (tl (chat (fst (_handle_message oqs (S fuel) msg a1)))).
Proof.
  intros a1 Hmsg Hseen Hown Htext Hsig Hpage Hedits. assert (Ha : awaits c t a1) by (apply awaits_ops; by exists l).
  apply awaits_next in Ha. destruct (echo_run oqs fuel c mid msg s1 a1) as (H1 & _ & _); try done; try by rewrite Ha.
  by rewrite Ha in H1.
Qed.

(** ** Messages that wait for a key *)

(** When the application tries a waiting message again and still cannot open it, the
    message is dropped: it is not shown, not marked as seen, and no longer waits. *)
Theorem undecryptable_waiting_dropped fuel c mid m sender s1 r a
    (Hlist : pending_messages (qs a) = [m])
    (Hconv : plain_int "conversation_id" m = Ok c) (Hconv' : get_int0 "conversation_id" m = Ok c)
    (Hsender : py_int (py_or (dget "from_id" (PInt 0) m) (py_or (dget "sender_id" (PInt 0) m) (PInt 0))) = Ok sender)
    (Hid : get_int0 "id" m = Ok mid) (Hpos : 0 < mid) (Hseen : mid ∉ seen_ids (qs a) c)
    (Hwait : decrypt_live_message oqs m (crypto a) = (s1, Ok r)) (Hstatus : get_str0 "status" r = "pending") :
  exists a', _flush_pending oqs (S (S fuel)) c a = (a', Ok tt) /\
    pending_messages (qs a') = [] /\ chat a' = chat a /\ seen_msg_ids (qs a') = seen_msg_ids (qs a).
Proof.
  unfold _flush_pending, flush_with. rewrite (run_bind _ _ a a a) by done.
  unfold pending_messages in Hlist. rewrite (run_bind (flush_loop _ _ _ _ _ _) _ a (a <| crypto := s1 |>) []).
  - eexists. split; [reflexivity|]. split; [|done]. unfold pending_messages, pending_list. cbn. rewrite app_nth2 by lia.
    by rewrite Nat.sub_diag.
  - cbn [flush_loop]. rewrite (run_bind _ _ a a a) by done. rewrite Hlist. cbn [lookup list_lookup].
    unfold plain_int in Hconv. rewrite st_bind_lift, Hconv, Z.eqb_refl. cbn [_handle_message].
    rewrite (run_bind _ _ a (a <| crypto := s1 |>) tt).
    + rewrite (run_bind _ _ (a <| crypto := s1 |>) (a <| crypto := s1 |>) (a <| crypto := s1 |>)) by done.
      change (pending_list (qs (a <| crypto := s1 |>))) with (pending_list (qs a)). by rewrite Hlist.
    + unfold handle_with. rewrite st_bind_lift, Hconv', st_bind_lift, Hsender, st_bind_lift, Hid, (run_bind _ _ a a a) by done.
      rewrite bool_decide_eq_false_2, andb_false_r by done.
      rewrite (run_bind _ _ a (a <| crypto := s1 |>) r) by (unfold on_crypto; by rewrite Hwait). rewrite Hstatus, String.eqb_refl.
      unfold keep_pending. rewrite (run_bind _ _ (a <| crypto := s1 |>) (a <| crypto := s1 |>) (a <| crypto := s1 |>)) by done.
      unfold pending_messages. change (qs (a <| crypto := s1 |>)) with (qs a). rewrite Hlist. unfold is_waiting. cbn [res_fold res_bind].
      rewrite Hid. cbn [res_bind]. rewrite Z.eqb_refl. replace (0 <? mid) with true by (symmetry; by apply Z.ltb_lt). done.
Qed.

(** ** Accounts *)

(** C40: An error that arrives while a change of password is under way makes the
    application forget the change, whatever the error is about: all but the text "No
    PQXDH bundle found", and the three refusals of a key bundle while one is being
    uploaded. With no login pending, the confirmation that follows is then passed over:
    the local files stay sealed under the old password's key, which the account will
    not derive again. *)
Theorem unrelated_error_drops_rewrap msg ok text keys a
    (Hpending : password_change (ks a) = Some keys) (Hauth : pending (cn a) = None)
    (Hupload : bundle_uploading (ks a) &&
       mem text ["Identity change requires rotate_identity"; "Invalid PQXDH bundle"; "Failed to upload PQXDH bundle"] = false)
    (Htext : dget "msg" (PStr "Error") msg = PStr text) (Hother : text <> "No PQXDH bundle found")
    (Hok : text_of ok = "Password changed successfully") :
  let a1 := fst (_handle_error msg a) in
  _handle_ok oqs ok a1 = (a1, Ok tt) /\ crypto a1 = crypto a.
Proof.
  assert (Ha : exists n, fst (_handle_error msg a) = a <| ks ::= fun k => k <| password_change := None |> |> <| notices := n |>).
  { unfold _handle_error. rewrite Htext. set (t1 := if String.eqb text "Invalid credentials" then _ else _).
    assert (Hne : String.eqb t1 "No PQXDH bundle found" = false).
    { unfold t1. destruct (String.eqb text "Invalid credentials"); [done|]. by apply String.eqb_neq. }
    assert (Hup : bundle_uploading (ks a) &&
       mem t1 ["Identity change requires rotate_identity"; "Invalid PQXDH bundle"; "Failed to upload PQXDH bundle"] = false).
    { unfold t1. destruct (String.eqb text "Invalid credentials"); [by rewrite andb_false_r|done]. }
    rewrite Hne. rewrite (run_bind _ _ a a tt) by done. rewrite (run_bind _ _ a a a) by done.
    unfold mem in Hup |- *. cbn [existsb] in Hup |- *. rewrite orb_false_r in Hup |- *. apply andb_false_elim in Hup.
    replace (String.eqb t1 "Identity change requires rotate_identity" && bundle_uploading (ks a)) with false
      by (destruct Hup as [->|[-> _]%orb_false_elim]; by rewrite ?andb_false_r).
    replace (bundle_uploading (ks a) && (String.eqb t1 "Invalid PQXDH bundle" || String.eqb t1 "Failed to upload PQXDH bundle")) with false
      by (destruct Hup as [->|[_ ->]%orb_false_elim]; by rewrite ?andb_false_r).
    rewrite Hpending. rewrite bool_decide_eq_true_2 by done. by eexists. }
  destruct Ha as [n ->]. intros a1. split; [|done]. unfold _handle_ok. rewrite Hok. rewrite (run_bind _ _ a1 a1 a1) by done.
  cbn [mem orb String.eqb]. rewrite bool_decide_eq_false_2 by (by intros [? ?]). rewrite andb_false_r.
  change (pending (cn a1)) with (pending (cn a)). by rewrite Hauth.
Qed.

(** What logout leaves, field by field; a field that is given by itself is not reset. *)
Definition erased_connection (status : string) (c : connection) : connection :=
  Connection None false None "" 0 "" 0 "" "" "" "" 0 (scheduled c) (delays c) (session_gen c) false false status "" (outbox c) ∅
    (n_sends c) (n_monotonic c) (n_fetches c) false.
Definition erased_timeline (p : page) : page :=
  Page (my_id p) 0 "chat" ∅ ∅ ∅ (failed_send_counter p) (notifications_enabled p) ∅ ∅ [] [] false ∅ ∅ (pending_read_clear p)
    (metadata_protection p) [].
Definition erased_composer (c : composer) : composer :=
  Composer "" true None None (edit_input c) (typing_indicators c) false 0 false.
Definition erased_view (v : view) : view :=
  View (erased_timeline (tl v)) new_badges (erased_composer (cp v)) (me v) [] ∅ ∅ ∅ ∅ 0 0 false (read_later v) (local_policy v).
Definition forgotten (status : string) (a : app) : app :=
  App (new_session (os (crypto a))) (erased_view (chat a)) (erased_connection status (cn a)) new_key_state new_queues new_groups
    (notices a).

Lemma typing_stop_run v : exists v', _send_typing_stop v = (v', Ok tt) /\
  cp v' = cp v <| typing_active_sent := false |> <| typing_conv_id := 0 |> <| idle_timer := false |>.
Proof.
  unfold _send_typing_stop. rewrite (run_bind _ _ v v v) by done. unfold signal_out, on_page, emit, st_modify, st_bind.
  destruct (_ && _ && _); by eexists.
Qed.
(** After the reset only the signals of the page are left to clear. *)
Lemma reset_run v : exists v', ChatView.reset v = (v', Ok tt) /\
  v' <| tl ::= fun p => p <| signals := [] |> |> = erased_view (v' <| tl ::= fun p => p <| signals := [] |> |>).
Proof.
  unfold ChatView.reset, _cancel_inline_edit, _clear_reply_target.
  rewrite (run_bind _ _ v (v <| cp ::= fun c => c <| editing_msg := None |> |>) tt) by done.
  set (v1 := v <| cp ::= _ |>). rewrite (run_bind _ _ v1 (v1 <| cp ::= fun c => c <| reply_target := None |> |>) tt) by done.
  set (v2 := v1 <| cp ::= _ |>). destruct (typing_stop_run v2) as (v3 & H & Hc). rewrite (run_bind _ _ _ _ _ H).
  eexists. split; [reflexivity|]. unfold erased_view, erased_composer. cbn. rewrite Hc.
  by destruct (notifications_enabled (tl v3)).
Qed.

Lemma remove_each_total l s : exists n, snd (remove_each l s) = Ok n.
Proof.
  unfold remove_each. generalize 0. revert s. induction l as [|x l IH]; intros s n; [by eexists|]. cbn [st_fold].
  unfold st_bind at 1, st_catch. destruct ((do! _ := remove_file x in st_ret (n + 1)) s) as [s1 [k|e]]; apply IH.
Qed.
Lemma clear_cache_total s : exists n, snd (clear_message_cache None s) = Ok n.
Proof.
  unfold clear_message_cache. rewrite (run_bind _ _ s s s) by done. destruct (negb _); [by eexists|]. unfold glob.
  unfold st_bind. apply remove_each_total.
Qed.

Lemma init_run a : exists a', _init_session_state a = (a', Ok tt) /\ crypto a' = new_session (os (crypto a')) /\
  ks a' = new_key_state /\ qs a' = new_queues /\ gs a' = new_groups /\
  (poll_timer (cn a) = false -> inbox_refresh (cn a) = false -> ws (cn a) = None -> forall status,
   cn a' <| stack := 0 |> <| login_status := status |> <| register_status := "" |> =
     erased_connection status (cn a' <| stack := 0 |> <| login_status := status |> <| register_status := "" |>)).
Proof. eexists. split; [reflexivity|]. repeat split. intros Hp Hi Hw status. cbn. by rewrite Hp, Hi, Hw. Qed.

Lemma app_ext a b : crypto a = crypto b -> chat a = chat b -> cn a = cn b -> ks a = ks b -> qs a = qs b -> gs a = gs b ->
  notices a = notices b -> a = b.
Proof. destruct a, b. cbn. intros -> -> -> -> -> -> ->. reflexivity. Qed.

(** C18: Whatever the state, logout runs to its end, and then every field of the application
    is the one of a new application, but for these: the readings of the world and what was
    sent, the boxes already shown, the numbers of the session and of failed bubbles, the
    marks of a scheduled reconnection and of pending readings (of which conversations the
    unread count is being cleared), the name and the identifier of the account on the page,
    the text of the hidden field in which a message was last edited, and the settings of
    the page (the policy of the cache, the protection of metadata, typing,
    notifications). Nothing can be sent. *)
Theorem logout_forgets notify status a :
  exists a', _logout_local notify status a = (a', Ok tt) /\ a' = forgotten status a' /\ forall obj, _safe_send obj a' = (a', Ok false).
Proof.
  unfold _logout_local. rewrite (run_bind _ _ a a a) by done. set (clear := cache_clear_on_logout (crypto a)). clearbody clear.
  assert (H1 : exists a1, (if notify && session_active (cn a) then
      match ws (cn a) with
      | Some _ => st_catch (ws_send [("type", PStr "logout")]) (fun _ => st_ret tt)
      | None => st_ret tt end else st_ret tt) a = (a1, Ok tt)).
  { destruct (notify && _); [|by eexists]. destruct (ws (cn a)); [|by eexists]. unfold st_catch.
    destruct (ws_send _ a) as [a1 [[]|e]]; by eexists. }
  destruct H1 as [a1 H1]. rewrite (run_bind _ _ _ _ _ H1). clear H1.
  assert (H2 : exists a2, (if clear then do! _ := on_crypto (clear_message_cache None) in st_ret tt else st_ret tt) a1 = (a2, Ok tt)).
  { destruct clear; [|by eexists]. unfold st_bind, on_crypto. destruct (clear_cache_total (crypto a1)) as [n Hn].
    destruct (clear_message_cache None (crypto a1)) as [s r]. cbn in Hn. subst r. by eexists. }
  destruct H2 as [a2 H2]. rewrite (run_bind _ _ _ _ _ H2). clear H2.
  match goal with |- context [st_bind (on_cn ?f) _ a2] => rewrite (run_bind (on_cn f) _ a2 (a2 <| cn ::= f |>) tt) by done; set (a3 := a2 <| cn ::= f |>) end.
  assert (H4 : exists a4, _teardown_ws a3 = (a4, Ok tt) /\ poll_timer (cn a4) = false /\ inbox_refresh (cn a4) = false /\ ws (cn a4) = None)
    by (by eexists).
  destruct H4 as (a4 & H4 & Hpoll & Hinbox & Hws). rewrite (run_bind _ _ _ _ _ H4). clear H4.
  destruct (init_run a4) as (a5 & H5 & Hc & Hk & Hq & Hg & Hcn). rewrite (run_bind _ _ _ _ _ H5). clear H5.
  specialize (Hcn Hpoll Hinbox Hws status). destruct (reset_run (chat a5)) as (v & Hv & Herased).
  rewrite (run_bind _ _ a5 (a5 <| chat := v |>) tt) by (unfold on_view; by rewrite Hv).
  match goal with |- context [st_bind (on_timeline (st_modify ?f)) _ ?a6] =>
    rewrite (run_bind (on_timeline (st_modify f)) _ a6 (a6 <| chat ::= fun v => v <| tl ::= f |> |>) tt) by done end.
  eexists. split; [reflexivity|]. split.
  - unfold forgotten. apply app_ext; [exact Hc|exact Herased|exact Hcn|exact Hk|exact Hq|exact Hg|done].
  - intros obj. unfold _safe_send. rewrite (run_bind _ _ _ _ _ (eq_refl : st_get _ = (_, Ok _))).
    apply (f_equal session_active) in Hcn. cbn in Hcn |- *. by rewrite Hcn.
Qed.
End props.

(** ** Witnesses

    The application of account 1, logged in, with the direct conversation 5 open; the
    first thing it sends is lost. *)

#[local] Existing Instance reference_prims.
#[local] Instance app_os : Os := demo_os 0.
#[export] Instance demo_env : Env := {|
  env_fails n _ := if Nat.eqb n 0 then Some "[Errno 104] Connection reset by peer" else None;
  env_mask _ := "mask"; env_monotonic _ := 0; env_fetch _ _ := HttpFail OSError; env_auditor_pk := ""; env_pop s := hd 0 (elements s);
  env_exc _ := "error"; env_home := "/home/an"; env_cwd := "/home/an"; env_localtime _ := Ok "2024-05-01 10:00:00"; env_file_size _ := Ok 3; env_file_read _ := Ok "abc"
|}.

Definition demo_connection : connection :=
  Connection (Some (Net (Some 3%nat) true 1)) true None "" 1 "relay.example" 9000 "an@example" "hash" "an" "an@example" 0 false [] 1
    true false "" "" [] ∅ 0 0 0 false.
Definition demo_chat : view :=
  new_view <| me := "an" |> <| tl ::= fun p => p <| my_id := 1 |> <| active_conv_id := 5 |>
    <| dm_convs := [[("conversation_id", PInt 5); ("with_user_id", PInt 2); ("username", PStr "binh"); ("unread_count", PInt 0)]] |> |>.
Definition demo_app : app :=
  App (in_conversation 1 demo_first 0) demo_chat demo_connection new_key_state new_queues new_groups [].

(** The echo of a message of account 1, with the identifier the server has given it. *)
Definition echo_msg (mid : Z) : dict :=
  [("type", PStr "message"); ("id", PInt mid); ("conversation_id", PInt 5); ("from_id", PInt 1); ("body", PStr "S3DR:")].
Lemma echo_msg_ok mid : 0 < mid -> echo_of 5 mid (echo_msg mid).
Proof. intros H. split; try reflexivity. by destruct mid. Qed.

Definition sent_app : app := fst (_send_message 5 "hello" 0 (demo_app <| cn ::= fun c => c <| n_sends := 1%nat |> |>)).
Lemma sent_facts : default [] (self_texts (qs sent_app) !! 5) = ["hello"] /\ is_ok (snd (_send_message 5 "hello" 0 (demo_app <| cn ::= fun c => c <| n_sends := 1%nat |> |>))) = true /\
  signals (tl (chat sent_app)) = [] /\ seen_ids (qs sent_app) 5 = ∅ /\ dm_convs (tl (chat sent_app)) = dm_convs (tl demo_chat) /\ group_convs (tl (chat sent_app)) = [] /\
  waiting (tl (chat sent_app)) 5 = [] /\ my_uid (crypto sent_app) = 1 /\ map sending (messages_of (tl (chat sent_app)) 5) = [true].
Proof. vm_compute. repeat split. Qed.
Lemma echo_decrypts mid s : my_uid s = 1 -> decrypt_live_message None (echo_msg mid) s = (s, Ok (status_only "self_echo")).
Proof.
  intros H. unfold decrypt_live_message, echo_msg. cbn. unfold handle_group_integrity_control. cbn. by rewrite H.
Qed.
Lemma demo_convs p : dm_convs p = dm_convs (tl demo_chat) -> group_convs p = [] -> convs_ok p.
Proof. intros H1 H2. unfold convs_ok. by rewrite H1, H2. Qed.
Lemma quiet_commanding p : signals p = [] -> commanding p.
Proof. intros H. unfold commanding. by rewrite H. Qed.

Lemma own_echo_shows_oldest_text_witness :
  shows 5 12 (PStr "hello") (tl (chat (fst (_handle_message None 1 (echo_msg 12) sent_app)))).
Proof.
  destruct sent_facts as (H1 & _ & H2 & H3 & H4 & H5 & H6 & H7 & _).
  refine (proj1 (own_echo_shows_oldest_text None 0 5 12 (echo_msg 12) (crypto sent_app) "hello" [] sent_app _ _ _ _ _ _ _ _)).
  - by apply echo_msg_ok.
  - rewrite H3. apply not_elem_of_empty.
  - by apply echo_decrypts.
  - exact H1.
  - vm_compute. reflexivity.
  - by apply quiet_commanding.
  - exact (demo_convs _ H4 H5).
  - rewrite H6. constructor.
Defined.

(** The first message is lost with the connection; the second one is shown with its text. *)
Definition lost_app : app := fst (_send_message 5 "the old text" 0 demo_app).
Definition later_ops : list app_op := [OpAttempt; OpSocket 4; OpOpen; OpReconnected; OpSend 5 "the new text" 0].
Lemma lost_facts : default [] (self_texts (qs lost_app) !! 5) = ["the old text"] /\ session_active (cn lost_app) = false /\
  map failed (messages_of (tl (chat lost_app)) 5) = [true].
Proof. vm_compute. repeat split. Qed.
Lemma later_facts : let a := after_ops later_ops lost_app in
  signals (tl (chat a)) = [] /\ seen_ids (qs a) 5 = ∅ /\ dm_convs (tl (chat a)) = dm_convs (tl demo_chat) /\ group_convs (tl (chat a)) = [] /\
  waiting (tl (chat a)) 5 = [] /\ my_uid (crypto a) = 1 /\ session_active (cn a) = true /\
  map (fun m => (retry_text m, sending m)) (messages_of (tl (chat a)) 5) = [("the old text", false); ("the new text", true)].
Proof. vm_compute. repeat split. Qed.

Lemma lost_text_shown_next_witness :
  let a := after_ops later_ops lost_app in
  map (fun m => (retry_text m, sending m)) (messages_of (tl (chat a)) 5) = [("the old text", false); ("the new text", true)] /\
  shows 5 13 (PStr "the old text") (tl (chat (fst (_handle_message None 1 (echo_msg 13) a)))).
Proof.
  destruct later_facts as (H2 & H3 & H4 & H5 & H6 & H7 & _ & H8). split; [exact H8|].
  refine (lost_text_shown_next None 0 5 13 later_ops (echo_msg 13) (crypto (after_ops later_ops lost_app)) "the old text" [] lost_app _ _ _ _ _ _ _ _).
  - exact (proj1 lost_facts).
  - by apply echo_msg_ok.
  - rewrite H3. apply not_elem_of_empty.
  - by apply echo_decrypts.
  - vm_compute. reflexivity.
  - by apply quiet_commanding.
  - exact (demo_convs _ H4 H5).
  - rewrite H6. constructor.
Defined.

(** A message of account 2 for which there is no session, waiting. *)
Definition early_msg : dict :=
  [("type", PStr "message"); ("id", PInt 21); ("conversation_id", PInt 8); ("from_id", PInt 2); ("body", PStr "S3DR:AAAA")].
Definition waiting_app : app := fst (_handle_message None 3 early_msg demo_app).
Definition early_result := decrypt_live_message None early_msg (crypto waiting_app).
Lemma early_facts : pending_messages (qs waiting_app) = [early_msg] /\ seen_ids (qs waiting_app) 8 = ∅ /\
  snd early_result = Ok (status_only "pending").
Proof. vm_compute. repeat split. Qed.

Lemma undecryptable_waiting_dropped_witness : pending_messages (qs waiting_app) = [early_msg] /\
  exists a', _flush_pending None 2 8 waiting_app = (a', Ok tt) /\ pending_messages (qs a') = [] /\ chat a' = chat waiting_app.
Proof.
  destruct early_facts as (H1 & H2 & H3). split; [exact H1|].
  destruct (undecryptable_waiting_dropped None 0 8 21 early_msg 2 (fst early_result) (status_only "pending") waiting_app)
    as (a' & E & Hp & Hc & _); [exact H1|reflexivity|reflexivity|reflexivity|reflexivity|lia| | |reflexivity|].
  - rewrite H2. apply not_elem_of_empty.
  - rewrite <- H3. unfold early_result. by destruct (decrypt_live_message _ _ _).
  - exists a'. by split.
Defined.

(** A change of password is under way, and an unrelated request is refused. *)
Definition changing_app : app := demo_app <| ks ::= fun k => k <| password_change := Some (demo_key, demo_key) |> |>.
Definition slow_down : dict := [("type", PStr "error"); ("msg", PStr "Rate limit exceeded")].
Definition changed_ok : dict := [("type", PStr "ok"); ("msg", PStr "Password changed successfully")].

Lemma unrelated_error_drops_rewrap_witness :
  let a1 := fst (_handle_error slow_down changing_app) in _handle_ok None changed_ok a1 = (a1, Ok tt).
Proof.
  refine (proj1 (unrelated_error_drops_rewrap None slow_down changed_ok "Rate limit exceeded" (demo_key, demo_key) changing_app _ _ _ _ _ _));
    first [reflexivity|discriminate].
Defined.
