(* ===== verification/AppGroupProps.v ===== *)
(** * Theorems about the changes of groups *)

From S2P Require Import Prelude Hashing Base64 PyVal Sorting Json Crypto Wire Ratchet AuditClient Utils Session.
From S2P Require Import Pqxdh CacheStore Transcript Identity DrStore IdentityAudit MlsBridge Mls Messages Cleanup BackupFacts.
From S2P Require Import WebSocket ChatPage ChatView App AppIdentity AppMembers AppMessages AppGroups AppKeys AppInbox AppEcho SessionFacts ChatPageFacts.

(** What a user has given, for a set of users. *)
Definition packages (pk : Z -> string) (D : gset Z) : gmap Z string := map_imap (fun u _ => Some (pk u)) (gset_to_gmap tt D).
Lemma lookup_packages pk D u : packages pk D !! u = if decide (u ∈ D) then Some (pk u) else None.
Proof.
  unfold packages. rewrite map_lookup_imap, lookup_gset_to_gmap. destruct (decide (u ∈ D)); [by rewrite option_guard_True|by rewrite option_guard_False].
Qed.
Lemma packages_insert pk D u : <[u := pk u]> (packages pk D) = packages pk ({[u]} ∪ D).
Proof.
  apply map_eq. intros v. rewrite lookup_packages. destruct (decide (v = u)) as [->|Hne].
  - rewrite lookup_insert_eq, decide_True by set_solver. done.
  - rewrite lookup_insert_ne, lookup_packages by done. destruct (decide (v ∈ D)).
    + by rewrite decide_True by set_solver.
    + by rewrite decide_False by set_solver.
Qed.

(** A map without the keys of a set. *)
Definition without {A} (D : gset Z) (m : gmap Z A) : gmap Z A := filter (fun x => x.1 ∉ D) m.
Lemma without_delete {A} D u (m : gmap Z A) : delete u (without D m) = without ({[u]} ∪ D) m.
Proof.
  apply map_eq. intros v. apply option_eq. intros x. unfold without. destruct (decide (v = u)) as [->|Hne].
  - rewrite lookup_delete_eq, map_lookup_filter_Some. set_solver.
  - rewrite lookup_delete_ne, !map_lookup_filter_Some by done. set_solver.
Qed.
Lemma lookup_without {A} D u (m : gmap Z A) : u ∉ D -> without D m !! u = m !! u.
Proof. intros Hu. unfold without. apply option_eq. intros x. rewrite map_lookup_filter_Some. set_solver. Qed.

Lemma existsb_same {A} (f g : A -> bool) l : (forall x, f x = g x) -> existsb f l = existsb g l.
Proof. intros H. induction l as [|x l IH]; [done|]. cbn. by rewrite H, IH. Qed.

Lemma existsb_none {A} (f : A -> bool) l : (forall x, x ∈ l -> f x = false) -> existsb f l = false.
Proof.
  intros H. induction l as [|x l IH]; [done|]. cbn. rewrite H by apply list_elem_of_here.
  apply IH. intros y Hy. by apply H, list_elem_of_further.
Qed.

Section groups.
Context `{P : Prims, O : Os, E : Env}.

(** The state with the packages of [D] received. *)
Definition with_packages (op : string) (pk : Z -> string) (o : group_op) (D : gset Z) (a : app) : app :=
  a <| gs ::= fun g => g <| claims ::= without D |> <| ops ::= <[op := o <| o_claimed := packages pk D |>]> |> |>.

Definition package_msg (pk : Z -> string) (u : Z) : dict :=
  [("user_id", PInt u); ("found", PBool true); ("key_package_b64", PStr (pk u))].

Lemma package_step op pk o D u ts c a : u ∉ D -> claims (gs a) !! u = Some [op] -> pk u <> "" ->
  targets_of (o_fields o) = Ok ts -> get_int0 "conversation_id" (o_fields o) = Ok c ->
  _handle_mls_key_package (package_msg pk u) (with_packages op pk o D a) =
  (let a' := with_packages op pk o ({[u]} ∪ D) a in
   if existsb (fun v => negb (bool_decide (v ∈ {[u]} ∪ D))) ts then (a', Ok tt)
   else _finalize_mls_claimed_op op (o <| o_claimed := packages pk ({[u]} ∪ D) |>) a').
Proof.
  intros Hu Hc Hp Ht Hcv. unfold _handle_mls_key_package. rewrite st_bind_lift.
  assert (Hi : get_int0 "user_id" (package_msg pk u) = Ok u).
  { unfold get_int0. change (dget "user_id" (PInt 0) (package_msg pk u)) with (PInt u). unfold py_or, truthy. by destruct (Z.eqb_spec u 0) as [->|]. }
  rewrite Hi. set (w := with_packages op pk o D a). rewrite (run_bind _ _ w w w) by done.
  assert (Hcl : claims (gs w) !! u = Some [op]) by (unfold w; cbn; by rewrite lookup_without).
  rewrite Hcl. change (default [] (Some [op])) with [op]. cbv iota.
  rewrite (run_bind _ _ w (w <| gs ::= fun g => g <| claims ::= delete u |> |>) tt) by done.
  assert (Ho : ops (gs w) !! op = Some (o <| o_claimed := packages pk D |>)) by (unfold w; cbn; by rewrite lookup_insert_eq).
  rewrite Ho. change (truthy (dget "found" PNone (package_msg pk u))) with true. cbn [negb].
  assert (Hk : get_str0 "key_package_b64" (package_msg pk u) = pk u).
  { unfold get_str0. change (dget "key_package_b64" (PStr "") (package_msg pk u)) with (PStr (pk u)). unfold py_or, truthy.
    destruct (pk u); [done|]. done. }
  rewrite Hk. cbv zeta.
  assert (Ho' : (o <| o_claimed := packages pk D |>) <| o_claimed ::= <[u := pk u]> |> = o <| o_claimed := packages pk ({[u]} ∪ D) |>).
  { cbn. by rewrite packages_insert. }
  rewrite Ho'. unfold put_op.
  rewrite (run_bind _ _ _ (with_packages op pk o ({[u]} ∪ D) a) tt).
  2:{ unfold on_gs, st_modify. f_equal. unfold w, with_packages. cbn. by rewrite without_delete, insert_insert_eq. }
  unfold _finalize_mls_claimed_op. cbn [o_fields].
  change (targets_of (o_fields (o <| o_claimed := packages pk ({[u]} ∪ D) |>))) with (targets_of (o_fields o)).
  rewrite st_bind_lift, Ht.
  assert (Hex : existsb (fun v => negb (bool_decide (is_Some (o_claimed (o <| o_claimed := packages pk ({[u]} ∪ D) |>) !! v)))) ts =
    existsb (fun v => negb (bool_decide (v ∈ {[u]} ∪ D))) ts).
  { apply existsb_same. intros v. f_equal. apply bool_decide_ext. cbn. rewrite lookup_packages. destruct (decide _) as [H|H]; split; done. }
  rewrite Hex. match goal with |- context [if ?x then st_ret tt else _] => destruct x eqn:Hx end.
  { replace (existsb _ ts) with true by (symmetry; exact Hx). done. }
  { replace (existsb _ ts) with false by (symmetry; exact Hx). done. }
Qed.

Definition deliver (pk : Z -> string) (us : list Z) : am unit := st_for us (fun u => _handle_mls_key_package (package_msg pk u)).

Lemma deliver_run op pk o ts c a : targets_of (o_fields o) = Ok ts -> get_int0 "conversation_id" (o_fields o) = Ok c ->
  (forall u, u ∈ ts -> claims (gs a) !! u = Some [op] /\ pk u <> "") ->
  forall us u D, NoDup (u :: us) -> (forall v, v ∈ u :: us -> v ∉ D) -> list_to_set (u :: us) ∪ D = (list_to_set ts : gset Z) ->
  deliver pk (u :: us) (with_packages op pk o D a) =
  _finalize_mls_claimed_op op (o <| o_claimed := packages pk (list_to_set ts) |>) (with_packages op pk o (list_to_set ts) a).
Proof.
  intros Ht Hcv Hts us. induction us as [|v us IH]; intros u D Hnd HD Heq.
  - unfold deliver. cbn [st_for]. assert (Hu : u ∈ ts) by set_solver. destruct (Hts u Hu) as [Hc Hp].
    unfold st_bind. rewrite (package_step op pk o D u ts c a) by (set_solver || done). cbv zeta.
    assert (HD' : {[u]} ∪ D = (list_to_set ts : gset Z)) by set_solver. rewrite HD'.
    replace (existsb _ ts) with false.
    + by destruct (_finalize_mls_claimed_op _ _ _) as [a' [[]|e]].
    + symmetry. apply existsb_none. intros x Hx. rewrite bool_decide_eq_true_2; [done|set_solver].
  - unfold deliver. cbn [st_for]. assert (Hu : u ∈ ts) by set_solver. destruct (Hts u Hu) as [Hc Hp].
    apply NoDup_cons in Hnd as [Hn Hnd].
    rewrite (run_bind _ _ _ (with_packages op pk o ({[u]} ∪ D) a) tt).
    + apply (IH v ({[u]} ∪ D) Hnd); set_solver.
    + rewrite (package_step op pk o D u ts c a) by (set_solver || done). cbv zeta.
      replace (existsb _ ts) with true; [done|]. symmetry. apply existsb_exists. exists v. split; [apply list_elem_of_In; set_solver|].
      rewrite bool_decide_eq_false_2; [done|]. set_solver.
Qed.

(** C19: The members of a new group, or a new member, are added by one commit, made when
    the last of their key packages has come, with the packages in the order of the
    targets. In which order the packages come does not matter; until the last one,
    nothing is sent and no group state changes. *)
Theorem packages_in_any_order op pk o ts c us a
    (Hop : ops (gs a) !! op = Some o) (Hnone : o_claimed o = ∅)
    (Htargets : targets_of (o_fields o) = Ok ts) (Hconv : get_int0 "conversation_id" (o_fields o) = Ok c)
    (Hsome : ts <> []) (Hnodup : NoDup ts) (Horder : us ≡ₚ ts)
    (Hclaims : forall u, u ∈ ts -> claims (gs a) !! u = Some [op] /\ pk u <> "") :
  let o' := o <| o_claimed := packages pk (list_to_set ts) |> in
  let a' := with_packages op pk o (list_to_set ts) a in
  deliver pk us a =
    st_catch (add_members_of op o' c ts) (fun e =>
      do! _ := drop_op (py_str (dget "operation_id" (PStr "") (o_fields o))) in
      security_warning c ["MLS add-member failed: " +:+ exc_text e]) a' /\
  map (fun u => default "" (o_claimed o' !! u)) ts = map pk ts /\
  crypto a' = crypto a /\ cn a' = cn a.
Proof.
  intros o' a'. split; [|split; [|done]].
  - destruct us as [|u us]; [by apply Permutation_nil_l in Horder|].
    assert (Ha : with_packages op pk o ∅ a = a).
    { unfold with_packages. assert (H1 : without ∅ (claims (gs a)) = claims (gs a)).
      { apply map_eq. intros v. by rewrite lookup_without by set_solver. }
      assert (H2 : o <| o_claimed := packages pk ∅ |> = o).
      { assert (H : packages pk ∅ = ∅) by (apply map_eq; intros v; rewrite lookup_packages, lookup_empty; by rewrite decide_False by set_solver).
        rewrite H, <- Hnone. by destruct o. }
      rewrite H2. assert (H3 : <[op := o]> (ops (gs a)) = ops (gs a)) by (by apply insert_id).
      destruct a as [cr ch cc k q g n]. cbn in *. destruct g. cbn in *. by rewrite H1, H3. }
    rewrite <- Ha at 1. rewrite (deliver_run op pk o ts c a Htargets Hconv Hclaims us u ∅).
    + unfold _finalize_mls_claimed_op. cbn [o_fields].
      change (targets_of (o_fields (o <| o_claimed := packages pk (list_to_set ts) |>))) with (targets_of (o_fields o)).
      rewrite st_bind_lift, Htargets.
      replace (existsb _ ts) with false.
      * change (get_int0 "conversation_id" (o_fields (o <| o_claimed := packages pk (list_to_set ts) |>))) with (get_int0 "conversation_id" (o_fields o)).
        rewrite st_bind_lift, Hconv. done.
      * symmetry. apply existsb_none. intros x Hx. rewrite bool_decide_eq_true_2; [done|].
        cbn. rewrite lookup_packages. rewrite decide_True by set_solver. done.
    + by rewrite Horder.
    + set_solver.
    + rewrite Horder. set_solver.
  - apply map_ext_in. intros u Hu%list_elem_of_In. unfold o'. cbn. rewrite lookup_packages, decide_True by set_solver. done.
Qed.

(** ** Sending leaves the groups alone *)

Definition aloof {A} (m : am A) : Prop := forall a, gs (fst (m a)) = gs a.
Lemma aloof_bind {A B} (m : am A) (k : A -> am B) : aloof m -> (forall x, aloof (k x)) -> aloof (st_bind m k).
Proof.
  intros Hm Hk a. unfold st_bind. specialize (Hm a). destruct (m a) as [a1 [x|e]]; cbn in *; [|done].
  by rewrite Hk.
Qed.
Lemma aloof_for {A} (l : list A) f : (forall x, aloof (f x)) -> aloof (st_for l f).
Proof. intros Hf. induction l as [|x l IH]; [done|]. by apply aloof_bind. Qed.
Lemma aloof_view {A} (m : vm A) : aloof (on_view m).
Proof. intros a. unfold on_view. by destruct (m (chat a)). Qed.
Lemma aloof_schedule : aloof _schedule_reconnect.
Proof.
  apply aloof_bind; [done|]. intros a. destruct (_ || _); [done|]. apply aloof_bind; [done|]. intros _.
  apply aloof_bind; [apply aloof_view|done].
Qed.
Lemma aloof_net_close r : aloof (_net_close r).
Proof.
  apply aloof_bind; [done|]. intros a. destruct (ws (cn a)); [|done]. destruct (_ =? 0); [done|]. destruct (_ =? 2); [done|].
  apply aloof_bind; [done|]. intros _. apply aloof_bind; [apply aloof_view|]. intros _. apply aloof_schedule.
Qed.
Lemma aloof_ws_send obj : aloof (ws_send obj).
Proof.
  apply aloof_bind; [done|]. intros a. destruct (ws (cn a)); [|done]. apply aloof_bind; [done|]. intros _.
  apply aloof_bind; [done|]. intros [f es]. apply aloof_bind; [done|]. intros _. apply aloof_for. intros [].
  all: first [apply aloof_net_close|done].
Qed.
Lemma request_run obj a : exists a', request obj a = (a', Ok tt) /\ gs a' = gs a.
Proof.
  assert (Hs : exists a' b, _safe_send obj a = (a', Ok b) /\ gs a' = gs a).
  { unfold _safe_send. rewrite (run_bind _ _ a a a) by done. destruct (session_active (cn a)); [|by eexists _, _].
    destruct (ws (cn a)); [|by eexists _, _]. unfold st_catch, st_bind. pose proof (aloof_ws_send obj a) as H.
    destruct (ws_send obj a) as [a1 [[]|e]]; by eexists _, _. }
  destruct Hs as (a' & b & H & Hg). exists a'. split; [|done]. unfold request.
  by rewrite (run_bind _ _ _ _ _ H).
Qed.

(** Claims for users: the operations and what the user asked for stay. *)
Lemma claims_run op us a : exists a', st_for us (_queue_mls_claim op) a = (a', Ok tt) /\ ops (gs a') = ops (gs a) /\ prepare (gs a') = prepare (gs a).
Proof.
  revert a. induction us as [|u us IH]; intros a; [by exists a|]. cbn [st_for].
  assert (H : exists a1, _queue_mls_claim op u a = (a1, Ok tt) /\ ops (gs a1) = ops (gs a) /\ prepare (gs a1) = prepare (gs a)).
  { unfold _queue_mls_claim. destruct (u <=? 0); [by exists a|].
    rewrite (run_bind _ _ a (a <| gs ::= fun g => g <| claims ::= push u op |> |>) tt) by done.
    destruct (request_run [("type", PStr "claim_mls_key_package"); ("user_id", PInt u)] (a <| gs ::= fun g => g <| claims ::= push u op |> |>))
      as (a1 & -> & Hg). exists a1. by rewrite Hg. }
  destruct H as (a1 & H & H1 & H2). rewrite (run_bind _ _ _ _ _ H). destruct (IH a1) as (a2 & -> & H3 & H4). exists a2. by rewrite H3, H4.
Qed.

Lemma ints_read l : res_map py_int (map PInt l) = Ok l.
Proof. induction l as [|x l IH]; [done|]. cbn [map res_map py_int res_bind]. by rewrite IH. Qed.
Lemma positive_twice l : positive (positive l) = positive l.
Proof. unfold positive. induction l as [|x l IH]; [done|]. cbn. destruct (0 <? x) eqn:Hx; [|done]. cbn. by rewrite Hx, IH. Qed.

(** What a refused request to create a group leaves behind decides the next one. The
    intent stays in the queue when the server answers with an error, and the operation
    the server prepares for the next group takes the oldest intent: the members of
    the first request are added to the second group, the members of the second are
    not. *)
Theorem stale_intent_decides_members op c i rest name members msg s1 created a
    (Hqueue : prepare (gs a) = i :: rest) (Hstale : i_operation i = "create_group")
    (Hconv0 : i_conv i = 0) (Htarget0 : i_target i = 0) (Hmembers : positive (i_members i) <> [])
    (Hop : get_str0 "operation_id" msg = op) (Hopne : nonempty op = true) (Hkind : get_str0 "operation" msg = "create_group")
    (Hc : get_int0 "conversation_id" msg = Ok c) (Hpos : 0 < c) (Ht : get_int0 "target_user_id" msg = Ok 0) :
  let a1 := fst (_create_group name members a) in
  create_mls_group c (crypto a1) = (s1, Ok created) ->
  let a2 := fst (_handle_group_change_prepared msg a1) in
  prepare (gs a2) = rest ++ [Intent "create_group" 0 0 "" name "" members] /\
  exists o, ops (gs a2) !! op = Some o /\ targets_of (o_fields o) = Ok (positive (i_members i)).
Proof.
  intros a1 Hcreate a2.
  assert (Ha1 : prepare (gs a1) = i :: rest ++ [Intent "create_group" 0 0 "" name "" members]).
  { unfold a1, _create_group. match goal with |- context [st_bind (on_gs ?f) _ a] => rewrite (run_bind (on_gs f) _ a (a <| gs ::= f |>) tt) by done;
      set (b := a <| gs ::= f |>) end.
    match goal with |- context [request ?d b] => destruct (request_run d b) as (b' & -> & Hg) end. cbn [fst]. rewrite Hg. cbn. by rewrite Hqueue. }
  unfold a2, _handle_group_change_prepared. rewrite Hop, Hkind, st_bind_lift, Hc, st_bind_lift, Ht, Hopne.
  change (nonempty "create_group") with true. replace (c <=? 0) with false by (symmetry; by apply Z.leb_gt). cbn [negb orb].
  assert (Hpop : _pop_pending_mls_prepare "create_group" c 0 a1 =
    (a1 <| gs ::= fun g => g <| prepare := rest ++ [Intent "create_group" 0 0 "" name "" members] |> |>, Ok i)).
  { unfold _pop_pending_mls_prepare. rewrite (run_bind _ _ a1 a1 a1) by done. rewrite Ha1. cbn [take_first].
    replace (answers "create_group" c 0 i) with true; [done|]. unfold answers. by rewrite Hstale, Hconv0, Htarget0, String.eqb_refl, !andb_false_r. }
  rewrite (run_bind _ _ _ _ _ Hpop). clear Hpop. set (a3 := a1 <| gs ::= _ |>).
  rewrite (run_bind _ _ a3 (a3 <| gs ::= fun g => g <| ops ::= <[op := new_op op "create_group" c 0 i]> |> |>) tt) by done.
  set (a4 := a3 <| gs ::= _ |>). change (String.eqb "create_group" "create_group") with true. cbv iota.
  unfold prepared_create. unfold st_catch.
  rewrite (run_bind _ _ a4 (a4 <| crypto := s1 |>) created).
  2:{ unfold on_crypto. change (crypto a4) with (crypto a1). by rewrite Hcreate. }
  set (a5 := a4 <| crypto := s1 |>). cbv zeta. set (o := with_targets _ _).
  rewrite (run_bind _ _ a5 (a5 <| gs ::= fun g => g <| ops ::= <[op := o]> |> |>) tt) by done. set (a6 := a5 <| gs ::= _ |>).
  assert (Ho : targets_of (o_fields o) = Ok (positive (i_members i))).
  { unfold targets_of. assert (Hd : dget "targets" (PList []) (o_fields o) = PList (map PInt (positive (i_members i)))) by apply dget_dset_eq.
    rewrite Hd. cbn [py_iter res_bind]. rewrite ints_read. cbn [res_bind]. by rewrite positive_twice. }
  clearbody o. destruct (positive (i_members i)) as [|u us]; [done|].
  destruct (claims_run op (u :: us) a6) as (a7 & H & H7 & H8). cbv iota. rewrite H. cbn [fst]. rewrite H7, H8. split; [done|].
  exists o. split; [|done]. unfold a6. cbn. apply lookup_insert_eq.
Qed.
End groups.

(** ** Witnesses

    The process of the groups agrees to everything. *)

#[local] Existing Instance reference_prims.
#[local] Instance agree_os : Os := {|
  os_clock _ := 0; os_random n k := fill "A" k; os_io _ := true; os_scan _ l := l;
  bridge_installed := true;
  bridge_reply _ := Some (json_dumps false false (PDict [("ok", PBool true); ("group_id_b64", PStr "Z3JvdXA"); ("epoch", PInt 1);
    ("state_b64", PStr "c3RhdGU"); ("commit_b64", PStr "Y29tbWl0"); ("welcome_b64", PStr "d2VsY29tZQ")]))
|}.
#[local] Instance quiet_env : Env := {|
  env_fails _ _ := None; env_mask _ := "mask"; env_monotonic _ := 0; env_fetch _ _ := HttpFail OSError; env_auditor_pk := "";
  env_pop s := hd 0 (elements s); env_exc _ := "error"; env_home := "/home/an"; env_cwd := "/home/an"; env_localtime _ := Ok "2024-05-01 10:00:00"; env_file_size _ := Ok 3; env_file_read _ := Ok "abc"
|}.

Definition admin_session : session := demo_session <| mls_identity_ready := true |> <| mls_bridge := Some (Some []) |>.
Definition admin_app : app :=
  App admin_session new_view
    (Connection (Some (Net (Some 3%nat) true 1)) true None "" 1 "relay.example" 9000 "an@example" "hash" "an" "an@example" 0 false [] 1
       true false "" "" [] ∅ 0 0 0 false) new_key_state new_queues new_groups [].

(** The server refuses the first group; the second one has other members. *)
Definition refused_app : app := fst (_handle_error [("type", PStr "error"); ("msg", PStr "Group name is taken")] (fst (_create_group "team" [2; 3] admin_app))).
Definition second_app : app := fst (_create_group "family" [4] refused_app).
Definition prepared_msg : dict :=
  [("type", PStr "group_change_prepared"); ("operation_id", PStr "op1"); ("operation", PStr "create_group"); ("conversation_id", PInt 9)].
Definition created_group := create_mls_group 9 (crypto (fst (_create_group "family" [4] refused_app))).
Lemma created_run created : snd created_group = Ok created ->
  create_mls_group 9 (crypto (fst (_create_group "family" [4] refused_app))) = (fst created_group, Ok created).
Proof. intros <-. unfold created_group. by destruct (create_mls_group _ _). Qed.
Lemma created_ok : is_ok (snd created_group) = true. Proof. vm_compute. reflexivity. Qed.
Lemma refused_queue : prepare (gs refused_app) = [Intent "create_group" 0 0 "" "team" "" [2; 3]].
Proof. vm_compute. reflexivity. Qed.

Lemma stale_intent_decides_members_witness :
  exists o, ops (gs (fst (_handle_group_change_prepared prepared_msg second_app))) !! "op1" = Some o /\ targets_of (o_fields o) = Ok [2; 3].
Proof.
  destruct (is_ok_inv _ created_ok) as [created Hc].
  refine (proj2 (stale_intent_decides_members "op1" 9 (Intent "create_group" 0 0 "" "team" "" [2; 3]) [] "family" [4] prepared_msg
    (fst created_group) created refused_app refused_queue _ _ _ _ _ _ _ _ _ _ _)); try reflexivity; [discriminate|].
  exact (created_run created Hc).
Defined.

(** The packages of two members of a new group, in either order. *)
Definition pair_op : group_op := with_targets [2; 3] (new_op "op1" "create_group" 9 0 (Intent "create_group" 0 0 "" "team" "" [2; 3])).
Definition claiming_app : app :=
  admin_app <| gs ::= fun g => g <| ops := {[ "op1" := pair_op ]} |> <| claims := <[2 := ["op1"]]> {[ 3 := ["op1"] ]} |> |>.
Definition pair_packages (u : Z) : string := "kp" +:+ dec u.

Lemma packages_in_any_order_witness :
  deliver pair_packages [3; 2] claiming_app = deliver pair_packages [2; 3] claiming_app.
Proof.
  assert (H : forall us, us ≡ₚ [2; 3] -> deliver pair_packages us claiming_app = deliver pair_packages [2; 3] claiming_app).
  { intros us Hus. transitivity (st_catch (add_members_of "op1" (pair_op <| o_claimed := packages pair_packages (list_to_set [2; 3]) |>) 9 [2; 3])
      (fun e => do! _ := drop_op (py_str (dget "operation_id" (PStr "") (o_fields pair_op))) in
        security_warning 9 ["MLS add-member failed: " +:+ exc_text e]) (with_packages "op1" pair_packages pair_op (list_to_set [2; 3]) claiming_app)).
    - apply (packages_in_any_order "op1" pair_packages pair_op [2; 3] 9 us claiming_app); try reflexivity; try done.
      + repeat constructor; set_solver.
      + intros u Hu. apply elem_of_cons in Hu as [->|Hu%list_elem_of_singleton]; [|subst u]; (split; [vm_compute; reflexivity|discriminate]).
    - symmetry. apply (packages_in_any_order "op1" pair_packages pair_op [2; 3] 9 [2; 3] claiming_app); try reflexivity; try done.
      + repeat constructor; set_solver.
      + intros u Hu. apply elem_of_cons in Hu as [->|Hu%list_elem_of_singleton]; [|subst u]; (split; [vm_compute; reflexivity|discriminate]). }
  apply H. by apply Permutation_swap.
Defined.
