(* ===== verification/AppTrip.v ===== *)
(** * A text between two applications

    The application of the sender and that of the receiver around the sessions of
    [MessageProps]: sending shows a bubble and writes the wire, the receiver shows the
    text of the wire, the sender shows the text when the wire comes back. *)

From S2P Require Import Prelude Hashing Base64 PyVal Sorting Json JsonFacts Crypto Wire Ratchet RatchetFacts Conversation AuditClient Utils Session.
From S2P Require Import Pqxdh CacheStore Transcript Identity DrStore IdentityAudit MlsBridge Mls Messages Cleanup.
From S2P Require Import WebSocket ChatPage ChatPageFacts ChatPageProps ChatView App AppIdentity AppMembers AppMessages.
From S2P Require Import WebSocketProps AppGroups AppKeys AppInbox AppFacts AppEcho SessionFacts DrFacts CacheFacts MessageFacts MessageProps AppProps.

(** ** What the server delivers *)

(** [msg] is message [mid] of conversation [c], sent by [sender] with the body [wire];
    it may have further fields. *)
Record carries (c mid sender : Z) (wire : string) (msg : dict) : Prop := {
  ca_fields : echo_of c mid msg;
  ca_sender : py_int (py_or (dget "from_id" (PInt 0) msg) (py_or (dget "sender_id" (PInt 0) msg) (PInt 0))) = Ok sender;
  ca_wire : dget "body" (PStr "") msg = PStr wire
}.

Section live.
Context `{P : Prims, O : Os}.
Variable oqs : option (option (list string)).

Lemma carried_body c mid sender wire msg : carries c mid sender wire msg -> starts_with PREFIX_DR wire = true ->
  py_or (dget "body" (PStr "") msg) (PStr "") = PStr wire.
Proof. intros [_ _ ->] H. destruct (dr_prefix wire H) as [Hn _]. unfold py_or. cbn. by destruct wire. Qed.

(** The wire of another is opened by the ratchet, one's own is not decrypted. *)
Lemma carried_decrypts c mid sender wire msg s : carries c mid sender wire msg -> starts_with PREFIX_DR wire = true ->
  decrypt_live_message oqs msg s =
    if (0 <? sender) && (sender =? my_uid s) then (s, Ok (status_only "self_echo")) else live_dr c wire s.
Proof.
  intros Hc Hp. destruct (dr_prefix wire Hp) as (Hn & Hpq & Hmls). unfold decrypt_live_message.
  rewrite st_bind_lift, (eo_conv _ _ _ (ca_fields _ _ _ _ _ Hc)), st_bind_lift, (ca_sender _ _ _ _ _ Hc).
  rewrite (carried_body c mid sender wire msg Hc Hp). unfold has_prefix, wire_of. rewrite Hpq, Hp.
  unfold st_bind, handle_group_integrity_control. rewrite Hmls. cbn [negb]. unfold st_ret, st_get.
  by destruct ((0 <? sender) && (sender =? my_uid s)).
Qed.
End live.

(** ** The receiver *)
Section receiver.
Context `{P : Prims, O : Os, E : Env}.
Variable oqs : option (option (list string)).

(** What the page must be like: it waits to emit nothing but commands, its records
    are well formed, and no edit of message [mid] is waiting. *)
Record page_ready (c mid : Z) (a : app) : Prop := {
  pr_signals : commanding (tl (chat a));
  pr_convs : convs_ok (tl (chat a));
  pr_edits : Forall (fun e => target_msg_id e <> mid) (waiting (tl (chat a)) c);
  pr_new : mid ∉ seen_ids (qs a) c
}.

(** A message that is opened, or whose text is not in it, reaches [handle_text]. *)
Lemma opened_run fuel c mid sender wire msg s1 result a : carries c mid sender wire msg -> mid ∉ seen_ids (qs a) c ->
  decrypt_live_message oqs msg (crypto a) = (s1, Ok result) -> mem (get_str0 "status" result) ["message"; "self_echo"] = true ->
  exists a1, _handle_message oqs (S fuel) msg a = handle_text msg c sender mid result a1 /\
    crypto a1 = s1 /\ chat a1 = chat a /\ self_texts (qs a1) = self_texts (qs a) /\ self_ids (qs a1) = self_ids (qs a).
Proof.
  intros [[Hc _ Hi _ _ _ _ _] Hs _] Hseen Hd Hst. cbn [_handle_message].
  unfold handle_with. rewrite st_bind_lift, Hc, st_bind_lift, Hs, st_bind_lift, Hi, (run_bind _ _ a a a) by done.
  rewrite bool_decide_eq_false_2, andb_false_r by done.
  rewrite (run_bind _ _ a (a <| crypto := s1 |>) result) by (unfold on_crypto; by rewrite Hd).
  set (st := get_str0 "status" result) in *. cbn [mem existsb] in Hst. set (a1 := a <| crypto := s1 |>).
  assert (Hne : String.eqb st "pending" = false /\ String.eqb st "hidden" = false /\ String.eqb st "control" = false).
  { unfold mem in Hst. cbn [existsb] in Hst. rewrite orb_false_r in Hst. apply orb_prop in Hst as [->%String.eqb_eq| ->%String.eqb_eq]; done. }
  destruct Hne as (-> & Hh & Hcl).
  assert (Hm : exists a2, mark_seen c mid a1 = (a2, Ok tt) /\ crypto a2 = s1 /\ chat a2 = chat a /\ self_texts (qs a2) = self_texts (qs a)
    /\ self_ids (qs a2) = self_ids (qs a)).
  { unfold mark_seen. destruct (mid =? 0); by eexists. }
  destruct Hm as (a2 & Hm & Hrest). rewrite (run_bind _ _ _ _ _ Hm), Hh, Hcl. by exists a2.
Qed.

Lemma text_run fuel c mid sender wire msg s1 t a : carries c mid sender wire msg -> page_ready c mid a ->
  decrypt_live_message oqs msg (crypto a) = (s1, Ok (message_result (PStr t))) -> unpack_plaintext (PStr t) = Ok (PStr t) ->
  echoed c mid t (qs a) (fst (_handle_message oqs (S fuel) msg a)).
Proof.
  intros Hca [Hcmd Hok Hw Hseen] Hd Hu.
  destruct (opened_run fuel c mid sender wire msg s1 _ a Hca Hseen Hd eq_refl) as (a2 & -> & _ & Hm1 & Hm2 & Hm3).
  destruct Hca as [[_ _ _ (ts & Ht)%is_ok_inv He Hf Hr Hre] _ _].
  unfold handle_text. rewrite (run_bind _ _ a2 a2 tt) by done.
  change (py_eqb (dget "status" PNone (message_result (PStr t))) (PStr "self_echo")) with false. cbv iota zeta.
  rewrite (run_bind _ _ a2 a2 (PStr t)) by done. rewrite st_bind_lift, Ht.
  apply bind_case.
  - destruct (decrypted_shown msg c sender t mid ts a2) as (H1 & H2 & H3); try done; try by rewrite Hm1.
    split; [done|]. by rewrite H2, H3, Hm2, Hm3.
  - intros _. apply keeps_bind; [|intros _; apply echoed_keeps; [apply steady_refresh|apply neutral_refresh]].
    apply echoed_keeps; [apply steady_ask|apply neutral_ask].
Qed.
End receiver.

(** ** The sender: the review before sending *)

(** What the review of a conversation leaves alone in a session: all but the audits, the
    safety numbers and the readings of the world. *)
Record calm (s0 s : session) : Prop := {
  cm_states : double_ratchet_states s = double_ratchet_states s0;
  cm_objects : dr_objects s = dr_objects s0;
  cm_groups : group_conv_ids s = group_conv_ids s0;
  cm_uid : my_uid s = my_uid s0;
  cm_peers : conv_peer_uids s = conv_peer_uids s0;
  cm_random : n_random (os s) = n_random (os s0)
}.
#[export] Instance calm_preorder : PreOrder calm.
Proof. split; [by intros s|]. intros a b c [] []. split; congruence. Qed.

Lemma calm_talks s0 s c r st : calm s0 s -> talks s0 c r st -> talks s c r st.
Proof. intros [H1 H2 H3 _ _ _] [T1 T2 T3]. split; by rewrite ?H1, ?H2, ?H3. Qed.

Section review.
Context `{P : Prims, O : Os, E : Env}.
Variable oqs : option (option (list string)).

Lemma calm_read s0 path : keeps (calm s0) (read_json path).
Proof.
  unfold read_json, read_sealed, read_text. keeps_tac. intros s Hs. etransitivity; [exact Hs|]. by split.
Qed.
Lemma audit_run uid s : exists s' d, load_identity_audit uid s = (s', Ok d) /\ calm s s'.
Proof.
  assert (Hk : keeps (calm s) (load_identity_audit uid)).
  { unfold load_identity_audit. apply keeps_get. intros s1 _. destruct (_ !! uid); [apply keeps_ret|].
    destruct (negb _); [apply keeps_ret|]. destruct (negb _); [apply keeps_ret|]. apply keeps_catch; [|intros e; apply keeps_ret].
    keeps_tac; [apply calm_read|]. apply keeps_modify. intros s2 Hs. etransitivity; [exact Hs|]. by split. }
  specialize (Hk s (reflexivity s)). assert (Ho : exists d, snd (load_identity_audit uid s) = Ok d).
  { unfold load_identity_audit, st_bind at 1, st_get at 1. destruct (_ !! uid); [by eexists|].
    destruct (negb _); [by eexists|]. destruct (negb _); [by eexists|]. unfold st_catch.
    destruct (st_bind _ _ s) as [s1 [d|e]]; by eexists. }
  destruct Ho as [d Ho]. destruct (load_identity_audit uid s) as [s' r]. cbn in *. subst r. by exists s', d.
Qed.

(** What the review leaves alone in the application. *)
Record reviewed (a0 a : app) : Prop := {
  rv_crypto : calm (crypto a0) (crypto a);
  rv_page : tl (chat a) = tl (chat a0);
  rv_cn : cn a = cn a0;
  rv_ks : ks a = ks a0;
  rv_qs : qs a = qs a0
}.
#[local] Instance reviewed_preorder : PreOrder reviewed.
Proof. split; [by intros a|]. intros a b c [] []. split; first [by etransitivity|congruence]. Qed.

Lemma crypto_run {A} (m : sm A) s' (x : A) a : m (crypto a) = (s', Ok x) -> on_crypto m a = (a <| crypto := s' |>, Ok x).
Proof. intros H. unfold on_crypto. by rewrite H. Qed.
Lemma crypto_reviewed a s' : calm (crypto a) s' -> reviewed a (a <| crypto := s' |>).
Proof. by split. Qed.

Lemma set_fp_run c fp a : exists a', set_fp c fp a = (a', Ok tt) /\ reviewed a a'.
Proof. eexists. split; [reflexivity|]. apply crypto_reviewed. by split. Qed.

Lemma fingerprint_run c peer a : conv_peer_uids (crypto a) !! c = Some peer ->
  exists a' fp, _safety_fingerprint_for_conv c a = (a', Ok fp) /\ reviewed a a'.
Proof.
  intros Hp. unfold _safety_fingerprint_for_conv. rewrite (run_bind _ _ a a a) by done. unfold _peer_uid_for_conv.
  rewrite Hp, st_bind_lift. destruct (_ && _); [|by eexists _, _].
  destruct (audit_run peer (crypto a)) as (s1 & d & E1 & H1). rewrite (run_bind _ _ _ _ _ (crypto_run _ _ _ a E1)).
  apply crypto_reviewed in H1. set (a1 := a <| crypto := s1 |>) in *. destruct (if nonempty _ then _ else _) as [fp|].
  - destruct (set_fp_run c fp a1) as (a2 & E2 & H2). rewrite (run_bind _ _ _ _ _ E2). eexists _, _. split; [reflexivity|]. by etransitivity.
  - by eexists _, _.
Qed.

Lemma status_run c peer a : conv_peer_uids (crypto a) !! c = Some peer -> c ∉ group_conv_ids (crypto a) ->
  exists a' x, _security_status_for_conv c a = (a', Ok x) /\ reviewed a a'.
Proof.
  intros Hp Hg. unfold _security_status_for_conv. rewrite (run_bind _ _ a a a) by done. unfold is_group_conv.
  rewrite bool_decide_eq_false_2 by done. unfold _peer_uid_for_conv. rewrite Hp, st_bind_lift.
  assert (Ha : exists a1 d, (if peer =? 0 then st_ret [] else on_crypto (load_identity_audit peer)) a = (a1, Ok d) /\ reviewed a a1).
  { destruct (peer =? 0); [by eexists _, _|]. destruct (audit_run peer (crypto a)) as (s1 & d & E1 & H1).
    eexists _, d. split; [by apply crypto_run|by apply crypto_reviewed]. }
  destruct Ha as (a1 & d & E1 & H1). rewrite (run_bind _ _ _ _ _ E1).
  destruct (fingerprint_run c peer a1) as (a2 & fp & E2 & H2); [by rewrite (cm_peers _ _ (rv_crypto _ _ H1))|].
  rewrite (run_bind _ _ _ _ _ E2), (run_bind _ _ a2 a2 a2) by done. destruct (status_and_label _ _ _) as [status label].
  eexists _, _. split; [reflexivity|]. by etransitivity.
Qed.

Lemma group_total p c : convs_ok p -> exists b, _is_group_conversation_id p c = Ok b.
Proof.
  intros [_ Hg]. unfold _is_group_conversation_id. destruct (c <=? 0); [by eexists|]. destruct (_ && _); [by eexists|].
  induction (group_convs p) as [|g l IH]; [by eexists|]. cbn in *. apply andb_prop in Hg as [Hc Hl].
  apply andb_prop in Hc as [[k Hk]%is_ok_inv _]. rewrite Hk. cbn. destruct (k =? c); [by eexists|by apply IH].
Qed.

Lemma badge_run c st l d b v : convs_ok (tl v) -> exists v', set_conversation_security c st l d b v = (v', Ok tt) /\ tl v' = tl v.
Proof.
  intros Hok. unfold set_conversation_security. rewrite (run_bind _ _ v v v) by done.
  destruct (group_total (tl v) c Hok) as [g Hg]. rewrite Hg, st_bind_lift.
  assert (Hb : forall f, exists v', on_badges f v = (v', Ok tt) /\ tl v' = tl v) by (intros f; by eexists).
  assert (Hr : forall v0, exists v', refresh_input c v0 = (v', Ok tt) /\ tl v' = tl v0).
  { intros v0. unfold refresh_input, st_bind, st_get. destruct (_ =? _); by eexists. }
  destruct (badge_of g st l d b) as [sec|];
    (match goal with |- context [on_badges ?f] => destruct (Hb f) as (v1 & E1 & H1) end;
     rewrite (run_bind _ _ _ _ _ E1); destruct (Hr v1) as (v2 & E2 & H2); exists v2; split; [exact E2|congruence]).
Qed.

Lemma review_run c peer a : conv_peer_uids (crypto a) !! c = Some peer -> c ∉ group_conv_ids (crypto a) ->
  convs_ok (tl (chat a)) -> exists a', _require_identity_review_before_send c a = (a', Ok true) /\ reviewed a a'.
Proof.
  intros Hp Hg Hok. destruct (status_run c peer a Hp Hg) as (a1 & [[st l] d] & E1 & H1).
  destruct (badge_run c (py_str st) l d false (chat a1)) as (v & E2 & H2); [by rewrite (rv_page _ _ H1)|].
  exists (a1 <| chat := v |>). split.
  - unfold _require_identity_review_before_send. rewrite (run_bind _ _ a (a1 <| chat := v |>) tt); [done|].
    unfold _refresh_security_ui. rewrite (run_bind _ _ _ _ _ E1). unfold on_view. by rewrite E2.
  - etransitivity; [exact H1|]. split; try done.
Qed.
End review.

(** ** The sender: the request *)

Lemma wire_ascii `{P : Prims} r m st st' w : encrypt r m st = (st', Ok w) -> utf8_valid w = true.
Proof.
  unfold encrypt, st_bind, st_get, st_modify, st_lift, json_b64. intros H.
  destruct (maybe_send_ratchet _ _) as [t [[]|e]]; [|done]. destruct (kdf_ck _) as [mk ck].
  destruct (canonical _); [|done]. destruct (aead_encrypt _ _ _ _); [|done]. destruct (aead_encrypt _ _ _ _); [|done].
  destruct (json_bytes _) as [raw|]; [|done]. cbn in H. injection H as _ <-.
  change (utf8_valid (PREFIX_DR +:+ b64e raw) = true). rewrite utf8_valid_app by done. by apply utf8_valid_ascii, b64e_ascii.
Qed.

(** The frame of the request is shorter than a frame can be. *)
Definition fits (c : Z) (wire : string) : Prop := blen (json_dumps true false (PDict (message_request c wire 0))) < 2 ^ 64.

(** What sending a text encrypts it to: the wire, after the review that comes first. *)
Definition sealed_text `{P : Prims, O : Os, E : Env} (c : Z) (text : string) (a : app) : res (option string) :=
  snd (_encrypt_for_conv c text (fst (_require_identity_review_before_send c a))).

Section sender.
Context `{P : Prims, O : Os, OL : !OsLaws O, E : Env}.
Variable oqs : option (option (list string)).

(** The application is logged in and its socket takes the next frame. *)
Record online (a : app) : Prop := {
  on_active : session_active (cn a) = true;
  on_socket : exists n k, ws (cn a) = Some n /\ sock n = Some k;
  on_takes : forall frame, env_fails (n_sends (cn a)) frame = None
}.

Lemma send_run c wire a : online a -> utf8_valid wire = true -> fits c wire ->
  _safe_send (message_request c wire 0) a =
    (a <| cn ::= fun x => x <| n_sends ::= S |> <| outbox ::= fun l => l ++ [message_request c wire 0] |> |>, Ok true).
Proof.
  intros [Ha (n & k & Hn & Hk) Hf] Hw Hfit. unfold _safe_send. rewrite (run_bind _ _ a a a) by done. rewrite Ha, Hn.
  unfold st_catch. rewrite (run_bind _ _ a (a <| cn ::= fun x => x <| n_sends ::= S |> <| outbox ::= fun l => l ++ [message_request c wire 0] |> |>) tt); [done|].
  unfold ws_send. rewrite (run_bind _ _ a a a) by done. rewrite Hn. rewrite (run_bind _ _ a (a <| cn ::= fun x => x <| n_sends ::= S |> |>) tt) by done.
  unfold send, utf8_encode. rewrite json_dumps_valid by (unfold message_request; cbn; py_ok_fields). cbn [res_bind].
  rewrite (frame_encodes _ _ Hfit). cbn [res_bind]. rewrite Hk, Hf, st_bind_lift. done.
Qed.

Lemma cache_wire_run c wire sender t x s : exists s', cache_outgoing_wire c wire sender t x s = (s', Ok tt) /\ same_session s s'.
Proof.
  assert (Ho : snd (cache_outgoing_wire c wire sender t x s) = Ok tt).
  { unfold cache_outgoing_wire, st_bind at 1, st_get at 1. destruct (_ || _); [done|]. unfold CacheStore.append_entry, logged.
    match goal with |- context [st_catch ?m] => unfold st_catch; by destruct (m s) as [s1 [[]|e]] end. }
  assert (Hs : same_session s (fst (cache_outgoing_wire c wire sender t x s))) by (eapply proj1, within_run, within_cache_outgoing_wire).
  destruct (cache_outgoing_wire c wire sender t x s) as [s' r]. cbn in *. subst r. by exists s'.
Qed.
(** The page with one more bubble. *)
Lemma bubble_run c text p : exists p' i, show_send_pending c text "" 0 p = (p', Ok i) /\
  signals p' = signals p /\ dm_convs p' = dm_convs p /\ group_convs p' = group_convs p /\ pending_edit_events p' = pending_edit_events p /\
  exists m, messages_of p' c = messages_of p c ++ [m] /\ sending m = true /\ retry_text m = text.
Proof.
  unfold show_send_pending, next_local_id, append_entry, set_messages, st_bind, st_get, st_modify, st_ret.
  eexists _, _. split; [reflexivity|]. repeat (split; [done|]). eexists. split; [|split; [|]].
  - unfold messages_of. cbn. rewrite lookup_insert_eq. reflexivity.
  - done.
  - done.
Qed.

(** What a send needs and what it leaves. *)
Record can_send (c peer : Z) (a : app) : Prop := {
  cs_online : online a;
  cs_peer : conv_peer_uids (crypto a) !! c = Some peer;
  cs_open : publish_blocked (ks a) = false;
  cs_convs : convs_ok (tl (chat a))
}.
Record has_sent (c : Z) (text wire : string) (a a1 : app) : Prop := {
  hs_outbox : outbox (cn a1) = outbox (cn a) ++ [message_request c wire 0];
  hs_uid : my_uid (crypto a1) = my_uid (crypto a);
  hs_texts : default [] (self_texts (qs a1) !! c) = default [] (self_texts (qs a) !! c) ++ [text];
  hs_seen : seen_msg_ids (qs a1) = seen_msg_ids (qs a);
  hs_signals : signals (tl (chat a1)) = signals (tl (chat a));
  hs_convs : convs_ok (tl (chat a1));
  hs_edits : pending_edit_events (tl (chat a1)) = pending_edit_events (tl (chat a));
  hs_bubble : exists m, messages_of (tl (chat a1)) c = messages_of (tl (chat a)) c ++ [m] /\ sending m = true /\ retry_text m = text
}.

Lemma sent_run c peer r A text a : can_send c peer a -> talks (crypto a) c r A -> utf8_valid text = true ->
  exists n d t, (n = n_random (os (crypto a)) \/ n = S (n_random (os (crypto a)))) /\ drawn_at n d /\
    utf8_valid t = true /\ unpack_plaintext (PStr t) = Ok (PStr text) /\
    forall A' wire, encrypt d t A = (A', Ok wire) -> nonempty wire = true -> sealed_text c text a = Ok (Some wire) /\
    (fits c wire -> exists a1, _send_message c text 0 a = (a1, Ok tt) /\ has_sent c text wire a a1 /\ talks (crypto a1) c r A').
Proof.
  intros [Hon Hp Hks Hok] Ht Hv. destruct (review_run c peer a Hp (tk_direct _ _ _ _ Ht) Hok) as (a1 & E1 & [R1 R2 R3 R4 R5]).
  destruct (send_runs (crypto a1) c r A text) as (n & d & t & Hn & Hd & Ht1 & Hu & Hs); [by eapply calm_talks|done|].
  exists n, d, t. rewrite <- (cm_random _ _ R1). repeat (split; [done|]). intros A' wire He Hne.
  destruct (Hs A' wire He) as (s2 & E2 & Ht2 & Hu2).
  assert (Hseal : _encrypt_for_conv c text a1 = (a1 <| crypto := s2 |>, Ok (Some wire))).
  { unfold _encrypt_for_conv, st_catch. rewrite (run_bind _ _ a1 a1 a1) by done. rewrite R4, Hks, andb_false_r.
    by rewrite (run_bind _ _ _ _ _ (crypto_run _ _ _ a1 E2)). }
  split; [unfold sealed_text; rewrite E1; cbn [fst]; by rewrite Hseal|]. intros Hfit.
  unfold _send_message. rewrite (run_bind _ _ _ _ _ E1). cbn [negb]. rewrite (run_bind _ _ _ _ _ Hseal).
  destruct wire as [|ch wire]; [done|]. set (w := String ch wire) in *. set (a2 := a1 <| crypto := s2 |>).
  destruct (bubble_run c text (tl (chat a2))) as (p3 & i & E3 & S3 & D3 & G3 & W3 & B3).
  set (a3 := a2 <| chat ::= fun v => v <| tl := p3 |> |>).
  rewrite (run_bind _ _ a2 a3 i) by (unfold on_timeline, on_view, on_page; by rewrite E3).
  rewrite (run_bind _ _ a3 a3 a3) by done.
  destruct (cache_wire_run c w (my_uid_of a3) (PStr text) (PStr "") (crypto a3)) as (s4 & E4 & H4).
  rewrite (run_bind _ _ _ _ _ (crypto_run _ _ _ a3 E4)).
  rewrite (run_bind _ _ (a3 <| crypto := s4 |>) (fst (await_echo c text i (a3 <| crypto := s4 |>))) tt) by done.
  set (a5 := fst (await_echo _ _ _ _)).
  assert (Hon5 : online a5) by (destruct Hon; split; change (cn a5) with (cn a1); by rewrite R3).
  assert (Hwv : utf8_valid w = true) by by eapply wire_ascii.
  rewrite (run_bind _ _ _ _ _ (send_run c w a5 Hon5 Hwv Hfit)). eexists. split; [reflexivity|]. split.
  - split; try done.
    + change (outbox (cn a1) ++ [message_request c w 0] = outbox (cn a) ++ [message_request c w 0]). by rewrite R3.
    + change (my_uid s4 = my_uid (crypto a)). transitivity (my_uid (crypto a3)); [by same_fields H4|].
      change (my_uid s2 = my_uid (crypto a)). rewrite Hu2. by apply cm_uid.
    + change (default [] (push c text (self_texts (qs a1)) !! c) = default [] (self_texts (qs a) !! c) ++ [text]).
      unfold push. rewrite lookup_insert_eq. by rewrite R5.
    + change (seen_msg_ids (qs a1) = seen_msg_ids (qs a)). by rewrite R5.
    + change (signals p3 = signals (tl (chat a))). rewrite S3. change (tl (chat a2)) with (tl (chat a1)). by rewrite R2.
    + destruct Hok as [Hd1 Hd2]. split; [change (forallb conv_okb (dm_convs p3) = true)|change (forallb conv_okb (group_convs p3) = true)].
      * rewrite D3. change (tl (chat a2)) with (tl (chat a1)). by rewrite R2.
      * rewrite G3. change (tl (chat a2)) with (tl (chat a1)). by rewrite R2.
    + change (pending_edit_events p3 = pending_edit_events (tl (chat a))). rewrite W3. change (tl (chat a2)) with (tl (chat a1)). by rewrite R2.
    + change (tl (chat a2)) with (tl (chat a1)) in B3. rewrite R2 in B3. exact B3.
  - change (talks s4 c r A'). eapply talks_same; [|exact H4]. exact Ht2.
Qed.
End sender.

(** ** The ratchet stays in place around the session *)
Section in_place.
Context `{P : Prims, O : Os, E : Env}.
Variables (u c : Z) (r : nat) (st : DoubleRatchet).

(** The account is [u], the session of conversation [c] is the object [r], and the page
    emits commands only. *)
Definition engaged (s : session) : Prop := talks s c r st /\ my_uid s = u.
Definition in_place (a : app) : Prop := engaged (crypto a) /\ commanding (tl (chat a)).
Lemma engaged_same s s' : engaged s -> same_session s s' -> engaged s'.
Proof. intros [Ht Hu] Hs. split; [by eapply talks_same|]. by same_fields Hs. Qed.

Lemma place_timeline {A} (m : pm A) : keeps commanding m -> keeps in_place (on_timeline m).
Proof.
  intros Hm a [Ht Hc]. specialize (Hm _ Hc). unfold on_timeline, on_view, on_page. by destruct (m (tl (chat a))).
Qed.
Lemma place_crypto {A} (m : sm A) : keeps engaged m -> keeps in_place (on_crypto m).
Proof. intros Hm a [Ht Hc]. specialize (Hm _ Ht). unfold on_crypto. by destruct (m (crypto a)). Qed.
Lemma place_warning d l : keeps in_place (on_view (show_security_warning d l)).
Proof. by intros a [Ht Hc]. Qed.
Lemma place_same (f : app -> app) : (forall a, crypto (f a) = crypto a) -> (forall a, tl (chat (f a)) = tl (chat a)) ->
  keeps in_place (st_modify f).
Proof. intros H1 H2 a [Ht Hc]. unfold in_place, st_modify. cbn [fst]. by rewrite H1, H2. Qed.
Lemma place_cn f : keeps in_place (on_cn f). Proof. by apply place_same. Qed.
Lemma place_gs f : keeps in_place (on_gs f). Proof. by apply place_same. Qed.
Lemma place_qs f : keeps in_place (on_qs f). Proof. by apply place_same. Qed.
Hint Resolve place_cn place_gs place_qs place_warning : neutral.

Ltac place_tac := keeps_tac; try solve [auto with neutral].

Lemma commanding_interrupted t : keeps commanding (mark_pending_sends_failed t). Proof. by apply commanding_field. Qed.
Lemma place_schedule : keeps in_place _schedule_reconnect. Proof. unfold _schedule_reconnect. place_tac. Qed.
Lemma place_net_close t : keeps in_place (_net_close t).
Proof.
  unfold _net_close. apply keeps_get. intros a _. destruct (ws (cn a)); [|apply keeps_ret]. place_tac.
  - apply place_timeline, commanding_interrupted.
  - apply place_schedule.
Qed.
Lemma place_ws_send obj : keeps in_place (ws_send obj).
Proof.
  unfold ws_send. apply keeps_get. intros a _. destruct (ws (cn a)); [|by intros x]. place_tac.
  apply keeps_for. intros [|t|d]; [apply keeps_ret|apply place_net_close|apply keeps_ret].
Qed.
Lemma place_safe_send obj : keeps in_place (_safe_send obj).
Proof.
  unfold _safe_send. apply keeps_get. intros a _. destruct (session_active (cn a)), (ws (cn a)); try apply keeps_ret.
  apply keeps_catch; [|intros e; apply keeps_ret]. apply keeps_bind; [apply place_ws_send|intros _; apply keeps_ret].
Qed.
Hint Resolve place_safe_send : neutral.
Lemma place_ask t : keeps in_place (ask t). Proof. unfold ask, request. place_tac. Qed.
Lemma place_command obj : keeps in_place (_handle_ui_command obj).
Proof. unfold _handle_ui_command, refresh_inbox. place_tac. Qed.

Lemma place_signals : keeps in_place run_signals.
Proof.
  unfold run_signals. apply keeps_get. intros a0 [_ H0]. apply keeps_bind.
  - apply place_timeline. intros p _. by constructor.
  - intros _. apply Forall_rev in H0. induction H0 as [|x l Hx _ IH]; [apply keeps_ret|]. apply keeps_bind; [|intros _; exact IH].
    destruct x; try done. cbn [dispatch]. place_tac. apply place_command.
Qed.
Lemma place_shown {A} (m : pm A) : keeps commanding m -> keeps in_place (timeline_signals m).
Proof.
  intros Hm. unfold timeline_signals, with_signals. apply keeps_bind; [by apply place_timeline|]. intros x.
  apply keeps_bind; [apply place_signals|intros _; apply keeps_ret].
Qed.

Lemma engaged_cache d mid sender b t : keeps engaged (cache_message d mid sender b t).
Proof. intros s Hs. eapply engaged_same; [exact Hs|]. eapply proj1, within_run, within_cache_message. Qed.
Lemma engaged_record d mid sender b t e x : keeps engaged (record_transcript_message d mid sender b t e x).
Proof.
  assert (Hw : forall s0, within same_session (fun _ => True) s0 (record_transcript_message d mid sender b t e x)).
  { intros s0. unfold record_transcript_message, _load_transcript_state, stamp_and_save, _save_transcript_state. within_tac.
    - apply within_read_json.
    - by apply within_write_sealed. }
  intros s Hs. eapply engaged_same; [exact Hs|]. eapply proj1, within_run, Hw.
Qed.

(** What follows the decryption of a message. *)
Lemma place_decrypted raw d sender b t mid : d = c -> keeps in_place (_handle_decrypted_message raw d sender b t mid).
Proof.
  intros ->.
  assert (Hcp : forall f, keeps in_place (_maybe_send_transcript_checkpoint c f)).
  { intros f. unfold _maybe_send_transcript_checkpoint. apply keeps_get. intros a [[Ht _] _]. unfold is_group_conv.
    rewrite bool_decide_eq_false_2 by apply (tk_direct _ _ _ _ Ht). rewrite orb_true_r. apply keeps_ret. }
  assert (Hrec : forall b e, keeps in_place (record_message c mid sender b t e raw)).
  { intros b' e. unfold record_message. destruct (0 <? mid); [|apply keeps_ret]. apply place_crypto, engaged_record. }
  assert (Hca : forall m b, keeps in_place (_cache_message c m sender b t)).
  { intros m b'. apply place_crypto, engaged_cache. }
  unfold _handle_decrypted_message. keeps_tac; try done.
  - apply place_timeline. unfold apply_edit_event. keeps_tac; apply commanding_update.
  - apply place_shown, commanding_add.
Qed.
Lemma place_take_echo d : keeps in_place (take_echo d).
Proof.
  unfold take_echo. place_tac. apply place_timeline. unfold remove_pending_send. apply keeps_get. intros p _.
  destruct (remove_first _ _); [apply commanding_set|apply keeps_ret].
Qed.
Lemma place_seen d mid : keeps in_place (mark_seen d mid).
Proof. unfold mark_seen. place_tac. Qed.
Lemma place_refresh : keeps in_place refresh_inbox. Proof. apply place_cn. Qed.

Lemma place_text msg sender mid result : dget "peer_uid" PNone result = PNone -> dget "peer_identity_pk" PNone result = PNone ->
  keeps in_place (handle_text msg c sender mid result).
Proof.
  intros H1 H2. unfold handle_text, learn_peer. rewrite H1, H2. cbn [truthy]. apply keeps_bind; [by apply keeps_bind; [apply keeps_ret|intros _; apply keeps_ret]|].
  intros _. apply keeps_bind.
  { destruct (py_eqb _ _); [|apply keeps_ret]. apply keeps_bind; [apply place_take_echo|intros t; apply keeps_ret]. }
  intros b. keeps_tac; [by apply place_decrypted|apply place_ask|apply place_refresh].
Qed.
End in_place.

(** ** Both sides *)
Section both.
Context `{P : Prims} `{!PrimLaws P} `{!AeadStrict P}.
Variable oqs : option (option (list string)).

(** The wire at the other side, and back at the sender's. *)
Lemma arrives (O : Os) (E : Env) c mid sender wire msg s1 t r st fuel a : carries c mid sender wire msg -> page_ready c mid a ->
  decrypt_live_message oqs msg (crypto a) = (s1, Ok (message_result (PStr t))) -> unpack_plaintext (PStr t) = Ok (PStr t) ->
  talks s1 c r st -> my_uid s1 = my_uid (crypto a) ->
  let a' := fst (_handle_message oqs (S fuel) msg a) in
  shows c mid (PStr t) (tl (chat a')) /\ in_place (my_uid (crypto a)) c r st a'.
Proof.
  intros Hc Ha Hd Hu Ht1 Hu1 a'. destruct (text_run oqs fuel c mid sender wire msg s1 t a Hc Ha Hd Hu) as (H1 & _ & _).
  split; [exact H1|]. destruct (opened_run oqs fuel c mid _ wire msg _ _ a Hc (pr_new _ _ _ Ha) Hd eq_refl) as (a1 & Ea & Ca & Va & _).
  unfold a'. rewrite Ea. apply place_text; [done..|]. split; [split; by rewrite Ca|rewrite Va; apply Ha].
Qed.
Lemma comes_back (O : Os) (E : Env) c mid wire msg t r st fuel a : carries c mid (my_uid (crypto a)) wire msg -> page_ready c mid a ->
  starts_with PREFIX_DR wire = true -> 0 < my_uid (crypto a) -> default [] (self_texts (qs a) !! c) = [t] ->
  unpack_plaintext (PStr t) = Ok (PStr t) -> talks (crypto a) c r st ->
  let a' := fst (_handle_message oqs (S fuel) msg a) in
  shows c mid (PStr t) (tl (chat a')) /\ default [] (self_texts (qs a') !! c) = [] /\ in_place (my_uid (crypto a)) c r st a'.
Proof.
  intros Hc Ha Hp Hu Ht Hun Htk a'.
  assert (Hd : decrypt_live_message oqs msg (crypto a) = (crypto a, Ok (status_only "self_echo"))).
  { rewrite (carried_decrypts oqs c mid _ wire msg _ Hc Hp), Z.eqb_refl. by apply Z.ltb_lt in Hu as ->. }
  assert (Hnext : next_text c a = t) by (unfold next_text, oldest; by rewrite Ht). pose proof Ha as [P1 P2 P3 P4].
  destruct (echo_run oqs fuel c mid msg (crypto a) a) as (A1 & A2 & _); try done; [apply Hc|by rewrite Hnext|].
  rewrite Hnext in A1. split; [exact A1|]. split.
  { change (default [] (self_texts (qs a') !! c) = []). unfold a'. rewrite A2. cbn. unfold drop_oldest. rewrite lookup_alter_eq.
    destruct (self_texts (qs a) !! c) as [l|]; [|done]. cbn in Ht. unfold id in Ht. by rewrite Ht. }
  destruct (opened_run oqs fuel c mid _ wire msg _ _ a Hc P4 Hd eq_refl) as (a1 & Ea & Ca & Va & _).
  unfold a'. rewrite Ea. apply place_text; [done..|]. split; [split; by rewrite Ca|by rewrite Va].
Qed.

(** Two applications in one direct conversation, of different accounts. *)
Record in_touch (U : list bytes) (c : Z) (rA rB : nat) (A B : DoubleRatchet) (a b : app) : Prop := {
  it_a : talks (crypto a) c rA A;
  it_b : talks (crypto b) c rB B;
  it_led : led U A B \/ led U B A;
  it_session : session_id A <> "";
  it_uid : 0 < my_uid (crypto a);
  it_uids : my_uid (crypto a) <> my_uid (crypto b)
}.

(** C2: A text is shown by both sides. The sender's application writes one request; when
    the server delivers its wire under an identifier, the other application shows the
    text under that identifier, and so does the sender's when the wire comes back to
    it. Then nothing of the text is awaited any more, and the two applications are in
    touch again: this goes on with the next text of either. The keys drawn on the way
    must not repeat earlier ratchet keys, and the request with the encrypted text must
    be shorter than a frame can be (2^64 bytes). *)
Theorem text_shown_on_both_sides (OA OB : Os) (LA : OsLaws OA) (LB : OsLaws OB) (EA EB : Env) U c peer rA rB A B a b text mid fuel
    (Htouch : in_touch U c rA rB A B a b) (Hsend : can_send (E := EA) c peer a)
    (Ha : page_ready c mid a) (Hb : page_ready c mid b) (Hnone : default [] (self_texts (qs a) !! c) = [])
    (Hvalid : utf8_valid text = true) (Hplain : unpack_plaintext (PStr text) = Ok (PStr text))
    (Hfits : forall wire, sealed_text (O := OA) (E := EA) c text a = Ok (Some wire) -> fits c wire) :
  let kB := x_pub (receive_seed (O := OB) (crypto b)) in
  kB ∉ U ->
  (forall n, n = n_random (os (crypto a)) \/ n = S (n_random (os (crypto a))) ->
     x_pub (os_random (Os := OA) n 32) ∉ U /\ kB <> x_pub (os_random (Os := OA) n 32)) ->
  exists wire A' B' U' a1, (forall k, k ∈ U -> k ∈ U') /\ sealed_text (O := OA) (E := EA) c text a = Ok (Some wire) /\
    _send_message (O := OA) (E := EA) c text 0 a = (a1, Ok tt) /\
    outbox (cn a1) = outbox (cn a) ++ [message_request c wire 0] /\
    forall ma mb, carries c mid (my_uid (crypto a)) wire ma -> carries c mid (my_uid (crypto a)) wire mb ->
    let a2 := fst (_handle_message (O := OA) (E := EA) oqs (S fuel) ma a1) in
    let b2 := fst (_handle_message (O := OB) (E := EB) oqs (S fuel) mb b) in
    shows c mid (PStr text) (tl (chat b2)) /\ shows c mid (PStr text) (tl (chat a2)) /\
    default [] (self_texts (qs a2) !! c) = [] /\ in_touch U' c rA rB A' B' a2 b2.
Proof.
  destruct Htouch as [HtA HtB HL Hsid Hu Hus]. intros kB HkB Hfresh.
  destruct (sent_run (O := OA) (E := EA) c peer rA A text a Hsend HtA Hvalid) as (n & d & t & Hn & (Hd & Hn1 & Hn2) & Hv & Hun & Hrun).
  destruct (Hfresh n Hn) as [Hf1 Hf2]. rewrite <- Hd in Hf1, Hf2.
  destruct (led_partners U A B HL) as (Hs & Hvs & Hseen).
  destruct (talking_step U A B d t (receive_seed (O := OB) (crypto b)) HL) as (w & A' & B' & He & Hdec & HL1);
    [done|rewrite Hd; apply os_random_len|apply os_random_len|done..|].
  destruct (sent_wire_id d t A A' w He Hvs Hsid) as (Hp & Hw & Hsid'). destruct (dr_prefix w Hp) as (Hne & _ & _).
  destruct (Hrun A' w He Hne) as [Hseal Hsent].
  destruct (Hsent (Hfits w Hseal)) as (a1 & E1 & [S1 S2 S3 S4 S5 S6 S7 _] & HtA1).
  exists w, A', B', (x_pub (receive_seed (O := OB) (crypto b)) :: x_pub (e_seed d) :: U), a1.
  split; [intros k Hk; by right; right|]. repeat (split; [done|]).
  intros ma mb Hma Hmb a2 b2.
  destruct (live_dr_opens (O := OB) (crypto b) c rB B (with_seen (list_to_set (last_sorted 2048 (seen B))) B)
    w B' t (PStr text) HtB) as (sB & EB' & HtB' & HuB).
  { right. by rewrite Hs. } { by apply from_dict_to_dict. } { done. } { done. }
  assert (Hdb : decrypt_live_message (O := OB) oqs mb (crypto b) = (sB, Ok (message_result (PStr text)))).
  { rewrite (carried_decrypts oqs c mid _ w mb _ Hmb Hp). apply Z.eqb_neq in Hus. by rewrite Hus, andb_false_r. }
  assert (Ha1 : page_ready c mid a1).
  { destruct Ha as [P1 P2 P3 P4]. split; [unfold commanding; by rewrite S5|done|unfold waiting; by rewrite S7|unfold seen_ids; by rewrite S4]. }
  rewrite <- S2 in Hma, Hu. rewrite Hnone in S3.
  destruct (arrives OB EB c mid _ w mb sB text rB B' fuel b Hmb Hb Hdb Hplain HtB' HuB) as (B1 & [[K3 K4] _]).
  destruct (comes_back OA EA c mid w ma text rA A' fuel a1 Hma Ha1 Hp Hu S3 Hplain HtA1) as (A1 & A2 & [[K1 K2] _]).
  change (my_uid (crypto a2) = my_uid (crypto a1)) in K2. change (my_uid (crypto b2) = my_uid (crypto b)) in K4.
  repeat (split; [done|]). split; try done; [by rewrite Hsid'|by rewrite K2|by rewrite K2, K4, S2].
Qed.
End both.

(** ** Witness

    Accounts 1 and 2, each with the conversation 5 and nothing sent or received in it. *)

#[local] Existing Instance reference_prims.

Definition near_app : app :=
  demo_app <| crypto ::= fun s => s <| conv_peer_uids ::= fun _ => {[5 := 2]} |> |> <| cn ::= fun x => x <| n_sends := 1%nat |> |>.
Definition far_app : app :=
  App (in_conversation 2 demo_second 5) (demo_chat <| me := "binh" |> <| tl ::= fun p => p <| my_id := 2 |> |>) demo_connection
    new_key_state new_queues new_groups [].

Lemma near_ready : can_send (E := demo_env) 5 2 near_app.
Proof. split; try reflexivity; [|by split]. split; [reflexivity|by eexists _, _|reflexivity]. Qed.
Lemma demo_page_ready mid a : qs a = new_queues -> signals (tl (chat a)) = [] -> dm_convs (tl (chat a)) = dm_convs (tl demo_chat) ->
  group_convs (tl (chat a)) = [] -> pending_edit_events (tl (chat a)) = ∅ -> page_ready 5 mid a.
Proof.
  intros H1 H2 H3 H4 H5. split; [by apply quiet_commanding|by apply demo_convs|unfold waiting; by rewrite H5|].
  unfold seen_ids. rewrite H1. apply not_elem_of_empty.
Qed.
Lemma demo_in_touch : in_touch [x_pub demo_dr_a; x_pub demo_dr_b] 5 0%nat 0%nat demo_first demo_second near_app far_app.
Proof.
  split; [|apply in_conversation_talks|left; apply demo_led|discriminate|reflexivity|discriminate].
  destruct (in_conversation_talks 1 demo_first 0) as [T1 T2 T3]. by split.
Qed.

(** A message as the server delivers it. *)
Definition wire_message (c mid sender : Z) (wire : string) : dict :=
  [("type", PStr "message"); ("id", PInt mid); ("conversation_id", PInt c); ("from_id", PInt sender); ("body", PStr wire)].
Lemma wire_carries c mid sender wire : carries c mid sender wire (wire_message c mid sender wire).
Proof.
  assert (Hor : forall x, py_int (py_or (PInt x) (PInt 0)) = Ok x) by (intros x; unfold py_or; cbn; by destruct (Z.eqb_spec x 0); subst).
  split; [split|..]; try reflexivity; unfold get_int0, wire_message; cbn -[py_int py_or]; try apply Hor.
  all: destruct (Z.eqb_spec sender 0) as [->|Hs]; [reflexivity|]; cbn -[py_int py_or]; try by rewrite Hor.
Qed.

Lemma text_shown_on_both_sides_witness : exists wire a1, _send_message (O := demo_os 0) (E := demo_env) 5 "hello" 0 near_app = (a1, Ok tt) /\
  outbox (cn a1) = outbox (cn near_app) ++ [message_request 5 wire 0] /\
  let msg := wire_message 5 12 1 wire in carries 5 12 1 wire msg /\
  shows 5 12 (PStr "hello") (tl (chat (fst (_handle_message (O := demo_os 7) (E := demo_env) None 1 msg far_app)))) /\
  shows 5 12 (PStr "hello") (tl (chat (fst (_handle_message (O := demo_os 0) (E := demo_env) None 1 msg a1)))).
Proof.
  destruct (text_shown_on_both_sides None (demo_os 0) (demo_os 7) (demo_os_laws 0) (demo_os_laws 7) demo_env demo_env
    [x_pub demo_dr_a; x_pub demo_dr_b] 5 2 0%nat 0%nat demo_first demo_second near_app far_app "hello" 12 0)
    as (wire & A' & B' & U' & a1 & _ & _ & E1 & Ho & Hm).
  - apply demo_in_touch.
  - apply near_ready.
  - by apply demo_page_ready.
  - by apply demo_page_ready.
  - reflexivity.
  - reflexivity.
  - vm_compute. reflexivity.
  - intros w Hw. vm_compute in Hw. injection Hw as <-. vm_compute. reflexivity.
  - apply fill_not_key. split; vm_compute; discriminate.
  - intros n [->| ->]; (split; [apply fill_not_key; split; vm_compute; discriminate|vm_compute; discriminate]).
  - exists wire, a1. split; [exact E1|]. split; [exact Ho|].
    pose proof (wire_carries 5 12 1 wire) as Hc.
    destruct (Hm _ _ Hc Hc) as (H1 & H2 & _). split; [exact Hc|]. split; [exact H1|exact H2].
Defined.
