(* ===== verification/AppRecovery.v ===== *)
(** * The connection comes back

    Losing the connection, attempts to reconnect that fail, what the user does in the
    meantime, and the attempt that succeeds, as one run of the application. *)

From S2P Require Import Prelude Hashing Base64 PyVal Sorting Json JsonFacts Crypto Wire Ratchet AuditClient Utils Session.
From S2P Require Import Pqxdh CacheStore Transcript Identity DrStore IdentityAudit MlsBridge Mls Messages Cleanup.
From S2P Require Import WebSocket ChatPage ChatView App AppIdentity AppMembers AppMessages AppGroups AppKeys AppInbox.
From S2P Require Import SessionFacts MessageFacts WebSocketProps ChatPageFacts ChatPageProps AppFacts AppEcho AppProps.

(** ** Methods that leave a lost connection as it is

    The fields of the connection that decide when and as whom the application connects,
    and what it has sent. *)
Record link := Link {
  l_ws : option net; l_active : bool; l_pending : option credentials; l_stack : Z; l_host : string; l_port : Z;
  l_email : string; l_hash : string; l_auth : string; l_attempts : Z; l_scheduled : bool; l_delays : list Z;
  l_outbox : list dict; l_sends : nat
}.
Definition link_of (c : connection) : link :=
  Link (ws c) (session_active c) (pending c) (stack c) (last_host c) (last_port c) (last_email c) (last_pw_hash c)
    (auth_credential c) (attempts c) (scheduled c) (delays c) (outbox c) (n_sends c).

(** Without a session, [m] leaves the link alone. *)
Definition inert {A} (m : am A) : Prop :=
  forall a, session_active (cn a) = false -> link_of (cn (fst (m a))) = link_of (cn a).
Create HintDb inert.

Lemma link_active c c' : link_of c = link_of c' -> session_active c = session_active c'.
Proof. intros H. exact (f_equal l_active H). Qed.
Lemma inert_bind {A B} (m : am A) (k : A -> am B) : inert m -> (forall x, inert (k x)) -> inert (st_bind m k).
Proof.
  intros Hm Hk a Ha. unfold st_bind. specialize (Hm a Ha). destruct (m a) as [a1 [x|e]]; cbn in *; [|done].
  rewrite Hk; [done|]. by rewrite (link_active _ _ Hm).
Qed.
Lemma inert_catch {A} (m : am A) h : inert m -> (forall e, inert (h e)) -> inert (st_catch m h).
Proof.
  intros Hm Hh a Ha. unfold st_catch. specialize (Hm a Ha). destruct (m a) as [a1 [x|e]]; cbn in *; [done|].
  rewrite Hh; [done|]. by rewrite (link_active _ _ Hm).
Qed.
Lemma inert_ret {A} (x : A) : inert (st_ret x). Proof. by intros a. Qed.
Lemma inert_fail {A} e : inert (A := A) (st_fail e). Proof. by intros a. Qed.
Lemma inert_lift {A} (m : res A) : inert (st_lift m). Proof. by intros a. Qed.
Lemma inert_get : inert st_get. Proof. by intros a. Qed.
Lemma inert_on_crypto {A} (m : sm A) : inert (on_crypto m).
Proof. intros a _. unfold on_crypto. by destruct (m (crypto a)). Qed.
Lemma inert_on_view {A} (m : vm A) : inert (on_view m).
Proof. intros a _. unfold on_view. by destruct (m (chat a)). Qed.
Lemma inert_on_timeline {A} (m : pm A) : inert (on_timeline m). Proof. apply inert_on_view. Qed.
Lemma inert_on_cn f : (forall c, link_of (f c) = link_of c) -> inert (on_cn f). Proof. intros H a _. apply H. Qed.
Lemma inert_fetch : inert (on_cn (fun c => c <| n_fetches ::= S |>)). Proof. by apply inert_on_cn. Qed.
Lemma inert_refresh : inert refresh_inbox. Proof. by apply inert_on_cn. Qed.
Lemma inert_on_ks f : inert (on_ks f). Proof. by intros a. Qed.
Lemma inert_on_qs f : inert (on_qs f). Proof. by intros a. Qed.
Lemma inert_on_gs f : inert (on_gs f). Proof. by intros a. Qed.
Lemma inert_warn_box x y : inert (warn_box x y). Proof. by intros a. Qed.
#[export] Hint Resolve inert_ret inert_fail inert_lift inert_get inert_on_crypto inert_on_view inert_on_timeline
  inert_fetch inert_refresh inert_on_ks inert_on_qs inert_on_gs inert_warn_box : inert.

Ltac inert_tac :=
  repeat first
    [ solve [auto with inert]
    | apply inert_bind; [|intros ?]
    | apply inert_catch; [|intros ?]
    | match goal with
      | |- inert (match ?x with _ => _ end) => destruct x
      | |- inert (let (_, _) := ?x in _) => destruct x
      end ].

Section inert.
Context `{P : Prims, O : Os, E : Env}.

Lemma inert_safe_send obj : inert (_safe_send obj).
Proof. intros a Ha. unfold _safe_send. rewrite (run_bind _ _ a a a) by done. by rewrite Ha. Qed.
Hint Resolve inert_safe_send : inert.
Lemma inert_request obj : inert (request obj). Proof. unfold request. inert_tac. Qed.
Lemma inert_ask_conv t k c : inert (ask_conv t k c). Proof. apply inert_request. Qed.
Lemma inert_show_fp fp b : inert (show_fp fp b). Proof. apply inert_on_view. Qed.
Lemma inert_set_fp c fp : inert (set_fp c fp). Proof. apply inert_on_crypto. Qed.
Hint Resolve inert_request inert_ask_conv inert_show_fp inert_set_fp : inert.
Lemma inert_fingerprint c : inert (_safety_fingerprint_for_conv c).
Proof. unfold _safety_fingerprint_for_conv. inert_tac. Qed.
Hint Resolve inert_fingerprint : inert.
Lemma inert_security c : inert (_security_status_for_conv c).
Proof. unfold _security_status_for_conv. inert_tac. Qed.
Hint Resolve inert_security : inert.
Lemma inert_refresh_ui c : inert (_refresh_security_ui c). Proof. unfold _refresh_security_ui. inert_tac. Qed.
Hint Resolve inert_refresh_ui : inert.
Lemma inert_dm_peer c : inert (_peer_uid_for_dm_conv c). Proof. unfold _peer_uid_for_dm_conv. inert_tac. Qed.
Hint Resolve inert_dm_peer : inert.
Lemma inert_ensure c : inert (_ensure_pqxdh_dm_session c). Proof. unfold _ensure_pqxdh_dm_session. inert_tac. Qed.
Hint Resolve inert_ensure : inert.
Lemma inert_encrypt c t : inert (_encrypt_for_conv c t). Proof. unfold _encrypt_for_conv. inert_tac. Qed.
Hint Resolve inert_encrypt : inert.
Lemma inert_send c t r : inert (_send_message c t r).
Proof. unfold _send_message, _require_identity_review_before_send, await_echo, give_up_echo. inert_tac. Qed.
Lemma inert_file c p : inert (_send_file c p).
Proof. unfold _send_file, _require_identity_review_before_send, await_echo, give_up_echo. inert_tac. Qed.
Lemma inert_edit c i t : inert (_edit_message c i t). Proof. unfold _edit_message. inert_tac. Qed.
Lemma inert_history c : inert (_get_history c). Proof. unfold _get_history. inert_tac. Qed.
Lemma inert_command d : inert (_handle_ui_command d). Proof. unfold _handle_ui_command. inert_tac. Qed.
End inert.
#[export] Hint Resolve inert_send inert_file inert_edit inert_history inert_command inert_request : inert.

(** ** The outage

    Where the application stands while it is without a session: whether the timer of the
    next attempt runs, the attempts made, and the delays chosen so far. *)
Record phase := Phase { waits : bool; made : Z; chosen : list Z }.

(** What can happen: the timer runs out, a socket is opened but the connection is lost
    before the server has answered, an attempt fails, and the user goes on writing.
    [None] when it cannot happen then. *)
Definition phase_step (f : phase) (o : app_op) : option phase :=
  match o with
  | OpAttempt => if waits f then Some (Phase false (made f + 1) (chosen f)) else None
  | OpClose _ => Some (if waits f then f else Phase true (made f) (reconnect_delay (made f) :: chosen f))
  | OpSocket _ => if waits f then None else Some f
  | OpSend _ _ _ | OpFile _ _ | OpEdit _ _ _ | OpDelete _ | OpHistory _ | OpCommand _ => Some f
  | OpOpen | OpReconnected | OpError _ => None
  end.
Definition phase_run (l : list app_op) (f : phase) : option phase :=
  fold_left (fun o op => match o with Some f => phase_step f op | None => None end) l (Some f).

Lemma phase_run_cons o l f f' : phase_run (o :: l) f = Some f' -> exists f1, phase_step f o = Some f1 /\ phase_run l f1 = Some f'.
Proof.
  unfold phase_run. cbn [fold_left]. destruct (phase_step f o) as [f1|]; [by eexists|]. intros H. exfalso.
  induction l as [|o' l IH]; [done|by apply IH].
Qed.

(** The credentials of a new attempt. *)
Definition again (c : connection) : credentials :=
  Credentials Reconnect (or_default (last_email c) (auth_credential c)) (last_pw_hash c) "".

(** The application is without a session since its connection was [c]. *)
Record outage (c : connection) (f : phase) (x : connection) : Prop := {
  ou_active : session_active x = false;
  ou_stack : stack x = 1;
  ou_ws : is_Some (ws x);
  ou_who : can_reconnect x = true /\ again x = again c;
  ou_pending : waits f = false -> pending x = Some (again c);
  ou_phase : scheduled x = waits f /\ attempts x = made f /\ delays x = chosen f;
  ou_sent : outbox x = outbox c /\ n_sends x = n_sends c
}.

Lemma outage_link c f x x' : link_of x = link_of x' -> outage c f x -> outage c f x'.
Proof.
  intros H. injection H as E1 E2 E3 E4 E5 E6 E7 E8 E9 E10 E11 E12 E13 E14.
  intros [H1 H2 H3 [H4 H4'] H5 H6 [H7 H7']]. unfold can_reconnect, again in *.
  rewrite E1, E2, E3, E4, E5, E6, E7, E8, E9, E10, E11, E12, E13, E14 in *. by split.
Qed.

Section outage.
Context `{P : Prims, O : Os, E : Env}.

Lemma outage_inert {A} c f (m : am A) a : inert m -> outage c f (cn a) -> outage c f (cn (fst (m a))).
Proof. intros Hm Ha. eapply outage_link; [symmetry; apply Hm|done]. by apply ou_active with (1 := Ha). Qed.

Lemma outage_close c f r a : outage c f (cn a) ->
  outage c (if waits f then f else Phase true (made f) (reconnect_delay (made f) :: chosen f)) (cn (fst (_net_close r a))).
Proof.
  intros [H1 H2 [n H3] [H4 H4'] H5 (H6 & H6' & H6'') [H7 H7']]. unfold _net_close. rewrite (run_bind _ _ a a a) by done.
  rewrite H3, H2. cbn [Z.eqb]. unfold _schedule_reconnect, on_timeline, on_view, on_page, st_bind, st_get, st_modify, on_cn.
  cbn. unfold can_reconnect in *. cbn. rewrite H4, H6. cbn. destruct (waits f) eqn:Hf; cbn.
  - split; cbn; [done|done|by eexists|by split|congruence|repeat split; congruence|by split].
  - split; cbn; [done|done|by eexists|by split|congruence|repeat split; congruence|by split].
Qed.
Lemma outage_attempt c f a : outage c f (cn a) -> waits f = true ->
  outage c (Phase false (made f + 1) (chosen f)) (cn (fst (_attempt_reconnect a))).
Proof.
  intros [H1 H2 [n H3] [H4 H4'] H5 (H6 & H6' & H6'') [H7 H7']] Hf. unfold _attempt_reconnect, _teardown_ws, _setup_ws, start_connection.
  unfold st_bind, st_get, st_modify, on_cn. cbn. unfold can_reconnect in *. cbn. rewrite H1, H2, H4. cbn.
  split; cbn; [done|done|by eexists|by split| |repeat split; [lia|done]|by split].
  intros _. by rewrite <- H4'.
Qed.

Lemma outage_step c f o f' a : outage c f (cn a) -> phase_step f o = Some f' -> outage c f' (cn (fst (run_op o a))).
Proof.
  intros Ha. destruct o; cbn; try discriminate.
  - intros [= <-]. by apply outage_close.
  - destruct (waits f) eqn:Hf; [|discriminate]. intros [= <-]. by apply outage_attempt.
  - destruct (waits f) eqn:Hf; [discriminate|]. intros [= <-]. destruct Ha as [H1 H2 [n H3] H4 H5 H6 H7].
    split; cbn; try done. rewrite H3. by eexists.
  - intros [= <-]. apply outage_inert; [apply inert_send|done].
  - intros [= <-]. apply outage_inert; [apply inert_file|done].
  - intros [= <-]. apply outage_inert; [apply inert_edit|done].
  - intros [= <-]. apply outage_inert; [apply inert_request|done].
  - intros [= <-]. apply (outage_inert c f (_get_history conv_id)); [apply inert_history|done].
  - intros [= <-]. apply outage_inert; [|done]. apply inert_bind; [apply inert_command|]. intros _. apply inert_ret.
Qed.
Lemma outage_run c l f f' a : outage c f (cn a) -> phase_run l f = Some f' -> outage c f' (cn (after_ops l a)).
Proof.
  revert f a. induction l as [|o l IH]; intros f a Ha H; [by injection H as <-|].
  apply phase_run_cons in H as (f1 & H1 & H). eapply IH; [by eapply outage_step|done].
Qed.
End outage.

(** Every delay is between a second and a half and ten seconds. *)
Definition delay_ok (d : Z) : Prop := 1500 <= d <= 10000.
Lemma delay_bounds n : 0 <= n -> delay_ok (reconnect_delay n).
Proof. unfold delay_ok, reconnect_delay. lia. Qed.
Definition patient (f : phase) : Prop := 0 <= made f /\ Forall delay_ok (chosen f).
Lemma patient_step f o f' : patient f -> phase_step f o = Some f' -> patient f'.
Proof.
  intros [H1 H2] H. pose proof (delay_bounds _ H1).
  destruct o; cbn in H; try discriminate; destruct (waits f); try discriminate; injection H as <-; split; cbn; try done; first [lia|by constructor].
Qed.
Lemma patient_run l f f' : patient f -> phase_run l f = Some f' -> patient f'.
Proof.
  revert f. induction l as [|o l IH]; intros f Hf H; [by injection H as <-|].
  apply phase_run_cons in H as (f1 & H1 & H). eapply IH; [by eapply patient_step|done].
Qed.

(** ** The attempt that succeeds *)

(** The fields of a request are printed, and its frame is shorter than a frame can be. *)
Definition sendable (obj : dict) : Prop := py_ok (PDict obj) /\ blen (json_dumps true false (PDict obj)) < 2 ^ 64.

Section recovery.
Context `{P : Prims, O : Os, E : Env}.
Variable oqs : option (option (list string)).

(** A socket is open and takes every frame from now on. *)
Definition takes (x : connection) : Prop :=
  (exists n k, ws x = Some n /\ sock n = Some k) /\ forall i frame, (n_sends x <= i)%nat -> env_fails i frame = None.
Definition wrote (objs : list dict) (a : app) : app :=
  a <| cn ::= fun x => x <| n_sends ::= fun n => (length objs + n)%nat |> <| outbox ::= fun l => l ++ objs |> |>.

Lemma takes_wrote objs a : takes (cn a) -> takes (cn (wrote objs a)).
Proof. intros [H1 H2]. split; [done|]. intros i frame Hi. apply H2. cbn in Hi. lia. Qed.
Lemma wrote_wrote l1 l2 a : wrote l2 (wrote l1 a) = wrote (l1 ++ l2) a.
Proof. unfold wrote. destruct a as [cr v x k q g n]. destruct x. cbn. rewrite length_app, <- app_assoc. do 2 f_equal. lia. Qed.

Lemma ws_send_run obj a : takes (cn a) -> sendable obj -> ws_send obj a = (wrote [obj] a, Ok tt).
Proof.
  intros [(n & k & Hn & Hk) Hf] [Hp Hfit]. unfold ws_send. rewrite (run_bind _ _ a a a) by done. rewrite Hn.
  rewrite (run_bind _ _ a (a <| cn ::= fun x => x <| n_sends ::= S |> |>) tt) by done.
  unfold send, utf8_encode. rewrite json_dumps_valid by done. cbn [res_bind].
  rewrite (frame_encodes _ _ Hfit). cbn [res_bind]. rewrite Hk, Hf by done. by rewrite st_bind_lift.
Qed.
Lemma request_sent obj a : takes (cn a) -> session_active (cn a) = true -> sendable obj -> request obj a = (wrote [obj] a, Ok tt).
Proof.
  intros Ht Ha Hs. unfold request. rewrite (run_bind _ _ a (wrote [obj] a) true); [done|]. unfold _safe_send.
  rewrite (run_bind _ _ a a a) by done. rewrite Ha. destruct Ht as [(n & k & Hn & Hk) Hf] eqn:Et. rewrite Hn. unfold st_catch.
  by rewrite (run_bind _ _ _ _ _ (ws_send_run obj a Ht Hs)).
Qed.

Definition list_requests : list dict := map (fun t => [("type", PStr t)]) ["get_friends"; "get_requests"; "get_inbox"].
Lemma lists_sendable : Forall sendable list_requests.
Proof. cbn [list_requests map]. repeat (apply Forall_cons_2; [split; [cbn; py_ok_fields|by vm_compute]|]). apply Forall_nil_2. Qed.

Lemma ask_lists_run a : takes (cn a) -> session_active (cn a) = true -> ask_lists a = (wrote list_requests a, Ok tt).
Proof.
  intros Ht Ha. pose proof lists_sendable as Hs. unfold list_requests in Hs. cbn [map] in Hs.
  apply Forall_cons in Hs as [S1 Hs]. apply Forall_cons in Hs as [S2 Hs]. apply Forall_cons in Hs as [S3 _].
  unfold ask_lists, ask. rewrite (run_bind _ _ _ _ _ (request_sent _ a Ht Ha S1)).
  rewrite (run_bind _ _ _ _ _ (request_sent _ (wrote _ a) (takes_wrote _ _ Ht) Ha S2)).
  rewrite (request_sent _ (wrote _ (wrote _ a)) (takes_wrote _ _ (takes_wrote _ _ Ht)) Ha S3).
  by rewrite !wrote_wrote.
Qed.

(** What the server answers to the credentials is not taken for the answer to something
    else. *)
Definition plain_answer (msg : dict) : Prop :=
  mem (text_of msg) ["PQXDH bundle uploaded"; "Avatar uploaded"; "Avatar removed"; "Password changed successfully"; "Identity rotated"] = false.

Lemma reconnected_run a : takes (cn a) -> exists a', reconnected a = (a', Ok tt) /\
  session_active (cn a') = true /\ attempts (cn a') = 0 /\ pending (cn a') = None /\ poll_timer (cn a') = true /\
  outbox (cn a') = outbox (cn a) ++ list_requests /\ delays (cn a') = delays (cn a) /\ ws (cn a') = ws (cn a).
Proof.
  intros Ht. unfold reconnected. set (f := fun c : connection => _).
  rewrite (run_bind (on_cn f) _ a (a <| cn ::= f |>) tt) by done. set (a1 := a <| cn ::= f |>).
  rewrite (run_bind _ _ a1 (fst (security_warning 0 [] a1)) tt) by done. set (a2 := fst _).
  rewrite (run_bind _ _ _ _ _ (ask_lists_run a2 Ht eq_refl)). eexists. split; [reflexivity|]. by repeat split.
Qed.
Lemma answer_run msg c a : plain_answer msg -> pending (cn a) = Some c -> c_action c = Reconnect -> _handle_ok oqs msg a = reconnected a.
Proof.
  unfold plain_answer, mem. cbn [existsb]. rewrite !orb_false_iff. intros (H1 & H2 & H3 & H4 & H5 & _) Hp Hc.
  unfold _handle_ok, mem. rewrite (run_bind _ _ a a a) by done. cbn [existsb]. rewrite H1, H2, H3, H4, H5, Hp, Hc, !andb_false_r. done.
Qed.

(** The connection of a logged-in application is lost. *)
Lemma lost_outage r a : stack (cn a) = 1 -> is_Some (ws (cn a)) -> can_reconnect (cn a) = true -> scheduled (cn a) = false ->
  outage (cn a) (Phase true (attempts (cn a)) (reconnect_delay (attempts (cn a)) :: delays (cn a))) (cn (fst (_net_close r a))).
Proof.
  intros H1 [n H2] H3 H4. unfold _net_close. rewrite (run_bind _ _ a a a) by done. rewrite H2, H1. cbn [Z.eqb].
  unfold _schedule_reconnect, on_timeline, on_view, on_page, st_bind, st_get, st_modify, on_cn. cbn.
  unfold can_reconnect in *. cbn. rewrite H3, H4. cbn. split; cbn; [done|done|by eexists|by split|done|done|done].
Qed.

(** C13: A lost connection comes back. After the connection of a logged-in application is
    lost, in whatever order attempts to reconnect fail and the user goes on writing,
    sending files, editing, deleting, opening conversations, nothing is written; when an attempt gets
    a socket, the stored credentials are sent, and the answer of the server makes the
    session active again, with no attempt counted, the lists asked for and the poll
    running. Every delay on the way is between 1.5 and 10 seconds. *)
Theorem connection_recovers r l f k msg a
    (Hstack : stack (cn a) = 1) (Hws : is_Some (ws (cn a))) (Hwho : can_reconnect (cn a) = true) (Hnot : scheduled (cn a) = false)
    (Hpast : 0 <= attempts (cn a)) (Hdelays : Forall delay_ok (delays (cn a)))
    (Hrun : phase_run l (Phase true (attempts (cn a)) (reconnect_delay (attempts (cn a)) :: delays (cn a))) = Some f)
    (Htrying : waits f = false) (Hworks : forall i frame, (n_sends (cn a) <= i)%nat -> env_fails i frame = None)
    (Hauth : sendable (auth_request (again (cn a)))) (Hanswer : plain_answer msg) :
  let a1 := after_ops (OpClose r :: l) a in
  let a2 := after_ops [OpSocket k; OpOpen] a1 in
  let a3 := fst (_handle_ok oqs msg a2) in
  outbox (cn a1) = outbox (cn a) /\ session_active (cn a2) = false /\
  outbox (cn a2) = outbox (cn a) ++ [auth_request (again (cn a))] /\
  session_active (cn a3) = true /\ attempts (cn a3) = 0 /\ pending (cn a3) = None /\ poll_timer (cn a3) = true /\
  outbox (cn a3) = outbox (cn a2) ++ list_requests /\
  delays (cn a3) = chosen f /\ Forall delay_ok (chosen f).
Proof.
  intros a1 a2 a3. set (f0 := Phase true (attempts (cn a)) (reconnect_delay (attempts (cn a)) :: delays (cn a))) in *.
  assert (H0 : outage (cn a) f0 (cn (fst (_net_close r a)))) by (by apply lost_outage).
  assert (Hp : patient f).
  { apply (patient_run l f0); [|done]. split; [done|]. cbn. constructor; [by apply delay_bounds|done]. }
  destruct (outage_run _ _ _ _ _ H0 Hrun) as [O1 O2 [n O3] [O4 O4'] O5 (O6 & O6' & O6'') [O7 O7']].
  change (after_ops l _) with a1 in *. split; [exact O7|]. clearbody a1.
  assert (Ht : takes (cn (fst (run_op (OpSocket k) a1)))).
  { split; [cbn [run_op on_cn st_modify fst]; cbn; rewrite O3; by eexists _, k|]. intros i fr Hi. apply Hworks. by rewrite <- O7'. }
  assert (E2 : a2 = wrote [auth_request (again (cn a))] (fst (run_op (OpSocket k) a1))).
  { unfold a2, after_ops. cbn [fold_left run_op]. set (b := fst (on_cn _ _)). unfold _net_open. rewrite (run_bind _ _ b b b) by done.
    change (pending (cn b)) with (pending (cn a1)). rewrite (O5 Htrying). change (ws (cn b)) with (option_map (fun n => n <| sock := Some k |>) (ws (cn a1))).
    rewrite O3. cbn [option_map again c_action]. by rewrite (ws_send_run _ b Ht Hauth). }
  assert (Ht2 : takes (cn a2)) by (rewrite E2; by apply takes_wrote).
  assert (Hp2 : pending (cn a2) = Some (again (cn a))) by (rewrite E2; exact (O5 Htrying)).
  destruct (reconnected_run a2 Ht2) as (a' & Er & R1 & R2 & R3 & R4 & R5 & R6 & R7).
  assert (E3 : a3 = a') by (unfold a3; by rewrite (answer_run msg _ a2 Hanswer Hp2 eq_refl), Er).
  rewrite E3. split; [by rewrite E2|]. split; [rewrite E2; cbn; by rewrite O7|].
  repeat (split; [done|]). split; [|apply Hp]. rewrite R6, E2. exact O6''.
Qed.
End recovery.

(** ** Witness

    The first attempt fails, and the user writes in between. *)

#[local] Existing Instance reference_prims.
#[local] Existing Instance app_os.

Definition lucky_app : app := demo_app <| cn ::= fun x => x <| n_sends := 1%nat |> |>.
Definition outage_ops : list app_op :=
  [OpSend 5 "are you there?" 0; OpAttempt; OpSocket 8; OpClose "[Errno 111] Connection refused"; OpHistory 5; OpAttempt].

Lemma lucky_auth : sendable (auth_request (again (cn lucky_app))).
Proof. split; [cbn; py_ok_fields|by vm_compute]. Qed.

Lemma connection_recovers_witness :
  let a2 := after_ops [OpSocket 9; OpOpen] (after_ops (OpClose "timed out" :: outage_ops) lucky_app) in
  let a3 := fst (_handle_ok None [("type", PStr "ok")] a2) in
  session_active (cn a2) = false /\ session_active (cn a3) = true /\ attempts (cn a3) = 0 /\ delays (cn a3) = [2500; 1500] /\
  outbox (cn a3) = auth_request (again (cn lucky_app)) :: list_requests.
Proof.
  destruct (connection_recovers None "timed out" outage_ops (Phase false 2 [2500; 1500]) 9 [("type", PStr "ok")] lucky_app)
    as (H1 & H2 & H3 & H4 & H5 & _ & _ & H6 & H7 & _).
  - reflexivity.
  - by eexists.
  - reflexivity.
  - reflexivity.
  - cbn. lia.
  - constructor.
  - reflexivity.
  - reflexivity.
  - intros [|i] fr Hi; [cbn in Hi; lia|reflexivity].
  - apply lucky_auth.
  - reflexivity.
  - split; [exact H2|]. split; [exact H4|]. split; [exact H5|]. split; [exact H7|]. exact (eq_trans H6 (f_equal (fun l => l ++ list_requests) H3)).
Defined.
