(* ===== verification/AppRequests.v ===== *)
(** * What the application writes

    Every request of the application has a known type, and the body of every message
    it sends or edits is a ciphertext: what the ratchet, the handshake, the group
    process or the signing of a checkpoint has returned. [sound] is the predicate of
    the methods that keep this, for all handlers and all actions of the user. *)

From S2P Require Import Prelude Hashing Base64 PyVal Sorting Json Crypto Wire Ratchet AuditClient Utils Session.
From S2P Require Import Pqxdh CacheStore Transcript Identity DrStore IdentityAudit MlsBridge Mls Messages Cleanup Backup.
From S2P Require Import WebSocket ChatPage ChatView Files Menus App AppIdentity AppMembers AppMessages AppGroups AppKeys AppReview AppBackup AppInbox.
From S2P Require Import SessionFacts AppProps.

Create HintDb sound.
#[export] Hint Constants Opaque : sound.

(** ** Commands of the page *)

Definition page_types : list string :=
  ["typing_start"; "typing_stop"; "mark_read"; "add_reaction"; "remove_reaction"; "pin_message"; "unpin_message";
   "get_pinned_messages"; "get_group_info"; "block_user"; "unblock_user"; "update_privacy"]
  ++ group_commands ++ inbox_commands.
Definition page_command (obj : dict) : Prop := exists t, dlookup "type" obj = Some (PStr t) /\ mem t page_types = true.
Definition sound_signal (x : signal) : Prop := match x with SigCommand obj => page_command obj | _ => True end.
Definition quiet (p : page) : Prop := Forall sound_signal (signals p).
Definition hushed (v : view) : Prop := quiet (tl v).

Lemma page_literal t d : mem t page_types = true -> page_command (("type", PStr t) :: d).
Proof. intros H. by exists t. Qed.

(** Walk through a method. *)
Ltac walk :=
  repeat first
    [ match goal with
      | |- keeps _ (st_bind st_get _) => apply keeps_get; intros ? ?
      | |- keeps _ (st_bind _ _) => apply keeps_bind; [|intros ?]
      | |- keeps _ (st_catch _ _) => apply keeps_catch; [|intros ?]
      | |- keeps _ (st_for _ _) => apply keeps_for; intros ?
      | |- keeps _ (st_fold _ _ _) => apply keeps_fold; intros ? ?
      | |- keeps _ (st_when ?b _) => unfold st_when
      | |- keeps _ (st_lift _) => apply keeps_lift
      | |- keeps _ (st_ret _) => apply keeps_ret
      | |- keeps _ (st_fail _) => intros ? ?; assumption
      | |- keeps _ st_get => intros ? ?; assumption
      | |- keeps _ (match ?x with _ => _ end) => destruct x
      end
    | solve [typeclasses eauto with sound nocore]
    | match goal with |- keeps _ (st_modify _) => apply keeps_modify; intros ? Hkeep; exact Hkeep end ].

Lemma quiet_emit x : sound_signal x -> keeps quiet (emit x).
Proof. intros Hx. apply keeps_modify. intros p Hp. by constructor. Qed.
Lemma quiet_command t d : mem t page_types = true -> keeps quiet (emit (SigCommand (("type", PStr t) :: d))).
Proof. intros H. by apply quiet_emit, page_literal. Qed.
#[export] Hint Extern 1 (keeps quiet (emit (SigCommand _))) => apply quiet_command; reflexivity : sound.

Lemma quiet_empty : keeps quiet (st_modify (fun p => p <| signals := [] |>)). Proof. intros p _. constructor. Qed.
#[export] Hint Resolve quiet_empty : sound.
Lemma quiet_set c l : keeps quiet (set_messages c l). Proof. unfold set_messages. walk. Qed.
#[export] Hint Resolve quiet_set : sound.
Lemma quiet_append c m : keeps quiet (append_entry c m). Proof. unfold append_entry. walk. Qed.
Lemma quiet_local : keeps quiet next_local_id. Proof. unfold next_local_id. walk. Qed.
#[export] Hint Resolve quiet_append quiet_local : sound.
Lemma quiet_change c x get put : (forall l p, signals (put l p) = signals p) -> keeps quiet (change_list c x get put).
Proof.
  intros Hput. unfold change_list. walk. apply keeps_modify. intros p Hp. unfold quiet in *. cbn. by rewrite Hput.
Qed.
Lemma quiet_pref c x : keeps quiet (_update_conversation_pref c x).
Proof. unfold _update_conversation_pref. walk; by apply quiet_change. Qed.
#[export] Hint Resolve quiet_pref : sound.
Lemma quiet_read : keeps quiet _mark_active_conversation_read.
Proof. unfold _mark_active_conversation_read, clear_unread, read_done. walk. Qed.
Lemma quiet_update c m b e d : keeps quiet (update_message c m b e d). Proof. unfold update_message. walk. Qed.
#[export] Hint Resolve quiet_read quiet_update : sound.
Lemma quiet_edit c e : keeps quiet (apply_edit_event c e). Proof. unfold apply_edit_event. walk. Qed.
Lemma quiet_edits c : keeps quiet (_apply_pending_edit_events c).
Proof. unfold _apply_pending_edit_events, retry_edit. walk. Qed.
#[export] Hint Resolve quiet_edit quiet_edits : sound.
Lemma quiet_pinned c m b : keeps quiet (set_message_pinned c m b). Proof. unfold set_message_pinned. walk. Qed.
Lemma quiet_reaction c m e u b : keeps quiet (update_reaction c m e u b). Proof. unfold update_reaction. walk. Qed.
Lemma quiet_invalidate c b : keeps quiet (invalidate_history c b). Proof. unfold invalidate_history. walk. Qed.
#[export] Hint Resolve quiet_invalidate : sound.
Lemma quiet_invalidate_all l : keeps quiet (invalidate_all l). Proof. unfold invalidate_all. walk. Qed.
Lemma quiet_add c s b t m pin r f rt : keeps quiet (add_msg c s b t m pin r f rt). Proof. unfold add_msg. walk. Qed.
Lemma quiet_failed c t r f : keeps quiet (show_send_failed c t r f). Proof. unfold show_send_failed. walk. Qed.
Lemma quiet_pending c t f r : keeps quiet (show_send_pending c t f r). Proof. unfold show_send_pending. walk. Qed.
Lemma quiet_remove c t i : keeps quiet (remove_pending_send c t i). Proof. unfold remove_pending_send. walk. Qed.
Lemma quiet_interrupted r : keeps quiet (mark_pending_sends_failed r). Proof. unfold mark_pending_sends_failed. walk. Qed.
Lemma quiet_remove_failed m : keeps quiet (_remove_failed_message m). Proof. unfold _remove_failed_message. walk. Qed.
#[export] Hint Resolve quiet_remove_failed : sound.
Lemma quiet_retry m : keeps quiet (_retry_failed_message m).
Proof. unfold _retry_failed_message. walk; by apply quiet_emit. Qed.
Lemma quiet_system c t s k i a : keeps quiet (add_system_event c t s k i a). Proof. unfold add_system_event. walk. Qed.
Lemma quiet_load c r e : keeps quiet (load_history c r e).
Proof. unfold load_history, persisted_event. walk. Qed.
Lemma quiet_clear c : keeps quiet (_clear_unread_without_sidebar_refresh c).
Proof. unfold _clear_unread_without_sidebar_refresh. walk. Qed.
#[export] Hint Resolve quiet_pinned quiet_reaction quiet_invalidate_all quiet_add quiet_failed quiet_pending quiet_remove
  quiet_interrupted quiet_retry quiet_system quiet_load quiet_clear : sound.

(** ** The page as a whole *)

Lemma hushed_page {A} (m : pm A) : keeps quiet m -> keeps hushed (on_page m).
Proof. intros Hm v Hv. unfold on_page. specialize (Hm _ Hv). by destruct (m (tl v)). Qed.
Lemma hushed_modify_page f : (forall p, signals (f p) = signals p) -> keeps hushed (on_page (st_modify f)).
Proof. intros H. apply hushed_page, keeps_modify. intros p Hp. unfold quiet. by rewrite H. Qed.
Lemma hushed_badges f : keeps hushed (on_badges f). Proof. unfold on_badges. walk. Qed.
Lemma hushed_composer f : keeps hushed (on_composer f). Proof. unfold on_composer. walk. Qed.
Lemma hushed_command t d : mem t page_types = true -> keeps hushed (signal_out (SigCommand (("type", PStr t) :: d))).
Proof. intros H. by apply hushed_page, quiet_command. Qed.
Lemma hushed_signal x : sound_signal x -> keeps hushed (signal_out x). Proof. intros H. by apply hushed_page, quiet_emit. Qed.
#[export] Hint Resolve hushed_page hushed_badges hushed_composer : sound.
#[export] Hint Extern 1 (keeps hushed (signal_out (SigCommand _))) => apply hushed_command; reflexivity : sound.
#[export] Hint Extern 1 (keeps hushed (signal_out _)) => apply hushed_signal; exact I : sound.
#[export] Hint Extern 1 (keeps hushed (on_page (st_modify _))) => apply hushed_modify_page; intros ?; reflexivity : sound.

Lemma hushed_stop : keeps hushed _send_typing_stop. Proof. unfold _send_typing_stop. walk. Qed.
#[export] Hint Resolve hushed_stop : sound.
Lemma hushed_input_changed : keeps hushed _on_input_changed. Proof. unfold _on_input_changed. walk. Qed.
Lemma hushed_protection b : keeps hushed (set_metadata_protection b). Proof. unfold set_metadata_protection. walk. Qed.
Lemma hushed_typing c u n b : keeps hushed (set_typing c u n b). Proof. unfold set_typing. walk. Qed.
Lemma hushed_clear_typing c u : keeps hushed (_clear_typing c u). Proof. unfold _clear_typing. walk. Qed.
Lemma hushed_warning c l : keeps hushed (show_security_warning c l). Proof. unfold show_security_warning. walk. Qed.
Lemma hushed_fingerprint f b : keeps hushed (set_fingerprint f b). Proof. unfold set_fingerprint. walk. Qed.
Lemma hushed_enabled b : keeps hushed (_set_input_enabled b). Proof. apply hushed_composer. Qed.
#[export] Hint Resolve hushed_enabled : sound.
Lemma hushed_input c : keeps hushed (refresh_input c). Proof. unfold refresh_input. walk. Qed.
#[export] Hint Resolve hushed_input : sound.
Lemma hushed_security c s l d b : keeps hushed (set_conversation_security c s l d b).
Proof. unfold set_conversation_security. walk. Qed.
Lemma hushed_review : keeps hushed _request_identity_review. Proof. unfold _request_identity_review. walk. Qed.
Lemma hushed_forward c m o : keeps hushed (_forward_message c m o). Proof. unfold _forward_message. walk. Qed.
Lemma hushed_no_reply : keeps hushed _clear_reply_target. Proof. apply hushed_composer. Qed.
Lemma hushed_reply c m : keeps hushed (_start_reply c m). Proof. unfold _start_reply. walk. Qed.
Lemma hushed_no_edit : keeps hushed _cancel_inline_edit. Proof. apply hushed_composer. Qed.
#[export] Hint Resolve hushed_no_reply hushed_no_edit : sound.
Lemma hushed_send : keeps hushed _send. Proof. unfold _send. walk. Qed.
Lemma hushed_start_edit c m : keeps hushed (_start_inline_edit c m). Proof. unfold _start_inline_edit. walk. Qed.
Lemma hushed_finish_edit : keeps hushed _finish_inline_edit. Proof. unfold _finish_inline_edit. walk. Qed.
Lemma hushed_react m b c : keeps hushed (_react_to_message m b c).
Proof. unfold _react_to_message, reaction_command. destruct b; walk. Qed.

Lemma record_signals c p : signals (fst (fst (inbox_record c p))) = signals p.
Proof.
  unfold inbox_record. destruct (let! _ := _ in _) as [[[[cid last] raw]|]|e]; [|done..].
  destruct (raw && _); [done|]. by destruct (raw && _ && _).
Qed.
Lemma records_signals l p : signals (fst (fst (inbox_records l p))) = signals p.
Proof.
  revert p. induction l as [|c l IH]; intros p; [done|]. cbn [inbox_records]. pose proof (record_signals c p) as H.
  destruct (inbox_record c p) as [[p1 c1] [o|e]]; [|done]. specialize (IH p1). destruct (inbox_records l p1) as [[p2 l2] r2].
  cbn in *. by rewrite IH.
Qed.
Lemma hushed_inbox dms groups : keeps hushed (update_inbox dms groups).
Proof.
  unfold update_inbox. apply keeps_bind; [walk|intros _]. apply keeps_bind; [walk|intros _]. apply keeps_get. intros v0 Hv.
  pose proof (records_signals dms (tl v0)) as H1. destruct (inbox_records dms (tl v0)) as [[p1 l1] r1]. cbn in H1.
  assert (H2 : signals (fst (fst (match r1 with Ok _ => inbox_records groups p1 | Err e => (p1, groups, Err e) end))) = signals p1).
  { destruct r1; [apply records_signals|done]. }
  destruct (match r1 with Ok _ => _ | Err _ => _ end) as [[p2 l2] r2]. cbn in H2. apply keeps_bind; [|intros _; walk].
  apply hushed_page, keeps_modify. intros _ _. unfold quiet. cbn. rewrite H2, H1. exact Hv.
Qed.
Lemma hushed_read_later : keeps hushed read_later_fires. Proof. unfold read_later_fires. walk. Qed.
Lemma hushed_switch_view n : keeps hushed (_switch_view n). Proof. unfold _switch_view. walk. Qed.
#[export] Hint Resolve hushed_switch_view : sound.
Lemma hushed_switch_conv c b : keeps hushed (_switch_to_conv c b).
Proof. unfold _switch_to_conv. walk; first [apply hushed_page; walk|apply keeps_modify; intros v Hv; by destruct (_ && _)]. Qed.
Lemma hushed_history c r e : keeps hushed (show_history c r e). Proof. unfold show_history. walk. Qed.
Lemma hushed_disbanded c : keeps hushed (mark_group_disbanded c). Proof. unfold mark_group_disbanded. walk. Qed.
Lemma hushed_gone c : keeps hushed (remove_conversation c). Proof. unfold remove_conversation. walk. Qed.
Lemma hushed_me n u : keeps hushed (set_me n u). Proof. unfold set_me. walk. Qed.
Lemma hushed_friends l : keeps hushed (update_friends l). Proof. unfold update_friends. walk. Qed.
Lemma hushed_badge n : keeps hushed (_set_request_badge n). Proof. unfold _set_request_badge. walk. Qed.
#[export] Hint Resolve hushed_badge : sound.
Lemma hushed_cache_policy d : keeps hushed (ChatView.set_cache_policy d). Proof. unfold ChatView.set_cache_policy. walk. Qed.
Lemma hushed_requests l : keeps hushed (update_requests l). Proof. unfold update_requests. walk. Qed.
Lemma hushed_notify : keeps hushed notify_friend_request. Proof. unfold notify_friend_request. walk. Qed.
Lemma hushed_reset : keeps hushed ChatView.reset. Proof. unfold ChatView.reset. walk. Qed.
Lemma hushed_send_path f s p : keeps hushed (_send_file_path f s p). Proof. unfold _send_file_path. walk. Qed.
#[export] Hint Resolve hushed_send_path : sound.
Lemma hushed_dropped f s p : keeps hushed (_send_dropped_file f s p). Proof. unfold _send_dropped_file. walk. Qed.
#[export] Hint Resolve hushed_input_changed hushed_protection hushed_typing hushed_clear_typing hushed_warning hushed_fingerprint
  hushed_security hushed_review hushed_forward hushed_reply hushed_send hushed_start_edit hushed_finish_edit hushed_react
  hushed_inbox hushed_read_later hushed_switch_conv hushed_history hushed_disbanded hushed_gone hushed_me hushed_friends
  hushed_notify hushed_reset hushed_dropped hushed_cache_policy hushed_requests : sound.

(** ** Choices of menus *)

Definition tame (c : choice) : Prop := match c with ChooseCommand d | ChoosePref d => page_command d | _ => True end.
Definition tame_menu (m : menu) : Prop := Forall (fun o => match o with Some i => tame (i_choice i) | None => True end) m.
Ltac tame_tac := repeat first [apply Forall_nil_2 | apply Forall_cons_2 | apply Forall_app_2 | exact I | by apply page_literal
  | match goal with |- Forall _ (match ?x with _ => _ end) => destruct x end | match goal with |- Forall _ (if ?x then _ else _) => destruct x end].

Lemma tame_specs v c : tame_menu (_conversation_action_specs v c).
Proof. unfold _conversation_action_specs, conv_command, mute_command. tame_tac. Qed.
Lemma tame_dm v c : tame_menu (_dm_context_menu v c).
Proof. apply Forall_app_2; [tame_tac|apply tame_specs]. Qed.
Lemma tame_group v c m : _group_context_menu v c = Ok m -> tame_menu m.
Proof.
  unfold _group_context_menu. destruct (group_owner v c) as [[o d]|]; [|done]. intros [= <-].
  unfold tame_menu, _conversation_action_specs, conv_command, mute_command. tame_tac.
Qed.
Lemma tame_search v u : tame_menu (_search_context_menu v u). Proof. unfold _search_context_menu, to_group, block_item. tame_tac. Qed.
Lemma tame_friend v u : tame_menu (_friend_context_menu v u). Proof. unfold _friend_context_menu, to_group, block_item. tame_tac. Qed.
Lemma tame_message v c m : tame_menu (_show_message_actions v c m).
Proof.
  unfold _show_message_actions, message_command. destruct (_find_message _ _ _) as [e|]; [|tame_tac]. destruct (deleted e); [tame_tac|].
  destruct (pinned e); tame_tac.
Qed.

(** A choice some menu of the page has, in some state of it. *)
Definition offered (c : choice) : Prop := exists v m, offers m c /\
  ((exists conv, m = _dm_context_menu v conv) \/ (exists conv, _group_context_menu v conv = Ok m) \/
   (exists uid, m = _search_context_menu v uid) \/ (exists uid, m = _friend_context_menu v uid) \/
   (exists conv mid, m = _show_message_actions v conv mid)).
Lemma offered_tame c : offered c -> tame c.
Proof.
  intros (v & m & (i & Hi & <- & _) & Hm). assert (H : tame_menu m).
  { destruct Hm as [[? ->]|[[? H]|[[? ->]|[[? ->]|(? & ? & ->)]]]];
      [apply tame_dm|by eapply tame_group|apply tame_search|apply tame_friend|apply tame_message]. }
  unfold tame_menu in H. rewrite Forall_forall in H. exact (H _ Hi).
Qed.

Lemma hushed_page_command d : page_command d -> keeps hushed (signal_out (SigCommand d)).
Proof. intros H. apply hushed_page. by apply quiet_emit. Qed.
Lemma quiet_send_pref d : page_command d -> keeps quiet (_send_conversation_pref d).
Proof. intros H. unfold _send_conversation_pref. pose proof (quiet_emit (SigCommand d) H). cbv zeta. walk. Qed.
Lemma hushed_timer c r : keeps hushed (_set_disappearing_timer c r).
Proof. unfold _set_disappearing_timer, conv_command. cbv zeta. walk. Qed.
Lemma hushed_leave c r : keeps hushed (_confirm_leave_group c r). Proof. unfold _confirm_leave_group. walk. Qed.
Lemma hushed_block c r : keeps hushed (_confirm_block_user c r). Proof. unfold _confirm_block_user. walk. Qed.
Lemma hushed_add_member c r : keeps hushed (_show_add_member_to_group c r). Proof. unfold _show_add_member_to_group. walk. Qed.
Lemma hushed_add_to_group c r : keeps hushed (_show_add_to_group c r). Proof. unfold _show_add_to_group. walk. Qed.
#[export] Hint Resolve hushed_timer hushed_leave hushed_block hushed_add_member hushed_add_to_group : sound.
Lemma hushed_choose c r : tame c -> keeps hushed (choose c r).
Proof.
  intros H. destruct c; unfold choose, wishing, if_yes; try walk; cbn in H.
  - pose proof (hushed_page_command _ H). walk.
  - pose proof (hushed_page _ (quiet_send_pref _ H)). walk.
Qed.
Lemma hushed_create_group o : keeps hushed (_show_create_group o). Proof. unfold _show_create_group. walk. Qed.
Lemma hushed_privacy f : keeps hushed (save_privacy f).
Proof. unfold save_privacy. cbv zeta. walk. Qed.
Lemma hushed_role g u r : keeps hushed (set_role g u r). Proof. unfold set_role. walk. Qed.
Lemma hushed_remove g u r : keeps hushed (remove_member g u r). Proof. unfold remove_member. walk. Qed.
Lemma hushed_save_group g n d : keeps hushed (save_group g n d). Proof. unfold save_group. walk. Qed.
Lemma hushed_attach f s p : keeps hushed (_attach_file f s p). Proof. unfold _attach_file. walk. Qed.
#[export] Hint Resolve hushed_create_group hushed_privacy hushed_role hushed_remove hushed_save_group hushed_attach : sound.

(** ** Requests *)

(** The field that carries the text of a message. *)
Definition body_field (typ : string) : option string :=
  if String.eqb typ "message" then Some "body" else if String.eqb typ "edit_message" then Some "new_body" else None.

Definition request_types : list string :=
  page_types ++
  ["auth"; "register"; "logout"; "change_password"; "get_my_keys"; "upload_keys"; "rotate_identity"; "get_my_pqxdh_status";
   "upload_pqxdh_bundle"; "get_pqxdh_bundle"; "upload_mls_key_packages"; "claim_mls_key_package"; "get_mls_handshake";
   "prepare_group_change"; "apply_group_change"; "get_friends"; "get_requests"; "get_inbox"; "get_profile"; "history";
   "delete_message"; "message"; "edit_message"; "search_user"; "friend_request"; "friend_accept"; "friend_reject"; "start_dm";
   "unfriend"; "disband_group"; "update_profile"; "remove_avatar"; "upload_avatar"; "get_privacy"; "get_blocked_list"].

Section requests.
Context `{P : Prims, O : Os, U : UnicodeTables, E : Env}.
Variable oqs : option (option (list string)).

(** What may stand in that field: the outcome of encrypting something. *)
Inductive ciphertext : string -> Prop :=
| by_ratchet r text s w : snd (Ratchet.encrypt r text s) = Ok w -> ciphertext w
| by_handshake r bundle store pk sk me peer v c w st fp :
    pqxdh_initiate oqs r bundle store pk sk me peer "__S3_INIT__" v c = Ok (w, st, fp) -> ciphertext w
| by_group c text s w : snd (mls_application_wire c text s) = Ok w -> ciphertext w
| by_checkpoint c s w : snd (create_transcript_checkpoint c s) = Ok w -> w <> "" -> ciphertext w.

Definition typed (obj : dict) : Prop := exists t, dlookup "type" obj = Some (PStr t) /\ mem t request_types = true.
Definition veiled (obj : dict) : Prop :=
  forall t k, dlookup "type" obj = Some (PStr t) -> body_field t = Some k -> exists w, dlookup k obj = Some (PStr w) /\ ciphertext w.
Definition sealed (obj : dict) : Prop := typed obj /\ veiled obj.

(** The requests written so far, and what the page waits to emit. *)
Record guarded (a : app) : Prop := {
  gu_sent : Forall sealed (outbox (cn a));
  gu_page : hushed (chat a)
}.
Notation sound := (keeps guarded).

Lemma sealed_other t obj : dlookup "type" obj = Some (PStr t) -> mem t request_types = true -> body_field t = None -> sealed obj.
Proof. intros Ht Hm Hb. split; [by exists t|]. intros t' k Ht' Hk. congruence. Qed.
Lemma sealed_literal t d : mem t request_types = true -> body_field t = None -> sealed (("type", PStr t) :: d).
Proof. by apply sealed_other. Qed.
Lemma sealed_message c w r : ciphertext w -> sealed (message_request c w r).
Proof.
  intros Hw. split; [by exists "message"|]. intros t k Ht Hk. unfold message_request in *. cbn in Ht. injection Ht as <-.
  injection Hk as <-. exists w. by destruct (0 <? r).
Qed.
Lemma page_plain t : mem t page_types = true -> mem t request_types = true /\ body_field t = None.
Proof.
  intros H. split; [unfold request_types, mem in *; by rewrite existsb_app, H|]. unfold body_field.
  destruct (String.eqb_spec t "message") as [->|]; [discriminate H|]. by destruct (String.eqb_spec t "edit_message") as [->|].
Qed.
Lemma sealed_page obj : page_command obj -> sealed obj.
Proof. intros (t & Ht & Hm). destruct (page_plain t Hm). by eapply sealed_other. Qed.

(** ** Methods that write nothing *)

Lemma sound_get : sound st_get. Proof. by intros a. Qed.
Lemma sound_on_crypto {A} (m : sm A) : sound (on_crypto m).
Proof. intros a [H1 H2]. unfold on_crypto. by destruct (m (crypto a)). Qed.
Lemma sound_on_view {A} (m : vm A) : keeps hushed m -> sound (on_view m).
Proof. intros Hm a [H1 H2]. unfold on_view. specialize (Hm _ H2). by destruct (m (chat a)). Qed.
Lemma sound_on_timeline {A} (m : pm A) : keeps quiet m -> sound (on_timeline m).
Proof. intros Hm. by apply sound_on_view, hushed_page. Qed.
Lemma sound_on_cn f : (forall c, outbox (f c) = outbox c) -> sound (on_cn f).
Proof. intros Hf a [H1 H2]. split; [|done]. unfold on_cn, st_modify. cbn. by rewrite Hf. Qed.
Lemma sound_on_ks f : sound (on_ks f). Proof. by intros a []. Qed.
Lemma sound_on_qs f : sound (on_qs f). Proof. by intros a []. Qed.
Lemma sound_on_gs f : sound (on_gs f). Proof. by intros a []. Qed.
Lemma sound_warn_box x y : sound (warn_box x y). Proof. by intros a []. Qed.
Lemma sound_refresh : sound refresh_inbox. Proof. by apply sound_on_cn. Qed.
Hint Resolve sound_get sound_on_crypto sound_on_view sound_on_timeline sound_on_ks sound_on_qs sound_on_gs sound_warn_box
  sound_refresh : sound.
Hint Extern 1 (keeps guarded (on_cn _)) => apply sound_on_cn; intros ?; reflexivity : sound.

(** A result that is known to satisfy [Q]. *)
Lemma sound_post {A B} (Q : A -> Prop) (m : am A) (k : A -> am B) :
  sound m -> (forall a x, snd (m a) = Ok x -> Q x) -> (forall x, Q x -> sound (k x)) -> sound (st_bind m k).
Proof.
  intros Hm Hq Hk a Ha. unfold st_bind. specialize (Hm a Ha). specialize (Hq a).
  destruct (m a) as [a1 [x|e]]; cbn in *; [|done]. apply Hk; auto.
Qed.

(** ** Writing *)

Lemma sound_schedule : sound _schedule_reconnect. Proof. unfold _schedule_reconnect. walk. Qed.
Hint Resolve sound_schedule : sound.
Lemma sound_net_close r : sound (_net_close r). Proof. unfold _net_close. walk. Qed.
Hint Resolve sound_net_close : sound.
Lemma sound_ws_send obj : sealed obj -> sound (ws_send obj).
Proof.
  intros Hobj. unfold ws_send. walk. intros a0 [H1 H2]. split; [|done]. cbn.
  match goal with |- context [match ?f with _ => _ end] => destruct f end; [|done]. apply Forall_app. by split; [|constructor].
Qed.
Lemma sound_safe_send obj : sealed obj -> sound (_safe_send obj).
Proof. intros H. pose proof (sound_ws_send obj H). unfold _safe_send. walk. Qed.
Lemma sound_request obj : sealed obj -> sound (request obj).
Proof. intros H. pose proof (sound_safe_send obj H). unfold request. walk. Qed.
Hint Resolve sound_ws_send sound_safe_send sound_request : sound.
Hint Extern 1 (sealed (_ :: _)) => apply sealed_literal; reflexivity : sound.
Lemma sound_ask t : mem t request_types = true -> body_field t = None -> sound (ask t).
Proof. intros H1 H2. by apply sound_request, sealed_literal. Qed.
Lemma sound_ask_conv t k c : mem t request_types = true -> body_field t = None -> sound (ask_conv t k c).
Proof. intros H1 H2. by apply sound_request, sealed_literal. Qed.
Hint Extern 1 (keeps guarded (ask _)) => apply sound_ask; reflexivity : sound.
Hint Extern 1 (keeps guarded (ask_conv _ _ _)) => apply sound_ask_conv; reflexivity : sound.
Lemma sealed_auth c : sealed (auth_request c). Proof. by apply sealed_literal. Qed.
Hint Resolve sealed_auth : sound.
Lemma sound_open : sound _net_open. Proof. unfold _net_open. walk. Qed.
Lemma sound_attempt : sound _attempt_reconnect. Proof. unfold _attempt_reconnect, _teardown_ws, _setup_ws, start_connection. walk. Qed.
Lemma sound_init : sound _init_session_state. Proof. unfold _init_session_state. walk. Qed.
Hint Resolve sound_init : sound.
Lemma sound_session h p c w : sound (open_session h p c w).
Proof. unfold open_session, _teardown_ws, _setup_ws, start_connection. walk. Qed.
Lemma sound_poll : sound _poll_status. Proof. unfold _poll_status. walk. Qed.
Lemma sound_inbox_refresh : sound _do_inbox_refresh. Proof. unfold _do_inbox_refresh. walk. Qed.
Lemma sound_logout b s : sound (_logout_local b s).
Proof. unfold _logout_local, _teardown_ws. cbv zeta. walk. apply sound_on_timeline, quiet_empty. Qed.
Hint Resolve sound_open sound_attempt sound_session sound_poll sound_inbox_refresh sound_logout : sound.

(** ** Identities and members *)

Lemma sound_set_fp c fp : sound (set_fp c fp). Proof. apply sound_on_crypto. Qed.
Lemma sound_show_fp fp b : sound (show_fp fp b). Proof. apply sound_on_view, hushed_fingerprint. Qed.
Hint Resolve sound_set_fp sound_show_fp : sound.
Lemma sound_fingerprint c : sound (_safety_fingerprint_for_conv c). Proof. unfold _safety_fingerprint_for_conv. walk. Qed.
Hint Resolve sound_fingerprint : sound.
Lemma sound_security c : sound (_security_status_for_conv c). Proof. unfold _security_status_for_conv. walk. Qed.
Hint Resolve sound_security : sound.
Lemma sound_refresh_ui c : sound (_refresh_security_ui c). Proof. unfold _refresh_security_ui. walk. Qed.
Hint Resolve sound_refresh_ui : sound.
Lemma sound_verify peer v pk d : sound (verify_now peer v pk d). Proof. unfold verify_now. walk. Qed.
Hint Resolve sound_verify : sound.
Lemma sound_audit_key src peer v pk s d f : sound (audit_key src peer v pk s d f). Proof. unfold audit_key. walk. Qed.
Hint Resolve sound_audit_key : sound.
Lemma sound_recover peer pk v s c : sound (_recover_identity_audit_version_mismatch peer pk v s c).
Proof. unfold _recover_identity_audit_version_mismatch. walk. Qed.
Lemma sound_auditor_failed x y z : sound (auditor_failed x y z). Proof. unfold auditor_failed. walk. Qed.
Hint Resolve sound_recover sound_auditor_failed : sound.
Lemma sound_audit_bundle c msg : sound (_audit_pqxdh_bundle_identity c msg).
Proof. unfold _audit_pqxdh_bundle_identity, audit_refused, auditor_down. walk. Qed.
Hint Resolve sound_audit_bundle : sound.
Lemma sound_incoming c d : sound (_record_incoming_pq_identity c d). Proof. unfold _record_incoming_pq_identity. walk. Qed.
Hint Resolve sound_incoming : sound.
Lemma sound_changed_in u v pk c : sound (identity_changed_in u v pk c). Proof. unfold identity_changed_in. walk. Qed.
Hint Resolve sound_changed_in : sound.
Lemma sound_identity_changed msg : sound (_handle_identity_changed msg). Proof. unfold _handle_identity_changed. walk. Qed.
Lemma sound_keep_members g msg f : sound (keep_members g msg f). Proof. unfold keep_members. walk. Qed.
Hint Resolve sound_keep_members : sound.
Lemma sound_show_line g t k msg : sound (show_line g t k msg). Proof. unfold show_line. walk. Qed.
Lemma sound_events g l : sound (_prepare_group_system_events_for_history g l).
Proof. unfold _prepare_group_system_events_for_history, prepare_event. walk. Qed.
Lemma sound_warning c l : sound (security_warning c l). Proof. apply sound_on_view, hushed_warning. Qed.
Lemma sound_warn_if c l : sound (warn_if c l). Proof. unfold warn_if. destruct l; [apply keeps_ret|apply sound_warning]. Qed.
Lemma sound_dm_peer c : sound (_peer_uid_for_dm_conv c). Proof. unfold _peer_uid_for_dm_conv. walk. Qed.
Hint Resolve sound_identity_changed sound_show_line sound_events sound_warning sound_warn_if sound_dm_peer : sound.

(** ** Sending *)

Lemma sound_ensure c : sound (_ensure_pqxdh_dm_session c). Proof. unfold _ensure_pqxdh_dm_session. walk. Qed.
Hint Resolve sound_ensure : sound.
Lemma sound_encrypt c t : sound (_encrypt_for_conv c t). Proof. unfold _encrypt_for_conv. walk. Qed.

(** What [encrypt_for_conv] returns is a ciphertext. *)
Lemma st_bind_snd {S A B} (m : stm S A) (k : A -> stm S B) s y : snd (st_bind m k s) = Ok y ->
  exists s1 x, m s = (s1, Ok x) /\ snd (k x s1) = Ok y.
Proof. unfold st_bind. destruct (m s) as [s1 [x|e]]; [|discriminate]. intros H. by exists s1, x. Qed.
Lemma encrypted_wire c b s w : snd (encrypt_for_conv c b s) = Ok w -> ciphertext w.
Proof.
  unfold encrypt_for_conv. intros (s1 & text & _ & H)%st_bind_snd. apply st_bind_snd in H as (s2 & x & E2 & H).
  injection E2 as <- <-. destruct (bool_decide _); [by eapply by_group|].
  apply st_bind_snd in H as (s3 & [ref|] & _ & H); [|discriminate]. apply st_bind_snd in H as (s4 & r & _ & H).
  apply st_bind_snd in H as (s5 & w' & E5 & H). apply st_bind_snd in H as (s6 & [] & _ & H). injection H as <-.
  unfold on_ratchet in E5. destruct (encrypt r text (ratchet_at s4 ref)) as [st out] eqn:Ee. injection E5 as _ ->.
  eapply by_ratchet. by rewrite Ee.
Qed.
Lemma crypto_ok {A} (m : sm A) a x : snd (on_crypto m a) = Ok x -> snd (m (crypto a)) = Ok x.
Proof. unfold on_crypto. by destruct (m (crypto a)). Qed.
Definition wire_if (o : option string) : Prop := match o with Some w => ciphertext w | None => True end.
Lemma encrypt_post c t a o : snd (_encrypt_for_conv c t a) = Ok o -> wire_if o.
Proof.
  unfold _encrypt_for_conv, st_catch. match goal with |- context [match ?m a with _ => _ end] => destruct (m a) as [a1 [x|e]] eqn:Em end.
  - intros H. injection H as <-. apply (f_equal snd) in Em. cbn [snd] in Em. apply st_bind_snd in Em as (a2 & s & _ & Em).
    destruct (_ && _); [discriminate Em|]. apply st_bind_snd in Em as (a3 & w & Em & Hx). injection Hx as <-.
    eapply encrypted_wire, crypto_ok. by rewrite Em.
  - destruct e; try discriminate. intros H. apply st_bind_snd in H as (a2 & s & _ & H). apply st_bind_snd in H as (a3 & d & _ & H).
    apply st_bind_snd in H as (a4 & [] & _ & H). by injection H as <-.
Qed.
Lemma handshake_wire msg c peer v s token fp : snd (initiate_pqxdh_dm oqs msg c peer v s) = Ok (token, fp) -> ciphertext token.
Proof.
  unfold initiate_pqxdh_dm. intros (s1 & [ref|] & _ & H)%st_bind_snd; [discriminate H|].
  apply st_bind_snd in H as (s2 & store & _ & H). destruct (negb _); [discriminate H|].
  apply st_bind_snd in H as (s3 & r & _ & H). apply st_bind_snd in H as (s4 & s5 & _ & H).
  apply st_bind_snd in H as (s6 & [[w st] f] & Ew & H). unfold st_lift in Ew. injection Ew as _ Ew.
  apply st_bind_snd in H as (s7 & ref & _ & H). repeat (apply st_bind_snd in H as (? & [] & _ & H)). injection H as <- <-.
  destruct store as [| | | | | |d]; try discriminate Ew. by eapply by_handshake.
Qed.

Definition send_failing (c : Z) (t : string) (i : Z) (path : string) (obj : dict) : am unit :=
  do! _ := await_echo c t i in do! ok := _safe_send obj in
  if ok : bool then st_ret tt
  else do! _ := on_timeline (remove_pending_send c "" i) in do! _ := give_up_echo c in
       on_timeline (show_send_failed c t no_connection_reason path).
Lemma sound_failing c t i path obj : sealed obj -> sound (send_failing c t i path obj).
Proof. intros H. unfold send_failing, await_echo, give_up_echo. pose proof (sound_safe_send obj H). walk. Qed.
Hint Resolve sound_encrypt : sound.
Lemma sound_send c t r : sound (_send_message c t r).
Proof.
  unfold _send_message, _require_identity_review_before_send. apply keeps_bind; [walk|]. intros b. destruct (negb b); [walk|].
  apply (sound_post wire_if); [apply sound_encrypt|apply encrypt_post|]. intros [[|ch w]|] Hw; [walk| |walk].
  do 3 (apply keeps_bind; [walk|intros ?]). by apply (sound_failing c t _ ""), sealed_message.
Qed.
Lemma sound_file c path : sound (_send_file c path).
Proof.
  unfold _send_file, _require_identity_review_before_send. cbv zeta. apply keeps_bind; [walk|]. intros b. destruct (negb b); [walk|].
  apply keeps_catch; [|intros e; walk]. apply keeps_bind; [walk|]. intros sz. destruct (_ <? sz); [walk|]. destruct (sz =? 0); [walk|].
  apply keeps_bind; [walk|intros raw].
  apply (sound_post wire_if); [apply sound_encrypt|apply encrypt_post|]. intros [[|ch w]|] Hw; [walk| |walk].
  apply keeps_bind; [walk|intros i]. by apply sound_failing, sealed_message.
Qed.
Lemma sealed_edit i w : ciphertext w -> sealed [("type", PStr "edit_message"); ("message_id", PInt i); ("new_body", PStr w)].
Proof.
  intros Hw. split; [by exists "edit_message"|]. intros t k Ht Hk. injection Ht as <-. injection Hk as <-. by exists w.
Qed.
Lemma sound_edit c i t : sound (_edit_message c i t).
Proof.
  unfold _edit_message. apply (sound_post wire_if); [apply sound_encrypt|apply encrypt_post|]. intros [[|ch w]|] Hw; [walk| |walk].
  apply keeps_bind; [walk|intros _]. by apply sound_request, sealed_edit.
Qed.
Lemma sound_delete i : sound (_delete_message i). Proof. unfold _delete_message. walk. Qed.
Lemma sound_get_history c : sound (_get_history c). Proof. unfold _get_history. walk. Qed.
Lemma sound_command obj : page_command obj -> sound (_handle_ui_command obj).
Proof.
  intros H. unfold _handle_ui_command. cbv zeta. pose proof (sound_safe_send obj (sealed_page obj H)). walk.
  apply sound_safe_send. by apply sealed_literal.
Qed.
Hint Resolve sound_send sound_file sound_edit sound_delete sound_get_history sound_command : sound.
Lemma sound_dispatch x : sound_signal x -> sound (dispatch x).
Proof. intros H. destruct x; unfold dispatch, _send_reply_message; walk. by apply sound_command. Qed.
Lemma sound_signals : sound run_signals.
Proof.
  unfold run_signals. apply keeps_get. intros a0 [_ Hq].
  assert (Hl : Forall sound_signal (rev (signals (tl (chat a0))))) by (rewrite <- Permutation_rev; exact Hq).
  apply keeps_bind; [apply sound_on_timeline, quiet_empty|]. intros _.
  induction Hl as [|x l Hx Hl IH]; [apply keeps_ret|]. cbn [st_for]. apply keeps_bind; [by apply sound_dispatch|done].
Qed.
Hint Resolve sound_signals : sound.
Lemma sound_with {A} (m : vm A) : keeps hushed m -> sound (with_signals m).
Proof. intros H. unfold with_signals. walk. Qed.
Lemma sound_timeline {A} (m : pm A) : keeps quiet m -> sound (timeline_signals m).
Proof. intros H. by apply sound_with, hushed_page. Qed.
Hint Resolve sound_with sound_timeline : sound.

(** ** Messages *)

Lemma sealed_checkpoint c w : ciphertext w ->
  sealed [("type", PStr "message"); ("conversation_id", PInt c); ("body", PStr w)].
Proof. apply (sealed_message c w 0). Qed.
Lemma sound_checkpoint c b : sound (_maybe_send_transcript_checkpoint c b).
Proof.
  unfold _maybe_send_transcript_checkpoint. cbv zeta. apply keeps_get; intros a _. destruct (_ || _); [walk|].
  destruct (_ || _); [walk|]. apply keeps_bind; [walk|intros _]. destruct (_ && _); [walk|].
  apply (sound_post (fun w => w = "" \/ ciphertext w)); [walk| |].
  - intros a1 w H. unfold st_catch in H. destruct (on_crypto _ a1) as [a2 [x|e]] eqn:Ec; injection H as <-; [|by left].
    destruct (decide (x = "")) as [->|Hx]; [by left|]. right. eapply by_checkpoint; [|done]. apply crypto_ok. by rewrite Ec.
  - intros w [->|Hw]; [apply keeps_ret|]. destruct (negb _); [walk|]. apply keeps_bind; [by apply sound_safe_send, sealed_checkpoint|intros ok]. walk.
Qed.
Hint Resolve sound_checkpoint : sound.
Lemma sound_learn_peer c d : sound (learn_peer c d). Proof. unfold learn_peer. walk. Qed.
Lemma sound_learn_fp c d : sound (learn_fingerprint c d). Proof. unfold learn_fingerprint. walk. Qed.
Lemma sound_mark c m : sound (AppMessages.mark_seen c m). Proof. unfold AppMessages.mark_seen. walk. Qed.
Lemma sound_keep m d : sound (keep_pending m d). Proof. unfold keep_pending, append_pending. walk. Qed.
Lemma sound_echo c : sound (take_echo c). Proof. unfold take_echo. cbv zeta. walk. Qed.
Lemma sound_record c m s b t e r : sound (record_message c m s b t e r). Proof. unfold record_message. walk. Qed.
Lemma sound_cache c m s b t : sound (_cache_message c m s b t). Proof. apply sound_on_crypto. Qed.
Hint Resolve sound_learn_peer sound_learn_fp sound_mark sound_keep sound_echo sound_record sound_cache : sound.
Lemma sound_decrypted r c s b t m : sound (_handle_decrypted_message r c s b t m).
Proof. unfold _handle_decrypted_message. walk. Qed.
Hint Resolve sound_decrypted : sound.
Lemma sound_text msg c s m r : sound (handle_text msg c s m r). Proof. unfold handle_text. cbv zeta. walk. Qed.
Lemma sound_control flush c r : (forall d, sound (flush d)) -> sound (handle_control flush c r).
Proof. intros H. unfold handle_control. walk. Qed.
Hint Resolve sound_text sound_control : sound.
Lemma sound_handle flush msg : (forall d, sound (flush d)) -> sound (handle_with oqs flush msg).
Proof. intros H. unfold handle_with. cbv zeta. walk. Qed.
Lemma sound_flush handle n c : (forall m, sound (handle m)) -> sound (flush_with handle n c).
Proof.
  intros H. unfold flush_with. assert (Hl : forall r i l, sound (flush_loop handle n r c i l)).
  { intros r. induction n as [|n IH]; intros i l; cbn [flush_loop]; walk. }
  walk.
Qed.
Lemma sound_message fuel msg : sound (_handle_message oqs fuel msg).
Proof.
  revert msg. induction fuel as [|n IH]; intros msg; cbn [_handle_message]; [walk|].
  apply sound_handle. intros d. by apply sound_flush.
Qed.
Hint Resolve sound_message : sound.
Lemma sound_flush_pending fuel c : sound (_flush_pending oqs fuel c).
Proof. apply sound_flush. apply sound_message. Qed.
Lemma sound_note c m : sound (note_row c m). Proof. unfold note_row. cbv zeta. walk. Qed.
Hint Resolve sound_flush_pending sound_note : sound.
Lemma sound_history msg : sound (_handle_history oqs msg). Proof. unfold _handle_history. walk. Qed.
Lemma sound_edited msg : sound (_handle_message_edited msg). Proof. unfold _handle_message_edited. cbv zeta. walk. Qed.
Lemma sound_deleted msg : sound (_handle_message_deleted msg). Proof. unfold _handle_message_deleted. walk. Qed.
Lemma sound_cleanup c : sound (_cleanup_conv_state c). Proof. unfold _cleanup_conv_state. walk. Qed.
Hint Resolve sound_cleanup : sound.
Lemma sound_disbanded msg : sound (_handle_group_disbanded msg). Proof. unfold _handle_group_disbanded. walk. Qed.
Lemma sound_pin b msg : sound (handle_pin b msg). Proof. unfold handle_pin. walk. Qed.
Lemma sound_reaction b msg : sound (handle_reaction b msg). Proof. unfold handle_reaction. walk. Qed.
Lemma sound_typing b msg : sound (handle_typing b msg). Proof. unfold handle_typing. walk. Qed.
Lemma sound_presence : sound _handle_presence. Proof. unfold _handle_presence. walk. Qed.
Lemma sound_friends msg : sound (_handle_friends_list msg). Proof. unfold _handle_friends_list. walk. Qed.
Lemma sound_friend_request : sound _handle_friend_request_received. Proof. unfold _handle_friend_request_received. walk. Qed.
Lemma sound_clear_cache : sound _clear_local_message_cache. Proof. unfold _clear_local_message_cache. walk. Qed.
Lemma sound_clear_conv c : sound (_clear_conversation_message_cache c). Proof. unfold _clear_conversation_message_cache. walk. Qed.
Lemma sound_policy c b : sound (_update_conversation_cache_policy c b). Proof. unfold _update_conversation_cache_policy. walk. Qed.

(** ** Groups *)

Lemma sound_create n m : sound (_create_group n m). Proof. unfold _create_group. walk. Qed.
Lemma sound_add_to g u : sound (_add_to_group g u). Proof. unfold _add_to_group. walk. Qed.
Lemma sound_claim op u : sound (_queue_mls_claim op u). Proof. unfold _queue_mls_claim. walk. Qed.
Lemma sound_add_group c : sound (add_group c). Proof. apply sound_on_crypto. Qed.
Lemma sound_put id o : sound (put_op id o). Proof. apply sound_on_gs. Qed.
Lemma sound_drop id : sound (drop_op id). Proof. apply sound_on_gs. Qed.
Lemma sound_pop op c t : sound (_pop_pending_mls_prepare op c t). Proof. unfold _pop_pending_mls_prepare. walk. Qed.
Hint Resolve sound_claim sound_add_group sound_put sound_drop sound_pop : sound.
Lemma sealed_apply a id c ctx obj : apply_request a id c ctx = Ok obj -> sealed obj.
Proof.
  unfold apply_request. intros (n & _ & H)%res_bind_ok. injection H as <-. by apply sealed_literal.
Qed.
Lemma sound_apply ctx : sound (_apply_mls_group_op ctx).
Proof.
  unfold _apply_mls_group_op. cbv zeta. apply keeps_bind; [walk|intros c]. destruct (_ || _); [walk|]. apply keeps_get; intros a _.
  apply (sound_post sealed); [walk|intros a1 obj; apply sealed_apply|apply sound_request].
Qed.
Hint Resolve sound_apply : sound.
Lemma sound_add_members id o c l : sound (add_members_of id o c l). Proof. unfold add_members_of. cbv zeta. walk. Qed.
Hint Resolve sound_add_members : sound.
Lemma sound_finalize id o : sound (_finalize_mls_claimed_op id o). Proof. unfold _finalize_mls_claimed_op. walk. Qed.
Hint Resolve sound_finalize : sound.
Lemma sound_package msg : sound (_handle_mls_key_package msg). Proof. unfold _handle_mls_key_package. cbv zeta. walk. Qed.
Lemma sound_prepared msg : sound (_handle_group_change_prepared msg).
Proof.
  unfold _handle_group_change_prepared, prepared_create, prepared_add, prepared_remove, prepared_control. cbv zeta. walk.
Qed.
Lemma sound_ask_group c : sound (ask_group c). Proof. unfold ask_group. walk. Qed.
Hint Resolve sound_ask_group : sound.
Lemma sound_applied msg : sound (_handle_group_change_applied msg). Proof. unfold _handle_group_change_applied. cbv zeta. walk. Qed.
Lemma sound_handshake fuel msg : sound (_handle_mls_handshake oqs fuel msg). Proof. unfold _handle_mls_handshake. walk. Qed.
Lemma sound_open_later c b : sound (open_later c b). Proof. apply sound_on_view. walk. Qed.
Hint Resolve sound_open_later : sound.
Lemma sound_group_created msg : sound (_handle_group_created msg). Proof. unfold _handle_group_created. cbv zeta. walk. Qed.
Lemma sound_added msg : sound (_handle_added_to_group msg). Proof. unfold _handle_added_to_group, expect_change. cbv zeta. walk. Qed.
Lemma sound_member_added msg : sound (_handle_member_added msg). Proof. unfold _handle_member_added, expect_change. cbv zeta. walk. Qed.
Lemma sound_member_removed msg : sound (_handle_member_removed msg). Proof. unfold _handle_member_removed, expect_change. cbv zeta. walk. Qed.
Lemma sound_ui_refresh msg : sound (_handle_ui_refresh msg). Proof. unfold _handle_ui_refresh, expect_change. cbv zeta. walk. Qed.
Lemma sound_group_info msg : sound (_handle_group_info msg). Proof. unfold _handle_group_info. cbv zeta. walk. Qed.

(** ** Keys *)

Lemma sealed_bundle s d : snd (new_bundle oqs s) = Ok d -> sealed d.
Proof.
  unfold new_bundle. intros (s1 & n & _ & H)%st_bind_snd. do 4 (apply st_bind_snd in H as (? & ? & _ & H)).
  apply st_bind_snd in H as (s2 & [up local] & Hg & H). apply st_bind_snd in H as (? & [] & _ & H). apply st_bind_snd in H as (? & [] & _ & H).
  injection H as <-. injection Hg as _ Hg. unfold generate_local_bundle in Hg. inv_ok Hg.
  destruct (x25519_keygen _) as [cpk csk]. apply res_bind_ok in Hg as ([ppk psk] & _ & Hg). inv_ok Hg.
  destruct a2 as [[[cl cu] pl] pu]. injection Hg as <- _. by apply sealed_literal.
Qed.
Definition sealed_if (o : option dict) : Prop := match o with Some d => sealed d | None => True end.
Lemma sealed_fresh s o : snd (fresh_pqxdh_bundle_command oqs s) = Ok o -> sealed_if o.
Proof.
  unfold fresh_pqxdh_bundle_command. intros (s1 & ? & _ & H)%st_bind_snd. do 2 (apply st_bind_snd in H as (? & ? & _ & H)).
  destruct (_ || _); [by injection H as <-|]. apply st_bind_snd in H as (s2 & up & Hb & H). injection H as <-.
  eapply sealed_bundle. by rewrite Hb.
Qed.
Lemma sealed_record s o : snd (current_identity_key_record_command s) = Ok o -> sealed_if o.
Proof.
  unfold current_identity_key_record_command. intros (s1 & s2 & _ & H)%st_bind_snd. destruct (_ || _); [by injection H as <-|].
  do 2 (apply st_bind_snd in H as (? & ? & _ & H)). injection H as <-. by apply sealed_literal.
Qed.
Lemma sealed_packages n s d : snd (mls_key_package_upload_command n s) = Ok d -> sealed d.
Proof.
  unfold mls_key_package_upload_command. intros (s1 & s2 & _ & H)%st_bind_snd. destruct (negb _); [discriminate H|].
  do 5 (apply st_bind_snd in H as (? & ? & _ & H)). injection H as <-. by apply sealed_literal.
Qed.
Lemma sealed_rotation s x : snd (rotate_identity_commands oqs s) = Ok x -> sealed (fst x) /\ sealed (snd x).
Proof.
  unfold rotate_identity_commands. intros (s1 & s2 & _ & H)%st_bind_snd. destruct (negb _); [discriminate H|].
  apply st_bind_snd in H as (? & ? & _ & H). apply st_bind_snd in H as (s3 & [up|] & _ & H); [|discriminate H].
  apply st_bind_snd in H as (s4 & b & Hb & H). do 2 (apply st_bind_snd in H as (? & ? & _ & H)). injection H as <-. split.
  - apply (sealed_other "rotate_identity"); [apply dlookup_dset_eq|done|done].
  - eapply sealed_bundle. by rewrite Hb.
Qed.
(** The record that a restored identity asks to upload. *)
Definition upload_sealed (result : dict) : Prop := forall d, dget "upload" PNone result = PDict d -> sealed d.
Lemma sealed_restored msg s d : snd (restore_identity_key_record msg s) = Ok d -> upload_sealed d.
Proof.
  unfold restore_identity_key_record. destruct (negb _).
  - intros (s1 & ? & _ & H)%st_bind_snd. apply st_bind_snd in H as (s2 & up & Hr & H). injection H as <-.
    intros u Hu. destruct up as [up|]; [|discriminate Hu]. injection Hu as <-. apply (sealed_record s1 (Some up)).
    unfold new_identity_key_record_command in Hr. by rewrite Hr.
  - intros (s1 & ? & _ & H)%st_bind_snd. apply st_bind_snd in H as (s2 & ? & _ & H). injection H as <-. by intros u Hu.
Qed.

Hint Extern 1 (keeps guarded (on_cn _)) => apply sound_on_cn; intros ?; reflexivity : sound.
Lemma sound_if o : sealed_if o -> sound (send_if o).
Proof. intros H. destruct o as [[|kv d]|]; unfold send_if; [walk|by apply sound_request|walk]. Qed.
Lemma sound_publish : sound (_publish_fresh_pqxdh_bundle_for_current_device oqs).
Proof.
  unfold _publish_fresh_pqxdh_bundle_for_current_device.
  apply (sound_post (fun r => match r with Ok o => sealed_if o | Err _ => True end)).
  - intros a Ha. pose proof (sound_on_crypto (fresh_pqxdh_bundle_command oqs) a Ha) as H. by destruct (on_crypto _ a).
  - intros a x H. pose proof (fun o => crypto_ok (fresh_pqxdh_bundle_command oqs) a o) as Hc. destruct (on_crypto _ a) as [a1 r].
    injection H as <-. destruct r as [o|e]; [|done]. by eapply sealed_fresh, Hc.
  - intros [[[|kv d]|]|e] Hx; [walk| |walk..]. pose proof (sound_safe_send (kv :: d) Hx). walk.
Qed.
Hint Resolve sound_publish : sound.
Lemma sound_upload_identity : sound _upload_identity_bundle.
Proof.
  unfold _upload_identity_bundle. apply keeps_catch; [|intros e; walk]. apply (sound_post sealed_if); [walk| |].
  - intros a o H. by eapply sealed_record, crypto_ok.
  - intros [d|] Hd; [by apply sound_request|walk].
Qed.
Lemma sound_upload_current : sound _upload_current_key_bundle.
Proof.
  unfold _upload_current_key_bundle. apply (sound_post sealed_if); [walk| |].
  - intros a o H. by eapply sealed_record, crypto_ok.
  - intros o. apply sound_if.
Qed.
Hint Resolve sound_upload_identity sound_upload_current : sound.
Lemma sound_initialize : sound _initialize_mls_for_current_account.
Proof. unfold _initialize_mls_for_current_account. walk. Qed.
Hint Resolve sound_initialize : sound.
Lemma sound_packages n : sound (_publish_mls_key_packages n).
Proof.
  unfold _publish_mls_key_packages, publish_packages. apply keeps_get; intros a _. destruct (negb _); [walk|].
  apply keeps_catch; [|intros e; walk]. apply keeps_get; intros a1 _. apply keeps_bind; [walk|intros ready].
  destruct (negb ready); [walk|]. apply (sound_post sealed); [walk| |].
  - intros a2 o H. by eapply sealed_packages, crypto_ok.
  - intros d Hd. pose proof (sound_safe_send d Hd). walk.
Qed.
Lemma sound_ask_bundle u : sound (ask_bundle u). Proof. by apply sound_request, sealed_literal. Qed.
Lemma sound_expect u c : sound (expect_bundle u c). Proof. apply sound_on_ks. Qed.
Hint Resolve sound_packages sound_ask_bundle sound_expect : sound.
Lemma sound_drain : sound _drain_pending_key_requests. Proof. unfold _drain_pending_key_requests. walk. Qed.
Lemma sound_retry u : sound (_retry_identity_blocked_key_work u). Proof. unfold _retry_identity_blocked_key_work. walk. Qed.
Lemma sound_dm_ready msg : sound (_handle_dm_ready msg). Proof. unfold _handle_dm_ready. cbv zeta. walk. Qed.
Hint Resolve sound_drain : sound.
Lemma sound_start fuel msg c peer : sound (start_conversation oqs fuel msg c peer).
Proof.
  unfold start_conversation. apply keeps_get; intros a _.
  apply (sound_post (fun x => ciphertext (fst x))); [walk| |].
  - intros a1 [token fp] H. cbn. by eapply handshake_wire, crypto_ok.
  - intros [token fp] Hw. pose proof (sound_request _ (sealed_message c token 0 Hw)). cbv zeta. walk.
Qed.
Hint Resolve sound_start : sound.
Lemma sound_bundle fuel msg : sound (_handle_pqxdh_bundle oqs fuel msg).
Proof. unfold _handle_pqxdh_bundle, key_exchange_failed. cbv zeta. walk. Qed.
Lemma sound_restore msg : sound (restore_keys msg).
Proof.
  unfold restore_keys, backfill_identity. cbv zeta. apply (sound_post upload_sealed); [walk| |].
  - intros a d H. by eapply sealed_restored, crypto_ok.
  - intros d Hd. unfold upload_sealed in Hd. destruct (negb _); [|walk].
    destruct (dget "upload" PNone d) as [| | | | | |[|kv u]]; try walk. pose proof (sound_request _ (Hd _ eq_refl)). walk.
Qed.
Hint Resolve sound_restore : sound.
Lemma sound_my_keys msg : sound (_handle_my_keys oqs msg). Proof. unfold _handle_my_keys. walk. Qed.
Lemma sound_status msg : sound (_handle_pqxdh_status oqs msg). Proof. unfold _handle_pqxdh_status. walk. Qed.
Lemma sound_rotate b : sound (_rotate_identity oqs b).
Proof.
  unfold _rotate_identity, rotation_commands. apply keeps_get; intros a0 _. destruct (_ || _); [walk|]. destruct (negb b); [walk|].
  apply keeps_catch; [|intros e; walk]. apply (sound_post (fun x => sealed (fst x) /\ sealed (snd x))); [walk| |].
  - intros a x H. by eapply sealed_rotation, crypto_ok.
  - intros [r u] [Hr Hu]. cbn [fst snd] in *. pose proof (sound_request _ Hr). pose proof (sound_safe_send _ Hu). walk.
Qed.
Lemma sound_change_password a b : sound (_change_password a b). Proof. unfold _change_password. cbv zeta. walk. Qed.
Lemma sound_password_done : sound _complete_password_change. Proof. unfold _complete_password_change. walk. Qed.
Lemma sound_rotated : sound (identity_rotated oqs). Proof. unfold identity_rotated. walk. Qed.
Lemma sound_lists : sound ask_lists. Proof. unfold ask_lists. walk. Qed.
Hint Resolve sound_password_done sound_rotated sound_lists : sound.
Lemma sound_reconnected : sound reconnected. Proof. unfold reconnected, start_poll. walk. Qed.
Lemma sound_registered c : sound (registered c). Proof. unfold registered. walk. Qed.
Lemma sound_logged_in c msg : sound (logged_in c msg). Proof. unfold logged_in, start_poll. cbv zeta. walk. Qed.
Lemma sound_fetch u : sound (_fetch_avatar u). Proof. unfold _fetch_avatar. walk. Qed.
Hint Resolve sound_fetch : sound.
Lemma sound_avatar : sound avatar_changed. Proof. unfold avatar_changed. walk. Qed.
Hint Resolve sound_reconnected sound_registered sound_logged_in sound_avatar : sound.
Lemma sound_ok msg : sound (_handle_ok oqs msg). Proof. unfold _handle_ok. cbv zeta. walk. Qed.
Lemma sound_error msg : sound (_handle_error msg).
Proof. unfold _handle_error, no_bundle, block_publishing, report_error. cbv zeta. walk. Qed.

(** ** The list of conversations *)

Lemma sound_preview c i d : sound (last_preview c i d). Proof. unfold last_preview, encrypted_preview. cbv zeta. walk. Qed.
Hint Resolve sound_preview : sound.
Lemma sound_complete me l : sound (complete_all me l).
Proof. unfold complete_all, complete_record. cbv zeta. walk. Qed.
Lemma sound_open_pending : sound open_pending. Proof. unfold open_pending. cbv zeta. walk. Qed.
Hint Resolve sound_complete sound_open_pending : sound.
Lemma sound_inbox msg : sound (_handle_inbox msg). Proof. unfold _handle_inbox. cbv zeta. walk. Qed.
Lemma sound_pinned msg : sound (_handle_pinned_messages msg). Proof. unfold _handle_pinned_messages. walk. Qed.
Lemma sound_friend_requests msg : sound (_handle_friend_requests msg). Proof. unfold _handle_friend_requests. walk. Qed.
Lemma sound_profile msg : sound (_handle_profile msg). Proof. unfold _handle_profile, with_audit. cbv zeta. walk. Qed.
Lemma sound_profile_updated msg : sound (_handle_profile_updated msg). Proof. unfold _handle_profile_updated. walk. Qed.
Hint Resolve sound_pinned sound_friend_requests sound_profile sound_profile_updated sound_inbox sound_ok sound_error sound_friends sound_history sound_friend_request sound_presence sound_group_created
  sound_prepared sound_applied sound_package sound_handshake sound_dm_ready sound_added sound_member_added sound_bundle sound_my_keys
  sound_status sound_edited sound_deleted sound_disbanded sound_group_info sound_pin sound_reaction sound_typing sound_member_removed
  sound_ui_refresh : sound.

(** ** All inputs *)

Lemma sound_handler fuel typ msg : sound (handler oqs fuel typ msg).
Proof.
  unfold handler, _handle_session_replaced, _handle_mls_key_packages_uploaded, _handle_message_pinned, _handle_message_unpinned,
    _handle_reaction_added, _handle_reaction_removed, _handle_typing_start, _handle_typing_stop.
  repeat match goal with |- keeps _ (if ?b then _ else _) => destruct b; [walk|] end. walk.
Qed.
Lemma sound_net_msg fuel msg : sound (_net_msg oqs fuel msg).
Proof. pose proof (sound_handler fuel). unfold _net_msg. walk. Qed.

(** ** Reviews, backups, menus *)

Lemma sound_show_verify c : sound (_show_verify_dialog c). Proof. unfold _show_verify_dialog. cbv zeta. walk. Qed.
Lemma sound_retry_work u : sound (_retry_identity_blocked_key_work u).
Proof. unfold _retry_identity_blocked_key_work, ask_bundle. walk. Qed.
Hint Resolve sound_retry_work : sound.
Lemma sound_reviewed d b : sound (reviewed d b). Proof. unfold reviewed. walk. Qed.
Hint Resolve sound_reviewed : sound.
Lemma sound_verify_done d l : sound (verify_done d l). Proof. unfold verify_done. walk. Qed.
Lemma sound_view_profile u : sound (_view_profile u). Proof. unfold _view_profile. walk. Qed.
Lemma sound_edit_profile : sound _edit_profile. Proof. unfold _edit_profile. walk. Qed.
Lemma sound_save_profile n b x r : sound (save_profile n b x r). Proof. unfold save_profile. walk. Qed.
Lemma sound_passphrase t o : sound (_backup_passphrase t o). Proof. unfold _backup_passphrase. walk. Qed.
Hint Resolve sound_passphrase : sound.
Lemma sound_backup_status : sound _show_backup_status. Proof. unfold _show_backup_status, _backup_status_text. walk. Qed.
Hint Resolve sound_backup_status : sound.
Lemma sound_revoke b : sound (_revoke_local_backups b). Proof. unfold _revoke_local_backups. walk. Qed.
Lemma sound_export p b o : sound (_export_e2ee_backup p b o). Proof. unfold _export_e2ee_backup. cbv zeta. walk. Qed.
Lemma sound_plan p : sound (restore_plan p). Proof. unfold restore_plan. cbv zeta. walk. Qed.
Lemma sound_restore_backup p o b : sound (restore_confirmed oqs p b o).
Proof. unfold restore_confirmed, restore_with, forget_shown, after_merge, after_restore. cbv zeta. walk. Qed.
Lemma sound_local_policy d : sound (_update_local_cache_policy d). Proof. unfold _update_local_cache_policy. cbv zeta. walk. Qed.
Hint Resolve sound_show_verify sound_verify_done sound_view_profile sound_edit_profile sound_save_profile sound_revoke sound_export
  sound_plan sound_restore_backup sound_local_policy sound_create sound_add_to sound_rotate sound_change_password sound_clear_cache
  sound_clear_conv sound_policy : sound.
Lemma sound_grant w : sound (grant w).
Proof. destruct w; unfold grant, _disband_group, _friend_request, _start_dm, _unfriend, _delete_message, ask_user; walk. Qed.
Hint Resolve sound_grant : sound.

(** What the user does on the page. *)
Inductive page_op :=
| PInput (text : string) | PInputChanged | PSend | PRetry (mid : Z) | PRemoveFailed (mid : Z)
| PReply (conv_id mid : Z) | PNoReply | PStartEdit (conv_id mid : Z) | PFinishEdit | PCancelEdit
| PReact (mid : Z) (remove : bool) (choice : string) | PForward (conv_id mid : Z) (choice : option string)
| PSwitchView (name : string) | PSwitchConv (conv_id : Z) (is_group : bool) | PReadLater | PProtect (enabled : bool)
| PReview | PDrop (is_file : string -> bool) (size_of : string -> res Z) (path : string)
| PAttach (is_file : string -> bool) (size_of : string -> res Z) (path : string)
| PUnblock (uid : Z) | PUnpin (mid : Z) | PRole (group_id uid : Z) (role : string) | PRemove (group_id uid : Z) (r : replies)
| PSaveGroup (group_id : Z) (name description : string) | PLeave (conv_id : Z) (r : replies).
Definition run_page (o : page_op) : vm unit :=
  match o with
  | PInput text => on_composer (fun c => c <| inp := text |>)
  | PInputChanged => _on_input_changed
  | PSend => _send
  | PRetry mid => on_page (_retry_failed_message mid)
  | PRemoveFailed mid => on_page (_remove_failed_message mid)
  | PReply c mid => _start_reply c mid
  | PNoReply => _clear_reply_target
  | PStartEdit c mid => _start_inline_edit c mid
  | PFinishEdit => _finish_inline_edit
  | PCancelEdit => _cancel_inline_edit
  | PReact mid remove choice => _react_to_message mid remove choice
  | PForward c mid choice => _forward_message c mid choice
  | PSwitchView name => _switch_view name
  | PSwitchConv c is_group => _switch_to_conv c is_group
  | PReadLater => read_later_fires
  | PProtect enabled => set_metadata_protection enabled
  | PReview => _request_identity_review
  | PDrop is_file size_of path => do! _ := _send_dropped_file is_file size_of path in st_ret tt
  | PAttach is_file size_of path => do! _ := _attach_file is_file size_of path in st_ret tt
  | PUnblock uid => unblock uid
  | PUnpin mid => unpin mid
  | PRole group_id uid role => set_role group_id uid role
  | PRemove group_id uid r => remove_member group_id uid r
  | PSaveGroup group_id name description => save_group group_id name description
  | PLeave conv_id r => do! _ := _confirm_leave_group conv_id r in st_ret tt
  end.
Lemma hushed_op o : keeps hushed (run_page o).
Proof. destruct o; unfold run_page, unblock, unpin, message_command; walk. Qed.

(** Everything that happens to the application: the connection, a message from the
    server, the timers, the page and its menus, the forms and dialogs around it. *)
Inductive input :=
| InClose (reason : string) | InSocket (o : option nat) | InOpen | InAttempt | InMessage (fuel : nat) (msg : dict)
| InPoll | InInboxTimer | InRejectTimer | InUnfriendTimer
| InPage (o : page_op) | InMenu (c : choice) (r : replies) | InPrivacy (f : privacy_form) | InNewGroup (o : option (string * list Z))
| InLogin (host : string) (port : Z) (email pw_hash password : string)
| InRegister (host : string) (port : Z) (username email pw_hash password : string) | InLogout
| InVerify (conv_id : Z) | InVerified (d : verify_dialog) (l : list click)
| InOwnProfile | InProfileForm (x : profile_action) | InRestore (path : string) | InRestored (path : string) (preserve : bool) (answer : option string)
| InSearch (query : string) | InAccept (uid : Z) | InReject (uid : Z) | InWish (w : wish).
Definition run_input (x : input) : am unit :=
  match x with
  | InClose reason => _net_close reason
  | InSocket o => on_cn (fun c => c <| ws ::= option_map (fun n => n <| sock := o |>) |>)
  | InOpen => _net_open
  | InAttempt => _attempt_reconnect
  | InMessage fuel msg => _net_msg oqs fuel msg
  | InPoll => _poll_status
  | InInboxTimer => _do_inbox_refresh
  | InRejectTimer => friend_reject_later
  | InUnfriendTimer => unfriend_later
  | InPage o => with_signals (run_page o)
  | InMenu c r => menu_chosen c r
  | InPrivacy f => privacy_saved f
  | InNewGroup o => group_form o
  | InLogin host port email pw_hash password => _do_login host port email pw_hash password
  | InRegister host port username email pw_hash password => _do_register host port username email pw_hash password
  | InLogout => _logout
  | InVerify conv_id => do! _ := _show_verify_dialog conv_id in st_ret tt
  | InVerified d l => verify_done d l
  | InOwnProfile => _edit_profile
  | InProfileForm x => profile_form oqs x
  | InRestore path => do! _ := restore_plan path in st_ret tt
  | InRestored path preserve answer => restore_confirmed oqs path preserve answer
  | InSearch query => _search_user query
  | InAccept uid => _friend_accept uid
  | InReject uid => _friend_reject uid
  | InWish w => grant w
  end.
(** What is chosen from a menu is something the menu has. *)
Definition from_page (x : input) : Prop := match x with InMenu c _ => offered c | _ => True end.

Hint Resolve sound_net_msg hushed_op : sound.
Lemma sound_menu c r : tame c -> sound (menu_chosen c r).
Proof. intros H. unfold menu_chosen, grant_if. pose proof (hushed_choose c r H). walk. Qed.
Lemma sound_privacy f : sound (privacy_saved f). Proof. unfold privacy_saved. walk. Qed.
Lemma sound_group_form o : sound (group_form o). Proof. unfold group_form, grant_if. walk. Qed.
Lemma sound_form x : sound (profile_form oqs x). Proof. destruct x; unfold profile_form; walk. Qed.
Hint Resolve sound_privacy sound_group_form sound_form : sound.
Lemma sound_input x : from_page x -> sound (run_input x).
Proof.
  intros H. destruct x;
    unfold run_input, _do_login, _do_register, _logout, friend_reject_later, unfriend_later, _search_user, _friend_accept, _friend_reject,
      ask_user; try walk.
  by apply sound_menu, offered_tame.
Qed.

Definition after_inputs (l : list input) (a : app) : app := fold_left (fun a x => fst (run_input x a)) l a.
Lemma guarded_inputs l a : Forall from_page l -> guarded a -> guarded (after_inputs l a).
Proof.
  intros Hl. revert a. induction Hl as [|x l Hx Hl IH]; intros a Ha; [done|]. apply IH. by apply (sound_input x Hx).
Qed.
Lemma fresh_guarded a : outbox (cn a) = [] -> signals (tl (chat a)) = [] -> guarded a.
Proof. intros H1 H2. split; [rewrite H1; constructor|]. unfold hushed, quiet. rewrite H2. constructor. Qed.

(** C15: Every request is well typed. Whatever arrives from the server, in whatever order,
    and whatever the user does, each request the application has written is a
    dictionary with a field [type] that is one of the requests of the protocol. *)
Theorem requests_well_typed l a (Hfresh : outbox (cn a) = []) (Hquiet : signals (tl (chat a)) = [])
    (Hmenus : Forall from_page l) : Forall typed (outbox (cn (after_inputs l a))).
Proof.
  eapply Forall_impl; [apply (gu_sent _ (guarded_inputs l a Hmenus (fresh_guarded a Hfresh Hquiet)))|]. by intros obj [H _].
Qed.

(** C3: Nothing is sent in clear. Whatever arrives from the server and whatever the user
    does, the body of each message and of each edit the application writes is a
    ciphertext: what the ratchet, the opening handshake, the group process or the
    signing of a checkpoint has returned. *)
Theorem nothing_sent_in_clear l a obj t k (Hfresh : outbox (cn a) = []) (Hquiet : signals (tl (chat a)) = [])
    (Hmenus : Forall from_page l) (Hsent : obj ∈ outbox (cn (after_inputs l a)))
    (Htype : dlookup "type" obj = Some (PStr t)) (Hbody : body_field t = Some k) :
  exists w, dlookup k obj = Some (PStr w) /\ ciphertext w.
Proof.
  pose proof (gu_sent _ (guarded_inputs l a Hmenus (fresh_guarded a Hfresh Hquiet))) as H.
  rewrite Forall_forall in H. destruct (H obj Hsent) as [_ Hv]. by eapply Hv.
Qed.
End requests.

(** ** Witness

    The conversation 5 is opened, a text is typed and sent, the pinned messages are asked
    for from its menu, and a message of the other account arrives. *)

#[local] Existing Instance reference_prims.
#[local] Instance requests_os : Os := demo_os 0.
#[local] Instance requests_tables : UnicodeTables :=
  {| u_lower _ := false; u_upper _ := false; u_digit _ := false; u_alnum _ := false |}.

Definition busy_app : app :=
  demo_app <| crypto ::= fun s => s <| conv_peer_uids ::= fun _ => {[5 := 2]} |> |> <| cn ::= fun c => c <| n_sends := 9%nat |> |>.
Definition busy_inputs : list input :=
  [InPage (PSwitchConv 5 false); InPage (PInput "hello"); InPage PSend;
   InMenu (ChooseCommand (conv_command "get_pinned_messages" 5)) (Replies false None None);
   InMessage 1 [("type", PStr "message"); ("id", PInt 4); ("conversation_id", PInt 5); ("from_id", PInt 2); ("body", PStr "hi")]].
Definition busy_outbox : list dict := outbox (cn (after_inputs None busy_inputs busy_app)).
Lemma busy_from_page : Forall from_page busy_inputs.
Proof.
  repeat constructor. exists new_view, (_dm_context_menu new_view 5). split; [|left; by exists 5].
  exists (Item "Pinned Messages" (ChooseCommand (conv_command "get_pinned_messages" 5)) true). split; [|done].
  apply list_elem_of_lookup. by exists 3%nat.
Qed.
Lemma busy_types : map (fun obj => dlookup "type" obj) (take 3 busy_outbox) =
  [Some (PStr "history"); Some (PStr "message"); Some (PStr "get_pinned_messages")].
Proof. vm_compute. reflexivity. Qed.
Lemma request_at (l : list dict) i t : option_map (dlookup "type") (l !! i) = Some (Some t) -> exists obj, obj ∈ l /\ dlookup "type" obj = Some t.
Proof. destruct (l !! i) as [obj|] eqn:H; [|done]. intros [= <-]. exists obj. split; [|done]. by eapply list_elem_of_lookup_2. Qed.
Lemma busy_message : exists obj, obj ∈ outbox (cn (after_inputs None busy_inputs busy_app)) /\ dlookup "type" obj = Some (PStr "message").
Proof. apply (request_at _ 1). vm_compute. reflexivity. Qed.

Lemma requests_well_typed_witness : Forall typed busy_outbox /\ map (fun obj => dlookup "type" obj) (take 3 busy_outbox) =
  [Some (PStr "history"); Some (PStr "message"); Some (PStr "get_pinned_messages")].
Proof. split; [apply requests_well_typed; [reflexivity|reflexivity|apply busy_from_page]|apply busy_types]. Defined.

Lemma nothing_sent_in_clear_witness : exists obj w, obj ∈ busy_outbox /\ dlookup "type" obj = Some (PStr "message") /\
  dlookup "body" obj = Some (PStr w) /\ ciphertext None w.
Proof.
  destruct busy_message as (obj & Hobj & Ht). destruct (nothing_sent_in_clear None busy_inputs busy_app obj "message" "body") as (w & Hw & Hc).
  - reflexivity.
  - reflexivity.
  - apply busy_from_page.
  - exact Hobj.
  - exact Ht.
  - reflexivity.
  - exists obj, w. split; [exact Hobj|]. split; [exact Ht|]. split; [exact Hw|exact Hc].
Defined.
