(* ===== verification/ReviewProps.v ===== *)
(** * Theorems about reviewing identities and restoring backups

    A change of a safety key reaches the badge, the warning and the advice of every
    conversation with its owner; merging a backup of another safety key leaves the
    keys alone and publishes nothing. *)

From S2P Require Import Prelude Hashing Base64 PyVal Sorting Json Crypto Wire Ratchet AuditClient Utils Session.
From S2P Require Import Pqxdh CacheStore Transcript Identity DrStore IdentityAudit MlsBridge Mls Messages Cleanup Backup.
From S2P Require Import SessionFacts IdentityProps BackupFacts BackupProps BackupTrip IdentityAuditProps WebSocket ChatPage ChatView Files Rows App AppIdentity AppMembers AppMessages AppGroups.
From S2P Require Import AppKeys AppReview AppBackup AppProps.

Section review_theorems.
Context `{P : Prims, O : Os, E : Env}.

(** ** A changed key is shown *)

(** What the announcement of a changed key leaves alone. *)
Record calm (a a' : app) : Prop := {
  ca_tl : tl (chat a') = tl (chat a);
  ca_warnings : security_warnings (bd (chat a')) = security_warnings (bd (chat a));
  ca_policy : local_policy (chat a') = local_policy (chat a);
  ca_friends : friends (chat a') = friends (chat a);
  ca_groups : group_conv_ids (crypto a') = group_conv_ids (crypto a);
  ca_peers : conv_peer_uids (crypto a') = conv_peer_uids (crypto a)
}.
Lemma calm_refl a : calm a a. Proof. by split. Qed.
Lemma calm_trans a b c : calm a b -> calm b c -> calm a c.
Proof. intros [] []. split; congruence. Qed.

(** A direct conversation with the user. *)
Record direct (uid c : Z) (a : app) : Prop := {
  di_peer : conv_peer_uids (crypto a) !! c = Some uid;
  di_group : is_group_conv a c = false;
  di_page : _is_group_conversation_id (tl (chat a)) c = Ok false
}.
Lemma direct_calm uid c a a' : calm a a' -> direct uid c a -> direct uid c a'.
Proof.
  intros [H1 H2 H3 H4 H5 H6] [D1 D2 D3]. split; [by rewrite H6|unfold is_group_conv in *; by rewrite H5|by rewrite H1].
Qed.

(** The recorded state says that the key has changed. *)
Record says_changed (uid : Z) (a : app) (st : dict) : Prop := {
  sc_known : identity_audit_states (crypto a) !! uid = Some st;
  sc_status : dlookup "status" st = Some (PStr "key_changed")
}.
Definition changed_badge (sec : security) : Prop :=
  sec_status sec = "key_changed" /\ sec_label sec = "key changed" /\ sec_blocked sec = false.

Lemma known_fingerprint_run uid c a st : direct uid c a -> identity_audit_states (crypto a) !! uid = Some st ->
  exists a' fp, _safety_fingerprint_for_conv c a = (a', Ok fp) /\ calm a a' /\ chat a' = chat a /\
    identity_audit_states (crypto a') = identity_audit_states (crypto a) /\ conv_verified (crypto a') = conv_verified (crypto a).
Proof.
  intros [D1 D2 D3] Hst. unfold _safety_fingerprint_for_conv, st_bind at 1, st_get at 1, st_bind at 1, st_lift, _peer_uid_for_conv.
  rewrite D1. destruct (_ && _); [|by eexists _, _].
  unfold st_bind at 1, on_crypto. rewrite (load_audit_memory (crypto a) uid st Hst). cbv zeta.
  match goal with |- context [match ?x with Some fp => _ | None => _ end] => destruct x as [fp|] end; by eexists _, _.
Qed.

Lemma status_changed uid c a st : uid <> 0 -> direct uid c a -> says_changed uid a st ->
  exists a' detail, _security_status_for_conv c a = (a', Ok (PStr "key_changed", "key changed", detail)) /\ calm a a' /\
    chat a' = chat a /\ says_changed uid a' st /\ conv_verified (crypto a') = conv_verified (crypto a).
Proof.
  intros Hne D [S1 S2]. pose proof D as [D1 D2 D3]. unfold _security_status_for_conv. unfold st_bind at 1, st_get at 1.
  rewrite D2. unfold st_bind at 1, st_lift at 1, _peer_uid_for_conv. rewrite D1, (proj2 (Z.eqb_neq _ _) Hne).
  unfold st_bind at 1, on_crypto at 1. rewrite (load_audit_memory (crypto a) uid st S1).
  set (a0 := a <| crypto := crypto a |>). assert (Ha0 : a0 = a) by (by destruct a). rewrite Ha0. clear a0 Ha0.
  destruct (known_fingerprint_run uid c a st D S1) as (a1 & fp & Hfp & C1 & V1 & I1 & W1).
  unfold st_bind at 1. rewrite Hfp. unfold st_bind at 1, st_get at 1. unfold status_and_label, dget. rewrite S2. cbn.
  eexists _, _. split; [reflexivity|]. split; [done|]. split; [done|]. split; [|done]. split; [by rewrite I1|done].
Qed.
Lemma refresh_changed uid c a st : uid <> 0 -> direct uid c a -> says_changed uid a st ->
  exists a' sec, _refresh_security_ui c a = (a', Ok tt) /\ calm a a' /\ says_changed uid a' st /\
    conv_verified (crypto a') = conv_verified (crypto a) /\
    conv_security (bd (chat a')) = <[c := sec]> (conv_security (bd (chat a))) /\ changed_badge sec.
Proof.
  intros Hne D S. destruct (status_changed uid c a st Hne D S) as (a1 & detail & Hr & C1 & V1 & S1 & W1).
  destruct D as [D1 D2 D3]. unfold _refresh_security_ui, st_bind at 1. rewrite Hr.
  unfold on_view, set_conversation_security, st_bind, st_get, st_lift. rewrite V1, D3. cbn.
  exists (a1 <| chat := fst (refresh_input c (chat a1 <| bd ::= fun b => b <| conv_security ::= insert c (Security "key_changed" "key changed" detail false) |>
    <| security_blocked_convs ::= fun s => s ∖ {[c]} |> |>)) |>), (Security "key_changed" "key changed" detail false).
  unfold refresh_input, st_bind, st_get, on_badges, on_composer, _set_input_enabled, st_modify. cbn. rewrite V1.
  destruct (_ =? _); cbn; (split; [reflexivity|]);
    (split; [destruct C1; split; cbn; congruence|]); (split; [destruct S1; by split|]); (split; [done|]); (split; [reflexivity|done]).
Qed.

(** ** The announcement *)

Definition has_history (st : dict) : Prop := exists l, dlookup "history" st = Some (PList l).
Lemma has_history_ok st : has_history st -> exists h, history_of st = Ok h.
Proof. intros [l H]. unfold history_of, dget. rewrite H. cbn [default]. destruct l; by eexists. Qed.
Lemma saved_history uid st : has_history st -> has_history (audit_saved uid st).
Proof.
  intros [l H]. exists l. unfold audit_saved, setdefault. rewrite dlookup_dset_ne, H by done. by rewrite dlookup_dset_ne.
Qed.
Lemma changed_state_runs now version pk safety old h : history_of old = Ok h ->
  exists st, changed_state now version pk safety old = Ok st /\ dlookup "status" st = Some (PStr "key_changed") /\ has_history st.
Proof.
  intros Hh. unfold changed_state. rewrite Hh. cbn [res_bind]. eexists. split; [reflexivity|]. split; [by rewrite dlookup_dupdate|].
  eexists. by rewrite dlookup_dupdate.
Qed.

(** The mark of a conversation that has been looked at. *)
Definition alarmed (a : app) (c : Z) : Prop :=
  is_verified a c = false /\ exists sec, conv_security (bd (chat a)) !! c = Some sec /\ changed_badge sec.

Lemma save_verified_run s c b : exists s', st_catch (save_verified c b) (fun _ => st_ret tt) s = (s', Ok tt) /\
  same_session (s <| conv_verified ::= <[c := b]> |>) s'.
Proof.
  unfold st_catch, save_verified, st_bind, st_modify, st_get. set (s1 := s <| conv_verified ::= _ |>).
  destruct (negb (has_store s1)); [by eexists; split; [|apply same_session_refl]|].
  destruct (logged_write_total s1 (verified_path s1 c) (if b then "1" else "0")) as (s' & -> & Hs & _). by exists s'.
Qed.

(** Running a method of the session. *)
Lemma on_crypto_run {A} (m : sm A) a s' r : m (crypto a) = (s', r) -> on_crypto m a = (a <| crypto := s' |>, r).
Proof. intros H. unfold on_crypto. by rewrite H. Qed.
Ltac crypto_step a H := lazymatch type of H with ?m ?s = (?s', ?r) => unfold st_bind at 1; rewrite (on_crypto_run m a s' r H) end.
Lemma show_fp_run fp b a : exists a', show_fp fp b a = (a', Ok tt) /\ calm a a' /\ crypto a' = crypto a /\
  conv_security (bd (chat a')) = conv_security (bd (chat a)).
Proof.
  unfold show_fp, on_view, set_fingerprint, st_bind, st_get, on_badges, st_modify. destruct (active_is_group _); cbn;
    eexists; (split; [reflexivity|]); by repeat split.
Qed.

Lemma changed_in_run uid version pk c a old h : uid <> 0 -> direct uid c a ->
  identity_audit_states (crypto a) !! uid = Some old -> history_of old = Ok h -> nonempty pk = true ->
  exists a' st sec, identity_changed_in uid version pk c a = (a', Ok tt) /\ calm a a' /\ says_changed uid a' st /\ has_history st /\
    conv_verified (crypto a') = <[c := false]> (conv_verified (crypto a)) /\
    conv_security (bd (chat a')) = <[c := sec]> (conv_security (bd (chat a))) /\ changed_badge sec.
Proof.
  intros Hne D Hold Hh Hpk. unfold identity_changed_in.
  set (s1 := crypto a <| conv_verified ::= <[c := false]> |>).
  unfold st_bind at 1. rewrite (on_crypto_run _ a s1 (Ok tt) eq_refl).
  destruct (save_verified_run s1 c false) as (s2 & Hs2 & F2).
  crypto_step (a <| crypto := s1 |>) Hs2.
  unfold st_bind at 1, st_get at 1. set (a2 := a <| crypto := s1 |> <| crypto := s2 |>).
  assert (C2 : calm a a2). { split; [done..| |]; unfold a2, s1; cbn; by same_fields F2. }
  assert (K2 : identity_audit_states (crypto a2) !! uid = Some old). { unfold a2. cbn. by same_fields F2. }
  assert (W2 : conv_verified (crypto a2) = <[c := false]> (conv_verified (crypto a))).
  { unfold a2. cbn. same_fields F2. unfold s1. cbn. by rewrite insert_insert_eq. }
  assert (B2 : chat a2 = chat a) by done. clearbody a2.
  assert (exists a3, (if c =? active_conv (chat a2) then show_fp (known_fp a2 c) false else st_ret tt) a2 = (a3, Ok tt) /\
    calm a2 a3 /\ crypto a3 = crypto a2 /\ conv_security (bd (chat a3)) = conv_security (bd (chat a2))) as (a3 & H3 & C3 & Y3 & B3).
  { destruct (_ =? _); [apply show_fp_run|]. exists a2. split; [done|]. split; [apply calm_refl|done]. }
  unfold st_bind at 1. rewrite H3. rewrite Hpk.
  rewrite <- Y3 in K2, W2. pose proof (load_audit_memory (crypto a3) uid old K2) as H4.
  destruct (now_s_run (crypto a3)) as (s5 & n & H5 & F5). set (pk_fp := default "" (fp_with a3 pk)).
  destruct (changed_state_runs n version pk pk_fp old h Hh) as (st & Hst & St & Ht).
  destruct (save_identity_audit_total uid st s5) as (s6 & H6 & F6). set (a6 := a3 <| crypto := s6 |>).
  assert (R6 : forall fp, fp = pk_fp -> (do! old := on_crypto (load_identity_audit uid) in do! hist := st_lift (history_of old) in
    do! now := on_crypto now_s in do! state := st_lift (changed_state now version pk fp old) in
    on_crypto (save_identity_audit uid state)) a3 = (a6, Ok tt)).
  { intros fp ->. unfold st_bind, on_crypto. rewrite H4. unfold st_lift. rewrite Hh. cbn -[now_s changed_state save_identity_audit].
    rewrite H5, Hst. cbn -[save_identity_audit]. by rewrite H6. }
  unfold st_bind at 1. rewrite R6 by (unfold fp_with, pk_fp, fp_with; by rewrite Y3).
  assert (C6 : calm a a6).
  { apply (calm_trans a a2); [done|]. apply (calm_trans a2 a3); [done|]. unfold a6. split; [done..| |]; cbn; same_fields F6; by same_fields F5. }
  assert (S6 : says_changed uid a6 (audit_saved uid st)).
  { split; [unfold a6; cbn; same_fields F6; by rewrite lookup_insert_eq|by rewrite audit_saved_field]. }
  destruct (refresh_changed uid c a6 _ Hne (direct_calm _ _ _ _ C6 D) S6) as (a7 & sec & H7 & C7 & S7 & W7 & B7 & Hsec).
  exists a7, (audit_saved uid st), sec. split; [exact H7|]. split; [by eapply calm_trans|]. split; [done|]. split; [by apply saved_history|].
  split; [rewrite W7; unfold a6; cbn; same_fields F6; same_fields F5; exact W2|]. split; [|done].
  rewrite B7. unfold a6. cbn. by rewrite B3, B2.
Qed.

Lemma alarmed_other a a' c c' sec : alarmed a c' -> conv_verified (crypto a') = <[c := false]> (conv_verified (crypto a)) ->
  conv_security (bd (chat a')) = <[c := sec]> (conv_security (bd (chat a))) -> changed_badge sec -> alarmed a' c'.
Proof.
  intros [A1 (sec' & A2 & A3)] W B Hb. unfold alarmed, is_verified in *. rewrite W, B.
  destruct (decide (c = c')) as [->|Hn]; [rewrite !lookup_insert_eq; split; [done|by eexists]|].
  rewrite !lookup_insert_ne by done. split; [done|by eexists].
Qed.

Lemma changed_in_all uid version pk l a old h : uid <> 0 -> Forall (fun c => direct uid c a) l ->
  identity_audit_states (crypto a) !! uid = Some old -> history_of old = Ok h -> nonempty pk = true ->
  exists a', st_for l (identity_changed_in uid version pk) a = (a', Ok tt) /\ calm a a' /\
    forall c, c ∈ l \/ alarmed a c -> alarmed a' c.
Proof.
  intros Hne Hl Hold Hh Hpk. revert a old h Hl Hold Hh. induction l as [|c l IH]; intros a old h Hl Hold Hh.
  { exists a. split; [done|]. split; [apply calm_refl|]. intros c [Hc|Hc]; [by apply elem_of_nil in Hc|done]. }
  apply Forall_cons in Hl as [Hc Hl]. cbn [st_for]. unfold st_bind.
  destruct (changed_in_run uid version pk c a old h Hne Hc Hold Hh Hpk) as (a1 & st & sec & -> & C1 & S1 & H1 & W1 & B1 & Hsec).
  destruct (has_history_ok st H1) as [h1 Hh1]. destruct (IH a1 st h1) as (a2 & -> & C2 & H2); [|by destruct S1|done|].
  { eapply Forall_impl; [exact Hl|]. intros c' Hd. by eapply direct_calm. }
  exists a2. split; [done|]. split; [by eapply calm_trans|]. intros c' Hc'. apply H2.
  destruct Hc' as [[->|Hin]%elem_of_cons|Ha]; [right|by left|right].
  - unfold alarmed, is_verified. rewrite W1, B1, !lookup_insert_eq. split; [done|by eexists].
  - by eapply alarmed_other.
Qed.

(** What the header says of an alarmed conversation that is open. *)
Lemma alarmed_header a c : alarmed a c -> active_conv (chat a) = c -> 0 < c -> _is_group_conversation_id (tl (chat a)) c = Ok false ->
  (exists parts, _security_guidance_parts (chat a) = Ok (key_changed_advice :: parts, RED)) /\
  (exists tips details, _update_security_warning_label (chat a) = Ok (Banner "Key changed" tips details true)).
Proof.
  intros [_ (sec & Hsec & H1 & H2 & H3)] Hc Hp Hg.
  assert (Hs : shown_security (chat a) (active_conv (chat a)) = Ok (false, Some sec)).
  { unfold shown_security. by rewrite Hc, Hg, Hsec. }
  assert (Hb : is_blocked (Some sec) = false) by done.
  assert (Ht : forall l, status_is (Some sec) l = mem "key_changed" l) by (intros l; unfold status_is; by rewrite H1).
  split.
  - unfold _security_guidance_parts. rewrite (proj2 (Z.leb_gt _ _)) by lia. rewrite Hs. cbn [res_bind].
    assert (Hi : identity_advice (chat a) false (Some sec) = ([key_changed_advice], RED)) by (unfold identity_advice; rewrite Hb, Ht; reflexivity).
    rewrite Hi.
    assert (Hred : forall w : list string, match w with [] => RED | _ => if String.eqb RED BLUE then AMBER else RED end = RED) by (by intros []).
    rewrite Hred. eexists. reflexivity.
  - unfold _update_security_warning_label. rewrite Hs. cbn [res_bind]. unfold banner_text. rewrite Hb, !Ht.
    destruct (warnings_of _ _); by eexists _, _.
Qed.

(** C12: A changed key is shown. When the server announces that the safety key of a user
    has changed, no conversation with the user stays verified, each has the badge
    [key changed], and if one of them is open, the first advice under its header is,
    in red, that the key changed, the warning says so and the review button is there.
    A file that cannot be written changes nothing of this. *)
Theorem changed_key_shown msg a uid version old h
    (Huid : get_int0 "user_id" msg = Ok uid) (Hpos : 0 < uid) (Hother : uid <> my_uid_of a)
    (Hpk : nonempty (get_str0 "identity_pk" msg) = true) (Hver : get_int0 "identity_version" msg = Ok version)
    (Hold : identity_audit_states (crypto a) !! uid = Some old) (Hh : history_of old = Ok h)
    (Hdirect : forall c, conv_peer_uids (crypto a) !! c = Some uid -> direct uid c a) :
  exists a', _handle_identity_changed msg a = (a', Ok tt) /\
    forall c, conv_peer_uids (crypto a) !! c = Some uid ->
      is_verified a' c = false /\
      (exists detail, conv_security (bd (chat a')) !! c = Some (Security "key_changed" "key changed" detail false)) /\
      (active_conv (chat a) = c -> 0 < c ->
        (exists parts, _security_guidance_parts (chat a') = Ok (key_changed_advice :: parts, RED)) /\
        (exists tips details, _update_security_warning_label (chat a') = Ok (Banner "Key changed" tips details true))).
Proof.
  set (l := convs_with a uid).
  assert (Hl : forall c, c ∈ l <-> conv_peer_uids (crypto a) !! c = Some uid).
  { intros c. unfold l, convs_with. rewrite list_elem_of_fmap. setoid_rewrite list_elem_of_In. setoid_rewrite filter_In.
    setoid_rewrite <- list_elem_of_In. setoid_rewrite Z.eqb_eq. split.
    - intros ([c' p] & Heq & Hin & Hp). cbn in *. subst. by apply elem_of_map_to_list in Hin.
    - intros Hc. exists (c, uid). split; [done|]. split; [by apply elem_of_map_to_list|done]. }
  destruct (changed_in_all uid version (get_str0 "identity_pk" msg) l a old h) as (a1 & H1 & C1 & A1);
    [lia|by rewrite Forall_forall; intros c Hc; apply Hdirect, Hl|done|done|done|].
  unfold _handle_identity_changed, st_bind, st_lift, st_get. rewrite Huid, Hver.
  rewrite (proj2 (Z.leb_gt _ _) Hpos), (proj2 (Z.eqb_neq _ _) Hother). cbn [orb]. fold l. rewrite H1. unfold warn_box, st_modify.
  eexists. split; [reflexivity|]. intros c Hc. assert (Ha : alarmed a1 c) by (apply A1; left; by apply Hl).
  pose proof Ha as [Hv (sec & Hsec & B1 & B2 & B3)]. split; [done|]. split.
  { exists (sec_detail sec). cbn. rewrite Hsec. destruct sec. cbn in *. by subst. }
  intros Hact Hc0. destruct (direct_calm _ _ _ _ C1 (Hdirect c Hc)) as [_ _ Hg].
  apply (alarmed_header a1 c); [done| |done|done]. unfold active_conv in *. by rewrite (ca_tl _ _ C1).
Qed.
End review_theorems.

(** ** Merging a backup of another safety key *)

Lemma skip_or_line n : _backup_name_allowed n = true -> _restore_should_skip_for_merge n = false -> is_line_file n = true.
Proof.
  unfold _backup_name_allowed, _restore_should_skip_for_merge, _BACKUP_PATTERNS, is_line_file.
  destruct (String.eqb (basename n) n) eqn:Hb; [|done]. apply String.eqb_eq in Hb. rewrite Hb. destruct (negb (nonempty n)); [done|].
  cbn [negb orb existsb pattern_allows]. rewrite (String.eqb_sym n "identity_sk.bin").
  destruct (starts_with "msgs_" n); [done|]. rewrite !orb_true_iff, !orb_false_iff, !andb_true_iff.
  intros H K. destruct K as ((K1 & K2 & K3 & K4 & _) & K5 & K6 & K7 & K8 & K9 & _). naive_solver congruence.
Qed.

Section merge_frames.
Context `{P : Prims, O : Os, F : SessionFacts.Frame R}.
Variables (Q : string -> Prop) (s0 : session).

(** A cache file or its temporary. *)
Definition cache_file (p : string) : Prop :=
  exists n, is_line_file n = true /\ (p = local_path s0 n \/ p = local_path s0 n +:+ ".tmp").

(** A merge writes cache files, the record of backups, and what loading the own key
    writes. *)
Hypothesis Hcache : forall p, cache_file p -> Q p.
Lemma within_merge_file t v : within R Q s0 (restore_file true true t v).
Proof using F Hcache.
  unfold restore_file. apply within_bind; [within_tac|intros item]. cbv zeta.
  set (n := basename (py_str (dget "name" (PStr "") item))). destruct (_backup_name_allowed n) eqn:Hn; cbn [negb]; [|apply within_ret].
  apply within_get. intros s Hs. destruct (_restore_should_skip_for_merge n) eqn:Hk; cbn [andb]; [apply within_ret|].
  pose proof (skip_or_line n Hn Hk) as Hline.
  assert (H1 : Q (local_path s n)) by (apply Hcache; exists n; rewrite (local_path_same _ _ _ _ Hs); auto).
  assert (H2 : Q (local_path s n +:+ ".tmp")) by (apply Hcache; exists n; rewrite (local_path_same _ _ _ _ Hs); auto).
  within_tac; solve [apply within_merge|by apply within_write_entries].
Qed.
Lemma within_merge_backup path pass : free_policy R -> Q (backup_state_path s0) -> within R Q s0 load_or_create_identity_key ->
  within R Q s0 (restore_e2ee_backup path pass true true).
Proof using F Hcache.
  intros Hp Hb Hi. unfold restore_e2ee_backup, now_s. cbn [negb]. unfold st_when. within_tac;
    solve [apply within_admit|apply within_makedirs|apply within_merge_file|by apply within_load_policy
      |exact Hi|apply within_load_record|by apply within_save_record].
Qed.
End merge_frames.

(** The session but its own key, the policy of the cache and the world. *)
Definition kept_memory (s s' : session) : Prop :=
  s' = s <| identity_pk := identity_pk s' |> <| identity_sk := identity_sk s' |> <| cache_enabled := cache_enabled s' |>
    <| cache_ttl_days := cache_ttl_days s' |> <| cache_clear_on_logout := cache_clear_on_logout s' |>
    <| cache_disabled_convs := cache_disabled_convs s' |> <| os := os s' |>.
(** With the own key. *)
Definition kept_identity (s s' : session) : Prop :=
  kept_memory s s' /\ identity_pk s' = identity_pk s /\ identity_sk s' = identity_sk s.
#[local] Instance kept_memory_frame : SessionFacts.Frame kept_memory.
Proof.
  split.
  - intros s. by destruct s.
  - intros a b c H1 H2. unfold kept_memory. rewrite H2, H1. by destruct a, b, c.
  - intros s f. by destruct s.
  - intros s s' H. by rewrite H.
Qed.
#[local] Instance kept_identity_frame : SessionFacts.Frame kept_identity.
Proof.
  split.
  - intros s. split; [apply frame_refl|done].
  - intros a b c (H1 & H2 & H3) (K1 & K2 & K3). split; [by eapply frame_trans|]. by rewrite K2, K3.
  - intros s f. split; [apply frame_os|done].
  - intros s s' [H _]. by apply frame_dir.
Qed.
Lemma memory_policy : free_policy kept_memory. Proof. intros s. repeat split; by destruct s. Qed.
Lemma memory_identity : free_identity kept_memory. Proof. intros s. split; by destruct s. Qed.
Lemma identity_policy : free_policy kept_identity.
Proof. intros s. destruct (memory_policy s) as (H1 & H2 & H3 & H4). repeat split; auto. Qed.

(** The files of the keys a session works with. *)
Inductive key_file (s : session) : string -> Prop :=
| KfPrekeys : key_file s (pqxdh_prekeys_path s)
| KfRatchet c : key_file s (double_ratchet_path s c)
| KfRatchets c : key_file s (double_ratchet_sessions_path s c)
| KfGroups : key_file s (mls_state_path s)
| KfVerified c : key_file s (verified_path s c)
| KfAudit u : key_file s (identity_audit_path s u)
| KfAuditor : key_file s (auditor_state_path s)
| KfTranscript c : key_file s (transcript_path s c)
| KfPolicy : key_file s (cache_policy_path s).

Section merge_files.
Context `{P : Prims, O : Os}.
Variable s0 : session.

(** What a merge may write, the own key apart. *)
Definition mergeable (p : string) : Prop := cache_file s0 p \/ p = backup_state_path s0.
Definition mergeable_or_own (p : string) : Prop := mergeable p \/ p = identity_key_path s0.

Lemma line_tmp m : is_line_file m = true -> is_line_file (m +:+ ".tmp") = true.
Proof. unfold is_line_file. intros H.
  assert (exists r, m = "msgs_" +:+ r) as [r ->] by (eexists; exact (starts_with_inv _ _ H)). rewrite sapp_assoc. apply starts_with_app. Qed.
Lemma local_path_tmp m : local_path s0 m +:+ ".tmp" = local_path s0 (m +:+ ".tmp").
Proof. unfold local_path, path_join. destruct (_ && _); by rewrite ?sapp_assoc. Qed.
Lemma other_not_mergeable n : is_line_file n = false -> n <> "backup_state.bin" -> ~ mergeable (local_path s0 n).
Proof.
  intros Hn Hb [(m & Hm & [H|H])|H].
  - apply local_path_inj in H as ->. congruence.
  - rewrite local_path_tmp in H. apply local_path_inj in H as ->. rewrite (line_tmp m Hm) in Hn. congruence.
  - by apply local_path_inj in H.
Qed.
Lemma key_file_safe f : key_file s0 f -> ~ mergeable_or_own f.
Proof.
  intros Hf [Hm|Ho].
  - revert Hm. destruct Hf; apply other_not_mergeable; reflexivity || (intros H; discriminate H).
  - destruct Hf; apply local_path_inj in Ho; discriminate Ho.
Qed.
Lemma own_file_safe : ~ mergeable (identity_key_path s0).
Proof. by apply other_not_mergeable. Qed.

(** Loading the own key, when it is stored and the disk works, changes nothing. *)
Lemma within_stored_identity `{!IoReliable O} sk : has_store s0 = true -> has_identity s0 sk -> identity_stored s0 sk ->
  within kept_identity mergeable s0 load_or_create_identity_key.
Proof.
  intros Hst (Hs & Hp & Hlen) (v & (raw & Hraw & Hopen) & Hv) s [[Hm [Kp Ks]] Hf].
  assert (Hkey : master_key s = master_key s0 /\ secchat_dir s = secchat_dir s0) by (by rewrite Hm).
  destruct Hkey as [Hkey Hdir]. assert (Hpath : identity_key_path s = identity_key_path s0) by (unfold identity_key_path, local_path; by rewrite Hdir).
  assert (Hst' : has_store s = true) by (unfold has_store in *; by rewrite Hkey, Hdir).
  assert (Hid : identity_stored s sk).
  { exists v. split; [|done]. exists raw. rewrite Hpath, (Hf _ own_file_safe), Hkey. by split. }
  destruct (load_or_create_existing s sk Hst' Hid Hlen) as (s' & E & (I1 & I2 & _) & Hf').
  pose proof (within_load_identity (R := kept_memory) mergeable_or_own s0 memory_identity (or_intror eq_refl) s) as Hw.
  rewrite E in *. cbn [fst] in *. split; [split; [|split; congruence]|].
  - apply Hw. split; [done|]. intros p Hp'. apply Hf. intros Hq. apply Hp'. by left.
  - intros p Hp'. rewrite Hf'. by apply Hf.
Qed.
End merge_files.

Section merge_answer.
Context `{P : Prims, O : Os}.
(** What holds of every value a method returns. *)
Definition returns {A} (Q : A -> Prop) (m : sm A) : Prop := forall s r, snd (m s) = Ok r -> Q r.
Lemma returns_bind {A B} (Q : B -> Prop) (m : sm A) (k : A -> sm B) : (forall x, returns Q (k x)) -> returns Q (st_bind m k).
Proof. intros H s r. unfold st_bind. destruct (m s) as [s' [x|e]]; [apply H|done]. Qed.

(** A restore says whether the identity was kept. *)
Lemma restore_says path pass overwrite preserve :
  returns (fun r => dget "preserved_current_identity" PNone r = PBool preserve) (restore_e2ee_backup path pass overwrite preserve).
Proof.
  unfold restore_e2ee_backup. repeat first
    [ apply returns_bind; intros ?
    | match goal with |- returns _ (match ?x with _ => _ end) => destruct x; [by intros ? ?|] end
    | match goal with |- returns _ (let '(_, _) := ?x in _) => destruct x as [[[? ?] ?] ?] end ].
  intros s1 r H. cbn in H. unfold restore_result in H. inv_ok H. by subst.
Qed.
End merge_answer.

Section merge_theorem.
Context `{P : Prims, O : Os, U : UnicodeTables, E : Env}.
Variable oqs : option (option (list string)).

(** The requests of a merge: lists, histories, the handshake of a group, and the bundle
    of a contact; none uploads a key. *)
Definition question (obj : dict) : Prop := exists t, dlookup "type" obj = Some (PStr t) /\
  mem t ["get_inbox"; "history"; "get_mls_handshake"; "get_pqxdh_bundle"] = true.

(** What is published, and the flags of it, are as in [a0] but for questions. *)
Record asking (a0 a : app) : Prop := {
  as_sent : exists l, outbox (cn a) = outbox (cn a0) ++ l /\ Forall question l;
  as_flags : (kem_ready (ks a), bundle_ready (ks a), bundle_uploading (ks a), publish_blocked (ks a), server_identity (ks a),
              own_version (ks a), rotation_pending (ks a)) =
             (kem_ready (ks a0), bundle_ready (ks a0), bundle_uploading (ks a0), publish_blocked (ks a0), server_identity (ks a0),
              own_version (ks a0), rotation_pending (ks a0))
}.
Lemma asking_refl a : asking a a.
Proof. split; [|done]. exists []. by rewrite app_nil_r. Qed.
Lemma asking_same a0 a a' : asking a0 a -> outbox (cn a') = outbox (cn a) -> ks a' = ks a -> asking a0 a'.
Proof. intros [H1 H2] K1 K2. by split; rewrite ?K1, ?K2. Qed.

Section kept.
Variable a0 : app.
Notation kept m := (keeps (asking a0) m).

Lemma kept_on_crypto {A} (m : sm A) : kept (on_crypto m).
Proof. intros a Ha. unfold on_crypto. destruct (m (crypto a)) as [s r]. by apply (asking_same _ a). Qed.
Lemma kept_on_view {A} (m : vm A) : kept (on_view m).
Proof. intros a Ha. unfold on_view. destruct (m (chat a)) as [s r]. by apply (asking_same _ a). Qed.
Lemma kept_on_timeline {A} (m : pm A) : kept (on_timeline m). Proof. apply kept_on_view. Qed.
Lemma kept_warn x y : kept (warn_box x y). Proof. intros a Ha. by apply (asking_same _ a). Qed.
Lemma kept_show_fp fp b : kept (show_fp fp b). Proof. apply kept_on_view. Qed.
Lemma kept_set_fp c fp : kept (set_fp c fp). Proof. apply kept_on_crypto. Qed.
Lemma kept_cn f : (forall c, outbox (f c) = outbox c) -> kept (on_cn f).
Proof. intros H a Ha. by apply (asking_same _ a); [|cbn; rewrite H|]. Qed.
Hint Resolve kept_on_crypto kept_on_view kept_on_timeline kept_warn kept_show_fp kept_set_fp : asking.
Ltac kept_tac :=
  repeat first
    [ match goal with
      | |- keeps _ (st_bind st_get _) => apply keeps_get; intros ? ?
      | |- keeps _ (st_bind _ _) => apply keeps_bind; [|intros ?]
      | |- keeps _ (st_catch _ _) => apply keeps_catch; [|intros ?]
      | |- keeps _ (st_for _ _) => apply keeps_for; intros ?
      | |- keeps _ (st_lift _) => apply keeps_lift
      | |- keeps _ (st_ret _) => apply keeps_ret
      | |- keeps _ (st_fail _) => intros ? ?; assumption
      | |- keeps _ st_get => intros ? ?; assumption
      | |- keeps _ (match ?x with _ => _ end) => destruct x
      end
    | solve [eauto with asking nocore]
    | solve [by apply kept_cn] ].

Lemma kept_schedule : kept _schedule_reconnect. Proof. unfold _schedule_reconnect. kept_tac. Qed.
Hint Resolve kept_schedule : asking.
Lemma kept_close r : kept (_net_close r). Proof. unfold _net_close. kept_tac. Qed.
Hint Resolve kept_close : asking.
Lemma kept_send obj : question obj -> kept (ws_send obj).
Proof.
  intros Hq. unfold ws_send. apply keeps_get; intros a _. destruct (ws (cn a)) as [n|]; [|by intros ? ?]. cbv zeta.
  apply keeps_bind; [by apply kept_cn|intros _]. apply keeps_bind; [apply keeps_lift|intros [frame events]].
  apply keeps_bind; [|intros _; kept_tac]. intros b [[l [H1 H2]] H3]. split; [|exact H3]. cbn. rewrite H1. destruct frame.
  - exists (l ++ [obj]). rewrite app_assoc. split; [done|]. apply Forall_app_2; [done|by constructor].
  - by exists l.
Qed.
Lemma kept_safe_send obj : question obj -> kept (_safe_send obj).
Proof. intros Hq. pose proof (kept_send obj Hq). unfold _safe_send. kept_tac. Qed.
Lemma kept_request obj : question obj -> kept (request obj).
Proof. intros Hq. pose proof (kept_safe_send obj Hq). unfold request. kept_tac. Qed.
Lemma kept_literal t d : mem t ["get_inbox"; "history"; "get_mls_handshake"; "get_pqxdh_bundle"] = true -> kept (request (("type", PStr t) :: d)).
Proof. intros H. apply kept_request. by exists t. Qed.
Hint Extern 1 (keeps _ (request _)) => apply kept_literal; reflexivity : asking.
Hint Extern 1 (keeps _ (ask _)) => apply kept_literal; reflexivity : asking.
Hint Extern 1 (keeps _ (ask_conv _ _ _)) => apply kept_literal; reflexivity : asking.

Lemma kept_fingerprint c : kept (_safety_fingerprint_for_conv c). Proof. unfold _safety_fingerprint_for_conv. kept_tac. Qed.
Hint Resolve kept_fingerprint : asking.
Lemma kept_status c : kept (_security_status_for_conv c). Proof. unfold _security_status_for_conv. kept_tac. Qed.
Hint Resolve kept_status : asking.
Lemma kept_refresh c : kept (_refresh_security_ui c). Proof. unfold _refresh_security_ui. kept_tac. Qed.
Lemma kept_peer c : kept (_peer_uid_for_dm_conv c). Proof. unfold _peer_uid_for_dm_conv. cbv zeta. kept_tac. Qed.
Hint Resolve kept_refresh kept_peer : asking.
Lemma kept_expect p c : kept (on_ks (fun k => k <| pending_dm ::= <[p := c]> |>)). Proof. intros a [H1 H2]. by split. Qed.
Lemma kept_queue f : kept (on_ks (fun k => k <| kem_queue ::= f |>)). Proof. intros a [H1 H2]. by split. Qed.
Hint Resolve kept_expect kept_queue : asking.
Lemma kept_ensure c : kept (_ensure_pqxdh_dm_session c). Proof. unfold _ensure_pqxdh_dm_session. kept_tac. Qed.
Hint Resolve kept_ensure : asking.
Lemma kept_history c : kept (_get_history c). Proof. unfold _get_history. kept_tac. Qed.
Hint Resolve kept_history : asking.
Lemma kept_merge r : kept (after_merge r). Proof. unfold after_merge. kept_tac. Qed.
Lemma kept_forget : kept forget_shown. Proof. unfold forget_shown. kept_tac. Qed.
Lemma kept_passphrase t o : kept (_backup_passphrase t o). Proof. unfold _backup_passphrase. kept_tac. Qed.
Hint Resolve kept_merge kept_forget kept_passphrase : asking.
Lemma kept_restore_with path pass : kept (restore_with oqs path pass true).
Proof.
  intros a Ha. unfold restore_with, st_bind at 1, on_crypto.
  pose proof (restore_says path pass true true (crypto a)) as Hs.
  destruct (restore_e2ee_backup path pass true true (crypto a)) as [s [r|e]]; [|by apply (asking_same _ a)].
  pose proof (Hs r eq_refl) as Hp. cbv beta iota.
  lazymatch goal with |- asking a0 (fst (?m ?b)) => assert (kept m) as Hm; [rewrite Hp; cbn [truthy]; kept_tac|] end.
  apply Hm. by apply (asking_same _ a).
Qed.
Lemma kept_confirmed path answer : kept (restore_confirmed oqs path true answer).
Proof.
  unfold restore_confirmed. apply keeps_bind; [apply kept_passphrase|intros [pass|]]; [|apply keeps_ret].
  apply keeps_catch; [apply kept_restore_with|intros e; apply kept_warn].
Qed.
End kept.

(** C14: Merging a backup of another safety key keeps the current one. Whatever the file
    holds and the disk does, [restore_e2ee_backup] asked to preserve the identity leaves the
    memory of the session as it was, but for the own key and the policy of the cache, and
    does not touch the files of the prekeys, ratchets, groups, verifications, audits,
    transcripts and of the policy. When the disk works and the own key is the stored one,
    the own key and its file stay too. The dialog that called it sends requests for
    lists, histories, handshakes and contacts' bundles only, uploads no key, and does not
    touch what is recorded as published. *)
Theorem merge_leaves_keys path answer pass a :
  let s := crypto a in
  let s' := fst (restore_e2ee_backup path pass true true s) in
  kept_memory s s' /\ (forall f, key_file s f -> files (os s') !! f = files (os s) !! f) /\
  (IoReliable O -> forall sk, has_store s = true -> has_identity s sk -> identity_stored s sk ->
     has_identity s' sk /\ files (os s') !! identity_key_path s = files (os s) !! identity_key_path s) /\
  asking a (fst (restore_confirmed oqs path true answer a)).
Proof.
  intros s s'. assert (Hw : touches kept_memory (mergeable_or_own s) s s').
  { apply within_run, within_merge_backup; [intros p Hp; by left; left|exact memory_policy|by left; right|].
    apply within_load_identity; [exact memory_identity|by right]. }
  destruct Hw as [H1 H2]. split; [done|]. split; [intros f Hf; by apply H2, key_file_safe|].
  split; [|apply kept_confirmed, asking_refl]. intros HO sk Hst Hid Hfile.
  destruct (within_run (mergeable s) s _ (within_merge_backup (R := kept_identity) (mergeable s) s (fun p H => or_introl H) path pass
    identity_policy (or_intror eq_refl) (within_stored_identity s sk Hst Hid Hfile))) as [(_ & K1 & K2) K3].
  destruct Hid as (I1 & I2 & I3). split; [split; [by rewrite <- I1|split; [by rewrite <- I2|done]]|]. apply K3, own_file_safe.
Qed.
End merge_theorem.

(** ** Witnesses *)

Section review_demo.
#[local] Existing Instance reference_prims.
#[local] Instance review_os : Os := demo_os 0.
#[local] Instance review_tables : UnicodeTables :=
  {| u_lower _ := false; u_upper _ := false; u_digit _ := false; u_alnum _ := false |}.

Definition known_key : dict := [("user_id", PInt 2); ("status", PStr "verified"); ("history", PList [])].
Definition changing_key : dict := [("type", PStr "identity_changed"); ("user_id", PInt 2); ("identity_pk", PStr "bmV3"); ("identity_version", PInt 3)].
Definition known_app : app :=
  demo_app <| crypto ::= fun s => s <| conv_peer_uids := {[5 := 2]} |> <| identity_audit_states := {[2 := known_key]} |> <| conv_verified := {[5 := true]} |> |>.
Lemma known_direct c : conv_peer_uids (crypto known_app) !! c = Some 2 -> c = 5.
Proof. intros H. assert (Hp : conv_peer_uids (crypto known_app) = {[5 := 2]}) by (vm_compute; reflexivity). rewrite Hp in H. by apply lookup_singleton_Some in H as [<- _]. Qed.

Lemma changed_key_shown_witness : is_verified known_app 5 = true /\
  exists a', _handle_identity_changed changing_key known_app = (a', Ok tt) /\ is_verified a' 5 = false /\
    exists parts, _security_guidance_parts (chat a') = Ok (key_changed_advice :: parts, RED).
Proof.
  split; [vm_compute; reflexivity|].
  destruct (changed_key_shown changing_key known_app 2 3 known_key []) as (a' & Ha & H).
  - reflexivity.
  - lia.
  - vm_compute. discriminate.
  - reflexivity.
  - reflexivity.
  - vm_compute. reflexivity.
  - reflexivity.
  - intros c Hc. rewrite (known_direct c Hc). split; vm_compute; reflexivity.
  - exists a'. split; [exact Ha|]. destruct (H 5) as (H1 & _ & H3); [vm_compute; reflexivity|].
    split; [exact H1|]. exact (proj1 (H3 eq_refl eq_refl)).
Defined.

(** A device with its own key, ratchet and cache, and the backup of another one with a
    ratchet, a key and a cache. *)
Definition other_backup : string :=
  ok_or "" (seal_backup demo_pass (BackupMeta "other" 1 0 "an" 1 true "laptop" "" 3 4)
    [file_json "dr_5.bin" [PStr "{}"]; file_json "identity_sk.bin" [PStr "c2s="]; file_json "msgs_7.bin" [PStr "{}"; PStr "true"]]
    (fill "s" 16) (fill "n" 12)).
Definition merging_app : app :=
  known_app <| crypto := demo_source <| identity_sk := demo_sk |> <| identity_pk := ed_pub demo_sk |>
    <| os ::= fun w => w <| files ::= fun f => <["/tmp/b" := other_backup]> (<[double_ratchet_path demo_source 5 := "own ratchet"]> f) |> |> |>.

Lemma merge_leaves_keys_witness : let s := crypto merging_app in
  let run := restore_e2ee_backup "/tmp/b" demo_pass true true s in
  (exists r, snd run = Ok r /\ dget "files" PNone r = PInt 1 /\ dget "skipped" PNone r = PInt 2) /\
  files (os (fst run)) !! double_ratchet_path s 5 = Some "own ratchet" /\
  has_identity (fst run) demo_sk /\ double_ratchet_states (fst run) = double_ratchet_states s.
Proof.
  intros s run. assert (Hr : exists r, snd run = Ok r /\ dget "files" PNone r = PInt 1 /\ dget "skipped" PNone r = PInt 2).
  { exists (ok_or [] (snd run)). split; [|split]; vm_compute; reflexivity. }
  split; [exact Hr|]. destruct (merge_leaves_keys None "/tmp/b" (Some demo_pass) demo_pass merging_app) as (Hm & Hf & Hi & _).
  split; [|split].
  - unfold run, s. rewrite (Hf _ (KfRatchet _ 5)). vm_compute. reflexivity.
  - apply Hi; [by intros n|reflexivity|repeat split|]. exists (PStr (b64encode demo_sk)).
    split; [|vm_compute; reflexivity]. exists demo_sk_file. split; vm_compute; reflexivity.
  - exact (f_equal double_ratchet_states Hm).
Defined.
End review_demo.
